(* ===== verification/_CoqProject ===== *)
-Q . S2P
Prelude.v
Dll.v
Pmm.v
Kalloc.v
Heap.v
KallocProofs.v
Pipe.v
Eventfd.v
Machine.v
Bytes.v
Paging.v
PageTables.v
Faults.v
Vmm.v
VmmProofs.v
Mmap.v
MmapProofs.v
Memfd.v
MemfdProofs.v
Seals.v
UserMem.v
Futex.v
Sched.v
SchedProofs.v
Smp.v
SchedWait.v
SchedWaitProofs.v
Signal.v
SignalProofs.v
Procs.v
ProcsProofs.v
Net.v
NetProofs.v
FragProofs.v
IpProofs.v
ArpProofs.v
Klibc.v
KlibcProofs.v
Strings.v
Random.v
RandomProofs.v
Tempfs.v
TempfsFile.v
TempfsDir.v
FdTable.v
FdProofs.v
TcpState.v
Tcp.v
TcpWorld.v
TcpLemmas.v
TcpRecv.v
TcpSend.v
TcpEnd.v
TcpCc.v
TcpBounds.v
TcpLink.v
