(* ===== verification/Prelude.v ===== *)
(** * Bleed kernel: a verification library of its core subsystems

    Bleed is a 64-bit x86 kernel in C ([src/kernel/]).  This library models its memory
    management, scheduling, signals, file objects and network stack as functions on explicit
    states and proves what makes them correct.

    ** The parts and how they interact

    - Physical frames: [Pmm] ([mm/pmm.c]), bitmaps of regions; the list of regions is the state.
    - The kernel heap: [Kalloc], [KallocProofs] ([mm/kalloc.c]), slabs with free chains and
      doubly linked lists, pages behind it as a page source ([PageSource]).  [Heap] is what the heap
      promises its clients ([kmalloc], [kfree]); [KallocProofs] discharges it, the file objects
      and the network are proved against it.
    - Page tables: [Machine] (the state shared by all memory code), [Bytes] (bytes of frames),
      [Paging] ([mm/paging.c], [mm/cow.c]), [PageTables] (the tree invariant), [Faults] (mapping,
      copy-on-write and stack faults, fork of a page).
    - Ranges of pages: [Vmm], [VmmProofs] ([mm/vmm.c]), the kernel's regions and the mapping,
      unmapping and protecting of ranges; it calls [Pmm] and [Paging].
    - Mappings of a process: [Mmap], [MmapProofs] ([mm/userspace/mmap.c]), over the interface of
      files [Files]; [Memfd], [MemfdProofs] ([fs/memfd.c], reference counts of [fs/vfs.c])
      implement it, and [Seals] proves the two together.
    - File objects: [Pipe] ([fs/pipe.c]), [Eventfd] ([fs/eventfd.c], eventfd and timerfd, with the
      clock conversions of [sched/clock.c]).
    - Descriptor tables: [FdTable], [FdProofs] ([fs/vfs.c]), open files and the tables of numbers
      that refer to them, over [Heap].
    - The file system of the root: [Tempfs] ([fs/tempfs.c]), inodes and nodes on the heap, chains of
      chunks from the page source; [TempfsFile] (files as arrays of bytes), [TempfsDir]
      (directories as lists of names).
    - Library routines: [Klibc], [KlibcProofs] (copying, filling and comparing memory, [klibc/string.c]),
      [Strings] (strings, tokens, numbers of [klibc/format.c]), over a memory of bytes.
    - Random numbers: [Random], [RandomProofs] ([random/random.c]), with the clocks and the random
      instructions of the processor as parameters.
    - Scheduling: [Sched], [SchedProofs] ([sched/scheduler.c], run queues), [Smp] (all processors,
      in any interleaving), [SchedWait], [SchedWaitProofs] ([sched/sched_wait.c], wait queues and
      deadlines), [Futex] ([sched/futex.c]).
    - Processes: [Procs], [ProcsProofs] ([sched/sched_task.c], [sched/sched_reaper.c]), pids, the
      hash, the tree and the dead; [Signal], [SignalProofs] ([sched/signal.c]) over the interface
      of user memory [UserMem].
    - Network: [Net] ([net/net.c], [ether.c], [arp.c], [ipv4.c], [ipv4_frag.c]), [NetProofs]
      (headers and checksums), [FragProofs] (reassembly), [IpProofs] (sending to oneself),
      [ArpProofs] (the cache).
    - TCP: [TcpState] (the connection, [net/tcp_priv.h]), [Tcp] (what one connection does, of
      [net/tcp.c], [tcp_input.c], [tcp_output.c]) on buffers of [Net], [TcpWorld] (all connections:
      opening, listening, dispatch, the timer, closing) on top of [Tcp] and of IP output;
      [TcpLemmas] (sequence numbers, rings, the wire format), [TcpRecv] and [TcpSend] (the two
      halves of a connection), [TcpEnd] (two connections and a network between them), [TcpCc] (the
      congestion window), [TcpBounds] (any peer), [TcpLink] (the theorems about links, and the
      whole stack run over the loopback).
    - [Prelude] (this file): words, pages, errors, loops, shared lemmas and tactics; [Dll]: the
      intrusive doubly linked lists all pointer-level components share.

    ** How the code is modelled

    Integers are [Z]; arithmetic that can wrap is written [+w], [-w], [*w] (64 bits) or [wrap32].
    A pointer is its address, 0 for [NULL]; linked structures are maps from addresses to fields
    where the links themselves are what the code gets right or wrong (the heap, the run queues,
    wait queues, futex buckets, the process table), and lists where they are not (the region list
    of [Vmm], the mappings of [Mmap]).  A function that runs under a lock is one atomic step; a
    function that sleeps is a step per turn, and runs are interleavings of steps.  Errors are the
    negative numbers of the code.  Log lines and statistics that nothing reads are left out.

    Loops are structural, [for_range] (a counted loop) or take fuel: the fuel of the Internet
    checksum is 4 (three folds suffice for 32 bits), of [ipv4_output_flat] 46 (a packet has at
    most 45 fragments), of [Sched.ready_pop] the number of tasks ([Smp.ready_pop_total] proves
    that it is enough), of pointer-chasing loops the number of nodes, of the send loop of TCP the bytes to send and the
    segments the queue takes, of its options their length, of string loops the size of the memory, of the
    digits of a number 65, of the random generator the bytes asked for, of the loops of the memory
    file system the offset, the bytes or the entries left; theorems say that a
    result is returned, not only that it is right when there is one.

    ** What the theorems show

    - Memory: allocation and freeing of frames and heap blocks refine a set of free frames and of
      live blocks; the bitmap scan is first fit; a copy-on-write fault gives a private copy;
      unmapping frees exactly what nobody else maps; [mmap], [munmap] and [mprotect] change the
      map from addresses to mappings exactly where they should, errors included, and a failed
      [mmap] gives back the pages it filled in; a sealed memory file has no writable mapping.
    - Scheduling: in any interleaving no task runs twice and no ready task is lost; picking the
      next task ends and never idles while a task waits; waking leaves no sleeper behind; the
      timer wakes exactly the tasks that are due.
    - Processes and signals: the process table stays well formed and finds exactly the live
      tasks; a pid is given out once; entering and leaving a handler restores the context; a forged frame cannot leave
      user mode.
    - Files: a pipe is a FIFO under any interleaving; a memory file is a size and a content, with
      its seals; a directory of the memory file system is the list of its names, and its entries are
      freed with their last reference; armed timers are exactly those on the list; no descriptor refers to a file that was freed, and
      the count of a file is the number of references to it.
    - Network: fragments in any order give the packet back; what is sent to this machine is
      delivered as it was sent, with every buffer freed; the ARP cache neither leaks nor
      double-frees a packet, and sends the one that waits when its answer comes.
    - TCP: over a network that loses, repeats, delays and reorders, each side reads a prefix of
      what the other wrote and sees its end only behind the last byte; against any peer, what is
      sent is the program's stream, nothing is written outside of the buffers, and the only divide
      error is the one a peer causes that asks for segments of no byte.
    - Library routines: [memmove] moves the bytes as if at once, however the areas overlap; [strtok]
      cuts a string at the delimiters; a printed number reads back.  The random generator keeps
      its types and returns what was asked for, and does not start on a processor with [rdrand] but
      without [rdseed].

    ** Not modelled

    Hardware access (drivers, ACPI, interrupt entry, processor start), boot, drawing and panic
    output; third-party code ([vendor/], nanoprintf); the disk file systems; the system call layer,
    which checks arguments and calls the operations above; saving of floating-point registers; paths
    and mounts, sockets and datagrams; the formatted output of the library routines.
    User memory, drivers of interfaces and the page source of the heap are parameters with the
    laws they are documented to have, and every theorem over them has an instance in which they
    are concrete functions. *)

From Stdlib Require Export ZArith Lia.
From stdpp Require Export base gmap list numbers.

#[export] Set Warnings "-clear-no-such-hyp".

#[global] Open Scope Z_scope.

(** ** Machine words *)

(** The wrap-around of [uint64_t] arithmetic. *)
Definition wrap64 (z : Z) : Z := z `mod` 2 ^ 64.

(** The wrap-around of [uint32_t] arithmetic. *)
Definition wrap32 (z : Z) : Z := z `mod` 2 ^ 32.

Definition UINT64_MAX : Z := 2 ^ 64 - 1.

Declare Scope word_scope.
Delimit Scope word_scope with W.
Notation "a +w b" := (wrap64 (a + b)) (at level 50, left associativity) : word_scope.
Notation "a -w b" := (wrap64 (a - b)) (at level 50, left associativity) : word_scope.
Notation "a *w b" := (wrap64 (a * b)) (at level 40, left associativity) : word_scope.
#[global] Open Scope word_scope.

(** [flag x m] is the C test [x & m]. *)
Definition flag (x m : Z) : bool := negb (Z.land x m =? 0).

(** ** Pages *)

Definition PAGE_SIZE : Z := 4096.

Definition PAGE_ALIGN_UP (n : Z) : Z := (n +w (PAGE_SIZE - 1)) / PAGE_SIZE * PAGE_SIZE.

Definition PAGE_ALIGN_DOWN (n : Z) : Z := n / PAGE_SIZE * PAGE_SIZE.

(** ** Error numbers and poll events *)

Definition EPERM : Z := 1.

Definition ENOENT : Z := 2.

Definition ESRCH : Z := 3.

Definition EINTR : Z := 4.

Definition EIO : Z := 5.

Definition EBADF : Z := 9.

Definition EAGAIN : Z := 11.

Definition ENOMEM : Z := 12.

Definition EACCES : Z := 13.

Definition EFAULT : Z := 14.

Definition EBUSY : Z := 16.

Definition EEXIST : Z := 17.

Definition ENODEV : Z := 19.

Definition EINVAL : Z := 22.

Definition EMFILE : Z := 24.

Definition ENOTTY : Z := 25.

Definition EPIPE : Z := 32.

Definition ETIMEDOUT : Z := 110.

Definition POLLIN : Z := 1.

Definition POLLOUT : Z := 4.

Definition POLLERR : Z := 8.

Definition POLLHUP : Z := 16.

(** The ioctls every descriptor that can block answers. *)
Definition TTY_NONBLOCK : Z := 1 ≪ 4.

Definition TTY_IOCTL_FIONBIO : Z := 0x5421.

Definition TTY_IOCTL_SET_FLAGS : Z := 0x5402.

Definition TTY_IOCTL_GET_FLAGS : Z := 0x5401.

(** ** Loops *)

(** [for_range n i body s] is [for (k = i; n iterations; k++) s = body(k, s)]. *)
Fixpoint for_range {S : Type} (n : nat) (i : Z) (body : Z -> S -> S) (s : S) : S :=
  match n with
  | O => s
  | Datatypes.S n' => for_range n' (i + 1) body (body i s)
  end.

(** A loop whose body may return early: [false] leaves the loop. *)
Fixpoint for_exit {S : Type} (n : nat) (i : Z) (body : Z -> S -> bool * S) (s : S) : bool * S :=
  match n with
  | O => (true, s)
  | Datatypes.S n' =>
    let '(go, s) := body i s in
    if go then for_exit n' (i + 1) body s else (false, s)
  end.

(** ** Arithmetic automation *)

(** [lia] with division and modulo by constants. *)
Ltac zlia := Z.to_euclidean_division_equations; lia.

(** Turns the boolean comparisons of the code into propositions. *)
Ltac bool_prop :=
  repeat match goal with
  | H : (_ <? _) = true |- _ => apply Z.ltb_lt in H
  | H : (_ <? _) = false |- _ => apply Z.ltb_ge in H
  | H : (_ <=? _) = true |- _ => apply Z.leb_le in H
  | H : (_ <=? _) = false |- _ => apply Z.leb_gt in H
  | H : (_ >? _) = _ |- _ => rewrite Z.gtb_ltb in H
  | H : (_ >=? _) = _ |- _ => rewrite Z.geb_leb in H
  | H : (_ =? _) = true |- _ => apply Z.eqb_eq in H
  | H : (_ =? _) = false |- _ => apply Z.eqb_neq in H
  | H : (_ && _) = true |- _ => apply andb_true_iff in H as [? ?]
  | H : (_ || _) = false |- _ => apply orb_false_iff in H as [? ?]
  | H : (_ || _) = true |- _ => apply orb_true_iff in H
  | H : (_ && _) = false |- _ => apply andb_false_iff in H
  | H : negb _ = true |- _ => apply negb_true_iff in H
  | H : negb _ = false |- _ => apply negb_false_iff in H
  end.

(** Splits on the conditional at the head of the goal. *)
Ltac case_if :=
  match goal with
  | |- context [if ?b then _ else _] => destruct b eqn:?; bool_prop
  end.

Create HintDb bleed.

Lemma wrap64_small z : 0 <= z < 2 ^ 64 -> wrap64 z = z.
Proof. apply Z.mod_small. Qed.

Lemma wrap64_range z : 0 <= wrap64 z < 2 ^ 64.
Proof. apply Z.mod_pos_bound. lia. Qed.

Lemma wrap32_small z : 0 <= z < 2 ^ 32 -> wrap32 z = z.
Proof. apply Z.mod_small. Qed.

Lemma wrap32_range z : 0 <= wrap32 z < 2 ^ 32.
Proof. apply Z.mod_pos_bound. lia. Qed.

#[export] Hint Resolve wrap64_range wrap32_range : bleed.

(** A single-bit test is the bit. *)
Lemma flag_testbit b k : 0 <= k -> flag b (1 ≪ k) = Z.testbit b k.
Proof.
  intros Hk. unfold flag. rewrite Z.shiftl_1_l.
  destruct (Z.testbit b k) eqn:E.
  - apply negb_true_iff, Z.eqb_neq. intros H.
    assert (Ht : Z.testbit (Z.land b (2 ^ k)) k = true)
      by (rewrite Z.land_spec, E, Z.pow2_bits_true; auto).
    rewrite H, Z.bits_0 in Ht. done.
  - apply negb_false_iff, Z.eqb_eq, Z.bits_inj'. intros n Hn.
    rewrite Z.land_spec, Z.bits_0, Z.pow2_bits_eqb by done.
    destruct (Z.eqb_spec k n) as [->|]; [by rewrite E | apply andb_false_r].
Qed.

(** The loop rule: an invariant indexed by the loop counter. *)
Lemma for_range_inv {S : Type} (I : Z -> S -> Prop) body n i s :
  I i s ->
  (forall k s, i <= k < i + Z.of_nat n -> I k s -> I (k + 1) (body k s)) ->
  I (i + Z.of_nat n) (for_range n i body s).
Proof.
  revert i s. induction n as [|n IH]; intros i s Hi Hstep; simpl.
  - by rewrite Z.add_0_r.
  - replace (i + Z.of_nat (Datatypes.S n)) with (i + 1 + Z.of_nat n) by lia.
    apply IH; [apply Hstep; [lia | done] |].
    intros k s' Hk. apply Hstep. lia.
Qed.

(** A prefix of a list with one more element. *)
Lemma prefix_snoc {A : Type} (l k : list A) (x : A) :
  l `prefix_of` k ++ [x] -> l `prefix_of` k \/ l = k ++ [x].
Proof.
  intros [u Hu]. destruct u as [|y u _] using rev_ind.
  - right. by rewrite app_nil_r in Hu.
  - left. rewrite app_assoc in Hu. apply app_inj_tail in Hu as [-> _]. by exists u.
Qed.

Lemma elem_mid {A : Type} (l1 : list A) (x : A) (l2 : list A) : x ∈ l1 ++ x :: l2.
Proof. apply elem_of_app. right. by left. Qed.
