(* ===== verification/Dll.v ===== *)
(** * Intrusive doubly linked lists

    The kernel threads its objects on doubly linked lists through [prev] and [next] fields of
    the objects themselves: the slabs of [kalloc.c], the waiters of [futex.c], the entries of
    [sched_wait.c].  [is_dll pv nx p l h] says that, read through the fields [pv] and [nx], the
    list with head pointer [h] holds the objects [l], the first with [p] before it.  The two
    lemmas on insertion at the head and removal are about any two states of the fields that
    differ the way the code's assignments make them differ. *)

From S2P Require Import Prelude.

Fixpoint is_dll (pv nx : Z -> Z) (p : Z) (l : list Z) (h : Z) : Prop :=
  match l with
  | [] => h = 0
  | x :: rest => h = x /\ x <> 0 /\ pv x = p /\ is_dll pv nx x rest (nx x)
  end.

Section Dll.

Context (pv nx : Z -> Z).

Lemma is_dll_head p l h : is_dll pv nx p l h -> h = default 0 (head l).
Proof. destruct l; simpl; [done|]. by intros (-> & _). Qed.

Lemma is_dll_nonnull p l h : is_dll pv nx p l h -> 0 ∉ l.
Proof.
  revert p h. induction l as [|x l IH]; intros p h; simpl; [set_solver|].
  intros (_ & Hx & _ & Hl). apply IH in Hl. set_solver.
Qed.

(** Splitting the list at a member. *)
Lemma is_dll_app p l1 x l2 h :
  is_dll pv nx p (l1 ++ x :: l2) h ->
  pv x = default p (list.last l1) /\ nx x = default 0 (head l2) /\ is_dll pv nx x l2 (nx x).
Proof.
  revert p h. induction l1 as [|y l1 IH]; intros p h; simpl.
  - intros (-> & Hx & Hp & Hl). split_and!; try done. by eapply is_dll_head.
  - intros (-> & Hy & Hp & Hl). destruct (IH _ _ Hl) as (E1 & E2 & E3). split_and!; try done.
    rewrite E1. destruct l1 as [|z l1]; [done|]. rewrite last_cons_cons.
    by destruct (list.last (z :: l1)) eqn:E; [|apply last_None in E].
Qed.

(** The neighbours of a member are other members of its list, or null. *)
Lemma is_dll_neighbours l1 x l2 h :
  is_dll pv nx 0 (l1 ++ x :: l2) h -> NoDup (l1 ++ x :: l2) ->
  (pv x = 0 \/ pv x ∈ l1 /\ pv x <> 0) /\ (nx x = 0 \/ nx x ∈ l2 /\ nx x <> 0) /\ pv x <> x /\ nx x <> x /\
  x <> 0 /\ (forall y, y ∈ l1 ++ l2 -> y <> 0 /\ y <> x).
Proof.
  intros Hd Hnd. destruct (is_dll_app _ _ _ _ _ Hd) as (Ep & En & _).
  pose proof (is_dll_nonnull _ _ _ Hd) as H0. rewrite not_elem_of_app, not_elem_of_cons in H0.
  destruct H0 as (Z1 & Zx & Z2). apply list.NoDup_app in Hnd as (_ & Hdis & Hnd2).
  apply list.NoDup_cons in Hnd2 as [Hx2 _].
  assert (Hx1 : x ∉ l1) by (intros Hx1; apply (Hdis x Hx1); by left).
  assert (Hp : pv x = 0 \/ pv x ∈ l1 /\ pv x <> 0).
  { rewrite Ep. destruct (list.last l1) as [y|] eqn:E; [right|by left]. apply last_Some_elem_of in E. simpl.
    split; [done|]. by intros ->. }
  assert (Hn : nx x = 0 \/ nx x ∈ l2 /\ nx x <> 0).
  { rewrite En. destruct l2 as [|y l2]; [by left|right]. simpl. split; [by left|]. intros ->. apply Z2. by left. }
  split_and!; [done|done| | | congruence |].
  - destruct Hp as [->|[Hp _]]; congruence.
  - destruct Hn as [->|[Hn _]]; congruence.
  - intros y [Hy|Hy]%elem_of_app; split; congruence.
Qed.

Context (pv' nx' : Z -> Z).

(** Only the fields of the members matter. *)
Lemma is_dll_frame p l h :
  (forall x, x ∈ l -> pv' x = pv x /\ nx' x = nx x) -> is_dll pv nx p l h -> is_dll pv' nx' p l h.
Proof.
  revert p h. induction l as [|x l IH]; intros p h Hf; simpl; [done|].
  intros (-> & Hx & Hp & Hl). destruct (Hf x) as [E1 E2]; [by left|]. rewrite E1, E2.
  split_and!; try done. apply IH; [|done]. intros y Hy. apply Hf. by right.
Qed.

(** [x->prev = NULL; x->next = *list; if (x->next) x->next->prev = x; *list = x]. *)
Lemma is_dll_push l h x :
  is_dll pv nx 0 l h -> NoDup (x :: l) -> x <> 0 ->
  pv' x = 0 -> nx' x = h -> (h <> 0 -> pv' h = x) ->
  (forall y, y ∈ l -> y <> h -> pv' y = pv y) -> (forall y, y ∈ l -> nx' y = nx y) ->
  is_dll pv' nx' 0 (x :: l) x.
Proof.
  intros Hl Hnd Hx0 Hp Hn Hh Hpv Hnx. simpl. split_and!; try done. rewrite Hn.
  apply list.NoDup_cons in Hnd as [_ Hnd]. destruct l as [|y l]; simpl in *; [done|].
  destruct Hl as (-> & Hy & _ & Hl). apply list.NoDup_cons in Hnd as [Hyl _].
  split_and!; [done|done|by apply Hh|]. rewrite Hnx by (by left). eapply is_dll_frame; [|done].
  intros z Hz. rewrite Hpv, Hnx; [done|by right|by right|]. by intros ->.
Qed.

(** Insertion at the tail. *)
Lemma is_dll_snoc p l h x :
  is_dll pv nx p l h -> NoDup (l ++ [x]) -> x <> 0 ->
  pv' x = default p (list.last l) -> nx' x = 0 ->
  (forall y, y ∈ l -> pv' y = pv y) ->
  (forall y, y ∈ l -> nx' y = if decide (list.last l = Some y) then x else nx y) ->
  is_dll pv' nx' p (l ++ [x]) (match l with [] => x | _ => h end).
Proof.
  revert p h. induction l as [|z l IH]; intros p h Hl Hnd Hx0 Hp Hn Hpv Hnx; [done|].
  simpl in Hl. destruct Hl as (-> & Hz & Hpz & Hl). apply list.NoDup_cons in Hnd as [Hzn Hnd]. simpl.
  split_and!; [done|done|by rewrite Hpv by (by left)|].
  rewrite Hnx by (by left). destruct l as [|w l].
  - rewrite decide_True by done. simpl. split_and!; try done.
  - rewrite decide_False.
    + simpl in IH, Hl. rewrite (proj1 Hl). apply (IH z w).
      * split; [done|apply Hl].
      * done.
      * done.
      * rewrite Hp, last_cons_cons. by destruct (list.last (w :: l)) eqn:E; [|apply last_None in E].
      * done.
      * intros y Hy. apply Hpv. by right.
      * intros y Hy. rewrite Hnx by (by right). by rewrite last_cons_cons.
    + rewrite last_cons_cons. intros E. apply last_Some_elem_of in E. apply Hzn.
      change (z ∈ (w :: l) ++ [x]). apply elem_of_app. by left.
Qed.

(** Insertion between [l1] and [l2]. *)
Lemma is_dll_insert p l1 x l2 h h' :
  is_dll pv nx p (l1 ++ l2) h -> NoDup (l1 ++ l2) -> x ∉ l1 ++ l2 -> x <> 0 ->
  pv' x = default p (list.last l1) -> nx' x = default 0 (head l2) ->
  (forall y, y ∈ l1 ++ l2 -> pv' y = if decide (head l2 = Some y) then x else pv y) ->
  (forall y, y ∈ l1 ++ l2 -> nx' y = if decide (list.last l1 = Some y) then x else nx y) ->
  h' = (match l1 with [] => x | _ => h end) ->
  is_dll pv' nx' p (l1 ++ x :: l2) h'.
Proof.
  revert p h h'. induction l1 as [|z l1 IH]; intros p h h' Hl Hnd Hx Hx0 Hp Hn Hpv Hnx Hh; simpl in *.
  - subst h'. split_and!; try done. rewrite Hn. destruct l2 as [|y l2]; simpl in *; [done|].
    destruct Hl as (-> & Hy & Hpy & Hl). apply list.NoDup_cons in Hnd as [Hyl _].
    split_and!; [done|done|rewrite Hpv by (by left); by rewrite decide_True|].
    rewrite Hnx by (by left). eapply is_dll_frame; [|exact Hl]. intros w Hw.
    rewrite Hpv, Hnx, decide_False by (try (by right); intros [= ->]; done). done.
  - destruct Hl as (-> & Hz & Hpz & Hl). apply list.NoDup_cons in Hnd as [Hzl Hnd]. rewrite not_elem_of_cons in Hx. destruct Hx as [Hxz Hx].
    assert (Hzh : head l2 <> Some z). { destruct l2 as [|y l2]; [done|]. intros [= ->]. apply Hzl, elem_mid. }
    split_and!; [done|done|rewrite Hpv by (by left); by rewrite decide_False|].
    apply (IH z (nx z)); try done.
    + rewrite Hp. destruct l1 as [|y l1]; [done|]. rewrite last_cons_cons. by destruct (list.last (y :: l1)) eqn:E; [|apply last_None in E].
    + intros y Hy. apply Hpv. by right.
    + intros y Hy. rewrite Hnx by (by right). destruct l1 as [|w l1]; [|by rewrite last_cons_cons].
      rewrite !decide_False; [done|done|]. simpl. intros [= ->]. done.
    + rewrite Hnx by (by left). destruct l1 as [|w l1]; [by rewrite decide_True|]. rewrite last_cons_cons, decide_False; [done|].
      intros E. apply last_Some_elem_of in E. apply Hzl. apply elem_of_app. by left.
Qed.

(** Removal of [x]: its neighbours, or the head, are pointed at each other. *)
Lemma is_dll_remove p l1 x l2 h h' :
  is_dll pv nx p (l1 ++ x :: l2) h -> NoDup (l1 ++ x :: l2) ->
  (match list.last l1 with Some y => nx' y = nx x /\ h' = h | None => h' = nx x end) ->
  (match head l2 with Some y => pv' y = pv x | None => True end) ->
  (forall y, y ∈ l1 ++ l2 -> Some y <> head l2 -> pv' y = pv y) ->
  (forall y, y ∈ l1 ++ l2 -> Some y <> list.last l1 -> nx' y = nx y) ->
  is_dll pv' nx' p (l1 ++ l2) h'.
Proof.
  revert p h h'. induction l1 as [|y l1 IH]; intros p h h' Hl Hnd Hlast Hhead Hpv Hnx; simpl in *.
  - destruct Hl as (-> & Hx & Hp & Hl). subst h'. apply list.NoDup_cons in Hnd as [Hxl Hnd].
    destruct l2 as [|z l2]; simpl in *; [done|]. destruct Hl as (E & Hz & Hpz & Hl).
    apply list.NoDup_cons in Hnd as [Hzl _]. rewrite E. split_and!; [done|done|by rewrite Hhead|].
    rewrite Hnx by (done || by left). eapply is_dll_frame; [|done]. intros w Hw.
    rewrite Hpv, Hnx; [done|by right|done|by right|]. intros [= ->]. done.
  - destruct Hl as (-> & Hy & Hp & Hl). apply list.NoDup_cons in Hnd as [Hyl Hnd].
    assert (Hyh : Some y <> head l2).
    { destruct l2 as [|z l2]; [done|]. intros [= ->]. apply Hyl. set_solver. }
    rewrite Hpv by (done || by left). destruct l1 as [|z l1].
    + simpl in Hlast. destruct Hlast as [Hny ->]. split_and!; try done. rewrite Hny.
      simpl in Hl. destruct Hl as (E & Hx & Hpx & Hl). simpl.
      eapply (IH y (nx y) (nx x)); simpl; try done.
      * intros w Hw. apply Hpv. by right.
      * intros w Hw _. apply Hnx; [by right|]. intros [= ->]. apply Hyl. set_solver.
    + rewrite last_cons_cons in Hlast, Hnx. destruct (list.last (z :: l1)) as [w|] eqn:Ew; [|by apply last_None in Ew].
      destruct Hlast as [Hnw ->].
      assert (Hyw : Some y <> Some w).
      { intros [= ->]. apply Hyl. apply last_Some_elem_of in Ew. set_solver. }
      rewrite Hnx by (done || by left). split_and!; try done.
      eapply (IH y (nx y) (nx y)); simpl; try done; rewrite ?Ew; try done.
      * intros u Hu. apply Hpv. by right.
      * intros u Hu. apply Hnx. by right.
Qed.

(** The same with the conditions the way the code tests them. *)
Lemma is_dll_unlink l1 x l2 h h' :
  is_dll pv nx 0 (l1 ++ x :: l2) h -> NoDup (l1 ++ x :: l2) ->
  (forall y, y ∈ l1 ++ l2 -> pv' y = if decide (nx x <> 0 /\ y = nx x) then pv x else pv y) ->
  (forall y, y ∈ l1 ++ l2 -> nx' y = if decide (pv x <> 0 /\ y = pv x) then nx x else nx y) ->
  h' = (if decide (pv x = 0) then nx x else h) ->
  is_dll pv' nx' 0 (l1 ++ l2) h' /\ NoDup (l1 ++ l2).
Proof.
  intros Hd Hnd Hpv Hnx Hh. destruct (is_dll_app _ _ _ _ _ Hd) as (Ep & En & _).
  destruct (is_dll_neighbours _ _ _ _ Hd Hnd) as (Np & Nn & _ & _ & Hx0 & Hm).
  assert (Hl : list.last l1 = None /\ pv x = 0 \/ list.last l1 = Some (pv x) /\ pv x <> 0 /\ pv x ∈ l1 ++ l2).
  { rewrite Ep. destruct (list.last l1) as [y|] eqn:E; simpl; [right|by left].
    apply last_Some_elem_of in E. assert (y ∈ l1 ++ l2) by (apply elem_of_app; by left). split_and!; try done. by apply Hm. }
  assert (Hr : head l2 = None /\ nx x = 0 \/ head l2 = Some (nx x) /\ nx x <> 0 /\ nx x ∈ l1 ++ l2).
  { rewrite En. destruct l2 as [|y l2]; simpl; [by left|right].
    assert (y ∈ l1 ++ y :: l2) by apply elem_mid. split_and!; try done. by apply Hm. }
  split.
  - eapply is_dll_remove; [exact Hd|exact Hnd| | | |].
    + destruct Hl as [[-> E]|(-> & E & Hin)]; [by rewrite Hh, decide_True|].
      rewrite Hnx, decide_True by done. by rewrite Hh, decide_False.
    + destruct Hr as [[-> E]|(-> & E & Hin)]; [done|]. by rewrite Hpv, decide_True.
    + intros y Hy Hne. rewrite Hpv by done. rewrite decide_False; [done|]. intros [? ->].
      destruct Hr as [[_ ?]|[? _]]; congruence.
    + intros y Hy Hne. rewrite Hnx by done. rewrite decide_False; [done|]. intros [? ->].
      destruct Hl as [[_ ?]|[? _]]; congruence.
  - apply list.NoDup_app in Hnd as (N1 & N2 & N3). apply list.NoDup_cons in N3 as [_ N3].
    apply list.NoDup_app. split_and!; try done. intros y Hy Hy2. apply (N2 y Hy). by right.
Qed.

End Dll.
