(* ===== verification/Pmm.v ===== *)
(** * The physical memory manager, [kernel/src/mm/pmm.c]

    A region of usable RAM starts with a header ([bitmap_entry_t]) holding one bit per
    frame, set when the frame is used.  The list [bitmap_head] is a list of such regions
    in the order [pmm_init] appends them; [pmm_lock] serialises the operations, so each of
    them is one atomic step on that list. *)

From S2P Require Import Prelude.

(** [gbi_memmap_type_t] of [boot/bootloader_interface/generic_bootloader.h]. *)
Inductive gbi_memmap_type :=
  | GBI_MEMMAP_USABLE
  | GBI_MEMMAP_RESERVED
  | GBI_MEMMAP_ACPI_RECLAIMABLE
  | GBI_MEMMAP_ACPI_NVS
  | GBI_MEMMAP_BAD_MEMORY
  | GBI_MEMMAP_BOOTLOADER_RECLAIMABLE
  | GBI_MEMMAP_KERNEL_AND_MODULES
  | GBI_MEMMAP_FRAMEBUFFER.

(** [gbi_memmap_entry_t]. *)
Record gbi_memmap_entry := {
  gme_base : Z;
  gme_length : Z;
  gme_type : gbi_memmap_type;
}.

(** [e->type == GBI_MEMMAP_USABLE]. *)
Definition is_usable (e : gbi_memmap_entry) : bool :=
  match gme_type e with GBI_MEMMAP_USABLE => true | _ => false end.

(** [bitmap_entry_t]; [next_entry] is the rest of the list. *)
Record bitmap_entry := {
  region_base : Z;
  header_pages : Z;
  capacity : Z;
  available_pages : Z;
  search_cursor : Z;
  bitmap : list Z;
}.

(** [sizeof(bitmap_entry_t)]: six 8-byte fields, the bitmap itself is a flexible member. *)
Definition sizeof_bitmap_entry : Z := 48.

Definition PMM_MIN_REGION_PAGES : Z := 4.

(** Byte [k] of a bitmap. *)
Definition byte_at (bm : list Z) (k : Z) : Z := default 0 (bm !! Z.to_nat k).

Definition BIT_SET (bm : list Z) (i : Z) : list Z :=
  <[Z.to_nat (i ≫ 3) := Z.lor (byte_at bm (i ≫ 3)) (1 ≪ Z.land i 7)]> bm.

Definition BIT_CLR (bm : list Z) (i : Z) : list Z :=
  <[Z.to_nat (i ≫ 3) := Z.land (byte_at bm (i ≫ 3)) (Z.lnot (1 ≪ Z.land i 7))]> bm.

Definition BIT_TST (bm : list Z) (i : Z) : bool :=
  flag (byte_at bm (i ≫ 3)) (1 ≪ Z.land i 7).

Definition get_max_paddr (memmap : list gbi_memmap_entry) : Z :=
  foldl (fun max e =>
    if is_usable e
    then let end_ := gme_base e +w gme_length e in if max <? end_ then end_ else max
    else max) 0 memmap.

Definition paging_get_usable_mem_size (memmap : list gbi_memmap_entry) : Z :=
  foldl (fun bytes e => if is_usable e then bytes +w gme_length e else bytes) 0 memmap.

Definition with_bitmap (e : bitmap_entry) (bm : list Z) (avail : Z) : bitmap_entry :=
  {| region_base := region_base e; header_pages := header_pages e; capacity := capacity e;
     available_pages := avail; search_cursor := search_cursor e; bitmap := bm |}.

Definition with_cursor (e : bitmap_entry) (c : Z) : bitmap_entry :=
  {| region_base := region_base e; header_pages := header_pages e; capacity := capacity e;
     available_pages := available_pages e; search_cursor := c; bitmap := bitmap e |}.

Definition paging_mark_entry_unavailable (e : bitmap_entry) (start page_count : Z) : bitmap_entry :=
  with_bitmap e
    (for_range (Z.to_nat page_count) 0 (fun i bm => BIT_SET bm (start + i)) (bitmap e))
    (available_pages e -w page_count).

(** One frame of [paging_mark_entry_available]: a clear bit is a double free and is skipped. *)
Definition mark_available_step (start i : Z) (e : bitmap_entry) : bitmap_entry :=
  if BIT_TST (bitmap e) (start + i)
  then with_bitmap e (BIT_CLR (bitmap e) (start + i)) (available_pages e +w 1)
  else e.

Definition paging_mark_entry_available (e : bitmap_entry) (start page_count : Z) : bitmap_entry :=
  for_range (Z.to_nat page_count) 0 (mark_available_step start) e.

(** The body of the loop of [pmm_init]: the header of one is_usable region, if it is kept. *)
Definition pmm_init_region (region : gbi_memmap_entry) : option bitmap_entry :=
  if negb (is_usable region) then None
  else
    let region_base := PAGE_ALIGN_UP (gme_base region) in
    let region_end := PAGE_ALIGN_DOWN (gme_base region +w gme_length region) in
    if region_end <=? region_base then None
    else
      let total_pages := (region_end - region_base) / PAGE_SIZE in
      let header_bytes := sizeof_bitmap_entry + (total_pages + 7) / 8 in
      let header_pages := (header_bytes + PAGE_SIZE - 1) / PAGE_SIZE in
      if total_pages <? header_pages + PMM_MIN_REGION_PAGES then None
      else
        let capacity := total_pages - header_pages in
        let bm :=
          {| region_base := region_base; header_pages := header_pages; capacity := capacity;
             available_pages := capacity; search_cursor := 0;
             bitmap := replicate (Z.to_nat ((total_pages + 7) / 8)) 0 |} in
        Some (paging_mark_entry_unavailable bm 0 header_pages).

Definition pmm_init (memmap : list gbi_memmap_entry) : list bitmap_entry :=
  omap pmm_init_region memmap.

(** [memcpy(&bits, &bitmap[k], 8)] on a little-endian machine. *)
Definition read_u64 (bm : list Z) (k : Z) : Z :=
  foldr (fun j acc => byte_at bm (k + j) + 256 * acc) 0 [0; 1; 2; 3; 4; 5; 6; 7].

(** How many frames the scan takes at once at [i], and whether they are used. *)
Definition scan_step (bm : list Z) (i end_ : Z) : Z * Z :=
  let '(step, bits) :=
    if (Z.land i 63 =? 0) && (i + 64 <=? end_)
    then
      let bits := read_u64 bm (i ≫ 3) in
      if (bits =? 2 ^ 64 - 1) || (bits =? 0) then (64, bits) else (0, bits)
    else (0, 0) in
  if (step =? 0) && (Z.land i 7 =? 0) && (i + 8 <=? end_)
  then
    let bits := byte_at bm (i ≫ 3) in
    if (bits =? 255) || (bits =? 0) then (8, bits) else (0, bits)
  else (step, bits).

(** The [while (i < end)] loop; [fuel] bounds its iterations by [end - i]. *)
Fixpoint find_free_loop (fuel : nat) (bm : list Z) (count end_ i free_run run_start : Z) : Z :=
  match fuel with
  | O => -1
  | S fuel' =>
    if end_ <=? i then -1
    else
      let '(step, bits) := scan_step bm i end_ in
      if negb (step =? 0)
      then
        if negb (bits =? 0)
        then find_free_loop fuel' bm count end_ (i + step) 0 run_start
        else
          let run_start := if free_run =? 0 then i else run_start in
          let free_run := free_run + step in
          if count <=? free_run then run_start
          else find_free_loop fuel' bm count end_ (i + step) free_run run_start
      else
        if BIT_TST bm i
        then find_free_loop fuel' bm count end_ (i + 1) 0 run_start
        else
          let run_start := if free_run =? 0 then i else run_start in
          let free_run := free_run + 1 in
          if free_run =? count then run_start
          else find_free_loop fuel' bm count end_ (i + 1) free_run run_start
  end.

Definition paging_bitmap_find_free_in_range (e : bitmap_entry) (count begin end_ : Z) : Z :=
  if (count =? 0) || (end_ <=? begin) then -1
  else find_free_loop (S (Z.to_nat (end_ - begin))) (bitmap e) count end_ begin 0 0.

Definition paging_bitmap_find_free (e : bitmap_entry) (count : Z) : Z * bitmap_entry :=
  if (count =? 0) || (capacity e <? count) then (-1, e)
  else
    let cursor := if capacity e <=? search_cursor e then 0 else search_cursor e in
    let start := paging_bitmap_find_free_in_range e count cursor (capacity e) in
    let start :=
      if (start <? 0) && negb (cursor =? 0)
      then paging_bitmap_find_free_in_range e count 0 cursor
      else start in
    if 0 <=? start
    then
      let c := start + count in
      (start, with_cursor e (if capacity e <=? c then 0 else c))
    else (start, e).

(** The physical address of frame [i] of a region. *)
Definition frame_paddr (e : bitmap_entry) (i : Z) : Z :=
  region_base e +w (header_pages e + i) * PAGE_SIZE.

Fixpoint try_alloc_regions (regions : list bitmap_entry) (page_count : Z) : Z * list bitmap_entry :=
  match regions with
  | [] => (0, [])
  | bm :: rest =>
    let next bm := let '(p, rest') := try_alloc_regions rest page_count in (p, bm :: rest') in
    if available_pages bm <? page_count then next bm
    else
      let '(start, bm) := paging_bitmap_find_free bm page_count in
      if start <? 0 then next bm
      else (frame_paddr bm start, paging_mark_entry_unavailable bm start page_count :: rest)
  end.

Definition pmm_try_alloc_pages (regions : list bitmap_entry) (page_count : Z) : Z * list bitmap_entry :=
  if page_count =? 0 then (0, regions) else try_alloc_regions regions page_count.

(** [pmm_alloc_pages] only adds a log line on failure. *)
Definition pmm_alloc_pages (regions : list bitmap_entry) (page_count : Z) : Z * list bitmap_entry :=
  pmm_try_alloc_pages regions page_count.

Definition pmm_available_pages (regions : list bitmap_entry) : Z :=
  foldl (fun total e => total +w available_pages e) 0 regions.

Fixpoint pmm_free_pages (regions : list bitmap_entry) (paddr page_count : Z) : list bitmap_entry :=
  match regions with
  | [] => []
  | bm :: rest =>
    let usable_start := region_base bm +w header_pages bm * PAGE_SIZE in
    let usable_end := usable_start +w capacity bm * PAGE_SIZE in
    if (paddr <? usable_start) || (usable_end <=? paddr)
    then bm :: pmm_free_pages rest paddr page_count
    else
      let idx := (paddr - usable_start) / PAGE_SIZE in
      let page_count :=
        if capacity bm <? idx +w page_count then capacity bm - idx else page_count in
      let bm := paging_mark_entry_available bm idx page_count in
      (if idx <? search_cursor bm then with_cursor bm idx else bm) :: rest
  end.

(** ** Bits *)

(** A bitmap whose entries are bytes. *)
Definition bytes_ok (bm : list Z) : Prop := Forall (fun b => 0 <= b < 256) bm.

(** [n] frames are covered by the bitmap. *)
Definition covers (bm : list Z) (n : Z) : Prop := n <= 8 * Z.of_nat (length bm).

(** Every frame of [[lo, hi)] is free. *)
Definition all_free (bm : list Z) (lo hi : Z) : Prop :=
  forall j, lo <= j < hi -> BIT_TST bm j = false.

Lemma bit_index i : Z.land i 7 = i `mod` 8.
Proof. change 7 with (Z.ones 3). by rewrite Z.land_ones. Qed.

Lemma bit_byte i : i ≫ 3 = i / 8.
Proof. by rewrite Z.shiftr_div_pow2. Qed.

Lemma BIT_TST_spec bm i : BIT_TST bm i = Z.testbit (byte_at bm (i / 8)) (i `mod` 8).
Proof. unfold BIT_TST. rewrite bit_index, bit_byte. apply flag_testbit. zlia. Qed.

Lemma byte_at_insert bm i j b :
  0 <= i < Z.of_nat (length bm) -> 0 <= j ->
  byte_at (<[Z.to_nat i := b]> bm) j = if i =? j then b else byte_at bm j.
Proof.
  intros Hi Hj. unfold byte_at. destruct (Z.eqb_spec i j) as [->|Hne].
  - rewrite list_lookup_insert_eq; [done | lia].
  - by rewrite list_lookup_insert_ne by lia.
Qed.

(** Updating one byte through a bitwise function updates one bit. *)
Lemma BIT_TST_update bm i j f v :
  0 <= i -> covers bm (i + 1) -> 0 <= j ->
  (forall k, 0 <= k -> Z.testbit (f (byte_at bm (i / 8))) k =
     if k =? i `mod` 8 then v else Z.testbit (byte_at bm (i / 8)) k) ->
  BIT_TST (<[Z.to_nat (i / 8) := f (byte_at bm (i / 8))]> bm) j =
  if i =? j then v else BIT_TST bm j.
Proof.
  intros Hi Hc Hj Hf. unfold covers in Hc. rewrite !BIT_TST_spec.
  rewrite byte_at_insert by zlia.
  destruct (Z.eqb_spec (i / 8) (j / 8)) as [E|E].
  - rewrite Hf by zlia. rewrite E.
    destruct (Z.eqb_spec (j `mod` 8) (i `mod` 8)), (Z.eqb_spec i j); zlia || done.
  - destruct (Z.eqb_spec i j); [congruence | done].
Qed.

Lemma BIT_TST_SET bm i j :
  0 <= i -> covers bm (i + 1) -> 0 <= j ->
  BIT_TST (BIT_SET bm i) j = (i =? j) || BIT_TST bm j.
Proof.
  intros. unfold BIT_SET. rewrite bit_byte, bit_index.
  rewrite (BIT_TST_update bm i j (fun b => Z.lor b (1 ≪ (i `mod` 8))) true); [by case_if|done..|].
  intros k Hk. rewrite Z.lor_spec, Z.shiftl_1_l, Z.pow2_bits_eqb, Z.eqb_sym by zlia.
  case_if; [apply orb_true_r | apply orb_false_r].
Qed.

Lemma BIT_TST_CLR bm i j :
  0 <= i -> covers bm (i + 1) -> 0 <= j ->
  BIT_TST (BIT_CLR bm i) j = negb (i =? j) && BIT_TST bm j.
Proof.
  intros. unfold BIT_CLR. rewrite bit_byte, bit_index.
  rewrite (BIT_TST_update bm i j (fun b => Z.land b (Z.lnot (1 ≪ (i `mod` 8)))) false);
    [by case_if|done..|].
  intros k Hk. rewrite Z.land_spec, Z.lnot_spec, Z.shiftl_1_l, Z.pow2_bits_eqb, Z.eqb_sym by zlia.
  case_if; [apply andb_false_r | apply andb_true_r].
Qed.

Lemma length_BIT_SET bm i : length (BIT_SET bm i) = length bm.
Proof. apply length_insert. Qed.

Lemma length_BIT_CLR bm i : length (BIT_CLR bm i) = length bm.
Proof. apply length_insert. Qed.

Lemma byte_at_range bm k : bytes_ok bm -> 0 <= byte_at bm k < 256.
Proof.
  intros H. unfold byte_at. destruct (bm !! Z.to_nat k) as [b|] eqn:E; simpl; [|lia].
  by apply (Forall_lookup_1 _ _ _ _ H E).
Qed.

Lemma bytes_bound b : 0 <= b < 256 <-> 0 <= b /\ forall k, 8 <= k -> Z.testbit b k = false.
Proof.
  change 256 with (2 ^ 8). split.
  - intros Hb. split; [lia|]. intros k Hk. rewrite <- (Z.mod_small b (2 ^ 8)) by done.
    by apply Z.mod_pow2_bits_high.
  - intros [H0 Hk]. enough (b = b `mod` 2 ^ 8) as -> by (apply Z.mod_pos_bound; lia).
    apply Z.bits_inj'. intros n Hn. destruct (Z.lt_ge_cases n 8).
    + by rewrite Z.mod_pow2_bits_low.
    + rewrite Z.mod_pow2_bits_high by lia. by apply Hk.
Qed.

Lemma bytes_ok_BIT_SET bm i : bytes_ok bm -> bytes_ok (BIT_SET bm i).
Proof.
  intros H. apply Forall_insert; [done|]. rewrite bit_index.
  destruct (proj1 (bytes_bound _) (byte_at_range bm (i ≫ 3) H)) as [H0 Hb].
  apply bytes_bound. split.
  - apply Z.lor_nonneg. split; [done|]. rewrite Z.shiftl_1_l. apply Z.pow_nonneg. lia.
  - intros k Hk. rewrite Z.lor_spec, Hb, Z.shiftl_1_l, Z.pow2_bits_false by zlia. done.
Qed.

Lemma bytes_ok_BIT_CLR bm i : bytes_ok bm -> bytes_ok (BIT_CLR bm i).
Proof.
  intros H. apply Forall_insert; [done|].
  destruct (proj1 (bytes_bound _) (byte_at_range bm (i ≫ 3) H)) as [H0 Hb].
  apply bytes_bound. split; [apply Z.land_nonneg; by left|].
  intros k Hk. by rewrite Z.land_spec, Hb.
Qed.

(** ** The scan *)

Lemma read_u64_bytes bm k :
  bytes_ok bm ->
  (read_u64 bm k = 0 -> forall j, 0 <= j < 8 -> byte_at bm (k + j) = 0) /\
  (read_u64 bm k = 2 ^ 64 - 1 -> forall j, 0 <= j < 8 -> byte_at bm (k + j) = 255).
Proof.
  intros Hb.
  assert (Hr : forall j, 0 <= byte_at bm (k + j) < 256) by (intros; by apply byte_at_range).
  unfold read_u64; cbn [foldr].
  pose proof (Hr 0); pose proof (Hr 1); pose proof (Hr 2); pose proof (Hr 3).
  pose proof (Hr 4); pose proof (Hr 5); pose proof (Hr 6); pose proof (Hr 7).
  split; intros E j Hj;
    assert (j = 0 \/ j = 1 \/ j = 2 \/ j = 3 \/ j = 4 \/ j = 5 \/ j = 6 \/ j = 7)
      as [->|[->|[->|[->|[->|[->|[->| ->]]]]]]] by lia; lia.
Qed.

Lemma testbit_255 k : 0 <= k < 8 -> Z.testbit 255 k = true.
Proof. intros. change 255 with (Z.ones 8). by apply Z.ones_spec_low. Qed.

(** A uniform byte decides its eight frames. *)
Lemma uniform_byte bm k v :
  byte_at bm k = (if v : bool then 255 else 0) ->
  forall j, 8 * k <= j < 8 * k + 8 -> BIT_TST bm j = v.
Proof.
  intros H j Hj. rewrite BIT_TST_spec. replace (j / 8) with k by zlia. rewrite H.
  destruct v; [apply testbit_255; zlia | apply Z.bits_0].
Qed.

(** The scan takes 64, 8 or no frames at once; the frames it takes are all used or all free. *)
Lemma scan_step_sound bm i end_ step bits :
  bytes_ok bm -> 0 <= i -> scan_step bm i end_ = (step, bits) -> step <> 0 ->
  0 < step /\ i + step <= end_ /\
  forall j, i <= j < i + step -> BIT_TST bm j = negb (bits =? 0).
Proof.
  intros Hb Hi Hs Hne. unfold scan_step in Hs.
  change 63 with (Z.ones 6) in Hs. rewrite bit_index, bit_byte, Z.land_ones in Hs by lia.
  assert (Hbyte : forall bits0, (if (bits0 =? 255) || (bits0 =? 0) then (8, bits0) else (0, bits0)) =
      (step, bits) -> i `mod` 8 = 0 -> i + 8 <= end_ -> byte_at bm (i / 8) = bits0 ->
      0 < step /\ i + step <= end_ /\ forall j, i <= j < i + step -> BIT_TST bm j = negb (bits =? 0)).
  { intros b0 Hres Hal Hend H4. case_match eqn:E; simplify_eq; bool_prop.
    split; [lia|]. split; [lia|]. intros j Hj.
    apply (uniform_byte bm (i / 8)); [|zlia]. destruct E as [E|E]; bool_prop; by rewrite E. }
  destruct ((i `mod` 2 ^ 6 =? 0) && (i + 64 <=? end_)) eqn:E64.
  - bool_prop. destruct (read_u64_bytes bm (i / 8) Hb) as [Hlo Hhi].
    destruct ((read_u64 bm (i / 8) =? 2 ^ 64 - 1) || (read_u64 bm (i / 8) =? 0)) eqn:Eu.
    + simpl in Hs. simplify_eq. split; [lia|]. split; [lia|]. intros j Hj.
      apply (uniform_byte bm (j / 8)); [|zlia].
      replace (j / 8) with (i / 8 + (j / 8 - i / 8)) by lia. bool_prop.
      destruct Eu as [Eu|Eu]; bool_prop; rewrite Eu; [apply Hhi | apply Hlo]; (done || zlia).
    + rewrite Z.eqb_refl in Hs. simpl in Hs. case_match; simplify_eq. bool_prop. by eapply Hbyte.
  - rewrite Z.eqb_refl in Hs. simpl in Hs. case_match; simplify_eq. bool_prop. by eapply Hbyte.
Qed.

(** [count] free frames start at [s], inside [[begin, end_)]. *)
Definition fits (bm : list Z) (count begin end_ s : Z) : Prop :=
  begin <= s /\ s + count <= end_ /\ all_free bm s (s + count).

(** [s] is the lowest place where [count] free frames fit. *)
Definition first_fit (bm : list Z) (count begin end_ s : Z) : Prop :=
  fits bm count begin end_ s /\ forall s', fits bm count begin end_ s' -> s <= s'.

(** The state of the scan at [i]: the free run that ends at [i] is [free_run] long and
    maximal, and nothing fits before [i]. *)
Record scan_inv (bm : list Z) (count begin i free_run run_start : Z) : Prop := {
  si_begin : 0 <= begin <= i - free_run;
  si_run : 0 <= free_run < count;
  si_free : all_free bm (i - free_run) i;
  si_start : free_run <> 0 -> run_start = i - free_run;
  si_max : i - free_run = begin \/ BIT_TST bm (i - free_run - 1) = true;
  si_none : forall s, ~ fits bm count begin i s;
}.

Lemma scan_inv_used bm count begin i free_run run_start step :
  scan_inv bm count begin i free_run run_start -> 0 < step ->
  (forall j, i <= j < i + step -> BIT_TST bm j = true) ->
  scan_inv bm count begin (i + step) 0 run_start.
Proof.
  intros [Hb Hr Hf Hs Hm Hn] Hst Hu. split; try lia.
  - intros j Hj; lia.
  - right. apply Hu. lia.
  - intros s (H1 & H2 & H3). destruct (Z.le_gt_cases (s + count) i).
    + by apply (Hn s).
    + assert (E : BIT_TST bm (s + count - 1) = false) by (apply H3; lia).
      rewrite Hu in E by lia. done.
Qed.

Lemma scan_inv_before bm count begin i free_run run_start s :
  scan_inv bm count begin i free_run run_start ->
  begin <= s -> all_free bm s (s + count) -> i - free_run <= s.
Proof.
  intros [Hb Hr Hf Hs Hm Hn] H1 H2. destruct (Z.le_gt_cases (i - free_run) s); [done|].
  exfalso. destruct Hm as [?|Hm]; [lia|].
  destruct (Z.le_gt_cases (s + count) i); [by apply (Hn s) |].
  rewrite (H2 (i - free_run - 1)) in Hm by lia. done.
Qed.

Lemma scan_inv_free bm count begin i free_run run_start step :
  scan_inv bm count begin i free_run run_start -> 0 < step ->
  (forall j, i <= j < i + step -> BIT_TST bm j = false) -> free_run + step < count ->
  scan_inv bm count begin (i + step) (free_run + step) (if free_run =? 0 then i else run_start).
Proof.
  intros HI Hst Hu Hlt. pose proof HI as [Hb Hr Hf Hs Hm Hn].
  split; try lia.
  - intros j Hj. destruct (Z.le_gt_cases i j); [apply Hu | apply Hf]; lia.
  - intros _. case_if; [lia | rewrite Hs; lia].
  - replace (i + step - (free_run + step)) with (i - free_run) by lia. done.
  - intros s (H1 & H2 & H3). pose proof (scan_inv_before _ _ _ _ _ _ _ HI H1 H3). lia.
Qed.

Lemma scan_inv_found bm count begin end_ i free_run run_start step :
  scan_inv bm count begin i free_run run_start -> 0 < step -> i + step <= end_ ->
  (forall j, i <= j < i + step -> BIT_TST bm j = false) -> count <= free_run + step ->
  first_fit bm count begin end_ (if free_run =? 0 then i else run_start).
Proof.
  intros HI Hst Hend Hu Hge. pose proof HI as [Hb Hr Hf Hs Hm Hn].
  replace (if free_run =? 0 then i else run_start) with (i - free_run)
    by (case_if; [lia | rewrite Hs; lia]).
  split.
  - split; [lia|]. split; [lia|]. intros j Hj.
    destruct (Z.le_gt_cases i j); [apply Hu | apply Hf]; lia.
  - intros s (H1 & H2 & H3). by apply (scan_inv_before _ _ _ _ _ _ _ HI).
Qed.

Lemma find_free_loop_spec bm count begin end_ fuel i free_run run_start :
  bytes_ok bm -> scan_inv bm count begin i free_run run_start -> i <= end_ ->
  end_ - i < Z.of_nat fuel ->
  let r := find_free_loop fuel bm count end_ i free_run run_start in
  (0 <= r /\ first_fit bm count begin end_ r) \/
  (r = -1 /\ forall s, ~ fits bm count begin end_ s).
Proof.
  intros Hb. revert i free_run run_start.
  induction fuel as [|fuel IH]; intros i free_run run_start HI Hi Hfuel; [lia|]. simpl.
  assert (H0 : 0 <= i) by (destruct HI; lia).
  assert (Hfound : forall step rs, rs = (if free_run =? 0 then i else run_start) ->
    0 < step -> i + step <= end_ ->
    (forall j, i <= j < i + step -> BIT_TST bm j = false) -> count <= free_run + step ->
    (0 <= rs /\ first_fit bm count begin end_ rs) \/ (rs = -1 /\ forall s, ~ fits bm count begin end_ s)).
  { intros step rs -> Hs1 Hs2 Hs3 Hs4. left.
    pose proof (scan_inv_found _ _ _ _ _ _ _ _ HI Hs1 Hs2 Hs3 Hs4) as HF. split; [|done].
    destruct HF as [[? _] _], HI; lia. }
  case_if.
  { right. split; [done|]. replace end_ with i by lia. apply HI. }
  destruct (scan_step bm i end_) as [step bits] eqn:Es. case_if.
  - destruct (scan_step_sound _ _ _ _ _ Hb H0 Es Heqb0) as (Hs1 & Hs2 & Hs3).
    case_if; simpl in *.
    + apply IH; [|lia..]. by eapply scan_inv_used.
    + destruct (count <=? free_run + step) eqn:Hc; bool_prop; [by apply (Hfound step)|].
      apply IH; [|lia..]. by apply scan_inv_free.
  - destruct (BIT_TST bm i) eqn:Et.
    + apply IH; [|lia..]. eapply scan_inv_used; [done|lia|].
      intros j Hj. by replace j with i by lia.
    + assert (Hs3' : forall j, i <= j < i + 1 -> BIT_TST bm j = false)
        by (intros j Hj; by replace j with i by lia).
      destruct (free_run + 1 =? count) eqn:Hc; bool_prop; [apply (Hfound 1); (done || lia)|].
      apply IH; [|lia..]. apply scan_inv_free; (done || (destruct HI; lia)).
Qed.

Lemma find_free_in_range_spec e count begin end_ :
  bytes_ok (bitmap e) -> 0 <= begin -> 0 < count ->
  let r := paging_bitmap_find_free_in_range e count begin end_ in
  (0 <= r /\ first_fit (bitmap e) count begin end_ r) \/
  (r = -1 /\ forall s, ~ fits (bitmap e) count begin end_ s).
Proof.
  intros Hb H0 Hc r. subst r. unfold paging_bitmap_find_free_in_range. case_if.
  - right. split; [done|]. intros s (H1 & H2 & _).
    destruct Heqb as [?|?]; bool_prop; lia.
  - apply find_free_loop_spec; [done| |lia..].
    split; try lia. + intros j ?; lia. + intros s (? & ? & _). lia.
Qed.

(** ** Counting free frames *)

(** How many of the frames [0 .. n-1] are free under the used-predicate [u]. *)
Fixpoint free_below (u : Z -> bool) (n : nat) : Z :=
  match n with
  | O => 0
  | S n' => (if u (Z.of_nat n') then 0 else 1) + free_below u n'
  end.

Lemma free_below_ext u v n :
  (forall j, 0 <= j < Z.of_nat n -> u j = v j) -> free_below u n = free_below v n.
Proof.
  induction n as [|n IH]; intros H; simpl; [done|].
  rewrite H, IH by (try intros; try apply H; lia). done.
Qed.

Lemma free_below_bounds u n : 0 <= free_below u n <= Z.of_nat n.
Proof. induction n as [|n IH]; simpl; [lia|]. case_if; lia. Qed.

Lemma free_below_update u v i b n :
  (forall j, 0 <= j -> v j = if i =? j then b else u j) -> 0 <= i < Z.of_nat n ->
  free_below v n = free_below u n + (if u i then 1 else 0) - (if b : bool then 1 else 0).
Proof.
  intros Hv. induction n as [|n IH]; intros Hi; simpl; [lia|].
  rewrite Hv by lia. destruct (Z.eqb_spec i (Z.of_nat n)) as [->|].
  - rewrite (free_below_ext v u) by (intros j Hj; rewrite Hv by lia; case_if; [lia|done]).
    destruct b, (u (Z.of_nat n)); lia.
  - rewrite IH by lia. lia.
Qed.

Lemma free_below_pos u n i : 0 <= i < Z.of_nat n -> u i = false -> 1 <= free_below u n.
Proof.
  induction n as [|n IH]; intros Hi Hu; simpl; [lia|].
  pose proof (free_below_bounds u n). destruct (Z.eq_dec i (Z.of_nat n)) as [->|].
  - rewrite Hu. lia.
  - assert (1 <= free_below u n) by (apply IH; [lia|done]). case_if; lia.
Qed.

(** ** Well-formed regions and the abstract free set *)

Definition usable_start (e : bitmap_entry) : Z := region_base e + header_pages e * PAGE_SIZE.

Definition usable_end (e : bitmap_entry) : Z := usable_start e + capacity e * PAGE_SIZE.

Record wf_entry (e : bitmap_entry) : Prop := {
  we_base : 0 <= region_base e;
  we_aligned : region_base e `mod` PAGE_SIZE = 0;
  we_header : 1 <= header_pages e;
  we_capacity : 1 <= capacity e;
  we_covers : covers (bitmap e) (capacity e);
  we_bytes : bytes_ok (bitmap e);
  we_cursor : 0 <= search_cursor e < capacity e;
  we_avail : available_pages e = free_below (BIT_TST (bitmap e)) (Z.to_nat (capacity e));
  we_end : usable_end e < 2 ^ 64;
}.

(** Frame [i] of a region is free. *)
Definition frame_free (e : bitmap_entry) (i : Z) : Prop :=
  0 <= i < capacity e /\ BIT_TST (bitmap e) i = false.

(** The physical address [p] is a free frame of the region. *)
Definition entry_free (e : bitmap_entry) (p : Z) : Prop :=
  exists i, frame_free e i /\ p = usable_start e + i * PAGE_SIZE.

(** The abstract state of the allocator: its set of free frames. *)
Definition pmm_free (regions : list bitmap_entry) (p : Z) : Prop :=
  Exists (fun e => entry_free e p) regions.

Definition disjoint_entries (e f : bitmap_entry) : Prop :=
  usable_end e <= usable_start f \/ usable_end f <= usable_start e.

(** Well-formed regions whose frames do not overlap. *)
Inductive wf_pmm : list bitmap_entry -> Prop :=
  | wf_pmm_nil : wf_pmm []
  | wf_pmm_cons e l :
      wf_entry e -> Forall (disjoint_entries e) l -> wf_pmm l -> wf_pmm (e :: l).

(** The parts of a region no operation changes. *)
Definition same_frame (e f : bitmap_entry) : Prop :=
  region_base e = region_base f /\ header_pages e = header_pages f /\ capacity e = capacity f.

Lemma same_frame_usable e f :
  same_frame e f -> usable_start e = usable_start f /\ usable_end e = usable_end f.
Proof. intros (H1 & H2 & H3). unfold usable_end, usable_start. by rewrite H1, H2, H3. Qed.

Lemma frame_paddr_eq e i :
  wf_entry e -> 0 <= i <= capacity e -> frame_paddr e i = usable_start e + i * PAGE_SIZE.
Proof.
  intros [] Hi. unfold frame_paddr, usable_end, usable_start, PAGE_SIZE in *.
  rewrite wrap64_small by lia. lia.
Qed.

Lemma covers_length bm bm' n : length bm' = length bm -> covers bm n -> covers bm' n.
Proof. unfold covers. intros ->. done. Qed.

Lemma covers_le bm n m : covers bm n -> m <= n -> covers bm m.
Proof. unfold covers. lia. Qed.

#[export] Hint Resolve bytes_ok_BIT_SET bytes_ok_BIT_CLR length_BIT_SET length_BIT_CLR : bleed.

(** The bits of a range after [paging_mark_entry_unavailable]. *)
Lemma set_range_spec bm start n :
  0 <= start -> covers bm (start + Z.of_nat n) -> bytes_ok bm -> all_free bm start (start + Z.of_nat n) ->
  let bm' := for_range n 0 (fun i bm => BIT_SET bm (start + i)) bm in
  bytes_ok bm' /\ length bm' = length bm /\
  (forall j, 0 <= j -> BIT_TST bm' j = (start <=? j) && (j <? start + Z.of_nat n) || BIT_TST bm j) /\
  (forall m, start + Z.of_nat n <= Z.of_nat m ->
     free_below (BIT_TST bm') m = free_below (BIT_TST bm) m - Z.of_nat n).
Proof.
  intros H0 Hc Hb Hfree bm'. subst bm'.
  pose (I k b := bytes_ok b /\ length b = length bm /\
    (forall j, 0 <= j -> BIT_TST b j = (start <=? j) && (j <? start + k) || BIT_TST bm j) /\
    (forall m, start + Z.of_nat n <= Z.of_nat m ->
       free_below (BIT_TST b) m = free_below (BIT_TST bm) m - k)).
  change (I (0 + Z.of_nat n) (for_range n 0 (fun i bm => BIT_SET bm (start + i)) bm)).
  apply for_range_inv.
  - split_and!; auto with lia. intros j Hj.
    destruct (start <=? j) eqn:?, (j <? start + 0) eqn:?; bool_prop; done || lia.
  - intros k b Hk (I1 & I2 & I3 & I4).
    assert (Hcov : covers b (start + k + 1)) by (eapply covers_le; [by eapply covers_length | lia]).
    split_and!; auto with bleed.
    + by rewrite length_BIT_SET.
    + intros j Hj. rewrite BIT_TST_SET, I3 by (done || lia).
      destruct (start + k =? j) eqn:?, (start <=? j) eqn:?, (j <? start + k) eqn:?,
        (j <? start + (k + 1)) eqn:?; bool_prop; done || lia.
    + intros m Hm. rewrite (free_below_update (BIT_TST b) _ (start + k) true), I4, I3;
        [|lia..| |lia].
      * rewrite (Hfree (start + k)) by lia.
        destruct (start <=? start + k) eqn:?, (start + k <? start + k) eqn:?; bool_prop; simpl; lia.
      * intros j Hj. rewrite BIT_TST_SET by (done || lia). by case_if.
Qed.

Lemma mark_unavailable_spec e start n :
  wf_entry e -> 0 <= start -> 0 <= n -> start + n <= capacity e ->
  all_free (bitmap e) start (start + n) ->
  let e' := paging_mark_entry_unavailable e start n in
  wf_entry e' /\ same_frame e e' /\ available_pages e' = available_pages e - n /\
  (forall i, frame_free e' i <-> frame_free e i /\ ~ (start <= i < start + n)).
Proof.
  intros Hwf H0 Hn Hle Hfree e'. pose proof Hwf as [].
  destruct (set_range_spec (bitmap e) start (Z.to_nat n)) as (S1 & S2 & S3 & S4);
    rewrite ?Z2Nat.id in * by done; [done|by eapply covers_le|done..|].
  assert (Hav : available_pages e' = available_pages e - n).
  { subst e'. unfold paging_mark_entry_unavailable; simpl. apply wrap64_small.
    specialize (S4 (Z.to_nat (capacity e)) ltac:(lia)).
    pose proof (free_below_bounds (BIT_TST (for_range (Z.to_nat n) 0
      (fun i bm => BIT_SET bm (start + i)) (bitmap e))) (Z.to_nat (capacity e))).
    pose proof (free_below_bounds (BIT_TST (bitmap e)) (Z.to_nat (capacity e))).
    unfold usable_end, usable_start, PAGE_SIZE in *. lia. }
  split; [|split; [done|split; [done|]]].
  - split; try done.
    + eapply covers_length; [|done]. done.
    + rewrite Hav, we_avail0. subst e'. simpl. rewrite S4 by lia. done.
  - intros i. unfold frame_free. subst e'. simpl. split.
    + intros [Hi Ht]. rewrite S3 in Ht by lia. bool_prop.
      split; [done|]. intros Hin. destruct H; bool_prop; lia.
    + intros [[Hi Ht] Hout]. split; [done|]. rewrite S3, Ht by lia.
      destruct (start <=? i) eqn:?, (i <? start + n) eqn:?; bool_prop; done || lia.
Qed.

Lemma with_bitmap_frame e bm a : same_frame e (with_bitmap e bm a).
Proof. done. Qed.

(** One step of [paging_mark_entry_available] frees one frame, once. *)
Lemma mark_available_step_spec e start i :
  wf_entry e -> 0 <= start + i < capacity e ->
  let e' := mark_available_step start i e in
  wf_entry e' /\ same_frame e e' /\ search_cursor e' = search_cursor e /\
  available_pages e' = available_pages e + (if BIT_TST (bitmap e) (start + i) then 1 else 0) /\
  (forall k, frame_free e' k <-> frame_free e k \/ k = start + i).
Proof.
  intros Hwf Hi e'. pose proof Hwf as []. subst e'. unfold mark_available_step.
  destruct (BIT_TST (bitmap e) (start + i)) eqn:Et.
  - assert (Hcov : covers (bitmap e) (start + i + 1)) by (eapply covers_le; [done|lia]).
    assert (Hcnt : free_below (BIT_TST (BIT_CLR (bitmap e) (start + i))) (Z.to_nat (capacity e)) =
      free_below (BIT_TST (bitmap e)) (Z.to_nat (capacity e)) + 1).
    { rewrite (free_below_update (BIT_TST (bitmap e)) _ (start + i) false); [rewrite Et; lia| |lia].
      intros j Hj. rewrite BIT_TST_CLR by (done || lia). by case_if. }
    pose proof (free_below_bounds (BIT_TST (BIT_CLR (bitmap e) (start + i))) (Z.to_nat (capacity e))).
    assert (Hav : available_pages e +w 1 = available_pages e + 1).
    { apply wrap64_small. unfold usable_end, usable_start, PAGE_SIZE in *. lia. }
    split_and!; simpl; try done.
    + split; simpl; try done; [|auto with bleed|lia].
      eapply covers_length; [apply length_BIT_CLR|done].
    + intros k. unfold frame_free; simpl. split.
      * intros [Hk Ht]. rewrite BIT_TST_CLR in Ht by (done || lia).
        bool_prop. destruct Ht as [Ht|Ht]; bool_prop; [by right | by left].
      * intros [[Hk Ht]| ->]; (split; [lia|]); rewrite BIT_TST_CLR by (done || lia).
        -- rewrite Ht. apply andb_false_r.
        -- by rewrite Z.eqb_refl.
  - split_and!; try done; [lia|]. intros k. split; [by left|].
    intros [?| ->]; [done|]. by split.
Qed.

Lemma mark_available_spec e start n :
  wf_entry e -> 0 <= start -> 0 <= n -> start + n <= capacity e ->
  let e' := paging_mark_entry_available e start n in
  wf_entry e' /\ same_frame e e' /\ search_cursor e' = search_cursor e /\
  (forall k, frame_free e' k <-> frame_free e k \/ start <= k < start + n).
Proof.
  intros Hwf H0 Hn Hle e'. subst e'. unfold paging_mark_entry_available.
  pose (I m e' := wf_entry e' /\ same_frame e e' /\ search_cursor e' = search_cursor e /\
    (forall k, frame_free e' k <-> frame_free e k \/ start <= k < start + m)).
  enough (HI : I (0 + Z.of_nat (Z.to_nat n))
    (for_range (Z.to_nat n) 0 (mark_available_step start) e))
    by (by rewrite Z.add_0_l, Z2Nat.id in HI).
  apply for_range_inv.
  - split_and!; try done. intros k. split; [by left|]. intros [?|?]; [done|lia].
  - intros k e1 Hk (I1 & I2 & I3 & I4).
    destruct (mark_available_step_spec e1 start k) as (T1 & T2 & T3 & _ & T4); [done| |].
    { destruct I2 as (_ & _ & <-). lia. }
    split; [done|]. split; [unfold same_frame in *; intuition congruence|].
    split; [by rewrite T3|]. intros j. rewrite T4, I4. intuition lia.
Qed.

(** Freeing frames that are all in use gives exactly that many back. *)
Lemma mark_available_count e start n :
  wf_entry e -> 0 <= start -> 0 <= n -> start + n <= capacity e ->
  (forall k, start <= k < start + n -> BIT_TST (bitmap e) k = true) ->
  available_pages (paging_mark_entry_available e start n) = available_pages e + n.
Proof.
  intros Hwf H0 Hn Hle Hu. unfold paging_mark_entry_available.
  pose (I m e' := wf_entry e' /\ same_frame e e' /\ available_pages e' = available_pages e + m /\
    (forall k, start + m <= k < start + n -> BIT_TST (bitmap e') k = true)).
  enough (HI : I (0 + Z.of_nat (Z.to_nat n))
    (for_range (Z.to_nat n) 0 (mark_available_step start) e)) by (destruct HI as (_ & _ & H & _); lia).
  apply for_range_inv.
  - split_and!; try done; [lia|]. intros k Hk. apply Hu. lia.
  - intros k e1 Hk (I1 & I2 & I3 & I4).
    assert (Hcap : capacity e1 = capacity e) by (by destruct I2 as (_ & _ & ?)).
    destruct (mark_available_step_spec e1 start k) as (T1 & T2 & _ & T3 & T4); [done|lia|].
    split_and!; try done.
    + unfold same_frame in *. intuition congruence.
    + rewrite T3, (I4 (start + k)) by lia. lia.
    + intros j Hj. destruct (BIT_TST _ j) eqn:E; [done|].
      assert (Hf : frame_free (mark_available_step start k e1) j)
        by (split; [|done]; destruct T2 as (_ & _ & <-); lia).
      apply T4 in Hf as [[_ Hf]| ->]; [|lia]. by rewrite I4 in Hf by lia.
Qed.

Lemma with_cursor_wf e c : wf_entry e -> 0 <= c < capacity e -> wf_entry (with_cursor e c).
Proof. intros [] Hc. by split. Qed.

(** [paging_bitmap_find_free]: a free run inside the region, or neither side of the cursor has one. *)
Lemma find_free_spec e count :
  wf_entry e -> 0 < count ->
  let '(start, e') := paging_bitmap_find_free e count in
  (0 <= start /\ fits (bitmap e) count 0 (capacity e) start /\ wf_entry e' /\
     exists c, e' = with_cursor e c) \/
  (start = -1 /\ e' = e /\
     (forall s, ~ fits (bitmap e) count (search_cursor e) (capacity e) s) /\
     (forall s, ~ fits (bitmap e) count 0 (search_cursor e) s)).
Proof.
  intros Hwf Hc. pose proof Hwf as []. unfold paging_bitmap_find_free.
  assert (Hlong : forall lo hi s, hi - lo < count -> ~ fits (bitmap e) count lo hi s)
    by (intros lo hi s ? (? & ? & _); lia).
  destruct ((count =? 0) || (capacity e <? count)) eqn:E0.
  { right. split_and!; try done; intros s; apply Hlong; bool_prop;
      destruct E0; bool_prop; lia. }
  destruct (capacity e <=? search_cursor e) eqn:E1; bool_prop; [lia|].
  set (r1 := paging_bitmap_find_free_in_range e count (search_cursor e) (capacity e)).
  set (r2 := paging_bitmap_find_free_in_range e count 0 (search_cursor e)).
  assert (Hok : forall s, fits (bitmap e) count 0 (capacity e) s ->
    wf_entry (with_cursor e (if capacity e <=? s + count then 0 else s + count))).
  { intros s (? & ? & _). apply with_cursor_wf; [done|]. case_if; lia. }
  assert (Hsub1 : forall s, fits (bitmap e) count (search_cursor e) (capacity e) s ->
    fits (bitmap e) count 0 (capacity e) s) by (intros s (? & ? & ?); split_and!; done || lia).
  assert (Hsub2 : forall s, fits (bitmap e) count 0 (search_cursor e) s ->
    fits (bitmap e) count 0 (capacity e) s) by (intros s (? & ? & ?); split_and!; done || lia).
  destruct (find_free_in_range_spec e count (search_cursor e) (capacity e)) as [[R0 [RF _]]|[R0 RF]];
    [done|lia|done|fold r1 in R0, RF..].
  - destruct (r1 <? 0) eqn:E3; bool_prop; [lia|]. simpl.
    destruct (0 <=? r1) eqn:E4; bool_prop; [|lia].
    left. split_and!; try done; [by apply Hsub1 | by apply Hok, Hsub1 | by eexists].
  - rewrite R0. simpl. destruct (search_cursor e =? 0) eqn:E3; simpl; bool_prop.
    { right. split_and!; try done. intros s. apply Hlong. lia. }
    destruct (find_free_in_range_spec e count 0 (search_cursor e)) as [[Q0 [QF _]]|[Q0 QF]];
      [done|lia|done|fold r2 in Q0, QF..].
    + destruct (0 <=? r2) eqn:E4; bool_prop; [|lia].
      left. split_and!; try done; [by apply Hsub2 | by apply Hok, Hsub2 | by eexists].
    + rewrite Q0. simpl. by right.
Qed.

(** ** Allocation *)

(** Range membership of a frame address. *)
Definition in_range (p n q : Z) : Prop := exists k, 0 <= k < n /\ q = p + k * PAGE_SIZE.

Lemma wf_pmm_replace st e e' :
  same_frame e e' -> wf_entry e' -> wf_pmm (e :: st) -> wf_pmm (e' :: st).
Proof.
  intros Hs He' Hwf. inversion Hwf; subst. constructor; [done| |done].
  eapply list.Forall_impl; [eassumption|]. intros f. unfold disjoint_entries.
  destruct (same_frame_usable _ _ Hs) as [-> ->]. done.
Qed.

Lemma same_frame_disjoint (l l' : list bitmap_entry) e :
  Forall2 same_frame l l' -> Forall (disjoint_entries e) l -> Forall (disjoint_entries e) l'.
Proof.
  induction 1 as [|f f' l l' Hf _ IH]; intros Hd; [done|].
  inversion Hd; subst. constructor; [|auto].
  unfold disjoint_entries in *. destruct (same_frame_usable _ _ Hf) as [<- <-]. done.
Qed.

(** Addresses of distinct regions differ. *)
Lemma disjoint_free e f p :
  disjoint_entries e f -> usable_start e <= p < usable_end e -> ~ entry_free f p.
Proof.
  intros Hd Hp (i & [Hi _] & ->). unfold disjoint_entries, usable_end, PAGE_SIZE in *.
  destruct Hd; lia.
Qed.

Lemma entry_free_usable e p : entry_free e p -> usable_start e <= p < usable_end e.
Proof. intros (i & [Hi _] & ->). unfold usable_end, PAGE_SIZE. lia. Qed.

Lemma same_frame_refl e : same_frame e e.
Proof. done. Qed.

#[export] Hint Resolve same_frame_refl : bleed.

Lemma same_frames_refl l : Forall2 same_frame l l.
Proof. induction l; constructor; auto with bleed. Qed.

(** The free frames of all regions, not wrapped. *)
Definition total_free (regions : list bitmap_entry) : Z :=
  foldr (fun e acc => available_pages e + acc) 0 regions.

(** What an allocation of [n] frames at [p] in region [e] did. *)
Record allocated (st st' : list bitmap_entry) (p n : Z) : Prop := {
  al_region : exists e, e ∈ st /\ usable_start e <= p /\ p + n * PAGE_SIZE <= usable_end e;
  al_aligned : p `mod` PAGE_SIZE = 0;
  al_nonnull : 0 < p;
  al_was_free : forall q, in_range p n q -> pmm_free st q;
  al_free : forall q, pmm_free st' q <-> pmm_free st q /\ ~ in_range p n q;
  al_count : total_free st' = total_free st - n;
}.

(** Allocating at frame [start] of the head region. *)
Lemma alloc_head st e e1 start n :
  wf_pmm (e :: st) -> wf_entry e1 -> (exists c, e1 = with_cursor e c) -> 0 < n ->
  fits (bitmap e) n 0 (capacity e) start ->
  let st' := paging_mark_entry_unavailable e1 start n :: st in
  wf_pmm st' /\ Forall2 same_frame (e :: st) st' /\
  allocated (e :: st) st' (frame_paddr e1 start) n.
Proof.
  intros Hwf He1 [c ->] Hn (F1 & F2 & F3). inversion Hwf as [|? ? He Hd Hst]; subst.
  set (e1 := with_cursor e c) in *. rewrite frame_paddr_eq by (done || simpl; lia).
  destruct (mark_unavailable_spec e1 start n) as (M1 & M2 & M3 & M4); [done|lia|lia|done..|].
  set (e2 := paging_mark_entry_unavailable e1 start n) in *.
  change (usable_start e1) with (usable_start e).
  assert (H2 : entry_free e2 = fun q => exists i, frame_free e2 i /\ q = usable_start e + i * PAGE_SIZE)
    by done.
  assert (Hrange : forall q, in_range (usable_start e + start * PAGE_SIZE) n q ->
    entry_free e q /\ ~ entry_free e2 q).
  { intros q (k & Hk & ->). split.
    - exists (start + k). split; [split; [lia|]; apply F3; lia | lia].
    - rewrite H2. intros (i & Hi & E). unfold PAGE_SIZE in E.
      apply M4 in Hi as [_ Hi]. apply Hi. lia. }
  split; [by eapply (wf_pmm_replace _ e)|]. split; [constructor; [done | apply same_frames_refl]|].
  pose proof He as []. split.
  - exists e. split; [left|]. unfold usable_end, PAGE_SIZE. lia.
  - unfold usable_start, PAGE_SIZE in *. zlia.
  - unfold usable_start, PAGE_SIZE. lia.
  - intros q Hq. left. by apply Hrange.
  - intros q. unfold pmm_free. rewrite !Exists_cons. split.
    + intros [(i & Hi & ->)|Hq].
      * apply M4 in Hi as [Hi Hout]. split; [left; by exists i|].
        intros (k & Hk & E). change (usable_start e2) with (usable_start e) in E.
        unfold PAGE_SIZE in E. apply Hout. lia.
      * split; [by right|]. intros Hin. apply Hrange in Hin as [Hin _].
        apply list.Exists_exists in Hq as (f & Hf & Hq).
        apply (disjoint_free e f q); [|by apply entry_free_usable|done].
        by apply (proj1 (list.Forall_forall _ _) Hd).
    + intros [[(i & Hi & ->)|Hq] Hout]; [left|by right].
      exists i. split; [|done]. apply M4. split; [done|].
      intros Hin. apply Hout. exists (i - start). unfold PAGE_SIZE. lia.
  - unfold total_free. cbn [foldr]. rewrite M3.
    change (available_pages e1) with (available_pages e). lia.
Qed.

Lemma try_alloc_regions_spec st n :
  wf_pmm st -> 0 < n ->
  let '(p, st') := try_alloc_regions st n in
  wf_pmm st' /\ Forall2 same_frame st st' /\
  ((p = 0 /\ st' = st) \/ allocated st st' p n).
Proof.
  intros Hwf Hn. induction Hwf as [|e l He Hd Hl IH]; simpl.
  { split; [constructor|]. split; [constructor|]. by left. }
  assert (Hnext : let '(p, st') := (let '(p, l') := try_alloc_regions l n in (p, e :: l')) in
    wf_pmm st' /\ Forall2 same_frame (e :: l) st' /\
    ((p = 0 /\ st' = e :: l) \/ allocated (e :: l) st' p n)).
  { destruct (try_alloc_regions l n) as [p l'].
    destruct IH as (I1 & I2 & I3). split_and!.
    - constructor; [done| |done]. by eapply same_frame_disjoint.
    - by constructor; auto with bleed.
    - destruct I3 as [[-> ->]|[(f & Hf & Hr) A2 A3 A4 A5 A6]]; [by left|right].
      assert (Hno : forall q, in_range p n q -> ~ entry_free e q).
      { intros q (k & Hk & ->) Hq. apply entry_free_usable in Hq.
        apply (proj1 (list.Forall_forall _ _) Hd) in Hf.
        unfold PAGE_SIZE in *. destruct Hf; lia. }
      split; try done.
      + exists f. split; [by right|done].
      + intros q Hq. right. by apply A4.
      + intros q. unfold pmm_free in *. rewrite !Exists_cons, A5.
        specialize (Hno q). tauto.
      + simpl. lia. }
  case_if; [done|].
  pose proof (find_free_spec e n He Hn) as Hf.
  destruct (paging_bitmap_find_free e n) as [start e1].
  destruct Hf as [(F0 & F1 & F2 & F3)|(-> & -> & _)]; [|done].
  destruct (start <? 0) eqn:E; bool_prop; [lia|].
  destruct (alloc_head l e e1 start n) as (A1 & A2 & A3); try done; [by constructor|].
  split_and!; try done. by right.
Qed.

Lemma pmm_try_alloc_ok st n :
  wf_pmm st -> 0 < n ->
  let '(p, st') := pmm_try_alloc_pages st n in
  wf_pmm st' /\ Forall2 same_frame st st' /\
  ((p = 0 /\ st' = st) \/ allocated st st' p n).
Proof.
  intros Hwf Hn. unfold pmm_try_alloc_pages.
  destruct (n =? 0) eqn:E; bool_prop; [lia|]. by apply try_alloc_regions_spec.
Qed.

Lemma frame_paddr_nonzero e i : wf_entry e -> 0 <= i <= capacity e -> frame_paddr e i <> 0.
Proof.
  intros He Hi. rewrite frame_paddr_eq by done. destruct He.
  unfold usable_start, PAGE_SIZE in *. lia.
Qed.

(** A region that fails to give a single frame has none. *)
Lemma find_one_complete e e1 :
  wf_entry e -> paging_bitmap_find_free e 1 = (-1, e1) -> e1 = e /\ forall p, ~ entry_free e p.
Proof.
  intros He Hff. pose proof (find_free_spec e 1 He ltac:(lia)) as Hf. rewrite Hff in Hf.
  destruct Hf as [(? & _)|(_ & -> & F3 & F4)]; [lia|]. split; [done|].
  intros p (i & [Hi Ht] & _).
  assert (Hone : all_free (bitmap e) i (i + 1)) by (intros j Hj; by replace j with i by lia).
  destruct (Z.le_gt_cases (search_cursor e) i);
    [apply (F3 i) | apply (F4 i)]; by split_and!; try lia.
Qed.

(** A failed single-frame allocation means no frame is free. *)
Lemma try_alloc_one_complete st :
  wf_pmm st -> (try_alloc_regions st 1).1 = 0 -> forall q, ~ pmm_free st q.
Proof.
  induction 1 as [|e l He Hd Hl IH]; intros Hal q; [intros Hq; inversion Hq|].
  unfold pmm_free. rewrite Exists_cons. cbn [try_alloc_regions] in Hal.
  assert (Hrest : forall e', (let '(p, l') := try_alloc_regions l 1 in (p, e' :: l')).1 = 0 ->
    ~ pmm_free l q).
  { intros e' H'. apply IH. by destruct (try_alloc_regions l 1). }
  destruct (available_pages e <? 1) eqn:Ea; bool_prop.
  - intros [(i & [Hi Ht] & ->)|Hq]; [|by eapply Hrest].
    destruct He. pose proof (free_below_pos (BIT_TST (bitmap e)) (Z.to_nat (capacity e)) i
      ltac:(lia) Ht). lia.
  - pose proof (find_free_spec e 1 He ltac:(lia)) as Hf.
    destruct (paging_bitmap_find_free e 1) as [start e1] eqn:Eff.
    destruct Hf as [(F0 & (_ & F1 & _) & F2 & [c ->])|(-> & _)].
    + destruct (start <? 0) eqn:E; bool_prop; [lia|]. cbn [fst] in Hal.
      by apply frame_paddr_nonzero in Hal; [| |simpl; lia].
    + apply find_one_complete in Eff as [-> Hno]; [|done]. change (-1 <? 0) with true in Hal.
      intros [?|?]; [by eapply Hno | by eapply Hrest].
Qed.

(** ** Freeing *)

(** The frames [pmm_free_pages(p, n)] gives back in region [e]: from the frame holding [p]
    to [n] frames on, cut at the end of the region. *)
Definition freed_frames (e : bitmap_entry) (p n q : Z) : Prop :=
  exists i, (p - usable_start e) / PAGE_SIZE <= i <
              Z.min ((p - usable_start e) / PAGE_SIZE + n) (capacity e) /\
            q = usable_start e + i * PAGE_SIZE.

Lemma usable_start_eq e :
  wf_entry e -> region_base e +w header_pages e * PAGE_SIZE = usable_start e /\
  usable_start e +w capacity e * PAGE_SIZE = usable_end e.
Proof.
  intros []. unfold usable_end, usable_start, PAGE_SIZE in *. by rewrite !wrap64_small by lia.
Qed.

(** [pmm_free_pages] in the region that holds the address. *)
Lemma free_head e p n :
  wf_entry e -> usable_start e <= p < usable_end e -> 0 <= n < 2 ^ 63 ->
  let idx := (p - usable_start e) / PAGE_SIZE in
  let n' := if capacity e <? idx +w n then capacity e - idx else n in
  let e1 := paging_mark_entry_available e idx n' in
  let e2 := if idx <? search_cursor e1 then with_cursor e1 idx else e1 in
  wf_entry e2 /\ same_frame e e2 /\
  (forall q, entry_free e2 q <-> entry_free e q \/ freed_frames e p n q) /\
  ((forall q, freed_frames e p n q -> ~ entry_free e q) ->
   available_pages e2 = available_pages e + n').
Proof.
  intros He Hp Hn idx n' e1 e2.
  assert (Hidx : 0 <= idx < capacity e).
  { subst idx. unfold usable_end, PAGE_SIZE in *. zlia. }
  assert (Hcap : capacity e < 2 ^ 52).
  { destruct He. unfold usable_end, usable_start, PAGE_SIZE in *. lia. }
  assert (Hn' : 0 <= n' /\ idx + n' = Z.min (idx + n) (capacity e)).
  { subst n'. rewrite wrap64_small by lia. case_if; lia. }
  destruct (mark_available_spec e idx n') as (M1 & M2 & M3 & M4); [done|lia..|].
  fold e1 in M1, M2, M3, M4. pose proof M2 as (_ & _ & Mc).
  destruct He. assert (He2 : wf_entry e2 /\ same_frame e e2 /\ bitmap e2 = bitmap e1 /\
    capacity e2 = capacity e /\ available_pages e2 = available_pages e1).
  { subst e2. case_if; split_and!; try done. apply with_cursor_wf; [done|lia]. }
  destruct He2 as (W1 & W2 & W3 & W4 & W5).
  split; [done|]. split; [done|]. split.
  - intros q. unfold entry_free, freed_frames. destruct (same_frame_usable _ _ W2) as [<- _].
    assert (Hff : forall i, frame_free e2 i <-> frame_free e1 i)
      by (intros; unfold frame_free; by rewrite W3, W4, Mc).
    setoid_rewrite Hff. setoid_rewrite M4. fold idx. split.
    + intros (i & [Hi|Hi] & ->); [left; by exists i | right; exists i; split; [lia|done]].
    + intros [(i & Hi & ->)|(i & Hi & ->)]; exists i; split; auto. right. lia.
  - intros Hnf. rewrite W5. apply mark_available_count; try done; try lia.
    intros k Hk. destruct (BIT_TST (bitmap e) k) eqn:E; [done|].
    exfalso. eapply Hnf; [exists k; split; [|done]; fold idx; lia|].
    exists k. split; [|done]. split; [lia|done].
Qed.

Lemma pmm_free_pages_spec st p n :
  wf_pmm st -> 0 <= n < 2 ^ 63 ->
  let st' := pmm_free_pages st p n in
  wf_pmm st' /\ Forall2 same_frame st st' /\
  (forall q, pmm_free st' q <-> pmm_free st q \/
     exists e, e ∈ st /\ usable_start e <= p < usable_end e /\ freed_frames e p n q).
Proof.
  intros Hwf Hn. induction Hwf as [|e l He Hd Hl IH]; simpl.
  { split; [constructor|]. split; [constructor|]. intros q. split; [by left|].
    intros [?|(e & He & _)]; [done|]. by apply not_elem_of_nil in He. }
  destruct (usable_start_eq e He) as [-> ->].
  destruct ((p <? usable_start e) || (usable_end e <=? p)) eqn:E; bool_prop.
  - assert (Hout : ~ (usable_start e <= p < usable_end e)) by (destruct E; bool_prop; lia).
    destruct IH as (I1 & I2 & I3). split_and!.
    + constructor; [done| |done]. by eapply same_frame_disjoint.
    + constructor; auto with bleed.
    + intros q. unfold pmm_free in *. rewrite !Exists_cons, I3. split.
      * intros [?|[?|(f & Hf & ?)]]; [by left; left | by left; right |].
        right. exists f. split; [by right|done].
      * intros [[?|?]|(f & Hf & Hr & Hfr)]; [by left | by right; left |].
        apply elem_of_cons in Hf as [->|Hf]; [done|]. right. right. by exists f.
  - destruct (free_head e p n He ltac:(lia) Hn) as (F1 & F2 & F3 & _).
    split; [apply (wf_pmm_replace l e); [done|done|by constructor]|].
    split; [constructor; [done | apply same_frames_refl]|].
    intros q. unfold pmm_free. rewrite !Exists_cons, F3. split.
    + intros [[?|?]|?]; [by left; left | | by left; right].
      right. exists e. split; [by left|]. split; [lia|done].
    + intros [[?|?]|(f & Hf & Hr & Hfr)]; [by left; left | by right |].
      left. right. apply elem_of_cons in Hf as [->|Hf]; [done|].
      apply (proj1 (list.Forall_forall _ _) Hd) in Hf. destruct Hf; lia.
Qed.

(** ** Initialisation *)

(** A boot memory map whose usable entries do not wrap. *)
Definition memmap_entry_ok (e : gbi_memmap_entry) : Prop :=
  0 <= gme_base e /\ 0 <= gme_length e /\ gme_base e + gme_length e + PAGE_SIZE < 2 ^ 64.

(** The usable entries of the memory map are disjoint. *)
Definition memmap_disjoint (e f : gbi_memmap_entry) : Prop :=
  gme_base e + gme_length e <= gme_base f \/ gme_base f + gme_length f <= gme_base e.

Inductive wf_memmap : list gbi_memmap_entry -> Prop :=
  | wf_memmap_nil : wf_memmap []
  | wf_memmap_cons e l :
      memmap_entry_ok e -> Forall (memmap_disjoint e) l -> wf_memmap l -> wf_memmap (e :: l).

Lemma BIT_TST_zero n i : BIT_TST (replicate n 0) i = false.
Proof.
  rewrite BIT_TST_spec. unfold byte_at.
  destruct (replicate n 0 !! Z.to_nat (i / 8)) as [b|] eqn:E; simpl; [|apply Z.bits_0].
  apply lookup_replicate in E as [-> _]. apply Z.bits_0.
Qed.

Lemma free_below_all n u : (forall j, 0 <= j < Z.of_nat n -> u j = false) -> free_below u n = Z.of_nat n.
Proof.
  induction n as [|n IH]; intros H; simpl; [done|]. rewrite H, IH by (try intros; try apply H; lia). lia.
Qed.

(** A region [pmm_init] keeps lies inside its memory map entry; its free frames are the ones
    from index [header_pages] on. *)
Lemma pmm_init_region_spec r e :
  memmap_entry_ok r -> pmm_init_region r = Some e ->
  wf_entry e /\ is_usable r = true /\
  gme_base r <= region_base e /\ usable_end e <= gme_base r + gme_length r /\
  gme_base r + gme_length r < usable_end e + PAGE_SIZE /\
  available_pages e = capacity e - header_pages e /\
  (forall i, frame_free e i <-> header_pages e <= i < capacity e).
Proof.
  intros (R1 & R2 & R3) Hr. unfold pmm_init_region in Hr.
  destruct (is_usable r) eqn:Eu; simpl in Hr; [|done].
  unfold PAGE_ALIGN_UP, PAGE_ALIGN_DOWN in Hr.
  rewrite !wrap64_small in Hr by (unfold PAGE_SIZE in *; lia).
  set (rb := (gme_base r + (PAGE_SIZE - 1)) / PAGE_SIZE * PAGE_SIZE) in *.
  set (re := (gme_base r + gme_length r) / PAGE_SIZE * PAGE_SIZE) in *.
  set (tp := (re - rb) / PAGE_SIZE) in *.
  set (hp := (sizeof_bitmap_entry + (tp + 7) / 8 + PAGE_SIZE - 1) / PAGE_SIZE) in *.
  destruct (re <=? rb) eqn:E1; [done|]. destruct (tp <? hp + PMM_MIN_REGION_PAGES) eqn:E2; [done|].
  bool_prop. simplify_eq.
  assert (Hrb : rb `mod` PAGE_SIZE = 0 /\ gme_base r <= rb /\ 0 <= rb) by (subst rb; unfold PAGE_SIZE; zlia).
  assert (Hre : re <= gme_base r + gme_length r < re + PAGE_SIZE) by (subst re; unfold PAGE_SIZE; zlia).
  assert (Htp : re = rb + tp * PAGE_SIZE) 
    by (subst tp re rb; rewrite <- Z.mul_sub_distr_r, Z.div_mul by done; lia).
  assert (Hhp : 1 <= hp /\ hp <= tp - hp).
  { subst hp. unfold PMM_MIN_REGION_PAGES, sizeof_bitmap_entry, PAGE_SIZE in *. zlia. }
  set (e0 := {| region_base := rb; header_pages := hp; capacity := tp - hp; available_pages := tp - hp;
     search_cursor := 0; bitmap := replicate (Z.to_nat ((tp + 7) / 8)) 0 |}).
  assert (Hz : forall i, BIT_TST (bitmap e0) i = false) by (intros; apply BIT_TST_zero).
  assert (He0 : wf_entry e0).
  { split; simpl; try lia.
    - unfold covers. rewrite length_replicate. zlia.
    - apply Forall_replicate. lia.
    - rewrite free_below_all by (intros; apply BIT_TST_zero). lia.
    - unfold usable_end, usable_start, PAGE_SIZE in *. simpl. lia. }
  destruct (mark_unavailable_spec e0 0 hp) as (M1 & M2 & M3 & M4); try done; try (simpl; lia).
  { intros j _. apply Hz. }
  destruct (same_frame_usable _ _ M2) as [U1 U2].
  split_and!; try done.
  - simpl. lia.
  - rewrite <- U2. unfold usable_end, usable_start, PAGE_SIZE in *. simpl. lia.
  - rewrite <- U2. unfold usable_end, usable_start, PAGE_SIZE in *. simpl. lia.
  - intros i. rewrite M4. unfold frame_free. rewrite Hz. simpl. intuition lia.
Qed.

Lemma pmm_init_ok memmap :
  wf_memmap memmap -> wf_pmm (pmm_init memmap).
Proof.
  unfold pmm_init. induction 1 as [|r l Hr Hd Hl IH]; simpl; [constructor|].
  destruct (pmm_init_region r) as [e|] eqn:Ee; [|done].
  destruct (pmm_init_region_spec r e Hr Ee) as (S1 & _ & S2 & S3 & _).
  constructor; [done| |done]. apply list.Forall_forall. intros f Hf.
  apply list_elem_of_omap in Hf as (r' & Hr' & Ef).
  assert (Hok : memmap_entry_ok r').
  { clear -Hl Hr'. induction Hl as [|? ? ? ? ? IH]; [by apply not_elem_of_nil in Hr'|].
    apply elem_of_cons in Hr' as [->|?]; auto. }
  destruct (pmm_init_region_spec r' f Hok Ef) as (T1 & _ & T2 & T3 & _).
  apply (proj1 (list.Forall_forall _ _) Hd) in Hr'.
  destruct S1, T1. unfold disjoint_entries, memmap_disjoint, usable_end, usable_start, PAGE_SIZE in *.
  destruct Hr'; lia.
Qed.

(** A block inside one region comes back in full. *)
Lemma pmm_free_pages_total st e p n :
  wf_pmm st -> e ∈ st -> usable_start e <= p -> p + n * PAGE_SIZE <= usable_end e ->
  0 < n < 2 ^ 63 -> (p - usable_start e) `mod` PAGE_SIZE = 0 ->
  (forall q, in_range p n q -> ~ pmm_free st q) ->
  total_free (pmm_free_pages st p n) = total_free st + n.
Proof.
  intros Hwf He Hs Hend Hn Hal Hnf. induction Hwf as [|f l Hf Hd Hl IH]; simpl.
  { by apply not_elem_of_nil in He. }
  destruct (usable_start_eq f Hf) as [-> ->].
  assert (Hnf' : forall q, in_range p n q -> ~ entry_free f q /\ ~ pmm_free l q).
  { intros q Hq. specialize (Hnf q Hq). unfold pmm_free in *. rewrite Exists_cons in Hnf. tauto. }
  apply elem_of_cons in He as [->|He].
  - destruct ((p <? usable_start f) || (usable_end f <=? p)) eqn:E; bool_prop.
    { unfold PAGE_SIZE in *. destruct E; bool_prop; lia. }
    destruct (free_head f p n Hf ltac:(lia) ltac:(lia)) as (_ & _ & _ & F4).
    set (e2 := if _ <? search_cursor _ then _ else _) in *. unfold total_free in *. cbn [foldr].
    rewrite F4.
    + rewrite wrap64_small; [case_if|]; unfold usable_end, PAGE_SIZE in *; destruct Hf;
        unfold usable_end, usable_start, PAGE_SIZE in *; zlia.
    + intros q (i & Hi & ->). apply Hnf'. exists (i - (p - usable_start f) / PAGE_SIZE).
      unfold PAGE_SIZE in *. zlia.
  - destruct ((p <? usable_start f) || (usable_end f <=? p)) eqn:E; bool_prop.
    + unfold total_free in *. cbn [foldr]. rewrite IH; [lia|done|].
      intros q Hq. by apply Hnf'.
    + apply (proj1 (list.Forall_forall _ _) Hd) in He. unfold PAGE_SIZE in *. destruct He; lia.
Qed.

Lemma Forall2_same_frame_elem (st st' : list bitmap_entry) e :
  Forall2 same_frame st st' -> e ∈ st -> exists e', e' ∈ st' /\ same_frame e e'.
Proof.
  induction 1 as [|x y l l' Hxy _ IH]; intros He; [by apply not_elem_of_nil in He|].
  apply elem_of_cons in He as [->|He]; [exists y; split; [left|done]|].
  destruct (IH He) as (e' & ? & ?). exists e'. split; [by right|done].
Qed.

Lemma wf_pmm_elem st e : wf_pmm st -> e ∈ st -> wf_entry e.
Proof.
  induction 1; intros He; [by apply not_elem_of_nil in He|].
  apply elem_of_cons in He as [->|?]; auto.
Qed.

(** An address belongs to one region. *)
Lemma wf_pmm_unique st e f p :
  wf_pmm st -> e ∈ st -> f ∈ st ->
  usable_start e <= p < usable_end e -> usable_start f <= p < usable_end f -> e = f.
Proof.
  induction 1 as [|x l Hx Hd Hl IH]; intros He Hf Hpe Hpf; [by apply not_elem_of_nil in He|].
  apply elem_of_cons in He as [->|He]; apply elem_of_cons in Hf as [->|Hf]; auto.
  - apply (proj1 (list.Forall_forall _ _) Hd) in Hf. destruct Hf; lia.
  - apply (proj1 (list.Forall_forall _ _) Hd) in He. destruct He; lia.
Qed.

#[export] Instance in_range_dec p n q : Decision (in_range p n q).
Proof.
  refine (cast_if (decide ((q - p) `mod` PAGE_SIZE = 0 /\ 0 <= (q - p) / PAGE_SIZE < n)));
    unfold in_range, PAGE_SIZE in *.
  - abstract (exists ((q - p) / 4096); zlia).
  - abstract (intros (k & Hk & ->); zlia).
Defined.

(** The frames freed for an aligned block inside a region are the block. *)
Lemma freed_frames_range e p n q :
  usable_start e <= p -> p + n * PAGE_SIZE <= usable_end e ->
  (p - usable_start e) `mod` PAGE_SIZE = 0 ->
  freed_frames e p n q <-> in_range p n q.
Proof.
  intros Hs Hend Hal. unfold freed_frames, in_range, usable_end, PAGE_SIZE in *. split.
  - intros (i & Hi & ->). exists (i - (p - usable_start e) / 4096). zlia.
  - intros (k & Hk & ->). exists ((p - usable_start e) / 4096 + k). zlia.
Qed.

(** ** Properties *)

(** The optimised scan [paging_bitmap_find_free_in_range], which skips whole words and
    bytes that are all used or all free, is a first fit: it returns the lowest index of
    [[begin, end)] where [count] consecutive frames are free, and [-1] exactly when there is
    none. *)
Lemma pmm_scan_first_fit e count begin end_ :
  bytes_ok (bitmap e) -> 0 <= begin -> 0 < count ->
  let r := paging_bitmap_find_free_in_range e count begin end_ in
  (0 <= r /\ first_fit (bitmap e) count begin end_ r) \/
  (r = -1 /\ forall s, ~ fits (bitmap e) count begin end_ s).
Proof. apply find_free_in_range_spec. Qed.

(** C3. [pmm_alloc_pages] refines the abstract allocator.  It keeps the regions well formed;
    it either returns 0 and changes nothing, or returns a non-null page-aligned address whose
    [n] frames lie in one region, were all free, and are exactly the frames that leave the
    free set, the count of available frames dropping by [n]. *)
Theorem pmm_alloc_refines st n :
  wf_pmm st -> 0 < n ->
  let '(p, st') := pmm_alloc_pages st n in
  wf_pmm st' /\ Forall2 same_frame st st' /\
  ((p = 0 /\ st' = st) \/ allocated st st' p n).
Proof. apply pmm_try_alloc_ok. Qed.

(** C5. [pmm_free_pages] refines the abstract allocator: the regions stay well formed (a
    double free does not inflate [available_pages]), and the free set grows by exactly the
    frames of the range that lie in the region holding the address. *)
Theorem pmm_free_refines st p n :
  wf_pmm st -> 0 <= n < 2 ^ 63 ->
  let st' := pmm_free_pages st p n in
  wf_pmm st' /\ Forall2 same_frame st st' /\
  (forall q, pmm_free st' q <-> pmm_free st q \/
     exists e, e ∈ st /\ usable_start e <= p < usable_end e /\ freed_frames e p n q).
Proof. apply pmm_free_pages_spec. Qed.

(** Freeing what an allocation returned restores the free set and the number of
    available frames. *)
Lemma pmm_alloc_free_roundtrip st n p st1 :
  wf_pmm st -> 0 < n < 2 ^ 63 -> pmm_alloc_pages st n = (p, st1) -> p <> 0 ->
  let st2 := pmm_free_pages st1 p n in
  (forall q, pmm_free st2 q <-> pmm_free st q) /\ total_free st2 = total_free st.
Proof.
  intros Hwf Hn Hal Hp st2. pose proof (pmm_try_alloc_ok st n Hwf ltac:(lia)) as H.
  unfold pmm_alloc_pages in Hal. rewrite Hal in H.
  destruct H as (W1 & W2 & [[? _]|[(e & He & Hs & Hend) A2 A3 A4 A5 A6]]); [done|].
  destruct (Forall2_same_frame_elem st st1 e W2 He) as (e1 & He1 & Hsame).
  destruct (same_frame_usable _ _ Hsame) as [U1 U2]. rewrite U1 in Hs. rewrite U2 in Hend.
  assert (Halp : (p - usable_start e1) `mod` PAGE_SIZE = 0).
  { destruct (wf_pmm_elem _ _ W1 He1). unfold usable_start, PAGE_SIZE in *. zlia. }
  assert (Hfr : forall q, freed_frames e1 p n q <-> in_range p n q)
    by (intros; by apply freed_frames_range).
  assert (Hpe : usable_start e1 <= p < usable_end e1) by (unfold PAGE_SIZE in *; lia).
  destruct (pmm_free_pages_spec st1 p n W1 ltac:(lia)) as (_ & _ & F3). split.
  - intros q. unfold st2. rewrite F3, A5. split.
    + intros [[? _]|(f & Hf & Hpf & Hq)]; [done|]. apply A4, Hfr.
      by rewrite (wf_pmm_unique st1 e1 f p).
    + intros Hq. destruct (decide (in_range p n q)); [|by left].
      right. exists e1. by rewrite Hfr.
  - unfold st2. rewrite (pmm_free_pages_total st1 e1) by
      (done || lia || (intros q Hq Hf; apply A5 in Hf as [_ Hf]; done)). lia.
Qed.

(** Single frames are never missed: [pmm_alloc_pages(1)] fails exactly when no frame of
    any region is free. *)
Lemma pmm_alloc_one_complete st :
  wf_pmm st -> (pmm_alloc_pages st 1).1 = 0 <-> forall q, ~ pmm_free st q.
Proof.
  intros Hwf. split; [by apply try_alloc_one_complete|].
  intros Hno. pose proof (pmm_try_alloc_ok st 1 Hwf ltac:(lia)) as H. unfold pmm_alloc_pages.
  destruct (pmm_try_alloc_pages st 1) as [p st'].
  destruct H as (_ & _ & [[-> _]|[_ _ _ A4 _ _]]); [done|].
  exfalso. apply (Hno p), A4. exists 0. lia.
Qed.

(** C40. [pmm_init] establishes the invariant: over a memory map with disjoint entries the
    regions are well formed and disjoint, each inside a usable entry; the frames of a region
    that start out free are those with index at least [header_pages], so as many frames as
    the header takes are set aside a second time behind it. *)
Theorem pmm_init_establishes memmap :
  wf_memmap memmap ->
  wf_pmm (pmm_init memmap) /\
  forall e, e ∈ pmm_init memmap ->
    (exists r, r ∈ memmap /\ is_usable r = true /\ gme_base r <= region_base e /\
       usable_end e <= gme_base r + gme_length r) /\
    available_pages e = capacity e - header_pages e /\
    (forall i, frame_free e i <-> header_pages e <= i < capacity e).
Proof.
  intros Hwf. split; [by apply pmm_init_ok|]. intros e He.
  apply list_elem_of_omap in He as (r & Hr & Ee).
  assert (Hok : memmap_entry_ok r).
  { clear Ee. induction Hwf; [by apply not_elem_of_nil in Hr|].
    apply elem_of_cons in Hr as [->|?]; auto. }
  destruct (pmm_init_region_spec r e Hok Ee) as (S1 & S2 & S3 & S4 & _ & S5 & S6).
  split_and!; try done. by exists r.
Qed.

(** ** Witnesses *)

(** 128 KiB of RAM at 1 MiB. *)
Definition demo_memmap : list gbi_memmap_entry :=
  [{| gme_base := 0; gme_length := 4096; gme_type := GBI_MEMMAP_RESERVED |};
   {| gme_base := 1048576; gme_length := 131072; gme_type := GBI_MEMMAP_USABLE |}].

Lemma demo_memmap_wf : wf_memmap demo_memmap.
Proof.
  repeat constructor; unfold memmap_entry_ok, memmap_disjoint, PAGE_SIZE; simpl; lia.
Qed.

Lemma demo_pmm_wf : wf_pmm (pmm_init demo_memmap).
Proof. apply pmm_init_ok, demo_memmap_wf. Qed.

Definition demo_entry : bitmap_entry :=
  default (Build_bitmap_entry 0 0 0 0 0 []) (head (pmm_init demo_memmap)).

Lemma pmm_scan_first_fit_witness :
  paging_bitmap_find_free_in_range demo_entry 3 0 31 = 1 /\
  ((0 <= 1 /\ first_fit (bitmap demo_entry) 3 0 31 1) \/
   (1 = -1 /\ forall s, ~ fits (bitmap demo_entry) 3 0 31 s)).
Proof.
  split; [vm_compute; reflexivity|].
  apply (pmm_scan_first_fit demo_entry 3 0 31);
    [vm_compute; repeat constructor; discriminate | lia | lia].
Defined.

Lemma pmm_alloc_refines_witness :
  pmm_alloc_pages (pmm_init demo_memmap) 4 =
    (1056768, (pmm_alloc_pages (pmm_init demo_memmap) 4).2) /\
  let '(p, st') := pmm_alloc_pages (pmm_init demo_memmap) 4 in
  wf_pmm st' /\ Forall2 same_frame (pmm_init demo_memmap) st' /\
  ((p = 0 /\ st' = pmm_init demo_memmap) \/ allocated (pmm_init demo_memmap) st' p 4).
Proof.
  split; [vm_compute; reflexivity|].
  apply (pmm_alloc_refines (pmm_init demo_memmap) 4); [apply demo_pmm_wf | lia].
Defined.

Lemma pmm_free_refines_witness :
  let st := (pmm_alloc_pages (pmm_init demo_memmap) 4).2 in
  let st' := pmm_free_pages st 1056768 2 in
  pmm_available_pages st' = pmm_available_pages st + 2 /\ wf_pmm st'.
Proof.
  split; [vm_compute; reflexivity|].
  refine (proj1 (pmm_free_refines _ 1056768 2 _ _)); [|lia].
  exact (proj1 (pmm_try_alloc_ok (pmm_init demo_memmap) 4 demo_pmm_wf ltac:(lia))).
Defined.

Lemma pmm_alloc_free_roundtrip_witness :
  let st1 := (pmm_alloc_pages (pmm_init demo_memmap) 4).2 in
  let st2 := pmm_free_pages st1 1056768 4 in
  (forall q, pmm_free st2 q <-> pmm_free (pmm_init demo_memmap) q) /\
  total_free st2 = total_free (pmm_init demo_memmap).
Proof.
  apply (pmm_alloc_free_roundtrip (pmm_init demo_memmap) 4 1056768 _);
    [apply demo_pmm_wf | lia | vm_compute; reflexivity | lia].
Defined.

Lemma pmm_alloc_one_complete_witness :
  (pmm_alloc_pages (pmm_init demo_memmap) 1).1 = 0 <-> forall q, ~ pmm_free (pmm_init demo_memmap) q.
Proof. apply pmm_alloc_one_complete, demo_pmm_wf. Defined.

Lemma pmm_init_establishes_witness :
  List.length (pmm_init demo_memmap) = 1%nat /\ wf_pmm (pmm_init demo_memmap).
Proof.
  split; [vm_compute; reflexivity|]. apply (pmm_init_establishes demo_memmap), demo_memmap_wf.
Defined.
