(* ===== verification/Kalloc.v ===== *)
(** * The kernel heap, [kernel/src/mm/kalloc.c]

    Small requests come from slabs: one page that starts with a [slab_hdr_t] and is cut into
    objects of one size class.  A free object holds the pointer to the next free one in its
    first word ([links]), a slab with free objects is on the doubly linked [partial] list of
    its class, and one fully free slab per class is kept in [empty].  Larger requests get
    whole pages behind a [large_hdr_t].  The header found at the start of a page is
    [hdrs !! page]; pointers are addresses, with 0 for [NULL].  The class locks and
    [large_lock] make each call one atomic step.

    The pages come from [vmm_alloc_pages] and go back with [vmm_free_pages]; both are
    arguments here, applied to a page source of type [P], and are [Vmm]'s functions in the
    kernel. *)

From S2P Require Import Prelude.

Definition SIZE_CLASSES : list Z := [8; 16; 32; 64; 128; 256; 512; 1024; 2048].

Definition NUM_CLASSES : nat := length SIZE_CLASSES.

Definition KALLOC_ALIGN : Z := 8.

(** [slab_hdr_t]; its size is 40 bytes rounded up to the 16-byte alignment of the type. *)
Record slab_hdr := {
  sh_class_idx : nat;
  free_count : Z;
  total_count : Z;
  freelist : Z;
  sh_prev : Z;
  sh_next : Z;
}.

Definition sizeof_slab_hdr : Z := 48.

(** [large_hdr_t]. *)
Record large_hdr := { lh_pages : Z }.

Definition sizeof_large_hdr : Z := 16.

(** What the first bytes of a page hold; the constructor is the magic number, [SLAB_MAGIC]
    or [LARGE_MAGIC], and a page with any other first word has no entry in [hdrs]. *)
Inductive page_hdr :=
  | Slab (h : slab_hdr)
  | Large (h : large_hdr).

(** [slab_class_t] without its lock. *)
Record slab_class := { partial : Z; empty_slab : Z }.

Record kalloc_state := {
  hdrs : gmap Z page_hdr;
  links : gmap Z Z;
  slab_classes : list slab_class;
  kalloc_init_done : bool;
}.

Definition set_hdrs (k : kalloc_state) (h : gmap Z page_hdr) : kalloc_state :=
  {| hdrs := h; links := links k; slab_classes := slab_classes k;
     kalloc_init_done := kalloc_init_done k |}.

Definition set_links (k : kalloc_state) (l : gmap Z Z) : kalloc_state :=
  {| hdrs := hdrs k; links := l; slab_classes := slab_classes k;
     kalloc_init_done := kalloc_init_done k |}.

Definition set_classes (k : kalloc_state) (c : list slab_class) : kalloc_state :=
  {| hdrs := hdrs k; links := links k; slab_classes := c;
     kalloc_init_done := kalloc_init_done k |}.

Definition class_at (k : kalloc_state) (ci : nat) : slab_class :=
  default {| partial := 0; empty_slab := 0 |} (slab_classes k !! ci).

Definition set_partial (k : kalloc_state) (ci : nat) (p : Z) : kalloc_state :=
  set_classes k (<[ci := {| partial := p; empty_slab := empty_slab (class_at k ci) |}]> (slab_classes k)).

Definition set_empty (k : kalloc_state) (ci : nat) (p : Z) : kalloc_state :=
  set_classes k (<[ci := {| partial := partial (class_at k ci); empty_slab := p |}]> (slab_classes k)).

(** The slab header at an address, as the code reads it through a [slab_hdr_t *]. *)
Definition slab_at (k : kalloc_state) (s : Z) : slab_hdr :=
  match hdrs k !! s with
  | Some (Slab h) => h
  | _ => {| sh_class_idx := 0; free_count := 0; total_count := 0; freelist := 0;
            sh_prev := 0; sh_next := 0 |}
  end.

Definition set_slab (k : kalloc_state) (s : Z) (h : slab_hdr) : kalloc_state :=
  set_hdrs k (<[s := Slab h]> (hdrs k)).

Definition with_prev (h : slab_hdr) (p : Z) : slab_hdr :=
  {| sh_class_idx := sh_class_idx h; free_count := free_count h; total_count := total_count h;
     freelist := freelist h; sh_prev := p; sh_next := sh_next h |}.

Definition with_next (h : slab_hdr) (n : Z) : slab_hdr :=
  {| sh_class_idx := sh_class_idx h; free_count := free_count h; total_count := total_count h;
     freelist := freelist h; sh_prev := sh_prev h; sh_next := n |}.

Definition with_free (h : slab_hdr) (f c : Z) : slab_hdr :=
  {| sh_class_idx := sh_class_idx h; free_count := c; total_count := total_count h;
     freelist := f; sh_prev := sh_prev h; sh_next := sh_next h |}.

Definition kalloc_init (k : kalloc_state) : kalloc_state :=
  if kalloc_init_done k then k
  else {| hdrs := hdrs k; links := links k;
          slab_classes := replicate NUM_CLASSES {| partial := 0; empty_slab := 0 |};
          kalloc_init_done := true |}.

(** The zero-initialised globals at boot. *)
Definition kalloc_boot : kalloc_state :=
  {| hdrs := ∅; links := ∅; slab_classes := replicate NUM_CLASSES {| partial := 0; empty_slab := 0 |};
     kalloc_init_done := false |}.

(** The smallest class at least [bytes] big, [NUM_CLASSES] when there is none. *)
Fixpoint class_loop (sizes : list Z) (i : nat) (bytes : Z) : nat :=
  match sizes with
  | [] => i
  | s :: rest => if bytes <=? s then i else class_loop rest (S i) bytes
  end.

Definition class_for (bytes : Z) : nat :=
  class_loop SIZE_CLASSES 0 (if bytes <? KALLOC_ALIGN then KALLOC_ALIGN else bytes).

Definition class_size (ci : nat) : Z := default 0 (SIZE_CLASSES !! ci).

Definition hdr_bytes : Z := Z.land (sizeof_slab_hdr + KALLOC_ALIGN - 1) (Z.lnot (KALLOC_ALIGN - 1)).

(** Objects in a slab of class [ci]. *)
Definition slab_total (ci : nat) : Z := (PAGE_SIZE - hdr_bytes) / class_size ci.

(** Address of object [i] of a slab. *)
Definition slab_obj (page : Z) (ci : nat) (i : Z) : Z := page + hdr_bytes + i * class_size ci.

Definition slab_init_page (k : kalloc_state) (page : Z) (ci : nat) : kalloc_state :=
  let total := slab_total ci in
  let ls := for_range (Z.to_nat total) 0
    (fun i ls => <[slab_obj page ci i :=
       if i + 1 <? total then slab_obj page ci (i + 1) else 0]> ls) (links k) in
  set_slab (set_links k ls) page
    {| sh_class_idx := ci; free_count := total; total_count := total;
       freelist := page + hdr_bytes; sh_prev := 0; sh_next := 0 |}.

(** [slab_push] onto the [partial] list of class [ci]. *)
Definition slab_push (k : kalloc_state) (ci : nat) (s : Z) : kalloc_state :=
  let head := partial (class_at k ci) in
  let k := set_slab k s (with_next (with_prev (slab_at k s) 0) head) in
  let k := if head =? 0 then k else set_slab k head (with_prev (slab_at k head) s) in
  set_partial k ci s.

(** [slab_remove] from the [partial] list of class [ci]. *)
Definition slab_remove (k : kalloc_state) (ci : nat) (s : Z) : kalloc_state :=
  let prev := sh_prev (slab_at k s) in
  let next := sh_next (slab_at k s) in
  let k :=
    if negb (prev =? 0) then set_slab k prev (with_next (slab_at k prev) next)
    else set_partial k ci next in
  let k := if negb (next =? 0) then set_slab k next (with_prev (slab_at k next) prev) else k in
  set_slab k s (with_next (with_prev (slab_at k s) 0) 0).

Section PageSource.

Context {P : Type} (vmm_alloc_pages : Z -> P -> Z * P) (vmm_free_pages : Z -> Z -> P -> P).

(** A fresh allocation is zeroed: whatever headers the pages held are gone. *)
Definition fresh_pages (k : kalloc_state) (mem pages : Z) : kalloc_state :=
  set_hdrs k (for_range (Z.to_nat pages) 0 (fun i h => delete (mem + i * PAGE_SIZE) h) (hdrs k)).

(** Pops an object off slab [slab] of class [ci]. *)
Definition slab_pop (k : kalloc_state) (ci : nat) (slab : Z) : Z * kalloc_state :=
  let h := slab_at k slab in
  let obj := freelist h in
  let k := set_slab k slab (with_free h (default 0 (links k !! obj)) (wrap32 (free_count h - 1))) in
  (obj, if free_count (slab_at k slab) =? 0 then slab_remove k ci slab else k).

Definition kmalloc (bytes : Z) (st : kalloc_state * P) : Z * (kalloc_state * P) :=
  let '(k, p) := st in
  if bytes =? 0 then (0, (k, p))
  else
    let k := if kalloc_init_done k then k else kalloc_init k in
    let ci := class_for bytes in
    if (ci =? NUM_CLASSES)%nat
    then
      let total_bytes := bytes +w sizeof_large_hdr in
      let pages := (total_bytes +w (PAGE_SIZE - 1)) / PAGE_SIZE in
      let '(mem, p) := vmm_alloc_pages pages p in
      if mem =? 0 then (0, (k, p))
      else
        let k := fresh_pages k mem pages in
        let k := set_hdrs k (<[mem := Large {| lh_pages := pages |}]> (hdrs k)) in
        (mem + sizeof_large_hdr, (k, p))
    else
      let slab := partial (class_at k ci) in
      if negb (slab =? 0)
      then let '(obj, k) := slab_pop k ci slab in (obj, (k, p))
      else if negb (empty_slab (class_at k ci) =? 0)
      then
        let slab := empty_slab (class_at k ci) in
        let k := slab_push (set_empty k ci 0) ci slab in
        let '(obj, k) := slab_pop k ci slab in (obj, (k, p))
      else
        let '(page, p) := vmm_alloc_pages 1 p in
        if page =? 0 then (0, (k, p))
        else
          let k := fresh_pages k page 1 in
          let k := slab_push (slab_init_page k page ci) ci page in
          let '(obj, k) := slab_pop k ci page in (obj, (k, p)).

Definition kfree (ptr : Z) (st : kalloc_state * P) : kalloc_state * P :=
  let '(k, p) := st in
  if ptr =? 0 then (k, p)
  else
    let page_base := Z.land ptr (Z.lnot (PAGE_SIZE - 1)) in
    match hdrs k !! page_base with
    | Some (Large h) => (k, vmm_free_pages page_base (lh_pages h) p)
    | Some (Slab h) =>
      let ci := sh_class_idx h in
      let k := set_links k (<[ptr := freelist h]> (links k)) in
      let h := with_free h ptr (wrap32 (free_count h + 1)) in
      let k := set_slab k page_base h in
      if free_count h =? 1 then (slab_push k ci page_base, p)
      else if free_count h =? total_count h
      then
        let k := slab_remove k ci page_base in
        if empty_slab (class_at k ci) =? 0
        then (set_empty k ci page_base, p)
        else (k, vmm_free_pages page_base 1 p)
      else (k, p)
    | None => (k, p)
    end.

End PageSource.
