(* ===== verification/Heap.v ===== *)
(** * What the heap promises its clients

    [kmalloc] and [kfree] of [kernel/src/mm/kalloc.c] as an interface: the blocks handed out
    are the live ones, a new block is none of them, and an allocation that fails changes
    nothing.  The file objects of the kernel ([Pipe], [Eventfd], [Shm]) are proved against
    it. *)

From S2P Require Import Prelude.

Class Heap (H : Type) := {
  heap_ok : H -> Prop;
  live : H -> gset Z;
  kmalloc : Z -> H -> Z * H;
  kfree : Z -> H -> H;
  kmalloc_spec : forall n h p h', heap_ok h -> 0 < n -> kmalloc n h = (p, h') ->
    heap_ok h' /\
    ((p = 0 /\ live h' = live h) \/ (0 < p /\ (p ∉ live h) /\ live h' = ({[p]} ∪ live h)));
  kfree_spec : forall p h, heap_ok h -> p ∈ live h ->
    heap_ok (kfree p h) /\ live (kfree p h) = live h ∖ {[p]};
  live_nonnull : forall h, heap_ok h -> 0 ∉ live h;
}.

(** A heap that hands out increasing addresses and has [budget] allocations left. *)
Record counting_heap := { ch_live : gset Z; ch_next : Z; ch_budget : nat }.

Definition counting_ok (h : counting_heap) : Prop :=
  0 < ch_next h /\ forall p, p ∈ ch_live h -> 0 < p < ch_next h.

Definition counting_kmalloc (n : Z) (h : counting_heap) : Z * counting_heap :=
  match ch_budget h with
  | O => (0, h)
  | S b => (ch_next h, {| ch_live := {[ch_next h]} ∪ ch_live h; ch_next := ch_next h + Z.max 1 n;
                          ch_budget := b |})
  end.

Definition counting_kfree (p : Z) (h : counting_heap) : counting_heap :=
  {| ch_live := ch_live h ∖ {[p]}; ch_next := ch_next h; ch_budget := ch_budget h |}.

#[export] Program Instance counting_heap_heap : Heap counting_heap := {
  heap_ok := counting_ok;
  live := ch_live;
  kmalloc := counting_kmalloc;
  kfree := counting_kfree;
}.
Next Obligation.
  intros n h p h' [H1 H2] Hn. unfold counting_kmalloc. destruct (ch_budget h).
  - intros E. simplify_eq. split; [done|]. by left.
  - intros E. simplify_eq/=. split; [split; simpl; [lia|]; intros q Hq|right].
    + apply elem_of_union in Hq as [->%elem_of_singleton|Hq]; [lia|]. specialize (H2 q Hq). lia.
    + split_and!; try done. intros Hq. specialize (H2 _ Hq). lia.
Qed.
Next Obligation.
  intros p h [H1 H2] Hp. split; [|done]. split; simpl; [done|].
  intros q [Hq _]%elem_of_difference. by apply H2.
Qed.
Next Obligation. intros h [H1 H2] H0. specialize (H2 _ H0). lia. Qed.

(** The block at [p], none for [NULL]. *)
Definition block (p : Z) : gset Z := if p =? 0 then ∅ else {[p]}.

(** [if (p) kfree(p)]. *)
Definition kfree_nonnull `{Heap H} (p : Z) (h : H) : H := if p =? 0 then h else kfree p h.

Lemma kmalloc_block `{Heap H} n (h : H) p h' :
  heap_ok h -> 0 < n -> kmalloc n h = (p, h') ->
  heap_ok h' /\ live h' = block p ∪ live h /\ block p ## live h /\ (p = 0 \/ 0 < p).
Proof.
  intros Hok Hn E. destruct (kmalloc_spec n h p h' Hok Hn E) as [Hok' [[-> ->]|(Hp & Hf & ->)]].
  - split_and!; [done|set_solver|set_solver|by left].
  - unfold block. rewrite (proj2 (Z.eqb_neq p 0)) by lia. split_and!; [done|done|set_solver|by right].
Qed.

Lemma kfree_block `{Heap H} p (h : H) :
  heap_ok h -> block p ⊆ live h ->
  heap_ok (kfree_nonnull p h) /\ live (kfree_nonnull p h) = live h ∖ block p.
Proof.
  intros Hok. unfold block, kfree_nonnull. destruct (p =? 0).
  - intros _. split; [done|set_solver].
  - intros Hin. apply kfree_spec; [done|set_solver].
Qed.

Lemma kfree_is_nonnull `{Heap H} p (h : H) : p <> 0 -> kfree p h = kfree_nonnull p h.
Proof. intros Hp. unfold kfree_nonnull. by rewrite (proj2 (Z.eqb_neq p 0) Hp). Qed.
