(* ===== verification/KallocProofs.v ===== *)
(** * The kernel heap hands out disjoint blocks

    Proofs about [Kalloc] (that is [kernel/src/mm/kalloc.c]): the slabs of a class with free
    objects are exactly the members of its [partial] list, the free objects of a slab are the
    chain its header starts, and [kmalloc] and [kfree] move one object between the free chains
    and the live blocks.  The heap interface of [Heap] is discharged at the end. *)

From S2P Require Import Prelude Dll Kalloc Heap.

(** ** Where pages come from *)

(** What [vmm_alloc_pages] and [vmm_free_pages] promise the heap: the blocks of pages it owns
    are aligned and disjoint, a new block is away from all of them. *)
Class PageSource (P : Type) := {
  src_ok : P -> Prop;
  owned : P -> gmap Z Z;
  src_alloc : Z -> P -> Z * P;
  src_free : Z -> Z -> P -> P;
  src_alloc_spec : forall n p m p', src_ok p -> 0 < n -> src_alloc n p = (m, p') ->
    src_ok p' /\
    ((m = 0 /\ owned p' = owned p) \/
     (0 < m /\ owned p !! m = None /\ owned p' = <[m := n]> (owned p)));
  src_alloc_zero : forall p, src_alloc 0 p = (0, p);
  src_free_spec : forall m n p, src_ok p -> owned p !! m = Some n ->
    src_ok (src_free m n p) /\ owned (src_free m n p) = delete m (owned p);
  src_range : forall p m n, src_ok p -> owned p !! m = Some n ->
    0 < m /\ 0 < n /\ m `mod` PAGE_SIZE = 0 /\ m + n * PAGE_SIZE <= 2 ^ 64;
  src_disjoint : forall p m n m' n', src_ok p -> owned p !! m = Some n -> owned p !! m' = Some n' ->
    m <> m' -> m + n * PAGE_SIZE <= m' \/ m' + n' * PAGE_SIZE <= m;
}.

(** ** Size classes *)

Lemma class_facts ci : (ci < NUM_CLASSES)%nat ->
  8 <= class_size ci <= 2048 /\ 1 <= slab_total ci <= 506 /\
  hdr_bytes + slab_total ci * class_size ci <= PAGE_SIZE.
Proof.
  intros Hci. unfold NUM_CLASSES in Hci. simpl in Hci.
  do 9 (destruct ci as [|ci]; [vm_compute; repeat split; discriminate|]). lia.
Qed.

Lemma hdr_bytes_eq : hdr_bytes = 48.
Proof. reflexivity. Qed.

(** The class chosen is big enough, and only requests above 2048 bytes have none. *)
Lemma class_for_spec bytes :
  0 < bytes ->
  ((class_for bytes < NUM_CLASSES)%nat /\ bytes <= class_size (class_for bytes)) \/
  (class_for bytes = NUM_CLASSES /\ 2048 < bytes).
Proof.
  intros Hb. unfold class_for, SIZE_CLASSES, class_size, NUM_CLASSES. cbn [class_loop].
  destruct (bytes <? KALLOC_ALIGN) eqn:E; bool_prop; unfold KALLOC_ALIGN in *; [left; simpl; lia|].
  repeat (case_if; [left; simpl; lia|]). right. simpl. lia.
Qed.

(** The objects of a slab. *)
Definition slab_objs (page : Z) (ci : nat) : list Z :=
  (fun i => slab_obj page ci (Z.of_nat i)) <$> seq 0 (Z.to_nat (slab_total ci)).

Lemma slab_objs_elem page ci o : o ∈ slab_objs page ci <-> exists i, 0 <= i < slab_total ci /\ o = slab_obj page ci i.
Proof.
  unfold slab_objs. rewrite list_elem_of_fmap. split.
  - intros (i & -> & Hi). apply elem_of_seq in Hi. exists (Z.of_nat i). split; [lia|done].
  - intros (i & Hi & ->). exists (Z.to_nat i). rewrite Z2Nat.id by lia. split; [done|]. apply elem_of_seq. lia.
Qed.

(** An object lies in its page, behind the header. *)
Lemma slab_objs_range page ci o : (ci < NUM_CLASSES)%nat -> o ∈ slab_objs page ci ->
  page + hdr_bytes <= o /\ o + class_size ci <= page + PAGE_SIZE.
Proof.
  intros Hci Ho. destruct (class_facts ci Hci) as (H1 & H2 & H3).
  apply slab_objs_elem in Ho as (i & Hi & ->). unfold slab_obj.
  assert (0 <= i * class_size ci) by (apply Z.mul_nonneg_nonneg; lia).
  assert ((i + 1) * class_size ci <= slab_total ci * class_size ci) by (apply Z.mul_le_mono_nonneg_r; lia). lia.
Qed.

Lemma slab_objs_disjoint page ci o o' : (ci < NUM_CLASSES)%nat ->
  o ∈ slab_objs page ci -> o' ∈ slab_objs page ci -> o <> o' ->
  o + class_size ci <= o' \/ o' + class_size ci <= o.
Proof.
  intros Hci Ho Ho' Hne. destruct (class_facts ci Hci) as (H1 & _).
  apply slab_objs_elem in Ho as (i & Hi & ->). apply slab_objs_elem in Ho' as (j & Hj & ->). unfold slab_obj in *.
  assert (i <> j) by congruence.
  destruct (Z.lt_ge_cases i j); [left|right].
  - assert ((i + 1) * class_size ci <= j * class_size ci) by (apply Z.mul_le_mono_nonneg_r; lia). lia.
  - assert ((j + 1) * class_size ci <= i * class_size ci) by (apply Z.mul_le_mono_nonneg_r; lia). lia.
Qed.

Lemma slab_objs_nodup page ci : (ci < NUM_CLASSES)%nat -> NoDup (slab_objs page ci).
Proof.
  intros Hci. destruct (class_facts ci Hci) as (H1 & _). apply NoDup_fmap_2_strong; [|apply NoDup_seq].
  intros i j _ _. unfold slab_obj. nia.
Qed.

Lemma slab_objs_length page ci : length (slab_objs page ci) = Z.to_nat (slab_total ci).
Proof. unfold slab_objs. by rewrite length_fmap, length_seq. Qed.

(** ** Free chains *)

(** The chain of free objects that starts at [h], read through the links. *)
Fixpoint chain (lk : gmap Z Z) (h : Z) (fl : list Z) : Prop :=
  match fl with
  | [] => h = 0
  | x :: rest => h = x /\ x <> 0 /\ chain lk (default 0 (lk !! x)) rest
  end.

Lemma chain_frame lk lk' h fl : (forall x, x ∈ fl -> lk' !! x = lk !! x) -> chain lk h fl -> chain lk' h fl.
Proof.
  revert h. induction fl as [|x fl IH]; intros h Hf; simpl; [done|]. intros (-> & Hx & Hc).
  rewrite Hf by (by left). split_and!; try done. apply IH; [|done]. intros y Hy. apply Hf. by right.
Qed.

(** The links [slab_init_page] writes. *)
Lemma init_links_spec lk page ci :
  (ci < NUM_CLASSES)%nat -> 0 < page ->
  let total := slab_total ci in
  let lk' := for_range (Z.to_nat total) 0
    (fun i ls => <[slab_obj page ci i := if i + 1 <? total then slab_obj page ci (i + 1) else 0]> ls) lk in
  chain lk' (page + hdr_bytes) (slab_objs page ci) /\
  (forall x, x ∉ slab_objs page ci -> lk' !! x = lk !! x).
Proof.
  intros Hci Hpage total lk'. destruct (class_facts ci Hci) as (H1 & H2 & H3). fold total in H2, H3.
  assert (Hinj : forall i j, slab_obj page ci i = slab_obj page ci j -> i = j) by (unfold slab_obj; intros; nia).
  assert (HI : (forall i, 0 <= i < total -> lk' !! slab_obj page ci i =
                  Some (if i + 1 <? total then slab_obj page ci (i + 1) else 0)) /\
               (forall x, (forall i, 0 <= i < total -> x <> slab_obj page ci i) -> lk' !! x = lk !! x)).
  { pose proof (for_range_inv (fun n ls => (forall i, 0 <= i < n -> ls !! slab_obj page ci i =
        Some (if i + 1 <? total then slab_obj page ci (i + 1) else 0)) /\
      (forall x, (forall i, 0 <= i < n -> x <> slab_obj page ci i) -> ls !! x = lk !! x))
      (fun i ls => <[slab_obj page ci i := if i + 1 <? total then slab_obj page ci (i + 1) else 0]> ls)
      (Z.to_nat total) 0 lk) as Hinv.
    rewrite Z2Nat.id, Z.add_0_l in Hinv by lia. apply Hinv.
    - split; [lia|done].
    - intros n ls Hn [I1 I2]. split.
      + intros i Hi. destruct (decide (i = n)) as [->|Hne]; [by rewrite lookup_insert_eq|].
        rewrite lookup_insert_ne by (intros E; by apply Hne, eq_sym, Hinj). apply I1. lia.
      + intros x Hx. rewrite lookup_insert_ne by (apply not_eq_sym, Hx; lia). apply I2. intros i Hi. apply Hx. lia. }
  destruct HI as [I1 I2]. split.
  - assert (Hgen : forall n i, (i + n = Z.to_nat total)%nat ->
      chain lk' (if Z.of_nat i <? total then slab_obj page ci (Z.of_nat i) else 0)
        ((fun i => slab_obj page ci (Z.of_nat i)) <$> seq i n)).
    { induction n as [|n IH]; intros i Hin; simpl.
      - rewrite (proj2 (Z.ltb_ge _ _)) by lia. done.
      - rewrite (proj2 (Z.ltb_lt _ _)) by lia. split_and!; [done| |].
        + unfold slab_obj. rewrite hdr_bytes_eq. assert (0 <= Z.of_nat i * class_size ci) by (apply Z.mul_nonneg_nonneg; lia). lia.
        + rewrite I1 by lia. simpl. replace (Z.of_nat i + 1) with (Z.of_nat (S i)) by lia. apply IH. lia. }
    specialize (Hgen (Z.to_nat total) 0%nat eq_refl). change (Z.of_nat 0) with 0 in Hgen.
    rewrite (proj2 (Z.ltb_lt 0 total)) in Hgen by lia.
    replace (page + hdr_bytes) with (slab_obj page ci 0) by (unfold slab_obj; lia). done.
  - intros x Hx. apply I2. intros i Hi ->. apply Hx, slab_objs_elem. by exists i.
Qed.

(** ** The parts of the heap *)

Definition spv (k : kalloc_state) (x : Z) : Z := sh_prev (slab_at k x).

Definition snx (k : kalloc_state) (x : Z) : Z := sh_next (slab_at k x).

(** A page's header without its list links. *)
Definition strip (h : page_hdr) : page_hdr :=
  match h with
  | Slab h => Slab (with_next (with_prev h 0) 0)
  | Large h => Large h
  end.

Definition cont (k : kalloc_state) (pg : Z) : option page_hdr := strip <$> hdrs k !! pg.

(** [k'] is [k] with other list links and list heads. *)
Record relinked (k k' : kalloc_state) : Prop := {
  rl_cont : forall y, cont k' y = cont k y;
  rl_links : links k' = links k;
  rl_init : kalloc_init_done k' = kalloc_init_done k;
  rl_len : length (slab_classes k') = length (slab_classes k);
  rl_empty : forall c, empty_slab (class_at k' c) = empty_slab (class_at k c);
}.

Lemma relinked_refl k : relinked k k.
Proof. done. Qed.

Lemma relinked_trans k1 k2 k3 : relinked k1 k2 -> relinked k2 k3 -> relinked k1 k3.
Proof. intros [] []. split; intros; congruence. Qed.

Lemma slab_at_set k x h y : slab_at (set_slab k x h) y = if decide (y = x) then h else slab_at k y.
Proof.
  unfold slab_at, set_slab; simpl. destruct (decide (y = x)) as [->|Hne].
  - by rewrite lookup_insert_eq.
  - by rewrite lookup_insert_ne.
Qed.

Definition is_slab (k : kalloc_state) (x : Z) : Prop := exists h, cont k x = Some (Slab h).

Lemma is_slab_hdr k x : is_slab k x -> hdrs k !! x = Some (Slab (slab_at k x)).
Proof.
  intros [h Hh]. unfold cont in Hh. unfold slab_at. destruct (hdrs k !! x) as [[h'|h']|]; simpl in *; try done.
Qed.

(** Writing the links of a slab. *)
Lemma relinked_set k x p n : is_slab k x -> relinked k (set_slab k x (with_next (with_prev (slab_at k x) p) n)).
Proof.
  intros Hx. pose proof (is_slab_hdr _ _ Hx) as E. split; try done. intros y. unfold cont, set_slab; simpl.
  destruct (decide (y = x)) as [->|Hne]; [|by rewrite lookup_insert_ne].
  by rewrite lookup_insert_eq, E.
Qed.

Lemma relinked_set_prev k x p : is_slab k x -> relinked k (set_slab k x (with_prev (slab_at k x) p)).
Proof. intros Hx. pose proof (relinked_set k x p (sh_next (slab_at k x)) Hx) as H. by destruct (slab_at k x). Qed.

Lemma relinked_set_next k x n : is_slab k x -> relinked k (set_slab k x (with_next (slab_at k x) n)).
Proof. intros Hx. pose proof (relinked_set k x (sh_prev (slab_at k x)) n Hx) as H. by destruct (slab_at k x). Qed.

Lemma class_at_insert k ci c v : (ci < length (slab_classes k))%nat ->
  class_at (set_classes k (<[ci := v]> (slab_classes k))) c = if decide (c = ci) then v else class_at k c.
Proof.
  intros Hci. unfold class_at; simpl. destruct (decide (c = ci)) as [->|Hne].
  - by rewrite list_lookup_insert_eq.
  - by rewrite list_lookup_insert_ne.
Qed.

Lemma relinked_partial k ci v : (ci < length (slab_classes k))%nat -> relinked k (set_partial k ci v).
Proof.
  intros Hci. split; try done; unfold set_partial.
  - simpl. by rewrite length_insert.
  - intros c. rewrite class_at_insert by done. by destruct (decide (c = ci)) as [->|].
Qed.

Lemma relinked_slab k k' x : relinked k k' -> is_slab k x -> is_slab k' x.
Proof. intros [H _ _ _ _] [h Hh]. exists h. by rewrite H. Qed.

#[local] Hint Resolve relinked_refl relinked_set relinked_set_prev relinked_set_next relinked_partial relinked_slab : core.

(** What [slab_push] changes. *)
Lemma slab_push_effect k ci x :
  (ci < length (slab_classes k))%nat -> is_slab k x -> x <> 0 ->
  let h := partial (class_at k ci) in
  (h <> 0 -> is_slab k h) -> h <> x ->
  let k' := slab_push k ci x in
  relinked k k' /\
  (forall y, spv k' y = if decide (y = x) then 0 else if decide (h <> 0 /\ y = h) then x else spv k y) /\
  (forall y, snx k' y = if decide (y = x) then h else snx k y) /\
  (forall c, partial (class_at k' c) = if decide (c = ci) then x else partial (class_at k c)).
Proof.
  intros Hci Hx Hx0 h Hh Hhx k'. unfold k', slab_push. fold h.
  set (k1 := set_slab k x _). assert (R1 : relinked k k1) by (unfold k1; auto).
  assert (P1 : forall y, slab_at k1 y = if decide (y = x) then with_next (with_prev (slab_at k x) 0) h else slab_at k y)
    by (intros; apply slab_at_set).
  set (k2 := if h =? 0 then k1 else _).
  assert (H2 : relinked k1 k2 /\ forall y, slab_at k2 y = if decide (h <> 0 /\ y = h) then with_prev (slab_at k1 h) x else slab_at k1 y).
  { unfold k2. destruct (h =? 0) eqn:E; bool_prop.
    - split; [done|]. intros y. by rewrite decide_False by tauto.
    - split; [eauto|]. intros y. rewrite slab_at_set. repeat case_decide; try done; tauto. }
  destruct H2 as [R2 P2]. assert (R : relinked k k2) by (by eapply relinked_trans).
  assert (Hlen : (ci < length (slab_classes k2))%nat) by (by rewrite (rl_len _ _ R)).
  split_and!.
  - eapply relinked_trans; eauto.
  - intros y. unfold spv. change (slab_at (set_partial k2 ci x) y) with (slab_at k2 y). rewrite P2, !P1.
    destruct (decide (h <> 0 /\ y = h)) as [[? ->]|]; [by rewrite !decide_False by done|].
    by destruct (decide (y = x)).
  - intros y. unfold snx. change (slab_at (set_partial k2 ci x) y) with (slab_at k2 y). rewrite P2, !P1.
    destruct (decide (h <> 0 /\ y = h)) as [[? ->]|]; [by rewrite !decide_False by done|].
    by destruct (decide (y = x)).
  - intros c. unfold set_partial. rewrite class_at_insert by done. destruct (decide (c = ci)); [done|].
    unfold k2, class_at. by destruct (h =? 0).
Qed.

(** What [slab_remove] changes. *)
Lemma slab_remove_effect k ci x :
  (ci < length (slab_classes k))%nat -> is_slab k x ->
  let p := spv k x in let n := snx k x in
  (p <> 0 -> is_slab k p) -> (n <> 0 -> is_slab k n) -> p <> x -> n <> x ->
  let k' := slab_remove k ci x in
  relinked k k' /\
  (forall y, y <> x -> spv k' y = if decide (n <> 0 /\ y = n) then p else spv k y) /\
  (forall y, y <> x -> snx k' y = if decide (p <> 0 /\ y = p) then n else snx k y) /\
  (forall c, partial (class_at k' c) = if decide (c = ci /\ p = 0) then n else partial (class_at k c)).
Proof.
  intros Hci Hx p n Hp Hn Hpx Hnx k'. unfold k', slab_remove. fold (spv k x) (snx k x). fold p n.
  set (k1 := if negb (p =? 0) then _ else _).
  assert (H1 : relinked k k1 /\
    (forall y, slab_at k1 y = if decide (p <> 0 /\ y = p) then with_next (slab_at k p) n else slab_at k y) /\
    (forall c, partial (class_at k1 c) = if decide (c = ci /\ p = 0) then n else partial (class_at k c))).
  { unfold k1. destruct (p =? 0) eqn:E; bool_prop; simpl.
    - split_and!; [auto| |].
      + intros y. rewrite decide_False by tauto. done.
      + intros c. unfold set_partial. rewrite class_at_insert by done. repeat case_decide; try done; tauto.
    - split_and!; [auto| |].
      + intros y. rewrite slab_at_set. repeat case_decide; try done; tauto.
      + intros c. by rewrite decide_False by tauto. }
  destruct H1 as (R1 & P1 & C1). set (k2 := if negb (n =? 0) then _ else _).
  assert (H2 : relinked k1 k2 /\
    (forall y, slab_at k2 y = if decide (n <> 0 /\ y = n) then with_prev (slab_at k1 n) p else slab_at k1 y) /\
    (forall c, class_at k2 c = class_at k1 c)).
  { unfold k2. destruct (n =? 0) eqn:E; bool_prop; simpl.
    - split_and!; [done| |done]. intros y. by rewrite decide_False by tauto.
    - split_and!; [eauto| |done]. intros y. rewrite slab_at_set. repeat case_decide; try done; tauto. }
  destruct H2 as (R2 & P2 & C2). assert (R : relinked k k2) by (by eapply relinked_trans).
  split_and!.
  - eapply relinked_trans; eauto.
  - intros y Hy. unfold spv. rewrite slab_at_set, decide_False, P2, !P1 by done.
    destruct (decide (n <> 0 /\ y = n)); [done|]. by destruct (decide (p <> 0 /\ y = p)) as [[_ ->]|].
  - intros y Hy. unfold snx. rewrite slab_at_set, decide_False, P2, !P1 by done.
    destruct (decide (n <> 0 /\ y = n)) as [[_ ->]|]; [by destruct (decide (p <> 0 /\ n = p)) as [[_ ->]|]|].
    by destruct (decide (p <> 0 /\ y = p)) as [[_ ->]|].
  - intros c. change (class_at (set_slab k2 x (with_next (with_prev (slab_at k2 x) 0) 0)) c) with (class_at k2 c).
    by rewrite C2, C1.
Qed.

(** The chain from [h], [n] objects long. *)
Fixpoint walk (lk : gmap Z Z) (n : nat) (h : Z) : list Z :=
  match n with
  | O => []
  | S n => h :: walk lk n (default 0 (lk !! h))
  end.

Lemma walk_chain lk h fl : chain lk h fl -> walk lk (length fl) h = fl.
Proof.
  revert h. induction fl as [|x fl IH]; intros h; simpl; [done|]. intros (-> & _ & Hc). by rewrite IH.
Qed.

(** The blocks handed out of the pages at [pg], with their sizes. *)
Definition page_blocks (k : kalloc_state) (pg n : Z) : list (Z * Z) :=
  match cont k pg with
  | Some (Slab h) =>
    (fun o => (o, class_size (sh_class_idx h))) <$>
      filter (fun o => o ∉ walk (links k) (Z.to_nat (free_count h)) (freelist h)) (slab_objs pg (sh_class_idx h))
  | Some (Large _) => [(pg + sizeof_large_hdr, n * PAGE_SIZE - sizeof_large_hdr)]
  | None => []
  end.

(** ** The invariant *)

(** The objects [fl] are free in the slab at [pg]: the header's chain holds them. *)
Record slab_ok (lk : gmap Z Z) (pg : Z) (h : slab_hdr) (fl : list Z) : Prop := {
  so_class : (sh_class_idx h < NUM_CLASSES)%nat;
  so_total : total_count h = slab_total (sh_class_idx h);
  so_free : free_count h = Z.of_nat (length fl);
  so_chain : chain lk (freelist h) fl;
  so_nodup : NoDup fl;
  so_sub : forall o, o ∈ fl -> o ∈ slab_objs pg (sh_class_idx h);
}.

(** A block of [n] pages at [pg] is one slab or one large allocation. *)
Definition page_ok (lk : gmap Z Z) (c : option page_hdr) (pg n : Z) : Prop :=
  match c with
  | Some (Slab h) => n = 1 /\ exists fl, slab_ok lk pg h fl
  | Some (Large h) => lh_pages h = n
  | None => False
  end.

Definition upd (G : nat -> list Z) (b : nat) (l : list Z) : nat -> list Z :=
  fun c => if decide (c = b) then l else G c.

Section Invariant.

Context `{PageSource P}.

(** Slab [pg] of class [ci], with header [h]. *)
Definition slab_of (k : kalloc_state) (p : P) (pg : Z) (ci : nat) (h : slab_hdr) : Prop :=
  owned p !! pg = Some 1 /\ cont k pg = Some (Slab h) /\ sh_class_idx h = ci.

(** [G ci] is the partial list of class [ci]; the page [D], if any, is between lists. *)
Record kalloc_inv (k : kalloc_state) (p : P) (G : nat -> list Z) (D : option Z) : Prop := {
  ki_src : src_ok p;
  ki_len : length (slab_classes k) = NUM_CLASSES;
  ki_init : kalloc_init_done k = false -> owned p = ∅ /\ kalloc_init k = {| hdrs := hdrs k; links := links k;
     slab_classes := slab_classes k; kalloc_init_done := true |};
  ki_page : forall pg n, owned p !! pg = Some n -> page_ok (links k) (cont k pg) pg n;
  ki_dll : forall ci, (ci < NUM_CLASSES)%nat ->
    is_dll (spv k) (snx k) 0 (G ci) (partial (class_at k ci)) /\ NoDup (G ci);
  ki_in : forall ci pg, (ci < NUM_CLASSES)%nat -> pg ∈ G ci ->
    exists h, slab_of k p pg ci h /\ (D <> Some pg -> free_count h <> 0 /\ pg <> empty_slab (class_at k ci));
  ki_out : forall ci pg h, slab_of k p pg ci h -> D <> Some pg -> free_count h <> 0 ->
    pg <> empty_slab (class_at k ci) -> pg ∈ G ci;
  ki_empty : forall ci, (ci < NUM_CLASSES)%nat -> empty_slab (class_at k ci) <> 0 ->
    D <> Some (empty_slab (class_at k ci)) /\
    exists h, slab_of k p (empty_slab (class_at k ci)) ci h /\ free_count h = total_count h;
}.

Lemma slab_of_is k p pg ci h : slab_of k p pg ci h -> is_slab k pg.
Proof. intros (_ & Hc & _). by exists h. Qed.

Lemma slab_of_relinked k k' p pg ci h : relinked k k' -> slab_of k' p pg ci h <-> slab_of k p pg ci h.
Proof. intros HR. unfold slab_of. by rewrite (rl_cont _ _ HR). Qed.

Lemma slab_of_class k p pg ci h ci' h' : slab_of k p pg ci h -> slab_of k p pg ci' h' -> ci' = ci /\ h' = h.
Proof. intros (_ & E & <-) (_ & E' & <-). rewrite E in E'. by simplify_eq. Qed.

(** Members of two lists are different slabs. *)
Lemma lists_disjoint k p G D ci cj x : kalloc_inv k p G D -> (ci < NUM_CLASSES)%nat -> (cj < NUM_CLASSES)%nat ->
  x ∈ G ci -> x ∈ G cj -> ci = cj.
Proof.
  intros I Hi Hj Xi Xj. destruct (ki_in _ _ _ _ I ci x Hi Xi) as (h & Hs & _).
  destruct (ki_in _ _ _ _ I cj x Hj Xj) as (h' & Hs' & _). by destruct (slab_of_class _ _ _ _ _ _ _ Hs Hs').
Qed.

(** The init flag only matters before the first allocation. *)
Lemma init_relinked k k' : kalloc_init_done k = true -> relinked k k' -> kalloc_init_done k' = true.
Proof. intros E HR. by rewrite (rl_init _ _ HR). Qed.

Lemma slab_push_inv k p G ci x h :
  kalloc_inv k p G (Some x) -> kalloc_init_done k = true -> (ci < NUM_CLASSES)%nat ->
  slab_of k p x ci h -> free_count h <> 0 -> x ∉ G ci ->
  kalloc_inv (slab_push k ci x) p (upd G ci (x :: G ci)) None /\ relinked k (slab_push k ci x).
Proof.
  intros I Hinit Hci Hs Hf Hnx. destruct (ki_dll _ _ _ _ I ci Hci) as [Hd Hnd].
  assert (Hx0 : x <> 0). { intros ->. destruct Hs as [Ho _]. apply (src_range _ _ _ (ki_src _ _ _ _ I)) in Ho. lia. }
  pose proof (is_dll_head _ _ _ _ _ Hd) as Hh.
  assert (Hhin : partial (class_at k ci) <> 0 -> partial (class_at k ci) ∈ G ci).
  { rewrite Hh. destruct (G ci); simpl; [done|]. intros _. by left. }
  assert (Hhx : partial (class_at k ci) <> x). { intros E. apply Hnx. rewrite <- E. apply Hhin. by rewrite E. }
  assert (Hsl : forall c y, (c < NUM_CLASSES)%nat -> y ∈ G c -> is_slab k y).
  { intros c y Hc Hy. destruct (ki_in _ _ _ _ I c y Hc Hy) as (? & ? & _). by eapply slab_of_is. }
  destruct (slab_push_effect k ci x) as (R & Pp & Pn & Pc); try done.
  { by rewrite (ki_len _ _ _ _ I). } { by eapply slab_of_is. } { intros E. apply (Hsl ci); auto. }
  split; [|done]. set (k' := slab_push k ci x) in *.
  assert (Hxn : forall c, (c < NUM_CLASSES)%nat -> x ∉ G c).
  { intros c Hc Hxc. destruct (ki_in _ _ _ _ I c x Hc Hxc) as (h' & Hs' & _).
    destruct (slab_of_class _ _ _ _ _ _ _ Hs Hs') as [-> _]. done. }
  split.
  - apply (ki_src _ _ _ _ I).
  - by rewrite (rl_len _ _ R), (ki_len _ _ _ _ I).
  - rewrite (rl_init _ _ R), Hinit. done.
  - intros pg n Ho. rewrite (rl_links _ _ R), (rl_cont _ _ R). by apply (ki_page _ _ _ _ I).
  - intros c Hc. rewrite Pc. unfold upd. destruct (decide (c = ci)) as [->|Hne].
    + split; [|by apply list.NoDup_cons]. eapply is_dll_push; [exact Hd|by apply list.NoDup_cons|done| | | | |].
      * by rewrite Pp, decide_True.
      * by rewrite Pn, decide_True.
      * intros E. by rewrite Pp, decide_False, decide_True by done.
      * intros y Hy Hyh. rewrite Pp, !decide_False; [done|by intros [_ ->]|by intros ->].
      * intros y Hy. rewrite Pn, decide_False; [done|by intros ->].
    + destruct (ki_dll _ _ _ _ I c Hc) as [Hdc Hndc]. split; [|done]. eapply is_dll_frame; [|exact Hdc].
      intros y Hy. assert (y <> x) by (intros ->; by apply (Hxn c)). rewrite Pp, Pn, !decide_False; try done.
      intros [E ->]. apply Hne. symmetry. eapply lists_disjoint; eauto.
  - intros c pg Hc Hpg. setoid_rewrite slab_of_relinked; [|exact R]. rewrite (rl_empty _ _ R). unfold upd in Hpg.
    destruct (decide (c = ci)) as [->|Hne].
    + apply elem_of_cons in Hpg as [->|Hpg].
      * exists h. split; [done|]. intros _. split; [done|]. intros E.
        destruct (ki_empty _ _ _ _ I ci Hci) as [HD _]; [by rewrite <- E|]. by rewrite <- E in HD.
      * destruct (ki_in _ _ _ _ I ci pg Hc Hpg) as (h' & Hs' & HD). exists h'. split; [done|]. intros _. apply HD.
        intros [= ->]. by apply (Hxn ci).
    + destruct (ki_in _ _ _ _ I c pg Hc Hpg) as (h' & Hs' & HD). exists h'. split; [done|]. intros _. apply HD.
      intros [= ->]. by apply (Hxn c).
  - intros c pg h'. rewrite (slab_of_relinked _ _ _ _ _ _ R), (rl_empty _ _ R). intros Hs' _ Hf' He. unfold upd.
    destruct (decide (pg = x)) as [->|Hpx].
    + destruct (slab_of_class _ _ _ _ _ _ _ Hs Hs') as [-> _]. rewrite decide_True by done. by left.
    + assert (pg ∈ G c) by (apply (ki_out _ _ _ _ I c pg h'); congruence).
      destruct (decide (c = ci)) as [->|]; [by right|done].
  - intros c Hc He. rewrite (rl_empty _ _ R) in He |- *. destruct (ki_empty _ _ _ _ I c Hc He) as (_ & h' & Hs' & E).
    split; [done|]. exists h'. by rewrite (slab_of_relinked _ _ _ _ _ _ R).
Qed.

Lemma slab_remove_inv k p G ci x l1 l2 D :
  kalloc_inv k p G D -> kalloc_init_done k = true -> (ci < NUM_CLASSES)%nat -> G ci = l1 ++ x :: l2 ->
  (forall h, slab_of k p x ci h -> x <> empty_slab (class_at k ci)) -> (D = None \/ D = Some x) ->
  kalloc_inv (slab_remove k ci x) p (upd G ci (l1 ++ l2)) (Some x) /\ relinked k (slab_remove k ci x) /\
  x ∉ l1 ++ l2.
Proof.
  intros I Hinit Hci HG Hxe HD. destruct (ki_dll _ _ _ _ I ci Hci) as [Hd Hnd]. rewrite HG in Hd, Hnd.
  destruct (is_dll_neighbours _ _ _ _ _ _ Hd Hnd) as (Np & Nn & Hpx & Hnx & Hx0 & Hm).
  assert (HGi : forall y, y ∈ l1 ++ l2 -> y ∈ G ci).
  { intros y Hy. rewrite HG. apply elem_of_app in Hy as [?|?]; apply elem_of_app; [by left|right; by right]. }
  assert (Hxl : x ∉ l1 ++ l2) by (intros Hx; by destruct (Hm x Hx)).
  assert (HxG : x ∈ G ci) by (rewrite HG; apply elem_mid).
  assert (Hsl : forall y, y ∈ G ci -> is_slab k y).
  { intros y Hy. destruct (ki_in _ _ _ _ I ci y Hci Hy) as (? & ? & _). by eapply slab_of_is. }
  destruct (slab_remove_effect k ci x) as (R & Pp & Pn & Pc); try done.
  { by rewrite (ki_len _ _ _ _ I). } { by apply Hsl. }
  { intros E. destruct Np as [?|[Hin _]]; [done|]. apply Hsl, HGi, elem_of_app. by left. }
  { intros E. destruct Nn as [?|[Hin _]]; [done|]. apply Hsl, HGi, elem_of_app. by right. }
  set (k' := slab_remove k ci x) in *. split_and!; [|done|done].
  destruct (ki_in _ _ _ _ I ci x Hci HxG) as (hx & Hsx & _).
  assert (Hother : forall c y, (c < NUM_CLASSES)%nat -> c <> ci -> y ∈ G c -> ~ y ∈ G ci).
  { intros c y Hc Hne Hy Hy'. apply Hne. by eapply (lists_disjoint k p G D). }
  split.
  - apply (ki_src _ _ _ _ I).
  - by rewrite (rl_len _ _ R), (ki_len _ _ _ _ I).
  - rewrite (rl_init _ _ R), Hinit. done.
  - intros pg n Ho. rewrite (rl_links _ _ R), (rl_cont _ _ R). by apply (ki_page _ _ _ _ I).
  - intros c Hc. rewrite Pc. unfold upd. destruct (decide (c = ci)) as [->|Hne].
    + eapply is_dll_unlink; [exact Hd|exact Hnd|intros y Hy; by apply Pp, Hm|intros y Hy; by apply Pn, Hm|].
      destruct (decide (spv k x = 0)); [by rewrite decide_True|by rewrite decide_False by tauto].
    + rewrite decide_False by tauto. destruct (ki_dll _ _ _ _ I c Hc) as [Hdc Hndc]. split; [|done].
      eapply is_dll_frame; [|exact Hdc]. intros y Hy. specialize (Hother c y Hc Hne Hy).
      assert (y <> x) by congruence. rewrite Pp, Pn, !decide_False; try done.
      * intros [E ->]. destruct Np as [?|[Hin _]]; [done|]. apply Hother, HGi, elem_of_app. by left.
      * intros [E ->]. destruct Nn as [?|[Hin _]]; [done|]. apply Hother, HGi, elem_of_app. by right.
  - intros c pg Hc Hpg. setoid_rewrite slab_of_relinked; [|exact R]. rewrite (rl_empty _ _ R). unfold upd in Hpg.
    assert (HpgG : pg ∈ G c) by (destruct (decide (c = ci)) as [->|]; auto).
    destruct (ki_in _ _ _ _ I c pg Hc HpgG) as (h' & Hs' & HD'). exists h'. split; [done|]. intros Hne. apply HD'.
    destruct HD as [->| ->]; [done|]. congruence.
  - intros c pg h'. rewrite (slab_of_relinked _ _ _ _ _ _ R), (rl_empty _ _ R). intros Hs' Hne Hf' He. unfold upd.
    assert (Hpx' : pg <> x) by congruence.
    assert (Hin : pg ∈ G c) by (apply (ki_out _ _ _ _ I c pg h'); try done; destruct HD as [->| ->]; done).
    destruct (decide (c = ci)) as [->|]; [|done]. rewrite HG in Hin. apply elem_of_app.
    apply elem_of_app in Hin as [?|[->|?]%elem_of_cons]; [by left|done|by right].
  - intros c Hc He. rewrite (rl_empty _ _ R) in He |- *. destruct (ki_empty _ _ _ _ I c Hc He) as (_ & h' & Hs' & E).
    split.
    + intros [= Ee]. rewrite <- Ee in Hs'. destruct (slab_of_class _ _ _ _ _ _ _ Hsx Hs') as [-> _]. by apply (Hxe hx).
    + exists h'. by rewrite (slab_of_relinked _ _ _ _ _ _ R).
Qed.


(** The live blocks of the heap. *)
Definition blocks (k : kalloc_state) (p : P) : gset (Z * Z) :=
  list_to_set (map_to_list (owned p) ≫= fun '(pg, n) => page_blocks k pg n).

Lemma elem_of_blocks k p e : e ∈ blocks k p <-> exists pg n, owned p !! pg = Some n /\ e ∈ page_blocks k pg n.
Proof.
  unfold blocks. rewrite elem_of_list_to_set, list_elem_of_bind. split.
  - intros ([pg n] & He & Hin). exists pg, n. by apply elem_of_map_to_list in Hin.
  - intros (pg & n & Ho & He). exists (pg, n). by rewrite elem_of_map_to_list.
Qed.

Lemma page_blocks_slab k pg n h fl : cont k pg = Some (Slab h) -> slab_ok (links k) pg h fl ->
  page_blocks k pg n = (fun o => (o, class_size (sh_class_idx h))) <$> filter (fun o => o ∉ fl) (slab_objs pg (sh_class_idx h)).
Proof.
  intros Hc Hok. unfold page_blocks. rewrite Hc, (so_free _ _ _ _ Hok), Nat2Z.id.
  by rewrite (walk_chain _ _ _ (so_chain _ _ _ _ Hok)).
Qed.

Lemma elem_of_slab_blocks k pg n h fl e : cont k pg = Some (Slab h) -> slab_ok (links k) pg h fl ->
  e ∈ page_blocks k pg n <-> e.2 = class_size (sh_class_idx h) /\ e.1 ∈ slab_objs pg (sh_class_idx h) /\ e.1 ∉ fl.
Proof.
  intros Hc Hok. rewrite (page_blocks_slab _ _ _ _ _ Hc Hok), list_elem_of_fmap. destruct e as [b sz]; simpl. split.
  - intros (o & [= -> ->] & Ho). apply list_elem_of_filter in Ho. tauto.
  - intros (-> & Ho & Hf). exists b. split; [done|]. by apply list_elem_of_filter.
Qed.

Lemma blocks_relinked k k' p : relinked k k' -> blocks k' p = blocks k p.
Proof.
  intros R. apply set_eq. intros e. rewrite !elem_of_blocks. unfold page_blocks.
  setoid_rewrite (rl_cont _ _ R). by rewrite (rl_links _ _ R).
Qed.

(** A block lies in its pages. *)
Lemma page_blocks_range k p G D pg n b sz : kalloc_inv k p G D -> owned p !! pg = Some n -> (b, sz) ∈ page_blocks k pg n ->
  pg + sizeof_large_hdr <= b /\ 8 <= sz /\ b + sz <= pg + n * PAGE_SIZE.
Proof.
  intros I Ho Hin. pose proof (ki_page _ _ _ _ I pg n Ho) as Hp. unfold page_ok in Hp.
  destruct (src_range _ _ _ (ki_src _ _ _ _ I) Ho) as (? & ? & _).
  destruct (cont k pg) as [[h|h]|] eqn:E; [| |done].
  - destruct Hp as (-> & fl & Hok). apply (elem_of_slab_blocks _ _ _ _ _ _ E Hok) in Hin as (Es & Hin & _). simpl in *. subst sz.
    apply slab_objs_range in Hin; [|apply Hok]. destruct (class_facts _ (so_class _ _ _ _ Hok)) as (? & _).
    rewrite hdr_bytes_eq in Hin. unfold sizeof_large_hdr. lia.
  - unfold page_blocks in Hin. rewrite E in Hin. apply list_elem_of_singleton in Hin. simplify_eq.
    unfold sizeof_large_hdr, PAGE_SIZE. lia.
Qed.

(** ** Changing one block of pages *)

(** Pages other than those at [x] keep header and links. *)
Definition touched (k k' : kalloc_state) (p : P) (x n : Z) : Prop :=
  (forall y m, owned p !! y = Some m -> y <> x -> hdrs k' !! y = hdrs k !! y) /\
  (forall a, ~ x <= a < x + n * PAGE_SIZE -> links k' !! a = links k !! a).

Lemma touched_cont k k' p x n y m : touched k k' p x n -> owned p !! y = Some m -> y <> x -> cont k' y = cont k y.
Proof. intros [T _] Ho Hne. unfold cont. by rewrite (T y m). Qed.

Lemma slab_ok_frame lk lk' pg h fl : (forall o, o ∈ slab_objs pg (sh_class_idx h) -> lk' !! o = lk !! o) ->
  slab_ok lk pg h fl -> slab_ok lk' pg h fl.
Proof. intros Hf [? ? ? Hc ? ?]. split; try done. eapply chain_frame; [|done]. auto. Qed.

Lemma touched_page k k' p G D x n y m :
  kalloc_inv k p G D -> touched k k' p x n -> owned p !! y = Some m -> y <> x ->
  (y + m * PAGE_SIZE <= x \/ x + n * PAGE_SIZE <= y) ->
  page_ok (links k') (cont k' y) y m /\ page_blocks k' y m = page_blocks k y m.
Proof.
  intros I T Ho Hne Hdis. pose proof (ki_page _ _ _ _ I y m Ho) as Hp. pose proof (touched_cont _ _ _ _ _ _ _ T Ho Hne) as Ec.
  rewrite Ec. destruct (cont k y) as [[h|h]|] eqn:E; simpl in Hp |- *; [|split; [done|]; unfold page_blocks; by rewrite Ec, E|done].
  destruct Hp as (-> & fl & Hok). assert (Hok' : slab_ok (links k') y h fl).
  { eapply slab_ok_frame; [|exact Hok]. intros o Ho'. apply T. apply slab_objs_range in Ho'; [|apply Hok].
    rewrite hdr_bytes_eq in Ho'. unfold PAGE_SIZE in *. destruct (class_facts _ (so_class _ _ _ _ Hok)) as (? & _). lia. }
  split; [split; [done|by exists fl]|]. rewrite (page_blocks_slab k' y 1 h fl), (page_blocks_slab k y 1 h fl); done.
Qed.

(** The blocks of the page at [x]; none when it is not owned. *)
Definition blocks_at (k : kalloc_state) (p : P) (x : Z) : list (Z * Z) :=
  match owned p !! x with Some n => page_blocks k x n | None => [] end.

Lemma blocks_split k p x e : e ∈ blocks k p <->
  e ∈ blocks_at k p x \/ exists pg n, pg <> x /\ owned p !! pg = Some n /\ e ∈ page_blocks k pg n.
Proof.
  rewrite elem_of_blocks. unfold blocks_at. split.
  - intros (pg & n & Ho & He). destruct (decide (pg = x)) as [->|Hne]; [left; by rewrite Ho|right; eauto].
  - intros [He|(pg & n & Hne & Ho & He)]; [|eauto]. destruct (owned p !! x) as [n|] eqn:Ho; [eauto|]. by apply not_elem_of_nil in He.
Qed.

(** One page gains the block [e]. *)
Lemma blocks_add k k' p p' x e :
  (forall pg n, pg <> x -> owned p' !! pg = Some n <-> owned p !! pg = Some n) ->
  (forall pg n, pg <> x -> owned p !! pg = Some n -> page_blocks k' pg n = page_blocks k pg n) ->
  (forall e', e' ∈ blocks_at k' p' x <-> e' = e \/ e' ∈ blocks_at k p x) ->
  blocks k' p' = {[e]} ∪ blocks k p.
Proof.
  intros Ho Hpg Hx. apply set_eq. intros e'. rewrite elem_of_union, elem_of_singleton.
  rewrite (blocks_split k' p' x), (blocks_split k p x), Hx. split.
  - intros [[?|?]|(pg & n & Hne & Ho' & He)]; [tauto|tauto|]. apply (Ho pg n Hne) in Ho'. rewrite (Hpg pg n) in He by done.
    right. right. by exists pg, n.
  - intros [?|[?|(pg & n & Hne & Ho' & He)]]; [tauto|tauto|]. right. exists pg, n. rewrite (Hpg pg n) by done.
    by rewrite (Ho pg n).
Qed.


(** A new free chain is written into the header of slab [x]. *)
Lemma slab_write_inv k p G ci x h lk' f c fl' :
  kalloc_inv k p G None -> kalloc_init_done k = true -> slab_of k p x ci h -> (ci < NUM_CLASSES)%nat ->
  x <> empty_slab (class_at k ci) ->
  (forall a, ~ x <= a < x + 1 * PAGE_SIZE -> lk' !! a = links k !! a) -> slab_ok lk' x (with_free h f c) fl' ->
  let k' := set_slab (set_links k lk') x (with_free (slab_at k x) f c) in
  kalloc_inv k' p G (Some x) /\ slab_of k' p x ci (with_free h f c) /\ touched k k' p x 1.
Proof.
  intros I Hinit Hs Hci Hxe Hlk Hok k'. destruct (Hs) as (Ho & Hc & Ecl).
  assert (T : touched k k' p x 1).
  { split; [|done]. intros y m Hy Hne. simpl. by rewrite lookup_insert_ne. }
  assert (Hcx : cont k' x = Some (Slab (with_free h f c))).
  { unfold cont in Hc. unfold cont, k', slab_at; simpl. rewrite lookup_insert_eq.
    destruct (hdrs k !! x) as [[h0|h0]|] eqn:Eh; simpl in *; try done. by simplify_eq. }
  assert (Hso : forall y c' h', y <> x -> slab_of k' p y c' h' <-> slab_of k p y c' h').
  { intros y c' h' Hne. unfold slab_of. split; intros (A & B & C); split_and!; try done.
    - by rewrite <- (touched_cont _ _ _ _ _ _ _ T A).
    - by rewrite (touched_cont _ _ _ _ _ _ _ T A). }
  assert (Hsx : slab_of k' p x ci (with_free h f c)) by done.
  split_and!; [|done|done]. split; try done.
  - apply (ki_src _ _ _ _ I).
  - apply (ki_len _ _ _ _ I).
  - simpl. by rewrite Hinit.
  - intros y m Hy. destruct (decide (y = x)) as [->|Hne].
    + rewrite Hcx. rewrite Ho in Hy. injection Hy as <-. split; [done|by exists fl'].
    + eapply touched_page; [exact I|exact T|done|done|]. eapply src_disjoint; [apply (ki_src _ _ _ _ I)| | |]; done.
  - intros c' Hc'. destruct (ki_dll _ _ _ _ I c' Hc') as [Hd Hnd]. split; [|done]. eapply is_dll_frame; [|exact Hd].
    intros y _. unfold spv, snx, k'. rewrite slab_at_set. destruct (decide (y = x)) as [->|]; done.
  - intros c' y Hc' Hy. destruct (ki_in _ _ _ _ I c' y Hc' Hy) as (h' & Hs' & Hf). destruct (decide (y = x)) as [->|Hne].
    + destruct (slab_of_class _ _ _ _ _ _ _ Hs Hs') as [-> _]. by exists (with_free h f c).
    + exists h'. rewrite Hso by done. split; [done|]. intros _. by apply Hf.
  - intros c' y h' Hs' Hne. assert (Hyx : y <> x) by congruence. apply Hso in Hs'; [|done].
    by apply (ki_out _ _ _ _ I c' y h' Hs').
  - intros c' Hc' He. change (class_at k' c') with (class_at k c') in *.
    destruct (ki_empty _ _ _ _ I c' Hc' He) as (_ & h' & Hs' & E).
    assert (Hne : empty_slab (class_at k c') <> x).
    { intros Ex. rewrite Ex in Hs'. destruct (slab_of_class _ _ _ _ _ _ _ Hs Hs') as [-> _]. done. }
    split; [congruence|]. exists h'. by rewrite Hso.
Qed.

(** The page [x] is on the lists again as its free objects ask. *)
Lemma close_inv k p G x :
  kalloc_inv k p G (Some x) ->
  (forall ci h, (ci < NUM_CLASSES)%nat -> slab_of k p x ci h -> (x ∈ G ci <-> free_count h <> 0)) ->
  (forall ci h, slab_of k p x ci h -> (ci < NUM_CLASSES)%nat) ->
  kalloc_inv k p G None.
Proof.
  intros I Hiff Hcl.
  assert (Hne : forall c h, (c < NUM_CLASSES)%nat -> slab_of k p x c h -> x <> empty_slab (class_at k c)).
  { intros c h Hc Hs E. assert (Hx0 : x <> 0). { intros ->. destruct Hs as [Ho _]. apply (src_range _ _ _ (ki_src _ _ _ _ I)) in Ho. lia. }
    destruct (ki_empty _ _ _ _ I c Hc) as [HD _]; [by rewrite <- E|]. by rewrite <- E in HD. }
  split; try apply I.
  - intros c y Hc Hy. destruct (ki_in _ _ _ _ I c y Hc Hy) as (h' & Hs' & Hf). exists h'. split; [done|]. intros _.
    destruct (decide (y = x)) as [->|Hyx]; [|apply Hf; congruence].
    split; [by apply (Hiff c)|by eapply Hne].
  - intros c y h' Hs' _ Hf He. destruct (decide (y = x)) as [->|Hyx]; [|by apply (ki_out _ _ _ _ I c y h'); try done; congruence].
    apply (Hiff c h'); eauto.
  - intros c Hc He. destruct (ki_empty _ _ _ _ I c Hc He) as [_ ?]. done.
Qed.

Lemma close_slab k p G x ci h :
  kalloc_inv k p G (Some x) -> slab_of k p x ci h -> (ci < NUM_CLASSES)%nat ->
  (x ∈ G ci <-> free_count h <> 0) -> kalloc_inv k p G None.
Proof.
  intros I Hs Hci Hiff. eapply close_inv; [done| |]; intros c h'; [intros _|]; intros Hs';
    by destruct (slab_of_class _ _ _ _ _ _ _ Hs Hs') as [-> ->].
Qed.

Definition kalloc_ok (st : kalloc_state * P) : Prop := exists G, kalloc_inv st.1 st.2 G None.

(** [b] is a new block of at least [n] bytes, away from every live one. *)
Definition fresh_block (st : kalloc_state * P) (b sz n : Z) : Prop :=
  n <= sz /\ 0 < b /\ b `mod` KALLOC_ALIGN = 0 /\ b + sz <= 2 ^ 64 /\
  forall b' sz', (b', sz') ∈ blocks st.1 st.2 -> b + sz <= b' \/ b' + sz' <= b.

(** Blocks of different pages do not overlap. *)
Lemma page_away k p G D x n y m b sz b' sz' :
  kalloc_inv k p G D -> owned p !! x = Some n -> owned p !! y = Some m -> y <> x ->
  x <= b -> b + sz <= x + n * PAGE_SIZE -> (b', sz') ∈ page_blocks k y m -> b + sz <= b' \/ b' + sz' <= b.
Proof.
  intros I Hx Hy Hne H1 H2 Hin. destruct (page_blocks_range _ _ _ _ _ _ _ _ I Hy Hin) as (H3 & H4 & H5).
  unfold sizeof_large_hdr in H3.
  destruct (src_disjoint _ _ _ _ _ (ki_src _ _ _ _ I) Hx Hy) as [?|?]; [done| |]; lia.
Qed.

Lemma obj_align pg ci o : (ci < NUM_CLASSES)%nat -> pg `mod` PAGE_SIZE = 0 -> o ∈ slab_objs pg ci -> o `mod` KALLOC_ALIGN = 0.
Proof.
  intros Hci Hpg Ho. apply slab_objs_elem in Ho as (i & _ & ->). unfold slab_obj. rewrite hdr_bytes_eq. unfold KALLOC_ALIGN, PAGE_SIZE in *.
  assert (Hc : class_size ci `mod` 8 = 0).
  { unfold NUM_CLASSES in Hci. simpl in Hci. do 9 (destruct ci as [|ci]; [done|]). lia. }
  apply Z.mod_divide in Hc as [c ->]; [|done]. apply Z.mod_divide in Hpg as [d ->]; [|done].
  apply Z.mod_divide; [done|]. exists (d * 512 + 6 + i * c). lia.
Qed.

(** Popping the first slab of the partial list. *)
Lemma slab_pop_spec k p G ci b k' n :
  kalloc_inv k p G None -> kalloc_init_done k = true -> (ci < NUM_CLASSES)%nat -> partial (class_at k ci) <> 0 ->
  slab_pop k ci (partial (class_at k ci)) = (b, k') -> n <= class_size ci ->
  (exists G', kalloc_inv k' p G' None) /\ kalloc_init_done k' = true /\
  fresh_block (k, p) b (class_size ci) n /\
  blocks k' p = {[(b, class_size ci)]} ∪ blocks k p.
Proof.
  intros I Hinit Hci Hx0 E Hn. set (x := partial (class_at k ci)) in *.
  destruct (ki_dll _ _ _ _ I ci Hci) as [Hd Hnd]. pose proof (is_dll_head _ _ _ _ _ Hd) as Hh. fold x in Hh.
  destruct (G ci) as [|x' l] eqn:HG; [done|]. simpl in Hh. subst x'.
  destruct (ki_in _ _ _ _ I ci x Hci) as (h & Hs & Hfe); [rewrite HG; by left|]. destruct (Hfe ltac:(done)) as [Hf He].
  destruct (Hs) as (Ho & Hc & Ecl). pose proof (ki_page _ _ _ _ I x 1 Ho) as Hp. rewrite Hc in Hp. destruct Hp as (_ & fl & Hok).
  pose proof (is_slab_hdr _ _ (slab_of_is _ _ _ _ _ Hs)) as Eh.
  assert (Efr : free_count (slab_at k x) = free_count h /\ freelist (slab_at k x) = freelist h).
  { unfold cont in Hc. rewrite Eh in Hc. injection Hc as <-. done. }
  destruct Efr as [Efc Efl]. destruct fl as [|o rest]; [by destruct Hok; simpl in *|].
  pose proof (so_chain _ _ _ _ Hok) as (Eo & Ho0 & Hrest). pose proof (so_free _ _ _ _ Hok) as Hfc.
  destruct (class_facts ci Hci) as (Hcs & Htot & _). destruct (src_range _ _ _ (ki_src _ _ _ _ I) Ho) as (Hx & _ & Hxm & Hxr).
  assert (Hlen : Z.of_nat (length (o :: rest)) <= slab_total ci).
  { rewrite <- (Z2Nat.id (slab_total ci)), <- (slab_objs_length x ci) by lia. apply inj_le.
    apply submseteq_length, NoDup_submseteq; [apply Hok|]. rewrite <- Ecl. apply Hok. }
  simpl length in Hfc, Hlen. set (c' := wrap32 (free_count h - 1)) in *.
  assert (Ec' : c' = Z.of_nat (length rest)) by (unfold c'; rewrite wrap32_small; lia).
  assert (Hoin : o ∈ slab_objs x ci) by (rewrite <- Ecl; apply Hok; by left).
  assert (Hok' : slab_ok (links k) x (with_free h (default 0 (links k !! o)) c') rest).
  { pose proof (so_nodup _ _ _ _ Hok) as Hndf. apply list.NoDup_cons in Hndf as [_ Hndf].
    split; simpl; try done; try apply Hok. intros o' Ho'. apply Hok. by right. }
  unfold slab_pop in E. rewrite Efc, Efl, Eo in E. fold c' in E.
  destruct (slab_write_inv k p G ci x h (links k) (default 0 (links k !! o)) c' rest I Hinit Hs Hci He ltac:(done) Hok') as (I1 & Hs1 & T).
  set (k1 := set_slab (set_links k (links k)) x (with_free (slab_at k x) (default 0 (links k !! o)) c')) in *.
  change (set_slab k x (with_free (slab_at k x) (default 0 (links k !! o)) c')) with k1 in E.
  assert (Ek1 : free_count (slab_at k1 x) = c') by (unfold k1; by rewrite slab_at_set, decide_True). rewrite Ek1 in E.
  injection E as <- E.
  assert (Hblocks : blocks k1 p = {[(o, class_size ci)]} ∪ blocks k p).
  { eapply (blocks_add _ _ _ _ x); [done| |].
    - intros y m Hne Hy. eapply (touched_page k k1 p G None x 1); eauto. eapply src_disjoint; [apply (ki_src _ _ _ _ I)| | |]; done.
    - intros e. unfold blocks_at. rewrite Ho. destruct Hs1 as (_ & Hc1 & _).
      rewrite (elem_of_slab_blocks k1 x 1 _ _ e Hc1 Hok'), (elem_of_slab_blocks k x 1 _ _ e Hc Hok). simpl.
      rewrite Ecl, not_elem_of_cons. destruct e as [b sz]; simpl.
      assert (o ∉ rest) by (pose proof (so_nodup _ _ _ _ Hok) as Hndf; by apply list.NoDup_cons in Hndf as [? _]).
      split.
      + intros (-> & ? & ?). destruct (decide (b = o)) as [->|]; [by left|right; tauto].
      + intros [[= -> ->]|?]; tauto. }
  split_and!.
  - destruct (c' =? 0) eqn:Ez; bool_prop.
    + destruct (slab_remove_inv k1 p G ci x [] l (Some x) I1 Hinit Hci HG ltac:(done) ltac:(by right)) as (I2 & R & Hxl). subst k'.
      exists (upd G ci l). eapply close_slab; [exact I2|rewrite slab_of_relinked by exact R; exact Hs1|done|].
      unfold upd. rewrite decide_True by done. simpl. tauto.
    + subst k'. exists G. eapply close_slab; [exact I1|exact Hs1|done|]. simpl. rewrite HG. split; [done|]. intros _. by left.
  - destruct (c' =? 0); subst k'; [|done]. unfold slab_remove.
    destruct (negb _), (negb _); simpl; by rewrite ?Hinit.
  - split_and!; try lia.
    + apply slab_objs_range in Hoin; [|done]. rewrite hdr_bytes_eq in Hoin. lia.
    + by eapply obj_align.
    + apply slab_objs_range in Hoin; [|done]. unfold PAGE_SIZE in *. lia.
    + intros b' sz' Hin. simpl in Hin. rewrite (blocks_split k p x) in Hin. unfold blocks_at in Hin. rewrite Ho in Hin.
      destruct Hin as [Hin|(y & m & Hne & Hy & Hin)].
      * apply (elem_of_slab_blocks _ _ _ _ _ _ Hc Hok) in Hin as (Es & Hin & Hnf). simpl in *. subst sz'. rewrite Ecl in *.
        apply slab_objs_disjoint with x; try done. intros ->. apply Hnf. by left.
      * apply slab_objs_range in Hoin; [|done]. rewrite hdr_bytes_eq in Hoin. eapply (page_away k p G None x 1 y m); eauto; lia.
  - destruct (c' =? 0) eqn:Ez; subst k'; [|done]. bool_prop.
    destruct (slab_remove_inv k1 p G ci x [] l (Some x) I1 Hinit Hci HG ltac:(done) ltac:(by right)) as (I2 & R & Hxl).
    by rewrite (blocks_relinked _ _ _ R).
Qed.


(** The first call initialises the classes, which are empty already. *)
Lemma init_step k p G : kalloc_inv k p G None ->
  let k1 := if kalloc_init_done k then k else kalloc_init k in
  kalloc_inv k1 p G None /\ kalloc_init_done k1 = true /\ blocks k1 p = blocks k p.
Proof.
  intros I k1. unfold k1. destruct (kalloc_init_done k) eqn:E; [done|]. rewrite (proj2 (ki_init _ _ _ _ I E)).
  split_and!; [|done|done]. destruct I. by split.
Qed.

(** A block of pages [m] new from the source, with its header written. *)
Lemma new_pages_inv k p p' G m n k' :
  kalloc_inv k p G None -> src_ok p' -> owned p !! m = None -> owned p' = <[m := n]> (owned p) ->
  touched k k' p m n -> slab_classes k' = slab_classes k -> kalloc_init_done k = true -> kalloc_init_done k' = true ->
  page_ok (links k') (cont k' m) m n ->
  kalloc_inv k' p' G (Some m) /\ (forall ci, (ci < NUM_CLASSES)%nat -> m ∉ G ci) /\
  (forall y j, owned p !! y = Some j -> page_blocks k' y j = page_blocks k y j) /\
  (forall y j, y <> m -> owned p' !! y = Some j <-> owned p !! y = Some j).
Proof.
  intros I Hok' Hm Hp' T Ecl Hin Hin' Hpg.
  assert (Hown : forall y j, y <> m -> owned p' !! y = Some j <-> owned p !! y = Some j)
    by (intros; rewrite Hp', lookup_insert_ne; done).
  assert (Hnm : forall y j, owned p !! y = Some j -> y <> m) by (intros y j Hy ->; congruence).
  assert (Hcls : forall c, class_at k' c = class_at k c) by (intros; unfold class_at; by rewrite Ecl).
  assert (Hpages : forall y j, owned p !! y = Some j -> page_ok (links k') (cont k' y) y j /\ page_blocks k' y j = page_blocks k y j).
  { intros y j Hy. eapply touched_page; eauto. eapply (src_disjoint p'); eauto; [by apply Hown; eauto|by rewrite Hp', lookup_insert_eq]. }
  assert (Hso : forall y c h, y <> m -> slab_of k' p' y c h <-> slab_of k p y c h).
  { intros y c h Hne. unfold slab_of. rewrite Hown by done.
    split; intros (A & B & C); split_and!; try done; [rewrite <- (touched_cont _ _ _ _ _ _ _ T A)|rewrite (touched_cont _ _ _ _ _ _ _ T A)]; done. }
  assert (HmG : forall ci, (ci < NUM_CLASSES)%nat -> m ∉ G ci).
  { intros ci Hci Hmi. destruct (ki_in _ _ _ _ I ci m Hci Hmi) as (h & (Ho & _) & _). congruence. }
  split_and!; [|done|intros; by apply Hpages|done].
  split; try done.
  - by rewrite Ecl, (ki_len _ _ _ _ I).
  - by rewrite Hin'.
  - intros y j Hy. destruct (decide (y = m)) as [->|Hne]; [|by apply Hpages, Hown].
    rewrite Hp', lookup_insert_eq in Hy. by simplify_eq.
  - intros c Hc. rewrite Hcls. destruct (ki_dll _ _ _ _ I c Hc) as [Hd Hnd]. split; [|done]. eapply is_dll_frame; [|exact Hd].
    intros y Hy. destruct (ki_in _ _ _ _ I c y Hc Hy) as (h & (Ho & _) & _). unfold spv, snx, slab_at.
    rewrite (proj1 T y 1) by eauto. done.
  - intros c y Hc Hy. destruct (ki_in _ _ _ _ I c y Hc Hy) as (h & Hs & Hf). exists h. rewrite Hso, Hcls.
    + split; [done|]. intros _. by apply Hf.
    + intros ->. by apply (HmG c).
  - intros c y h Hs Hne Hf. rewrite Hcls. assert (Hym : y <> m) by congruence. apply Hso in Hs; [|done]. by apply (ki_out _ _ _ _ I c y h).
  - intros c Hc. rewrite Hcls. intros He. destruct (ki_empty _ _ _ _ I c Hc He) as (_ & h & Hs & E).
    assert (empty_slab (class_at k c) <> m) by (destruct Hs as [Ho _]; eauto). split; [congruence|]. exists h. by rewrite Hso.
Qed.

(** Clearing fresh pages leaves the headers of the owned ones. *)
Lemma fresh_pages_touched k p p' m n y j :
  src_ok p' -> owned p !! m = None -> owned p' = <[m := n]> (owned p) -> owned p !! y = Some j ->
  hdrs (fresh_pages k m n) !! y = hdrs k !! y.
Proof.
  intros Hok' Hm Hp' Hy. assert (Hne : y <> m) by congruence.
  assert (Hy' : owned p' !! y = Some j) by (by rewrite Hp', lookup_insert_ne).
  assert (Hm' : owned p' !! m = Some n) by (by rewrite Hp', lookup_insert_eq).
  destruct (src_range _ _ _ Hok' Hy') as (_ & Hj & _). destruct (src_range _ _ _ Hok' Hm') as (_ & Hn & _).
  pose proof (src_disjoint _ _ _ _ _ Hok' Hy' Hm' Hne) as Hdis. unfold fresh_pages. simpl.
  pose proof (for_range_inv (fun i h => hdrs k !! y = h !! y) (fun i h => delete (m + i * PAGE_SIZE) h)
    (Z.to_nat n) 0 (hdrs k)) as Hinv. symmetry. apply Hinv; [done|].
  intros i h Hi E. rewrite E, lookup_delete_ne; [done|]. intros Ei. unfold PAGE_SIZE in *. lia.
Qed.

(** A new slab: its page is initialised and pushed. *)
Lemma new_slab_inv k p p' G ci m :
  kalloc_inv k p G None -> kalloc_init_done k = true -> (ci < NUM_CLASSES)%nat ->
  src_ok p' -> owned p !! m = None -> owned p' = <[m := 1]> (owned p) -> 0 < m ->
  let k' := slab_push (slab_init_page (fresh_pages k m 1) m ci) ci m in
  (exists G', kalloc_inv k' p' G' None) /\ kalloc_init_done k' = true /\ partial (class_at k' ci) = m /\
  blocks k' p' = blocks k p.
Proof.
  intros I Hinit Hci Hok' Hm Hp' Hm0. destruct (class_facts ci Hci) as (Hcs & Htot & _).
  set (k1 := slab_init_page (fresh_pages k m 1) m ci). destruct (init_links_spec (links k) m ci Hci Hm0) as [Hch Hlk].
  set (h := {| sh_class_idx := ci; free_count := slab_total ci; total_count := slab_total ci;
               freelist := m + hdr_bytes; sh_prev := 0; sh_next := 0 |}).
  assert (Ehdr : hdrs k1 !! m = Some (Slab h)) by (unfold k1, slab_init_page, set_slab; cbn [hdrs set_hdrs]; by rewrite lookup_insert_eq).
  assert (Hc1 : cont k1 m = Some (Slab h)) by (unfold cont; by rewrite Ehdr).
  assert (T : touched k k1 p m 1).
  { split.
    - intros y j Hy Hne. unfold k1, slab_init_page, set_slab. cbn [hdrs set_hdrs set_links]. rewrite lookup_insert_ne by done.
      by eapply fresh_pages_touched.
    - intros a Ha. unfold k1, slab_init_page, set_slab. cbn [links set_hdrs set_links]. apply Hlk. intros Hin.
      apply slab_objs_range in Hin; [|done]. rewrite hdr_bytes_eq in Hin. unfold PAGE_SIZE in *. lia. }
  assert (Hslab : slab_ok (links k1) m h (slab_objs m ci)).
  { split; try done; cbn [free_count total_count sh_class_idx h].
    - rewrite slab_objs_length. lia.
    - by apply slab_objs_nodup. }
  destruct (new_pages_inv k p p' G m 1 k1) as (I1 & HmG & Hpb & Hown); try done.
  { rewrite Hc1. split; [done|by eexists]. }
  assert (Hs1 : slab_of k1 p' m ci h) by (split_and!; try done; by rewrite Hp', lookup_insert_eq).
  destruct (slab_push_inv k1 p' G ci m h I1 Hinit Hci Hs1) as [I2 R]; [simpl; lia|by apply HmG|].
  assert (Hp : partial (class_at (slab_push k1 ci m) ci) = m).
  { unfold slab_push, set_partial. rewrite class_at_insert; [by rewrite decide_True|].
    destruct (_ =? 0); simpl; by rewrite (ki_len _ _ _ _ I). }
  split_and!; [by eexists| |done|].
  - by rewrite (rl_init _ _ R).
  - rewrite (blocks_relinked _ _ _ R). apply set_eq. intros e.
    rewrite (blocks_split k1 p' m), (blocks_split k p m). unfold blocks_at. rewrite Hm, Hp', lookup_insert_eq.
    rewrite (elem_of_slab_blocks k1 m 1 _ _ e Hc1 Hslab), <- Hp'. split.
    + intros [(_ & ? & ?)|(y & j & Hne & Hy & He)]; [done|]. right. exists y, j. rewrite Hown in Hy by done.
      by rewrite Hpb in He.
    + intros [He|(y & j & Hne & Hy & He)]; [by apply not_elem_of_nil in He|]. right. exists y, j. by rewrite Hown, Hpb.
Qed.


(** [empty] of a class is taken off, or set. *)
Lemma take_empty_inv k p G ci : kalloc_inv k p G None -> kalloc_init_done k = true -> (ci < NUM_CLASSES)%nat ->
  empty_slab (class_at k ci) <> 0 ->
  let e := empty_slab (class_at k ci) in
  kalloc_inv (set_empty k ci 0) p G (Some e) /\ (e ∉ G ci) /\
  exists h, slab_of k p e ci h /\ free_count h = total_count h.
Proof.
  intros I Hinit Hci He e. destruct (ki_empty _ _ _ _ I ci Hci He) as (_ & h & Hs & Hf). fold e in Hs.
  assert (Hcl : forall c, class_at (set_empty k ci 0) c = if decide (c = ci) then {| partial := partial (class_at k ci); empty_slab := 0 |} else class_at k c).
  { intros c. unfold set_empty. apply class_at_insert. by rewrite (ki_len _ _ _ _ I). }
  assert (Hne : e ∉ G ci).
  { intros Hin. destruct (ki_in _ _ _ _ I ci e Hci Hin) as (h' & _ & Hx). by destruct (Hx ltac:(done)). }
  split_and!; [|done|by exists h]. split; try apply I.
  - simpl. by rewrite length_insert, (ki_len _ _ _ _ I).
  - simpl. by rewrite Hinit.
  - intros c Hc. rewrite Hcl. destruct (ki_dll _ _ _ _ I c Hc) as [Hd Hnd]. split; [|done]. by destruct (decide (c = ci)) as [->|].
  - intros c y Hc Hy. destruct (ki_in _ _ _ _ I c y Hc Hy) as (h' & Hs' & Hx). exists h'. split; [done|]. intros HD.
    destruct (Hx ltac:(done)) as [Hx1 Hx2]. split; [done|]. rewrite Hcl. destruct (decide (c = ci)); [|done]. simpl.
    intros ->. destruct Hs' as [Ho _]. apply (src_range _ _ _ (ki_src _ _ _ _ I)) in Ho. lia.
  - intros c y h' Hs' HD Hf' He'. apply (ki_out _ _ _ _ I c y h'); try done. rewrite Hcl in He'.
    destruct (decide (c = ci)) as [->|]; [|done]. intros ->. by apply HD.
  - intros c Hc He'. rewrite Hcl in He' |- *. destruct (decide (c = ci)) as [->|Hne']; [done|].
    destruct (ki_empty _ _ _ _ I c Hc He') as (_ & h' & Hs' & E). split; [|by exists h'].
    intros [= Ee]. rewrite <- Ee in Hs'. by destruct (slab_of_class _ _ _ _ _ _ _ Hs Hs') as [-> _].
Qed.

Lemma set_empty_inv k p G ci x h : kalloc_inv k p G (Some x) -> kalloc_init_done k = true -> (ci < NUM_CLASSES)%nat ->
  slab_of k p x ci h -> free_count h = total_count h -> x ∉ G ci -> empty_slab (class_at k ci) = 0 ->
  kalloc_inv (set_empty k ci x) p G None.
Proof.
  intros I Hinit Hci Hs Hf HxG He.
  assert (Hcl : forall c, class_at (set_empty k ci x) c = if decide (c = ci) then {| partial := partial (class_at k ci); empty_slab := x |} else class_at k c).
  { intros c. unfold set_empty. apply class_at_insert. by rewrite (ki_len _ _ _ _ I). }
  assert (HxG' : forall c, (c < NUM_CLASSES)%nat -> x ∉ G c).
  { intros c Hc Hx. destruct (ki_in _ _ _ _ I c x Hc Hx) as (h' & Hs' & _). by destruct (slab_of_class _ _ _ _ _ _ _ Hs Hs') as [-> _]. }
  split; try apply I.
  - simpl. by rewrite length_insert, (ki_len _ _ _ _ I).
  - simpl. by rewrite Hinit.
  - intros c Hc. rewrite Hcl. destruct (ki_dll _ _ _ _ I c Hc) as [Hd Hnd]. split; [|done]. by destruct (decide (c = ci)) as [->|].
  - intros c y Hc Hy. assert (Hyx : y <> x) by (intros ->; by apply (HxG' c)).
    destruct (ki_in _ _ _ _ I c y Hc Hy) as (h' & Hs' & Hx). exists h'. split; [done|]. intros _.
    destruct (Hx ltac:(congruence)) as [Hx1 Hx2]. split; [done|]. rewrite Hcl. by destruct (decide (c = ci)).
  - intros c y h' Hs' _ Hf' He'. rewrite Hcl in He'. destruct (decide (c = ci)) as [->|Hne].
    + simpl in He'. apply (ki_out _ _ _ _ I ci y h'); try done; [congruence|]. rewrite He. intros ->.
      destruct Hs' as [Ho _]. apply (src_range _ _ _ (ki_src _ _ _ _ I)) in Ho. lia.
    + apply (ki_out _ _ _ _ I c y h'); try done. intros [= ->]. by destruct (slab_of_class _ _ _ _ _ _ _ Hs Hs') as [-> _].
  - intros c Hc He'. rewrite Hcl in He' |- *. split; [done|]. destruct (decide (c = ci)) as [->|Hne]; [by exists h|].
    by destruct (ki_empty _ _ _ _ I c Hc He') as (_ & h' & Hs' & E); exists h'.
Qed.

(** The pages at [x], on no list, go back to the source. *)
Lemma free_pages_inv k p G D x n : kalloc_inv k p G D -> owned p !! x = Some n ->
  (forall ci, (ci < NUM_CLASSES)%nat -> (x ∉ G ci) /\ x <> empty_slab (class_at k ci)) -> (D = None \/ D = Some x) ->
  kalloc_inv k (src_free x n p) G None.
Proof.
  intros I Ho Hx HD. destruct (src_free_spec x n p (ki_src _ _ _ _ I) Ho) as [Hok' Hown].
  assert (Hso : forall y c h, slab_of k (src_free x n p) y c h <-> y <> x /\ slab_of k p y c h).
  { intros y c h. unfold slab_of. rewrite Hown. destruct (decide (y = x)) as [->|Hne].
    - rewrite lookup_delete_eq. split; [by intros (? & _)|by intros [? _]].
    - rewrite lookup_delete_ne by done. tauto. }
  split; try apply I; try done.
  - intros Hi. destruct (ki_init _ _ _ _ I Hi) as [E _]. by rewrite E in Ho.
  - intros y m. rewrite Hown. intros [_ Hy]%lookup_delete_Some. by apply (ki_page _ _ _ _ I).
  - intros c y Hc Hy. destruct (ki_in _ _ _ _ I c y Hc Hy) as (h' & Hs' & Hf). exists h'.
    assert (Hne : y <> x) by (intros ->; by destruct (Hx c Hc)). rewrite Hso. split; [done|]. intros _.
    apply Hf. destruct HD as [->| ->]; congruence.
  - intros c y h' [Hne Hs']%Hso _. apply (ki_out _ _ _ _ I c y h' Hs'). destruct HD as [->| ->]; congruence.
  - intros c Hc He. split; [done|]. destruct (ki_empty _ _ _ _ I c Hc He) as (_ & h' & Hs' & E). exists h'.
    rewrite Hso. split_and!; try done; [|apply Hs'..]. by destruct (Hx c Hc) as [_ ?]; apply not_eq_sym.
Qed.

Lemma partial_push k ci x : (ci < length (slab_classes k))%nat -> partial (class_at (slab_push k ci x) ci) = x.
Proof.
  intros Hci. unfold slab_push, set_partial. rewrite class_at_insert; [by rewrite decide_True|]. by destruct (_ =? 0).
Qed.

Lemma kmalloc_blocks st bytes b st' :
  kalloc_ok st -> 0 < bytes -> Kalloc.kmalloc src_alloc bytes st = (b, st') ->
  kalloc_ok st' /\
  ((b = 0 /\ blocks st'.1 st'.2 = blocks st.1 st.2) \/
   exists sz, fresh_block st b sz 0 /\ (bytes + sizeof_large_hdr + PAGE_SIZE <= 2 ^ 64 -> bytes <= sz) /\
     blocks st'.1 st'.2 = {[(b, sz)]} ∪ blocks st.1 st.2).
Proof.
  destruct st as [k0 p]. intros [G I0] Hb E. simpl in I0. unfold Kalloc.kmalloc in E.
  rewrite (proj2 (Z.eqb_neq bytes 0)) in E by lia.
  destruct (init_step k0 p G I0) as (I & Hinit & Hbl). set (k := if kalloc_init_done k0 then k0 else kalloc_init k0) in *.
  cbn zeta in E. destruct (class_for_spec bytes Hb) as [[Hci Hsz]|[Hci Hsz]].
  - rewrite (proj2 (Nat.eqb_neq _ _)) in E by lia. set (ci := class_for bytes) in *.
    assert (Hpop : forall k1 p1 G1 x, kalloc_inv k1 p1 G1 None -> kalloc_init_done k1 = true -> blocks k1 p1 = blocks k0 p ->
      partial (class_at k1 ci) = x -> x <> 0 -> (let '(obj, k2) := slab_pop k1 ci x in (obj, (k2, p1))) = (b, st') ->
      kalloc_ok st' /\ exists sz, fresh_block (k0, p) b sz 0 /\ (bytes + sizeof_large_hdr + PAGE_SIZE <= 2 ^ 64 -> bytes <= sz) /\
        blocks st'.1 st'.2 = {[(b, sz)]} ∪ blocks k0 p).
    { intros k1 p1 G1 x I1 Hi1 Hb1 <- Hx0 E1. destruct (slab_pop k1 ci _) as [o k2] eqn:Ep. injection E1 as <- <-.
      destruct (class_facts ci Hci) as (Hcs & _).
      destruct (slab_pop_spec k1 p1 G1 ci o k2 0 I1 Hi1 Hci Hx0 Ep ltac:(lia)) as ([G2 I2] & _ & Hf & Hb2).
      split; [by exists G2|]. exists (class_size ci). unfold fresh_block in *. simpl in *. rewrite Hb1 in *. done. }
    destruct (partial (class_at k ci) =? 0) eqn:Ex; bool_prop; simpl in E.
    + destruct (empty_slab (class_at k ci) =? 0) eqn:Ee; bool_prop; simpl in E.
      * destruct (src_alloc 1 p) as [m p'] eqn:Ea.
        destruct (src_alloc_spec 1 p m p' (ki_src _ _ _ _ I) ltac:(lia) Ea) as [Hok' [[-> Hown]|(Hm0 & Hm & Hown)]].
        -- simpl in E. injection E as <- <-. split; [|left; split; [done|]; simpl; rewrite <- Hbl; unfold blocks; by rewrite Hown].
           exists G. simpl. destruct I. split; try done; try (unfold slab_of in *; by rewrite Hown).
        -- rewrite (proj2 (Z.eqb_neq m 0)) in E by lia.
           destruct (new_slab_inv k p p' G ci m I Hinit Hci Hok' Hm Hown Hm0) as ([G' I'] & Hi' & Hpm & Hbm).
           destruct (Hpop _ _ G' m I' Hi' ltac:(by rewrite Hbm) Hpm ltac:(lia) E) as [? ?]. split; [done|by right].
      * destruct (take_empty_inv k p G ci I Hinit Hci Ee) as (I1 & HeG & h & Hs & Hf).
        set (e := empty_slab (class_at k ci)) in *.
        assert (Hs1 : slab_of (set_empty k ci 0) p e ci h) by done.
        assert (Hfn : free_count h <> 0).
        { destruct Hs as (Ho & Hc & Ec). pose proof (ki_page _ _ _ _ I e 1 Ho) as Hp. rewrite Hc in Hp. destruct Hp as (_ & fl & Hok).
          rewrite Hf, (so_total _ _ _ _ Hok), Ec. destruct (class_facts ci Hci) as (_ & ? & _). lia. }
        destruct (slab_push_inv _ p G ci e h I1 Hinit Hci Hs1 Hfn HeG) as [I2 R].
        destruct (Hpop _ p _ e I2) as [? ?]; try done; [by rewrite (rl_init _ _ R)| | |split; [done|by right]].
        -- rewrite (blocks_relinked _ _ _ R). by rewrite <- Hbl.
        -- apply partial_push. simpl. by rewrite length_insert, (ki_len _ _ _ _ I).
    + destruct (Hpop k p G _ I Hinit Hbl eq_refl Ex E) as [? ?]. split; [done|by right].
  - rewrite Hci, Nat.eqb_refl in E. set (n := (_ +w (PAGE_SIZE - 1)) / PAGE_SIZE) in E.
    assert (Hn0 : 0 <= n) by (apply Z.div_pos; [apply wrap64_range|done]).
    destruct (decide (n = 0)) as [Hn|Hn].
    { rewrite Hn, src_alloc_zero in E. simpl in E. injection E as <- <-. split; [by exists G|]. left. by split. }
    destruct (src_alloc n p) as [m p'] eqn:Ea.
    destruct (src_alloc_spec n p m p' (ki_src _ _ _ _ I) ltac:(lia) Ea) as [Hok' [[-> Hown]|(Hm0 & Hm & Hown)]].
    { simpl in E. injection E as <- <-. split; [|left; split; [done|]; simpl; rewrite <- Hbl; unfold blocks; by rewrite Hown].
      exists G. simpl. destruct I. split; try done; try (unfold slab_of in *; by rewrite Hown). }
    rewrite (proj2 (Z.eqb_neq m 0)) in E by lia.
    set (k1 := set_hdrs (fresh_pages k m n) _) in E. injection E as <- <-. simpl.
    assert (Hc1 : cont k1 m = Some (Large {| lh_pages := n |})) by (unfold cont, k1; simpl; by rewrite lookup_insert_eq).
    assert (T : touched k k1 p m n).
    { split; [|done]. intros y j Hy Hne. unfold k1. simpl. rewrite lookup_insert_ne by done. by eapply fresh_pages_touched. }
    destruct (new_pages_inv k p p' G m n k1) as (I1 & HmG & Hpb & Hown'); try done; [by rewrite Hc1|].
    assert (Hm' : owned p' !! m = Some n) by (by rewrite Hown, lookup_insert_eq).
    destruct (src_range _ _ _ Hok' Hm') as (_ & _ & Hmod & Hr).
    split; [exists G; apply (close_inv k1 p' G m I1); intros c h; [intros _|]; intros (_ & Hc & _); by rewrite Hc1 in Hc|].
    right. exists (n * PAGE_SIZE - sizeof_large_hdr). unfold fresh_block. split_and!; unfold sizeof_large_hdr, PAGE_SIZE, KALLOC_ALIGN in *; simpl; try lia.
    + zlia.
    + intros b' sz' Hin. rewrite <- Hbl in Hin. apply elem_of_blocks in Hin as (y & j & Hy & Hin).
      assert (Hne : y <> m) by congruence. rewrite <- (Hpb y j Hy) in Hin. eapply (page_away k1 p' G _ m n y j); eauto.
      * by apply Hown'.
      * lia.
      * unfold PAGE_SIZE. lia.
    + intros Hbig. unfold n. rewrite (wrap64_small (bytes + 16)) by lia. rewrite wrap64_small by lia. zlia.
    + rewrite <- Hbl. eapply (blocks_add _ _ _ _ m); [done|intros; by apply Hpb|].
      intros e. unfold blocks_at. rewrite Hm', Hm. unfold page_blocks. rewrite Hc1. rewrite list_elem_of_singleton.
      unfold sizeof_large_hdr, PAGE_SIZE. split; [by left|]. intros [->|He]; [done|by apply not_elem_of_nil in He].
Qed.


Lemma page_base pg b n : pg `mod` PAGE_SIZE = 0 -> pg <= b < pg + PAGE_SIZE -> n = Z.land b (Z.lnot (PAGE_SIZE - 1)) -> n = pg.
Proof.
  intros Hm Hb ->. change (PAGE_SIZE - 1) with (Z.ones 12). rewrite <- Z.ldiff_land, Z.ldiff_ones_r by done.
  rewrite Z.shiftl_mul_pow2, Z.shiftr_div_pow2 by done. change (2 ^ 12) with 4096. unfold PAGE_SIZE in *. zlia.
Qed.

(** The last live block of a slab: everything else is free. *)
Lemma full_slab lk pg h fl : slab_ok lk pg h fl -> free_count h = total_count h ->
  forall o, o ∈ slab_objs pg (sh_class_idx h) -> o ∈ fl.
Proof.
  intros Hok Hf o Ho. destruct (class_facts _ (so_class _ _ _ _ Hok)) as (_ & Ht & _).
  assert (Hperm : fl ≡ₚ slab_objs pg (sh_class_idx h)).
  { apply submseteq_length_Permutation.
    - apply NoDup_submseteq; apply Hok.
    - rewrite slab_objs_length, <- (so_total _ _ _ _ Hok), <- Hf, (so_free _ _ _ _ Hok). lia. }
  by rewrite Hperm.
Qed.

(** After an object went back to slab [x]: the lists, and the page when it is not needed. *)
Lemma slab_free_lists k p G x ci h :
  kalloc_inv k p G (Some x) -> kalloc_init_done k = true -> (ci < NUM_CLASSES)%nat -> slab_of k p x ci h ->
  forall fl, slab_ok (links k) x h fl -> free_count h <> 0 ->
  (x ∈ G ci -> free_count h <> 1) -> (free_count h <> 1 -> x ∈ G ci) ->
  let st' :=
    if free_count h =? 1 then (slab_push k ci x, p)
    else if free_count h =? total_count h
    then
      let k := slab_remove k ci x in
      if empty_slab (class_at k ci) =? 0 then (set_empty k ci x, p) else (k, src_free x 1 p)
    else (k, p) in
  kalloc_ok st' /\ blocks st'.1 st'.2 = blocks k p.
Proof.
  intros I Hinit Hci Hs fl Hok Hf0 HG1 HG2. destruct (Hs) as (Ho & Hc & Ecl). cbn zeta.
  destruct (free_count h =? 1) eqn:E1; bool_prop.
  { destruct (slab_push_inv k p G ci x h I Hinit Hci Hs Hf0) as [I2 R]; [intros Hx; by apply HG1|].
    split; [by eexists|]. by apply blocks_relinked. }
  pose proof (HG2 E1) as HxG. destruct (free_count h =? total_count h) eqn:E2; bool_prop; cycle 1.
  { split; [|done]. exists G. by eapply close_slab. }
  apply list_elem_of_split in HxG as (l1 & l2 & HGs).
  assert (Hx0 : x <> 0). { intros ->. apply (src_range _ _ _ (ki_src _ _ _ _ I)) in Ho. lia. }
  assert (Hxe : forall c, (c < NUM_CLASSES)%nat -> x <> empty_slab (class_at k c)).
  { intros c Hc' E. destruct (ki_empty _ _ _ _ I c Hc') as [HD _]; [by rewrite <- E|]. by rewrite <- E in HD. }
  destruct (slab_remove_inv k p G ci x l1 l2 (Some x) I Hinit Hci HGs) as (I2 & R & Hxl); [by intros; apply Hxe|by right|].
  set (k2 := slab_remove k ci x) in *. assert (Hs2 : slab_of k2 p x ci h) by (by rewrite (slab_of_relinked _ _ _ _ _ _ R)).
  assert (Hi2 : kalloc_init_done k2 = true) by (by rewrite (rl_init _ _ R)).
  assert (HxG2 : x ∉ upd G ci (l1 ++ l2) ci) by (unfold upd; by rewrite decide_True).
  destruct (empty_slab (class_at k2 ci) =? 0) eqn:E3; bool_prop; simpl.
  - split; [eexists; by eapply set_empty_inv|]. by rewrite <- (blocks_relinked _ _ _ R).
  - split.
    + exists (upd G ci (l1 ++ l2)). simpl. eapply free_pages_inv; [exact I2|done| |by right]. intros c Hc'.
      rewrite (rl_empty _ _ R). split; [|by apply Hxe]. intros Hx. destruct (ki_in _ _ _ _ I2 c x Hc' Hx) as (h' & Hs' & _).
      by destruct (slab_of_class _ _ _ _ _ _ _ Hs2 Hs') as [-> _].
    + pose proof (src_free_spec x 1 p (ki_src _ _ _ _ I) Ho) as [_ Hown]. rewrite <- (blocks_relinked _ _ _ R).
      apply set_eq. intros e. rewrite !elem_of_blocks, Hown. split.
      * intros (y & m & [_ Hy]%lookup_delete_Some & He). eauto.
      * intros (y & m & Hy & He). exists y, m. split; [|done]. rewrite lookup_delete_ne; [done|]. intros <-.
        destruct Hs2 as (_ & Hc2 & _). rewrite <- (rl_links _ _ R) in Hok.
        apply (elem_of_slab_blocks k2 x m h fl e Hc2 Hok) in He as (_ & Hin & Hnf). apply Hnf. by eapply full_slab.
Qed.

Lemma kfree_blocks st b sz :
  kalloc_ok st -> (b, sz) ∈ blocks st.1 st.2 ->
  let st' := Kalloc.kfree src_free b st in
  kalloc_ok st' /\ blocks st'.1 st'.2 = blocks st.1 st.2 ∖ {[(b, sz)]}.
Proof.
  destruct st as [k p]. intros [G I] Hin st'. simpl in I, Hin. apply elem_of_blocks in Hin as (x & n & Ho & Hin).
  destruct (page_blocks_range _ _ _ _ _ _ _ _ I Ho Hin) as (Hb1 & Hsz & Hb2).
  destruct (src_range _ _ _ (ki_src _ _ _ _ I) Ho) as (Hx & Hn & Hmod & Hr).
  pose proof (ki_page _ _ _ _ I x n Ho) as Hp. unfold st', Kalloc.kfree. unfold sizeof_large_hdr in Hb1.
  rewrite (proj2 (Z.eqb_neq b 0)) by lia.
  destruct (cont k x) as [[h|h]|] eqn:Hc; simpl in Hp; [| |done].
  - destruct Hp as (-> & fl & Hok). set (ci := sh_class_idx h). pose proof (so_class _ _ _ _ Hok) as Hci. fold ci in Hci.
    rewrite (page_base x b _ Hmod ltac:(unfold PAGE_SIZE in *; lia) eq_refl). cbn zeta.
    apply (elem_of_slab_blocks _ _ _ _ _ _ Hc Hok) in Hin as (Es & Hbin & Hbf). cbn [fst snd] in Es, Hbin, Hbf. fold ci in Hbin, Es. subst sz.
    assert (Hs : slab_of k p x ci h) by done. rewrite (is_slab_hdr _ _ (slab_of_is _ _ _ _ _ Hs)).
    assert (Eat : sh_class_idx (slab_at k x) = ci /\ freelist (slab_at k x) = freelist h /\
      free_count (slab_at k x) = free_count h /\ total_count (slab_at k x) = total_count h).
    { unfold cont in Hc. rewrite (is_slab_hdr _ _ (slab_of_is _ _ _ _ _ Hs)) in Hc. unfold ci. by injection Hc as <-. }
    destruct Eat as (-> & -> & Efc & Etot). cbn [free_count total_count with_free]. rewrite Efc, Etot.
    assert (Hinit : kalloc_init_done k = true).
    { destruct (kalloc_init_done k) eqn:Hi; [done|]. destruct (ki_init _ _ _ _ I Hi) as [E _]. by rewrite E in Ho. }
    pose proof (so_free _ _ _ _ Hok) as Hfc. destruct (class_facts ci Hci) as (Hcs & Htot & _).
    assert (Hsub : b :: fl ⊆+ slab_objs x ci).
    { apply NoDup_submseteq; [apply list.NoDup_cons; split; [done|apply Hok]|].
      intros o [->|Ho']%elem_of_cons; [done|]. by apply Hok. }
    apply submseteq_length in Hsub as Hlen. rewrite slab_objs_length in Hlen. simpl in Hlen.
    set (c' := wrap32 (free_count h + 1)). assert (Ec' : c' = Z.of_nat (length (b :: fl))) by (simpl; unfold c'; rewrite wrap32_small; lia).
    assert (Hbr : x + 48 <= b /\ b + class_size ci <= x + PAGE_SIZE) by (rewrite <- hdr_bytes_eq; by apply slab_objs_range).
    assert (Ec1 : c' = free_count h + 1 /\ 0 <= free_count h) by (rewrite Ec'; simpl; lia).
    set (lk' := <[b := freelist h]> (links k)).
    assert (Hlk : forall a, ~ x <= a < x + 1 * PAGE_SIZE -> lk' !! a = links k !! a).
    { intros a Ha. unfold lk'. rewrite lookup_insert_ne; [done|]. intros ->. unfold PAGE_SIZE in *. lia. }
    assert (Hok' : slab_ok lk' x (with_free h b c') (b :: fl)).
    { split; simpl; try apply Hok; try done.
      - split_and!; [done|lia|]. unfold lk'. rewrite lookup_insert_eq. simpl. eapply chain_frame; [|apply Hok].
        intros o Ho'. rewrite lookup_insert_ne; [done|]. by intros ->.
      - apply list.NoDup_cons. split; [done|apply Hok].
      - intros o [->|Ho']%elem_of_cons; [done|]. by apply Hok. }
    assert (Hxe : x <> empty_slab (class_at k ci)).
    { intros E. destruct (ki_empty _ _ _ _ I ci Hci) as (_ & h' & Hs' & Hf); [by rewrite <- E; lia|]. rewrite <- E in Hs'.
      destruct (slab_of_class _ _ _ _ _ _ _ Hs Hs') as [_ ->]. apply Hbf. by eapply full_slab. }
    destruct (slab_write_inv k p G ci x h lk' b c' (b :: fl) I Hinit Hs Hci Hxe Hlk Hok') as (I1 & Hs1 & T).
    set (k1 := set_slab (set_links k lk') x (with_free (slab_at k x) b c')) in *.
    assert (Hblocks : blocks k1 p = blocks k p ∖ {[(b, class_size ci)]}).
    { assert (Hadd : blocks k p = {[(b, class_size ci)]} ∪ blocks k1 p).
      { destruct Hs1 as (_ & Hc1 & _). eapply (blocks_add k1 k p p x); [done| |].
        - intros y m Hne Hy. symmetry. eapply (touched_page k k1 p G None x 1); eauto.
          eapply src_disjoint; [apply (ki_src _ _ _ _ I)| | |]; done.
        - intros [b' sz']. unfold blocks_at. rewrite Ho.
          rewrite (elem_of_slab_blocks k1 x 1 _ _ _ Hc1 Hok'), (elem_of_slab_blocks k x 1 _ _ _ Hc Hok). simpl. fold ci.
          rewrite not_elem_of_cons. split.
          + intros (-> & ? & ?). destruct (decide (b' = b)) as [->|]; [by left|right; tauto].
          + intros [[= -> ->]|?]; tauto. }
      assert (Hnin : (b, class_size ci) ∉ blocks k1 p).
      { intros Hin. rewrite (blocks_split k1 p x) in Hin. destruct Hin as [Hin|(y & m & Hne & Hy & Hin)].
        - unfold blocks_at in Hin. rewrite Ho in Hin. destruct Hs1 as (_ & Hc1 & _).
          apply (elem_of_slab_blocks k1 x 1 _ _ _ Hc1 Hok') in Hin as (_ & _ & Hnf). apply Hnf. by left.
        - destruct (page_away k1 p G (Some x) x 1 y m b (class_size ci) _ _ I1 Ho Hy Hne ltac:(lia) ltac:(unfold PAGE_SIZE in *; lia) Hin); lia. }
      rewrite Hadd. apply set_eq. intros e. rewrite elem_of_difference, elem_of_union, elem_of_singleton.
      split; [|tauto]. intros He. split; [by right|]. intros ->. done. }
    destruct (slab_free_lists k1 p G x ci (with_free h b c') I1 Hinit Hci Hs1 (b :: fl)) as [H1 H2].
    { done. } { simpl. lia. }
    { intros HxG. destruct (ki_in _ _ _ _ I ci x Hci HxG) as (h' & Hs' & Hf).
      destruct (slab_of_class _ _ _ _ _ _ _ Hs Hs') as [_ ->]. destruct (Hf ltac:(done)) as [Hf' _]. simpl. lia. }
    { intros Hc1. apply (ki_out _ _ _ _ I ci x h); try done. simpl in Hc1. lia. }
    split; [exact H1|]. etrans; [exact H2|exact Hblocks].
  - pose proof (src_free_spec x n p (ki_src _ _ _ _ I) Ho) as [_ Hown].
    unfold page_blocks in Hin. rewrite Hc in Hin. apply list_elem_of_singleton in Hin. injection Hin as -> ->.
    rewrite (page_base x (x + sizeof_large_hdr) _ Hmod ltac:(unfold PAGE_SIZE, sizeof_large_hdr; lia) eq_refl). cbn zeta.
    assert (Hh : hdrs k !! x = Some (Large h)).
    { unfold cont in Hc. destruct (hdrs k !! x) as [[?|?]|]; simpl in Hc; congruence. }
    rewrite Hh, Hp.
    assert (Hns : forall ci, (ci < NUM_CLASSES)%nat -> (x ∉ G ci) /\ x <> empty_slab (class_at k ci)).
    { intros ci Hci. split.
      - intros Hx'. destruct (ki_in _ _ _ _ I ci x Hci Hx') as (h' & (_ & Hc' & _) & _). congruence.
      - intros E. destruct (ki_empty _ _ _ _ I ci Hci) as (_ & h' & (_ & Hc' & _) & _); [rewrite <- E; lia|]. congruence. }
    split; [exists G; apply (free_pages_inv k p G None); auto|]. simpl. apply set_eq. intros e.
    rewrite elem_of_difference, elem_of_singleton, !elem_of_blocks, Hown. split.
    + intros (y & m & [Hne Hy]%lookup_delete_Some & He). split; [eauto|]. intros ->.
      assert (Hxb : (x + sizeof_large_hdr, n * PAGE_SIZE - sizeof_large_hdr) ∈ page_blocks k y m) by done.
      destruct (page_away k p G None x n y m (x + 16) (n * PAGE_SIZE - 16) _ _ I Ho Hy ltac:(done) ltac:(lia) ltac:(lia) Hxb);
        unfold sizeof_large_hdr, PAGE_SIZE in *; lia.
    + intros [(y & m & Hy & He) Hne]. exists y, m. split; [|done]. rewrite lookup_delete_ne; [done|]. intros <-.
      rewrite Ho in Hy. injection Hy as <-. unfold page_blocks in He. rewrite Hc in He. apply list_elem_of_singleton in He. done.
Qed.

End Invariant.

Lemma kalloc_boot_ok `{PageSource P} (p : P) : src_ok p -> owned p = ∅ -> kalloc_ok (kalloc_boot, p).
Proof.
  intros Hok He. exists (fun _ => []). simpl.
  assert (Hcl : forall c, class_at kalloc_boot c = {| partial := 0; empty_slab := 0 |}).
  { intros c. unfold class_at, kalloc_boot. cbn [slab_classes].
    destruct (replicate NUM_CLASSES _ !! c) as [v|] eqn:E; [|done]. by apply lookup_replicate in E as [-> _]. }
  split; try done.
  - intros pg n. by rewrite He.
  - intros c _. rewrite Hcl. split; [done|apply NoDup_nil_2].
  - intros c pg _ Hin. by apply not_elem_of_nil in Hin.
  - intros c pg h (Ho & _). by rewrite He in Ho.
  - intros c _. by rewrite Hcl.
Qed.

(** ** A page source for the concrete runs *)

(** Hands out pages upwards from [bp_next] to [bp_end]. *)
Record bump := { bp_owned : gmap Z Z; bp_next : Z; bp_end : Z }.

Definition bump_ok (s : bump) : Prop :=
  0 < bp_next s <= bp_end s /\ bp_end s <= 2 ^ 64 /\ bp_next s `mod` PAGE_SIZE = 0 /\
  (forall m n, bp_owned s !! m = Some n -> 0 < m /\ 0 < n /\ m `mod` PAGE_SIZE = 0 /\ m + n * PAGE_SIZE <= bp_next s) /\
  (forall m n m' n', bp_owned s !! m = Some n -> bp_owned s !! m' = Some n' -> m <> m' ->
    m + n * PAGE_SIZE <= m' \/ m' + n' * PAGE_SIZE <= m).

Definition bump_alloc (n : Z) (s : bump) : Z * bump :=
  if (0 <? n) && (bp_next s + n * PAGE_SIZE <=? bp_end s)
  then (bp_next s, {| bp_owned := <[bp_next s := n]> (bp_owned s); bp_next := bp_next s + n * PAGE_SIZE; bp_end := bp_end s |})
  else (0, s).

Definition bump_free (m n : Z) (s : bump) : bump :=
  {| bp_owned := delete m (bp_owned s); bp_next := bp_next s; bp_end := bp_end s |}.

#[export] Program Instance bump_source : PageSource bump := {
  src_ok := bump_ok; owned := bp_owned; src_alloc := bump_alloc; src_free := bump_free;
}.
Next Obligation.
  intros n s m s' (H1 & H2 & H3 & H4 & H5) Hn. unfold bump_alloc. case_if; intros E; injection E as <- <-; [|split; [done|by left]].
  assert (Hnew : bp_owned s !! bp_next s = None).
  { destruct (bp_owned s !! bp_next s) as [j|] eqn:E; [|done]. apply H4 in E. unfold PAGE_SIZE in *. lia. }
  split; [|right; split_and!; try done; lia]. unfold bump_ok. cbn [bp_owned bp_next bp_end]. unfold PAGE_SIZE in *. split_and!; try lia; try zlia.
  - intros m k [[<- <-]|[Hne Hm]]%lookup_insert_Some; [lia|]. apply H4 in Hm. lia.
  - intros m k m' k' [[<- <-]|[Hne Hm]]%lookup_insert_Some [[<- <-]|[Hne' Hm']]%lookup_insert_Some Hmm; try done.
    + apply H4 in Hm'. lia.
    + apply H4 in Hm. lia.
    + by apply H5.
Qed.
Next Obligation. intros p. reflexivity. Qed.
Next Obligation.
  intros m n s (H1 & H2 & H3 & H4 & H5) Hm. split; [|done]. unfold bump_ok. cbn [bp_owned bp_next bp_end bump_free]. split_and!; try done; try lia.
  - intros m' n' [_ H']%lookup_delete_Some. by apply H4.
  - intros m1 n1 m2 n2 [_ Ha]%lookup_delete_Some [_ Hb]%lookup_delete_Some. by apply H5.
Qed.
Next Obligation. intros s m n (H1 & H2 & H3 & H4 & H5) Hm. apply H4 in Hm. unfold PAGE_SIZE in *. lia. Qed.
Next Obligation. intros s m n m' n' (H1 & H2 & H3 & H4 & H5). apply H5. Qed.

Definition bump0 : bump := {| bp_owned := ∅; bp_next := 4096; bp_end := 2 ^ 20 |}.

Lemma bump0_ok : bump_ok bump0.
Proof. unfold bump_ok. split_and!; try done. Qed.

(** ** The heap's contract *)

(** C21. An allocation of the kernel heap of 1 to 2^64 - 4096 - 16 bytes (a page and a header
    less than the address space, so that the size cannot wrap) fails and leaves the live blocks
    alone, or it returns a block that is aligned, at least as large as asked for and disjoint
    from every live block, and the live blocks gain exactly it; the slab lists, free chains and
    counts stay consistent either way.  For larger requests see [kmalloc_size_wraps]. *)
Theorem kmalloc_fresh `{PageSource P} (st : kalloc_state * P) bytes b st' :
  kalloc_ok st -> 0 < bytes -> bytes + sizeof_large_hdr + PAGE_SIZE <= 2 ^ 64 ->
  Kalloc.kmalloc src_alloc bytes st = (b, st') ->
  kalloc_ok st' /\
  ((b = 0 /\ blocks st'.1 st'.2 = blocks st.1 st.2) \/
   exists sz, fresh_block st b sz bytes /\ blocks st'.1 st'.2 = {[(b, sz)]} ∪ blocks st.1 st.2).
Proof.
  intros Hok Hb Hbig E. destruct (kmalloc_blocks st bytes b st' Hok Hb E) as [Hok' [?|(sz & Hf & Hsz & Hbl)]].
  - split; [done|by left].
  - split; [done|]. right. exists sz. split; [|done]. destruct Hf as (_ & Hf). split; [by apply Hsz|done].
Qed.

(** C27. Freeing a live block makes exactly that block dead, whether it is an object of a slab
    (also one whose slab becomes the spare one, or goes back to the page source) or a large
    allocation. *)
Theorem kfree_frees `{PageSource P} (st : kalloc_state * P) b sz :
  kalloc_ok st -> (b, sz) ∈ blocks st.1 st.2 ->
  let st' := Kalloc.kfree src_free b st in
  kalloc_ok st' /\ blocks st'.1 st'.2 = blocks st.1 st.2 ∖ {[(b, sz)]}.
Proof. apply kfree_blocks. Qed.

(** A size within a header of the top of the address range wraps: [kmalloc] then returns a
    one-page block for a request of nearly 2^64 bytes. *)
Lemma kmalloc_size_wraps {P} (alloc : Z -> P -> Z * P) (k : kalloc_state) (p p' : P) (m : Z) :
  kalloc_init_done k = true -> alloc 1 p = (m, p') -> m <> 0 ->
  exists k', Kalloc.kmalloc alloc (2 ^ 64 - 15) (k, p) = (m + sizeof_large_hdr, (k', p')) /\
    hdrs k' !! m = Some (Large {| lh_pages := 1 |}).
Proof.
  intros Hi Ha Hm. unfold Kalloc.kmalloc. change (2 ^ 64 - 15 =? 0) with false. cbv iota beta. rewrite Hi.
  change (class_for (2 ^ 64 - 15)) with NUM_CLASSES. rewrite Nat.eqb_refl.
  change ((2 ^ 64 - 15 +w sizeof_large_hdr +w (PAGE_SIZE - 1)) / PAGE_SIZE) with 1. cbn zeta. rewrite Ha.
  rewrite (proj2 (Z.eqb_neq m 0)) by done. eexists. split; [reflexivity|]. simpl. by rewrite lookup_insert_eq.
Qed.

(** ** The heap discharges the interface of its clients *)

Lemma blocks_inj `{PageSource P} (k : kalloc_state) (p : P) b sz sz' :
  kalloc_ok (k, p) -> (b, sz) ∈ blocks k p -> (b, sz') ∈ blocks k p -> sz' = sz.
Proof.
  intros [G I] H1 H2. simpl in I. apply elem_of_blocks in H1 as (x & n & Hx & H1). apply elem_of_blocks in H2 as (y & m & Hy & H2).
  destruct (page_blocks_range _ _ _ _ _ _ _ _ I Hx H1) as (A1 & A2 & A3).
  destruct (page_blocks_range _ _ _ _ _ _ _ _ I Hy H2) as (B1 & B2 & B3). unfold sizeof_large_hdr in *.
  destruct (decide (y = x)) as [->|Hne]; cycle 1.
  { destruct (page_away k p G None x n y m b sz b sz' I Hx Hy Hne ltac:(lia) A3 H2); lia. }
  rewrite Hx in Hy. injection Hy as <-. pose proof (ki_page _ _ _ _ I x n Hx) as Hp. unfold page_ok in Hp.
  destruct (cont k x) as [[h|h]|] eqn:E; [| |done].
  - destruct Hp as (_ & fl & Hok). apply (elem_of_slab_blocks _ _ _ _ _ _ E Hok) in H1 as (E1 & _).
    apply (elem_of_slab_blocks _ _ _ _ _ _ E Hok) in H2 as (E2 & _). simpl in *. congruence.
  - unfold page_blocks in H1, H2. rewrite E in H1, H2. apply list_elem_of_singleton in H1, H2. congruence.
Qed.

Definition live_of `{PageSource P} (st : kalloc_state * P) : gset Z := set_map fst (blocks st.1 st.2).

Lemma live_of_elem `{PageSource P} (st : kalloc_state * P) b : b ∈ live_of st <-> exists sz, (b, sz) ∈ blocks st.1 st.2.
Proof.
  unfold live_of. rewrite elem_of_map. split.
  - intros ([b' sz] & -> & Hin). by exists sz.
  - intros [sz Hin]. by exists (b, sz).
Qed.

#[export] Program Instance kalloc_heap `{PageSource P} : Heap (kalloc_state * P) := {
  heap_ok := kalloc_ok;
  live := live_of;
  kmalloc := Kalloc.kmalloc src_alloc;
  kfree := Kalloc.kfree src_free;
}.
Next Obligation.
  intros P HP n st b st' Hok Hn E. destruct (kmalloc_blocks st n b st' Hok Hn E) as [Hok' [[-> Hbl]|(sz & Hf & _ & Hbl)]].
  - split; [done|]. left. split; [done|]. unfold live_of. by rewrite Hbl.
  - destruct Hf as (Hs & Hb & _ & _ & Hd). split; [done|]. right. split_and!; [done| |].
    + rewrite live_of_elem. intros [sz' Hin].
      destruct st as [k p]. destruct (Hok) as [G I]. pose proof Hin as Hin'. simpl in I, Hin'. apply elem_of_blocks in Hin' as (x & j & Hx & Hp).
      destruct (page_blocks_range _ _ _ _ _ _ _ _ I Hx Hp) as (A1 & A2 & A3).
      assert (Hb' : (b, sz) ∈ blocks st'.1 st'.2) by (rewrite Hbl; apply elem_of_union; left; by apply elem_of_singleton).
      assert (Hb'' : (b, sz') ∈ blocks st'.1 st'.2) by (rewrite Hbl; apply elem_of_union; by right).
      destruct st' as [k' p']. pose proof (blocks_inj k' p' b sz sz' Hok' Hb' Hb''). destruct (Hd b sz' Hin); lia.
    + apply set_eq. intros y. rewrite elem_of_union, elem_of_singleton, !live_of_elem, Hbl. setoid_rewrite elem_of_union.
      setoid_rewrite elem_of_singleton. split.
      * intros [sz' [[= -> ->]|Hin]]; [by left|right; by exists sz'].
      * intros [->|[sz' Hin]]; [exists sz; by left|exists sz'; by right].
Qed.
Next Obligation.
  intros P HP b st Hok Hb. apply live_of_elem in Hb as [sz Hb]. destruct (kfree_blocks st b sz Hok Hb) as [Hok' Hbl].
  split; [done|]. apply set_eq. intros y. rewrite elem_of_difference, elem_of_singleton, !live_of_elem, Hbl.
  setoid_rewrite elem_of_difference. setoid_rewrite elem_of_singleton. split.
  - intros [sz' [Hin Hne]]. split; [by exists sz'|]. intros ->. apply Hne. destruct st as [k p].
    by rewrite (blocks_inj k p b sz sz' Hok Hb Hin).
  - intros [[sz' Hin] Hne]. exists sz'. split; [done|]. congruence.
Qed.
Next Obligation.
  intros P HP [k p] [G I] Hin. simpl in I. apply live_of_elem in Hin as [sz Hin]. apply elem_of_blocks in Hin as (x & n & Hx & Hp).
  destruct (page_blocks_range _ _ _ _ _ _ _ _ I Hx Hp) as (A1 & _).
  destruct (src_range _ _ _ (ki_src _ _ _ _ I) Hx) as (? & _). unfold sizeof_large_hdr in A1. lia.
Qed.

(** ** Concrete runs *)

Definition heap0 : kalloc_state * bump := (kalloc_boot, bump0).

Lemma heap0_ok : kalloc_ok heap0.
Proof. apply kalloc_boot_ok; [apply bump0_ok|done]. Qed.

(** The heap after [kmalloc(2048)] and [kmalloc(5000)]. *)
Definition heap2 : kalloc_state * bump :=
  (Kalloc.kmalloc bump_alloc 5000 (Kalloc.kmalloc bump_alloc 2048 heap0).2).2.

Lemma kmalloc_fresh_witness :
  kalloc_ok (Kalloc.kmalloc bump_alloc 2048 heap0).2 /\ (Kalloc.kmalloc bump_alloc 2048 heap0).1 = 4144.
Proof.
  split; [|vm_compute; reflexivity].
  destruct (kmalloc_fresh (P := bump) heap0 2048 _ _ heap0_ok ltac:(done) ltac:(vm_compute; discriminate) (surjective_pairing _)) as [Hok _].
  exact Hok.
Defined.

Lemma heap2_ok : kalloc_ok heap2.
Proof.
  destruct (kmalloc_blocks (P := bump) heap0 2048 _ _ heap0_ok ltac:(done) (surjective_pairing _)) as [Hok1 _].
  by destruct (kmalloc_blocks (P := bump) _ 5000 _ _ Hok1 ltac:(done) (surjective_pairing _)) as [Hok2 _].
Qed.

Lemma kfree_frees_witness :
  (8208, 8176) ∈ blocks heap2.1 heap2.2 /\
  blocks (Kalloc.kfree bump_free 8208 heap2).1 (Kalloc.kfree bump_free 8208 heap2).2 = blocks heap2.1 heap2.2 ∖ {[(8208, 8176)]}.
Proof.
  assert (Hin : (8208, 8176) ∈ blocks heap2.1 heap2.2).
  { apply elem_of_blocks. exists 8192, 2. split; [vm_compute; reflexivity|]. unfold page_blocks.
    replace (cont heap2.1 8192) with (Some (Large {| lh_pages := 2 |})) by (vm_compute; reflexivity). by left. }
  split; [exact Hin|]. apply (kfree_frees (P := bump) heap2 8208 8176 heap2_ok Hin).
Defined.

Lemma kmalloc_size_wraps_witness :
  exists k', Kalloc.kmalloc bump_alloc (2 ^ 64 - 15) (kalloc_init kalloc_boot, bump0) =
    (4096 + sizeof_large_hdr, (k', (bump_alloc 1 bump0).2)) /\ hdrs k' !! 4096 = Some (Large {| lh_pages := 1 |}).
Proof. apply kmalloc_size_wraps; [reflexivity|reflexivity|discriminate]. Defined.
