(* ===== verification/Pipe.v ===== *)
(** * Pipes, [kernel/src/fs/pipe.c]

    A pipe is a ring buffer with two ends.  [pipe_read_inode] and [pipe_write_inode] are
    loops: a turn copies under the lock, then decides to return or to wait, and a waiting task
    runs another turn when it is woken.  A turn is one atomic step here ([pipe_read_turn],
    [pipe_write_turn]), and tasks interleave between turns ([pipe_step]).  Positions and sizes
    are below 2^64 and never wrap, so they are [nat]; the counts of open ends are C [int]s. *)

From S2P Require Import Prelude Heap.

Definition PIPE_BUFFER_SIZE : nat := Z.to_nat 4096.

(** [pipe_state_t]; the lock is taken and released inside every step, the wait queue is in
    the step relation. *)
Record pipe_state := {
  read_pos : nat;
  write_pos : nat;
  count : nat;
  readers : Z;
  writers : Z;
  nonblock : bool;
  write_nonblock : bool;
  buffer : list Z;
}.

Definition ring (st : pipe_state) (rp wp n : nat) (b : list Z) : pipe_state :=
  {| read_pos := rp; write_pos := wp; count := n; readers := readers st; writers := writers st;
     nonblock := nonblock st; write_nonblock := write_nonblock st; buffer := b |}.

Definition ends (st : pipe_state) (r w : Z) : pipe_state :=
  {| read_pos := read_pos st; write_pos := write_pos st; count := count st; readers := r; writers := w;
     nonblock := nonblock st; write_nonblock := write_nonblock st; buffer := buffer st |}.

Definition flags (st : pipe_state) (nb wnb : bool) : pipe_state :=
  {| read_pos := read_pos st; write_pos := write_pos st; count := count st; readers := readers st;
     writers := writers st; nonblock := nb; write_nonblock := wnb; buffer := buffer st |}.

(** [memcpy(buffer + pos, src, n)]. *)
Definition buf_write (b : list Z) (pos : nat) (chunk : list Z) : list Z :=
  take pos b ++ chunk ++ drop (pos + length chunk) b.

(** One iteration of the copy loop of [pipe_read_inode]: the bytes copied out and the state. *)
Definition read_chunk (st : pipe_state) (want : nat) : list Z * pipe_state :=
  let bytes := Nat.min want (count st) in
  let first := Nat.min bytes (PIPE_BUFFER_SIZE - read_pos st) in
  let d1 := take first (drop (read_pos st) (buffer st)) in
  let st := ring st ((read_pos st + first) mod PIPE_BUFFER_SIZE) (write_pos st)
              (count st - first) (buffer st) in
  let remaining := (bytes - first)%nat in
  if (0 <? remaining)%nat
  then
    let d2 := take remaining (drop (read_pos st) (buffer st)) in
    (d1 ++ d2, ring st (read_pos st + remaining) (write_pos st) (count st - remaining) (buffer st))
  else (d1, st).

(** [while (copied < size && state->count > 0)]; [dst] holds what was copied. *)
Fixpoint read_loop (fuel : nat) (st : pipe_state) (size : nat) (dst : list Z) : list Z * pipe_state :=
  match fuel with
  | O => (dst, st)
  | S fuel' =>
    if (length dst <? size)%nat && (0 <? count st)%nat
    then let '(d, st) := read_chunk st (size - length dst) in read_loop fuel' st size (dst ++ d)
    else (dst, st)
  end.

Inductive outcome :=
  | Return (r : Z)
  | Wait.

(** A turn of the reader's loop: the outcome, the bytes delivered, the state, and whether the
    wait queue is woken.  [interrupted] is [signal_should_interrupt(current)].  The copy
    loop ends after one iteration, see [read_loop_spec], so a fuel of 3 is enough. *)
Definition pipe_read_turn (st : pipe_state) (size : nat) (interrupted : bool)
    : outcome * list Z * pipe_state * bool :=
  let '(dst, st) := read_loop 3 st size [] in
  if (0 <? length dst)%nat then (Return (Z.of_nat (length dst)), dst, st, true)
  else if writers st =? 0 then (Return 0, [], st, false)
  else if nonblock st then (Return (- EAGAIN), [], st, false)
  else if interrupted then (Return (- EINTR), [], st, false)
  else (Wait, [], st, false).

(** One iteration of the copy loop of [pipe_write_inode]: how much of [src] was taken. *)
Definition write_chunk (st : pipe_state) (src : list Z) : nat * pipe_state :=
  let space := (PIPE_BUFFER_SIZE - count st)%nat in
  let bytes := Nat.min (length src) space in
  let first := Nat.min bytes (PIPE_BUFFER_SIZE - write_pos st) in
  let st := ring st (read_pos st) ((write_pos st + first) mod PIPE_BUFFER_SIZE) (count st + first)
              (buf_write (buffer st) (write_pos st) (take first src)) in
  let remaining := (bytes - first)%nat in
  if (0 <? remaining)%nat
  then (bytes, ring st (read_pos st) (write_pos st + remaining) (count st + remaining)
                 (buf_write (buffer st) (write_pos st) (take remaining (drop first src))))
  else (bytes, st).

(** [while (copied < size && state->count < PIPE_BUFFER_SIZE)]. *)
Fixpoint write_loop (fuel : nat) (st : pipe_state) (src : list Z) (copied : nat) : nat * pipe_state :=
  match fuel with
  | O => (copied, st)
  | S fuel' =>
    if (copied <? length src)%nat && (count st <? PIPE_BUFFER_SIZE)%nat
    then
      let '(n, st) := write_chunk st (drop copied src) in
      write_loop fuel' st src (copied + n)
    else (copied, st)
  end.

Inductive write_outcome :=
  | WReturn (r : Z)
  | WContinue
  | WWait.

(** A turn of the writer's loop with [copied] bytes of [src] written before. *)
Definition pipe_write_turn (st : pipe_state) (src : list Z) (copied : nat) (interrupted : bool)
    : write_outcome * nat * pipe_state * bool :=
  let partial e := if (0 <? copied)%nat then Z.of_nat copied else e in
  if readers st =? 0 then (WReturn (partial (- EPIPE)), copied, st, false)
  else
    let '(copied, st) := write_loop 3 st src copied in
    let partial e := if (0 <? copied)%nat then Z.of_nat copied else e in
    let full := (count st =? PIPE_BUFFER_SIZE)%nat in
    let wake := (0 <? copied)%nat in
    if (copied =? length src)%nat then (WReturn (Z.of_nat copied), copied, st, wake)
    else if negb full then (WContinue, copied, st, wake)
    else if write_nonblock st then (WReturn (partial (- EAGAIN)), copied, st, wake)
    else if interrupted then (WReturn (partial (- EINTR)), copied, st, wake)
    else (WWait, copied, st, wake).

(** The calls themselves: the argument tests ([args_ok] is [inode && buffer]), then turns. *)
Definition pipe_read_inode (args_ok : bool) (state : option pipe_state) (size : nat) (interrupted : bool)
    : outcome * list Z * option pipe_state * bool :=
  if negb args_ok || (size =? 0)%nat then (Return 0, [], state, false)
  else
    match state with
    | None => (Return (- EIO), [], None, false)
    | Some st => let '(o, d, st, w) := pipe_read_turn st size interrupted in (o, d, Some st, w)
    end.

Definition pipe_write_inode (args_ok : bool) (state : option pipe_state) (src : list Z) (copied : nat)
    (interrupted : bool) : write_outcome * nat * option pipe_state * bool :=
  if negb args_ok || (length src =? 0)%nat then (WReturn 0, 0%nat, state, false)
  else
    match state with
    | None => (WReturn (- EIO), 0%nat, None, false)
    | Some st => let '(o, n, st, w) := pipe_write_turn st src copied interrupted in (o, n, Some st, w)
    end.

Definition pipe_read_poll (st : option pipe_state) : Z :=
  match st with
  | None => POLLERR
  | Some st =>
    Z.lor (if (0 <? count st)%nat then POLLIN else 0) (if writers st =? 0 then POLLHUP else 0)
  end.

Definition pipe_write_poll (st : option pipe_state) : Z :=
  match st with
  | None => POLLERR
  | Some st =>
    if readers st =? 0 then POLLERR
    else if (count st <? PIPE_BUFFER_SIZE)%nat then POLLOUT else 0
  end.

Definition set_end_nonblock (st : pipe_state) (write_end on : bool) : pipe_state :=
  if write_end then flags st (nonblock st) on else flags st on (write_nonblock st).

(** [arg] is [None] for a null pointer, otherwise what the copy from user space gives ([None]
    when it faults); [out_ok] is whether the copy back succeeds.  The result, the value copied
    out and the state. *)
Definition pipe_flags_ioctl (st : option pipe_state) (request : Z) (arg : option (option Z))
    (out_ok write_end : bool) : Z * option Z * option pipe_state :=
  match st, arg with
  | None, _ => (- EIO, None, st)
  | Some _, None => (- EINVAL, None, st)
  | Some s, Some user =>
    if request =? TTY_IOCTL_FIONBIO
    then match user with
         | None => (- EFAULT, None, st)
         | Some on => (0, None, Some (set_end_nonblock s write_end (negb (on =? 0))))
         end
    else if request =? TTY_IOCTL_SET_FLAGS
    then match user with
         | None => (- EFAULT, None, st)
         | Some fl => (0, None, Some (set_end_nonblock s write_end (flag fl TTY_NONBLOCK)))
         end
    else if request =? TTY_IOCTL_GET_FLAGS
    then
      let fl := if (if write_end then write_nonblock s else nonblock s) then TTY_NONBLOCK else 0 in
      if out_ok then (0, Some fl, st) else (- EFAULT, None, st)
    else (- ENOTTY, None, st)
  end.

Definition O_RDONLY : Z := 0.

Definition O_WRONLY : Z := 1.

Definition O_MODE : Z := 3.

Definition pipe_set_nonblock (st : pipe_state) (f_flags : Z) : pipe_state :=
  set_end_nonblock st (Z.land f_flags O_MODE =? O_WRONLY) true.

(** ** Creation and release *)

Section Objects.

Context `{Heap H}.

(** The sizes of [pipe_state_t], [INode_t] and [file_t]. *)
Context (sizeof_pipe_state sizeof_inode sizeof_file : Z).

(** The blocks of a new pipe. *)
Record pipe_pair := {
  pp_state : Z;
  pp_read_inode : Z;
  pp_write_inode : Z;
  pp_read_file : Z;
  pp_write_file : Z;
}.

Definition pipe_fresh : pipe_state :=
  {| read_pos := 0; write_pos := 0; count := 0; readers := 1; writers := 1; nonblock := false;
     write_nonblock := false; buffer := replicate PIPE_BUFFER_SIZE 0 |}.

(** [outs_ok] is [out_read && out_write]. *)
Definition pipe_create_file_pair (outs_ok : bool) (h : H) : (Z + pipe_pair * pipe_state) * H :=
  if negb outs_ok then (inl (- EINVAL), h)
  else
    let '(state, h) := kmalloc sizeof_pipe_state h in
    if state =? 0 then (inl (- ENOMEM), h)
    else
      let '(ri, h) := kmalloc sizeof_inode h in
      let '(wi, h) := kmalloc sizeof_inode h in
      let '(rf, h) := kmalloc sizeof_file h in
      let '(wf, h) := kmalloc sizeof_file h in
      if (ri =? 0) || (wi =? 0) || (rf =? 0) || (wf =? 0)
      then
        let h := kfree_nonnull ri h in
        let h := kfree_nonnull wi h in
        let h := kfree_nonnull rf h in
        let h := kfree_nonnull wf h in
        (inl (- ENOMEM), kfree state h)
      else
        (inr ({| pp_state := state; pp_read_inode := ri; pp_write_inode := wi; pp_read_file := rf;
                 pp_write_file := wf |}, pipe_fresh), h).

(** What [pipe_file_release] does to the wait queue. *)
Inductive queue_event := QueueNone | QueueWake | QueueDestroy.

(** [pipe_file_release] of an end with inode [inode], whose state is the block [state] with
    contents [st]; the new contents are [None] once the state is freed. *)
Definition pipe_file_release (is_pipe : bool) (inode state : Z) (st : option pipe_state) (f_flags : Z)
    (h : H) : H * option pipe_state * queue_event :=
  if negb is_pipe || (inode =? 0) then (h, st, QueueNone)
  else
    match st with
    | None => (kfree inode h, None, QueueNone)
    | Some st =>
      let mode := Z.land f_flags O_MODE in
      let st :=
        if mode =? O_RDONLY then ends st (readers st - 1) (writers st)
        else if mode =? O_WRONLY then ends st (readers st) (writers st - 1)
        else st in
      if (readers st <=? 0) && (writers st <=? 0)
      then (kfree state (kfree inode h), None, QueueDestroy)
      else (kfree inode h, Some st, QueueWake)
    end.

End Objects.

(** ** The ring is a queue *)

Lemma pipe_size_pos : (0 < PIPE_BUFFER_SIZE)%nat.
Proof. unfold PIPE_BUFFER_SIZE. lia. Qed.

(** A number written in unary is not to be looked at. *)
#[global] Opaque PIPE_BUFFER_SIZE.

(** Where byte [i] of a queue starting at [rp] is. *)
Definition slot (rp i : nat) : nat :=
  if decide (rp + i < PIPE_BUFFER_SIZE)%nat then (rp + i)%nat else (rp + i - PIPE_BUFFER_SIZE)%nat.

(** The bytes in the pipe, oldest first. *)
Definition contents (st : pipe_state) : list Z :=
  take (count st) (drop (read_pos st) (buffer st) ++ take (read_pos st) (buffer st)).

Record pipe_wf (st : pipe_state) : Prop := {
  pw_buffer : length (buffer st) = PIPE_BUFFER_SIZE;
  pw_read : (read_pos st < PIPE_BUFFER_SIZE)%nat;
  pw_count : (count st <= PIPE_BUFFER_SIZE)%nat;
  pw_write : write_pos st = (if decide (read_pos st + count st < PIPE_BUFFER_SIZE)%nat
                             then read_pos st + count st
                             else read_pos st + count st - PIPE_BUFFER_SIZE)%nat;
}.

Lemma contents_lookup st i :
  pipe_wf st -> contents st !! i =
  if decide (i < count st)%nat then buffer st !! slot (read_pos st) i else None.
Proof.
  intros [Hb Hr Hc _]. unfold contents, slot. case_decide as Hi.
  - rewrite lookup_take_lt by lia. case_decide.
    + rewrite lookup_app_l by (rewrite length_drop; lia). by rewrite lookup_drop.
    + rewrite lookup_app_r by (rewrite length_drop; lia). rewrite length_drop, Hb.
      rewrite lookup_take_lt by lia. f_equal. lia.
  - apply lookup_take_ge. lia.
Qed.

Lemma contents_length st : pipe_wf st -> length (contents st) = count st.
Proof.
  intros [Hb Hr Hc _]. unfold contents. rewrite length_take, length_app, length_drop, length_take. lia.
Qed.

(** A position moved by at most the rest of the buffer. *)
Lemma pos_mod p n :
  (p < PIPE_BUFFER_SIZE)%nat -> (p + n <= PIPE_BUFFER_SIZE)%nat ->
  ((p + n) mod PIPE_BUFFER_SIZE = if decide (p + n < PIPE_BUFFER_SIZE) then p + n else 0)%nat.
Proof.
  intros Hp Hn. pose proof pipe_size_pos. case_decide.
  - by apply Nat.mod_small.
  - replace (p + n)%nat with PIPE_BUFFER_SIZE by lia. apply Nat.Div0.mod_same.
Qed.

Ltac ring_cbn := cbn [read_pos write_pos count readers writers nonblock write_nonblock buffer ring].

(** Taking [n] bytes that do not cross the end of the buffer. *)
Lemma ring_take st n :
  pipe_wf st -> (n <= count st)%nat -> (read_pos st + n <= PIPE_BUFFER_SIZE)%nat ->
  let st' := ring st ((read_pos st + n) mod PIPE_BUFFER_SIZE) (write_pos st) (count st - n) (buffer st) in
  pipe_wf st' /\ take n (drop (read_pos st) (buffer st)) = take n (contents st) /\
  contents st' = drop n (contents st).
Proof.
  intros Hwf Hn Hrn st'. pose proof Hwf as [Hb Hr Hc Hw]. pose proof pipe_size_pos as Hpos.
  assert (Hpm := pos_mod (read_pos st) n Hr Hrn).
  assert (Hwf' : pipe_wf st').
  { unfold st'. rewrite Hpm. split; ring_cbn; [done| | lia|]; repeat case_decide; lia. }
  split_and!; [done| |]; apply list_eq; intros i.
  - destruct (decide (i < n)%nat); [|by rewrite !lookup_take_ge by lia].
    rewrite !lookup_take_lt, lookup_drop, contents_lookup, decide_True by (done || lia).
    unfold slot. rewrite decide_True by lia. done.
  - rewrite lookup_drop, !contents_lookup by done. unfold st'; ring_cbn. rewrite Hpm. unfold slot.
    repeat case_decide; try lia; try done; f_equal; lia.
Qed.

Lemma buf_write_length b pos chunk :
  (pos + length chunk <= length b)%nat -> length (buf_write b pos chunk) = length b.
Proof. intros H. unfold buf_write. rewrite !length_app, length_take, length_drop. lia. Qed.

Lemma buf_write_lookup b pos chunk i :
  (pos + length chunk <= length b)%nat ->
  buf_write b pos chunk !! i =
  if decide (pos <= i < pos + length chunk)%nat then chunk !! (i - pos)%nat else b !! i.
Proof.
  intros H. unfold buf_write. destruct (decide (i < pos)%nat).
  - rewrite lookup_app_l, lookup_take_lt, decide_False by (rewrite ?length_take; lia). done.
  - rewrite lookup_app_r by (rewrite length_take; lia). rewrite length_take, Nat.min_l by lia.
    case_decide.
    + by rewrite lookup_app_l by lia.
    + rewrite lookup_app_r, lookup_drop by lia. f_equal. lia.
Qed.

(** Adding bytes that do not cross the end of the buffer. *)
Lemma ring_put st chunk :
  pipe_wf st -> (count st + length chunk <= PIPE_BUFFER_SIZE)%nat ->
  (write_pos st + length chunk <= PIPE_BUFFER_SIZE)%nat ->
  let st' := ring st (read_pos st) ((write_pos st + length chunk) mod PIPE_BUFFER_SIZE)
    (count st + length chunk) (buf_write (buffer st) (write_pos st) chunk) in
  pipe_wf st' /\ contents st' = contents st ++ chunk.
Proof.
  intros Hwf Hn Hwn st'. pose proof Hwf as [Hb Hr Hc Hw]. pose proof pipe_size_pos as Hpos.
  assert (Hwp : (write_pos st < PIPE_BUFFER_SIZE)%nat) by (rewrite Hw; case_decide; lia).
  assert (Hpm := pos_mod (write_pos st) (length chunk) Hwp Hwn).
  assert (Hwf' : pipe_wf st').
  { unfold st'. rewrite Hpm. split; ring_cbn; [by rewrite buf_write_length; lia|done|lia|].
    repeat case_decide; lia. }
  split; [done|]. apply list_eq. intros i. rewrite contents_lookup by done. unfold st'; ring_cbn.
  rewrite buf_write_lookup by lia.
  destruct (decide (i < count st)%nat) as [Hi|Hi].
  - rewrite lookup_app_l by (by rewrite contents_length). rewrite contents_lookup by done.
    assert (~ (write_pos st <= slot (read_pos st) i < write_pos st + length chunk)%nat)
      by (unfold slot; repeat case_decide; lia).
    rewrite (decide_True (P := (i < count st)%nat)) by done.
    rewrite (decide_True (P := (i < count st + _)%nat)) by lia. by rewrite decide_False.
  - rewrite lookup_app_r by (rewrite contents_length by done; lia). rewrite contents_length by done.
    destruct (decide (i < count st + length chunk)%nat) as [Hi'|Hi'].
    + assert (slot (read_pos st) i = write_pos st + (i - count st))%nat as ->
        by (unfold slot; repeat case_decide; lia).
      rewrite decide_True by lia. f_equal. lia.
    + symmetry. apply lookup_ge_None_2. lia.
Qed.

(** The ends and their flags are the same. *)
Definition same_ends (st st' : pipe_state) : Prop :=
  readers st' = readers st /\ writers st' = writers st /\ nonblock st' = nonblock st /\
  write_nonblock st' = write_nonblock st.

Lemma read_chunk_spec st want d st' :
  pipe_wf st -> read_chunk st want = (d, st') ->
  pipe_wf st' /\ same_ends st st' /\ d = take want (contents st) /\ contents st' = drop want (contents st).
Proof.
  intros Hwf. pose proof (contents_length _ Hwf) as Hlen. pose proof Hwf as [Hb Hr Hc Hw].
  unfold read_chunk. set (bytes := Nat.min want (count st)).
  set (first := Nat.min bytes (PIPE_BUFFER_SIZE - read_pos st)).
  assert (Hf : (first <= bytes <= count st)%nat) by lia.
  assert (Htake : take want (contents st) = take bytes (contents st)).
  { destruct (Nat.le_ge_cases want (count st)); [unfold bytes; by rewrite (Nat.min_l want) by lia|].
    unfold bytes. rewrite Nat.min_r by lia. rewrite !take_ge by lia. done. }
  assert (Hdrop : drop want (contents st) = drop bytes (contents st)).
  { destruct (Nat.le_ge_cases want (count st)); [unfold bytes; by rewrite (Nat.min_l want) by lia|].
    unfold bytes. rewrite Nat.min_r by lia. rewrite !drop_ge by lia. done. }
  rewrite Htake, Hdrop.
  destruct (ring_take st first) as (R1 & R2 & R3); [done|lia|lia|].
  set (st1 := ring st _ _ _ _) in *. rewrite R2. destruct (0 <? bytes - first)%nat eqn:E.
  - apply Nat.ltb_lt in E. assert (Hp : read_pos st1 = 0%nat).
    { unfold st1; ring_cbn. rewrite pos_mod by lia. rewrite decide_False by lia. done. }
    assert (Hc1 : count st1 = (count st - first)%nat) by done.
    destruct (ring_take st1 (bytes - first)) as (S1 & S2 & S3); [done|lia|lia|].
    rewrite pos_mod, decide_True in S1, S3 by lia. rewrite S2, R3.
    intros Eq. injection Eq as <- <-. split_and!; [done|done| |].
    + rewrite take_take_drop. f_equal. lia.
    + etrans; [exact S3|]. rewrite R3, drop_drop. f_equal. lia.
  - apply Nat.ltb_ge in E. intros Eq. injection Eq as <- <-.
    replace bytes with first by lia. done.
Qed.

Lemma read_loop_spec fuel st size dst d st' :
  pipe_wf st -> (length dst <= size)%nat -> (2 <= fuel)%nat ->
  read_loop fuel st size dst = (d, st') ->
  pipe_wf st' /\ same_ends st st' /\ d = dst ++ take (size - length dst) (contents st) /\
  contents st' = drop (size - length dst) (contents st).
Proof.
  intros Hwf Hd Hfuel. destruct fuel as [|[|fuel]]; [lia|lia|]. cbn [read_loop].
  destruct ((length dst <? size)%nat && (0 <? count st)%nat) eqn:E.
  - destruct (read_chunk st (size - length dst)) as [x st1] eqn:Ec.
    destruct (read_chunk_spec _ _ _ _ Hwf Ec) as (W1 & W2 & -> & W4).
    pose proof (contents_length _ Hwf) as L0. pose proof (contents_length _ W1) as L1.
    assert (E1 : (length (dst ++ take (size - length dst) (contents st)) <? size)%nat &&
      (0 <? count st1)%nat = false).
    { apply andb_false_iff. rewrite length_app, length_take, L0, <- L1, W4, length_drop, L0.
      destruct (Nat.le_gt_cases (size - length dst) (count st)); [left|right]; apply Nat.ltb_ge; lia. }
    rewrite E1. intros Eq. by injection Eq as <- <-.
  - intros Eq. injection Eq as <- <-. pose proof (contents_length _ Hwf) as L0.
    apply andb_false_iff in E as [E|E]; apply Nat.ltb_ge in E.
    + replace (size - length dst)%nat with 0%nat by lia. by rewrite take_0, drop_0, app_nil_r.
    + assert (contents st = []) as -> by (apply length_zero_iff_nil; lia).
      by rewrite take_nil, drop_nil, app_nil_r.
Qed.

Lemma write_chunk_spec st src n st' :
  pipe_wf st -> write_chunk st src = (n, st') ->
  n = Nat.min (length src) (PIPE_BUFFER_SIZE - count st) /\
  pipe_wf st' /\ same_ends st st' /\ contents st' = contents st ++ take n src.
Proof.
  intros Hwf. pose proof Hwf as [Hb Hr Hc Hw]. unfold write_chunk.
  set (bytes := Nat.min (length src) (PIPE_BUFFER_SIZE - count st)).
  set (first := Nat.min bytes (PIPE_BUFFER_SIZE - write_pos st)).
  assert (Hl1 : length (take first src) = first) by (rewrite length_take; lia).
  assert (Hwp : (write_pos st < PIPE_BUFFER_SIZE)%nat) by (rewrite Hw; case_decide; lia).
  destruct (ring_put st (take first src)) as [R1 R2]; [done|lia|lia|]. rewrite Hl1 in R1, R2.
  set (st1 := ring st _ _ _ _) in *. destruct (0 <? bytes - first)%nat eqn:E.
  - apply Nat.ltb_lt in E. set (c2 := take (bytes - first) (drop first src)).
    assert (Hl2 : length c2 = (bytes - first)%nat) by (unfold c2; rewrite length_take, length_drop; lia).
    assert (Hp : write_pos st1 = 0%nat).
    { unfold st1; ring_cbn. rewrite pos_mod by lia. rewrite decide_False by lia. done. }
    assert (Hc1 : count st1 = (count st + first)%nat) by done.
    destruct (ring_put st1 c2) as [S1 S2]; [done|lia|lia|]. rewrite Hl2 in S1, S2.
    rewrite pos_mod, decide_True in S1, S2 by lia. intros Eq. injection Eq as <- <-.
    split; [reflexivity|]. split; [exact S1|]. split; [repeat split|]. etrans; [exact S2|]. rewrite R2, <- app_assoc. f_equal.
    unfold c2. rewrite take_take_drop. f_equal. lia.
  - apply Nat.ltb_ge in E. intros Eq. injection Eq as <- <-. split; [reflexivity|]. split; [exact R1|]. split; [repeat split|]. replace bytes with first by lia. exact R2.
Qed.

Lemma write_loop_spec fuel st src copied n st' :
  pipe_wf st -> (copied <= length src)%nat -> (2 <= fuel)%nat ->
  write_loop fuel st src copied = (n, st') ->
  n = (copied + Nat.min (length src - copied) (PIPE_BUFFER_SIZE - count st))%nat /\
  pipe_wf st' /\ same_ends st st' /\
  contents st' = contents st ++ take (n - copied) (drop copied src) /\
  count st' = (count st + (n - copied))%nat.
Proof.
  intros Hwf Hd Hfuel. destruct fuel as [|[|fuel]]; [lia|lia|]. cbn [write_loop].
  pose proof Hwf as [_ _ Hc _]. destruct ((copied <? length src)%nat && (count st <? PIPE_BUFFER_SIZE)%nat) eqn:E.
  - destruct (write_chunk st (drop copied src)) as [k st1] eqn:Ec.
    destruct (write_chunk_spec _ _ _ _ Hwf Ec) as (-> & W1 & W2 & W4). rewrite length_drop in *.
    set (k := Nat.min (length src - copied) (PIPE_BUFFER_SIZE - count st)) in *.
    assert (Hk : count st1 = (count st + k)%nat).
    { rewrite <- (contents_length _ W1), W4, length_app, length_take, length_drop, contents_length by done.
      lia. }
    assert (E1 : (copied + k <? length src)%nat && (count st1 <? PIPE_BUFFER_SIZE)%nat = false).
    { apply andb_false_iff. rewrite Hk.
      destruct (Nat.le_gt_cases (length src - copied) (PIPE_BUFFER_SIZE - count st)); [left|right];
        apply Nat.ltb_ge; lia. }
    rewrite E1. intros Eq. injection Eq as <- <-. replace (copied + k - copied)%nat with k by lia. done.
  - intros Eq. injection Eq as <- <-.
    assert (Nat.min (length src - copied) (PIPE_BUFFER_SIZE - count st) = 0)%nat as ->
      by (apply andb_false_iff in E as [E|E]; apply Nat.ltb_ge in E; lia).
    rewrite Nat.sub_diag, take_0, app_nil_r. split_and!; try done; lia.
Qed.

(** ** The abstract pipe *)

(** A bounded queue of bytes with two ends. *)
Record queue := {
  q_bytes : list Z;
  q_readers : Z;
  q_writers : Z;
  q_nonblock : bool;
  q_write_nonblock : bool;
}.

Definition abs (st : pipe_state) : queue :=
  {| q_bytes := contents st; q_readers := readers st; q_writers := writers st;
     q_nonblock := nonblock st; q_write_nonblock := write_nonblock st |}.

Definition with_bytes (q : queue) (l : list Z) : queue :=
  {| q_bytes := l; q_readers := q_readers q; q_writers := q_writers q; q_nonblock := q_nonblock q;
     q_write_nonblock := q_write_nonblock q |}.

(** What a turn of a read does: the oldest bytes, or why there are none. *)
Definition queue_read (q : queue) (size : nat) (interrupted : bool)
    : outcome * list Z * queue * bool :=
  match q_bytes q with
  | [] => (if q_writers q =? 0 then Return 0
           else if q_nonblock q then Return (- EAGAIN)
           else if interrupted then Return (- EINTR) else Wait, [], q, false)
  | l => (Return (Z.of_nat (Nat.min size (length l))), take size l, with_bytes q (drop size l), true)
  end.

(** What a turn of a write does: as many of the remaining bytes as fit go to the end. *)
Definition queue_write (q : queue) (src : list Z) (copied : nat) (interrupted : bool)
    : write_outcome * nat * queue * bool :=
  let n := (copied + Nat.min (length src - copied) (PIPE_BUFFER_SIZE - length (q_bytes q)))%nat in
  let partial n e := if (0 <? n)%nat then Z.of_nat n else e in
  if q_readers q =? 0 then (WReturn (partial copied (- EPIPE)), copied, q, false)
  else
    (if (n =? length src)%nat then WReturn (Z.of_nat n)
     else if q_write_nonblock q then WReturn (partial n (- EAGAIN))
     else if interrupted then WReturn (partial n (- EINTR)) else WWait,
     n, with_bytes q (q_bytes q ++ take (n - copied) (drop copied src)), (0 <? n)%nat).

Lemma read_refines st size interrupted :
  pipe_wf st -> (0 < size)%nat ->
  let '(o, d, st', wake) := pipe_read_turn st size interrupted in
  pipe_wf st' /\ (o, d, abs st', wake) = queue_read (abs st) size interrupted.
Proof.
  intros Hwf Hsize. unfold pipe_read_turn. destruct (read_loop 3 st size []) as [d st'] eqn:E.
  destruct (read_loop_spec 3 st size [] d st' Hwf) as (L1 & L2 & L3 & L4); [simpl; lia|lia|done|].
  simpl in L3, L4. rewrite Nat.sub_0_r in L3, L4. pose proof (contents_length _ Hwf) as Hlen.
  destruct L2 as (E1 & E2 & E3 & E4).
  assert (Ha : abs st' = with_bytes (abs st) (drop size (contents st)))
    by (unfold abs; by rewrite L4, E1, E2, E3, E4).
  unfold queue_read. simpl. destruct (contents st) as [|x l] eqn:Hc.
  - rewrite take_nil in L3. subst d. simpl. rewrite drop_nil in Ha.
    assert (abs st' = abs st) as Ha' by (rewrite Ha; unfold abs; by rewrite Hc).
    rewrite E2, E3. destruct (writers st =? 0), (nonblock st), interrupted; by rewrite Ha'.
  - assert (Hd : length d = Nat.min size (length (x :: l))) by (by rewrite L3, length_take).
    rewrite (proj2 (Nat.ltb_lt _ _)) by (rewrite Hd; simpl; lia). by rewrite Ha, Hd, L3.
Qed.

Lemma write_refines st src copied interrupted :
  pipe_wf st -> (copied <= length src)%nat ->
  let '(o, n, st', wake) := pipe_write_turn st src copied interrupted in
  pipe_wf st' /\ (o, n, abs st', wake) = queue_write (abs st) src copied interrupted.
Proof.
  intros Hwf Hcp. unfold pipe_write_turn, queue_write.
  cbn [q_bytes q_readers q_write_nonblock abs]. rewrite contents_length by done.
  destruct (readers st =? 0); [done|].
  destruct (write_loop 3 st src copied) as [n st'] eqn:E.
  destruct (write_loop_spec 3 st src copied n st' Hwf) as (L1 & L2 & L3 & L4 & L5); [done|lia|done|].
  pose proof Hwf as [_ _ Hc _]. destruct L3 as (E1 & E2 & E3 & E4). rewrite <- L1.
  assert (Ha : abs st' = with_bytes (abs st) (contents st ++ take (n - copied) (drop copied src)))
    by (unfold abs; by rewrite L4, E1, E2, E3, E4).
  destruct (n =? length src)%nat eqn:En; [cbn beta iota zeta; by rewrite Ha|].
  apply Nat.eqb_neq in En. rewrite (proj2 (Nat.eqb_eq (count st') PIPE_BUFFER_SIZE)) by lia. simpl.
  rewrite E4. destruct (write_nonblock st), interrupted; cbn beta iota zeta; by rewrite Ha.
Qed.

Lemma contents_nil st : pipe_wf st -> (contents st = [] <-> count st = 0%nat).
Proof. intros Hwf. rewrite <- (contents_length _ Hwf). by rewrite length_zero_iff_nil. Qed.

(** ** Interleaved readers and writers *)

(** A task inside [pipe_read_inode] or [pipe_write_inode], or one that returned [r] having
    moved the bytes [d]. *)
Inductive thread :=
  | Reading (size : nat)
  | Writing (src : list Z) (copied : nat)
  | Finished (r : Z) (d : list Z).

(** The pipe, its tasks, and every byte that went in and came out so far. *)
Record pipe_sys := {
  ps_pipe : pipe_state;
  ps_threads : list thread;
  ps_written : list Z;
  ps_read : list Z;
}.

Inductive pipe_step : pipe_sys -> pipe_sys -> Prop :=
  | step_start_read st ts w r size :
    (0 < size)%nat ->
    pipe_step {| ps_pipe := st; ps_threads := ts; ps_written := w; ps_read := r |}
      {| ps_pipe := st; ps_threads := ts ++ [Reading size]; ps_written := w; ps_read := r |}
  | step_start_write st ts w r src :
    src <> [] ->
    pipe_step {| ps_pipe := st; ps_threads := ts; ps_written := w; ps_read := r |}
      {| ps_pipe := st; ps_threads := ts ++ [Writing src 0]; ps_written := w; ps_read := r |}
  | step_read st ts w r i size intr o d st' wake :
    ts !! i = Some (Reading size) ->
    pipe_read_turn st size intr = (o, d, st', wake) ->
    pipe_step {| ps_pipe := st; ps_threads := ts; ps_written := w; ps_read := r |}
      {| ps_pipe := st';
         ps_threads := <[i := match o with Return x => Finished x d | Wait => Reading size end]> ts;
         ps_written := w; ps_read := r ++ d |}
  | step_write st ts w r i src copied intr o n st' wake :
    ts !! i = Some (Writing src copied) ->
    pipe_write_turn st src copied intr = (o, n, st', wake) ->
    pipe_step {| ps_pipe := st; ps_threads := ts; ps_written := w; ps_read := r |}
      {| ps_pipe := st';
         ps_threads := <[i := match o with WReturn x => Finished x (take n src) | _ => Writing src n end]> ts;
         ps_written := w ++ take (n - copied) (drop copied src); ps_read := r |}
  | step_ioctl st ts w r req arg ok we st' res out :
    pipe_flags_ioctl (Some st) req arg ok we = (res, out, Some st') ->
    pipe_step {| ps_pipe := st; ps_threads := ts; ps_written := w; ps_read := r |}
      {| ps_pipe := st'; ps_threads := ts; ps_written := w; ps_read := r |}
  | step_close `{Heap H} st ts w r inode block fl (h h' : H) st' ev :
    pipe_file_release true inode block (Some st) fl h = (h', Some st', ev) ->
    pipe_step {| ps_pipe := st; ps_threads := ts; ps_written := w; ps_read := r |}
      {| ps_pipe := st'; ps_threads := ts; ps_written := w; ps_read := r |}.

Definition pipe_start : pipe_sys :=
  {| ps_pipe := pipe_fresh; ps_threads := []; ps_written := []; ps_read := [] |}.

(** A returned call moved as many bytes as it says, none when it says an error. *)
Definition thread_ok (t : thread) : Prop :=
  match t with
  | Reading size => (0 < size)%nat
  | Writing src copied => (copied <= length src)%nat
  | Finished r d => r = Z.of_nat (length d) \/ (d = [] /\ r ∈ [- EAGAIN; - EINTR; - EPIPE])
  end.

Record sys_ok (s : pipe_sys) : Prop := {
  so_wf : pipe_wf (ps_pipe s);
  so_fifo : ps_written s = ps_read s ++ contents (ps_pipe s);
  so_threads : Forall thread_ok (ps_threads s);
}.

Lemma pipe_fresh_wf : pipe_wf pipe_fresh /\ contents pipe_fresh = [].
Proof.
  pose proof pipe_size_pos. split; [|done].
  split; unfold pipe_fresh; ring_cbn; [apply length_replicate|done|lia|by rewrite decide_True by lia].
Qed.

Lemma read_step_ok st ts w r i size intr o d st' wake :
  sys_ok {| ps_pipe := st; ps_threads := ts; ps_written := w; ps_read := r |} ->
  ts !! i = Some (Reading size) -> pipe_read_turn st size intr = (o, d, st', wake) ->
  sys_ok {| ps_pipe := st';
            ps_threads := <[i := match o with Return x => Finished x d | Wait => Reading size end]> ts;
            ps_written := w; ps_read := r ++ d |}.
Proof.
  intros [Hwf Hf Ht] Hi E. simpl in *. pose proof (Forall_lookup_1 _ _ _ _ Ht Hi) as Hs. simpl in Hs.
  pose proof (read_refines st size intr Hwf Hs) as R. rewrite E in R. destruct R as [R1 R2].
  unfold queue_read in R2. simpl in R2. destruct (contents st) as [|x l] eqn:Hc.
  - injection R2 as -> -> R2 _ _ _ _ _. split; simpl; [done| |].
    + by rewrite Hf, R2, Hc, !app_nil_r.
    + apply Forall_insert; [done|]. destruct (writers st =? 0); [by left|].
      destruct (nonblock st); [right; split; [done|set_solver]|].
      destruct intr; [right; split; [done|set_solver]|done].
  - injection R2 as -> -> R2 _ _ _ _ _. split; simpl; [done| |].
    + by rewrite Hf, R2, <- app_assoc, take_drop.
    + apply Forall_insert; [done|]. left. by rewrite length_take.
Qed.

Lemma write_step_ok st ts w r i src copied intr o n st' wake :
  sys_ok {| ps_pipe := st; ps_threads := ts; ps_written := w; ps_read := r |} ->
  ts !! i = Some (Writing src copied) -> pipe_write_turn st src copied intr = (o, n, st', wake) ->
  sys_ok {| ps_pipe := st';
            ps_threads := <[i := match o with WReturn x => Finished x (take n src) | _ => Writing src n end]> ts;
            ps_written := w ++ take (n - copied) (drop copied src); ps_read := r |}.
Proof.
  intros [Hwf Hf Ht] Hi E. simpl in *. pose proof (Forall_lookup_1 _ _ _ _ Ht Hi) as Hs. simpl in Hs.
  pose proof (write_refines st src copied intr Hwf Hs) as R. rewrite E in R. destruct R as [R1 R2].
  assert (Hpart : forall k e, (k <= length src)%nat -> e ∈ [- EAGAIN; - EINTR; - EPIPE] ->
    thread_ok (Finished (if (0 <? k)%nat then Z.of_nat k else e) (take k src))).
  { intros k e Hk He. simpl. destruct k; [by right|left]. by rewrite length_take_le. }
  unfold queue_write in R2. cbn [q_bytes q_readers abs] in R2. destruct (readers st =? 0).
  - injection R2 as -> -> R2 _ _ _ _ _. split; simpl; [done| |].
    + by rewrite Nat.sub_diag, take_0, app_nil_r, Hf, R2.
    + apply Forall_insert; [done|]. apply Hpart; [done|set_solver].
  - injection R2 as -> Hn R2 _ _ _ _ _. rewrite <- Hn in *.
    assert (Hnl : (n <= length src)%nat) by lia. split; cbn [ps_pipe ps_threads ps_written ps_read]; [done| |].
    + by rewrite Hf, R2, <- app_assoc.
    + apply Forall_insert; [done|]. destruct (n =? length src)%nat eqn:En.
      { apply Nat.eqb_eq in En. left. by rewrite length_take_le. }
      cbn [q_write_nonblock abs]. destruct (write_nonblock st); [apply Hpart; [done|set_solver]|].
      destruct intr; [apply Hpart; [done|set_solver]|done].
Qed.

(** Changing ends or flags leaves the ring alone. *)
Lemma same_ring_ok st st' :
  read_pos st' = read_pos st -> write_pos st' = write_pos st -> count st' = count st ->
  buffer st' = buffer st -> pipe_wf st -> pipe_wf st' /\ contents st' = contents st.
Proof.
  intros E1 E2 E3 E4 [W1 W2 W3 W4]. unfold contents. rewrite E1, E3, E4. split; [|done].
  split; by rewrite ?E1, ?E2, ?E3, ?E4.
Qed.

Lemma pipe_step_ok s s' : sys_ok s -> pipe_step s s' -> sys_ok s'.
Proof.
  intros Hok Hstep. destruct Hstep as [st ts w r size Hs|st ts w r src Hs| | |
    st ts w r req arg ok we st' res out E|H ? st ts w r inode block fl h h' st' ev E].
  - destruct Hok. split; simpl in *; try done. apply Forall_app. split; [done|by apply Forall_singleton].
  - destruct Hok. split; simpl in *; try done. apply Forall_app. split; [done|apply Forall_singleton; simpl; lia].
  - by eapply read_step_ok.
  - by eapply write_step_ok.
  - destruct Hok as [Hwf Hf Ht]. simpl in *.
    destruct (same_ring_ok st st') as [W C];
      [unfold pipe_flags_ioctl, set_end_nonblock in E; repeat case_match; by simplify_eq..|done|].
    split; simpl; [done|by rewrite C|done].
  - destruct Hok as [Hwf Hf Ht]. simpl in *.
    destruct (same_ring_ok st st') as [W C];
      [unfold pipe_file_release in E; repeat case_match; by simplify_eq..|done|].
    split; simpl; [done|by rewrite C|done].
Qed.

(** C15. Whatever the readers, writers, [ioctl]s and closes of a pipe do in whatever order, the
    bytes read so far followed by the bytes in the ring are the bytes written so far: nothing
    is lost, duplicated or reordered.  The ring stays well formed, and every call that returned
    moved exactly the bytes its result says. *)
Theorem pipe_fifo s :
  rtc pipe_step pipe_start s ->
  pipe_wf (ps_pipe s) /\ ps_written s = ps_read s ++ contents (ps_pipe s) /\
  Forall thread_ok (ps_threads s).
Proof.
  intros Hr. assert (Hok : sys_ok s); [|by destruct Hok].
  assert (H0 : sys_ok pipe_start) by (destruct pipe_fresh_wf; by split).
  revert H0. induction Hr as [|x y z Hstep _ IH]; [done|]. intros Hx. by apply IH, (pipe_step_ok x).
Qed.

(** A turn of [pipe_read_inode] implements the read of a bounded queue: the oldest bytes, at
    most [size], and their number; end of file, [-EAGAIN], [-EINTR] or a wait on an empty
    pipe. *)
Lemma pipe_read_refines st size interrupted :
  pipe_wf st -> (0 < size)%nat ->
  let '(o, d, st', wake) := pipe_read_turn st size interrupted in
  pipe_wf st' /\ (o, d, abs st', wake) = queue_read (abs st) size interrupted.
Proof. apply read_refines. Qed.

(** A turn of [pipe_write_inode] implements the write of a bounded queue: as many of the
    remaining bytes as fit are appended in order, a write that fits returns in one turn, the
    errors and partial counts are as [queue_write] says, and the loop never spins. *)
Lemma pipe_write_refines st src copied interrupted :
  pipe_wf st -> (copied <= length src)%nat ->
  let '(o, n, st', wake) := pipe_write_turn st src copied interrupted in
  pipe_wf st' /\ (o, n, abs st', wake) = queue_write (abs st) src copied interrupted.
Proof. apply write_refines. Qed.

(** [poll] tells the truth: the read end reports something ([POLLIN] or [POLLHUP]) exactly
    when a read would not block, and the write end reports [POLLOUT] exactly when a write would
    put at least one byte in. *)
Lemma pipe_poll_sound st size b src :
  pipe_wf st -> (0 < size)%nat ->
  (pipe_read_poll (Some st) <> 0 <->
     exists r, 0 <= r /\ (pipe_read_turn st size false).1.1.1 = Return r) /\
  (pipe_write_poll (Some st) = POLLOUT <->
     (0 < (pipe_write_turn st (b :: src) 0 false).1.1.2)%nat).
Proof.
  intros Hwf Hs. pose proof (contents_nil _ Hwf) as Hnil. split.
  - pose proof (read_refines st size false Hwf Hs) as R.
    destruct (pipe_read_turn st size false) as [[[o d] st'] w]. destruct R as [_ R].
    unfold queue_read in R. simpl in R |- *. destruct (contents st) as [|x l] eqn:Hc.
    + injection R as -> _ _ _. rewrite (proj1 Hnil eq_refl). simpl.
      destruct (writers st =? 0); simpl; [split; [by exists 0|done]|].
      split; [done|]. intros (r & Hr & E). destruct (nonblock st); [|done]. by injection E as <-.
    + injection R as -> _ _ _ _ _ _ _. destruct (count st); [destruct Hnil as [_ Hn]; by specialize (Hn eq_refl)|]. simpl.
      split; [intros _; eexists; split; [|done]; lia|]. by destruct (writers st =? 0).
  - pose proof (write_refines st (b :: src) 0 false Hwf ltac:(simpl; lia)) as R.
    destruct (pipe_write_turn st (b :: src) 0 false) as [[[o n] st'] w]. destruct R as [_ R].
    unfold queue_write in R. cbn [q_bytes q_readers abs fst snd length] in R |- *.
    rewrite contents_length in R by done. unfold pipe_write_poll. destruct (readers st =? 0).
    + injection R as _ -> _ _ _ _ _ _. split; [done|lia].
    + injection R as _ -> _ _ _ _ _ _. destruct (count st <? PIPE_BUFFER_SIZE)%nat eqn:Ec.
      * apply Nat.ltb_lt in Ec. split; [|done]. destruct (PIPE_BUFFER_SIZE - count st)%nat eqn:Es; lia.
      * apply Nat.ltb_ge in Ec. split; [done|]. replace (PIPE_BUFFER_SIZE - count st)%nat with 0%nat by lia. lia.
Qed.

(** Freeing one inode, the other and the state, in either order of the inodes. *)
Lemma release_both `{Heap H} s ri wi rf wf (h : H) (X : gset Z) :
  heap_ok h -> s <> 0 -> ri <> 0 -> wi <> 0 -> rf <> 0 -> wf <> 0 ->
  live h = block wf ∪ (block rf ∪ (block wi ∪ (block ri ∪ (block s ∪ X)))) ->
  block s ## X -> block ri ## block s ∪ X -> block wi ## block ri ∪ (block s ∪ X) ->
  block rf ## block wi ∪ (block ri ∪ (block s ∪ X)) ->
  block wf ## block rf ∪ (block wi ∪ (block ri ∪ (block s ∪ X))) ->
  (heap_ok (kfree s (kfree wi (kfree ri h))) /\ live (kfree s (kfree wi (kfree ri h))) = {[rf; wf]} ∪ X) /\
  (heap_ok (kfree s (kfree ri (kfree wi h))) /\ live (kfree s (kfree ri (kfree wi h))) = {[rf; wf]} ∪ X).
Proof.
  intros Hok Hs Hri Hwi Hrf Hwf HL D1 D2 D3 D4 D5.
  assert (Hb : {[rf; wf]} = block rf ∪ block wf)
    by (unfold block; by rewrite !(proj2 (Z.eqb_neq _ _)) by done).
  rewrite Hb, !kfree_is_nonnull by done. split.
  - destruct (kfree_block ri h Hok) as [F1 G1]; [rewrite HL; set_solver|].
    destruct (kfree_block wi _ F1) as [F2 G2]; [rewrite G1, HL; set_solver|].
    destruct (kfree_block s _ F2) as [F3 G3]; [rewrite G2, G1, HL; set_solver|].
    split; [done|]. rewrite G3, G2, G1, HL. set_solver.
  - destruct (kfree_block wi h Hok) as [F1 G1]; [rewrite HL; set_solver|].
    destruct (kfree_block ri _ F1) as [F2 G2]; [rewrite G1, HL; set_solver|].
    destruct (kfree_block s _ F2) as [F3 G3]; [rewrite G2, G1, HL; set_solver|].
    split; [done|]. rewrite G3, G2, G1, HL. set_solver.
Qed.

Lemma kfree_step `{Heap H} p (h : H) (Y : gset Z) :
  heap_ok h -> block p ## Y -> live h = block p ∪ Y ->
  heap_ok (kfree_nonnull p h) /\ live (kfree_nonnull p h) = Y.
Proof.
  intros Hok HD HL. destruct (kfree_block p h Hok) as [H1 H2]; [rewrite HL; set_solver|].
  split; [done|]. rewrite H2, HL. clear -HD. set_solver.
Qed.

(** Giving back everything after a failed allocation. *)
Lemma free_five `{Heap H} s ri wi rf wf (h : H) (X : gset Z) :
  heap_ok h ->
  live h = block wf ∪ (block rf ∪ (block wi ∪ (block ri ∪ (block s ∪ X)))) ->
  block s ## X -> block ri ## block s ∪ X -> block wi ## block ri ∪ (block s ∪ X) ->
  block rf ## block wi ∪ (block ri ∪ (block s ∪ X)) ->
  block wf ## block rf ∪ (block wi ∪ (block ri ∪ (block s ∪ X))) ->
  let h' := kfree_nonnull s (kfree_nonnull wf (kfree_nonnull rf (kfree_nonnull wi (kfree_nonnull ri h)))) in
  heap_ok h' /\ live h' = X.
Proof.
  intros Hok HL D1 D2 D3 D4 D5.
  destruct (kfree_step ri h (block wf ∪ (block rf ∪ (block wi ∪ (block s ∪ X))))) as [F1 G1];
    [done|set_solver|rewrite HL; set_solver|].
  destruct (kfree_step wi _ (block wf ∪ (block rf ∪ (block s ∪ X))) F1) as [F2 G2];
    [set_solver|rewrite G1; set_solver|].
  destruct (kfree_step rf _ (block wf ∪ (block s ∪ X)) F2) as [F3 G3]; [set_solver|rewrite G2; set_solver|].
  destruct (kfree_step wf _ (block s ∪ X) F3 ltac:(set_solver) G3) as [F4 G4].
  exact (kfree_step s _ X F4 D1 G4).
Qed.

(** Creating a pipe allocates its five blocks or, when one is missing, gives everything back
    and fails with [-ENOMEM]; closing both ends, in either order, frees the state and both
    inodes exactly once, the state only with the second end. *)
Lemma pipe_lifecycle `{Heap H} (h : H) sp si sf r h' :
  heap_ok h -> 0 < sp -> 0 < si -> 0 < sf -> pipe_create_file_pair sp si sf true h = (r, h') ->
  heap_ok h' /\
  match r with
  | inl e => e = - ENOMEM /\ live h' = live h
  | inr (pp, st) =>
    st = pipe_fresh /\ forall first second, [first; second] ∈ [[O_RDONLY; O_WRONLY]; [O_WRONLY; O_RDONLY]] ->
    let inode m := if m =? O_RDONLY then pp_read_inode pp else pp_write_inode pp in
    let '(h1, st1, ev1) := pipe_file_release true (inode first) (pp_state pp) (Some st) first h' in
    let '(h2, st2, ev2) := pipe_file_release true (inode second) (pp_state pp) st1 second h1 in
    is_Some st1 /\ ev1 = QueueWake /\ st2 = None /\ ev2 = QueueDestroy /\
    heap_ok h2 /\ live h2 = {[pp_read_file pp; pp_write_file pp]} ∪ live h
  end.
Proof.
  intros Hok Hsp Hsi Hsf. unfold pipe_create_file_pair. cbn [negb].
  destruct (kmalloc sp h) as [s h0] eqn:E0. destruct (kmalloc_block _ _ _ _ Hok Hsp E0) as (O0 & L0 & D0 & P0).
  destruct (s =? 0) eqn:Es.
  { intros E. simplify_eq. bool_prop. subst. split_and!; try done. rewrite L0. apply union_empty_l_L. }
  destruct (kmalloc si h0) as [ri h1] eqn:E1. destruct (kmalloc_block _ _ _ _ O0 Hsi E1) as (O1 & L1 & D1 & P1).
  destruct (kmalloc si h1) as [wi h2] eqn:E2. destruct (kmalloc_block _ _ _ _ O1 Hsi E2) as (O2 & L2 & D2 & P2).
  destruct (kmalloc sf h2) as [rf h3] eqn:E3. destruct (kmalloc_block _ _ _ _ O2 Hsf E3) as (O3 & L3 & D3 & P3).
  destruct (kmalloc sf h3) as [wf h4] eqn:E4. destruct (kmalloc_block _ _ _ _ O3 Hsf E4) as (O4 & L4 & D4 & P4).
  rewrite L0 in *. rewrite L1 in *. rewrite L2 in *. rewrite L3 in *.
  destruct (_ || _) eqn:Enull; intros E; injection E as <- <-.
  - bool_prop. rewrite kfree_is_nonnull by done.
    destruct (free_five s ri wi rf wf h4 (live h)) as [R1 R2]; [assumption..|]. done.
  - split; [done|]. split; [done|]. intros f1 f2 Hf.
    apply orb_false_iff in Enull as [Enull N4]. apply orb_false_iff in Enull as [Enull N3].
    apply orb_false_iff in Enull as [N1 N2].
    destruct (release_both s ri wi rf wf h4 (live h)) as [[R1 R2] [R3 R4]];
      [assumption || by apply Z.eqb_neq ..|].
    clear -R1 R2 R3 R4 Hf N1 N2. unfold pipe_file_release.
    apply list_elem_of_In in Hf. destruct Hf as [Hf|[Hf|[]]]; injection Hf as <- <-; simpl.
    + rewrite N1, N2. simpl. by split_and!.
    + rewrite N1, N2. simpl. by split_and!.
Qed.

(** ** Witnesses *)

(** A pipe three bytes before the end of its buffer, holding two bytes. *)
Definition demo_pipe : pipe_state :=
  {| read_pos := PIPE_BUFFER_SIZE - 3; write_pos := PIPE_BUFFER_SIZE - 1; count := 2; readers := 1;
     writers := 1; nonblock := false; write_nonblock := false;
     buffer := replicate (PIPE_BUFFER_SIZE - 3) 0 ++ [10; 11; 0] |}.

Lemma demo_pipe_wf : pipe_wf demo_pipe.
Proof. split; vm_compute; done || lia. Qed.

Lemma pipe_read_refines_witness :
  (pipe_read_turn demo_pipe 5 false).1.1.2 = [10; 11] /\
  let '(o, d, st', wake) := pipe_read_turn demo_pipe 5 false in
  pipe_wf st' /\ (o, d, abs st', wake) = queue_read (abs demo_pipe) 5 false.
Proof. split; [by vm_compute|]. apply (pipe_read_refines demo_pipe 5 false demo_pipe_wf). lia. Defined.

Lemma pipe_write_refines_witness :
  contents (pipe_write_turn demo_pipe [1; 2; 3] 0 false).1.2 = [10; 11; 1; 2; 3] /\
  let '(o, n, st', wake) := pipe_write_turn demo_pipe [1; 2; 3] 0 false in
  pipe_wf st' /\ (o, n, abs st', wake) = queue_write (abs demo_pipe) [1; 2; 3] 0 false.
Proof. split; [by vm_compute|]. apply (pipe_write_refines demo_pipe [1; 2; 3] 0 false demo_pipe_wf). simpl. lia. Defined.

Lemma pipe_poll_sound_witness :
  pipe_read_poll (Some demo_pipe) <> 0 <->
  exists r, 0 <= r /\ (pipe_read_turn demo_pipe 5 false).1.1.1 = Return r.
Proof. apply (pipe_poll_sound demo_pipe 5 0 [] demo_pipe_wf). lia. Defined.

(** One task writes three bytes, another takes two of them. *)
Definition demo_sys : pipe_sys :=
  let st1 := (pipe_write_turn pipe_fresh [7; 8; 9] 0 false).1.2 in
  {| ps_pipe := (pipe_read_turn st1 2 false).1.2;
     ps_threads := [Finished 3 [7; 8; 9]; Finished 2 [7; 8]];
     ps_written := [7; 8; 9]; ps_read := [7; 8] |}.

Lemma demo_sys_reachable : rtc pipe_step pipe_start demo_sys.
Proof.
  eapply rtc_l; [apply (step_start_write _ _ _ _ [7; 8; 9]); done|].
  eapply rtc_l; [apply (step_start_read _ _ _ _ 2); lia|].
  eapply rtc_l.
  { eapply (step_write _ _ _ _ 0 [7; 8; 9] 0 false); [done|]. vm_compute. reflexivity. }
  eapply rtc_l.
  { eapply (step_read _ _ _ _ 1 2 false); [done|]. vm_compute. reflexivity. }
  assert (E : forall a b : pipe_sys, a = b -> rtc pipe_step a b) by (by intros ? ? ->).
  apply E. vm_compute. reflexivity.
Qed.

Lemma pipe_fifo_witness :
  pipe_wf (ps_pipe demo_sys) /\ ps_written demo_sys = ps_read demo_sys ++ contents (ps_pipe demo_sys) /\
  Forall thread_ok (ps_threads demo_sys).
Proof. apply (pipe_fifo demo_sys demo_sys_reachable). Defined.

Definition demo_heap : counting_heap := {| ch_live := ∅; ch_next := 4096; ch_budget := 7 |}.

Lemma demo_heap_ok : heap_ok demo_heap.
Proof. split; simpl; [lia|]. intros p Hp. by apply elem_of_empty in Hp. Qed.

Lemma pipe_lifecycle_witness :
  heap_ok (pipe_create_file_pair 4200 200 64 true demo_heap).2.
Proof.
  refine (proj1 (pipe_lifecycle demo_heap 4200 200 64 (pipe_create_file_pair 4200 200 64 true demo_heap).1 _
    demo_heap_ok _ _ _ (surjective_pairing _))); lia.
Defined.
