(* ===== verification/Eventfd.v ===== *)
(** * Event counters and timers behind descriptors, [kernel/src/fs/eventfd.c]

    An eventfd is a 64-bit counter; a timerfd counts the expirations of a timer kept in HPET
    counts.  Reads and writes are loops whose turns are steps here; [block_on] either sleeps,
    fails with [-EINTR], or falls through to the next turn when its condition already holds.
    The syscalls run under the big kernel lock and the tick handler with interrupts off, so
    each turn is atomic.  The HPET counter is the argument [now]. *)

From S2P Require Import Prelude Heap.

Definition COUNT_MAX : Z := 0xFFFFFFFFFFFFFFFE.

(** The new mode, the result and the value copied out.  [arg] is [None] for a null pointer,
    otherwise what the copy from user space gives; [out_ok] is whether the copy back works. *)
Definition nonblock_ioctl (nonblock : bool) (request : Z) (arg : option (option Z)) (out_ok : bool)
    : bool * Z * option Z :=
  match arg with
  | None => (nonblock, - EINVAL, None)
  | Some user =>
    if request =? TTY_IOCTL_FIONBIO
    then match user with
         | None => (nonblock, - EFAULT, None)
         | Some on => (negb (on =? 0), 0, None)
         end
    else if request =? TTY_IOCTL_SET_FLAGS
    then match user with
         | None => (nonblock, - EFAULT, None)
         | Some fl => (flag fl TTY_NONBLOCK, 0, None)
         end
    else if request =? TTY_IOCTL_GET_FLAGS
    then if out_ok then (nonblock, 0, Some (if nonblock then TTY_NONBLOCK else 0))
         else (nonblock, - EFAULT, None)
    else (nonblock, - ENOTTY, None)
  end.

(** ** Blocking *)

(** What a turn of a read or write comes to: a result (with the value it copied out), a sleep
    on the wait queue, or another turn at once. *)
Inductive turn :=
  | TReturn (r : Z) (v : option Z)
  | TSleep
  | TAgain.

(** [block_on]: [interrupted] is [signal_should_interrupt], [new_signal] whether a signal came
    in since it was asked. *)
Definition block_on (ready interrupted new_signal : bool) : turn :=
  if interrupted then TReturn (- EINTR) None
  else if negb ready && negb new_signal then TSleep else TAgain.

(** ** The eventfd *)

(** [evfd_t] without its wait queue. *)
Record evfd := {
  ev_count : Z;
  ev_semaphore : bool;
  ev_nonblock : bool;
}.

Definition with_count (e : evfd) (c : Z) : evfd :=
  {| ev_count := c; ev_semaphore := ev_semaphore e; ev_nonblock := ev_nonblock e |}.

Definition ev_readable (e : evfd) : bool := 0 <? ev_count e.

Definition ev_writable (e : evfd) : bool := ev_count e <? COUNT_MAX.

(** A turn of [ev_read]; the last component is whether the queue is woken. *)
Definition ev_read (e : evfd) (size : Z) (interrupted new_signal : bool) : turn * evfd * bool :=
  if size <? 8 then (TReturn (- EINVAL) None, e, false)
  else if negb (ev_count e =? 0)
  then
    let v := if ev_semaphore e then 1 else ev_count e in
    (TReturn 8 (Some v), with_count e (ev_count e -w v), true)
  else if ev_nonblock e then (TReturn (- EAGAIN) None, e, false)
  else (block_on (ev_readable e) interrupted new_signal, e, false).

(** A turn of [ev_write] of the value [v]. *)
Definition ev_write (e : evfd) (v size : Z) (interrupted new_signal : bool) : turn * evfd * bool :=
  if size <? 8 then (TReturn (- EINVAL) None, e, false)
  else if v =? UINT64_MAX then (TReturn (- EINVAL) None, e, false)
  else if v <=? COUNT_MAX -w ev_count e
  then (TReturn 8 None, with_count e (ev_count e +w v), negb (v =? 0))
  else if ev_nonblock e then (TReturn (- EAGAIN) None, e, false)
  else (block_on (ev_writable e) interrupted new_signal, e, false).

Definition ev_poll (e : evfd) : Z :=
  Z.lor (if negb (ev_count e =? 0) then POLLIN else 0) (if ev_count e <? COUNT_MAX then POLLOUT else 0).

(** ** Creation *)

Definition EFD_SEMAPHORE : Z := 0x1.

Definition EFD_NONBLOCK : Z := 0x800.

Definition EFD_CLOEXEC : Z := 0x80000.

(** A heap with the blocks handed to [kfree], in order. *)
Record logged (H : Type) := { lg_heap : H; lg_freed : list Z }.

Arguments Build_logged {H}.

Arguments lg_heap {H}.

Arguments lg_freed {H}.

Section Install.

Context `{Heap H}.

Context (sizeof_evfd sizeof_inode sizeof_file : Z).

Definition log_kmalloc (n : Z) (s : logged H) : Z * logged H :=
  let '(p, h) := kmalloc n (lg_heap s) in (p, Build_logged h (lg_freed s)).

(** [kfree] ignores a null pointer. *)
Definition log_kfree (p : Z) (s : logged H) : logged H :=
  if p =? 0 then s else Build_logged (kfree p (lg_heap s)) (lg_freed s ++ [p]).

(** [ev_drop]: the counter goes with the inode. *)
Definition ev_drop (data : Z) (s : logged H) : logged H := log_kfree data s.

(** [vfs_file_put] of a file with one holder: [vfs_drop] runs the inode's [drop], frees the
    inode, and the file goes last. *)
Definition vfs_file_put_last (drop : Z -> logged H -> logged H) (data inode f : Z) (s : logged H)
    : logged H :=
  log_kfree f (log_kfree inode (drop data s)).

(** [vfs_fd] is what [vfs_install] returns. *)
Definition install (drop : Z -> logged H -> logged H) (vfs_fd data : Z) (s : logged H) : Z * logged H :=
  let '(inode, s) := log_kmalloc sizeof_inode s in
  let '(f, s) := log_kmalloc sizeof_file s in
  if (inode =? 0) || (f =? 0) then (- ENOMEM, log_kfree f (log_kfree inode s))
  else if vfs_fd <? 0 then (vfs_fd, vfs_file_put_last drop data inode f s)
  else (vfs_fd, s).

(** The descriptor and the counter at block [e], when one was made. *)
Definition eventfd_create (vfs_fd initval fl : Z) (s : logged H) : Z * option (Z * evfd) * logged H :=
  if negb (Z.land fl (Z.lnot (Z.lor (Z.lor EFD_SEMAPHORE EFD_NONBLOCK) EFD_CLOEXEC)) =? 0)
  then (- EINVAL, None, s)
  else
    let '(e, s) := log_kmalloc sizeof_evfd s in
    if e =? 0 then (- ENOMEM, None, s)
    else
      let '(fd, s) := install ev_drop vfs_fd e s in
      if fd <? 0 then (fd, None, log_kfree e s)
      else (fd, Some (e, {| ev_count := initval; ev_semaphore := flag fl EFD_SEMAPHORE;
                            ev_nonblock := flag fl EFD_NONBLOCK |}), s).

End Install.

(** ** The timerfd *)

(** [tfd_t] without its wait queue; [t_next] is the list [armed_list]. *)
Record tfd := {
  t_clock : Z;
  t_nonblock : bool;
  t_armed : bool;
  t_expire : Z;
  t_interval : Z;
  t_ticks : Z;
}.

(** The timers by address, and [armed_list]. *)
Record timers := {
  tm_tfds : gmap Z tfd;
  armed_list : list Z;
}.

Definition tfd_at (s : timers) (t : Z) : tfd :=
  default {| t_clock := 0; t_nonblock := false; t_armed := false; t_expire := 0; t_interval := 0;
             t_ticks := 0 |} (tm_tfds s !! t).

Definition set_tfd (s : timers) (t : Z) (x : tfd) : timers :=
  {| tm_tfds := <[t := x]> (tm_tfds s); armed_list := armed_list s |}.

Fixpoint unlink_first (t : Z) (l : list Z) : list Z :=
  match l with
  | [] => []
  | x :: rest => if x =? t then rest else x :: unlink_first t rest
  end.

Definition tfd_unlink (s : timers) (t : Z) : timers :=
  {| tm_tfds := tm_tfds s; armed_list := unlink_first t (armed_list s) |}.

Definition tfd_update (s : timers) (t now : Z) : bool * timers :=
  let x := tfd_at s t in
  if negb (t_armed x) then (false, s)
  else if now <? t_expire x then (false, s)
  else if negb (t_interval x =? 0)
  then
    let n := (now -w t_expire x) / t_interval x +w 1 in
    (true, set_tfd s t {| t_clock := t_clock x; t_nonblock := t_nonblock x; t_armed := true;
                          t_expire := t_expire x +w (n *w t_interval x); t_interval := t_interval x;
                          t_ticks := t_ticks x +w n |})
  else
    (true, tfd_unlink (set_tfd s t {| t_clock := t_clock x; t_nonblock := t_nonblock x; t_armed := false;
                                      t_expire := t_expire x; t_interval := 0;
                                      t_ticks := t_ticks x +w 1 |}) t).

(** [tfd_tick]: [next] is read before the update, which unlinks no other timer, so the walk is
    over the list as it was.  [now t] is the counter when timer [t] is looked at; the timers
    woken are returned. *)
Fixpoint tick_walk (l : list Z) (now : Z -> Z) (s : timers) (woken : list Z) : timers * list Z :=
  match l with
  | [] => (s, woken)
  | t :: rest =>
    let '(fired, s) := tfd_update s t (now t) in
    tick_walk rest now s (if fired then woken ++ [t] else woken)
  end.

Definition tfd_tick (s : timers) (now : Z -> Z) : timers * list Z := tick_walk (armed_list s) now s [].

Definition with_ticks (x : tfd) (n : Z) : tfd :=
  {| t_clock := t_clock x; t_nonblock := t_nonblock x; t_armed := t_armed x; t_expire := t_expire x;
     t_interval := t_interval x; t_ticks := n |}.

Definition tfd_ready (s : timers) (t now : Z) : bool * timers :=
  let '(_, s) := tfd_update s t now in (0 <? t_ticks (tfd_at s t), s).

(** A turn of [tfd_read]; [now'] is the counter when [block_on] looks again. *)
Definition tfd_read (s : timers) (t size now now' : Z) (interrupted new_signal : bool) : turn * timers :=
  if size <? 8 then (TReturn (- EINVAL) None, s)
  else
    let '(_, s) := tfd_update s t now in
    let got := t_ticks (tfd_at s t) in
    let s := set_tfd s t (with_ticks (tfd_at s t) 0) in
    if negb (got =? 0) then (TReturn 8 (Some got), s)
    else if t_nonblock (tfd_at s t) then (TReturn (- EAGAIN) None, s)
    else if interrupted then (TReturn (- EINTR) None, s)
    else
      let '(ready, s) := tfd_ready s t now' in
      (if negb ready && negb new_signal then TSleep else TAgain, s).

Definition tfd_poll (s : timers) (t now : Z) : Z * timers :=
  let '(_, s) := tfd_update s t now in (if negb (t_ticks (tfd_at s t) =? 0) then POLLIN else 0, s).

Definition tfd_drop (s : timers) (t : Z) : timers :=
  {| tm_tfds := delete t (tm_tfds s); armed_list := unlink_first t (armed_list s) |}.

(** ** Setting the time *)

Definition NS_PER_SEC : Z := 1000000000.

Definition femtosecondsPerSecond : Z := 1000000000000000.

Definition femtosecondsPerNanosecond : Z := 1000000.

(** [clock.c]; [fpt] is [femtosecondsPerTick]. *)
Definition clock_ns_to_counts (fpt ns : Z) : Z :=
  if fpt =? 0 then 0
  else
    let per_sec := femtosecondsPerSecond / fpt in
    ((ns / NS_PER_SEC) *w per_sec) +w (((ns mod NS_PER_SEC) *w femtosecondsPerNanosecond) / fpt).

Definition clock_counts_to_ns (fpt counts : Z) : Z :=
  if fpt =? 0 then 0
  else
    let per_sec := femtosecondsPerSecond / fpt in
    ((counts / per_sec) *w NS_PER_SEC) +w (((counts mod per_sec) *w fpt) / femtosecondsPerNanosecond).

Record timespec := { tv_sec : Z; tv_nsec : Z }.

Record itimerspec := { it_interval : timespec; it_value : timespec }.

Definition ts_ok (ts : timespec) : bool :=
  (0 <=? tv_sec ts) && (0 <=? tv_nsec ts) && (tv_nsec ts <? 1000000000).

Definition ts_ns (ts : timespec) : Z := (tv_sec ts *w 1000000000) +w tv_nsec ts.

Definition ns_ts (ns : Z) : timespec := {| tv_sec := ns / 1000000000; tv_nsec := ns mod 1000000000 |}.

Definition tfd_current (fpt now : Z) (x : tfd) : itimerspec :=
  let left := if t_armed x && (now <? t_expire x) then t_expire x -w now else 0 in
  let left := if t_armed x && (left =? 0) then 1 else left in
  {| it_interval := ns_ts (clock_counts_to_ns fpt (t_interval x));
     it_value := ns_ts (if t_armed x then clock_counts_to_ns fpt left else 0) |}.

Definition TFD_TIMER_ABSTIME : Z := 0x1.

(** [t] is the timer of the descriptor ([None] when it is no timerfd); [now] is the HPET
    counter and [clock_now] what [clock_read] gives for the timer's clock. *)
Definition timerfd_settime (fpt now clock_now : Z) (s : timers) (t : option Z) (fl : Z) (value : itimerspec)
    : Z * option itimerspec * timers :=
  if negb (Z.land fl (Z.lnot TFD_TIMER_ABSTIME) =? 0) then (- EINVAL, None, s)
  else if negb (ts_ok (it_value value)) || negb (ts_ok (it_interval value)) then (- EINVAL, None, s)
  else
    match t with
    | None => (- EINVAL, None, s)
    | Some t =>
      let old := tfd_current fpt now (tfd_at s t) in
      let s := tfd_unlink s t in
      let x := tfd_at s t in
      let interval := clock_ns_to_counts fpt (ts_ns (it_interval value)) in
      let ns := ts_ns (it_value value) in
      if negb (ns =? 0)
      then
        let rel := if flag fl TFD_TIMER_ABSTIME then (if clock_now <? ns then ns -w clock_now else 0) else ns in
        (0, Some old,
         {| tm_tfds := <[t := {| t_clock := t_clock x; t_nonblock := t_nonblock x; t_armed := true;
                                 t_expire := now +w clock_ns_to_counts fpt rel; t_interval := interval;
                                 t_ticks := 0 |}]> (tm_tfds s);
            armed_list := t :: armed_list s |})
      else
        (0, Some old,
         set_tfd s t {| t_clock := t_clock x; t_nonblock := t_nonblock x; t_armed := false;
                        t_expire := t_expire x; t_interval := interval; t_ticks := 0 |})
    end.

Definition timerfd_gettime (fpt now : Z) (s : timers) (t : option Z) : Z * option itimerspec * timers :=
  match t with
  | None => (- EINVAL, None, s)
  | Some t =>
    let '(_, s) := tfd_update s t now in (0, Some (tfd_current fpt now (tfd_at s t)), s)
  end.

Definition CLOCK_REALTIME : Z := 0.

Definition CLOCK_MONOTONIC : Z := 1.

Definition CLOCK_BOOTTIME : Z := 7.

Definition TFD_NONBLOCK : Z := 0x800.

Definition TFD_CLOEXEC : Z := 0x80000.

(** The checks of [timerfd_create] and the timer it makes; [hooked] is whether the tick handler
    is (or could be) registered. *)
Definition timerfd_new (clock fl : Z) (hooked : bool) : Z + tfd :=
  if negb (clock =? CLOCK_REALTIME) && negb (clock =? CLOCK_MONOTONIC) && negb (clock =? CLOCK_BOOTTIME)
  then inl (- EINVAL)
  else if negb (Z.land fl (Z.lnot (Z.lor TFD_NONBLOCK TFD_CLOEXEC)) =? 0) then inl (- EINVAL)
  else if negb hooked then inl (- ENOMEM)
  else inr {| t_clock := clock; t_nonblock := flag fl TFD_NONBLOCK; t_armed := false; t_expire := 0;
              t_interval := 0; t_ticks := 0 |}.

(** [timerfd_create]: like [eventfd_create] with [tfd_drop] as the inode's [drop]. *)
Definition timerfd_create `{Heap H} (sizeof_tfd sizeof_inode sizeof_file vfs_fd clock fl : Z)
    (hooked : bool) (s : logged H) : Z * option (Z * tfd) * logged H :=
  match timerfd_new clock fl hooked with
  | inl e => (e, None, s)
  | inr x =>
    let '(t, s) := log_kmalloc sizeof_tfd s in
    if t =? 0 then (- ENOMEM, None, s)
    else
      let '(fd, s) := install sizeof_inode sizeof_file log_kfree vfs_fd t s in
      if fd <? 0 then (fd, None, log_kfree t s) else (fd, Some (t, x), s)
  end.

(** ** The counter *)

Definition ev_ok (e : evfd) : Prop := 0 <= ev_count e <= COUNT_MAX.

(** The value a turn took out. *)
Definition taken (t : turn) : Z := match t with TReturn _ (Some v) => v | _ => 0 end.

(** The value a turn of a write put in. *)
Definition put (t : turn) (v : Z) : Z := match t with TReturn r None => if r =? 8 then v else 0 | _ => 0 end.

Lemma ev_read_spec e size i n t e' w :
  ev_ok e -> ev_read e size i n = (t, e', w) ->
  ev_ok e' /\ ev_count e = ev_count e' + taken t /\
  (taken t = if (8 <=? size) && negb (ev_count e =? 0) then (if ev_semaphore e then 1 else ev_count e) else 0).
Proof.
  unfold ev_ok, ev_read, COUNT_MAX. intros Hok. destruct (size <? 8) eqn:Es; bool_prop.
  { intros E. simplify_eq/=. rewrite (proj2 (Z.leb_gt 8 size)) by lia. split_and!; simpl; lia. }
  rewrite (proj2 (Z.leb_le 8 size)) by lia. destruct (ev_count e =? 0) eqn:Ec; bool_prop; simpl.
  - unfold block_on. intros E. repeat case_match; simplify_eq/=; lia.
  - intros E. simplify_eq/=. destruct (ev_semaphore e); rewrite wrap64_small by lia; lia.
Qed.

Lemma ev_write_spec e v size i n t e' w :
  ev_ok e -> 0 <= v <= UINT64_MAX -> ev_write e v size i n = (t, e', w) ->
  ev_ok e' /\ ev_count e' = ev_count e + put t v.
Proof.
  unfold ev_ok, ev_write, COUNT_MAX, UINT64_MAX. intros Hok Hv.
  destruct (size <? 8); [intros E; simplify_eq/=; lia|].
  destruct (v =? _) eqn:Ev; [intros E; simplify_eq/=; lia|]. bool_prop.
  rewrite wrap64_small by lia. destruct (v <=? _) eqn:El; bool_prop.
  - intros E. simplify_eq/=. rewrite wrap64_small by lia. lia.
  - unfold block_on. intros E. repeat case_match; simplify_eq/=; lia.
Qed.

(** The counter with the sums that went in and came out. *)
Record ev_sys := { es_ev : evfd; es_in : Z; es_out : Z }.

Inductive ev_step : ev_sys -> ev_sys -> Prop :=
  | ev_step_read e a b size i n t e' w :
    ev_read e size i n = (t, e', w) ->
    ev_step {| es_ev := e; es_in := a; es_out := b |} {| es_ev := e'; es_in := a; es_out := b + taken t |}
  | ev_step_write e a b v size i n t e' w :
    0 <= v <= UINT64_MAX -> ev_write e v size i n = (t, e', w) ->
    ev_step {| es_ev := e; es_in := a; es_out := b |} {| es_ev := e'; es_in := a + put t v; es_out := b |}
  | ev_step_ioctl e a b req arg ok nb r out :
    nonblock_ioctl (ev_nonblock e) req arg ok = (nb, r, out) ->
    ev_step {| es_ev := e; es_in := a; es_out := b |}
      {| es_ev := {| ev_count := ev_count e; ev_semaphore := ev_semaphore e; ev_nonblock := nb |};
         es_in := a; es_out := b |}.

(** Over any interleaving of reads, writes and mode changes the counter is conserved: the
    initial value plus everything successfully written is everything read plus the counter,
    which never wraps. *)
Lemma eventfd_conserves e s :
  ev_ok e -> rtc ev_step {| es_ev := e; es_in := 0; es_out := 0 |} s ->
  ev_ok (es_ev s) /\ ev_count e + es_in s = es_out s + ev_count (es_ev s).
Proof.
  intros He Hr.
  enough (H : forall x y, rtc ev_step x y -> ev_ok (es_ev x) ->
    ev_ok (es_ev y) /\ ev_count (es_ev x) + es_in y - es_in x = es_out y - es_out x + ev_count (es_ev y)).
  { destruct (H _ _ Hr He) as [H1 H2]. simpl in H2. split; [done|lia]. }
  clear. intros x y. induction 1 as [|x y z Hs _ IH]; intros Hok; [split; [done|lia]|].
  assert (Hy : ev_ok (es_ev y) /\ ev_count (es_ev x) + es_in y - es_in x = es_out y - es_out x + ev_count (es_ev y)).
  { destruct Hs as [? ? ? ? ? ? ? ? ? E|? ? ? ? ? ? ? ? ? ? Hv E|]; simpl in *.
    - destruct (ev_read_spec _ _ _ _ _ _ _ Hok E) as (? & ? & _). split; [done|lia].
    - destruct (ev_write_spec _ _ _ _ _ _ _ _ Hok Hv E). split; [done|lia].
    - split; [done|lia]. }
  destruct Hy as [Hy1 Hy2]. destruct (IH Hy1). split; [done|lia].
Qed.

(** A read takes the whole counter, or 1 in semaphore mode; [POLLIN] is reported exactly when
    a read would succeed and [POLLOUT] exactly when a write of 1 would. *)
Lemma eventfd_poll_sound e i n :
  ev_ok e ->
  (flag (ev_poll e) POLLIN = true <-> (ev_read e 8 i n).1.1 = TReturn 8 (Some (if ev_semaphore e then 1 else ev_count e))) /\
  (flag (ev_poll e) POLLOUT = true <-> (ev_write e 1 8 i n).1.1 = TReturn 8 None).
Proof.
  intros Hok. unfold ev_ok, ev_poll, ev_read, ev_write, COUNT_MAX, UINT64_MAX in *.
  rewrite (wrap64_small (_ - ev_count e)) by lia. simpl.
  destruct (ev_count e =? 0) eqn:E0; destruct (ev_count e <? _) eqn:E1;
    destruct (1 <=? _) eqn:E2; bool_prop; try lia; simpl; unfold block_on;
    destruct (ev_nonblock e), i; simpl; repeat case_match; split; split; intros E; done || vm_compute in E; done.
Qed.

(** A blocking write that does not fit while the counter is below its maximum neither
    returns nor sleeps: [block_on] finds the descriptor writable and the loop goes round at
    once, with nothing changed, until another task takes from the counter or a signal comes. *)
Lemma eventfd_write_spins e v :
  ev_ok e -> 0 <= v < UINT64_MAX -> COUNT_MAX - ev_count e < v -> ev_count e < COUNT_MAX ->
  ev_nonblock e = false -> ev_write e v 8 false false = (TAgain, e, false).
Proof.
  unfold ev_ok, ev_write, block_on, ev_writable, UINT64_MAX, COUNT_MAX. intros Hok Hv Hf Hc Hn.
  rewrite wrap64_small by lia. rewrite (proj2 (Z.eqb_neq v _)) by lia.
  rewrite (proj2 (Z.leb_gt v _)) by lia. rewrite Hn, (proj2 (Z.ltb_lt (ev_count e) _)) by lia. done.
Qed.

(** Creation when the descriptor table is full frees the counter twice: [install] drops the
    inode, whose [drop] frees it, and [eventfd_create] frees it again. *)
Lemma eventfd_create_double_free `{Heap H} sz si sf vfs_fd initval (s : logged H) e i f h1 h2 h3 :
  vfs_fd < 0 -> kmalloc sz (lg_heap s) = (e, h1) -> kmalloc si h1 = (i, h2) -> kmalloc sf h2 = (f, h3) ->
  e <> 0 -> i <> 0 -> f <> 0 ->
  let '(fd, ev, s') := eventfd_create sz si sf vfs_fd initval 0 s in
  fd = vfs_fd /\ ev = None /\ lg_freed s' = lg_freed s ++ [e; i; f; e].
Proof.
  intros Hfd E1 E2 E3 He Hi Hf. unfold eventfd_create. simpl. unfold install, log_kmalloc.
  rewrite E1. simpl. rewrite (proj2 (Z.eqb_neq e 0) He), E2. simpl. rewrite E3. simpl.
  rewrite (proj2 (Z.eqb_neq i 0) Hi), (proj2 (Z.eqb_neq f 0) Hf). simpl.
  rewrite (proj2 (Z.ltb_lt vfs_fd 0) Hfd). unfold vfs_file_put_last, ev_drop, log_kfree.
  rewrite (proj2 (Z.ltb_lt vfs_fd 0) Hfd), (proj2 (Z.eqb_neq e 0) He), (proj2 (Z.eqb_neq i 0) Hi),
    (proj2 (Z.eqb_neq f 0) Hf). simpl. by rewrite <- !app_assoc.
Qed.

(** ** Timers *)

(** Expirations of a timer up to [now]: [expire], [expire + interval], ... *)
Definition expirations (x : tfd) (now : Z) : Z :=
  if negb (t_armed x) || (now <? t_expire x) then 0
  else if t_interval x =? 0 then 1 else (now - t_expire x) / t_interval x + 1.

(** Fields in range, and no wrap-around before [now]. *)
Definition tfd_fits (x : tfd) (now : Z) : Prop :=
  0 <= now < 2 ^ 64 /\ 0 <= t_expire x /\ 0 <= t_interval x /\ now + t_interval x < 2 ^ 64 /\
  0 <= t_ticks x /\ t_ticks x + expirations x now < 2 ^ 64.

(** The list holds exactly the armed timers, each once. *)
Record timers_ok (s : timers) : Prop := {
  to_nodup : NoDup (armed_list s);
  to_armed : forall t, t ∈ armed_list s <-> exists x, tm_tfds s !! t = Some x /\ t_armed x = true;
}.

Lemma unlink_first_elem t l x : NoDup l -> x ∈ unlink_first t l <-> x ∈ l /\ x <> t.
Proof.
  induction 1 as [|y l Hy Hl IH]; simpl; [set_solver|].
  destruct (y =? t) eqn:E; bool_prop; [subst; set_solver|].
  rewrite elem_of_cons, IH, elem_of_cons. naive_solver.
Qed.

Lemma unlink_first_nodup t l : NoDup l -> NoDup (unlink_first t l).
Proof.
  induction 1 as [|y l Hy Hl IH]; simpl; [constructor|].
  destruct (y =? t); [done|]. constructor; [|done]. rewrite unlink_first_elem by done. tauto.
Qed.

(** Replacing a timer by one as armed as before. *)
Lemma timers_ok_set s t y :
  timers_ok s -> (t_armed y = true <-> t ∈ armed_list s) -> timers_ok (set_tfd s t y).
Proof.
  intros [Hnd Ha] Hy. split; simpl; [done|]. intros u. destruct (decide (u = t)) as [->|Hne].
  - rewrite lookup_insert_eq, <- Hy. naive_solver.
  - by rewrite lookup_insert_ne by done.
Qed.

(** Unlinking a timer and leaving it disarmed, or gone. *)
Lemma timers_ok_unlink s t (m : gmap Z tfd) :
  timers_ok s -> (forall y, m !! t = Some y -> t_armed y = false) ->
  (forall u, u <> t -> m !! u = tm_tfds s !! u) ->
  timers_ok {| tm_tfds := m; armed_list := unlink_first t (armed_list s) |}.
Proof.
  intros [Hnd Ha] Ht Hm. split; simpl; [by apply unlink_first_nodup|]. intros u.
  rewrite unlink_first_elem, Ha by done. destruct (decide (u = t)) as [->|Hne].
  - split; [tauto|]. intros (y & Hy & Hya). by rewrite (Ht y Hy) in Hya.
  - rewrite Hm by done. tauto.
Qed.

Lemma tfd_at_armed s t : timers_ok s -> t_armed (tfd_at s t) = true <-> t ∈ armed_list s.
Proof.
  intros [_ Ha]. rewrite Ha. unfold tfd_at. destruct (tm_tfds s !! t); simpl; naive_solver.
Qed.

Lemma tfd_update_ok s t now : timers_ok s -> timers_ok (tfd_update s t now).2.
Proof.
  intros Hok. unfold tfd_update. pose proof (tfd_at_armed s t Hok) as Ha.
  destruct (t_armed (tfd_at s t)) eqn:Ear; simpl; [|done]. destruct (_ <? _); simpl; [done|].
  destruct (t_interval (tfd_at s t) =? 0); simpl.
  - unfold tfd_unlink; simpl. apply timers_ok_unlink; [done| |].
    + intros y. rewrite lookup_insert_eq. by intros [= <-].
    + intros u Hu. by rewrite lookup_insert_ne by done.
  - apply timers_ok_set; [done|]. simpl. by rewrite <- Ha.
Qed.

(** What an update at [now] leaves. *)
Definition tfd_after (x : tfd) (now : Z) : tfd :=
  let n := expirations x now in
  {| t_clock := t_clock x; t_nonblock := t_nonblock x;
     t_armed := t_armed x && ((n =? 0) || negb (t_interval x =? 0));
     t_expire := t_expire x + n * t_interval x; t_interval := t_interval x; t_ticks := t_ticks x + n |}.

Lemma tfd_update_spec s t now x fired s' :
  tm_tfds s !! t = Some x -> tfd_fits x now -> tfd_update s t now = (fired, s') ->
  tm_tfds s' = <[t := tfd_after x now]> (tm_tfds s) /\ fired = (0 <? expirations x now) /\
  (t_armed (tfd_after x now) = true -> now < t_expire (tfd_after x now)).
Proof.
  intros Hx (F1 & F2 & F3 & F4 & F5 & F6). unfold tfd_update, tfd_after, tfd_at. rewrite Hx. simpl.
  assert (Hid : expirations x now = 0 -> tm_tfds s = <[t := {|
      t_clock := t_clock x; t_nonblock := t_nonblock x; t_armed := t_armed x && true;
      t_expire := t_expire x + 0 * t_interval x; t_interval := t_interval x; t_ticks := t_ticks x + 0 |}]>
      (tm_tfds s)).
  { intros _. symmetry. apply insert_id. rewrite Hx, andb_true_r, !Z.add_0_r. by destruct x. }
  unfold expirations in *. destruct (t_armed x) eqn:Ear; simpl in *.
  2: { intros E. simplify_eq. split_and!; try done; by apply Hid. }
  destruct (now <? t_expire x) eqn:En; bool_prop.
  { intros E. simplify_eq. split_and!; try done; [by apply Hid|simpl; lia]. }
  destruct (t_interval x =? 0) eqn:Ei; bool_prop; simpl.
  - intros E. simplify_eq. rewrite wrap64_small by lia. unfold tfd_unlink, set_tfd; simpl.
    split_and!; [f_equal; f_equal; lia|done|done].
  - rewrite (wrap64_small (now - _)) by lia.
    assert (Hq : 0 <= (now - t_expire x) / t_interval x) by (apply Z.div_pos; lia).
    pose proof (Z.mul_div_le (now - t_expire x) (t_interval x) ltac:(lia)) as Hle.
    pose proof (Z.mul_succ_div_gt (now - t_expire x) (t_interval x) ltac:(lia)) as Hgt.
    set (q := (now - t_expire x) / t_interval x) in *.
    assert (Hmul : t_interval x * (q + 1) = t_interval x * q + t_interval x) by lia.
    assert (Hpos : 0 <= t_interval x * q) by (apply Z.mul_nonneg_nonneg; lia).
    rewrite (wrap64_small (q + 1)) by lia. rewrite (wrap64_small (_ * t_interval x)) by lia.
    rewrite !wrap64_small by lia. intros E. simplify_eq.
    split_and!; [by rewrite (proj2 (Z.eqb_neq (q + 1) 0)) by lia|symmetry; apply Z.ltb_lt; lia|lia].
Qed.

Lemma expirations_nonneg x now : 0 <= t_interval x -> 0 <= expirations x now.
Proof.
  intros Hi. unfold expirations. destruct (_ || _) eqn:E; [lia|]. bool_prop.
  destruct (_ =? 0) eqn:Ei; bool_prop; [lia|].
  assert (0 <= (now - t_expire x) / t_interval x) by (apply Z.div_pos; lia). lia.
Qed.

(** An update at [now] adds exactly the expirations that happened ([expire], [expire +
    interval], ... up to [now]; one for a one-shot timer) to the ticks, moves a periodic timer
    to its first expiration after [now], disarms a one-shot timer, and tells whether anything
    expired; no other timer changes. *)
Lemma timerfd_update_counts s t now x fired s' :
  timers_ok s -> tm_tfds s !! t = Some x -> tfd_fits x now -> tfd_update s t now = (fired, s') ->
  timers_ok s' /\ tm_tfds s' = <[t := tfd_after x now]> (tm_tfds s) /\ fired = (0 <? expirations x now) /\
  (t_armed (tfd_after x now) = true -> now < t_expire (tfd_after x now)).
Proof.
  intros Hok Hx Hf E. split; [|by eapply tfd_update_spec].
  pose proof (tfd_update_ok s t now Hok) as H. by rewrite E in H.
Qed.

(** When the tick handler looks does not matter: updating at [a] and again at [b] leaves
    the timer as one update at [b] does, so no expiration is counted twice or missed. *)
Lemma timerfd_update_compose x a b :
  0 <= t_interval x -> a <= b -> tfd_after (tfd_after x a) b = tfd_after x b.
Proof.
  intros Hi Hab. unfold tfd_after, expirations. destruct (t_armed x) eqn:Ea; simpl; [|f_equal; lia].
  destruct (a <? t_expire x) eqn:E1; bool_prop; simpl.
  { rewrite !Z.add_0_r. destruct (b <? t_expire x); simpl; [f_equal; lia|].
    destruct (t_interval x =? 0); simpl; [f_equal; lia|]. by destruct (_ =? 0). }
  rewrite (proj2 (Z.ltb_ge b (t_expire x))) by lia. destruct (t_interval x =? 0) eqn:E2; bool_prop; simpl.
  { f_equal; lia. }
  set (i := t_interval x) in *. set (d := a - t_expire x).
  assert (Hq : 0 <= d / i) by (apply Z.div_pos; lia).
  rewrite orb_true_r. simpl. pose proof (Z.mul_succ_div_gt d i ltac:(lia)) as Hgt.
  pose proof (Z.mul_div_le d i ltac:(lia)) as Hle.
  destruct (b <? t_expire x + (d / i + 1) * i) eqn:E3; bool_prop; simpl.
  - assert ((b - t_expire x) / i = d / i) as ->.
    { symmetry. apply Z.div_unique with (b - t_expire x - i * (d / i)); lia. }
    rewrite orb_true_r. f_equal; lia.
  - replace (b - (t_expire x + (d / i + 1) * i)) with (b - t_expire x + - (d / i + 1) * i) by lia.
    rewrite Z.div_add by lia. rewrite !orb_true_r. f_equal; lia.
Qed.

(** ** The armed list *)

Lemma tick_walk_ok l now s w : timers_ok s -> timers_ok (tick_walk l now s w).1.
Proof.
  revert s w. induction l as [|t l IH]; intros s w Hok; simpl; [done|].
  pose proof (tfd_update_ok s t (now t) Hok) as Hu. destruct (tfd_update s t (now t)) as [f s1]. by apply IH.
Qed.

Lemma with_ticks_ok s t n : timers_ok s -> timers_ok (set_tfd s t (with_ticks (tfd_at s t) n)).
Proof. intros Hok. apply timers_ok_set; [done|]. by apply tfd_at_armed. Qed.

(** What the syscalls, the tick and the last close do to the timers. *)
Inductive timer_step : timers -> timers -> Prop :=
  | timer_new s t clock fl hooked x :
    tm_tfds s !! t = None -> timerfd_new clock fl hooked = inr x ->
    timer_step s (set_tfd s t x)
  | timer_tick s now : timer_step s (tfd_tick s now).1
  | timer_read s t size now now' i n : timer_step s (tfd_read s t size now now' i n).2
  | timer_poll s t now : timer_step s (tfd_poll s t now).2
  | timer_settime fpt now cn s t fl v : timer_step s (timerfd_settime fpt now cn s (Some t) fl v).2
  | timer_gettime fpt now s t : timer_step s (timerfd_gettime fpt now s (Some t)).2
  | timer_drop s t : timer_step s (tfd_drop s t).

Lemma settime_ok fpt now cn s t fl v : timers_ok s -> timers_ok (timerfd_settime fpt now cn s (Some t) fl v).2.
Proof.
  intros Hok. unfold timerfd_settime. destruct (negb _); [done|]. destruct (_ || _); [done|].
  pose proof Hok as [Hnd Ha]. destruct (negb _); simpl.
  - split; simpl.
    + constructor; [rewrite unlink_first_elem by done; tauto|by apply unlink_first_nodup].
    + intros u. rewrite elem_of_cons, unlink_first_elem, Ha by done. destruct (decide (u = t)) as [->|Hne].
      * rewrite lookup_insert_eq. naive_solver.
      * rewrite lookup_insert_ne by done. tauto.
  - apply timers_ok_unlink; [done| |].
    + intros y. rewrite lookup_insert_eq. by intros [= <-].
    + intros u Hu. by rewrite lookup_insert_ne by done.
Qed.

Lemma timer_step_ok s s' : timer_step s s' -> timers_ok s -> timers_ok s'.
Proof.
  intros Hs Hok. destruct Hs as [s t clock fl hk x Hn Hx| | | | | |].
  - apply timers_ok_set; [done|]. rewrite (to_armed _ Hok t), Hn. unfold timerfd_new in Hx.
    repeat case_match; simplify_eq/=. naive_solver.
  - by apply tick_walk_ok.
  - unfold tfd_read. destruct (size <? 8); [done|].
    pose proof (tfd_update_ok s t now Hok) as Hu. destruct (tfd_update s t now) as [f s1]. simpl in Hu.
    pose proof (with_ticks_ok s1 t 0 Hu) as Hw.
    destruct (negb _); [done|]. destruct (t_nonblock _); [done|]. destruct i; [done|].
    unfold tfd_ready. pose proof (tfd_update_ok _ t now' Hw) as Hv. by destruct (tfd_update _ t now').
  - unfold tfd_poll. pose proof (tfd_update_ok s t now Hok). by destruct (tfd_update s t now).
  - by apply settime_ok.
  - unfold timerfd_gettime. pose proof (tfd_update_ok s t now Hok). by destruct (tfd_update s t now).
  - apply timers_ok_unlink; [done| |].
    + intros y. by rewrite lookup_delete_eq.
    + intros u Hu. by rewrite lookup_delete_ne by done.
Qed.

(** C39. Whatever is done to timers in whatever order, [armed_list] holds exactly the armed
    timers, each once: the tick handler never misses one, never visits one twice and never
    follows a pointer to a timer that was closed. *)
Theorem timerfd_armed_list s :
  rtc timer_step {| tm_tfds := ∅; armed_list := [] |} s -> timers_ok s.
Proof.
  intros Hr. assert (H0 : timers_ok {| tm_tfds := ∅; armed_list := [] |}).
  { split; simpl; [constructor|]. intros t. rewrite lookup_empty. set_solver. }
  revert H0. induction Hr as [|x y z Hs _ IH]; [done|]. intros Hx. by apply IH, (timer_step_ok x).
Qed.

(** Converting nanoseconds to HPET counts and back never gains time and, for a counter
    whose period divides a second, loses less than a period and a nanosecond; with a period
    of at least 100,000 fs (10 GHz) nothing wraps up to 2^60 nanoseconds (36 years). *)
Lemma clock_roundtrip fpt ns :
  100000 <= fpt -> fpt * (femtosecondsPerSecond / fpt) = femtosecondsPerSecond ->
  0 <= ns < 2 ^ 60 ->
  let back := clock_counts_to_ns fpt (clock_ns_to_counts fpt ns) in
  back <= ns /\ (ns - back - 1) * femtosecondsPerNanosecond < fpt.
Proof.
  intros Hf Hp Hns back. unfold back, clock_counts_to_ns, clock_ns_to_counts.
  unfold femtosecondsPerSecond, femtosecondsPerNanosecond, NS_PER_SEC in *.
  rewrite (proj2 (Z.eqb_neq fpt 0)) by lia. set (p := 1000000000000000 / fpt) in *.
  pose proof (Z.div_mod ns 1000000000 ltac:(lia)) as Hd.
  pose proof (Z.mod_pos_bound ns 1000000000 ltac:(lia)) as Hr.
  assert (Hs : 0 <= ns / 1000000000) by (apply Z.div_pos; lia).
  set (s := ns / 1000000000) in *. set (r := ns mod 1000000000) in *.
  assert (Hp0 : 0 < p) by nia. assert (Hp1 : p <= 10000000000) by nia.
  rewrite (wrap64_small (r * 1000000)) by lia.
  pose proof (Z.mul_div_le (r * 1000000) fpt ltac:(lia)) as Hle.
  pose proof (Z.mul_succ_div_gt (r * 1000000) fpt ltac:(lia)) as Hgt.
  set (c := r * 1000000 / fpt) in *. assert (Hc0 : 0 <= c) by (apply Z.div_pos; lia).
  assert (Hcp : c < p) by nia.
  assert (Hsp : 0 <= s * p <= 1152921505 * 10000000000) by nia.
  rewrite (wrap64_small (s * p)) by lia. rewrite (wrap64_small (s * p + c)) by lia.
  rewrite (Z.div_add_l s p c), (Z.div_small c p), Z.add_0_r by lia.
  rewrite (Z.add_comm (s * p) c), Z.mod_add, (Z.mod_small c p) by lia.
  rewrite (wrap64_small (c * fpt)) by lia.
  pose proof (Z.mul_div_le (c * fpt) 1000000 ltac:(lia)) as Hbl.
  pose proof (Z.mul_succ_div_gt (c * fpt) 1000000 ltac:(lia)) as Hbg.
  set (b := c * fpt / 1000000) in *. assert (Hb0 : 0 <= b) by (apply Z.div_pos; nia).
  rewrite (wrap64_small (s * 1000000000)) by lia. rewrite wrap64_small by lia. split; lia.
Qed.

(** ** Witnesses *)

Definition demo_ev : evfd := {| ev_count := 5; ev_semaphore := false; ev_nonblock := false |}.

Lemma eventfd_conserves_witness :
  ev_ok {| ev_count := 9; ev_semaphore := false; ev_nonblock := false |} /\
  5 + 9 = 5 + ev_count {| ev_count := 9; ev_semaphore := false; ev_nonblock := false |}.
Proof.
  apply (eventfd_conserves demo_ev
    {| es_ev := {| ev_count := 9; ev_semaphore := false; ev_nonblock := false |}; es_in := 9; es_out := 5 |}).
  - unfold ev_ok, demo_ev, COUNT_MAX; simpl; lia.
  - eapply rtc_l; [eapply (ev_step_read _ 0 0 8 false false); vm_compute; reflexivity|].
    eapply rtc_l; [eapply (ev_step_write _ 0 _ 9 8 false false);
      [unfold UINT64_MAX; lia | vm_compute; reflexivity]|]. apply rtc_refl.
Defined.

Lemma eventfd_poll_sound_witness :
  flag (ev_poll demo_ev) POLLIN = true <-> (ev_read demo_ev 8 false false).1.1 = TReturn 8 (Some 5).
Proof. apply (eventfd_poll_sound demo_ev false false). unfold ev_ok, demo_ev, COUNT_MAX; simpl; lia. Defined.

Lemma eventfd_write_spins_witness : ev_write demo_ev COUNT_MAX 8 false false = (TAgain, demo_ev, false).
Proof.
  apply (eventfd_write_spins demo_ev COUNT_MAX); unfold ev_ok, demo_ev, COUNT_MAX, UINT64_MAX; simpl; lia || reflexivity.
Defined.

Definition demo_log : logged counting_heap :=
  Build_logged {| ch_live := ∅; ch_next := 4096; ch_budget := 3 |} [].

Lemma eventfd_create_double_free_witness :
  lg_freed (eventfd_create 32 200 64 (-24) 0 0 demo_log).2 = [4096; 4128; 4328; 4096] /\
  let '(fd, ev, s') := eventfd_create 32 200 64 (-24) 0 0 demo_log in
  fd = -24 /\ ev = None /\ lg_freed s' = [] ++ [4096; 4128; 4328; 4096].
Proof.
  split; [by vm_compute|].
  eapply (eventfd_create_double_free 32 200 64 (-24) 0 demo_log 4096 4128 4328); (lia || reflexivity).
Defined.

Definition demo_tfd : tfd :=
  {| t_clock := CLOCK_MONOTONIC; t_nonblock := false; t_armed := true; t_expire := 100; t_interval := 30;
     t_ticks := 0 |}.

Definition demo_timers : timers := {| tm_tfds := {[4096 := demo_tfd]}; armed_list := [4096] |}.

Lemma demo_timers_ok : timers_ok demo_timers.
Proof.
  split; simpl; [apply NoDup_singleton|]. intros t. rewrite list_elem_of_singleton. split.
  - intros ->. exists demo_tfd. by rewrite lookup_singleton_eq.
  - intros (x & Hx & _). by apply lookup_singleton_Some in Hx as [<- _].
Qed.

Lemma timerfd_update_counts_witness :
  t_ticks (tfd_after demo_tfd 165) = 3 /\ t_expire (tfd_after demo_tfd 165) = 190 /\
  timers_ok (tfd_update demo_timers 4096 165).2.
Proof.
  split; [done|]. split; [done|].
  refine (proj1 (timerfd_update_counts demo_timers 4096 165 demo_tfd _ _ demo_timers_ok _ _
    (surjective_pairing _))); [done|]. unfold tfd_fits. split_and!; by vm_compute.
Defined.

Lemma timerfd_update_compose_witness : tfd_after (tfd_after demo_tfd 120) 165 = tfd_after demo_tfd 165.
Proof. apply (timerfd_update_compose demo_tfd 120 165); simpl; lia. Defined.

Lemma timerfd_armed_list_witness :
  timers_ok (set_tfd {| tm_tfds := ∅; armed_list := [] |} 4096
    {| t_clock := 1; t_nonblock := false; t_armed := false; t_expire := 0; t_interval := 0; t_ticks := 0 |}).
Proof.
  apply (timerfd_armed_list (set_tfd {| tm_tfds := ∅; armed_list := [] |} 4096 _)).
  apply rtc_once. apply (timer_new _ 4096 1 0 true); done.
Defined.

Lemma clock_roundtrip_witness :
  clock_counts_to_ns 100000000 (clock_ns_to_counts 100000000 1234567890) = 1234567800 /\
  1234567800 <= 1234567890.
Proof.
  split; [by vm_compute|].
  refine (proj1 (clock_roundtrip 100000000 1234567890 _ _ _)); unfold femtosecondsPerSecond; done || lia.
Defined.
