(* ===== verification/Machine.v ===== *)
(** * The state the memory-management code shares

    Physical memory is a map from frame addresses to pages of 512 64-bit words.  A kernel
    pointer into the direct map is represented by the physical address it stands for
    ([paddr_to_vaddr] adds [hhdm_offset]); the [NULL] tests of the code are kept and decide
    on the virtual address.  The state also has the frame allocator of [Pmm], the
    copy-on-write reference counts of [kernel/src/mm/cow.c], the kernel region list of
    [vmm.c], the heap of [Kalloc], and the TLB maintenance the code asks for, as a trace of
    events.  The spinlocks and the big kernel lock make each operation one atomic step. *)

From S2P Require Import Prelude Pmm Kalloc.

(** [vmm_region_t], with the rest of the list as [next]. *)
Record vmm_region := { vr_base : Z; vr_pages : Z }.

(** The globals of [vmm.c]; [vmm_node_free] counts the nodes on the free list. *)
Record vmm_state := {
  vmm_regions : list vmm_region;
  vmm_base_hint : Z;
  vmm_init_done : bool;
  vmm_nodes : nat;
}.

(** The globals of [cow.c]. *)
Record cow_state := {
  cow_refs : list Z;
  cow_ref_count : Z;
  cow_ready : bool;
}.

(** TLB maintenance: [invlpg], a reload of [cr3], an inter-processor shootdown. *)
Inductive tlb_event :=
  | Invlpg (va : Z)
  | Load_cr3 (cr3 : Z)
  | Shootdown (cr3 : Z).

Record mm := {
  frames : gmap Z (list Z);
  pmm : list bitmap_entry;
  cow : cow_state;
  vmm : vmm_state;
  heap : kalloc_state;
  cur_cr3 : Z;
  kernel_page_map : Z;
  hhdm_offset : Z;
  memmap : list gbi_memmap_entry;
  tlb : list tlb_event;
}.

Definition set_frames (s : mm) (f : gmap Z (list Z)) : mm :=
  {| frames := f; pmm := pmm s; cow := cow s; vmm := vmm s; heap := heap s; cur_cr3 := cur_cr3 s;
     kernel_page_map := kernel_page_map s; hhdm_offset := hhdm_offset s; memmap := memmap s;
     tlb := tlb s |}.

Definition set_pmm (s : mm) (p : list bitmap_entry) : mm :=
  {| frames := frames s; pmm := p; cow := cow s; vmm := vmm s; heap := heap s; cur_cr3 := cur_cr3 s;
     kernel_page_map := kernel_page_map s; hhdm_offset := hhdm_offset s; memmap := memmap s;
     tlb := tlb s |}.

Definition set_cow (s : mm) (c : cow_state) : mm :=
  {| frames := frames s; pmm := pmm s; cow := c; vmm := vmm s; heap := heap s; cur_cr3 := cur_cr3 s;
     kernel_page_map := kernel_page_map s; hhdm_offset := hhdm_offset s; memmap := memmap s;
     tlb := tlb s |}.

Definition set_vmm (s : mm) (v : vmm_state) : mm :=
  {| frames := frames s; pmm := pmm s; cow := cow s; vmm := v; heap := heap s; cur_cr3 := cur_cr3 s;
     kernel_page_map := kernel_page_map s; hhdm_offset := hhdm_offset s; memmap := memmap s;
     tlb := tlb s |}.

Definition set_heap (s : mm) (h : kalloc_state) : mm :=
  {| frames := frames s; pmm := pmm s; cow := cow s; vmm := vmm s; heap := h; cur_cr3 := cur_cr3 s;
     kernel_page_map := kernel_page_map s; hhdm_offset := hhdm_offset s; memmap := memmap s;
     tlb := tlb s |}.

Definition tlb_do (s : mm) (e : tlb_event) : mm :=
  {| frames := frames s; pmm := pmm s; cow := cow s; vmm := vmm s; heap := heap s; cur_cr3 := cur_cr3 s;
     kernel_page_map := kernel_page_map s; hhdm_offset := hhdm_offset s; memmap := memmap s;
     tlb := tlb s ++ [e] |}.

(** ** Frames *)

Definition zero_page : list Z := replicate 512 0.

Definition page_of (s : mm) (t : Z) : list Z := default zero_page (frames s !! t).

(** [table[i]] and [table[i] = v] through the direct map. *)
Definition rd (s : mm) (t i : Z) : Z := default 0 (page_of s t !! Z.to_nat i).

Definition wr (s : mm) (t i v : Z) : mm :=
  set_frames s (<[t := <[Z.to_nat i := v]> (page_of s t)]> (frames s)).

(** [memset(page, 0, PAGE_SIZE)] and [memcpy(dst, src, PAGE_SIZE)]. *)
Definition page_clear (s : mm) (t : Z) : mm := set_frames s (<[t := zero_page]> (frames s)).

Definition page_copy (s : mm) (dst src : Z) : mm := set_frames s (<[dst := page_of s src]> (frames s)).

Definition paddr_to_vaddr (s : mm) (p : Z) : Z := p +w hhdm_offset s.

Definition vaddr_to_paddr (s : mm) (v : Z) : Z := v -w hhdm_offset s.

Definition pmm_alloc (s : mm) (n : Z) : Z * mm :=
  let '(p, r) := pmm_alloc_pages (pmm s) n in (p, set_pmm s r).

Definition pmm_try_alloc (s : mm) (n : Z) : Z * mm :=
  let '(p, r) := pmm_try_alloc_pages (pmm s) n in (p, set_pmm s r).

Definition pmm_release (s : mm) (p n : Z) : mm := set_pmm s (pmm_free_pages (pmm s) p n).

(** ** Copy-on-write reference counts *)

(** [kmalloc] and [kfree] as the rest of the kernel calls them. *)
Class KernelHeap := {
  h_kmalloc : Z -> mm -> Z * mm;
  h_kfree : Z -> mm -> mm;
}.

Definition cow_phys_to_index (phys : Z) : Z := Z.land phys (Z.lnot (PAGE_SIZE - 1)) / PAGE_SIZE.

Definition cow_init `{KernelHeap} (s : mm) : mm :=
  if cow_ready (cow s) then s
  else
    let frame_count := (get_max_paddr (memmap s) +w (PAGE_SIZE - 1)) / PAGE_SIZE in
    let bytes := frame_count *w 4 in
    let '(table, s) := h_kmalloc bytes s in
    if table =? 0 then s
    else if cow_ready (cow s) then h_kfree table s
    else set_cow s {| cow_refs := replicate (Z.to_nat frame_count) 0;
                      cow_ref_count := frame_count; cow_ready := true |}.

Definition cow_count (c : cow_state) (idx : Z) : Z := default 0 (cow_refs c !! Z.to_nat idx).

Definition cow_set (c : cow_state) (idx v : Z) : cow_state :=
  {| cow_refs := <[Z.to_nat idx := v]> (cow_refs c); cow_ref_count := cow_ref_count c;
     cow_ready := cow_ready c |}.

Definition cow_ref_page `{KernelHeap} (s : mm) (phys : Z) : mm :=
  let s := cow_init s in
  if negb (cow_ready (cow s)) then s
  else
    let idx := cow_phys_to_index phys in
    if idx <? cow_ref_count (cow s)
    then set_cow s (cow_set (cow s) idx (wrap32 (cow_count (cow s) idx + 1)))
    else s.

Definition cow_unref_page `{KernelHeap} (s : mm) (phys : Z) : Z * mm :=
  let s := cow_init s in
  if negb (cow_ready (cow s)) then (0, s)
  else
    let idx := cow_phys_to_index phys in
    if (idx <? cow_ref_count (cow s)) && (0 <? cow_count (cow s) idx)
    then
      let refs := cow_count (cow s) idx - 1 in
      (refs, set_cow s (cow_set (cow s) idx refs))
    else (0, s).

Definition cow_get_refcount `{KernelHeap} (s : mm) (phys : Z) : Z * mm :=
  let s := cow_init s in
  if negb (cow_ready (cow s)) then (0, s)
  else
    let idx := cow_phys_to_index phys in
    (if idx <? cow_ref_count (cow s) then cow_count (cow s) idx else 0, s).
