(* ===== verification/Bytes.v ===== *)
(** * The bytes of a page

    A frame of [Machine] is 512 words; [memcpy] and [memset] see its 4096 bytes, least
    significant byte of a word first. *)

From S2P Require Import Prelude Machine.

Definition word_bytes (w : Z) : list Z := (fun i => Z.land (w ≫ (8 * Z.of_nat i)) 255) <$> seq 0 8.

Definition bytes_word (bs : list Z) : Z := foldr (fun b acc => b + 256 * acc) 0 bs.

Definition page_bytes (pg : list Z) : list Z := concat (word_bytes <$> pg).

(** [n] words from [8 n] bytes. *)
Fixpoint words_of (n : nat) (bs : list Z) : list Z :=
  match n with
  | O => []
  | S n => bytes_word (take 8 bs) :: words_of n (drop 8 bs)
  end.

Definition byte_at (pg : list Z) (k : nat) : Z := default 0 (page_bytes pg !! k).

(** [memcpy(page + off, bs, length bs)]. *)
Definition page_store (pg : list Z) (off : nat) (bs : list Z) : list Z :=
  words_of (length pg) (take off (page_bytes pg) ++ bs ++ drop (off + length bs) (page_bytes pg)).

(** The bytes of a frame from [off] on, and storing some. *)
Definition frame_load (s : mm) (p : Z) (off n : nat) : list Z := take n (drop off (page_bytes (page_of s p))).

Definition frame_store (s : mm) (p : Z) (off : nat) (bs : list Z) : mm :=
  set_frames s (<[p := page_store (page_of s p) off bs]> (frames s)).

Definition is_byte (b : Z) : Prop := 0 <= b < 256.

Lemma word_bytes_ok w : length (word_bytes w) = 8%nat /\ Forall is_byte (word_bytes w).
Proof.
  split; [done|]. apply Forall_fmap, Forall_seq. intros i _. unfold is_byte, compose. change 255 with (Z.ones 8). rewrite Z.land_ones by lia. apply Z.mod_pos_bound. lia.
Qed.

Lemma page_bytes_length pg : length (page_bytes pg) = (8 * length pg)%nat.
Proof. unfold page_bytes. induction pg as [|w pg IH]; [done|]. cbn [fmap list_fmap concat]. rewrite length_app, IH. cbn [length]. rewrite (proj1 (word_bytes_ok w)). lia. Qed.

Lemma page_bytes_range pg : Forall is_byte (page_bytes pg).
Proof. unfold page_bytes. induction pg as [|w pg IH]; cbn [fmap list_fmap concat]; [constructor|]. apply Forall_app. split; [apply (proj2 (word_bytes_ok w))|done]. Qed.

Lemma bytes_word_range bs : Forall is_byte bs -> 0 <= bytes_word bs < 256 ^ Z.of_nat (length bs).
Proof.
  induction 1 as [|b bs Hb _ IH]; [done|]. cbn [bytes_word foldr length]. rewrite Nat2Z.inj_succ, Z.pow_succ_r by lia. unfold is_byte in Hb.
  fold (bytes_word bs) in *. lia.
Qed.

(** The [i]th byte of a number in base 256. *)
Lemma bytes_word_digit bs i : Forall is_byte bs -> Z.land (bytes_word bs ≫ (8 * Z.of_nat i)) 255 = default 0 (bs !! i).
Proof.
  intros Hbs. change 255 with (Z.ones 8). rewrite Z.land_ones, Z.shiftr_div_pow2 by lia. change (2 ^ 8) with 256.
  replace (2 ^ (8 * Z.of_nat i)) with (256 ^ Z.of_nat i) by (rewrite Z.pow_mul_r by lia; done).
  revert i. induction Hbs as [|b bs Hb Hbs IH]; intros i; [simpl; rewrite Z.div_0_l by (apply Z.pow_nonzero; lia); done|].
  cbn [bytes_word foldr]. fold (bytes_word bs). unfold is_byte in Hb. destruct i as [|i]; cbn [lookup list_lookup default from_option].
  - rewrite Z.pow_0_r, Z.div_1_r, Z.mul_comm, Z.mod_add by lia. by rewrite Z.mod_small.
  - rewrite Nat2Z.inj_succ, Z.pow_succ_r by lia. rewrite <- Z.div_div by (lia || apply Z.pow_pos_nonneg; lia).
    replace ((b + 256 * bytes_word bs) / 256) with (bytes_word bs) by zlia. apply IH.
Qed.

Lemma word_bytes_word bs : length bs = 8%nat -> Forall is_byte bs -> word_bytes (bytes_word bs) = bs.
Proof.
  intros Hl Hbs. apply list_eq. intros i. unfold word_bytes. rewrite list_lookup_fmap. destruct (decide (i < 8)%nat) as [Hi|Hi].
  - rewrite lookup_seq_lt by lia. cbn [fmap option_fmap option_map]. rewrite bytes_word_digit by done. rewrite Nat.add_0_l.
    destruct (lookup_lt_is_Some_2 bs i ltac:(lia)) as [b Hb]. by rewrite Hb.
  - rewrite lookup_seq_ge by lia. by rewrite lookup_ge_None_2 by lia.
Qed.

Lemma page_bytes_words n bs : length bs = (8 * n)%nat -> Forall is_byte bs -> page_bytes (words_of n bs) = bs.
Proof.
  revert bs. induction n as [|n IH]; intros bs Hl Hbs; [by destruct bs|]. unfold page_bytes in *. cbn [words_of fmap list_fmap concat].
  rewrite IH; [|rewrite length_drop; lia|by apply Forall_drop]. rewrite word_bytes_word; [apply take_drop|rewrite length_take; lia|by apply Forall_take].
Qed.

Lemma words_of_length n bs : length (words_of n bs) = n.
Proof. revert bs. induction n as [|n IH]; intros bs; [done|]. simpl. by rewrite IH. Qed.

Lemma page_store_bytes pg off bs : Forall is_byte bs -> (off + length bs <= 8 * length pg)%nat ->
  page_bytes (page_store pg off bs) = take off (page_bytes pg) ++ bs ++ drop (off + length bs) (page_bytes pg).
Proof.
  intros Hbs Hl. apply page_bytes_words.
  - rewrite !length_app, length_take, length_drop, page_bytes_length. lia.
  - apply Forall_app. split; [apply Forall_take, page_bytes_range|]. apply Forall_app. split; [done|apply Forall_drop, page_bytes_range].
Qed.

(** Storing and loading. *)
Lemma byte_at_store pg off bs k : Forall is_byte bs -> (off + length bs <= 8 * length pg)%nat ->
  byte_at (page_store pg off bs) k = if decide (off <= k < off + length bs)%nat then default 0 (bs !! (k - off)%nat) else byte_at pg k.
Proof.
  intros Hbs Hl. unfold byte_at. rewrite page_store_bytes by done. pose proof (page_bytes_length pg) as Hp.
  destruct (decide (off <= k < off + length bs)%nat) as [Hk|Hk].
  - rewrite lookup_app_r by (rewrite length_take; lia). rewrite length_take, Nat.min_l by lia. by rewrite lookup_app_l by lia.
  - destruct (decide (k < off)%nat).
    + rewrite lookup_app_l by (rewrite length_take; lia). by rewrite lookup_take_lt by lia.
    + rewrite lookup_app_r by (rewrite length_take; lia). rewrite length_take, Nat.min_l by lia. rewrite lookup_app_r by lia. rewrite lookup_drop. f_equal. f_equal. lia.
Qed.

Lemma page_store_length pg off bs : length (page_store pg off bs) = length pg.
Proof. apply words_of_length. Qed.

Lemma page_of_store s p off bs q : page_of (frame_store s p off bs) q = if decide (p = q) then page_store (page_of s p) off bs else page_of s q.
Proof. unfold page_of, frame_store. simpl. case_decide as E; [subst; by rewrite lookup_insert_eq|by rewrite lookup_insert_ne]. Qed.

Lemma byte_at_zero k : byte_at zero_page k = 0.
Proof.
  unfold byte_at. destruct (page_bytes zero_page !! k) as [b|] eqn:E; [|done].
  assert (Hz : page_bytes zero_page = replicate 4096 0) by (vm_compute; reflexivity). rewrite Hz in E. by apply lookup_replicate in E as [-> _].
Qed.
