(* ===== verification/Paging.v ===== *)
(** * Page tables, [kernel/src/mm/paging.c]

    The four-level tables of an address space live in frames of [Machine.mm]; a table is
    named by the physical address of its frame.  A pointer to a page table entry is the pair
    of a table and an index, [None] standing for [NULL].  TLB maintenance is recorded as
    events, log lines are dropped. *)

From S2P Require Import Prelude Pmm Kalloc Machine.

Definition PTE_PRESENT : Z := 1 ≪ 0.

Definition PTE_WRITABLE : Z := 1 ≪ 1.

Definition PTE_USER : Z := 1 ≪ 2.

Definition PTE_PWT : Z := 1 ≪ 3.

Definition PTE_PCD : Z := 1 ≪ 4.

Definition PTE_ACCESSED : Z := 1 ≪ 5.

Definition PTE_DIRTY : Z := 1 ≪ 6.

Definition PTE_PAT_4K : Z := 1 ≪ 7.

Definition PTE_GLOBAL : Z := 1 ≪ 8.

Definition PTE_COW : Z := 1 ≪ 9.

Definition PTE_NOFREE : Z := 1 ≪ 10.

Definition PTE_SHARED : Z := 1 ≪ 11.

Definition PTE_PROTNONE : Z := 1 ≪ 52.

Definition PTE_NX : Z := 1 ≪ 63.

Definition PADDR_ENTRY_MASK : Z := 0x000FFFFFFFFFF000.

(** The end of the user half. *)
Definition USER_END : Z := 0x0000800000000000.

Definition USER_STACK_TOP : Z := 0x00007ffffffff000.

Definition USER_STACK_SIZE : Z := 8 * 1024 * 1024.

(** [x & ~m] on 64-bit words. *)
Definition clear_bits (x m : Z) : Z := Z.land x (Z.lnot m).

Definition masked (e : Z) : Z := Z.land e PADDR_ENTRY_MASK.

Definition or3 (a b c : Z) : Z := Z.lor (Z.lor a b) c.

Definition pt_index (va shift : Z) : Z := Z.land (va ≫ shift) 0x1FF.

(** The fields of a task the memory code reads. *)
Inductive task_privil := P_KERNEL | P_USER.

Record task := {
  page_map : Z;
  task_privilege : task_privil;
}.

(** The frame and its virtual address, both 0 when memory is out. *)
Definition paging_alloc_empty_frame (s : mm) : (Z * Z) * mm :=
  let '(paddr, s) := pmm_alloc s 1 in
  if paddr =? 0 then ((0, 0), s)
  else ((paddr, paddr_to_vaddr s paddr), page_clear s paddr).

Definition paging_write_table_entry (s : mm) (table index flags : Z) : Z * mm :=
  let entry := rd s table index in
  if flag entry PTE_PRESENT
  then if flag entry PTE_PAT_4K then (0, s) else (masked entry, s)
  else
    let '((p, v), s) := paging_alloc_empty_frame s in
    if v =? 0 then (0, s)
    else (masked p, wr s table index (or3 (masked p) flags PTE_PRESENT)).

Definition paging_walk_page_tables (s : mm) (cr3 vaddr flags : Z) : option (Z * Z) * mm :=
  if masked cr3 =? 0 then (None, s)
  else if paddr_to_vaddr s (masked cr3) =? 0 then (None, s)
  else
    let pml4 := masked cr3 in
    let tflags := or3 PTE_PRESENT PTE_WRITABLE (Z.land flags PTE_USER) in
    let '(p_pdpt, s) := paging_write_table_entry s pml4 (pt_index vaddr 39) tflags in
    if p_pdpt =? 0 then (None, s)
    else
      let '(p_pd, s) := paging_write_table_entry s p_pdpt (pt_index vaddr 30) tflags in
      if p_pd =? 0 then (None, s)
      else if negb (flag flags PTE_PAT_4K)
      then
        let '(p_pt, s) := paging_write_table_entry s p_pd (pt_index vaddr 21) tflags in
        if p_pt =? 0 then (None, s) else (Some (p_pt, pt_index vaddr 12), s)
      else (Some (p_pd, pt_index vaddr 21), s).

Definition paging_map_page_invl (s : mm) (cr3 paddr vaddr flags : Z) (invalidate_tlb : bool) : mm :=
  let '(pd, s) := paging_walk_page_tables s cr3 vaddr (Z.land flags (Z.lor PTE_USER PTE_PAT_4K)) in
  match pd with
  | None => s
  | Some (pd, idx) =>
    let old_entry := rd s pd idx in
    let s := wr s pd idx (or3 (masked paddr) flags PTE_PRESENT) in
    if invalidate_tlb && flag old_entry PTE_PRESENT
    then
      let s := tlb_do s (Invlpg vaddr) in
      if vaddr <? USER_END then tlb_do s (Shootdown cr3) else s
    else s
  end.

(** The inner loop of [paging_map_range]: entries [idx ..] of one table. *)
Fixpoint map_range_table (n : nat) (s : mm) (pt idx paddr flags : Z) : mm :=
  match n with
  | O => s
  | S n' =>
    map_range_table n' (wr s pt idx (or3 (masked paddr) flags PTE_PRESENT))
      pt (idx + 1) (paddr +w PAGE_SIZE) flags
  end.

(** [fuel] bounds the tables walked: every turn maps at least one page. *)
Fixpoint map_range_loop (fuel : nat) (s : mm) (cr3 paddr vaddr count flags : Z) : Z * mm :=
  match fuel with
  | O => (0, s)
  | S fuel' =>
    if count <=? 0 then (0, s)
    else
      let '(pt, s) := paging_walk_page_tables s cr3 vaddr (Z.land flags PTE_USER) in
      match pt with
      | None => (-1, s)
      | Some (pt, idx) =>
        let n := Z.min (512 - idx) count in
        let s := map_range_table (Z.to_nat n) s pt idx paddr flags in
        map_range_loop fuel' s cr3 (paddr +w n * PAGE_SIZE) (vaddr +w n * PAGE_SIZE) (count - n) flags
      end
  end.

Definition paging_map_range (s : mm) (cr3 paddr vaddr count flags : Z) : Z * mm :=
  map_range_loop (S (Z.to_nat count)) s cr3 paddr vaddr count flags.

Definition paging_map_page (s : mm) (cr3 paddr vaddr flags : Z) : mm :=
  paging_map_page_invl s cr3 paddr vaddr flags true.

Definition paging_map_page_wc (s : mm) (cr3 paddr vaddr flags : Z) : mm :=
  let '(pt, s) := paging_walk_page_tables s cr3 vaddr (Z.land flags PTE_USER) in
  match pt with
  | None => s
  | Some (pt, idx) =>
    wr s pt idx
      (Z.lor (or3 (masked paddr) (clear_bits flags (or3 PTE_PAT_4K PTE_PCD PTE_PWT)) PTE_PAT_4K)
         PTE_PRESENT)
  end.

Definition paging_create_address_space (s : mm) : Z * mm :=
  let '((pml4_paddr, _), s) := paging_alloc_empty_frame s in
  if pml4_paddr =? 0 then (0, s)
  else
    (pml4_paddr,
     for_range 256 256 (fun i s => wr s pml4_paddr i (rd s (kernel_page_map s) i)) s).

(** One level down the tables; [create] fills in a missing table. *)
Definition paging_next_table (s : mm) (table index : Z) (create : bool) : option Z * mm :=
  let entry := rd s table index in
  let '(entry, s) :=
    if flag entry PTE_PRESENT then (Some entry, s)
    else if negb create then (None, s)
    else
      let '((paddr, _), s) := paging_alloc_empty_frame s in
      if paddr =? 0 then (None, s)
      else
        let entry := Z.lor (or3 paddr PTE_PRESENT PTE_WRITABLE) PTE_USER in
        (Some entry, wr s table index entry) in
  match entry with
  | None => (None, s)
  | Some entry => if flag entry PTE_PAT_4K then (None, s) else (Some (masked entry), s)
  end.

(** The shifts of the loops [for (shift = 39; shift > 12; shift -= 9)]. *)
Definition table_shifts : list Z := [39; 30; 21].

Definition paging_get_table (s : mm) (cr3 vaddr : Z) : option Z :=
  if masked cr3 =? 0 then None
  else foldl (fun table shift =>
         match table with
         | None => None
         | Some t => (paging_next_table s t (pt_index vaddr shift) false).1
         end) (Some (masked cr3)) table_shifts.

(** [paging_get_page(cr3, vaddr, 0)]: the entry, when everything on the way is present. *)
Definition paging_get_page (s : mm) (cr3 vaddr : Z) : option (Z * Z) :=
  if masked cr3 =? 0 then None
  else
    let table := foldl (fun table shift =>
      match table with
      | None => None
      | Some t =>
        let entry := rd s t (pt_index vaddr shift) in
        if Z.land entry (Z.lor PTE_PRESENT PTE_PAT_4K) =? PTE_PRESENT
        then Some (masked entry) else None
      end) (Some (masked cr3)) table_shifts in
    match table with
    | None => None
    | Some t =>
      let i := pt_index vaddr 12 in
      if flag (rd s t i) PTE_PRESENT then Some (t, i) else None
    end.

(** [paging_get_page(cr3, vaddr, 1)]. *)
Definition paging_get_page_create (s : mm) (cr3 vaddr : Z) : option (Z * Z) * mm :=
  if masked cr3 =? 0 then (None, s)
  else
    let '(table, s) := foldl (fun '(table, s) shift =>
      match table with
      | None => (None, s)
      | Some t => paging_next_table s t (pt_index vaddr shift) true
      end) (Some (masked cr3), s) table_shifts in
    match table with
    | None => (None, s)
    | Some t =>
      let i := pt_index vaddr 12 in
      if flag (rd s t i) PTE_PRESENT then (Some (t, i), s)
      else
        let '((paddr, _), s) := paging_alloc_empty_frame s in
        if paddr =? 0 then (None, s)
        else (Some (t, i), wr s t i (Z.lor (or3 paddr PTE_PRESENT PTE_WRITABLE) PTE_USER))
    end.

Definition paging_unmap_page (s : mm) (cr3 vaddr : Z) : mm :=
  match paging_get_page s cr3 vaddr with
  | None => s
  | Some (t, i) =>
    if negb (flag (rd s t i) PTE_PRESENT) then s
    else tlb_do (wr s t i 0) (Invlpg vaddr)
  end.

(** The loop of [paging_is_mapped] from a level on. *)
Fixpoint is_mapped_loop (s : mm) (table vaddr : Z) (shifts : list Z) : bool :=
  match shifts with
  | [] => false
  | shift :: rest =>
    let entry := rd s table (pt_index vaddr shift) in
    if negb (flag entry PTE_PRESENT) then false
    else if (shift =? 12) || flag entry PTE_PAT_4K then true
    else is_mapped_loop s (masked entry) vaddr rest
  end.

Definition paging_is_mapped (s : mm) (cr3 vaddr : Z) : bool :=
  is_mapped_loop s (masked cr3) vaddr [39; 30; 21; 12].

Definition paging_switch_address_space (s : mm) (cr3 : Z) : mm :=
  tlb_do
    {| frames := frames s; pmm := pmm s; cow := cow s; vmm := vmm s; heap := heap s; cur_cr3 := cr3;
       kernel_page_map := kernel_page_map s; hhdm_offset := hhdm_offset s; memmap := memmap s;
       tlb := tlb s |} (Load_cr3 cr3).

(** The page of [paging_map_mmio] at [p]: mapped already, mapped now, or impossible. *)
Definition map_mmio_page (s : mm) (p : Z) : bool * mm :=
  let cr3 := cur_cr3 s in
  let virt := paddr_to_vaddr s p in
  if paging_is_mapped s cr3 virt then (true, s)
  else
    let s := paging_map_page s cr3 p virt (Z.lor PTE_WRITABLE PTE_NX) in
    (paging_is_mapped s cr3 virt, s).

Fixpoint map_mmio_loop (fuel : nat) (s : mm) (p end_ : Z) : Z * mm :=
  match fuel with
  | O => (0, s)
  | S fuel' =>
    if p <? end_
    then
      let '(ok, s) := map_mmio_page s p in
      if ok then map_mmio_loop fuel' s (p +w PAGE_SIZE) end_ else (-1, s)
    else (0, s)
  end.

Definition paging_map_mmio (s : mm) (phys size : Z) : Z * mm :=
  let start := PAGE_ALIGN_DOWN phys in
  let end_ := PAGE_ALIGN_UP (phys +w size) in
  map_mmio_loop (S (Z.to_nat ((end_ - start) / PAGE_SIZE))) s start end_.

Definition paging_table_empty (s : mm) (table : Z) : bool :=
  forallb (fun i => rd s table (Z.of_nat i) =? 0) (seq 0 512).

(** Drops the table that entry [idx] of [slot] points at. *)
Definition paging_drop_table (s : mm) (slot idx vaddr : Z) (current : bool) : mm :=
  let table := masked (rd s slot idx) in
  let s := wr s slot idx 0 in
  let s := if current then tlb_do s (Invlpg vaddr) else s in
  pmm_release s table 1.

Section Heap.

Context `{KernelHeap}.

(** The loop over a page table in [paging_clone_walk]: whether the table has any entry, and
    the child's table once it was walked to. *)
Record clone_acc := {
  ca_mm : mm;
  ca_flush : bool;
  ca_used : bool;
  ca_child : option Z;
}.

(** Gives the child its entry for one present user page of the parent. *)
Definition clone_entry (s : mm) (flush : bool) (pt pti pte child_pt : Z) : bool * (mm * bool) :=
  let phys := masked pte in
  let flags := clear_bits (clear_bits pte PADDR_ENTRY_MASK) PTE_PRESENT in
  if flag pte PTE_NOFREE then (true, (wr s child_pt pti pte, flush))
  else if flag pte PTE_SHARED
  then (true, (wr (cow_ref_page s phys) child_pt pti (or3 phys flags PTE_PRESENT), flush))
  else if flag pte PTE_WRITABLE || flag pte PTE_COW
  then
    let '(s, flush) :=
      if negb (flag pte PTE_COW)
      then (cow_ref_page (wr s pt pti (Z.lor (clear_bits pte PTE_WRITABLE) PTE_COW)) phys, true)
      else (s, flush) in
    let s := cow_ref_page s phys in
    let flags := Z.lor (clear_bits flags PTE_WRITABLE) PTE_COW in
    (true, (wr s child_pt pti (or3 phys flags PTE_PRESENT), flush))
  else
    let '(child_phys, s) := pmm_alloc s 1 in
    if child_phys =? 0 then (false, (s, flush))
    else
      let s := page_copy s child_phys phys in
      (true, (wr s child_pt pti (or3 child_phys flags PTE_PRESENT), flush)).

Definition clone_pte (child_cr3 pt pt_base pti : Z) (a : clone_acc) : bool * clone_acc :=
  let s := ca_mm a in
  let pte := rd s pt pti in
  let a := {| ca_mm := s; ca_flush := ca_flush a; ca_used := ca_used a || negb (pte =? 0);
              ca_child := ca_child a |} in
  if negb (flag pte PTE_PRESENT) then (true, a)
  else if negb (flag pte (Z.lor PTE_USER PTE_PROTNONE)) then (true, a)
  else
    let '(child, s) :=
      match ca_child a with
      | Some c => (Some c, s)
      | None => let '(w, s) := paging_walk_page_tables s child_cr3 pt_base PTE_USER in (fst <$> w, s)
      end in
    match child with
    | None =>
      (false, {| ca_mm := s; ca_flush := ca_flush a; ca_used := ca_used a; ca_child := None |})
    | Some c =>
      let '(ok, (s, flush)) := clone_entry s (ca_flush a) pt pti pte c in
      (ok, {| ca_mm := s; ca_flush := flush; ca_used := ca_used a; ca_child := Some c |})
    end.

Definition clone_pd (child_cr3 : Z) (current : bool) (pd pd_base pdi : Z) (st : mm * bool)
    : bool * (mm * bool) :=
  let '(s, flush) := st in
  let entry := rd s pd pdi in
  if negb (flag entry PTE_PRESENT) then (true, (s, flush))
  else if flag entry PTE_PAT_4K then (false, (s, flush))
  else if paddr_to_vaddr s (masked entry) =? 0 then (false, (s, flush))
  else
    let pt_base := Z.lor pd_base (pdi ≪ 21) in
    let '(ok, a) := for_exit 512 0 (clone_pte child_cr3 (masked entry) pt_base)
      {| ca_mm := s; ca_flush := flush; ca_used := false; ca_child := None |} in
    let s := ca_mm a in
    if negb ok then (false, (s, ca_flush a))
    else (true, (if ca_used a then s else paging_drop_table s pd pdi pt_base current, ca_flush a)).

Definition clone_pdpt (child_cr3 : Z) (current : bool) (pdpt pdpt_base pdpti : Z) (st : mm * bool)
    : bool * (mm * bool) :=
  let '(s, flush) := st in
  let entry := rd s pdpt pdpti in
  if negb (flag entry PTE_PRESENT) then (true, (s, flush))
  else if flag entry PTE_PAT_4K then (false, (s, flush))
  else if paddr_to_vaddr s (masked entry) =? 0 then (false, (s, flush))
  else
    let pd := masked entry in
    let pd_base := Z.lor pdpt_base (pdpti ≪ 30) in
    let '(ok, (s, flush)) := for_exit 512 0 (clone_pd child_cr3 current pd pd_base) (s, flush) in
    if negb ok then (false, (s, flush))
    else (true, (if paging_table_empty s pd then paging_drop_table s pdpt pdpti pd_base current else s,
                 flush)).

Definition clone_pml4 (child_cr3 : Z) (current : bool) (pml4 pml4i : Z) (st : mm * bool)
    : bool * (mm * bool) :=
  let '(s, flush) := st in
  let entry := rd s pml4 pml4i in
  if negb (flag entry PTE_PRESENT) then (true, (s, flush))
  else if paddr_to_vaddr s (masked entry) =? 0 then (false, (s, flush))
  else
    let pdpt := masked entry in
    let '(ok, (s, flush)) := for_exit 512 0 (clone_pdpt child_cr3 current pdpt (pml4i ≪ 39)) (s, flush) in
    if negb ok then (false, (s, flush))
    else (true, (if paging_table_empty s pdpt then paging_drop_table s pml4 pml4i (pml4i ≪ 39) current
                 else s, flush)).

(** The result (0 or -1) and whether the parent lost write access to a page. *)
Definition paging_clone_walk (s : mm) (parent_cr3 child_cr3 : Z) (current : bool) : Z * (mm * bool) :=
  if (paddr_to_vaddr s (masked parent_cr3) =? 0) || (child_cr3 =? 0) then (-1, (s, false))
  else
    let '(ok, st) := for_exit 256 0 (clone_pml4 child_cr3 current (masked parent_cr3)) (s, false) in
    (if ok then 0 else -1, st).

Definition paging_clone_user_space (s : mm) (parent_cr3 child_cr3 : Z) : Z * mm :=
  let current := masked (cur_cr3 s) =? masked parent_cr3 in
  let '(r, (s, flush)) := paging_clone_walk s parent_cr3 child_cr3 current in
  let s := if flush && current then paging_switch_address_space s (cur_cr3 s) else s in
  let s := if flush then tlb_do s (Shootdown parent_cr3) else s in
  (r, s).

Definition paging_handle_cow_fault (s : mm) (t : option task) (fault_addr pf_error : Z) : Z * mm :=
  match t with
  | None => (0, s)
  | Some t =>
    if negb (Z.land pf_error 7 =? 7) then (0, s)
    else
      let page := PAGE_ALIGN_DOWN fault_addr in
      match paging_get_page s (page_map t) page with
      | None => (0, s)
      | Some (pt, i) =>
        let pte := rd s pt i in
        if negb (flag pte PTE_PRESENT) || negb (flag pte PTE_COW) then (0, s)
        else
          let old_phys := masked pte in
          let old_flags := clear_bits pte PADDR_ENTRY_MASK in
          let '(refs, s) := cow_get_refcount s old_phys in
          let '(new_phys, s) :=
            if 1 <? refs
            then
              let '(p, s) := pmm_alloc s 1 in
              if p =? 0 then (None, s) else (Some p, page_copy s p old_phys)
            else (Some old_phys, s) in
          match new_phys with
          | None => (0, s)
          | Some new_phys =>
            let new_flags := clear_bits (Z.lor old_flags PTE_WRITABLE) PTE_COW in
            let s := wr s pt i (Z.lor (masked new_phys) new_flags) in
            let '(_, s) := cow_unref_page s old_phys in
            (1, tlb_do (tlb_do s (Invlpg page)) (Shootdown (page_map t)))
          end
      end
  end.

Definition paging_fault_resolved (s : mm) (t : option task) (fault_addr pf_error : Z) : Z * mm :=
  match t with
  | None => (0, s)
  | Some t =>
    match paging_get_page s (page_map t) (PAGE_ALIGN_DOWN fault_addr) with
    | None => (0, s)
    | Some (pt, i) =>
      let pte := rd s pt i in
      if negb (flag pte PTE_PRESENT) || negb (flag pte PTE_USER) then (0, s)
      else if flag pf_error 2 && negb (flag pte PTE_WRITABLE) then (0, s)
      else if flag pf_error 0x10 && flag pte PTE_NX then (0, s)
      else (1, tlb_do s (Invlpg fault_addr))
    end
  end.

(** Whether a present entry is found by [paging_get_page(cr3, va, 0)]. *)
Definition page_present (s : mm) (cr3 va : Z) : bool :=
  match paging_get_page s cr3 va with
  | None => false
  | Some (pt, i) => flag (rd s pt i) PTE_PRESENT
  end.

Definition paging_handle_stack_fault (s : mm) (t : option task) (fault_addr : Z) : Z * mm :=
  match t with
  | None => (0, s)
  | Some t =>
    if match task_privilege t with P_USER => false | P_KERNEL => true end then (0, s)
    else if (fault_addr <? USER_STACK_TOP - USER_STACK_SIZE) || (USER_STACK_TOP <=? fault_addr)
    then (0, s)
    else
      let page := PAGE_ALIGN_DOWN fault_addr in
      if page_present s (page_map t) page then (0, s)
      else
        let '((phys, _), s) := paging_alloc_empty_frame s in
        if phys =? 0 then (0, s)
        else
          let s := paging_map_page_invl s (page_map t) phys page (Z.lor PTE_USER PTE_WRITABLE) false in
          if page_present s (page_map t) page then (1, s)
          else (0, pmm_release s phys 1)
  end.

(** The leaves of one level of tables, counted by [leaf] on the tables below. *)
Definition count_level (s : mm) (n : nat) (table : Z) (huge : bool) (leaf : Z -> Z) : Z :=
  for_range n 0 (fun i c =>
    let e := rd s table i in
    if negb (flag e PTE_PRESENT) || (huge && flag e PTE_PAT_4K) then c else c + leaf (masked e)) 0.

Definition count_pt (s : mm) (pt : Z) : Z :=
  for_range 512 0 (fun i c =>
    if flag (rd s pt i) PTE_PRESENT && negb (flag (rd s pt i) PTE_NOFREE) then c + 1 else c) 0.

Definition paging_count_user_pages (s : mm) (cr3 : Z) : Z :=
  if masked cr3 =? 0 then 0
  else count_level s 256 (masked cr3) false (fun pdpt =>
         count_level s 512 pdpt true (fun pd =>
           count_level s 512 pd true (count_pt s))).

(** The run of neighbouring frames [paging_release_user_space] has not given back yet. *)
Record run := { run_start : Z; run_pages : Z }.

Definition release_pte (pt pti : Z) (st : mm * run) : mm * run :=
  let '(s, r) := st in
  let pte := rd s pt pti in
  if negb (flag pte PTE_PRESENT) then (s, r)
  else
    let phys := masked pte in
    let s := wr s pt pti 0 in
    if flag pte PTE_NOFREE then (s, r)
    else
      let '(held, s) :=
        if flag pte (Z.lor PTE_COW PTE_SHARED)
        then let '(refs, s) := cow_unref_page s phys in (negb (refs =? 0), s)
        else (false, s) in
      if held then (s, r)
      else if negb (run_pages r =? 0) && (phys =? run_start r +w run_pages r * PAGE_SIZE)
      then (s, {| run_start := run_start r; run_pages := run_pages r + 1 |})
      else
        let s := if negb (run_pages r =? 0) then pmm_release s (run_start r) (run_pages r) else s in
        (s, {| run_start := phys; run_pages := 1 |}).

(** One table level of the release: [below] empties the table an entry points at, which is
    then freed and the entry cleared. *)
Definition release_level (huge : bool) (below : Z -> mm * run -> mm * run) (table i : Z)
    (st : mm * run) : mm * run :=
  let '(s, r) := st in
  let e := rd s table i in
  if negb (flag e PTE_PRESENT) then (s, r)
  else if huge && flag e PTE_PAT_4K then (s, r)
  else
    let t := masked e in
    if paddr_to_vaddr s t =? 0 then (s, r)
    else
      let '(s, r) := below t (s, r) in
      (wr (pmm_release s t 1) table i 0, r).

Definition release_pt (pt : Z) (st : mm * run) : mm * run := for_range 512 0 (release_pte pt) st.

Definition release_pd (pd : Z) (st : mm * run) : mm * run :=
  for_range 512 0 (release_level true release_pt pd) st.

Definition release_pdpt (pdpt : Z) (st : mm * run) : mm * run :=
  for_range 512 0 (release_level true release_pd pdpt) st.

Definition paging_release_user_space (s : mm) (cr3 : Z) : mm :=
  if paddr_to_vaddr s (masked cr3) =? 0 then s
  else
    let '(s, r) := for_range 256 0 (release_level false release_pdpt (masked cr3))
      (s, {| run_start := 0; run_pages := 0 |}) in
    if negb (run_pages r =? 0) then pmm_release s (run_start r) (run_pages r) else s.

Definition paging_destroy_address_space (s : mm) (cr3 : Z) : mm :=
  if (cr3 =? 0) || (masked cr3 =? kernel_page_map s) then s
  else pmm_release (paging_release_user_space s cr3) cr3 1.

End Heap.
