(* ===== verification/PageTables.v ===== *)
(** * The page-table invariant and what mapping a page does

    An address space is a tree of table frames.  [descend] follows a path of entry indices
    from the root; [pt_ok] says that distinct paths reach distinct frames and that no table
    is a free frame.  Under it, installing a table or writing a leaf entry changes exactly
    one path, which is what makes [paging_map_page] a map update. *)

From S2P Require Import Prelude Pmm Kalloc Machine Paging.

(** ** Reads and writes of frames *)

Definition wf_frames (s : mm) : Prop := forall t, length (page_of s t) = 512%nat.

Definition index_ok (i : Z) : Prop := 0 <= i < 512.

(** The allocator is well formed and every frame fits a page table entry and the direct map. *)
Record mm_ok (s : mm) : Prop := {
  mo_pmm : wf_pmm (pmm s);
  mo_frames : wf_frames s;
  mo_hhdm : 0 < hhdm_offset s;
  mo_range : forall e, e ∈ pmm s -> usable_end e <= 2 ^ 52 /\ usable_end e + hhdm_offset s <= 2 ^ 64;
}.

Lemma page_of_wr s t i v t' :
  page_of (wr s t i v) t' = if decide (t = t') then <[Z.to_nat i := v]> (page_of s t) else page_of s t'.
Proof.
  unfold page_of, wr; simpl. case_decide as E.
  - subst. by rewrite lookup_insert_eq.
  - by rewrite lookup_insert_ne.
Qed.

Lemma rd_wr s t i v t' j :
  wf_frames s -> index_ok i -> index_ok j ->
  rd (wr s t i v) t' j = if decide (t = t' /\ i = j) then v else rd s t' j.
Proof.
  intros Hf Hi Hj. unfold rd. rewrite page_of_wr. unfold index_ok in *.
  destruct (decide (t = t')) as [->|Hne].
  - destruct (decide (i = j)) as [->|Hij].
    + rewrite list_lookup_insert_eq by (rewrite Hf; lia). by rewrite decide_True.
    + rewrite list_lookup_insert_ne by lia. rewrite decide_False by tauto. done.
  - rewrite decide_False by tauto. done.
Qed.

Lemma wf_frames_wr s t i v : wf_frames s -> wf_frames (wr s t i v).
Proof. intros Hf t'. rewrite page_of_wr. case_decide; [rewrite length_insert|]; apply Hf. Qed.

Lemma rd_frames s s' t i : frames s' = frames s -> rd s' t i = rd s t i.
Proof. unfold rd, page_of. by intros ->. Qed.

Lemma page_of_clear s t t' : page_of (page_clear s t) t' = if decide (t = t') then zero_page else page_of s t'.
Proof.
  unfold page_of, page_clear; simpl. case_decide as E.
  - subst. by rewrite lookup_insert_eq.
  - by rewrite lookup_insert_ne.
Qed.

Lemma rd_zero (s : mm) (t i : Z) : page_of s t = zero_page -> rd s t i = 0.
Proof.
  unfold rd, zero_page. intros ->. destruct (replicate 512 0 !! Z.to_nat i) as [z|] eqn:E; [|done].
  by apply lookup_replicate in E as [-> _].
Qed.

(** ** Entries *)

Lemma flag_present e : flag e PTE_PRESENT = Z.testbit e 0.
Proof. by apply flag_testbit. Qed.

Lemma flag_huge e : flag e PTE_PAT_4K = Z.testbit e 7.
Proof. by apply flag_testbit. Qed.

Lemma masked_lor a b : masked (Z.lor a b) = Z.lor (masked a) (masked b).
Proof. apply Z.land_lor_distr_l. Qed.

Lemma masked_masked a : masked (masked a) = masked a.
Proof. unfold masked. by rewrite <- Z.land_assoc. Qed.

Lemma masked_or3 a b c : masked (or3 a b c) = or3 (masked a) (masked b) (masked c).
Proof. unfold or3. by rewrite !masked_lor. Qed.

(** Page-aligned addresses below 2^52 pass the mask. *)
Lemma masked_aligned p : 0 <= p < 2 ^ 52 -> p `mod` PAGE_SIZE = 0 -> masked p = p.
Proof.
  intros Hp Hal. unfold masked. apply Z.bits_inj'. intros n Hn. rewrite Z.land_spec.
  replace PADDR_ENTRY_MASK with (Z.shiftl (Z.ones 40) 12) by reflexivity.
  destruct (Z.lt_ge_cases n 12) as [Hlt|Hge].
  - rewrite Z.shiftl_spec_low by done. rewrite andb_false_r.
    change PAGE_SIZE with (2 ^ 12) in Hal. apply Z.mod_divide in Hal as [k ->]; [|lia].
    symmetry. apply Z.mul_pow2_bits_low. lia.
  - rewrite Z.shiftl_spec by done. destruct (Z.lt_ge_cases n 52).
    + rewrite Z.ones_spec_low by lia. apply andb_true_r.
    + rewrite Z.ones_spec_high by lia. rewrite andb_false_r. symmetry.
      rewrite <- (Z.mod_small p (2 ^ 52)) by done. by apply Z.mod_pow2_bits_high.
Qed.

Lemma testbit_masked_low e n : 0 <= n < 12 -> Z.testbit (masked e) n = false.
Proof.
  intros Hn. unfold masked. rewrite Z.land_spec.
  replace PADDR_ENTRY_MASK with (Z.shiftl (Z.ones 40) 12) by reflexivity.
  rewrite Z.shiftl_spec_low by lia. apply andb_false_r.
Qed.

(** An entry built from an address and flags outside the address bits. *)
Lemma entry_fields a fl :
  masked fl = 0 ->
  let e := or3 (masked a) fl PTE_PRESENT in
  flag e PTE_PRESENT = true /\ masked e = masked a /\ flag e PTE_PAT_4K = flag fl PTE_PAT_4K.
Proof.
  intros Hfl e. subst e. rewrite flag_present, !flag_huge. split; [|split].
  - unfold or3. rewrite !Z.lor_spec. by rewrite orb_true_r.
  - rewrite masked_or3, Hfl, masked_masked. unfold or3. by rewrite !Z.lor_0_r.
  - unfold or3. rewrite !Z.lor_spec, testbit_masked_low by lia. by rewrite orb_false_r.
Qed.

(** The flags a missing table is installed with. *)
Definition table_flags (flags : Z) : Z := or3 PTE_PRESENT PTE_WRITABLE (Z.land flags PTE_USER).

Lemma table_flags_ok flags : masked (table_flags flags) = 0 /\ flag (table_flags flags) PTE_PAT_4K = false.
Proof.
  unfold table_flags. split.
  - rewrite masked_or3. unfold masked at 3. rewrite <- Z.land_assoc. by rewrite Z.land_0_r.
  - rewrite flag_huge. unfold or3. rewrite !Z.lor_spec, Z.land_spec. by rewrite andb_false_r.
Qed.

Lemma present_not_huge e :
  (Z.land e (Z.lor PTE_PRESENT PTE_PAT_4K) =? PTE_PRESENT) =
  flag e PTE_PRESENT && negb (flag e PTE_PAT_4K).
Proof.
  rewrite flag_present, flag_huge. change (Z.lor PTE_PRESENT PTE_PAT_4K) with 129.
  change PTE_PRESENT with 1.
  assert (Hb : forall n, 0 <= n -> Z.testbit (Z.land e 129) n =
    Z.testbit e n && ((n =? 0) || (n =? 7))).
  { intros n Hn. rewrite Z.land_spec. f_equal.
    destruct (Z.lt_ge_cases n 8).
    - assert (n = 0 \/ n = 1 \/ n = 2 \/ n = 3 \/ n = 4 \/ n = 5 \/ n = 6 \/ n = 7)
        as [->|[->|[->|[->|[->|[->|[->| ->]]]]]]] by lia; reflexivity.
    - change 129 with (129 `mod` 2 ^ 8). rewrite Z.mod_pow2_bits_high by lia.
      destruct (Z.eqb_spec n 0), (Z.eqb_spec n 7); lia || done. }
  destruct (Z.eqb_spec (Z.land e 129) 1) as [E|E].
  - pose proof (Hb 0 ltac:(lia)) as H0. pose proof (Hb 7 ltac:(lia)) as H7.
    change ((0 =? 0) || (0 =? 7)) with true in H0. change ((7 =? 0) || (7 =? 7)) with true in H7.
    rewrite E, andb_true_r in H0, H7.
    change (Z.testbit 1 0) with true in H0. change (Z.testbit 1 7) with false in H7.
    by rewrite <- H0, <- H7.
  - destruct (Z.testbit e 0) eqn:E0, (Z.testbit e 7) eqn:E7; try done.
    exfalso. apply E, Z.bits_inj'. intros n Hn. rewrite Hb by done.
    destruct (Z.eqb_spec n 0) as [->|]; [by rewrite E0|].
    destruct (Z.eqb_spec n 7) as [->|]; [by rewrite E7|].
    rewrite andb_false_r. symmetry. change 1 with (2 ^ 0). apply Z.pow2_bits_false. lia.
Qed.

(** ** Paths *)

(** The table an entry leads to, when it is present and not a huge page. *)
Definition step_table (s : mm) (t i : Z) : option Z :=
  let e := rd s t i in
  if flag e PTE_PRESENT && negb (flag e PTE_PAT_4K) then Some (masked e) else None.

Fixpoint descend (s : mm) (t : Z) (path : list Z) : option Z :=
  match path with
  | [] => Some t
  | i :: rest => match step_table s t i with Some t' => descend s t' rest | None => None end
  end.

Definition path_ok (p : list Z) : Prop := (length p <= 3)%nat /\ Forall index_ok p.

(** The tables on the way to the page of [va]. *)
Definition va_path (va : Z) : list Z := [pt_index va 39; pt_index va 30; pt_index va 21].

Record pt_ok (s : mm) (root : Z) : Prop := {
  po_inj : forall p q f, path_ok p -> path_ok q ->
    descend s root p = Some f -> descend s root q = Some f -> p = q;
  po_used : forall p f, path_ok p -> descend s root p = Some f -> ~ pmm_free (pmm s) f;
}.

(** The present entry [j] of the page table at [p]. *)
Definition leaf (s : mm) (root : Z) (p : list Z) (j : Z) : option Z :=
  match descend s root p with
  | Some t => if flag (rd s t j) PTE_PRESENT then Some (rd s t j) else None
  | None => None
  end.

(** The frame is neither free nor a table of the address space. *)
Definition data_frame (s : mm) (root f : Z) : Prop :=
  ~ pmm_free (pmm s) f /\ forall p, path_ok p -> descend s root p <> Some f.

(** Tables may be added: no table, leaf entry or data frame changes. *)
Record extends (root : Z) (s s' : mm) : Prop := {
  ex_tables : forall p f, path_ok p -> descend s root p = Some f -> descend s' root p = Some f;
  ex_leaf : forall p j, path_ok p -> length p = 3%nat -> leaf s' root p j = leaf s root p j;
  ex_data : forall f, data_frame s root f -> page_of s' f = page_of s f /\ data_frame s' root f;
  ex_free : forall f, pmm_free (pmm s') f -> pmm_free (pmm s) f;
  ex_env : cow s' = cow s /\ kernel_page_map s' = kernel_page_map s /\ hhdm_offset s' = hhdm_offset s /\
           tlb s' = tlb s /\ cur_cr3 s' = cur_cr3 s /\ memmap s' = memmap s /\ heap s' = heap s /\
           vmm s' = vmm s;
}.

Lemma pt_index_ok va shift : index_ok (pt_index va shift).
Proof.
  unfold pt_index, index_ok. change 0x1FF with (Z.ones 9). rewrite Z.land_ones by lia.
  apply Z.mod_pos_bound. lia.
Qed.

(** Short paths of entry indices. *)
Ltac solve_path :=
  split; simpl; [lia | repeat (apply Forall_cons_2; [done|]); apply Forall_nil_2].

Lemma va_path_ok va : path_ok (va_path va) /\ length (va_path va) = 3%nat.
Proof. split; [split; [simpl; lia|]|done]. repeat constructor; apply pt_index_ok. Qed.

Lemma path_ok_snoc p i : path_ok (p ++ [i]) <-> (length p <= 2)%nat /\ Forall index_ok p /\ index_ok i.
Proof.
  unfold path_ok. rewrite length_app, Forall_app, Forall_singleton. simpl. intuition lia.
Qed.

Lemma path_ok_prefix p i : path_ok (p ++ [i]) -> path_ok p.
Proof. rewrite path_ok_snoc. unfold path_ok. intuition lia. Qed.

Lemma descend_snoc s t p i :
  descend s t (p ++ [i]) = match descend s t p with Some x => step_table s x i | None => None end.
Proof.
  revert t. induction p as [|j p IH]; intros t; simpl.
  - by destruct (step_table s t i).
  - by destruct (step_table s t j).
Qed.

Lemma step_table_frames s s' t i : page_of s' t = page_of s t -> step_table s' t i = step_table s t i.
Proof. unfold step_table, rd. by intros ->. Qed.

Lemma extends_refl root s : extends root s s.
Proof. by split; auto. Qed.

Lemma extends_trans root s1 s2 s3 : extends root s1 s2 -> extends root s2 s3 -> extends root s1 s3.
Proof.
  intros [A1 A2 A3 A4 A5] [B1 B2 B3 B4 B5]. split; auto.
  - intros. by rewrite B2, A2.
  - intros f Hf. destruct (A3 f Hf) as [E1 Hf']. destruct (B3 f Hf') as [E2 ?].
    split; [by rewrite E2, E1 | done].
  - intuition congruence.
Qed.

(** ** Taking a fresh frame *)

(** What a successful [paging_alloc_empty_frame] gives. *)
Record fresh_frame (s s' : mm) (p : Z) : Prop := {
  ff_was_free : pmm_free (pmm s) p;
  ff_free : forall q, pmm_free (pmm s') q <-> pmm_free (pmm s) q /\ q <> p;
  ff_range : 0 < p < 2 ^ 52;
  ff_aligned : p `mod` PAGE_SIZE = 0;
  ff_nonnull : paddr_to_vaddr s p <> 0;
  ff_total : total_free (pmm s') = total_free (pmm s) - 1;
  ff_other : forall t, t <> p -> page_of s' t = page_of s t;
  ff_env : cow s' = cow s /\ kernel_page_map s' = kernel_page_map s /\ hhdm_offset s' = hhdm_offset s /\
           tlb s' = tlb s /\ cur_cr3 s' = cur_cr3 s /\ memmap s' = memmap s /\ heap s' = heap s /\
           vmm s' = vmm s;
}.

Lemma in_range_one p q : in_range p 1 q <-> q = p.
Proof.
  split; [intros (k & Hk & ->) | intros ->; exists 0]; unfold PAGE_SIZE; [|lia].
  replace k with 0 by lia. lia.
Qed.

Lemma mm_ok_set_pmm s r :
  mm_ok s -> wf_pmm r -> Forall2 same_frame (pmm s) r -> mm_ok (set_pmm s r).
Proof.
  intros [H1 H2 H3 H4] Hr Hs. split; try done. simpl. intros e He.
  assert (exists e0, e0 ∈ pmm s /\ same_frame e0 e) as (e0 & He0 & Hsame).
  { clear -Hs He. induction Hs as [|x y l l' Hxy _ IH]; [by apply not_elem_of_nil in He|].
    apply elem_of_cons in He as [->|He]; [exists x; split; [left|done]|].
    destruct (IH He) as (e0 & ? & ?). exists e0. split; [by right|done]. }
  destruct (same_frame_usable _ _ Hsame) as [_ <-]. by apply H4.
Qed.

Lemma set_pmm_id s : set_pmm s (pmm s) = s.
Proof. by destruct s. Qed.

Lemma pmm_alloc_one s p s' :
  mm_ok s -> pmm_alloc s 1 = (p, s') ->
  mm_ok s' /\ ((p = 0 /\ s' = s) \/ (fresh_frame s s' p /\ frames s' = frames s)).
Proof.
  intros Hok. unfold pmm_alloc. pose proof (pmm_try_alloc_ok (pmm s) 1 (mo_pmm _ Hok) ltac:(lia)) as H.
  unfold pmm_alloc_pages. destruct (pmm_try_alloc_pages (pmm s) 1) as [p0 r].
  intros E. simplify_eq. destruct H as (W1 & W2 & Hcase).
  split; [by apply mm_ok_set_pmm|].
  destruct Hcase as [[-> ->]|[(e & He & Hs & Hend) A2 A3 A4 A5 A6]].
  { left. by rewrite set_pmm_id. }
  right. split; [|done]. destruct (mo_range _ Hok e He) as [R1 R2]. pose proof (mo_hhdm _ Hok).
  unfold PAGE_SIZE in Hend. split; try done.
  - apply A4, in_range_one. done.
  - intros q. by rewrite A5, in_range_one.
  - lia.
  - unfold paddr_to_vaddr. rewrite wrap64_small by lia. lia.
Qed.

Lemma wf_frames_clear s t : wf_frames s -> wf_frames (page_clear s t).
Proof. intros Hf t'. rewrite page_of_clear. case_decide; [apply length_replicate | apply Hf]. Qed.

Lemma alloc_empty_frame_spec s p v s' :
  mm_ok s -> paging_alloc_empty_frame s = ((p, v), s') ->
  mm_ok s' /\ ((p = 0 /\ v = 0 /\ s' = s) \/
               (fresh_frame s s' p /\ v = paddr_to_vaddr s p /\ page_of s' p = zero_page)).
Proof.
  intros Hok. unfold paging_alloc_empty_frame.
  destruct (pmm_alloc s 1) as [p0 s0] eqn:E. apply (pmm_alloc_one _ _ _ Hok) in E as [Hok0 Hcase].
  destruct (p0 =? 0) eqn:Ez; bool_prop; intros Heq; simplify_eq.
  - split; [done|]. left. split_and!; try done.
    destruct Hcase as [[_ ?]|[[_ _ ? _ _ _ _ _] _]]; [done|lia].
  - destruct Hcase as [[? _]|[[F1 F2 F3 F4 F5 Ft F6 F7] Hfr]]; [done|].
    split.
    + destruct Hok0. split; try done. by apply wf_frames_clear.
    + right. assert (Hp : page_of (page_clear s0 p) p = zero_page)
        by (rewrite page_of_clear; by rewrite decide_True).
      split; [split; try done|split; [|done]].
      * intros t Ht. rewrite page_of_clear, decide_False by done. by apply F6.
      * unfold paddr_to_vaddr; simpl. by destruct F7 as (_ & _ & -> & _).
Qed.

(** ** Installing a table *)

Section Grow.

Context (root : Z) (s s1 : mm) (q : list Z) (i t p e : Z).
Context (Hok : mm_ok s) (Hpt : pt_ok s root) (Hq : path_ok (q ++ [i])).
Context (Ht : descend s root q = Some t) (Habs : flag (rd s t i) PTE_PRESENT = false).
Context (Hf : fresh_frame s s1 p) (Hz : page_of s1 p = zero_page) (Hok1 : mm_ok s1).
Context (He : flag e PTE_PRESENT = true /\ masked e = p /\ flag e PTE_PAT_4K = false).

Lemma grow_used x r : path_ok r -> descend s root r = Some x -> x <> p.
Proof.
  intros Hr Hx ->. apply (po_used _ _ Hpt r p Hr Hx). apply Hf.
Qed.

Lemma grow_t_ne : t <> p.
Proof. apply (grow_used t q); [by eapply path_ok_prefix | done]. Qed.

Lemma grow_step x j :
  x <> p -> index_ok j ->
  step_table (wr s1 t i e) x j = if decide (t = x /\ i = j) then Some p else step_table s x j.
Proof.
  intros Hx Hj. unfold step_table. destruct (proj1 (path_ok_snoc q i) Hq) as (_ & _ & Hi).
  rewrite rd_wr by (done || apply Hok1). destruct (decide (t = x /\ i = j)).
  - destruct He as (-> & -> & ->). done.
  - unfold rd. by rewrite (ff_other _ _ _ Hf).
Qed.

Lemma grow_step_new j : index_ok j -> step_table (wr s1 t i e) p j = None.
Proof.
  intros Hj. destruct (proj1 (path_ok_snoc q i) Hq) as (_ & _ & Hi). unfold step_table.
  pose proof grow_t_ne. rewrite rd_wr, decide_False by (done || apply Hok1 || tauto).
  by rewrite rd_zero.
Qed.

(** The new entry adds one path and changes no other. *)
Lemma grow_descend r :
  path_ok r ->
  descend (wr s1 t i e) root r =
  if decide (q ++ [i] `prefix_of` r)
  then (if decide (r = q ++ [i]) then Some p else None)
  else descend s root r.
Proof.
  induction r as [|j r IH] using rev_ind; intros Hr.
  - rewrite decide_False; [done|]. intros Hp. apply prefix_nil_inv in Hp. by destruct q.
  - pose proof (path_ok_prefix _ _ Hr) as Hr'. rewrite descend_snoc, IH by done.
    apply path_ok_snoc in Hr as (_ & _ & Hj).
    destruct (decide (q ++ [i] `prefix_of` r)) as [Hpre|Hnpre].
    { rewrite (decide_True (P := q ++ [i] `prefix_of` r ++ [j])) by (by apply prefix_app_r).
      rewrite (decide_False (P := r ++ [j] = q ++ [i])).
      - case_decide; [by apply grow_step_new|done].
      - intros E. apply prefix_length in Hpre. apply (f_equal length) in E.
        rewrite !length_app in *. simpl in *. lia. }
    rewrite descend_snoc. destruct (descend s root r) as [x|] eqn:Ex.
    + rewrite grow_step by (try done; by eapply grow_used).
      destruct (decide (t = x /\ i = j)) as [[-> ->]|Hne].
      * assert (r = q) as ->
          by (eapply (po_inj _ _ Hpt); [done|by eapply path_ok_prefix|done|done]).
        rewrite !decide_True by done. done.
      * rewrite decide_False; [done|]. intros Hpre.
        apply prefix_snoc in Hpre as [?|E]; [done|].
        apply app_inj_tail in E as [<- <-]. rewrite Ht in Ex. injection Ex as <-. tauto.
    + rewrite decide_False; [done|]. intros Hpre. apply prefix_snoc in Hpre as [?|E]; [done|].
      apply app_inj_tail in E as [<- <-]. by rewrite Ht in Ex.
Qed.

Lemma grow_mm_ok : mm_ok (wr s1 t i e).
Proof. destruct Hok1. split; try done. by apply wf_frames_wr. Qed.

Lemma grow_pt_ok : pt_ok (wr s1 t i e) root.
Proof.
  destruct Hf as [F1 F2 F3 F4 F5 Ft F6 F7].
  assert (Hsome : forall r f, path_ok r -> descend (wr s1 t i e) root r = Some f ->
    (r = q ++ [i] /\ f = p) \/ (descend s root r = Some f /\ f <> p)).
  { intros r f Hr Hd. rewrite grow_descend in Hd by done.
    destruct (decide (q ++ [i] `prefix_of` r)); [left; case_decide; [by simplify_eq|done]|right].
    split; [done|]. by eapply grow_used. }
  split.
  - intros a b f Ha Hb Hda Hdb.
    destruct (Hsome a f Ha Hda) as [[-> ->]|[Ea Na]], (Hsome b _ Hb Hdb) as [[-> ?]|[Eb Nb]]; try done.
    by eapply (po_inj _ _ Hpt).
  - intros r f Hr Hd. simpl. rewrite F2. destruct (Hsome r f Hr Hd) as [[-> ->]|[Er Nr]]; [tauto|].
    intros [Hfree _]. by eapply (po_used _ _ Hpt).
Qed.

Lemma grow_extends : extends root s (wr s1 t i e).
Proof.
  pose proof Hf as [F1 F2 F3 F4 F5 Ft F6 F7].
  assert (Hold : forall r f, path_ok r -> descend s root r = Some f ->
    descend (wr s1 t i e) root r = Some f).
  { intros r f Hr Hd. rewrite grow_descend by done. destruct (decide (q ++ [i] `prefix_of` r))
      as [[u ->]|]; [|done].
    exfalso. clear -Hd Ht Habs. rewrite <- app_assoc in Hd.
    assert (Hno : forall l x, descend s x (l ++ i :: u) = Some f -> descend s x l = Some t -> False).
    { induction l as [|a l IH]; intros x; simpl.
      - intros Hx E. simplify_eq. unfold step_table in Hx. rewrite Habs in Hx. done.
      - destruct (step_table s x a); [apply IH|done]. }
    by eapply Hno. }
  split.
  - done.
  - intros r j Hr Hlen. unfold leaf. rewrite grow_descend by done.
    destruct (decide (q ++ [i] `prefix_of` r)) as [[u Hu]|Hnp].
    + assert (Hnone : descend s root r = None).
      { destruct (descend s root r) as [x|] eqn:E; [|done]. exfalso.
        pose proof (Hold _ _ Hr E) as Hd. rewrite grow_descend in Hd by done.
        rewrite decide_True in Hd by (by exists u). case_decide; [|done]. injection Hd as <-.
        by apply (grow_used p r) in E. }
      rewrite Hnone. case_decide; [|done].
      assert (Hzero : rd (wr s1 t i e) p j = 0).
      { apply rd_zero. rewrite page_of_wr, decide_False by apply grow_t_ne. done. }
      by rewrite Hzero.
    + destruct (descend s root r) as [x|] eqn:E; [|done].
      assert (Hrd : rd (wr s1 t i e) x j = rd s x j).
      { unfold rd. rewrite page_of_wr. destruct (decide (t = x)) as [->|].
        - exfalso. assert (r = q) as ->
            by (eapply (po_inj _ _ Hpt); [done|by eapply path_ok_prefix|done|done]).
          destruct (proj1 (path_ok_snoc q i) Hq) as (? & _). lia.
        - rewrite F6; [done|]. by eapply grow_used. }
      by rewrite Hrd.
  - intros f [Hnf Hnt]. assert (f <> p) by (intros ->; by apply Hnf).
    assert (t <> f) by (intros ->; apply (Hnt q); [by eapply path_ok_prefix|done]).
    split.
    + rewrite page_of_wr, decide_False by done. by apply F6.
    + split; simpl; [rewrite F2; tauto|]. intros r Hr Hd. rewrite grow_descend in Hd by done.
      case_decide; [case_decide; by simplify_eq|]. by eapply Hnt.
  - simpl. intros f Hfree. by apply F2 in Hfree as [? _].
  - done.
Qed.

End Grow.

(** ** Walking *)

Lemma write_table_entry_spec s root q i t flags r s' :
  mm_ok s -> pt_ok s root -> path_ok (q ++ [i]) -> descend s root q = Some t ->
  paging_write_table_entry s t i (table_flags flags) = (r, s') ->
  mm_ok s' /\ pt_ok s' root /\ extends root s s' /\
  (r = 0 \/ descend s' root (q ++ [i]) = Some r).
Proof.
  intros Hok Hpt Hq Ht. unfold paging_write_table_entry.
  destruct (flag (rd s t i) PTE_PRESENT) eqn:Ep.
  - destruct (flag (rd s t i) PTE_PAT_4K) eqn:Eh; intros E; simplify_eq;
      (split; [done|split; [done|split; [apply extends_refl|]]]); [by left|right].
    rewrite descend_snoc, Ht. unfold step_table. by rewrite Ep, Eh.
  - destruct (paging_alloc_empty_frame s) as [[p v] s1] eqn:Ea.
    destruct (alloc_empty_frame_spec _ _ _ _ Hok Ea) as [Hok1 [(-> & -> & ->)|(Hf & -> & Hz)]].
    { simpl. intros E. simplify_eq. split; [done|split; [done|split; [apply extends_refl|by left]]]. }
    destruct (paddr_to_vaddr s p =? 0) eqn:Ev; bool_prop; [by apply (ff_nonnull _ _ _ Hf) in Ev|].
    intros E. injection E as <- <-.
    destruct (table_flags_ok flags) as [Tm Th].
    destruct (entry_fields p _ Tm) as (E1 & E2 & E3). rewrite Th in E3.
    pose proof (masked_aligned p ltac:(destruct Hf; lia) (ff_aligned _ _ _ Hf)) as Hm.
    rewrite Hm in *. set (e := or3 p (table_flags flags) PTE_PRESENT) in *.
    split; [by apply (grow_mm_ok s1 i t e)|].
    split; [by eapply grow_pt_ok|].
    split; [by eapply grow_extends|]. right.
    erewrite grow_descend by done. by rewrite !decide_True.
Qed.

Lemma walk_spec s cr3 va flags w s' :
  mm_ok s -> pt_ok s (masked cr3) -> flag flags PTE_PAT_4K = false ->
  paging_walk_page_tables s cr3 va flags = (w, s') ->
  mm_ok s' /\ pt_ok s' (masked cr3) /\ extends (masked cr3) s s' /\
  (w = None \/ exists pt, w = Some (pt, pt_index va 12) /\ descend s' (masked cr3) (va_path va) = Some pt).
Proof.
  intros Hok Hpt Hfl. unfold paging_walk_page_tables. set (root := masked cr3) in *.
  pose proof (extends_refl root s) as Hre.
  case_if; [intros E'; simplify_eq; split_and!; try done; by left|].
  case_if; [intros E'; simplify_eq; split_and!; try done; by left|].
  change (or3 PTE_PRESENT PTE_WRITABLE (Z.land flags PTE_USER)) with (table_flags flags).
  pose proof (pt_index_ok va 39) as I1. pose proof (pt_index_ok va 30) as I2.
  pose proof (pt_index_ok va 21) as I3.
  destruct (paging_write_table_entry s root (pt_index va 39) (table_flags flags)) as [p1 s1] eqn:E1.
  destruct (write_table_entry_spec s root [] (pt_index va 39) root flags p1 s1)
    as (O1 & T1 & X1 & D1); [done|done|solve_path|done|done|].
  destruct (p1 =? 0) eqn:Z1; bool_prop; [intros E'; simplify_eq; split_and!; try done; by left|].
  destruct D1 as [?|D1]; [done|].
  destruct (paging_write_table_entry s1 p1 (pt_index va 30) (table_flags flags)) as [p2 s2] eqn:E2.
  destruct (write_table_entry_spec s1 root [pt_index va 39] (pt_index va 30) p1 flags p2 s2)
    as (O2 & T2 & X2 & D2); [done|done|solve_path|done|done|].
  pose proof (extends_trans _ _ _ _ X1 X2) as X12.
  destruct (p2 =? 0) eqn:Z2; bool_prop; [intros E'; simplify_eq; split_and!; try done; by left|].
  destruct D2 as [?|D2]; [done|]. rewrite Hfl. simpl.
  destruct (paging_write_table_entry s2 p2 (pt_index va 21) (table_flags flags)) as [p3 s3] eqn:E3.
  destruct (write_table_entry_spec s2 root [pt_index va 39; pt_index va 30] (pt_index va 21) p2 flags p3 s3)
    as (O3 & T3 & X3 & D3); [done|done|solve_path|done|done|].
  pose proof (extends_trans _ _ _ _ X12 X3) as X.
  destruct (p3 =? 0) eqn:Z3; bool_prop; intros E'; simplify_eq; split_and!; try done; [by left|].
  destruct D3 as [?|D3]; [done|]. right. by exists p3.
Qed.

(** ** Writing a leaf *)

Lemma wr_leaf_descend s root q t i v r :
  pt_ok s root -> path_ok q -> length q = 3%nat -> descend s root q = Some t -> path_ok r ->
  descend (wr s t i v) root r = descend s root r.
Proof.
  intros Hpt Hq Hlen Ht. induction r as [|j r IH] using rev_ind; intros Hr; [done|].
  rewrite !descend_snoc, IH by (by eapply path_ok_prefix).
  destruct (descend s root r) as [x|] eqn:Ex; [|done].
  apply step_table_frames. rewrite page_of_wr, decide_False; [done|]. intros ->.
  assert (r = q) as -> by (eapply (po_inj _ _ Hpt); [by eapply path_ok_prefix|done..]).
  apply path_ok_snoc in Hr as (? & _). lia.
Qed.

(** What an update of the leaf entry [i] of the table at [q] does. *)
Lemma wr_leaf_spec s root q t i v :
  mm_ok s -> pt_ok s root -> path_ok q -> length q = 3%nat -> descend s root q = Some t -> index_ok i ->
  let s' := wr s t i v in
  mm_ok s' /\ pt_ok s' root /\
  (forall r j, path_ok r -> length r = 3%nat -> index_ok j ->
     leaf s' root r j =
       if decide (r = q /\ j = i) then (if flag v PTE_PRESENT then Some v else None)
       else leaf s root r j) /\
  (forall f, data_frame s root f -> page_of s' f = page_of s f /\ data_frame s' root f).
Proof.
  intros Hok Hpt Hq Hlen Ht Hi s'. pose proof (wr_leaf_descend s root q t i v) as Hd.
  split_and!.
  - destruct Hok. split; try done. by apply wf_frames_wr.
  - destruct Hpt as [P1 P2]. split.
    + intros a b f Ha Hb. unfold s'. rewrite !Hd by done. by apply P1.
    + intros a f Ha. unfold s'. rewrite Hd by done. by apply P2.
  - intros r j Hr Hlr Hj. unfold leaf, s'. rewrite Hd by done.
    destruct (descend s root r) as [x|] eqn:Ex.
    + rewrite rd_wr by (done || apply Hok). destruct (decide (t = x /\ i = j)) as [[-> ->]|Hne].
      * assert (r = q) as -> by (by eapply (po_inj _ _ Hpt)). by rewrite decide_True.
      * rewrite decide_False; [done|]. intros [-> ->]. rewrite Ht in Ex. simplify_eq. tauto.
    + rewrite decide_False; [done|]. intros [-> ->]. by rewrite Ht in Ex.
  - intros f [F1 F2]. split.
    + unfold s'. rewrite page_of_wr, decide_False; [done|]. intros <-. by eapply F2.
    + split; [done|]. intros r Hr. unfold s'. rewrite Hd by done. by apply F2.
Qed.

(** ** Looking a page up *)

(** The entry [paging_get_page] finds. *)
Definition pte_of (s : mm) (cr3 va : Z) : option Z :=
  match paging_get_page s cr3 va with Some (t, i) => Some (rd s t i) | None => None end.

Lemma get_page_descend s cr3 va :
  masked cr3 <> 0 ->
  paging_get_page s cr3 va =
  match descend s (masked cr3) (va_path va) with
  | Some t => if flag (rd s t (pt_index va 12)) PTE_PRESENT then Some (t, pt_index va 12) else None
  | None => None
  end.
Proof.
  intros Hr. unfold paging_get_page. rewrite (proj2 (Z.eqb_neq _ _) Hr).
  unfold table_shifts, va_path. cbn [foldl descend]. unfold step_table.
  do 3 (rewrite present_not_huge; destruct (_ && _); cbn; [|done]). done.
Qed.

Lemma pte_of_leaf s cr3 va :
  masked cr3 <> 0 -> pte_of s cr3 va = leaf s (masked cr3) (va_path va) (pt_index va 12).
Proof.
  intros Hr. unfold pte_of, leaf. rewrite get_page_descend by done.
  destruct (descend _ _ _) as [t|]; [|done]. by case_if.
Qed.

(** Two addresses are on the same page of the 48-bit address space. *)
Definition same_page (va va' : Z) : Prop :=
  va_path va = va_path va' /\ pt_index va 12 = pt_index va' 12.

#[export] Instance same_page_dec va va' : Decision (same_page va va').
Proof. unfold same_page. apply _. Defined.

(** ** States that agree on memory *)

(** Same frames, same allocator, same direct map: the page-table facts cannot tell the
    difference, so TLB events and reference counts do not disturb them. *)
Definition mem_eq (s s' : mm) : Prop :=
  frames s = frames s' /\ pmm s = pmm s' /\ hhdm_offset s = hhdm_offset s'.

#[export] Instance mem_eq_equiv : Equivalence mem_eq.
Proof. unfold mem_eq. split; intros ?; intros; intuition congruence. Qed.

#[export] Instance page_of_proper : Proper (mem_eq ==> eq ==> eq) page_of.
Proof. intros s s' (E & _) t t' <-. unfold page_of. by rewrite E. Qed.

#[export] Instance rd_proper : Proper (mem_eq ==> eq ==> eq ==> eq) rd.
Proof. intros s s' E t t' <- i i' <-. unfold rd. by rewrite E. Qed.

#[export] Instance descend_proper : Proper (mem_eq ==> eq ==> eq ==> eq) descend.
Proof.
  intros s s' E t t' <- p p' <-. revert t. induction p as [|i p IH]; intros t; simpl; [done|].
  unfold step_table. assert (rd s t i = rd s' t i) as -> by (by rewrite E).
  destruct (_ && _); [apply IH|done].
Qed.

#[export] Instance leaf_proper : Proper (mem_eq ==> eq ==> eq ==> eq ==> eq) leaf.
Proof.
  intros s s' E t t' <- p p' <- j j' <-. unfold leaf. rewrite E.
  destruct (descend s' t p); [by rewrite !E|done].
Qed.

#[export] Instance paging_get_page_proper : Proper (mem_eq ==> eq ==> eq ==> eq) paging_get_page.
Proof.
  intros s s' E c c' <- va va' <-. destruct (decide (masked c = 0)) as [Hz|Hnz].
  - unfold paging_get_page. by rewrite Hz.
  - rewrite !get_page_descend by done. rewrite E. destruct (descend s' _ _); [by rewrite !E|done].
Qed.

#[export] Instance pte_of_proper : Proper (mem_eq ==> eq ==> eq ==> eq) pte_of.
Proof.
  intros s s' E c c' <- va va' <-. unfold pte_of. rewrite E.
  destruct (paging_get_page s' c va) as [[t i]|]; [by rewrite E|done].
Qed.

#[export] Instance mm_ok_proper : Proper (mem_eq ==> iff) mm_ok.
Proof.
  assert (H : forall s s', mem_eq s s' -> mm_ok s -> mm_ok s').
  { intros s s' E [H1 H2 H3 H4]. pose proof E as (_ & Ep & Eh).
    split; rewrite <- ?Ep, <- ?Eh; try done. intros t. rewrite <- E. apply H2. }
  intros s s' E. split; apply H; [done | by symmetry].
Qed.

#[export] Instance pt_ok_proper : Proper (mem_eq ==> eq ==> iff) pt_ok.
Proof.
  assert (H : forall s s' r, mem_eq s s' -> pt_ok s r -> pt_ok s' r).
  { intros s s' r E [H1 H2]. pose proof E as (_ & Ep & _).
    split; intros *; rewrite <- ?Ep, <- !E; eauto. }
  intros s s' E r r' <-. split; apply H; [done | by symmetry].
Qed.

#[export] Instance data_frame_proper : Proper (mem_eq ==> eq ==> eq ==> iff) data_frame.
Proof.
  intros s s' E r r' <- f f' <-. unfold data_frame. pose proof E as (_ & -> & _).
  by setoid_rewrite E.
Qed.

Lemma mem_eq_tlb s e : mem_eq (tlb_do s e) s.
Proof. done. Qed.

Lemma mem_eq_cow s c : mem_eq (set_cow s c) s.
Proof. done. Qed.

#[export] Hint Resolve mem_eq_tlb mem_eq_cow : bleed.

(** ** Mapping a page *)

(** [s'] is [s] with the page of [va] mapped by entry [o], or unmapped when it is [None]. *)
Definition mapped_at (s s' : mm) (cr3 va : Z) (o : option Z) : Prop :=
  forall va', pte_of s' cr3 va' = if decide (same_page va va') then o else pte_of s cr3 va'.

(** The data frames keep their contents and stay data frames. *)
Definition data_kept (s s' : mm) (root : Z) : Prop :=
  forall f, data_frame s root f -> page_of s' f = page_of s f /\ data_frame s' root f.

#[export] Instance mapped_at_proper : Proper (mem_eq ==> mem_eq ==> eq ==> eq ==> eq ==> iff) mapped_at.
Proof.
  intros s1 s1' E1 s2 s2' E2 c c' <- va va' <- e e' <-. unfold mapped_at.
  assert (P1 : forall v, pte_of s1 c v = pte_of s1' c v) by (intros; by rewrite E1).
  assert (P2 : forall v, pte_of s2 c v = pte_of s2' c v) by (intros; by rewrite E2).
  split; intros H v; specialize (H v); rewrite P1, P2 in *; done.
Qed.

#[export] Instance data_kept_proper : Proper (mem_eq ==> mem_eq ==> eq ==> iff) data_kept.
Proof.
  intros s1 s1' E1 s2 s2' E2 r r' <-. unfold data_kept.
  assert (P1 : forall f, page_of s1 f = page_of s1' f) by (intros; by rewrite E1).
  assert (P2 : forall f, page_of s2 f = page_of s2' f) by (intros; by rewrite E2).
  assert (D1 : forall f, data_frame s1 r f <-> data_frame s1' r f) by (intros; by rewrite E1).
  assert (D2 : forall f, data_frame s2 r f <-> data_frame s2' r f) by (intros; by rewrite E2).
  split; intros H f; specialize (H f); rewrite P1, P2, D1, D2 in *; done.
Qed.

Lemma wr_leaf_mapped s cr3 va t v :
  mm_ok s -> pt_ok s (masked cr3) -> masked cr3 <> 0 ->
  descend s (masked cr3) (va_path va) = Some t ->
  let s' := wr s t (pt_index va 12) v in
  mm_ok s' /\ pt_ok s' (masked cr3) /\
  mapped_at s s' cr3 va (if flag v PTE_PRESENT then Some v else None) /\ data_kept s s' (masked cr3).
Proof.
  intros Hok Hpt Hr Hd s'.
  destruct (wr_leaf_spec s (masked cr3) (va_path va) t (pt_index va 12) v)
    as (W1 & W2 & W3 & W4); try done; try apply va_path_ok; [apply pt_index_ok|].
  split_and!; try done. intros va'. rewrite !pte_of_leaf by done.
  unfold s'. rewrite W3 by (try apply va_path_ok; apply pt_index_ok).
  destruct (decide (same_page va va')) as [[P1 P2]|N1], (decide (_ /\ _)) as [[Q1 Q2]|N2]; try done.
  - destruct N2. by rewrite P1, P2.
  - destruct N1. by split; symmetry.
Qed.

Lemma map_page_invl_spec s cr3 pa va flags inv :
  mm_ok s -> pt_ok s (masked cr3) -> masked cr3 <> 0 ->
  masked flags = 0 -> flag flags PTE_PAT_4K = false ->
  let s' := paging_map_page_invl s cr3 pa va flags inv in
  mm_ok s' /\ pt_ok s' (masked cr3) /\ data_kept s s' (masked cr3) /\
  (((paging_walk_page_tables s cr3 va (Z.land flags (Z.lor PTE_USER PTE_PAT_4K))).1 = None /\
    forall va', pte_of s' cr3 va' = pte_of s cr3 va') \/
   mapped_at s s' cr3 va (Some (or3 (masked pa) flags PTE_PRESENT))).
Proof.
  intros Hok Hpt Hr Hm Hh s'. subst s'. unfold paging_map_page_invl.
  set (wf := Z.land flags (Z.lor PTE_USER PTE_PAT_4K)).
  assert (Hwf : flag wf PTE_PAT_4K = false).
  { rewrite flag_huge in *. unfold wf. rewrite Z.land_spec, Hh. done. }
  destruct (paging_walk_page_tables s cr3 va wf) as [w s1] eqn:Ew.
  destruct (walk_spec _ _ _ _ _ _ Hok Hpt Hwf Ew) as (O1 & T1 & X1 & Hw).
  assert (Hsame : forall va', pte_of s1 cr3 va' = pte_of s cr3 va').
  { intros va'. rewrite !pte_of_leaf by done. apply (ex_leaf _ _ _ X1); apply va_path_ok. }
  destruct w as [[pt idx]|]; [|split_and!; try done; [exact (ex_data _ _ _ X1) | by left]].
  destruct Hw as [?|(pt' & E & Hd)]; [done|]. injection E as -> ->.
  set (e := or3 (masked pa) flags PTE_PRESENT).
  destruct (entry_fields pa flags Hm) as (E1 & _ & _).
  destruct (wr_leaf_mapped s1 cr3 va pt' e) as (W1 & W2 & W3 & W4); try done.
  unfold e in W3 at 2. rewrite E1 in W3.
  set (s2 := wr s1 pt' (pt_index va 12) e) in *.
  assert (H2 : mm_ok s2 /\ pt_ok s2 (masked cr3) /\ data_kept s s2 (masked cr3) /\
    mapped_at s s2 cr3 va (Some e)).
  { split_and!; try done.
    - intros f Hf. destruct (ex_data _ _ _ X1 f Hf) as [D1 D2]. destruct (W4 f D2) as [D3 D4].
      by rewrite D3, D1.
    - intros va'. by rewrite W3, Hsame. }
  assert (Hev : forall s3, mem_eq s3 s2 ->
    mm_ok s3 /\ pt_ok s3 (masked cr3) /\ data_kept s s3 (masked cr3) /\
    mapped_at s s3 cr3 va (Some e)).
  { intros s3 E. setoid_rewrite E. exact H2. }
  assert (Hev' : forall s3, mem_eq s3 s2 ->
    mm_ok s3 /\ pt_ok s3 (masked cr3) /\ data_kept s s3 (masked cr3) /\
    ((Some (pt', pt_index va 12) = None /\ forall va', pte_of s3 cr3 va' = pte_of s cr3 va') \/
     mapped_at s s3 cr3 va (Some e))) by (intros s3 E; apply Hev in E; tauto).
  repeat case_if; by apply Hev'.
Qed.

(** A mapped page is found in its table. *)
Lemma pte_of_table s cr3 va e :
  masked cr3 <> 0 -> pte_of s cr3 va = Some e ->
  exists t, paging_get_page s cr3 va = Some (t, pt_index va 12) /\ rd s t (pt_index va 12) = e /\
    descend s (masked cr3) (va_path va) = Some t /\ flag e PTE_PRESENT = true.
Proof.
  intros Hr. unfold pte_of. rewrite get_page_descend by done.
  destruct (descend s (masked cr3) (va_path va)) as [t|]; [|done].
  destruct (flag (rd s t (pt_index va 12)) PTE_PRESENT) eqn:Ep; [|done].
  intros E. simplify_eq. by exists t.
Qed.

Lemma unmap_page_spec s cr3 va :
  mm_ok s -> pt_ok s (masked cr3) -> masked cr3 <> 0 ->
  let s' := paging_unmap_page s cr3 va in
  mm_ok s' /\ pt_ok s' (masked cr3) /\ data_kept s s' (masked cr3) /\ mapped_at s s' cr3 va None /\
  (pte_of s cr3 va <> None -> tlb s' = tlb s ++ [Invlpg va]).
Proof.
  intros Hok Hpt Hr s'. subst s'. unfold paging_unmap_page.
  destruct (pte_of s cr3 va) as [e|] eqn:Ee.
  - destruct (pte_of_table s cr3 va e Hr Ee) as (t & -> & -> & Hd & ->). simpl.
    destruct (wr_leaf_mapped s cr3 va t 0) as (W1 & W2 & W3 & W4); try done.
    set (s1 := wr s t (pt_index va 12) 0) in *.
    split; [by rewrite mem_eq_tlb|]. split; [by rewrite mem_eq_tlb|].
    split; [by rewrite mem_eq_tlb|]. split; [by rewrite mem_eq_tlb|done].
  - assert (Hn : paging_get_page s cr3 va = None).
    { unfold pte_of in Ee. by destruct (paging_get_page s cr3 va) as [[??]|]. }
    rewrite Hn. split_and!; try done. intros va'. case_decide as Hs; [|done].
    rewrite pte_of_leaf in * by done. destruct Hs as [E1 E2]. by rewrite <- E1, <- E2.
Qed.

(** Same page, same entry. *)
Lemma pte_of_same_page s cr3 va va' :
  masked cr3 <> 0 -> same_page va va' -> pte_of s cr3 va = pte_of s cr3 va'.
Proof. intros Hr [E1 E2]. rewrite !pte_of_leaf by done. by rewrite E1, E2. Qed.

(** ** Progress *)

Lemma total_free_exists st : wf_pmm st -> 0 < total_free st -> exists q, pmm_free st q.
Proof.
  induction 1 as [|e l He Hd Hl IH]; unfold total_free in *; cbn [foldr]; [lia|]. intros Hpos.
  destruct (decide (0 < available_pages e)) as [Ha|Ha].
  - rewrite (we_avail _ He) in Ha. clear -Ha He.
    assert (Hex : forall n u, 0 < free_below u n -> exists i, 0 <= i < Z.of_nat n /\ u i = false).
    { induction n as [|n IH]; intros u; simpl; [lia|]. destruct (u (Z.of_nat n)) eqn:E.
      - intros H. destruct (IH u ltac:(lia)) as (i & Hi & ?). exists i. split; [lia|done].
      - intros _. exists (Z.of_nat n). split; [lia|done]. }
    destruct (Hex _ _ Ha) as (i & Hi & Hu). eexists. left. exists i. split; [|done]. split; [lia|done].
  - destruct (IH ltac:(lia)) as [q Hq]. exists q. by right.
Qed.

Lemma pmm_alloc_progress s p s' :
  mm_ok s -> 0 < total_free (pmm s) -> pmm_alloc s 1 = (p, s') -> p <> 0.
Proof.
  intros Hok Hpos. unfold pmm_alloc, pmm_alloc_pages, pmm_try_alloc_pages. simpl.
  destruct (try_alloc_regions (pmm s) 1) as [p0 r] eqn:E. intros Eq Hz. simplify_eq.
  destruct (total_free_exists _ (mo_pmm _ Hok) Hpos) as [q Hq].
  eapply (try_alloc_one_complete (pmm s)); [apply Hok | by rewrite E | done].
Qed.

(** The entries on the way are missing, or lead to a table other than frame 0. *)
Fixpoint clear_path (s : mm) (t : Z) (path : list Z) : Prop :=
  match path with
  | [] => True
  | i :: rest =>
    let e := rd s t i in
    flag e PTE_PRESENT = false \/
    (flag e PTE_PAT_4K = false /\ masked e <> 0 /\ clear_path s (masked e) rest)
  end.

Lemma clear_path_zero s t path : page_of s t = zero_page -> clear_path s t path.
Proof. intros Hz. destruct path as [|i path]; simpl; [done|]. left. by rewrite rd_zero. Qed.

Lemma write_table_entry_progress s root q i t rest flags r s' :
  mm_ok s -> pt_ok s root -> path_ok (q ++ [i]) -> descend s root q = Some t ->
  clear_path s t (i :: rest) -> 0 < total_free (pmm s) ->
  paging_write_table_entry s t i (table_flags flags) = (r, s') ->
  r <> 0 /\ clear_path s' r rest /\ total_free (pmm s) - 1 <= total_free (pmm s').
Proof.
  intros Hok Hpt Hq Ht Hcl Hpos. unfold paging_write_table_entry.
  destruct (flag (rd s t i) PTE_PRESENT) eqn:Ep.
  - destruct Hcl as [Hcl|(Hh & Hm & Hcl)]; [by rewrite Ep in Hcl|]. rewrite Hh.
    intros E. injection E as <- <-. split_and!; try done. lia.
  - destruct (paging_alloc_empty_frame s) as [[p v] s1] eqn:Ea.
    destruct (alloc_empty_frame_spec _ _ _ _ Hok Ea) as [Hok1 [(-> & -> & ->)|(Hf & -> & Hz)]].
    { unfold paging_alloc_empty_frame in Ea. destruct (pmm_alloc s 1) as [p s0] eqn:Ep'.
      apply (pmm_alloc_progress _ _ _ Hok Hpos) in Ep'. case_match; bool_prop; [done|].
      by injection Ea. }
    destruct (paddr_to_vaddr s p =? 0) eqn:Ev; bool_prop; [by apply (ff_nonnull _ _ _ Hf) in Ev|].
    intros E. injection E as <- <-.
    pose proof (masked_aligned p ltac:(destruct Hf; lia) (ff_aligned _ _ _ Hf)) as ->.
    split; [destruct Hf; lia|]. split; [|simpl; destruct Hf; lia].
    apply clear_path_zero. rewrite page_of_wr, decide_False; [done|].
    by eapply grow_t_ne.
Qed.

(** With three free frames and no huge page on the way the walk reaches a page table. *)
Lemma walk_progress s cr3 va flags :
  mm_ok s -> pt_ok s (masked cr3) -> masked cr3 <> 0 -> paddr_to_vaddr s (masked cr3) <> 0 ->
  clear_path s (masked cr3) (va_path va) -> 3 <= total_free (pmm s) -> flag flags PTE_PAT_4K = false ->
  (paging_walk_page_tables s cr3 va flags).1 <> None.
Proof.
  intros Hok Hpt Hr Hv Hcl Hfree Hfl. unfold paging_walk_page_tables. set (root := masked cr3) in *.
  rewrite (proj2 (Z.eqb_neq _ _) Hr), (proj2 (Z.eqb_neq _ _) Hv).
  change (or3 PTE_PRESENT PTE_WRITABLE (Z.land flags PTE_USER)) with (table_flags flags).
  pose proof (pt_index_ok va 39) as I1. pose proof (pt_index_ok va 30) as I2.
  pose proof (pt_index_ok va 21) as I3.
  destruct (paging_write_table_entry s root (pt_index va 39) (table_flags flags)) as [p1 s1] eqn:E1.
  destruct (write_table_entry_spec s root [] (pt_index va 39) root flags p1 s1)
    as (O1 & T1 & _ & D1); [done|done|solve_path|done|done|].
  destruct (write_table_entry_progress s root [] (pt_index va 39) root [pt_index va 30; pt_index va 21]
    flags p1 s1) as (P1 & C1 & F1); [done|done|solve_path|done|done|lia|done|].
  rewrite (proj2 (Z.eqb_neq _ _) P1). destruct D1 as [?|D1]; [done|].
  destruct (paging_write_table_entry s1 p1 (pt_index va 30) (table_flags flags)) as [p2 s2] eqn:E2.
  destruct (write_table_entry_spec s1 root [pt_index va 39] (pt_index va 30) p1 flags p2 s2)
    as (O2 & T2 & _ & D2); [done|done|solve_path|done|done|].
  destruct (write_table_entry_progress s1 root [pt_index va 39] (pt_index va 30) p1 [pt_index va 21]
    flags p2 s2) as (P2 & C2 & F2); [done|done|solve_path|done|done|lia|done|].
  rewrite (proj2 (Z.eqb_neq _ _) P2). destruct D2 as [?|D2]; [done|]. rewrite Hfl. simpl.
  destruct (paging_write_table_entry s2 p2 (pt_index va 21) (table_flags flags)) as [p3 s3] eqn:E3.
  destruct (write_table_entry_progress s2 root [pt_index va 39; pt_index va 30] (pt_index va 21) p2 []
    flags p3 s3) as (P3 & _ & _); [done|done|solve_path|done|done|lia|done|].
  by rewrite (proj2 (Z.eqb_neq _ _) P3).
Qed.
