(* ===== verification/Faults.v ===== *)
(** * Mapping, unmapping and page faults: the properties of [paging.c]

    The theorems a client of [kernel/src/mm/paging.c] relies on: mapping and unmapping are
    map updates of the address space, the copy-on-write fault gives the faulting page a
    private writable copy, and the stack fault fills a hole with a zeroed page. *)

From S2P Require Import Prelude Pmm Kalloc Machine Paging PageTables.

(** ** Reference counts *)

(** The table is allocated and as long as its count says. *)
Record cow_ok (c : cow_state) : Prop := {
  co_ready : cow_ready c = true;
  co_length : Z.of_nat (length (cow_refs c)) = cow_ref_count c;
  co_range : Forall (fun n => 0 <= n < 2 ^ 32) (cow_refs c);
}.

(** The count of a frame, 0 outside the table. *)
Definition refs_of (c : cow_state) (phys : Z) : Z :=
  if cow_phys_to_index phys <? cow_ref_count c then cow_count c (cow_phys_to_index phys) else 0.

Lemma cow_index_eq phys : cow_phys_to_index phys = phys / PAGE_SIZE.
Proof.
  unfold cow_phys_to_index. change (PAGE_SIZE - 1) with (Z.ones 12).
  rewrite <- Z.ldiff_land, Z.ldiff_ones_r by lia. change PAGE_SIZE with (2 ^ 12).
  rewrite Z.shiftr_div_pow2, Z.shiftl_mul_pow2, Z.div_mul by lia. done.
Qed.

Lemma cow_count_range c i : cow_ok c -> 0 <= cow_count c i < 2 ^ 32.
Proof.
  intros [_ _ Hr]. unfold cow_count. destruct (cow_refs c !! Z.to_nat i) eqn:E; simpl; [|lia].
  by eapply Forall_lookup_1 in E; [|done].
Qed.

Lemma cow_set_ok c i v : cow_ok c -> 0 <= v < 2 ^ 32 -> cow_ok (cow_set c i v).
Proof.
  intros [H1 H2 H3] Hv. split; simpl; [done|by rewrite length_insert|]. by apply Forall_insert.
Qed.

(** Counts after one entry of the table changed. *)
Lemma refs_of_set c phys v phys' :
  cow_ok c -> 0 <= phys -> 0 <= phys' -> cow_phys_to_index phys < cow_ref_count c ->
  refs_of (cow_set c (cow_phys_to_index phys) v) phys' =
  if decide (phys / PAGE_SIZE = phys' / PAGE_SIZE) then v else refs_of c phys'.
Proof.
  intros [H1 H2 H3] Hp Hp' Hi. unfold refs_of, cow_count; simpl. rewrite !cow_index_eq in *.
  assert (0 <= phys / PAGE_SIZE /\ 0 <= phys' / PAGE_SIZE) by (unfold PAGE_SIZE; zlia).
  case_decide as E.
  - rewrite E in *. rewrite (proj2 (Z.ltb_lt _ _) Hi). rewrite list_lookup_insert_eq by lia. done.
  - case_if; [|done]. rewrite list_lookup_insert_ne by lia. done.
Qed.

(** ** Entry flags *)

Lemma testbit_clear x m n : 0 <= n -> Z.testbit (clear_bits x m) n = Z.testbit x n && negb (Z.testbit m n).
Proof. intros Hn. unfold clear_bits. by rewrite Z.land_spec, Z.lnot_spec. Qed.

Lemma testbit_one k n : 0 <= k -> 0 <= n -> Z.testbit (1 ≪ k) n = (k =? n).
Proof. intros Hk Hn. by rewrite Z.shiftl_1_l, Z.pow2_bits_eqb. Qed.

Lemma testbit_masked e n : 0 <= n -> Z.testbit (masked e) n = Z.testbit e n && (12 <=? n) && (n <? 52).
Proof.
  intros Hn. unfold masked. rewrite Z.land_spec, <- andb_assoc. f_equal.
  replace PADDR_ENTRY_MASK with (Z.shiftl (Z.ones 40) 12) by reflexivity.
  destruct (12 <=? n) eqn:E1, (n <? 52) eqn:E2; bool_prop; simpl.
  - rewrite Z.shiftl_spec by lia. apply Z.ones_spec_low. lia.
  - rewrite Z.shiftl_spec by lia. apply Z.ones_spec_high. lia.
  - by apply Z.shiftl_spec_low.
  - by apply Z.shiftl_spec_low.
Qed.

Lemma testbit_mask n : 0 <= n -> Z.testbit PADDR_ENTRY_MASK n = (12 <=? n) && (n <? 52).
Proof.
  intros Hn. pose proof (testbit_masked (-1) n Hn) as H. unfold masked in H.
  rewrite Z.land_m1_l, Z.bits_m1 in H by done. done.
Qed.

(** The entry [paging_handle_cow_fault] writes for frame [new] over entry [e]. *)
Definition cow_entry (new e : Z) : Z :=
  Z.lor (masked new) (clear_bits (Z.lor (clear_bits e PADDR_ENTRY_MASK) PTE_WRITABLE) PTE_COW).

(** It names [new], is writable and not copy-on-write, and has every other flag of [e]. *)
Lemma cow_entry_bits new e n :
  0 <= n ->
  Z.testbit (cow_entry new e) n =
  if (12 <=? n) && (n <? 52) then Z.testbit new n
  else if n =? 1 then true else if n =? 9 then false else Z.testbit e n.
Proof.
  intros Hn. unfold cow_entry. rewrite Z.lor_spec, testbit_masked, testbit_clear, Z.lor_spec by done.
  rewrite testbit_clear, testbit_mask by done. unfold PTE_WRITABLE, PTE_COW.
  rewrite !testbit_one by lia. rewrite (Z.eqb_sym 1), (Z.eqb_sym 9).
  destruct (12 <=? n) eqn:E1, (n <? 52) eqn:E2, (n =? 1) eqn:E3, (n =? 9) eqn:E4; bool_prop;
    try lia; simpl; destruct (Z.testbit new n), (Z.testbit e n); done.
Qed.

Lemma cow_entry_masked new e : masked (cow_entry new e) = masked new.
Proof.
  apply Z.bits_inj'. intros n Hn. rewrite !testbit_masked, cow_entry_bits by done.
  destruct ((12 <=? n) && (n <? 52)) eqn:E; [done|].
  rewrite <- !andb_assoc, E. by rewrite !andb_false_r.
Qed.

Lemma cow_entry_flags new e :
  flag (cow_entry new e) PTE_WRITABLE = true /\ flag (cow_entry new e) PTE_COW = false /\
  flag (cow_entry new e) PTE_PRESENT = flag e PTE_PRESENT /\
  flag (cow_entry new e) PTE_USER = flag e PTE_USER /\
  flag (cow_entry new e) PTE_NX = flag e PTE_NX.
Proof.
  unfold PTE_WRITABLE, PTE_COW, PTE_PRESENT, PTE_USER, PTE_NX.
  rewrite !flag_testbit by lia. by rewrite !cow_entry_bits by lia.
Qed.

Section Heap.

Context `{KernelHeap}.

Lemma cow_init_ready s : cow_ready (cow s) = true -> cow_init s = s.
Proof. unfold cow_init. by intros ->. Qed.

Lemma get_refcount_spec s phys : cow_ok (cow s) -> cow_get_refcount s phys = (refs_of (cow s) phys, s).
Proof. intros [Hr _ _]. unfold cow_get_refcount. by rewrite cow_init_ready, Hr. Qed.

Lemma ref_page_spec s phys :
  cow_ok (cow s) -> 0 <= phys ->
  let s' := cow_ref_page s phys in
  cow_ok (cow s') /\ mem_eq s' s /\
  (forall q, 0 <= q -> refs_of (cow s') q =
     if decide (phys / PAGE_SIZE = q / PAGE_SIZE /\ phys / PAGE_SIZE < cow_ref_count (cow s))
     then wrap32 (refs_of (cow s) q + 1) else refs_of (cow s) q).
Proof.
  intros Hc Hp s'. subst s'. pose proof Hc as [Hr _ _]. unfold cow_ref_page.
  rewrite cow_init_ready, Hr by done. simpl. destruct (_ <? _) eqn:E; bool_prop.
  - split; [by apply cow_set_ok, wrap32_range|]. split; [done|]. intros q Hq. simpl.
    rewrite refs_of_set by done. rewrite cow_index_eq in E.
    destruct (decide (phys / PAGE_SIZE = q / PAGE_SIZE)) as [Eq|Hne].
    + rewrite decide_True by done. unfold refs_of. rewrite !cow_index_eq, <- Eq.
      by rewrite (proj2 (Z.ltb_lt _ _) E).
    + by rewrite decide_False by tauto.
  - split; [done|]. split; [done|]. intros q Hq. rewrite cow_index_eq in E.
    rewrite decide_False; [done|]. lia.
Qed.

Lemma unref_page_spec s phys r s' :
  cow_ok (cow s) -> 0 <= phys -> cow_unref_page s phys = (r, s') ->
  cow_ok (cow s') /\ mem_eq s' s /\ tlb s' = tlb s /\ r = Z.max 0 (refs_of (cow s) phys - 1) /\
  (forall q, 0 <= q -> refs_of (cow s') q =
     if decide (phys / PAGE_SIZE = q / PAGE_SIZE) then r else refs_of (cow s) q).
Proof.
  intros Hc Hp. pose proof Hc as [Hr _ _]. unfold cow_unref_page.
  rewrite cow_init_ready, Hr by done. simpl.
  pose proof (cow_count_range _ (cow_phys_to_index phys) Hc) as Hcr.
  destruct (_ <? cow_ref_count _) eqn:E; bool_prop; simpl.
  - assert (Hrefs : refs_of (cow s) phys = cow_count (cow s) (cow_phys_to_index phys))
      by (unfold refs_of; by rewrite (proj2 (Z.ltb_lt _ _) E)).
    destruct (0 <? _) eqn:E0; bool_prop; intros Eq; simplify_eq; simpl.
    + split; [apply cow_set_ok; [done|lia]|]. split; [done|]. split; [done|]. split; [lia|].
      intros q Hq. by rewrite refs_of_set.
    + split; [done|]. split; [done|]. split; [done|]. split; [lia|]. intros q Hq. case_decide as Ei; [|done].
      unfold refs_of in *. rewrite !cow_index_eq in *. rewrite <- Ei, (proj2 (Z.ltb_lt _ _) E). lia.
  - intros Eq. simplify_eq. assert (Hrefs : refs_of (cow s') phys = 0)
      by (unfold refs_of; by rewrite (proj2 (Z.ltb_ge _ _) E)).
    split; [done|]. split; [done|]. split; [done|]. split; [lia|]. intros q Hq. case_decide as Ei; [|done].
    unfold refs_of in *. rewrite !cow_index_eq in *. by rewrite <- Ei.
Qed.

(** ** Copy-on-write faults *)

(** The outcome of a copy-on-write fault on entry [e] of the page [va]. *)
Record cow_resolved (s s' : mm) (cr3 va e : Z) : Prop := {
  cr_ok : mm_ok s' /\ pt_ok s' (masked cr3) /\ cow_ok (cow s');
  cr_entry : exists new, mapped_at s s' cr3 va (Some (cow_entry new e)) /\
    page_of s' (masked new) = page_of s (masked e) /\
    (if 1 <? refs_of (cow s) (masked e)
     then pmm_free (pmm s) new /\ ~ pmm_free (pmm s') new /\ masked new = new
     else new = masked e);
  cr_data : data_kept s s' (masked cr3);
  cr_refs : forall q, 0 <= q -> refs_of (cow s') q =
    if decide (masked e / PAGE_SIZE = q / PAGE_SIZE) then Z.max 0 (refs_of (cow s) q - 1)
    else refs_of (cow s) q;
  cr_tlb : tlb s' = tlb s ++ [Invlpg va; Shootdown cr3];
}.

Lemma masked_nonneg e : 0 <= masked e.
Proof. unfold masked. apply Z.land_nonneg. right. done. Qed.

(** Descending only reads the tables on the way. *)
Lemma descend_agree s s' root r :
  (forall q f, path_ok q -> descend s root q = Some f -> page_of s' f = page_of s f) ->
  path_ok r -> descend s' root r = descend s root r.
Proof.
  intros Hag. induction r as [|i r IH] using rev_ind; intros Hr; [done|].
  pose proof (path_ok_prefix _ _ Hr) as Hr'. rewrite !descend_snoc, IH by done.
  destruct (descend s root r) as [x|] eqn:Ex; [|done]. by eapply step_table_frames, Hag.
Qed.

(** Taking a fresh frame, whatever is written to it, disturbs no address space. *)
Lemma fresh_frame_keeps s s' root p :
  pt_ok s root -> fresh_frame s s' p ->
  pt_ok s' root /\ (forall r, path_ok r -> descend s' root r = descend s root r) /\
  (forall r j, path_ok r -> leaf s' root r j = leaf s root r j) /\
  data_kept s s' root /\ data_frame s' root p.
Proof.
  intros Hpt Hf. pose proof Hf as [F1 F2 F3 F4 F5 Ft F6 F7].
  assert (Hne : forall r f, path_ok r -> descend s root r = Some f -> f <> p)
    by (intros r f Hr E ->; by eapply (po_used _ _ Hpt)).
  assert (Hd : forall r, path_ok r -> descend s' root r = descend s root r).
  { intros r. apply descend_agree. intros q f Hq E. by eapply F6, Hne. }
  split_and!; [|done| | |].
  - destruct Hpt as [P1 P2]. split.
    + intros a b f Ha Hb. rewrite !Hd by done. by apply P1.
    + intros a f Ha. rewrite Hd, F2 by done. intros E [Hfree _]. by apply (P2 a f Ha E).
  - intros r j Hr. unfold leaf. rewrite Hd by done. destruct (descend s root r) as [x|] eqn:Ex; [|done].
    unfold rd. by rewrite F6 by (by eapply Hne).
  - intros f [D1 D2]. split; [by apply F6; intros ->|]. split; [rewrite F2; tauto|].
    intros r Hr. rewrite Hd by done. by apply D2.
  - split; [rewrite F2; tauto|]. intros r Hr. rewrite Hd by done. intros E. by eapply Hne.
Qed.

(** Copying a page into the fresh frame. *)
Lemma page_copy_fresh s s1 new src :
  mm_ok s1 -> fresh_frame s s1 new -> frames s1 = frames s ->
  let s2 := page_copy s1 new src in
  mm_ok s2 /\ fresh_frame s s2 new /\ page_of s2 new = page_of s src.
Proof.
  intros [O1 O2 O3 O4] [F1 F2 F3 F4 F5 Ft F6 F7] Hfr s2.
  assert (Hnew : page_of s2 new = page_of s1 src).
  { unfold s2. unfold page_of at 1, page_copy; simpl. by rewrite lookup_insert_eq. }
  assert (Hother : forall t, t <> new -> page_of s2 t = page_of s1 t).
  { intros t Ht. unfold s2, page_of, page_copy; simpl. by rewrite lookup_insert_ne by done. }
  split_and!.
  - split; try done. intros t. destruct (decide (t = new)) as [->|Ht]; [rewrite Hnew | rewrite Hother by done];
      apply O2.
  - split; try done. intros t Ht. rewrite Hother by done. by apply F6.
  - rewrite Hnew. unfold page_of. by rewrite Hfr.
Qed.

Lemma cow_fault_resolve s cr3 va t e new s1 r s2 :
  masked cr3 <> 0 -> cow_ok (cow s) -> mm_ok s1 -> pt_ok s1 (masked cr3) ->
  cow s1 = cow s -> tlb s1 = tlb s ->
  descend s1 (masked cr3) (va_path va) = Some t -> flag e PTE_PRESENT = true ->
  (forall va', pte_of s1 cr3 va' = pte_of s cr3 va') -> data_kept s s1 (masked cr3) ->
  page_of s1 (masked new) = page_of s (masked e) ->
  data_frame s1 (masked cr3) (masked new) ->
  (if 1 <? refs_of (cow s) (masked e)
   then pmm_free (pmm s) new /\ ~ pmm_free (pmm s1) new /\ masked new = new
   else new = masked e) ->
  cow_unref_page (wr s1 t (pt_index va 12) (cow_entry new e)) (masked e) = (r, s2) ->
  cow_resolved s (tlb_do (tlb_do s2 (Invlpg va)) (Shootdown cr3)) cr3 va e.
Proof.
  intros Hr Hc Hok1 Hpt1 Hc1 Ht1 Hd He Hsame Hdk Hnew Hnd Hcase Hun.
  destruct (wr_leaf_mapped s1 cr3 va t (cow_entry new e)) as (W1 & W2 & W3 & W4); try done.
  destruct (cow_entry_flags new e) as (_ & _ & Ep & _). rewrite Ep, He in W3.
  set (s1' := wr s1 t (pt_index va 12) (cow_entry new e)) in *.
  assert (Hcs : cow s1' = cow s) by done.
  destruct (unref_page_spec s1' (masked e) r s2) as (U1 & U2 & U3 & U4 & U5);
    [by rewrite Hcs | apply masked_nonneg | done |]. rewrite Hcs in U4, U5.
  set (s3 := tlb_do _ _). assert (E3 : mem_eq s3 s1') by exact U2.
  assert (Hp3 : pmm s3 = pmm s1) by (by destruct E3 as (_ & -> & _)).
  split.
  - split; [by rewrite E3|]. split; [by rewrite E3 | done].
  - exists new. split_and!.
    + rewrite E3. intros va'. by rewrite W3, Hsame.
    + rewrite E3. destruct (W4 _ Hnd) as [-> _]. done.
    + by rewrite Hp3.
  - rewrite E3. intros f Hf. destruct (Hdk f Hf) as [D1 D2]. destruct (W4 f D2) as [D3 D4].
    by rewrite D3, D1.
  - intros q Hq. simpl. rewrite U5 by done. case_decide as Eq; [|done]. rewrite U4.
    f_equal. f_equal. unfold refs_of. by rewrite !cow_index_eq, Eq.
  - simpl. rewrite U3. unfold s1'; simpl. by rewrite Ht1, <- app_assoc.
Qed.

(** C2. A user write fault on a copy-on-write page is resolved unless the page is shared and
    memory is out.  The page then has a writable entry without the copy-on-write mark and with
    the other flags kept; a shared page (count above one) has moved to a fresh frame with the
    old contents, a page of one owner stays in its frame; the old frame's count drops by one,
    no other data frame changes, and the TLB is invalidated here and on the other processors. *)
Theorem cow_fault_private_copy s tk fa err e :
  let cr3 := page_map tk in
  let va := PAGE_ALIGN_DOWN fa in
  mm_ok s -> pt_ok s (masked cr3) -> cow_ok (cow s) -> masked cr3 <> 0 ->
  Z.land err 7 = 7 ->
  pte_of s cr3 va = Some e -> flag e PTE_COW = true -> data_frame s (masked cr3) (masked e) ->
  let '(r, s') := paging_handle_cow_fault s (Some tk) fa err in
  (r = 0 /\ s' = s /\ 1 < refs_of (cow s) (masked e) /\ total_free (pmm s) <= 0) \/
  (r = 1 /\ cow_resolved s s' cr3 va e).
Proof.
  intros cr3 va Hok Hpt Hc Hr Herr He Hcow Hdf. unfold paging_handle_cow_fault.
  rewrite Herr. fold cr3 va. simpl.
  destruct (pte_of_table s cr3 va e Hr He) as (t & -> & -> & Hd & Hp).
  rewrite Hp, Hcow. simpl. rewrite get_refcount_spec by done.
  destruct (1 <? refs_of (cow s) (masked e)) eqn:Eref.
  - destruct (pmm_alloc s 1) as [p s0] eqn:Ea.
    destruct (pmm_alloc_one _ _ _ Hok Ea) as [Hok0 [[-> ->]|[Hf Hfr]]].
    { simpl. left. bool_prop. split_and!; try done.
      destruct (Z.le_gt_cases (total_free (pmm s)) 0); [done|].
      by apply (pmm_alloc_progress s 0 s) in Ea; [|done|lia]. }
    destruct (p =? 0) eqn:Ez; bool_prop; [destruct Hf; lia|].
    destruct (page_copy_fresh s s0 p (masked e)) as (C1 & C2 & C5); try done.
    set (s1 := page_copy s0 p (masked e)) in *. pose proof C2 as [F1 F2 F3 F4 F5 Ft F6 F7].
    destruct (fresh_frame_keeps s s1 (masked cr3) p Hpt C2) as (K1 & K2 & K3 & K4 & K5).
    pose proof (masked_aligned p ltac:(lia) F4) as Hm.
    destruct (cow_unref_page _ _) as [r s2] eqn:Eu. right. split; [done|].
    eapply (cow_fault_resolve s cr3 va t e p s1 r s2); try done.
    + apply F7.
    + apply F7.
    + by rewrite K2 by apply va_path_ok.
    + intros va'. rewrite !pte_of_leaf by done. apply K3, va_path_ok.
    + by rewrite Hm.
    + by rewrite Hm.
    + rewrite (proj2 (Z.ltb_lt _ _) Eref). split_and!; try done. rewrite F2. tauto.
  - destruct (cow_unref_page _ _) as [r s2] eqn:Eu. right. split; [done|].
    eapply (cow_fault_resolve s cr3 va t e (masked e) s r s2); try done.
    + by rewrite masked_masked.
    + by rewrite masked_masked.
    + by rewrite Eref.
Qed.

(** ** Stack faults *)

Lemma page_present_pte s cr3 va : page_present s cr3 va = bool_decide (is_Some (pte_of s cr3 va)).
Proof.
  unfold page_present, pte_of. destruct (paging_get_page s cr3 va) as [[t i]|] eqn:E; [|done].
  unfold paging_get_page in E. destruct (masked cr3 =? 0); [done|]. case_match; [|done].
  destruct (flag (rd s _ _) _) eqn:Ef; [|done]. by simplify_eq.
Qed.

Lemma data_kept_trans s1 s2 s3 root : data_kept s1 s2 root -> data_kept s2 s3 root -> data_kept s1 s3 root.
Proof.
  intros H1 H2 f Hf. destruct (H1 f Hf) as [E1 D1]. destruct (H2 f D1) as [E2 D2]. by rewrite E2, E1.
Qed.

Lemma descend_frames s s' t r : frames s' = frames s -> descend s' t r = descend s t r.
Proof.
  intros Hf. revert t. induction r as [|i r IH]; intros t; simpl; [done|].
  rewrite (step_table_frames s s'); [|unfold page_of; by rewrite Hf]. by destruct (step_table s t i).
Qed.

(** Giving back a frame that is no table of the address space. *)
Lemma release_one s root p :
  mm_ok s -> pt_ok s root -> data_frame s root p -> p `mod` PAGE_SIZE = 0 ->
  let s' := pmm_release s p 1 in
  mm_ok s' /\ pt_ok s' root /\
  (forall f, data_frame s root f -> f <> p -> page_of s' f = page_of s f /\ data_frame s' root f) /\
  (forall cr3 va, pte_of s' cr3 va = pte_of s cr3 va).
Proof.
  intros Hok [P1 P2] [D1 D2] Hal s'.
  destruct (pmm_free_pages_spec (pmm s) p 1 (mo_pmm _ Hok) ltac:(lia)) as (W1 & W2 & W3).
  assert (Hfree : forall q, pmm_free (pmm s') q -> pmm_free (pmm s) q \/ q = p).
  { intros q Hq. apply W3 in Hq as [?|(e & He & Hr & Hq)]; [by left|right].
    destruct (wf_pmm_elem _ _ (mo_pmm _ Hok) He).
    apply freed_frames_range, in_range_one in Hq; [done|lia| |];
      unfold usable_end, usable_start, PAGE_SIZE in *; zlia. }
  assert (Hd' : forall r, descend s' root r = descend s root r) by (intros; by apply descend_frames).
  split_and!; [by apply mm_ok_set_pmm | | |done].
  - split; [intros a b f Ha Hb; rewrite !Hd'; by apply P1|]. intros r f Hr Hd Hq. rewrite Hd' in Hd. apply Hfree in Hq as [Hq| ->]; [by eapply P2|].
    by apply (D2 r Hr).
  - intros f [E1 E2] Hne. split; [done|]. split; [|intros r Hr; rewrite Hd'; by apply E2].
    intros Hq. by apply Hfree in Hq as [?|?].
Qed.

(** A fault on a hole of the user stack maps a fresh zeroed frame there, user-accessible
    and writable, and nothing else changes for the address space; when it cannot, every entry
    and data frame is as before. *)
Lemma stack_fault_fills s tk fa :
  let cr3 := page_map tk in
  let va := PAGE_ALIGN_DOWN fa in
  mm_ok s -> pt_ok s (masked cr3) -> masked cr3 <> 0 -> task_privilege tk = P_USER ->
  USER_STACK_TOP - USER_STACK_SIZE <= fa < USER_STACK_TOP -> pte_of s cr3 va = None ->
  let '(r, s') := paging_handle_stack_fault s (Some tk) fa in
  mm_ok s' /\ pt_ok s' (masked cr3) /\ data_kept s s' (masked cr3) /\
  ((r = 1 /\ exists new, pmm_free (pmm s) new /\ ~ pmm_free (pmm s') new /\
      page_of s' new = zero_page /\
      mapped_at s s' cr3 va (Some (or3 new (Z.lor PTE_USER PTE_WRITABLE) PTE_PRESENT))) \/
   (r = 0 /\ forall va', pte_of s' cr3 va' = pte_of s cr3 va')).
Proof.
  intros cr3 va Hok Hpt Hr Hu Hfa Hnone. unfold paging_handle_stack_fault. rewrite Hu.
  fold cr3 va. rewrite (proj2 (Z.ltb_ge _ _)), (proj2 (Z.leb_gt _ _)) by lia. cbn [orb].
  rewrite page_present_pte, Hnone.
  destruct (paging_alloc_empty_frame s) as [[p v] s1] eqn:Ea.
  destruct (alloc_empty_frame_spec _ _ _ _ Hok Ea) as [Hok1 [(-> & -> & ->)|(Hf & -> & Hz)]].
  { split_and!; try done; by right. }
  pose proof Hf as [F1 F2 F3 F4 F5 Ft F6 F7]. rewrite (proj2 (Z.eqb_neq _ _)) by lia.
  destruct (fresh_frame_keeps s s1 (masked cr3) p Hpt Hf) as (K1 & K2 & K3 & K4 & K5).
  assert (Hs1 : forall va', pte_of s1 cr3 va' = pte_of s cr3 va')
    by (intros va'; rewrite !pte_of_leaf by done; apply K3, va_path_ok).
  destruct (map_page_invl_spec s1 cr3 p va (Z.lor PTE_USER PTE_WRITABLE) false)
    as (M1 & M2 & M3 & M4); try done. rewrite (masked_aligned p) in M4 by (done || lia).
  set (s2 := paging_map_page_invl s1 cr3 p va (Z.lor PTE_USER PTE_WRITABLE) false) in *.
  destruct (M3 p K5) as [Z2 D2]. rewrite Hz in Z2.
  assert (Hk2 : data_kept s s2 (masked cr3)) by (by eapply data_kept_trans).
  rewrite page_present_pte. destruct M4 as [[_ M4]|M4].
  - rewrite M4, Hs1, Hnone. destruct (release_one s2 (masked cr3) p) as (R1 & R2 & R3 & R4); try done.
    split_and!; try done; [|right; split; [done|]; intros va'; by rewrite R4, M4, Hs1].
    intros f Hfd. destruct (Hk2 f Hfd) as [E1 E2]. rewrite <- E1. apply R3; [done|].
    intros ->. by apply Hfd.
  - rewrite (M4 va), decide_True by done. split_and!; try done. left. split; [done|]. exists p.
    split_and!; try done; [apply D2|]. intros va'. by rewrite M4, Hs1.
Qed.

(** ** New address spaces *)

Lemma alloc_empty_frame_none s v s' :
  mm_ok s -> paging_alloc_empty_frame s = ((0, v), s') -> total_free (pmm s) <= 0.
Proof.
  intros Hok. unfold paging_alloc_empty_frame. destruct (pmm_alloc s 1) as [q s2] eqn:Ep.
  destruct (Z.le_gt_cases (total_free (pmm s)) 0); [done|].
  pose proof (pmm_alloc_progress s q s2 Hok ltac:(lia) Ep) as Hq.
  rewrite (proj2 (Z.eqb_neq _ _) Hq). intros E. by injection E.
Qed.

(** Entries 256 up to [k] of [new] are the kernel's. *)
Definition half_copied (s : mm) (new k : Z) (s' : mm) : Prop :=
  wf_frames s' /\ pmm s' = pmm s /\ hhdm_offset s' = hhdm_offset s /\
  kernel_page_map s' = kernel_page_map s /\
  (forall t, t <> new -> page_of s' t = page_of s t) /\
  (forall j, index_ok j -> rd s' new j =
     if decide (256 <= j < k) then rd s (kernel_page_map s) j else rd s new j).

Lemma copy_half s new :
  wf_frames s -> new <> kernel_page_map s ->
  half_copied s new 512
    (for_range 256 256 (fun i s => wr s new i (rd s (kernel_page_map s) i)) s).
Proof.
  intros Hwf Hne. apply (for_range_inv (half_copied s new) _ 256 256 s).
  { unfold half_copied. split_and!; try done. intros j Hj. by rewrite decide_False by lia. }
  intros k s' Hk (I1 & I2 & I3 & I4 & I5 & I6). simpl in Hk. unfold half_copied. split_and!; try done.
  - by apply wf_frames_wr.
  - intros t Ht. rewrite page_of_wr, decide_False by congruence. by apply I5.
  - intros j Hj. rewrite rd_wr by (done || unfold index_ok; lia). rewrite I4.
    assert (Hk' : rd s' (kernel_page_map s) k = rd s (kernel_page_map s) k)
      by (unfold rd; by rewrite I5 by done).
    destruct (decide (k = j)) as [->|Hkj].
    + rewrite decide_True, decide_True by (done || lia). done.
    + rewrite decide_False by tauto. rewrite I6 by done.
      destruct (decide (256 <= j < k)); [rewrite decide_True by lia | rewrite decide_False by lia]; done.
Qed.

(** A present entry of the page is above or below the middle of the address space. *)
Definition user_half (va : Z) : Prop := pt_index va 39 < 256.

#[export] Instance user_half_dec va : Decision (user_half va).
Proof. unfold user_half. apply _. Defined.

(** A new address space has an empty user half and the kernel's upper half; it is made of
    one free frame, every other frame is left alone, and creation fails only when no frame is
    free. *)
Lemma create_space_shares_kernel s root s' :
  mm_ok s -> pt_ok s (kernel_page_map s) -> masked (kernel_page_map s) = kernel_page_map s ->
  kernel_page_map s <> 0 -> paging_create_address_space s = (root, s') ->
  mm_ok s' /\
  ((root = 0 /\ s' = s /\ total_free (pmm s) <= 0) \/
   (root <> 0 /\ masked root = root /\ pmm_free (pmm s) root /\ pt_ok s' root /\
    (forall q, pmm_free (pmm s') q <-> pmm_free (pmm s) q /\ q <> root) /\
    (forall t, t <> root -> page_of s' t = page_of s t) /\
    forall va, pte_of s' root va =
      if decide (user_half va) then None else pte_of s (kernel_page_map s) va)).
Proof.
  intros Hok Hpt Hkm Hk0. unfold paging_create_address_space.
  destruct (paging_alloc_empty_frame s) as [[p v] s1] eqn:Ea.
  destruct (alloc_empty_frame_spec _ _ _ _ Hok Ea) as [Hok1 [(-> & -> & ->)|(Hf & -> & Hz)]].
  { rewrite Z.eqb_refl. intros E. injection E as <- <-. split; [done|left].
    split_and!; try done. by eapply alloc_empty_frame_none. }
  pose proof Hf as [F1 F2 F3 F4 F5 Ft F6 (_ & F7 & _)]. rewrite (proj2 (Z.eqb_neq _ _)) by lia.
  assert (Hne : p <> kernel_page_map s).
  { intros ->. apply (po_used _ _ Hpt [] (kernel_page_map s)); [split; [simpl; lia|done] | done|done]. }
  pose proof (copy_half s1 p (mo_frames _ Hok1) ltac:(by rewrite F7)) as Hcopy. revert Hcopy.
  generalize (for_range 256 256 (fun i s => wr s p i (rd s (kernel_page_map s) i)) s1).
  intros s2 (C1 & C2 & C3 & C4 & C5 & C6) E. injection E as <- <-. rewrite F7 in C4, C6.
  assert (Ho2 : forall t, t <> p -> page_of s2 t = page_of s t)
    by (intros t Ht; by rewrite C5, F6 by done).
  assert (Hnp : forall r f, path_ok r -> descend s (kernel_page_map s) r = Some f -> f <> p)
    by (intros r f Hr Hd ->; by eapply (po_used _ _ Hpt)).
  set (k := kernel_page_map s) in *.
  assert (Hdk : forall r, path_ok r -> descend s2 k r = descend s k r)
    by (intros r; apply descend_agree; intros q f Hq E; by eapply Ho2, Hnp).
  assert (Hstep : forall i, index_ok i ->
    step_table s2 p i = if decide (i < 256) then None else step_table s2 k i).
  { intros i Hi. assert (Hk : rd s2 k i = rd s1 k i) by (unfold rd; by rewrite Ho2, F6 by done).
    unfold step_table. rewrite C6, Hk by done. unfold index_ok in Hi.
    destruct (decide (i < 256)); [rewrite decide_False by lia | by rewrite decide_True by lia].
    by rewrite rd_zero. }
  assert (Hd : forall i r, path_ok (i :: r) ->
    descend s2 p (i :: r) = if decide (i < 256) then None else descend s k (i :: r)).
  { intros i r Hr. rewrite <- Hdk by done. cbn [descend]. destruct Hr as [_ Hr].
    apply Forall_cons_1 in Hr as [Hi _]. rewrite Hstep by done. by destruct (decide (i < 256)). }
  assert (Hcases : forall r f, path_ok r -> descend s2 p r = Some f ->
    (r = [] /\ f = p) \/ (r <> [] /\ descend s k r = Some f)).
  { intros [|i r] f Hr E; [left; by simplify_eq/=|right]. rewrite Hd in E by done.
    by destruct (decide (i < 256)). }
  split.
  { destruct Hok1 as [O1 O2 O3 O4]. split; [by rewrite C2 | done | by rewrite C3 | by rewrite C2, C3]. }
  right. pose proof (masked_aligned p ltac:(lia) F4) as Hm. split_and!; try done; [lia| | |].
  - split.
    + intros a b f Ha Hb Ea' Eb.
      destruct (Hcases a f Ha Ea') as [[-> ->]|[Na Da]], (Hcases b _ Hb Eb) as [[-> ?]|[Nb Db]]; try done.
      * by apply Hnp in Db.
      * subst. by apply Hnp in Da.
      * by eapply (po_inj _ _ Hpt).
    + intros a f Ha E Hfr. rewrite C2, F2 in Hfr. destruct Hfr as [Hfr Hfp].
      destruct (Hcases a f Ha E) as [[_ ->]|[_ D]]; [done|]. by apply (po_used _ _ Hpt a f Ha D).
  - by rewrite C2.
  - intros va. rewrite !pte_of_leaf by (by rewrite ?Hm, ?Hkm; lia). rewrite Hm, Hkm. unfold leaf.
    assert (Hva : descend s2 p (va_path va) = if decide (user_half va) then None else descend s k (va_path va))
      by (apply Hd, va_path_ok).
    rewrite Hva. destruct (decide (user_half va)); [done|].
    destruct (descend s k (va_path va)) as [x|] eqn:Ex; [|done].
    unfold rd. rewrite Ho2; [done|]. eapply Hnp; [|exact Ex]. apply va_path_ok.
Qed.

(** ** Forking one page *)

(** An entry with write access traded for the copy-on-write mark. *)
Definition cow_marked (e : Z) : Z := Z.lor (clear_bits e PTE_WRITABLE) PTE_COW.

Lemma cow_marked_fields e :
  masked (cow_marked e) = masked e /\ flag (cow_marked e) PTE_WRITABLE = false /\
  flag (cow_marked e) PTE_COW = true /\ flag (cow_marked e) PTE_PRESENT = flag e PTE_PRESENT /\
  flag (cow_marked e) PTE_USER = flag e PTE_USER.
Proof.
  assert (Hb : forall n, 0 <= n -> Z.testbit (cow_marked e) n =
    (Z.testbit e n && negb (1 =? n)) || (9 =? n)).
  { intros n Hn. unfold cow_marked, PTE_WRITABLE, PTE_COW.
    by rewrite Z.lor_spec, testbit_clear, !testbit_one by lia. }
  split.
  - apply Z.bits_inj'. intros n Hn. rewrite !testbit_masked, Hb by done.
    destruct (12 <=? n) eqn:E; bool_prop; [|by rewrite !andb_false_r].
    rewrite (proj2 (Z.eqb_neq 1 n)), (proj2 (Z.eqb_neq 9 n)) by lia. by rewrite orb_false_r, !andb_true_r.
  - unfold PTE_WRITABLE, PTE_COW, PTE_PRESENT, PTE_USER. rewrite !flag_testbit, !Hb by lia. simpl.
    by rewrite andb_false_r, orb_true_r, !andb_true_r, !orb_false_r.
Qed.

(** The entry [paging_clone_walk] reassembles from the frame and the flags. *)
Lemma rebuild_entry e :
  flag e PTE_PRESENT = true ->
  or3 (masked e) (clear_bits (clear_bits e PADDR_ENTRY_MASK) PTE_PRESENT) PTE_PRESENT = e.
Proof.
  rewrite flag_present. intros Hp. apply Z.bits_inj'. intros n Hn. unfold or3, PTE_PRESENT.
  rewrite !Z.lor_spec, testbit_masked, !testbit_clear, testbit_mask, testbit_one by lia.
  destruct (Z.eqb_spec 0 n) as [<-|Hne]; [by rewrite Hp, orb_true_r|].
  destruct (12 <=? n), (n <? 52), (Z.testbit e n); done.
Qed.

Lemma rebuild_cow_entry e :
  flag e PTE_PRESENT = true ->
  or3 (masked e)
    (Z.lor (clear_bits (clear_bits (clear_bits e PADDR_ENTRY_MASK) PTE_PRESENT) PTE_WRITABLE) PTE_COW)
    PTE_PRESENT = cow_marked e.
Proof.
  rewrite flag_present. intros Hp. apply Z.bits_inj'. intros n Hn.
  unfold cow_marked, or3, PTE_PRESENT, PTE_WRITABLE, PTE_COW.
  rewrite !Z.lor_spec, testbit_masked, !testbit_clear, testbit_mask by lia.
  rewrite !testbit_one by lia.
  destruct (Z.eqb_spec 0 n) as [<-|Hne]; [by rewrite Hp|].
  destruct (12 <=? n) eqn:E, (n <? 52), (Z.testbit e n), (Z.eqb_spec 1 n), (Z.eqb_spec 9 n);
    bool_prop; try done; lia.
Qed.

(** What becomes of the parent's entry [e] and what the child gets. *)
Record page_forked (s s' : mm) (pt child i e : Z) : Prop := {
  pf_parent : rd s' pt i = if flag e PTE_NOFREE || flag e PTE_SHARED then e
    else if flag e PTE_WRITABLE || flag e PTE_COW then (if flag e PTE_COW then e else cow_marked e) else e;
  pf_child :
    if flag e PTE_NOFREE || flag e PTE_SHARED then rd s' child i = e
    else if flag e PTE_WRITABLE || flag e PTE_COW then rd s' child i = cow_marked e
    else exists new, pmm_free (pmm s) new /\ ~ pmm_free (pmm s') new /\
      rd s' child i = or3 new (clear_bits (clear_bits e PADDR_ENTRY_MASK) PTE_PRESENT) PTE_PRESENT /\
      page_of s' new = page_of s (masked e);
  pf_refs : forall q, 0 <= q -> masked e / PAGE_SIZE < cow_ref_count (cow s) ->
    refs_of (cow s) (masked e) < 2 ^ 32 - 2 ->
    refs_of (cow s') q = refs_of (cow s) q +
      if decide (masked e / PAGE_SIZE = q / PAGE_SIZE)
      then (if flag e PTE_NOFREE then 0 else if flag e PTE_SHARED then 1
            else if flag e PTE_COW then 1 else if flag e PTE_WRITABLE then 2 else 0)
      else 0;
  pf_other : forall t j, index_ok j -> ~ pmm_free (pmm s) t ->
    (t = pt /\ j = i) \/ (t = child /\ j = i) \/ rd s' t j = rd s t j;
}.

Lemma ref_page_mm s phys :
  mm_ok s -> cow_ok (cow s) -> 0 <= phys ->
  let s' := cow_ref_page s phys in
  mm_ok s' /\ cow_ok (cow s') /\ (forall t j, rd s' t j = rd s t j) /\ pmm s' = pmm s /\
  cow_ref_count (cow s') = cow_ref_count (cow s) /\
  (forall q, 0 <= q -> phys / PAGE_SIZE < cow_ref_count (cow s) -> refs_of (cow s) phys < 2 ^ 32 - 1 ->
     refs_of (cow s') q = refs_of (cow s) q + if decide (phys / PAGE_SIZE = q / PAGE_SIZE) then 1 else 0).
Proof.
  intros Hok Hc Hp s'. destruct (ref_page_spec s phys Hc Hp) as (R1 & R2 & R3). fold s' in R1, R2, R3.
  split_and!; [by rewrite R2 | done | intros; by rewrite R2 | apply R2 | |].
  - unfold s', cow_ref_page. rewrite cow_init_ready by apply Hc. destruct (negb _); [done|].
    by destruct (_ <? _).
  - intros q Hq Hi Hlt. rewrite R3 by done.
    destruct (decide (phys / PAGE_SIZE = q / PAGE_SIZE)) as [E|E].
    + rewrite decide_True by done. apply wrap32_small.
      assert (refs_of (cow s) q = refs_of (cow s) phys)
        by (unfold refs_of; by rewrite !cow_index_eq, E).
      assert (0 <= refs_of (cow s) phys); [|lia]. unfold refs_of.
      pose proof (cow_count_range (cow s) (cow_phys_to_index phys) Hc). destruct (_ <? _); lia.
    + rewrite decide_False by tauto. lia.
Qed.

(** Writing the child's entry last: nothing but that entry changes. *)
Lemma fork_write s1 child i v t j :
  mm_ok s1 -> index_ok i -> index_ok j ->
  rd (wr s1 child i v) t j = if decide (child = t /\ i = j) then v else rd s1 t j.
Proof. intros Hok. apply rd_wr, Hok. Qed.

Lemma wr_mm_ok s t i v : mm_ok s -> mm_ok (wr s t i v).
Proof. intros [O1 O2 O3 O4]. split; try done. by apply wf_frames_wr. Qed.

(** The shape all sharing cases have: the parent's entry becomes [ep], the child's [ec]. *)
Lemma fork_shared s s1 pt child i ep ec :
  mm_ok s1 -> index_ok i -> pt <> child ->
  (forall t j, index_ok j -> rd s1 t j = if decide (pt = t /\ i = j) then ep else rd s t j) ->
  let s' := wr s1 child i ec in
  rd s' pt i = ep /\ rd s' child i = ec /\
  (forall t j, index_ok j -> (t = pt /\ j = i) \/ (t = child /\ j = i) \/ rd s' t j = rd s t j).
Proof.
  intros Hok Hi Hne H1 s'. unfold s'. split_and!.
  - rewrite fork_write, decide_False by (done || naive_solver). by rewrite H1, decide_True by done.
  - by rewrite fork_write, decide_True by done.
  - intros t j Hj. rewrite fork_write by done. case_decide; [naive_solver|].
    rewrite H1 by done. case_decide; naive_solver.
Qed.

(** C6. Forking one page ([paging_clone_walk]'s loop body): device and shared pages are shared
    as they are, a writable page loses write access in the parent and is shared
    copy-on-write, a page that was copy-on-write already gains a holder, and a read-only page
    is copied to a fresh frame.  The count of the frame grows by the holders added (two on the
    first sharing), no other entry changes, and the parent is flushed when it lost write
    access.  It fails only on the copy, when memory is out. *)
Theorem fork_page_shares s flush pt i child :
  mm_ok s -> cow_ok (cow s) -> index_ok i -> pt <> child ->
  ~ pmm_free (pmm s) pt -> ~ pmm_free (pmm s) child -> flag (rd s pt i) PTE_PRESENT = true ->
  let e := rd s pt i in
  let '(ok, (s', flush')) := clone_entry s flush pt i e child in
  (ok = false /\ s' = s /\ flush' = flush /\ total_free (pmm s) <= 0) \/
  (ok = true /\ mm_ok s' /\ cow_ok (cow s') /\ page_forked s s' pt child i e /\
   flush' = flush || (negb (flag e PTE_NOFREE || flag e PTE_SHARED || flag e PTE_COW) && flag e PTE_WRITABLE)).
Proof.
  intros Hok Hc Hi Hne Hupt Huc Hp e. pose proof (masked_nonneg e) as Hm. unfold clone_entry.
  assert (H0 : forall t j, index_ok j -> rd s t j = if decide (pt = t /\ i = j) then e else rd s t j)
    by (intros t j Hj; case_decide as E; [by destruct E as [<- <-]|done]).
  destruct (flag e PTE_NOFREE) eqn:En.
  { right. destruct (fork_shared s s pt child i e e) as (S1 & S2 & S3); try done.
    split_and!; [done|by apply wr_mm_ok|done| |by rewrite orb_false_r].
    split; rewrite ?En; simpl; [done|done| |intros; by apply S3]. intros q Hq _ _. case_decide; lia. }
  destruct (ref_page_mm s (masked e) Hok Hc Hm) as (R1 & R2 & R3 & R4 & R5 & R6).
  destruct (flag e PTE_SHARED) eqn:Es.
  { right. rewrite rebuild_entry by done.
    destruct (fork_shared s (cow_ref_page s (masked e)) pt child i e e) as (S1 & S2 & S3); try done.
    { intros t j Hj. rewrite R3. by apply H0. }
    split_and!; [done|by apply wr_mm_ok|done| |by rewrite orb_false_r].
    split; rewrite ?En, ?Es; simpl; [done|done| |intros; by apply S3]. intros q Hq Hlt Hl. by apply R6; lia. }
  destruct (flag e PTE_WRITABLE || flag e PTE_COW) eqn:Ew.
  - rewrite rebuild_cow_entry by done. destruct (flag e PTE_COW) eqn:Ec; simpl; right.
    + destruct (fork_shared s (cow_ref_page s (masked e)) pt child i e (cow_marked e)) as (S1 & S2 & S3);
        try done. { intros t j Hj. rewrite R3. by apply H0. }
      split_and!; [done|by apply wr_mm_ok|done| |by rewrite orb_false_r].
      split; rewrite ?En, ?Es, ?Ec, ?orb_true_r; simpl; [done|done| |intros; by apply S3].
      intros q Hq Hlt Hl. by apply R6; lia.
    + rewrite orb_false_r in Ew. fold (cow_marked e). set (s0 := wr s pt i (cow_marked e)).
      destruct (ref_page_mm s0 (masked e)) as (A1 & A2 & A3 & A4 & A5 & A6); [by apply wr_mm_ok|done|done|].
      set (s1 := cow_ref_page s0 (masked e)) in *.
      destruct (ref_page_mm s1 (masked e)) as (B1 & B2 & B3 & B4 & B5 & B6); [done|done|done|].
      set (s2 := cow_ref_page s1 (masked e)) in *.
      destruct (fork_shared s s2 pt child i (cow_marked e) (cow_marked e)) as (S1 & S2 & S3); try done.
      { intros t j Hj. rewrite B3, A3. by apply fork_write. }
      split_and!; [done|by apply wr_mm_ok|done| |by rewrite Ew, orb_true_r].
      split; rewrite ?En, ?Es, ?Ew, ?Ec; simpl; [done|done| |intros; by apply S3].
      intros q Hq Hlt Hl. change (cow s) with (cow s0) in *.
      assert (Hself := A6 (masked e) Hm Hlt ltac:(lia)). rewrite decide_True in Hself by done.
      rewrite B6, A6 by (rewrite ?A5, ?Hself; done || lia). case_decide; lia.
  - apply orb_false_iff in Ew as [Ew Ec]. destruct (pmm_alloc s 1) as [new s1] eqn:Ea.
    destruct (pmm_alloc_one _ _ _ Hok Ea) as [Hok1 [[-> ->]|[Hf Hfr]]].
    { simpl. left. split_and!; try done. destruct (Z.le_gt_cases (total_free (pmm s)) 0); [done|].
      by apply (pmm_alloc_progress s 0 s) in Ea; [|done|lia]. }
    pose proof Hf as [F1 F2 F3 F4 F5 Ft F6 (F7 & _)]. rewrite (proj2 (Z.eqb_neq _ _)) by lia. right.
    destruct (page_copy_fresh s s1 new (masked e)) as (C1 & C2 & C3); try done.
    set (s2 := page_copy s1 new (masked e)) in *.
    assert (Hother : forall t j, ~ pmm_free (pmm s) t -> rd s2 t j = rd s t j).
    { intros t j Ht. unfold rd. rewrite (ff_other _ _ _ C2); [done|]. by intros ->. }
    set (v := or3 new _ _). split_and!; [done|by apply wr_mm_ok|by rewrite <- F7 in Hc| |].
    + split; rewrite ?En, ?Es, ?Ew, ?Ec; simpl.
      * rewrite fork_write, decide_False by (done || naive_solver). by apply Hother.
      * exists new. split_and!; [done|rewrite F2; tauto|by rewrite fork_write, decide_True by done|].
        rewrite page_of_wr, decide_False by (by intros ->). done.
      * intros q Hq _ _. rewrite F7. case_decide; lia.
      * intros t j Hj Ht. rewrite fork_write by done. case_decide; [naive_solver|]. right. right. by apply Hother.
    + rewrite Ew. simpl. by rewrite !andb_false_r, orb_false_r.
Qed.

(** ** Properties *)

(** [paging_map_page] is a map update: the page of [va] gets the entry for [pa] with the
    flags, every other page keeps its entry, no data frame is written, the tables stay a
    tree.  It does not fail silently when three frames are free and no large page or null
    table is on the way. *)
Lemma map_page_updates s cr3 pa va flags :
  mm_ok s -> pt_ok s (masked cr3) -> masked cr3 <> 0 -> paddr_to_vaddr s (masked cr3) <> 0 ->
  masked flags = 0 -> flag flags PTE_PAT_4K = false ->
  clear_path s (masked cr3) (va_path va) -> 3 <= total_free (pmm s) ->
  let s' := paging_map_page s cr3 pa va flags in
  mm_ok s' /\ pt_ok s' (masked cr3) /\ data_kept s s' (masked cr3) /\
  mapped_at s s' cr3 va (Some (or3 (masked pa) flags PTE_PRESENT)).
Proof.
  intros Hok Hpt Hr Hv Hm Hh Hc Hf. unfold paging_map_page.
  destruct (map_page_invl_spec s cr3 pa va flags true) as (M1 & M2 & M3 & [[M4 _]|M4]); try done.
  exfalso. refine (walk_progress s cr3 va _ Hok Hpt Hr Hv Hc Hf _ M4). apply negb_false_iff, Z.eqb_eq, Z.bits_inj'.
  intros n Hn. rewrite !Z.land_spec, Z.bits_0. change PTE_PAT_4K with (1 ≪ 7).
  rewrite testbit_one by lia. destruct (Z.eqb_spec 7 n) as [<-|]; [|by rewrite andb_false_r].
  rewrite flag_huge in Hh. by rewrite Hh.
Qed.

(** [paging_unmap_page] removes the entry of the page and no other, touches no data frame
    and invalidates the TLB entry when the page was mapped. *)
Lemma unmap_page_removes s cr3 va :
  mm_ok s -> pt_ok s (masked cr3) -> masked cr3 <> 0 ->
  let s' := paging_unmap_page s cr3 va in
  mm_ok s' /\ pt_ok s' (masked cr3) /\ data_kept s s' (masked cr3) /\ mapped_at s s' cr3 va None /\
  (pte_of s cr3 va <> None -> tlb s' = tlb s ++ [Invlpg va]).
Proof. apply unmap_page_spec. Qed.

(** The entry a copy-on-write fault installs names the new frame, is writable, not
    copy-on-write, and agrees with the old entry on the present, user and no-execute bits. *)
Lemma cow_entry_meaning new e :
  masked (cow_entry new e) = masked new /\
  flag (cow_entry new e) PTE_WRITABLE = true /\ flag (cow_entry new e) PTE_COW = false /\
  flag (cow_entry new e) PTE_PRESENT = flag e PTE_PRESENT /\
  flag (cow_entry new e) PTE_USER = flag e PTE_USER /\
  flag (cow_entry new e) PTE_NX = flag e PTE_NX.
Proof. split; [apply cow_entry_masked | apply cow_entry_flags]. Qed.

(** Taking a reference to a frame of the table and dropping it again returns the count
    before, restores the counts of all frames and touches no memory. *)
Lemma cow_ref_unref_roundtrip s phys r s' :
  cow_ok (cow s) -> 0 <= phys -> phys / PAGE_SIZE < cow_ref_count (cow s) ->
  refs_of (cow s) phys < 2 ^ 32 - 1 ->
  cow_unref_page (cow_ref_page s phys) phys = (r, s') ->
  r = refs_of (cow s) phys /\ cow_ok (cow s') /\ mem_eq s' s /\
  forall q, 0 <= q -> refs_of (cow s') q = refs_of (cow s) q.
Proof.
  intros Hc Hp Hi Hlt E.
  destruct (ref_page_spec s phys Hc Hp) as (R1 & R2 & R3).
  destruct (unref_page_spec _ _ _ _ R1 Hp E) as (U1 & U2 & _ & U4 & U5).
  assert (H0 : 0 <= refs_of (cow s) phys).
  { unfold refs_of. pose proof (cow_count_range (cow s) (cow_phys_to_index phys) Hc).
    destruct (_ <? _); lia. }
  assert (Hr : r = refs_of (cow s) phys).
  { rewrite U4, R3, decide_True by done. rewrite wrap32_small by lia. lia. }
  split_and!; [done|done|by rewrite U2|]. intros q Hq. rewrite U5 by done.
  destruct (decide (phys / PAGE_SIZE = q / PAGE_SIZE)) as [Hpq|Hpq].
  - rewrite Hr. unfold refs_of. by rewrite !cow_index_eq, Hpq.
  - by rewrite R3, decide_False by tauto.
Qed.

End Heap.

(** ** A concrete machine *)

#[local] Instance no_heap : KernelHeap := {| h_kmalloc := fun _ s => (0, s); h_kfree := fun _ s => s |}.

(** The machine after start-up: an empty kernel address space in the reserved frame 4096. *)
Definition boot_mm : mm :=
  {| frames := ∅; pmm := pmm_init demo_memmap;
     cow := {| cow_refs := replicate 288 2; cow_ref_count := 288; cow_ready := true |};
     vmm := {| vmm_regions := []; vmm_base_hint := 0; vmm_init_done := false; vmm_nodes := 0 |};
     heap := kalloc_boot; cur_cr3 := 4096; kernel_page_map := 4096;
     hhdm_offset := 0xffff800000000000; memmap := demo_memmap; tlb := [] |}.

Lemma pt_ok_empty s root : page_of s root = zero_page -> ~ pmm_free (pmm s) root -> pt_ok s root.
Proof.
  intros Hz Hu.
  assert (Hd : forall p f, descend s root p = Some f -> p = [] /\ f = root).
  { intros [|i p] f; simpl; [by intros E; simplify_eq|]. unfold step_table. by rewrite rd_zero. }
  split.
  - intros p q f _ _ Hp Hq. by destruct (Hd _ _ Hp) as [-> _], (Hd _ _ Hq) as [-> _].
  - intros p f _ Hp. by destruct (Hd _ _ Hp) as [_ ->].
Qed.

Lemma boot_mm_ok : mm_ok boot_mm /\ pt_ok boot_mm 4096.
Proof.
  assert (Hr : forall e, e ∈ pmm boot_mm -> usable_start e = 1052672 /\ usable_end e = 1179648).
  { intros e He. vm_compute in He. apply list_elem_of_singleton in He as ->. done. }
  split.
  - split; [apply demo_pmm_wf | by intros t | done|]. intros e He. destruct (Hr e He) as [_ ->]. done.
  - apply pt_ok_empty; [done|]. intros Hf. apply list.Exists_exists in Hf as (e & He & i & [Hi _] & Hp).
    destruct (Hr e He) as [Hs _]. rewrite Hs in Hp. unfold PAGE_SIZE in Hp. lia.
Qed.

Definition demo_va : Z := 0x400000.

(** A frame is taken and mapped copy-on-write at [demo_va]. *)
Definition frame_mm : mm := (paging_alloc_empty_frame boot_mm).2.

Definition demo_frame : Z := (paging_alloc_empty_frame boot_mm).1.1.

Definition cow_mm : mm :=
  paging_map_page frame_mm 4096 demo_frame demo_va (Z.lor PTE_USER PTE_COW).

Definition demo_pte : Z := or3 (masked demo_frame) (Z.lor PTE_USER PTE_COW) PTE_PRESENT.

Lemma frame_mm_ok :
  mm_ok frame_mm /\ pt_ok frame_mm 4096 /\ data_frame frame_mm 4096 demo_frame /\ masked demo_frame = demo_frame.
Proof.
  destruct boot_mm_ok as [Hok Hpt].
  destruct (alloc_empty_frame_spec boot_mm demo_frame (paging_alloc_empty_frame boot_mm).1.2 frame_mm Hok)
    as [Hok1 [(E & _)|(Hf & _)]].
  - unfold demo_frame, frame_mm. by destruct (paging_alloc_empty_frame boot_mm) as [[? ?] ?].
  - vm_compute in E. done.
  - destruct (fresh_frame_keeps _ _ _ _ Hpt Hf) as (K1 & _ & _ & _ & K5). split_and!; done.
Qed.

Lemma cow_mm_ok :
  mm_ok cow_mm /\ pt_ok cow_mm 4096 /\ data_frame cow_mm 4096 demo_frame /\
  pte_of cow_mm 4096 demo_va = Some demo_pte.
Proof.
  destruct frame_mm_ok as (Hok & Hpt & Hd & Hm).
  destruct (map_page_invl_spec frame_mm 4096 demo_frame demo_va (Z.lor PTE_USER PTE_COW) true)
    as (M1 & M2 & M3 & _); [done|done|by vm_compute..|].
  split_and!; [done|done|by apply M3|by vm_compute].
Qed.

Definition demo_task : task := {| page_map := 4096; task_privilege := P_USER |}.

Lemma demo_cow_ok s : cow s = cow boot_mm -> cow_ok (cow s).
Proof. intros ->. split; [done|done|]. by apply Forall_replicate. Qed.

Lemma map_page_updates_witness :
  pte_of (paging_map_page frame_mm 4096 demo_frame demo_va PTE_USER) 4096 demo_va =
    Some (Z.lor demo_frame 5) /\
  mapped_at frame_mm (paging_map_page frame_mm 4096 demo_frame demo_va PTE_USER) 4096 demo_va
    (Some (or3 (masked demo_frame) PTE_USER PTE_PRESENT)).
Proof.
  split; [by vm_compute|]. destruct frame_mm_ok as (Hok & Hpt & _).
  refine (proj2 (proj2 (proj2 (map_page_updates frame_mm 4096 demo_frame demo_va PTE_USER
    Hok Hpt _ _ _ _ _ _)))); try by vm_compute. apply clear_path_zero. by vm_compute.
Defined.

Lemma unmap_page_removes_witness :
  pte_of (paging_unmap_page cow_mm 4096 demo_va) 4096 demo_va = None /\
  mapped_at cow_mm (paging_unmap_page cow_mm 4096 demo_va) 4096 demo_va None.
Proof.
  split; [by vm_compute|]. destruct cow_mm_ok as (Hok & Hpt & _).
  apply (unmap_page_removes cow_mm 4096 demo_va); [done|done|by vm_compute].
Defined.

Lemma create_space_shares_kernel_witness :
  (paging_create_address_space boot_mm).1 = 1056768 /\
  mm_ok (paging_create_address_space boot_mm).2.
Proof.
  split; [by vm_compute|]. destruct boot_mm_ok as [Hok Hpt].
  refine (proj1 (create_space_shares_kernel boot_mm (paging_create_address_space boot_mm).1 _
    Hok Hpt _ _ _)); [by vm_compute|done|apply surjective_pairing].
Defined.

Lemma cow_fault_private_copy_witness :
  let '(r, s') := paging_handle_cow_fault cow_mm (Some demo_task) (demo_va + 5) 7 in
  (r = 0 /\ s' = cow_mm /\ 1 < refs_of (cow cow_mm) (masked demo_pte) /\ total_free (pmm cow_mm) <= 0) \/
  (r = 1 /\ cow_resolved cow_mm s' (page_map demo_task) (PAGE_ALIGN_DOWN (demo_va + 5)) demo_pte).
Proof.
  destruct cow_mm_ok as (Hok & Hpt & Hd & Hp).
  assert (Hc : cow_ok (cow cow_mm)) by (by apply demo_cow_ok; vm_compute).
  assert (E : masked demo_pte = demo_frame) by (by vm_compute). rewrite <- E in Hd.
  pose proof (cow_fault_private_copy cow_mm demo_task (demo_va + 5) 7 demo_pte Hok Hpt Hc
    ltac:(by vm_compute) ltac:(by vm_compute) Hp ltac:(by vm_compute) Hd) as H.
  exact H.
Defined.

Lemma stack_fault_fills_witness :
  let '(r, s') := paging_handle_stack_fault frame_mm (Some demo_task) (USER_STACK_TOP - 8) in
  mm_ok s'.
Proof.
  destruct frame_mm_ok as (Hok & Hpt & _).
  pose proof (stack_fault_fills frame_mm demo_task (USER_STACK_TOP - 8) Hok Hpt
    ltac:(by vm_compute) ltac:(done) ltac:(unfold USER_STACK_TOP, USER_STACK_SIZE; lia)
    ltac:(by vm_compute)) as H.
  destruct (paging_handle_stack_fault _ _ _) as [r s']. exact (proj1 H).
Defined.

Lemma cow_ref_unref_roundtrip_witness :
  let '(r, s') := cow_unref_page (cow_ref_page boot_mm 1056768) 1056768 in
  r = 2 /\ cow_ok (cow s').
Proof.
  assert (Hc : cow_ok (cow boot_mm)) by (by apply demo_cow_ok).
  destruct (cow_unref_page (cow_ref_page boot_mm 1056768) 1056768) as [r s'] eqn:E.
  destruct (cow_ref_unref_roundtrip boot_mm 1056768 r s' Hc) as (-> & H & _);
    [lia|by vm_compute|by vm_compute|done|]. split; [by vm_compute|done].
Defined.

(** A parent table with one writable page, and an unused frame for the child's table. *)
Definition fork_mm : mm := wr frame_mm 4096 3 (Z.lor demo_frame 7).

Lemma fork_page_shares_witness :
  rd (clone_entry fork_mm false 4096 3 (rd fork_mm 4096 3) 8192).2.1 8192 3 = Z.lor demo_frame 0x205 /\
  let '(ok, (s', flush')) := clone_entry fork_mm false 4096 3 (rd fork_mm 4096 3) 8192 in
  (ok = false /\ s' = fork_mm /\ flush' = false /\ total_free (pmm fork_mm) <= 0) \/
  (ok = true /\ mm_ok s' /\ cow_ok (cow s') /\
   page_forked fork_mm s' 4096 8192 3 (rd fork_mm 4096 3) /\
   flush' = false || (negb (flag (rd fork_mm 4096 3) PTE_NOFREE || flag (rd fork_mm 4096 3) PTE_SHARED ||
     flag (rd fork_mm 4096 3) PTE_COW) && flag (rd fork_mm 4096 3) PTE_WRITABLE)).
Proof.
  split; [by vm_compute|]. destruct frame_mm_ok as (Hok & _).
  assert (Hu : forall p, p < 1052672 -> ~ pmm_free (pmm fork_mm) p).
  { intros p Hp Hf. apply list.Exists_exists in Hf as (e & He & i & [Hi _] & Heq).
    vm_compute in He. apply list_elem_of_singleton in He as ->. unfold usable_start, PAGE_SIZE in Heq.
    simpl in Heq. lia. }
  apply (fork_page_shares fork_mm false 4096 3 8192);
    [by apply wr_mm_ok | by apply demo_cow_ok; vm_compute | unfold index_ok; lia | lia | apply Hu; lia
    | apply Hu; lia | by vm_compute].
Defined.
