(* ===== verification/Vmm.v ===== *)
(** * Ranges of pages

    [kernel/src/mm/vmm.c] over the state of [Machine]: the ranges of kernel address space near
    the kernel, and mapping, unmapping and protecting runs of pages of any address space.  The
    nodes of the region list come from slabs of one page; [vmm_nodes] counts the ones on the
    free list.  [kernel_end] is the linker's symbol. *)

From S2P Require Import Prelude Pmm Machine Paging.

Definition VMM_BASE_FLAGS : Z := Z.lor PTE_WRITABLE PTE_NX.

(** [sizeof(vmm_region_t)] is 24. *)
Definition VMM_NODES_PER_SLAB : Z := PAGE_SIZE / 24.

Definition VMM_INVLPG_MAX : Z := 64.

Definition set_nodes (v : vmm_state) (n : nat) : vmm_state :=
  {| vmm_regions := vmm_regions v; vmm_base_hint := vmm_base_hint v; vmm_init_done := vmm_init_done v; vmm_nodes := n |}.

Definition set_regions (v : vmm_state) (l : list vmm_region) : vmm_state :=
  {| vmm_regions := l; vmm_base_hint := vmm_base_hint v; vmm_init_done := vmm_init_done v; vmm_nodes := vmm_nodes v |}.

Definition set_hint (v : vmm_state) (h : Z) : vmm_state :=
  {| vmm_regions := vmm_regions v; vmm_base_hint := h; vmm_init_done := vmm_init_done v; vmm_nodes := vmm_nodes v |}.

(** ** The nodes *)

Definition vmm_slab_refill (s : mm) : Z * mm :=
  let '(p, s) := pmm_alloc s 1 in
  if p =? 0 then (-1, s)
  else
    let s := page_clear s p in
    (0, set_vmm s (set_nodes (vmm s) (vmm_nodes (vmm s) + Z.to_nat VMM_NODES_PER_SLAB))).

(** Whether a node was had. *)
Definition vmm_node_alloc (s : mm) : bool * mm :=
  let '(r, s) := match vmm_nodes (vmm s) with O => vmm_slab_refill s | S _ => (0, s) end in
  if negb (r =? 0) then (false, s) else (true, set_vmm s (set_nodes (vmm s) (pred (vmm_nodes (vmm s))))).

Definition vmm_node_free (s : mm) : mm := set_vmm s (set_nodes (vmm s) (S (vmm_nodes (vmm s)))).

(** ** The regions near the kernel *)

Definition vmm_init (kernel_end : Z) (s : mm) : mm :=
  if vmm_init_done (vmm s) then s
  else set_vmm s {| vmm_regions := vmm_regions (vmm s); vmm_base_hint := PAGE_ALIGN_UP (kernel_end +w 64 * PAGE_SIZE);
                    vmm_init_done := true; vmm_nodes := vmm_nodes (vmm s) |}.

Definition vmm_overlap (a apages b bpages : Z) : bool :=
  (a <? b +w bpages *w PAGE_SIZE) && (b <? a +w apages *w PAGE_SIZE).

(** The end of the first region the candidate runs into. *)
Fixpoint vmm_collide (candidate pages : Z) (l : list vmm_region) : option Z :=
  match l with
  | [] => None
  | r :: l =>
    if vmm_overlap candidate pages (vr_base r) (vr_pages r) then Some (PAGE_ALIGN_UP (vr_base r +w vr_pages r *w PAGE_SIZE))
    else vmm_collide candidate pages l
  end.

(** The loop of [vmm_reserve_range_locked], [None] when the fuel runs out. *)
Fixpoint vmm_search (fuel : nat) (candidate pages : Z) (l : list vmm_region) : option Z :=
  match fuel with
  | O => None
  | S fuel => match vmm_collide candidate pages l with None => Some candidate | Some c => vmm_search fuel c pages l end
  end.

(** The list stays sorted by base: the walk from the first region on. *)
Fixpoint vmm_insert_after (node prev : vmm_region) (rest : list vmm_region) : list vmm_region :=
  match rest with
  | r :: rest' => if vr_base r <? vr_base node then prev :: vmm_insert_after node r rest' else prev :: node :: rest
  | [] => [prev; node]
  end.

Definition vmm_insert (node : vmm_region) (l : list vmm_region) : list vmm_region :=
  match l with
  | [] => [node]
  | r :: rest => if vr_base node <? vr_base r then node :: l else vmm_insert_after node r rest
  end.

(** A region can be in the way once, so one turn for each and one to end are enough; the outer [None] is the
    search that does not end. *)
Definition vmm_reserve_range_locked (s : mm) (pages : Z) : option (Z * mm) :=
  if pages =? 0 then Some (0, s)
  else
    let candidate := if vmm_base_hint (vmm s) <? PAGE_SIZE then PAGE_SIZE else vmm_base_hint (vmm s) in
    match vmm_search (S (length (vmm_regions (vmm s)))) candidate pages (vmm_regions (vmm s)) with
    | None => None
    | Some candidate =>
      let '(node, s) := vmm_node_alloc s in
      if negb node then Some (0, s)
      else
        let s := set_vmm s (set_regions (vmm s) (vmm_insert {| vr_base := candidate; vr_pages := pages |} (vmm_regions (vmm s)))) in
        let next_hint := PAGE_ALIGN_UP (candidate +w pages *w PAGE_SIZE) in
        let s := if vmm_base_hint (vmm s) <? next_hint then set_vmm s (set_hint (vmm s) next_hint) else s in
        Some (candidate, s)
    end.

(** The list without the first region that is exactly this one. *)
Fixpoint vmm_unlink (base pages : Z) (l : list vmm_region) : option (list vmm_region) :=
  match l with
  | [] => None
  | r :: l =>
    if (vr_base r =? base) && (vr_pages r =? pages) then Some l
    else match vmm_unlink base pages l with Some l' => Some (r :: l') | None => None end
  end.

Definition vmm_release_range_locked (s : mm) (base pages : Z) : Z * mm :=
  match vmm_unlink base pages (vmm_regions (vmm s)) with
  | Some l => (0, vmm_node_free (set_vmm s (set_regions (vmm s) l)))
  | None => (-1, s)
  end.

(** ** Runs of pages *)

(** [vmm_page_paddr], [vmm_translate] with a place for the result. *)
Definition vmm_page_paddr (s : mm) (cr3 vaddr : Z) : option Z :=
  match paging_get_page s cr3 vaddr with
  | None => None
  | Some (pt, i) => if negb (flag (rd s pt i) PTE_PRESENT) then None
                    else Some (Z.lor (masked (rd s pt i)) (Z.land vaddr (PAGE_SIZE - 1)))
  end.

Definition vmm_translate (s : mm) (cr3 virt : Z) : option Z :=
  if virt =? 0 then None else vmm_page_paddr s cr3 virt.

Definition vmm_map_phys_pages (s : mm) (cr3 virt phys_start page_count flags : Z) : Z * mm :=
  if (virt =? 0) || (page_count =? 0) then (-1, s)
  else
    let va := PAGE_ALIGN_DOWN virt in
    let pa := masked phys_start in
    let mf := clear_bits flags PTE_PRESENT in
    (0, for_range (Z.to_nat page_count) 0
          (fun i s => paging_map_page_invl s cr3 (pa +w i * PAGE_SIZE) (va +w i * PAGE_SIZE) mf false) s).

Definition vmm_unmap_pages (s : mm) (cr3 virt page_count : Z) : mm :=
  if (virt =? 0) || (page_count =? 0) then s
  else
    let va := PAGE_ALIGN_DOWN virt in
    let s := for_range (Z.to_nat page_count) 0 (fun i s => paging_unmap_page s cr3 (va +w i * PAGE_SIZE)) s in
    if va <? USER_END then tlb_do s (Shootdown cr3) else s.

Definition vmm_free_run (s : mm) (start pages : Z) : mm := if negb (pages =? 0) then pmm_release s start pages else s.

Section Heap.

Context `{KernelHeap}.

(** The body of the inner loop of [vmm_unmap_free_pages], on entry [i] of the table [pt]; the
    run of neighbouring frames not given back yet is [r]. *)
Definition unmap_pte (flush_all : bool) (pt i vpage : Z) (st : mm * run) : mm * run :=
  let '(s, r) := st in
  let pte := rd s pt i in
  if negb (flag pte PTE_PRESENT) then (s, r)
  else
    let s := wr s pt i 0 in
    let s := if negb flush_all then tlb_do s (Invlpg vpage) else s in
    let ppage := masked pte in
    if flag pte PTE_NOFREE then (s, r)
    else
      let '(held, s) :=
        if flag pte (Z.lor PTE_COW PTE_SHARED)
        then let '(refs, s) := cow_unref_page s ppage in (negb (refs =? 0), s)
        else (false, s) in
      if held then (s, r)
      else if negb (run_pages r =? 0) && (ppage =? run_start r +w run_pages r *w PAGE_SIZE)
      then (s, {| run_start := run_start r; run_pages := run_pages r +w 1 |})
      else (vmm_free_run s (run_start r) (run_pages r), {| run_start := ppage; run_pages := 1 |}).

(** The outer loop: a table per turn, the rest of it or of the range. *)
Fixpoint unmap_free_loop (fuel : nat) (flush_all : bool) (cr3 va i page_count : Z) (st : mm * run) : mm * run :=
  match fuel with
  | O => st
  | S fuel =>
    if i <? page_count
    then
      let vpage := va +w i * PAGE_SIZE in
      let idx := pt_index vpage 12 in
      let span := Z.min (512 - idx) (page_count - i) in
      let st :=
        match paging_get_table st.1 cr3 vpage with
        | None => st
        | Some pt => for_range (Z.to_nat span) 0 (fun j => unmap_pte flush_all pt (idx + j) (vpage +w j * PAGE_SIZE)) st
        end in
      unmap_free_loop fuel flush_all cr3 va (i + span) page_count st
    else st
  end.

(** A turn covers a page at least. *)
Definition vmm_unmap_free_pages (s : mm) (cr3 virt page_count : Z) : Z * mm :=
  if (virt =? 0) || (page_count =? 0) then (-1, s)
  else
    let va := PAGE_ALIGN_DOWN virt in
    let user := va <? USER_END in
    let flush_all := user && (VMM_INVLPG_MAX <? page_count) && (masked (cur_cr3 s) =? masked cr3) in
    let '(s, r) := unmap_free_loop (Z.to_nat page_count) flush_all cr3 va 0 page_count (s, {| run_start := 0; run_pages := 0 |}) in
    let s := vmm_free_run s (run_start r) (run_pages r) in
    let s := if flush_all then paging_switch_address_space s (cur_cr3 s) else s in
    (0, if user then tlb_do s (Shootdown cr3) else s).

(** The loop of [vmm_map_pages]; 0 is the frame that could not be had, after [i] pages. *)
Fixpoint map_pages_loop (n : nat) (s : mm) (cr3 va i mf : Z) : Z * mm :=
  match n with
  | O => (0, s)
  | S n =>
    let '(phys, s) := pmm_alloc s 1 in
    if phys =? 0 then (-1, (vmm_unmap_free_pages s cr3 va i).2)
    else map_pages_loop n (paging_map_page_invl s cr3 phys (va +w i * PAGE_SIZE) mf false) cr3 va (i + 1) mf
  end.

Definition vmm_map_pages (s : mm) (cr3 virt page_count flags : Z) : Z * mm :=
  if (virt =? 0) || (page_count =? 0) then (-1, s)
  else map_pages_loop (Z.to_nat page_count) s cr3 (PAGE_ALIGN_DOWN virt) 0 (clear_bits flags PTE_PRESENT).

Definition PROTECT_KEEP : Z :=
  Z.lor (or3 PADDR_ENTRY_MASK PTE_PRESENT PTE_ACCESSED) (Z.lor PTE_DIRTY PTE_GLOBAL).

(** [false] is the early return of -1. *)
Definition vmm_protect_pages (s : mm) (cr3 virt page_count flags : Z) : Z * mm :=
  if (virt =? 0) || (page_count =? 0) then (-1, s)
  else
    let va := PAGE_ALIGN_DOWN virt in
    let set_flags := clear_bits flags (Z.lor PTE_PRESENT PADDR_ENTRY_MASK) in
    let '(ok, s) := for_exit (Z.to_nat page_count) 0 (fun i s =>
      match paging_get_page s cr3 (va +w i * PAGE_SIZE) with
      | None => (false, s)
      | Some (pt, k) =>
        if negb (flag (rd s pt k) PTE_PRESENT) then (false, s)
        else (true, tlb_do (wr s pt k (Z.lor (Z.land (rd s pt k) PROTECT_KEEP) set_flags)) (Invlpg (va +w i * PAGE_SIZE)))
      end) s in
    if ok then (0, tlb_do s (Shootdown cr3)) else (-1, s).

(** ** Kernel memory *)

Definition vmm_in_hhdm (s : mm) (addr : Z) : bool :=
  (hhdm_offset s <=? addr) && (addr <? hhdm_offset s +w get_max_paddr (memmap s)).

(** The clearing of the range through its new mapping: the frames behind its pages.  [None]
    is the page fault of a page that is not mapped. *)
Fixpoint clear_range (n : nat) (s : mm) (cr3 va : Z) : option mm :=
  match n with
  | O => Some s
  | S n =>
    match vmm_page_paddr s cr3 va with
    | None => None
    | Some p => clear_range n (page_clear s (masked p)) cr3 (va +w PAGE_SIZE)
    end
  end.

(** [None] is a search that does not end, or the fault of [clear_range]. *)
Definition vmm_alloc_near_kernel (kernel_end : Z) (s : mm) (pages : Z) : option (Z * mm) :=
  if pages =? 0 then Some (0, s)
  else
    match vmm_reserve_range_locked (vmm_init kernel_end s) pages with
    | None => None
    | Some (base, s) =>
      if base =? 0 then Some (0, s)
      else
        let '(r, s) := vmm_map_pages s (kernel_page_map s) base pages VMM_BASE_FLAGS in
        if negb (r =? 0) then Some (0, (vmm_release_range_locked s base pages).2)
        else match clear_range (Z.to_nat pages) s (kernel_page_map s) base with Some s => Some (base, s) | None => None end
    end.

Definition vmm_alloc_pages (kernel_end : Z) (s : mm) (pages : Z) : option (Z * mm) :=
  if pages =? 0 then Some (0, s)
  else
    let '(phys, s) := pmm_try_alloc s pages in
    if negb (phys =? 0)
    then Some (paddr_to_vaddr s phys, for_range (Z.to_nat pages) 0 (fun i s => page_clear s (phys + i * PAGE_SIZE)) s)
    else vmm_alloc_near_kernel kernel_end s pages.

Definition vmm_free_pages (kernel_end : Z) (s : mm) (addr pages : Z) : mm :=
  if (addr =? 0) || (pages =? 0) then s
  else
    let base := PAGE_ALIGN_DOWN addr in
    if vmm_in_hhdm s base then pmm_release s (vaddr_to_paddr s base) pages
    else
      let s := vmm_init kernel_end s in
      let '(rel, s) := vmm_release_range_locked s base pages in
      if negb (rel =? 0) then s else (vmm_unmap_free_pages s (kernel_page_map s) base pages).2.

End Heap.
