(* ===== verification/VmmProofs.v ===== *)
(** * Ranges of pages: proofs

    The regions near the kernel stay sorted and disjoint and what is reserved is new.
    Unmapping a range removes exactly its pages, drops one reference for each shared one, and
    gives back exactly the frames nobody else holds, in runs. *)

From stdpp Require Import sorting.
From S2P Require Import Prelude Pmm Machine Paging PageTables Faults Vmm.

(** ** The frames of the allocator *)

(** A frame some region can hand out. *)
Definition pmm_frame (st : list bitmap_entry) (q : Z) : Prop :=
  exists e, e ∈ st /\ usable_start e <= q < usable_end e /\ q `mod` PAGE_SIZE = 0.

(** A region's bitmap lies between its frames and those of the region before, so no frames of
    two regions are neighbours. *)
Definition pmm_gapped (st : list bitmap_entry) : Prop :=
  forall e f, e ∈ st -> f ∈ st -> usable_end e <> usable_start f.

Lemma same_frame_elem st st' e' :
  Forall2 same_frame st st' -> e' ∈ st' -> exists e, e ∈ st /\ usable_start e = usable_start e' /\ usable_end e = usable_end e'.
Proof.
  induction 1 as [|x y l l' Hxy _ IH]; intros He; [by apply not_elem_of_nil in He|].
  apply elem_of_cons in He as [->|He].
  - exists x. destruct (same_frame_usable _ _ Hxy) as [-> ->]. split; [left|done].
  - destruct (IH He) as (e & ? & ?). exists e. split; [by right|done].
Qed.

Lemma same_frame_all st : Forall2 same_frame st st.
Proof. induction st; constructor; done. Qed.

Lemma same_frame_sym st st' : Forall2 same_frame st st' -> Forall2 same_frame st' st.
Proof. induction 1 as [|x y l l' (A & B & C) _ IH]; constructor; [by split_and!|done]. Qed.

Lemma pmm_frame_same st st' q : Forall2 same_frame st st' -> pmm_frame st q -> pmm_frame st' q.
Proof.
  intros Hs (e & He & Hr & Ha). destruct (same_frame_elem st' st e (same_frame_sym _ _ Hs) He) as (e' & He' & E1 & E2).
  exists e'. rewrite E1, E2. done.
Qed.

Lemma pmm_gapped_same st st' : Forall2 same_frame st st' -> pmm_gapped st -> pmm_gapped st'.
Proof.
  intros Hs Hg e f He Hf. destruct (same_frame_elem _ _ _ Hs He) as (e' & He' & _ & <-).
  destruct (same_frame_elem _ _ _ Hs Hf) as (f' & Hf' & <- & _). by apply Hg.
Qed.

Lemma same_frame_trans st1 st2 st3 : Forall2 same_frame st1 st2 -> Forall2 same_frame st2 st3 -> Forall2 same_frame st1 st3.
Proof.
  intros H1. revert st3. induction H1 as [|x y l l' (A & B & C) _ IH]; intros st3 H2; inversion H2 as [|? z ? ? (D & E & F)]; subst; constructor; [|auto].
  unfold same_frame. rewrite A, B, C. done.
Qed.

(** Neighbouring frames are of one region. *)
Lemma run_in_region st e start n :
  wf_pmm st -> pmm_gapped st -> e ∈ st -> usable_start e <= start < usable_end e -> start `mod` PAGE_SIZE = 0 ->
  (forall q, in_range start n q -> pmm_frame st q) -> forall k, 0 <= k < n -> start + (k + 1) * PAGE_SIZE <= usable_end e.
Proof.
  intros Hwf Hg He Hs Hal Hr k Hk. destruct (wf_pmm_elem _ _ Hwf He) as [_ HA _ HB _ _ _ _ _].
  assert (Hround : forall q, usable_start e <= q < usable_end e -> q `mod` PAGE_SIZE = 0 -> q + PAGE_SIZE <= usable_end e)
    by (intros q Hq Hq0; unfold usable_end, usable_start, PAGE_SIZE in *; zlia).
  assert (Hk0 : 0 <= k) by lia. revert Hk. pattern k. apply natlike_ind; [..|]; [intros _; specialize (Hround start Hs Hal); unfold PAGE_SIZE in *; lia| |].
  - intros j Hj IH Hk. specialize (IH ltac:(lia)). set (q := start + (j + 1) * PAGE_SIZE) in *.
    assert (Hqa : q `mod` PAGE_SIZE = 0) by (unfold q, PAGE_SIZE in *; zlia).
    destruct (Hr q) as (f & Hf & Hq & _); [exists (j + 1); split; [lia|done]|].
    destruct (decide (q < usable_end e)) as [Hlt|Hge].
    + specialize (Hround q ltac:(unfold q, PAGE_SIZE in *; lia) Hqa). unfold q, PAGE_SIZE in *. lia.
    + exfalso. assert (Eq : q = usable_end e) by lia. destruct (decide (q = usable_start f)) as [E|NE]; [by apply (Hg e f He Hf); congruence|].
      destruct (wf_pmm_elem _ _ Hwf Hf) as [_ HAf _ _ _ _ _ _ _].
      assert (Hback : usable_start f <= q - PAGE_SIZE) by (unfold usable_start, PAGE_SIZE in *; zlia).
      assert (e = f) as <- by (apply (wf_pmm_unique st e f (q - PAGE_SIZE) Hwf He Hf); unfold q, PAGE_SIZE in *; lia). lia.
  - done.
Qed.

(** Giving back a run gives back its frames. *)
Lemma release_run s start n :
  mm_ok s -> pmm_gapped (pmm s) -> 0 < n < 2 ^ 63 -> (forall q, in_range start n q -> pmm_frame (pmm s) q) ->
  let s' := pmm_release s start n in
  mm_ok s' /\ Forall2 same_frame (pmm s) (pmm s') /\ (forall q, pmm_free (pmm s') q <-> pmm_free (pmm s) q \/ in_range start n q).
Proof.
  intros Hok Hg Hn Hr s'. destruct (pmm_free_pages_spec (pmm s) start n (mo_pmm _ Hok) ltac:(lia)) as (W1 & W2 & W3).
  split; [by apply mm_ok_set_pmm|]. split; [done|]. intros q. unfold s', pmm_release. cbn [pmm set_pmm]. rewrite W3.
  destruct (Hr start) as (e & He & Hs & Hal); [exists 0; unfold PAGE_SIZE; lia|]. pose proof (wf_pmm_elem _ _ (mo_pmm _ Hok) He) as We.
  pose proof (run_in_region _ e start n (mo_pmm _ Hok) Hg He Hs Hal Hr (n - 1) ltac:(lia)) as Hend. replace (n - 1 + 1) with n in Hend by lia.
  assert (Hal' : (start - usable_start e) `mod` PAGE_SIZE = 0) by (destruct We; unfold usable_start, PAGE_SIZE in *; zlia).
  split; (intros [?|H]; [by left|right]).
  - destruct H as (f & Hf & Hsf & Hq). assert (f = e) as -> by (by apply (wf_pmm_unique _ f e start (mo_pmm _ Hok))).
    apply freed_frames_range in Hq; [done|lia|done|done].
  - exists e. split; [done|]. split; [done|]. apply freed_frames_range; [lia|done|done|done].
Qed.

(** ** Addresses *)

Lemma pt_index_arith va sh : 0 <= sh -> pt_index va sh = (va / 2 ^ sh) `mod` 512.
Proof.
  intros Hs. unfold pt_index. rewrite Z.shiftr_div_pow2 by done. change 0x1FF with (Z.ones 9). by rewrite Z.land_ones by lia.
Qed.

(** Pages of the 48-bit address space. *)
Lemma same_page_div a b : 0 <= a < 2 ^ 48 -> 0 <= b < 2 ^ 48 -> same_page a b <-> a / PAGE_SIZE = b / PAGE_SIZE.
Proof.
  intros Ha Hb. unfold same_page, va_path. rewrite !pt_index_arith by lia. unfold PAGE_SIZE. split.
  - intros [E1 E2]. injection E1 as E3 E4 E5. change (2 ^ 39) with 549755813888 in *. change (2 ^ 30) with 1073741824 in *.
    change (2 ^ 21) with 2097152 in *. change (2 ^ 12) with 4096 in *. change (2 ^ 48) with 281474976710656 in *. zlia.
  - intros E. change (2 ^ 39) with (4096 * 134217728). change (2 ^ 30) with (4096 * 262144). change (2 ^ 21) with (4096 * 512).
    change (2 ^ 12) with 4096. rewrite <- !Z.div_div, E by lia. done.
Qed.

(** The pages of the rest of a table. *)
Lemma span_page va j : 0 <= va -> 0 <= j -> pt_index va 12 + j < 512 ->
  va_path (va + j * PAGE_SIZE) = va_path va /\ pt_index (va + j * PAGE_SIZE) 12 = pt_index va 12 + j.
Proof.
  intros Hv Hj. unfold va_path. rewrite !pt_index_arith by lia. unfold PAGE_SIZE. intros H.
  assert (E : (va + j * 4096) / 2 ^ 12 = va / 2 ^ 12 + j) by (change (2 ^ 12) with 4096; zlia).
  assert (E2 : (va + j * 4096) / 2 ^ 21 = va / 2 ^ 21) by (change (2 ^ 21) with 2097152; change (2 ^ 12) with 4096 in *; zlia).
  rewrite E. replace (2 ^ 39) with (2 ^ 21 * 2 ^ 18) by reflexivity. replace (2 ^ 30) with (2 ^ 21 * 2 ^ 9) by reflexivity.
  rewrite <- !Z.div_div, E2 by lia. split; [done|]. change (2 ^ 12) with 4096 in *. zlia.
Qed.

Lemma get_table_descend s cr3 va : masked cr3 <> 0 -> paging_get_table s cr3 va = descend s (masked cr3) (va_path va).
Proof.
  intros Hr. unfold paging_get_table, table_shifts, va_path. rewrite (proj2 (Z.eqb_neq _ _) Hr). cbn [foldl descend].
  assert (E : forall t i, (paging_next_table s t i false).1 = step_table s t i).
  { intros t i. unfold paging_next_table, step_table. destruct (flag (rd s t i) PTE_PRESENT); simpl; [|done]. by destruct (flag (rd s t i) PTE_PAT_4K). }
  rewrite !E. destruct (step_table s (masked cr3) _) as [a|]; [|done]. rewrite E. destruct (step_table s a _) as [b|]; [|done]. rewrite E.
  by destruct (step_table s b _).
Qed.

(** ** Unmapping and giving back *)

Section Unmap.

Context `{KernelHeap}.

Variables (s0 : mm) (cr3 va : Z).

Definition counted (e : Z) : bool := negb (flag e PTE_NOFREE) && flag e (Z.lor PTE_COW PTE_SHARED).

(** How many of the first [n] pages are counted references to the frame [q]. *)
Fixpoint shared_maps (n : nat) (q : Z) : Z :=
  match n with
  | O => 0
  | S n =>
    shared_maps n q +
    match pte_of s0 cr3 (va + Z.of_nat n * PAGE_SIZE) with Some e => if counted e && (masked e =? q) then 1 else 0 | None => 0 end
  end.

(** The frame of one of the first [n] pages, that nobody holds any more. *)
Definition given_back (s : mm) (n : Z) (q : Z) : Prop :=
  exists k e, 0 <= k < n /\ pte_of s0 cr3 (va + k * PAGE_SIZE) = Some e /\ masked e = q /\ flag e PTE_NOFREE = false /\
    (counted e = true -> refs_of (cow s) q = 0).

(** The frames that may be given back come from the allocator and are none of the tables. *)
Definition frames_owned (n : Z) : Prop :=
  forall k e, 0 <= k < n -> pte_of s0 cr3 (va + k * PAGE_SIZE) = Some e -> flag e PTE_NOFREE = false ->
    pmm_frame (pmm s0) (masked e) /\ forall p, path_ok p -> descend s0 (masked cr3) p <> Some (masked e).

(** After [n] pages, with the frames in [P] still to be given back. *)
Record unmapping (n : Z) (s : mm) (P : Z -> Prop) : Prop := {
  um_mm : mm_ok s;
  um_cow : cow_ok (cow s);
  um_tables : forall p, path_ok p -> descend s (masked cr3) p = descend s0 (masked cr3) p;
  um_pages : forall f, (forall p, path_ok p -> descend s0 (masked cr3) p <> Some f) -> page_of s f = page_of s0 f;
  um_same : Forall2 same_frame (pmm s0) (pmm s);
  um_pte : forall v, 0 <= v < 2 ^ 48 -> pte_of s cr3 v = if decide (va <= v < va + n * PAGE_SIZE) then None else pte_of s0 cr3 v;
  um_refs : forall q, 0 <= q -> q `mod` PAGE_SIZE = 0 -> refs_of (cow s) q = Z.max 0 (refs_of (cow s0) q - shared_maps (Z.to_nat n) q);
  um_run : forall q, P q -> given_back s n q;
  um_free : forall q, pmm_free (pmm s) q -> pmm_free (pmm s0) q \/ given_back s n q;
  um_given : forall q, pmm_free (pmm s0) q \/ given_back s n q -> pmm_free (pmm s) q \/ P q;
}.

Lemma shared_maps_nonneg n q : 0 <= shared_maps n q.
Proof. induction n as [|n IH]; simpl; [lia|]. destruct (pte_of _ _ _); [destruct (_ && _)|]; lia. Qed.

Lemma masked_page e : masked e `mod` PAGE_SIZE = 0 /\ 0 <= masked e.
Proof.
  split; [|apply masked_nonneg]. unfold masked, PAGE_SIZE. change 4096 with (2 ^ 12). rewrite <- Z.land_ones by lia. apply Z.bits_inj'. intros m Hm.
  rewrite !Z.land_spec, Z.bits_0. destruct (decide (m < 12)).
  - replace PADDR_ENTRY_MASK with (Z.shiftl (Z.ones 40) 12) by reflexivity. rewrite Z.shiftl_spec_low by lia. by rewrite andb_false_r.
  - rewrite (Z.ones_spec_high 12 m) by lia. by rewrite andb_false_r.
Qed.

Lemma given_back_frame n s q : frames_owned n -> given_back s n q ->
  pmm_frame (pmm s0) q /\ forall p, path_ok p -> descend s0 (masked cr3) p <> Some q.
Proof. intros Ho (k & e & Hk & He & <- & Hn & _). by apply (Ho k e). Qed.

Lemma given_back_mono n s s' q :
  (forall q, 0 <= q -> q `mod` PAGE_SIZE = 0 -> refs_of (cow s) q = 0 -> refs_of (cow s') q = 0) -> given_back s n q -> given_back s' (n + 1) q.
Proof.
  intros Hz (k & e & Hk & He & <- & Hn & Hc). exists k, e. split; [lia|]. do 3 (split; [done|]). intros Hce. apply Hz; [apply masked_nonneg|apply masked_page|auto].
Qed.

(** The tables are the same ones and none of them was freed. *)
Lemma unmapping_pt n s P : pt_ok s0 (masked cr3) -> frames_owned n -> unmapping n s P -> pt_ok s (masked cr3).
Proof.
  intros [P1 P2] Ho U. split.
  - intros p q f Hp Hq. rewrite !(um_tables _ _ _ U) by done. by apply P1.
  - intros p f Hp. rewrite (um_tables _ _ _ U) by done. intros Hd Hf. apply (um_free _ _ _ U) in Hf as [Hf|Hf]; [by eapply P2|].
    apply (given_back_frame n s f Ho) in Hf as [_ Hf]. by apply (Hf p Hp).
Qed.

Lemma unmapping_ext n s (P Q : Z -> Prop) : (forall q, P q <-> Q q) -> unmapping n s P -> unmapping n s Q.
Proof.
  intros E [U1 U2 U3 U4 U5 U6 U7 U8 U9 U10]. split; try done.
  - intros q Hq. apply U8, E, Hq.
  - intros q Hq. rewrite <- E. by apply U10.
Qed.

(** A run joins the frames given back already. *)
Lemma flush_run n s (r : run) (Q : Z -> Prop) :
  pmm_gapped (pmm s0) -> frames_owned n -> 0 <= run_pages r < 2 ^ 63 ->
  unmapping n s (fun q => in_range (run_start r) (run_pages r) q \/ Q q) -> unmapping n (vmm_free_run s (run_start r) (run_pages r)) Q.
Proof.
  intros Hg Ho Hn [U1 U2 U3 U4 U5 U6 U7 U8 U9 U10]. unfold vmm_free_run. destruct (negb (run_pages r =? 0)) eqn:E; bool_prop.
  - destruct (release_run s (run_start r) (run_pages r) U1) as (R1 & R2 & R3); [by eapply pmm_gapped_same|lia| |].
    { intros q Hq. eapply pmm_frame_same; [exact U5|]. eapply given_back_frame; [done|]. apply U8. by left. }
    split; [exact R1|exact U2| |exact U4| |exact U6|exact U7| | |].
    + intros p Hp. rewrite (descend_frames s) by done. by apply U3.
    + by eapply same_frame_trans.
    + intros q Hq. apply U8. by right.
    + intros q Hq. apply R3 in Hq as [Hq|Hq]; [by apply U9|right]. apply U8. by left.
    + intros q Hq. rewrite R3. apply U10 in Hq. tauto.
  - assert (Hnil : forall q, ~ in_range (run_start r) (run_pages r) q) by (intros q (k & Hk & _); lia).
    split; try done.
    + intros q Hq. apply U8. by right.
    + intros q Hq. apply U10 in Hq as [?|[Hq|?]]; [by left|by apply Hnil in Hq|by right].
Qed.

(** ** One page *)

Lemma shared_maps_next n q : 0 <= n -> shared_maps (Z.to_nat (n + 1)) q = shared_maps (Z.to_nat n) q +
  match pte_of s0 cr3 (va + n * PAGE_SIZE) with Some e => if counted e && (masked e =? q) then 1 else 0 | None => 0 end.
Proof. intros Hn. replace (Z.to_nat (n + 1)) with (S (Z.to_nat n)) by lia. cbn [shared_maps]. by rewrite Z2Nat.id. Qed.

(** The page is not mapped. *)
Lemma unmapping_skip n s P : 0 <= n -> 0 <= va -> va `mod` PAGE_SIZE = 0 -> va + (n + 1) * PAGE_SIZE <= 2 ^ 48 -> masked cr3 <> 0 ->
  pte_of s0 cr3 (va + n * PAGE_SIZE) = None -> unmapping n s P -> unmapping (n + 1) s P.
Proof.
  intros Hn Hva Hal Hend Hr He [U1 U2 U3 U4 U5 U6 U7 U8 U9 U10].
  assert (Hg : forall q, given_back s (n + 1) q <-> given_back s n q).
  { intros q. split; intros (k & e & Hk & He' & Hrest); exists k, e; (split; [|done]); [|lia].
    destruct (decide (k = n)) as [->|]; [by rewrite He in He'|lia]. }
  split; [done|done|done|done|done| | | | |].
  - intros v Hv. rewrite U6 by done. repeat case_decide; try done; [unfold PAGE_SIZE in *; lia|].
    rewrite <- He. apply pte_of_same_page; [done|]. apply same_page_div; [done|unfold PAGE_SIZE in *; lia|unfold PAGE_SIZE in *; zlia].
  - intros q Hq Hq0. rewrite U7, shared_maps_next, He by done. f_equal. lia.
  - intros q Hq. by apply Hg, U8.
  - intros q Hq. rewrite Hg. by apply U9.
  - intros q Hq. rewrite Hg in Hq. by apply U10.
Qed.

(** The page's entry [e] is cleared; its frame is pending when nobody holds it any more. *)
Lemma unmapping_clear n s P e pt s2 : pt_ok s0 (masked cr3) -> 0 <= n -> 0 <= va -> va `mod` PAGE_SIZE = 0 -> va + (n + 1) * PAGE_SIZE <= 2 ^ 48 -> masked cr3 <> 0 ->
  frames_owned (n + 1) -> pte_of s0 cr3 (va + n * PAGE_SIZE) = Some e -> descend s0 (masked cr3) (va_path (va + n * PAGE_SIZE)) = Some pt -> unmapping n s P ->
  mem_eq s2 (wr s pt (pt_index (va + n * PAGE_SIZE) 12) 0) -> cow_ok (cow s2) ->
  (forall q, 0 <= q -> q `mod` PAGE_SIZE = 0 -> refs_of (cow s2) q = if counted e && (masked e =? q) then Z.max 0 (refs_of (cow s) q - 1) else refs_of (cow s) q) ->
  unmapping (n + 1) s2 (fun q => P q \/ (q = masked e /\ flag e PTE_NOFREE = false /\ (counted e = true -> refs_of (cow s2) q = 0))).
Proof.
  intros Hpt Hn Hva Hal Hend Hr Ho He Hd U Hm Hc Hrefs.
  assert (Hpt1 : pt_ok s (masked cr3)) by (eapply unmapping_pt; [done| |done]; intros k e' Hk; apply Ho; lia).
  destruct U as [U1 U2 U3 U4 U5 U6 U7 U8 U9 U10]. set (v := va + n * PAGE_SIZE) in *.
  assert (Hd1 : descend s (masked cr3) (va_path v) = Some pt) by (rewrite U3; [done|apply va_path_ok]).
  destruct (wr_leaf_mapped s cr3 v pt 0 U1 Hpt1 Hr Hd1) as (W1 & W2 & W3 & _). set (s1 := wr s pt (pt_index v 12) 0) in *.
  pose proof (masked_page e) as [Hmp Hm0].
  assert (Hg : forall q, given_back s2 (n + 1) q <-> given_back s n q \/ (q = masked e /\ flag e PTE_NOFREE = false /\ (counted e = true -> refs_of (cow s2) q = 0))).
  { intros q. split.
    - intros (k & e' & Hk & He' & Hq & Hnf & Hz). destruct (decide (k = n)) as [->|Hkn].
      + fold v in He'. assert (e' = e) as -> by congruence. right. split; [by symmetry|done].
      + destruct (decide (counted e = true /\ masked e = q)) as [[C E]|NE].
        * destruct (counted e') eqn:C'.
          -- right. split; [by symmetry|]. split; [unfold counted in C; by apply andb_true_iff in C as [?%negb_true_iff _]|]. intros _. by apply Hz.
          -- left. exists k, e'. split; [lia|]. do 3 (split; [done|]). by rewrite C'.
        * left. exists k, e'. split; [lia|]. do 3 (split; [done|]). intros C'. specialize (Hz C').
          pose proof (masked_page e') as [? ?]. rewrite Hrefs in Hz by (subst q; done).
          destruct (counted e && (masked e =? q)) eqn:B; [|done]. bool_prop. by destruct NE.
    - intros [Hq|(-> & Hnf & Hz)].
      + eapply given_back_mono; [|exact Hq]. intros q' Hq' Ha Hz. rewrite Hrefs, Hz by done. by destruct (_ && _).
      + exists n, e. split; [lia|]. done. }
  destruct Hm as (M1 & M2 & M3). assert (Hm : mem_eq s2 s1) by done.
  split; [by rewrite Hm|done| | | | | | | |].
  - intros p Hp. rewrite Hm. unfold s1. rewrite (wr_leaf_descend s (masked cr3) (va_path v)); [by apply U3|done|apply va_path_ok|apply va_path_ok|done|done].
  - intros f Hf. rewrite Hm. unfold s1. rewrite page_of_wr, decide_False; [by apply U4|]. intros ->. apply (Hf (va_path v)); [apply va_path_ok|done].
  - by rewrite M2.
  - intros w Hw. rewrite Hm, W3, U6 by done. change (flag 0 PTE_PRESENT) with false. cbn iota. assert (Hv : 0 <= v < 2 ^ 48) by (unfold v, PAGE_SIZE in *; lia).
    destruct (decide (same_page v w)) as [Es|Es]; rewrite (same_page_div v w Hv Hw) in Es; repeat case_decide; try done; unfold v, PAGE_SIZE in *; zlia.
  - intros q Hq Hq0. rewrite Hrefs, U7, shared_maps_next by done. fold v. rewrite He. destruct (counted e && (masked e =? q)); lia.
  - intros q [Hq|Hq]; apply Hg; [left; by apply U8|by right].
  - intros q Hq. rewrite M2 in Hq. rewrite Hg. apply U9 in Hq. tauto.
  - intros q Hq. rewrite M2. rewrite Hg in Hq. specialize (U10 q). tauto.
Qed.

(** Every frame of a run is below 2^52. *)
Lemma run_bounds n s (r : run) : unmapping n s (in_range (run_start r) (run_pages r)) -> frames_owned n -> 0 < run_pages r ->
  0 <= run_start r /\ run_start r + run_pages r * PAGE_SIZE <= 2 ^ 52 + PAGE_SIZE.
Proof.
  intros U Ho Hp.
  assert (Hin : forall k, 0 <= k < run_pages r -> 0 <= run_start r + k * PAGE_SIZE < 2 ^ 52).
  { intros k Hk. destruct (given_back_frame n s (run_start r + k * PAGE_SIZE) Ho) as [(e & He & Hq & _) _]; [apply (um_run _ _ _ U); by exists k|].
    destruct (same_frame_elem _ _ e (same_frame_sym _ _ (um_same _ _ _ U)) He) as (e' & He' & E1 & E2).
    destruct (mo_range _ (um_mm _ _ _ U) e' He'). destruct (wf_pmm_elem _ _ (mo_pmm _ (um_mm _ _ _ U)) He').
    unfold usable_start, PAGE_SIZE in *. lia. }
  pose proof (Hin 0 ltac:(lia)). pose proof (Hin (run_pages r - 1) ltac:(lia)). unfold PAGE_SIZE in *. lia.
Qed.

Lemma in_range_snoc p k q : 0 <= k -> in_range p (k + 1) q <-> in_range p k q \/ q = p + k * PAGE_SIZE.
Proof.
  intros Hk. split.
  - intros (j & Hj & ->). destruct (decide (j = k)) as [->|]; [by right|left; exists j; split; [lia|done]].
  - intros [(j & Hj & ->)| ->]; [exists j|exists k]; (split; [lia|done]).
Qed.

(** The body of the loop. *)
Lemma unmap_pte_step fa pt vp n s r : pt_ok s0 (masked cr3) -> pmm_gapped (pmm s0) -> 0 <= n -> 0 <= va -> va `mod` PAGE_SIZE = 0 -> va + (n + 1) * PAGE_SIZE <= 2 ^ 48 ->
  masked cr3 <> 0 -> frames_owned (n + 1) -> descend s0 (masked cr3) (va_path (va + n * PAGE_SIZE)) = Some pt ->
  0 <= run_pages r <= n -> unmapping n s (in_range (run_start r) (run_pages r)) ->
  let '(s', r') := unmap_pte fa pt (pt_index (va + n * PAGE_SIZE) 12) vp (s, r) in
  0 <= run_pages r' <= n + 1 /\ unmapping (n + 1) s' (in_range (run_start r') (run_pages r')).
Proof.
  intros Hpt Hg Hn Hva Hal Hend Hr Ho Hd Hlen U. set (v := va + n * PAGE_SIZE) in *. set (e := rd s pt (pt_index v 12)).
  assert (Hpte : pte_of s0 cr3 v = if flag e PTE_PRESENT then Some e else None).
  { rewrite <- (decide_False (P := va <= v < va + n * PAGE_SIZE) None (pte_of s0 cr3 v)) by (unfold v, PAGE_SIZE in *; lia).
    rewrite <- (um_pte _ _ _ U) by (unfold v, PAGE_SIZE in *; lia). rewrite pte_of_leaf by done. unfold leaf.
    rewrite (um_tables _ _ _ U), Hd by apply va_path_ok. done. }
  unfold unmap_pte. fold e. destruct (flag e PTE_PRESENT) eqn:Ep; cbn [negb].
  2: { split; [lia|]. by apply unmapping_skip. }
  set (s1 := wr s pt (pt_index v 12) 0). set (s1' := if negb fa then tlb_do s1 (Invlpg vp) else s1).
  assert (Hm1 : mem_eq s1' s1) by (unfold s1'; by destruct (negb fa)). assert (Hc1 : cow s1' = cow s) by (unfold s1'; by destruct (negb fa)).
  destruct (flag e PTE_NOFREE) eqn:En.
  { split; [lia|]. eapply unmapping_ext; [|apply (unmapping_clear n s (in_range (run_start r) (run_pages r)) e pt s1'); try done; rewrite Hc1; [apply U|]].
    - intros q. split; [intros [?|(_ & ? & _)]; [done|congruence]|by left].
    - intros q _ _. unfold counted. by rewrite En. }
  set (held := if flag e (Z.lor PTE_COW PTE_SHARED) then let '(refs, s) := cow_unref_page s1' (masked e) in (negb (refs =? 0), s) else (false, s1')).
  assert (Hheld : exists s2, held = (counted e && negb (refs_of (cow s2) (masked e) =? 0), s2) /\
    unmapping (n + 1) s2 (fun q => in_range (run_start r) (run_pages r) q \/ (q = masked e /\ flag e PTE_NOFREE = false /\ (counted e = true -> refs_of (cow s2) q = 0)))).
  { unfold held. assert (Ec : counted e = flag e (Z.lor PTE_COW PTE_SHARED)) by (unfold counted; by rewrite En).
    pose proof (masked_page e) as [Hmp Hm0]. assert (C : counted e = true \/ counted e = false) by (destruct (counted e); auto). destruct C as [C|C].
    - rewrite <- Ec. replace (if counted e then let '(refs, s) := cow_unref_page s1' (masked e) in (negb (refs =? 0), s) else (false, s1'))
        with (let '(refs, s) := cow_unref_page s1' (masked e) in (negb (refs =? 0), s)) by (by rewrite C). destruct (cow_unref_page s1' (masked e)) as [refs s2] eqn:Eu.
      destruct (unref_page_spec s1' (masked e) refs s2) as (V1 & V2 & _ & V4 & V5); [rewrite Hc1; apply U|done|done|]. rewrite Hc1 in V4, V5. exists s2. split.
      + rewrite V5, decide_True, C by done. done.
      + apply (unmapping_clear n s (in_range (run_start r) (run_pages r)) e pt s2); try done; [etrans; [exact V2|exact Hm1]|].
        intros q Hq Hq0. rewrite V5, V4, C by done. cbn [andb]. destruct (decide (masked e / PAGE_SIZE = q / PAGE_SIZE)) as [E|NE].
        * assert (masked e = q) as <- by (unfold PAGE_SIZE in *; zlia). rewrite Z.eqb_refl. lia.
        * destruct (Z.eqb_spec (masked e) q) as [E|]; [by rewrite E in NE|done].
    - rewrite <- Ec. exists s1'. split; [by rewrite C|]. apply (unmapping_clear n s (in_range (run_start r) (run_pages r)) e pt s1'); try done; rewrite Hc1; [apply U|]. intros q _ _. by rewrite C. }
  destruct Hheld as (s2 & -> & U2). destruct (counted e && negb (refs_of (cow s2) (masked e) =? 0)) eqn:Eh.
  - split; [lia|]. eapply unmapping_ext; [|exact U2]. intros q. split; [|by left]. intros [?|(-> & _ & Hz)]; [done|]. bool_prop. by rewrite Hz in *.
  - assert (U3 : unmapping (n + 1) s2 (fun q => in_range (run_start r) (run_pages r) q \/ in_range (masked e) 1 q)).
    { eapply unmapping_ext; [|exact U2]. intros q. rewrite in_range_one. split; [intros [?|(-> & _)]; tauto|]. intros [?| ->]; [by left|right].
      split; [done|]. split; [done|]. intros C. rewrite C in Eh. simpl in Eh. by bool_prop. }
    destruct (negb (run_pages r =? 0) && (masked e =? run_start r +w run_pages r *w PAGE_SIZE)) eqn:Ej; bool_prop.
    + destruct (run_bounds n s r) as [Hb0 Hb1]; [by eapply unmapping_ext; [|exact U]|intros k e' Hk; apply Ho; lia|lia|].
      assert (Ew : wrap64 (run_pages r * PAGE_SIZE) = run_pages r * PAGE_SIZE) by (apply wrap64_small; unfold PAGE_SIZE in *; lia).
      assert (Es : masked e = run_start r + run_pages r * PAGE_SIZE) by (rewrite Ew, wrap64_small in *; unfold PAGE_SIZE in *; lia).
      assert (Ep1 : run_pages r +w 1 = run_pages r + 1) by (apply wrap64_small; unfold PAGE_SIZE in *; lia). rewrite Ep1. split; [simpl; lia|].
      eapply unmapping_ext; [|exact U3]. intros q. cbn [run_start run_pages]. rewrite in_range_one, Es.
      symmetry. apply in_range_snoc. lia.
    + split; [simpl; lia|]. apply (flush_run (n + 1)); [done|done|unfold PAGE_SIZE in *; lia|exact U3].
Qed.

(** ** The loops *)

(** The pages of one table. *)
Lemma unmap_span fa pt vp n m s r : pt_ok s0 (masked cr3) -> pmm_gapped (pmm s0) -> 0 <= n -> 0 <= va -> va `mod` PAGE_SIZE = 0 ->
  va + (n + Z.of_nat m) * PAGE_SIZE <= 2 ^ 48 -> masked cr3 <> 0 -> frames_owned (n + Z.of_nat m) ->
  pt_index (va + n * PAGE_SIZE) 12 + Z.of_nat m <= 512 -> descend s0 (masked cr3) (va_path (va + n * PAGE_SIZE)) = Some pt ->
  0 <= run_pages r <= n -> unmapping n s (in_range (run_start r) (run_pages r)) ->
  let '(s', r') := for_range m 0 (fun j => unmap_pte fa pt (pt_index (va + n * PAGE_SIZE) 12 + j) (vp j)) (s, r) in
  0 <= run_pages r' <= n + Z.of_nat m /\ unmapping (n + Z.of_nat m) s' (in_range (run_start r') (run_pages r')).
Proof.
  intros Hpt Hg Hn Hva Hal Hend Hr Ho Hidx Hd Hlen U. set (idx := pt_index (va + n * PAGE_SIZE) 12) in *.
  pose proof (for_range_inv (fun j st => 0 <= run_pages st.2 <= n + j /\ unmapping (n + j) st.1 (in_range (run_start st.2) (run_pages st.2)))
    (fun j => unmap_pte fa pt (idx + j) (vp j)) m 0 (s, r)) as HI. destruct (for_range m 0 _ (s, r)) as [s' r']. simpl in HI. apply HI.
  { by rewrite Z.add_0_r. }
  intros j [s1 r1] Hj [L1 U1]. simpl in L1, U1. unfold PAGE_SIZE in *.
  destruct (span_page (va + n * 4096) j) as [E1 E2]; [lia|lia|fold idx; lia|]. unfold PAGE_SIZE in E1, E2.
  replace (va + n * 4096 + j * 4096) with (va + (n + j) * 4096) in E1, E2 by lia. fold idx in E2. rewrite <- E2.
  pose proof (unmap_pte_step fa pt (vp j) (n + j) s1 r1) as HS. unfold PAGE_SIZE in HS. destruct (unmap_pte fa pt _ _ _) as [s2 r2].
  rewrite Z.add_assoc. apply HS; try done; [lia|lia| |by rewrite E1]. intros k e Hk. apply Ho. lia.
Qed.

(** A table that is not there holds no pages. *)
Lemma unmap_skip_span n m s P : 0 <= n -> 0 <= va -> va `mod` PAGE_SIZE = 0 ->
  va + (n + Z.of_nat m) * PAGE_SIZE <= 2 ^ 48 -> masked cr3 <> 0 -> pt_index (va + n * PAGE_SIZE) 12 + Z.of_nat m <= 512 ->
  descend s0 (masked cr3) (va_path (va + n * PAGE_SIZE)) = None -> unmapping n s P -> unmapping (n + Z.of_nat m) s P.
Proof.
  intros Hn Hva Hal Hend Hr Hidx Hd. induction m as [|m IH]; intros U; [by rewrite Z.add_0_r|].
  replace (n + Z.of_nat (S m)) with (n + Z.of_nat m + 1) by lia. unfold PAGE_SIZE in *.
  apply unmapping_skip; unfold PAGE_SIZE; [lia|done|done|lia|done| |apply IH; lia || done].
  destruct (span_page (va + n * 4096) (Z.of_nat m)) as [E1 E2]; [lia|lia|lia|]. unfold PAGE_SIZE in E1, E2.
  rewrite pte_of_leaf by done. unfold leaf. replace (va + (n + Z.of_nat m) * 4096) with (va + n * 4096 + Z.of_nat m * 4096) by lia. by rewrite E1, Hd.
Qed.

Lemma unmap_loop fa fuel : forall n total s r, pt_ok s0 (masked cr3) -> pmm_gapped (pmm s0) -> 0 <= n <= total -> 0 <= va -> va `mod` PAGE_SIZE = 0 ->
  va + total * PAGE_SIZE <= 2 ^ 48 -> masked cr3 <> 0 -> frames_owned total -> total - n <= Z.of_nat fuel ->
  0 <= run_pages r <= n -> unmapping n s (in_range (run_start r) (run_pages r)) ->
  let '(s', r') := unmap_free_loop fuel fa cr3 va n total (s, r) in
  0 <= run_pages r' <= total /\ unmapping total s' (in_range (run_start r') (run_pages r')).
Proof.
  induction fuel as [|fuel IH]; intros n total s r Hpt Hg Hn Hva Hal Hend Hr Ho Hf Hlen U; cbn [unmap_free_loop].
  { assert (n = total) as <- by lia. done. }
  destruct (Z.ltb_spec n total) as [Hlt|]; [|assert (n = total) as <- by lia; done].
  cbv zeta. rewrite (wrap64_small (va + n * PAGE_SIZE)) by (unfold PAGE_SIZE in *; lia). set (v := va + n * PAGE_SIZE) in *.
  pose proof (pt_index_ok v 12) as Hix. unfold index_ok in Hix. set (span := Z.min (512 - pt_index v 12) (total - n)).
  rewrite get_table_descend by done. cbn [fst]. rewrite (um_tables _ _ _ U) by apply va_path_ok.
  assert (Hfo : frames_owned (n + Z.of_nat (Z.to_nat span))) by (intros k e Hk; apply Ho; lia).
  destruct (descend s0 (masked cr3) (va_path v)) as [pt|] eqn:Hd.
  - pose proof (unmap_span fa pt (fun j => v +w j * PAGE_SIZE) n (Z.to_nat span) s r Hpt Hg) as HS. fold v in HS.
    destruct (for_range (Z.to_nat span) 0 _ (s, r)) as [s1 r1]. destruct HS as [L1 U1]; try done; [lia|unfold PAGE_SIZE in *; lia|lia|].
    rewrite Z2Nat.id in L1, U1 by lia. apply IH; try done; lia.
  - replace (n + span) with (n + Z.of_nat (Z.to_nat span)) by lia. apply IH; try done; try lia.
    apply unmap_skip_span; try done; [lia|unfold PAGE_SIZE in *; lia|fold v; lia].
Qed.

End Unmap.

(** C7. [vmm_unmap_free_pages] on a range of user or low addresses: afterwards exactly the pages of the range are gone from the
    address space and all other mappings and the contents of all data frames are as before; each frame that was shared or
    copy-on-write lost one reference per page; and the frames given back to the allocator are exactly those of the range that did
    not belong to a device and that nobody else refers to, whatever runs they were freed in. *)
Theorem vmm_unmap_free_exact `{KernelHeap} s cr3 va n :
  mm_ok s -> pt_ok s (masked cr3) -> cow_ok (cow s) -> masked cr3 <> 0 -> pmm_gapped (pmm s) ->
  0 < va -> va `mod` PAGE_SIZE = 0 -> 0 < n -> va + n * PAGE_SIZE <= 2 ^ 48 -> frames_owned s cr3 va n ->
  let '(r, s') := vmm_unmap_free_pages s cr3 va n in
  r = 0 /\ mm_ok s' /\ pt_ok s' (masked cr3) /\ cow_ok (cow s') /\
  (forall v, 0 <= v < 2 ^ 48 -> pte_of s' cr3 v = if decide (va <= v < va + n * PAGE_SIZE) then None else pte_of s cr3 v) /\
  (forall f, (forall p, path_ok p -> descend s (masked cr3) p <> Some f) -> page_of s' f = page_of s f) /\
  (forall q, 0 <= q -> q `mod` PAGE_SIZE = 0 -> refs_of (cow s') q = Z.max 0 (refs_of (cow s) q - shared_maps s cr3 va (Z.to_nat n) q)) /\
  (forall q, pmm_free (pmm s') q <-> pmm_free (pmm s) q \/ given_back s cr3 va s' n q).
Proof.
  intros Hok Hpt Hc Hr Hg Hva Hal Hn Hend Ho. unfold vmm_unmap_free_pages.
  rewrite (proj2 (Z.eqb_neq va 0)), (proj2 (Z.eqb_neq n 0)) by lia. cbn [orb]. replace (PAGE_ALIGN_DOWN va) with va by (unfold PAGE_ALIGN_DOWN, PAGE_SIZE in *; zlia).
  set (fa := (va <? USER_END) && (VMM_INVLPG_MAX <? n) && (masked (cur_cr3 s) =? masked cr3)).
  assert (U0 : unmapping s cr3 va 0 s (in_range 0 0)).
  { split; try done.
    - apply same_frame_all.
    - intros v Hv. by rewrite decide_False by lia.
    - intros q Hq _. change (shared_maps s cr3 va (Z.to_nat 0) q) with 0. unfold refs_of. pose proof (cow_count_range (cow s) (cow_phys_to_index q) Hc). destruct (cow_phys_to_index q <? cow_ref_count (cow s)); lia.
    - intros q (k & Hk & _). lia.
    - intros q Hq. by left.
    - intros q [Hq|(k & e & Hk & _)]; [by left|lia]. }
  pose proof (unmap_loop s cr3 va fa (Z.to_nat n) 0 n s {| run_start := 0; run_pages := 0 |} Hpt Hg) as HL.
  destruct (unmap_free_loop _ _ _ _ _ _ _) as [s1 r1]. destruct HL as [L1 U1]; [lia|lia|done|done|done|done|lia|simpl; lia|exact U0|].
  assert (U2 : unmapping s cr3 va n (vmm_free_run s1 (run_start r1) (run_pages r1)) (fun _ => False)).
  { apply (flush_run s cr3 va n); [done|done|unfold PAGE_SIZE in *; lia|]. eapply unmapping_ext; [|exact U1]. intros q. tauto. }
  set (s2 := vmm_free_run s1 (run_start r1) (run_pages r1)) in *.
  assert (Hend2 : forall s3, mem_eq s3 s2 -> cow s3 = cow s2 -> 0 = 0 /\ mm_ok s3 /\ pt_ok s3 (masked cr3) /\ cow_ok (cow s3) /\
    (forall v, 0 <= v < 2 ^ 48 -> pte_of s3 cr3 v = if decide (va <= v < va + n * PAGE_SIZE) then None else pte_of s cr3 v) /\
    (forall f, (forall p, path_ok p -> descend s (masked cr3) p <> Some f) -> page_of s3 f = page_of s f) /\
    (forall q, 0 <= q -> q `mod` PAGE_SIZE = 0 -> refs_of (cow s3) q = Z.max 0 (refs_of (cow s) q - shared_maps s cr3 va (Z.to_nat n) q)) /\
    (forall q, pmm_free (pmm s3) q <-> pmm_free (pmm s) q \/ given_back s cr3 va s3 n q)).
  { intros s3 Hm Hc3. pose proof (unmapping_pt s cr3 va n s2 _ Hpt Ho U2) as Hpt2. destruct U2 as [V1 V2 V3 V4 V5 V6 V7 V8 V9 V10].
    split; [done|]. split; [by rewrite Hm|]. split; [by rewrite Hm|]. split; [by rewrite Hc3|]. split; [intros v Hv; rewrite Hm; by apply V6|].
    split; [intros f Hf; rewrite Hm; by apply V4|]. split; [intros q Hq Hq0; rewrite Hc3; by apply V7|].
    intros q. unfold given_back. rewrite Hc3. destruct Hm as (_ & -> & _). split; [apply V9|]. intros Hq. by apply V10 in Hq as [?|[]]. }
  destruct fa, (va <? USER_END); by apply Hend2.
Qed.

(** ** The regions near the kernel *)

Definition region_end (r : vmm_region) : Z := vr_base r + vr_pages r * PAGE_SIZE.

Record regions_ok (v : vmm_state) : Prop := {
  ro_hint : PAGE_SIZE <= vmm_base_hint v < 2 ^ 64 /\ vmm_base_hint v `mod` PAGE_SIZE = 0;
  ro_each : forall r, r ∈ vmm_regions v -> 0 < vr_base r /\ vr_base r `mod` PAGE_SIZE = 0 /\ 0 < vr_pages r /\ region_end r <= vmm_base_hint v;
  ro_sorted : StronglySorted (fun r r' => region_end r <= vr_base r') (vmm_regions v);
}.

(** Past the last region there is nothing to run into. *)
Lemma search_past candidate pages l fuel :
  (forall r, r ∈ l -> 0 < vr_base r /\ 0 < vr_pages r /\ region_end r <= candidate) -> candidate < 2 ^ 64 -> vmm_search (S fuel) candidate pages l = Some candidate.
Proof.
  intros Hl Hc. cbn [vmm_search]. assert (E : vmm_collide candidate pages l = None); [|by rewrite E].
  induction l as [|r l IH]; [done|]. cbn [vmm_collide]. destruct (Hl r ltac:(left)) as (? & ? & ?).
  unfold vmm_overlap, region_end, PAGE_SIZE in *. rewrite (wrap64_small (vr_pages r * 4096)), (wrap64_small (vr_base r + _)) by lia.
  rewrite (proj2 (Z.ltb_ge _ _)) by lia. apply IH. intros r' Hr'. apply Hl. by right.
Qed.

Lemma insert_past node l : (forall r, r ∈ l -> vr_base r < vr_base node) -> vmm_insert node l = l ++ [node].
Proof.
  intros Hl. destruct l as [|r l]; [done|]. cbn [vmm_insert]. rewrite (proj2 (Z.ltb_ge _ _)) by (pose proof (Hl r ltac:(left)); lia).
  assert (Hl' : forall x, x ∈ l -> vr_base x < vr_base node) by (intros x Hx; apply Hl; by right). clear Hl.
  revert r. induction l as [|y l IH]; intros r; [done|]. cbn [vmm_insert_after]. rewrite (proj2 (Z.ltb_lt _ _)) by (apply Hl'; left).
  rewrite IH; [done|]. intros x Hx. apply Hl'. by right.
Qed.

Lemma unlink_last base pages l : (forall r, r ∈ l -> vr_base r <> base) -> vmm_unlink base pages (l ++ [{| vr_base := base; vr_pages := pages |}]) = Some l.
Proof.
  induction l as [|r l IH]; intros Hl; cbn [app vmm_unlink vr_base vr_pages]; [by rewrite !Z.eqb_refl|].
  rewrite (proj2 (Z.eqb_neq _ _)) by (apply Hl; left). cbn [andb]. rewrite IH; [done|]. intros x Hx. apply Hl. by right.
Qed.

Lemma node_alloc_regions s b s' : vmm_node_alloc s = (b, s') ->
  vmm_regions (vmm s') = vmm_regions (vmm s) /\ vmm_base_hint (vmm s') = vmm_base_hint (vmm s).
Proof.
  unfold vmm_node_alloc, vmm_slab_refill, pmm_alloc. destruct (vmm_nodes (vmm s)) eqn:E.
  - destruct (pmm_alloc_pages (pmm s) 1) as [p r]. destruct (p =? 0); simpl; intros; by simplify_eq.
  - simpl. intros. by simplify_eq.
Qed.

Lemma sorted_snoc v r : regions_ok v -> vmm_base_hint v <= vr_base r -> StronglySorted (fun r r' => region_end r <= vr_base r') (vmm_regions v ++ [r]).
Proof.
  intros [_ He Hs] Hb. apply StronglySorted_app_2; [|done|by repeat constructor].
  intros x y Hx ->%list_elem_of_singleton. destruct (He x Hx) as (_ & _ & _ & ?). lia.
Qed.

(** Reserving kernel address space always finds a range, one that meets no region; the list of regions stays sorted and disjoint
    with exactly that one added at the end; only the lack of a list node makes it fail, without effect on the regions; and releasing
    the range gives the previous list back. *)
Lemma vmm_reserve_release s pages :
  regions_ok (vmm s) -> 0 < pages -> vmm_base_hint (vmm s) + (pages + 1) * PAGE_SIZE <= 2 ^ 64 ->
  exists base s', vmm_reserve_range_locked s pages = Some (base, s') /\ regions_ok (vmm s') /\
    if base =? 0 then vmm_regions (vmm s') = vmm_regions (vmm s)
    else
      (forall r, r ∈ vmm_regions (vmm s) -> region_end r <= base) /\
      vmm_regions (vmm s') = vmm_regions (vmm s) ++ [{| vr_base := base; vr_pages := pages |}] /\
      let '(r, s'') := vmm_release_range_locked s' base pages in
      r = 0 /\ vmm_regions (vmm s'') = vmm_regions (vmm s) /\ regions_ok (vmm s'').
Proof.
  intros HR Hp Hend. pose proof HR as [[Hh1 Hh2] He Hs]. set (h := vmm_base_hint (vmm s)) in *. unfold vmm_reserve_range_locked.
  rewrite (proj2 (Z.eqb_neq pages 0)) by lia. fold h. rewrite (proj2 (Z.ltb_ge h PAGE_SIZE)) by lia.
  rewrite search_past by (lia || (intros r Hr; destruct (He r Hr) as (? & ? & ? & ?); done)).
  destruct (vmm_node_alloc s) as [b s1] eqn:En. destruct (node_alloc_regions _ _ _ En) as [E1 E2]. fold h in E2.
  assert (HR1 : regions_ok (vmm s1)) by (split; rewrite ?E1, ?E2; done).
  destruct b; cbn [negb]; [|exists 0, s1; by simpl].
  set (node := {| vr_base := h; vr_pages := pages |}).
  assert (Hbelow : forall r, r ∈ vmm_regions (vmm s) -> vr_base r < h) by (intros r Hr; destruct (He r Hr) as (? & ? & ? & ?); unfold region_end, PAGE_SIZE in *; lia).
  cbn [vmm set_vmm set_regions vmm_base_hint vmm_regions]. rewrite E1, E2, (insert_past node _ Hbelow).
  assert (En2 : PAGE_ALIGN_UP (h +w pages *w PAGE_SIZE) = h + pages * PAGE_SIZE).
  { unfold PAGE_ALIGN_UP, PAGE_SIZE in *. rewrite !(wrap64_small (pages * 4096)), !(wrap64_small (h + _)), wrap64_small by lia. zlia. }
  rewrite En2, (proj2 (Z.ltb_lt h _)) by (unfold PAGE_SIZE; lia). eexists h, _. split; [done|].
  assert (Hsort : StronglySorted (fun r r' => region_end r <= vr_base r') (vmm_regions (vmm s) ++ [node])) by (apply sorted_snoc; [done|simpl; lia]).
  assert (HR' : forall l, (forall r, r ∈ l -> r ∈ vmm_regions (vmm s) ++ [node]) -> StronglySorted (fun r r' => region_end r <= vr_base r') l ->
    forall v, vmm_regions v = l -> vmm_base_hint v = h + pages * PAGE_SIZE -> regions_ok v).
  { intros l Hl Hsl v Ev Eh. split; rewrite ?Ev, ?Eh; [unfold PAGE_SIZE in *; split; [lia|zlia]| |done].
    intros r Hr. apply Hl, elem_of_app in Hr as [Hr|Hr]; [destruct (He r Hr) as (? & ? & ? & ?); unfold PAGE_SIZE in *; split_and!; lia || done|].
    apply list_elem_of_singleton in Hr as ->. unfold node, region_end, PAGE_SIZE in *. simpl. split_and!; lia || done. }
  split; [by eapply HR'|]. rewrite (proj2 (Z.eqb_neq h 0)) by (unfold PAGE_SIZE in *; lia).
  split; [intros r Hr; by destruct (He r Hr) as (_ & _ & _ & ?)|]. split; [done|].
  unfold vmm_release_range_locked. cbn [vmm set_vmm set_hint set_regions vmm_regions].
  rewrite unlink_last by (intros r Hr; pose proof (Hbelow r Hr); lia). split; [done|]. split; [done|].
  eapply HR'; [|exact Hs|done|done]. intros r Hr. apply elem_of_app. by left.
Qed.

(** ** Examples *)

#[local] Instance no_kernel_heap : KernelHeap := {| h_kmalloc := fun _ s => (0, s); h_kfree := fun _ s => s |}.

Definition demo_regions : vmm_state :=
  {| vmm_regions := [{| vr_base := 0x10000; vr_pages := 2 |}]; vmm_base_hint := 0x12000; vmm_init_done := true; vmm_nodes := 3 |}.

Lemma vmm_reserve_release_witness : exists s', vmm_reserve_range_locked (set_vmm boot_mm demo_regions) 4 = Some (0x12000, s') /\ length (vmm_regions (vmm s')) = 2%nat.
Proof.
  destruct (vmm_reserve_release (set_vmm boot_mm demo_regions) 4) as (base & s' & E & _ & H).
  - split; [by vm_compute| |by repeat constructor].
    intros r Hr. apply list_elem_of_singleton in Hr as ->. unfold region_end, PAGE_SIZE. simpl. split_and!; lia || done.
  - lia.
  - unfold PAGE_SIZE. simpl. lia.
  - assert (base = 0x12000) as -> by (vm_compute in E; congruence). exists s'. split; [exact E|]. destruct H as (_ & -> & _). reflexivity.
Defined.

Lemma demo_pmm : exists e, pmm cow_mm = [e] /\ usable_start e = 1052672 /\ usable_end e = 1179648.
Proof.
  assert (E : map (fun e => (usable_start e, usable_end e)) (pmm cow_mm) = [(1052672, 1179648)]) by (vm_compute; reflexivity).
  destruct (pmm cow_mm) as [|e [|]]; [discriminate E| |discriminate E]. injection E as E1 E2. by exists e.
Qed.

Lemma demo_frames_owned : frames_owned cow_mm 4096 demo_va 2.
Proof.
  intros k e Hk He _. destruct cow_mm_ok as (_ & _ & [_ Hd] & Hp). assert (k = 0 \/ k = 1) as [->| ->] by lia.
  - assert (e = demo_pte) as -> by (change (demo_va + 0 * PAGE_SIZE) with demo_va in He; rewrite Hp in He; by injection He). clear He Hp. split.
    + destruct demo_pmm as (e & -> & E1 & E2). exists e. rewrite E1, E2. assert (Em : masked demo_pte = 1056768) by (vm_compute; reflexivity). rewrite Em. split; [left|]. split; [lia|reflexivity].
    + assert (E : masked demo_pte = demo_frame) by (vm_compute; reflexivity). rewrite E. exact Hd.
  - assert (N : pte_of cow_mm 4096 (demo_va + 1 * PAGE_SIZE) = None) by (vm_compute; reflexivity). rewrite N in He. discriminate He.
Qed.

Lemma vmm_unmap_free_exact_witness : pte_of (vmm_unmap_free_pages cow_mm 4096 demo_va 2).2 4096 demo_va = None.
Proof.
  destruct cow_mm_ok as (Hok & Hpt & _).
  assert (Hc : cow_ok (cow cow_mm)) by (apply demo_cow_ok; vm_compute; reflexivity).
  assert (Hg : pmm_gapped (pmm cow_mm)).
  { destruct demo_pmm as (x & -> & E1 & E2). intros e f ->%list_elem_of_singleton ->%list_elem_of_singleton. rewrite E1, E2. discriminate. }
  pose proof (vmm_unmap_free_exact cow_mm 4096 demo_va 2 Hok Hpt Hc ltac:(vm_compute; discriminate) Hg ltac:(done) ltac:(reflexivity) ltac:(done) ltac:(vm_compute; discriminate) demo_frames_owned) as HT.
  destruct (vmm_unmap_free_pages cow_mm 4096 demo_va 2) as [r s']. destruct HT as (_ & _ & _ & _ & Hp & _). cbn [snd].
  specialize (Hp demo_va). rewrite decide_True in Hp by (unfold demo_va, PAGE_SIZE; lia). apply Hp. unfold demo_va. lia.
Defined.
