(* ===== verification/Mmap.v ===== *)
(** * The mappings of a process

    [kernel/src/mm/userspace/mmap.c]: the list of mappings of a process, sorted by address,
    and what [mmap], [munmap], [mprotect], [madvise] and a page fault do with it.  The linked
    list is the list of its nodes; [ua_node] is a node's address in the kernel heap.

    The memory of the machine is the state of [Machine]; files are an interface: the class
    [Files] has the operations of [vfs.c] and [memfd.c] that this file calls, on a state that
    contains the machine's.  [Memfd] implements it. *)

From S2P Require Import Prelude Pmm Machine Paging Vmm.

(** ** What files are to a mapping *)

(** An inode is its address, 0 is [NULL]. *)
Class Files (W : Type) := {
  w_mm : W -> mm;
  w_set_mm : W -> mm -> W;
  vfs_hold : W -> Z -> W;
  vfs_drop : W -> Z -> W;
  memfd_is : W -> Z -> bool;
  memfd_track_writer : W -> Z -> Z -> Z * W;
  memfd_page : W -> Z -> Z -> bool -> Z * W;
  (** [inode_read] of a page at an offset into a frame. *)
  inode_read : W -> Z -> Z -> Z -> Z * W;
}.

Definition on_mm `{Files W} (f : mm -> mm) (w : W) : W := w_set_mm w (f (w_mm w)).

(** ** Constants *)

Definition USER_MMAP_BASE : Z := 0x0000004000000000.

Definition USER_MMAP_LIMIT : Z := 0x00007fffffe00000.

Definition PROT_READ : Z := 1.

Definition PROT_WRITE : Z := 2.

Definition PROT_EXEC : Z := 4.

Definition PROT_ANY : Z := or3 PROT_READ PROT_WRITE PROT_EXEC.

Definition MAP_PRIVATE : Z := 2.

Definition MAP_TYPE : Z := 0x0f.

Definition MAP_FIXED : Z := 0x10.

Definition MAP_NORESERVE : Z := 0x4000.

Definition MAP_POPULATE : Z := 0x8000.

Definition MAP_FIXED_NOREPLACE : Z := 0x100000.

Definition MAP_KERNEL_NOWRITE : Z := 0x80000000.

Definition UALLOC_LAZY : Z := 1.

Definition UALLOC_SHARED : Z := 2.

Definition UALLOC_NOWRITE : Z := 4.

(** [sizeof(user_alloc_t)]. *)
Definition user_alloc_size : Z := 48.

Definition MMAP_RUN_MAX : Z := 64.

(** ** The list *)

Record user_alloc := {
  ua_node : Z;
  vaddr : Z;
  pages : Z;
  prot : Z;
  uflags : Z;
  backing : Z;
  offset : Z;
}.

(** The list of a task group, and the rest of the machine. *)
Record mmaps (W : Type) := { alloc_list : list user_alloc; world : W }.
Arguments alloc_list {W}.
Arguments world {W}.
Arguments Build_mmaps {W}.

Definition with_prot (p : Z) (a : user_alloc) : user_alloc :=
  {| ua_node := ua_node a; vaddr := vaddr a; pages := pages a; prot := p; uflags := uflags a; backing := backing a; offset := offset a |}.

Definition with_flags (f : Z) (a : user_alloc) : user_alloc :=
  {| ua_node := ua_node a; vaddr := vaddr a; pages := pages a; prot := prot a; uflags := f; backing := backing a; offset := offset a |}.

Definition with_pages (n : Z) (a : user_alloc) : user_alloc :=
  {| ua_node := ua_node a; vaddr := vaddr a; pages := n; prot := prot a; uflags := uflags a; backing := backing a; offset := offset a |}.

(** What [task_vma_map_file] stores: the file, where in it, and how. *)
Definition with_backing (b off f : Z) (a : user_alloc) : user_alloc :=
  {| ua_node := ua_node a; vaddr := vaddr a; pages := pages a; prot := prot a; uflags := f; backing := b; offset := off |}.

Definition alloc_end (a : user_alloc) : Z := vaddr a +w pages a *w PAGE_SIZE.

(** A fresh anonymous node. *)
Definition new_alloc (node base n : Z) : user_alloc :=
  {| ua_node := node; vaddr := base; pages := n; prot := Z.lor PROT_READ PROT_WRITE; uflags := 0; backing := 0; offset := 0 |}.

(** The node tracking [addr] and the list without it. *)
Fixpoint alloc_unlink (addr : Z) (l : list user_alloc) : option (user_alloc * list user_alloc) :=
  match l with
  | [] => None
  | a :: next =>
    if vaddr a =? addr then Some (a, next)
    else match alloc_unlink addr next with Some (x, next') => Some (x, a :: next') | None => None end
  end.

(** The first gap of at least [n] pages: its base and how many nodes are below it. *)
Fixpoint reserve_gap (n base : Z) (l : list user_alloc) : Z * nat :=
  match l with
  | [] => (base, O)
  | a :: next =>
    if n <=? (vaddr a -w base) / PAGE_SIZE then (base, O)
    else let '(b, k) := reserve_gap n (alloc_end a) next in (b, S k)
  end.

(** The nodes below [addr, end), or [None] when one is in the way. *)
Fixpoint reserve_spot (addr end_ : Z) (l : list user_alloc) : option nat :=
  match l with
  | [] => Some O
  | a :: next =>
    if end_ <=? vaddr a then Some O
    else if addr <? alloc_end a then None
    else match reserve_spot addr end_ next with Some k => Some (S k) | None => None end
  end.

(** The index of the node that covers [addr]; the list is sorted. *)
Fixpoint alloc_find (addr : Z) (l : list user_alloc) : option nat :=
  match l with
  | [] => None
  | a :: next =>
    if addr <? vaddr a then None
    else if addr <? alloc_end a then Some O
    else match alloc_find addr next with Some k => Some (S k) | None => None end
  end.

Definition insert_at (k : nat) (a : user_alloc) (l : list user_alloc) : list user_alloc := take k l ++ a :: drop k l.

Definition prot_pte (p : Z) : Z :=
  if negb (flag p PROT_ANY) then Z.lor PTE_PROTNONE PTE_NX
  else
    let f := PTE_USER in
    let f := if flag p PROT_WRITE then Z.lor f PTE_WRITABLE else f in
    if negb (flag p PROT_EXEC) then Z.lor f PTE_NX else f.

Section Mmap.

Context {W : Type} `{Files W} `{KernelHeap}.

Definition w_kmalloc (w : W) (n : Z) : Z * W := let '(p, s) := h_kmalloc n (w_mm w) in (p, w_set_mm w s).

Definition w_kfree (w : W) (p : Z) : W := on_mm (h_kfree p) w.

Definition w_unmap_free (w : W) (cr3 addr n : Z) : W := on_mm (fun s => (vmm_unmap_free_pages s cr3 addr n).2) w.

(** ** Nodes *)

Definition writes_memfd (w : W) (a : user_alloc) : bool :=
  flag (uflags a) UALLOC_SHARED && flag (prot a) PROT_WRITE && memfd_is w (backing a).

Definition user_alloc_free (w : W) (a : user_alloc) : W :=
  let w :=
    if negb (backing a =? 0)
    then
      let w := if writes_memfd w a then (memfd_track_writer w (backing a) (-1)).2 else w in
      vfs_drop w (backing a)
    else w in
  w_kfree w (ua_node a).

(** [user_alloc_copy] to the fresh node at [node]. *)
Definition user_alloc_copy (w : W) (node : Z) (src : user_alloc) : user_alloc * W :=
  let dst := {| ua_node := node; vaddr := vaddr src; pages := pages src; prot := prot src; uflags := uflags src;
                backing := backing src; offset := offset src |} in
  (dst,
   if negb (backing dst =? 0)
   then
     let w := vfs_hold w (backing dst) in
     if writes_memfd w dst then (memfd_track_writer w (backing dst) 1).2 else w
   else w).

(** ** Reserving address space *)

Definition task_mmap_reserve (m : mmaps W) (n : Z) : Z * mmaps W :=
  if n =? 0 then (0, m)
  else
    let '(base, k) := reserve_gap n USER_MMAP_BASE (alloc_list m) in
    if USER_MMAP_LIMIT <? base then (0, m)
    else if (USER_MMAP_LIMIT - base) / PAGE_SIZE <? n then (0, m)
    else
      let '(node, w) := w_kmalloc (world m) user_alloc_size in
      if node =? 0 then (0, Build_mmaps (alloc_list m) w)
      else (base, Build_mmaps (insert_at k (new_alloc node base n) (alloc_list m)) w).

Definition task_mmap_reserve_at (m : mmaps W) (addr n : Z) : Z * mmaps W :=
  if (n =? 0) || flag addr (PAGE_SIZE - 1) then (0, m)
  else if (addr <? USER_MMAP_BASE) || (USER_MMAP_LIMIT <? addr) then (0, m)
  else if (USER_MMAP_LIMIT - addr) / PAGE_SIZE <? n then (0, m)
  else
    match reserve_spot addr (addr +w n *w PAGE_SIZE) (alloc_list m) with
    | None => (0, m)
    | Some k =>
      let '(node, w) := w_kmalloc (world m) user_alloc_size in
      if node =? 0 then (0, Build_mmaps (alloc_list m) w)
      else (addr, Build_mmaps (insert_at k (new_alloc node addr n) (alloc_list m)) w)
    end.

Definition task_mmap_release (m : mmaps W) (addr : Z) : mmaps W :=
  if addr =? 0 then m
  else match alloc_unlink addr (alloc_list m) with
       | Some (a, l) => Build_mmaps l (user_alloc_free (world m) a)
       | None => m
       end.

(** ** Mapping filled memory *)

(** [memset] of a run of frames. *)
Definition clear_run (s : mm) (phys n : Z) : mm := for_range (Z.to_nat n) 0 (fun i s => page_clear s (phys + i * PAGE_SIZE)) s.

Definition MMAP_PTE : Z := Z.lor (or3 PTE_PRESENT PTE_WRITABLE PTE_USER) PTE_NX.

(** The loop of [task_mmap]; a turn maps pages or halves [want], so [n] turns and six halvings
    are enough.  [None] when the fuel runs out; [Some false] is the failure, cleaned up. *)
Fixpoint task_mmap_loop (fuel : nat) (s : mm) (cr3 base n done want : Z) : option (bool * mm) :=
  match fuel with
  | O => None
  | S fuel =>
    if done <? n
    then
      let want := if n - done <? want then n - done else want in
      let '(phys, s) := if 1 <? want then pmm_try_alloc s want else pmm_alloc s 1 in
      if (phys =? 0) && (1 <? want) then task_mmap_loop fuel s cr3 base n done (want / 2)
      else
        let s := if negb (phys =? 0) then clear_run s phys want else s in
        let at_ := base +w done *w PAGE_SIZE in
        let '(r, s) := if phys =? 0 then (-1, s) else paging_map_range s cr3 phys at_ want MMAP_PTE in
        if negb (r =? 0)
        then
          let s := if negb (phys =? 0) then pmm_release (vmm_unmap_pages s cr3 at_ want) phys want else s in
          let s := if negb (done =? 0) then (vmm_unmap_free_pages s cr3 base done).2 else s in
          Some (false, s)
        else task_mmap_loop fuel s cr3 base n (done + want) want
    else Some (true, s)
  end.

Definition task_mmap_fuel (n : Z) : nat := Z.to_nat n + 7.

Definition task_mmap (t : task) (m : mmaps W) (n : Z) : option (Z * mmaps W) :=
  let '(base, m) := task_mmap_reserve m n in
  if base =? 0 then Some (0, m)
  else
    match task_mmap_loop (task_mmap_fuel n) (w_mm (world m)) (page_map t) base n 0 MMAP_RUN_MAX with
    | None => None
    | Some (ok, s) =>
      let m := Build_mmaps (alloc_list m) (w_set_mm (world m) s) in
      if ok then Some (base, m) else Some (0, task_mmap_release m base)
    end.

Definition task_munmap (t : task) (m : mmaps W) (addr : Z) : mmaps W :=
  if addr =? 0 then m
  else match alloc_unlink addr (alloc_list m) with
       | Some (a, l) => Build_mmaps l (user_alloc_free (w_unmap_free (world m) (page_map t) addr (pages a)) a)
       | None => m
       end.

(** ** Looking up and splitting *)

Definition task_addr_mapped (m : mmaps W) (addr : Z) : bool :=
  match alloc_find addr (alloc_list m) with Some _ => true | None => false end.

(** The file an address comes from and how far in. *)
Definition task_addr_file (m : mmaps W) (addr : Z) : option (Z * Z) :=
  match alloc_find addr (alloc_list m) with
  | None => None
  | Some k =>
    match alloc_list m !! k with
    | None => None
    | Some a => if backing a =? 0 then None else Some (backing a, offset a +w (addr - vaddr a))
    end
  end.

Definition alloc_split (m : mmaps W) (at_ : Z) : Z * mmaps W :=
  match alloc_find at_ (alloc_list m) with
  | None => (0, m)
  | Some k =>
    match alloc_list m !! k with
    | None => (0, m)
    | Some a =>
      if vaddr a =? at_ then (0, m)
      else
        let '(node, w) := w_kmalloc (world m) user_alloc_size in
        if node =? 0 then (- ENOMEM, Build_mmaps (alloc_list m) w)
        else
          let '(tail, w) := user_alloc_copy w node a in
          let tail :=
            {| ua_node := ua_node tail; vaddr := at_; pages := (alloc_end a -w at_) / PAGE_SIZE; prot := prot tail;
               uflags := uflags tail; backing := backing tail; offset := offset a +w (at_ -w vaddr a) |} in
          (0, Build_mmaps (take k (alloc_list m) ++ with_pages ((at_ -w vaddr a) / PAGE_SIZE) a :: tail :: drop (S k) (alloc_list m)) w)
    end
  end.

(** ** A fault *)

Definition task_fault_in (t : task) (m : mmaps W) (addr : Z) (write exec : bool) : Z * mmaps W :=
  match task_privilege t with
  | P_KERNEL => (0, m)
  | P_USER =>
    match alloc_find addr (alloc_list m) with
    | None => (0, m)
    | Some k =>
      match alloc_list m !! k with
      | None => (0, m)
      | Some a =>
        if negb (flag (uflags a) UALLOC_LAZY) then (0, m)
        else if negb (flag (prot a) PROT_ANY) then (0, m)
        else if (write && negb (flag (prot a) PROT_WRITE)) || (exec && negb (flag (prot a) PROT_EXEC)) then (0, m)
        else
          let page := PAGE_ALIGN_DOWN addr in
          let w := world m in
          if page_present (w_mm w) (page_map t) page then (0, m)
          else
            let at_ := offset a +w (page - vaddr a) in
            if flag (uflags a) UALLOC_SHARED
            then
              let '(frame, w) := memfd_page w (backing a) (at_ / PAGE_SIZE) true in
              if frame =? 0 then (0, Build_mmaps (alloc_list m) w)
              else
                let w := on_mm (fun s => cow_ref_page s frame) w in
                let w := on_mm (fun s => paging_map_page_invl s (page_map t) frame page (Z.lor (prot_pte (prot a)) PTE_SHARED) false) w in
                if negb (page_present (w_mm w) (page_map t) page)
                then (0, Build_mmaps (alloc_list m) (on_mm (fun s => (cow_unref_page s frame).2) w))
                else (1, Build_mmaps (alloc_list m) w)
            else
              let '((phys, _), s) := paging_alloc_empty_frame (w_mm w) in
              let w := w_set_mm w s in
              if phys =? 0 then (0, Build_mmaps (alloc_list m) w)
              else
                let '(r, w) := if negb (backing a =? 0) then inode_read w (backing a) phys at_ else (0, w) in
                if r <? 0 then (0, Build_mmaps (alloc_list m) (on_mm (fun s => pmm_release s phys 1) w))
                else
                  let w := on_mm (fun s => paging_map_page_invl s (page_map t) phys page (prot_pte (prot a)) false) w in
                  if negb (page_present (w_mm w) (page_map t) page)
                  then (0, Build_mmaps (alloc_list m) (on_mm (fun s => pmm_release s phys 1) w))
                  else (1, Build_mmaps (alloc_list m) w)
      end
    end
  end.

(** ** Unmapping *)

(** The loop over the nodes below [end_]; what it takes out is unmapped and freed in order. *)
Fixpoint unmap_walk (cr3 addr end_ : Z) (l : list user_alloc) (w : W) : list user_alloc * W :=
  match l with
  | [] => ([], w)
  | a :: next =>
    if vaddr a <? end_
    then
      if addr <=? vaddr a
      then unmap_walk cr3 addr end_ next (user_alloc_free (w_unmap_free w cr3 (vaddr a) (pages a)) a)
      else let '(l', w) := unmap_walk cr3 addr end_ next w in (a :: l', w)
    else (l, w)
  end.

Definition task_vma_unmap (t : task) (m : mmaps W) (addr len : Z) : Z * mmaps W :=
  let end_ := addr +w len in
  let '(r, m) := alloc_split m addr in
  if negb (r =? 0) then (- ENOMEM, m)
  else
    let '(r, m) := alloc_split m end_ in
    if negb (r =? 0) then (- ENOMEM, m)
    else
      let '(l, w) := unmap_walk (page_map t) addr end_ (alloc_list m) (world m) in
      (0, Build_mmaps l w).

(** ** Mapping *)

(** [false] leaves the loop with -ENOMEM. *)
Definition fill_shared (t : task) (s : mm) (base n p : Z) : bool * mm :=
  for_exit (Z.to_nat n) 0 (fun i s =>
    let '((phys, _), s) := paging_alloc_empty_frame s in
    if phys =? 0 then (false, s)
    else
      let s := cow_ref_page s phys in
      let s := paging_map_page_invl s (page_map t) phys (base +w i *w PAGE_SIZE) (Z.lor (prot_pte p) PTE_SHARED) false in
      if negb (page_present s (page_map t) (base +w i *w PAGE_SIZE))
      then (false, pmm_release (cow_unref_page s phys).2 phys 1)
      else (true, s)) s.

(** Where the new mapping goes: the base and the list with a node there, or an error. *)
Definition vma_place (t : task) (m : mmaps W) (hint len fl : Z) : Z * mmaps W :=
  let n := len / PAGE_SIZE in
  if flag fl (Z.lor MAP_FIXED MAP_FIXED_NOREPLACE)
  then
    if flag hint (PAGE_SIZE - 1) then (- EINVAL, m)
    else if (hint <? USER_MMAP_BASE) || (USER_MMAP_LIMIT <? hint) || ((USER_MMAP_LIMIT -w hint) / PAGE_SIZE <? n) then (- ENOMEM, m)
    else
      let '(r, m) := if negb (flag fl MAP_FIXED_NOREPLACE) then task_vma_unmap t m hint len else (0, m) in
      if r <? 0 then (r, m)
      else
        let '(base, m) := task_mmap_reserve_at m hint n in
        if base =? 0 then (if flag fl MAP_FIXED_NOREPLACE then - EEXIST else - ENOMEM, m) else (base, m)
  else
    let '(base, m) := if negb (hint =? 0) then task_mmap_reserve_at m (PAGE_ALIGN_DOWN hint) n else (0, m) in
    let '(base, m) := if base =? 0 then task_mmap_reserve m n else (base, m) in
    if base =? 0 then (- ENOMEM, m) else (base, m).

(** [a->field = v] on the node that covers [addr]. *)
Definition alloc_update (addr : Z) (f : user_alloc -> user_alloc) (m : mmaps W) : mmaps W :=
  match alloc_find addr (alloc_list m) with
  | Some k => Build_mmaps (alter f k (alloc_list m)) (world m)
  | None => m
  end.

Definition task_vma_map (t : task) (m : mmaps W) (hint len p fl : Z) : Z * mmaps W :=
  let n := len / PAGE_SIZE in
  if (Z.land fl MAP_TYPE =? MAP_PRIVATE) && flag p PROT_WRITE && negb (flag fl MAP_NORESERVE) &&
     (paging_get_usable_mem_size (memmap (w_mm (world m))) <? len)
  then (- ENOMEM, m)
  else
    let '(base, m) := vma_place t m hint len fl in
    if base <? 0 then (base, m)
    else
      let m := alloc_update base (with_prot p) m in
      if negb (Z.land fl MAP_TYPE =? MAP_PRIVATE)
      then
        let '(ok, s) := fill_shared t (w_mm (world m)) base n p in
        let m := Build_mmaps (alloc_list m) (w_set_mm (world m) s) in
        if negb ok then (- ENOMEM, (task_vma_unmap t m base len).2) else (base, m)
      else
        let m := alloc_update base (with_flags UALLOC_LAZY) m in
        if flag fl MAP_POPULATE && flag p PROT_ANY
        then
          let '(ok, m) := for_exit (Z.to_nat n) 0 (fun i m =>
            let '(r, m) := task_fault_in t m (base +w i *w PAGE_SIZE) false false in (negb (r =? 0), m)) m in
          if negb ok then (- ENOMEM, (task_vma_unmap t m base len).2) else (base, m)
        else (base, m).

Definition task_vma_map_file (t : task) (m : mmaps W) (hint len p fl inode off : Z) : Z * mmaps W :=
  let shared := negb (Z.land fl MAP_TYPE =? MAP_PRIVATE) in
  let '(err, m) :=
    if shared && memfd_is (world m) inode && flag p PROT_WRITE
    then
      let '(err, w) := memfd_track_writer (world m) inode 1 in
      if negb (err =? 0) then (err, Build_mmaps (alloc_list m) w)
      else (0, Build_mmaps (alloc_list m) (memfd_track_writer w inode (-1)).2)
    else (0, m) in
  if negb (err =? 0) then (err, m)
  else
    let '(base, m) := task_vma_map t m hint len p
      (Z.lor (Z.lor (clear_bits fl (or3 MAP_TYPE MAP_POPULATE MAP_KERNEL_NOWRITE)) MAP_PRIVATE) MAP_NORESERVE) in
    if base <? 0 then (base, m)
    else
      let f := Z.lor UALLOC_LAZY (if shared && memfd_is (world m) inode then UALLOC_SHARED else 0) in
      let f := if shared && flag fl MAP_KERNEL_NOWRITE then Z.lor f UALLOC_NOWRITE else f in
      let m := alloc_update base (with_backing inode off f) m in
      let m := Build_mmaps (alloc_list m) (vfs_hold (world m) inode) in
      let m :=
        if flag f UALLOC_SHARED && flag p PROT_WRITE && memfd_is (world m) inode
        then Build_mmaps (alloc_list m) (memfd_track_writer (world m) inode 1).2 else m in
      if flag fl MAP_POPULATE && flag p PROT_ANY
      then (base, for_range (Z.to_nat (len / PAGE_SIZE)) 0 (fun i m => (task_fault_in t m (base +w i *w PAGE_SIZE) false false).2) m)
      else (base, m).

(** ** Protecting *)

Definition protect_pte (t : task) (s : mm) (va pt i p : Z) : mm :=
  if negb (flag (rd s pt i) (Z.lor PTE_USER PTE_PROTNONE)) then s
  else
    let '(cell, s) :=
      if negb (flag p PROT_WRITE) && flag (rd s pt i) PTE_COW
      then
        let '(r, s) := paging_handle_cow_fault s (Some t) va 7 in
        if r =? 0 then (None, s) else (paging_get_page s (page_map t) va, s)
      else (Some (pt, i), s) in
    match cell with
    | None => s
    | Some (pt, i) =>
      let e := clear_bits (rd s pt i) (Z.lor (or3 PTE_USER PTE_PROTNONE PTE_WRITABLE) PTE_NX) in
      let f := prot_pte p in
      let f := if flag (rd s pt i) PTE_COW then clear_bits f PTE_WRITABLE else f in
      tlb_do (wr s pt i (Z.lor e f)) (Invlpg va)
    end.

(** The present pages of [va, table_end) in the table [pt]. *)
Fixpoint each_pte (fuel : nat) (t : task) (s : mm) (pt va table_end p : Z) : mm :=
  match fuel with
  | O => s
  | S fuel =>
    if va <? table_end
    then
      let i := pt_index va 12 in
      let s := if flag (rd s pt i) PTE_PRESENT then protect_pte t s va pt i p else s in
      each_pte fuel t s pt (va +w PAGE_SIZE) table_end p
    else s
  end.

(** [vma_each_pte] with [protect_pte]; a table has 512 pages at most, a turn covers one page at
    least. *)
Fixpoint vma_each_pte (fuel : nat) (t : task) (s : mm) (va end_ p : Z) : mm :=
  match fuel with
  | O => s
  | S fuel =>
    if va <? end_
    then
      let table_end := Z.land va (Z.lnot (512 * PAGE_SIZE - 1)) +w 512 * PAGE_SIZE in
      let table_end := if end_ <? table_end then end_ else table_end in
      let s := match paging_get_table s (page_map t) va with Some pt => each_pte 512 t s pt va table_end p | None => s end in
      vma_each_pte fuel t s table_end end_ p
    else s
  end.

(** How far from [at_] the mappings reach without a hole, up to [end_]. *)
Fixpoint covered_to (at_ end_ : Z) (l : list user_alloc) : Z :=
  match l with
  | [] => at_
  | a :: next =>
    if end_ <=? at_ then at_
    else if alloc_end a <=? at_ then covered_to at_ end_ next
    else if at_ <? vaddr a then at_
    else covered_to (alloc_end a) end_ next
  end.

(** A node that may never be written from the first one on. *)
Fixpoint any_nowrite (end_ : Z) (l : list user_alloc) : bool :=
  match l with
  | [] => false
  | a :: next => if vaddr a <? end_ then (if flag (uflags a) UALLOC_NOWRITE then true else any_nowrite end_ next) else false
  end.

(** The loop that stores the new protection and keeps the count of writers; [false] is the
    return with -EPERM. *)
Fixpoint protect_walk (end_ p : Z) (l : list user_alloc) (w : W) : bool * list user_alloc * W :=
  match l with
  | [] => (true, [], w)
  | a :: next =>
    if vaddr a <? end_
    then
      let was := writes_memfd w a in
      let a' := with_prot p a in
      let now := writes_memfd w a' in
      let '(r, w) := if now && negb was then memfd_track_writer w (backing a) 1 else (0, w) in
      if r <? 0 then (false, a :: next, w)
      else
        let w := if was && negb now then (memfd_track_writer w (backing a) (-1)).2 else w in
        let '(ok, next', w) := protect_walk end_ p next w in
        (ok, a' :: next', w)
    else (true, l, w)
  end.

Definition task_vma_protect (t : task) (m : mmaps W) (addr len p : Z) : Z * mmaps W :=
  let end_ := addr +w len in
  if covered_to addr end_ (alloc_list m) <? end_ then (- ENOMEM, m)
  else
    let '(r, m) := alloc_split m addr in
    if negb (r =? 0) then (- ENOMEM, m)
    else
      let '(r, m) := alloc_split m end_ in
      if negb (r =? 0) then (- ENOMEM, m)
      else
        let k := default (length (alloc_list m)) (alloc_find addr (alloc_list m)) in
        if flag p PROT_WRITE && any_nowrite end_ (drop k (alloc_list m)) then (- EACCES, m)
        else
          let '(ok, l, w) := protect_walk end_ p (drop k (alloc_list m)) (world m) in
          let m := Build_mmaps (take k (alloc_list m) ++ l) w in
          if negb ok then (- EPERM, m)
          else
            (0, Build_mmaps (alloc_list m)
                  (on_mm (fun s => tlb_do (vma_each_pte (Z.to_nat (len / PAGE_SIZE + 1)) t s addr end_ p) (Shootdown (page_map t))) (world m))).

(** ** Discarding *)

Fixpoint discard_walk (cr3 addr end_ : Z) (l : list user_alloc) (w : W) : W :=
  match l with
  | [] => w
  | a :: next =>
    if vaddr a <? end_
    then
      let w :=
        if negb (flag (uflags a) UALLOC_LAZY) || (alloc_end a <=? addr) then w
        else
          let s := if addr <? vaddr a then vaddr a else addr in
          let e := if alloc_end a <? end_ then alloc_end a else end_ in
          w_unmap_free w cr3 s ((e - s) / PAGE_SIZE) in
      discard_walk cr3 addr end_ next w
    else w
  end.

Definition task_vma_discard (t : task) (m : mmaps W) (addr len : Z) : Z * mmaps W :=
  (0, Build_mmaps (alloc_list m) (discard_walk (page_map t) addr (addr +w len) (alloc_list m) (world m))).

End Mmap.
