(* ===== verification/MmapProofs.v ===== *)
(** * The mappings of a process: proofs

    The list is sorted, its mappings do not overlap and lie in the window.  It stands for a
    map from addresses to what is mapped there; reserving finds the lowest gap, splitting does
    not change the map, unmapping and protecting change it exactly in their range, and a mapping
    that fails gives back what was filled in. *)

From stdpp Require Import sorting.
From S2P Require Import Prelude Pmm Machine Paging Faults Vmm Mmap.

(** ** The invariant and the abstract map *)

Definition uend (a : user_alloc) : Z := vaddr a + pages a * PAGE_SIZE.

Record vma_ok (a : user_alloc) : Prop := {
  vo_base : USER_MMAP_BASE <= vaddr a;
  vo_aligned : vaddr a `mod` PAGE_SIZE = 0;
  vo_pages : 0 < pages a;
  vo_limit : uend a <= USER_MMAP_LIMIT;
}.

Definition below (a b : user_alloc) : Prop := uend a <= vaddr b.

Record vmas_ok (l : list user_alloc) : Prop := {
  vs_each : forall a, a ∈ l -> vma_ok a;
  vs_sorted : StronglySorted below l;
}.

(** What an address of a mapping is: its protection, flags, file and place in the file. *)
Definition view (a : user_alloc) (x : Z) : Z * Z * Z * Z := (prot a, uflags a, backing a, offset a +w (x - vaddr a)).

Definition covers (a : user_alloc) (x : Z) : Prop := vaddr a <= x < uend a.

#[export] Instance covers_dec a x : Decision (covers a x).
Proof. unfold covers. apply _. Defined.

(** The abstract map. *)
Fixpoint vma_at (l : list user_alloc) (x : Z) : option (Z * Z * Z * Z) :=
  match l with
  | [] => None
  | a :: l => if decide (covers a x) then Some (view a x) else vma_at l x
  end.

Lemma alloc_end_ok a : vma_ok a -> alloc_end a = uend a.
Proof.
  intros [H1 H2 H3 H4]. unfold alloc_end, uend, USER_MMAP_BASE, USER_MMAP_LIMIT, PAGE_SIZE in *. by rewrite (wrap64_small (pages a * 4096)), wrap64_small by lia.
Qed.

Lemma vmas_cons a l : vmas_ok (a :: l) <-> vma_ok a /\ vmas_ok l /\ forall b, b ∈ l -> below a b.
Proof.
  split.
  - intros [H1 H2]. apply StronglySorted_inv in H2 as [H2 H3]. split; [apply H1; left|]. split.
    + split; [|done]. intros b Hb. apply H1. by right.
    + by apply list.Forall_forall.
  - intros (H1 & [H2 H3] & H4). split.
    + intros b Hb. apply elem_of_cons in Hb as [->|Hb]; auto.
    + constructor; [done|]. by apply list.Forall_forall.
Qed.

Lemma vmas_nil : vmas_ok [].
Proof. split; [intros a Ha; by apply not_elem_of_nil in Ha|constructor]. Qed.

Lemma vmas_app l1 l2 : vmas_ok (l1 ++ l2) <-> vmas_ok l1 /\ vmas_ok l2 /\ forall a b, a ∈ l1 -> b ∈ l2 -> below a b.
Proof.
  induction l1 as [|c l1 IH]; simpl.
  - split; [intros Hl; split; [apply vmas_nil|]; split; [done|]; intros a b Ha; by apply not_elem_of_nil in Ha|tauto].
  - rewrite !vmas_cons, IH. setoid_rewrite elem_of_cons. setoid_rewrite elem_of_app. split.
    + intros (H1 & (H2 & H3 & H4) & H5). split_and!; try done; [intros b Hb; apply H5; by left|].
      intros a b [->|Ha] Hb; [apply H5; by right|by apply H4].
    + intros ((H1 & H2 & H3) & H4 & H5). split_and!; try done; [intros a b Ha Hb; apply H5; auto|].
      intros b [Hb|Hb]; [by apply H3|apply H5; auto].
Qed.

(** A mapping that covers nothing of a list below or above it. *)
Lemma vma_at_none l x : (forall a, a ∈ l -> ~ covers a x) -> vma_at l x = None.
Proof.
  induction l as [|a l IH]; intros Hl; simpl; [done|]. rewrite decide_False by (apply Hl; left). apply IH. intros b Hb. apply Hl. by right.
Qed.

Lemma vma_at_app l1 l2 x : vma_at (l1 ++ l2) x = match vma_at l1 x with Some v => Some v | None => vma_at l2 x end.
Proof. induction l1 as [|a l IH]; simpl; [done|]. by destruct (decide (covers a x)). Qed.

Lemma vma_at_some l x v : vma_at l x = Some v -> exists a, a ∈ l /\ covers a x /\ v = view a x.
Proof.
  induction l as [|a l IH]; simpl; [done|]. destruct (decide (covers a x)) as [Hc|Hc].
  - intros [= <-]. exists a. split; [left|done].
  - intros Hv. destruct (IH Hv) as (b & Hb & ?). exists b. split; [by right|done].
Qed.

(** One mapping covers an address. *)
Lemma vma_at_covers l a x : vmas_ok l -> a ∈ l -> covers a x -> vma_at l x = Some (view a x).
Proof.
  induction l as [|b l IH]; intros Hl Ha Hc; [by apply not_elem_of_nil in Ha|]. apply vmas_cons in Hl as (Hb & Hl & Hbl). simpl.
  apply elem_of_cons in Ha as [->|Ha]; [by rewrite decide_True|]. rewrite decide_False; [by apply IH|].
  specialize (Hbl a Ha). unfold below, covers in *. lia.
Qed.

(** ** Looking up *)

Lemma find_spec l x : vmas_ok l ->
  match alloc_find x l with
  | Some k => exists a, l !! k = Some a /\ covers a x
  | None => forall a, a ∈ l -> ~ covers a x
  end.
Proof.
  induction l as [|a l IH]; intros Hl; simpl; [intros a Ha; by apply not_elem_of_nil in Ha|].
  apply vmas_cons in Hl as (Ha & Hl & Hal). rewrite (alloc_end_ok a Ha). destruct (Z.ltb_spec x (vaddr a)) as [Hx|Hx].
  - intros b Hb. apply elem_of_cons in Hb as [->|Hb]; [unfold covers; lia|]. specialize (Hal b Hb). destruct Ha. unfold below, covers, uend, PAGE_SIZE in *. lia.
  - destruct (Z.ltb_spec x (uend a)) as [Hy|Hy]; [by exists a|]. specialize (IH Hl). destruct (alloc_find x l) as [k|]; [done|].
    intros b Hb. apply elem_of_cons in Hb as [->|Hb]; [unfold covers; lia|by apply IH].
Qed.

Lemma find_here l a k x : vmas_ok l -> l !! k = Some a -> covers a x -> alloc_find x l = Some k.
Proof.
  revert k. induction l as [|b l IH]; intros k Hl Hk Hc; [done|]. apply vmas_cons in Hl as (Hb & Hl & Hbl). simpl. rewrite (alloc_end_ok b Hb).
  destruct k as [|k]; simpl in Hk.
  - injection Hk as ->. unfold covers in Hc. rewrite (proj2 (Z.ltb_ge _ _)), (proj2 (Z.ltb_lt _ _)) by lia. done.
  - assert (Hin : a ∈ l) by (by eapply list_elem_of_lookup_2). specialize (Hbl a Hin). destruct Hb. unfold covers, below, uend, PAGE_SIZE in *.
    rewrite (proj2 (Z.ltb_ge _ _)), (proj2 (Z.ltb_ge _ _)) by lia. by rewrite (IH k).
Qed.

Lemma find_view l x : vmas_ok l ->
  vma_at l x = match alloc_find x l with Some k => match l !! k with Some a => Some (view a x) | None => None end | None => None end.
Proof.
  intros Hl. pose proof (find_spec l x Hl) as HF. destruct (alloc_find x l) as [k|].
  - destruct HF as (a & Hk & Hc). rewrite Hk. apply vma_at_covers; [done|by eapply list_elem_of_lookup_2|done].
  - by apply vma_at_none.
Qed.

(** ** Reserving *)

Definition overlaps (a : user_alloc) (b n : Z) : Prop := b < uend a /\ vaddr a < b + n * PAGE_SIZE.

Lemma gap_spec n l : forall base, 0 < n -> vmas_ok l -> (forall a, a ∈ l -> base <= vaddr a) -> base `mod` PAGE_SIZE = 0 -> 0 <= base < 2 ^ 64 ->
  let '(b, k) := reserve_gap n base l in
  base <= b < 2 ^ 64 /\ b `mod` PAGE_SIZE = 0 /\ (forall a, a ∈ take k l -> uend a <= b) /\ (forall a, a ∈ drop k l -> b + n * PAGE_SIZE <= vaddr a) /\
  (forall b', base <= b' < b -> b' `mod` PAGE_SIZE = 0 -> exists a, a ∈ l /\ overlaps a b' n).
Proof.
  induction l as [|a l IH]; intros base Hn Hl Hb Hal Hr; cbn [reserve_gap].
  - split_and!; try done; [lia|..|]; try (intros x Hx; by apply not_elem_of_nil in Hx). intros b' Hb'. lia.
  - apply vmas_cons in Hl as (Ha & Hl & Hal'). pose proof (Hb a ltac:(left)) as Hba. pose proof (alloc_end_ok a Ha) as Ee.
    pose proof Ha as [A1 A2 A3 A4]. unfold USER_MMAP_LIMIT, USER_MMAP_BASE in *. rewrite (wrap64_small (vaddr a - base)) by (unfold uend, PAGE_SIZE in *; lia).
    destruct (Z.leb_spec n ((vaddr a - base) / PAGE_SIZE)) as [Hg|Hg].
    + cbn [take drop]. split; [lia|]. split; [done|]. split; [intros x Hx; by apply not_elem_of_nil in Hx|]. split; [|intros; lia].
      intros x Hx. apply elem_of_cons in Hx as [->|Hx]; [unfold PAGE_SIZE in *; zlia|]. specialize (Hal' x Hx). unfold below, uend, PAGE_SIZE in *. zlia.
    + rewrite Ee. assert (Hu : 0 <= uend a < 2 ^ 64 /\ uend a `mod` PAGE_SIZE = 0) by (unfold uend, PAGE_SIZE in *; split; [lia|zlia]).
      specialize (IH (uend a) Hn Hl (fun x Hx => Hal' x Hx) (proj2 Hu) (proj1 Hu)). destruct (reserve_gap n (uend a) l) as [b k].
      destruct IH as (I1 & I2 & I3 & I4 & I5). cbn [take drop]. split; [unfold uend, PAGE_SIZE in *; lia|]. split; [done|].
      split; [intros x Hx; apply elem_of_cons in Hx as [->|Hx]; [lia|by apply I3]|]. split; [done|]. intros b' Hb' Hb'a.
      destruct (decide (b' < uend a)) as [Hlt|Hge].
      * exists a. split; [left|]. split; [done|]. unfold PAGE_SIZE in *. zlia.
      * destruct (I5 b' ltac:(lia) Hb'a) as (x & Hx & ?). exists x. split; [by right|done].
Qed.

Lemma insert_ok k a l : vmas_ok l -> vma_ok a -> (forall x, x ∈ take k l -> uend x <= vaddr a) -> (forall x, x ∈ drop k l -> uend a <= vaddr x) ->
  vmas_ok (insert_at k a l) /\ forall x, vma_at (insert_at k a l) x = if decide (covers a x) then Some (view a x) else vma_at l x.
Proof.
  intros Hl Ha Ht Hd. unfold insert_at. rewrite <- (take_drop k l) in Hl. apply vmas_app in Hl as (Hl1 & Hl2 & Hl12).
  assert (Hok : vmas_ok (take k l ++ a :: drop k l)).
  { apply vmas_app. split; [done|]. split; [apply vmas_cons; done|]. intros x y Hx Hy. apply elem_of_cons in Hy as [->|Hy]; [by apply Ht|by apply Hl12]. }
  split; [done|]. intros x. destruct (decide (covers a x)) as [Hc|Hc]; [apply vma_at_covers; [done|apply elem_mid|done]|].
  rewrite <- (take_drop k l) at 3. rewrite !vma_at_app. simpl. by rewrite decide_False.
Qed.

Lemma spot_spec addr end_ l : vmas_ok l -> addr < end_ ->
  match reserve_spot addr end_ l with
  | Some k => (forall a, a ∈ take k l -> uend a <= addr) /\ (forall a, a ∈ drop k l -> end_ <= vaddr a)
  | None => exists a, a ∈ l /\ vaddr a < end_ /\ addr < uend a
  end.
Proof.
  intros Hl Ha. induction l as [|a l IH]; cbn [reserve_spot].
  - split; intros a Hx; by apply not_elem_of_nil in Hx.
  - apply vmas_cons in Hl as (Hok & Hl & Hal). rewrite (alloc_end_ok a Hok). destruct (Z.leb_spec end_ (vaddr a)) as [Hx|Hx].
    + split; [intros x Hin; by apply not_elem_of_nil in Hin|]. intros x Hin. apply elem_of_cons in Hin as [->|Hin]; [lia|].
      specialize (Hal x Hin). destruct Hok. unfold below, uend, PAGE_SIZE in *. lia.
    + destruct (Z.ltb_spec addr (uend a)) as [Hy|Hy]; [exists a; split; [left|lia]|]. specialize (IH Hl). destruct (reserve_spot addr end_ l) as [k|].
      * destruct IH as [I1 I2]. split; [|done]. intros x Hin. apply elem_of_cons in Hin as [->|Hin]; [done|by apply I1].
      * destruct IH as (x & Hin & ?). exists x. split; [by right|done].
Qed.

(** ** Splitting *)

(** No mapping runs across the address. *)
Definition cut (l : list user_alloc) (x : Z) : Prop := forall a, a ∈ l -> ~ (vaddr a < x < uend a).

(** The two parts of a mapping. *)
Lemma split_view a at_ node : vma_ok a -> covers a at_ -> vaddr a <> at_ -> at_ `mod` PAGE_SIZE = 0 ->
  let a1 := with_pages ((at_ -w vaddr a) / PAGE_SIZE) a in
  let a2 := {| ua_node := node; vaddr := at_; pages := (alloc_end a -w at_) / PAGE_SIZE; prot := prot a; uflags := uflags a;
               backing := backing a; offset := offset a +w (at_ -w vaddr a) |} in
  vma_ok a1 /\ vma_ok a2 /\ vaddr a1 = vaddr a /\ uend a1 = at_ /\ vaddr a2 = at_ /\ uend a2 = uend a /\
  forall x, (if decide (covers a x) then Some (view a x) else None) =
            if decide (covers a1 x) then Some (view a1 x) else if decide (covers a2 x) then Some (view a2 x) else None.
Proof.
  intros Ha Hc Hne Hal. rewrite (alloc_end_ok a Ha). intros a1 a2. pose proof Ha as [A1 A2 A3 A4].
  assert (W1 : wrap64 (at_ - vaddr a) = at_ - vaddr a) by (apply wrap64_small; unfold covers, USER_MMAP_BASE, USER_MMAP_LIMIT in *; lia).
  assert (W2 : wrap64 (uend a - at_) = uend a - at_) by (apply wrap64_small; unfold covers, USER_MMAP_BASE, USER_MMAP_LIMIT in *; lia).
  assert (E1 : uend a1 = at_) by (unfold a1, uend; simpl; rewrite W1; unfold covers, uend, PAGE_SIZE in *; zlia).
  assert (E2 : uend a2 = uend a) by (unfold a2; unfold uend at 1; simpl; rewrite W2; unfold covers, uend, PAGE_SIZE in *; zlia).
  split; [|split; [|split; [done|split; [done|split; [done|split; [done|]]]]]].
  - split; [done|done|unfold a1; simpl; rewrite W1; unfold covers, PAGE_SIZE in *; zlia|rewrite E1; unfold covers in Hc; lia].
  - split; [unfold a2, covers in *; simpl; lia|done|unfold a2; simpl; rewrite W2; unfold covers, uend, PAGE_SIZE in *; zlia|by rewrite E2].
  - intros x. assert (V2 : view a2 x = view a x).
    { unfold view, a2. simpl. f_equal. rewrite W1. unfold wrap64. rewrite Zplus_mod_idemp_l. f_equal. lia. }
    rewrite V2. change (view a1 x) with (view a x).
    assert (C1 : covers a1 x <-> vaddr a <= x < at_) by (unfold covers; by rewrite E1).
    assert (C2 : covers a2 x <-> at_ <= x < uend a) by (unfold covers; by rewrite E2).
    destruct (decide (covers a x)) as [C|C], (decide (covers a1 x)) as [D1|D1], (decide (covers a2 x)) as [D2|D2]; try done;
      unfold covers in C, Hc; rewrite ?C1, ?C2 in *; exfalso; lia.
Qed.

Lemma filter_same {A : Type} (P : A -> Prop) `{!forall a, Decision (P a)} (l : list A) : (forall a, a ∈ l -> P a) -> filter P l = l.
Proof.
  induction l as [|a l IH]; intros Hl; [done|]. rewrite filter_cons_True by (apply Hl; left). f_equal. apply IH. intros b Hb. apply Hl. by right.
Qed.

Lemma filter_empty {A : Type} (P : A -> Prop) `{!forall a, Decision (P a)} (l : list A) : (forall a, a ∈ l -> ~ P a) -> filter P l = [].
Proof.
  induction l as [|a l IH]; intros Hl; [done|]. rewrite filter_cons_False by (apply Hl; left). apply IH. intros b Hb. apply Hl. by right.
Qed.

Section Mmap.

Context {W : Type} `{Files W} `{KernelHeap}.

Implicit Types m : mmaps W.

(** [task_mmap_reserve] returns the lowest page-aligned address of the window from which the pages fit between the existing
    mappings; the list stays sorted and disjoint and maps exactly those pages in addition, anonymous and read-write.  It returns
    [NULL], with the mappings unchanged, only when nothing fits anywhere in the window or the heap has no room for the node. *)
Lemma mmap_reserve_first_fit m n :
  vmas_ok (alloc_list m) -> 0 < n ->
  let '(b, m') := task_mmap_reserve m n in
  let fits b' := USER_MMAP_BASE <= b' /\ b' `mod` PAGE_SIZE = 0 /\ b' + n * PAGE_SIZE <= USER_MMAP_LIMIT /\ forall a, a ∈ alloc_list m -> ~ overlaps a b' n in
  vmas_ok (alloc_list m') /\
  ((b = 0 /\ alloc_list m' = alloc_list m /\ ((forall b', ~ fits b') \/ (w_kmalloc (world m) user_alloc_size).1 = 0)) \/
   (fits b /\ (forall b', fits b' -> b <= b') /\
    forall x, vma_at (alloc_list m') x =
      if decide (b <= x < b + n * PAGE_SIZE) then Some (Z.lor PROT_READ PROT_WRITE, 0, 0, wrap64 (x - b)) else vma_at (alloc_list m) x)).
Proof.
  intros Hl Hn. unfold task_mmap_reserve. rewrite (proj2 (Z.eqb_neq n 0)) by lia.
  pose proof (gap_spec n (alloc_list m) USER_MMAP_BASE Hn Hl) as HG. destruct (reserve_gap n USER_MMAP_BASE (alloc_list m)) as [b k].
  destruct HG as (G1 & G2 & G3 & G4 & G5); [intros a Ha; apply (vs_each _ Hl a Ha)|done|done|].
  assert (Hlow : forall b', USER_MMAP_BASE <= b' /\ b' `mod` PAGE_SIZE = 0 /\ b' + n * PAGE_SIZE <= USER_MMAP_LIMIT /\ (forall a, a ∈ alloc_list m -> ~ overlaps a b' n) -> b <= b').
  { intros b' (B1 & B2 & _ & B3). destruct (decide (b <= b')) as [|Hlt]; [done|]. destruct (G5 b' ltac:(lia) B2) as (a & Ha & Ho). by destruct (B3 a Ha). }
  destruct (Z.ltb_spec USER_MMAP_LIMIT b) as [Hb|Hb].
  { split; [done|]. left. do 2 (split; [done|]). left. intros b' Hf. specialize (Hlow b' Hf). destruct Hf as (_ & _ & Hf & _). unfold PAGE_SIZE in *. lia. }
  destruct (Z.ltb_spec ((USER_MMAP_LIMIT - b) / PAGE_SIZE) n) as [Hb2|Hb2].
  { split; [done|]. left. do 2 (split; [done|]). left. intros b' Hf. specialize (Hlow b' Hf). destruct Hf as (_ & _ & Hf & _). unfold PAGE_SIZE in *. zlia. }
  destruct (w_kmalloc (world m) user_alloc_size) as [node w] eqn:Ek. destruct (Z.eqb_spec node 0) as [->|Hnode]; [split; [done|]; left; split; [done|]; split; [done|by right]|].
  assert (Hend : b + n * PAGE_SIZE <= USER_MMAP_LIMIT) by (unfold PAGE_SIZE in *; zlia).
  destruct (insert_ok k (new_alloc node b n) (alloc_list m)) as [I1 I2]; [done| |exact G3|exact G4|].
  { split; unfold uend; simpl; done || lia. }
  split; [done|]. right. split; [split; [lia|]; split; [done|]; split; [done|]|split; [done|exact I2]].
  intros a Ha [O1 O2]. rewrite <- (take_drop k (alloc_list m)) in Ha. apply elem_of_app in Ha as [Ha|Ha]; [specialize (G3 a Ha)|specialize (G4 a Ha)]; lia.
Qed.

Lemma split_ok m at_ : vmas_ok (alloc_list m) -> at_ `mod` PAGE_SIZE = 0 ->
  let '(r, m') := alloc_split m at_ in
  vmas_ok (alloc_list m') /\ (forall x, vma_at (alloc_list m') x = vma_at (alloc_list m) x) /\
  (forall x, cut (alloc_list m) x -> cut (alloc_list m') x) /\
  ((r = 0 /\ cut (alloc_list m') at_) \/ (r = - ENOMEM /\ alloc_list m' = alloc_list m)).
Proof.
  intros Hl Hal. unfold alloc_split. pose proof (find_spec _ at_ Hl) as HF. destruct (alloc_find at_ (alloc_list m)) as [k|].
  2: { split; [done|]. split; [done|]. split; [done|]. left. split; [done|]. intros a Ha Hx. apply (HF a Ha). unfold covers. lia. }
  destruct HF as (a & Hk & Hc). rewrite Hk. assert (Hin : a ∈ alloc_list m) by (by eapply list_elem_of_lookup_2). pose proof (vs_each _ Hl a Hin) as Ha.
  pose proof (list_elem_of_split_length _ _ _ Hk) as (l1 & l2 & E & Hk1).
  assert (Hcut : forall b, b ∈ alloc_list m -> vaddr b < at_ < uend b -> b = a).
  { intros b Hb Hx. rewrite E in Hl, Hb. clear -Hl Hb Hx Hc. apply vmas_app in Hl as (_ & Hl2 & H12). apply vmas_cons in Hl2 as (_ & _ & Ha2).
    apply elem_of_app in Hb as [Hb|Hb]; [specialize (H12 b a Hb ltac:(left)); unfold below, covers in *; lia|].
    apply elem_of_cons in Hb as [->|Hb]; [done|]. specialize (Ha2 b Hb). unfold below, covers in *. lia. }
  destruct (Z.eqb_spec (vaddr a) at_) as [Ev|Ev].
  { split; [done|]. split; [done|]. split; [done|]. left. split; [done|]. intros b Hb Hx. rewrite (Hcut b Hb Hx) in Hx. lia. }
  destruct (w_kmalloc (world m) user_alloc_size) as [node w]. destruct (node =? 0); [split; [done|]; split; [done|]; split; [done|by right]|].
  unfold user_alloc_copy. cbn [ua_node vaddr pages prot uflags backing offset].
  destruct (split_view a at_ node Ha Hc Ev Hal) as (O1 & O2 & E1 & E2 & E3 & E4 & EV).
  set (a1 := with_pages _ a) in *. set (a2 := {| ua_node := node |}) in *. cbn [alloc_list].
  assert (Ht : take k (alloc_list m) = l1) by (rewrite E, Hk1; apply take_app_length).
  assert (Hd : drop (S k) (alloc_list m) = l2) by (rewrite E, cons_middle, app_assoc; apply drop_app_length'; rewrite length_app, Hk1; simpl; lia).
  rewrite Ht, Hd. rewrite E in Hl. apply vmas_app in Hl as (Hl1 & Hl2 & H12). apply vmas_cons in Hl2 as (_ & Hl2 & Ha2).
  split; [|split; [|split]].
  - apply vmas_app. split; [done|]. split.
    + apply vmas_cons. split; [done|]. split.
      * apply vmas_cons. split; [done|]. split; [done|]. intros b Hb. unfold below. rewrite E4. by apply Ha2.
      * intros b Hb. unfold below. rewrite E2. apply elem_of_cons in Hb as [->|Hb]; [lia|]. specialize (Ha2 b Hb). unfold below, covers in *. lia.
    + intros x y Hx Hy. unfold below. specialize (H12 x a Hx ltac:(left)) as Hxa. unfold below in Hxa. apply elem_of_cons in Hy as [->|Hy]; [by rewrite E1|].
      apply elem_of_cons in Hy as [->|Hy]; [rewrite E3; unfold covers in Hc; lia|]. apply (H12 x y Hx). by right.
  - intros x. rewrite E, !vma_at_app. destruct (vma_at l1 x); [done|]. cbn [vma_at]. specialize (EV x).
    destruct (decide (covers a x)), (decide (covers a1 x)); try congruence; destruct (decide (covers a2 x)); congruence.
  - intros x Hx b Hb. apply elem_of_app in Hb as [Hb|Hb]; [apply Hx; rewrite E; apply elem_of_app; by left|].
    assert (Hxa : ~ (vaddr a < x < uend a)) by (apply Hx; rewrite E; apply elem_mid).
    apply elem_of_cons in Hb as [->|Hb]; [rewrite E1, E2; unfold covers in Hc; lia|]. apply elem_of_cons in Hb as [->|Hb]; [rewrite E3, E4; unfold covers in Hc; lia|].
    apply Hx. rewrite E. apply elem_of_app. right. by right.
  - left. split; [done|]. intros b Hb. apply elem_of_app in Hb as [Hb|Hb]; [specialize (H12 b a Hb ltac:(left)); unfold below, covers in *; lia|].
    apply elem_of_cons in Hb as [->|Hb]; [rewrite E2; lia|]. apply elem_of_cons in Hb as [->|Hb]; [rewrite E3; lia|].
    specialize (Ha2 b Hb). unfold below, covers in *. lia.
Qed.

(** ** Unmapping *)

(** What happens to a mapping that goes. *)
Definition drop_mapping (cr3 : Z) (w : W) (a : user_alloc) : W := user_alloc_free (w_unmap_free w cr3 (vaddr a) (pages a)) a.

Definition starts_in (addr end_ : Z) (a : user_alloc) : Prop := addr <= vaddr a < end_.

#[local] Instance starts_in_dec addr end_ a : Decision (starts_in addr end_ a).
Proof. unfold starts_in. apply _. Defined.

Lemma unmap_walk_spec cr3 addr end_ l w : vmas_ok l ->
  unmap_walk cr3 addr end_ l w = (filter (fun a => ~ starts_in addr end_ a) l, foldl (drop_mapping cr3) w (filter (starts_in addr end_) l)).
Proof.
  revert w. induction l as [|a l IH]; intros w Hl; [done|]. apply vmas_cons in Hl as (Ha & Hl & Hal). cbn [unmap_walk].
  destruct (Z.ltb_spec (vaddr a) end_) as [He|He].
  - destruct (Z.leb_spec addr (vaddr a)) as [Hs|Hs].
    + assert (Hg : starts_in addr end_ a) by (unfold starts_in; lia). rewrite IH by done. rewrite filter_cons_False by tauto. by rewrite filter_cons_True.
    + assert (Hg : ~ starts_in addr end_ a) by (unfold starts_in; lia). rewrite IH by done. rewrite filter_cons_True by done. by rewrite filter_cons_False.
  - assert (Hall : forall b, b ∈ a :: l -> ~ starts_in addr end_ b).
    { intros b Hb. unfold starts_in. apply elem_of_cons in Hb as [->|Hb]; [lia|]. specialize (Hal b Hb). destruct Ha. unfold below, uend, PAGE_SIZE in *. lia. }
    by rewrite (filter_same (fun b => ~ starts_in addr end_ b)), (filter_empty (starts_in addr end_)).
Qed.

Lemma vmas_filter (P : user_alloc -> Prop) `{!forall a, Decision (P a)} l : vmas_ok l -> vmas_ok (filter P l).
Proof.
  induction l as [|a l IH]; intros Hl; [done|]. apply vmas_cons in Hl as (Ha & Hl & Hal). destruct (decide (P a)).
  - rewrite filter_cons_True by done. apply vmas_cons. split; [done|]. split; [by apply IH|]. intros b [_ Hb]%list_elem_of_filter. by apply Hal.
  - rewrite filter_cons_False by done. by apply IH.
Qed.

(** The mappings of a list cut at both ends of a range are inside or outside of it. *)
Lemma filter_view addr end_ l x : vmas_ok l -> cut l addr -> cut l end_ -> addr <= end_ ->
  vma_at (filter (starts_in addr end_) l) x = (if decide (addr <= x < end_) then vma_at l x else None) /\
  vma_at (filter (fun a => ~ starts_in addr end_ a) l) x = (if decide (addr <= x < end_) then None else vma_at l x).
Proof.
  intros Hl C1 C2 He. induction l as [|a l IH]; [by destruct (decide (addr <= x < end_))|]. apply vmas_cons in Hl as (Ha & Hl & Hal).
  destruct IH as [I1 I2]; [done|intros b Hb; apply C1; by right|intros b Hb; apply C2; by right|].
  pose proof (C1 a ltac:(left)) as D1. pose proof (C2 a ltac:(left)) as D2. pose proof (vo_pages _ Ha) as Hp.
  assert (Hu : vaddr a < uend a) by (unfold uend, PAGE_SIZE; lia).
  destruct (decide (starts_in addr end_ a)) as [Hs|Hs].
  - rewrite filter_cons_True, filter_cons_False by tauto. cbn [vma_at]. rewrite I1, I2. unfold starts_in in Hs.
    destruct (decide (covers a x)) as [Hc|Hc], (decide (addr <= x < end_)) as [Hx|Hx]; try done; unfold covers in Hc; exfalso; lia.
  - rewrite filter_cons_False, filter_cons_True by done. cbn [vma_at]. rewrite I1, I2. unfold starts_in in Hs.
    destruct (decide (covers a x)) as [Hc|Hc], (decide (addr <= x < end_)) as [Hx|Hx]; try done; unfold covers in Hc; exfalso; lia.
Qed.

Lemma unmap_ok t m addr len :
  vmas_ok (alloc_list m) -> addr `mod` PAGE_SIZE = 0 -> len `mod` PAGE_SIZE = 0 -> 0 <= addr -> 0 <= len -> addr + len < 2 ^ 64 ->
  let '(r, m') := task_vma_unmap t m addr len in
  vmas_ok (alloc_list m') /\
  ((r = 0 /\ (forall x, vma_at (alloc_list m') x = if decide (addr <= x < addr + len) then None else vma_at (alloc_list m) x) /\
    exists gone w, world m' = foldl (drop_mapping (page_map t)) w gone /\ vmas_ok gone /\
      forall x, vma_at gone x = if decide (addr <= x < addr + len) then vma_at (alloc_list m) x else None) \/
   (r = - ENOMEM /\ forall x, vma_at (alloc_list m') x = vma_at (alloc_list m) x)).
Proof.
  intros Hl Ha1 Ha2 Hp0 Hp1 Hend. unfold task_vma_unmap. rewrite wrap64_small by lia.
  pose proof (split_ok m addr Hl Ha1) as S1. destruct (alloc_split m addr) as [r1 m1]. destruct S1 as (L1 & V1 & _ & [(-> & C1)|(-> & _)]); [|by split; [|right]].
  cbn [negb Z.eqb]. pose proof (split_ok m1 (addr + len) L1 ltac:(unfold PAGE_SIZE in *; zlia)) as S2. destruct (alloc_split m1 (addr + len)) as [r2 m2].
  destruct S2 as (L2 & V2 & K2 & [(-> & C2)|(-> & _)]); [|split; [done|right]; split; [done|]; intros x; by rewrite V2].
  cbn [negb Z.eqb]. rewrite unmap_walk_spec by done. cbn [alloc_list world].
  assert (FV := fun x => filter_view addr (addr + len) (alloc_list m2) x L2 (K2 addr C1) C2 ltac:(lia)).
  split; [by apply vmas_filter|]. left. split; [done|]. split; [intros x; by rewrite (proj2 (FV x)), V2, V1|].
  eexists _, _. split; [done|]. split; [by apply vmas_filter|]. intros x. by rewrite (proj1 (FV x)), V2, V1.
Qed.

(** C9. [munmap] of a page-aligned range, cutting through mappings as it may: on success exactly the addresses of the range are
    unmapped, all others keep their protection, file and place in the file; the mappings handed to [vmm_unmap_free_pages] and then
    freed make up exactly what was mapped in the range; and when memory for a node is missing the call fails with no change of what
    is mapped. *)
Theorem vma_unmap_exact t m addr len :
  vmas_ok (alloc_list m) -> addr `mod` PAGE_SIZE = 0 -> len `mod` PAGE_SIZE = 0 -> 0 <= addr -> 0 <= len -> addr + len < 2 ^ 64 ->
  let '(r, m') := task_vma_unmap t m addr len in
  vmas_ok (alloc_list m') /\
  ((r = 0 /\ (forall x, vma_at (alloc_list m') x = if decide (addr <= x < addr + len) then None else vma_at (alloc_list m) x) /\
    exists gone w, world m' = foldl (drop_mapping (page_map t)) w gone /\ vmas_ok gone /\
      forall x, vma_at gone x = if decide (addr <= x < addr + len) then vma_at (alloc_list m) x else None) \/
   (r = - ENOMEM /\ forall x, vma_at (alloc_list m') x = vma_at (alloc_list m) x)).
Proof. apply unmap_ok. Qed.

(** ** Protecting *)

Definition protect_view (p : Z) (v : Z * Z * Z * Z) : Z * Z * Z * Z := let '(_, f, b, o) := v in (p, f, b, o).

Lemma covered_spec at_ end_ l : vmas_ok l -> at_ <= end_ ->
  let c := covered_to at_ end_ l in
  at_ <= c /\ (forall x, at_ <= x < Z.min c end_ -> exists a, a ∈ l /\ covers a x) /\
  (c < end_ -> forall a, a ∈ l -> ~ covers a c).
Proof.
  revert at_. induction l as [|a l IH]; intros at_ Hl Hle; cbn [covered_to].
  - split; [lia|]. split; [intros x Hx; lia|]. intros _ a Ha. by apply not_elem_of_nil in Ha.
  - pose proof Hl as Hl0. apply vmas_cons in Hl as (Ha & Hl & Hal). rewrite (alloc_end_ok a Ha). pose proof (vo_pages _ Ha) as Hp.
    assert (Hu : vaddr a < uend a) by (unfold uend, PAGE_SIZE; lia).
    destruct (Z.leb_spec end_ at_); [split; [lia|]; split; [intros x Hx; lia|intros; lia]|].
    destruct (Z.leb_spec (uend a) at_).
    + destruct (IH at_ Hl Hle) as (I1 & I2 & I3). split; [done|]. split.
      * intros x Hx. destruct (I2 x Hx) as (b & Hb & ?). exists b. split; [by right|done].
      * intros Hc b Hb. apply elem_of_cons in Hb as [->|Hb]; [unfold covers; lia|by apply I3].
    + destruct (Z.ltb_spec at_ (vaddr a)).
      * split; [lia|]. split; [intros x Hx; lia|]. intros _ b Hb. apply elem_of_cons in Hb as [->|Hb]; [unfold covers; lia|].
        specialize (Hal b Hb). unfold covers, below in *. lia.
      * destruct (decide (uend a <= end_)) as [Hle'|Hgt].
        -- destruct (IH (uend a) Hl Hle') as (I1 & I2 & I3). split; [lia|]. split.
           ++ intros x Hx. destruct (decide (x < uend a)); [exists a; split; [left|unfold covers; lia]|].
              destruct (I2 x ltac:(lia)) as (b & Hb & ?). exists b. split; [by right|done].
           ++ intros Hc b Hb. apply elem_of_cons in Hb as [->|Hb]; [unfold covers; lia|by apply I3].
        -- assert (Ec : covered_to (uend a) end_ l = uend a) by (destruct l; cbn [covered_to]; [done|]; rewrite (proj2 (Z.leb_le _ _)) by lia; done).
           rewrite Ec. split; [lia|]. split; [|intros; lia]. intros x Hx. exists a. split; [left|unfold covers; lia].
Qed.

(** Some mappings of the range have the new protection. *)
Definition reprotect (addr end_ p : Z) (a a' : user_alloc) : Prop := a' = a \/ (starts_in addr end_ a /\ a' = with_prot p a).

Lemma reprotect_ok addr end_ p l l' : vmas_ok l -> cut l addr -> cut l end_ -> Forall2 (reprotect addr end_ p) l l' ->
  vmas_ok l' /\ forall x, vma_at l' x = vma_at l x \/ (addr <= x < end_ /\ vma_at l' x = protect_view p <$> vma_at l x).
Proof.
  intros Hl C1 C2 HF. assert (Hshape : forall a a', reprotect addr end_ p a a' -> vaddr a' = vaddr a /\ uend a' = uend a) by (by intros a a' [->|[_ ->]]).
  revert Hl C1 C2. induction HF as [|a a' l l' Ha HF IH]; intros Hl C1 C2; [split; [done|by left]|]. apply vmas_cons in Hl as (Oa & Hl & Hal).
  destruct IH as [I1 I2]; [done|intros b Hb; apply C1; by right|intros b Hb; apply C2; by right|]. destruct (Hshape a a' Ha) as [E1 E2].
  assert (Op : pages a' = pages a) by (by destruct Ha as [->|[_ ->]]). split.
  - apply vmas_cons. split; [destruct Oa; split; by rewrite ?E1, ?E2, ?Op|]. split; [done|]. intros b' Hb'.
    apply list_elem_of_lookup in Hb' as [i Hi]. destruct (Forall2_lookup_r _ _ _ _ _ HF Hi) as (b & Hb & Hr). destruct (Hshape b b' Hr) as [F1 _].
    unfold below. rewrite E2, F1. apply Hal. by eapply list_elem_of_lookup_2.
  - intros x. cbn [vma_at]. assert (Hcov : covers a' x <-> covers a x) by (unfold covers; by rewrite E1, E2).
    destruct (decide (covers a' x)) as [D'|D'], (decide (covers a x)) as [D|D]; try tauto; [|apply I2].
    destruct Ha as [->|[Hs ->]]; [by left|]. right. split; [|done].
    pose proof (C2 a ltac:(left)). unfold covers, starts_in in *. lia.
Qed.

(** All of them have. *)
Lemma reprotect_all addr end_ p l l' x : vmas_ok l -> cut l addr -> cut l end_ ->
  Forall2 (fun a a' => a' = if decide (starts_in addr end_ a) then with_prot p a else a) l l' ->
  vma_at l' x = if decide (addr <= x < end_) then protect_view p <$> vma_at l x else vma_at l x.
Proof.
  intros Hl C1 C2 HF. revert Hl C1 C2. induction HF as [|a a' l l' -> HF IH]; intros Hl C1 C2; [by destruct (decide (addr <= x < end_))|].
  apply vmas_cons in Hl as (Oa & Hl & Hal). specialize (IH Hl (fun b Hb => C1 b (list_elem_of_further _ _ _ Hb)) (fun b Hb => C2 b (list_elem_of_further _ _ _ Hb))).
  pose proof (C1 a ltac:(left)) as D1. pose proof (C2 a ltac:(left)) as D2. pose proof (vo_pages _ Oa) as Hp.
  assert (Hu : vaddr a < uend a) by (unfold uend, PAGE_SIZE; lia). cbn [vma_at].
  destruct (decide (starts_in addr end_ a)) as [Hs|Hs]; unfold starts_in in Hs.
  - assert (Hcov : covers (with_prot p a) x <-> covers a x) by done.
    destruct (decide (covers (with_prot p a) x)) as [E|E], (decide (covers a x)) as [F|F]; try tauto.
    rewrite decide_True; [done|]. unfold covers in F. lia.
  - destruct (decide (covers a x)) as [F|F]; [|exact IH]. rewrite decide_False; [done|]. unfold covers in F. lia.
Qed.

Lemma protect_walk_spec addr end_ p l w : vmas_ok l -> (forall a, a ∈ l -> addr <= vaddr a) ->
  let '(ok, l', w') := protect_walk end_ p l w in
  Forall2 (reprotect addr end_ p) l l' /\
  (ok = true -> Forall2 (fun a a' => a' = if decide (starts_in addr end_ a) then with_prot p a else a) l l').
Proof.
  revert w. induction l as [|a l IH]; intros w Hl Hge; cbn [protect_walk]; [done|]. apply vmas_cons in Hl as (Oa & Hl & Hal).
  pose proof (Hge a ltac:(left)) as Ha. assert (Hrefl : forall l, Forall2 (reprotect addr end_ p) l l) by (intros k; induction k; constructor; [by left|done]).
  destruct (Z.ltb_spec (vaddr a) end_) as [He|He].
  - assert (Hs : starts_in addr end_ a) by (unfold starts_in; lia).
    destruct (if writes_memfd w (with_prot p a) && negb (writes_memfd w a) then _ else _) as [r w1]. destruct (r <? 0); [by split|].
    set (w2 := if writes_memfd w a && negb (writes_memfd w (with_prot p a)) then _ else _).
    specialize (IH w2 Hl (fun b Hb => Hge b (list_elem_of_further _ _ _ Hb))). destruct (protect_walk end_ p l w2) as [[ok l'] w3]. destruct IH as [I1 I2].
    split; [constructor; [right; done|done]|]. intros Hok. constructor; [by rewrite decide_True|by apply I2].
  - split; [apply Hrefl|]. intros _. assert (Hall : forall b, b ∈ a :: l -> ~ starts_in addr end_ b).
    { intros b Hb. unfold starts_in. apply elem_of_cons in Hb as [->|Hb]; [lia|]. specialize (Hal b Hb). destruct Oa. unfold below, uend, PAGE_SIZE in *. lia. }
    clear -Hall. induction (a :: l) as [|b k IH]; constructor; [by rewrite decide_False by (apply Hall; left)|apply IH; intros c Hc; apply Hall; by right].
Qed.

Lemma protect_ok t m addr len p :
  vmas_ok (alloc_list m) -> addr `mod` PAGE_SIZE = 0 -> len `mod` PAGE_SIZE = 0 -> 0 <= addr -> 0 < len -> addr + len < 2 ^ 64 ->
  let '(r, m') := task_vma_protect t m addr len p in
  vmas_ok (alloc_list m') /\
  ((r = 0 /\ (forall x, addr <= x < addr + len -> vma_at (alloc_list m) x <> None) /\
    forall x, vma_at (alloc_list m') x = if decide (addr <= x < addr + len) then protect_view p <$> vma_at (alloc_list m) x else vma_at (alloc_list m) x) \/
   ((r = - ENOMEM \/ r = - EACCES) /\ forall x, vma_at (alloc_list m') x = vma_at (alloc_list m) x) \/
   (r = - EPERM /\ forall x, vma_at (alloc_list m') x = vma_at (alloc_list m) x \/
      (addr <= x < addr + len /\ vma_at (alloc_list m') x = protect_view p <$> vma_at (alloc_list m) x))).
Proof.
  intros Hl Ha1 Ha2 Hp0 Hp1 Hend. unfold task_vma_protect. rewrite wrap64_small by lia.
  destruct (covered_spec addr (addr + len) _ Hl ltac:(lia)) as (_ & Hcov & _). destruct (Z.ltb_spec (covered_to addr (addr + len) (alloc_list m)) (addr + len)) as [|Hc].
  { split; [done|]. right. left. split; [by left|done]. }
  assert (Hmap : forall x, addr <= x < addr + len -> vma_at (alloc_list m) x <> None).
  { intros x Hx. destruct (Hcov x ltac:(lia)) as (a & Ha & Hax). by rewrite (vma_at_covers _ a x Hl Ha Hax). }
  pose proof (split_ok m addr Hl Ha1) as S1. destruct (alloc_split m addr) as [r1 m1].
  destruct S1 as (L1 & V1 & _ & [(-> & C1)|(-> & _)]); [|split; [done|]; right; left; split; [by left|done]].
  cbn [negb Z.eqb]. pose proof (split_ok m1 (addr + len) L1 ltac:(unfold PAGE_SIZE in *; zlia)) as S2. destruct (alloc_split m1 (addr + len)) as [r2 m2].
  assert (V : forall x, vma_at (alloc_list m2) x = vma_at (alloc_list m) x) by (destruct S2 as (_ & V2 & _); intros x; by rewrite V2, V1).
  destruct S2 as (L2 & _ & K2 & [(-> & C2)|(-> & _)]); [|split; [done|]; right; left; split; [by left|done]].
  cbn [negb Z.eqb]. apply K2 in C1. destruct (flag p PROT_WRITE && _); [split; [done|]; right; left; split; [by right|done]|].
  pose proof (find_spec _ addr L2) as HF. pose proof (find_view _ addr L2) as HV.
  destruct (alloc_find addr (alloc_list m2)) as [k|]; [|rewrite V in HV; by destruct (Hmap addr ltac:(lia))]. destruct HF as (a & Hk & Hca). change (default (length (alloc_list m2)) (Some k)) with k.
  assert (Ea : vaddr a = addr) by (pose proof (C1 a (list_elem_of_lookup_2 _ _ _ Hk)); unfold covers in Hca; lia).
  pose proof L2 as L2'. rewrite <- (take_drop k (alloc_list m2)) in L2'. apply vmas_app in L2' as (Lt & Ld & Htd).
  assert (Hd : drop k (alloc_list m2) = a :: drop (S k) (alloc_list m2)) by (by apply drop_S).
  assert (Hge : forall b, b ∈ drop k (alloc_list m2) -> addr <= vaddr b).
  { intros b Hb. rewrite Hd in Hb, Ld. apply vmas_cons in Ld as (Oa & _ & Hab). apply elem_of_cons in Hb as [->|Hb]; [lia|]. specialize (Hab b Hb).
    destruct Oa. unfold below, uend, PAGE_SIZE in *. lia. }
  assert (Hlt : forall b, b ∈ take k (alloc_list m2) -> ~ starts_in addr (addr + len) b).
  { intros b Hb. specialize (Htd b a Hb ltac:(rewrite Hd; left)). pose proof (vo_pages _ (vs_each _ Lt b Hb)). unfold below, starts_in, uend, PAGE_SIZE in *. lia. }
  pose proof (protect_walk_spec addr (addr + len) p (drop k (alloc_list m2)) (world m2) Ld Hge) as PW.
  destruct (protect_walk (addr + len) p (drop k (alloc_list m2)) (world m2)) as [[ok l'] w']. destruct PW as [P1 P2].
  assert (F1 : Forall2 (reprotect addr (addr + len) p) (alloc_list m2) (take k (alloc_list m2) ++ l')).
  { rewrite <- (take_drop k (alloc_list m2)) at 1. apply Forall2_app; [|done]. clear. induction (take k (alloc_list m2)); constructor; [by left|done]. }
  destruct (reprotect_ok addr (addr + len) p _ _ L2 C1 C2 F1) as [R1 R2]. destruct ok; cbn [negb alloc_list].
  - split; [done|]. left. split; [done|]. split; [done|]. intros x. rewrite <- (V x). apply (reprotect_all addr (addr + len) p (alloc_list m2)); try done.
    rewrite <- (take_drop k (alloc_list m2)) at 1. apply Forall2_app; [|by apply P2]. clear -Hlt. induction (take k (alloc_list m2)) as [|b l IH]; constructor.
    + by rewrite decide_False by (apply Hlt; left).
    + apply IH. intros c Hc. apply Hlt. by right.
  - split; [done|]. right. right. split; [done|]. intros x. rewrite <- (V x). apply R2.
Qed.

(** C25. [mprotect] over a page-aligned range: it succeeds only when every address of the range is mapped and then changes exactly the
    protection of exactly those, nothing else about them and nothing elsewhere.  When it fails because of a hole, the lack of memory,
    or a mapping that may never be written, nothing changes; when a sealed file refuses to be written, mappings of the range may have
    the new protection already, and still nothing else differs. *)
Theorem vma_protect_exact t m addr len p :
  vmas_ok (alloc_list m) -> addr `mod` PAGE_SIZE = 0 -> len `mod` PAGE_SIZE = 0 -> 0 <= addr -> 0 < len -> addr + len < 2 ^ 64 ->
  let '(r, m') := task_vma_protect t m addr len p in
  vmas_ok (alloc_list m') /\
  ((r = 0 /\ (forall x, addr <= x < addr + len -> vma_at (alloc_list m) x <> None) /\
    forall x, vma_at (alloc_list m') x = if decide (addr <= x < addr + len) then protect_view p <$> vma_at (alloc_list m) x else vma_at (alloc_list m) x) \/
   ((r = - ENOMEM \/ r = - EACCES) /\ forall x, vma_at (alloc_list m') x = vma_at (alloc_list m) x) \/
   (r = - EPERM /\ forall x, vma_at (alloc_list m') x = vma_at (alloc_list m) x \/
      (addr <= x < addr + len /\ vma_at (alloc_list m') x = protect_view p <$> vma_at (alloc_list m) x))).
Proof. apply protect_ok. Qed.

(** ** Mapping *)

(** What [new_alloc] maps. *)
Definition anon_view (p f b x : Z) : Z * Z * Z * Z := (p, f, 0, wrap64 (x - b)).

(** The pages at [b] are mapped in addition. *)
Definition placed (m m' : mmaps W) (b len : Z) : Prop :=
  vmas_ok (alloc_list m') /\ USER_MMAP_BASE <= b /\ b `mod` PAGE_SIZE = 0 /\ b + len <= USER_MMAP_LIMIT /\
  (forall x, b <= x < b + len -> vma_at (alloc_list m) x = None) /\
  exists k a, alloc_list m' !! k = Some a /\ vaddr a = b /\ uend a = b + len /\ backing a = 0 /\ offset a = 0 /\ uflags a = 0 /\
    forall x, vma_at (alloc_list m') x = if decide (covers a x) then Some (view a x) else vma_at (alloc_list m) x.

(** A node put between the others. *)
Lemma placed_insert m w node b n k :
  vmas_ok (alloc_list m) -> USER_MMAP_BASE <= b -> b `mod` PAGE_SIZE = 0 -> 0 < n -> b + n * PAGE_SIZE <= USER_MMAP_LIMIT -> (k <= length (alloc_list m))%nat ->
  (forall a, a ∈ take k (alloc_list m) -> uend a <= b) -> (forall a, a ∈ drop k (alloc_list m) -> b + n * PAGE_SIZE <= vaddr a) ->
  placed m (Build_mmaps (insert_at k (new_alloc node b n) (alloc_list m)) w) b (n * PAGE_SIZE).
Proof.
  intros Hl Hb Hal Hn Hlim Hk Ht Hd.
  destruct (insert_ok k (new_alloc node b n) (alloc_list m)) as [I1 I2]; [done|split; unfold uend; simpl; done || lia|done|done|].
  split; [done|]. do 3 (split; [done|]). split.
  - intros x Hx. apply vma_at_none. intros a Ha Hc. rewrite <- (take_drop k (alloc_list m)) in Ha. unfold covers in Hc.
    apply elem_of_app in Ha as [Ha|Ha]; [specialize (Ht a Ha)|specialize (Hd a Ha)]; lia.
  - exists k, (new_alloc node b n). split_and!; try done. unfold insert_at. simpl. rewrite lookup_app_r; rewrite length_take; [|lia]. by replace (k - k `min` length (alloc_list m))%nat with O by lia.
Qed.

Lemma gap_index n base l : ((reserve_gap n base l).2 <= length l)%nat.
Proof. revert base. induction l as [|a l IH]; intros base; cbn [reserve_gap]; [simpl; lia|]. destruct (_ <=? _); [simpl; lia|]. specialize (IH (alloc_end a)). destruct (reserve_gap n (alloc_end a) l). simpl in *. lia. Qed.

Lemma spot_index addr end_ l k : reserve_spot addr end_ l = Some k -> (k <= length l)%nat.
Proof.
  revert k. induction l as [|a l IH]; intros k; cbn [reserve_spot]; [intros [= <-]; simpl; lia|]. destruct (end_ <=? vaddr a); [intros [= <-]; lia|].
  destruct (addr <? alloc_end a); [done|]. destruct (reserve_spot addr end_ l) as [j|]; [|done]. intros [= <-]. specialize (IH j eq_refl). simpl. lia.
Qed.

Lemma reserve_placed m n b m' : vmas_ok (alloc_list m) -> 0 < n -> task_mmap_reserve m n = (b, m') ->
  (b = 0 /\ alloc_list m' = alloc_list m) \/ placed m m' b (n * PAGE_SIZE).
Proof.
  intros Hl Hn. unfold task_mmap_reserve. rewrite (proj2 (Z.eqb_neq n 0)) by lia. pose proof (gap_index n USER_MMAP_BASE (alloc_list m)) as Hix.
  pose proof (gap_spec n (alloc_list m) USER_MMAP_BASE Hn Hl) as HG. destruct (reserve_gap n USER_MMAP_BASE (alloc_list m)) as [b0 k].
  destruct HG as (G1 & G2 & G3 & G4 & _); [intros a Ha; apply (vs_each _ Hl a Ha)|done|done|].
  destruct (Z.ltb_spec USER_MMAP_LIMIT b0); [intros [= <- <-]; by left|]. destruct (Z.ltb_spec ((USER_MMAP_LIMIT - b0) / PAGE_SIZE) n); [intros [= <- <-]; by left|].
  destruct (w_kmalloc (world m) user_alloc_size) as [node w]. destruct (node =? 0); intros [= <- <-]; [by left|right].
  apply placed_insert; try done; [lia|unfold PAGE_SIZE in *; zlia].
Qed.

Lemma reserve_at_placed m addr n b m' : vmas_ok (alloc_list m) -> addr `mod` PAGE_SIZE = 0 -> 0 < n -> task_mmap_reserve_at m addr n = (b, m') ->
  (b = 0 /\ alloc_list m' = alloc_list m) \/ (b = addr /\ placed m m' b (n * PAGE_SIZE)).
Proof.
  intros Hl Hal Hn. unfold task_mmap_reserve_at. rewrite (proj2 (Z.eqb_neq n 0)) by lia. cbn [orb].
  destruct (flag addr (PAGE_SIZE - 1)); [intros [= <- <-]; by left|].
  destruct ((addr <? USER_MMAP_BASE) || (USER_MMAP_LIMIT <? addr)) eqn:E; [intros [= <- <-]; by left|]. bool_prop.
  destruct (Z.ltb_spec ((USER_MMAP_LIMIT - addr) / PAGE_SIZE) n); [intros [= <- <-]; by left|].
  assert (Hend : addr + n * PAGE_SIZE <= USER_MMAP_LIMIT) by (unfold PAGE_SIZE in *; zlia).
  assert (Ew : addr +w n *w PAGE_SIZE = addr + n * PAGE_SIZE) by (unfold USER_MMAP_BASE, USER_MMAP_LIMIT, PAGE_SIZE in *; rewrite (wrap64_small (n * 4096)), wrap64_small by lia; done).
  rewrite Ew. pose proof (spot_spec addr (addr + n * PAGE_SIZE) (alloc_list m) Hl ltac:(unfold PAGE_SIZE; lia)) as HS.
  destruct (reserve_spot addr (addr + n * PAGE_SIZE) (alloc_list m)) as [k|] eqn:Ek; [|intros [= <- <-]; by left]. destruct HS as [S1 S2].
  destruct (w_kmalloc (world m) user_alloc_size) as [node w]. destruct (node =? 0); intros [= <- <-]; [by left|right]. split; [done|].
  apply placed_insert; try done. by eapply spot_index.
Qed.

(** [MAP_FIXED] without [MAP_FIXED_NOREPLACE]: what is mapped there goes. *)
Definition replaces (fl : Z) : bool := flag fl (Z.lor MAP_FIXED MAP_FIXED_NOREPLACE) && negb (flag fl MAP_FIXED_NOREPLACE).

(** The mappings a [MAP_FIXED] leaves. *)
Definition cleared (m m' : mmaps W) (hint len fl : Z) : Prop :=
  vmas_ok (alloc_list m') /\
  forall x, vma_at (alloc_list m') x = vma_at (alloc_list m) x \/ (replaces fl = true /\ hint <= x < hint + len /\ vma_at (alloc_list m') x = None).

Lemma flag_page hint : 0 <= hint -> flag hint (PAGE_SIZE - 1) = negb (hint `mod` PAGE_SIZE =? 0).
Proof. intros Hh. unfold flag, PAGE_SIZE. change (4096 - 1) with (Z.ones 12). by rewrite Z.land_ones by lia. Qed.

Lemma place_ok t m hint len fl : vmas_ok (alloc_list m) -> 0 <= hint -> 0 < len -> len `mod` PAGE_SIZE = 0 -> hint + len < 2 ^ 64 ->
  let '(b, m') := vma_place t m hint len fl in
  (b < 0 /\ cleared m m' hint len fl) \/
  (exists m1, cleared m m1 hint len fl /\ (flag fl (Z.lor MAP_FIXED MAP_FIXED_NOREPLACE) = true -> b = hint) /\
     (replaces fl = true -> forall x, vma_at (alloc_list m1) x = if decide (hint <= x < hint + len) then None else vma_at (alloc_list m) x) /\
     (replaces fl = false -> forall x, vma_at (alloc_list m1) x = vma_at (alloc_list m) x) /\ placed m1 m' b len).
Proof.
  intros Hl Hh Hlen Hal Hend. unfold vma_place, cleared. set (n := len / PAGE_SIZE). assert (En : n * PAGE_SIZE = len) by (unfold n, PAGE_SIZE in *; zlia).
  assert (Hn : 0 < n) by (unfold PAGE_SIZE in *; lia). unfold replaces. destruct (flag fl (Z.lor MAP_FIXED MAP_FIXED_NOREPLACE)) eqn:Ef.
  - rewrite flag_page by done. destruct (Z.eqb_spec (hint `mod` PAGE_SIZE) 0) as [Hha|]; cbn [negb]; [|left; split; [done|]; split; [done|by left]].
    destruct (_ || _); [left; split; [done|]; split; [done|by left]|]. cbn [andb].
    destruct (flag fl MAP_FIXED_NOREPLACE) eqn:En2; cbn [negb].
    + change (0 <? 0) with false. cbn iota. destruct (task_mmap_reserve_at m hint n) as [b m'] eqn:E.
      destruct (reserve_at_placed _ _ _ _ _ Hl Hha Hn E) as [[-> E']|[-> P]].
      * left. split; [done|]. rewrite E'. split; [done|by left].
      * rewrite En in P. pose proof P as (_ & Pb & _). rewrite (proj2 (Z.eqb_neq hint 0)) by (unfold USER_MMAP_BASE in Pb; lia).
        right. exists m. split; [split; [done|by left]|]. split; [done|]. split; [done|]. split; [done|done].
    + pose proof (unmap_ok t m hint len Hl Hha Hal Hh ltac:(lia) Hend) as HU. destruct (task_vma_unmap t m hint len) as [r m1].
      destruct HU as (L1 & [(-> & V1 & _)|(-> & V1)]).
      2: { change (- ENOMEM <? 0) with true. cbn iota. left. split; [done|]. split; [done|]. intros x. left. apply V1. }
      change (0 <? 0) with false. cbn iota. destruct (task_mmap_reserve_at m1 hint n) as [b m'] eqn:E.
      assert (Hcl : forall x, vma_at (alloc_list m1) x = vma_at (alloc_list m) x \/ (true = true /\ hint <= x < hint + len /\ vma_at (alloc_list m1) x = None)).
      { intros x. rewrite V1. destruct (decide (hint <= x < hint + len)); [by right|by left]. }
      destruct (reserve_at_placed _ _ _ _ _ L1 Hha Hn E) as [[-> E']|[-> P]].
      * left. split; [done|]. rewrite E'. split; [done|exact Hcl].
      * rewrite En in P. pose proof P as (_ & Pb & _). rewrite (proj2 (Z.eqb_neq hint 0)) by (unfold USER_MMAP_BASE in Pb; lia).
        right. exists m1. split; [split; [done|exact Hcl]|]. split; [done|]. split; [done|]. split; [done|done].
  - cbn [andb]. destruct (if negb (hint =? 0) then _ else _) as [b1 m1] eqn:E1.
    assert (H1 : (b1 = 0 /\ alloc_list m1 = alloc_list m) \/ placed m m1 b1 len).
    { destruct (negb (hint =? 0)); [|left; by injection E1 as <- <-]. rewrite <- En.
      destruct (reserve_at_placed m (PAGE_ALIGN_DOWN hint) n b1 m1 Hl ltac:(unfold PAGE_ALIGN_DOWN, PAGE_SIZE; zlia) Hn E1) as [?|[-> ?]]; [by left|by right]. }
    assert (Hplaced : forall b' m', placed m m' b' len -> b' <> 0 /\ exists m1, (vmas_ok (alloc_list m1) /\ forall x, vma_at (alloc_list m1) x = vma_at (alloc_list m) x \/ (false = true /\ hint <= x < hint + len /\ vma_at (alloc_list m1) x = None)) /\
      (false = true -> b' = hint) /\ (false = true -> forall x, vma_at (alloc_list m1) x = if decide (hint <= x < hint + len) then None else vma_at (alloc_list m) x) /\
      (false = false -> forall x, vma_at (alloc_list m1) x = vma_at (alloc_list m) x) /\ placed m1 m' b' len).
    { intros b' m' P. split; [pose proof P as (_ & Pb & _); unfold USER_MMAP_BASE in Pb; lia|]. exists m. split; [split; [done|by left]|]. split; [done|]. split; [done|]. by split. }
    destruct H1 as [[-> E']|P].
    + cbn [Z.eqb]. destruct (task_mmap_reserve m1 n) as [b m'] eqn:E. destruct (reserve_placed _ _ _ _ ltac:(by rewrite E') Hn E) as [[-> E'']|P].
      * left. split; [done|]. rewrite E'', E'. split; [done|by left].
      * rewrite En in P. assert (P' : placed m m' b len).
        { destruct P as (A & B & C & D & F & G). split; [done|]. do 3 (split; [done|]). rewrite <- E'. done. }
        destruct (Hplaced _ _ P') as [Hb HP]. rewrite (proj2 (Z.eqb_neq b 0)) by done. right. exact HP.
    + destruct (Hplaced _ _ P) as [Hb HP]. rewrite (proj2 (Z.eqb_neq b1 0)) by done. rewrite (proj2 (Z.eqb_neq b1 0)) by done. right. exact HP.
Qed.

(** A store to the node at [b]. *)
Lemma update_placed l k a f : vmas_ok l -> l !! k = Some a -> vaddr (f a) = vaddr a -> pages (f a) = pages a ->
  vmas_ok (alter f k l) /\ alter f k l !! k = Some (f a) /\ forall x, vma_at (alter f k l) x = if decide (covers a x) then Some (view (f a) x) else vma_at l x.
Proof.
  intros Hl Hk Ev Ep. assert (Eu : uend (f a) = uend a) by (unfold uend; by rewrite Ev, Ep).
  assert (E : alter f k l = take k l ++ f a :: drop (S k) l).
  { rewrite <- (take_drop_middle l k a Hk) at 1. rewrite <- (Nat.add_0_r k) at 1. rewrite <- (length_take_le l k) at 1 by (apply lookup_lt_Some in Hk; lia).
    rewrite alter_app_r. done. }
  rewrite <- (take_drop_middle l k a Hk) in Hl. apply vmas_app in Hl as (L1 & L2 & L12). apply vmas_cons in L2 as (Oa & L2 & La).
  assert (Of : vma_ok (f a)) by (destruct Oa; split; by rewrite ?Ev, ?Ep, ?Eu).
  assert (Hl' : vmas_ok (alter f k l)).
  { rewrite E. apply vmas_app. split; [done|]. split; [apply vmas_cons; split; [done|]; split; [done|]; intros b Hb; unfold below; rewrite Eu; by apply La|].
    intros x y Hx Hy. unfold below. apply elem_of_cons in Hy as [->|Hy]; [rewrite Ev; apply (L12 x a Hx); left|apply (L12 x y Hx); by right]. }
  split; [done|]. split; [by rewrite list_lookup_alter_eq, Hk|]. intros x. rewrite E. replace (vma_at l x) with (vma_at (take k l ++ a :: drop (S k) l) x) by (by rewrite (take_drop_middle l k a Hk)). rewrite !vma_at_app. cbn [vma_at].
  assert (Hcov : covers (f a) x <-> covers a x) by (unfold covers; by rewrite Ev, Eu).
  destruct (decide (covers a x)) as [Hc|Hc].
  - rewrite (vma_at_none (take k l) x); [by rewrite decide_True by tauto|]. intros b Hb Hcb. specialize (L12 b a Hb ltac:(left)). unfold covers, below in *. lia.
  - destruct (vma_at (take k l) x); [done|]. by rewrite decide_False by tauto.
Qed.

Lemma fault_in_list t m addr wr ex : alloc_list (task_fault_in t m addr wr ex).2 = alloc_list m.
Proof.
  unfold task_fault_in. destruct (task_privilege t); [done|]. destruct (alloc_find addr (alloc_list m)) as [k|]; [|done]. destruct (alloc_list m !! k) as [a|]; [|done].
  repeat (case_match; simpl in *; simplify_eq; try done).
Qed.

(** A cut needs no splitting. *)
Lemma split_cut m x : vmas_ok (alloc_list m) -> cut (alloc_list m) x -> alloc_split m x = (0, m).
Proof.
  intros Hl Hc. unfold alloc_split. pose proof (find_spec _ x Hl) as HF. destruct (alloc_find x (alloc_list m)) as [k|]; [|done].
  destruct HF as (a & Hk & Hca). rewrite Hk. specialize (Hc a (list_elem_of_lookup_2 _ _ _ Hk)). unfold covers in Hca. by rewrite (proj2 (Z.eqb_eq _ _)) by lia.
Qed.

(** The ends of a mapping cut no other. *)
Lemma whole_cut m b len k a : vmas_ok (alloc_list m) -> 0 < len -> alloc_list m !! k = Some a -> vaddr a = b -> uend a = b + len ->
  cut (alloc_list m) b /\ cut (alloc_list m) (b + len).
Proof.
  intros Hl Hlen Hk Ev Eu.
  assert (Hc : forall x, covers a x -> forall d, d ∈ alloc_list m -> covers d x -> vaddr d = vaddr a /\ uend d = uend a).
  { intros x Hcx d Hd Hdx. apply list_elem_of_lookup in Hd as [j Hj]. pose proof (find_here _ _ _ _ Hl Hj Hdx) as E1. pose proof (find_here _ _ _ _ Hl Hk Hcx) as E2. by simplify_eq. }
  split; intros d Hd Hx.
  - destruct (Hc b ltac:(unfold covers; lia) d Hd ltac:(unfold covers; lia)). lia.
  - destruct (Hc (b + len - 1) ltac:(unfold covers; lia) d Hd ltac:(unfold covers; lia)). lia.
Qed.

(** Unmapping a whole mapping cannot fail. *)
Lemma unmap_whole t m b len k a : vmas_ok (alloc_list m) -> b `mod` PAGE_SIZE = 0 -> len `mod` PAGE_SIZE = 0 -> 0 < len ->
  alloc_list m !! k = Some a -> vaddr a = b -> uend a = b + len ->
  vmas_ok (alloc_list (task_vma_unmap t m b len).2) /\
  forall x, vma_at (alloc_list (task_vma_unmap t m b len).2) x = if decide (b <= x < b + len) then None else vma_at (alloc_list m) x.
Proof.
  intros Hl Hal Hal2 Hlen Hk Ev Eu. pose proof (list_elem_of_lookup_2 _ _ _ Hk) as Hin. pose proof (vs_each _ Hl a Hin) as Oa.
  destruct (whole_cut m b len k a Hl Hlen Hk Ev Eu) as [C1 C2]. destruct Oa. unfold USER_MMAP_BASE, USER_MMAP_LIMIT in *.
  pose proof (unmap_ok t m b len Hl Hal Hal2 ltac:(lia) ltac:(lia) ltac:(lia)) as HU. unfold task_vma_unmap in HU |- *. rewrite wrap64_small in HU |- * by lia.
  rewrite (split_cut m b Hl C1) in HU |- *. cbn [negb Z.eqb] in HU |- *. rewrite (split_cut m _ Hl C2) in HU |- *. cbn [negb Z.eqb] in HU |- *.
  destruct (unmap_walk _ _ _ _ _) as [l' w']. destruct HU as (L & [(_ & V & _)|(E & _)]); [done|discriminate E].
Qed.

(** Unmapping a whole mapping hands its pages to [vmm_unmap_free_pages]. *)
Lemma walk_whole cr3 b len a : forall l w k, vmas_ok l -> l !! k = Some a -> vaddr a = b -> uend a = b + len -> 0 < len ->
  (unmap_walk cr3 b (b + len) l w).2 = user_alloc_free (w_unmap_free w cr3 b (pages a)) a.
Proof.
  induction l as [|d l IH]; intros w k Hl Hk Ev Eu Hlen; [by rewrite lookup_nil in Hk|]. apply vmas_cons in Hl as (Od & Hl & Hord). destruct k as [|k]; cbn [unmap_walk].
  - injection Hk as ->. rewrite (proj2 (Z.ltb_lt _ _)), (proj2 (Z.leb_le _ _)) by lia. rewrite Ev. destruct l as [|e l]; [done|]. cbn [unmap_walk].
    rewrite (proj2 (Z.ltb_ge _ _)); [done|]. specialize (Hord e ltac:(left)). unfold below in Hord. lia.
  - cbn in Hk. assert (Hd : uend d <= vaddr a) by (apply Hord; by eapply list_elem_of_lookup_2). assert (vaddr d < uend d) by (destruct Od; unfold uend, PAGE_SIZE in *; lia).
    rewrite (proj2 (Z.ltb_lt _ _)), (proj2 (Z.leb_gt _ _)) by lia. specialize (IH w k Hl Hk Ev Eu Hlen). destruct (unmap_walk cr3 b (b + len) l w). exact IH.
Qed.

Lemma unmap_whole_world t m b len k a : vmas_ok (alloc_list m) -> len `mod` PAGE_SIZE = 0 -> 0 < len ->
  alloc_list m !! k = Some a -> vaddr a = b -> uend a = b + len ->
  world (task_vma_unmap t m b len).2 = user_alloc_free (w_unmap_free (world m) (page_map t) b (len / PAGE_SIZE)) a.
Proof.
  intros Hl Hal2 Hlen Hk Ev Eu. pose proof (list_elem_of_lookup_2 _ _ _ Hk) as Hin. pose proof (vs_each _ Hl a Hin) as Oa.
  destruct (whole_cut m b len k a Hl Hlen Hk Ev Eu) as [C1 C2]. destruct Oa. unfold USER_MMAP_BASE, USER_MMAP_LIMIT in *. unfold task_vma_unmap. rewrite wrap64_small by lia.
  rewrite (split_cut m b Hl C1). cbn [negb Z.eqb]. rewrite (split_cut m _ Hl C2). cbn [negb Z.eqb].
  pose proof (walk_whole (page_map t) b len a (alloc_list m) (world m) k Hl Hk Ev Eu Hlen) as E. destruct (unmap_walk _ _ _ _ _) as [l' w']. cbn [snd] in E |- *. cbn [world].
  replace (len / PAGE_SIZE) with (pages a); [exact E|]. unfold uend in Eu. rewrite Ev in Eu. unfold PAGE_SIZE in *. zlia.
Qed.

(** A mapping that is taken away again. *)
Lemma unmapped_again t m m1 m' hint b len fl : len `mod` PAGE_SIZE = 0 -> 0 < len -> b `mod` PAGE_SIZE = 0 -> cleared m m1 hint len fl -> (forall x, b <= x < b + len -> vma_at (alloc_list m1) x = None) ->
  vmas_ok (alloc_list m') -> (exists k a, alloc_list m' !! k = Some a /\ vaddr a = b /\ uend a = b + len) ->
  (forall x, ~ (b <= x < b + len) -> vma_at (alloc_list m') x = vma_at (alloc_list m1) x) -> cleared m (task_vma_unmap t m' b len).2 hint len fl.
Proof.
  intros Hal Hlen Hb [_ Hcl] Hnone Hl' (k & a & Hk & Ev & Eu) Hout. destruct (unmap_whole t m' b len k a Hl' Hb Hal Hlen Hk Ev Eu) as [U1 U2]. split; [done|].
  intros x. assert (E : vma_at (alloc_list (task_vma_unmap t m' b len).2) x = vma_at (alloc_list m1) x).
  { rewrite U2. destruct (decide (b <= x < b + len)); [by rewrite Hnone|by apply Hout]. }
  rewrite E. apply Hcl.
Qed.

Lemma for_exit_list {A : Type} (get : A -> list user_alloc) n body : forall i s, (forall i s, get (body i s).2 = get s) -> get (for_exit n i body s).2 = get s.
Proof.
  induction n as [|n IH]; intros i s Hb; cbn [for_exit]; [done|]. specialize (Hb i s) as Hbi. destruct (body i s) as [go s']. cbn [snd] in Hbi.
  destruct go; [rewrite IH by done; exact Hbi|exact Hbi].
Qed.

(** The length is mapped at [b] and all else is as it was. *)
Definition vma_mapped (m m' : mmaps W) (hint b len p fl : Z) : Prop :=
  USER_MMAP_BASE <= b /\ b `mod` PAGE_SIZE = 0 /\ b + len <= USER_MMAP_LIMIT /\
  (flag fl (Z.lor MAP_FIXED MAP_FIXED_NOREPLACE) = true -> b = hint) /\
  (replaces fl = false -> forall x, b <= x < b + len -> vma_at (alloc_list m) x = None) /\
  forall x, vma_at (alloc_list m') x =
    if decide (b <= x < b + len) then Some (anon_view p (if Z.land fl MAP_TYPE =? MAP_PRIVATE then UALLOC_LAZY else 0) b x) else vma_at (alloc_list m) x.

(** What [vma_place] did before, seen from the end. *)
Lemma place_mapped t m hint len fl p b m1 m' a' :
  (flag fl (Z.lor MAP_FIXED MAP_FIXED_NOREPLACE) = true -> b = hint) ->
  (replaces fl = true -> forall x, vma_at (alloc_list m1) x = if decide (hint <= x < hint + len) then None else vma_at (alloc_list m) x) ->
  (replaces fl = false -> forall x, vma_at (alloc_list m1) x = vma_at (alloc_list m) x) ->
  placed m1 (vma_place t m hint len fl).2 b len ->
  prot a' = p -> uflags a' = (if Z.land fl MAP_TYPE =? MAP_PRIVATE then UALLOC_LAZY else 0) -> backing a' = 0 -> offset a' = 0 -> vaddr a' = b ->
  (forall x, vma_at (alloc_list m') x = if decide (b <= x < b + len) then Some (view a' x) else vma_at (alloc_list m1) x) -> vma_mapped m m' hint b len p fl.
Proof.
  intros Hfix Hrep Hkeep (_ & P1 & P2 & P3 & P4 & _) Q1 Q2 Q3 Q4 Q5 Hv. do 4 (split; [done|]). split; [intros Hr x Hx; rewrite <- Hkeep by done; by apply P4|].
  intros x. rewrite Hv. destruct (decide (b <= x < b + len)) as [Hx|Hx].
  - unfold view, anon_view. rewrite Q1, Q2, Q3, Q4, Q5. done.
  - destruct (replaces fl) eqn:Er; [|by apply Hkeep]. rewrite Hrep by done. rewrite decide_False; [done|].
    assert (b = hint) as <- by (apply Hfix; unfold replaces in Er; by apply andb_true_iff in Er as [? _]). done.
Qed.

(** The state after the pages were filled in, as far as memory lasted. *)
Definition map_filled (t : task) (m : mmaps W) (hint len p fl : Z) : mmaps W :=
  let '(b, m) := vma_place t m hint len fl in
  let m := alloc_update b (with_prot p) m in
  if negb (Z.land fl MAP_TYPE =? MAP_PRIVATE)
  then Build_mmaps (alloc_list m) (w_set_mm (world m) (fill_shared t (w_mm (world m)) b (len / PAGE_SIZE) p).2)
  else (for_exit (Z.to_nat (len / PAGE_SIZE)) 0 (fun i m => let '(r, m) := task_fault_in t m (b +w i *w PAGE_SIZE) false false in (negb (r =? 0), m)) (alloc_update b (with_flags UALLOC_LAZY) m)).2.

(** After a failure: nothing was done, or no place was found, or the pages that were filled in at the place of the mapping were given to
    [vmm_unmap_free_pages], and the mapping's node was freed. *)
Definition taken_back (t : task) (m m' : mmaps W) (hint len p fl : Z) : Prop :=
  let place := vma_place t m hint len fl in
  let filled := map_filled t m hint len p fl in
  m' = m \/ (place.1 < 0 /\ m' = place.2) \/
  exists a, vaddr a = place.1 /\ uend a = place.1 + len /\ a ∈ alloc_list filled /\
    world m' = user_alloc_free (w_unmap_free (world filled) (page_map t) place.1 (len / PAGE_SIZE)) a.

Lemma taken_now t m hint len p fl : len `mod` PAGE_SIZE = 0 -> 0 < len ->
  forall mf k a, mf = map_filled t m hint len p fl -> vmas_ok (alloc_list mf) -> alloc_list mf !! k = Some a -> vaddr a = (vma_place t m hint len fl).1 -> uend a = (vma_place t m hint len fl).1 + len ->
  taken_back t m (task_vma_unmap t mf (vma_place t m hint len fl).1 len).2 hint len p fl.
Proof.
  intros Hal Hlen mf k a -> Hl Hk Ev Eu. right. right. exists a. rewrite (unmap_whole_world t _ _ len k a Hl Hal Hlen Hk Ev Eu).
  split_and!; [done|done|by eapply list_elem_of_lookup_2|done].
Qed.

Lemma map_ok t m hint len p fl :
  vmas_ok (alloc_list m) -> 0 <= hint -> 0 < len -> len `mod` PAGE_SIZE = 0 -> hint + len < 2 ^ 64 ->
  let '(b, m') := task_vma_map t m hint len p fl in
  vmas_ok (alloc_list m') /\
  (vma_mapped m m' hint b len p fl \/
   (b < 0 /\ (forall x, vma_at (alloc_list m') x = vma_at (alloc_list m) x \/ (replaces fl = true /\ hint <= x < hint + len /\ vma_at (alloc_list m') x = None)) /\
    taken_back t m m' hint len p fl)).
Proof.
  intros Hl Hh Hlen Hal Hend. unfold task_vma_map. cbv zeta. destruct (_ && _ && _ && _); [split; [done|]; right; split; [done|]; split; [by left|by left]|].
  pose proof (taken_now t m hint len p fl Hal Hlen) as HB. unfold map_filled in HB.
  pose proof (place_ok t m hint len fl Hl Hh Hlen Hal Hend) as HP. pose proof (place_mapped t m hint len fl p) as HG.
  assert (HM : (vma_place t m hint len fl).1 < 0 -> taken_back t m (vma_place t m hint len fl).2 hint len p fl) by (intros ?; right; by left). destruct (vma_place t m hint len fl) as [b m2]. cbn [fst snd] in HG, HB, HM.
  destruct HP as [[Hb [C1 C2]]|(m1 & Hcl & Hfix & Hrep & Hkeep & P)]; [rewrite (proj2 (Z.ltb_lt b 0)) by done; split; [done|]; right; split_and!; try done; by apply HM|].
  specialize (fun m' a' => HG b m1 m' a' Hfix Hrep Hkeep P).
  destruct P as (L2 & P1 & P2 & P3 & P4 & k & a & Hk & Ev & Eu & Eb & Eo & Ef & Hv). rewrite (proj2 (Z.ltb_ge b 0)) by (unfold USER_MMAP_BASE in P1; lia).
  assert (Hcov : forall a', vaddr a' = vaddr a -> pages a' = pages a -> forall x, covers a' x <-> b <= x < b + len).
  { intros a' E1 E2 x. unfold covers, uend in *. by rewrite E1, E2, Ev, <- Eu, Ev. }
  assert (Hupd : forall m' a' f, vmas_ok (alloc_list m') -> alloc_list m' !! k = Some a' -> vaddr a' = vaddr a -> pages a' = pages a -> vaddr (f a') = vaddr a -> pages (f a') = pages a ->
    (forall x, ~ (b <= x < b + len) -> vma_at (alloc_list m') x = vma_at (alloc_list m1) x) ->
    let m'' := alloc_update b f m' in vmas_ok (alloc_list m'') /\ alloc_list m'' !! k = Some (f a') /\
      (forall x, ~ (b <= x < b + len) -> vma_at (alloc_list m'') x = vma_at (alloc_list m1) x) /\
      (forall x, vma_at (alloc_list m'') x = if decide (b <= x < b + len) then Some (view (f a') x) else vma_at (alloc_list m1) x)).
  { intros m' a' f Hl' Hk' E1 E2 F1 F2 Ho m''. unfold m'', alloc_update. rewrite (find_here _ a' k b Hl' Hk') by (apply Hcov; [done|done|lia]). cbn [alloc_list].
    destruct (update_placed (alloc_list m') k a' f Hl' Hk' ltac:(congruence) ltac:(congruence)) as (L3 & Hk3 & V3). split; [done|]. split; [done|].
    assert (V : forall x, vma_at (alter f k (alloc_list m')) x = if decide (b <= x < b + len) then Some (view (f a') x) else vma_at (alloc_list m1) x).
    { intros x. rewrite V3. destruct (decide (b <= x < b + len)) as [Hx|Hx]; [by rewrite decide_True by (by apply Hcov)|rewrite decide_False by (by rewrite Hcov); by apply Ho]. }
    split; [|done]. intros x Hx. by rewrite V, decide_False. }
  destruct (Hupd m2 a (with_prot p) L2 Hk eq_refl eq_refl eq_refl eq_refl) as (L3 & Hk3 & O3 & V3); [intros x Hx; by rewrite Hv, decide_False by (by rewrite Hcov)|].
  cbv zeta in HB. set (m3 := alloc_update b (with_prot p) m2) in *. destruct (Z.land fl MAP_TYPE =? MAP_PRIVATE) eqn:Et; cbn [negb] in *.
  - destruct (Hupd m3 (with_prot p a) (with_flags UALLOC_LAZY) L3 Hk3 eq_refl eq_refl eq_refl eq_refl O3) as (L4 & Hk4 & O4 & V4). set (m4 := alloc_update b (with_flags UALLOC_LAZY) m3) in *.
    destruct (flag fl MAP_POPULATE && flag p PROT_ANY); [|split; [done|]; left; by apply (HG m4 (with_flags UALLOC_LAZY (with_prot p a)))].
    set (body := fun (i : Z) (m : mmaps W) => let '(r, m) := task_fault_in t m (b +w i *w PAGE_SIZE) false false in (negb (r =? 0), m)) in *.
    assert (El : alloc_list (for_exit (Z.to_nat (len / PAGE_SIZE)) 0 body m4).2 = alloc_list m4).
    { apply for_exit_list. intros i m'. unfold body. pose proof (fault_in_list t m' (b +w i *w PAGE_SIZE) false false) as E. by destruct (task_fault_in _ _ _ _ _). }
    destruct (for_exit (Z.to_nat (len / PAGE_SIZE)) 0 body m4) as [ok m5]. cbn [snd] in El, HB. destruct ok; cbn [negb].
    + split; [by rewrite El|]. left. apply (HG m5 (with_flags UALLOC_LAZY (with_prot p a))); rewrite ?El; done.
    + destruct (unmapped_again t m m1 m5 hint b len fl) as [G1 G2]; rewrite ?El; try done; [by exists k, (with_flags UALLOC_LAZY (with_prot p a))|]. split; [done|]. right. split_and!; [done|done|].
      apply (HB m5 k (with_flags UALLOC_LAZY (with_prot p a)) eq_refl); rewrite ?El; done.
  - destruct (fill_shared t (w_mm (world m3)) b (len / PAGE_SIZE) p) as [ok s]. cbn [snd] in HB. destruct ok; cbn [negb].
    + split; [done|]. left. by apply (HG _ (with_prot p a)).
    + destruct (unmapped_again t m m1 (Build_mmaps (alloc_list m3) (w_set_mm (world m3) s)) hint b len fl) as [G1 G2]; try done; [by exists k, (with_prot p a)|]. split; [done|]. right. split_and!; [done|done|].
      by apply (HB (Build_mmaps (alloc_list m3) (w_set_mm (world m3) s)) k (with_prot p a) eq_refl).
Qed.

(** C26. [mmap] of anonymous memory, of a positive number of whole pages that with the hint stay below 2^64: on
    success the whole length is mapped at the returned page of the window with the requested protection, at the hint when it is a fixed mapping, over nothing that was mapped before unless it is [MAP_FIXED], and everything
    else is as it was.  On any failure, before or after the mapping was entered, the list of mappings describes what it did before, except
    that a [MAP_FIXED] may have unmapped its range; and the pages that had been filled in ([map_filled]) are handed to
    [vmm_unmap_free_pages] at the place of the mapping, whose node is freed. *)
Theorem vma_map_places t m hint len p fl :
  vmas_ok (alloc_list m) -> 0 <= hint -> 0 < len -> len `mod` PAGE_SIZE = 0 -> hint + len < 2 ^ 64 ->
  let '(b, m') := task_vma_map t m hint len p fl in
  vmas_ok (alloc_list m') /\
  (vma_mapped m m' hint b len p fl \/
   (b < 0 /\ (forall x, vma_at (alloc_list m') x = vma_at (alloc_list m) x \/ (replaces fl = true /\ hint <= x < hint + len /\ vma_at (alloc_list m') x = None)) /\
    taken_back t m m' hint len p fl)).
Proof. apply map_ok. Qed.

End Mmap.

(** ** A concrete process

    Without files, with a heap that always has a node: four pages are mapped two pages above
    the start of the window. *)

#[local] Instance no_files : Files mm := {|
  w_mm := fun s => s; w_set_mm := fun _ s => s; vfs_hold := fun s _ => s; vfs_drop := fun s _ => s; memfd_is := fun _ _ => false;
  memfd_track_writer := fun s _ _ => (0, s); memfd_page := fun s _ _ _ => (0, s); inode_read := fun s _ _ _ => (0, s) |}.

#[local] Instance node_heap : KernelHeap := {| h_kmalloc := fun _ s => (0x5000, s); h_kfree := fun _ s => s |}.

Definition demo_base : Z := USER_MMAP_BASE + 2 * PAGE_SIZE.

Definition demo_maps : mmaps mm := Build_mmaps [new_alloc 0x5000 demo_base 4] boot_mm.

Lemma demo_maps_ok : vmas_ok (alloc_list demo_maps).
Proof.
  apply vmas_cons. split; [split; vm_compute; done|]. split; [apply vmas_nil|]. intros b Hb. by apply not_elem_of_nil in Hb.
Qed.

(** Two pages fit below the mapping. *)
Lemma mmap_reserve_first_fit_witness : let '(b, m') := task_mmap_reserve demo_maps 2 in b = USER_MMAP_BASE /\ vmas_ok (alloc_list m') /\ vma_at (alloc_list m') (USER_MMAP_BASE + 100) = Some (3, 0, 0, 100).
Proof.
  assert (E : (task_mmap_reserve demo_maps 2).1 = USER_MMAP_BASE) by (vm_compute; reflexivity).
  pose proof (mmap_reserve_first_fit demo_maps 2 demo_maps_ok ltac:(lia)) as HT. destruct (task_mmap_reserve demo_maps 2) as [b m']. cbn [fst] in E. subst b.
  destruct HT as [HV [[E _]|(_ & _ & HX)]]; [discriminate E|]. split; [reflexivity|]. split; [exact HV|]. rewrite HX. reflexivity.
Defined.

(** The second of the four pages goes. *)
Lemma vma_unmap_exact_witness : let '(r, m') := task_vma_unmap demo_task demo_maps (demo_base + PAGE_SIZE) PAGE_SIZE in
  r = 0 /\ length (alloc_list m') = 2%nat /\ vma_at (alloc_list m') (demo_base + PAGE_SIZE) = None /\ vma_at (alloc_list m') (demo_base + 2 * PAGE_SIZE) = Some (3, 0, 0, 8192).
Proof.
  assert (E : let '(r, m') := task_vma_unmap demo_task demo_maps (demo_base + PAGE_SIZE) PAGE_SIZE in r = 0 /\ length (alloc_list m') = 2%nat) by (vm_compute; split; reflexivity).
  pose proof (vma_unmap_exact demo_task demo_maps (demo_base + PAGE_SIZE) PAGE_SIZE demo_maps_ok eq_refl eq_refl ltac:(vm_compute; discriminate) ltac:(vm_compute; discriminate) ltac:(vm_compute; reflexivity)) as HT.
  destruct (task_vma_unmap demo_task demo_maps (demo_base + PAGE_SIZE) PAGE_SIZE) as [r m']. destruct E as [-> El]. destruct HT as [_ [(_ & HX & _)|[E _]]]; [|discriminate E].
  split; [reflexivity|]. split; [exact El|]. rewrite !HX. split; reflexivity.
Defined.

(** The third becomes read-only. *)
Lemma vma_protect_exact_witness : let '(r, m') := task_vma_protect demo_task demo_maps (demo_base + 2 * PAGE_SIZE) PAGE_SIZE PROT_READ in
  r = 0 /\ length (alloc_list m') = 3%nat /\ vma_at (alloc_list m') (demo_base + 2 * PAGE_SIZE) = Some (1, 0, 0, 8192) /\ vma_at (alloc_list m') (demo_base + PAGE_SIZE) = Some (3, 0, 0, 4096).
Proof.
  assert (E : let '(r, m') := task_vma_protect demo_task demo_maps (demo_base + 2 * PAGE_SIZE) PAGE_SIZE PROT_READ in r = 0 /\ length (alloc_list m') = 3%nat) by (vm_compute; split; reflexivity).
  pose proof (vma_protect_exact demo_task demo_maps (demo_base + 2 * PAGE_SIZE) PAGE_SIZE PROT_READ demo_maps_ok eq_refl eq_refl ltac:(vm_compute; discriminate) ltac:(vm_compute; reflexivity) ltac:(vm_compute; reflexivity)) as HT.
  destruct (task_vma_protect demo_task demo_maps (demo_base + 2 * PAGE_SIZE) PAGE_SIZE PROT_READ) as [r m']. destruct E as [-> El].
  destruct HT as [_ [(_ & _ & HX)|[[[E|E] _]|[E _]]]]; [|discriminate E..]. split; [reflexivity|]. split; [exact El|]. rewrite !HX. split; reflexivity.
Defined.

(** A lazy mapping replaces the last page and the one after it. *)
Lemma vma_map_places_witness : let '(b, m') := task_vma_map demo_task demo_maps (demo_base + 3 * PAGE_SIZE) (2 * PAGE_SIZE) PROT_READ (or3 MAP_PRIVATE MAP_FIXED MAP_NORESERVE) in
  b = demo_base + 3 * PAGE_SIZE /\ vma_mapped demo_maps m' (demo_base + 3 * PAGE_SIZE) b (2 * PAGE_SIZE) PROT_READ (or3 MAP_PRIVATE MAP_FIXED MAP_NORESERVE).
Proof.
  assert (E : (task_vma_map demo_task demo_maps (demo_base + 3 * PAGE_SIZE) (2 * PAGE_SIZE) PROT_READ (or3 MAP_PRIVATE MAP_FIXED MAP_NORESERVE)).1 = demo_base + 3 * PAGE_SIZE) by (vm_compute; reflexivity).
  pose proof (vma_map_places demo_task demo_maps (demo_base + 3 * PAGE_SIZE) (2 * PAGE_SIZE) PROT_READ (or3 MAP_PRIVATE MAP_FIXED MAP_NORESERVE) demo_maps_ok
    ltac:(vm_compute; discriminate) ltac:(vm_compute; reflexivity) eq_refl ltac:(vm_compute; reflexivity)) as HT.
  destruct (task_vma_map _ _ _ _ _ _) as [b m']. cbn [fst] in E. subst b. split; [reflexivity|]. destruct HT as [_ [HT|[E _]]]; [exact HT|discriminate E].
Defined.
