(* ===== verification/Memfd.v ===== *)
(** * Files in memory

    [kernel/src/fs/memfd.c]: files whose pages are frames of their own, that can be sealed
    and mapped shared; and the inode reference counts of [vfs.c] that mappings keep.  They
    implement the interface [Files] of [Mmap]: what a mapping can ask of a file.  The files
    of the other file systems are there through their [read], which is part of an inode. *)

From S2P Require Import Prelude Pmm Machine Bytes Paging Vmm Mmap.

Definition EFBIG : Z := 27.

Definition ENOSYS : Z := 38.

Definition F_SEAL_SEAL : Z := 1.

Definition F_SEAL_SHRINK : Z := 2.

Definition F_SEAL_GROW : Z := 4.

Definition F_SEAL_WRITE : Z := 8.

Definition F_SEAL_FUTURE_WRITE : Z := 16.

Definition ALL_SEALS : Z := Z.lor (or3 F_SEAL_SEAL F_SEAL_SHRINK F_SEAL_GROW) (Z.lor F_SEAL_WRITE F_SEAL_FUTURE_WRITE).

Definition MFD_CLOEXEC : Z := 1.

Definition MFD_ALLOW_SEALING : Z := 2.

(** [memfd_t]: [mf_pages] is the array of [cap] slots at the heap address [mf_array]. *)
Record memfd := {
  mf_self : Z;
  mf_array : Z;
  mf_pages : list Z;
  mf_size : Z;
  mf_seals : Z;
  mf_writers : Z;
}.

Definition mf_cap (m : memfd) : Z := Z.of_nat (length (mf_pages m)).

Definition slot (m : memfd) (i : Z) : Z := default 0 (mf_pages m !! Z.to_nat i).

Definition set_slot (m : memfd) (i p : Z) : memfd :=
  {| mf_self := mf_self m; mf_array := mf_array m; mf_pages := <[Z.to_nat i := p]> (mf_pages m); mf_size := mf_size m;
     mf_seals := mf_seals m; mf_writers := mf_writers m |}.

Definition set_slots (m : memfd) (a : Z) (l : list Z) : memfd :=
  {| mf_self := mf_self m; mf_array := a; mf_pages := l; mf_size := mf_size m; mf_seals := mf_seals m; mf_writers := mf_writers m |}.

Definition set_size (m : memfd) (n : Z) : memfd :=
  {| mf_self := mf_self m; mf_array := mf_array m; mf_pages := mf_pages m; mf_size := n; mf_seals := mf_seals m; mf_writers := mf_writers m |}.

Definition set_seals (m : memfd) (n : Z) : memfd :=
  {| mf_self := mf_self m; mf_array := mf_array m; mf_pages := mf_pages m; mf_size := mf_size m; mf_seals := n; mf_writers := mf_writers m |}.

Definition set_writers (m : memfd) (n : Z) : memfd :=
  {| mf_self := mf_self m; mf_array := mf_array m; mf_pages := mf_pages m; mf_size := mf_size m; mf_seals := mf_seals m; mf_writers := n |}.

(** [wrapi] is the wrap-around of the [int] counter. *)
Definition wrapi (z : Z) : Z := (z + 2 ^ 31) `mod` 2 ^ 32 - 2 ^ 31.

Section Memfd.

Context `{KernelHeap}.

(** ** Pages *)

Definition frame_put (s : mm) (p : Z) : mm :=
  if p =? 0 then s
  else let '(refs, s) := cow_unref_page s p in if refs =? 0 then pmm_release s p 1 else s.

(** [while (cap < want) cap *= 2]; a size is below 2^64, so 64 doublings are enough. *)
Fixpoint grow_cap (fuel : nat) (cap want : Z) : Z :=
  match fuel with
  | O => cap
  | S fuel => if cap <? want then grow_cap fuel (cap *w 2) want else cap
  end.

Definition grow_slots (m : memfd) (s : mm) (want : Z) : Z * memfd * mm :=
  if want <=? mf_cap m then (0, m, s)
  else
    let cap := grow_cap 64 (if mf_cap m =? 0 then 16 else mf_cap m) want in
    let '(more, s) := h_kmalloc (cap *w 8) s in
    if more =? 0 then (- ENOMEM, m, s)
    else
      let slots := mf_pages m ++ replicate (Z.to_nat (cap - mf_cap m)) 0 in
      (0, set_slots m more slots, h_kfree (mf_array m) s).

Definition memfd_get_page (m : memfd) (s : mm) (index : Z) (create : bool) : Z * memfd * mm :=
  if (mf_size m +w (PAGE_SIZE - 1)) / PAGE_SIZE <=? index then (0, m, s)
  else if (index <? mf_cap m) && negb (slot m index =? 0) then (slot m index, m, s)
  else if negb create then (0, m, s)
  else
    let '(r, m, s) := grow_slots m s (index +w 1) in
    if r <? 0 then (0, m, s)
    else
      let '(p, s) := pmm_alloc s 1 in
      if p =? 0 then (0, m, s)
      else (p, set_slot m index p, cow_ref_page (page_clear s p) p).

(** The loop of [cut_to] over the slots from [i] on. *)
Fixpoint cut_slots (n : nat) (m : memfd) (s : mm) (i : Z) : memfd * mm :=
  match n with
  | O => (m, s)
  | S n => cut_slots n (set_slot m i 0) (frame_put s (slot m i)) (i + 1)
  end.

Definition cut_to (m : memfd) (s : mm) (size : Z) : memfd * mm :=
  let keep := (size +w (PAGE_SIZE - 1)) / PAGE_SIZE in
  let '(m, s) := cut_slots (Z.to_nat (mf_cap m - keep)) m s keep in
  let at_ := Z.land size (PAGE_SIZE - 1) in
  if negb (at_ =? 0) && (keep - 1 <? mf_cap m) && negb (slot m (keep - 1) =? 0)
  then (m, frame_store s (slot m (keep - 1)) (Z.to_nat at_) (replicate (Z.to_nat (PAGE_SIZE - at_)) 0))
  else (m, s).

Definition resize (m : memfd) (s : mm) (size : Z) : Z * memfd * mm :=
  if (mf_size m <? size) && flag (mf_seals m) F_SEAL_GROW then (- EPERM, m, s)
  else if (size <? mf_size m) && flag (mf_seals m) F_SEAL_SHRINK then (- EPERM, m, s)
  else
    let '(m, s) := if size <? mf_size m then cut_to m s size else (m, s) in
    (0, set_size m size, s).

(** ** Reading and writing *)

(** The bytes of the turn of [memfd_read] at [at_]. *)
Definition memfd_read_chunk (m : memfd) (s : mm) (at_ n : Z) : list Z :=
  let page := at_ / PAGE_SIZE in
  let off := Z.land at_ (PAGE_SIZE - 1) in
  if (page <? mf_cap m) && negb (slot m page =? 0) then frame_load s (slot m page) (Z.to_nat off) (Z.to_nat n)
  else replicate (Z.to_nat n) 0.

(** [size] bytes from [at_] on; a turn reads one byte at least. *)
Fixpoint memfd_read_loop (fuel : nat) (m : memfd) (s : mm) (at_ size : Z) : list Z :=
  match fuel with
  | O => []
  | S fuel =>
    if 0 <? size
    then
      let n := Z.min (PAGE_SIZE - Z.land at_ (PAGE_SIZE - 1)) size in
      memfd_read_chunk m s at_ n ++ memfd_read_loop fuel m s (at_ + n) (size - n)
    else []
  end.

Definition memfd_read (m : memfd) (s : mm) (size offset : Z) : list Z :=
  if mf_size m <=? offset then []
  else
    let size := Z.min size (mf_size m - offset) in
    memfd_read_loop (Z.to_nat size) m s offset size.

(** Stores [bs] from [at_] on; how much was stored. *)
Fixpoint memfd_write_loop (fuel : nat) (m : memfd) (s : mm) (at_ done : Z) (bs : list Z) : Z * memfd * mm :=
  match fuel with
  | O => (done, m, s)
  | S fuel =>
    match bs with
    | [] => (done, m, s)
    | _ =>
      let off := Z.land at_ (PAGE_SIZE - 1) in
      let n := Z.min (PAGE_SIZE - off) (Z.of_nat (length bs)) in
      let '(p, m, s) := memfd_get_page m s (at_ / PAGE_SIZE) true in
      if p =? 0 then (if negb (done =? 0) then done else - ENOMEM, m, s)
      else
        let s := frame_store s p (Z.to_nat off) (take (Z.to_nat n) bs) in
        memfd_write_loop fuel m s (at_ + n) (done + n) (drop (Z.to_nat n) bs)
    end
  end.

Definition memfd_write (m : memfd) (s : mm) (bs : list Z) (offset : Z) : Z * memfd * mm :=
  if flag (mf_seals m) (Z.lor F_SEAL_WRITE F_SEAL_FUTURE_WRITE) then (- EPERM, m, s)
  else
    let end_ := offset + Z.of_nat (length bs) in
    if 2 ^ 64 <=? end_ then (- EFBIG, m, s)
    else
      let '(err, m, s) := if mf_size m <? end_ then resize m s end_ else (0, m, s) in
      if negb (err =? 0) then (err, m, s) else memfd_write_loop (length bs) m s offset 0 bs.

Definition memfd_truncate (m : memfd) (s : mm) (size : Z) : Z * memfd * mm := resize m s size.

Definition memfd_drop (m : memfd) (s : mm) : mm :=
  let s := foldl frame_put s (mf_pages m) in
  h_kfree (mf_self m) (h_kfree (mf_array m) s).

(** ** Seals *)

Definition memfd_add_seals (m : memfd) (seals : Z) : Z * memfd :=
  if flag seals (Z.lxor (2 ^ 32 - 1) ALL_SEALS) then (- EINVAL, m)
  else if flag (mf_seals m) F_SEAL_SEAL then (- EPERM, m)
  else if flag seals F_SEAL_WRITE && negb (mf_writers m =? 0) then (- EBUSY, m)
  else (0, set_seals m (Z.lor (mf_seals m) seals)).

Definition memfd_get_seals (m : memfd) : Z := mf_seals m.

Definition track_writer (m : memfd) (delta : Z) : Z * memfd :=
  if (0 <? delta) && flag (mf_seals m) (Z.lor F_SEAL_WRITE F_SEAL_FUTURE_WRITE) then (- EPERM, m)
  else (0, set_writers m (wrapi (mf_writers m + delta))).

End Memfd.

(** ** Inodes *)

(** The operations behind an inode: a memfd, or a file of another file system with its [read] of a page. *)
Inductive inode_ops :=
  | memfd_ops (m : memfd)
  | fs_ops (read : Z -> option (list Z)).

Record inode := {
  i_shared : Z;
  i_attached : bool;
  i_parent : Z;
  i_ops : inode_ops;
}.

Record fworld := { fw_mm : mm; fw_inodes : gmap Z inode; vfs_root : Z }.

Definition set_inodes (w : fworld) (i : gmap Z inode) : fworld := {| fw_mm := fw_mm w; fw_inodes := i; vfs_root := vfs_root w |}.

Definition set_fmm (w : fworld) (s : mm) : fworld := {| fw_mm := s; fw_inodes := fw_inodes w; vfs_root := vfs_root w |}.

Definition with_shared (n : Z) (i : inode) : inode := {| i_shared := n; i_attached := i_attached i; i_parent := i_parent i; i_ops := i_ops i |}.

Definition with_memfd (m : memfd) (i : inode) : inode := {| i_shared := i_shared i; i_attached := i_attached i; i_parent := i_parent i; i_ops := memfd_ops m |}.

Section Inodes.

Context `{KernelHeap}.

Definition inode_hold (w : fworld) (i : Z) : fworld :=
  if (i =? 0) || (i =? vfs_root w) then w
  else set_inodes w (alter (fun n => with_shared (i_shared n + 1) n) i (fw_inodes w)).

(** The inode's [drop], then its memory; a file of another file system keeps nothing here, and the name cache is not part of the state. *)
Definition inode_release (w : fworld) (i : Z) (n : inode) : fworld :=
  let s := match i_ops n with memfd_ops m => memfd_drop m (fw_mm w) | fs_ops _ => fw_mm w end in
  {| fw_mm := h_kfree i s; fw_inodes := delete i (fw_inodes w); vfs_root := vfs_root w |}.

(** The loop of [vfs_drop] up the tree; every turn but the last frees an inode. *)
Fixpoint drop_loop (fuel : nat) (w : fworld) (i : Z) : fworld :=
  match fuel with
  | O => w
  | S fuel =>
    if (i =? 0) || (i =? vfs_root w) then w
    else
      match fw_inodes w !! i with
      | None => w
      | Some n =>
        if i_shared n <=? 0 then w
        else
          let w := set_inodes w (<[i := with_shared (i_shared n - 1) n]> (fw_inodes w)) in
          if 0 <? i_shared n - 1 then w
          else drop_loop fuel (inode_release w i n) (if i_attached n then i_parent n else 0)
      end
  end.

Definition inode_drop (w : fworld) (i : Z) : fworld := drop_loop (S (size (fw_inodes w))) w i.

Definition inode_memfd (w : fworld) (i : Z) : option memfd :=
  match fw_inodes w !! i with
  | Some n => match i_ops n with memfd_ops m => Some m | fs_ops _ => None end
  | None => None
  end.

Definition inode_is_memfd (w : fworld) (i : Z) : bool := match inode_memfd w i with Some _ => true | None => false end.

Definition set_memfd (w : fworld) (i : Z) (m : memfd) : fworld := set_inodes w (alter (with_memfd m) i (fw_inodes w)).

Definition inode_track_writer (w : fworld) (i delta : Z) : Z * fworld :=
  match inode_memfd w i with
  | None => (0, w)
  | Some m => let '(r, m) := track_writer m delta in (r, set_memfd w i m)
  end.

Definition inode_page (w : fworld) (i index : Z) (create : bool) : Z * fworld :=
  match inode_memfd w i with
  | None => (0, w)
  | Some m => let '(p, m, s) := memfd_get_page m (fw_mm w) index create in (p, set_memfd (set_fmm w s) i m)
  end.

(** [inode_read(inode, frame, PAGE_SIZE, at)]. *)
Definition inode_read_page (w : fworld) (i frame at_ : Z) : Z * fworld :=
  match fw_inodes w !! i with
  | None => (- ENOSYS, w)
  | Some n =>
    match i_ops n with
    | memfd_ops m =>
      let bs := memfd_read m (fw_mm w) PAGE_SIZE at_ in
      (Z.of_nat (length bs), set_fmm w (frame_store (fw_mm w) frame 0 bs))
    | fs_ops read =>
      match read at_ with
      | None => (- EIO, w)
      | Some bs => (Z.of_nat (length bs), set_fmm w (frame_store (fw_mm w) frame 0 bs))
      end
    end
  end.

#[export] Instance inode_files : Files fworld := {|
  w_mm := fw_mm;
  w_set_mm := set_fmm;
  vfs_hold := inode_hold;
  vfs_drop := inode_drop;
  memfd_is := inode_is_memfd;
  memfd_track_writer := inode_track_writer;
  memfd_page := inode_page;
  inode_read := inode_read_page;
|}.

(** Adding seals through a descriptor. *)
Definition inode_add_seals (w : fworld) (i seals : Z) : Z * fworld :=
  match inode_memfd w i with
  | None => (- EINVAL, w)
  | Some m => let '(r, m) := memfd_add_seals m seals in (r, set_memfd w i m)
  end.

(** [sizeof] of [memfd_t], [INode_t] and [file_t]. *)
Definition sizeof_memfd : Z := 96.

Definition sizeof_INode : Z := 320.

Definition sizeof_file : Z := 32.

(** [fd] is what [vfs_install] returns for the new file. *)
Definition memfd_create (w : fworld) (flags fd : Z) : Z * fworld :=
  if flag flags (Z.lxor (2 ^ 32 - 1) (Z.lor MFD_CLOEXEC MFD_ALLOW_SEALING)) then (- EINVAL, w)
  else
    let '(m, s) := h_kmalloc sizeof_memfd (fw_mm w) in
    let '(i, s) := h_kmalloc sizeof_INode s in
    let '(f, s) := h_kmalloc sizeof_file s in
    if (m =? 0) || (i =? 0) || (f =? 0) then (- ENOMEM, set_fmm w (h_kfree f (h_kfree i (h_kfree m s))))
    else
      let mem := {| mf_self := m; mf_array := 0; mf_pages := []; mf_size := 0;
                    mf_seals := if negb (flag flags MFD_ALLOW_SEALING) then F_SEAL_SEAL else 0; mf_writers := 0 |} in
      let n := {| i_shared := 1; i_attached := false; i_parent := 0; i_ops := memfd_ops mem |} in
      let w := set_inodes (set_fmm w s) (<[i := n]> (fw_inodes w)) in
      if fd <? 0 then let w := inode_drop w i in (fd, set_fmm w (h_kfree f (fw_mm w))) else (fd, w).

End Inodes.
