(* ===== verification/MemfdProofs.v ===== *)
(** * Files in memory: proofs

    A memfd is a size and a content: reading returns it, writing and truncating change exactly
    what they should unless a seal forbids it, and what was cut off reads as zeros when the file grows again.  The
    count of writable shared mappings is kept by the mapping operations, and with it the write
    seal holds as long as [F_SEAL_FUTURE_WRITE] is not used. *)

From S2P Require Import Prelude Pmm Kalloc Machine Bytes Paging PageTables Faults Vmm VmmProofs Mmap MmapProofs Memfd.

(** ** What the heap promises

    It has frames of its own, which the allocator does not give to anybody else; the others that are in use stay in use and keep their
    contents; a block is new when it is handed out and lives until it is freed. *)
Class HeapLaws `{KernelHeap} := {
  heap_owns : kalloc_state -> Z -> Prop;
  heap_block : kalloc_state -> Z -> Prop;
  heap_inv : kalloc_state -> Prop;
  heap_sound : mm -> Prop := fun s => heap_inv (heap s) /\ forall f, heap_owns (heap s) f -> ~ pmm_free (pmm s) f;
  h_kmalloc_laws : forall n s p s', mm_ok s -> heap_sound s -> h_kmalloc n s = (p, s') -> mm_ok s' /\ heap_sound s' /\ cow s' = cow s /\
    (p = 0 \/ (~ heap_block (heap s) p /\ heap_block (heap s') p)) /\ (forall q, heap_block (heap s) q -> heap_block (heap s') q) /\
    forall f, ~ pmm_free (pmm s) f -> ~ heap_owns (heap s) f -> ~ pmm_free (pmm s') f /\ ~ heap_owns (heap s') f /\ page_of s' f = page_of s f;
  h_kfree_laws : forall p s, mm_ok s -> heap_sound s -> p = 0 \/ heap_block (heap s) p -> let s' := h_kfree p s in
    mm_ok s' /\ heap_sound s' /\ cow s' = cow s /\ (forall q, q <> p -> heap_block (heap s) q -> heap_block (heap s') q) /\
    forall f, ~ pmm_free (pmm s) f -> ~ heap_owns (heap s) f -> ~ pmm_free (pmm s') f /\ ~ heap_owns (heap s') f /\ page_of s' f = page_of s f;
}.

Section Content.

Context `{HeapLaws}.

(** ** The content of a memfd *)

Definition content (m : memfd) (s : mm) (i : Z) : Z :=
  if negb (slot m (i / PAGE_SIZE) =? 0) then byte_at (page_of s (slot m (i / PAGE_SIZE))) (Z.to_nat (i `mod` PAGE_SIZE)) else 0.

(** A frame that belongs to the file. *)
Definition held_frame (s : mm) (p : Z) : Prop := ~ pmm_free (pmm s) p /\ ~ heap_owns (heap s) p /\ 0 < p /\ p `mod` PAGE_SIZE = 0.

Record memfd_ok (m : memfd) (s : mm) : Prop := {
  mk_mm : mm_ok s;
  mk_cow : cow_ok (cow s);
  mk_size : 0 <= mf_size m /\ mf_size m + PAGE_SIZE <= 2 ^ 64;
  mk_slots : forall i, 0 <= i -> slot m i <> 0 -> held_frame s (slot m i);
  mk_inj : forall i j, 0 <= i -> 0 <= j -> slot m i <> 0 -> slot m i = slot m j -> i = j;
  mk_tail : forall i, mf_size m <= i -> content m s i = 0;
  mk_past : forall i, 0 <= i -> mf_size m <= i * PAGE_SIZE -> slot m i = 0;
  mk_heap : heap_sound s;
  mk_array : mf_array m = 0 \/ heap_block (heap s) (mf_array m);
}.

Lemma slot_past m i : mf_cap m <= i -> slot m i = 0.
Proof. intros Hi. unfold slot. rewrite lookup_ge_None_2; [done|]. unfold mf_cap in Hi. lia. Qed.

Lemma slot_set m i p j : 0 <= i < mf_cap m -> 0 <= j -> slot (set_slot m i p) j = if decide (i = j) then p else slot m j.
Proof.
  intros Hi Hj. unfold slot, set_slot, mf_cap in *. simpl. destruct (decide (i = j)) as [->|Hne]; [by rewrite list_lookup_insert_eq by lia|].
  by rewrite list_lookup_insert_ne by lia.
Qed.

Lemma pages_ceil m : 0 <= mf_size m -> mf_size m + PAGE_SIZE <= 2 ^ 64 -> forall i, (mf_size m +w (PAGE_SIZE - 1)) / PAGE_SIZE <= i <-> mf_size m <= i * PAGE_SIZE.
Proof. intros H1 H2 i. rewrite wrap64_small by (unfold PAGE_SIZE in *; lia). unfold PAGE_SIZE in *. zlia. Qed.

(** Another state in which the frames of the file are as before. *)
Lemma memfd_frame m s s' : memfd_ok m s -> mm_ok s' -> cow_ok (cow s') -> heap_sound s' -> (mf_array m = 0 \/ heap_block (heap s') (mf_array m)) ->
  (forall p, held_frame s p -> held_frame s' p /\ page_of s' p = page_of s p) -> memfd_ok m s' /\ forall i, 0 <= i -> content m s' i = content m s i.
Proof.
  intros [K1 K2 K3 K4 K5 K6 K7 K8 K9] Hm Hc Hh Hb Hf.
  assert (Hct : forall i, 0 <= i -> content m s' i = content m s i).
  { intros i Hi. unfold content. destruct (Z.eqb_spec (slot m (i / PAGE_SIZE)) 0) as [|Hne]; [done|]. simpl.
    assert (Hp : 0 <= i / PAGE_SIZE) by (unfold PAGE_SIZE; zlia). destruct (Hf _ (K4 _ Hp Hne)) as [_ ->]. done. }
  split; [|done]. split; try done.
  - intros i Hi Hne. by apply Hf, K4.
  - intros i Hi. rewrite Hct by lia. by apply K6.
Qed.

(** The same file with the same slots. *)
Lemma content_slots m m' s i : (forall j, 0 <= j -> slot m' j = slot m j) -> 0 <= i -> content m' s i = content m s i.
Proof. intros Hs Hi. unfold content. rewrite Hs; [done|unfold PAGE_SIZE; zlia]. Qed.

Lemma memfd_slots m m' s : memfd_ok m s -> (forall j, 0 <= j -> slot m' j = slot m j) -> mf_size m' = mf_size m -> (mf_array m' = 0 \/ heap_block (heap s) (mf_array m')) -> memfd_ok m' s.
Proof.
  intros [K1 K2 K3 K4 K5 K6 K7 K8 K9] Hs Hz Ha. split; rewrite ?Hz; try done.
  - intros i Hi. rewrite Hs by done. by apply K4.
  - intros i j Hi Hj. rewrite !Hs by done. by apply K5.
  - intros i Hi. rewrite (content_slots m) by (done || lia). by apply K6.
  - intros i Hi Hle. rewrite Hs by done. by apply K7.
Qed.

(** ** Reading *)

Lemma land_page x : 0 <= x -> Z.land x (PAGE_SIZE - 1) = x `mod` PAGE_SIZE.
Proof. intros Hx. unfold PAGE_SIZE. change (4096 - 1) with (Z.ones 12). by rewrite Z.land_ones by lia. Qed.

Lemma frame_load_lookup s p off n k : wf_frames s -> (off + n <= 4096)%nat ->
  frame_load s p off n !! k = if decide (k < n)%nat then Some (byte_at (page_of s p) (off + k)) else None.
Proof.
  intros Hw Hn. unfold frame_load, byte_at. assert (Hl : length (page_bytes (page_of s p)) = 4096%nat) by (rewrite page_bytes_length, Hw; done).
  destruct (decide (k < n)%nat) as [Hk|Hk].
  - rewrite lookup_take_lt, lookup_drop by lia. destruct (lookup_lt_is_Some_2 (page_bytes (page_of s p)) (off + k) ltac:(lia)) as [b ->]. done.
  - apply lookup_ge_None_2. rewrite length_take. lia.
Qed.

Lemma memfd_chunk_spec m s at_ n : memfd_ok m s -> 0 <= at_ -> 0 < n -> at_ `mod` PAGE_SIZE + n <= PAGE_SIZE ->
  memfd_read_chunk m s at_ n = (fun k => content m s (at_ + Z.of_nat k)) <$> seq 0 (Z.to_nat n).
Proof.
  intros K Ha Hn Hp. unfold memfd_read_chunk. rewrite land_page by done. apply list_eq. intros k. rewrite list_lookup_fmap.
  assert (Hpage : forall j, 0 <= j < n -> (at_ + j) / PAGE_SIZE = at_ / PAGE_SIZE /\ (at_ + j) `mod` PAGE_SIZE = at_ `mod` PAGE_SIZE + j) by (intros j Hj; unfold PAGE_SIZE in *; split; zlia).
  assert (Hc : (at_ / PAGE_SIZE <? mf_cap m) && negb (slot m (at_ / PAGE_SIZE) =? 0) = negb (slot m (at_ / PAGE_SIZE) =? 0)).
  { destruct (Z.ltb_spec (at_ / PAGE_SIZE) (mf_cap m)); [done|]. by rewrite slot_past. }
  assert (Hm : 0 <= at_ `mod` PAGE_SIZE) by (unfold PAGE_SIZE; zlia). rewrite Hc. destruct (decide (k < Z.to_nat n)%nat) as [Hk|Hk].
  - rewrite lookup_seq_lt by lia. cbn [fmap option_fmap option_map]. destruct (Hpage (Z.of_nat k) ltac:(lia)) as [E1 E2]. unfold content. rewrite Nat.add_0_l, E1, E2.
    destruct (negb (slot m (at_ / PAGE_SIZE) =? 0)).
    + rewrite frame_load_lookup by (apply (mk_mm _ _ K) || (unfold PAGE_SIZE in *; lia)). rewrite decide_True by done. f_equal. f_equal. lia.
    + by rewrite lookup_replicate_2 by lia.
  - rewrite lookup_seq_ge by lia. destruct (negb (slot m (at_ / PAGE_SIZE) =? 0)).
    + rewrite frame_load_lookup by (apply (mk_mm _ _ K) || (unfold PAGE_SIZE in *; lia)). by rewrite decide_False.
    + apply lookup_ge_None_2. rewrite length_replicate. lia.
Qed.

Lemma memfd_read_loop_spec m s fuel : forall at_ size, memfd_ok m s -> 0 <= at_ -> 0 <= size -> size <= Z.of_nat fuel ->
  memfd_read_loop fuel m s at_ size = (fun k => content m s (at_ + Z.of_nat k)) <$> seq 0 (Z.to_nat size).
Proof.
  induction fuel as [|fuel IH]; intros at_ size K Ha Hs Hf; cbn [memfd_read_loop]; [by replace (Z.to_nat size) with O by lia|].
  destruct (Z.ltb_spec 0 size) as [Hp|Hp]; [|by replace (Z.to_nat size) with O by lia]. rewrite land_page by done.
  set (n := Z.min (PAGE_SIZE - at_ `mod` PAGE_SIZE) size). assert (Hm : 0 <= at_ `mod` PAGE_SIZE < PAGE_SIZE) by (unfold PAGE_SIZE; zlia).
  rewrite memfd_chunk_spec, IH by (done || lia). replace (Z.to_nat size) with (Z.to_nat n + Z.to_nat (size - n))%nat by lia.
  rewrite seq_app, fmap_app, Nat.add_0_l. f_equal.
  replace (seq (Z.to_nat n) (Z.to_nat (size - n))) with (Nat.add (Z.to_nat n) <$> seq 0 (Z.to_nat (size - n))) by (rewrite fmap_add_seq; f_equal; lia).
  rewrite <- list_fmap_compose.
  apply list_fmap_ext. intros k x _. unfold compose. f_equal. lia.
Qed.

Lemma read_content m s size off : memfd_ok m s -> 0 <= off -> 0 <= size ->
  memfd_read m s size off = (fun k => content m s (off + Z.of_nat k)) <$> seq 0 (Z.to_nat (Z.min size (mf_size m - off))).
Proof.
  intros K Ho Hs. unfold memfd_read. destruct (Z.leb_spec (mf_size m) off); [by replace (Z.to_nat _) with O by lia|]. apply memfd_read_loop_spec; (done || lia).
Qed.

(** ** Pages of the file *)

Lemma grow_cap_spec want fuel : forall cap, 0 < cap -> want <= 2 ^ 62 -> want <= cap * 2 ^ Z.of_nat fuel -> want <= grow_cap fuel cap want /\ cap <= grow_cap fuel cap want.
Proof.
  induction fuel as [|fuel IH]; intros cap Hc Hw Hf; cbn [grow_cap]; [simpl in Hf; lia|]. destruct (Z.ltb_spec cap want) as [Hlt|]; [|lia].
  rewrite wrap64_small by lia. destruct (IH (cap * 2) ltac:(lia) Hw) as [I1 I2]; [|lia]. rewrite Nat2Z.inj_succ, Z.pow_succ_r in Hf by lia. lia.
Qed.

(** What an operation of the file leaves alone. *)
Definition same_file (m : memfd) (s : mm) (m' : memfd) (s' : mm) : Prop :=
  memfd_ok m' s' /\ mf_size m' = mf_size m /\ mf_seals m' = mf_seals m /\ mf_writers m' = mf_writers m /\ forall i, 0 <= i -> content m' s' i = content m s i.

Lemma grow_slots_spec m s want r m' s' : memfd_ok m s -> 0 <= want <= 2 ^ 62 -> grow_slots m s want = (r, m', s') ->
  same_file m s m' s' /\ (forall j, 0 <= j -> slot m' j = slot m j) /\ ((r = - ENOMEM) \/ (r = 0 /\ want <= mf_cap m')).
Proof.
  intros K Hw. unfold grow_slots. destruct (Z.leb_spec want (mf_cap m)); [intros [= <- <- <-]; split; [split; done|]; split; [done|by right]|].
  set (c0 := if mf_cap m =? 0 then 16 else mf_cap m). assert (Hc0 : 0 < c0 /\ mf_cap m <= c0) by (unfold c0, mf_cap; destruct (Z.eqb_spec (Z.of_nat (length (mf_pages m))) 0); lia).
  destruct (grow_cap_spec want 64 c0 ltac:(lia) ltac:(lia)) as [G1 G2]; [change (2 ^ Z.of_nat 64) with (2 ^ 64); lia|]. set (cap := grow_cap 64 c0 want) in *.
  destruct (h_kmalloc (cap *w 8) s) as [more s1] eqn:Ek. destruct (h_kmalloc_laws _ _ _ _ (mk_mm _ _ K) (mk_heap _ _ K) Ek) as (L1 & LS & L2 & LP & LB & L3).
  assert (Hb1 : mf_array m = 0 \/ heap_block (heap s1) (mf_array m)) by (destruct (mk_array _ _ K); auto).
  destruct (memfd_frame m s s1 K L1) as [K1 C1]; [rewrite L2; apply (mk_cow _ _ K)|done|done|intros p (A & B & C & D); destruct (L3 p A B) as (? & ? & ?); done|].
  destruct (Z.eqb_spec more 0) as [Hm0|Hm0].
  - intros [= <- <- <-]. split; [by split|]. split; [done|by left].
  - intros [= <- <- <-]. destruct (h_kfree_laws (mf_array m) s1 L1 LS Hb1) as (F1 & FS & F2 & FB & F3).
    destruct LP as [?|[Lf Lb]]; [done|]. assert (Hmore : more <> mf_array m) by (intros ->; destruct (mk_array _ _ K); [congruence|done]).
    destruct (memfd_frame (set_slots m more (mf_pages m)) s1 (h_kfree (mf_array m) s1)) as [K2 C2]; [apply (memfd_slots m); try done; by right|done|rewrite F2; apply (mk_cow _ _ K1)|done|right; by apply FB|intros p (A & B & C & D); destruct (F3 p A B) as (? & ? & ?); done|].
    assert (Hs : forall j, 0 <= j -> slot (set_slots m more (mf_pages m ++ replicate (Z.to_nat (cap - mf_cap m)) 0)) j = slot m j).
    { intros j Hj. unfold slot. simpl. destruct (decide (Z.to_nat j < length (mf_pages m))%nat) as [Hl|Hl]; [by rewrite lookup_app_l|].
      rewrite lookup_app_r by lia. rewrite (lookup_ge_None_2 (mf_pages m)) by lia. destruct (replicate _ 0 !! _) as [x|] eqn:Ex; [|done]. by apply lookup_replicate in Ex as [-> _]. }
    split; [split; [apply (memfd_slots (set_slots m more (mf_pages m))); try done; right; by apply FB|]; do 3 (split; [done|]); intros i Hi; rewrite (content_slots (set_slots m more (mf_pages m))), C2 by done; by apply C1|].
    split; [done|]. right. split; [done|]. unfold mf_cap, set_slots. simpl. rewrite length_app, length_replicate. unfold mf_cap in *. lia.
Qed.

(** A new zeroed page in an empty slot. *)
Lemma add_page m s index p s1 : memfd_ok m s -> 0 <= index < mf_cap m -> slot m index = 0 -> index * PAGE_SIZE < mf_size m -> pmm_alloc s 1 = (p, s1) -> p <> 0 ->
  same_file m s (set_slot m index p) (cow_ref_page (page_clear s1 p) p).
Proof.
  intros K Hi Hs Hlt Ea Hp. destruct (pmm_alloc_one _ _ _ (mk_mm _ _ K) Ea) as [Hok1 [[-> _]|[Hf Hfr]]]; [done|].
  assert (Hh : heap s1 = heap s /\ cow s1 = cow s) by (unfold pmm_alloc in Ea; destruct (pmm_alloc_pages (pmm s) 1); by injection Ea as <- <-). destruct Hh as [Hh1 Hh2].
  pose proof Hf as [F1 F2 F3 F4 _ _ _ _]. pose proof K as [K1 K2 K3 K4 K5 K6 K7 K8 K9].
  assert (Hc1 : cow_ok (cow (page_clear s1 p))) by (simpl; by rewrite Hh2). set (s2 := page_clear s1 p) in *.
  destruct (ref_page_spec s2 p Hc1 ltac:(lia)) as (R1 & R2 & _). set (s3 := cow_ref_page s2 p) in *.
  assert (Hh3 : heap s3 = heap s) by (unfold s3, cow_ref_page; rewrite cow_init_ready by apply Hc1; unfold s2; destruct (negb _); [done|]; by destruct (_ <? _)).
  assert (Hok2 : mm_ok s2) by (destruct Hok1; split; try done; by apply wf_frames_clear).
  assert (Hpm : pmm s3 = pmm s1) by (by destruct R2 as (_ & -> & _)).
  assert (Hpg : forall q, page_of s3 q = if decide (p = q) then zero_page else page_of s q).
  { intros q. rewrite R2. unfold s2. rewrite page_of_clear. case_decide; [done|]. unfold page_of. by rewrite Hfr. }
  assert (Hheld : forall q, held_frame s q -> held_frame s3 q /\ page_of s3 q = page_of s q).
  { intros q (A & B & C & D). split; [split; [rewrite Hpm, F2; tauto|]; split; [by rewrite Hh3|done]|]. rewrite Hpg, decide_False; [done|]. by intros ->. }
  assert (Hown : ~ heap_owns (heap s) p) by (intros Ho; by apply (proj2 K8 p Ho)).
  assert (Hs3 : heap_sound s3) by (split; [rewrite Hh3; apply K8|]; intros f; rewrite Hh3, Hpm, F2; intros Ho [Hff _]; by apply (proj2 K8 f Ho)).
  assert (Hnew : held_frame s3 p) by (split; [rewrite Hpm, F2; tauto|split; [by rewrite Hh3|lia || done]]).
  destruct (memfd_frame m s s3 K) as [[L1 L2 L3 L4 L5 L6 L7 L8 L9] HC]; [by rewrite R2|done|done|by rewrite Hh3|done|].
  assert (Hss : forall j, 0 <= j -> slot (set_slot m index p) j = if decide (index = j) then p else slot m j) by (intros j Hj; by apply slot_set).
  assert (Hfresh : forall j, 0 <= j -> slot m j <> p) by (intros j Hj E; destruct (K4 j Hj) as [A _]; [by rewrite E|]; apply A; by rewrite E).
  assert (Hct : forall i, 0 <= i -> content (set_slot m index p) s3 i = content m s i).
  { intros i Hi0. assert (0 <= i / PAGE_SIZE) by (unfold PAGE_SIZE; zlia). rewrite <- HC by done. unfold content. rewrite Hss by done.
    destruct (decide (index = i / PAGE_SIZE)) as [<-|Hne]; [|done]. rewrite Hs. rewrite (proj2 (Z.eqb_neq p 0) Hp). simpl. by rewrite Hpg, decide_True, byte_at_zero. }
  split; [|done]. split; try done.
  - intros i Hi0. rewrite Hss by done. case_decide; [done|]. by apply L4.
  - intros i j Hi0 Hj0. rewrite !Hss by done. repeat case_decide; try congruence; [intros _ E; by destruct (Hfresh j Hj0)|intros _ E; by destruct (Hfresh i Hi0)|by apply L5].
  - intros i Hge. rewrite Hct by (simpl in Hge; lia). apply K6. exact Hge.
  - intros i Hi0 Hge. rewrite Hss by done. case_decide as E; [subst; simpl in Hge; lia|]. by apply K7.
Qed.

Lemma get_page_spec m s index p m' s' : memfd_ok m s -> 0 <= index -> index * PAGE_SIZE < mf_size m -> memfd_get_page m s index true = (p, m', s') ->
  same_file m s m' s' /\ (p = 0 \/ (p <> 0 /\ slot m' index = p)).
Proof.
  intros K Hi Hlt. unfold memfd_get_page. pose proof (mk_size _ _ K) as [Z1 Z2].
  destruct (Z.leb_spec ((mf_size m +w (PAGE_SIZE - 1)) / PAGE_SIZE) index) as [Hle|_]; [apply (pages_ceil m Z1 Z2) in Hle; lia|].
  destruct ((index <? mf_cap m) && negb (slot m index =? 0)) eqn:E; [intros [= <- <- <-]; bool_prop; split; [by split|right; done]|]. cbn [negb].
  assert (Hs0 : slot m index = 0).
  { destruct (Z.ltb_spec index (mf_cap m)); [|by apply slot_past]. cbn [andb] in E. by bool_prop. }
  assert (Hb : index < 2 ^ 52) by (unfold PAGE_SIZE in *; lia). rewrite wrap64_small by lia.
  destruct (grow_slots m s (index + 1)) as [[r m1] s1] eqn:Eg. destruct (grow_slots_spec m s (index + 1) r m1 s1 K ltac:(lia) Eg) as ((K1 & Z3 & Z4 & Z5 & C1) & S1 & Hr).
  destruct (r <? 0) eqn:Er; [intros [= <- <- <-]; split; [by split|by left]|]. destruct Hr as [->|[-> Hcap]]; [by vm_compute in Er|].
  destruct (pmm_alloc s1 1) as [q s2] eqn:Ea. destruct (Z.eqb_spec q 0) as [->|Hq].
  - intros [= <- <- <-]. split; [|by left]. destruct (pmm_alloc_one _ _ _ (mk_mm _ _ K1) Ea) as [_ [[_ ->]|[Hf _]]]; [by split|]. pose proof (ff_range _ _ _ Hf). lia.
  - intros [= <- <- <-]. destruct (add_page m1 s1 index q s2 K1 ltac:(lia) ltac:(by rewrite S1) ltac:(lia) Ea Hq) as (K2 & A1 & A2 & A3 & C2).
    split; [split; [done|]; rewrite A1, A2, A3; do 3 (split; [done|]); intros i Hi0; by rewrite C2, C1|]. right. split; [done|]. by rewrite slot_set, decide_True by lia.
Qed.

(** ** Writing *)

(** [bs] put over a content at [at_]. *)
Definition overlay (f : Z -> Z) (at_ : Z) (bs : list Z) (i : Z) : Z :=
  if decide (at_ <= i < at_ + Z.of_nat (length bs)) then default 0 (bs !! Z.to_nat (i - at_)) else f i.

Lemma store_content m s p at_ bs i : memfd_ok m s -> 0 <= at_ -> 0 <= i -> slot m (at_ / PAGE_SIZE) = p -> p <> 0 -> Forall is_byte bs ->
  at_ `mod` PAGE_SIZE + Z.of_nat (length bs) <= PAGE_SIZE ->
  content m (frame_store s p (Z.to_nat (at_ `mod` PAGE_SIZE)) bs) i = overlay (content m s) at_ bs i.
Proof.
  intros K Ha Hi Hs Hp Hb Hl. unfold content, overlay. assert (Hm : 0 <= at_ `mod` PAGE_SIZE < PAGE_SIZE) by (unfold PAGE_SIZE; zlia).
  assert (Hpi : 0 <= i / PAGE_SIZE) by (unfold PAGE_SIZE; zlia). assert (Hpa : 0 <= at_ / PAGE_SIZE) by (unfold PAGE_SIZE; zlia).
  destruct (decide (i / PAGE_SIZE = at_ / PAGE_SIZE)) as [E|NE].
  - rewrite E, Hs, (proj2 (Z.eqb_neq p 0) Hp). cbn [negb]. rewrite page_of_store, decide_True by done.
    rewrite byte_at_store; [|done|rewrite (mo_frames _ (mk_mm _ _ K)); unfold PAGE_SIZE in *; lia].
    destruct (decide (at_ <= i < at_ + Z.of_nat (length bs))) as [Hin|Hout].
    + rewrite decide_True by (unfold PAGE_SIZE in *; zlia). f_equal. f_equal. unfold PAGE_SIZE in *. zlia.
    + rewrite decide_False by (unfold PAGE_SIZE in *; zlia). done.
  - rewrite (decide_False (P := at_ <= i < _)) by (unfold PAGE_SIZE in *; zlia). destruct (Z.eqb_spec (slot m (i / PAGE_SIZE)) 0) as [|Hne]; [done|]. cbn [negb].
    rewrite page_of_store, decide_False; [done|]. intros Eq. apply NE. apply (mk_inj _ _ K); [done|done|done|congruence].
Qed.

Lemma store_ok m s p at_ bs : memfd_ok m s -> 0 <= at_ -> slot m (at_ / PAGE_SIZE) = p -> p <> 0 -> Forall is_byte bs ->
  at_ `mod` PAGE_SIZE + Z.of_nat (length bs) <= PAGE_SIZE -> (forall i, mf_size m <= i -> overlay (content m s) at_ bs i = 0) ->
  memfd_ok m (frame_store s p (Z.to_nat (at_ `mod` PAGE_SIZE)) bs).
Proof.
  intros K Ha Hs Hp Hb Hl Ht. pose proof K as [K1 K2 K3 K4 K5 K6 K7 K8 K9]. split; try done.
  - destruct K1 as [M1 M2 M3 M4]. split; try done. intros q. rewrite page_of_store. case_decide; [by rewrite page_store_length|apply M2].
  - intros i Hi. rewrite store_content by (done || lia). by apply Ht.
Qed.

Lemma overlay_app f at_ bs cs i : overlay (overlay f at_ bs) (at_ + Z.of_nat (length bs)) cs i = overlay f at_ (bs ++ cs) i.
Proof.
  unfold overlay. rewrite length_app. repeat case_decide; try lia; try done.
  - rewrite lookup_app_r by lia. f_equal. f_equal. lia.
  - by rewrite lookup_app_l by lia.
Qed.

Lemma overlay_ext f g at_ bs i : f i = g i -> overlay f at_ bs i = overlay g at_ bs i.
Proof. unfold overlay. by case_decide. Qed.

(** The loop stores a prefix, all of it when it does not run out of memory. *)
Lemma memfd_write_loop_spec fuel : forall m s at_ done bs r m' s', memfd_ok m s -> 0 <= at_ -> 0 <= done -> Forall is_byte bs -> (length bs <= fuel)%nat ->
  at_ + Z.of_nat (length bs) <= mf_size m -> memfd_write_loop fuel m s at_ done bs = (r, m', s') ->
  exists k, 0 <= k <= Z.of_nat (length bs) /\ ((r = done + k /\ (0 < r \/ bs = [])) \/ (r = - ENOMEM /\ done = 0 /\ k = 0)) /\
    memfd_ok m' s' /\ mf_size m' = mf_size m /\ mf_seals m' = mf_seals m /\ mf_writers m' = mf_writers m /\
    forall i, 0 <= i -> content m' s' i = overlay (content m s) at_ (take (Z.to_nat k) bs) i.
Proof.
  induction fuel as [|fuel IH]; intros m s at_ done bs r m' s' K Ha Hd Hb Hf Hsz; cbn [memfd_write_loop].
  - intros [= <- <- <-]. exists 0. destruct bs; [|simpl in Hf; lia]. split; [simpl; lia|]. split; [left; split; [lia|by right]|]. do 4 (split; [done|]). intros i Hi. unfold overlay. simpl. by rewrite decide_False by lia.
  - destruct bs as [|b0 bs0]; [intros [= <- <- <-]; exists 0; split; [simpl; lia|]; split; [left; split; [lia|by right]|]; do 4 (split; [done|]); intros i Hi; unfold overlay; simpl; by rewrite decide_False by lia|].
    set (bs := b0 :: bs0) in *. rewrite land_page by done. set (n := Z.min (PAGE_SIZE - at_ `mod` PAGE_SIZE) (Z.of_nat (length bs))).
    assert (Hm : 0 <= at_ `mod` PAGE_SIZE < PAGE_SIZE) by (unfold PAGE_SIZE; zlia). assert (Hn : 0 < n <= Z.of_nat (length bs)) by (unfold bs in *; simpl in *; lia).
    destruct (memfd_get_page m s (at_ / PAGE_SIZE) true) as [[p m1] s1] eqn:Eg.
    destruct (get_page_spec m s (at_ / PAGE_SIZE) p m1 s1 K) as ((K1 & Z1 & Z2 & Z3 & C1) & Hp); [unfold PAGE_SIZE; zlia|unfold PAGE_SIZE in *; zlia|done|].
    destruct (Z.eqb_spec p 0) as [->|Hp0].
    { intros [= <- <- <-]. exists 0. split; [lia|]. split; [destruct (Z.eqb_spec done 0) as [->|]; cbn [negb]; [by right|left; split; [lia|left; lia]]|].
      do 4 (split; [done|]). intros i Hi. unfold overlay. simpl. rewrite decide_False by lia. by apply C1. }
    destruct Hp as [?|[_ Hs]]; [done|]. set (c := take (Z.to_nat n) bs). assert (Hlc : Z.of_nat (length c) = n) by (unfold c; rewrite length_take; lia).
    assert (Hbc : Forall is_byte c) by (by apply Forall_take).
    assert (K2 : memfd_ok m1 (frame_store s1 p (Z.to_nat (at_ `mod` PAGE_SIZE)) c)).
    { apply store_ok; try done; [lia|]. intros i Hi. unfold overlay. rewrite decide_False by lia. by apply (mk_tail _ _ K1). }
    intros E. destruct (IH m1 (frame_store s1 p (Z.to_nat (at_ `mod` PAGE_SIZE)) c) (at_ + n) (done + n) (drop (Z.to_nat n) bs) r m' s' K2)
      as (k & Hk & Hr & K3 & Y1 & Y2 & Y3 & C3); [lia|lia|by apply Forall_drop|rewrite length_drop; unfold bs in *; simpl in *; lia|rewrite Z1, length_drop; lia|exact E|].
    rewrite length_drop in Hk. exists (n + k). split; [lia|]. split; [left; destruct Hr as [[-> _]|(_ & ? & _)]; lia|].
    split; [done|]. split; [congruence|]. split; [congruence|]. split; [congruence|]. intros i Hi. rewrite C3 by done.
    rewrite (overlay_ext _ (overlay (content m s) at_ c)); [|rewrite store_content by (done || lia); by apply overlay_ext, C1]. rewrite <- Hlc at 1. rewrite overlay_app. f_equal.
    unfold c. replace (Z.to_nat (n + k)) with (Z.to_nat n + Z.to_nat k)%nat by lia. by rewrite take_take_drop.
Qed.

(** ** Truncating *)

Lemma frame_put_ok s p : mm_ok s -> cow_ok (cow s) -> heap_sound s -> held_frame s p ->
  let s' := frame_put s p in
  mm_ok s' /\ cow_ok (cow s') /\ heap_sound s' /\ heap s' = heap s /\ forall q, held_frame s q -> q <> p -> held_frame s' q /\ page_of s' q = page_of s q.
Proof.
  intros Hok Hc Hsound (P1 & P2 & P3 & P4) s'. subst s'. unfold frame_put. rewrite (proj2 (Z.eqb_neq p 0)) by lia.
  assert (Hh : forall r s1, cow_unref_page s p = (r, s1) -> heap s1 = heap s).
  { intros r s1. unfold cow_unref_page. rewrite cow_init_ready by apply Hc. destruct (negb _); [by intros [= _ <-]|]. destruct (_ && _); by intros [= _ <-]. }
  destruct (cow_unref_page s p) as [refs s1] eqn:Eu. specialize (Hh refs s1 eq_refl).
  destruct (unref_page_spec s p refs s1 Hc ltac:(lia) Eu) as (V1 & V2 & _). assert (Hok1 : mm_ok s1) by (by rewrite V2). pose proof V2 as (V3 & V4 & V5).
  assert (Hk1 : forall q, held_frame s q -> held_frame s1 q /\ page_of s1 q = page_of s q).
  { intros q (A & B & C & D). split; [|by rewrite V2]. split; [by rewrite V4|]. split; [by rewrite Hh|done]. }
  assert (Hs1 : heap_sound s1) by (unfold heap_sound; by rewrite Hh, V4).
  destruct (refs =? 0); [|split_and!; try done; intros q Hq _; by apply Hk1].
  destruct (pmm_free_pages_spec (pmm s1) p 1 (mo_pmm _ Hok1) ltac:(lia)) as (W1 & W2 & W3).
  assert (Hfree : forall q, pmm_free (pmm (pmm_release s1 p 1)) q -> pmm_free (pmm s1) q \/ q = p).
  { intros q. unfold pmm_release. cbn [pmm set_pmm]. rewrite W3. intros [?|(e & He & Hr & Hf)]; [by left|right].
  destruct (wf_pmm_elem _ _ (mo_pmm _ Hok1) He). apply freed_frames_range, in_range_one in Hf; [done|lia| |]; unfold usable_end, usable_start, PAGE_SIZE in *; zlia. }
  split; [by apply mm_ok_set_pmm|]. split; [done|]. split; [|split; [done|]].
  - split; [apply Hs1|]. intros f Ho Hff. destruct (Hfree f Hff) as [Hq| ->]; [by apply (proj2 Hs1 f)|]. apply P2. cbn [pmm_release heap set_pmm] in Ho. by rewrite <- Hh.
  - intros q Hq Hne. destruct (Hk1 q Hq) as [(A & B & C & D) E]. split; [|done]. split; [|split; [exact B|done]]. intros Hff. by destruct (Hfree q Hff).
Qed.

Lemma drop_slot m s i : memfd_ok m s -> 0 <= i < mf_cap m ->
  memfd_ok (set_slot m i 0) (frame_put s (slot m i)) /\
  forall j, 0 <= j -> content (set_slot m i 0) (frame_put s (slot m i)) j = if decide (j / PAGE_SIZE = i) then 0 else content m s j.
Proof.
  intros K Hi. pose proof K as [K1 K2 K3 K4 K5 K6 K7 K8 K9]. set (s' := frame_put s (slot m i)).
  assert (Hss : forall j, 0 <= j -> slot (set_slot m i 0) j = if decide (i = j) then 0 else slot m j) by (intros j Hj; by apply slot_set).
  assert (Hput : mm_ok s' /\ cow_ok (cow s') /\ heap_sound s' /\ heap s' = heap s /\ forall q, held_frame s q -> q <> slot m i -> held_frame s' q /\ page_of s' q = page_of s q).
  { unfold s'. destruct (Z.eqb_spec (slot m i) 0) as [E|E]; [rewrite E; split_and!; done|]. apply frame_put_ok; [done|done|done|]. apply K4; [lia|done]. }
  destruct Hput as (P1 & P2 & PS & PH & P3).
  assert (Hct : forall j, 0 <= j -> content (set_slot m i 0) s' j = if decide (j / PAGE_SIZE = i) then 0 else content m s j).
  { intros j Hj. assert (0 <= j / PAGE_SIZE) by (unfold PAGE_SIZE; zlia). unfold content. rewrite Hss by done. destruct (decide (i = j / PAGE_SIZE)) as [->|Hne]; [by rewrite decide_True|].
    rewrite decide_False by congruence. destruct (Z.eqb_spec (slot m (j / PAGE_SIZE)) 0) as [|Hnz]; [done|]. cbn [negb].
    destruct (P3 (slot m (j / PAGE_SIZE))) as [_ ->]; [by apply K4| |done]. intros E. apply Hne. symmetry. apply K5; [done|lia|done|done]. }
  split; [|done]. split; try done.
  - intros j Hj. rewrite Hss by done. case_decide as E; [done|]. intros Hnz. apply P3; [by apply K4|]. intros Eq. apply E. symmetry. apply K5; [done|lia|done|done].
  - intros a b Ha Hb. rewrite !Hss by done. repeat case_decide; try congruence. by apply K5.
  - intros j Hj. rewrite Hct by (simpl in Hj; lia). case_decide; [done|]. by apply K6.
  - intros j Hj Hge. rewrite Hss by done. case_decide; [done|]. by apply K7.
  - by rewrite PH.
Qed.

Lemma cut_slots_spec n : forall m s i m' s', memfd_ok m s -> 0 <= i -> i + Z.of_nat n <= mf_cap m -> cut_slots n m s i = (m', s') ->
  memfd_ok m' s' /\ mf_cap m' = mf_cap m /\ mf_size m' = mf_size m /\ mf_seals m' = mf_seals m /\ mf_writers m' = mf_writers m /\
  (forall j, 0 <= j -> slot m' j = if decide (i <= j < i + Z.of_nat n) then 0 else slot m j) /\
  (forall j, 0 <= j -> content m' s' j = if decide (i <= j / PAGE_SIZE < i + Z.of_nat n) then 0 else content m s j).
Proof.
  induction n as [|n IH]; intros m s i m' s' K Hi Hn; cbn [cut_slots].
  - intros [= <- <-]. do 5 (split; [done|]). split; intros j Hj; by rewrite decide_False by lia.
  - intros E. destruct (drop_slot m s i K ltac:(lia)) as [K1 C1].
    assert (Hcap : mf_cap (set_slot m i 0) = mf_cap m) by (unfold mf_cap; simpl; by rewrite length_insert).
    destruct (IH _ _ (i + 1) m' s' K1 ltac:(lia) ltac:(rewrite Hcap; lia) E) as (K2 & A1 & A2 & A3 & A4 & S2 & C2).
    split; [done|]. split; [congruence|]. split; [done|]. split; [done|]. split; [done|]. split; intros j Hj.
    + rewrite S2, slot_set by (done || lia). repeat case_decide; try done; lia.
    + rewrite C2, C1 by done. repeat case_decide; try done; lia.
Qed.

(** Everything from [size] on is gone. *)
Lemma cut_to_spec m s size m' s' : memfd_ok m s -> 0 <= size < mf_size m -> cut_to m s size = (m', s') ->
  memfd_ok (set_size m' size) s' /\ mf_seals m' = mf_seals m /\ mf_writers m' = mf_writers m /\
  forall j, 0 <= j -> content m' s' j = if decide (j < size) then content m s j else 0.
Proof.
  intros K Hs. pose proof (mk_size _ _ K) as [Z1 Z2]. unfold cut_to. rewrite wrap64_small by (unfold PAGE_SIZE in *; lia). set (keep := (size + (PAGE_SIZE - 1)) / PAGE_SIZE).
  assert (Hkeep : 0 <= keep /\ forall j, keep <= j <-> size <= j * PAGE_SIZE) by (unfold keep, PAGE_SIZE in *; split; [zlia|intros j; zlia]). destruct Hkeep as [Hk0 Hkeep].
  rewrite land_page by lia. destruct (cut_slots (Z.to_nat (mf_cap m - keep)) m s keep) as [m1 s1] eqn:Ec.
  assert (H1 : memfd_ok m1 s1 /\ mf_cap m1 = mf_cap m /\ mf_size m1 = mf_size m /\ mf_seals m1 = mf_seals m /\ mf_writers m1 = mf_writers m /\
    (forall j, 0 <= j -> slot m1 j = if decide (keep <= j) then 0 else slot m j) /\ (forall j, 0 <= j -> content m1 s1 j = if decide (keep <= j / PAGE_SIZE) then 0 else content m s j)).
  { destruct (decide (keep <= mf_cap m)) as [Hle|Hgt].
    - destruct (cut_slots_spec (Z.to_nat (mf_cap m - keep)) m s keep m1 s1 K Hk0 ltac:(rewrite Z2Nat.id; lia) Ec) as (A0 & A1 & A2 & A3 & A4 & S1 & C1). do 5 (split; [done|]). rewrite Z2Nat.id in S1, C1 by lia.
      split; intros j Hj; [rewrite S1 by done|rewrite C1 by done]; repeat case_decide; try done; try lia; [by rewrite slot_past by lia|].
      unfold content. by rewrite slot_past by lia.
    - replace (Z.to_nat (mf_cap m - keep)) with O in Ec by lia. injection Ec as <- <-. do 5 (split; [done|]).
      split; intros j Hj; case_decide; try done; [by rewrite slot_past by lia|]. unfold content. by rewrite slot_past by lia. }
  destruct H1 as (K1 & A1 & A2 & A3 & A4 & S1 & C1).
  assert (Hfin : forall s2, memfd_ok m1 s2 -> (forall j, 0 <= j -> content m1 s2 j = if decide (j < size) then content m s j else 0) ->
    memfd_ok (set_size m1 size) s2 /\ mf_seals m1 = mf_seals m /\ mf_writers m1 = mf_writers m /\ forall j, 0 <= j -> content m1 s2 j = if decide (j < size) then content m s j else 0).
  { intros s2 [L1 L2 L3 L4 L5 L6 L7 L8 L9] C2. split; [|by split]. split; try done; [simpl; lia| |].
    - intros j Hj. change (content m1 s2 j = 0). simpl in Hj. rewrite C2 by lia. by rewrite decide_False by lia.
    - intros j Hj Hge. change (slot m1 j = 0). simpl in Hge. rewrite S1, decide_True; [done|by apply Hkeep|done]. }
  assert (Hlast : forall j, 0 <= j -> ~ keep <= j / PAGE_SIZE -> size <= j -> size `mod` PAGE_SIZE <> 0 /\ j / PAGE_SIZE = keep - 1 /\ size / PAGE_SIZE = keep - 1) by (intros j Hj Hn Hge; unfold keep, PAGE_SIZE in *; split_and!; zlia).
  assert (Hbelow : forall j, 0 <= j < size -> ~ keep <= j / PAGE_SIZE) by (intros j Hj; unfold keep, PAGE_SIZE in *; zlia).
  destruct (negb (size `mod` PAGE_SIZE =? 0) && (keep - 1 <? mf_cap m1) && negb (slot m1 (keep - 1) =? 0)) eqn:E; intros [= <- <-]; apply Hfin; try done.
  - bool_prop. assert (Hpg : size / PAGE_SIZE = keep - 1) by (unfold keep, PAGE_SIZE in *; zlia). rewrite <- Hpg in *. assert (0 <= size `mod` PAGE_SIZE < PAGE_SIZE) by (unfold PAGE_SIZE; zlia).
    apply store_ok; try done; [lia|by apply Forall_replicate|rewrite length_replicate; lia|]. intros j Hj. unfold overlay. case_decide; [|by apply (mk_tail _ _ K1)].
    destruct (replicate _ 0 !! _) as [x|] eqn:Ex; [|done]. by apply lookup_replicate in Ex as [-> _].
  - intros j Hj. bool_prop. assert (Hpg : size / PAGE_SIZE = keep - 1) by (unfold keep, PAGE_SIZE in *; zlia). rewrite <- Hpg. assert (Hm : 0 <= size `mod` PAGE_SIZE < PAGE_SIZE) by (unfold PAGE_SIZE; zlia).
    rewrite store_content; try done; [|lia|by rewrite Hpg|by apply Forall_replicate|rewrite length_replicate; lia]. unfold overlay. rewrite length_replicate. destruct (decide (j < size)) as [Hlt|Hge].
    + rewrite decide_False by lia. by rewrite C1, decide_False by (done || by apply Hbelow).
    + case_decide as Hin; [destruct (replicate _ 0 !! _) as [x|] eqn:Ex; [|done]; by apply lookup_replicate in Ex as [-> _]|].
      rewrite C1 by done. case_decide as Hk; [done|]. exfalso. unfold keep, PAGE_SIZE in *. zlia.
  - intros j Hj. rewrite C1 by done. destruct (decide (j < size)) as [Hlt|Hge]; [by rewrite decide_False by (by apply Hbelow)|]. case_decide as Hk; [done|].
    destruct (Hlast j Hj Hk ltac:(lia)) as (L1 & L2 & L3). rewrite (proj2 (Z.eqb_neq _ _) L1) in E. cbn [negb andb] in E. unfold content. rewrite L2.
    assert (Hz : slot m (keep - 1) = 0); [|by rewrite Hz]. assert (Hs1 : slot m1 (keep - 1) = slot m (keep - 1)) by (rewrite S1, decide_False; [done|lia|rewrite <- L2; unfold PAGE_SIZE; zlia]).
    destruct (Z.ltb_spec (keep - 1) (mf_cap m1)) as [Hc|Hc]; [|rewrite slot_past; [done|lia]]. cbn [andb] in E. rewrite Hs1 in E. by bool_prop.
Qed.

(** What a seal forbids. *)
Definition grow_refused (m : memfd) (size : Z) : bool := (mf_size m <? size) && flag (mf_seals m) F_SEAL_GROW.

Definition shrink_refused (m : memfd) (size : Z) : bool := (size <? mf_size m) && flag (mf_seals m) F_SEAL_SHRINK.

Lemma resize_spec m s size r m' s' : memfd_ok m s -> 0 <= size -> size + PAGE_SIZE <= 2 ^ 64 -> resize m s size = (r, m', s') ->
  if grow_refused m size || shrink_refused m size then r = - EPERM /\ m' = m /\ s' = s
  else r = 0 /\ memfd_ok m' s' /\ mf_size m' = size /\ mf_seals m' = mf_seals m /\ mf_writers m' = mf_writers m /\
    forall j, 0 <= j -> content m' s' j = if decide (j < size) then content m s j else 0.
Proof.
  intros K Hs Hb. unfold resize, grow_refused, shrink_refused. destruct (_ && _); [by intros [= <- <- <-]|]. destruct (_ && _); [by intros [= <- <- <-]|]. cbn [orb].
  destruct (Z.ltb_spec size (mf_size m)) as [Hlt|Hge].
  - destruct (cut_to m s size) as [m1 s1] eqn:Ec. intros [= <- <- <-]. destruct (cut_to_spec m s size m1 s1 K ltac:(lia) Ec) as (K1 & A1 & A2 & C1). split; [done|]. by split_and!.
  - intros [= <- <- <-]. split; [done|]. pose proof K as [K1 K2 K3 K4 K5 K6 K7 K8 K9]. split; [split; try done; [intros i Hi; simpl in Hi; apply K6; lia|intros i Hi Hi2; simpl in Hi2; apply K7; [done|lia]]|].
    do 3 (split; [done|]). intros j Hj. change (content m s j = if decide (j < size) then content m s j else 0). case_decide; [done|]. apply K6. lia.
Qed.

Lemma write_spec m s bs off : memfd_ok m s -> Forall is_byte bs -> 0 <= off -> off + Z.of_nat (length bs) + PAGE_SIZE <= 2 ^ 64 ->
  let '(r, m', s') := memfd_write m s bs off in
  if flag (mf_seals m) (Z.lor F_SEAL_WRITE F_SEAL_FUTURE_WRITE) || grow_refused m (off + Z.of_nat (length bs))
  then r = - EPERM /\ m' = m /\ s' = s
  else memfd_ok m' s' /\ mf_size m' = Z.max (mf_size m) (off + Z.of_nat (length bs)) /\ mf_seals m' = mf_seals m /\ mf_writers m' = mf_writers m /\
    ((r = - ENOMEM /\ forall i, 0 <= i -> content m' s' i = content m s i) \/
     (0 <= r <= Z.of_nat (length bs) /\ (0 < r \/ bs = []) /\ forall i, 0 <= i -> content m' s' i = overlay (content m s) off (take (Z.to_nat r) bs) i)).
Proof.
  intros K Hb Ho Hend. unfold memfd_write. destruct (flag _ _); [done|]. cbn [orb]. destruct (Z.leb_spec (2 ^ 64) (off + Z.of_nat (length bs))); [unfold PAGE_SIZE in *; lia|].
  set (end_ := off + Z.of_nat (length bs)) in *. destruct (if mf_size m <? end_ then resize m s end_ else (0, m, s)) as [[err m1] s1] eqn:Er.
  assert (HR : if grow_refused m end_ then err = - EPERM /\ m1 = m /\ s1 = s
    else err = 0 /\ memfd_ok m1 s1 /\ mf_size m1 = Z.max (mf_size m) end_ /\ mf_seals m1 = mf_seals m /\ mf_writers m1 = mf_writers m /\ forall j, 0 <= j -> content m1 s1 j = content m s j).
  { destruct (Z.ltb_spec (mf_size m) end_) as [Hlt|Hge].
    - pose proof (resize_spec m s end_ err m1 s1 K ltac:(lia) ltac:(lia) Er) as HR. assert (Esh : shrink_refused m end_ = false) by (unfold shrink_refused; by rewrite (proj2 (Z.ltb_ge end_ (mf_size m))) by lia).
      rewrite Esh, orb_false_r in HR. destruct (grow_refused m end_); [done|]. destruct HR as (-> & K1 & A1 & A2 & A3 & C1). split_and!; try done; [lia|].
      intros j Hj. rewrite C1 by done. case_decide; [done|]. symmetry. apply (mk_tail _ _ K). lia.
    - injection Er as <- <- <-. unfold grow_refused. rewrite (proj2 (Z.ltb_ge (mf_size m) end_)) by lia. cbn [andb]. split_and!; try done. lia. }
  destruct (grow_refused m end_); [by destruct HR as (-> & -> & ->)|]. destruct HR as (-> & K1 & A1 & A2 & A3 & C1). cbn [Z.eqb negb].
  destruct (memfd_write_loop (length bs) m1 s1 off 0 bs) as [[r m'] s'] eqn:Ew.
  destruct (memfd_write_loop_spec (length bs) m1 s1 off 0 bs r m' s' K1 Ho ltac:(lia) Hb ltac:(lia) ltac:(unfold end_ in *; lia) Ew) as (k & Hk & Hr & K2 & B1 & B2 & B3 & C2).
  split_and!; [done|congruence|congruence|congruence|]. destruct Hr as [[-> Hr]|(-> & _ & ->)].
  - right. split_and!; [lia|lia|done|]. intros i Hi. rewrite C2 by done. rewrite Z.add_0_l. apply overlay_ext. by apply C1.
  - left. split; [done|]. intros i Hi. rewrite C2, <- C1 by done. unfold overlay. simpl. by rewrite decide_False by lia.
Qed.

(** C10. A memfd refines a file that is a size and a content, zero from the size on, for offsets and sizes that end a page below 2^64.  Reading returns the content up to the size.
    Writing is refused without effect exactly under [F_SEAL_WRITE] or [F_SEAL_FUTURE_WRITE], or under [F_SEAL_GROW] when it ends
    behind the size.  Otherwise the file is as long as the write's end from then on, also when memory runs out; a prefix of
    the bytes is stored, not an empty one, and nothing else changes, or it fails for lack of memory and no byte changes.  Truncating
    is refused without effect exactly when it grows under [F_SEAL_GROW] or shrinks under [F_SEAL_SHRINK]; otherwise it
    keeps the content below the new size and forgets the rest, so that growing again reads zeros.  Seals and writers stay. *)
Theorem memfd_refines m s :
  memfd_ok m s ->
  (forall size off, 0 <= off -> 0 <= size ->
     memfd_read m s size off = (fun k => content m s (off + Z.of_nat k)) <$> seq 0 (Z.to_nat (Z.min size (mf_size m - off)))) /\
  (forall bs off, Forall is_byte bs -> 0 <= off -> off + Z.of_nat (length bs) + PAGE_SIZE <= 2 ^ 64 ->
     let '(r, m', s') := memfd_write m s bs off in
     if flag (mf_seals m) (Z.lor F_SEAL_WRITE F_SEAL_FUTURE_WRITE) || grow_refused m (off + Z.of_nat (length bs))
     then r = - EPERM /\ m' = m /\ s' = s
     else memfd_ok m' s' /\ mf_size m' = Z.max (mf_size m) (off + Z.of_nat (length bs)) /\ mf_seals m' = mf_seals m /\ mf_writers m' = mf_writers m /\
       ((r = - ENOMEM /\ forall i, 0 <= i -> content m' s' i = content m s i) \/
        (0 <= r <= Z.of_nat (length bs) /\ (0 < r \/ bs = []) /\ forall i, 0 <= i -> content m' s' i = overlay (content m s) off (take (Z.to_nat r) bs) i))) /\
  (forall n, 0 <= n -> n + PAGE_SIZE <= 2 ^ 64 ->
     let '(r, m', s') := memfd_truncate m s n in
     if grow_refused m n || shrink_refused m n then r = - EPERM /\ m' = m /\ s' = s
     else r = 0 /\ memfd_ok m' s' /\ mf_size m' = n /\ mf_seals m' = mf_seals m /\ mf_writers m' = mf_writers m /\
       forall i, 0 <= i -> content m' s' i = if decide (i < n) then content m s i else 0).
Proof.
  intros K. split; [intros; by apply read_content|]. split; [intros bs off Hb Ho Hend; by apply write_spec|].
  intros n Hn Hb. unfold memfd_truncate. destruct (resize m s n) as [[r m'] s'] eqn:Er. by apply (resize_spec m s n r m' s' K Hn Hb Er).
Qed.

End Content.

(** ** Concrete files

    A heap whose blocks are pages of the frame allocator, one for each request that fits (the way [kalloc] serves large requests), with
    a header per block; and the machine after start-up. *)

Definition page_kmalloc (n : Z) (s : mm) : Z * mm :=
  if (n <=? 0) || (PAGE_SIZE <? n) then (0, s)
  else
    let '(p, s) := pmm_alloc s 1 in
    if p =? 0 then (0, s) else (p, set_heap s (set_hdrs (heap s) (<[p := Large {| lh_pages := 1 |}]> (hdrs (heap s))))).

Definition page_kfree (p : Z) (s : mm) : mm :=
  match hdrs (heap s) !! p with
  | Some (Large h) => pmm_release (set_heap s (set_hdrs (heap s) (delete p (hdrs (heap s))))) p (lh_pages h)
  | _ => s
  end.

Definition page_heap : KernelHeap := {| h_kmalloc := page_kmalloc; h_kfree := page_kfree |}.

Definition page_owned (k : kalloc_state) (f : Z) : Prop := is_Some (hdrs k !! f).

Definition page_inv (k : kalloc_state) : Prop := forall p h, hdrs k !! p = Some h -> h = Large {| lh_pages := 1 |} /\ 0 < p /\ p `mod` PAGE_SIZE = 0.

Lemma page_kmalloc_laws n s p s' : mm_ok s -> page_inv (heap s) -> (forall f, page_owned (heap s) f -> ~ pmm_free (pmm s) f) -> page_kmalloc n s = (p, s') ->
  mm_ok s' /\ (page_inv (heap s') /\ forall f, page_owned (heap s') f -> ~ pmm_free (pmm s') f) /\ cow s' = cow s /\
  (p = 0 \/ (~ page_owned (heap s) p /\ page_owned (heap s') p)) /\ (forall q, page_owned (heap s) q -> page_owned (heap s') q) /\
  forall f, ~ pmm_free (pmm s) f -> ~ page_owned (heap s) f -> ~ pmm_free (pmm s') f /\ ~ page_owned (heap s') f /\ page_of s' f = page_of s f.
Proof.
  intros Hok Hi Ho. unfold page_kmalloc. destruct (_ || _); [intros [= <- <-]; split_and!; auto|]. destruct (pmm_alloc s 1) as [q s1] eqn:Ea.
  destruct (pmm_alloc_one _ _ _ Hok Ea) as [Hok1 [[-> ->]|[Hf Hfr]]]; [intros [= <- <-]; split_and!; auto|]. pose proof Hf as [F1 F2 F3 F4 _ _ F6 F7]. destruct F7 as (Ec & _ & _ & _ & _ & _ & Eh & _).
  rewrite (proj2 (Z.eqb_neq q 0)) by lia. intros [= <- <-]. assert (Hq : ~ page_owned (heap s) q) by (intros Hx; by apply (Ho q Hx)).
  assert (Hown : forall f, page_owned (set_hdrs (heap s1) (<[q := Large {| lh_pages := 1 |}]> (hdrs (heap s1)))) f <-> f = q \/ page_owned (heap s) f).
  { intros f. unfold page_owned. cbn [hdrs set_hdrs]. rewrite Eh. destruct (decide (f = q)) as [->|Hne]; [rewrite lookup_insert_eq; split; [by left|by eexists]|]. rewrite lookup_insert_ne by congruence. tauto. }
  split_and!; try done.
  - destruct Hok1. by split.
  - intros x h. cbn [heap set_heap hdrs set_hdrs]. rewrite Eh. intros Hx. apply lookup_insert_Some in Hx as [[<- <-]|[_ Hx]]; [split; [done|lia]|by apply (Hi x)].
  - intros f. cbn [heap set_heap pmm]. rewrite Hown, F2. intros [->|Hx] [Hff Hne]; [done|by apply (Ho f)].
  - right. split; [done|]. cbn [heap set_heap]. rewrite Hown. by left.
  - intros f Hx. cbn [heap set_heap]. rewrite Hown. by right.
  - intros f Hff Hx. cbn [heap set_heap pmm]. rewrite Hown, F2. split_and!; [tauto|intros [->|?]; done|]. unfold page_of. cbn [frames set_heap]. by rewrite Hfr.
Qed.

Lemma page_kfree_laws p s : mm_ok s -> page_inv (heap s) -> (forall f, page_owned (heap s) f -> ~ pmm_free (pmm s) f) -> let s' := page_kfree p s in
  mm_ok s' /\ (page_inv (heap s') /\ forall f, page_owned (heap s') f -> ~ pmm_free (pmm s') f) /\ cow s' = cow s /\
  (forall q, q <> p -> page_owned (heap s) q -> page_owned (heap s') q) /\
  forall f, ~ pmm_free (pmm s) f -> ~ page_owned (heap s) f -> ~ pmm_free (pmm s') f /\ ~ page_owned (heap s') f /\ page_of s' f = page_of s f.
Proof.
  intros Hok Hi Ho s'. subst s'. unfold page_kfree. destruct (hdrs (heap s) !! p) as [h|] eqn:Eh; [|split_and!; auto]. destruct (Hi p h Eh) as (-> & Hp & Hal). cbn [lh_pages].
  set (s1 := set_heap s _). assert (Hok1 : mm_ok s1) by (destruct Hok; by split). destruct (pmm_free_pages_spec (pmm s1) p 1 (mo_pmm _ Hok1) ltac:(lia)) as (W1 & W2 & W3).
  assert (Hfree : forall q, pmm_free (pmm (pmm_release s1 p 1)) q -> pmm_free (pmm s) q \/ q = p).
  { intros q. unfold pmm_release. cbn [pmm set_pmm]. rewrite W3. intros [?|(e & He & Hr & Hf)]; [by left|right].
    destruct (wf_pmm_elem _ _ (mo_pmm _ Hok1) He). apply freed_frames_range, in_range_one in Hf; [done|lia| |]; unfold usable_end, usable_start, PAGE_SIZE in *; zlia. }
  assert (Hown : forall f, page_owned (heap (pmm_release s1 p 1)) f <-> f <> p /\ page_owned (heap s) f).
  { intros f. unfold page_owned. cbn [heap pmm_release set_pmm s1 set_heap hdrs set_hdrs]. rewrite lookup_delete_is_Some. split; intros [? ?]; split; congruence || done. }
  split_and!; try done.
  - by apply mm_ok_set_pmm.
  - intros x h. cbn [heap pmm_release set_pmm s1 set_heap hdrs set_hdrs]. intros Hx. apply lookup_delete_Some in Hx as [_ Hx]. by apply (Hi x).
  - intros f. rewrite Hown. intros [Hne Hx] Hff. destruct (Hfree f Hff) as [?|?]; [by apply (Ho f)|done].
  - intros q Hne Hx. by rewrite Hown.
  - intros f Hff Hx. rewrite Hown. split_and!; [|tauto|done]. intros Hf. destruct (Hfree f Hf) as [?| ->]; [done|]. apply Hx. by exists (Large {| lh_pages := 1 |}).
Qed.

#[export] Instance page_heap_laws : @HeapLaws page_heap.
Proof.
  refine {| heap_owns := page_owned; heap_block := page_owned; heap_inv := page_inv |}.
  - intros n s p s' Hok [Hi Ho]. by apply page_kmalloc_laws.
  - intros p s Hok [Hi Ho] _. by apply page_kfree_laws.
Defined.

Definition demo_memfd : memfd := {| mf_self := 0x5000; mf_array := 0; mf_pages := []; mf_size := 0; mf_seals := 0; mf_writers := 0 |}.

Lemma demo_memfd_ok : @memfd_ok page_heap page_heap_laws demo_memfd boot_mm.
Proof.
  assert (Es : forall i, slot demo_memfd i = 0) by (intros i; done).
  split; [apply boot_mm_ok|by apply demo_cow_ok|split; [done|]; unfold PAGE_SIZE; simpl; lia|intros i _ Hi; by rewrite Es in Hi|intros i j _ _ Hi; by rewrite Es in Hi| | | |by left].
  - intros i _. unfold content. by rewrite Es.
  - intros i _ _. apply Es.
  - split; [intros p h Hp|intros f [h Hf]]; exfalso; [exact (lookup_empty_Some _ _ Hp)|exact (lookup_empty_Some _ _ Hf)].
Qed.

(** Four bytes across a page boundary: they are read back, with zeros before them. *)
Lemma memfd_refines_witness :
  (let '(r, m', s') := @memfd_write page_heap demo_memfd boot_mm [1; 2; 3; 4] 4094 in r = 4 /\ memfd_read m' s' 100 4093 = [0; 1; 2; 3; 4]) /\
  (let '(r, m', s') := @memfd_write page_heap demo_memfd boot_mm [1; 2; 3; 4] 4094 in
   @memfd_ok page_heap page_heap_laws m' s' /\ 0 <= r /\ mf_size m' = 4098 /\ content m' s' 4096 = 3).
Proof.
  assert (E : (let '(r, m', s') := @memfd_write page_heap demo_memfd boot_mm [1; 2; 3; 4] 4094 in r = 4 /\ memfd_read m' s' 100 4093 = [0; 1; 2; 3; 4])) by (vm_compute; split; reflexivity).
  split; [exact E|]. destruct (@memfd_refines page_heap page_heap_laws demo_memfd boot_mm demo_memfd_ok) as (_ & HW & _).
  specialize (HW [1; 2; 3; 4] 4094 ltac:(repeat constructor; unfold is_byte; lia) ltac:(lia) ltac:(unfold PAGE_SIZE; simpl; lia)).
  change (flag (mf_seals demo_memfd) (Z.lor F_SEAL_WRITE F_SEAL_FUTURE_WRITE) || grow_refused demo_memfd (4094 + Z.of_nat (length [1; 2; 3; 4]))) with false in HW. cbv iota in HW.
  destruct (@memfd_write page_heap demo_memfd boot_mm [1; 2; 3; 4] 4094) as [[r m'] s']. destruct E as [-> _]. destruct HW as (K & Hs & _ & _ & [[E4 _]|(_ & _ & Hc)]); [discriminate E4|].
  split; [exact K|]. split; [lia|]. split; [exact Hs|]. rewrite Hc by lia. reflexivity.
Defined.
