(* ===== verification/Seals.v ===== *)
(** * Mappings of files and write seals

    [Mmap] and [Memfd] together: a memfd counts its writable shared mappings, and refuses the
    seal [F_SEAL_WRITE] while there are any.  The operations on mappings keep the count right
    as long as [F_SEAL_FUTURE_WRITE] is not used, so a file with the write seal has no
    writable mapping; with the other seal the count goes wrong, as an example shows. *)

From S2P Require Import Prelude Pmm Machine Paging Faults Vmm Mmap MmapProofs Memfd MemfdProofs.

Section Seals.

Context `{KernelHeap}.

Variable i : Z.

(** ** The counts *)

Definition writable (a : user_alloc) : bool := (backing a =? i) && flag (uflags a) UALLOC_SHARED && flag (prot a) PROT_WRITE.

Definition writes (a : user_alloc) : Z := if writable a then 1 else 0.

Definition refers (a : user_alloc) : Z := if backing a =? i then 1 else 0.

(** The writable mappings and the mappings of the file in a list. *)
Definition writers_in (l : list user_alloc) : Z := foldr (fun a n => writes a + n) 0 l.

Definition refs_in (l : list user_alloc) : Z := foldr (fun a n => refers a + n) 0 l.

(** The file is a memfd with these counts, and nobody's directory. *)
Record counted (w : fworld) (wr sh seals : Z) : Prop := {
  ct_inode : exists n m, fw_inodes w !! i = Some n /\ i_ops n = memfd_ops m /\ mf_writers m = wr /\ i_shared n = sh /\ mf_seals m = seals;
  ct_named : i <> 0 /\ i <> vfs_root w;
  ct_parent : forall j n, fw_inodes w !! j = Some n -> i_attached n = true -> i_parent n <> i;
}.

(** No writer may come: sealed, or sealed for the future. *)
Definition sealed (seals : Z) : bool := flag seals (Z.lor F_SEAL_WRITE F_SEAL_FUTURE_WRITE).

Lemma writes_nonneg a : 0 <= writes a <= 1.
Proof. unfold writes. destruct (writable a); lia. Qed.

Lemma refers_nonneg a : 0 <= refers a <= 1.
Proof. unfold refers. destruct (backing a =? i); lia. Qed.

Lemma writers_nonneg l : 0 <= writers_in l <= Z.of_nat (length l).
Proof. induction l as [|a l IH]; simpl; [lia|]. pose proof (writes_nonneg a). lia. Qed.

Lemma refs_nonneg l : 0 <= refs_in l.
Proof. induction l as [|a l IH]; simpl; [lia|]. pose proof (refers_nonneg a). lia. Qed.

Lemma writers_cons a l : writers_in (a :: l) = writes a + writers_in l.
Proof. reflexivity. Qed.

Lemma refs_cons a l : refs_in (a :: l) = refers a + refs_in l.
Proof. reflexivity. Qed.

Lemma writers_app l1 l2 : writers_in (l1 ++ l2) = writers_in l1 + writers_in l2.
Proof. induction l1 as [|a l IH]; simpl; lia. Qed.

Lemma refs_app l1 l2 : refs_in (l1 ++ l2) = refs_in l1 + refs_in l2.
Proof. induction l1 as [|a l IH]; simpl; lia. Qed.

(** ** The operations on inodes *)

Lemma counted_inodes w w' wr sh se : counted w wr sh se -> fw_inodes w' = fw_inodes w -> vfs_root w' = vfs_root w -> counted w' wr sh se.
Proof. intros [A B C] E1 E2. split; rewrite ?E1, ?E2; done. Qed.

Lemma counted_is w wr sh se : counted w wr sh se -> inode_is_memfd w i = true.
Proof. intros [(n & m & E & Em & _) _ _]. unfold inode_is_memfd, inode_memfd. by rewrite E, Em. Qed.

Lemma counted_hold w j wr sh se : counted w wr sh se -> counted (inode_hold w j) wr (sh + if j =? i then 1 else 0) se.
Proof.
  intros [(n & m & E & Em & Ew & Es & Ee) [B1 B2] C]. unfold inode_hold. destruct (Z.eqb_spec j i) as [->|Hne].
  - rewrite (proj2 (Z.eqb_neq i 0)), (proj2 (Z.eqb_neq i (vfs_root w))) by done. cbn [orb]. split; [|done|].
    + exists (with_shared (i_shared n + 1) n), m. simpl. rewrite lookup_alter_eq, E. simpl. by rewrite Es.
    + intros j n' Hj. simpl in Hj. destruct (decide (j = i)) as [->|]; [rewrite lookup_alter_eq, E in Hj; injection Hj as <-; by apply (C i n)|].
      rewrite lookup_alter_ne in Hj by congruence. by apply (C j).
  - rewrite Z.add_0_r. destruct (_ || _); [by split; [exists n, m| |]|]. split; [|done|].
    + exists n, m. simpl. rewrite lookup_alter_ne by done. done.
    + intros k n' Hk. simpl in Hk. destruct (decide (k = j)) as [->|]; [|rewrite lookup_alter_ne in Hk by congruence; by apply (C k)].
      rewrite lookup_alter_eq in Hk. destruct (fw_inodes w !! j) as [n0|] eqn:Ej; [|done]. injection Hk as <-. by apply (C j n0).
Qed.

(** Dropping another inode frees it and perhaps those above, which are not the file. *)
Lemma counted_drop_other fuel : forall w j wr sh se, counted w wr sh se -> j <> i -> counted (drop_loop fuel w j) wr sh se.
Proof.
  induction fuel as [|fuel IH]; intros w j wr sh se K Hj; cbn [drop_loop]; [done|]. destruct (_ || _); [done|].
  destruct (fw_inodes w !! j) as [n|] eqn:Ej; [|done]. destruct (i_shared n <=? 0); [done|]. pose proof K as [(n0 & m & E & Em & Ew & Es & Ee) B C].
  assert (K1 : counted (set_inodes w (<[j := with_shared (i_shared n - 1) n]> (fw_inodes w))) wr sh se).
  { split; [exists n0, m; simpl; by rewrite lookup_insert_ne|done|]. intros k n' Hk. simpl in Hk. destruct (decide (k = j)) as [->|].
    - rewrite lookup_insert_eq in Hk. injection Hk as <-. by apply (C j n).
    - rewrite lookup_insert_ne in Hk by congruence. by apply (C k). }
  destruct (0 <? i_shared n - 1); [done|]. apply IH; [|destruct (i_attached n) eqn:Ea; [by apply (C j n)|by destruct B]].
  destruct K1 as [(n1 & m1 & F & Fm & Fw & Fs & Fe) _ C1]. split; [exists n1, m1; simpl in *; by rewrite lookup_delete_ne|done|].
  intros k n' Hk. simpl in Hk. rewrite lookup_delete_Some in Hk. destruct Hk as [_ Hk]. by apply (C1 k).
Qed.

Lemma counted_drop w j wr sh se : counted w wr sh se -> 1 < sh -> counted (inode_drop w j) wr (sh - if j =? i then 1 else 0) se.
Proof.
  intros K Hs. destruct (Z.eqb_spec j i) as [->|Hne]; [|rewrite Z.sub_0_r; by apply counted_drop_other].
  destruct K as [(n & m & E & Em & Ew & Es & Ee) [B1 B2] C]. unfold inode_drop. cbn [drop_loop]. rewrite (proj2 (Z.eqb_neq i 0)), (proj2 (Z.eqb_neq i (vfs_root w))) by done. cbn [orb].
  rewrite E, (proj2 (Z.leb_gt _ _)), (proj2 (Z.ltb_lt _ _)) by lia. split; [|done|].
  - exists (with_shared (i_shared n - 1) n), m. simpl. rewrite lookup_insert_eq. simpl. by rewrite Es.
  - intros k n' Hk. simpl in Hk. destruct (decide (k = i)) as [->|]; [rewrite lookup_insert_eq in Hk; injection Hk as <-; by apply (C i n)|].
    rewrite lookup_insert_ne in Hk by congruence. by apply (C k).
Qed.

Lemma counted_set w j wr sh se (P : inode -> inode) : counted w wr sh se -> j <> i -> (forall n, i_attached (P n) = i_attached n /\ i_parent (P n) = i_parent n) ->
  counted (set_inodes w (alter P j (fw_inodes w))) wr sh se.
Proof.
  intros [(n & m & E & Em & Ew & Es & Ee) B C] Hj HP. split; [exists n, m; simpl; by rewrite lookup_alter_ne|done|].
  intros k n' Hk. simpl in Hk. destruct (decide (k = j)) as [->|]; [|rewrite lookup_alter_ne in Hk by congruence; by apply (C k)].
  rewrite lookup_alter_eq in Hk. destruct (fw_inodes w !! j) as [n1|] eqn:Ej; [|done]. injection Hk as <-. destruct (HP n1) as [-> ->]. by apply (C j).
Qed.

(** Changing the memfd itself. *)
Lemma counted_update w m m' wr sh se : counted w wr sh se -> inode_memfd w i = Some m -> counted (set_memfd w i m') (mf_writers m') sh (mf_seals m').
Proof.
  intros [(n & m1 & E & Em & Ew & Es & Ee) B C] _. split; [|done|].
  - exists (with_memfd m' n), m'. simpl. rewrite lookup_alter_eq, E. done.
  - intros k n' Hk. simpl in Hk. destruct (decide (k = i)) as [->|]; [|rewrite lookup_alter_ne in Hk by congruence; by apply (C k)].
    rewrite lookup_alter_eq, E in Hk. injection Hk as <-. by apply (C i n).
Qed.

Lemma counted_memfd w wr sh se : counted w wr sh se -> exists m, inode_memfd w i = Some m /\ mf_writers m = wr /\ mf_seals m = se.
Proof. intros [(n & m & E & Em & Ew & Es & Ee) _ _]. exists m. unfold inode_memfd. by rewrite E, Em. Qed.

(** A writer that comes or goes. *)
Lemma counted_track w j d wr sh se : counted w wr sh se -> (j = i -> d <= 0 \/ sealed se = false) -> - 2 ^ 31 <= wr + d < 2 ^ 31 ->
  counted (inode_track_writer w j d).2 (wr + if j =? i then d else 0) sh se.
Proof.
  intros K Hd Hb. unfold inode_track_writer. destruct (Z.eqb_spec j i) as [->|Hne].
  - destruct (counted_memfd _ _ _ _ K) as (m & Em & Ew & Ee). rewrite Em. unfold track_writer.
    assert (Hno : (0 <? d) && flag (mf_seals m) (Z.lor F_SEAL_WRITE F_SEAL_FUTURE_WRITE) = false).
    { destruct (Hd eq_refl) as [Hle|Hs]; [by rewrite (proj2 (Z.ltb_ge _ _))|]. unfold sealed in Hs. rewrite Ee, Hs. apply andb_false_r. }
    rewrite Hno. cbn [snd]. assert (E : wrapi (mf_writers m + d) = wr + d) by (unfold wrapi; rewrite Ew, Z.mod_small by lia; lia). rewrite E.
    pose proof (counted_update w m (set_writers m (wr + d)) wr sh se K Em) as U. cbn [mf_writers mf_seals set_writers] in U. by rewrite Ee in U.
  - rewrite Z.add_0_r. destruct (inode_memfd w j) as [m|]; [|done]. destruct (track_writer m d) as [r m']. cbn [snd]. by apply counted_set.
Qed.

(** Refused when sealed. *)
Lemma track_refused w wr sh se : counted w wr sh se -> sealed se = true -> (inode_track_writer w i 1).1 = - EPERM /\ counted (inode_track_writer w i 1).2 wr sh se.
Proof.
  intros K Hs. destruct (counted_memfd _ _ _ _ K) as (m & Em & Ew & Ee). unfold inode_track_writer. rewrite Em. unfold track_writer. unfold sealed in Hs. rewrite Ee, Hs. cbn.
  split; [done|]. pose proof (counted_update w m m wr sh se K Em) as U. by rewrite Ew, Ee in U.
Qed.

(** Taken otherwise. *)
Lemma track_taken w wr sh se : counted w wr sh se -> sealed se = false -> (inode_track_writer w i 1).1 = 0.
Proof.
  intros K Hs. destruct (counted_memfd _ _ _ _ K) as (m & Em & Ew & Ee). unfold inode_track_writer. rewrite Em. unfold track_writer. unfold sealed in Hs. by rewrite Ee, Hs.
Qed.

(** ** Nodes *)

Lemma writes_memfd_is w a wr sh se : counted w wr sh se -> backing a = i -> writes_memfd w a = writable a.
Proof.
  intros K E. unfold writes_memfd, writable. cbn. rewrite E, Z.eqb_refl, (counted_is w wr sh se K). cbn [andb]. apply andb_true_r.
Qed.

Lemma counted_mm w f wr sh se : counted w wr sh se -> counted (on_mm f w) wr sh se.
Proof. intros K. by apply (counted_inodes w). Qed.

Lemma counted_kmalloc w n p w' wr sh se : counted w wr sh se -> w_kmalloc w n = (p, w') -> counted w' wr sh se.
Proof. unfold w_kmalloc. cbn. destruct (h_kmalloc n (fw_mm w)) as [q s]. intros K [= <- <-]. by apply (counted_inodes w). Qed.

(** A mapping that goes takes its writer and its reference along. *)
Lemma free_counted w a wr sh se : counted w wr sh se -> refers a < sh -> - 2 ^ 31 <= wr - 1 -> wr < 2 ^ 31 ->
  counted (user_alloc_free w a) (wr - writes a) (sh - refers a) se.
Proof.
  intros K Hs H1 H2. unfold user_alloc_free. apply counted_mm. unfold refers, writes in *. pose proof (ct_named _ _ _ _ K) as [Hi0 _]. destruct (Z.eqb_spec (backing a) 0) as [E|E]; cbn [negb].
  - assert (Hne : backing a <> i) by congruence. unfold writable. rewrite (proj2 (Z.eqb_neq _ _) Hne). cbn [andb]. by rewrite !Z.sub_0_r.
  - destruct (Z.eqb_spec (backing a) i) as [Hb|Hb].
    + rewrite (writes_memfd_is w a wr sh se K Hb). rewrite Hb.
      assert (K1 : counted (if writable a then (memfd_track_writer w i (-1)).2 else w) (wr - if writable a then 1 else 0) sh se).
      { destruct (writable a); [|by rewrite Z.sub_0_r]. pose proof (counted_track w i (-1) wr sh se K ltac:(intros _; left; lia) ltac:(lia)) as U. rewrite Z.eqb_refl in U. exact U. }
      pose proof (counted_drop _ i _ _ _ K1 ltac:(lia)) as U. rewrite Z.eqb_refl in U. exact U.
    + assert (Hw : writable a = false) by (unfold writable; by rewrite (proj2 (Z.eqb_neq _ _) Hb)). rewrite Hw, Z.sub_0_r.
      assert (K1 : counted (if writes_memfd w a then (memfd_track_writer w (backing a) (-1)).2 else w) wr sh se).
      { destruct (writes_memfd w a); [|done]. pose proof (counted_track w (backing a) (-1) wr sh se K ltac:(intros; lia) ltac:(lia)) as U. rewrite (proj2 (Z.eqb_neq _ _) Hb), Z.add_0_r in U. exact U. }
      rewrite Z.sub_0_r. by apply counted_drop_other.
Qed.

(** A copy brings its own. *)
Lemma copy_counted w node a wr sh se : counted w wr sh se -> (writable a = true -> sealed se = false) -> - 2 ^ 31 <= wr -> wr + 1 < 2 ^ 31 ->
  counted (user_alloc_copy w node a).2 (wr + writes a) (sh + refers a) se.
Proof.
  intros K Hse H1 H2. unfold user_alloc_copy. cbn [snd backing]. unfold refers, writes. pose proof (ct_named _ _ _ _ K) as [Hi0 _]. set (dst := {| ua_node := node |}).
  destruct (Z.eqb_spec (backing a) 0) as [E|E]; cbn [negb].
  - assert (Hne : backing a <> i) by congruence. unfold writable. rewrite (proj2 (Z.eqb_neq _ _) Hne). cbn [andb]. by rewrite !Z.add_0_r.
  - pose proof (counted_hold w (backing a) wr sh se K) as K1. change (vfs_hold w (backing a)) with (inode_hold w (backing a)). set (w1 := inode_hold w (backing a)) in *.
    destruct (Z.eqb_spec (backing a) i) as [Hb|Hb].
    + rewrite (writes_memfd_is w1 dst wr _ se K1 Hb). change (writable dst) with (writable a). destruct (writable a); [|by rewrite Z.add_0_r]. rewrite Hb.
      pose proof (counted_track w1 i 1 wr (sh + 1) se K1 ltac:(intros _; right; by apply Hse) ltac:(lia)) as U. rewrite Z.eqb_refl in U. exact U.
    + assert (Hw : writable a = false) by (unfold writable; by rewrite (proj2 (Z.eqb_neq _ _) Hb)). rewrite Hw, Z.add_0_r.
      destruct (writes_memfd w1 dst); [|done]. pose proof (counted_track w1 (backing a) 1 wr (sh + 0) se K1 ltac:(intros ?; congruence) ltac:(lia)) as U.
      rewrite (proj2 (Z.eqb_neq _ _) Hb), Z.add_0_r in U. exact U.
Qed.


(** ** The list and the file *)

(** The mappings of a process against the counts of the file: [k] writable mappings and [h] references are elsewhere, in other
    processes and open descriptors; a sealed file has no writer; and there is room for [r] more mappings. *)
Record tallied (r k h se : Z) (m : mmaps fworld) : Prop := {
  ta_counted : counted (world m) (k + writers_in (alloc_list m)) (h + refs_in (alloc_list m)) se;
  ta_rest : 0 <= k /\ 1 <= h;
  ta_sealed : sealed se = true -> k + writers_in (alloc_list m) = 0;
  ta_room : k + Z.of_nat (length (alloc_list m)) + r < 2 ^ 31;
}.

Lemma tallied_room r r' k h se m : tallied r k h se m -> r' <= r -> tallied r' k h se m.
Proof. intros [A B C D] Hr. split; [done|done|done|lia]. Qed.

(** A change of the world that is no change to the file. *)
Lemma tallied_world r k h se l w w' : tallied r k h se (Build_mmaps l w) ->
  (forall wr sh, counted w wr sh se -> counted w' wr sh se) -> tallied r k h se (Build_mmaps l w').
Proof. intros [A B C D] Hw. split; [by apply Hw|done|done|done]. Qed.

Lemma alter_tally f j l a : l !! j = Some a ->
  writers_in (alter f j l) = writers_in l - writes a + writes (f a) /\ refs_in (alter f j l) = refs_in l - refers a + refers (f a).
Proof.
  revert j. induction l as [|b l IH]; intros [|j] Hj; simpl in Hj; try done.
  - injection Hj as ->. cbn. lia.
  - destruct (IH j Hj) as [E1 E2]. change (alter f (S j) (b :: l)) with (b :: alter f j l). rewrite !writers_cons, !refs_cons, E1, E2. lia.
Qed.

Lemma insert_tally j a l : writers_in (insert_at j a l) = writers_in l + writes a /\ refs_in (insert_at j a l) = refs_in l + refers a.
Proof. unfold insert_at. rewrite writers_app, refs_app. rewrite <- (take_drop j l) at 3 6. rewrite writers_app, refs_app. simpl. lia. Qed.

(** A mapping of nothing or of another file does not count. *)
Lemma other_tally a : backing a <> i -> writes a = 0 /\ refers a = 0.
Proof. intros Hb. unfold writes, refers, writable. by rewrite (proj2 (Z.eqb_neq _ _) Hb). Qed.

Lemma member_tally l j a : l !! j = Some a -> writes a <= writers_in l /\ refers a <= refs_in l.
Proof.
  revert j. induction l as [|b l IH]; intros [|j] Hj; simpl in Hj; try done; simpl.
  - injection Hj as ->. pose proof (writers_nonneg l). pose proof (refs_nonneg l). lia.
  - destruct (IH j Hj). pose proof (writes_nonneg b). pose proof (refers_nonneg b). lia.
Qed.

(** Splitting a mapping gives it a second writer and reference. *)
Lemma split_tallied r k h se m x : tallied (r + 1) k h se m -> 0 <= r -> tallied r k h se (alloc_split m x).2.
Proof.
  intros T Hr. unfold alloc_split. destruct (alloc_find x (alloc_list m)) as [j|]; [|by apply (tallied_room (r + 1)); [|lia]].
  destruct (alloc_list m !! j) as [a|] eqn:Ej; [|by apply (tallied_room (r + 1)); [|lia]]. destruct (vaddr a =? x); [by apply (tallied_room (r + 1)); [|lia]|].
  destruct T as [A B C D]. destruct (w_kmalloc (world m) user_alloc_size) as [node w] eqn:Ek. pose proof (counted_kmalloc _ _ _ _ _ _ _ A Ek) as A1.
  destruct (node =? 0); [split; cbn [snd alloc_list world]; done || lia|].
  destruct (member_tally _ _ _ Ej) as [M1 M2]. pose proof (writers_nonneg (alloc_list m)) as Hn.
  assert (Hnot : writable a = true -> sealed se = false).
  { intros Hw. unfold writes in M1. rewrite Hw in M1. destruct (sealed se); [|done]. specialize (C eq_refl). lia. }
  pose proof (copy_counted w node a _ _ _ A1 Hnot ltac:(lia) ltac:(lia)) as A2. destruct (user_alloc_copy w node a) as [tail w'] eqn:Ec. cbn [snd] in A2.
  assert (Et : prot tail = prot a /\ uflags tail = uflags a /\ backing tail = backing a) by (unfold user_alloc_copy in Ec; by injection Ec as <- _).
  destruct Et as (T1 & T2 & T3). cbn [snd alloc_list world]. set (a1 := with_pages _ a). set (a2 := {| ua_node := ua_node tail |}).
  assert (W1 : writes a1 = writes a /\ refers a1 = refers a) by done.
  assert (W2 : writes a2 = writes a /\ refers a2 = refers a) by (unfold writes, refers, writable, a2; simpl; by rewrite T1, T2, T3).
  destruct W1 as [W1 R1], W2 as [W2 R2].
  pose proof (f_equal writers_in (take_drop_middle _ _ _ Ej)) as EW. pose proof (f_equal refs_in (take_drop_middle _ _ _ Ej)) as ER.
  rewrite writers_app, writers_cons in EW. rewrite refs_app, refs_cons in ER.
  assert (EW' : writers_in (take j (alloc_list m) ++ a1 :: a2 :: drop (S j) (alloc_list m)) = writers_in (alloc_list m) + writes a).
  { rewrite writers_app, !writers_cons. lia. }
  assert (ER' : refs_in (take j (alloc_list m) ++ a1 :: a2 :: drop (S j) (alloc_list m)) = refs_in (alloc_list m) + refers a).
  { rewrite refs_app, !refs_cons. lia. }
  split; cbn [snd alloc_list world].
  - rewrite EW', ER', !Z.add_assoc. exact A2.
  - done.
  - intros Hs. rewrite EW'. specialize (C Hs). unfold writes in *. destruct (writable a); [by rewrite Hnot in Hs|lia].
  - apply lookup_lt_Some in Ej. rewrite length_app, length_take. cbn [length]. rewrite length_drop. lia.
Qed.

(** ** Unmapping *)

Lemma unmap_free_counted w cr3 x n wr sh se : counted w wr sh se -> counted (w_unmap_free w cr3 x n) wr sh se.
Proof. apply counted_mm. Qed.

(** [K] and [S] are the counts outside of the rest of the list. *)
Lemma unmap_walk_counted cr3 x e se l : forall w K S, 0 <= K -> 1 <= S -> K + Z.of_nat (length l) < 2 ^ 31 ->
  counted w (K + writers_in l) (S + refs_in l) se ->
  let '(l', w') := unmap_walk cr3 x e l w in
  counted w' (K + writers_in l') (S + refs_in l') se /\ writers_in l' <= writers_in l /\ (length l' <= length l)%nat.
Proof.
  induction l as [|a l IH]; intros w K S HK HS Hb Hc; cbn [unmap_walk]; [done|]. rewrite writers_cons, refs_cons in Hc. cbn [length] in Hb.
  pose proof (writes_nonneg a) as Wa. pose proof (refers_nonneg a) as Ra. pose proof (writers_nonneg l) as Wl. pose proof (refs_nonneg l) as Rl.
  destruct (vaddr a <? e); [|rewrite writers_cons, refs_cons; split; [done|]; lia]. destruct (x <=? vaddr a).
  - pose proof (free_counted _ a _ _ _ (unmap_free_counted w cr3 (vaddr a) (pages a) _ _ _ Hc) ltac:(lia) ltac:(lia) ltac:(lia)) as F.
    replace (K + (writes a + writers_in l) - writes a) with (K + writers_in l) in F by lia. replace (S + (refers a + refs_in l) - refers a) with (S + refs_in l) in F by lia.
    specialize (IH _ K S HK HS ltac:(lia) F). destruct (unmap_walk _ _ _ _ _) as [l' w']. rewrite writers_cons. cbn [length]. destruct IH as (I1 & I2 & I3). split; [done|]. lia.
  - specialize (IH w (K + writes a) (S + refers a) ltac:(lia) ltac:(lia) ltac:(lia) ltac:(by rewrite <- !Z.add_assoc)).
    destruct (unmap_walk _ _ _ _ _) as [l' w']. rewrite !writers_cons, refs_cons, !Z.add_assoc. cbn [length]. destruct IH as (I1 & I2 & I3). split; [done|]. lia.
Qed.

Lemma unmap_tallied r k h se t m x len : tallied (r + 2) k h se m -> 0 <= r -> tallied r k h se (task_vma_unmap t m x len).2.
Proof.
  intros T Hr. unfold task_vma_unmap. replace (r + 2) with (r + 1 + 1) in T by lia. pose proof (split_tallied (r + 1) k h se m x T ltac:(lia)) as T1.
  destruct (alloc_split m x) as [r1 m1]. cbn [snd] in T1. destruct (negb (r1 =? 0)); [by apply (tallied_room (r + 1)); [|lia]|].
  pose proof (split_tallied r k h se m1 (x +w len) T1 Hr) as T2. destruct (alloc_split m1 (x +w len)) as [r2 m2]. cbn [snd] in T2. destruct (negb (r2 =? 0)); [done|].
  destruct T2 as [A [B1 B2] C D]. pose proof (unmap_walk_counted (page_map t) x (x +w len) se (alloc_list m2) (world m2) k h B1 B2 ltac:(lia) A) as U.
  destruct (unmap_walk _ _ _ _ _) as [l w]. destruct U as (U1 & U2 & U3). pose proof (writers_nonneg l). split; cbn [snd alloc_list world]; [done|done| |lia].
  intros Hs. specialize (C Hs). lia.
Qed.

(** ** Protecting *)

Lemma writable_prot a p : writable (with_prot p a) = (backing a =? i) && flag (uflags a) UALLOC_SHARED && flag p PROT_WRITE.
Proof. reflexivity. Qed.

(** The tracking of one mapping whose protection changes. *)
Lemma protect_track w a p K S se : counted w (K + writes a) (S + refers a) se -> 0 <= K -> K + 2 < 2 ^ 31 -> (sealed se = true -> K + writes a = 0) ->
  let was := writes_memfd w a in let now := writes_memfd w (with_prot p a) in
  let '(r, w1) := if now && negb was then memfd_track_writer w (backing a) 1 else (0, w) in
  if r <? 0 then counted w1 (K + writes a) (S + refers a) se
  else counted (if was && negb now then (memfd_track_writer w1 (backing a) (-1)).2 else w1) (K + writes (with_prot p a)) (S + refers a) se /\
       (sealed se = true -> K + writes (with_prot p a) = 0).
Proof.
  intros A HK HB Hs. cbv zeta. pose proof (writes_nonneg a) as Wa. destruct (Z.eqb_spec (backing a) i) as [Hb|Hb].
  - rewrite (writes_memfd_is w a _ _ _ A Hb), (writes_memfd_is w (with_prot p a) _ _ _ A Hb). rewrite Hb. unfold writes in *. destruct (writable (with_prot p a)) eqn:En, (writable a) eqn:Ew; cbn [negb andb] in *.
    + change (0 <? 0) with false. by split.
    + destruct (sealed se) eqn:Es.
      * destruct (track_refused _ _ _ _ A Es) as [E1 E2]. change (memfd_track_writer w i 1) with (inode_track_writer w i 1). destruct (inode_track_writer w i 1) as [r w1]. cbn [fst snd] in *. subst r. by change (- EPERM <? 0) with true.
      * pose proof (counted_track w i 1 _ _ _ A ltac:(intros _; by right) ltac:(lia)) as U. rewrite Z.eqb_refl in U. change (memfd_track_writer w i 1) with (inode_track_writer w i 1).
        pose proof (track_taken _ _ _ _ A Es) as Er. destruct (inode_track_writer w i 1) as [r w1]. cbn [fst snd] in U, Er. subst r. rewrite Z.add_0_r in U.
        change (0 <? 0) with false. by split.
    + change (0 <? 0) with false. cbn iota. pose proof (counted_track w i (-1) _ _ _ A ltac:(intros _; left; lia) ltac:(lia)) as U. rewrite Z.eqb_refl in U.
      replace (K + 1 + -1) with (K + 0) in U by lia. split; [exact U|]. intros E. specialize (Hs E). lia.
    + change (0 <? 0) with false. by split.
  - destruct (other_tally a Hb) as [E1 E2]. destruct (other_tally (with_prot p a) Hb) as [E3 _]. rewrite E1, E2, E3 in *.
    assert (Ho : forall w' d, counted w' (K + 0) (S + 0) se -> (d = 1 \/ d = -1) -> counted (memfd_track_writer w' (backing a) d).2 (K + 0) (S + 0) se).
    { intros w' d A' Hd. pose proof (counted_track w' (backing a) d _ _ _ A' ltac:(congruence) ltac:(lia)) as U. rewrite (proj2 (Z.eqb_neq _ _) Hb), (Z.add_0_r (K + 0)) in U. exact U. }
    destruct (writes_memfd w (with_prot p a)), (writes_memfd w a); cbn [negb andb]; try (change (0 <? 0) with false; cbn iota; split; [auto|done]).
    specialize (Ho w 1 A ltac:(by left)). destruct (memfd_track_writer w (backing a) 1) as [r w1]. cbn [snd] in Ho. by destruct (r <? 0).
Qed.
Lemma protect_walk_counted e p se l : forall w K S, 0 <= K -> 1 <= S -> K + Z.of_nat (length l) + 2 < 2 ^ 31 -> (sealed se = true -> K + writers_in l = 0) ->
  counted w (K + writers_in l) (S + refs_in l) se ->
  let '(ok, l', w') := protect_walk e p l w in
  counted w' (K + writers_in l') (S + refs_in l') se /\ length l' = length l /\ (sealed se = true -> K + writers_in l' = 0).
Proof.
  induction l as [|a l IH]; intros w K S HK HS Hb Hse Hc; cbn [protect_walk]; [done|]. destruct (vaddr a <? e); [|done].
  rewrite writers_cons in Hc, Hse. rewrite refs_cons in Hc. cbn [length] in Hb. pose proof (writers_nonneg l) as Wl. pose proof (refs_nonneg l) as Rl. pose proof (writes_nonneg a) as Wa.
  pose proof (protect_track w a p (K + writers_in l) (S + refs_in l) se) as P.
  rewrite (Z.add_comm (writes a)), (Z.add_comm (refers a)), !Z.add_assoc in Hc. specialize (P Hc ltac:(lia) ltac:(lia) ltac:(intros E; specialize (Hse E); lia)). cbv zeta in P.
  destruct (if writes_memfd w (with_prot p a) && negb (writes_memfd w a) then _ else _) as [r w1]. destruct (r <? 0).
  - rewrite writers_cons, refs_cons. rewrite (Z.add_comm (writes a)), (Z.add_comm (refers a)), !Z.add_assoc. split; [done|]. split; [done|]. intros E. specialize (Hse E). lia.
  - destruct P as [P1 P2]. set (w2 := if writes_memfd w a && negb (writes_memfd w (with_prot p a)) then _ else _) in *. pose proof (writes_nonneg (with_prot p a)) as Wn. pose proof (refers_nonneg a) as Ra.
    specialize (IH w2 (K + writes (with_prot p a)) (S + refers a) ltac:(lia) ltac:(lia) ltac:(lia) ltac:(intros E; specialize (P2 E); lia)).
    destruct (protect_walk e p l w2) as [[ok l'] w3]. rewrite writers_cons, refs_cons. change (refers (with_prot p a)) with (refers a). cbn [length].
    destruct IH as (I1 & I2 & I3); [by replace (K + writes (with_prot p a) + writers_in l) with (K + writers_in l + writes (with_prot p a)) by lia; replace (S + refers a + refs_in l) with (S + refs_in l + refers a) by lia|].
    rewrite !Z.add_assoc. split; [done|]. split; [by rewrite I2|done].
Qed.

Lemma protect_tallied r k h se t m x len p : tallied (r + 4) k h se m -> 0 <= r -> tallied r k h se (task_vma_protect t m x len p).2.
Proof.
  intros T Hr. unfold task_vma_protect. destruct (_ <? _); [by apply (tallied_room (r + 4)); [|lia]|].
  replace (r + 4) with (r + 3 + 1) in T by lia. pose proof (split_tallied (r + 3) k h se m x T ltac:(lia)) as T1.
  destruct (alloc_split m x) as [r1 m1]. cbn [snd] in T1. destruct (negb (r1 =? 0)); [by apply (tallied_room (r + 3)); [|lia]|].
  replace (r + 3) with (r + 2 + 1) in T1 by lia. pose proof (split_tallied (r + 2) k h se m1 (x +w len) T1 ltac:(lia)) as T2.
  destruct (alloc_split m1 (x +w len)) as [r2 m2]. cbn [snd] in T2. destruct (negb (r2 =? 0)); [by apply (tallied_room (r + 2)); [|lia]|].
  set (j := default _ _). destruct (_ && _); [by apply (tallied_room (r + 2)); [|lia]|].
  destruct T2 as [A [B1 B2] C D]. set (l1 := take j (alloc_list m2)). set (l2 := drop j (alloc_list m2)).
  assert (El : alloc_list m2 = l1 ++ l2) by (symmetry; apply take_drop). rewrite El, writers_app, refs_app in A. rewrite El, writers_app in C. rewrite El, length_app in D.
  pose proof (writers_nonneg l1). pose proof (writers_nonneg l2). pose proof (refs_nonneg l1). rewrite !Z.add_assoc in A.
  pose proof (protect_walk_counted (x +w len) p se l2 (world m2) (k + writers_in l1) (h + refs_in l1) ltac:(lia) ltac:(lia) ltac:(lia) ltac:(intros E; specialize (C E); lia) A) as P.
  destruct (protect_walk _ _ _ _) as [[ok l'] w']. destruct P as (P1 & P2 & P3).
  assert (T2 : tallied r k h se (Build_mmaps (l1 ++ l') w')).
  { split; cbn [alloc_list world]; rewrite ?writers_app, ?refs_app, ?Z.add_assoc, ?length_app; [done|done|done|lia]. }
  destruct (negb ok); [done|]. apply (tallied_world _ _ _ _ _ _ _ T2). intros. by apply counted_mm.
Qed.

(** ** Faults *)

(** A page of a memfd leaves seals and writers. *)
Lemma get_page_tally m s n c : let m' := (memfd_get_page m s n c).1.2 in mf_writers m' = mf_writers m /\ mf_seals m' = mf_seals m.
Proof.
  unfold memfd_get_page. destruct (_ <=? n); [done|]. destruct (_ && _); [done|]. destruct (negb c); [done|].
  assert (G : mf_writers (grow_slots m s (n +w 1)).1.2 = mf_writers m /\ mf_seals (grow_slots m s (n +w 1)).1.2 = mf_seals m).
  { unfold grow_slots. destruct (_ <=? mf_cap m); [done|]. destruct (h_kmalloc _ s) as [p s1]. by destruct (p =? 0). }
  destruct (grow_slots m s (n +w 1)) as [[r m1] s1]. cbn [fst snd] in G. destruct (r <? 0); [done|]. destruct (pmm_alloc s1 1) as [p s2]. by destruct (p =? 0).
Qed.

Lemma page_counted w j n c wr sh se : counted w wr sh se -> counted (memfd_page w j n c).2 wr sh se.
Proof.
  intros A. change (memfd_page w j n c) with (inode_page w j n c). unfold inode_page. destruct (inode_memfd w j) as [m|] eqn:Em; [|done].
  pose proof (get_page_tally m (fw_mm w) n c) as [G1 G2]. destruct (memfd_get_page m (fw_mm w) n c) as [[p m'] s']. cbn [fst snd] in *.
  assert (A' : counted (set_fmm w s') wr sh se) by (by apply (counted_inodes w)). destruct (decide (j = i)) as [->|Hj]; [|by apply counted_set].
  pose proof (counted_update (set_fmm w s') m m' wr sh se A' Em) as U. destruct (counted_memfd _ _ _ _ A) as (m0 & E0 & Ew & Es). rewrite Em in E0. injection E0 as <-. by rewrite G1, G2, Ew, Es in U.
Qed.

Lemma read_counted w j p x wr sh se : counted w wr sh se -> counted (inode_read w j p x).2 wr sh se.
Proof.
  intros A. change (inode_read w j p x) with (inode_read_page w j p x). unfold inode_read_page.
  repeat case_match; cbn [snd]; try done; by apply (counted_inodes w).
Qed.

Lemma fault_counted t m x wri ex wr sh se : counted (world m) wr sh se -> counted (world (task_fault_in t m x wri ex).2) wr sh se.
Proof.
  intros A. unfold task_fault_in. destruct (task_privilege t); [done|]. destruct (alloc_find x (alloc_list m)) as [k|]; [|done]. destruct (alloc_list m !! k) as [a|]; [|done].
  destruct (negb (flag (uflags a) UALLOC_LAZY)); [done|]. destruct (negb _); [done|]. destruct (_ || _); [done|]. destruct (page_present _ _ _); [done|].
  destruct (flag (uflags a) UALLOC_SHARED).
  - pose proof (page_counted (world m) (backing a) ((offset a +w (PAGE_ALIGN_DOWN x - vaddr a)) / PAGE_SIZE) true wr sh se A) as P.
    destruct (memfd_page _ _ _ _) as [frame w]. cbn [snd] in P. destruct (frame =? 0); [done|]. destruct (negb _); repeat apply counted_mm; done.
  - destruct (paging_alloc_empty_frame _) as [[phys ?] s]. assert (A1 : counted (w_set_mm (world m) s) wr sh se) by (by apply (counted_inodes (world m))).
    destruct (phys =? 0); [done|].
    assert (A2 : counted (if negb (backing a =? 0) then inode_read (w_set_mm (world m) s) (backing a) phys (offset a +w (PAGE_ALIGN_DOWN x - vaddr a)) else (0, w_set_mm (world m) s)).2 wr sh se).
    { destruct (negb (backing a =? 0)); [by apply read_counted|done]. }
    destruct (if negb (backing a =? 0) then _ else _) as [r w]. cbn [snd] in A2. destruct (r <? 0); [by apply counted_mm|]. destruct (negb _); repeat apply counted_mm; done.
Qed.

Lemma fault_tallied r k h se t m x wri ex : tallied r k h se m -> tallied r k h se (task_fault_in t m x wri ex).2.
Proof.
  intros [A B C D]. pose proof (fault_in_list t m x wri ex) as E. pose proof (fault_counted t m x wri ex _ _ _ A) as F. split; by rewrite ?E.
Qed.

(** ** Mapping *)

Lemma insert_tallied r k h se m j node b n w : tallied (r + 1) k h se m -> (forall wr sh, counted (world m) wr sh se -> counted w wr sh se) -> (j <= length (alloc_list m))%nat ->
  tallied r k h se (Build_mmaps (insert_at j (new_alloc node b n) (alloc_list m)) w).
Proof.
  intros [A B C D] Hw Hj. pose proof (ct_named _ _ _ _ A) as [Hi _]. destruct (other_tally (new_alloc node b n)) as [E1 E2]; [simpl; congruence|].
  destruct (insert_tally j (new_alloc node b n) (alloc_list m)) as [F1 F2]. rewrite E1, Z.add_0_r in F1. rewrite E2, Z.add_0_r in F2.
  split; cbn [alloc_list world]; rewrite ?F1, ?F2; [by apply Hw|done|done|]. unfold insert_at. rewrite length_app, length_take. cbn [length]. rewrite length_drop. lia.
Qed.

Lemma reserve_tallied r k h se m n : tallied (r + 1) k h se m -> tallied r k h se (task_mmap_reserve m n).2.
Proof.
  intros T. pose proof (tallied_room _ r _ _ _ _ T ltac:(lia)) as T'. unfold task_mmap_reserve. destruct (n =? 0); [done|]. pose proof (gap_index n USER_MMAP_BASE (alloc_list m)) as Hj.
  destruct (reserve_gap n USER_MMAP_BASE (alloc_list m)) as [b j]. destruct (_ <? b); [done|]. destruct (_ <? n); [done|].
  destruct (w_kmalloc (world m) user_alloc_size) as [node w] eqn:Ek. assert (Hw : forall wr sh, counted (world m) wr sh se -> counted w wr sh se) by (intros wr sh A; by eapply counted_kmalloc).
  destruct (node =? 0); [|by apply insert_tallied]. destruct T' as [A B C D]. split; cbn [snd alloc_list world]; auto.
Qed.

Lemma reserve_at_tallied r k h se m x n : tallied (r + 1) k h se m -> tallied r k h se (task_mmap_reserve_at m x n).2.
Proof.
  intros T. pose proof (tallied_room _ r _ _ _ _ T ltac:(lia)) as T'. unfold task_mmap_reserve_at. destruct (_ || _); [done|]. destruct (_ || _); [done|]. destruct (_ <? n); [done|].
  destruct (reserve_spot x (x +w n *w PAGE_SIZE) (alloc_list m)) as [j|] eqn:Ej; [|done]. apply spot_index in Ej.
  destruct (w_kmalloc (world m) user_alloc_size) as [node w] eqn:Ek. assert (Hw : forall wr sh, counted (world m) wr sh se -> counted w wr sh se) by (intros wr sh A; by eapply counted_kmalloc).
  destruct (node =? 0); [|by apply insert_tallied]. destruct T' as [A B C D]. split; cbn [snd alloc_list world]; auto.
Qed.

Lemma place_tallied r k h se t m hint len fl : tallied (r + 3) k h se m -> 0 <= r -> tallied r k h se (vma_place t m hint len fl).2.
Proof.
  intros T Hr. pose proof (tallied_room _ r _ _ _ _ T ltac:(lia)) as T'. unfold vma_place. destruct (flag fl (Z.lor MAP_FIXED MAP_FIXED_NOREPLACE)).
  - destruct (flag hint _); [done|]. destruct (_ || _); [done|].
    assert (T1 : tallied (r + 1) k h se (if negb (flag fl MAP_FIXED_NOREPLACE) then task_vma_unmap t m hint len else (0, m)).2).
    { destruct (negb _); [apply unmap_tallied; [by replace (r + 1 + 2) with (r + 3) by lia|lia]|by apply (tallied_room (r + 3)); [|lia]]. }
    destruct (if negb (flag fl MAP_FIXED_NOREPLACE) then _ else _) as [e m1]. cbn [snd] in T1. destruct (e <? 0); [by apply (tallied_room (r + 1)); [|lia]|].
    pose proof (reserve_at_tallied r k h se m1 hint (len / PAGE_SIZE) T1) as T2. destruct (task_mmap_reserve_at m1 hint (len / PAGE_SIZE)) as [b m2]. cbn [snd] in T2. by destruct (b =? 0).
  - assert (T1 : tallied (r + 1) k h se (if negb (hint =? 0) then task_mmap_reserve_at m (PAGE_ALIGN_DOWN hint) (len / PAGE_SIZE) else (0, m)).2).
    { destruct (negb _); [apply reserve_at_tallied; by apply (tallied_room (r + 3)); [|lia]|by apply (tallied_room (r + 3)); [|lia]]. }
    destruct (if negb (hint =? 0) then _ else _) as [b1 m1]. cbn [snd] in T1.
    assert (T2 : tallied r k h se (if b1 =? 0 then task_mmap_reserve m1 (len / PAGE_SIZE) else (b1, m1)).2).
    { destruct (b1 =? 0); [by apply reserve_tallied|by apply (tallied_room (r + 1)); [|lia]]. }
    destruct (if b1 =? 0 then _ else _) as [b m2]. cbn [snd] in T2. by destruct (b =? 0).
Qed.

(** A change to a node that is not of the file and stays so. *)
Lemma update_tallied r k h se m b f : tallied r k h se m -> (forall j a, alloc_find b (alloc_list m) = Some j -> alloc_list m !! j = Some a -> backing a <> i /\ backing (f a) <> i) ->
  tallied r k h se (alloc_update b f m).
Proof.
  intros [A B C D] Hf. unfold alloc_update. destruct (alloc_find b (alloc_list m)) as [j|] eqn:Ej; [|by split]. destruct (alloc_list m !! j) as [a|] eqn:Ea.
  - destruct (Hf j a eq_refl Ea) as [N1 N2]. destruct (alter_tally f j _ _ Ea) as [E1 E2]. destruct (other_tally a N1) as [W1 R1]. destruct (other_tally (f a) N2) as [W2 R2].
    rewrite W1, W2, Z.sub_0_r, Z.add_0_r in E1. rewrite R1, R2, Z.sub_0_r, Z.add_0_r in E2.
    split; cbn [alloc_list world]; rewrite ?E1, ?E2, ?length_alter; done.
  - assert (E : alter f j (alloc_list m) = alloc_list m).
    { apply list_eq. intros n. destruct (decide (n = j)) as [->|]; [by rewrite list_lookup_alter_eq, Ea|by rewrite list_lookup_alter_ne]. }
    rewrite E. by split.
Qed.

Lemma fill_counted w s wr sh se : counted w wr sh se -> counted (w_set_mm w s) wr sh se.
Proof. intros A. by apply (counted_inodes w). Qed.

Lemma for_exit_tallied r k h se n body : (forall x m, tallied r k h se m -> tallied r k h se (body x m).2) -> forall x m, tallied r k h se m -> tallied r k h se (for_exit n x body m).2.
Proof.
  intros Hb. induction n as [|n IH]; intros x m T; cbn [for_exit]; [done|]. specialize (Hb x m T) as T1. destruct (body x m) as [go m']. cbn [snd] in T1. destruct go; [by apply IH|done].
Qed.

(** The node at a mapped address, through the abstract map. *)
Lemma node_backing l x p f b o j a : vmas_ok l -> vma_at l x = Some (p, f, b, o) -> alloc_find x l = Some j -> l !! j = Some a -> prot a = p /\ uflags a = f /\ backing a = b.
Proof. intros Hl Hv Hj Ha. rewrite (find_view l x Hl), Hj, Ha in Hv. by injection Hv as <- <- <- _. Qed.
Lemma map_tallied r k h se t m hint len p fl : vmas_ok (alloc_list m) -> 0 <= hint -> 0 < len -> len `mod` PAGE_SIZE = 0 -> hint + len < 2 ^ 64 ->
  tallied (r + 5) k h se m -> 0 <= r -> tallied r k h se (task_vma_map t m hint len p fl).2.
Proof.
  intros Hl Hh Hlen Hal Hend T Hr. unfold task_vma_map. destruct (_ && _ && _ && _); [by apply (tallied_room (r + 5)); [|lia]|]. cbv zeta.
  pose proof (place_ok t m hint len fl Hl Hh Hlen Hal Hend) as HP. replace (r + 5) with (r + 2 + 3) in T by lia. pose proof (place_tallied (r + 2) k h se t m hint len fl T ltac:(lia)) as T1.
  destruct (vma_place t m hint len fl) as [b m1]. cbn [snd] in T1. destruct (Z.ltb_spec b 0) as [Hb|Hb]; [by apply (tallied_room (r + 2)); [|lia]|].
  destruct HP as [[? _]|(m0 & _ & _ & _ & _ & P)]; [lia|]. destruct P as (L1 & P1 & P2 & P3 & _ & j & a & Hj & Ev & Eu & Eb & _).
  pose proof (ct_named _ _ _ _ (ta_counted _ _ _ _ _ T1)) as [Hi _]. assert (Hc : covers a b) by (unfold covers; lia).
  assert (T2 : tallied (r + 2) k h se (alloc_update b (with_prot p) m1)).
  { apply update_tallied; [done|]. intros j' a' Hj' Ha'. rewrite (find_here _ a j b L1 Hj Hc) in Hj'. simplify_eq. simpl. rewrite Eb. split; congruence. }
  set (m2 := alloc_update b (with_prot p) m1) in *. destruct (negb _).
  - destruct (fill_shared t _ b _ p) as [ok s].
    assert (T3 : tallied (r + 2) k h se (Build_mmaps (alloc_list m2) (w_set_mm (world m2) s))) by (destruct m2; apply (tallied_world _ _ _ _ _ _ _ T2); intros; by apply fill_counted).
    destruct (negb ok); [by apply unmap_tallied|by apply (tallied_room (r + 2)); [|lia]].
  - assert (T3 : tallied (r + 2) k h se (alloc_update b (with_flags UALLOC_LAZY) m2)).
    { apply update_tallied; [done|]. unfold m2, alloc_update. rewrite (find_here _ a j b L1 Hj Hc). cbn [alloc_list].
      destruct (update_placed _ _ _ (with_prot p) L1 Hj eq_refl eq_refl) as (L2 & Hj2 & _). intros j' a' Hj' Ha'.
      rewrite (find_here _ (with_prot p a) j b L2 Hj2 Hc) in Hj'. injection Hj' as <-. rewrite Hj2 in Ha'. injection Ha' as <-. simpl. rewrite Eb. split; congruence. }
    set (m3 := alloc_update b (with_flags UALLOC_LAZY) m2) in *. destruct (_ && _); [|by apply (tallied_room (r + 2)); [|lia]].
    pose proof (for_exit_tallied (r + 2) k h se (Z.to_nat (len / PAGE_SIZE)) (fun i0 m => let '(r0, m) := task_fault_in t m (b +w i0 *w PAGE_SIZE) false false in (negb (r0 =? 0), m))) as F.
    specialize (F ltac:(intros x m4 T4; pose proof (fault_tallied _ _ _ _ t m4 (b +w x *w PAGE_SIZE) false false T4) as T5; cbv beta; destruct (task_fault_in t m4 (b +w x *w PAGE_SIZE) false false); exact T5) 0 m3 T3).
    destruct (for_exit _ _ _ _) as [ok m4]. cbn [snd] in F. destruct (negb ok); [by apply unmap_tallied|by apply (tallied_room (r + 2)); [|lia]].
Qed.

Lemma for_range_tallied r k h se n body : (forall x m, tallied r k h se m -> tallied r k h se (body x m)) -> forall x m, tallied r k h se m -> tallied r k h se (for_range n x body m).
Proof. intros Hb. induction n as [|n IH]; intros x m T; cbn [for_range]; [done|]. apply IH. by apply Hb. Qed.

(** The mapping gets its file: a reference, and a writer when it is shared and writable. *)
Lemma back_tallied r k h se m b j a inode off f p : tallied r k h se m -> alloc_list m !! j = Some a -> alloc_find b (alloc_list m) = Some j -> backing a = 0 -> prot a = p -> 1 <= r ->
  (inode = i -> flag f UALLOC_SHARED && flag p PROT_WRITE = true -> sealed se = false) ->
  let m1 := alloc_update b (with_backing inode off f) m in
  let m2 := Build_mmaps (alloc_list m1) (vfs_hold (world m1) inode) in
  tallied (r - 1) k h se (if flag f UALLOC_SHARED && flag p PROT_WRITE && memfd_is (world m2) inode then Build_mmaps (alloc_list m2) (memfd_track_writer (world m2) inode 1).2 else m2).
Proof.
  intros [A [B1 B2] C D] Ha Hj Eb Ep Hr Hse. cbv zeta. unfold alloc_update. rewrite Hj. cbn [alloc_list world]. pose proof (ct_named _ _ _ _ A) as [Hi _].
  destruct (alter_tally (with_backing inode off f) j _ _ Ha) as [E1 E2]. destruct (other_tally a ltac:(congruence)) as [W R]. rewrite W, Z.sub_0_r in E1. rewrite R, Z.sub_0_r in E2.
  pose proof (counted_hold (world m) inode _ _ _ A) as A1. change (vfs_hold (world m) inode) with (inode_hold (world m) inode). set (w1 := inode_hold (world m) inode) in *.
  assert (Er : refers (with_backing inode off f a) = if inode =? i then 1 else 0) by done.
  assert (Ew : writable (with_backing inode off f a) = (inode =? i) && (flag f UALLOC_SHARED && flag p PROT_WRITE)) by (unfold writable; simpl; rewrite Ep; by rewrite andb_assoc).
  pose proof (writers_nonneg (alloc_list m)) as Wl. unfold writes in E1. rewrite Ew in E1.
  assert (Hfin : forall w2, counted w2 (k + writers_in (alter (with_backing inode off f) j (alloc_list m))) (h + refs_in (alter (with_backing inode off f) j (alloc_list m))) se ->
    tallied (r - 1) k h se (Build_mmaps (alter (with_backing inode off f) j (alloc_list m)) w2)).
  { intros w2 A2. split; cbn [alloc_list world]; [done|done| |rewrite length_alter; lia]. intros Hs. rewrite E1. specialize (C Hs). destruct (Z.eqb_spec inode i) as [Hin|]; cbn [andb]; [|lia].
    destruct (flag f UALLOC_SHARED && flag p PROT_WRITE) eqn:Ef; [by rewrite Hse in Hs|lia]. }
  destruct (flag f UALLOC_SHARED && flag p PROT_WRITE) eqn:Ef; cbn [andb] in *.
  - destruct (memfd_is w1 inode) eqn:Em.
    + apply Hfin. rewrite E1, E2, Er, !Z.add_assoc. destruct (Z.eqb_spec inode i) as [->|Hne]; cbn [andb].
      * pose proof (counted_track w1 i 1 _ _ _ A1 ltac:(intros _; right; by apply Hse) ltac:(lia)) as U. rewrite Z.eqb_refl in U. exact U.
      * pose proof (counted_track w1 inode 1 _ _ _ A1 ltac:(congruence) ltac:(lia)) as U. rewrite (proj2 (Z.eqb_neq _ _) Hne) in U. exact U.
    + apply Hfin. rewrite E1, E2, Er, !Z.add_assoc. destruct (Z.eqb_spec inode i) as [->|Hne]; cbn [andb].
      * change (memfd_is w1 i) with (inode_is_memfd w1 i) in Em. by rewrite (counted_is _ _ _ _ A1) in Em.
      * by rewrite Z.add_0_r.
  - apply Hfin. rewrite E1, E2, Er, !Z.add_assoc, andb_false_r, (Z.add_0_r (k + _)). done.
Qed.

(** The check of [task_vma_map_file]: a writer comes and goes, or is refused. *)
Lemma check_tallied r k h se m inode (c : bool) : tallied r k h se m -> 1 <= r ->
  let '(err, m1) :=
    if c then let '(err, w) := memfd_track_writer (world m) inode 1 in
              if negb (err =? 0) then (err, Build_mmaps (alloc_list m) w) else (0, Build_mmaps (alloc_list m) (memfd_track_writer w inode (-1)).2)
    else (0, m) in
  tallied r k h se m1 /\ alloc_list m1 = alloc_list m /\ (err = 0 -> c = true -> inode = i -> sealed se = false).
Proof.
  intros T Hr. destruct c; [|done]. destruct T as [A [B1 B2] C D]. pose proof (writers_nonneg (alloc_list m)) as Wl.
  change (memfd_track_writer (world m) inode 1) with (inode_track_writer (world m) inode 1). destruct (Z.eqb_spec inode i) as [->|Hne].
  - destruct (sealed se) eqn:Es.
    + destruct (track_refused _ _ _ _ A Es) as [E1 E2]. destruct (inode_track_writer (world m) i 1) as [e w]. cbn [fst snd] in *. subst e. cbn. split; [|done]. split; cbn [alloc_list world]; rewrite ?Es; done.
    + pose proof (counted_track (world m) i 1 _ _ _ A ltac:(intros _; by right) ltac:(lia)) as U. rewrite Z.eqb_refl in U. pose proof (track_taken _ _ _ _ A Es) as E0.
      destruct (inode_track_writer (world m) i 1) as [e w]. cbn [fst snd] in *. subst e. cbn [Z.eqb negb]. pose proof (counted_track w i (-1) _ _ _ U ltac:(intros _; left; lia) ltac:(lia)) as V. rewrite Z.eqb_refl in V.
      split; [|done]. split; cbn [alloc_list world]; [|done|by rewrite Es|done]. replace (k + writers_in (alloc_list m)) with (k + writers_in (alloc_list m) + 1 + -1) by lia. exact V.
  - pose proof (counted_track (world m) inode 1 _ _ _ A ltac:(congruence) ltac:(lia)) as U. rewrite (proj2 (Z.eqb_neq _ _) Hne), Z.add_0_r in U.
    destruct (inode_track_writer (world m) inode 1) as [e w]. cbn [snd] in U. destruct (negb (e =? 0)); [split; [by split|by split]|].
    pose proof (counted_track w inode (-1) _ _ _ U ltac:(intros; lia) ltac:(lia)) as V. rewrite (proj2 (Z.eqb_neq _ _) Hne), Z.add_0_r in V. split; [by split|by split].
Qed.

Lemma map_file_tallied r k h se t m hint len p fl inode off : vmas_ok (alloc_list m) -> 0 <= hint -> 0 < len -> len `mod` PAGE_SIZE = 0 -> hint + len < 2 ^ 64 ->
  tallied (r + 6) k h se m -> 0 <= r -> tallied r k h se (task_vma_map_file t m hint len p fl inode off).2.
Proof.
  intros Hl Hh Hlen Hal Hend T Hr. unfold task_vma_map_file. set (shared := negb (Z.land fl MAP_TYPE =? MAP_PRIVATE)). cbv zeta.
  pose proof (check_tallied (r + 6) k h se m inode (shared && memfd_is (world m) inode && flag p PROT_WRITE) T ltac:(lia)) as K.
  pose proof (counted_is _ _ _ _ (ta_counted _ _ _ _ _ T)) as Hm.
  destruct (if shared && memfd_is (world m) inode && flag p PROT_WRITE then _ else _) as [err m1]. destruct K as (T1 & L1 & Hse).
  destruct (Z.eqb_spec err 0) as [->|He]; cbn [negb]; [|by apply (tallied_room (r + 6)); [|lia]]. specialize (Hse eq_refl).
  set (fl' := Z.lor _ MAP_NORESERVE). rewrite <- L1 in Hl. pose proof (map_ok t m1 hint len p fl' Hl Hh Hlen Hal Hend) as M.
  replace (r + 6) with (r + 1 + 5) in T1 by lia. pose proof (map_tallied (r + 1) k h se t m1 hint len p fl' Hl Hh Hlen Hal Hend T1 ltac:(lia)) as T2.
  destruct (task_vma_map t m1 hint len p fl') as [b m2]. cbn [snd] in T2. destruct (Z.ltb_spec b 0) as [Hb|Hb]; [by apply (tallied_room (r + 1)); [|lia]|].
  destruct M as (L2 & [M|[? _]]); [|lia]. destruct M as (_ & _ & _ & _ & _ & V). specialize (V b). rewrite decide_True in V by lia.
  pose proof (find_spec _ b L2) as HF. rewrite (find_view _ b L2) in V. destruct (alloc_find b (alloc_list m2)) as [j|] eqn:Ej; [|done]. destruct HF as (a & Ha & _). rewrite Ha in V.
  unfold view, anon_view in V. injection V as Vp _ Vb _.
  set (f := if shared && flag fl MAP_KERNEL_NOWRITE then _ else _).
  assert (Hf : flag f UALLOC_SHARED = true -> shared = true) by (unfold f; destruct shared; [done|intros E; discriminate E]).
  pose proof (back_tallied (r + 1) k h se m2 b j a inode off f p T2 Ha Ej Vb Vp ltac:(lia)) as K. cbv zeta in K. replace (r + 1 - 1) with r in K by lia.
  assert (Hok : inode = i -> flag f UALLOC_SHARED && flag p PROT_WRITE = true -> sealed se = false).
  { intros -> [E1 E2]%andb_true_iff. apply Hse; [|done]. rewrite (Hf E1), E2. change (memfd_is (world m) i) with (inode_is_memfd (world m) i). by rewrite Hm. }
  specialize (K Hok). destruct (flag fl MAP_POPULATE && _); [|exact K]. apply for_range_tallied; [|exact K]. intros x m4 T4. by apply fault_tallied.
Qed.

(** ** The other operations *)

Lemma discard_counted cr3 x e wr sh se l : forall w, counted w wr sh se -> counted (discard_walk cr3 x e l w) wr sh se.
Proof.
  induction l as [|a l IH]; intros w A; cbn [discard_walk]; [done|]. destruct (vaddr a <? e); [|done]. apply IH. destruct (_ || _); [done|]. by apply unmap_free_counted.
Qed.

Lemma discard_tallied r k h se t m x len : tallied r k h se m -> tallied r k h se (task_vma_discard t m x len).2.
Proof. intros [A B C D]. split; cbn [task_vma_discard snd alloc_list world]; [by apply discard_counted|done|done|done]. Qed.

Lemma unlink_tally x l a l' : alloc_unlink x l = Some (a, l') ->
  writers_in l = writers_in l' + writes a /\ refs_in l = refs_in l' + refers a /\ length l = S (length l') /\ (vmas_ok l -> vmas_ok l') /\ forall b, b ∈ l' -> b ∈ l.
Proof.
  revert l'. induction l as [|b l IH]; intros l'; cbn [alloc_unlink]; [done|]. destruct (vaddr b =? x).
  - intros [= -> ->]. rewrite writers_cons, refs_cons. split; [lia|]. split; [lia|]. split; [done|]. split; [by intros (_ & ? & _)%vmas_cons|]. intros c Hc. by right.
  - destruct (alloc_unlink x l) as [[a' l1]|]; [|done]. intros [= <- <-]. destruct (IH l1 eq_refl) as (I1 & I2 & I3 & I4 & I5). rewrite !writers_cons, !refs_cons. cbn [length].
    split; [lia|]. split; [lia|]. split; [lia|]. split.
    + intros (O & Hl & Hb)%vmas_cons. apply vmas_cons. split; [done|]. split; [by apply I4|]. intros c Hc. apply Hb. by apply I5.
    + intros c Hc. apply elem_of_cons in Hc as [->|Hc]; [left|right; by apply I5].
Qed.

Lemma munmap_tallied r k h se t m x : tallied r k h se m -> 0 <= r -> tallied r k h se (task_munmap t m x).
Proof.
  intros T Hr. unfold task_munmap. destruct (x =? 0); [done|]. destruct (alloc_unlink x (alloc_list m)) as [[a l]|] eqn:E; [|done].
  destruct (unlink_tally _ _ _ _ E) as (E1 & E2 & E3 & _). destruct T as [A [B1 B2] C D]. rewrite E1, E2 in A. rewrite E1 in C. rewrite E3 in D.
  pose proof (writers_nonneg l). pose proof (refs_nonneg l). pose proof (writes_nonneg a).
  pose proof (free_counted _ a _ _ _ (unmap_free_counted _ (page_map t) x (pages a) _ _ _ A) ltac:(lia) ltac:(lia) ltac:(lia)) as F.
  split; cbn [alloc_list world]; [|done|intros Es; specialize (C Es); lia|lia].
  replace (k + (writers_in l + writes a) - writes a) with (k + writers_in l) in F by lia. by replace (h + (refs_in l + refers a) - refers a) with (h + refs_in l) in F by lia.
Qed.

(** ** Sealing *)

Lemma flag_lor a b m : flag (Z.lor a b) m = flag a m || flag b m.
Proof.
  unfold flag. rewrite Z.land_lor_distr_l. destruct (Z.eqb_spec (Z.land a m) 0) as [->|Ha]; [by rewrite Z.lor_0_l|]. cbn [negb orb].
  apply negb_true_iff, Z.eqb_neq. intros [? _]%Z.lor_eq_0_iff. done.
Qed.

Lemma flag_or x a b : flag x (Z.lor a b) = flag x a || flag x b.
Proof. unfold flag. rewrite !(Z.land_comm x). apply flag_lor. Qed.

Lemma seal_tallied r k h se m s : tallied r k h se m -> flag s F_SEAL_FUTURE_WRITE = false ->
  exists se', tallied r k h se' (Build_mmaps (alloc_list m) (inode_add_seals (world m) i s).2).
Proof.
  intros [A B C D] Hs. destruct (counted_memfd _ _ _ _ A) as (mf & Em & Ew & Ee). unfold inode_add_seals. rewrite Em. unfold memfd_add_seals.
  assert (Hno : exists se', tallied r k h se' (Build_mmaps (alloc_list m) (set_memfd (world m) i mf))).
  { exists se. pose proof (counted_update _ _ mf _ _ _ A Em) as U. rewrite Ew, Ee in U. by split. }
  destruct (flag s (Z.lxor _ _)); [done|]. destruct (flag (mf_seals mf) F_SEAL_SEAL); [done|]. destruct (flag s F_SEAL_WRITE && negb (mf_writers mf =? 0)) eqn:Eb; [done|].
  exists (Z.lor se s). pose proof (counted_update _ _ (set_seals mf (Z.lor (mf_seals mf) s)) _ _ _ A Em) as U. cbn [mf_writers mf_seals set_seals] in U. rewrite Ew, Ee in U.
  split; cbn [snd alloc_list world]; [by rewrite Ee|done| |done]. unfold sealed. rewrite flag_lor, !flag_or, Hs, orb_false_r. intros Hse.
  destruct (flag s F_SEAL_WRITE); [|rewrite orb_false_r in Hse; apply C; unfold sealed; by rewrite flag_or].
  cbn [andb] in Eb. apply negb_false_iff, Z.eqb_eq in Eb. lia.
Qed.

(** ** Runs *)

(** What the process can do, with room for six more mappings in the count; [F_SEAL_FUTURE_WRITE] is not used. *)
Inductive vma_step (t : task) : mmaps fworld -> mmaps fworld -> Prop :=
  | step_unmap m x len : x `mod` PAGE_SIZE = 0 -> len `mod` PAGE_SIZE = 0 -> 0 <= x -> 0 <= len -> x + len < 2 ^ 64 -> vma_step t m (task_vma_unmap t m x len).2
  | step_protect m x len p : x `mod` PAGE_SIZE = 0 -> len `mod` PAGE_SIZE = 0 -> 0 <= x -> 0 < len -> x + len < 2 ^ 64 -> vma_step t m (task_vma_protect t m x len p).2
  | step_map m hint len p fl : 0 <= hint -> 0 < len -> len `mod` PAGE_SIZE = 0 -> hint + len < 2 ^ 64 -> vma_step t m (task_vma_map t m hint len p fl).2
  | step_map_file m hint len p fl inode off : 0 <= hint -> 0 < len -> len `mod` PAGE_SIZE = 0 -> hint + len < 2 ^ 64 ->
      vma_step t m (task_vma_map_file t m hint len p fl inode off).2
  | step_fault m x wri ex : vma_step t m (task_fault_in t m x wri ex).2
  | step_discard m x len : vma_step t m (task_vma_discard t m x len).2
  | step_munmap m x : vma_step t m (task_munmap t m x)
  | step_seal m s : flag s F_SEAL_FUTURE_WRITE = false -> vma_step t m (Build_mmaps (alloc_list m) (inode_add_seals (world m) i s).2).

(** A step from a state with room. *)
Definition run_step (t : task) (k : Z) (m m' : mmaps fworld) : Prop := k + Z.of_nat (length (alloc_list m)) + 6 < 2 ^ 31 /\ vma_step t m m'.

Lemma for_range_list {A : Type} (get : A -> list user_alloc) n body : (forall x s, get (body x s) = get s) -> forall x s, get (for_range n x body s) = get s.
Proof. intros Hb. induction n as [|n IH]; intros x s; cbn [for_range]; [done|]. by rewrite IH. Qed.

Lemma update_vmas b f (m : mmaps fworld) : vmas_ok (alloc_list m) -> (forall a, vaddr (f a) = vaddr a /\ pages (f a) = pages a) -> vmas_ok (alloc_list (alloc_update b f m)).
Proof.
  intros Hl Hf. unfold alloc_update. pose proof (find_spec _ b Hl) as HF. destruct (alloc_find b (alloc_list m)) as [j|]; [|done]. destruct HF as (a & Ha & _).
  destruct (Hf a). by destruct (update_placed _ _ _ f Hl Ha).
Qed.

Lemma map_file_vmas t m hint len p fl inode off : vmas_ok (alloc_list m) -> 0 <= hint -> 0 < len -> len `mod` PAGE_SIZE = 0 -> hint + len < 2 ^ 64 ->
  vmas_ok (alloc_list (task_vma_map_file t m hint len p fl inode off).2).
Proof.
  intros Hl Hh Hlen Hal Hend. unfold task_vma_map_file. cbv zeta.
  match goal with |- vmas_ok (alloc_list (let '(err, m) := ?e in _).2) => assert (El : alloc_list e.2 = alloc_list m) end.
  { destruct (_ && _); [|done]. destruct (memfd_track_writer _ _ _) as [e w]. by destruct (negb (e =? 0)). }
  match goal with |- vmas_ok (alloc_list (let '(err, m) := ?e in _).2) => destruct e as [err m1] end. cbn [snd] in El. destruct (negb (err =? 0)); [cbn [snd]; by rewrite El|].
  set (fl' := Z.lor _ MAP_NORESERVE). pose proof (map_ok t m1 hint len p fl' ltac:(by rewrite El) Hh Hlen Hal Hend) as M. destruct (task_vma_map t m1 hint len p fl') as [b m2].
  destruct M as [L _]. destruct (b <? 0); [done|]. set (f := if _ && flag fl MAP_KERNEL_NOWRITE then _ else _).
  pose proof (update_vmas b (with_backing inode off f) m2 L ltac:(done)) as L3. set (m3 := alloc_update b _ m2) in *.
  destruct (flag fl MAP_POPULATE && _); cbn [snd]; [rewrite (for_range_list alloc_list) by (intros; apply fault_in_list)|]; clearbody m3; by destruct (_ && _ && _).
Qed.

Lemma step_vmas t m m' : vma_step t m m' -> vmas_ok (alloc_list m) -> vmas_ok (alloc_list m').
Proof.
  intros HS Hl. destruct HS as [m x len A1 A2 A3 A4 A5|m x len p A1 A2 A3 A4 A5|m hint len p fl A1 A2 A3 A4|m hint len p fl inode off A1 A2 A3 A4|m x wri ex|m x len|m x|m s A1]; cbn [snd alloc_list task_vma_discard].
  - pose proof (unmap_ok t m x len Hl A1 A2 A3 A4 A5) as U. destruct (task_vma_unmap t m x len). by destruct U.
  - pose proof (protect_ok t m x len p Hl A1 A2 A3 A4 A5) as U. destruct (task_vma_protect t m x len p). by destruct U.
  - pose proof (map_ok t m hint len p fl Hl A1 A2 A3 A4) as U. destruct (task_vma_map t m hint len p fl). by destruct U.
  - by apply map_file_vmas.
  - by rewrite fault_in_list.
  - done.
  - unfold task_munmap. destruct (x =? 0); [done|]. destruct (alloc_unlink x (alloc_list m)) as [[a l]|] eqn:E; [|done]. destruct (unlink_tally _ _ _ _ E) as (_ & _ & _ & U & _). by apply U.
  - done.
Qed.

Lemma step_tallied t k h m m' : run_step t k m m' -> vmas_ok (alloc_list m) -> (exists se, tallied 0 k h se m) -> exists se, tallied 0 k h se m'.
Proof.
  intros [Hroom HS] Hl (se & T). assert (T6 : tallied (0 + 6) k h se m) by (destruct T as [A B C D]; split; done || lia).
  assert (Tr : forall r, r <= 6 -> tallied r k h se m) by (intros; by apply (tallied_room (0 + 6)); [|lia]).
  destruct HS as [m x len A1 A2 A3 A4 A5|m x len p A1 A2 A3 A4 A5|m hint len p fl A1 A2 A3 A4|m hint len p fl inode off A1 A2 A3 A4|m x wri ex|m x len|m x|m s A1];
    [exists se..|by apply (seal_tallied _ _ _ se)].
  - apply unmap_tallied; [apply Tr; lia|lia].
  - apply protect_tallied; [apply Tr; lia|lia].
  - apply map_tallied; try done. apply Tr. lia.
  - by apply map_file_tallied.
  - by apply fault_tallied.
  - by apply discard_tallied.
  - by apply munmap_tallied.
Qed.

Lemma run_tallied t k h m m' : vmas_ok (alloc_list m) -> (exists se, tallied 0 k h se m) -> rtc (run_step t k) m m' -> exists se, tallied 0 k h se m'.
Proof.
  intros Hl T HR. revert Hl T. induction HR as [m|m m1 m' H1 HR IH]; intros Hl T; [done|]. apply IH; [|by eapply step_tallied]. destruct H1 as [_ H1]. by eapply step_vmas.
Qed.

Lemma none_writable l a : writers_in l = 0 -> a ∈ l -> writable a = false.
Proof. intros Hw [j Hj]%list_elem_of_lookup. destruct (member_tally _ _ _ Hj) as [M _]. unfold writes in M. destruct (writable a); [lia|done]. Qed.

End Seals.

(** C8. Whatever a process does with its mappings (mapping the file shared or private, writable or not, unmapping, splitting and
    protecting parts, faulting, discarding) and with the seals other than [F_SEAL_FUTURE_WRITE], the file's writer count is the number
    of its writable shared mappings, and a file that has the write seal has none left, in this process or elsewhere. *)
Theorem write_seal_excludes_writers `{KernelHeap} (i : Z) t k h m m' :
  vmas_ok (alloc_list m) -> (exists se, tallied i 0 k h se m) -> rtc (run_step i t k) m m' ->
  exists f, inode_memfd (world m') i = Some f /\ mf_writers f = k + writers_in i (alloc_list m') /\
    (flag (mf_seals f) F_SEAL_WRITE = true -> k = 0 /\ forall a, a ∈ alloc_list m' -> backing a = i -> flag (uflags a) UALLOC_SHARED = true -> flag (prot a) PROT_WRITE = false).
Proof.
  intros Hl T HR. destruct (run_tallied i t k h m m' Hl T HR) as (se & [A [B1 B2] C D]). destruct (counted_memfd _ _ _ _ _ A) as (f & Ef & Ew & Es).
  exists f. split; [done|]. split; [done|]. rewrite Es. intros Hse. assert (Hk : k + writers_in i (alloc_list m') = 0) by (apply C; unfold sealed; by rewrite flag_or, Hse).
  pose proof (writers_nonneg i (alloc_list m')) as Wn. split; [lia|]. intros a Ha Hb Hsh. pose proof (none_writable i (alloc_list m') a ltac:(lia) Ha) as Hw.
  unfold writable in Hw. rewrite Hb, Z.eqb_refl, Hsh in Hw. exact Hw.
Qed.

(** ** Concrete runs

    A memfd of two pages, inode 100, with one descriptor and no mapping. *)

(** A heap that always has the same block. *)
Definition one_block : KernelHeap := {| h_kmalloc := fun _ s => (0x5000, s); h_kfree := fun _ s => s |}.

#[local] Existing Instance one_block.

Definition two_pages : memfd := {| mf_self := 0x5000; mf_array := 0; mf_pages := []; mf_size := 8192; mf_seals := 0; mf_writers := 0 |}.

Definition demo_world : fworld :=
  {| fw_mm := boot_mm; fw_inodes := {[100 := {| i_shared := 1; i_attached := false; i_parent := 0; i_ops := memfd_ops two_pages |}]}; vfs_root := 1 |}.

Definition run0 : mmaps fworld := Build_mmaps [] demo_world.

(** Mapped shared and writable, the second page made read-only, all unmapped, sealed. *)
Definition run1 : mmaps fworld := (task_vma_map_file demo_task run0 0 8192 3 1 100 0).2.

Definition run2 : mmaps fworld := (task_vma_protect demo_task run1 (USER_MMAP_BASE + PAGE_SIZE) PAGE_SIZE PROT_READ).2.

Definition run3 : mmaps fworld := (task_vma_unmap demo_task run2 USER_MMAP_BASE 8192).2.

Definition sealing (m : mmaps fworld) (s : Z) : mmaps fworld := Build_mmaps (alloc_list m) (inode_add_seals (world m) 100 s).2.

Lemma run0_tallied : tallied 100 0 0 1 0 run0.
Proof.
  split; [|done|done|done]. split.
  - eexists _, two_pages. split; [reflexivity|]. done.
  - done.
  - intros j n Hj Ha. simpl in Hj. apply lookup_singleton_Some in Hj as [_ <-]. discriminate Ha.
Qed.

Definition writers_of (m : mmaps fworld) : option Z := mf_writers <$> inode_memfd (world m) 100.

Lemma runs_counted : writers_of run1 = Some 1 /\ writers_of run2 = Some 1 /\ length (alloc_list run2) = 2%nat /\ writers_of run3 = Some 0.
Proof. vm_compute. split_and!; reflexivity. Qed.

Lemma write_seal_excludes_writers_witness :
  (mf_seals <$> inode_memfd (world (sealing run3 F_SEAL_WRITE)) 100) = Some F_SEAL_WRITE /\
  exists f, inode_memfd (world (sealing run3 F_SEAL_WRITE)) 100 = Some f /\ mf_writers f = writers_in 100 (alloc_list (sealing run3 F_SEAL_WRITE)).
Proof.
  split; [vm_compute; reflexivity|].
  assert (HR : rtc (@run_step one_block 100 demo_task 0) run0 (sealing run3 F_SEAL_WRITE)).
  { apply (rtc_l _ _ run1); [split; [vm_compute; reflexivity|apply step_map_file; try reflexivity; vm_compute; discriminate]|].
    apply (rtc_l _ _ run2); [split; [vm_compute; reflexivity|apply step_protect; try reflexivity; vm_compute; discriminate]|].
    apply (rtc_l _ _ run3); [split; [vm_compute; reflexivity|apply step_unmap; try reflexivity; vm_compute; discriminate]|].
    apply rtc_once. split; [vm_compute; reflexivity|]. apply step_seal. reflexivity. }
  destruct (@write_seal_excludes_writers one_block 100 demo_task 0 1 run0 (sealing run3 F_SEAL_WRITE) vmas_nil (ex_intro _ 0 run0_tallied) HR) as (f & E1 & E2 & _).
  exists f. split; [exact E1|exact E2].
Defined.

(** With [F_SEAL_FUTURE_WRITE] the copy of a mapping that is split is not counted and still counted down when it goes: after the
    first page is unmapped the second is mapped writable, the count is 0, and the write seal is taken. *)
Definition future : mmaps fworld := (task_vma_unmap demo_task (sealing run1 F_SEAL_FUTURE_WRITE) USER_MMAP_BASE PAGE_SIZE).2.

Example future_seal_miscounts : (writable 100 <$> alloc_list future) = [true] /\ writers_of future = Some 0 /\ (inode_add_seals (world future) 100 F_SEAL_WRITE).1 = 0.
Proof. vm_compute. split_and!; reflexivity. Qed.
