(* ===== verification/UserMem.v ===== *)
(** * User memory as the kernel sees it

    The range check of [kernel/src/user/user_copy.c], and [copy_to_user] and
    [copy_from_user] as an interface.  Everything copied through it here is made of 64-bit
    words, so contents are lists of words; an address space is named by its page map.  Lazily
    mapped pages the copies bring in hold what a read of them gives, so a read is not a
    change of the contents. *)

From S2P Require Import Prelude.

Definition USER_MIN : Z := 0x0000000000001000.

Definition USER_MAX : Z := 0x00007fffffffffff.

Definition user_ptr_valid (ptr : Z) : bool := (USER_MIN <=? ptr) && (ptr <=? USER_MAX).

Definition is_word (w : Z) : Prop := 0 <= w < 2 ^ 64.

(** What is written is read back, and nothing else changes. *)
Class UserMemory (U : Type) := {
  copy_to_user : U -> Z -> Z -> list Z -> option U;
  copy_from_user : U -> Z -> Z -> nat -> option (list Z);
  um_length : forall u pm a n ws, copy_from_user u pm a n = Some ws -> length ws = n;
  um_to_from : forall u u' pm a ws i n, copy_to_user u pm a ws = Some u' -> Forall is_word ws ->
    (0 < n)%nat -> (i + n <= length ws)%nat -> copy_from_user u' pm (a + 8 * Z.of_nat i) n = Some (take n (drop i ws));
  um_to_other : forall u u' pm a ws b n, copy_to_user u pm a ws = Some u' ->
    b + 8 * Z.of_nat n <= a \/ a + 8 * Z.of_nat (length ws) <= b -> copy_from_user u' pm b n = copy_from_user u pm b n;
}.

(** A flat memory: one word per address, pages given by [fm_mapped]. *)
Record flat_memory := { fm_words : gmap Z Z; fm_mapped : gset Z }.

(** The range check of [user_range_mapped]: the page of every word is there. *)
Definition flat_range (u : flat_memory) (a : Z) (n : nat) : bool :=
  (Z.land a 7 =? 0) && negb (bool_decide (n = O)) && (USER_MIN <=? a) && (a + 8 * Z.of_nat n <=? USER_MAX) &&
  forallb (fun i => bool_decide ((a + 8 * Z.of_nat i) / PAGE_SIZE ∈ fm_mapped u)) (seq 0 n).

Fixpoint flat_write (m : gmap Z Z) (a : Z) (ws : list Z) : gmap Z Z :=
  match ws with
  | [] => m
  | w :: ws => <[a := w]> (flat_write m (a + 8) ws)
  end.

Fixpoint flat_read (m : gmap Z Z) (a : Z) (n : nat) : list Z :=
  match n with
  | O => []
  | S n => default 0 (m !! a) :: flat_read m (a + 8) n
  end.

Definition flat_to_user (u : flat_memory) (pm a : Z) (ws : list Z) : option flat_memory :=
  if flat_range u a (length ws) then Some {| fm_words := flat_write (fm_words u) a ws; fm_mapped := fm_mapped u |} else None.

Definition flat_from_user (u : flat_memory) (pm a : Z) (n : nat) : option (list Z) :=
  if flat_range u a n then Some (flat_read (fm_words u) a n) else None.

Lemma flat_write_other m a ws x : (forall i, 0 <= i < Z.of_nat (length ws) -> x <> a + 8 * i) -> flat_write m a ws !! x = m !! x.
Proof.
  revert a. induction ws as [|w ws IH]; intros a H; simpl; [done|]. rewrite lookup_insert_ne.
  - apply IH. intros i Hi. specialize (H (i + 1)). simpl length in H. lia.
  - specialize (H 0). simpl length in H. lia.
Qed.

Lemma flat_read_length m a n : length (flat_read m a n) = n.
Proof. revert a. induction n as [|n IH]; intros a; simpl; [done|]. by rewrite IH. Qed.

Lemma flat_read_ext m m' a n : (forall i, 0 <= i < Z.of_nat n -> m !! (a + 8 * i) = m' !! (a + 8 * i)) -> flat_read m a n = flat_read m' a n.
Proof.
  revert a. induction n as [|n IH]; intros a H; simpl; [done|]. f_equal.
  - specialize (H 0). rewrite Z.mul_0_r, Z.add_0_r in H. rewrite H by lia. done.
  - apply IH. intros i Hi. specialize (H (i + 1)). replace (a + 8 + 8 * i) with (a + 8 * (i + 1)) by lia. apply H. lia.
Qed.

Lemma flat_read_write m a ws n : (n <= length ws)%nat -> flat_read (flat_write m a ws) a n = take n ws.
Proof.
  revert m a n. induction ws as [|w ws IH]; intros m a n Hn; simpl in *; [by destruct n; [|lia]|].
  destruct n as [|n]; simpl; [done|]. rewrite lookup_insert_eq. simpl. f_equal.
  rewrite <- (IH m (a + 8) n) by lia. apply flat_read_ext. intros i Hi. rewrite lookup_insert_ne by lia. done.
Qed.

Lemma flat_write_drop m a ws i : flat_write m a ws = flat_write (flat_write m (a + 8 * Z.of_nat i) (drop i ws)) a (take i ws).
Proof.
  revert a ws. induction i as [|i IH]; intros a ws; simpl.
  - by rewrite Z.add_0_r, drop_0.
  - destruct ws as [|w ws]; simpl; [done|]. f_equal. rewrite (IH (a + 8) ws). replace (a + 8 + 8 * Z.of_nat i) with (a + 8 * Z.of_nat (S i)) by lia. done.
Qed.

Lemma flat_range_sub u a n i k : flat_range u a n = true -> (0 < k)%nat -> (i + k <= n)%nat -> flat_range u (a + 8 * Z.of_nat i) k = true.
Proof.
  unfold flat_range. intros H Hk Hik. apply andb_true_iff in H as [H H5]. bool_prop. rewrite forallb_forall in H5.
  rewrite !andb_true_iff, negb_true_iff, bool_decide_eq_false, Z.eqb_eq, !Z.leb_le. split_and!; try lia.
  - change 7 with (Z.ones 3) in *. rewrite Z.land_ones in * by lia. zlia.
  - apply forallb_forall. intros j Hj. apply in_seq in Hj. specialize (H5 (i + j)%nat). rewrite in_seq in H5.
    replace (a + 8 * Z.of_nat i + 8 * Z.of_nat j) with (a + 8 * Z.of_nat (i + j)) by lia. apply H5. lia.
Qed.

#[export] Program Instance flat_user_memory : UserMemory flat_memory := {
  copy_to_user := flat_to_user;
  copy_from_user := flat_from_user;
}.
Next Obligation. intros u pm a n ws. unfold flat_from_user. destruct (flat_range u a n); [|done]. intros [= <-]. apply flat_read_length. Qed.
Next Obligation.
  intros u u' pm a ws i n. unfold flat_to_user, flat_from_user. destruct (flat_range u a (length ws)) eqn:E; [|done]. intros [= <-] _ Hn Hi.
  change (flat_range {| fm_mapped := fm_mapped u |} ?x ?y) with (flat_range u x y). rewrite (flat_range_sub u a (length ws) i n E Hn Hi). simpl. f_equal.
  rewrite (flat_write_drop _ a ws i). rewrite <- (flat_read_write (fm_words u) (a + 8 * Z.of_nat i) (drop i ws) n) by (rewrite length_drop; lia).
  apply flat_read_ext. intros j Hj. apply flat_write_other. rewrite length_take. lia.
Qed.
Next Obligation.
  intros u u' pm a ws b n. unfold flat_to_user, flat_from_user. destruct (flat_range u a (length ws)) eqn:E; [|done]. intros [= <-] Hd.
  change (flat_range {| fm_mapped := fm_mapped u |} ?x ?y) with (flat_range u x y). destruct (flat_range u b n); [|done]. simpl. f_equal.
  apply flat_read_ext. intros j Hj. apply flat_write_other. lia.
Qed.
