(* ===== verification/Futex.v ===== *)
(** * Futexes, [kernel/src/sched/futex.c]

    Sleepers are on 64 doubly linked bucket lists, found by a hash of the key: the address
    space and address of a private futex, the frame of a shared one.  [futex_wait] is two
    steps, the check and enqueue under [futex_lock] and, after the sleep, the dequeue and the
    result; [futex_wake] and [futex_requeue] are one step each.  The lists are modelled at the
    level of the [prev] and [next] pointers, with waiters named by their address. *)

From S2P Require Import Prelude Dll Pmm Kalloc Machine Paging UserMem.

Definition FUTEX_BUCKETS : Z := 64.

Definition FUTEX_BITSET_MATCH_ANY : Z := 0xFFFFFFFF.

Record futex_key := { fk_space : Z; fk_addr : Z }.

#[export] Instance futex_key_eq_dec : EqDecision futex_key.
Proof. solve_decision. Defined.

(** [futex_waiter_t] without its wait queue. *)
Record waiter := {
  w_key : futex_key;
  w_bitset : Z;
  w_woken : bool;
  w_prev : Z;
  w_next : Z;
}.

Record futex_state := {
  waiters : gmap Z waiter;
  buckets : list Z;
}.

(** The key of the futex at [uaddr], [None] for [-EINVAL]. *)
Definition futex_key_of (s : mm) (page_map uaddr : Z) (priv : bool) : option futex_key :=
  if negb (Z.land uaddr 3 =? 0) || negb (user_ptr_valid uaddr) || negb (user_ptr_valid (uaddr +w 3))
  then None
  else
    let private := {| fk_space := masked page_map; fk_addr := uaddr |} in
    if priv then Some private
    else
      match paging_get_page s page_map (PAGE_ALIGN_DOWN uaddr) with
      | Some (t, i) =>
        let pte := rd s t i in
        if flag pte PTE_PRESENT && flag pte PTE_SHARED
        then Some {| fk_space := 0; fk_addr := Z.lor (masked pte) (Z.land uaddr (PAGE_SIZE - 1)) |}
        else Some private
      | None => Some private
      end.

(** The index of the bucket. *)
Definition bucket_of (key : futex_key) : nat :=
  let h := Z.lxor (fk_addr key ≫ 2) (fk_space key ≫ 12) in
  let h := Z.lxor h (h ≫ 17) in
  Z.to_nat (h `mod` FUTEX_BUCKETS).

Definition key_eq (a b : futex_key) : bool := (fk_space a =? fk_space b) && (fk_addr a =? fk_addr b).

Definition no_waiter : waiter :=
  {| w_key := {| fk_space := 0; fk_addr := 0 |}; w_bitset := 0; w_woken := true; w_prev := 0; w_next := 0 |}.

Definition waiter_at (s : futex_state) (w : Z) : waiter := default no_waiter (waiters s !! w).

Definition set_waiter (s : futex_state) (w : Z) (x : waiter) : futex_state :=
  {| waiters := <[w := x]> (waiters s); buckets := buckets s |}.

Definition set_bucket (s : futex_state) (b : nat) (h : Z) : futex_state :=
  {| waiters := waiters s; buckets := <[b := h]> (buckets s) |}.

Definition bucket (s : futex_state) (b : nat) : Z := default 0 (buckets s !! b).

Definition with_links (x : waiter) (p n : Z) : waiter :=
  {| w_key := w_key x; w_bitset := w_bitset x; w_woken := w_woken x; w_prev := p; w_next := n |}.

Definition with_woken (x : waiter) : waiter :=
  {| w_key := w_key x; w_bitset := w_bitset x; w_woken := true; w_prev := w_prev x; w_next := w_next x |}.

Definition with_key (x : waiter) (k : futex_key) : waiter :=
  {| w_key := k; w_bitset := w_bitset x; w_woken := w_woken x; w_prev := w_prev x; w_next := w_next x |}.

Definition set_prev (s : futex_state) (w p : Z) : futex_state :=
  set_waiter s w (with_links (waiter_at s w) p (w_next (waiter_at s w))).

Definition set_next (s : futex_state) (w n : Z) : futex_state :=
  set_waiter s w (with_links (waiter_at s w) (w_prev (waiter_at s w)) n).

Definition waiter_link (s : futex_state) (w : Z) : futex_state :=
  let b := bucket_of (w_key (waiter_at s w)) in
  let s := set_next (set_prev s w 0) w (bucket s b) in
  let s := if negb (bucket s b =? 0) then set_prev s (bucket s b) w else s in
  set_bucket s b w.

Definition waiter_unlink (s : futex_state) (w : Z) : futex_state :=
  let s :=
    if negb (w_prev (waiter_at s w) =? 0)
    then set_next s (w_prev (waiter_at s w)) (w_next (waiter_at s w))
    else set_bucket s (bucket_of (w_key (waiter_at s w))) (w_next (waiter_at s w)) in
  let s :=
    if negb (w_next (waiter_at s w) =? 0)
    then set_prev s (w_next (waiter_at s w)) (w_prev (waiter_at s w))
    else s in
  set_next (set_prev s w 0) w 0.

(** The first half of [futex_wait], by waiter [w] (a variable on the waiting task's stack);
    [cur] is the value read at [uaddr], [None] when the copy faults.  [None] means the task
    goes to sleep. *)
Definition futex_wait_begin (s : futex_state) (w : Z) (key : option futex_key) (val bitset : Z)
    (cur : option Z) : option Z * futex_state :=
  if bitset =? 0 then (Some (- EINVAL), s)
  else
    match key, cur with
    | None, _ => (Some (- EINVAL), s)
    | Some _, None => (Some (- EFAULT), s)
    | Some key, Some cur =>
      if negb (cur =? val) then (Some (- EAGAIN), s)
      else
        let s := set_waiter s w {| w_key := key; w_bitset := bitset; w_woken := false; w_prev := 0;
                                   w_next := 0 |} in
        (None, waiter_link s w)
    end.

(** The second half: the task is running again, [timed_out] is
    [deadline && sched_deadline_passed(deadline)].  The waiter's stack frame goes away. *)
Definition futex_wait_end (s : futex_state) (w : Z) (timed_out : bool) : Z * futex_state :=
  let woken := w_woken (waiter_at s w) in
  let s := if negb woken then waiter_unlink s w else s in
  let s := {| waiters := delete w (waiters s); buckets := buckets s |} in
  (if woken then 0 else if timed_out then - ETIMEDOUT else - EINTR, s).

(** The loop of [wake_key], with the waiters woken in order; [fuel] bounds the list. *)
Fixpoint wake_loop (fuel : nat) (s : futex_state) (w : Z) (key : futex_key) (count bitset : Z)
    (woken : list Z) : list Z * futex_state :=
  match fuel with
  | O => (woken, s)
  | S fuel' =>
    if (w =? 0) || (count <=? Z.of_nat (length woken)) then (woken, s)
    else
      let next := w_next (waiter_at s w) in
      if key_eq (w_key (waiter_at s w)) key && flag (w_bitset (waiter_at s w)) bitset
      then
        let s := waiter_unlink s w in
        let s := set_waiter s w (with_woken (waiter_at s w)) in
        wake_loop fuel' s next key count bitset (woken ++ [w])
      else wake_loop fuel' s next key count bitset woken
  end.

Definition wake_key (s : futex_state) (key : futex_key) (count bitset : Z) : list Z * futex_state :=
  wake_loop (S (size (waiters s))) s (bucket s (bucket_of key)) key count bitset [].

(** The result and the waiters woken. *)
Definition futex_wake (s : futex_state) (key : option futex_key) (count bitset : Z)
    : Z * list Z * futex_state :=
  if bitset =? 0 then (- EINVAL, [], s)
  else if count <=? 0 then (0, [], s)
  else
    match key with
    | None => (- EINVAL, [], s)
    | Some key =>
      let '(l, s) := wake_key s key count bitset in (Z.of_nat (length l), l, s)
    end.

(** The second loop of [futex_requeue]. *)
Fixpoint requeue_loop (fuel : nat) (s : futex_state) (w : Z) (key key2 : futex_key) (requeue : Z)
    (moved : list Z) : list Z * futex_state :=
  match fuel with
  | O => (moved, s)
  | S fuel' =>
    if (w =? 0) || (requeue <=? Z.of_nat (length moved)) then (moved, s)
    else
      let next := w_next (waiter_at s w) in
      if key_eq (w_key (waiter_at s w)) key
      then
        let s := waiter_unlink s w in
        let s := set_waiter s w (with_key (waiter_at s w) key2) in
        let s := waiter_link s w in
        requeue_loop fuel' s next key key2 requeue (moved ++ [w])
      else requeue_loop fuel' s next key key2 requeue moved
  end.

(** [cmp] is [None] without the comparison, otherwise [val3] and the value read at [uaddr]. *)
Definition futex_requeue (s : futex_state) (key key2 : option futex_key) (count requeue : Z)
    (cmp : option (Z * option Z)) : Z * list Z * list Z * futex_state :=
  if (count <? 0) || (requeue <? 0) then (- EINVAL, [], [], s)
  else
    match key, key2 with
    | Some key, Some key2 =>
      let err :=
        match cmp with
        | None => None
        | Some (_, None) => Some (- EFAULT)
        | Some (val3, Some cur) => if negb (cur =? val3) then Some (- EAGAIN) else None
        end in
      match err with
      | Some e => (e, [], [], s)
      | None =>
        let '(done_, s) := wake_key s key count FUTEX_BITSET_MATCH_ANY in
        let '(moved, s) :=
          requeue_loop (S (size (waiters s))) s (bucket s (bucket_of key)) key key2 requeue [] in
        (Z.of_nat (length done_) + Z.of_nat (length moved), done_, moved, s)
      end
    | _, _ => (- EINVAL, [], [], s)
    end.

(** ** The lists *)

Definition pv (s : futex_state) (x : Z) : Z := w_prev (waiter_at s x).

Definition nx (s : futex_state) (x : Z) : Z := w_next (waiter_at s x).

(** The fields of a waiter other than its links. *)
Definition info (s : futex_state) (x : Z) : option (futex_key * Z * bool) :=
  (fun w => (w_key w, w_bitset w, w_woken w)) <$> waiters s !! x.

Lemma waiter_at_set s w x y : waiter_at (set_waiter s w x) y = if decide (w = y) then x else waiter_at s y.
Proof.
  unfold waiter_at, set_waiter; simpl. case_decide as E.
  - by rewrite E, lookup_insert_eq.
  - by rewrite lookup_insert_ne by done.
Qed.

Lemma info_set s w x y :
  info (set_waiter s w x) y = if decide (w = y) then Some (w_key x, w_bitset x, w_woken x) else info s y.
Proof.
  unfold info, set_waiter; simpl. case_decide as E.
  - by rewrite E, lookup_insert_eq.
  - by rewrite lookup_insert_ne by done.
Qed.

Lemma info_some s x k b v : info s x = Some (k, b, v) ->
  w_key (waiter_at s x) = k /\ w_bitset (waiter_at s x) = b /\ w_woken (waiter_at s x) = v.
Proof. unfold info, waiter_at. destruct (waiters s !! x); simpl; [|done]. by intros [= <- <- <-]. Qed.

Lemma info_links s w p n y : is_Some (info s w) ->
  info (set_waiter s w (with_links (waiter_at s w) p n)) y = info s y.
Proof.
  intros [[[k b] v] Hi]. rewrite info_set. case_decide as E; [|done]. subst y. simpl.
  destruct (info_some _ _ _ _ _ Hi) as (-> & -> & ->). done.
Qed.

(** What unlinking writes, for a waiter whose neighbours are other waiters. *)
Record unlinked (s s' : futex_state) (x : Z) : Prop := {
  ul_pv : forall y, y <> x -> pv s' y = if decide (nx s x <> 0 /\ y = nx s x) then pv s x else pv s y;
  ul_nx : forall y, y <> x -> nx s' y = if decide (pv s x <> 0 /\ y = pv s x) then nx s x else nx s y;
  ul_info : forall y, info s' y = info s y;
  ul_bucket : forall b, (b < length (buckets s))%nat -> bucket s' b =
    if decide (pv s x = 0 /\ b = bucket_of (w_key (waiter_at s x))) then nx s x else bucket s b;
  ul_length : length (buckets s') = length (buckets s);
}.

Lemma unlink_spec s x :
  is_Some (info s x) -> (pv s x <> 0 -> is_Some (info s (pv s x))) ->
  (nx s x <> 0 -> is_Some (info s (nx s x))) -> pv s x <> x -> nx s x <> x ->
  unlinked s (waiter_unlink s x) x.
Proof.
  intros Hx Hp Hn Hpx Hnx. unfold pv, nx in Hp, Hn, Hpx, Hnx. unfold waiter_unlink.
  set (p := w_prev (waiter_at s x)) in *. set (n := w_next (waiter_at s x)) in *.
  set (s1 := if negb (p =? 0) then _ else _).
  assert (H1 : (forall y, waiter_at s1 y = if decide (p <> 0 /\ y = p) then with_links (waiter_at s p) (w_prev (waiter_at s p)) n
                          else waiter_at s y) /\ (forall y, info s1 y = info s y) /\
               (forall b, (b < length (buckets s))%nat -> bucket s1 b =
                  if decide (p = 0 /\ b = bucket_of (w_key (waiter_at s x))) then n else bucket s b) /\
               length (buckets s1) = length (buckets s)).
  { unfold s1. destruct (p =? 0) eqn:E; bool_prop; simpl.
    - split_and!; [|done| |by rewrite length_insert].
      + intros y. by rewrite decide_False by tauto.
      + intros b Hb. unfold bucket, set_bucket; simpl. case_decide as Eb.
        * destruct Eb as [_ Eb]. rewrite Eb in Hb |- *. by rewrite list_lookup_insert_eq.
        * rewrite list_lookup_insert_ne; [done|]. intros Eb'. apply Eb. by split.
    - split_and!; [| | |done].
      + intros y. unfold set_next. rewrite waiter_at_set. repeat case_decide; naive_solver.
      + intros y. apply info_links, Hp. done.
      + intros b Hb. by rewrite decide_False by tauto. }
  destruct H1 as (A1 & A2 & A3 & A4).
  assert (Ex : waiter_at s1 x = waiter_at s x) by (rewrite A1, decide_False; [done|naive_solver]).
  rewrite Ex. fold n p. set (s2 := if negb (n =? 0) then _ else _).
  assert (H2 : (forall y, waiter_at s2 y = if decide (n <> 0 /\ y = n) then with_links (waiter_at s1 n) p (w_next (waiter_at s1 n))
                          else waiter_at s1 y) /\ (forall y, info s2 y = info s1 y) /\ buckets s2 = buckets s1).
  { unfold s2. destruct (n =? 0) eqn:E; bool_prop; simpl.
    - split_and!; [|done|done]. intros y. by rewrite decide_False by tauto.
    - split_and!; [| |done].
      + intros y. unfold set_prev. rewrite waiter_at_set. repeat case_decide; naive_solver.
      + intros y. apply info_links. rewrite A2. by apply Hn. }
  destruct H2 as (B1 & B2 & B3).
  assert (H3 : forall y, y <> x -> waiter_at (set_next (set_prev s2 x 0) x 0) y = waiter_at s2 y).
  { intros y Hy. unfold set_next, set_prev. by rewrite !waiter_at_set, !decide_False by done. }
  split.
  - intros y Hy. unfold pv, nx. rewrite H3, B1, !A1 by done. fold n p.
    destruct (decide (n <> 0 /\ y = n)); simpl; [done|].
    destruct (decide (p <> 0 /\ y = p)) as [[_ ->]|]; done.
  - intros y Hy. unfold pv, nx. rewrite H3, B1, !A1 by done. fold n p.
    destruct (decide (n <> 0 /\ y = n)) as [[_ ->]|]; simpl;
      [destruct (decide (p <> 0 /\ n = p)) | destruct (decide (p <> 0 /\ y = p))]; done.
  - intros y. unfold set_next. rewrite info_links; unfold set_prev; rewrite ?info_links; rewrite ?B2, ?A2; done.
  - intros b Hb. etrans; [|by apply A3]. unfold bucket. simpl. by rewrite B3.
  - simpl. by rewrite B3, A4.
Qed.

(** ** The invariant *)

Definition upd (L : nat -> list Z) (b : nat) (l : list Z) : nat -> list Z :=
  fun c => if decide (b = c) then l else L c.

(** [L b] is what bucket [b] holds; [D] is the waiter being moved between lists, if any. *)
Record futex_ok (s : futex_state) (L : nat -> list Z) (D : option Z) : Prop := {
  fo_length : length (buckets s) = Z.to_nat FUTEX_BUCKETS;
  fo_dll : forall b, (b < Z.to_nat FUTEX_BUCKETS)%nat ->
    is_dll (pv s) (nx s) 0 (L b) (bucket s b) /\ NoDup (L b);
  fo_in : forall b x, (b < Z.to_nat FUTEX_BUCKETS)%nat -> x ∈ L b ->
    exists k bs, info s x = Some (k, bs, false) /\ bucket_of k = b /\ D <> Some x;
  fo_out : forall x k bs, info s x = Some (k, bs, false) -> D <> Some x -> x ∈ L (bucket_of k);
  fo_detached : forall x, D = Some x -> x <> 0 /\ is_Some (info s x);
}.

Lemma bucket_of_lt k : (bucket_of k < Z.to_nat FUTEX_BUCKETS)%nat.
Proof.
  unfold bucket_of. set (h := Z.lxor _ _).
  pose proof (Z.mod_pos_bound h FUTEX_BUCKETS ltac:(unfold FUTEX_BUCKETS; lia)). lia.
Qed.

(** Taking a waiter out of the middle of its list. *)
Lemma unlink_ok s L b l1 x l2 :
  futex_ok s L None -> (b < Z.to_nat FUTEX_BUCKETS)%nat -> L b = l1 ++ x :: l2 ->
  let s' := waiter_unlink s x in
  futex_ok s' (upd L b (l1 ++ l2)) (Some x) /\ unlinked s s' x /\ nx s x = default 0 (head l2).
Proof.
  intros [O1 O2 O3 O4 _] Hb HL s'. destruct (O2 b Hb) as [Hd Hnd]. rewrite HL in Hd, Hnd.
  destruct (is_dll_app _ _ _ _ _ _ _ Hd) as (_ & En & _).
  destruct (is_dll_neighbours _ _ _ _ _ _ Hd Hnd) as (Np & Nn & Hpx & Hnx & Hx0 & Hm).
  assert (HLb : forall y, y ∈ l1 ++ l2 -> y ∈ L b)
    by (intros y [Hy|Hy]%elem_of_app; rewrite HL; apply elem_of_app; [by left|right; by right]).
  assert (Hp' : pv s x <> 0 -> pv s x ∈ L b)
    by (destruct Np as [?|[? _]]; [done|]; intros _; apply HLb, elem_of_app; by left).
  assert (Hn' : nx s x <> 0 -> nx s x ∈ L b)
    by (destruct Nn as [?|[? _]]; [done|]; intros _; apply HLb, elem_of_app; by right).
  assert (Hin : forall y, y ∈ L b -> is_Some (info s y)).
  { intros y Hy. destruct (O3 b y Hb Hy) as (k & bs & -> & _). by eexists. }
  assert (Hx : x ∈ L b) by (rewrite HL; apply elem_mid).
  assert (HU : unlinked s s' x) by (apply unlink_spec; auto).
  destruct (O3 b x Hb Hx) as (kx & bx & Hix & Hbx & _). destruct (info_some _ _ _ _ _ Hix) as (Hkx & _).
  split_and!; [|done|done]. destruct HU as [U1 U2 U3 U4 U5]. rewrite Hkx, Hbx in U4.
  assert (Hne : forall c, c <> b -> (c < Z.to_nat FUTEX_BUCKETS)%nat -> forall y, y ∈ L c -> ~ y ∈ L b).
  { intros c Hcb Hc y Hy Hy'. destruct (O3 c y Hc Hy) as (k & ? & E & ? & _).
    destruct (O3 b y Hb Hy') as (k' & ? & E' & ? & _). congruence. }
  split.
  - by rewrite U5.
  - intros c Hc. rewrite U4 by lia. unfold upd. destruct (decide (b = c)) as [<-|Hbc].
    + eapply is_dll_unlink; [exact Hd|exact Hnd|intros y Hy; by apply U1, Hm|intros y Hy; by apply U2, Hm|].
      destruct (decide (pv s x = 0)); [by rewrite decide_True|by rewrite decide_False by tauto].
    + rewrite decide_False by naive_solver. destruct (O2 c Hc) as [Hdc Hndc]. split; [|done].
      eapply is_dll_frame; [|done]. intros y Hy. specialize (Hne c ltac:(done) Hc y Hy).
      assert (y <> x) by congruence. rewrite U1, U2, !decide_False; try done; intros [? ->]; auto.
  - intros c y Hc Hy. rewrite U3. unfold upd in Hy. destruct (decide (b = c)) as [<-|Hbc].
    + destruct (O3 b y Hb (HLb y Hy)) as (k & bs & E & Ek & _). exists k, bs.
      split_and!; try done. intros [= ->]. by apply (Hm y).
    + destruct (O3 c y Hc Hy) as (k & bs & E & Ek & _). exists k, bs. split_and!; try done.
      intros [= ->]. by apply (Hne c ltac:(done) Hc y Hy).
  - intros y k bs E Hy. rewrite U3 in E. specialize (O4 y k bs E ltac:(done)). unfold upd.
    destruct (decide (b = bucket_of k)) as [Eb|]; [|done]. rewrite <- Eb, HL in O4.
    apply elem_of_app. apply elem_of_app in O4 as [?|[->|?]%elem_of_cons]; [by left|done|by right].
  - intros y [= <-]. split; [done|]. rewrite U3, Hix. by eexists.
Qed.

(** Changing the fields of the detached waiter, or taking it off the store. *)
Lemma detached_ok s L x (m : gmap Z waiter) D :
  futex_ok s L (Some x) -> (forall y, y <> x -> m !! y = waiters s !! y) ->
  (D = None /\ (forall w, m !! x = Some w -> w_woken w = true) \/ (D = Some x /\ is_Some (m !! x))) ->
  futex_ok {| waiters := m; buckets := buckets s |} L D.
Proof.
  intros [O1 O2 O3 O4 O5] Hm HD. set (s' := {| waiters := m; buckets := buckets s |}).
  destruct (O5 x eq_refl) as [Hx0 _].
  assert (Hnot : forall b, (b < Z.to_nat FUTEX_BUCKETS)%nat -> x ∉ L b).
  { intros b Hb Hx. by destruct (O3 b x Hb Hx) as (? & ? & _ & _ & ?). }
  assert (Hw : forall y, y <> x -> waiter_at s' y = waiter_at s y /\ info s' y = info s y).
  { intros y Hy. unfold waiter_at, info; simpl. by rewrite Hm. }
  split; [done| | | |].
  - intros b Hb. destruct (O2 b Hb) as [Hd Hnd]. split; [|done]. eapply is_dll_frame; [|done].
    intros y Hy. assert (y <> x) by (intros ->; by apply (Hnot b Hb)).
    unfold pv, nx. by destruct (Hw y) as [-> _].
  - intros b y Hb Hy. assert (y <> x) by (intros ->; by apply (Hnot b Hb)).
    destruct (O3 b y Hb Hy) as (k & bs & E & Ek & _). exists k, bs. destruct (Hw y) as [_ ->]; [done|].
    split_and!; try done. destruct HD as [[-> _]|[-> _]]; congruence.
  - intros y k bs E Hy. destruct (decide (y = x)) as [->|Hne].
    + destruct HD as [[-> Hd]|[-> _]]; [|done]. unfold info in E. simpl in E.
      destruct (m !! x) as [w|] eqn:Em; [|done]. simpl in E. injection E as _ _ E. by rewrite (Hd w eq_refl) in E.
    + destruct (Hw y Hne) as [_ E']. rewrite E' in E. apply (O4 y k bs E). congruence.
  - intros y ->. destruct HD as [[? _]|[E Hs]]; [done|]. injection E as ->. split; [done|].
    unfold info; simpl. by apply fmap_is_Some.
Qed.

Lemma set_waiter_detached s L x w D :
  futex_ok s L (Some x) -> (D = None /\ w_woken w = true \/ D = Some x) ->
  futex_ok (set_waiter s x w) L D.
Proof.
  intros Hok HD. apply (detached_ok s L x); [done| |].
  - intros y Hy. by rewrite lookup_insert_ne by done.
  - rewrite lookup_insert_eq. destruct HD as [[-> Hw]| ->]; [left|right]; split; try done.
    by intros ? [= <-].
Qed.

(** A new waiter. *)
Lemma new_waiter_ok s L x w :
  futex_ok s L None -> info s x = None -> x <> 0 -> futex_ok (set_waiter s x w) L (Some x).
Proof.
  intros [O1 O2 O3 O4 O5] Hx Hx0.
  assert (Hnot : forall b, (b < Z.to_nat FUTEX_BUCKETS)%nat -> x ∉ L b).
  { intros b Hb Hi. destruct (O3 b x Hb Hi) as (? & ? & ? & _). congruence. }
  split; [done| | | |].
  - intros b Hb. destruct (O2 b Hb) as [Hd Hnd]. split; [|done]. eapply is_dll_frame; [|done].
    intros y Hy. assert (x <> y) by (intros ->; by apply (Hnot b Hb)).
    unfold pv, nx. by rewrite waiter_at_set, decide_False by done.
  - intros b y Hb Hy. assert (x <> y) by (intros ->; by apply (Hnot b Hb)).
    destruct (O3 b y Hb Hy) as (k & bs & E & Ek & _). exists k, bs. rewrite info_set, decide_False by done.
    split_and!; try done. congruence.
  - intros y k bs. rewrite info_set. case_decide as Exy; [by intros _ []; f_equal|].
    intros E _. by apply (O4 y k bs E).
  - intros y [= <-]. split; [done|]. rewrite info_set, decide_True by done. by eexists.
Qed.

(** Putting the detached waiter at the head of the list of its key. *)
Lemma link_ok s L x k bs :
  futex_ok s L (Some x) -> info s x = Some (k, bs, false) ->
  let b := bucket_of k in
  futex_ok (waiter_link s x) (upd L b (x :: L b)) None /\ (forall y, info (waiter_link s x) y = info s y) /\
  (forall y, y ∈ L b -> nx (waiter_link s x) y = nx s y).
Proof.
  intros [O1 O2 O3 O4 O5] Hi b. destruct (O5 x eq_refl) as [Hx0 Hxi].
  destruct (info_some _ _ _ _ _ Hi) as (Hk & _). pose proof (bucket_of_lt k) as Hb. fold b in Hb.
  destruct (O2 b Hb) as [Hd Hnd].
  assert (Hnot : forall c, (c < Z.to_nat FUTEX_BUCKETS)%nat -> x ∉ L c).
  { intros c Hc Hx. by destruct (O3 c x Hc Hx) as (? & ? & _ & _ & ?). }
  set (h := bucket s b) in *. pose proof (is_dll_head _ _ _ _ _ Hd) as Hh.
  assert (Hhin : h <> 0 -> h ∈ L b).
  { rewrite Hh. destruct (L b) as [|y l]; [done|]. intros _. by left. }
  assert (Hhx : h <> x) by (intros E; destruct (decide (h = 0)); [congruence|]; apply (Hnot b Hb); rewrite <- E; auto).
  assert (W : forall y, waiter_at (waiter_link s x) y =
    if decide (y = x) then with_links (waiter_at s x) 0 h
    else if decide (h <> 0 /\ y = h) then with_links (waiter_at s h) x (w_next (waiter_at s h)) else waiter_at s y).
  { intros y. unfold waiter_link. rewrite Hk. fold b. cbn [bucket buckets set_next set_prev set_waiter].
    change (bucket (set_next (set_prev s x 0) x (bucket s b)) b) with h. change (bucket s b) with h.
    destruct (h =? 0) eqn:E0; bool_prop; cbn [negb].
    - change (waiter_at (set_bucket (set_next (set_prev s x 0) x h) b x) y) with
        (waiter_at (set_next (set_prev s x 0) x h) y). unfold set_next, set_prev.
      rewrite !waiter_at_set, (decide_True (P := x = x)) by done.
      destruct (decide (x = y)) as [<-|]; [by rewrite decide_True|].
      rewrite !decide_False by naive_solver. done.
    - change (waiter_at (set_bucket (set_prev (set_next (set_prev s x 0) x h) h x) b x) y) with
        (waiter_at (set_prev (set_next (set_prev s x 0) x h) h x) y). unfold set_next, set_prev.
      rewrite !waiter_at_set, (decide_True (P := x = x)) by done.
      rewrite !(decide_False (P := x = h)) by congruence.
      destruct (decide (h = y)) as [<-|].
      + rewrite decide_False by done. by rewrite decide_True.
      + destruct (decide (x = y)) as [<-|]; [by rewrite decide_True|].
        rewrite !decide_False by naive_solver. done. }
  assert (I : forall y, info (waiter_link s x) y = info s y).
  { intros y. unfold waiter_link. rewrite Hk. fold b.
    change (bucket (set_next (set_prev s x 0) x (bucket s b)) b) with h. change (bucket s b) with h.
    assert (I1 : forall z, info (set_next (set_prev s x 0) x h) z = info s z).
    { intros z. unfold set_next. rewrite info_links; unfold set_prev; by rewrite info_links. }
    destruct (h =? 0) eqn:E0; bool_prop; cbn [negb]; [apply I1|].
    etrans; [|apply I1]. unfold set_bucket, set_prev at 1. apply info_links. rewrite I1.
    destruct (O3 b h Hb (Hhin E0)) as (? & ? & -> & _). by eexists. }
  assert (B : forall c, (c < Z.to_nat FUTEX_BUCKETS)%nat ->
    bucket (waiter_link s x) c = if decide (b = c) then x else bucket s c).
  { intros c Hc. unfold waiter_link. rewrite Hk. fold b. unfold bucket, set_bucket.
    destruct (negb _); cbn [buckets set_prev set_next set_waiter]; destruct (decide (b = c)) as [<-|Hbc];
      first [by rewrite list_lookup_insert_eq by (rewrite O1; done) | by rewrite list_lookup_insert_ne by done]. }
  split_and!; [|done|].
  - split.
    + unfold waiter_link. rewrite Hk. fold b. destruct (negb _); simpl; by rewrite length_insert.
    + intros c Hc. rewrite B by done. unfold upd. destruct (decide (b = c)) as [<-|Hbc].
      * split; [|apply list.NoDup_cons; split; [by apply Hnot|done]].
        eapply (is_dll_push (pv s) (nx s) _ _ (L b) h); [done| |done| | | | |].
        -- apply list.NoDup_cons. split; [by apply Hnot|done].
        -- unfold pv. by rewrite W, decide_True.
        -- unfold nx. by rewrite W, decide_True.
        -- intros H0. unfold pv. by rewrite W, decide_False, decide_True.
        -- intros y Hy Hyh. unfold pv. rewrite W, !decide_False; [done|naive_solver|].
           intros ->. by apply (Hnot b Hb).
        -- intros y Hy. unfold nx. rewrite W, decide_False by (intros ->; by apply (Hnot b Hb)).
           destruct (decide (h <> 0 /\ y = h)) as [[_ ->]|]; done.
      * destruct (O2 c Hc) as [Hdc Hndc]. split; [|done]. eapply is_dll_frame; [|done].
        intros y Hy. assert (y <> x) by (intros ->; by apply (Hnot c Hc)).
        assert (~ (h <> 0 /\ y = h)).
        { intros [H0 ->]. destruct (O3 c h Hc Hy) as (k1 & ? & E1 & Eb1 & _).
          destruct (O3 b h Hb (Hhin H0)) as (k2 & ? & E2 & Eb2 & _). congruence. }
        unfold pv, nx. by rewrite W, !decide_False.
    + intros c y Hc Hy. rewrite I. unfold upd in Hy. destruct (decide (b = c)) as [<-|Hbc].
      * apply elem_of_cons in Hy as [->|Hy]; [by exists k, bs|].
        destruct (O3 b y Hb Hy) as (k' & bs' & ? & ? & _). by exists k', bs'.
      * destruct (O3 c y Hc Hy) as (k' & bs' & ? & ? & _). by exists k', bs'.
    + intros y k' bs' E _. rewrite I in E. unfold upd. destruct (decide (y = x)) as [->|Hyx].
      * rewrite Hi in E. injection E as <- <-. rewrite decide_True by done. by left.
      * specialize (O4 y k' bs' E ltac:(congruence)).
        destruct (decide (b = bucket_of k')) as [Eb|]; [|done]. right. by rewrite Eb.
    + done.
  - intros y Hy. unfold nx. rewrite W, decide_False by (intros ->; by apply (Hnot b Hb)).
    destruct (decide (h <> 0 /\ y = h)) as [[_ ->]|]; done.
Qed.

(** ** Waking *)

Lemma futex_ok_ext s L L' D : (forall b, L b = L' b) -> futex_ok s L D -> futex_ok s L' D.
Proof.
  intros E [O1 O2 O3 O4 O5]. split; [done| | | |done]; intros *; rewrite <- ?E; [apply O2|apply O3|apply O4].
Qed.

Lemma upd_upd L b l l' c : upd (upd L b l) b l' c = upd L b l' c.
Proof. unfold upd. by destruct (decide (b = c)). Qed.

(** Whether a wake of [key] with [bitset] is for a waiter with these fields. *)
Definition wants (key : futex_key) (bitset : Z) (i : option (futex_key * Z * bool)) : bool :=
  match i with Some (k, bs, _) => key_eq k key && flag bs bitset | None => false end.

(** The first [n] members of [l] that satisfy [m], and the rest in order. *)
Fixpoint pick (m : Z -> bool) (n : nat) (l : list Z) : list Z * list Z :=
  match n, l with
  | O, _ => ([], l)
  | _, [] => ([], [])
  | S n', x :: rest =>
    if m x then let '(a, r) := pick m n' rest in (x :: a, r)
    else let '(a, r) := pick m n rest in (a, x :: r)
  end.

Lemma pick_ext m m' n l : (forall x, x ∈ l -> m x = m' x) -> pick m n l = pick m' n l.
Proof.
  revert n. induction l as [|x l IH]; intros [|n] Hm; simpl; try done.
  rewrite Hm by (by left). rewrite !IH by (intros; apply Hm; by right). done.
Qed.

Lemma pick_nil m n : pick m n [] = ([], []).
Proof. by destruct n. Qed.

Lemma pick_0 m l : pick m 0 l = ([], l).
Proof. by destruct l. Qed.

Lemma pick_spec m n l : let '(a, r) := pick m n l in
  l ≡ₚ a ++ r /\ (length a <= n)%nat /\ (forall x, x ∈ a -> m x = true) /\
  ((length a < n)%nat -> forall x, x ∈ r -> m x = false).
Proof.
  revert n. induction l as [|x l IH]; intros [|n]; simpl; try (split_and!; done || lia || set_solver).
  destruct (m x) eqn:Em.
  - specialize (IH n). destruct (pick m n l) as [a r]. destruct IH as (P & Hl & Ha & Hr). simpl.
    split_and!; [by constructor|lia|set_solver|]. intros Hlt. apply Hr. lia.
  - specialize (IH (S n)). destruct (pick m (S n) l) as [a r]. destruct IH as (P & Hl & Ha & Hr).
    split_and!; [rewrite <- Permutation_middle; by apply perm_skip|done|done|].
    intros Hlt y [->|Hy]%elem_of_cons; [done|]. by apply Hr.
Qed.

(** [i] with [f] applied to the fields of the waiters [a]. *)
Definition override (f : futex_key * Z * bool -> futex_key * Z * bool) (a : list Z)
    (i : Z -> option (futex_key * Z * bool)) (y : Z) : option (futex_key * Z * bool) :=
  if decide (y ∈ a) then f <$> i y else i y.

Lemma override_nil f i y : override f [] i y = i y.
Proof. unfold override. by rewrite decide_False by apply not_elem_of_nil. Qed.

Lemma override_eq f x i : override f [x] i x = f <$> i x.
Proof. unfold override. by rewrite decide_True by (by left). Qed.

Lemma override_ne f x i y : y <> x -> override f [x] i y = i y.
Proof. intros Hy. unfold override. by rewrite decide_False by (by rewrite list_elem_of_singleton). Qed.

Lemma override_cons f x a i y : x ∉ a -> override f a (override f [x] i) y = override f (x :: a) i y.
Proof.
  intros Hx. unfold override. destruct (decide (y = x)) as [->|Hy].
  - rewrite (decide_False (P := x ∈ a)) by done. by rewrite !decide_True by (rewrite ?list_elem_of_singleton; by left || done).
  - rewrite (decide_False (P := y ∈ [x])) by (by rewrite list_elem_of_singleton).
    destruct (decide (y ∈ a)); [rewrite decide_True by (by right)|rewrite decide_False]; try done.
    by rewrite elem_of_cons; intros [?|?].
Qed.

(** The fields once the waiters [a] are marked woken. *)
Definition mark : list Z -> (Z -> option (futex_key * Z * bool)) -> Z -> option (futex_key * Z * bool) :=
  override (fun '(k, bs, _) => (k, bs, true)).

Lemma wake_one_ok s L b pre x suf :
  futex_ok s L None -> (b < Z.to_nat FUTEX_BUCKETS)%nat -> L b = pre ++ x :: suf ->
  let s1 := waiter_unlink s x in
  let s2 := set_waiter s1 x (with_woken (waiter_at s1 x)) in
  futex_ok s2 (upd L b (pre ++ suf)) None /\ (forall y, info s2 y = mark [x] (info s) y) /\
  nx s x = default 0 (head suf).
Proof.
  intros Hok Hb HL s1 s2. destruct (unlink_ok s L b pre x suf Hok Hb HL) as (U1 & U2 & U3). fold s1 in U1, U2.
  split_and!; [|intros y|done].
  - apply set_waiter_detached; [done|]. by left.
  - unfold s2, mark. rewrite info_set, (ul_info _ _ _ U2).
    destruct (decide (x = y)) as [<-|Hne]; [|by rewrite override_ne by congruence].
    rewrite override_eq. destruct (fo_detached _ _ _ U1 x eq_refl) as [_ [[[k bs] v] Hi]].
    destruct (info_some _ _ _ _ _ Hi) as (Hk & Hbs & _). rewrite (ul_info _ _ _ U2) in Hi. rewrite Hi. simpl.
    by rewrite Hk, Hbs.
Qed.

Lemma wants_at s key bitset x : is_Some (info s x) ->
  key_eq (w_key (waiter_at s x)) key && flag (w_bitset (waiter_at s x)) bitset = wants key bitset (info s x).
Proof. intros [[[k bs] v] Hi]. rewrite Hi. by destruct (info_some _ _ _ _ _ Hi) as (-> & -> & _). Qed.

Lemma wake_loop_spec fuel s L b pre suf w key count bitset woken :
  futex_ok s L None -> (b < Z.to_nat FUTEX_BUCKETS)%nat -> L b = pre ++ suf -> w = default 0 (head suf) ->
  (length suf < fuel)%nat ->
  let '(l, s') := wake_loop fuel s w key count bitset woken in
  let '(a, r) := pick (fun x => wants key bitset (info s x)) (Z.to_nat (count - Z.of_nat (length woken))) suf in
  l = woken ++ a /\ futex_ok s' (upd L b (pre ++ r)) None /\ (forall y, info s' y = mark a (info s) y).
Proof.
  revert s L pre suf w woken. induction fuel as [|fuel IH]; intros s L pre suf w woken Hok Hb HL Hw Hf; [lia|].
  assert (Hnone : forall suf', L b = pre ++ suf' -> futex_ok s (upd L b (pre ++ suf')) None).
  { intros suf' E. eapply futex_ok_ext; [|done]. intros c. unfold upd. by destruct (decide (b = c)) as [<-|]. }
  cbn [wake_loop]. destruct (count <=? Z.of_nat (length woken)) eqn:Ec; bool_prop.
  { rewrite orb_true_r. replace (Z.to_nat (count - Z.of_nat (length woken))) with 0%nat by lia.
    rewrite pick_0, app_nil_r. split_and!; [done|by apply Hnone|]. intros y. symmetry. apply override_nil. }
  destruct suf as [|x suf].
  { simpl in Hw. subst w. rewrite Z.eqb_refl, pick_nil, app_nil_r. cbn [orb].
    split_and!; [done|by apply Hnone|]. intros y. symmetry. apply override_nil. }
  simpl in Hw. subst w. destruct (fo_dll _ _ _ Hok b Hb) as [Hd Hnd]. rewrite HL in Hd, Hnd.
  assert (Hx0 : (x =? 0) = false).
  { apply Z.eqb_neq. intros ->. apply is_dll_nonnull in Hd. apply Hd, elem_mid. }
  rewrite Hx0, orb_false_r. cbn [orb].
  destruct (fo_in _ _ _ Hok b x Hb) as (k & bs & Hi & _); [rewrite HL; apply elem_mid|].
  rewrite wants_at by (rewrite Hi; by eexists).
  destruct (Z.to_nat (count - Z.of_nat (length woken))) as [|n] eqn:En; [lia|]. cbn [pick].
  destruct (wants key bitset (info s x)) eqn:Em.
  - destruct (wake_one_ok s L b pre x suf Hok Hb HL) as (K1 & K2 & K3). fold (nx s x). rewrite K3.
    set (s2 := set_waiter _ _ _) in *. apply list.NoDup_app in Hnd as (_ & _ & Hnd2).
    apply list.NoDup_cons in Hnd2 as [Hxs _].
    specialize (IH s2 (upd L b (pre ++ suf)) pre suf (default 0 (head suf)) (woken ++ [x]) K1 Hb).
    destruct (wake_loop fuel s2 _ key count bitset (woken ++ [x])) as [l s'].
    rewrite length_app in IH. cbn [length] in IH.
    replace (Z.to_nat (count - Z.of_nat (length woken + 1))) with n in IH by lia.
    rewrite (pick_ext _ (fun x => wants key bitset (info s x))) in IH.
    2: { intros y Hy. rewrite K2. unfold mark. rewrite override_ne; [done|]. by intros ->. }
    pose proof (pick_spec (fun x => wants key bitset (info s x)) n suf) as Hps.
    destruct (pick _ n suf) as [a r]. destruct Hps as (Hperm & _).
    destruct IH as (I1 & I2 & I3); [unfold upd; by rewrite decide_True|done|simpl in Hf; lia|].
    split_and!.
    + by rewrite I1, <- app_assoc.
    + eapply futex_ok_ext; [|done]. intros c. apply upd_upd.
    + intros y. rewrite I3. unfold mark.
      rewrite <- override_cons by (intros Hxa; apply Hxs; rewrite Hperm; apply elem_of_app; by left).
      unfold override. by rewrite !K2.
  - destruct (is_dll_app _ _ _ _ _ _ _ Hd) as (_ & Hn & _). fold (nx s x). rewrite Hn.
    specialize (IH s L (pre ++ [x]) suf (default 0 (head suf)) woken Hok Hb).
    destruct (wake_loop fuel s _ key count bitset woken) as [l s']. rewrite En in IH.
    destruct (pick (fun x => wants key bitset (info s x)) (S n) suf) as [a r].
    destruct IH as (I1 & I2 & I3); [by rewrite HL, <- app_assoc|done|simpl in Hf; lia|].
    split_and!; [done| |done]. by rewrite <- app_assoc in I2.
Qed.

(** The fuel of the loops is enough: a bucket holds no more than all waiters. *)
Lemma bucket_size s L D b :
  futex_ok s L D -> (b < Z.to_nat FUTEX_BUCKETS)%nat -> (length (L b) < S (size (waiters s)))%nat.
Proof.
  intros Hok Hb. destruct (fo_dll _ _ _ Hok b Hb) as [_ Hnd].
  assert (Hsub : (list_to_set (L b) : gset Z) ⊆ dom (waiters s)).
  { intros x Hx%elem_of_list_to_set. apply elem_of_dom.
    destruct (fo_in _ _ _ Hok b x Hb Hx) as (k & bs & Hi & _). unfold info in Hi.
    destruct (waiters s !! x); [by eexists|done]. }
  apply subseteq_size in Hsub. rewrite size_list_to_set, size_dom in Hsub by done. lia.
Qed.

Lemma wake_key_spec s L key count bitset :
  futex_ok s L None ->
  let '(l, s') := wake_key s key count bitset in
  let '(a, r) := pick (fun x => wants key bitset (info s x)) (Z.to_nat count) (L (bucket_of key)) in
  l = a /\ futex_ok s' (upd L (bucket_of key) r) None /\ (forall y, info s' y = mark a (info s) y).
Proof.
  intros Hok. pose proof (bucket_of_lt key) as Hb. unfold wake_key.
  pose proof (wake_loop_spec (S (size (waiters s))) s L (bucket_of key) [] (L (bucket_of key))
    (bucket s (bucket_of key)) key count bitset [] Hok Hb eq_refl) as H.
  destruct (wake_loop _ _ _ _ _ _ _) as [l s']. simpl in H. rewrite Z.sub_0_r in H. apply H.
  - destruct (fo_dll _ _ _ Hok _ Hb) as [Hd _]. by apply is_dll_head in Hd.
  - by eapply bucket_size.
Qed.

(** The fields once the waiters [a] wait for [key2]. *)
Definition rekey (a : list Z) (key2 : futex_key) : (Z -> option (futex_key * Z * bool)) -> Z ->
    option (futex_key * Z * bool) := override (fun '(_, bs, v) => (key2, bs, v)) a.

Lemma requeue_one_ok s L b pre x suf key2 :
  futex_ok s L None -> (b < Z.to_nat FUTEX_BUCKETS)%nat -> L b = pre ++ x :: suf ->
  let s1 := waiter_unlink s x in
  let s2 := set_waiter s1 x (with_key (waiter_at s1 x) key2) in
  let s3 := waiter_link s2 x in
  exists L' pre', futex_ok s3 L' None /\ L' b = pre' ++ suf /\ (forall y, info s3 y = rekey [x] key2 (info s) y) /\
  nx s x = default 0 (head suf).
Proof.
  intros Hok Hb HL s1 s2 s3. destruct (unlink_ok s L b pre x suf Hok Hb HL) as (U1 & U2 & U3). fold s1 in U1, U2.
  destruct (fo_in _ _ _ Hok b x Hb) as (k & bs & Hi & _); [rewrite HL; apply elem_mid|].
  assert (Hi1 : info s1 x = Some (k, bs, false)) by (by rewrite (ul_info _ _ _ U2)).
  destruct (info_some _ _ _ _ _ Hi1) as (Hk1 & Hb1 & Hv1).
  assert (Hok2 : futex_ok s2 (upd L b (pre ++ suf)) (Some x)) by (apply set_waiter_detached; [done|by right]).
  assert (Hi2 : info s2 x = Some (key2, bs, false)).
  { unfold s2. rewrite info_set, decide_True by done. simpl. by rewrite Hb1, Hv1. }
  destruct (link_ok s2 _ x key2 bs Hok2 Hi2) as (K1 & K2 & _). fold s3 in K1, K2.
  eexists _, (if decide (bucket_of key2 = b) then x :: pre else pre). split_and!; [exact K1| | |done].
  - unfold upd at 1. destruct (decide (bucket_of key2 = b)) as [E|]; unfold upd; by rewrite ?E, decide_True.
  - intros y. rewrite K2. unfold s2, rekey. rewrite info_set, (ul_info _ _ _ U2). simpl. rewrite Hb1, Hv1.
    destruct (decide (x = y)) as [<-|]; [|by rewrite override_ne by congruence].
    rewrite override_eq. by rewrite Hi.
Qed.

Definition same_key (key : futex_key) (i : option (futex_key * Z * bool)) : bool :=
  match i with Some (k, _, _) => key_eq k key | None => false end.

Lemma requeue_loop_spec fuel s L b pre suf w key key2 n moved :
  futex_ok s L None -> (b < Z.to_nat FUTEX_BUCKETS)%nat -> L b = pre ++ suf -> w = default 0 (head suf) ->
  (length suf < fuel)%nat ->
  let '(l, s') := requeue_loop fuel s w key key2 n moved in
  let '(a, r) := pick (fun x => same_key key (info s x)) (Z.to_nat (n - Z.of_nat (length moved))) suf in
  l = moved ++ a /\ (exists L', futex_ok s' L' None) /\ (forall y, info s' y = rekey a key2 (info s) y).
Proof.
  revert s L pre suf w moved. induction fuel as [|fuel IH]; intros s L pre suf w moved Hok Hb HL Hw Hf; [lia|].
  assert (Hid : forall y, info s y = rekey [] key2 (info s) y)
    by (intros y; symmetry; apply override_nil).
  cbn [requeue_loop]. destruct (n <=? Z.of_nat (length moved)) eqn:Ec; bool_prop.
  { rewrite orb_true_r. replace (Z.to_nat (n - Z.of_nat (length moved))) with 0%nat by lia.
    rewrite pick_0, app_nil_r. split_and!; [done|by exists L|done]. }
  destruct suf as [|x suf].
  { simpl in Hw. subst w. rewrite Z.eqb_refl, pick_nil, app_nil_r. cbn [orb]. split_and!; [done|by exists L|done]. }
  simpl in Hw. subst w. destruct (fo_dll _ _ _ Hok b Hb) as [Hd Hnd]. rewrite HL in Hd, Hnd.
  assert (Hx0 : (x =? 0) = false).
  { apply Z.eqb_neq. intros ->. apply is_dll_nonnull in Hd. apply Hd, elem_mid. }
  rewrite Hx0, orb_false_r. cbn [orb].
  destruct (fo_in _ _ _ Hok b x Hb) as (k & bs & Hi & _); [rewrite HL; apply elem_mid|].
  destruct (info_some _ _ _ _ _ Hi) as (Hk & _).
  destruct (Z.to_nat (n - Z.of_nat (length moved))) as [|m] eqn:En; [lia|]. cbn [pick].
  assert (Em : same_key key (info s x) = key_eq (w_key (waiter_at s x)) key) by (by rewrite Hi, Hk).
  rewrite Em. destruct (key_eq (w_key (waiter_at s x)) key).
  - destruct (requeue_one_ok s L b pre x suf key2 Hok Hb HL) as (L' & pre' & K1 & K2 & K3 & K4).
    fold (nx s x). rewrite K4. set (s3 := waiter_link _ _) in *. apply list.NoDup_app in Hnd as (_ & _ & Hnd2).
    apply list.NoDup_cons in Hnd2 as [Hxs _].
    specialize (IH s3 L' pre' suf (default 0 (head suf)) (moved ++ [x]) K1 Hb K2 eq_refl).
    destruct (requeue_loop fuel s3 _ key key2 n (moved ++ [x])) as [l s'].
    rewrite length_app in IH. cbn [length] in IH.
    replace (Z.to_nat (n - Z.of_nat (length moved + 1))) with m in IH by lia.
    rewrite (pick_ext _ (fun x => same_key key (info s x))) in IH.
    2: { intros y Hy. rewrite K3. unfold rekey. rewrite override_ne; [done|]. by intros ->. }
    pose proof (pick_spec (fun x => same_key key (info s x)) m suf) as Hps.
    destruct (pick _ m suf) as [a r]. destruct Hps as (Hperm & _).
    destruct IH as (I1 & I2 & I3); [simpl in Hf; lia|]. split_and!; [by rewrite I1, <- app_assoc|done|].
    intros y. rewrite I3. unfold rekey.
    rewrite <- override_cons by (intros Hxa; apply Hxs; rewrite Hperm; apply elem_of_app; by left).
    unfold override. by rewrite !K3.
  - destruct (is_dll_app _ _ _ _ _ _ _ Hd) as (_ & Hn & _). fold (nx s x). rewrite Hn.
    specialize (IH s L (pre ++ [x]) suf (default 0 (head suf)) moved Hok Hb).
    destruct (requeue_loop fuel s _ key key2 n moved) as [l s']. rewrite En in IH.
    destruct (pick (fun x => same_key key (info s x)) (S m) suf) as [a r].
    destruct IH as (I1 & I2 & I3); [by rewrite HL, <- app_assoc|done|simpl in Hf; lia|]. done.
Qed.

(** ** Sleeping and leaving *)

Lemma wait_begin_ok s L w key bitset :
  futex_ok s L None -> info s w = None -> w <> 0 ->
  let s0 := set_waiter s w {| w_key := key; w_bitset := bitset; w_woken := false; w_prev := 0; w_next := 0 |} in
  futex_ok (waiter_link s0 w) (upd L (bucket_of key) (w :: L (bucket_of key))) None /\
  (forall y, info (waiter_link s0 w) y = if decide (w = y) then Some (key, bitset, false) else info s y).
Proof.
  intros Hok Hi Hw s0. assert (Hok0 : futex_ok s0 L (Some w)) by (by apply new_waiter_ok).
  assert (Hi0 : info s0 w = Some (key, bitset, false)) by (unfold s0; by rewrite info_set, decide_True).
  destruct (link_ok s0 L w key bitset Hok0 Hi0) as (K1 & K2 & _). split; [done|].
  intros y. rewrite K2. unfold s0. by rewrite info_set.
Qed.

(** A woken waiter is on no list, so its frame may go. *)
Lemma delete_woken_ok s L w k bs :
  futex_ok s L None -> info s w = Some (k, bs, true) ->
  futex_ok {| waiters := delete w (waiters s); buckets := buckets s |} L None.
Proof.
  intros [O1 O2 O3 O4 _] Hi. set (s' := {| waiters := _; buckets := _ |}).
  assert (Hne : forall b x, (b < Z.to_nat FUTEX_BUCKETS)%nat -> x ∈ L b -> w <> x).
  { intros b x Hb Hx ->. destruct (O3 b x Hb Hx) as (? & ? & E & _). congruence. }
  assert (Hw : forall y, w <> y -> waiters s' !! y = waiters s !! y)
    by (intros y Hy; simpl; by rewrite lookup_delete_ne).
  split; [done| | | |done].
  - intros b Hb. destruct (O2 b Hb) as [Hd Hnd]. split; [|done]. eapply is_dll_frame; [|done].
    intros y Hy. unfold pv, nx, waiter_at. by rewrite Hw by (by eapply Hne).
  - intros b y Hb Hy. unfold info. rewrite Hw by (by eapply Hne). by apply O3.
  - intros y k' bs' E _. apply (O4 y k' bs'); [|done]. unfold info in *.
    destruct (decide (w = y)) as [<-|Hy]; [simpl in E; by rewrite lookup_delete_eq in E|by rewrite Hw in E].
Qed.

Lemma wait_end_ok s L w timed_out :
  futex_ok s L None -> is_Some (info s w) -> exists L', futex_ok (futex_wait_end s w timed_out).2 L' None.
Proof.
  intros Hok [[[k bs] v] Hi]. destruct (info_some _ _ _ _ _ Hi) as (_ & _ & Hv).
  unfold futex_wait_end. rewrite Hv. destruct v; cbn [negb snd].
  - exists L. by eapply delete_woken_ok.
  - pose proof (fo_out _ _ _ Hok w k bs Hi ltac:(done)) as Hin. pose proof (bucket_of_lt k) as Hb.
    apply list_elem_of_split in Hin as (l1 & l2 & HL).
    destruct (unlink_ok s L (bucket_of k) l1 w l2 Hok Hb HL) as (U1 & _).
    eexists. eapply (detached_ok _ _ w); [exact U1| |].
    + intros y Hy. by rewrite lookup_delete_ne.
    + left. split; [done|]. intros x. by rewrite lookup_delete_eq.
Qed.

(** What the system calls do: a wait that goes to sleep, its return, a wake, a requeue. *)
Inductive futex_step : futex_state -> futex_state -> Prop :=
  | futex_sleeps s w key val bitset cur s' :
    info s w = None -> w <> 0 -> futex_wait_begin s w key val bitset cur = (None, s') -> futex_step s s'
  | futex_returns s w timed_out :
    is_Some (info s w) -> futex_step s (futex_wait_end s w timed_out).2
  | futex_wakes s key count bitset : futex_step s (futex_wake s key count bitset).2
  | futex_requeues s key key2 count requeue cmp : futex_step s (futex_requeue s key key2 count requeue cmp).2.

Lemma requeue_ok s L key key2 count requeue cmp :
  futex_ok s L None -> exists L', futex_ok (futex_requeue s key key2 count requeue cmp).2 L' None.
Proof.
  intros Hok. unfold futex_requeue. destruct (_ || _); [by exists L|].
  destruct key as [key|], key2 as [key2|]; try by exists L.
  destruct (match cmp with Some (_, None) => _ | _ => _ end); [by exists L|].
  pose proof (wake_key_spec s L key count FUTEX_BITSET_MATCH_ANY Hok) as W.
  destruct (wake_key s key count FUTEX_BITSET_MATCH_ANY) as [l s1]. destruct (pick _ _ _) as [a r].
  destruct W as (_ & Hok1 & _). pose proof (bucket_of_lt key) as Hb.
  pose proof (requeue_loop_spec (S (size (waiters s1))) s1 _ (bucket_of key) [] _
    (bucket s1 (bucket_of key)) key key2 requeue [] Hok1 Hb eq_refl) as R.
  destruct (requeue_loop _ _ _ _ _ _ _) as [m s2]. destruct (pick _ _ _) as [a' r'].
  destruct R as (_ & HL & _); [| |done].
  - destruct (fo_dll _ _ _ Hok1 _ Hb) as [Hd _]. by apply is_dll_head in Hd.
  - by eapply bucket_size.
Qed.

Lemma futex_step_ok s s' : futex_step s s' -> (exists L, futex_ok s L None) -> exists L, futex_ok s' L None.
Proof.
  intros Hs [L Hok]. destruct Hs as [s w key val bitset cur s' Hi Hw E| | |].
  - unfold futex_wait_begin in E. destruct (bitset =? 0); [done|]. destruct key as [key|]; [|done].
    destruct cur as [cur|]; [|done]. destruct (negb _); [done|]. injection E as <-.
    destruct (wait_begin_ok s L w key bitset Hok Hi Hw) as [K _]. by eexists.
  - by apply (wait_end_ok s L).
  - unfold futex_wake. destruct (bitset =? 0); [by exists L|]. destruct (count <=? 0); [by exists L|].
    destruct key as [key|]; [|by exists L]. pose proof (wake_key_spec s L key count bitset Hok) as W.
    destruct (wake_key s key count bitset) as [l s1]. destruct (pick _ _ _) as [a r].
    destruct W as (_ & Hok1 & _). by eexists.
  - by apply (requeue_ok s L).
Qed.

Definition futex_start : futex_state :=
  {| waiters := ∅; buckets := replicate (Z.to_nat FUTEX_BUCKETS) 0 |}.

Lemma futex_start_ok : futex_ok futex_start (fun _ => []) None.
Proof.
  split; try done.
  - intros b Hb. split; [|constructor]. cbn [is_dll]. unfold bucket, futex_start. cbn [buckets].
    by rewrite lookup_replicate_2.
  - intros b x _ Hx. by apply not_elem_of_nil in Hx.
Qed.

Lemma futex_reachable_ok s : rtc futex_step futex_start s -> exists L, futex_ok s L None.
Proof.
  intros Hr. assert (H0 : exists L, futex_ok futex_start L None) by (eexists; apply futex_start_ok).
  revert H0. induction Hr as [|x y z Hs _ IH]; [done|]. intros Hx. by apply IH, (futex_step_ok x).
Qed.

Lemma key_eq_true a b : key_eq a b = true <-> a = b.
Proof.
  unfold key_eq. rewrite andb_true_iff, !Z.eqb_eq. destruct a, b; simpl. naive_solver.
Qed.

(** C4. No wake-up is lost.  In every state that waits, returns, wakes and requeues can lead to, a
    wake of [count] sleepers wakes at most [count], all of them sleeping on that key with an
    overlapping bitset and in the order of the list; they are marked woken and nothing else
    about any waiter changes.  If it reports fewer than [count], no sleeper it was for is
    left asleep. *)
Theorem futex_wake_complete s key count bitset :
  rtc futex_step futex_start s -> bitset <> 0 -> 0 < count ->
  let '(r, woken, s') := futex_wake s (Some key) count bitset in
  r = Z.of_nat (length woken) /\ r <= count /\
  (forall x, x ∈ woken -> exists bs, info s x = Some (key, bs, false) /\ flag bs bitset = true) /\
  (forall y, info s' y = mark woken (info s) y) /\
  (r < count -> forall y bs, info s' y = Some (key, bs, false) -> flag bs bitset = false).
Proof.
  intros Hr Hbs Hc. destruct (futex_reachable_ok s Hr) as [L Hok]. unfold futex_wake.
  rewrite (proj2 (Z.eqb_neq bitset 0)), (proj2 (Z.leb_gt count 0)) by lia.
  pose proof (wake_key_spec s L key count bitset Hok) as W. pose proof (bucket_of_lt key) as Hb.
  destruct (wake_key s key count bitset) as [l s'].
  pose proof (pick_spec (fun x => wants key bitset (info s x)) (Z.to_nat count) (L (bucket_of key))) as P.
  destruct (pick _ _ _) as [a r]. destruct W as (-> & Hok' & Hi'). destruct P as (P1 & P2 & P3 & P4).
  assert (Hin : forall x, x ∈ a \/ x ∈ r -> x ∈ L (bucket_of key)) by (intros x Hx; rewrite P1; by apply elem_of_app).
  split_and!; [done|lia| |done|].
  - intros x Hx. destruct (fo_in _ _ _ Hok _ x Hb (Hin x (or_introl Hx))) as (k & bs & Hi & _).
    specialize (P3 x Hx). simpl in P3. rewrite Hi in P3. apply andb_true_iff in P3 as [Hk Hf].
    apply key_eq_true in Hk as ->. by exists bs.
  - intros Hlt y bs Hy. pose proof (fo_out _ _ _ Hok' y key bs Hy ltac:(done)) as Hyr.
    unfold upd in Hyr. rewrite decide_True in Hyr by done. specialize (P4 ltac:(lia) y Hyr). simpl in P4.
    rewrite Hi' in Hy. unfold mark, override in Hy. destruct (decide (y ∈ a)) as [Ha|Ha].
    + destruct (info s y) as [[[? ?] ?]|]; by simplify_eq/=.
    + rewrite Hy in P4. simpl in P4. by rewrite (proj2 (key_eq_true key key) eq_refl) in P4.
Qed.

(** A waiter that saw the value it expects is asleep and on the list: a later wake of its key
    finds it, unless it is woken first or gives up.  A failed check changes nothing. *)
Lemma futex_wait_sleeps s w key val bitset cur :
  rtc futex_step futex_start s -> info s w = None -> w <> 0 ->
  let '(r, s') := futex_wait_begin s w key val bitset cur in
  match r with
  | Some e => s' = s /\ e = (if bitset =? 0 then - EINVAL else
                match key, cur with None, _ => - EINVAL | _, None => - EFAULT | _, _ => - EAGAIN end)
  | None => exists k, key = Some k /\ cur = Some val /\ bitset <> 0 /\
      (forall y, info s' y = if decide (w = y) then Some (k, bitset, false) else info s y) /\
      exists L, futex_ok s' L None /\ w ∈ L (bucket_of k)
  end.
Proof.
  intros Hr Hi Hw. destruct (futex_reachable_ok s Hr) as [L Hok]. unfold futex_wait_begin.
  destruct (bitset =? 0) eqn:Eb; [done|]. destruct key as [k|]; [|done]. destruct cur as [c|]; [|done].
  destruct (c =? val) eqn:Ec; cbn [negb]; [|done]. bool_prop. subst c. exists k.
  destruct (wait_begin_ok s L w k bitset Hok Hi Hw) as [K1 K2].
  split_and!; try done. eexists. split; [exact K1|]. unfold upd. rewrite decide_True by done. by left.
Qed.

(** A requeue wakes up to [count] sleepers of the first key and moves up to [requeue] of the
    others to the second: the moved ones stay asleep and differ only in their key, and the
    result is how many were woken or moved. *)
Lemma futex_requeue_moves s key key2 count requeue :
  rtc futex_step futex_start s -> 0 <= count -> 0 <= requeue ->
  let '(r, woken, moved, s') := futex_requeue s (Some key) (Some key2) count requeue None in
  r = Z.of_nat (length woken) + Z.of_nat (length moved) /\
  Z.of_nat (length woken) <= count /\ Z.of_nat (length moved) <= requeue /\
  (forall y, info s' y = rekey moved key2 (mark woken (info s)) y) /\
  (forall x, x ∈ moved -> exists bs, mark woken (info s) x = Some (key, bs, false)) /\
  exists L, futex_ok s' L None.
Proof.
  intros Hr Hc Hq. destruct (futex_reachable_ok s Hr) as [L Hok]. unfold futex_requeue.
  rewrite (proj2 (Z.ltb_ge count 0)), (proj2 (Z.ltb_ge requeue 0)) by lia. cbn [orb].
  pose proof (wake_key_spec s L key count FUTEX_BITSET_MATCH_ANY Hok) as W. pose proof (bucket_of_lt key) as Hb.
  destruct (wake_key s key count FUTEX_BITSET_MATCH_ANY) as [l s1].
  pose proof (pick_spec (fun x => wants key FUTEX_BITSET_MATCH_ANY (info s x)) (Z.to_nat count) (L (bucket_of key))) as P.
  destruct (pick _ (Z.to_nat count) _) as [a r]. destruct W as (-> & Hok1 & Hi1). destruct P as (_ & P2 & _ & _).
  pose proof (requeue_loop_spec (S (size (waiters s1))) s1 _ (bucket_of key) [] _
    (bucket s1 (bucket_of key)) key key2 requeue [] Hok1 Hb eq_refl) as R.
  destruct (requeue_loop _ _ _ _ _ _ _) as [m s2]. cbn [length app] in R. rewrite Z.sub_0_r in R.
  pose proof (pick_spec (fun x => same_key key (info s1 x)) (Z.to_nat requeue) (upd L (bucket_of key) r (bucket_of key))) as Q.
  destruct (pick _ (Z.to_nat requeue) _) as [a' r']. destruct Q as (Q1 & Q2 & Q3 & _).
  destruct R as (-> & HL & Hi2); [| |].
  - destruct (fo_dll _ _ _ Hok1 _ Hb) as [Hd _]. by apply is_dll_head in Hd.
  - by eapply bucket_size.
  - split_and!; [done|lia|lia| | |done].
    + intros y. rewrite Hi2. unfold rekey, override. by rewrite !Hi1.
    + intros x Hx. assert (Hin : x ∈ upd L (bucket_of key) r (bucket_of key)) by (rewrite Q1; apply elem_of_app; by left).
      destruct (fo_in _ _ _ Hok1 _ x Hb Hin) as (k & bs & Hi & _). specialize (Q3 x Hx). simpl in Q3.
      rewrite Hi in Q3. apply key_eq_true in Q3 as ->. exists bs. by rewrite <- Hi1.
Qed.

(** ** Witnesses *)

Definition demo_key : futex_key := {| fk_space := 0x5000; fk_addr := 0x401000 |}.

(** Two waiters of the key asleep. *)
Definition demo_sleep : futex_state :=
  (futex_wait_begin (futex_wait_begin futex_start 16 (Some demo_key) 7 1 (Some 7)).2 32 (Some demo_key) 7 3 (Some 7)).2.

Lemma demo_sleep_reachable : rtc futex_step futex_start demo_sleep.
Proof.
  eapply rtc_l; [apply (futex_sleeps _ 16 (Some demo_key) 7 1 (Some 7)); [done|lia|by vm_compute]|].
  eapply rtc_l; [apply (futex_sleeps _ 32 (Some demo_key) 7 3 (Some 7)); [done|lia|by vm_compute]|].
  apply rtc_refl.
Qed.

Lemma futex_wake_complete_witness :
  (futex_wake demo_sleep (Some demo_key) 5 2).1 = (1, [32]) /\
  let '(r, woken, s') := futex_wake demo_sleep (Some demo_key) 5 2 in
  r = Z.of_nat (length woken) /\ r <= 5 /\
  (forall x, x ∈ woken -> exists bs, info demo_sleep x = Some (demo_key, bs, false) /\ flag bs 2 = true) /\
  (forall y, info s' y = mark woken (info demo_sleep) y) /\
  (r < 5 -> forall y bs, info s' y = Some (demo_key, bs, false) -> flag bs 2 = false).
Proof.
  split; [by vm_compute|]. exact (futex_wake_complete demo_sleep demo_key 5 2 demo_sleep_reachable
    ltac:(lia) ltac:(lia)).
Defined.

Lemma futex_wait_sleeps_witness :
  let '(r, s') := futex_wait_begin demo_sleep 48 (Some demo_key) 7 1 (Some 8) in
  match r with
  | Some e => s' = demo_sleep /\ e = - EAGAIN
  | None => exists k, Some demo_key = Some k /\ Some 8 = Some 7 /\ 1 <> 0 /\
      (forall y, info s' y = if decide (48 = y) then Some (k, 1, false) else info demo_sleep y) /\
      exists L, futex_ok s' L None /\ 48 ∈ L (bucket_of k)
  end.
Proof.
  exact (futex_wait_sleeps demo_sleep 48 (Some demo_key) 7 1 (Some 8) demo_sleep_reachable
    ltac:(by vm_compute) ltac:(lia)).
Defined.

Lemma futex_requeue_moves_witness :
  (futex_requeue demo_sleep (Some demo_key) (Some {| fk_space := 0x5000; fk_addr := 0x402000 |}) 1 1 None).1 =
    (2, [32], [16]) /\
  let '(r, woken, moved, s') :=
    futex_requeue demo_sleep (Some demo_key) (Some {| fk_space := 0x5000; fk_addr := 0x402000 |}) 1 1 None in
  Z.of_nat (length woken) <= 1.
Proof.
  split; [by vm_compute|].
  pose proof (futex_requeue_moves demo_sleep demo_key {| fk_space := 0x5000; fk_addr := 0x402000 |} 1 1
    demo_sleep_reachable ltac:(lia) ltac:(lia)) as H.
  destruct (futex_requeue _ _ _ _ _ _) as [[[r woken] moved] s']. exact (proj1 (proj2 H)).
Defined.
