(* ===== verification/Sched.v ===== *)
(** * The scheduler, [kernel/src/sched/scheduler.c]

    Tasks wait for a CPU in two priority arrays, [active] and [expired], each a bitmap and 32
    first-in first-out lists threaded through [ready_prev] and [ready_next] of the tasks.  The
    run queue lock makes the part of an operation that holds it one step.  A switch is three:
    [sched_next_context] chooses under the lock; when the chosen task is off every CPU,
    [sched_switch_task] makes it current; [sched_return] lets go of the old one.  [smp_step]
    interleaves these steps of all CPUs with the wake-ups, blocks and exits of the rest of the
    kernel.

    Pointers are addresses, 0 is [NULL].  [prio_arrays[0]] and [prio_arrays[1]] are named by
    [false] and [true].  The FPU switch, the stack guard words and the delivery of signals on
    the way out of [sched_return] are not part of this file. *)

From S2P Require Import Prelude.

Definition QUANTUM : Z := 10.

Definition STARVE_TICKS : Z := QUANTUM * 2.

Definition PRIO_LEVELS : Z := 32.

Definition PRIO_BONUS_MAX : Z := 4.

Definition PRIO_WAKE_BONUS : Z := 2.

Definition KERNEL_STACK_SIZE : Z := 8192.

(** [task_state_t]. *)
Inductive task_state :=
  | TASK_FREE | TASK_READY | TASK_RUNNING | TASK_BLOCKED | TASK_STOPPED | TASK_ZOMBIE | TASK_DEAD.

#[export] Instance task_state_eq_dec : EqDecision task_state.
Proof. solve_decision. Defined.

(** The fields of [task_t] the scheduler uses. *)
Record task := {
  state : task_state;
  quantum_remaining : Z;
  prio_base : Z;
  prio_bonus : Z;
  ready_prio : Z;
  ready_array : option bool;
  ready_prev : Z;
  ready_next : Z;
  on_cpu : bool;
  idle : bool;
  cpu_time : Z;
  run_tsc : Z;
  context : Z;
  kernel_stack : Z;
  page_map : Z;
  fs_base : Z;
}.

(** [prio_array_t]. *)
Record prio_array := { bitmap : Z; heads : list Z; tails : list Z }.

(** The fields of [cpu_t] the scheduler uses, and the FS base register. *)
Record cpu := {
  current : Z;
  prev_task : Z;
  idle_task : Z;
  need_resched : bool;
  switch_tsc : Z;
  busy_tsc : Z;
  idle_tsc : Z;
  rsp0 : Z;
  kernel_rsp : Z;
  active_cr3 : Z;
  tlb_flush : bool;
  msr_fs_base : Z;
}.

(** The globals of [scheduler.c]; [ipis] are the reschedule interrupts sent, newest first. *)
Record sched := {
  tasks : gmap Z task;
  array0 : prio_array;
  array1 : prio_array;
  active : bool;
  expired_since : Z;
  timer_ticks : Z;
  idle_mask : Z;
  cpus : list cpu;
  ipis : list Z;
}.

(** ** Field updates *)

Definition set_tasks (s : sched) (m : gmap Z task) : sched :=
  {| tasks := m; array0 := array0 s; array1 := array1 s; active := active s; expired_since := expired_since s;
     timer_ticks := timer_ticks s; idle_mask := idle_mask s; cpus := cpus s; ipis := ipis s |}.

Definition set_array (s : sched) (b : bool) (a : prio_array) : sched :=
  {| tasks := tasks s; array0 := if b then array0 s else a; array1 := if b then a else array1 s;
     active := active s; expired_since := expired_since s; timer_ticks := timer_ticks s;
     idle_mask := idle_mask s; cpus := cpus s; ipis := ipis s |}.

Definition set_active (s : sched) (b : bool) : sched :=
  {| tasks := tasks s; array0 := array0 s; array1 := array1 s; active := b; expired_since := expired_since s;
     timer_ticks := timer_ticks s; idle_mask := idle_mask s; cpus := cpus s; ipis := ipis s |}.

Definition set_expired_since (s : sched) (t : Z) : sched :=
  {| tasks := tasks s; array0 := array0 s; array1 := array1 s; active := active s; expired_since := t;
     timer_ticks := timer_ticks s; idle_mask := idle_mask s; cpus := cpus s; ipis := ipis s |}.

Definition set_timer_ticks (s : sched) (t : Z) : sched :=
  {| tasks := tasks s; array0 := array0 s; array1 := array1 s; active := active s; expired_since := expired_since s;
     timer_ticks := t; idle_mask := idle_mask s; cpus := cpus s; ipis := ipis s |}.

Definition set_idle_mask (s : sched) (m : Z) : sched :=
  {| tasks := tasks s; array0 := array0 s; array1 := array1 s; active := active s; expired_since := expired_since s;
     timer_ticks := timer_ticks s; idle_mask := m; cpus := cpus s; ipis := ipis s |}.

Definition set_cpus (s : sched) (l : list cpu) : sched :=
  {| tasks := tasks s; array0 := array0 s; array1 := array1 s; active := active s; expired_since := expired_since s;
     timer_ticks := timer_ticks s; idle_mask := idle_mask s; cpus := l; ipis := ipis s |}.

Definition add_ipi (s : sched) (id : Z) : sched :=
  {| tasks := tasks s; array0 := array0 s; array1 := array1 s; active := active s; expired_since := expired_since s;
     timer_ticks := timer_ticks s; idle_mask := idle_mask s; cpus := cpus s; ipis := id :: ipis s |}.

Definition array_at (s : sched) (b : bool) : prio_array := if b then array1 s else array0 s.

Definition task0 : task :=
  {| state := TASK_FREE; quantum_remaining := 0; prio_base := 0; prio_bonus := 0; ready_prio := 0;
     ready_array := None; ready_prev := 0; ready_next := 0; on_cpu := false; idle := false; cpu_time := 0;
     run_tsc := 0; context := 0; kernel_stack := 0; page_map := 0; fs_base := 0 |}.

Definition cpu0 : cpu :=
  {| current := 0; prev_task := 0; idle_task := 0; need_resched := false; switch_tsc := 0; busy_tsc := 0;
     idle_tsc := 0; rsp0 := 0; kernel_rsp := 0; active_cr3 := 0; tlb_flush := false; msr_fs_base := 0 |}.

Definition task_at (s : sched) (t : Z) : task := default task0 (tasks s !! t).

Definition cpu_at (s : sched) (c : nat) : cpu := default cpu0 (cpus s !! c).

(** [t->field = v]; a store through a pointer to no task is not made. *)
Definition upd_task (s : sched) (t : Z) (f : task -> task) : sched :=
  set_tasks s (alter f t (tasks s)).

Definition upd_cpu (s : sched) (c : nat) (f : cpu -> cpu) : sched :=
  set_cpus s (alter f c (cpus s)).

Definition with_state (st : task_state) (t : task) : task :=
  {| state := st; quantum_remaining := quantum_remaining t; prio_base := prio_base t; prio_bonus := prio_bonus t;
     ready_prio := ready_prio t; ready_array := ready_array t; ready_prev := ready_prev t; ready_next := ready_next t;
     on_cpu := on_cpu t; idle := idle t; cpu_time := cpu_time t; run_tsc := run_tsc t; context := context t;
     kernel_stack := kernel_stack t; page_map := page_map t; fs_base := fs_base t |}.

Definition with_quantum (q : Z) (t : task) : task :=
  {| state := state t; quantum_remaining := q; prio_base := prio_base t; prio_bonus := prio_bonus t;
     ready_prio := ready_prio t; ready_array := ready_array t; ready_prev := ready_prev t; ready_next := ready_next t;
     on_cpu := on_cpu t; idle := idle t; cpu_time := cpu_time t; run_tsc := run_tsc t; context := context t;
     kernel_stack := kernel_stack t; page_map := page_map t; fs_base := fs_base t |}.

Definition with_bonus (b : Z) (t : task) : task :=
  {| state := state t; quantum_remaining := quantum_remaining t; prio_base := prio_base t; prio_bonus := b;
     ready_prio := ready_prio t; ready_array := ready_array t; ready_prev := ready_prev t; ready_next := ready_next t;
     on_cpu := on_cpu t; idle := idle t; cpu_time := cpu_time t; run_tsc := run_tsc t; context := context t;
     kernel_stack := kernel_stack t; page_map := page_map t; fs_base := fs_base t |}.

Definition with_rprev (p : Z) (t : task) : task :=
  {| state := state t; quantum_remaining := quantum_remaining t; prio_base := prio_base t; prio_bonus := prio_bonus t;
     ready_prio := ready_prio t; ready_array := ready_array t; ready_prev := p; ready_next := ready_next t;
     on_cpu := on_cpu t; idle := idle t; cpu_time := cpu_time t; run_tsc := run_tsc t; context := context t;
     kernel_stack := kernel_stack t; page_map := page_map t; fs_base := fs_base t |}.

Definition with_rnext (n : Z) (t : task) : task :=
  {| state := state t; quantum_remaining := quantum_remaining t; prio_base := prio_base t; prio_bonus := prio_bonus t;
     ready_prio := ready_prio t; ready_array := ready_array t; ready_prev := ready_prev t; ready_next := n;
     on_cpu := on_cpu t; idle := idle t; cpu_time := cpu_time t; run_tsc := run_tsc t; context := context t;
     kernel_stack := kernel_stack t; page_map := page_map t; fs_base := fs_base t |}.

Definition with_queue (a : option bool) (p : Z) (t : task) : task :=
  {| state := state t; quantum_remaining := quantum_remaining t; prio_base := prio_base t; prio_bonus := prio_bonus t;
     ready_prio := p; ready_array := a; ready_prev := ready_prev t; ready_next := ready_next t;
     on_cpu := on_cpu t; idle := idle t; cpu_time := cpu_time t; run_tsc := run_tsc t; context := context t;
     kernel_stack := kernel_stack t; page_map := page_map t; fs_base := fs_base t |}.

Definition with_on_cpu (b : bool) (t : task) : task :=
  {| state := state t; quantum_remaining := quantum_remaining t; prio_base := prio_base t; prio_bonus := prio_bonus t;
     ready_prio := ready_prio t; ready_array := ready_array t; ready_prev := ready_prev t; ready_next := ready_next t;
     on_cpu := b; idle := idle t; cpu_time := cpu_time t; run_tsc := run_tsc t; context := context t;
     kernel_stack := kernel_stack t; page_map := page_map t; fs_base := fs_base t |}.

Definition with_times (cpu run : Z) (t : task) : task :=
  {| state := state t; quantum_remaining := quantum_remaining t; prio_base := prio_base t; prio_bonus := prio_bonus t;
     ready_prio := ready_prio t; ready_array := ready_array t; ready_prev := ready_prev t; ready_next := ready_next t;
     on_cpu := on_cpu t; idle := idle t; cpu_time := cpu; run_tsc := run; context := context t;
     kernel_stack := kernel_stack t; page_map := page_map t; fs_base := fs_base t |}.

Definition with_context (c : Z) (t : task) : task :=
  {| state := state t; quantum_remaining := quantum_remaining t; prio_base := prio_base t; prio_bonus := prio_bonus t;
     ready_prio := ready_prio t; ready_array := ready_array t; ready_prev := ready_prev t; ready_next := ready_next t;
     on_cpu := on_cpu t; idle := idle t; cpu_time := cpu_time t; run_tsc := run_tsc t; context := c;
     kernel_stack := kernel_stack t; page_map := page_map t; fs_base := fs_base t |}.

Definition with_need_resched (b : bool) (c : cpu) : cpu :=
  {| current := current c; prev_task := prev_task c; idle_task := idle_task c; need_resched := b;
     switch_tsc := switch_tsc c; busy_tsc := busy_tsc c; idle_tsc := idle_tsc c; rsp0 := rsp0 c;
     kernel_rsp := kernel_rsp c; active_cr3 := active_cr3 c; tlb_flush := tlb_flush c; msr_fs_base := msr_fs_base c |}.

Definition with_prev_task (p : Z) (c : cpu) : cpu :=
  {| current := current c; prev_task := p; idle_task := idle_task c; need_resched := need_resched c;
     switch_tsc := switch_tsc c; busy_tsc := busy_tsc c; idle_tsc := idle_tsc c; rsp0 := rsp0 c;
     kernel_rsp := kernel_rsp c; active_cr3 := active_cr3 c; tlb_flush := tlb_flush c; msr_fs_base := msr_fs_base c |}.

(** ** The run queue *)

(** [__builtin_ctz] of a non-zero 32-bit word: its lowest bit. *)
Fixpoint ctz_from (fuel : nat) (i : Z) (w : Z) : Z :=
  match fuel with
  | O => i
  | S fuel => if Z.testbit w i then i else ctz_from fuel (i + 1) w
  end.

Definition ctz32 (w : Z) : Z := ctz_from 31 0 w.

Definition ctz64 (w : Z) : Z := ctz_from 63 0 w.

Definition task_prio (t : task) : Z :=
  let prio := prio_base t - prio_bonus t in
  if prio <? 0 then 0 else if PRIO_LEVELS <=? prio then PRIO_LEVELS - 1 else prio.

(** [id] is [this_cpu()->id]. *)
Definition kick_idle_cpu (s : sched) (id : nat) : sched :=
  let mask := Z.land (idle_mask s) (Z.lnot (1 ≪ Z.of_nat id)) in
  if mask =? 0 then s
  else
    let k := ctz64 mask in
    add_ipi (set_idle_mask s (Z.land (idle_mask s) (Z.lnot (1 ≪ k)))) k.

Definition head_of (a : prio_array) (p : Z) : Z := default 0 (heads a !! Z.to_nat p).

Definition tail_of (a : prio_array) (p : Z) : Z := default 0 (tails a !! Z.to_nat p).

Definition set_head (s : sched) (b : bool) (p v : Z) : sched :=
  let a := array_at s b in
  set_array s b {| bitmap := bitmap a; heads := <[Z.to_nat p := v]> (heads a); tails := tails a |}.

Definition set_tail (s : sched) (b : bool) (p v : Z) : sched :=
  let a := array_at s b in
  set_array s b {| bitmap := bitmap a; heads := heads a; tails := <[Z.to_nat p := v]> (tails a) |}.

Definition set_bitmap (s : sched) (b : bool) (m : Z) : sched :=
  let a := array_at s b in
  set_array s b {| bitmap := m; heads := heads a; tails := tails a |}.

Definition rq_enqueue (s : sched) (c : nat) (t : Z) : sched :=
  if bool_decide (is_Some (ready_array (task_at s t))) || idle (task_at s t) then s
  else
    let fresh := quantum_remaining (task_at s t) =? 0 in
    let array := if fresh then negb (active s) else active s in
    let s :=
      if fresh
      then
        let s := upd_task s t (with_quantum QUANTUM) in
        if bitmap (array_at s (negb (active s))) =? 0 then set_expired_since s (timer_ticks s) else s
      else s in
    let prio := task_prio (task_at s t) in
    let tail := tail_of (array_at s array) prio in
    let s := upd_task s t (fun x => with_rnext 0 (with_rprev tail x)) in
    let s := if negb (tail =? 0) then upd_task s tail (with_rnext t) else set_head s array prio t in
    let s := set_tail s array prio t in
    let s := set_bitmap s array (Z.lor (bitmap (array_at s array)) (1 ≪ prio)) in
    let s := upd_task s t (with_queue (Some array) prio) in
    let cur := current (cpu_at s c) in
    if Bool.eqb array (active s) && negb (cur =? 0) &&
       (idle (task_at s cur) || (prio <? task_prio (task_at s cur)))
    then upd_cpu s c (with_need_resched true)
    else s.

Definition rq_dequeue (s : sched) (t : Z) : sched :=
  match ready_array (task_at s t) with
  | None => s
  | Some array =>
    let prio := ready_prio (task_at s t) in
    let prev := ready_prev (task_at s t) in
    let next := ready_next (task_at s t) in
    let s := if negb (prev =? 0) then upd_task s prev (with_rnext next) else set_head s array prio next in
    let s := if negb (next =? 0) then upd_task s next (with_rprev prev) else set_tail s array prio prev in
    let s :=
      if head_of (array_at s array) prio =? 0
      then set_bitmap s array (Z.land (bitmap (array_at s array)) (Z.lnot (1 ≪ prio)))
      else s in
    upd_task s t (fun x => with_queue None (ready_prio x) (with_rnext 0 (with_rprev 0 x)))
  end.

Definition ready_enqueue (s : sched) (c : nat) (t : Z) : sched :=
  if t =? 0 then s else kick_idle_cpu (rq_enqueue s c t) c.

Definition ready_dequeue (s : sched) (t : Z) : sched :=
  if t =? 0 then s else rq_dequeue s t.

Definition sched_has_ready (s : sched) : bool :=
  negb (bitmap (array_at s (active s)) =? 0) || negb (bitmap (array_at s (negb (active s))) =? 0).

(** The swap at the head of the loop of [ready_pop]. *)
Definition swap_arrays (s : sched) : sched :=
  let starving := negb (bitmap (array_at s (negb (active s))) =? 0) &&
                  (STARVE_TICKS <=? (timer_ticks s -w expired_since s)) in
  if (bitmap (array_at s (active s)) =? 0) || starving
  then set_expired_since (set_active s (negb (active s))) (timer_ticks s)
  else s.

(** [None] when the fuel runs out; [pop_fuel] is enough ([ready_pop_total]). *)
Fixpoint ready_pop_loop (fuel : nat) (s : sched) : option (Z * sched) :=
  match fuel with
  | O => None
  | S fuel =>
    let s := swap_arrays s in
    let a := array_at s (active s) in
    if bitmap a =? 0 then Some (0, s)
    else
      let t := head_of a (ctz32 (bitmap a)) in
      let s := rq_dequeue s t in
      if decide (state (task_at s t) = TASK_READY)
      then Some (t, upd_task s t (with_state TASK_RUNNING))
      else ready_pop_loop fuel s
  end.

Definition pop_fuel (s : sched) : nat := S (size (tasks s)).

Definition ready_pop (s : sched) : Z * sched := default (0, s) (ready_pop_loop (pop_fuel s) s).

Definition sched_set_blocked (s : sched) (t : Z) : sched :=
  upd_task (rq_dequeue s t) t (with_state TASK_BLOCKED).

Definition sched_set_running (s : sched) (t : Z) : sched :=
  match state (task_at s t) with
  | TASK_BLOCKED | TASK_READY => upd_task s t (with_state TASK_RUNNING)
  | _ => s
  end.

(** ** Switching *)

(** [sched_switch_task]; [now] is what [rdtsc] reads, the result the context to return to. *)
Definition sched_switch_task (s : sched) (c : nat) (next old_context now : Z) : sched * Z :=
  let prev := current (cpu_at s c) in
  let s := upd_task s prev (with_context old_context) in
  let ran := now -w run_tsc (task_at s prev) in
  let s := upd_task s prev (fun x => with_times (cpu_time x +w ran) (run_tsc x) x) in
  let s :=
    if idle (task_at s prev)
    then upd_cpu s c (fun k => {| current := current k; prev_task := prev_task k; idle_task := idle_task k;
           need_resched := need_resched k; switch_tsc := switch_tsc k; busy_tsc := busy_tsc k;
           idle_tsc := idle_tsc k +w ran; rsp0 := rsp0 k; kernel_rsp := kernel_rsp k;
           active_cr3 := active_cr3 k; tlb_flush := tlb_flush k; msr_fs_base := msr_fs_base k |})
    else upd_cpu s c (fun k => {| current := current k; prev_task := prev_task k; idle_task := idle_task k;
           need_resched := need_resched k; switch_tsc := switch_tsc k; busy_tsc := busy_tsc k +w ran;
           idle_tsc := idle_tsc k; rsp0 := rsp0 k; kernel_rsp := kernel_rsp k;
           active_cr3 := active_cr3 k; tlb_flush := tlb_flush k; msr_fs_base := msr_fs_base k |}) in
  let s := upd_task s next (fun x => with_times (cpu_time x) now x) in
  let s := upd_task s next (with_on_cpu true) in
  let s := upd_task s next (with_state TASK_RUNNING) in
  let s :=
    if idle (task_at s next) then s
    else set_idle_mask s (Z.land (idle_mask s) (Z.lnot (1 ≪ Z.of_nat c))) in
  let top := Z.land (kernel_stack (task_at s next) +w KERNEL_STACK_SIZE) (Z.lnot 15) in
  let s := upd_cpu s c (fun k => {| current := next; prev_task := prev; idle_task := idle_task k;
    need_resched := need_resched k; switch_tsc := now; busy_tsc := busy_tsc k; idle_tsc := idle_tsc k;
    rsp0 := top; kernel_rsp := top; active_cr3 := page_map (task_at s next); tlb_flush := false;
    msr_fs_base := fs_base (task_at s next) |}) in
  (s, context (task_at s next)).

(** [sched_next_context] up to the release of the run queue lock: the task to switch to, or
    [None] to go on with the current one. *)
Definition sched_next_context (s : sched) (c : nat) : option Z * sched :=
  let prev := current (cpu_at s c) in
  let s := upd_cpu s c (with_need_resched false) in
  let s := if decide (state (task_at s prev) = TASK_RUNNING) then upd_task s prev (with_state TASK_READY) else s in
  let s := if decide (state (task_at s prev) = TASK_READY) then rq_enqueue s c prev else s in
  let '(next, s) := ready_pop s in
  let next :=
    if next =? 0
    then
      if bool_decide (state (task_at s prev) <> TASK_READY) && negb (idle_task (cpu_at s c) =? 0) &&
         negb (prev =? idle_task (cpu_at s c))
      then idle_task (cpu_at s c) else prev
    else next in
  if next =? prev
  then (None, if decide (state (task_at s prev) = TASK_READY) then upd_task s prev (with_state TASK_RUNNING) else s)
  else (Some next, s).

(** The part of [sched_return] that lets go of the task switched away from. *)
Definition sched_return (s : sched) (c : nat) : sched :=
  let prev := prev_task (cpu_at s c) in
  if prev =? 0 then s
  else
    let s := upd_cpu s c (with_prev_task 0) in
    let s := upd_task s prev (with_on_cpu false) in
    if bool_decide (state (task_at s prev) = TASK_READY) && bool_decide (ready_array (task_at s prev) = None)
    then kick_idle_cpu (rq_enqueue s c prev) c
    else s.

(** The timer interrupt. *)
Definition sched_tick (s : sched) (c : nat) : option Z * sched :=
  let t := current (cpu_at s c) in
  if t =? 0 then (None, s)
  else if idle (task_at s t)
  then if sched_has_ready s then sched_next_context s c else (None, s)
  else if decide (state (task_at s t) = TASK_RUNNING)
  then
    let s := if negb (quantum_remaining (task_at s t) =? 0)
             then upd_task s t (fun x => with_quantum (quantum_remaining x - 1) x) else s in
    if quantum_remaining (task_at s t) =? 0
    then
      let s := if - PRIO_BONUS_MAX <? prio_bonus (task_at s t)
               then upd_task s t (fun x => with_bonus (prio_bonus x - 1) x) else s in
      sched_next_context s c
    else if negb (need_resched (cpu_at s c)) then (None, s)
    else sched_next_context s c
  else sched_next_context s c.

Definition sched_resched_handle (s : sched) (c : nat) : option Z * sched :=
  let t := current (cpu_at s c) in
  if t =? 0 then (None, s)
  else if (if idle (task_at s t) then negb (sched_has_ready s) else negb (need_resched (cpu_at s c)))
  then (None, s)
  else sched_next_context s c.

Definition sched_yield_handle (s : sched) (c : nat) : option Z * sched :=
  if current (cpu_at s c) =? 0 then (None, s) else sched_next_context s c.

(** [sched_yield] before the software interrupt it raises. *)
Definition sched_yield (s : sched) (c : nat) (t : Z) : sched :=
  if current (cpu_at s c) =? 0 then s
  else if negb (t =? 0) && bool_decide (state (task_at s t) = TASK_RUNNING)
  then upd_task (upd_task s t (with_quantum 0)) t (with_state TASK_READY)
  else s.

(** [sched_idle] before it yields ([true]) or halts. *)
Definition sched_idle (s : sched) (c : nat) : bool * sched :=
  let s := set_idle_mask s (Z.lor (idle_mask s) (1 ≪ Z.of_nat c)) in
  if sched_has_ready s then (true, sched_yield s c (current (cpu_at s c))) else (false, s).

Definition sched_wake_task (s : sched) (c : nat) (t : Z) : sched :=
  if t =? 0 then s
  else if decide (state (task_at s t) = TASK_BLOCKED)
  then
    let s := upd_task s t (fun x => with_bonus (prio_bonus x + PRIO_WAKE_BONUS) x) in
    let s := if PRIO_BONUS_MAX <? prio_bonus (task_at s t) then upd_task s t (with_bonus PRIO_BONUS_MAX) else s in
    let s := upd_task s t (with_state TASK_READY) in
    if on_cpu (task_at s t) then s else kick_idle_cpu (rq_enqueue s c t) c
  else s.

Definition sched_continue_task (s : sched) (c : nat) (t : Z) : sched :=
  if t =? 0 then s
  else if decide (state (task_at s t) = TASK_STOPPED)
  then
    let s := upd_task s t (with_state TASK_READY) in
    if on_cpu (task_at s t) then s else kick_idle_cpu (rq_enqueue s c t) c
  else s.

(** [sched_block] before the yield it raises. *)
Definition sched_block (s : sched) (c : nat) (t : Z) : sched :=
  if current (cpu_at s c) =? 0 then s else sched_set_blocked s t.

(** Cycles a task has had, the turn it is in included. *)
Definition sched_task_cpu_time (s : sched) (t now : Z) : Z :=
  if decide (state (task_at s t) = TASK_RUNNING)
  then cpu_time (task_at s t) +w (now -w run_tsc (task_at s t))
  else cpu_time (task_at s t).
