(* ===== verification/SchedProofs.v ===== *)
(** * The run queue holds the runnable tasks

    Proofs about [Sched] (that is [kernel/src/sched/scheduler.c]).  First the run queue alone:
    the lists of both arrays, their tails and bitmaps agree with the queue fields of the tasks,
    [ready_pop] terminates and takes the first task of the best level.  Then all CPUs together:
    in every interleaving of their steps no task is current on two CPUs, and a task that is
    [TASK_READY] is in a queue or still on a CPU that will put it there. *)

From S2P Require Import Prelude Dll Sched.

(** ** Views of the state *)

Definition rpv (s : sched) (x : Z) : Z := ready_prev (task_at s x).

Definition rnx (s : sched) (x : Z) : Z := ready_next (task_at s x).

(** What the run queue leaves alone in a task and a CPU. *)
Definition core (t : task) : task_state * bool * bool * Z * Z := (state t, on_cpu t, idle t, prio_base t, prio_bonus t).

Definition ccore (c : cpu) : Z * Z * Z := (current c, prev_task c, idle_task c).

Record same_core (s s' : sched) : Prop := {
  sc_task : forall x, core <$> tasks s' !! x = core <$> tasks s !! x;
  sc_cpu : forall c, ccore (cpu_at s' c) = ccore (cpu_at s c);
  sc_len : length (cpus s') = length (cpus s);
}.

Lemma same_core_refl s : same_core s s.
Proof. done. Qed.

Lemma same_core_trans s1 s2 s3 : same_core s1 s2 -> same_core s2 s3 -> same_core s1 s3.
Proof. intros [A1 A2 A3] [B1 B2 B3]. split; intros; congruence. Qed.

Definition queued (s : sched) (x : Z) : Prop := exists t, tasks s !! x = Some t /\ is_Some (ready_array t).

(** The lists [L b p] are what level [p] of array [b] holds. *)
Record rq_ok (s : sched) (L : bool -> Z -> list Z) : Prop := {
  rq_null : tasks s !! 0 = None;
  rq_len : forall b, length (heads (array_at s b)) = 32%nat /\ length (tails (array_at s b)) = 32%nat;
  rq_dll : forall b p, 0 <= p < 32 ->
    is_dll (rpv s) (rnx s) 0 (L b p) (head_of (array_at s b) p) /\ NoDup (L b p) /\
    tail_of (array_at s b) p = default 0 (list.last (L b p));
  rq_bits : forall b, 0 <= bitmap (array_at s b) < 2 ^ 32 /\
    (forall p, 0 <= p < 32 -> Z.testbit (bitmap (array_at s b)) p = bool_decide (L b p <> []));
  rq_mem : forall b p x, 0 <= p < 32 ->
    (x ∈ L b p <-> exists t, tasks s !! x = Some t /\ ready_array t = Some b /\ ready_prio t = p);
  rq_range : forall x t b, tasks s !! x = Some t -> ready_array t = Some b ->
    0 <= ready_prio t < 32 /\ idle t = false;
}.

Definition rqi (s : sched) : Prop := exists L, rq_ok s L.

Lemma tasks_upd s t f y : tasks (upd_task s t f) !! y = if decide (y = t) then f <$> tasks s !! y else tasks s !! y.
Proof.
  unfold upd_task; simpl. destruct (decide (y = t)) as [->|Hne]; [apply lookup_alter_eq|by rewrite lookup_alter_ne].
Qed.

Lemma cpu_at_upd s c f d : ccore (f (cpu_at s c)) = ccore (cpu_at s c) -> ccore (cpu_at (upd_cpu s c f) d) = ccore (cpu_at s d).
Proof.
  intros Hf. unfold cpu_at, upd_cpu; simpl. rewrite list_lookup_alter. destruct (decide (c = d)) as [<-|]; [|done].
  unfold cpu_at in Hf. by destruct (cpus s !! c).
Qed.

Lemma task_prio_range t : 0 <= task_prio t < 32.
Proof. unfold task_prio, PRIO_LEVELS. repeat case_if; lia. Qed.

(** The state fields are the core's. *)
Lemma core_at s s' x : same_core s s' -> core (task_at s' x) = core (task_at s x).
Proof. intros [H _ _]. specialize (H x). unfold task_at. destruct (tasks s !! x), (tasks s' !! x); cbn in H |- *; congruence. Qed.

Lemma core_lookup s s' x t : same_core s s' -> tasks s !! x = Some t -> exists t', tasks s' !! x = Some t' /\ core t' = core t.
Proof.
  intros [H _ _] E. specialize (H x). rewrite E in H. destruct (tasks s' !! x) as [t'|]; cbn in H; [|done]. exists t'. split; congruence.
Qed.

Lemma same_core_sym s s' : same_core s s' -> same_core s' s.
Proof. intros [A1 A2 A3]. split; intros; congruence. Qed.

(** ** Enqueueing *)

Record enqueued (s s' : sched) (t : Z) (b : bool) (p q : Z) : Prop := {
  en_task : forall k, tasks s !! t = Some k ->
    tasks s' !! t = Some (with_queue (Some b) p (with_rnext 0 (with_rprev (tail_of (array_at s b) p) (with_quantum q k))));
  en_other : forall y, y <> t -> tasks s' !! y =
    if decide (tail_of (array_at s b) p <> 0 /\ y = tail_of (array_at s b) p) then with_rnext t <$> tasks s !! y else tasks s !! y;
  en_array : array_at s' b =
    {| bitmap := Z.lor (bitmap (array_at s b)) (1 ≪ p);
       heads := if tail_of (array_at s b) p =? 0 then <[Z.to_nat p := t]> (heads (array_at s b)) else heads (array_at s b);
       tails := <[Z.to_nat p := t]> (tails (array_at s b)) |};
  en_array' : array_at s' (negb b) = array_at s (negb b);
  en_active : active s' = active s;
  en_cpu : forall c, ccore (cpu_at s' c) = ccore (cpu_at s c);
  en_len : length (cpus s') = length (cpus s);
}.

Lemma array_at_set s b a d : array_at (set_array s b a) d = if Bool.eqb b d then a else array_at s d.
Proof. by destruct b, d. Qed.

Lemma rq_enqueue_effect s c t k :
  tasks s !! t = Some k -> ready_array k = None -> idle k = false ->
  tail_of (array_at s (if quantum_remaining k =? 0 then negb (active s) else active s)) (task_prio k) <> t ->
  exists q, enqueued s (rq_enqueue s c t) t (if quantum_remaining k =? 0 then negb (active s) else active s) (task_prio k) q.
Proof.
  intros Hk Hra Hidle. unfold rq_enqueue. assert (Eat : task_at s t = k) by (unfold task_at; by rewrite Hk).
  rewrite Eat, Hra, Hidle. cbn [is_Some orb]. rewrite bool_decide_false by (by intros [? ?]). cbn [orb].
  set (b := if quantum_remaining k =? 0 then negb (active s) else active s). intros Htl.
  set (q := if quantum_remaining k =? 0 then QUANTUM else quantum_remaining k). exists q.
  set (s1 := if quantum_remaining k =? 0 then _ else s).
  assert (H1 : tasks s1 !! t = Some (with_quantum q k) /\ (forall y, y <> t -> tasks s1 !! y = tasks s !! y) /\
    (forall d, array_at s1 d = array_at s d) /\ active s1 = active s /\ cpus s1 = cpus s).
  { unfold s1, q. destruct (quantum_remaining k =? 0).
    - assert (Hu : tasks (upd_task s t (with_quantum QUANTUM)) !! t = Some (with_quantum QUANTUM k)) by (rewrite tasks_upd, decide_True, Hk; done).
      assert (Hv : forall y, y <> t -> tasks (upd_task s t (with_quantum QUANTUM)) !! y = tasks s !! y) by (intros; by rewrite tasks_upd, decide_False).
      by destruct (_ =? 0).
    - split_and!; try done. rewrite Hk. by destruct k. }
  destruct H1 as (A1 & A2 & A3 & A4 & A5). clearbody s1.
  assert (Ep : task_prio (task_at s1 t) = task_prio k) by (unfold task_at; by rewrite A1). rewrite Ep, A3.
  set (p := task_prio k) in *. set (tl := tail_of (array_at s b) p) in *.
  set (s2 := upd_task s1 t _). set (s3 := if negb (tl =? 0) then _ else _).
  assert (H3 : tasks s3 !! t = Some (with_rnext 0 (with_rprev tl (with_quantum q k))) /\
    (forall y, y <> t -> tasks s3 !! y = if decide (tl <> 0 /\ y = tl) then with_rnext t <$> tasks s !! y else tasks s !! y) /\
    bitmap (array_at s3 b) = bitmap (array_at s b) /\ tails (array_at s3 b) = tails (array_at s b) /\
    heads (array_at s3 b) = (if tl =? 0 then <[Z.to_nat p := t]> (heads (array_at s b)) else heads (array_at s b)) /\
    array_at s3 (negb b) = array_at s (negb b) /\ active s3 = active s /\ cpus s3 = cpus s).
  { unfold s3, s2. destruct (tl =? 0) eqn:Ez; bool_prop; cbn [negb].
    - unfold set_head. rewrite !array_at_set, Bool.eqb_reflx. cbn [bitmap heads tails]. rewrite <- !A3.
      split_and!; try done.
      + cbn [tasks set_array]. rewrite tasks_upd, decide_True, A1; done.
      + intros y Hy. cbn [tasks set_array]. rewrite tasks_upd, !decide_False by tauto. by apply A2.
      + by destruct b.
    - rewrite <- !A3. split_and!; try done.
      + rewrite tasks_upd, decide_False by done. rewrite tasks_upd, decide_True, A1; done.
      + intros y Hy. rewrite !tasks_upd. rewrite (decide_False (P := y = t)) by done. rewrite A2 by done.
        destruct (decide (y = tl)); [by rewrite decide_True|by rewrite decide_False by tauto]. }
  destruct H3 as (B1 & B2 & B3 & B4 & B5 & B6 & B7 & B8). clearbody s3.
  set (s4 := set_tail s3 b p t). set (s5 := set_bitmap s4 b _). set (s6 := upd_task s5 t _).
  assert (H6 : tasks s6 !! t = Some (with_queue (Some b) p (with_rnext 0 (with_rprev tl (with_quantum q k)))) /\
    (forall y, y <> t -> tasks s6 !! y = tasks s3 !! y) /\
    array_at s6 b = {| bitmap := Z.lor (bitmap (array_at s b)) (1 ≪ p);
       heads := if tl =? 0 then <[Z.to_nat p := t]> (heads (array_at s b)) else heads (array_at s b);
       tails := <[Z.to_nat p := t]> (tails (array_at s b)) |} /\
    array_at s6 (negb b) = array_at s (negb b) /\ active s6 = active s /\ cpus s6 = cpus s).
  { unfold s6, s5, s4. split_and!; try done.
    - rewrite tasks_upd, decide_True by done. cbn [tasks set_bitmap set_tail set_array]. by rewrite B1.
    - intros y Hy. by rewrite tasks_upd, decide_False.
    - unfold upd_task, set_bitmap, set_tail. rewrite <- B5. destruct b; simpl in *; by rewrite ?B3, ?B4.
    - unfold upd_task, set_bitmap, set_tail. by destruct b; simpl in *. }
  destruct H6 as (C1 & C2 & C3 & C4 & C5 & C6). clearbody s6.
  set (b7 := _ && _ && _). assert (H7 : forall s7, s7 = (if b7 then upd_cpu s6 c (with_need_resched true) else s6) ->
    tasks s7 = tasks s6 /\ (forall d, array_at s7 d = array_at s6 d) /\ active s7 = active s6 /\
    (forall d, ccore (cpu_at s7 d) = ccore (cpu_at s6 d)) /\ length (cpus s7) = length (cpus s6)).
  { intros s7 ->. destruct b7; [|done]. split_and!; try done; [intros d; by apply cpu_at_upd|]. simpl. apply length_alter. }
  destruct (H7 _ eq_refl) as (D1 & D2 & D3 & D4 & D5). split.
  - intros k' Hk'. rewrite Hk in Hk'. injection Hk' as <-. by rewrite D1.
  - intros y Hy. rewrite D1, C2, B2 by done. done.
  - by rewrite D2, C3.
  - by rewrite D2, C4.
  - by rewrite D3, C5.
  - intros d. rewrite D4. unfold cpu_at. by rewrite C6.
  - by rewrite D5, C6.
Qed.

(** ** Dequeueing *)

Record dequeued (s s' : sched) (t : Z) (k : task) (b : bool) : Prop := {
  de_task : tasks s' !! t = Some (with_queue None (ready_prio k) (with_rnext 0 (with_rprev 0 k)));
  de_other : forall y, y <> t -> tasks s' !! y =
    (if decide (ready_next k <> 0 /\ y = ready_next k) then fmap (with_rprev (ready_prev k)) else id)
      ((if decide (ready_prev k <> 0 /\ y = ready_prev k) then fmap (with_rnext (ready_next k)) else id) (tasks s !! y));
  de_heads : heads (array_at s' b) =
    if ready_prev k =? 0 then <[Z.to_nat (ready_prio k) := ready_next k]> (heads (array_at s b)) else heads (array_at s b);
  de_tails : tails (array_at s' b) =
    if ready_next k =? 0 then <[Z.to_nat (ready_prio k) := ready_prev k]> (tails (array_at s b)) else tails (array_at s b);
  de_bitmap : bitmap (array_at s' b) =
    if head_of (array_at s' b) (ready_prio k) =? 0 then Z.land (bitmap (array_at s b)) (Z.lnot (1 ≪ ready_prio k))
    else bitmap (array_at s b);
  de_array' : array_at s' (negb b) = array_at s (negb b);
  de_active : active s' = active s;
  de_cpus : cpus s' = cpus s;
  de_rest : timer_ticks s' = timer_ticks s /\ expired_since s' = expired_since s;
}.

Lemma rq_dequeue_effect s t k b :
  tasks s !! t = Some k -> ready_array k = Some b -> ready_prev k <> t -> ready_next k <> t ->
  dequeued s (rq_dequeue s t) t k b.
Proof.
  intros Hk Hra Hpt Hnt. unfold rq_dequeue. assert (Eat : task_at s t = k) by (unfold task_at; by rewrite Hk).
  rewrite Eat, Hra. set (p := ready_prio k). set (pr := ready_prev k) in *. set (nx := ready_next k) in *.
  set (s1 := if negb (pr =? 0) then _ else _).
  assert (H1 : tasks s1 !! t = Some k /\
    (forall y, tasks s1 !! y = (if decide (pr <> 0 /\ y = pr) then fmap (with_rnext nx) else id) (tasks s !! y)) /\
    heads (array_at s1 b) = (if pr =? 0 then <[Z.to_nat p := nx]> (heads (array_at s b)) else heads (array_at s b)) /\
    tails (array_at s1 b) = tails (array_at s b) /\ bitmap (array_at s1 b) = bitmap (array_at s b) /\
    array_at s1 (negb b) = array_at s (negb b) /\ active s1 = active s /\ cpus s1 = cpus s /\
    timer_ticks s1 = timer_ticks s /\ expired_since s1 = expired_since s).
  { unfold s1. destruct (pr =? 0) eqn:Ez; bool_prop; cbn [negb].
    - split_and!; try done; try (unfold set_head; by destruct b). intros y. by rewrite decide_False by tauto.
    - split_and!; try done.
      + by rewrite tasks_upd, decide_False by done.
      + intros y. rewrite tasks_upd. destruct (decide (y = pr)); [by rewrite decide_True|by rewrite decide_False by tauto]. }
  destruct H1 as (A1 & A2 & A3 & A4 & A5 & A6 & A7 & A8 & A9 & A10). clearbody s1.
  set (s2 := if negb (nx =? 0) then _ else _).
  assert (H2 : tasks s2 !! t = Some k /\
    (forall y, tasks s2 !! y = (if decide (nx <> 0 /\ y = nx) then fmap (with_rprev pr) else id) (tasks s1 !! y)) /\
    heads (array_at s2 b) = heads (array_at s1 b) /\
    tails (array_at s2 b) = (if nx =? 0 then <[Z.to_nat p := pr]> (tails (array_at s b)) else tails (array_at s b)) /\
    bitmap (array_at s2 b) = bitmap (array_at s b) /\
    array_at s2 (negb b) = array_at s (negb b) /\ active s2 = active s /\ cpus s2 = cpus s /\
    timer_ticks s2 = timer_ticks s /\ expired_since s2 = expired_since s).
  { unfold s2. rewrite <- A4, <- A5, <- A6. destruct (nx =? 0) eqn:Ez; bool_prop; cbn [negb].
    - split_and!; try done; try (unfold set_tail; by destruct b). intros y. by rewrite decide_False by tauto.
    - split_and!; try done.
      + by rewrite tasks_upd, decide_False by done.
      + intros y. rewrite tasks_upd. destruct (decide (y = nx)); [by rewrite decide_True|by rewrite decide_False by tauto]. }
  destruct H2 as (B1 & B2 & B3 & B4 & B5 & B6 & B7 & B8 & B9 & B10). clearbody s2.
  set (s3 := if head_of (array_at s2 b) p =? 0 then _ else s2).
  assert (H3 : tasks s3 = tasks s2 /\ heads (array_at s3 b) = heads (array_at s2 b) /\ tails (array_at s3 b) = tails (array_at s2 b) /\
    bitmap (array_at s3 b) = (if head_of (array_at s3 b) p =? 0 then Z.land (bitmap (array_at s b)) (Z.lnot (1 ≪ p)) else bitmap (array_at s b)) /\
    array_at s3 (negb b) = array_at s (negb b) /\ active s3 = active s /\ cpus s3 = cpus s /\
    timer_ticks s3 = timer_ticks s /\ expired_since s3 = expired_since s).
  { unfold s3. rewrite <- B5, <- B6. destruct (head_of (array_at s2 b) p =? 0) eqn:Ez.
    - unfold set_bitmap. rewrite !array_at_set, Bool.eqb_reflx. cbn [heads tails bitmap]. unfold head_of in *. cbn [heads].
      rewrite Ez. split_and!; try done. by destruct b.
    - by rewrite Ez. }
  destruct H3 as (C1 & C2 & C3 & C4 & C5 & C6 & C7 & C8 & C9). clearbody s3.
  split.
  - rewrite tasks_upd, decide_True, C1, B1 by done. done.
  - intros y Hy. rewrite tasks_upd, decide_False, C1, B2, A2 by done. done.
  - change (heads (array_at s3 b) = if pr =? 0 then <[Z.to_nat p:=nx]> (heads (array_at s b)) else heads (array_at s b)). by rewrite C2, B3, A3.
  - change (tails (array_at s3 b) = if nx =? 0 then <[Z.to_nat p:=pr]> (tails (array_at s b)) else tails (array_at s b)). by rewrite C3, B4.
  - exact C4.
  - exact C5.
  - exact C6.
  - exact C7.
  - by split.
Qed.

(** ** The queues after each *)

Definition updL (L : bool -> Z -> list Z) (b : bool) (p : Z) (l : list Z) : bool -> Z -> list Z :=
  fun d q => if decide (d = b /\ q = p) then l else L d q.

Lemma updL_eq L b p l : updL L b p l b p = l.
Proof. unfold updL. by rewrite decide_True. Qed.

Lemma updL_ne L b p l d q : ~ (d = b /\ q = p) -> updL L b p l d q = L d q.
Proof. intros H. unfold updL. by rewrite decide_False. Qed.

(** A level of a list after the write of one entry. *)
Lemma level_set (l : list Z) p v q : 0 <= p < 32 -> 0 <= q < 32 -> length l = 32%nat ->
  default 0 (<[Z.to_nat p := v]> l !! Z.to_nat q) = if decide (q = p) then v else default 0 (l !! Z.to_nat q).
Proof.
  intros Hp Hq Hl. destruct (decide (q = p)) as [->|Hne].
  - by rewrite list_lookup_insert_eq by lia.
  - rewrite list_lookup_insert_ne; [done|]. lia.
Qed.

Lemma testbit_set w p q : 0 <= p -> 0 <= q -> Z.testbit (Z.lor w (1 ≪ p)) q = bool_decide (q = p) || Z.testbit w q.
Proof.
  intros Hp Hq. rewrite Z.lor_spec, Z.shiftl_1_l, Z.pow2_bits_eqb by done. rewrite orb_comm. f_equal.
  destruct (Z.eqb_spec p q) as [->|]; [by rewrite bool_decide_true|by rewrite bool_decide_false].
Qed.

Lemma testbit_unset w p q : 0 <= p -> 0 <= q -> Z.testbit (Z.land w (Z.lnot (1 ≪ p))) q = negb (bool_decide (q = p)) && Z.testbit w q.
Proof.
  intros Hp Hq. rewrite Z.land_spec, Z.lnot_spec, Z.shiftl_1_l, Z.pow2_bits_eqb by done. rewrite andb_comm. f_equal.
  destruct (Z.eqb_spec p q) as [->|]; [by rewrite bool_decide_true|by rewrite bool_decide_false].
Qed.

Lemma lor_bound w p : 0 <= w < 2 ^ 32 -> 0 <= p < 32 -> 0 <= Z.lor w (1 ≪ p) < 2 ^ 32.
Proof.
  intros Hw Hp. assert (H0 : 0 <= Z.lor w (1 ≪ p)) by (apply Z.lor_nonneg; split; [lia|]; apply Z.shiftl_nonneg; lia).
  split; [done|]. destruct (decide (Z.lor w (1 ≪ p) = 0)) as [->|Hz]; [lia|].
  apply Z.log2_lt_pow2; [lia|]. rewrite Z.log2_lor by (try apply Z.shiftl_nonneg; lia).
  apply Z.max_lub_lt.
  - destruct (decide (w = 0)) as [->|]; [done|]. apply Z.log2_lt_pow2; lia.
  - rewrite Z.shiftl_1_l, Z.log2_pow2; lia.
Qed.

Lemma land_bound w m : 0 <= w < 2 ^ 32 -> 0 <= Z.land w m < 2 ^ 32.
Proof.
  intros Hw. replace (Z.land w m) with (Z.land w m `mod` 2 ^ 32); [apply Z.mod_pos_bound; lia|].
  rewrite <- Z.land_ones, <- Z.land_assoc, (Z.land_comm m), Z.land_assoc, Z.land_ones, Z.mod_small by lia. done.
Qed.

(** The run queue after [t] went to the end of level [p] of array [b]. *)
Lemma enqueued_ok s s' L t k b p q :
  rq_ok s L -> enqueued s s' t b p q -> tasks s !! t = Some k -> ready_array k = None -> idle k = false -> 0 <= p < 32 ->
  rq_ok s' (updL L b p (L b p ++ [t])) /\ same_core s s' /\ (forall y, queued s' y <-> y = t \/ queued s y).
Proof.
  intros R E Hk Hra Hid Hp. destruct (rq_dll _ _ R b p Hp) as (Hd & Hnd & Htl). set (l := L b p) in *.
  assert (Ht0 : t <> 0) by (intros ->; by rewrite (rq_null _ _ R) in Hk).
  assert (Htl' : forall c q', 0 <= q' < 32 -> t ∉ L c q').
  { intros c q' Hq' Hin. apply (rq_mem _ _ R) in Hin as (k' & Hk' & Hr & _); [|done]. congruence. }
  set (tl := tail_of (array_at s b) p) in *.
  assert (Htlin : tl <> 0 -> tl ∈ l /\ list.last l = Some tl).
  { intros Hz. rewrite Htl in Hz |- *. destruct (list.last l) as [y|] eqn:El; [|done]. split; [by apply last_Some_elem_of|done]. }
  assert (Htlt : tl <> t) by (intros Ett; apply (Htl' b p Hp); rewrite <- Ett; apply Htlin; congruence).
  pose proof (en_task _ _ _ _ _ _ E k Hk) as Et. pose proof (en_other _ _ _ _ _ _ E) as Eo. fold tl in Et, Eo.
  assert (Hrpv : forall y, y <> t -> rpv s' y = rpv s y).
  { intros y Hy. unfold rpv, task_at. rewrite Eo by done. destruct (decide _); [|done]. by destruct (tasks s !! y). }
  assert (Hrnx : forall y, y <> t -> is_Some (tasks s !! y) -> rnx s' y = if decide (tl <> 0 /\ y = tl) then t else rnx s y).
  { intros y Hy [ky Hky]. unfold rnx, task_at. rewrite Eo by done. destruct (decide _); rewrite Hky; done. }
  assert (Hmem : forall c q' y, 0 <= q' < 32 -> y ∈ L c q' -> is_Some (tasks s !! y) /\ y <> t).
  { intros c q' y Hq' Hy. pose proof Hy as Hy'. apply (rq_mem _ _ R) in Hy as (k' & Hk' & _); [|done]. split; [by eexists|].
    intros ->. by apply (Htl' c q'). }
  assert (Hview : forall y ky', y <> t -> tasks s' !! y = Some ky' -> exists ky, tasks s !! y = Some ky /\ core ky' = core ky /\
    ready_array ky' = ready_array ky /\ ready_prio ky' = ready_prio ky).
  { intros y ky' Hy Hy'. rewrite Eo in Hy' by done. destruct (decide _); [|by exists ky'].
    destruct (tasks s !! y) as [ky|]; [|done]. exists ky. by injection Hy' as <-. }
  assert (Hview' : forall y ky, y <> t -> tasks s !! y = Some ky -> exists ky', tasks s' !! y = Some ky' /\ core ky' = core ky /\
    ready_array ky' = ready_array ky /\ ready_prio ky' = ready_prio ky).
  { intros y ky Hy Hy'. rewrite Eo by done. rewrite Hy'. destruct (decide _); by eexists. }
  assert (Harr : forall d, d <> b -> array_at s' d = array_at s d).
  { intros d Hd'. replace d with (negb b) by (by destruct d, b). apply E. }
  split_and!.
  - split.
    + rewrite Eo by done. rewrite (rq_null _ _ R). by destruct (decide _).
    + intros d. destruct (decide (d = b)) as [->|Hdb]; [|rewrite Harr by done; apply R].
      rewrite (en_array _ _ _ _ _ _ E). cbn [heads tails]. destruct (rq_len _ _ R b) as [? ?].
      rewrite length_insert. destruct (_ =? 0); rewrite ?length_insert; done.
    + intros d q' Hq'. destruct (decide (d = b /\ q' = p)) as [[-> ->]|Hne].
      * rewrite updL_eq. split_and!.
        -- replace (head_of (array_at s' b) p) with (match l with [] => t | _ => head_of (array_at s b) p end).
           { eapply is_dll_snoc; [exact Hd| |done| | | |].
             - apply list.NoDup_app. split_and!; [done| |apply NoDup_singleton].
               intros y Hy ->%list_elem_of_singleton. by apply (Htl' b p).
             - unfold rpv, task_at. rewrite Et. simpl. by rewrite <- Htl.
             - unfold rnx, task_at. by rewrite Et.
             - intros y Hy. by apply Hrpv, (Hmem b p).
             - intros y Hy. rewrite Hrnx by (apply (Hmem b p); done).
               destruct (decide (list.last l = Some y)) as [El|El].
               + rewrite El in Htl. simpl in Htl. rewrite decide_True; [done|]. split; [|done].
                 rewrite Htl. intros ->. apply last_Some_elem_of in El. by apply (is_dll_nonnull _ _ _ _ _ Hd).
               + rewrite decide_False; [done|]. intros [Hz ->]. apply El. by apply Htlin. }
           unfold head_of. rewrite (en_array _ _ _ _ _ _ E). cbn [heads]. fold tl. destruct (rq_len _ _ R b) as [Hlh _].
           destruct (tl =? 0) eqn:Ez; bool_prop.
           ++ rewrite level_set, decide_True by done. destruct l as [|z l'] eqn:El; [done|].
              rewrite Htl in Ez. destruct (list.last (z :: l')) as [y|] eqn:Ela; [|by apply last_None in Ela].
              simpl in Ez. subst y. apply last_Some_elem_of in Ela. by destruct (is_dll_nonnull _ _ _ _ _ Hd).
           ++ destruct l; [|done]. rewrite Htl in Ez. done.
        -- apply list.NoDup_app. split_and!; [done| |apply NoDup_singleton].
           intros y Hy ->%list_elem_of_singleton. by apply (Htl' b p).
        -- rewrite list.last_snoc. unfold tail_of. rewrite (en_array _ _ _ _ _ _ E). cbn [tails].
           destruct (rq_len _ _ R b) as [_ Hlt]. by rewrite level_set, decide_True.
      * rewrite updL_ne by done. destruct (rq_dll _ _ R d q' Hq') as (Hd' & Hnd' & Htl'').
        assert (Hoth : forall y, y ∈ L d q' -> y ∉ L b p).
        { intros y Hy1 Hy2. apply (rq_mem _ _ R) in Hy1 as (k1 & Hk1 & ? & ?); [|done]. apply (rq_mem _ _ R) in Hy2 as (k2 & Hk2 & ? & ?); [|done].
          apply Hne. split; congruence. }
        assert (Hht : head_of (array_at s' d) q' = head_of (array_at s d) q' /\ tail_of (array_at s' d) q' = tail_of (array_at s d) q').
        { destruct (decide (d = b)) as [->|Hdb]; [|by rewrite Harr]. unfold head_of, tail_of. rewrite (en_array _ _ _ _ _ _ E). cbn [heads tails].
          destruct (rq_len _ _ R b) as [Hlh Hlt]. assert (q' <> p) by tauto.
          rewrite level_set, decide_False by done. split; [|done]. destruct (_ =? 0); [|done]. by rewrite level_set, decide_False by done. }
        destruct Hht as [-> ->]. split_and!; [|done|done]. eapply is_dll_frame; [|exact Hd'].
        intros y Hy. destruct (Hmem d q' y Hq' Hy) as [Hs Hyt]. rewrite Hrpv, Hrnx, decide_False; try done.
        intros [Hz ->]. apply (Hoth tl Hy). by apply Htlin.
    + intros d. destruct (rq_bits _ _ R d) as [Hb1 Hb2]. destruct (decide (d = b)) as [->|Hdb].
      * rewrite (en_array _ _ _ _ _ _ E). cbn [bitmap]. split; [by apply lor_bound|]. intros q' Hq'.
        rewrite testbit_set by lia. destruct (decide (q' = p)) as [->|Hqp].
        -- rewrite updL_eq, bool_decide_true by done. symmetry. apply bool_decide_true. by destruct (L b p).
        -- rewrite updL_ne, bool_decide_false by tauto. by apply Hb2.
      * rewrite Harr by done. split; [done|]. intros q' Hq'. rewrite updL_ne by tauto. by apply Hb2.
    + intros d q' x Hq'. destruct (decide (x = t)) as [->|Hxt].
      * rewrite Et. split.
        -- intros Hx. destruct (decide (d = b /\ q' = p)) as [[-> ->]|Hne]; [by eexists|]. rewrite updL_ne in Hx by done. by apply Htl' in Hx.
        -- intros (k' & [= <-] & Hr & Hpr). simpl in Hr, Hpr. injection Hr as <-. subst q'. rewrite updL_eq. apply elem_of_app. right. by left.
      * assert (Hin : x ∈ updL L b p (l ++ [t]) d q' <-> x ∈ L d q').
        { destruct (decide (d = b /\ q' = p)) as [[-> ->]|Hne]; [|by rewrite updL_ne].
          rewrite updL_eq, elem_of_app, list_elem_of_singleton. fold l. tauto. }
        rewrite Hin, (rq_mem _ _ R d q' x Hq'). split.
        -- intros (k' & Hk' & ? & ?). destruct (Hview' x k' Hxt Hk') as (k'' & ? & _ & E1 & E2). exists k''. by rewrite E1, E2.
        -- intros (k' & Hk' & ? & ?). destruct (Hview x k' Hxt Hk') as (k'' & ? & _ & E1 & E2). exists k''. by rewrite <- E1, <- E2.
    + intros x kx d Hx Hr. destruct (decide (x = t)) as [->|Hxt].
      * rewrite Et in Hx. by injection Hx as <-.
      * destruct (Hview x kx Hxt Hx) as (k'' & Hx' & Ec & E1 & E2). rewrite E1 in Hr. destruct (rq_range _ _ R x k'' d Hx' Hr) as [? ?].
        rewrite E2. split; [done|]. unfold core in Ec. congruence.
  - split; [|apply E|apply E]. intros x. destruct (decide (x = t)) as [->|Hxt].
    + rewrite Et, Hk. done.
    + destruct (tasks s !! x) as [kx|] eqn:Ex.
      * destruct (Hview' x kx Hxt Ex) as (k'' & -> & Ec & _). simpl. by rewrite Ec.
      * rewrite Eo, Ex by done. by destruct (decide _).
  - intros y. destruct (decide (y = t)) as [->|Hyt].
    + split; [by left|]. intros _. eexists. split; [exact Et|by eexists].
    + split.
      * intros (k' & Hk' & Hr). right. destruct (Hview y k' Hyt Hk') as (k'' & ? & _ & E1 & _). exists k''. by rewrite <- E1.
      * intros [?|(k' & Hk' & Hr)]; [done|]. destruct (Hview' y k' Hyt Hk') as (k'' & ? & _ & E1 & _). exists k''. by rewrite E1.
Qed.

(** The run queue after [t] left its level. *)
Lemma dequeued_ok s s' L t k b l1 l2 :
  rq_ok s L -> dequeued s s' t k b -> tasks s !! t = Some k -> ready_array k = Some b ->
  L b (ready_prio k) = l1 ++ t :: l2 ->
  rq_ok s' (updL L b (ready_prio k) (l1 ++ l2)) /\ same_core s s' /\ (forall y, queued s' y <-> y <> t /\ queued s y).
Proof.
  intros R E Hk Hra HL. destruct (rq_range _ _ R t k b Hk Hra) as [Hp Hid]. set (p := ready_prio k) in *.
  destruct (rq_dll _ _ R b p Hp) as (Hd & Hnd & Htl). rewrite HL in Hd, Hnd, Htl.
  destruct (is_dll_neighbours _ _ _ _ _ _ Hd Hnd) as (Np & Nn & Hpx & Hnx & Hx0 & Hm).
  destruct (is_dll_app _ _ _ _ _ _ _ Hd) as (Ep & En & _).
  assert (Erp : rpv s t = ready_prev k /\ rnx s t = ready_next k) by (unfold rpv, rnx, task_at; by rewrite Hk).
  destruct Erp as [Erp Ern]. rewrite Erp in Np, Hpx, Ep. rewrite Ern in Nn, Hnx, En.
  set (pr := ready_prev k) in *. set (nx := ready_next k) in *.
  assert (HLi : forall y, y ∈ l1 ++ l2 -> y ∈ L b p).
  { intros y Hy. rewrite HL. apply elem_of_app in Hy as [?|?]; apply elem_of_app; [by left|right; by right]. }
  assert (Htn : t ∉ l1 ++ l2) by (intros Ht; by destruct (Hm t Ht)).
  assert (Hpin : pr <> 0 -> pr ∈ L b p) by (intros Hz; destruct Np as [?|[Hin _]]; [done|]; apply HLi, elem_of_app; by left).
  assert (Hnin : nx <> 0 -> nx ∈ L b p) by (intros Hz; destruct Nn as [?|[Hin _]]; [done|]; apply HLi, elem_of_app; by right).
  pose proof (de_task _ _ _ _ _ E) as Et. pose proof (de_other _ _ _ _ _ E) as Eo. fold pr nx in Et, Eo.
  assert (Hrpv : forall y, y <> t -> is_Some (tasks s !! y) -> rpv s' y = if decide (nx <> 0 /\ y = nx) then pr else rpv s y).
  { intros y Hy [ky Hky]. unfold rpv, task_at. rewrite Eo by done. rewrite Hky. destruct (decide (nx <> 0 /\ y = nx)), (decide (pr <> 0 /\ y = pr)); done. }
  assert (Hrnx : forall y, y <> t -> is_Some (tasks s !! y) -> rnx s' y = if decide (pr <> 0 /\ y = pr) then nx else rnx s y).
  { intros y Hy [ky Hky]. unfold rnx, task_at. rewrite Eo by done. rewrite Hky. destruct (decide (nx <> 0 /\ y = nx)), (decide (pr <> 0 /\ y = pr)); done. }
  assert (Hview : forall y ky', y <> t -> tasks s' !! y = Some ky' -> exists ky, tasks s !! y = Some ky /\ core ky' = core ky /\
    ready_array ky' = ready_array ky /\ ready_prio ky' = ready_prio ky).
  { intros y ky' Hy Hy'. rewrite Eo in Hy' by done.
    destruct (tasks s !! y) as [ky|]; destruct (decide (nx <> 0 /\ y = nx)), (decide (pr <> 0 /\ y = pr)); simpl in Hy'; try done;
      exists ky; by injection Hy' as <-. }
  assert (Hview' : forall y ky, y <> t -> tasks s !! y = Some ky -> exists ky', tasks s' !! y = Some ky' /\ core ky' = core ky /\
    ready_array ky' = ready_array ky /\ ready_prio ky' = ready_prio ky).
  { intros y ky Hy Hy'. rewrite Eo by done. rewrite Hy'. destruct (decide _), (decide _); by eexists. }
  assert (Harr : forall d, d <> b -> array_at s' d = array_at s d).
  { intros d Hd'. replace d with (negb b) by (by destruct d, b). apply E. }
  assert (Hmem : forall c q' y, 0 <= q' < 32 -> y ∈ L c q' -> is_Some (tasks s !! y)).
  { intros c q' y Hq' Hy. apply (rq_mem _ _ R) in Hy as (k' & Hk' & _); [by eexists|done]. }
  assert (Hoth : forall d q' y, 0 <= q' < 32 -> ~ (d = b /\ q' = p) -> y ∈ L d q' -> y ∉ L b p).
  { intros d q' y Hq' Hne Hy1 Hy2. apply (rq_mem _ _ R) in Hy1 as (k1 & Hk1 & ? & ?); [|done].
    apply (rq_mem _ _ R) in Hy2 as (k2 & Hk2 & ? & ?); [|done]. apply Hne. split; congruence. }
  destruct (rq_len _ _ R b) as [Hlh Hlt].
  assert (Hheads : forall q', 0 <= q' < 32 -> head_of (array_at s' b) q' = if decide (q' = p /\ pr = 0) then nx else head_of (array_at s b) q').
  { intros q' Hq'. unfold head_of. rewrite (de_heads _ _ _ _ _ E). fold p pr nx. destruct (pr =? 0) eqn:Ez; bool_prop.
    - rewrite level_set by done. destruct (decide (q' = p)); [by rewrite decide_True|by rewrite decide_False by tauto].
    - by rewrite decide_False by tauto. }
  assert (Htails : forall q', 0 <= q' < 32 -> tail_of (array_at s' b) q' = if decide (q' = p /\ nx = 0) then pr else tail_of (array_at s b) q').
  { intros q' Hq'. unfold tail_of. rewrite (de_tails _ _ _ _ _ E). fold p pr nx. destruct (nx =? 0) eqn:Ez; bool_prop.
    - rewrite level_set by done. destruct (decide (q' = p)); [by rewrite decide_True|by rewrite decide_False by tauto].
    - by rewrite decide_False by tauto. }
  assert (Hnew : is_dll (rpv s') (rnx s') 0 (l1 ++ l2) (head_of (array_at s' b) p) /\ NoDup (l1 ++ l2)).
  { eapply is_dll_unlink; [exact Hd|exact Hnd| | |].
    - intros y Hy. rewrite Erp, Ern. apply Hrpv; [by apply Hm|]. by eapply Hmem, HLi.
    - intros y Hy. rewrite Erp, Ern. apply Hrnx; [by apply Hm|]. by eapply Hmem, HLi.
    - rewrite Hheads, Erp, Ern by done. destruct (decide (pr = 0)); [by rewrite decide_True|by rewrite decide_False by tauto]. }
  destruct Hnew as [Hdn Hndn].
  split_and!.
  - split.
    + rewrite Eo by done. rewrite (rq_null _ _ R). by destruct (decide _), (decide _).
    + intros d. destruct (decide (d = b)) as [->|Hdb]; [|rewrite Harr by done; apply R].
      rewrite (de_heads _ _ _ _ _ E), (de_tails _ _ _ _ _ E). destruct (_ =? 0), (_ =? 0); rewrite ?length_insert; done.
    + intros d q' Hq'. destruct (decide (d = b /\ q' = p)) as [[-> ->]|Hne].
      * rewrite updL_eq. split_and!; [done|done|]. rewrite Htails by done. destruct l2 as [|z l2].
        -- simpl in En. rewrite decide_True by done. rewrite Ep, app_nil_r. done.
        -- destruct (Hm z) as [Hz0 _]; [apply elem_mid|]. rewrite decide_False; [|intros [_ Hz]; apply Hz0; rewrite <- Hz; symmetry; exact En].
           rewrite Htl. f_equal. rewrite !last_app_cons, last_cons_cons. done.
      * rewrite updL_ne by done. destruct (rq_dll _ _ R d q' Hq') as (Hd' & Hnd' & Htl').
        assert (Hht : head_of (array_at s' d) q' = head_of (array_at s d) q' /\ tail_of (array_at s' d) q' = tail_of (array_at s d) q').
        { destruct (decide (d = b)) as [->|Hdb]; [|by rewrite Harr]. rewrite Hheads, Htails, !decide_False by tauto. done. }
        destruct Hht as [-> ->]. split_and!; [|done|done]. eapply is_dll_frame; [|exact Hd'].
        intros y Hy. specialize (Hoth d q' y Hq' Hne Hy). assert (Hyt : y <> t) by (intros ->; apply Hoth; rewrite HL; apply elem_mid).
        rewrite Hrpv, Hrnx, !decide_False by (try done; try (by eapply Hmem); intros [? ->]; auto). done.
    + intros d. destruct (rq_bits _ _ R d) as [Hb1 Hb2]. destruct (decide (d = b)) as [->|Hdb].
      * rewrite (de_bitmap _ _ _ _ _ E). fold p. rewrite (is_dll_head _ _ _ _ _ Hdn).
        assert (Hz : default 0 (head (l1 ++ l2)) = 0 <-> l1 ++ l2 = []).
        { destruct (l1 ++ l2) as [|z l]; [done|]. simpl. split; [|done]. intros ->. by apply is_dll_nonnull in Hdn; destruct Hdn; left. }
        destruct (default 0 (head (l1 ++ l2)) =? 0) eqn:Ez; bool_prop.
        -- split; [by apply land_bound|]. intros q' Hq'. rewrite testbit_unset by lia. destruct (decide (q' = p)) as [->|Hqp].
           ++ rewrite updL_eq, (bool_decide_true (p = p)) by done. simpl. symmetry. apply bool_decide_false. intros H. by apply H, Hz.
           ++ rewrite updL_ne, (bool_decide_false (q' = p)) by tauto. by apply Hb2.
        -- split; [done|]. intros q' Hq'. rewrite Hb2 by done. destruct (decide (q' = p)) as [->|Hqp].
           ++ rewrite updL_eq, HL, !bool_decide_true; [done| |by destruct l1]. intros H. by apply Ez, Hz.
           ++ by rewrite updL_ne by tauto.
      * rewrite Harr by done. split; [done|]. intros q' Hq'. rewrite updL_ne by tauto. by apply Hb2.
    + intros d q' x Hq'. destruct (decide (x = t)) as [->|Hxt].
      * rewrite Et. split.
        -- intros Hx. destruct (decide (d = b /\ q' = p)) as [[-> ->]|Hne]; [by rewrite updL_eq in Hx|]. rewrite updL_ne in Hx by done.
           exfalso. apply (Hoth d q' t Hq' Hne Hx). rewrite HL. apply elem_mid.
        -- by intros (k' & [= <-] & Hr & Hpr).
      * assert (Hin : x ∈ updL L b p (l1 ++ l2) d q' <-> x ∈ L d q').
        { destruct (decide (d = b /\ q' = p)) as [[-> ->]|Hne]; [|by rewrite updL_ne].
          rewrite updL_eq, HL, !elem_of_app, elem_of_cons. tauto. }
        rewrite Hin, (rq_mem _ _ R d q' x Hq'). split.
        -- intros (k' & Hk' & ? & ?). destruct (Hview' x k' Hxt Hk') as (k'' & ? & _ & E1 & E2). exists k''. by rewrite E1, E2.
        -- intros (k' & Hk' & ? & ?). destruct (Hview x k' Hxt Hk') as (k'' & ? & _ & E1 & E2). exists k''. by rewrite <- E1, <- E2.
    + intros x kx d Hx Hr. destruct (decide (x = t)) as [->|Hxt].
      * rewrite Et in Hx. by injection Hx as <-.
      * destruct (Hview x kx Hxt Hx) as (k'' & Hx' & Ec & E1 & E2). rewrite E1 in Hr. destruct (rq_range _ _ R x k'' d Hx' Hr) as [? ?].
        rewrite E2. split; [done|]. unfold core in Ec. congruence.
  - split.
    + intros x. destruct (decide (x = t)) as [->|Hxt]; [by rewrite Et, Hk|].
      destruct (tasks s !! x) as [kx|] eqn:Ex.
      * destruct (Hview' x kx Hxt Ex) as (k'' & -> & Ec & _). simpl. by rewrite Ec.
      * rewrite Eo, Ex by done. by destruct (decide _), (decide _).
    + intros c. unfold cpu_at. by rewrite (de_cpus _ _ _ _ _ E).
    + by rewrite (de_cpus _ _ _ _ _ E).
  - intros y. destruct (decide (y = t)) as [->|Hyt].
    + split; [|by intros [? _]]. intros (k' & Hk' & [? Hr]). rewrite Et in Hk'. by injection Hk' as <-.
    + split.
      * intros (k' & Hk' & Hr). split; [done|]. destruct (Hview y k' Hyt Hk') as (k'' & ? & _ & E1 & _). exists k''. by rewrite <- E1.
      * intros [_ (k' & Hk' & Hr)]. destruct (Hview' y k' Hyt Hk') as (k'' & ? & _ & E1 & _). exists k''. by rewrite E1.
Qed.

(** ** Operations on the run queue *)

(** What the run queue reads of a task. *)
Definition qv (t : task) : option bool * Z * Z * Z * bool := (ready_array t, ready_prio t, ready_prev t, ready_next t, idle t).

Record same_queues (s s' : sched) : Prop := {
  sq_task : forall x, qv <$> tasks s' !! x = qv <$> tasks s !! x;
  sq_array : forall b, array_at s' b = array_at s b;
}.

Lemma same_queues_lookup s s' x t : same_queues s s' -> tasks s' !! x = Some t -> exists t', tasks s !! x = Some t' /\ qv t = qv t'.
Proof.
  intros [H _] E. specialize (H x). rewrite E in H. destruct (tasks s !! x) as [t'|]; cbn in H; [|done]. exists t'. split; congruence.
Qed.

Lemma same_queues_sym s s' : same_queues s s' -> same_queues s' s.
Proof. intros [A B]. split; intros; congruence. Qed.

Lemma same_queues_queued s s' x : same_queues s s' -> queued s' x <-> queued s x.
Proof.
  intros H. assert (G : forall s s', same_queues s s' -> queued s' x -> queued s x).
  { clear. intros s s' H (t & Ht & Hr). destruct (same_queues_lookup _ _ _ _ H Ht) as (t' & Ht' & E). exists t'. split; [done|].
    unfold qv in E. congruence. }
  split; apply G; [done|by apply same_queues_sym].
Qed.

Lemma rq_frame s s' L : same_queues s s' -> rq_ok s L -> rq_ok s' L.
Proof.
  intros H R. assert (Hat : forall x, rpv s' x = rpv s x /\ rnx s' x = rnx s x).
  { intros x. pose proof (sq_task _ _ H x) as E. unfold rpv, rnx, task_at.
    destruct (tasks s !! x), (tasks s' !! x); cbn in E |- *; try done. unfold qv in E. split; congruence. }
  split.
  - pose proof (sq_task _ _ H 0) as E. rewrite (rq_null _ _ R) in E. by destruct (tasks s' !! 0).
  - intros b. rewrite (sq_array _ _ H). apply R.
  - intros b p Hp. rewrite (sq_array _ _ H). destruct (rq_dll _ _ R b p Hp) as (Hd & ? & ?). split_and!; try done.
    eapply is_dll_frame; [|exact Hd]. intros x _. apply Hat.
  - intros b. rewrite (sq_array _ _ H). apply R.
  - intros b p x Hp. rewrite (rq_mem _ _ R b p x Hp). split; intros (t & Ht & E1 & E2).
    + destruct (same_queues_lookup _ _ _ _ (same_queues_sym _ _ H) Ht) as (t' & Ht' & E). exists t'. unfold qv in E. split_and!; congruence.
    + destruct (same_queues_lookup _ _ _ _ H Ht) as (t' & Ht' & E). exists t'. unfold qv in E. split_and!; congruence.
  - intros x t b Ht Hr. destruct (same_queues_lookup _ _ _ _ H Ht) as (t' & Ht' & E). unfold qv in E.
    destruct (rq_range _ _ R x t' b Ht') as [? ?]; [congruence|]. split; [|congruence]. by replace (ready_prio t) with (ready_prio t') by congruence.
Qed.

Lemma rqi_frame s s' : same_queues s s' -> rqi s -> rqi s'.
Proof. intros H [L R]. exists L. by eapply rq_frame. Qed.

Lemma upd_same_queues s t f : (forall k, qv (f k) = qv k) -> same_queues s (upd_task s t f).
Proof.
  intros Hf. split; [|done]. intros x. rewrite tasks_upd. destruct (decide (x = t)); [|done].
  destruct (tasks s !! x); simpl; by rewrite ?Hf.
Qed.

Lemma enqueue_spec s c t k :
  rqi s -> tasks s !! t = Some k ->
  rqi (rq_enqueue s c t) /\ same_core s (rq_enqueue s c t) /\
  (forall y, queued (rq_enqueue s c t) y <-> queued s y \/ (y = t /\ idle k = false)).
Proof.
  intros [L R] Hk. assert (Eat : task_at s t = k) by (unfold task_at; by rewrite Hk).
  destruct (decide (is_Some (ready_array k) \/ idle k = true)) as [Hq|Hq].
  { assert (E : rq_enqueue s c t = s).
    { unfold rq_enqueue. rewrite Eat. destruct Hq as [Hq|Hq]; [by rewrite bool_decide_true|]. by rewrite Hq, orb_true_r. }
    rewrite E. split_and!; [by exists L|done|]. intros y. split; [by left|]. intros [?|[-> Hi]]; [done|]. exists k. split; [done|].
    destruct Hq; [done|congruence]. }
  assert (Hra : ready_array k = None) by (destruct (ready_array k) eqn:E; [destruct Hq; left; by eexists|done]).
  assert (Hid : idle k = false) by (destruct (idle k) eqn:E; [tauto|done]).
  pose proof (task_prio_range k) as Hp.
  destruct (rq_enqueue_effect s c t k Hk Hra Hid) as (q & E).
  { destruct (rq_dll _ _ R (if quantum_remaining k =? 0 then negb (active s) else active s) _ Hp) as (Hd & _ & Htl). rewrite Htl.
    destruct (list.last _) as [y|] eqn:El; simpl; [|intros <-; by rewrite (rq_null _ _ R) in Hk].
    intros ->. apply last_Some_elem_of in El. apply (rq_mem _ _ R) in El as (k' & Hk' & Hr & _); [congruence|done]. }
  destruct (enqueued_ok s _ L t k _ _ q R E Hk Hra Hid Hp) as (R' & Hc & Hqd).
  split_and!; [by eexists|done|]. intros y. rewrite Hqd. tauto.
Qed.

(** The queued tasks are lists of the array. *)
Lemma dequeue_effect s L t k b : rq_ok s L -> tasks s !! t = Some k -> ready_array k = Some b ->
  exists l1 l2, L b (ready_prio k) = l1 ++ t :: l2 /\ dequeued s (rq_dequeue s t) t k b.
Proof.
  intros R Hk Hra. destruct (rq_range _ _ R t k b Hk Hra) as [Hp _].
  assert (Hin : t ∈ L b (ready_prio k)) by (apply (rq_mem _ _ R); [done|by exists k]).
  apply list_elem_of_split in Hin as (l1 & l2 & HL). exists l1, l2. split; [done|].
  destruct (rq_dll _ _ R b _ Hp) as (Hd & Hnd & _). rewrite HL in Hd, Hnd.
  destruct (is_dll_neighbours _ _ _ _ _ _ Hd Hnd) as (_ & _ & Hpx & Hnx & _). unfold rpv, rnx, task_at in Hpx, Hnx. rewrite Hk in Hpx, Hnx.
  by apply rq_dequeue_effect.
Qed.

Lemma dequeue_spec s t :
  rqi s -> rqi (rq_dequeue s t) /\ same_core s (rq_dequeue s t) /\
  (forall y, queued (rq_dequeue s t) y <-> y <> t /\ queued s y) /\ active (rq_dequeue s t) = active s.
Proof.
  intros [L R]. destruct (ready_array (task_at s t)) as [b|] eqn:Hra.
  - destruct (tasks s !! t) as [k|] eqn:Hk; unfold task_at in Hra; rewrite Hk in Hra; [|done]. simpl in Hra.
    destruct (dequeue_effect s L t k b R Hk Hra) as (l1 & l2 & HL & E).
    destruct (dequeued_ok s _ L t k b l1 l2 R E Hk Hra HL) as (R' & Hc & Hq). split_and!; [by eexists|done|done|apply E].
  - assert (E : rq_dequeue s t = s) by (unfold rq_dequeue; by rewrite Hra). rewrite E. split_and!; [by exists L|done| |done].
    intros y. split; [|by intros [_ ?]]. intros Hq. split; [|done]. intros ->. destruct Hq as (k & Hk & [b Hb]).
    unfold task_at in Hra. rewrite Hk in Hra. simpl in Hra. congruence.
Qed.

(** ** [ready_pop] *)

Lemma ctz_from_spec n i w : 0 <= i -> (exists j, i <= j < i + Z.of_nat n + 1 /\ Z.testbit w j = true) ->
  let r := ctz_from n i w in i <= r < i + Z.of_nat n + 1 /\ Z.testbit w r = true /\ forall j, i <= j < r -> Z.testbit w j = false.
Proof.
  revert i. induction n as [|n IH]; intros i Hi [j [Hj Hb]]; simpl.
  - assert (j = i) by lia. subst j. split_and!; try lia; try done.
  - destruct (Z.testbit w i) eqn:E; [split_and!; try lia; try done|].
    destruct (IH (i + 1) ltac:(lia)) as (H1 & H2 & H3).
    + exists j. split; [|done]. assert (j <> i) by congruence. lia.
    + split_and!; try lia; try done. intros k Hk. destruct (decide (k = i)) as [->|]; [done|]. apply H3. lia.
Qed.

(** The lowest non-empty level. *)
Lemma best_level s L b : rq_ok s L -> bitmap (array_at s b) <> 0 ->
  let p := ctz32 (bitmap (array_at s b)) in
  0 <= p < 32 /\ L b p <> [] /\ (forall q, 0 <= q < p -> L b q = []).
Proof.
  intros R Hne p. destruct (rq_bits _ _ R b) as [Hw Hb].
  destruct (ctz_from_spec 31 0 (bitmap (array_at s b))) as (H1 & H2 & H3); [done| |].
  - exists (Z.log2 (bitmap (array_at s b))). split; [|apply Z.bit_log2; lia].
    split; [apply Z.log2_nonneg|]. apply Z.log2_lt_pow2; [lia|]. simpl. lia.
  - change (ctz_from 31 0 (bitmap (array_at s b))) with p in *. split_and!; try lia.
    + rewrite Hb in H2 by lia. by apply bool_decide_eq_true in H2.
    + intros q Hq. specialize (H3 q Hq). rewrite Hb in H3 by lia. apply bool_decide_eq_false in H3. by apply dec_stable.
Qed.

(** The set of queued tasks, the measure of the loop. *)
Definition qset (s : sched) : gset Z := dom (filter (fun x => is_Some (ready_array x.2)) (tasks s)).

Lemma elem_of_qset s x : x ∈ qset s <-> queued s x.
Proof.
  unfold qset, queued. rewrite elem_of_dom. split.
  - intros [t Ht]. apply map_lookup_filter_Some in Ht as [? ?]. by exists t.
  - intros (t & Ht & Hr). exists t. by apply map_lookup_filter_Some.
Qed.

Lemma qset_size s : (size (qset s) <= size (tasks s))%nat.
Proof. unfold qset. rewrite size_dom. apply map_size_filter. Qed.

Record popped (s : sched) (t : Z) (s' : sched) : Prop := {
  po_rqi : rqi s';
  po_core : same_core (if t =? 0 then s else upd_task s t (with_state TASK_RUNNING)) s';
  po_task : t <> 0 -> queued s t /\ state (task_at s t) = TASK_READY /\ ready_array (task_at s t) = Some (active s');
  po_queued : forall y, queued s' y -> queued s y /\ y <> t;
  po_kept : forall y, queued s y -> state (task_at s y) = TASK_READY -> y <> t -> queued s' y /\ t <> 0;
  po_best : t <> 0 -> forall x k, tasks s' !! x = Some k -> ready_array k = Some (active s') ->
    ready_prio (task_at s' t) <= ready_prio k;
}.

Lemma swap_arrays_spec s :
  same_queues s (swap_arrays s) /\ same_core s (swap_arrays s) /\
  (bitmap (array_at (swap_arrays s) (active (swap_arrays s))) = 0 ->
   forall b, bitmap (array_at s b) = 0).
Proof.
  unfold swap_arrays. set (st := negb (_ =? 0) && _).
  destruct ((bitmap (array_at s (active s)) =? 0) || st) eqn:E; [|split_and!; try done].
  - split_and!; try done. simpl. change (array_at (set_expired_since (set_active s (negb (active s))) (timer_ticks s)) (negb (active s)))
      with (array_at s (negb (active s))). intros Hz.
    apply orb_true_iff in E as [E|E]; [|unfold st in E; by rewrite Hz in E].
    apply Z.eqb_eq in E. intros b. by destruct b, (active s).
  - apply orb_false_iff in E as [E _]. intros Hz. by rewrite Hz in E.
Qed.

Lemma upd_core s s' t f : (forall k k', core k = core k' -> core (f k) = core (f k')) -> same_core s s' -> same_core (upd_task s t f) (upd_task s' t f).
Proof.
  intros Hf [A B C]. split; [|done|done]. intros x. rewrite !tasks_upd. specialize (A x). destruct (decide (x = t)); [|done].
  destruct (tasks s !! x), (tasks s' !! x); cbn in A |- *; try done. f_equal. apply Hf. congruence.
Qed.

Lemma state_at_core s s' x : same_core s s' -> state (task_at s' x) = state (task_at s x).
Proof. intros H. pose proof (core_at _ _ x H) as E. unfold core in E. congruence. Qed.

Lemma empty_queues s y : rqi s -> (forall b, bitmap (array_at s b) = 0) -> ~ queued s y.
Proof.
  intros [L R] Hz (k & Hk & [b Hb]). destruct (rq_range _ _ R y k b Hk Hb) as [Hp _].
  assert (Hin : y ∈ L b (ready_prio k)) by (apply (rq_mem _ _ R); [done|by exists k]).
  destruct (rq_bits _ _ R b) as [_ Hbit]. specialize (Hbit _ Hp). rewrite Hz, Z.bits_0 in Hbit. symmetry in Hbit.
  apply bool_decide_eq_false in Hbit. apply Hbit. intros E. rewrite E in Hin. by apply not_elem_of_nil in Hin.
Qed.

Lemma with_state_core st k k' : core k = core k' -> core (with_state st k) = core (with_state st k').
Proof. unfold core. simpl. intros E. congruence. Qed.

Lemma ready_pop_loop_spec fuel s :
  rqi s -> (size (qset s) < fuel)%nat -> exists t s', ready_pop_loop fuel s = Some (t, s') /\ popped s t s'.
Proof.
  revert s. induction fuel as [|fuel IH]; intros s Hi Hf; [lia|]. cbn [ready_pop_loop].
  destruct (swap_arrays_spec s) as (Hq1 & Hc1 & Hz1). set (s1 := swap_arrays s) in *.
  assert (Hi1 : rqi s1) by (by eapply rqi_frame).
  destruct (bitmap (array_at s1 (active s1)) =? 0) eqn:Ez; bool_prop.
  { exists 0, s1. split; [done|]. assert (Hn : forall y, ~ queued s y) by (intros y; apply empty_queues; auto).
    split; try done.
    - intros y Hy. rewrite (same_queues_queued _ _ y Hq1) in Hy. by apply Hn in Hy.
    - intros y Hy. by apply Hn in Hy. }
  destruct Hi1 as [L R]. destruct (best_level s1 L (active s1) R Ez) as (Hp & Hne & Hlow).
  set (p := ctz32 (bitmap (array_at s1 (active s1)))) in *. set (t := head_of (array_at s1 (active s1)) p).
  destruct (rq_dll _ _ R (active s1) p Hp) as (Hd & _ & _). pose proof (is_dll_head _ _ _ _ _ Hd) as Hh. fold t in Hh.
  destruct (L (active s1) p) as [|t' l] eqn:HL; [done|]. simpl in Hh. subst t'.
  assert (Hin : t ∈ L (active s1) p) by (rewrite HL; by left).
  pose proof Hin as Hin'. apply (rq_mem _ _ R) in Hin' as (k & Hk & Hra & Hpr); [|done].
  assert (Ht0 : t <> 0) by (intros E; rewrite E, (rq_null _ _ R) in Hk; done).
  assert (Hq1t : queued s1 t) by (exists k; split; [done|by eexists]).
  assert (Hqt : queued s t) by (by rewrite <- (same_queues_queued _ _ t Hq1)).
  destruct (dequeue_spec s1 t (ex_intro _ L R)) as (Hi2 & Hc2 & Hq2 & Ha2). set (s2 := rq_dequeue s1 t) in *.
  assert (Hst : forall y, state (task_at s2 y) = state (task_at s y)).
  { intros y. rewrite (state_at_core _ _ y Hc2). by apply state_at_core. }
  assert (Hqiff : forall y, queued s2 y <-> y <> t /\ queued s y) by (intros y; by rewrite Hq2, (same_queues_queued _ _ y Hq1)).
  rewrite Hst. destruct (decide (state (task_at s t) = TASK_READY)) as [Er|Er].
  - exists t, (upd_task s2 t (with_state TASK_RUNNING)). split; [done|].
    assert (Hsq : same_queues s2 (upd_task s2 t (with_state TASK_RUNNING))) by (by apply upd_same_queues).
    split.
    + by eapply rqi_frame.
    + rewrite (proj2 (Z.eqb_neq t 0)) by done. apply upd_core; [intros; by apply with_state_core|]. by eapply same_core_trans.
    + intros _. split_and!; [done|done|]. simpl. rewrite Ha2.
      destruct (same_queues_lookup _ _ _ _ Hq1 Hk) as (k' & Hk' & E). unfold task_at. rewrite Hk'. simpl. unfold qv in E. congruence.
    + intros y Hy. rewrite (same_queues_queued _ _ y Hsq), Hqiff in Hy. tauto.
    + intros y Hy _ Hyt. rewrite (same_queues_queued _ _ y Hsq), Hqiff. tauto.
    + intros _ x kx Hx Hr. simpl in Hr. rewrite Ha2 in Hr.
      destruct (same_queues_lookup _ _ _ _ Hsq Hx) as (kx' & Hx' & E). unfold qv in E.
      destruct (dequeue_effect s1 L t k (active s1) R Hk Hra) as (l1 & l2 & HL2 & Ed). rewrite Hpr, HL in HL2. fold s2 in Ed.
      destruct (dequeued_ok s1 _ L t k (active s1) l1 l2 R Ed Hk Hra ltac:(by rewrite Hpr, HL)) as (R2 & _ & _). fold s2 in R2.
      replace (ready_prio (task_at (upd_task s2 t (with_state TASK_RUNNING)) t)) with p.
      2: { unfold task_at. rewrite tasks_upd, decide_True by done. rewrite (de_task _ _ _ _ _ Ed). simpl. congruence. }
      replace (ready_prio kx) with (ready_prio kx') by congruence.
      destruct (rq_range _ _ R2 x kx' (active s1)) as [Hpx _]; [done|congruence|].
      destruct (Z.le_gt_cases p (ready_prio kx')) as [|Hlt]; [done|exfalso].
      assert (Hin2 : x ∈ updL L (active s1) (ready_prio k) (l1 ++ l2) (active s1) (ready_prio kx')) by (apply (rq_mem _ _ R2); [done|exists kx'; split_and!; congruence]).
      rewrite updL_ne, Hlow in Hin2 by (try tauto; lia). by apply not_elem_of_nil in Hin2.
  - assert (Hsz : qset s2 = qset s ∖ {[t]}).
    { apply set_eq. intros y. rewrite elem_of_difference, elem_of_singleton, !elem_of_qset, Hqiff. tauto. }
    destruct (IH s2 Hi2) as (t2 & s3 & E3 & P3).
    { rewrite Hsz. assert (t ∈ qset s) by (by apply elem_of_qset). rewrite size_difference, size_singleton; [|by apply singleton_subseteq_l].
      assert (size (qset s) <> 0)%nat by (intros Es; apply size_empty_inv in Es; by apply Es in H). lia. }
    exists t2, s3. split; [done|]. assert (Hc : same_core s s2) by (by eapply same_core_trans).
    split.
    + apply P3.
    + eapply same_core_trans; [|apply P3]. destruct (t2 =? 0); [done|]. apply upd_core; [intros; by apply with_state_core|done].
    + intros H2. destruct (po_task _ _ _ P3 H2) as (A & B & C). rewrite Hst in B. apply Hqiff in A as [Hne2 A]. split_and!; [done|done|].
      rewrite <- C. destruct A as (ka & Hka & _). destruct (same_queues_lookup _ _ _ _ (same_queues_sym _ _ Hq1) Hka) as (kb & Hkb & E).
      unfold task_at. rewrite Hka. destruct (dequeue_effect s1 L t k (active s1) R Hk Hra) as (l1 & l2 & _ & Ed). fold s2 in Ed.
      rewrite (de_other _ _ _ _ _ Ed t2 Hne2), Hkb. unfold qv in E.
      destruct (decide _), (decide _); simpl; congruence.
    + intros y Hy. destruct (po_queued _ _ _ P3 y Hy) as [A B]. apply Hqiff in A. tauto.
    + intros y Hy Hs Hyt2. apply (po_kept _ _ _ P3 y); [|by rewrite Hst|done]. apply Hqiff. split; [congruence|done].
    + apply P3.
Qed.

Lemma ready_pop_spec s : rqi s -> exists t s', ready_pop s = (t, s') /\ popped s t s'.
Proof.
  intros Hi. destruct (ready_pop_loop_spec (pop_fuel s) s Hi) as (t & s' & E & P).
  - unfold pop_fuel. pose proof (qset_size s). lia.
  - exists t, s'. unfold ready_pop. by rewrite E.
Qed.
