(* ===== verification/Smp.v ===== *)
(** * All CPUs at once

    [smp_step] interleaves the steps of [Sched] on any number of CPUs: the choice of
    [sched_next_context] under the run queue lock, the switch once the chosen task is off
    every CPU, [sched_return], wake-ups and continuations from any CPU, and what running code
    does to its own state (blocking, stopping, exiting), with tasks created and reaped.  The
    invariant [smp_inv] is stated over the few facts that matter; every step keeps it. *)

From S2P Require Import Prelude Dll Sched SchedProofs.

(** ** The steps *)

(** [picked !! c] is the task CPU [c] chose under the lock and has not switched to yet. *)
Record smp := { ss : sched; picked : list (option Z) }.

(** CPU [c] runs the code of its current task: it is neither choosing nor returning. *)
Definition exec (m : smp) (c : nat) : Prop :=
  (c < length (cpus (ss m)))%nat /\ picked m !! c = Some None /\ prev_task (cpu_at (ss m) c) = 0 /\
  current (cpu_at (ss m) c) <> 0.

Definition with_ss (m : smp) (s : sched) : smp := {| ss := s; picked := picked m |}.

(** The interrupts that may choose another task. *)
Definition switch_points : list (sched -> nat -> option Z * sched) :=
  [sched_tick; sched_resched_handle; sched_yield_handle].

(** The current task of [c], which is not an idle task. *)
Definition self (m : smp) (c : nat) (t : Z) : Prop :=
  exec m c /\ t = current (cpu_at (ss m) c) /\ idle (task_at (ss m) t) = false.

Inductive smp_step : smp -> smp -> Prop :=
  | step_choose m c h next s' : exec m c -> h ∈ switch_points -> h (ss m) c = (next, s') ->
      smp_step m {| ss := s'; picked := <[c := next]> (picked m) |}
  | step_switch m c next ctx now : (c < length (cpus (ss m)))%nat -> picked m !! c = Some (Some next) ->
      on_cpu (task_at (ss m) next) = false ->
      smp_step m {| ss := (sched_switch_task (ss m) c next ctx now).1; picked := <[c := None]> (picked m) |}
  | step_return m c : (c < length (cpus (ss m)))%nat -> picked m !! c = Some None ->
      smp_step m (with_ss m (sched_return (ss m) c))
  | step_wake m c t : exec m c -> is_Some (tasks (ss m) !! t) ->
      smp_step m (with_ss m (sched_wake_task (ss m) c t))
  | step_continue m c t : exec m c -> is_Some (tasks (ss m) !! t) ->
      smp_step m (with_ss m (sched_continue_task (ss m) c t))
  | step_block m c t : self m c t -> smp_step m (with_ss m (sched_block (ss m) c t))
  | step_set_running m c t : self m c t -> smp_step m (with_ss m (sched_set_running (ss m) t))
  | step_yield m c : exec m c -> smp_step m (with_ss m (sched_yield (ss m) c (current (cpu_at (ss m) c))))
  | step_idle m c : exec m c -> smp_step m (with_ss m (sched_idle (ss m) c).2)
  | step_self m c t st : self m c t -> st ∈ [TASK_BLOCKED; TASK_STOPPED; TASK_ZOMBIE] ->
      smp_step m (with_ss m (upd_task (ss m) t (with_state st)))
  | step_new m c t k : exec m c -> t <> 0 -> tasks (ss m) !! t = None ->
      state k = TASK_READY \/ state k = TASK_BLOCKED -> ready_array k = None -> on_cpu k = false -> idle k = false ->
      smp_step m (with_ss m (let s := set_tasks (ss m) (<[t := k]> (tasks (ss m))) in
        if decide (state k = TASK_READY) then ready_enqueue s c t else s))
  | step_dead m c t : exec m c -> state (task_at (ss m) t) = TASK_ZOMBIE \/ self m c t ->
      smp_step m (with_ss m (ready_dequeue (upd_task (ss m) t (with_state TASK_DEAD)) t))
  | step_reap m c t : exec m c -> state (task_at (ss m) t) = TASK_DEAD -> on_cpu (task_at (ss m) t) = false ->
      smp_step m (with_ss m (let s := ready_dequeue (ss m) t in set_tasks s (delete t (tasks s))))
  | step_time m n : smp_step m (with_ss m (set_timer_ticks (ss m) n)).

(** ** The invariant *)

(** State, [on_cpu] and [idle] of a task. *)
Definition cv (s : sched) (x : Z) : option (task_state * bool * bool) :=
  (fun k => (state k, on_cpu k, idle k)) <$> tasks s !! x.

Section Invariant.

Variables (n : nat) (C : Z -> option (task_state * bool * bool)) (cur prv idl : nat -> Z) (Q : Z -> Prop)
  (pk : nat -> option Z).

Record smp_inv : Prop := {
  i_null : C 0 = None;
  i_cur : forall c, (c < n)%nat -> exists st i, C (cur c) = Some (st, true, i);
  i_cur_inj : forall c d, (c < n)%nat -> (d < n)%nat -> cur c = cur d -> c = d;
  i_prv : forall c, (c < n)%nat -> prv c <> 0 ->
    (exists st i, C (prv c) = Some (st, true, i)) /\ pk c = None /\ forall d, (d < n)%nat -> cur d <> prv c;
  i_prv_inj : forall c d, (c < n)%nat -> (d < n)%nat -> prv c <> 0 -> prv c = prv d -> c = d;
  i_on : forall t st i, C t = Some (st, true, i) -> exists c, (c < n)%nat /\ (cur c = t \/ prv c = t);
  i_ready : forall t, C t = Some (TASK_READY, false, false) -> Q t;
  i_pk : forall c t, (c < n)%nat -> pk c = Some t ->
    exists st o i, C t = Some (st, o, i) /\ ~ Q t /\ (i = false -> st = TASK_RUNNING) /\ (i = true -> t = idl c) /\
      forall d, (d < n)%nat -> cur d = t -> pk d <> None /\ d <> c;
  i_pk_inj : forall c d t, (c < n)%nat -> (d < n)%nat -> pk c = Some t -> pk d = Some t -> c = d;
  i_exec : forall c, (c < n)%nat -> pk c = None -> ~ Q (cur c);
  i_idl : forall c, (c < n)%nat -> idl c <> 0 -> exists st o, C (idl c) = Some (st, o, true);
  i_idl_inj : forall c d, (c < n)%nat -> (d < n)%nat -> idl c <> 0 -> idl c = idl d -> c = d;
  i_cur_idle : forall c st o, (c < n)%nat -> C (cur c) = Some (st, o, true) -> cur c = idl c;
  i_idle : forall t st o, C t = Some (st, o, true) -> (st = TASK_RUNNING \/ st = TASK_READY) /\ ~ Q t;
  i_queued : forall t, Q t -> is_Some (C t);
}.

End Invariant.

(** ** Changes the invariant survives *)

Section Changes.

Context {n : nat} {C C' : Z -> option (task_state * bool * bool)} {cur prv idl : nat -> Z} {Q Q' : Z -> Prop}
  {pk : nat -> option Z}.

(** Queued tasks that are not ready may leave the queue. *)
Lemma inv_shrink : smp_inv n C cur prv idl Q pk ->
  (forall t, Q' t -> Q t) -> (forall t, C t = Some (TASK_READY, false, false) -> Q t -> Q' t) ->
  smp_inv n C cur prv idl Q' pk.
Proof.
  intros I H1 H2. destruct I. split; eauto.
  - intros c t Hc Hp. destruct (i_pk0 c t Hc Hp) as (st & o & i & A & B & D). exists st, o, i. split_and!; try done; try tauto. intros HQ. auto.
  - intros c Hc Hp HQ. apply (i_exec0 c Hc Hp). auto.
  - intros t st o Ht. destruct (i_idle0 t st o Ht) as [A B]. split; [done|]. auto.
Qed.

(** One task changes state, and perhaps joins or leaves the queue. *)
Lemma inv_task t st o i st' (Qt : Prop) :
  smp_inv n C cur prv idl Q pk -> C t = Some (st, o, i) ->
  C' t = Some (st', o, i) -> (forall x, x <> t -> C' x = C x) ->
  (forall y, Q' y <-> (y <> t /\ Q y) \/ (y = t /\ Qt)) ->
  (i = true -> (st' = TASK_RUNNING \/ st' = TASK_READY) /\ ~ Qt) ->
  (st' = TASK_READY -> o = false -> i = false -> Qt) ->
  (forall c, (c < n)%nat -> pk c = Some t -> ~ Qt /\ (i = false -> st' = TASK_RUNNING)) ->
  (forall c, (c < n)%nat -> cur c = t -> pk c = None -> ~ Qt) ->
  smp_inv n C' cur prv idl Q' pk.
Proof.
  intros I Ht Ht' Ho HQ Hi Hr Hp He.
  assert (HC : forall x a b, (exists st, C x = Some (st, a, b)) <-> (exists st, C' x = Some (st, a, b))).
  { intros x a b. destruct (decide (x = t)) as [->|Hne]; [|by rewrite Ho]. rewrite Ht, Ht'.
    split; intros [s E]; injection E as <- <- <-; by eexists. }
  destruct I. split.
  - destruct (decide (0 = t)) as [<-|]; [congruence|by rewrite Ho].
  - intros c Hc. destruct (i_cur0 c Hc) as (s & j & E). destruct (proj1 (HC (cur c) true j)) as [s' E']; eauto.
  - done.
  - intros c Hc Hz. destruct (i_prv0 c Hc Hz) as ((s & j & E) & B). split; [|done].
    destruct (proj1 (HC (prv c) true j)) as [s' E']; eauto.
  - done.
  - intros x s j E. destruct (proj2 (HC x true j)) as [s' E']; eauto.
  - intros x E. apply HQ. destruct (decide (x = t)) as [->|Hne].
    + right. split; [done|]. rewrite Ht' in E. injection E as -> -> ->. auto.
    + left. split; [done|]. rewrite Ho in E by done. auto.
  - intros c x Hc Hx. destruct (i_pk0 c x Hc Hx) as (s & a & b & A & B & D & E & F). destruct (decide (x = t)) as [->|Hne].
    + rewrite Ht in A. injection A as <- <- <-. destruct (Hp c Hc Hx) as [P1 P2]. exists st', o, i. split_and!; try done.
      rewrite HQ. tauto.
    + exists s, a, b. rewrite Ho, HQ by done. split_and!; try done. tauto.
  - done.
  - intros c Hc Hpk. rewrite HQ. intros [[? ?]|[E ?]]; [by apply (i_exec0 c)|]. by apply (He c).
  - intros c Hc Hz. destruct (i_idl0 c Hc Hz) as (s & a & E). destruct (proj1 (HC (idl c) a true)) as [s' E']; eauto.
  - done.
  - intros c s a Hc E. destruct (proj2 (HC (cur c) a true)) as [s' E']; eauto.
  - intros x s a E. rewrite HQ. destruct (decide (x = t)) as [->|Hne].
    + rewrite Ht' in E. injection E as -> -> ->. destruct (Hi eq_refl). tauto.
    + rewrite Ho in E by done. destruct (i_idle0 x s a E). split; [done|]. tauto.
  - intros x. rewrite HQ. intros [[? HQx]|[-> _]]; [rewrite Ho by done; auto|by rewrite Ht'].
Qed.


(** CPU [c] chooses [t] instead of its current task. *)
Lemma inv_choose (pk' : nat -> option Z) c t st o i st' (Qp : Prop) :
  let prev := cur c in
  smp_inv n C cur prv idl Q pk -> (c < n)%nat -> pk c = None -> prv c = 0 -> t <> prev ->
  C prev = Some (st, o, i) -> C' prev = Some (st', o, i) -> (forall x, x <> prev -> x <> t -> C' x = C x) ->
  ((C t = Some (TASK_READY, false, false) \/ C t = Some (TASK_READY, true, false)) /\
     Q t /\ (exists o', C t = Some (TASK_READY, o', false) /\ C' t = Some (TASK_RUNNING, o', false)) \/
   t = idl c /\ t <> 0 /\ C' t = C t) ->
  (forall y, Q' y -> y <> t /\ (y = prev /\ Qp \/ y <> prev /\ Q y)) ->
  (forall y, y <> prev -> y <> t -> Q y -> C y = Some (TASK_READY, false, false) -> Q' y) ->
  (i = true -> (st' = TASK_RUNNING \/ st' = TASK_READY) /\ ~ Qp) ->
  pk' c = Some t -> (forall d, d <> c -> pk' d = pk d) ->
  smp_inv n C' cur prv idl Q' pk'.
Proof.
  intros prev I Hc Hpc Hvc Htp Hp Hp' Ho Ht HQ1 HQ2 Hi Hpk Hpk'.
  assert (Hon : o = true). { destruct (i_cur _ _ _ _ _ _ _ I c Hc) as (s & j & E). fold prev in E. congruence. }
  assert (HC : forall x a b, (exists s, C x = Some (s, a, b)) <-> (exists s, C' x = Some (s, a, b))).
  { intros x a b. destruct (decide (x = prev)) as [->|Hne].
    - rewrite Hp, Hp'. split; intros [s E]; injection E as <- <- <-; by eexists.
    - destruct (decide (x = t)) as [->|Hnt]; [|by rewrite Ho].
      destruct Ht as [(_ & _ & o' & E1 & E2)|(_ & _ & ->)]; [|done]. rewrite E1, E2. split; intros [s E]; injection E as <- <- <-; by eexists. }
  assert (Htc : forall d, (d < n)%nat -> cur d = t -> pk d <> None /\ d <> c).
  { intros d Hd E. assert (d <> c) by (intros ->; by apply Htp). split; [|done]. intros Hn. destruct Ht as [(_ & HQt & _)|(El & Hz & _)].
    - apply (i_exec _ _ _ _ _ _ _ I d Hd Hn). by rewrite E.
    - destruct (i_idl _ _ _ _ _ _ _ I c Hc ltac:(congruence)) as (s & a & Ei).
      assert (E2 : cur d = idl d) by (eapply (i_cur_idle _ _ _ _ _ _ _ I); [done|]; rewrite E, El; exact Ei).
      assert (d = c); [|done]. symmetry. apply (i_idl_inj _ _ _ _ _ _ _ I); congruence. }
  assert (Htpk : forall d, (d < n)%nat -> pk d <> Some t).
  { intros d Hd E. destruct (i_pk _ _ _ _ _ _ _ I d t Hd E) as (s & a & b & A & B & _ & D & _). destruct Ht as [(_ & HQt & _)|(El & Hz & _)]; [done|].
    destruct (i_idl _ _ _ _ _ _ _ I c Hc ltac:(congruence)) as (s' & a' & Ei). rewrite <- El in Ei. rewrite Ei in A. injection A as <- <- <-.
    assert (d = c); [|congruence]. symmetry. apply (i_idl_inj _ _ _ _ _ _ _ I); try done; [congruence|]. rewrite <- D by done. done. }
  assert (Hppk : forall d, (d < n)%nat -> pk d <> Some prev).
  { intros d Hd E. destruct (i_pk _ _ _ _ _ _ _ I d prev Hd E) as (s & a & b & _ & _ & _ & _ & F). destruct (F c Hc eq_refl). done. }
  destruct I. split.
  - destruct (C' 0) as [[[s a] b]|] eqn:E; [|done]. destruct (proj2 (HC 0 a b)) as [s' E']; eauto. congruence.
  - intros d Hd. destruct (i_cur0 d Hd) as (s & j & E). destruct (proj1 (HC (cur d) true j)) as [s' E']; eauto.
  - done.
  - intros d Hd Hz. assert (Hdc : d <> c) by congruence. destruct (i_prv0 d Hd Hz) as ((s & j & E) & B & D). rewrite Hpk' by done. split; [|done].
    destruct (proj1 (HC (prv d) true j)) as [s' E']; eauto.
  - done.
  - intros x s j E. destruct (proj2 (HC x true j)) as [s' E']; eauto.
  - intros x E. destruct (decide (x = prev)) as [->|Hne]; [congruence|]. destruct (decide (x = t)) as [->|Hnt].
    + destruct Ht as [(_ & _ & o' & _ & E2)|(El & Hz & E2)]; [congruence|]. rewrite E2 in E. destruct (i_idl0 c Hc ltac:(congruence)) as (s & a & Ei).
      rewrite <- El in Ei. congruence.
    + rewrite Ho in E by done. apply HQ2; auto.
  - intros d x Hd Hx. destruct (decide (d = c)) as [->|Hdc].
    + rewrite Hpk in Hx. injection Hx as <-.
      assert (HnQ : ~ Q' t) by (intros HQt; by destruct (HQ1 t HQt)).
      destruct Ht as [(_ & _ & o' & E1 & E2)|(El & Hz & E2)].
      * exists TASK_RUNNING, o', false. split_and!; try done. intros d' Hd' E. destruct (Htc d' Hd' E) as [? ?]. by rewrite Hpk'.
      * destruct (i_idl0 c Hc ltac:(congruence)) as (s & a & Ei). rewrite <- El in Ei. exists s, a, true. rewrite E2. split_and!; try done.
        intros d' Hd' E. destruct (Htc d' Hd' E) as [? ?]. by rewrite Hpk'.
    + rewrite Hpk' in Hx by done. destruct (i_pk0 d x Hd Hx) as (s & a & b & A & B & D & E & F).
      assert (Hxt : x <> t) by (intros ->; by apply (Htpk d)). assert (Hxp : x <> prev) by (intros ->; by apply (Hppk d)).
      exists s, a, b. rewrite Ho by done. split_and!; try done.
      * intros HQx. destruct (HQ1 x HQx) as [_ [[? _]|[_ ?]]]; done.
      * intros d' Hd' E'. destruct (F d' Hd' E'). split; [|done]. destruct (decide (d' = c)) as [->|]; [congruence|by rewrite Hpk'].
  - intros d d' x Hd Hd' E1 E2. destruct (decide (d = c)) as [->|Hdc], (decide (d' = c)) as [->|Hdc']; try done.
    + rewrite Hpk in E1. injection E1 as <-. rewrite Hpk' in E2 by done. by destruct (Htpk d').
    + rewrite Hpk in E2. injection E2 as <-. rewrite Hpk' in E1 by done. by destruct (Htpk d).
    + rewrite Hpk' in E1, E2 by done. eauto.
  - intros d Hd Hn HQd. assert (Hdc : d <> c) by congruence. rewrite Hpk' in Hn by done.
    destruct (HQ1 _ HQd) as [_ [[E _]|[_ HQd']]]; [|by apply (i_exec0 d)]. apply Hdc. by apply i_cur_inj0.
  - intros d Hd Hz. destruct (i_idl0 d Hd Hz) as (s & a & E). destruct (proj1 (HC (idl d) a true)) as [s' E']; eauto.
  - done.
  - intros d s a Hd E. destruct (proj2 (HC (cur d) a true)) as [s' E']; eauto.
  - intros x s a E. destruct (decide (x = prev)) as [->|Hne].
    + rewrite Hp' in E. injection E as -> -> ->. destruct (Hi eq_refl). split; [done|]. intros HQx. destruct (HQ1 _ HQx) as [_ [[_ ?]|[? _]]]; done.
    + destruct (decide (x = t)) as [->|Hnt].
      * destruct Ht as [(_ & _ & o' & _ & E2)|(El & Hz & E2)]; [congruence|]. rewrite E2 in E. destruct (i_idle0 t s a E). split; [done|].
        intros HQx. by destruct (HQ1 _ HQx).
      * rewrite Ho in E by done. destruct (i_idle0 x s a E). split; [done|]. intros HQx. destruct (HQ1 _ HQx) as [_ [[? _]|[_ ?]]]; done.
  - intros x HQx. destruct (HQ1 _ HQx) as [Hxt [[-> _]|[Hxp HQ0]]]; [by rewrite Hp'|]. rewrite Ho by done. auto.
Qed.

(** CPU [c] switches to the task it chose. *)
Lemma inv_switch (cur' prv' : nat -> Z) (pk' : nat -> option Z) c t st i :
  smp_inv n C cur prv idl Q pk -> (c < n)%nat -> pk c = Some t -> C t = Some (st, false, i) ->
  C' t = Some (TASK_RUNNING, true, i) -> (forall x, x <> t -> C' x = C x) -> (forall y, Q' y <-> Q y) ->
  cur' c = t -> prv' c = cur c -> pk' c = None ->
  (forall d, d <> c -> cur' d = cur d /\ prv' d = prv d /\ pk' d = pk d) ->
  smp_inv n C' cur' prv' idl Q' pk'.
Proof.
  intros I Hc Hpc Ht Ht' Ho HQ Ecur Eprv Epk Hd.
  assert (Hno : forall x s j, C x = Some (s, true, j) -> x <> t) by (intros x s j E ->; congruence).
  assert (Hcur : forall d, (d < n)%nat -> cur d <> t) by (intros d Hdn E; destruct (i_cur _ _ _ _ _ _ _ I d Hdn) as (s & j & E'); rewrite E in E'; congruence).
  assert (Hprv : forall d, (d < n)%nat -> prv d <> 0 -> prv d <> t).
  { intros d Hdn Hz E. destruct (i_prv _ _ _ _ _ _ _ I d Hdn Hz) as ((s & j & E') & _). rewrite E in E'. congruence. }
  assert (Hvc : prv c = 0). { destruct (decide (prv c = 0)) as [|Hz]; [done|]. destruct (i_prv _ _ _ _ _ _ _ I c Hc Hz) as (_ & ? & _). congruence. }
  destruct (i_cur _ _ _ _ _ _ _ I c Hc) as (sp & ip & Ep). pose proof (i_pk _ _ _ _ _ _ _ I c t Hc Hpc) as (s0 & o0 & i0 & A0 & B0 & D0 & E0 & F0).
  assert (Hcz : cur c <> 0) by (intros E; rewrite E, (i_null _ _ _ _ _ _ _ I) in Ep; done).
  assert (Hpt : forall d, (d < n)%nat -> d <> c -> pk d <> Some t) by (intros d Hdn Hne E; apply Hne; eapply (i_pk_inj _ _ _ _ _ _ _ I); eauto).
  destruct I. split.
  - destruct (decide (0 = t)) as [<-|]; [congruence|by rewrite Ho].
  - intros d Hdn. destruct (decide (d = c)) as [->|Hne]; [rewrite Ecur; eauto|]. destruct (Hd d Hne) as (-> & _). rewrite Ho by auto. auto.
  - intros d d' Hdn Hdn'. destruct (decide (d = c)) as [->|Hne], (decide (d' = c)) as [->|Hne']; try done.
    + rewrite Ecur. destruct (Hd d' Hne') as (-> & _). intros E. by destruct (Hcur d').
    + rewrite Ecur. destruct (Hd d Hne) as (-> & _). intros E. by destruct (Hcur d).
    + destruct (Hd d Hne) as (-> & _). destruct (Hd d' Hne') as (-> & _). auto.
  - intros d Hdn Hz. destruct (decide (d = c)) as [->|Hne].
    + rewrite Eprv in Hz |- *. rewrite Ho by auto. split_and!; [eauto|done|]. intros d' Hdn'. destruct (decide (d' = c)) as [->|Hne'].
      * rewrite Ecur. intros E. by apply (Hcur c).
      * destruct (Hd d' Hne') as (-> & _). intros E. apply Hne'. auto.
    + destruct (Hd d Hne) as (_ & Ev & Ek). rewrite Ev in Hz |- *. rewrite Ek. destruct (i_prv0 d Hdn Hz) as (A & B & D). rewrite Ho by auto.
      split_and!; [done|done|]. intros d' Hdn'. destruct (decide (d' = c)) as [->|Hne'].
      * rewrite Ecur. apply not_eq_sym. auto.
      * destruct (Hd d' Hne') as (-> & _). auto.
  - intros d d' Hdn Hdn' Hz. destruct (decide (d = c)) as [->|Hne], (decide (d' = c)) as [->|Hne']; try done.
    + rewrite Eprv. destruct (Hd d' Hne') as (_ & -> & _). intros E. destruct (i_prv0 d' Hdn') as (_ & _ & D); [congruence|]. by destruct (D c).
    + rewrite Eprv. destruct (Hd d Hne) as (_ & Ev & _). rewrite Ev in Hz |- *. intros E. destruct (i_prv0 d Hdn Hz) as (_ & _ & D). by destruct (D c).
    + destruct (Hd d Hne) as (_ & Ev & _). destruct (Hd d' Hne') as (_ & Ev' & _). rewrite Ev, Ev' in *. auto.
  - intros x s j E. destruct (decide (x = t)) as [->|Hne]; [exists c; auto|]. rewrite Ho in E by done. destruct (i_on0 x s j E) as (d & Hdn & Hd').
    destruct (decide (d = c)) as [->|Hne'].
    + exists c. split; [done|]. right. rewrite Eprv. destruct Hd' as [|E']; [done|]. exfalso. rewrite Hvc in E'. subst x. congruence.
    + exists d. destruct (Hd d Hne') as (-> & -> & _). done.
  - intros x E. apply HQ. destruct (decide (x = t)) as [->|Hne]; [congruence|]. rewrite Ho in E by done. auto.
  - intros d x Hdn Hx. destruct (decide (d = c)) as [->|Hne]; [congruence|]. destruct (Hd d Hne) as (_ & _ & Ek). rewrite Ek in Hx.
    destruct (i_pk0 d x Hdn Hx) as (s & a & b & A & B & D & E & F). assert (Hxt : x <> t) by (intros ->; by apply (Hpt d)).
    exists s, a, b. rewrite Ho, HQ by done. split_and!; try done. intros d' Hdn' E'. destruct (decide (d' = c)) as [->|Hne']; [congruence|].
    destruct (Hd d' Hne') as (Ec & _ & Ek'). rewrite Ec in E'. rewrite Ek'. auto.
  - intros d d' x Hdn Hdn' E1 E2. destruct (decide (d = c)) as [->|Hne]; [congruence|]. destruct (decide (d' = c)) as [->|Hne']; [congruence|].
    destruct (Hd d Hne) as (_ & _ & Ek). destruct (Hd d' Hne') as (_ & _ & Ek'). rewrite Ek in E1. rewrite Ek' in E2. eauto.
  - intros d Hdn Hn. rewrite HQ. destruct (decide (d = c)) as [->|Hne]; [by rewrite Ecur|]. destruct (Hd d Hne) as (-> & _ & Ek). rewrite Ek in Hn. auto.
  - intros d Hdn Hz. destruct (i_idl0 d Hdn Hz) as (s & a & E). destruct (decide (idl d = t)) as [Et|Hne]; [|rewrite Ho by done; eauto].
    rewrite Et in E |- *. exists TASK_RUNNING, true. congruence.
  - done.
  - intros d s a Hdn E. destruct (decide (d = c)) as [->|Hne].
    + rewrite Ecur in E |- *. rewrite Ht' in E. injection E as <- <- ->. rewrite A0 in Ht. injection Ht as -> -> ->. auto.
    + destruct (Hd d Hne) as (Ec & _). rewrite Ec in E |- *. rewrite Ho in E by auto. eauto.
  - intros x s a E. rewrite HQ. destruct (decide (x = t)) as [->|Hne].
    + rewrite Ht' in E. injection E as <- <- ->. split; [by left|done].
    + rewrite Ho in E by done. eauto.
  - intros x HQx. apply HQ in HQx. destruct (decide (x = t)) as [->|Hne]; [by rewrite Ht'|rewrite Ho by done; auto].
Qed.

(** CPU [c] lets go of the task it switched from. *)
Lemma inv_return (prv' : nat -> Z) c t st i (Qt : Prop) :
  smp_inv n C cur prv idl Q pk -> (c < n)%nat -> prv c = t -> t <> 0 -> C t = Some (st, true, i) ->
  C' t = Some (st, false, i) -> (forall x, x <> t -> C' x = C x) -> (forall y, Q' y <-> Q y \/ (y = t /\ Qt)) ->
  (st = TASK_READY -> i = false -> Q t \/ Qt) -> (Qt -> st = TASK_READY /\ i = false) ->
  prv' c = 0 -> (forall d, d <> c -> prv' d = prv d) ->
  smp_inv n C' cur prv' idl Q' pk.
Proof.
  intros I Hc Hvc Ht0 Ht Ht' Ho HQ Hr Hqt Ev Hd.
  assert (Hcur : forall d, (d < n)%nat -> cur d <> t).
  { intros d Hdn E. destruct (i_prv _ _ _ _ _ _ _ I c Hc ltac:(congruence)) as (_ & _ & D). by destruct (D d Hdn); congruence. }
  assert (Hpk : forall d, (d < n)%nat -> pk d = Some t -> ~ Qt).
  { intros d Hdn E HQt. destruct (Hqt HQt) as [-> ->]. destruct (i_pk _ _ _ _ _ _ _ I d t Hdn E) as (s & a & b & A & _ & D & _).
    rewrite Ht in A. injection A as <- <- <-. by specialize (D eq_refl). }
  destruct I. split.
  - destruct (decide (0 = t)) as [<-|]; [congruence|by rewrite Ho].
  - intros d Hdn. rewrite Ho by auto. auto.
  - done.
  - intros d Hdn Hz. assert (Hne : d <> c) by congruence. rewrite Hd in Hz |- * by done. rewrite Ho; [auto|]. intros E. apply Hne.
    apply i_prv_inj0; congruence.
  - intros d d' Hdn Hdn' Hz. assert (Hne : d <> c) by congruence. rewrite (Hd d Hne) in Hz |- *. destruct (decide (d' = c)) as [->|Hne']; [congruence|].
    rewrite Hd by done. auto.
  - intros x s j E. destruct (decide (x = t)) as [->|Hne]; [congruence|]. rewrite Ho in E by done. destruct (i_on0 x s j E) as (d & Hdn & Hd').
    exists d. split; [done|]. destruct Hd' as [|E']; [by left|]. right. rewrite Hd; [done|]. intros ->. congruence.
  - intros x E. apply HQ. destruct (decide (x = t)) as [->|Hne].
    + rewrite Ht' in E. injection E as -> ->. destruct Hr; auto.
    + rewrite Ho in E by done. auto.
  - intros d x Hdn Hx. destruct (i_pk0 d x Hdn Hx) as (s & a & b & A & B & D & E & F). destruct (decide (x = t)) as [->|Hne].
    + rewrite Ht in A. injection A as <- <- <-. exists st, false, i. rewrite HQ. split_and!; try done. intros [?|[_ ?]]; [done|]. by apply (Hpk d).
    + exists s, a, b. rewrite Ho, HQ by done. split_and!; try done. tauto.
  - done.
  - intros d Hdn Hn. rewrite HQ. intros [?|[E _]]; [by apply (i_exec0 d)|]. by apply (Hcur d).
  - intros d Hdn Hz. destruct (i_idl0 d Hdn Hz) as (s & a & E). destruct (decide (idl d = t)) as [Et|Hne]; [|rewrite Ho by done; eauto].
    rewrite Et in E |- *. exists st, false. congruence.
  - done.
  - intros d s a Hdn E. rewrite Ho in E by auto. eauto.
  - intros x s a E. rewrite HQ. destruct (decide (x = t)) as [->|Hne].
    + rewrite Ht' in E. injection E as <- <- ->. destruct (i_idle0 t _ _ Ht). split; [done|]. intros [?|[_ HQt]]; [done|]. by destruct (Hqt HQt).
    + rewrite Ho in E by done. destruct (i_idle0 x s a E). split; [done|]. intros [?|[? _]]; done.
  - intros x HQx. apply HQ in HQx as [HQx|[-> _]]; [|by rewrite Ht']. destruct (decide (x = t)) as [->|Hne]; [by rewrite Ht'|rewrite Ho by done; auto].
Qed.

(** A task that is on no CPU appears or goes. *)
Lemma inv_new t st :
  smp_inv n C cur prv idl Q pk -> t <> 0 -> C t = None -> C' t = Some (st, false, false) -> (forall x, x <> t -> C' x = C x) ->
  (forall y, Q' y <-> Q y \/ (y = t /\ st = TASK_READY)) -> smp_inv n C' cur prv idl Q' pk.
Proof.
  intros I Ht0 Ht Ht' Ho HQ. assert (Hs : forall x v, C x = Some v -> C' x = Some v) by (intros x v E; rewrite Ho; [done|]; intros ->; congruence).
  assert (Hcur : forall d, (d < n)%nat -> cur d <> t) by (intros d Hdn E; destruct (i_cur _ _ _ _ _ _ _ I d Hdn) as (s & j & E'); congruence).
  destruct I. split.
  - by rewrite Ho.
  - intros d Hdn. destruct (i_cur0 d Hdn) as (s & j & E). eauto.
  - done.
  - intros d Hdn Hz. destruct (i_prv0 d Hdn Hz) as ((s & j & E) & B). eauto.
  - done.
  - intros x s j E. destruct (decide (x = t)) as [->|Hne]; [congruence|]. rewrite Ho in E by done. eauto.
  - intros x E. apply HQ. destruct (decide (x = t)) as [->|Hne]; [right; split; congruence|]. rewrite Ho in E by done. auto.
  - intros d x Hdn Hx. destruct (i_pk0 d x Hdn Hx) as (s & a & b & A & B & D). exists s, a, b. rewrite HQ. split_and!; try tauto; [auto|].
    intros [?|[-> _]]; [done|congruence].
  - done.
  - intros d Hdn Hn. rewrite HQ. intros [?|[E _]]; [by apply (i_exec0 d)|]. by apply (Hcur d).
  - intros d Hdn Hz. destruct (i_idl0 d Hdn Hz) as (s & a & E). eauto.
  - done.
  - intros d s a Hdn E. rewrite Ho in E by auto. eauto.
  - intros x s a E. rewrite HQ. destruct (decide (x = t)) as [->|Hne]; [congruence|]. rewrite Ho in E by done. destruct (i_idle0 x s a E). split; [done|].
    intros [?|[? _]]; done.
  - intros x HQx. apply HQ in HQx as [HQx|[-> _]]; [|by rewrite Ht']. destruct (i_queued0 x HQx) as [v Hv]. eauto.
Qed.

Lemma inv_gone t st :
  smp_inv n C cur prv idl Q pk -> C t = Some (st, false, false) -> st <> TASK_RUNNING -> C' t = None -> (forall x, x <> t -> C' x = C x) ->
  (forall y, Q' y <-> y <> t /\ Q y) -> smp_inv n C' cur prv idl Q' pk.
Proof.
  intros I Ht Hst Ht' Ho HQ.
  assert (Hs : forall x s o, C x = Some (s, true, o) -> C' x = Some (s, true, o)) by (intros x s o E; rewrite Ho; [done|]; intros ->; congruence).
  assert (Hs' : forall x s o, C x = Some (s, o, true) -> C' x = Some (s, o, true)) by (intros x s o E; rewrite Ho; [done|]; intros ->; congruence).
  assert (Hb : forall x v, C' x = Some v -> C x = Some v) by (intros x v E; rewrite Ho in E; [done|]; intros ->; congruence).
  destruct I. split; eauto.
  - destruct (C' 0) eqn:E; [|done]. apply Hb in E. congruence.
  - intros d Hdn. destruct (i_cur0 d Hdn) as (s & j & E). eauto.
  - intros d Hdn Hz. destruct (i_prv0 d Hdn Hz) as ((s & j & E) & B). eauto.
  - intros x E. apply HQ. split; [congruence|]. auto.
  - intros d x Hdn Hx. destruct (i_pk0 d x Hdn Hx) as (s & a & b & A & B & D & E & F). exists s, a, b. rewrite HQ.
    assert (x <> t). { intros ->. rewrite Ht in A. injection A as <- <- <-. by apply Hst, D. }
    rewrite Ho by done. split_and!; try done. tauto.
  - intros d Hdn Hn. rewrite HQ. intros [_ ?]. by apply (i_exec0 d).
  - intros d Hdn Hz. destruct (i_idl0 d Hdn Hz) as (s & a & E). eauto.
  - intros x s a E. rewrite HQ. apply Hb in E. destruct (i_idle0 x s a E). tauto.
  - intros x HQx. apply HQ in HQx as [Hne HQx]. rewrite Ho by done. auto.
Qed.

End Changes.

Lemma inv_ext n C C' cur cur' prv prv' idl idl' Q Q' pk pk' :
  smp_inv n C cur prv idl Q pk -> (forall x, C' x = C x) -> (forall c, cur' c = cur c) -> (forall c, prv' c = prv c) ->
  (forall c, idl' c = idl c) -> (forall y, Q' y <-> Q y) -> (forall c, pk' c = pk c) -> smp_inv n C' cur' prv' idl' Q' pk'.
Proof.
  intros I HC Hcur Hprv Hidl HQ Hpk. destruct I. split.
  - by rewrite HC.
  - intros c. rewrite Hcur, HC. auto.
  - intros c d. rewrite !Hcur. auto.
  - intros c. rewrite Hprv, Hpk, HC. intros Hc Hz. destruct (i_prv0 c Hc Hz) as (A & B & D). split_and!; [done|done|]. intros d Hd. rewrite Hcur. auto.
  - intros c d. rewrite !Hprv. auto.
  - intros t st i. rewrite HC. intros E. destruct (i_on0 t st i E) as (c & Hc & Hd). exists c. by rewrite Hcur, Hprv.
  - intros t. rewrite HC, HQ. auto.
  - intros c t Hc. rewrite Hpk. intros E. destruct (i_pk0 c t Hc E) as (st & o & i & A & B & D & F & G). exists st, o, i. rewrite HC, HQ, Hidl.
    split_and!; try done. intros d Hd. rewrite Hcur, Hpk. auto.
  - intros c d t. rewrite !Hpk. eauto.
  - intros c. rewrite Hpk, Hcur, HQ. auto.
  - intros c. rewrite Hidl, HC. auto.
  - intros c d. rewrite !Hidl. auto.
  - intros c st o. rewrite Hcur, HC, Hidl. eauto.
  - intros t st o. rewrite HC, HQ. apply i_idle0.
  - intros t. rewrite HC, HQ. auto.
Qed.

(** ** The invariant of the states *)

Definition pkf (m : smp) (c : nat) : option Z := default None (picked m !! c).

Definition inv_of (s : sched) (pk : nat -> option Z) : Prop :=
  smp_inv (length (cpus s)) (cv s) (fun c => current (cpu_at s c)) (fun c => prev_task (cpu_at s c))
    (fun c => idle_task (cpu_at s c)) (queued s) pk.

Definition smp_ok (m : smp) : Prop :=
  rqi (ss m) /\ length (picked m) = length (cpus (ss m)) /\ inv_of (ss m) (pkf m).

(** The CPUs' fields the invariant reads. *)
Definition same_cpus (s s' : sched) : Prop :=
  length (cpus s') = length (cpus s) /\ forall c, ccore (cpu_at s' c) = ccore (cpu_at s c).

Lemma same_cpus_fields s s' c : same_cpus s s' ->
  current (cpu_at s' c) = current (cpu_at s c) /\ prev_task (cpu_at s' c) = prev_task (cpu_at s c) /\ idle_task (cpu_at s' c) = idle_task (cpu_at s c).
Proof. intros [_ H]. specialize (H c). unfold ccore in H. split_and!; congruence. Qed.

(** Moving the invariant over new values of the same CPUs. *)
Lemma inv_of_cpus s s' pk : same_cpus s s' ->
  smp_inv (length (cpus s)) (cv s') (fun c => current (cpu_at s c)) (fun c => prev_task (cpu_at s c))
    (fun c => idle_task (cpu_at s c)) (queued s') pk -> inv_of s' pk.
Proof.
  intros Hs I. unfold inv_of. destruct (Hs) as [-> _].
  eapply inv_ext; [exact I|..]; try done; intros c; by destruct (same_cpus_fields _ _ c Hs) as (? & ? & ?).
Qed.

Lemma cv_core s s' x : same_core s s' -> cv s' x = cv s x.
Proof.
  intros [H _ _]. specialize (H x). unfold cv. destruct (tasks s !! x), (tasks s' !! x); cbn in H |- *; try done.
  unfold core in H. congruence.
Qed.

Lemma same_core_cpus s s' : same_core s s' -> same_cpus s s'.
Proof. intros [_ A B]. done. Qed.

Lemma cv_upd s t f x : cv (upd_task s t f) x =
  if decide (x = t) then (fun k => (state (f k), on_cpu (f k), idle (f k))) <$> tasks s !! x else cv s x.
Proof. unfold cv. rewrite tasks_upd. destruct (decide (x = t)); [|done]. by destruct (tasks s !! x). Qed.

Lemma cv_some s t k : tasks s !! t = Some k -> cv s t = Some (state k, on_cpu k, idle k).
Proof. intros E. unfold cv. by rewrite E. Qed.

Lemma cv_at s t v : cv s t = Some v -> exists k, tasks s !! t = Some k /\ task_at s t = k /\ v = (state k, on_cpu k, idle k).
Proof.
  unfold cv, task_at. intros E. destruct (tasks s !! t) as [k|]; [|done]. exists k. split_and!; try done. by injection E as <-.
Qed.

(** A change that none of the invariant's views shows. *)
Lemma ok_view m s' : smp_ok m -> rqi s' -> same_cpus (ss m) s' -> (forall x, cv s' x = cv (ss m) x) ->
  (forall y, queued s' y <-> queued (ss m) y) -> smp_ok (with_ss m s').
Proof.
  intros (Hr & Hl & I) Hr' Hc Hv Hq. split_and!; [done|by simpl; rewrite Hl; symmetry; apply Hc|].
  apply (inv_of_cpus (ss m)); [done|]. eapply inv_ext; [exact I|..]; done.
Qed.

Lemma exec_pk m c : exec m c -> pkf m c = None.
Proof. intros (_ & E & _). unfold pkf. by rewrite E. Qed.

(** The running task is on no list and chosen by no CPU. *)
Lemma exec_facts m c : smp_ok m -> exec m c ->
  exists k, tasks (ss m) !! current (cpu_at (ss m) c) = Some k /\ on_cpu k = true /\ ~ queued (ss m) (current (cpu_at (ss m) c)) /\
    forall d, (d < length (cpus (ss m)))%nat -> pkf m d <> Some (current (cpu_at (ss m) c)).
Proof.
  intros (Hr & Hl & I) He. pose proof (exec_pk m c He) as Hp. destruct He as (Hc & _).
  destruct (i_cur _ _ _ _ _ _ _ I c Hc) as (st & i & E). apply cv_at in E as (k & Hk & _ & E). exists k. split_and!; [done|congruence| |].
  - by apply (i_exec _ _ _ _ _ _ _ I c).
  - intros d Hd Ed. destruct (i_pk _ _ _ _ _ _ _ I d _ Hd Ed) as (s & o & j & _ & _ & _ & _ & F). by destruct (F c Hc eq_refl).
Qed.

(** The running task of a CPU changes its own state. *)
Lemma ok_self m c t s' st' : smp_ok m -> exec m c -> t = current (cpu_at (ss m) c) ->
  (idle (task_at (ss m) t) = true -> st' = TASK_RUNNING \/ st' = TASK_READY) ->
  rqi s' -> same_cpus (ss m) s' ->
  cv s' t = Some (st', on_cpu (task_at (ss m) t), idle (task_at (ss m) t)) -> (forall x, x <> t -> cv s' x = cv (ss m) x) ->
  (forall y, queued s' y <-> y <> t /\ queued (ss m) y) -> smp_ok (with_ss m s').
Proof.
  intros Hok He -> Hid Hr' Hc Ht Ho Hq. destruct (exec_facts m c Hok He) as (k & Hk & Hon & Hnq & Hpk).
  destruct Hok as (Hr & Hl & I). set (t := current (cpu_at (ss m) c)) in *.
  assert (Eat : task_at (ss m) t = k) by (unfold task_at; by rewrite Hk). rewrite Eat in *.
  split_and!; [done|by simpl; rewrite Hl; symmetry; apply Hc|]. change (inv_of s' (pkf m)). apply (inv_of_cpus (ss m)); [done|].
  eapply (inv_task t (state k) (on_cpu k) (idle k) st' False); [exact I|by apply cv_some|done|done|intros y; rewrite Hq; tauto|tauto|congruence| |tauto].
  intros d Hd E. by destruct (Hpk d).
Qed.

Lemma kick_same s c : same_queues s (kick_idle_cpu s c) /\ same_core s (kick_idle_cpu s c) /\ cpus (kick_idle_cpu s c) = cpus s.
Proof. unfold kick_idle_cpu. by destruct (_ =? 0). Qed.

Lemma enqueue_kick s c t k : rqi s -> tasks s !! t = Some k ->
  let s' := kick_idle_cpu (rq_enqueue s c t) c in
  rqi s' /\ same_core s s' /\ (forall y, queued s' y <-> queued s y \/ (y = t /\ idle k = false)).
Proof.
  intros Hr Hk s'. destruct (enqueue_spec s c t k Hr Hk) as (Hr1 & Hc1 & Hq1). destruct (kick_same (rq_enqueue s c t) c) as (Hq2 & Hc2 & _).
  split_and!; [by eapply rqi_frame|by eapply same_core_trans|]. intros y. unfold s'. by rewrite (same_queues_queued _ _ y Hq2), Hq1.
Qed.

(** A sleeping task is made ready: queued, or left to the CPU it is still on. *)
Lemma ok_ready m c t k s1 : smp_ok m -> tasks (ss m) !! t = Some k -> state k = TASK_BLOCKED \/ state k = TASK_STOPPED ->
  same_queues (ss m) s1 -> same_cpus (ss m) s1 -> cv s1 t = Some (TASK_READY, on_cpu k, idle k) -> (forall x, x <> t -> cv s1 x = cv (ss m) x) ->
  smp_ok (with_ss m (if on_cpu (task_at s1 t) then s1 else kick_idle_cpu (rq_enqueue s1 c t) c)).
Proof.
  intros (Hr & Hl & I) Hk Hst Hsq Hsc Ht Ho. pose proof Ht as Ht'. apply cv_at in Ht' as (k1 & Hk1 & Eat & Ek). rewrite Eat.
  assert (Hr1 : rqi s1) by (by eapply rqi_frame). pose proof (cv_some _ _ _ Hk) as Hcv.
  assert (Hi : idle k = false).
  { destruct (idle k) eqn:Ei; [|done]. destruct (i_idle _ _ _ _ _ _ _ I t _ _ Hcv) as [[?|?] _]; destruct Hst; congruence. }
  assert (Hpk : forall d, (d < length (cpus (ss m)))%nat -> pkf m d <> Some t).
  { intros d Hd E. destruct (i_pk _ _ _ _ _ _ _ I d t Hd E) as (s & o & i & A & _ & D & _). rewrite Hcv in A. injection A as <- <- <-.
    specialize (D Hi). destruct Hst; congruence. }
  destruct (on_cpu k1) eqn:Eon.
  - split_and!; [done|by simpl; rewrite Hl; symmetry; apply Hsc|]. change (inv_of s1 (pkf m)). apply (inv_of_cpus (ss m)); [done|].
    eapply (inv_task t (state k) (on_cpu k) (idle k) TASK_READY (queued (ss m) t)); [exact I|done|done|done| | | | |].
    + intros y. simpl. rewrite (same_queues_queued _ _ y Hsq). destruct (decide (y = t)) as [->|]; tauto.
    + congruence.
    + congruence.
    + intros d Hd E. by destruct (Hpk d).
    + intros d Hd E Hn. rewrite <- E. by apply (i_exec _ _ _ _ _ _ _ I d).
  - destruct (enqueue_kick s1 c t k1 Hr1 Hk1) as (Hr2 & Hc2 & Hq2). set (s2 := kick_idle_cpu (rq_enqueue s1 c t) c) in *.
    assert (Hsc2 : same_cpus (ss m) s2).
    { destruct Hsc as [A B]. destruct (same_core_cpus _ _ Hc2) as [A2 B2]. split; [congruence|]. intros d. by rewrite B2. }
    split_and!; [done|by simpl; rewrite Hl; symmetry; apply Hsc2|]. change (inv_of s2 (pkf m)). apply (inv_of_cpus (ss m)); [done|].
    eapply (inv_task t (state k) (on_cpu k) (idle k) TASK_READY True); [exact I|done|by rewrite (cv_core _ _ t Hc2)| | | | | |].
    + intros x Hx. rewrite (cv_core _ _ x Hc2). by apply Ho.
    + intros y. simpl. rewrite Hq2, (same_queues_queued _ _ y Hsq). assert (idle k1 = false) by congruence. destruct (decide (y = t)) as [->|]; tauto.
    + congruence.
    + done.
    + intros d Hd E. by destruct (Hpk d).
    + intros d Hd E Hn. destruct (i_cur _ _ _ _ _ _ _ I d Hd) as (s & j & E'). rewrite E in E'. congruence.
Qed.

(** ** Choosing *)

Lemma pkf_insert m s' c next d : (c < length (picked m))%nat ->
  pkf {| ss := s'; picked := <[c := next]> (picked m) |} d = if decide (d = c) then next else pkf m d.
Proof.
  intros Hc. unfold pkf; simpl. destruct (decide (d = c)) as [->|Hne].
  - by rewrite list_lookup_insert_eq.
  - by rewrite list_lookup_insert_ne.
Qed.

(** The CPU goes on with its task, while tasks that are not ready left the queue. *)
Lemma ok_stay m c s' st' : smp_ok m -> exec m c -> let t := current (cpu_at (ss m) c) in
  (idle (task_at (ss m) t) = true -> st' = TASK_RUNNING \/ st' = TASK_READY) ->
  rqi s' -> same_cpus (ss m) s' ->
  cv s' t = Some (st', on_cpu (task_at (ss m) t), idle (task_at (ss m) t)) -> (forall x, x <> t -> cv s' x = cv (ss m) x) ->
  (forall y, queued s' y -> y <> t /\ queued (ss m) y) ->
  (forall y, y <> t -> queued (ss m) y -> cv (ss m) y = Some (TASK_READY, false, false) -> queued s' y) ->
  smp_ok {| ss := s'; picked := <[c := None]> (picked m) |}.
Proof.
  intros Hok He t Hid Hr' Hc Ht Ho Hq1 Hq2. destruct (exec_facts m c Hok He) as (k & Hk & Hon & Hnq & Hpk). fold t in Hk, Hnq, Hpk.
  pose proof (exec_pk m c He) as Hpc. destruct He as (Hcn & _). destruct Hok as (Hr & Hl & I).
  assert (Eat : task_at (ss m) t = k) by (unfold task_at; by rewrite Hk). rewrite Eat in *.
  split_and!; [done|by simpl; rewrite length_insert, Hl; symmetry; apply Hc|]. apply (inv_of_cpus (ss m)); [done|]. simpl.
  assert (I1 : smp_inv (length (cpus (ss m))) (cv (ss m)) (fun c => current (cpu_at (ss m) c)) (fun c => prev_task (cpu_at (ss m) c))
    (fun c => idle_task (cpu_at (ss m) c)) (queued s') (pkf m)).
  { eapply (inv_shrink (C' := cv s')); [exact I|intros y Hy; by apply Hq1|]. intros y Hy HQ. apply Hq2; try done. intros ->. rewrite (cv_some _ _ _ Hk) in Hy. congruence. }
  eapply inv_ext; [eapply (inv_task t (state k) (on_cpu k) (idle k) st' False (C' := cv s') (Q' := queued s'));
    [exact I1|by apply cv_some|done|done| |tauto|congruence| |tauto]|..]; try done.
  - intros y. split; [|tauto]. intros Hy. left. split; [|done]. by apply Hq1.
  - intros d Hd E. by destruct (Hpk d).
  - intros d. rewrite pkf_insert by lia. destruct (decide (d = c)) as [->|]; done.
Qed.

(** The state in which [sched_next_context] pops: the running task is in line again. *)
Lemma requeue_facts m c : smp_ok m -> exec m c ->
  let prev := current (cpu_at (ss m) c) in let k := task_at (ss m) prev in
  let s1 := upd_cpu (ss m) c (with_need_resched false) in
  let s2 := if decide (state (task_at s1 prev) = TASK_RUNNING) then upd_task s1 prev (with_state TASK_READY) else s1 in
  let s3 := if decide (state (task_at s2 prev) = TASK_READY) then rq_enqueue s2 c prev else s2 in
  exists st3, rqi s3 /\ same_cpus (ss m) s3 /\ cv s3 prev = Some (st3, true, idle k) /\ (forall x, x <> prev -> cv s3 x = cv (ss m) x) /\
    (forall y, queued s3 y <-> queued (ss m) y \/ (y = prev /\ st3 = TASK_READY /\ idle k = false)) /\
    (idle k = true -> st3 = TASK_READY) /\ st3 <> TASK_RUNNING.
Proof.
  intros Hok He prev k0 s1 s2 s3. destruct (exec_facts m c Hok He) as (k & Hk & Hon & Hnq & _). fold prev in Hk, Hnq.
  assert (Eat : task_at (ss m) prev = k) by (unfold task_at; by rewrite Hk). unfold k0. rewrite Eat. clear k0.
  destruct Hok as (Hr & Hl & I). assert (Hcore1 : same_core (ss m) s1).
  { split; [done| |]. - intros d. by apply cpu_at_upd. - simpl. apply length_alter. }
  assert (Hsq1 : same_queues (ss m) s1) by done.
  assert (Es1 : state (task_at s1 prev) = state k) by (by rewrite (state_at_core _ _ prev Hcore1), Eat).
  assert (Hk1 : tasks s1 !! prev = Some k) by done.
  set (st3 := if decide (state k = TASK_RUNNING) then TASK_READY else state k).
  assert (H2 : same_queues (ss m) s2 /\ same_cpus (ss m) s2 /\ (exists k2, tasks s2 !! prev = Some k2 /\ state k2 = st3 /\ on_cpu k2 = true /\ idle k2 = idle k) /\
    (forall x, x <> prev -> cv s2 x = cv (ss m) x)).
  { unfold s2, st3. rewrite Es1. destruct (decide (state k = TASK_RUNNING)).
    - split_and!.
      + destruct (upd_same_queues s1 prev (with_state TASK_READY)) as [A B]; [done|]. split; [exact A|exact B].
      + by apply same_core_cpus in Hcore1.
      + exists (with_state TASK_READY k). by rewrite tasks_upd, decide_True, Hk1.
      + intros x Hx. rewrite cv_upd, decide_False by done. by apply cv_core.
    - split_and!; [done|by apply same_core_cpus|by exists k|]. intros x _. by apply cv_core. }
  destruct H2 as (Hsq2 & Hsc2 & (k2 & Hk2 & Est2 & Hon2 & Hid2) & Ho2).
  assert (Hr2 : rqi s2) by (by eapply rqi_frame). assert (Eat2 : task_at s2 prev = k2) by (unfold task_at; by rewrite Hk2).
  assert (Hcv2 : cv s2 prev = Some (st3, true, idle k)) by (rewrite (cv_some _ _ _ Hk2); congruence).
  exists st3. unfold s3. rewrite Eat2, Est2. destruct (decide (st3 = TASK_READY)) as [E3|E3].
  - destruct (enqueue_spec s2 c prev k2 Hr2 Hk2) as (Hr3 & Hc3 & Hq3). split_and!; [done| | | | | |].
    + destruct Hsc2 as [A B]. destruct (same_core_cpus _ _ Hc3) as [A' B']. split; [congruence|]. intros d. by rewrite B'.
    + by rewrite (cv_core _ _ prev Hc3).
    + intros x Hx. rewrite (cv_core _ _ x Hc3). by apply Ho2.
    + intros y. rewrite Hq3, (same_queues_queued _ _ y Hsq2). rewrite Hid2. tauto.
    + done.
    + by rewrite E3.
  - split_and!; try done.
    + intros y. rewrite (same_queues_queued _ _ y Hsq2). tauto.
    + intros Hid. exfalso. pose proof (cv_some _ _ _ Hk) as Hc. rewrite Hid in Hc.
      destruct (i_idle _ _ _ _ _ _ _ I prev _ _ Hc) as [[E|E] _]; apply E3; unfold st3; [by rewrite decide_True|]. rewrite E. done.
    + unfold st3. destruct (decide (state k = TASK_RUNNING)); done.
Qed.

Lemma next_context_ok m c next s' : smp_ok m -> exec m c -> sched_next_context (ss m) c = (next, s') ->
  smp_ok {| ss := s'; picked := <[c := next]> (picked m) |}.
Proof.
  intros Hok He E. pose proof (exec_pk m c He) as Hpc. destruct (exec_facts m c Hok He) as (k & Hk & Hon & Hnq & Hpk).
  destruct (requeue_facts m c Hok He) as (st3 & Hr3 & Hsc3 & Hcv3 & Ho3 & Hq3 & Hid3 & Hst3).
  unfold sched_next_context in E. set (prev := current (cpu_at (ss m) c)) in *.
  set (s1 := upd_cpu (ss m) c (with_need_resched false)) in *.
  set (s2 := if decide (state (task_at s1 prev) = TASK_RUNNING) then upd_task s1 prev (with_state TASK_READY) else s1) in *.
  set (s3 := if decide (state (task_at s2 prev) = TASK_READY) then rq_enqueue s2 c prev else s2) in *.
  clearbody s3. clear s2 s1. assert (Eat : task_at (ss m) prev = k) by (unfold task_at; by rewrite Hk). rewrite Eat in *.
  pose proof He as (Hcn & _ & Hv0 & Hcz). fold prev in Hcz. pose proof Hok as (Hr & Hl & I).
  destruct (ready_pop_spec s3 Hr3) as (t & s4 & Ep & P). rewrite Ep in E. cbv iota beta in E.
  assert (Hsc4 : same_cpus (ss m) s4).
  { destruct Hsc3 as [A B]. destruct (same_core_cpus _ _ (po_core _ _ _ P)) as [A' B'].
    assert (Hx : cpus (if t =? 0 then s3 else upd_task s3 t (with_state TASK_RUNNING)) = cpus s3) by (by destruct (t =? 0)).
    split; [congruence|]. intros d. rewrite B'. unfold cpu_at in *. rewrite Hx. apply B. }
  assert (Hidl : idle_task (cpu_at s4 c) = idle_task (cpu_at (ss m) c)) by (by destruct (same_cpus_fields _ _ c Hsc4) as (_ & _ & ?)).
  assert (Hst0 : state (task_at s3 prev) = st3). { apply cv_at in Hcv3 as (k3 & _ & -> & E3). congruence. }
  assert (Hlen : length (<[c := next]> (picked m)) = length (cpus s4)) by (rewrite length_insert, Hl; symmetry; apply Hsc4).
  destruct (decide (t = 0)) as [->|Ht0].
  - pose proof (po_core _ _ _ P) as Hc4. simpl in Hc4, E.
    assert (Hcv4 : forall x, cv s4 x = cv s3 x) by (intros; by apply cv_core).
    rewrite (state_at_core _ _ prev Hc4), Hst0, Hidl in E.
    assert (Hnone : forall y, queued (ss m) y -> cv (ss m) y = Some (TASK_READY, false, false) -> y <> prev -> False).
    { intros y Hy Hcy Hne. assert (Hq : queued s3 y) by (apply Hq3; by left).
      destruct (po_kept _ _ _ P y Hq) as [_ Hz]; [| |done].
      - rewrite <- (Ho3 y Hne) in Hcy. apply cv_at in Hcy as (ky & _ & -> & Ey). congruence.
      - intros ->. destruct Hq as (? & Hq & _). destruct Hr3 as [L R]. by rewrite (rq_null _ _ R) in Hq. }
    destruct (bool_decide (st3 <> TASK_READY) && negb (idle_task (cpu_at (ss m) c) =? 0) && negb (prev =? idle_task (cpu_at (ss m) c))) eqn:Eb.
    + apply andb_true_iff in Eb as [Eb H3]. apply andb_true_iff in Eb as [H1 H2]. bool_prop. apply bool_decide_eq_true in H1. set (t := idle_task (cpu_at (ss m) c)) in *.
      rewrite (proj2 (Z.eqb_neq t prev)) in E by congruence. injection E as <- <-.
      split_and!; [apply P|done|]. apply (inv_of_cpus (ss m)); [done|]. simpl.
      eapply (inv_choose _ c t (state k) true (idle k) st3 False); cbv beta zeta; fold prev; try done.
      * by rewrite (cv_some _ _ _ Hk), Hon.
      * by rewrite Hcv4.
      * intros x Hx _. rewrite Hcv4. by apply Ho3.
      * right. split_and!; [done|done|]. rewrite Hcv4. apply Ho3. congruence.
      * intros y Hy. destruct (po_queued _ _ _ P y Hy) as [Hy3 _]. apply Hq3 in Hy3 as [Hy3|(_ & ? & _)]; [|done].
        split; [|right; split; [|done]; intros ->; done]. intros ->.
        destruct (i_idl _ _ _ _ _ _ _ I c Hcn ltac:(done)) as (? & ? & Ei). by destruct (i_idle _ _ _ _ _ _ _ I t _ _ Ei).
      * intros y Hne _ Hy Hcy. by destruct (Hnone y).
      * intros Hi. rewrite Hid3 in H1 by done. done.
      * rewrite pkf_insert by lia. by rewrite decide_True.
      * intros d Hd. rewrite pkf_insert by lia. by rewrite decide_False.
    + rewrite Z.eqb_refl in E. injection E as <- <-.
      assert (Hq4 : forall y, queued s4 y -> y <> prev /\ queued (ss m) y).
      { intros y Hy. destruct (po_queued _ _ _ P y Hy) as [Hy3 _]. apply Hq3 in Hy3 as [Hy3|(-> & E3 & Ei)].
        - split; [|done]. intros ->. done.
        - exfalso. destruct (po_kept _ _ _ P prev) as [_ Hz]; [apply Hq3; right; done|by rewrite Hst0|done|done]. }
      destruct (decide (st3 = TASK_READY)) as [E3|E3].
      * apply (ok_stay m c _ TASK_RUNNING); fold prev; rewrite ?Eat, ?Hon; try done; try (by left).
        -- eapply rqi_frame; [|apply P]. by apply upd_same_queues.
        -- rewrite cv_upd, decide_True by done. pose proof Hcv3 as Hc. rewrite <- Hcv4 in Hc. apply cv_at in Hc as (k4 & -> & _ & E4). simpl. congruence.
        -- intros x Hx. rewrite cv_upd, decide_False, Hcv4 by done. by apply Ho3.
        -- intros y. rewrite (same_queues_queued s4); [apply Hq4|by apply upd_same_queues].
        -- intros y Hne Hy Hcy. by destruct (Hnone y).
      * apply (ok_stay m c _ st3); fold prev; rewrite ?Eat, ?Hon; try done.
        -- intros Hi. by rewrite Hid3 in E3.
        -- apply P.
        -- by rewrite Hcv4.
        -- intros x Hx. rewrite Hcv4. by apply Ho3.
        -- intros y Hne Hy Hcy. by destruct (Hnone y).
  - rewrite (proj2 (Z.eqb_neq t 0)) in E by done. pose proof (po_core _ _ _ P) as Hc4. rewrite (proj2 (Z.eqb_neq t 0)) in Hc4 by done.
    destruct (po_task _ _ _ P Ht0) as (Hqt & Est & _).
    assert (Hcvt : exists o i, cv s3 t = Some (TASK_READY, o, i) /\ cv s4 t = Some (TASK_RUNNING, o, i)).
    { destruct Hqt as (kt & Hkt & _). exists (on_cpu kt), (idle kt). rewrite (cv_core _ _ t Hc4), cv_upd, decide_True by done.
      unfold task_at in Est. rewrite Hkt in Est. unfold cv. rewrite Hkt. split; [simpl in *; congruence|done]. }
    destruct Hcvt as (o & i & Ct & Ct').
    assert (Ho4 : forall x, x <> t -> cv s4 x = cv s3 x) by (intros x Hx; rewrite (cv_core _ _ x Hc4), cv_upd, decide_False by done; done).
    assert (Hq4 : forall y, queued s4 y -> y <> t /\ (y = prev /\ idle k = false \/ y <> prev /\ queued (ss m) y)).
    { intros y Hy. destruct (po_queued _ _ _ P y Hy) as [Hy3 Hyt]. split; [done|]. apply Hq3 in Hy3 as [Hy3|(-> & _ & ?)]; [|by left].
      right. split; [|done]. intros ->. done. }
    assert (Hkeep : forall y, y <> prev -> y <> t -> queued (ss m) y -> cv (ss m) y = Some (TASK_READY, false, false) -> queued s4 y).
    { intros y Hne Hnt Hy Hcy. apply (po_kept _ _ _ P y); [apply Hq3; by left| |done].
      rewrite <- (Ho3 y Hne) in Hcy. apply cv_at in Hcy as (ky & _ & -> & Ey). congruence. }
    destruct (decide (t = prev)) as [->|Htp].
    + rewrite Z.eqb_refl in E. rewrite Hcv3 in Ct. injection Ct as E3 E4 E5. subst o i.
      assert (Est4 : state (task_at s4 prev) = TASK_RUNNING) by (apply cv_at in Ct' as (k4 & _ & -> & E4); congruence).
      rewrite Est4 in E. injection E as <- <-. apply (ok_stay m c s4 TASK_RUNNING); fold prev; rewrite ?Eat, ?Hon; try done; try (by left).
      * apply P.
      * intros x Hx. rewrite Ho4 by done. by apply Ho3.
      * intros y Hy. destruct (Hq4 y Hy) as [? [[? _]|[? ?]]]; done.
      * intros y Hne. by apply Hkeep.
    + rewrite (proj2 (Z.eqb_neq t prev)) in E by done. injection E as <- <-.
      assert (Ct0 : cv (ss m) t = Some (TASK_READY, o, i)) by (by rewrite <- (Ho3 t Htp)).
      assert (Hqt0 : queued (ss m) t) by (apply Hq3 in Hqt as [?|(? & _)]; done).
      assert (Hi : i = false) by (destruct i; [|done]; by destruct (i_idle _ _ _ _ _ _ _ I t _ _ Ct0)). subst i.
      split_and!; [apply P|done|]. apply (inv_of_cpus (ss m)); [done|]. simpl.
      eapply (inv_choose _ c t (state k) true (idle k) st3 (idle k = false)); cbv beta zeta; fold prev; try done.
      * by rewrite (cv_some _ _ _ Hk), Hon.
      * rewrite Ho4 by done. done.
      * intros x Hx Hxt. rewrite Ho4 by done. by apply Ho3.
      * left. split_and!; [by destruct o; [right|left]|done|]. by exists o.
      * intros Hi. split; [right; by apply Hid3|congruence].
      * rewrite pkf_insert by lia. by rewrite decide_True.
      * intros d Hd. rewrite pkf_insert by lia. by rewrite decide_False.
Qed.

(** ** The other steps *)

(** Fields the invariant does not read. *)
Lemma ok_fields m t f : (forall k, qv (f k) = qv k /\ (state (f k), on_cpu (f k), idle (f k)) = (state k, on_cpu k, idle k)) ->
  smp_ok m -> smp_ok (with_ss m (upd_task (ss m) t f)).
Proof.
  intros Hf Hok. assert (Hsq : same_queues (ss m) (upd_task (ss m) t f)) by (apply upd_same_queues; intros k; apply Hf).
  apply ok_view; [done|eapply rqi_frame; [exact Hsq|apply Hok]|done| |].
  - intros x. rewrite cv_upd. destruct (decide (x = t)); [|done]. unfold cv. destruct (tasks (ss m) !! x) as [k|]; [|done]. simpl. by destruct (Hf k) as [_ ->].
  - intros y. by apply same_queues_queued.
Qed.

Lemma tick_ok m c next s' : smp_ok m -> exec m c -> sched_tick (ss m) c = (next, s') ->
  smp_ok {| ss := s'; picked := <[c := next]> (picked m) |}.
Proof.
  intros Hok He E. assert (Hstay : forall s, smp_ok (with_ss m s) -> smp_ok {| ss := s; picked := <[c := None]> (picked m) |}).
  { intros s Hs. rewrite list_insert_id; [done|apply He]. }
  assert (Hnext : forall s, smp_ok (with_ss m s) -> cpus s = cpus (ss m) -> sched_next_context s c = (next, s') -> smp_ok {| ss := s'; picked := <[c := next]> (picked m) |}).
  { intros s Hs Hc En. apply (next_context_ok (with_ss m s) c next s' Hs); [|done]. unfold exec, cpu_at in *. simpl. by rewrite Hc. }
  assert (Hm : smp_ok (with_ss m (ss m))) by (by destruct m).
  unfold sched_tick in E. set (t := current (cpu_at (ss m) c)) in *.
  destruct (t =? 0); [injection E as <- <-; by apply Hstay|].
  destruct (idle (task_at (ss m) t)).
  { destruct (sched_has_ready (ss m)); [by apply (Hnext (ss m))|]. injection E as <- <-. by apply Hstay. }
  destruct (decide (state (task_at (ss m) t) = TASK_RUNNING)); [|by apply (Hnext (ss m))]. cbv zeta in E.
  set (s1 := if negb (_ =? 0) then _ else ss m) in E.
  assert (H1 : smp_ok (with_ss m s1) /\ cpus s1 = cpus (ss m)).
  { unfold s1. destruct (negb _); [|done]. split; [|done]. by apply ok_fields. }
  destruct H1 as [H1 Hc1]. clearbody s1. destruct (quantum_remaining (task_at s1 t) =? 0).
  - set (s2 := if - PRIO_BONUS_MAX <? _ then _ else s1) in E. apply (Hnext s2); [| |done].
    + unfold s2. destruct (_ <? _); [|done]. by apply (ok_fields (with_ss m s1)).
    + unfold s2. by destruct (_ <? _).
  - destruct (negb (need_resched (cpu_at s1 c))); [injection E as <- <-; by apply Hstay|by apply (Hnext s1)].
Qed.

Lemma choose_ok m c h next s' : smp_ok m -> exec m c -> h ∈ switch_points -> h (ss m) c = (next, s') ->
  smp_ok {| ss := s'; picked := <[c := next]> (picked m) |}.
Proof.
  intros Hok He Hh E. assert (Hstay : smp_ok {| ss := ss m; picked := <[c := None]> (picked m) |}).
  { rewrite list_insert_id; [by destruct m|apply He]. }
  unfold switch_points in Hh. apply elem_of_cons in Hh as [->|Hh]; [by apply tick_ok|].
  apply elem_of_cons in Hh as [->|Hh].
  - unfold sched_resched_handle in E. destruct (_ =? 0); [by injection E as <- <-|].
    destruct (if idle _ then _ else _); [by injection E as <- <-|]. by apply next_context_ok.
  - apply list_elem_of_singleton in Hh as ->. unfold sched_yield_handle in E. destruct (_ =? 0); [by injection E as <- <-|].
    by apply next_context_ok.
Qed.

Lemma cpu_at_upd_eq s c f d : (c < length (cpus s))%nat -> cpu_at (upd_cpu s c f) d = if decide (d = c) then f (cpu_at s c) else cpu_at s d.
Proof.
  intros Hc. unfold cpu_at, upd_cpu; simpl. rewrite list_lookup_alter. destruct (decide (c = d)) as [<-|]; [|by rewrite decide_False].
  rewrite decide_True by done. apply lookup_lt_is_Some in Hc as [k ->]. done.
Qed.

(** What a switch changes. *)
Lemma switch_facts s c next ctx now k : (c < length (cpus s))%nat -> tasks s !! next = Some k -> next <> current (cpu_at s c) ->
  let s' := (sched_switch_task s c next ctx now).1 in
  same_queues s s' /\ cv s' next = Some (TASK_RUNNING, true, idle k) /\ (forall x, x <> next -> cv s' x = cv s x) /\
  length (cpus s') = length (cpus s) /\
  (forall d, ccore (cpu_at s' d) = if decide (d = c) then (next, current (cpu_at s c), idle_task (cpu_at s c)) else ccore (cpu_at s d)).
Proof.
  intros Hc Hk Hne s'. unfold s', sched_switch_task. set (prev := current (cpu_at s c)) in *.
  set (s1 := upd_task s prev (with_context ctx)). set (ran := now -w _). set (s2 := upd_task s1 prev _).
  set (s3 := if idle (task_at s2 prev) then _ else _). set (s4 := upd_task s3 next _). set (s5 := upd_task s4 next _). set (s6 := upd_task s5 next _).
  set (s7 := if idle (task_at s6 next) then s6 else _). cbn [fst].
  assert (H3 : same_queues s s3 /\ (forall x, cv s3 x = cv s x) /\ tasks s3 !! next = Some k /\ length (cpus s3) = length (cpus s) /\
    (forall d, ccore (cpu_at s3 d) = ccore (cpu_at s d))).
  { assert (Ht : tasks s3 = tasks s2) by (unfold s3; by destruct (idle _)).
    split_and!.
    - split; [|intros b; unfold s3; by destruct (idle _)]. intros x. rewrite Ht. unfold s2, s1. rewrite !tasks_upd.
      destruct (decide (x = prev)); [|done]. by destruct (tasks s !! x).
    - intros x. unfold cv. rewrite Ht. unfold s2, s1. rewrite !tasks_upd. destruct (decide (x = prev)); [|done]. by destruct (tasks s !! x).
    - rewrite Ht. unfold s2, s1. by rewrite !tasks_upd, !decide_False.
    - unfold s3. destruct (idle _); simpl; by rewrite length_alter.
    - intros d. unfold s3. destruct (idle _); by rewrite cpu_at_upd. }
  destruct H3 as (A1 & A2 & A3 & A4 & A5). clearbody s3.
  assert (H7 : same_queues s s7 /\ cv s7 next = Some (TASK_RUNNING, true, idle k) /\ (forall x, x <> next -> cv s7 x = cv s x) /\ cpus s7 = cpus s3).
  { assert (Ht : tasks s7 = tasks s6) by (unfold s7; by destruct (idle _)).
    split_and!.
    - split; [|intros b; unfold s7; by destruct (idle _); apply A1]. intros x. rewrite Ht. unfold s6, s5, s4. rewrite !tasks_upd.
      rewrite <- (sq_task _ _ A1 x). destruct (decide (x = next)); [|done]. by destruct (tasks s3 !! x).
    - unfold cv. rewrite Ht. unfold s6, s5, s4. by rewrite !tasks_upd, !decide_True, A3.
    - intros x Hx. rewrite <- A2. unfold cv. rewrite Ht. unfold s6, s5, s4. by rewrite !tasks_upd, !decide_False.
    - unfold s7. by destruct (idle _). }
  destruct H7 as (B1 & B2 & B3 & B4). clearbody s7. split_and!; [split; [exact (sq_task _ _ B1)|exact (sq_array _ _ B1)]|exact B2|exact B3| |].
  - simpl. by rewrite length_alter, B4.
  - intros d. rewrite cpu_at_upd_eq by (by rewrite B4, A4). assert (Ed : forall d, ccore (cpu_at s7 d) = ccore (cpu_at s d)) by (intros; unfold cpu_at; rewrite B4; apply A5).
    destruct (decide (d = c)); [|apply Ed]. unfold ccore. simpl. specialize (Ed c). unfold ccore in Ed. congruence.
Qed.

Lemma switch_ok m c next ctx now : smp_ok m -> (c < length (cpus (ss m)))%nat -> picked m !! c = Some (Some next) ->
  on_cpu (task_at (ss m) next) = false ->
  smp_ok {| ss := (sched_switch_task (ss m) c next ctx now).1; picked := <[c := None]> (picked m) |}.
Proof.
  intros (Hr & Hl & I) Hc Hp Hon. assert (Hpk : pkf m c = Some next) by (unfold pkf; by rewrite Hp).
  destruct (i_pk _ _ _ _ _ _ _ I c next Hc Hpk) as (st & o & i & Hcv & _ & _ & _ & F). apply cv_at in Hcv as (k & Hk & Eat & Ek).
  assert (Hne : next <> current (cpu_at (ss m) c)) by (intros E; by destruct (F c Hc (eq_sym E))).
  destruct (switch_facts (ss m) c next ctx now k Hc Hk Hne) as (Hsq & Hcv' & Ho & Hlen & Hcpu).
  set (s' := (sched_switch_task (ss m) c next ctx now).1) in *. rewrite Eat in Hon.
  assert (Hf : forall d, current (cpu_at s' d) = (if decide (d = c) then next else current (cpu_at (ss m) d)) /\
    prev_task (cpu_at s' d) = (if decide (d = c) then current (cpu_at (ss m) c) else prev_task (cpu_at (ss m) d)) /\
    idle_task (cpu_at s' d) = idle_task (cpu_at (ss m) d)).
  { intros d. specialize (Hcpu d). unfold ccore in Hcpu. destruct (decide (d = c)) as [->|]; split_and!; congruence. }
  split_and!; [by eapply rqi_frame|by cbn [picked ss]; rewrite length_insert, Hl, Hlen|].
  change (inv_of s' (pkf {| ss := s'; picked := <[c := None]> (picked m) |})). unfold inv_of. rewrite Hlen.
  eapply (inv_ext _ (cv s') (cv s') (fun d => current (cpu_at s' d)) _ (fun d => prev_task (cpu_at s' d)) _ (fun d => idle_task (cpu_at (ss m) d)) _ (queued s') _
    (fun d => if decide (d = c) then None else pkf m d)); try done.
  - eapply (inv_switch _ _ _ c next (state k) (idle k)); [exact I|done|done| |done|done| | | | |].
    + rewrite (cv_some _ _ _ Hk). congruence.
    + intros y. by apply same_queues_queued.
    + destruct (Hf c) as (-> & _). by rewrite decide_True.
    + destruct (Hf c) as (_ & -> & _). by rewrite decide_True.
    + by rewrite decide_True.
    + intros d Hd. destruct (Hf d) as (-> & -> & _). by rewrite !decide_False.
  - intros d. by destruct (Hf d) as (_ & _ & ->).
  - intros d. rewrite pkf_insert by lia. by destruct (decide (d = c)).
Qed.

Lemma return_ok m c : smp_ok m -> (c < length (cpus (ss m)))%nat -> picked m !! c = Some None ->
  smp_ok (with_ss m (sched_return (ss m) c)).
Proof.
  intros Hok Hc Hp. unfold sched_return. set (t := prev_task (cpu_at (ss m) c)). destruct (t =? 0) eqn:Ez; bool_prop; [by destruct m|].
  destruct Hok as (Hr & Hl & I). destruct (i_prv _ _ _ _ _ _ _ I c Hc Ez) as ((st & i & Hcv) & _ & Hcur). fold t in Hcv.
  pose proof Hcv as Hcv0. apply cv_at in Hcv0 as (k & Hk & Eat & Ek).
  set (s1 := upd_cpu (ss m) c (with_prev_task 0)). set (s2 := upd_task s1 t (with_on_cpu false)).
  assert (Hsq2 : same_queues (ss m) s2) by (destruct (upd_same_queues s1 t (with_on_cpu false)) as [A B]; [done|split; [exact A|exact B]]).
  assert (Hr2 : rqi s2) by (by eapply rqi_frame). assert (Hlen2 : length (cpus s2) = length (cpus (ss m))) by (simpl; apply length_alter).
  assert (Hk2 : tasks s2 !! t = Some (with_on_cpu false k)) by (unfold s2; rewrite tasks_upd, decide_True by done; simpl; by rewrite Hk).
  assert (Eat2 : task_at s2 t = with_on_cpu false k) by (unfold task_at; by rewrite Hk2).
  assert (Hcpu2 : forall d, ccore (cpu_at s2 d) = (current (cpu_at (ss m) d), (if decide (d = c) then 0 else prev_task (cpu_at (ss m) d)), idle_task (cpu_at (ss m) d))).
  { intros d. change (cpu_at s2 d) with (cpu_at s1 d). unfold s1. rewrite cpu_at_upd_eq by done. destruct (decide (d = c)) as [->|]; done. }
  assert (Hcv2 : cv s2 t = Some (st, false, i)) by (rewrite (cv_some _ _ _ Hk2); simpl; congruence).
  assert (Ho2 : forall x, x <> t -> cv s2 x = cv (ss m) x) by (intros x Hx; unfold s2; rewrite cv_upd, decide_False by done; done).
  assert (Hgo : forall s', rqi s' -> same_core s2 s' -> (forall y, queued s' y <-> queued (ss m) y \/ (y = t /\ state k = TASK_READY /\ ready_array k = None /\ idle k = false)) -> smp_ok (with_ss m s')).
  { intros s' Hr' Hc' Hq'. assert (Hf : forall d, current (cpu_at s' d) = current (cpu_at (ss m) d) /\
      prev_task (cpu_at s' d) = (if decide (d = c) then 0 else prev_task (cpu_at (ss m) d)) /\ idle_task (cpu_at s' d) = idle_task (cpu_at (ss m) d)).
    { intros d. pose proof (sc_cpu _ _ Hc' d) as E. rewrite Hcpu2 in E. unfold ccore in E. split_and!; congruence. }
    split_and!; [done|by simpl; rewrite (sc_len _ _ Hc'), Hlen2|]. unfold inv_of. simpl. rewrite (sc_len _ _ Hc'), Hlen2.
    eapply (inv_ext _ (cv s') (cv s') (fun d => current (cpu_at (ss m) d)) _ (fun d => prev_task (cpu_at s' d)) _ (fun d => idle_task (cpu_at (ss m) d)) _ (queued s') _ (pkf m)); try done.
    - eapply (inv_return _ c t st i (state k = TASK_READY /\ ready_array k = None /\ idle k = false)); [exact I|done|done|done|done| | | | | | |].
      + by rewrite (cv_core _ _ t Hc').
      + intros x Hx. rewrite (cv_core _ _ x Hc'). by apply Ho2.
      + done.
      + intros -> ->. destruct (ready_array k) eqn:Er; [left; exists k; split; [done|by rewrite Er]|right; split_and!; congruence].
      + intros (? & _ & ?). split; congruence.
      + destruct (Hf c) as (_ & -> & _). by rewrite decide_True.
      + intros d Hd. destruct (Hf d) as (_ & -> & _). by rewrite decide_False.
    - intros d. by destruct (Hf d) as (-> & _).
    - intros d. by destruct (Hf d) as (_ & _ & ->). }
  rewrite Eat2. simpl. destruct (bool_decide (state k = TASK_READY) && bool_decide (ready_array k = None)) eqn:Eb.
  - apply andb_true_iff in Eb as [E1 E2]. apply bool_decide_eq_true in E1, E2.
    destruct (enqueue_kick s2 c t _ Hr2 Hk2) as (Hr3 & Hc3 & Hq3). apply Hgo; [done|done|]. intros y. rewrite Hq3, (same_queues_queued _ _ y Hsq2). simpl. tauto.
  - apply Hgo; [done|done|]. intros y. rewrite (same_queues_queued _ _ y Hsq2). split; [by left|]. intros [?|(_ & E1 & E2 & _)]; [done|].
    rewrite !bool_decide_true in Eb by done. done.
Qed.

Lemma wake_ok m c t : smp_ok m -> is_Some (tasks (ss m) !! t) -> smp_ok (with_ss m (sched_wake_task (ss m) c t)).
Proof.
  intros Hok [k Hk]. unfold sched_wake_task. destruct (t =? 0); [by destruct m|].
  assert (Eat : task_at (ss m) t = k) by (unfold task_at; by rewrite Hk). rewrite Eat.
  destruct (decide (state k = TASK_BLOCKED)) as [Eb|]; [|by destruct m].
  set (s1 := upd_task (ss m) t _). set (s2 := if PRIO_BONUS_MAX <? _ then _ else s1). set (s3 := upd_task s2 t _).
  assert (H2 : same_queues (ss m) s2 /\ (exists k2, tasks s2 !! t = Some k2 /\ on_cpu k2 = on_cpu k /\ idle k2 = idle k) /\
    (forall x, x <> t -> cv s2 x = cv (ss m) x) /\ cpus s2 = cpus (ss m)).
  { unfold s2. assert (Hsq1 : same_queues (ss m) s1) by (by apply upd_same_queues).
    assert (Hk1 : tasks s1 !! t = Some (with_bonus (prio_bonus k + PRIO_WAKE_BONUS) k)) by (unfold s1; by rewrite tasks_upd, decide_True, Hk).
    assert (Ho1 : forall x, x <> t -> cv s1 x = cv (ss m) x) by (intros x Hx; unfold s1; by rewrite cv_upd, decide_False).
    destruct (PRIO_BONUS_MAX <? _).
    - split_and!; [| | |done].
      + destruct (upd_same_queues s1 t (with_bonus PRIO_BONUS_MAX)) as [A B]; [done|]. destruct Hsq1 as [A1 B1]. split; intros; [by rewrite A|by rewrite B].
      + eexists. by rewrite tasks_upd, decide_True, Hk1.
      + intros x Hx. rewrite cv_upd, decide_False by done. auto.
    - split_and!; [done| |done|done]. eexists. by rewrite Hk1. }
  destruct H2 as (A1 & (k2 & A2 & A3 & A4) & A5 & A6). clearbody s2.
  apply (ok_ready m c t k s3); [done|done|by left| | | |].
  - destruct (upd_same_queues s2 t (with_state TASK_READY)) as [A B]; [done|]. destruct A1 as [C1 D1]. split; intros; [unfold s3; by rewrite A|unfold s3; by rewrite B].
  - split; [by unfold s3; simpl; rewrite A6|]. intros d. unfold cpu_at, s3; simpl. by rewrite A6.
  - unfold s3. rewrite cv_upd, decide_True, A2 by done. simpl. congruence.
  - intros x Hx. unfold s3. rewrite cv_upd, decide_False by done. auto.
Qed.

Lemma continue_ok m c t : smp_ok m -> is_Some (tasks (ss m) !! t) -> smp_ok (with_ss m (sched_continue_task (ss m) c t)).
Proof.
  intros Hok [k Hk]. unfold sched_continue_task. destruct (t =? 0); [by destruct m|].
  assert (Eat : task_at (ss m) t = k) by (unfold task_at; by rewrite Hk). rewrite Eat.
  destruct (decide (state k = TASK_STOPPED)) as [Eb|]; [|by destruct m].
  apply (ok_ready m c t k); [done|done|by right|by apply upd_same_queues|done| |].
  - by rewrite cv_upd, decide_True, Hk.
  - intros x Hx. by rewrite cv_upd, decide_False.
Qed.

(** Setting a task's state, off the queue or not. *)
Lemma set_state_facts s t st k : rqi s -> tasks s !! t = Some k ->
  let s' := upd_task (rq_dequeue s t) t (with_state st) in
  rqi s' /\ same_cpus s s' /\ cv s' t = Some (st, on_cpu k, idle k) /\ (forall x, x <> t -> cv s' x = cv s x) /\
  (forall y, queued s' y <-> y <> t /\ queued s y).
Proof.
  intros Hr Hk s'. destruct (dequeue_spec s t Hr) as (Hr1 & Hc1 & Hq1 & _). set (s1 := rq_dequeue s t) in *.
  assert (Hsq : same_queues s1 s') by (by apply upd_same_queues). destruct (core_lookup _ _ t k Hc1 Hk) as (k1 & Hk1 & E1).
  split_and!.
  - by eapply rqi_frame.
  - destruct (same_core_cpus _ _ Hc1) as [A B]. split; [exact A|exact B].
  - unfold s'. rewrite cv_upd, decide_True, Hk1 by done. simpl. unfold core in E1. congruence.
  - intros x Hx. unfold s'. rewrite cv_upd, decide_False by done. by apply cv_core.
  - intros y. by rewrite (same_queues_queued _ _ y Hsq).
Qed.

(** The running task writes its own state; it is on no queue. *)
Lemma self_state_ok m c st : smp_ok m -> exec m c ->
  (idle (task_at (ss m) (current (cpu_at (ss m) c))) = true -> st = TASK_RUNNING \/ st = TASK_READY) ->
  smp_ok (with_ss m (upd_task (ss m) (current (cpu_at (ss m) c)) (with_state st))).
Proof.
  intros Hok He Hid. destruct (exec_facts m c Hok He) as (k & Hk & Hon & Hnq & _). set (t := current (cpu_at (ss m) c)) in *.
  assert (Eat : task_at (ss m) t = k) by (unfold task_at; by rewrite Hk).
  assert (Hsq : same_queues (ss m) (upd_task (ss m) t (with_state st))) by (by apply upd_same_queues).
  apply (ok_self m c t _ st); try done.
  - eapply rqi_frame; [exact Hsq|apply Hok].
  - by rewrite cv_upd, decide_True, Hk, Eat.
  - intros x Hx. by rewrite cv_upd, decide_False.
  - intros y. rewrite (same_queues_queued _ _ y Hsq). split; [|tauto]. intros Hy. split; [|done]. by intros ->.
Qed.

Lemma yield_ok m c : smp_ok m -> exec m c -> smp_ok (with_ss m (sched_yield (ss m) c (current (cpu_at (ss m) c)))).
Proof.
  intros Hok He. unfold sched_yield. destruct (_ =? 0); [by destruct m|].
  destruct (negb false && _); [|by destruct m].
  set (t := current (cpu_at (ss m) c)). set (m1 := with_ss m (upd_task (ss m) t (with_quantum 0))).
  assert (Hok1 : smp_ok m1) by (by apply ok_fields). assert (He1 : exec m1 c) by done.
  apply (self_state_ok m1 c TASK_READY Hok1 He1). by right.
Qed.

Lemma idle_ok m c : smp_ok m -> exec m c -> smp_ok (with_ss m (sched_idle (ss m) c).2).
Proof.
  intros Hok He. unfold sched_idle. set (s1 := set_idle_mask (ss m) _).
  assert (Hok1 : smp_ok (with_ss m s1)).
  { assert (Hsq : same_queues (ss m) s1) by done. apply ok_view; try done. eapply rqi_frame; [exact Hsq|apply Hok]. }
  destruct (sched_has_ready s1); [|done]. by apply (yield_ok (with_ss m s1) c).
Qed.

Lemma new_ok m c t k : smp_ok m -> t <> 0 -> tasks (ss m) !! t = None -> state k = TASK_READY \/ state k = TASK_BLOCKED ->
  ready_array k = None -> on_cpu k = false -> idle k = false ->
  smp_ok (with_ss m (let s := set_tasks (ss m) (<[t := k]> (tasks (ss m))) in if decide (state k = TASK_READY) then ready_enqueue s c t else s)).
Proof.
  intros (Hr & Hl & I) Ht0 Hn Hst Hra Hon Hid. cbv zeta. set (s1 := set_tasks (ss m) _).
  assert (Hk1 : tasks s1 !! t = Some k) by (unfold s1; simpl; by rewrite lookup_insert_eq).
  assert (Ho1 : forall x, x <> t -> tasks s1 !! x = tasks (ss m) !! x) by (intros x Hx; unfold s1; simpl; by rewrite lookup_insert_ne).
  assert (Hq1 : forall y, queued s1 y <-> queued (ss m) y).
  { intros y. unfold queued. destruct (decide (y = t)) as [->|Hne]; [|by rewrite Ho1]. rewrite Hk1, Hn. split; [|by intros (? & ? & _)].
    intros (k' & [= <-] & [? E]). congruence. }
  assert (Hr1 : rqi s1).
  { destruct Hr as [L R]. exists L. assert (Hat : forall x, x <> t -> task_at s1 x = task_at (ss m) x) by (intros x Hx; unfold task_at; by rewrite Ho1).
    assert (Hmem : forall b p x, 0 <= p < 32 -> x ∈ L b p -> x <> t) by (intros b p x Hp Hx ->; apply (rq_mem _ _ R) in Hx as (? & ? & _); [congruence|done]).
    split; try apply R.
    - rewrite Ho1 by done. apply R.
    - intros b p Hp. destruct (rq_dll _ _ R b p Hp) as (Hd & ? & ?). split_and!; try done. eapply is_dll_frame; [|exact Hd].
      intros x Hx. unfold rpv, rnx. rewrite Hat by (by eapply Hmem). done.
    - intros b p x Hp. destruct (decide (x = t)) as [->|Hne]; [|rewrite Ho1 by done; by apply R]. rewrite Hk1. split.
      + intros Hx. by destruct (Hmem b p t Hp Hx).
      + intros (k' & [= <-] & ? & _). congruence.
    - intros x kx b Hx Hb. destruct (decide (x = t)) as [->|Hne]; [congruence|]. rewrite Ho1 in Hx by done. by eapply R. }
  assert (Hgo : forall s', rqi s' -> same_core s1 s' -> (forall y, queued s' y <-> queued (ss m) y \/ (y = t /\ state k = TASK_READY)) -> smp_ok (with_ss m s')).
  { intros s' Hr' Hc' Hq'. assert (Hsc : same_cpus (ss m) s') by (destruct (same_core_cpus _ _ Hc') as [A B]; split; [exact A|exact B]).
    split_and!; [done|by simpl; rewrite Hl; symmetry; apply Hsc|]. change (inv_of s' (pkf m)). apply (inv_of_cpus (ss m)); [done|].
    eapply (inv_new t (state k)); [exact I|done|by unfold cv; rewrite Hn| | |done].
    - rewrite (cv_core _ _ t Hc'), (cv_some _ _ _ Hk1). congruence.
    - intros x Hx. rewrite (cv_core _ _ x Hc'). unfold cv. by rewrite Ho1. }
  destruct (decide (state k = TASK_READY)) as [Er|Er].
  - unfold ready_enqueue. rewrite (proj2 (Z.eqb_neq t 0)) by done. destruct (enqueue_kick s1 c t k Hr1 Hk1) as (Hr2 & Hc2 & Hq2).
    apply Hgo; [done|done|]. intros y. rewrite Hq2, Hq1. tauto.
  - apply Hgo; [done|done|]. intros y. rewrite Hq1. tauto.
Qed.

Lemma dead_ok m c t : smp_ok m -> exec m c -> state (task_at (ss m) t) = TASK_ZOMBIE \/ self m c t ->
  smp_ok (with_ss m (ready_dequeue (upd_task (ss m) t (with_state TASK_DEAD)) t)).
Proof.
  intros Hok He Hz. pose proof Hok as (Hr & Hl & I).
  assert (Hk : exists k, tasks (ss m) !! t = Some k).
  { destruct Hz as [Hz|(_ & -> & _)]; [|by destruct (exec_facts m c Hok He) as (k & Hk & _); exists k].
    unfold task_at in Hz. destruct (tasks (ss m) !! t) as [k|]; [by exists k|done]. }
  destruct Hk as [k Hk]. assert (Eat : task_at (ss m) t = k) by (unfold task_at; by rewrite Hk). rewrite Eat in Hz.
  assert (Ht0 : t <> 0) by (intros ->; destruct Hr as [L R]; by rewrite (rq_null _ _ R) in Hk).
  unfold ready_dequeue. rewrite (proj2 (Z.eqb_neq t 0)) by done. set (s1 := upd_task (ss m) t (with_state TASK_DEAD)).
  assert (Hsq1 : same_queues (ss m) s1) by (by apply upd_same_queues). assert (Hr1 : rqi s1) by (by eapply rqi_frame).
  destruct (dequeue_spec s1 t Hr1) as (Hr2 & Hc2 & Hq2 & _). set (s2 := rq_dequeue s1 t) in *.
  assert (Hsc : same_cpus (ss m) s2) by (destruct (same_core_cpus _ _ Hc2) as [A B]; split; [exact A|exact B]).
  assert (Hcvt : cv s2 t = Some (TASK_DEAD, on_cpu k, idle k)) by (rewrite (cv_core _ _ t Hc2); unfold s1; by rewrite cv_upd, decide_True, Hk).
  assert (Hcvo : forall x, x <> t -> cv s2 x = cv (ss m) x) by (intros x Hx; rewrite (cv_core _ _ x Hc2); unfold s1; by rewrite cv_upd, decide_False).
  assert (Hq : forall y, queued s2 y <-> y <> t /\ queued (ss m) y) by (intros y; by rewrite Hq2, (same_queues_queued _ _ y Hsq1)).
  destruct Hz as [Hz|(_ & Et & Hid)].
  - split_and!; [done|by simpl; rewrite Hl; symmetry; apply Hsc|]. change (inv_of s2 (pkf m)). apply (inv_of_cpus (ss m)); [done|].
    eapply (inv_task t (state k) (on_cpu k) (idle k) TASK_DEAD False); [exact I|by apply cv_some|done|done|intros y; rewrite Hq; tauto| |done| |tauto].
    + intros Hid. pose proof (cv_some _ _ _ Hk) as E. rewrite Hid in E. destruct (i_idle _ _ _ _ _ _ _ I t _ _ E) as [[?|?] _]; congruence.
    + intros d Hd E. destruct (i_pk _ _ _ _ _ _ _ I d t Hd E) as (s & o & i & A & _ & D & G & _). rewrite (cv_some _ _ _ Hk) in A. injection A as <- <- <-.
      split; [tauto|]. intros Hi. specialize (D Hi). congruence.
  - apply (ok_self m c t s2 TASK_DEAD); try done; [congruence|by rewrite Eat].
Qed.

Lemma reap_ok m t : smp_ok m -> state (task_at (ss m) t) = TASK_DEAD -> on_cpu (task_at (ss m) t) = false ->
  smp_ok (with_ss m (let s := ready_dequeue (ss m) t in set_tasks s (delete t (tasks s)))).
Proof.
  intros Hok Hst Hon. pose proof Hok as (Hr & Hl & I). cbv zeta.
  destruct (tasks (ss m) !! t) as [k|] eqn:Hk; unfold task_at in Hst, Hon; rewrite Hk in Hst, Hon; [|done]. simpl in Hst, Hon.
  assert (Ht0 : t <> 0) by (intros ->; destruct Hr as [L R]; by rewrite (rq_null _ _ R) in Hk).
  unfold ready_dequeue. rewrite (proj2 (Z.eqb_neq t 0)) by done.
  destruct (dequeue_spec (ss m) t Hr) as (Hr1 & Hc1 & Hq1 & _). set (s1 := rq_dequeue (ss m) t) in *. set (s2 := set_tasks s1 _).
  assert (Hn : ~ queued s1 t) by (rewrite Hq1; tauto).
  assert (Hl2 : forall x, x <> t -> tasks s2 !! x = tasks s1 !! x) by (intros x Hx; unfold s2; simpl; by rewrite lookup_delete_ne).
  assert (Hl2t : tasks s2 !! t = None) by (unfold s2; simpl; by rewrite lookup_delete_eq).
  assert (Hr2 : rqi s2).
  { destruct Hr1 as [L R]. exists L. assert (Hmem : forall b p x, 0 <= p < 32 -> x ∈ L b p -> x <> t).
    { intros b p x Hp Hx ->. apply (rq_mem _ _ R) in Hx as (k' & ? & Hb & _); [|done]. apply Hn. exists k'. split; [done|]. by eexists. }
    split; try apply R.
    - rewrite Hl2 by done. apply R.
    - intros b p Hp. destruct (rq_dll _ _ R b p Hp) as (Hd & ? & ?). split_and!; try done. eapply is_dll_frame; [|exact Hd].
      intros x Hx. unfold rpv, rnx, task_at. rewrite Hl2 by (by eapply Hmem). done.
    - intros b p x Hp. destruct (decide (x = t)) as [->|Hne]; [|rewrite Hl2 by done; by apply R]. rewrite Hl2t. split; [|by intros (? & ? & _)].
      intros Hx. by destruct (Hmem b p t Hp Hx).
    - intros x kx b Hx Hb. destruct (decide (x = t)) as [->|Hne]; [congruence|]. rewrite Hl2 in Hx by done. by eapply R. }
  assert (Hq2 : forall y, queued s2 y <-> y <> t /\ queued (ss m) y).
  { intros y. rewrite <- Hq1. unfold queued at 1. destruct (decide (y = t)) as [->|Hne]; [|rewrite Hl2 by done; reflexivity]. rewrite Hl2t.
    split; [by intros (? & ? & _)|done]. }
  assert (Hsc : same_cpus (ss m) s2) by (destruct (same_core_cpus _ _ Hc1) as [A B]; split; [exact A|exact B]).
  split_and!; [done|by simpl; rewrite Hl; symmetry; apply Hsc|]. change (inv_of s2 (pkf m)). apply (inv_of_cpus (ss m)); [done|].
  assert (Hid : idle k = false).
  { destruct (idle k) eqn:Hid; [|done]. pose proof (cv_some _ _ _ Hk) as E. rewrite Hid in E. destruct (i_idle _ _ _ _ _ _ _ I t _ _ E) as [[?|?] _]; congruence. }
  eapply (inv_gone t TASK_DEAD); [exact I| |done| | |exact Hq2].
  - rewrite (cv_some _ _ _ Hk). congruence.
  - unfold cv. by rewrite Hl2t.
  - intros x Hx. rewrite <- (cv_core _ _ x Hc1). unfold cv. by rewrite Hl2.
Qed.

Lemma step_ok m m' : smp_step m m' -> smp_ok m -> smp_ok m'.
Proof.
  intros Hs Hok. destruct Hs as [m c h next s' He Hh E|m c next ctx now Hc Hp Hon|m c Hc Hp|m c t He Ht|m c t He Ht|m c t Hs|m c t Hs|m c He|m c He|m c t st Hs Hst|
    m c t k He Ht0 Hn Hst Hra Hon Hid|m c t He Hz|m c t He Hst Hon|m n].
  - by eapply choose_ok.
  - by apply switch_ok.
  - by apply return_ok.
  - by apply wake_ok.
  - by apply continue_ok.
  - destruct Hs as (He & -> & Hid). destruct (exec_facts m c Hok He) as (k & Hk & _). unfold sched_block.
    destruct (_ =? 0); [by destruct m|]. unfold sched_set_blocked.
    destruct (set_state_facts (ss m) _ TASK_BLOCKED k (proj1 Hok) Hk) as (A1 & A2 & A3 & A4 & A5).
    eapply (ok_self m c _ _ TASK_BLOCKED); try done; [congruence|]. unfold task_at. by rewrite Hk.
  - destruct Hs as (He & -> & Hid). unfold sched_set_running. destruct (state _); try (by destruct m); apply self_state_ok; auto.
  - by apply yield_ok.
  - by apply idle_ok.
  - destruct Hs as (He & -> & Hid). apply self_state_ok; [done|done|congruence].
  - by apply new_ok.
  - by apply (dead_ok m c).
  - by apply reap_ok.
  - apply ok_view; try done. eapply rqi_frame; [|apply Hok]. done.
Qed.

(** ** Boot *)

Lemma ccore_inv k a b d : ccore k = (a, b, d) -> current k = a /\ prev_task k = b /\ idle_task k = d.
Proof. unfold ccore. intros E. split_and!; congruence. Qed.

Definition PRIO_DEFAULT : Z := 16.

(** The kernel task as [sched_bootstrap] leaves it: running on the first CPU. *)
Definition kernel_task (ctx map : Z) : task :=
  {| state := TASK_RUNNING; quantum_remaining := QUANTUM; prio_base := PRIO_DEFAULT; prio_bonus := 0; ready_prio := 0;
     ready_array := None; ready_prev := 0; ready_next := 0; on_cpu := true; idle := false; cpu_time := 0; run_tsc := 0;
     context := ctx; kernel_stack := 0; page_map := map; fs_base := 0 |}.

(** [sched_create_idle_task]; the first CPU's is off the CPU until the kernel task sleeps. *)
Definition sched_create_idle_task (on : bool) (stack map : Z) : task :=
  {| state := TASK_RUNNING; quantum_remaining := QUANTUM; prio_base := PRIO_LEVELS - 1; prio_bonus := 0; ready_prio := 0;
     ready_array := None; ready_prev := 0; ready_next := 0; on_cpu := on; idle := true; cpu_time := 0; run_tsc := 0;
     context := 0; kernel_stack := stack; page_map := map; fs_base := 0 |}.

Definition boot_cpu (cur idl : Z) : cpu :=
  {| current := cur; prev_task := 0; idle_task := idl; need_resched := false; switch_tsc := 0; busy_tsc := 0;
     idle_tsc := 0; rsp0 := 0; kernel_rsp := 0; active_cr3 := 0; tlb_flush := false; msr_fs_base := 0 |}.

Definition empty_array : prio_array := {| bitmap := 0; heads := replicate 32 0; tails := replicate 32 0 |}.

(** The kernel task [kt] runs on the first CPU, whose idle task is [i0]; every other CPU runs
    its own idle task of [aps]. *)
Definition sched_bootstrap (kt i0 : Z) (aps : list Z) (ctx map : Z) : smp :=
  {| ss := {| tasks := <[kt := kernel_task ctx map]> (<[i0 := sched_create_idle_task false 0 map]>
                (gset_to_gmap (sched_create_idle_task true 0 map) (list_to_set aps)));
              array0 := empty_array; array1 := empty_array; active := false; expired_since := 0; timer_ticks := 0;
              idle_mask := 0; cpus := boot_cpu kt i0 :: ((fun i => boot_cpu i i) <$> aps); ipis := [] |};
     picked := replicate (S (length aps)) None |}.

Section Boot.

Context (kt i0 : Z) (aps : list Z) (ctx map : Z) (Hnd : NoDup (0 :: kt :: i0 :: aps)).

#[local] Definition m0 : smp := sched_bootstrap kt i0 aps ctx map.

#[local] Lemma boot_distinct : kt <> 0 /\ i0 <> 0 /\ kt <> i0 /\ (forall a, a ∈ aps -> a <> 0 /\ a <> kt /\ a <> i0) /\ NoDup aps.
Proof.
  apply list.NoDup_cons in Hnd as [H0 Hn]. apply list.NoDup_cons in Hn as [H1 Hn]. apply list.NoDup_cons in Hn as [H2 Hn].
  rewrite !not_elem_of_cons in H0. rewrite !not_elem_of_cons in H1. destruct H0 as (A & B & C), H1 as (D & E).
  split_and!; [congruence|congruence|done| |done]. intros a Ha. split_and!; by intros ->.
Qed.

#[local] Lemma boot_tasks x k : tasks (ss m0) !! x = Some k ->
  x = kt /\ k = kernel_task ctx map \/ x = i0 /\ k = sched_create_idle_task false 0 map \/
  x ∈ aps /\ k = sched_create_idle_task true 0 map.
Proof.
  simpl. intros [[<- <-]|[_ H]]%lookup_insert_Some; [by left|]. right.
  apply lookup_insert_Some in H as [[<- <-]|[_ H]]; [by left|]. right.
  apply lookup_gset_to_gmap_Some in H as [H <-]. by apply elem_of_list_to_set in H.
Qed.

#[local] Lemma boot_lookup :
  tasks (ss m0) !! kt = Some (kernel_task ctx map) /\ tasks (ss m0) !! i0 = Some (sched_create_idle_task false 0 map) /\
  (forall a, a ∈ aps -> tasks (ss m0) !! a = Some (sched_create_idle_task true 0 map)).
Proof.
  destruct boot_distinct as (A & B & C & D & E). simpl. split_and!.
  - by rewrite lookup_insert_eq.
  - by rewrite lookup_insert_ne, lookup_insert_eq.
  - intros a Ha. destruct (D a Ha) as (? & ? & ?). rewrite !lookup_insert_ne by done. apply lookup_gset_to_gmap_Some.
    split; [by apply elem_of_list_to_set|done].
Qed.

#[local] Lemma boot_cpu_at c : (c < length (cpus (ss m0)))%nat ->
  c = 0%nat /\ ccore (cpu_at (ss m0) c) = (kt, 0, i0) \/
  exists d a, c = S d /\ aps !! d = Some a /\ ccore (cpu_at (ss m0) c) = (a, 0, a).
Proof.
  destruct c as [|d]; [by left|]. simpl. rewrite length_fmap. intros Hd. right.
  assert (Hs : is_Some (aps !! d)) by (apply lookup_lt_is_Some; lia). destruct Hs as [a Ha]. exists d, a. split_and!; try done.
  unfold cpu_at. simpl. by rewrite list_lookup_fmap, Ha.
Qed.

Lemma boot_ok : smp_ok m0.
Proof.
  destruct boot_distinct as (D1 & D2 & D3 & D4 & D5). destruct boot_lookup as (L1 & L2 & L3).
  assert (Hnq : forall y, ~ queued (ss m0) y).
  { intros y (k & Hk & [b Hb]). apply boot_tasks in Hk as [[_ ->]|[[_ ->]|[_ ->]]]; done. }
  assert (Hpk : forall c, pkf m0 c = None).
  { intros c. unfold pkf, m0, sched_bootstrap. cbn [picked]. destruct (replicate _ None !! c) eqn:E; [|done]. by apply lookup_replicate in E as [-> _]. }
  assert (H0 : tasks (ss m0) !! 0 = None).
  { destruct (tasks (ss m0) !! 0) eqn:E; [|done]. apply boot_tasks in E as [[? _]|[[? _]|[H _]]]; try congruence. by destruct (D4 0 H). }
  assert (Harr : forall b, array_at (ss m0) b = empty_array) by (by intros []).
  assert (Hlv : forall p, default 0 (replicate 32 0 !! Z.to_nat p) = 0).
  { intros p. destruct (replicate 32 0 !! Z.to_nat p) eqn:E; [|done]. by apply lookup_replicate in E as [-> _]. }
  split_and!.
  - exists (fun _ _ => []). split.
    + done.
    + intros b. by rewrite Harr.
    + intros b p Hp. rewrite Harr. unfold head_of, tail_of. cbn [heads tails empty_array]. rewrite Hlv. split_and!; try done. apply NoDup_nil_2.
    + intros b. rewrite Harr. split; [done|]. intros p _. by rewrite Z.bits_0.
    + intros b p x _. split; [intros Hx; by apply not_elem_of_nil in Hx|]. intros (k & Hk & Hb & _). exfalso. apply (Hnq x). exists k. split; [done|by eexists].
    + intros x k b Hk Hb. exfalso. apply (Hnq x). exists k. split; [done|by eexists].
  - unfold m0, sched_bootstrap. cbn [picked ss cpus]. rewrite length_replicate. simpl. by rewrite length_fmap.
  - assert (Hcur : forall c, (c < length (cpus (ss m0)))%nat -> exists idl, ccore (cpu_at (ss m0) c) = (current (cpu_at (ss m0) c), 0, idl) /\ idl <> 0 /\
      cv (ss m0) (current (cpu_at (ss m0) c)) = Some (TASK_RUNNING, true, negb (bool_decide (c = 0%nat))) /\
      (c <> 0%nat -> idl = current (cpu_at (ss m0) c)) /\ exists o, cv (ss m0) idl = Some (TASK_RUNNING, o, true)).
    { intros c Hc. destruct (boot_cpu_at c Hc) as [[-> E]|(d & a & -> & Ha & E)]; destruct (ccore_inv _ _ _ _ E) as (E1 & _ & E3); rewrite E1.
      - exists i0. rewrite E, (cv_some _ _ _ L1), (cv_some _ _ _ L2). split_and!; try done. by eexists.
      - assert (Hin : a ∈ aps) by (by eapply list_elem_of_lookup_2). destruct (D4 a Hin) as (? & ? & ?). exists a. rewrite E, (cv_some _ _ _ (L3 a Hin)).
        split_and!; try done. by eexists. }
    assert (Hinj : forall c d, (c < length (cpus (ss m0)))%nat -> (d < length (cpus (ss m0)))%nat ->
      (current (cpu_at (ss m0) c) = current (cpu_at (ss m0) d) -> c = d) /\ (idle_task (cpu_at (ss m0) c) = idle_task (cpu_at (ss m0) d) -> c = d)).
    { intros c d Hc Hd. destruct (boot_cpu_at c Hc) as [[-> E]|(c' & a & -> & Ha & E)], (boot_cpu_at d Hd) as [[-> F]|(d' & a' & -> & Ha' & F)];
        destruct (ccore_inv _ _ _ _ E) as (E1 & _ & E2), (ccore_inv _ _ _ _ F) as (F1 & _ & F2); rewrite ?E1, ?E2, ?F1, ?F2; [done| | |].
      - apply list_elem_of_lookup_2 in Ha'. destruct (D4 a' Ha') as (? & ? & ?). split; congruence.
      - apply list_elem_of_lookup_2 in Ha. destruct (D4 a Ha) as (? & ? & ?). split; congruence.
      - split; intros ->; f_equal; by eapply NoDup_lookup. }
    assert (Hprv : forall c, (c < length (cpus (ss m0)))%nat -> prev_task (cpu_at (ss m0) c) = 0).
    { intros c Hc. destruct (Hcur c Hc) as (idl & E & _). by apply ccore_inv in E as (_ & -> & _). }
    assert (Hidl : forall c, (c < length (cpus (ss m0)))%nat -> exists o, cv (ss m0) (idle_task (cpu_at (ss m0) c)) = Some (TASK_RUNNING, o, true)).
    { intros c Hc. destruct (Hcur c Hc) as (idl & E & _ & _ & _ & Ho). by apply ccore_inv in E as (_ & _ & ->). }
    split.
    + unfold cv. by rewrite H0.
    + intros c Hc. destruct (Hcur c Hc) as (idl & _ & _ & E & _). eauto.
    + intros c d Hc Hd. by apply Hinj.
    + intros c Hc Hz. by rewrite Hprv in Hz.
    + intros c d Hc Hd Hz. by rewrite Hprv in Hz.
    + intros t st i Ht. apply cv_at in Ht as (k & Hk & _ & Ek). apply boot_tasks in Hk as [[-> ->]|[[-> ->]|[Hin ->]]]; [|done|].
      * exists 0%nat. split; [simpl; lia|by left].
      * apply list_elem_of_lookup in Hin as [d Hd]. exists (S d). pose proof (lookup_lt_Some _ _ _ Hd). split; [simpl; rewrite length_fmap; lia|].
        left. unfold cpu_at. simpl. by rewrite list_lookup_fmap, Hd.
    + intros t Ht. apply cv_at in Ht as (k & Hk & _ & Ek). apply boot_tasks in Hk as [[-> ->]|[[-> ->]|[Hin ->]]]; done.
    + intros c t Hc. by rewrite Hpk.
    + intros c d t Hc Hd. by rewrite Hpk.
    + intros c Hc _. apply Hnq.
    + intros c Hc _. destruct (Hidl c Hc) as [o E]. eauto.
    + intros c d Hc Hd _. by apply Hinj.
    + intros c st o Hc Ht. destruct (Hcur c Hc) as (idl & E & _ & Ec & Ei & _). rewrite Ec in Ht. injection Ht as _ _ Hi.
      apply negb_true_iff, bool_decide_eq_false in Hi. apply ccore_inv in E as (_ & _ & ->). symmetry. auto.
    + intros t st o Ht. split; [|apply Hnq]. apply cv_at in Ht as (k & Hk & _ & Ek). apply boot_tasks in Hk as [[-> ->]|[[-> ->]|[Hin ->]]]; [done|left|left]; by injection Ek as -> _.
    + intros t Ht. by apply Hnq in Ht.
Qed.

End Boot.

Lemma reachable_ok kt i0 aps ctx map m : NoDup (0 :: kt :: i0 :: aps) -> rtc smp_step (sched_bootstrap kt i0 aps ctx map) m -> smp_ok m.
Proof.
  intros Hnd Hr. remember (sched_bootstrap kt i0 aps ctx map) as m0 eqn:E.
  assert (H0 : smp_ok m0) by (subst m0; by apply boot_ok). clear E. induction Hr as [|m1 m2 m3 Hs _ IH]; [done|]. apply IH. by eapply step_ok.
Qed.

(** ** What holds in every reachable state *)

(** C1. In every state the CPUs can reach from boot, in any interleaving of timer ticks,
    yields, switches, wake-ups, blocks, exits, task creation and reaping: the run queue's
    lists, tails and bitmaps agree with the tasks; no task is current on two CPUs; and a task
    that is ready is in one of the queues or still on a CPU, which puts it in line when it
    lets go of it. *)
Theorem smp_scheduling_safe kt i0 aps ctx map m :
  NoDup (0 :: kt :: i0 :: aps) -> rtc smp_step (sched_bootstrap kt i0 aps ctx map) m ->
  exists L, rq_ok (ss m) L /\
    (forall c d, (c < length (cpus (ss m)))%nat -> (d < length (cpus (ss m)))%nat ->
      current (cpu_at (ss m) c) = current (cpu_at (ss m) d) -> c = d) /\
    (forall t k, tasks (ss m) !! t = Some k -> state k = TASK_READY -> idle k = false ->
      (exists b p, 0 <= p < 32 /\ t ∈ L b p) \/
      (exists c, (c < length (cpus (ss m)))%nat /\ (current (cpu_at (ss m) c) = t \/ prev_task (cpu_at (ss m) c) = t))).
Proof.
  intros Hnd Hr. destruct (reachable_ok _ _ _ _ _ _ Hnd Hr) as ([L R] & _ & I). exists L. split_and!; [done| |].
  - intros c d Hc Hd. by apply (i_cur_inj _ _ _ _ _ _ _ I).
  - intros t k Hk Hst Hid. pose proof (cv_some _ _ _ Hk) as Hcv. rewrite Hst, Hid in Hcv. destruct (on_cpu k) eqn:Hon.
    + right. apply (i_on _ _ _ _ _ _ _ I t TASK_READY false). by rewrite Hcv.
    + left. destruct (i_ready _ _ _ _ _ _ _ I t Hcv) as (k' & Hk' & [b Hb]). destruct (rq_range _ _ R t k' b Hk' Hb) as [Hp _].
      exists b, (ready_prio k'). split; [done|]. apply (rq_mem _ _ R); [done|]. by exists k'.
Qed.

(** C37. [ready_pop] terminates: in every reachable state its loop ends within one round per
    task, either because no ready task is queued, or with a ready task of the best level of
    the array it chose, the other ready tasks still queued. *)
Theorem ready_pop_total kt i0 aps ctx map m :
  NoDup (0 :: kt :: i0 :: aps) -> rtc smp_step (sched_bootstrap kt i0 aps ctx map) m ->
  exists t s', ready_pop_loop (pop_fuel (ss m)) (ss m) = Some (t, s') /\
    (t = 0 -> forall y, queued (ss m) y -> y <> 0 -> state (task_at (ss m) y) <> TASK_READY) /\
    (t <> 0 -> queued (ss m) t /\ state (task_at (ss m) t) = TASK_READY /\ ready_array (task_at (ss m) t) = Some (active s') /\
      (forall x k, tasks s' !! x = Some k -> ready_array k = Some (active s') -> ready_prio (task_at s' t) <= ready_prio k)) /\
    (forall y, queued (ss m) y -> state (task_at (ss m) y) = TASK_READY -> y <> t -> queued s' y).
Proof.
  intros Hnd Hr. destruct (reachable_ok _ _ _ _ _ _ Hnd Hr) as (Hi & _).
  destruct (ready_pop_loop_spec (pop_fuel (ss m)) (ss m) Hi) as (t & s' & E & P); [unfold pop_fuel; pose proof (qset_size (ss m)); lia|].
  exists t, s'. split_and!; [done| | |].
  - intros -> y Hy Hy0 Hst. by destruct (po_kept _ _ _ P y Hy Hst Hy0).
  - intros Ht. destruct (po_task _ _ _ P Ht) as (A & B & C). split_and!; try done. by apply (po_best _ _ _ P).
  - intros y Hy Hst Hne. by apply (po_kept _ _ _ P y).
Qed.

(** C30. The scheduler does not idle while work waits: when a CPU goes to (or stays in) an idle
    task, no ready task was in a queue. *)
Theorem sched_work_conserving kt i0 aps ctx map m c next s' t :
  NoDup (0 :: kt :: i0 :: aps) -> rtc smp_step (sched_bootstrap kt i0 aps ctx map) m -> exec m c ->
  sched_next_context (ss m) c = (next, s') -> t = default (current (cpu_at (ss m) c)) next -> idle (task_at (ss m) t) = true ->
  forall y, queued (ss m) y -> state (task_at (ss m) y) <> TASK_READY.
Proof.
  intros Hnd Hr He E Et Hid y Hy Hst. pose proof (reachable_ok _ _ _ _ _ _ Hnd Hr) as Hok.
  destruct (exec_facts m c Hok He) as (k & Hk & Hon & Hnq & _). destruct (requeue_facts m c Hok He) as (st3 & Hr3 & _ & _ & Ho3 & Hq3 & _).
  destruct Hok as (Hr0 & _ & I). unfold sched_next_context in E. set (prev := current (cpu_at (ss m) c)) in *.
  set (s1 := upd_cpu (ss m) c (with_need_resched false)) in *.
  set (s2 := if decide (state (task_at s1 prev) = TASK_RUNNING) then upd_task s1 prev (with_state TASK_READY) else s1) in *.
  set (s3 := if decide (state (task_at s2 prev) = TASK_READY) then rq_enqueue s2 c prev else s2) in *. clearbody s3. clear s2 s1.
  destruct (ready_pop_spec s3 Hr3) as (u & s4 & Ep & P). rewrite Ep in E. cbv iota beta in E.
  assert (Hyp : y <> prev) by (intros ->; done). assert (Hy3 : queued s3 y) by (apply Hq3; by left).
  assert (Hst3 : state (task_at s3 y) = TASK_READY).
  { destruct Hy as (ky & Hky & _). pose proof (Ho3 y Hyp) as Ec. rewrite (cv_some _ _ _ Hky) in Ec. apply cv_at in Ec as (k3 & _ & -> & Ek).
    unfold task_at in Hst. rewrite Hky in Hst. simpl in Hst. congruence. }
  assert (Hu : u <> 0).
  { intros ->. destruct (decide (y = 0)) as [->|Hy0]; [|by destruct (po_kept _ _ _ P y Hy3 Hst3 Hy0)].
    destruct Hr0 as [L R]. destruct Hy as (? & Hy & _). by rewrite (rq_null _ _ R) in Hy. }
  destruct (po_task _ _ _ P Hu) as (Hqu & Hsu & _). rewrite (proj2 (Z.eqb_neq u 0)) in E by done.
  assert (Htu : t = u). { destruct (u =? prev) eqn:Eu; bool_prop; injection E as <- _; simpl in Et; congruence. }
  subst u. apply Hq3 in Hqu as [Hqu|(-> & _ & Hi)]; [|congruence].
  destruct Hqu as (kt' & Hkt' & Hra). unfold task_at in Hid. rewrite Hkt' in Hid. simpl in Hid. pose proof (cv_some _ _ _ Hkt') as Hc. rewrite Hid in Hc.
  destruct (i_idle _ _ _ _ _ _ _ I t _ _ Hc) as [_ Hn]. apply Hn. by exists kt'.
Qed.

(** ** A run *)

(** Two CPUs: the kernel task 4096 on the first, the idle tasks 8192 and 12288. *)
Definition demo : smp := sched_bootstrap 4096 8192 [12288] 0 0.

(** The kernel task creates a ready task and blocks; the first CPU takes the new task. *)
Definition demo_task : task :=
  {| state := TASK_READY; quantum_remaining := QUANTUM; prio_base := 16; prio_bonus := 0; ready_prio := 0;
     ready_array := None; ready_prev := 0; ready_next := 0; on_cpu := false; idle := false; cpu_time := 0; run_tsc := 0;
     context := 5; kernel_stack := 65536; page_map := 7; fs_base := 0 |}.

Definition demo1 : smp :=
  with_ss demo (let s := set_tasks (ss demo) (<[16384 := demo_task]> (tasks (ss demo))) in
    if decide (state demo_task = TASK_READY) then ready_enqueue s 0 16384 else s).

Definition demo2 : smp := with_ss demo1 (sched_block (ss demo1) 0 4096).

Definition demo3 : smp :=
  {| ss := (sched_yield_handle (ss demo2) 0).2; picked := <[0%nat := (sched_yield_handle (ss demo2) 0).1]> (picked demo2) |}.

Lemma demo_nodup : NoDup [0; 4096; 8192; 12288].
Proof. apply (bool_decide_unpack _). vm_compute. exact I. Qed.

Lemma demo_run1 : smp_step demo demo1.
Proof. apply (step_new demo 0 16384 demo_task); try done; [|by left]. repeat split; (vm_compute; congruence) || (vm_compute; lia). Qed.

Lemma demo_run2 : smp_step demo1 demo2.
Proof.
  apply (step_block demo1 0 4096). repeat split; (vm_compute; congruence) || (vm_compute; lia).
Qed.

Lemma demo_run3 : smp_step demo2 demo3.
Proof.
  eapply (step_choose demo2 0 sched_yield_handle).
  - repeat split; (vm_compute; congruence) || (vm_compute; lia).
  - unfold switch_points. right. right. left.
  - apply surjective_pairing.
Qed.

Lemma demo_reach : rtc smp_step demo demo3.
Proof. eapply rtc_l; [exact demo_run1|]. eapply rtc_l; [exact demo_run2|]. eapply rtc_l; [exact demo_run3|]. apply rtc_refl. Qed.

Lemma smp_scheduling_safe_witness :
  picked demo3 = [Some 16384; None] /\ exists L, rq_ok (ss demo3) L /\ state (task_at (ss demo3) 16384) = TASK_RUNNING.
Proof.
  split; [vm_compute; reflexivity|].
  destruct (smp_scheduling_safe 4096 8192 [12288] 0 0 demo3 demo_nodup demo_reach) as (L & R & _). exists L. split; [exact R|vm_compute; reflexivity].
Defined.

Lemma ready_pop_total_witness : exists t s', ready_pop_loop (pop_fuel (ss demo1)) (ss demo1) = Some (t, s').
Proof.
  destruct (ready_pop_total 4096 8192 [12288] 0 0 demo1 demo_nodup (rtc_once _ _ demo_run1)) as (t & s' & E & _). exists t, s'. exact E.
Defined.

(** The second CPU looks for work after the first took the only ready task. *)
Lemma sched_work_conserving_witness :
  current (cpu_at (ss demo3) 1) = 12288 /\ forall y, queued (ss demo3) y -> state (task_at (ss demo3) y) <> TASK_READY.
Proof.
  split; [vm_compute; reflexivity|]. apply (sched_work_conserving 4096 8192 [12288] 0 0 demo3 1 (sched_next_context (ss demo3) 1).1 (sched_next_context (ss demo3) 1).2
    12288 demo_nodup demo_reach).
  - repeat split; (vm_compute; congruence) || (vm_compute; lia).
  - apply surjective_pairing.
  - vm_compute. reflexivity.
  - vm_compute. reflexivity.
Defined.
