(* ===== verification/SchedWait.v ===== *)
(** * Sleeping and waking, [kernel/src/sched/sched_wait.c]

    A task sleeps on any number of wait queues at once, through one [wait_entry_t] per queue,
    and perhaps with a deadline.  A queue is a doubly linked list of entries; the tasks with a
    deadline are on a list sorted by it, so that the timer looks at its front only.
    [wait_lock] makes each operation one step; [wsched] is the scheduler underneath, whose
    [sched_wake_task] and [sched_set_blocked] are called.

    Entries live in arrays of 32-byte records on the sleepers' stacks.  [hpet] and [ticks]
    are what [hpet_read_counter] and [timer_ticks] read. *)

From S2P Require Import Prelude Dll Sched SchedProofs.

Definition femtosecondsPerMillisecond : Z := 1000000000000.

Definition sizeof_wait_entry : Z := 32.

(** [wait_entry_t]. *)
Record wait_entry := { we_task : Z; we_queue : Z; we_prev : Z; we_next : Z }.

(** The fields of [task_t] a wait uses. *)
Record wait_task := {
  wait_entries : Z;
  wait_entry_count : Z;
  event_deadline : Z;
  deadline_queued : bool;
  deadline_prev : Z;
  deadline_next : Z;
}.

(** [wheads] are the [head] fields of the queues. *)
Record wait_state := {
  entries : gmap Z wait_entry;
  wheads : gmap Z Z;
  wtasks : gmap Z wait_task;
  deadline_head : Z;
  event_check_tick : Z;
  wsched : sched;
}.

Definition set_entries (w : wait_state) (m : gmap Z wait_entry) : wait_state :=
  {| entries := m; wheads := wheads w; wtasks := wtasks w; deadline_head := deadline_head w;
     event_check_tick := event_check_tick w; wsched := wsched w |}.

Definition set_wheads (w : wait_state) (m : gmap Z Z) : wait_state :=
  {| entries := entries w; wheads := m; wtasks := wtasks w; deadline_head := deadline_head w;
     event_check_tick := event_check_tick w; wsched := wsched w |}.

Definition set_wtasks (w : wait_state) (m : gmap Z wait_task) : wait_state :=
  {| entries := entries w; wheads := wheads w; wtasks := m; deadline_head := deadline_head w;
     event_check_tick := event_check_tick w; wsched := wsched w |}.

Definition set_deadline_head (w : wait_state) (t : Z) : wait_state :=
  {| entries := entries w; wheads := wheads w; wtasks := wtasks w; deadline_head := t;
     event_check_tick := event_check_tick w; wsched := wsched w |}.

Definition set_check_tick (w : wait_state) (t : Z) : wait_state :=
  {| entries := entries w; wheads := wheads w; wtasks := wtasks w; deadline_head := deadline_head w;
     event_check_tick := t; wsched := wsched w |}.

Definition set_wsched (w : wait_state) (s : sched) : wait_state :=
  {| entries := entries w; wheads := wheads w; wtasks := wtasks w; deadline_head := deadline_head w;
     event_check_tick := event_check_tick w; wsched := s |}.

Definition entry0 : wait_entry := {| we_task := 0; we_queue := 0; we_prev := 0; we_next := 0 |}.

Definition wtask0 : wait_task :=
  {| wait_entries := 0; wait_entry_count := 0; event_deadline := 0; deadline_queued := false; deadline_prev := 0;
     deadline_next := 0 |}.

Definition entry_at (w : wait_state) (e : Z) : wait_entry := default entry0 (entries w !! e).

Definition wtask_at (w : wait_state) (t : Z) : wait_task := default wtask0 (wtasks w !! t).

Definition whead (w : wait_state) (q : Z) : Z := default 0 (wheads w !! q).

Definition set_entry (w : wait_state) (e : Z) (v : wait_entry) : wait_state := set_entries w (<[e := v]> (entries w)).

Definition set_whead (w : wait_state) (q v : Z) : wait_state := set_wheads w (<[q := v]> (wheads w)).

Definition set_wtask (w : wait_state) (t : Z) (v : wait_task) : wait_state := set_wtasks w (<[t := v]> (wtasks w)).

Definition with_eprev (p : Z) (e : wait_entry) : wait_entry :=
  {| we_task := we_task e; we_queue := we_queue e; we_prev := p; we_next := we_next e |}.

Definition with_enext (n : Z) (e : wait_entry) : wait_entry :=
  {| we_task := we_task e; we_queue := we_queue e; we_prev := we_prev e; we_next := n |}.

Definition with_dlinks (p n : Z) (q : bool) (t : wait_task) : wait_task :=
  {| wait_entries := wait_entries t; wait_entry_count := wait_entry_count t; event_deadline := event_deadline t;
     deadline_queued := q; deadline_prev := p; deadline_next := n |}.

Definition with_dprev (p : Z) (t : wait_task) : wait_task := with_dlinks p (deadline_next t) (deadline_queued t) t.

Definition with_dnext (n : Z) (t : wait_task) : wait_task := with_dlinks (deadline_prev t) n (deadline_queued t) t.

(** [femtosecondsPerTick] is the period of the HPET. *)
Definition event_ticks_for (femtosecondsPerTick hpet_left : Z) : Z :=
  let ms := hpet_left / (femtosecondsPerMillisecond / femtosecondsPerTick) in
  if negb (ms / 2 =? 0) then ms / 2 else 1.

(** The walk of [deadline_insert]: the entries before and after the place. *)
Fixpoint deadline_place (fuel : nat) (w : wait_state) (d prev cur : Z) : Z * Z :=
  match fuel with
  | O => (prev, cur)
  | S fuel =>
    if negb (cur =? 0) && (event_deadline (wtask_at w cur) <=? d)
    then deadline_place fuel w d cur (deadline_next (wtask_at w cur))
    else (prev, cur)
  end.

Definition deadline_insert (w : wait_state) (t : Z) : wait_state :=
  let '(prev, cur) := deadline_place (size (wtasks w)) w (event_deadline (wtask_at w t)) 0 (deadline_head w) in
  let w := set_wtask w t (with_dlinks prev cur (deadline_queued (wtask_at w t)) (wtask_at w t)) in
  let w := if negb (prev =? 0) then set_wtask w prev (with_dnext t (wtask_at w prev)) else set_deadline_head w t in
  let w := if negb (cur =? 0) then set_wtask w cur (with_dprev t (wtask_at w cur)) else w in
  set_wtask w t (with_dlinks (deadline_prev (wtask_at w t)) (deadline_next (wtask_at w t)) true (wtask_at w t)).

Definition deadline_remove (w : wait_state) (t : Z) : wait_state :=
  if negb (deadline_queued (wtask_at w t)) then w
  else
    let prev := deadline_prev (wtask_at w t) in
    let next := deadline_next (wtask_at w t) in
    let w := if negb (prev =? 0) then set_wtask w prev (with_dnext next (wtask_at w prev)) else set_deadline_head w next in
    let w := if negb (next =? 0) then set_wtask w next (with_dprev prev (wtask_at w next)) else w in
    set_wtask w t (with_dlinks 0 0 false (wtask_at w t)).

Definition wait_entry_add (w : wait_state) (e t : Z) : wait_state :=
  let q := we_queue (entry_at w e) in
  let h := whead w q in
  let w := set_entry w e {| we_task := t; we_queue := q; we_prev := 0; we_next := h |} in
  let w := if negb (h =? 0) then set_entry w h (with_eprev e (entry_at w h)) else w in
  set_whead w q e.

Definition wait_entry_remove (w : wait_state) (e : Z) : wait_state :=
  let q := we_queue (entry_at w e) in
  if q =? 0 then w
  else
    let prev := we_prev (entry_at w e) in
    let next := we_next (entry_at w e) in
    let w := if negb (prev =? 0) then set_entry w prev (with_enext next (entry_at w prev)) else set_whead w q next in
    let w := if negb (next =? 0) then set_entry w next (with_eprev prev (entry_at w next)) else w in
    set_entry w e {| we_task := we_task (entry_at w e); we_queue := 0; we_prev := 0; we_next := 0 |}.

(** The address of entry [i] of the array at [base]. *)
Definition entry_addr (base i : Z) : Z := base + i * sizeof_wait_entry.

Definition wait_cleanup_locked (w : wait_state) (t : Z) : wait_state :=
  let k := wtask_at w t in
  let w := for_range (Z.to_nat (wait_entry_count k)) 0
    (fun i w => wait_entry_remove w (entry_addr (wait_entries k) i)) w in
  let k := wtask_at w t in
  let w := set_wtask w t {| wait_entries := 0; wait_entry_count := 0; event_deadline := 0;
    deadline_queued := deadline_queued k; deadline_prev := deadline_prev k; deadline_next := deadline_next k |} in
  deadline_remove w t.

Definition sched_wait_cleanup (w : wait_state) (t : Z) : wait_state := wait_cleanup_locked w t.

Definition sched_deadline_ms (femtosecondsPerTick hpet ms : Z) : Z :=
  if femtosecondsPerTick =? 0 then 1
  else hpet +w (ms *w (femtosecondsPerMillisecond / femtosecondsPerTick)).

Definition sched_deadline_passed (hpet deadline : Z) : bool := deadline <=? hpet.

Definition sched_prepare_wait (w : wait_state) (c : nat) (base count deadline femtosecondsPerTick hpet ticks : Z) : wait_state :=
  let t := current (cpu_at (wsched w) c) in
  if t =? 0 then w
  else
    let w := for_range (Z.to_nat count) 0 (fun i w => wait_entry_add w (entry_addr base i) t) w in
    let k := wtask_at w t in
    let w := set_wtask w t {| wait_entries := base; wait_entry_count := count; event_deadline := event_deadline k;
      deadline_queued := deadline_queued k; deadline_prev := deadline_prev k; deadline_next := deadline_next k |} in
    let w :=
      if negb (deadline =? 0) && negb (femtosecondsPerTick =? 0)
      then
        let k := wtask_at w t in
        let w := set_wtask w t {| wait_entries := wait_entries k; wait_entry_count := wait_entry_count k; event_deadline := deadline;
          deadline_queued := deadline_queued k; deadline_prev := deadline_prev k; deadline_next := deadline_next k |} in
        let w := deadline_insert w t in
        let tick := ticks +w event_ticks_for femtosecondsPerTick (if hpet <? deadline then deadline - hpet else 0) in
        if tick <? event_check_tick w then set_check_tick w tick else w
      else w in
    set_wsched w (sched_set_blocked (wsched w) t).

(** Whether [sched_wait_commit] yields. *)
Definition sched_wait_commit (w : wait_state) (c : nat) : bool :=
  bool_decide (state (task_at (wsched w) (current (cpu_at (wsched w) c))) = TASK_BLOCKED).

Definition sched_finish_wait (w : wait_state) (c : nat) : wait_state :=
  let t := current (cpu_at (wsched w) c) in
  let w := sched_wait_cleanup w t in
  set_wsched w (sched_set_running (wsched w) t).

(** Wakes the tasks of the entries from [e] on. *)
Fixpoint wake_entries (fuel : nat) (w : wait_state) (c : nat) (e : Z) : wait_state :=
  match fuel with
  | O => w
  | S fuel =>
    if e =? 0 then w
    else
      let w := set_wsched w (sched_wake_task (wsched w) c (we_task (entry_at w e))) in
      wake_entries fuel w c (we_next (entry_at w e))
  end.

Definition sched_wake_queue (w : wait_state) (c : nat) (q : Z) : wait_state :=
  if q =? 0 then w else wake_entries (S (size (entries w))) w c (whead w q).

(** Wakes and unlinks the first entry until there is none. *)
Fixpoint destroy_loop (fuel : nat) (w : wait_state) (c : nat) (q : Z) : wait_state :=
  match fuel with
  | O => w
  | S fuel =>
    let e := whead w q in
    if e =? 0 then w
    else
      let w := set_wsched w (sched_wake_task (wsched w) c (we_task (entry_at w e))) in
      destroy_loop fuel (wait_entry_remove w e) c q
  end.

Definition sched_wait_queue_destroy (w : wait_state) (c : nat) (q : Z) : wait_state :=
  if q =? 0 then w else destroy_loop (S (size (entries w))) w c q.

(** Wakes the front of the deadline list while its time has come. *)
Fixpoint expire_loop (fuel : nat) (w : wait_state) (c : nat) (now : Z) : wait_state :=
  match fuel with
  | O => w
  | S fuel =>
    let t := deadline_head w in
    if negb (t =? 0) && (event_deadline (wtask_at w t) <=? now)
    then
      let w := deadline_remove w t in
      expire_loop fuel (set_wsched w (sched_wake_task (wsched w) c t)) c now
    else w
  end.

Definition sched_event_tick (w : wait_state) (c : nat) (femtosecondsPerTick now ticks : Z) : wait_state :=
  if ticks <? event_check_tick w then w
  else
    let w := expire_loop (S (size (wtasks w))) w c now in
    let h := deadline_head w in
    set_check_tick w
      (if negb (h =? 0) then ticks +w event_ticks_for femtosecondsPerTick (event_deadline (wtask_at w h) -w now) else UINT64_MAX).
