(* ===== verification/SchedWaitProofs.v ===== *)
(** * Nobody sleeps through a wake-up

    Proofs about [SchedWait] (that is [kernel/src/sched/sched_wait.c]): the queues and the
    deadline list keep their shape under every operation, waking a queue leaves none of its
    sleepers blocked, the timer takes exactly the tasks whose time has come off the deadline
    list and wakes nobody else, and a task that is done waiting is on no list any more. *)

From Stdlib Require Import Sorted.
From S2P Require Import Prelude Dll Sched SchedProofs Smp SchedWait.

(** ** Wait queues *)

Definition epv (w : wait_state) (e : Z) : Z := we_prev (entry_at w e).

Definition enx (w : wait_state) (e : Z) : Z := we_next (entry_at w e).

(** Whose entry it is, and on which queue. *)
Definition einfo (w : wait_state) (e : Z) : option (Z * Z) := (fun v => (we_task v, we_queue v)) <$> entries w !! e.

(** Everything but the queues is the same. *)
Definition same_rest (w w' : wait_state) : Prop :=
  wtasks w' = wtasks w /\ deadline_head w' = deadline_head w /\ event_check_tick w' = event_check_tick w /\ wsched w' = wsched w.

Lemma same_rest_trans w1 w2 w3 : same_rest w1 w2 -> same_rest w2 w3 -> same_rest w1 w3.
Proof. intros (? & ? & ? & ?) (? & ? & ? & ?). unfold same_rest. split_and!; congruence. Qed.

Lemma entries_set w e v y : entries (set_entry w e v) !! y = if decide (y = e) then Some v else entries w !! y.
Proof. simpl. destruct (decide (y = e)) as [->|]; [by rewrite lookup_insert_eq|by rewrite lookup_insert_ne]. Qed.

Lemma entry_at_some w e v : entries w !! e = Some v -> entry_at w e = v.
Proof. unfold entry_at. by intros ->. Qed.

Lemma entry_remove_effect w e v :
  entries w !! e = Some v -> we_queue v <> 0 ->
  (we_prev v <> 0 -> is_Some (entries w !! we_prev v)) -> (we_next v <> 0 -> is_Some (entries w !! we_next v)) ->
  we_prev v <> e -> we_next v <> e ->
  let w' := wait_entry_remove w e in
  same_rest w w' /\ entries w' !! e = Some {| we_task := we_task v; we_queue := 0; we_prev := 0; we_next := 0 |} /\
  (forall y, y <> e -> einfo w' y = einfo w y /\
     epv w' y = (if decide (we_next v <> 0 /\ y = we_next v) then we_prev v else epv w y) /\
     enx w' y = (if decide (we_prev v <> 0 /\ y = we_prev v) then we_next v else enx w y)) /\
  wheads w' = (if we_prev v =? 0 then <[we_queue v := we_next v]> (wheads w) else wheads w).
Proof.
  intros Hv Hq Hp Hn Hpe Hne w'. unfold w', wait_entry_remove. rewrite (entry_at_some _ _ _ Hv), (proj2 (Z.eqb_neq _ 0) Hq).
  set (p := we_prev v) in *. set (n := we_next v) in *. set (q := we_queue v) in *.
  set (w1 := if negb (p =? 0) then _ else _).
  assert (H1 : same_rest w w1 /\ entries w1 !! e = Some v /\ (forall y, einfo w1 y = einfo w y) /\
    (forall y, epv w1 y = epv w y) /\ (forall y, enx w1 y = if decide (p <> 0 /\ y = p) then n else enx w y) /\
    wheads w1 = (if p =? 0 then <[q := n]> (wheads w) else wheads w)).
  { unfold w1. destruct (p =? 0) eqn:Ez; bool_prop; cbn [negb].
    - split_and!; try done. intros y. by rewrite decide_False by tauto.
    - destruct (Hp Ez) as [vp Hvp]. rewrite (entry_at_some _ _ _ Hvp). split_and!; try done.
      + by rewrite entries_set, decide_False by congruence.
      + intros y. unfold einfo. rewrite entries_set. destruct (decide (y = p)) as [->|]; [by rewrite Hvp|done].
      + intros y. unfold epv, entry_at. rewrite entries_set. destruct (decide (y = p)) as [->|]; [by rewrite Hvp|done].
      + intros y. unfold enx, entry_at. rewrite entries_set. destruct (decide (y = p)) as [->|]; [by rewrite decide_True|by rewrite decide_False by tauto]. }
  destruct H1 as (A1 & A2 & A3 & A4 & A5 & A6). clearbody w1. set (w2 := if negb (n =? 0) then _ else w1).
  assert (H2 : same_rest w w2 /\ entries w2 !! e = Some v /\ (forall y, einfo w2 y = einfo w y) /\
    (forall y, epv w2 y = if decide (n <> 0 /\ y = n) then p else epv w y) /\ (forall y, enx w2 y = enx w1 y) /\ wheads w2 = wheads w1).
  { unfold w2. destruct (n =? 0) eqn:Ez; bool_prop; cbn [negb].
    - split_and!; try done. intros y. by rewrite decide_False by tauto.
    - assert (Hs : is_Some (entries w1 !! n)).
      { destruct (Hn Ez) as [vn Hvn]. specialize (A3 n). unfold einfo in A3. rewrite Hvn in A3. by destruct (entries w1 !! n). }
      destruct Hs as [vn Hvn]. rewrite (entry_at_some _ _ _ Hvn). split_and!; try done.
      + by rewrite entries_set, decide_False by congruence.
      + intros y. rewrite <- A3. unfold einfo. rewrite entries_set. destruct (decide (y = n)) as [->|]; [by rewrite Hvn|done].
      + intros y. rewrite <- A4. unfold epv, entry_at. rewrite entries_set. destruct (decide (y = n)) as [->|]; [by rewrite decide_True|by rewrite decide_False by tauto].
      + intros y. unfold enx, entry_at. rewrite entries_set. destruct (decide (y = n)) as [->|]; [by rewrite Hvn|done]. }
  destruct H2 as (B1 & B2 & B3 & B4 & B5 & B6). clearbody w2. rewrite (entry_at_some _ _ _ B2). split_and!; try apply B1.
  - by rewrite entries_set, decide_True.
  - intros y Hy. assert (Ey : entries (set_entry w2 e {| we_task := we_task v; we_queue := 0; we_prev := 0; we_next := 0 |}) !! y = entries w2 !! y)
      by (by rewrite entries_set, decide_False).
    unfold einfo, epv, enx, entry_at. rewrite Ey. split_and!; [apply B3|apply B4|]. fold (entry_at w2 y). fold (enx w2 y). by rewrite B5, A5.
  - change (wheads w2 = if p =? 0 then <[q:=n]> (wheads w) else wheads w). by rewrite B6.
Qed.

(** [WL q] are the entries linked on queue [q]. *)
Record queues_ok (w : wait_state) (WL : Z -> list Z) : Prop := {
  qo_null : entries w !! 0 = None;
  qo_dll : forall q h, wheads w !! q = Some h -> is_dll (epv w) (enx w) 0 (WL q) h /\ NoDup (WL q);
  qo_in : forall q e, e ∈ WL q -> q <> 0 /\ is_Some (wheads w !! q) /\ exists t, einfo w e = Some (t, q);
}.

Definition updq (WL : Z -> list Z) (q : Z) (l : list Z) : Z -> list Z := fun d => if decide (d = q) then l else WL d.

Lemma qo_disjoint w WL q d e : queues_ok w WL -> e ∈ WL q -> e ∈ WL d -> q = d.
Proof. intros Q H1 H2. destruct (qo_in _ _ Q q e H1) as (_ & _ & t & E). destruct (qo_in _ _ Q d e H2) as (_ & _ & t' & E'). congruence. Qed.

Lemma entry_remove_ok w WL q e l1 l2 :
  queues_ok w WL -> WL q = l1 ++ e :: l2 ->
  let w' := wait_entry_remove w e in
  queues_ok w' (updq WL q (l1 ++ l2)) /\ same_rest w w' /\ dom (wheads w') = dom (wheads w) /\
  (exists t, einfo w e = Some (t, q) /\ einfo w' e = Some (t, 0)) /\ (forall y, y <> e -> einfo w' y = einfo w y) /\ e ∉ l1 ++ l2.
Proof.
  intros Q HL w'. assert (He : e ∈ WL q) by (rewrite HL; apply elem_mid).
  destruct (qo_in _ _ Q q e He) as (Hq0 & [h Hh] & t & Hi). destruct (qo_dll _ _ Q q h Hh) as [Hd Hnd]. rewrite HL in Hd, Hnd.
  destruct (is_dll_neighbours _ _ _ _ _ _ Hd Hnd) as (Np & Nn & Hpx & Hnx & Hx0 & Hm).
  unfold einfo in Hi. destruct (entries w !! e) as [v|] eqn:Hv; [|done]. simpl in Hi. injection Hi as Et Eq.
  assert (Eat : epv w e = we_prev v /\ enx w e = we_next v) by (unfold epv, enx; by rewrite (entry_at_some _ _ _ Hv)).
  destruct Eat as [Ep En]. rewrite Ep in Np, Hpx. rewrite En in Nn, Hnx.
  assert (HLi : forall y, y ∈ l1 ++ l2 -> y ∈ WL q).
  { intros y Hy. rewrite HL. apply elem_of_app in Hy as [?|?]; apply elem_of_app; [by left|right; by right]. }
  assert (Hex : forall y, y ∈ WL q -> is_Some (entries w !! y)).
  { intros y Hy. destruct (qo_in _ _ Q q y Hy) as (_ & _ & t' & E). unfold einfo in E. by destruct (entries w !! y). }
  assert (Hpin : we_prev v <> 0 -> we_prev v ∈ WL q) by (intros; destruct Np as [?|[? _]]; [done|]; apply HLi, elem_of_app; by left).
  assert (Hnin : we_next v <> 0 -> we_next v ∈ WL q) by (intros; destruct Nn as [?|[? _]]; [done|]; apply HLi, elem_of_app; by right).
  destruct (entry_remove_effect w e v Hv ltac:(congruence)) as (Hs & He' & Hy & Hwh); [auto|auto|done|done|]. fold w' in Hs, He', Hy, Hwh.
  assert (Hlk : forall d, wheads w' !! d = if decide (d = q /\ we_prev v = 0) then Some (we_next v) else wheads w !! d).
  { intros d. rewrite Hwh, Eq. destruct (we_prev v =? 0) eqn:Ez; bool_prop.
    - destruct (decide (d = q)) as [->|Hne]; [by rewrite lookup_insert_eq, decide_True|]. rewrite lookup_insert_ne by congruence. by rewrite decide_False by tauto.
    - by rewrite decide_False by tauto. }
  assert (Hen : e ∉ l1 ++ l2) by (intros Hen; by destruct (Hm e Hen)).
  split_and!; try done.
  - split.
    + destruct (Hy 0) as [E _]; [congruence|]. unfold einfo in E. rewrite (qo_null _ _ Q) in E. by destruct (entries w' !! 0).
    + intros d h' Hd'. rewrite Hlk in Hd'. unfold updq. destruct (decide (d = q)) as [->|Hne].
      * eapply is_dll_unlink; [exact Hd|exact Hnd| | |].
        -- intros y Hyin. destruct (Hm y Hyin) as [_ Hye]. destruct (Hy y Hye) as (_ & -> & _). by rewrite Ep, En.
        -- intros y Hyin. destruct (Hm y Hyin) as [_ Hye]. destruct (Hy y Hye) as (_ & _ & ->). by rewrite Ep, En.
        -- rewrite Ep, En. destruct (decide (we_prev v = 0)); [rewrite decide_True in Hd' by done; congruence|].
           rewrite decide_False in Hd' by tauto. congruence.
      * rewrite decide_False in Hd' by tauto. destruct (qo_dll _ _ Q d h' Hd') as [Hdd Hndd]. split; [|done].
        eapply is_dll_frame; [|exact Hdd]. intros y Hyd.
        assert (Hyq : y ∉ WL q) by (intros Hyq; apply Hne; by eapply qo_disjoint).
        destruct (Hy y) as (_ & -> & ->); [by intros ->|]. rewrite !decide_False; [done| |]; intros [Hz ->]; auto.
    + intros d y Hyd. unfold updq in Hyd. assert (Hyw : y ∈ WL d) by (destruct (decide (d = q)) as [->|]; auto).
      destruct (qo_in _ _ Q d y Hyw) as (Hd0 & Hs' & t' & E'). split_and!; [done| |].
      * rewrite Hlk. destruct (decide (d = q /\ we_prev v = 0)); [by eexists|done].
      * exists t'. destruct (Hy y) as (-> & _); [|done]. intros ->. destruct (decide (d = q)) as [->|Hne]; [done|].
        apply Hne. symmetry. by eapply qo_disjoint.
  - rewrite Hwh. destruct (_ =? 0); [|done]. rewrite Eq. apply set_eq. intros d. rewrite dom_insert, elem_of_union, elem_of_singleton.
    split; [|tauto]. intros [->|?]; [|done]. by apply elem_of_dom.
  - exists t. unfold einfo. rewrite Hv, He'. simpl. by rewrite Et, Eq.
  - intros y Hye. by apply Hy.
Qed.

(** Linking an entry at the head of its queue. *)
Lemma entry_add_ok w WL e t v q :
  queues_ok w WL -> entries w !! e = Some v -> we_queue v = q -> q <> 0 -> is_Some (wheads w !! q) -> e ∉ WL q ->
  let w' := wait_entry_add w e t in
  queues_ok w' (updq WL q (e :: WL q)) /\ same_rest w w' /\ dom (wheads w') = dom (wheads w) /\
  einfo w' e = Some (t, q) /\ (forall y, y <> e -> einfo w' y = einfo w y).
Proof.
  intros Q Hv Eq Hq0 [h Hh] Hne w'. unfold w', wait_entry_add. rewrite (entry_at_some _ _ _ Hv), Eq.
  assert (Ewh : whead w q = h) by (unfold whead; by rewrite Hh). rewrite Ewh.
  destruct (qo_dll _ _ Q q h Hh) as [Hd Hnd]. pose proof (is_dll_head _ _ _ _ _ Hd) as Eh.
  assert (He0 : e <> 0) by (intros ->; by rewrite (qo_null _ _ Q) in Hv).
  assert (Hhin : h <> 0 -> h ∈ WL q) by (rewrite Eh; destruct (WL q); simpl; [done|]; intros _; by left).
  assert (Hhe : h <> e) by (intros ->; apply Hne, Hhin; done).
  set (w1 := set_entry w e _). set (w2 := if negb (h =? 0) then _ else w1). set (w3 := set_whead w2 q e).
  assert (Hex : h <> 0 -> exists vh, entries w !! h = Some vh).
  { intros Hz. destruct (qo_in _ _ Q q h (Hhin Hz)) as (_ & _ & t' & E). unfold einfo in E. destruct (entries w !! h) as [vh|]; [by exists vh|done]. }
  assert (H2 : same_rest w w2 /\ entries w2 !! e = Some {| we_task := t; we_queue := q; we_prev := 0; we_next := h |} /\
    (forall y, y <> e -> einfo w2 y = einfo w y /\ epv w2 y = (if decide (h <> 0 /\ y = h) then e else epv w y) /\ enx w2 y = enx w y) /\ wheads w2 = wheads w).
  { unfold w2, w1. destruct (h =? 0) eqn:Ez; bool_prop; cbn [negb].
    - split_and!; try done; [by rewrite entries_set, decide_True|]. intros y Hy. unfold einfo, epv, enx, entry_at. rewrite entries_set, !decide_False by tauto. done.
    - destruct (Hex Ez) as [vh Hvh]. split_and!; try done.
      + by rewrite entries_set, decide_False, entries_set, decide_True by done.
      + assert (Ehh : entry_at (set_entry w e {| we_task := t; we_queue := q; we_prev := 0; we_next := h |}) h = vh)
          by (apply entry_at_some; by rewrite entries_set, decide_False).
        rewrite Ehh. intros y Hy. unfold einfo, epv, enx, entry_at. rewrite !entries_set. rewrite (decide_False (P := y = e)) by done.
        destruct (decide (y = h)) as [->|Hyh]; [rewrite decide_True by done; by rewrite Hvh|by rewrite decide_False by tauto]. }
  destruct H2 as (A1 & A2 & A3 & A4). clearbody w2.
  assert (E3 : forall y, entries w3 !! y = entries w2 !! y) by done.
  assert (Hsame : forall y, y <> e -> einfo w3 y = einfo w y /\ epv w3 y = (if decide (h <> 0 /\ y = h) then e else epv w y) /\ enx w3 y = enx w y) by exact A3.
  assert (Hlk : forall d, wheads w3 !! d = if decide (d = q) then Some e else wheads w !! d).
  { intros d. unfold w3. simpl. rewrite A4. destruct (decide (d = q)) as [->|]; [by rewrite lookup_insert_eq|by rewrite lookup_insert_ne]. }
  split_and!; try apply A1.
  - split.
    + destruct (Hsame 0) as [E _]; [done|]. unfold einfo in E. rewrite (qo_null _ _ Q) in E. by destruct (entries w3 !! 0).
    + intros d h' Hd'. rewrite Hlk in Hd'. unfold updq. destruct (decide (d = q)) as [->|Hdq].
      * injection Hd' as <-. split; [|by apply list.NoDup_cons]. eapply is_dll_push; [exact Hd|by apply list.NoDup_cons|done| | | | |].
        -- unfold epv, entry_at. by rewrite E3, A2.
        -- unfold enx, entry_at. by rewrite E3, A2.
        -- intros Hz. destruct (Hsame h) as (_ & -> & _); [done|]. by rewrite decide_True.
        -- intros y Hy Hyh. destruct (Hsame y) as (_ & -> & _); [by intros ->|]. by rewrite decide_False by tauto.
        -- intros y Hy. destruct (Hsame y) as (_ & _ & ->); [by intros ->|done].
      * destruct (qo_dll _ _ Q d h' Hd') as [Hdd Hndd]. split; [|done]. eapply is_dll_frame; [|exact Hdd]. intros y Hy.
        assert (Hye : y <> e).
        { intros ->. destruct (qo_in _ _ Q d e Hy) as (_ & _ & t' & E). unfold einfo in E. rewrite Hv in E. simpl in E. congruence. }
        destruct (Hsame y Hye) as (_ & -> & ->). rewrite decide_False; [done|]. intros [Hz ->]. apply Hdq. symmetry. eapply qo_disjoint; eauto.
    + intros d y Hy. unfold updq in Hy. rewrite Hlk. destruct (decide (d = q)) as [->|Hdq].
      * split_and!; [done|done|]. apply elem_of_cons in Hy as [->|Hy].
        -- exists t. unfold einfo. by rewrite E3, A2.
        -- destruct (Hsame y) as (-> & _); [by intros ->|]. by apply (qo_in _ _ Q).
      * destruct (qo_in _ _ Q d y Hy) as (? & ? & t' & E). split_and!; try done. exists t'. destruct (Hsame y) as (-> & _); [|done].
        intros ->. unfold einfo in E. rewrite Hv in E. simpl in E. congruence.
  - unfold w3. simpl. rewrite A4. apply set_eq. intros d. rewrite dom_insert, elem_of_union, elem_of_singleton. split; [|tauto].
    intros [->|?]; [|done]. apply elem_of_dom. by eexists.
  - unfold einfo. by rewrite E3, A2.
  - intros y Hy. by apply Hsame.
Qed.

(** ** The deadline list *)

Definition dpv (w : wait_state) (t : Z) : Z := deadline_prev (wtask_at w t).

Definition dnx (w : wait_state) (t : Z) : Z := deadline_next (wtask_at w t).

(** What a task waits for, apart from its place on the list. *)
Definition dinfo (w : wait_state) (t : Z) : option (Z * Z * Z) :=
  (fun k => (wait_entries k, wait_entry_count k, event_deadline k)) <$> wtasks w !! t.

Definition dl (w : wait_state) (t : Z) : Z := event_deadline (wtask_at w t).

Definition on_deadline (w : wait_state) (t : Z) : Prop := deadline_queued (wtask_at w t) = true.

(** The queues, the timer and the scheduler are the same. *)
Definition same_queue_half (w w' : wait_state) : Prop :=
  entries w' = entries w /\ wheads w' = wheads w /\ event_check_tick w' = event_check_tick w /\ wsched w' = wsched w.

(** The list holds the tasks marked as queued. *)
Record deadline_shape (w : wait_state) (DL : list Z) : Prop := {
  do_null : wtasks w !! 0 = None;
  do_dll : is_dll (dpv w) (dnx w) 0 DL (deadline_head w);
  do_nodup : NoDup DL;
  do_mem : forall t, t ∈ DL <-> on_deadline w t;
}.

(** And it is sorted. *)
Record deadline_ok (w : wait_state) (DL : list Z) : Prop := {
  do_shape :> deadline_shape w DL;
  do_sorted : StronglySorted (fun a b => dl w a <= dl w b) DL;
}.

Lemma wtasks_set w t v y : wtasks (set_wtask w t v) !! y = if decide (y = t) then Some v else wtasks w !! y.
Proof. simpl. destruct (decide (y = t)) as [->|]; [by rewrite lookup_insert_eq|by rewrite lookup_insert_ne]. Qed.

Lemma wtask_at_set w t v y : wtask_at (set_wtask w t v) y = if decide (y = t) then v else wtask_at w y.
Proof. unfold wtask_at. rewrite wtasks_set. by destruct (decide (y = t)). Qed.

Lemma on_deadline_some w t : on_deadline w t -> is_Some (wtasks w !! t).
Proof. unfold on_deadline, wtask_at. destruct (wtasks w !! t); [by eexists|done]. Qed.

Lemma dinfo_links w t p n b : is_Some (wtasks w !! t) -> forall y, dinfo (set_wtask w t (with_dlinks p n b (wtask_at w t))) y = dinfo w y.
Proof.
  intros [k Hk] y. unfold dinfo. rewrite wtasks_set. destruct (decide (y = t)) as [->|]; [|done]. unfold wtask_at. by rewrite Hk.
Qed.

Lemma dl_dinfo w w' t : dinfo w' t = dinfo w t -> dl w' t = dl w t.
Proof. unfold dinfo, dl, wtask_at. intros E. destruct (wtasks w !! t), (wtasks w' !! t); simpl in *; congruence. Qed.

Lemma sorted_ext {A} (R R' : A -> A -> Prop) l : (forall a b, a ∈ l -> b ∈ l -> R a b -> R' a b) -> StronglySorted R l -> StronglySorted R' l.
Proof.
  intros H Hs. induction Hs as [|a l Hs IH Hf]; constructor.
  - apply IH. intros b c Hb Hc. apply H; by right.
  - rewrite list.Forall_forall in Hf |- *. intros b Hb. apply H; [by left|by right|auto].
Qed.

Lemma sorted_app_inv {A} (R : A -> A -> Prop) l1 x l2 : StronglySorted R (l1 ++ x :: l2) -> StronglySorted R (l1 ++ l2).
Proof.
  induction l1 as [|a l1 IH]; simpl; intros Hs; inversion Hs as [|? ? Hs' Hf]; subst; [done|]. constructor; [auto|].
  rewrite list.Forall_forall in Hf |- *. intros b Hb. apply Hf. apply elem_of_app in Hb as [?|?]; apply elem_of_app; [by left|right; by right].
Qed.

Lemma deadline_remove_shape w DL t l1 l2 :
  deadline_shape w DL -> DL = l1 ++ t :: l2 ->
  let w' := deadline_remove w t in
  deadline_shape w' (l1 ++ l2) /\ same_queue_half w w' /\ (forall y, dinfo w' y = dinfo w y).
Proof.
  intros D -> w'. destruct (is_dll_neighbours _ _ _ _ _ _ (do_dll _ _ D) (do_nodup _ _ D)) as (Np & Nn & Hpx & Hnx & Hx0 & Hm).
  assert (Hex : forall y, y ∈ l1 ++ t :: l2 -> is_Some (wtasks w !! y)) by (intros y Hy; by apply on_deadline_some, (do_mem _ _ D)).
  assert (HLi : forall y, y ∈ l1 ++ l2 -> y ∈ l1 ++ t :: l2).
  { intros y Hy. apply elem_of_app in Hy as [?|?]; apply elem_of_app; [by left|right; by right]. }
  assert (Hqt : on_deadline w t) by (apply (do_mem _ _ D), elem_mid). unfold w', deadline_remove. unfold on_deadline in Hqt. rewrite Hqt. cbn [negb].
  fold (dpv w t) (dnx w t). set (p := dpv w t) in *. set (n := dnx w t) in *.
  assert (Hps : p <> 0 -> is_Some (wtasks w !! p)) by (intros; destruct Np as [?|[? _]]; [done|]; apply Hex, HLi, elem_of_app; by left).
  assert (Hns : n <> 0 -> is_Some (wtasks w !! n)) by (intros; destruct Nn as [?|[? _]]; [done|]; apply Hex, HLi, elem_of_app; by right).
  set (w1 := if negb (p =? 0) then _ else _).
  assert (H1 : same_queue_half w w1 /\ deadline_head w1 = (if decide (p = 0) then n else deadline_head w) /\ (forall y, dinfo w1 y = dinfo w y) /\
    (forall y, wtask_at w1 y = if decide (p <> 0 /\ y = p) then with_dnext n (wtask_at w p) else wtask_at w y)).
  { unfold w1. destruct (p =? 0) eqn:Ez; bool_prop; cbn [negb].
    - split_and!; try done; [by rewrite decide_True|]. intros y. by rewrite decide_False by tauto.
    - split_and!; try done; [by rewrite decide_False|intros y; by apply dinfo_links, Hps|]. intros y. rewrite wtask_at_set.
      destruct (decide (y = p)); [by rewrite decide_True|by rewrite decide_False by tauto]. }
  destruct H1 as (A1 & A2 & A3 & A4). clearbody w1. set (w2 := if negb (n =? 0) then _ else w1).
  assert (H2 : same_queue_half w w2 /\ deadline_head w2 = deadline_head w1 /\ (forall y, dinfo w2 y = dinfo w y) /\
    (forall y, wtask_at w2 y = if decide (n <> 0 /\ y = n) then with_dprev p (wtask_at w1 n) else wtask_at w1 y)).
  { unfold w2. destruct (n =? 0) eqn:Ez; bool_prop; cbn [negb].
    - split_and!; try done. intros y. by rewrite decide_False by tauto.
    - assert (Hs : is_Some (wtasks w1 !! n)). { destruct (Hns Ez) as [k Hk]. specialize (A3 n). unfold dinfo in A3. rewrite Hk in A3. by destruct (wtasks w1 !! n). }
      split_and!; try done; [intros y; rewrite <- A3; by apply dinfo_links|]. intros y. rewrite wtask_at_set.
      destruct (decide (y = n)); [by rewrite decide_True|by rewrite decide_False by tauto]. }
  destruct H2 as (B1 & B2 & B3 & B4). clearbody w2. set (w3 := set_wtask w2 t _).
  assert (Hst : is_Some (wtasks w2 !! t)). { destruct (Hex t) as [k Hk]; [apply elem_mid|]. specialize (B3 t). unfold dinfo in B3. rewrite Hk in B3. by destruct (wtasks w2 !! t). }
  assert (C3 : forall y, dinfo w3 y = dinfo w y) by (intros y; rewrite <- B3; by apply dinfo_links).
  assert (C4 : forall y, y <> t -> wtask_at w3 y = wtask_at w2 y) by (intros y Hy; unfold w3; by rewrite wtask_at_set, decide_False).
  assert (Hpv : forall y, y <> t -> dpv w3 y = if decide (n <> 0 /\ y = n) then p else dpv w y).
  { intros y Hy. unfold dpv. rewrite C4, B4 by done. destruct (decide (n <> 0 /\ y = n)); [done|]. rewrite A4. by destruct (decide (p <> 0 /\ y = p)) as [[_ ->]|]. }
  assert (Hnx' : forall y, y <> t -> dnx w3 y = if decide (p <> 0 /\ y = p) then n else dnx w y).
  { intros y Hy. unfold dnx. rewrite C4, B4 by done. destruct (decide (n <> 0 /\ y = n)) as [[_ ->]|]; rewrite A4; by destruct (decide (p <> 0 /\ _ = p)). }
  assert (Hqq : forall y, y <> t -> deadline_queued (wtask_at w3 y) = deadline_queued (wtask_at w y)).
  { intros y Hy. rewrite C4, B4 by done. destruct (decide (n <> 0 /\ y = n)) as [[_ ->]|]; simpl; rewrite A4;
      [destruct (decide (p <> 0 /\ n = p)) as [[_ <-]|]|destruct (decide (p <> 0 /\ y = p)) as [[_ <-]|]]; done. }
  assert (Hnew : is_dll (dpv w3) (dnx w3) 0 (l1 ++ l2) (deadline_head w3) /\ NoDup (l1 ++ l2)).
  { eapply is_dll_unlink; [exact (do_dll _ _ D)|exact (do_nodup _ _ D)|intros y Hy; by apply Hpv, Hm|intros y Hy; by apply Hnx', Hm|].
    change (deadline_head w3) with (deadline_head w2). by rewrite B2. }
  destruct Hnew as [N1 N2]. split_and!; [|exact B1..|done]. split; [|done|done|].
  - pose proof (C3 0) as E. unfold dinfo in E. rewrite (do_null _ _ D) in E. by destruct (wtasks w3 !! 0).
  - intros y. destruct (decide (y = t)) as [->|Hyt].
    + split; [intros Hy; by destruct (Hm t Hy)|]. unfold on_deadline, w3. rewrite wtask_at_set, decide_True by done. done.
    + unfold on_deadline. rewrite Hqq by done. fold (on_deadline w y). rewrite <- (do_mem _ _ D), !elem_of_app, elem_of_cons. tauto.
Qed.

Lemma deadline_remove_ok w DL t l1 l2 :
  deadline_ok w DL -> DL = l1 ++ t :: l2 ->
  let w' := deadline_remove w t in
  deadline_ok w' (l1 ++ l2) /\ same_queue_half w w' /\ (forall y, dinfo w' y = dinfo w y).
Proof.
  intros [D Hs] HL. destruct (deadline_remove_shape w DL t l1 l2 D HL) as (D' & H & I). split_and!; [|exact H..|exact I].
  split; [done|]. subst DL. eapply sorted_ext; [|by eapply sorted_app_inv]. intros a b _ _. by rewrite !(dl_dinfo w (deadline_remove w t)) by done.
Qed.

Lemma deadline_remove_idle w DL t : deadline_shape w DL -> t ∉ DL -> deadline_remove w t = w.
Proof.
  intros D Ht. unfold deadline_remove. destruct (deadline_queued (wtask_at w t)) eqn:E; [|done]. destruct Ht. by apply (do_mem _ _ D).
Qed.

Lemma deadline_place_spec w d l fuel p h :
  is_dll (dpv w) (dnx w) p l h -> (length l <= fuel)%nat ->
  exists l1 l2, l = l1 ++ l2 /\ deadline_place fuel w d p h = (default p (list.last l1), default 0 (head l2)) /\
    Forall (fun y => dl w y <= d) l1 /\ (forall y, head l2 = Some y -> d < dl w y).
Proof.
  revert fuel p h. induction l as [|x l IH]; intros fuel p h Hd Hf; simpl in Hd.
  - subst h. exists [], []. split_and!; try done. by destruct fuel.
  - destruct Hd as (-> & Hx & Hp & Hl). destruct fuel as [|fuel]; simpl in Hf; [lia|]. cbn [deadline_place].
    rewrite (proj2 (Z.eqb_neq x 0)) by done. cbn [negb andb]. fold (dl w x). destruct (dl w x <=? d) eqn:E; bool_prop.
    + destruct (IH fuel x (dnx w x) Hl ltac:(lia)) as (l1 & l2 & -> & E' & F & G). exists (x :: l1), l2. split_and!; try done.
      * unfold dnx in E'. rewrite E'. f_equal. destruct l1 as [|y l1]; [done|]. rewrite last_cons_cons. by destruct (list.last (y :: l1)) eqn:El; [|apply last_None in El].
      * by constructor.
    + exists [], (x :: l). split_and!; try done. intros y [= <-]. lia.
Qed.

Lemma sorted_insert {A} (R : A -> A -> Prop) l1 x l2 :
  StronglySorted R (l1 ++ l2) -> (forall y, y ∈ l1 -> R y x) -> (forall y, y ∈ l2 -> R x y) -> StronglySorted R (l1 ++ x :: l2).
Proof.
  induction l1 as [|a l1 IH]; simpl; intros Hs H1 H2.
  - constructor; [done|]. rewrite list.Forall_forall. auto.
  - inversion Hs as [|? ? Hs' Hf]; subst. constructor.
    + apply IH; [done| |done]. intros y Hy. apply H1. by right.
    + rewrite list.Forall_forall in Hf |- *. intros b Hb. apply elem_of_app in Hb as [Hb|[->|Hb]%elem_of_cons].
      * apply Hf, elem_of_app. by left.
      * apply H1. by left.
      * apply Hf, elem_of_app. by right.
Qed.

Lemma deadline_length w DL : deadline_ok w DL -> (length DL <= size (wtasks w))%nat.
Proof.
  intros D. rewrite <- size_dom. rewrite <- (size_list_to_set (C := gset Z)) by apply (do_nodup _ _ D). apply subseteq_size. intros t Ht.
  apply elem_of_list_to_set, (do_mem _ _ D), on_deadline_some in Ht. by apply elem_of_dom.
Qed.

Lemma deadline_insert_ok w DL t : deadline_ok w DL -> t ∉ DL -> is_Some (wtasks w !! t) ->
  let w' := deadline_insert w t in
  exists l1 l2, DL = l1 ++ l2 /\ deadline_ok w' (l1 ++ t :: l2) /\ same_queue_half w w' /\ (forall y, dinfo w' y = dinfo w y).
Proof.
  intros D Ht Hst w'. pose proof (do_dll _ _ D) as Hd.
  destruct (deadline_place_spec w (dl w t) DL (size (wtasks w)) 0 (deadline_head w) Hd (deadline_length w DL D)) as (l1 & l2 & -> & Ep & F & G).
  exists l1, l2. split; [done|]. unfold w', deadline_insert. fold (dl w t). rewrite Ep. cbv iota beta.
  set (p := default 0 (list.last l1)). set (n := default 0 (head l2)).
  assert (Hex : forall y, y ∈ l1 ++ l2 -> is_Some (wtasks w !! y)) by (intros y Hy; by apply on_deadline_some, (do_mem _ _ D)).
  pose proof (is_dll_nonnull _ _ _ _ _ Hd) as Hnn. assert (Ht0 : t <> 0) by (intros ->; rewrite (do_null _ _ D) in Hst; by destruct Hst).
  assert (Hp : p <> 0 -> p ∈ l1 ++ l2 /\ list.last l1 = Some p).
  { unfold p. destruct (list.last l1) as [y|] eqn:E; [|done]. intros _. simpl. split; [|done]. apply last_Some_elem_of in E. apply elem_of_app. by left. }
  assert (Hn : n <> 0 -> n ∈ l1 ++ l2 /\ head l2 = Some n).
  { unfold n. destruct l2 as [|y l2']; [done|]. intros _. simpl. split; [|done]. apply elem_mid. }
  assert (Hpt : p <> t) by (intros E; apply Ht; rewrite <- E; apply Hp; congruence).
  assert (Hnt : n <> t) by (intros E; apply Ht; rewrite <- E; apply Hn; congruence).
  assert (Hlast : forall y, list.last l1 = Some y <-> p <> 0 /\ y = p).
  { intros y. split; [intros E|intros [Hz ->]; by apply Hp]. unfold p. rewrite E. simpl. split; [|done]. intros ->. apply Hnn, elem_of_app. left. by apply last_Some_elem_of. }
  assert (Hhead : forall y, head l2 = Some y <-> n <> 0 /\ y = n).
  { intros y. split; [intros E|intros [Hz ->]; by apply Hn]. unfold n. rewrite E. simpl. split; [|done]. intros ->. destruct l2; simpl in E; [done|]. injection E as ->. apply Hnn, elem_mid. }
  set (w1 := set_wtask w t _). assert (A3 : forall y, dinfo w1 y = dinfo w y) by (intros y; by apply dinfo_links).
  assert (A4 : forall y, wtask_at w1 y = if decide (y = t) then with_dlinks p n (deadline_queued (wtask_at w t)) (wtask_at w t) else wtask_at w y) by (intros; apply wtask_at_set).
  assert (Hs1 : forall y, is_Some (wtasks w !! y) -> is_Some (wtasks w1 !! y)).
  { intros y [k Hk]. specialize (A3 y). unfold dinfo in A3. rewrite Hk in A3. by destruct (wtasks w1 !! y). }
  set (w2 := if negb (p =? 0) then _ else _).
  assert (H2 : same_queue_half w w2 /\ deadline_head w2 = (if decide (p = 0) then t else deadline_head w) /\ (forall y, dinfo w2 y = dinfo w y) /\
    (forall y, wtask_at w2 y = if decide (p <> 0 /\ y = p) then with_dnext t (wtask_at w1 p) else wtask_at w1 y)).
  { unfold w2. destruct (p =? 0) eqn:Ez; bool_prop; cbn [negb].
    - split_and!; try done; [by rewrite decide_True|]. intros y. by rewrite decide_False by tauto.
    - split_and!; try done; [by rewrite decide_False|intros y; rewrite <- A3; by apply dinfo_links, Hs1, Hex, Hp|]. intros y. rewrite wtask_at_set.
      destruct (decide (y = p)); [by rewrite decide_True|by rewrite decide_False by tauto]. }
  destruct H2 as (B1 & B2 & B3 & B4). clearbody w2. set (w3 := if negb (n =? 0) then _ else w2).
  assert (Hs2 : forall y, is_Some (wtasks w !! y) -> is_Some (wtasks w2 !! y)).
  { intros y [k Hk]. specialize (B3 y). unfold dinfo in B3. rewrite Hk in B3. by destruct (wtasks w2 !! y). }
  assert (H3 : same_queue_half w w3 /\ deadline_head w3 = deadline_head w2 /\ (forall y, dinfo w3 y = dinfo w y) /\
    (forall y, wtask_at w3 y = if decide (n <> 0 /\ y = n) then with_dprev t (wtask_at w2 n) else wtask_at w2 y)).
  { unfold w3. destruct (n =? 0) eqn:Ez; bool_prop; cbn [negb].
    - split_and!; try done. intros y. by rewrite decide_False by tauto.
    - split_and!; try done; [intros y; rewrite <- B3; by apply dinfo_links, Hs2, Hex, Hn|]. intros y. rewrite wtask_at_set.
      destruct (decide (y = n)); [by rewrite decide_True|by rewrite decide_False by tauto]. }
  destruct H3 as (C1 & C2 & C3 & C4). clearbody w3. set (w4 := set_wtask w3 t _).
  assert (Hs3 : is_Some (wtasks w3 !! t)). { destruct Hst as [k Hk]. specialize (C3 t). unfold dinfo in C3. rewrite Hk in C3. by destruct (wtasks w3 !! t). }
  assert (D3 : forall y, dinfo w4 y = dinfo w y) by (intros y; rewrite <- C3; by apply dinfo_links).
  assert (Et3 : wtask_at w3 t = with_dlinks p n (deadline_queued (wtask_at w t)) (wtask_at w t)).
  { rewrite C4, decide_False, B4, decide_False, A4, decide_True by (done || (intros [_ ?]; congruence)). done. }
  assert (Et4 : wtask_at w4 t = with_dlinks p n true (wtask_at w t)).
  { unfold w4. rewrite wtask_at_set, decide_True by done. rewrite Et3. done. }
  assert (Eo4 : forall y, y <> t -> wtask_at w4 y = wtask_at w3 y) by (intros y Hy; unfold w4; by rewrite wtask_at_set, decide_False).
  assert (Hpv : forall y, y <> t -> dpv w4 y = if decide (head l2 = Some y) then t else dpv w y).
  { intros y Hy. unfold dpv. rewrite Eo4, C4 by done. destruct (decide (n <> 0 /\ y = n)) as [Hc|Hc]; [rewrite decide_True by (by apply Hhead); done|].
    rewrite decide_False by (by rewrite Hhead). rewrite B4. destruct (decide (p <> 0 /\ y = p)) as [[_ ->]|]; [|by rewrite A4, decide_False].
    simpl. by rewrite A4, decide_False. }
  assert (Hnx : forall y, y <> t -> dnx w4 y = if decide (list.last l1 = Some y) then t else dnx w y).
  { intros y Hy. unfold dnx. rewrite Eo4, C4 by done.
    assert (E2 : deadline_next (wtask_at w2 y) = if decide (list.last l1 = Some y) then t else deadline_next (wtask_at w y)).
    { rewrite B4. destruct (decide (p <> 0 /\ y = p)) as [Hc|Hc]; [rewrite decide_True by (by apply Hlast); done|].
      rewrite decide_False by (by rewrite Hlast). by rewrite A4, decide_False. }
    destruct (decide (n <> 0 /\ y = n)) as [[_ ->]|]; done. }
  assert (Hqq : forall y, y <> t -> deadline_queued (wtask_at w4 y) = deadline_queued (wtask_at w y)).
  { intros y Hy. rewrite Eo4, C4 by done. assert (E2 : forall z, z <> t -> deadline_queued (wtask_at w2 z) = deadline_queued (wtask_at w z)).
    { intros z Hz. rewrite B4. destruct (decide (p <> 0 /\ z = p)) as [[_ ->]|]; simpl; by rewrite A4, decide_False. }
    destruct (decide (n <> 0 /\ y = n)) as [[_ ->]|]; simpl; by apply E2. }
  assert (Hnt' : forall y, y ∈ l1 ++ l2 -> y <> t) by (intros y Hy ->; done).
  split_and!; [|exact C1..|done]. split; [split|].
  - pose proof (D3 0) as E. unfold dinfo in E. rewrite (do_null _ _ D) in E. by destruct (wtasks w4 !! 0).
  - eapply is_dll_insert; [exact Hd|apply (do_nodup _ _ D)|done|done| | | | |].
    + unfold dpv. by rewrite Et4.
    + unfold dnx. by rewrite Et4.
    + intros y Hy. by apply Hpv, Hnt'.
    + intros y Hy. by apply Hnx, Hnt'.
    + change (deadline_head w4) with (deadline_head w3). rewrite C2, B2. destruct l1 as [|z l1]; [done|].
      rewrite decide_False; [done|]. unfold p. destruct (list.last (z :: l1)) as [y|] eqn:El; [|by apply last_None in El]. simpl. intros ->.
      apply Hnn, elem_of_app. left. by apply last_Some_elem_of.
  - pose proof (do_nodup _ _ D) as Hnd. apply list.NoDup_app in Hnd as (N1 & N2 & N3). rewrite not_elem_of_app in Ht. apply list.NoDup_app. split_and!; [done| |].
    + intros y Hy. rewrite not_elem_of_cons. split; [intros ->; tauto|auto].
    + apply list.NoDup_cons. tauto.
  - intros y. destruct (decide (y = t)) as [->|Hyt].
    + unfold on_deadline. rewrite Et4. simpl. split; [done|]. intros _. apply elem_mid.
    + unfold on_deadline. rewrite Hqq by done. fold (on_deadline w y). rewrite <- (do_mem _ _ D), !elem_of_app, elem_of_cons. tauto.
  - apply sorted_insert.
    + eapply sorted_ext; [|apply (do_sorted _ _ D)]. intros a b _ _. by rewrite !(dl_dinfo w w4) by done.
    + intros y Hy. rewrite !(dl_dinfo w w4) by done. rewrite list.Forall_forall in F. auto.
    + intros y Hy. rewrite !(dl_dinfo w w4) by done. destruct l2 as [|z l2]; [by apply not_elem_of_nil in Hy|]. pose proof (G z eq_refl) as Hz.
      apply elem_of_cons in Hy as [->|Hy]; [lia|]. pose proof (do_sorted _ _ D) as Hs.
      assert (Hs2' : StronglySorted (fun a b => dl w a <= dl w b) (z :: l2)).
      { clear -Hs. induction l1 as [|a l1 IH]; simpl in Hs; [done|]. inversion Hs; subst. auto. }
      inversion Hs2' as [|? ? _ Hf]; subst. rewrite list.Forall_forall in Hf. specialize (Hf y Hy). lia.
Qed.

(** ** Waking *)

Lemma wake_state s c t k : rqi s -> tasks s !! t = Some k ->
  let s' := sched_wake_task s c t in
  rqi s' /\ state (task_at s' t) = (if decide (state k = TASK_BLOCKED) then TASK_READY else state k) /\ (forall x, x <> t -> state (task_at s' x) = state (task_at s x)) /\
  (forall x, is_Some (tasks s' !! x) <-> is_Some (tasks s !! x)).
Proof.
  intros Hr Hk s'. assert (Ht0 : t <> 0) by (intros ->; destruct Hr as [L R]; by rewrite (rq_null _ _ R) in Hk).
  unfold s', sched_wake_task. rewrite (proj2 (Z.eqb_neq t 0)) by done. assert (Eat : task_at s t = k) by (unfold task_at; by rewrite Hk). rewrite Eat.
  destruct (decide (state k = TASK_BLOCKED)) as [Eb|Eb]; [|split_and!; try done; congruence].
  set (s1 := upd_task s t _). set (s2 := if PRIO_BONUS_MAX <? _ then _ else s1). set (s3 := upd_task s2 t _).
  assert (H3 : same_queues s s3 /\ (exists k3, tasks s3 !! t = Some k3 /\ state k3 = TASK_READY) /\ (forall x, x <> t -> tasks s3 !! x = tasks s !! x)).
  { assert (H2 : same_queues s s2 /\ (exists k2, tasks s2 !! t = Some k2) /\ (forall x, x <> t -> tasks s2 !! x = tasks s !! x)).
    { assert (Q1 : same_queues s s1) by (by apply upd_same_queues).
      assert (K1 : tasks s1 !! t = Some (with_bonus (prio_bonus k + PRIO_WAKE_BONUS) k)) by (unfold s1; by rewrite tasks_upd, decide_True, Hk).
      assert (O1 : forall x, x <> t -> tasks s1 !! x = tasks s !! x) by (intros x Hx; unfold s1; by rewrite tasks_upd, decide_False).
      unfold s2. destruct (_ <? _); [|split_and!; [done|by eexists|done]]. split_and!.
      - destruct (upd_same_queues s1 t (with_bonus PRIO_BONUS_MAX)) as [A B]; [done|]. destruct Q1 as [A1 B1]. split; intros; [by rewrite A|by rewrite B].
      - eexists. by rewrite tasks_upd, decide_True, K1.
      - intros x Hx. rewrite tasks_upd, decide_False by done. auto. }
    destruct H2 as ([A1 B1] & [k2 K2] & O2). clearbody s2. split_and!.
    - destruct (upd_same_queues s2 t (with_state TASK_READY)) as [A B]; [done|]. split; intros; [unfold s3; by rewrite A|unfold s3; by rewrite B].
    - eexists. unfold s3. by rewrite tasks_upd, decide_True, K2.
    - intros x Hx. unfold s3. rewrite tasks_upd, decide_False by done. auto. }
  destruct H3 as (Q3 & (k3 & K3 & S3) & O3). clearbody s3.
  assert (Hfin : forall s', rqi s' -> same_core s3 s' -> rqi s' /\ state (task_at s' t) = TASK_READY /\
    (forall x, x <> t -> state (task_at s' x) = state (task_at s x)) /\ (forall x, is_Some (tasks s' !! x) <-> is_Some (tasks s !! x))).
  { intros s4 Hr4 Hc4. split_and!; [done| | |].
    - rewrite (state_at_core _ _ t Hc4). unfold task_at. by rewrite K3.
    - intros x Hx. rewrite (state_at_core _ _ x Hc4). unfold task_at. by rewrite O3.
    - intros x. rewrite <- (fmap_is_Some core (tasks s4 !! x)), (sc_task _ _ Hc4 x), fmap_is_Some. destruct (decide (x = t)) as [->|Hx]; [rewrite K3, Hk; split; by eexists|by rewrite O3]. }
  assert (R3 : rqi s3) by (by eapply rqi_frame).
  destruct (on_cpu (task_at s3 t)); [by apply Hfin|]. destruct (enqueue_spec s3 c t k3 R3 K3) as (R4 & C4 & _). apply Hfin.
  - eapply rqi_frame; [|exact R4]. unfold kick_idle_cpu. by destruct (_ =? 0).
  - eapply same_core_trans; [exact C4|]. unfold kick_idle_cpu. by destruct (_ =? 0).
Qed.

Lemma wake_facts s c t k : rqi s -> tasks s !! t = Some k ->
  let s' := sched_wake_task s c t in
  rqi s' /\ state (task_at s' t) <> TASK_BLOCKED /\ (forall x, x <> t -> state (task_at s' x) = state (task_at s x)) /\
  (forall x, is_Some (tasks s' !! x) <-> is_Some (tasks s !! x)).
Proof.
  intros Hr Hk. destruct (wake_state s c t k Hr Hk) as (A & B & C). split; [exact A|]. split; [|exact C]. rewrite B. by destruct (decide (state k = TASK_BLOCKED)).
Qed.

(** ** The whole state *)

Record wait_ok (w : wait_state) (WL : Z -> list Z) (DL : list Z) : Prop := {
  wo_queues : queues_ok w WL;
  wo_deadline : deadline_ok w DL;
  wo_rqi : rqi (wsched w);
  wo_tasks : forall t, is_Some (wtasks w !! t) -> is_Some (tasks (wsched w) !! t);
  wo_linked : forall q e, e ∈ WL q -> exists t k i, einfo w e = Some (t, q) /\ wtasks w !! t = Some k /\
    0 <= i < wait_entry_count k /\ e = entry_addr (wait_entries k) i;
  wo_array : forall t k i, wtasks w !! t = Some k -> 0 <= i < wait_entry_count k ->
    exists q, einfo w (entry_addr (wait_entries k) i) = Some (t, q) /\ (q = 0 \/ entry_addr (wait_entries k) i ∈ WL q);
}.

(** Only the scheduler changed. *)
Lemma wait_ok_sched w WL DL s : wait_ok w WL DL -> rqi s -> (forall x, is_Some (tasks s !! x) <-> is_Some (tasks (wsched w) !! x)) ->
  wait_ok (set_wsched w s) WL DL.
Proof.
  intros W Hr Hd. destruct W as [[Q1 Q2 Q3] [[D1 D2 D3 D4] D5] W3 W4 W5 W6]. split; [by split|by split|done| |done|done].
  intros t Ht. apply Hd. by apply W4.
Qed.

(** No task of the list is left asleep. *)
Lemma wake_entries_spec WL DL c q l : forall fuel w e p,
  wait_ok w WL DL -> is_dll (epv w) (enx w) p l e -> (forall x, x ∈ l -> x ∈ WL q) -> (length l < fuel)%nat ->
  let w' := wake_entries fuel w c e in
  wait_ok w' WL DL /\ entries w' = entries w /\
  (forall x t, x ∈ l -> einfo w x = Some (t, q) -> state (task_at (wsched w') t) <> TASK_BLOCKED) /\
  (forall t, state (task_at (wsched w) t) <> TASK_BLOCKED -> state (task_at (wsched w') t) <> TASK_BLOCKED).
Proof.
  induction l as [|x l IH]; intros fuel w e p W Hd Hl Hf; destruct fuel as [|fuel]; simpl in Hf; try lia; cbn [wake_entries]; simpl in Hd.
  - subst e. rewrite Z.eqb_refl. split_and!; try done. intros x t Hx. by apply not_elem_of_nil in Hx.
  - destruct Hd as (-> & Hx & Hp & Hd). rewrite (proj2 (Z.eqb_neq x 0)) by done.
    destruct (wo_linked _ _ _ W q x) as (t & k & i & Hi & Hk & _); [apply Hl; by left|].
    destruct (wo_tasks _ _ _ W t ltac:(by eexists)) as [kt Hkt].
    assert (Et : we_task (entry_at w x) = t) by (unfold einfo in Hi; unfold entry_at; destruct (entries w !! x); simpl in *; congruence).
    rewrite Et. destruct (wake_facts (wsched w) c t kt (wo_rqi _ _ _ W) Hkt) as (R1 & S1 & O1 & D1). set (s1 := sched_wake_task (wsched w) c t) in *.
    pose proof (wait_ok_sched w WL DL s1 W R1 D1) as W1.
    destruct (IH fuel (set_wsched w s1) (enx w x) x W1 Hd) as (W2 & E2 & H2 & M2); [intros y Hy; apply Hl; by right|lia|].
    split_and!; [done|done| |].
    + intros y u Hy Hu. apply elem_of_cons in Hy as [->|Hy]; [|by apply (H2 y)]. rewrite Hi in Hu. injection Hu as <-. by apply M2.
    + intros u Hu. apply M2. simpl. destruct (decide (u = t)) as [->|Hne]; [done|by rewrite O1].
Qed.

(** Lists are not longer than the maps. *)
Lemma queue_length w WL q h : queues_ok w WL -> wheads w !! q = Some h -> (length (WL q) <= size (entries w))%nat.
Proof.
  intros Q Hh. destruct (qo_dll _ _ Q q h Hh) as [_ Hnd]. rewrite <- size_dom, <- (size_list_to_set (C := gset Z)) by done. apply subseteq_size.
  intros e He. apply elem_of_list_to_set in He. destruct (qo_in _ _ Q q e He) as (_ & _ & t & E). apply elem_of_dom. unfold einfo in E.
  destruct (entries w !! e); [by eexists|done].
Qed.

(** Dropping one entry from its queue keeps the rest. *)
Lemma entry_unlink_ok w WL DL q e l1 l2 : wait_ok w WL DL -> WL q = l1 ++ e :: l2 ->
  let w' := wait_entry_remove w e in
  wait_ok w' (updq WL q (l1 ++ l2)) DL /\ wsched w' = wsched w /\ wtasks w' = wtasks w /\ dom (wheads w') = dom (wheads w) /\
  (forall y t d, y <> e -> einfo w y = Some (t, d) -> einfo w' y = Some (t, d)).
Proof.
  intros W HL. cbv zeta. destruct (entry_remove_ok w WL q e l1 l2 (wo_queues _ _ _ W) HL) as (Q' & (R1 & R2 & R3 & R4) & Hdom & (te & Hie & Hie') & Ho & Hne).
  set (w' := wait_entry_remove w e) in *.
  split_and!; try done; [|intros y t d Hy; by rewrite Ho].
  pose proof (wo_queues _ _ _ W) as Q. destruct W as [_ [[D1 D2 D3 D4] D5] W3 W4 W5 W6]. split; [done| |by rewrite R4|by rewrite R1, R4| |].
  - assert (Hwt : forall t, wtask_at w' t = wtask_at w t) by (intros t; unfold wtask_at; by rewrite R1).
    split; [split; [by rewrite R1| |done|]|].
    + rewrite R2. eapply is_dll_frame; [|exact D2]. intros x _. unfold dpv, dnx. by rewrite Hwt.
    + intros t. unfold on_deadline. rewrite Hwt. apply D4.
    + eapply sorted_ext; [|exact D5]. intros a b _ _. unfold dl. by rewrite !Hwt.
  - intros d x Hx. unfold updq in Hx. assert (Hxd : x ∈ WL d /\ x <> e).
    { destruct (decide (d = q)) as [->|Hdq].
      - split; [|intros ->; done]. rewrite HL. apply elem_of_app in Hx as [?|?]; apply elem_of_app; [by left|right; by right].
      - split; [done|]. intros ->. apply Hdq. symmetry. eapply qo_disjoint; [exact Q| |exact Hx]. rewrite HL. apply elem_mid. }
    destruct Hxd as [Hxd Hxe]. destruct (W5 d x Hxd) as (t & k & i & A & B & C). exists t, k, i. rewrite Ho, R1 by done. done.
  - intros t k i Hk Hi. rewrite R1 in Hk. destruct (W6 t k i Hk Hi) as (d & Hd & Hl). destruct (decide (entry_addr (wait_entries k) i = e)) as [Ee|Hee].
    + exists 0. rewrite Ee in Hd |- *. rewrite Hie' . split; [|by left]. congruence.
    + exists d. rewrite Ho by done. split; [done|]. destruct Hl as [->|Hl]; [by left|]. right. unfold updq. destruct (decide (d = q)) as [->|]; [|done].
      rewrite HL in Hl. apply elem_of_app. apply elem_of_app in Hl as [?|[?|?]%elem_of_cons]; [by left|done|by right].
Qed.

Lemma destroy_loop_spec DL c q l : forall fuel w WL h,
  wait_ok w WL DL -> WL q = l -> wheads w !! q = Some h -> (length l < fuel)%nat ->
  let w' := destroy_loop fuel w c q in
  wait_ok w' (updq WL q []) DL /\
  (forall x t, x ∈ l -> einfo w x = Some (t, q) -> state (task_at (wsched w') t) <> TASK_BLOCKED) /\
  (forall t, state (task_at (wsched w) t) <> TASK_BLOCKED -> state (task_at (wsched w') t) <> TASK_BLOCKED).
Proof.
  induction l as [|x l IH]; intros fuel w WL h W HL Hh Hf; destruct fuel as [|fuel]; simpl in Hf; try lia; cbn [destroy_loop];
    destruct (qo_dll _ _ (wo_queues _ _ _ W) q h Hh) as [Hd Hnd]; rewrite HL in Hd, Hnd; assert (Ewh : whead w q = h) by (unfold whead; by rewrite Hh); rewrite Ewh.
  - simpl in Hd. subst h. rewrite Z.eqb_refl. split_and!; [|intros x t Hx; by apply not_elem_of_nil in Hx|done].
    assert (Ext : forall d, updq WL q [] d = WL d) by (intros d; unfold updq; by destruct (decide (d = q)) as [->|]).
    destruct W as [[Q1 Q2 Q3] W2 W3 W4 W5 W6]. split; try done.
    + split; try done.
      * intros d h Hdh. rewrite Ext. auto.
      * intros d e. rewrite Ext. auto.
    + intros d e. rewrite Ext. auto.
    + intros t k i Hk Hi. destruct (W6 t k i Hk Hi) as (d & ? & ?). exists d. by rewrite Ext.
  - simpl in Hd. destruct Hd as (-> & Hx & _). rewrite (proj2 (Z.eqb_neq x 0)) by done.
    destruct (wo_linked _ _ _ W q x) as (t & k & i & Hi & Hk & _); [rewrite HL; by left|].
    destruct (wo_tasks _ _ _ W t ltac:(by eexists)) as [kt Hkt].
    assert (Et : we_task (entry_at w x) = t) by (unfold einfo in Hi; unfold entry_at; destruct (entries w !! x); simpl in *; congruence).
    rewrite Et. destruct (wake_facts (wsched w) c t kt (wo_rqi _ _ _ W) Hkt) as (R1 & S1 & O1 & D1). set (s1 := sched_wake_task (wsched w) c t) in *.
    pose proof (wait_ok_sched w WL DL s1 W R1 D1) as W1. set (w1 := set_wsched w s1) in *.
    destruct (entry_unlink_ok w1 WL DL q x [] l W1 HL) as (W2 & Es & _ & Hdom & Hoth). set (w2 := wait_entry_remove w1 x) in *. simpl in W2.
    assert (Hh2 : exists h2, wheads w2 !! q = Some h2) by (apply elem_of_dom; rewrite Hdom; apply elem_of_dom; by eexists). destruct Hh2 as [h2 Hh2].
    destruct (IH fuel w2 (updq WL q l) h2 W2) as (W3 & H3 & M3); [unfold updq; by rewrite decide_True|done|lia|].
    assert (M1 : forall u, state (task_at (wsched w) u) <> TASK_BLOCKED -> state (task_at (wsched w2) u) <> TASK_BLOCKED).
    { intros u Hu. rewrite Es. simpl. destruct (decide (u = t)) as [->|Hne]; [done|by rewrite O1]. }
    apply list.NoDup_cons in Hnd as [Hxl _].
    split_and!.
    + assert (Ext : forall d, updq (updq WL q l) q [] d = updq WL q [] d) by (intros d; unfold updq; by destruct (decide (d = q))).
      destruct W3 as [[Q1 Q2 Q3] V2 V3 V4 V5 V6]. split; try done.
      * split; try done; [intros d h' Hd'; rewrite <- Ext; auto|intros d e'; rewrite <- Ext; auto].
      * intros d e'. rewrite <- Ext. auto.
      * intros u k' i' Hk' Hi'. destruct (V6 u k' i' Hk' Hi') as (d & ? & ?). exists d. by rewrite <- Ext.
    + intros y u Hy Hu. apply elem_of_cons in Hy as [->|Hy].
      * rewrite Hi in Hu. injection Hu as <-. apply M3. by rewrite Es.
      * apply (H3 y); [done|]. apply Hoth; [by intros ->|done].
    + intros u Hu. by apply M3, M1.
Qed.

(** C14. Waking a queue wakes everyone: of the tasks with an entry on it, none is blocked
    afterwards, the loop over the entries having reached the end of the list.  Destroying the
    queue does that too and leaves no entry linked on it, so that no entry points at freed
    memory. *)
Theorem wait_queue_wakes w WL DL c q :
  wait_ok w WL DL -> q <> 0 -> is_Some (wheads w !! q) ->
  (let w' := sched_wake_queue w c q in
   wait_ok w' WL DL /\ forall e t, e ∈ WL q -> einfo w e = Some (t, q) -> state (task_at (wsched w') t) <> TASK_BLOCKED) /\
  (let w' := sched_wait_queue_destroy w c q in
   wait_ok w' (updq WL q []) DL /\ forall e t, e ∈ WL q -> einfo w e = Some (t, q) -> state (task_at (wsched w') t) <> TASK_BLOCKED).
Proof.
  intros W Hq [h Hh]. pose proof (queue_length w WL q h (wo_queues _ _ _ W) Hh) as Hlen. assert (Ewh : whead w q = h) by (unfold whead; by rewrite Hh).
  destruct (qo_dll _ _ (wo_queues _ _ _ W) q h Hh) as [Hd _]. split.
  - unfold sched_wake_queue. rewrite (proj2 (Z.eqb_neq q 0)), Ewh by done.
    destruct (wake_entries_spec WL DL c q (WL q) (S (size (entries w))) w h 0 W Hd ltac:(done) ltac:(lia)) as (W' & _ & H & _). split; [done|]. intros e t He. by apply H.
  - unfold sched_wait_queue_destroy. rewrite (proj2 (Z.eqb_neq q 0)) by done.
    destruct (destroy_loop_spec DL c q (WL q) (S (size (entries w))) w WL h W eq_refl Hh ltac:(lia)) as (W' & H & _). split; [done|]. intros e t He. by apply H.
Qed.

(** A change of the deadline list alone. *)
Lemma dinfo_lookup w w' t k : (forall y, dinfo w' y = dinfo w y) -> wtasks w' !! t = Some k ->
  exists k', wtasks w !! t = Some k' /\ wait_entries k = wait_entries k' /\ wait_entry_count k = wait_entry_count k'.
Proof.
  intros H E. specialize (H t). unfold dinfo in H. rewrite E in H. destruct (wtasks w !! t) as [k'|]; [|done]. exists k'. simpl in H. split_and!; congruence.
Qed.

Lemma wait_ok_dl w w' WL DL DL' : wait_ok w WL DL -> deadline_ok w' DL' -> same_queue_half w w' -> (forall y, dinfo w' y = dinfo w y) -> wait_ok w' WL DL'.
Proof.
  intros W D' (E1 & E2 & E3 & E4) Hi. assert (Hei : forall e, einfo w' e = einfo w e) by (intros e; unfold einfo; by rewrite E1).
  assert (Hi' : forall y, dinfo w y = dinfo w' y) by (intros; by rewrite Hi).
  destruct W as [[Q1 Q2 Q3] W2 W3 W4 W5 W6]. split; [|done|by rewrite E4| | |].
  - split; [by rewrite E1| |].
    + intros q h. rewrite E2. intros Hh. destruct (Q2 q h Hh) as [Hd ?]. split; [|done]. eapply is_dll_frame; [|exact Hd].
      intros x _. unfold epv, enx, entry_at. by rewrite E1.
    + intros q e He. rewrite Hei, E2. auto.
  - intros t [k Hk]. rewrite E4. apply W4. destruct (dinfo_lookup w w' t k Hi Hk) as (k' & -> & _). by eexists.
  - intros q e He. destruct (W5 q e He) as (t & k & i & A & B & C & ->). destruct (dinfo_lookup w' w t k Hi' B) as (k' & B' & F1 & F2).
    exists t, k', i. rewrite Hei, <- F2, <- F1. done.
  - intros t k i Hk Hc. destruct (dinfo_lookup w w' t k Hi Hk) as (k' & B' & F1 & F2). rewrite F2 in Hc. rewrite F1, Hei. by apply W6.
Qed.

(** ** The timer *)

Lemma expire_loop_spec WL c now l : forall fuel w,
  wait_ok w WL l -> (length l < fuel)%nat ->
  let w' := expire_loop fuel w c now in
  exists l1 l2, l = l1 ++ l2 /\ wait_ok w' WL l2 /\ (forall t, t ∈ l1 -> dl w t <= now) /\ (forall t, t ∈ l2 -> now < dl w t) /\
    (forall y, dinfo w' y = dinfo w y) /\ event_check_tick w' = event_check_tick w /\
    forall t, state (task_at (wsched w') t) = if decide (t ∈ l1 /\ state (task_at (wsched w) t) = TASK_BLOCKED) then TASK_READY else state (task_at (wsched w) t).
Proof.
  induction l as [|x l IH]; intros fuel w W Hf; destruct fuel as [|fuel]; simpl in Hf; try lia; cbn [expire_loop];
    pose proof (wo_deadline _ _ _ W) as D; pose proof (do_dll _ _ D) as Hd; simpl in Hd.
  - rewrite Hd, Z.eqb_refl. simpl. exists [], []. split_and!; try done; try (intros t Ht; by apply not_elem_of_nil in Ht).
  - destruct Hd as (-> & Hx & _). rewrite (proj2 (Z.eqb_neq x 0)) by done. cbn [negb andb]. fold (dl w x). destruct (dl w x <=? now) eqn:E; bool_prop.
    + destruct (deadline_remove_ok w (x :: l) x [] l D eq_refl) as (D1 & H1 & I1). set (w1 := deadline_remove w x) in *. simpl in D1.
      pose proof (wait_ok_dl w w1 WL (x :: l) l W D1 H1 I1) as W1.
      assert (Hx1 : is_Some (tasks (wsched w1) !! x)).
      { destruct H1 as (_ & _ & _ & ->). apply (wo_tasks _ _ _ W), on_deadline_some, (do_mem _ _ D). by left. }
      destruct Hx1 as [kx Hkx]. destruct (wake_state (wsched w1) c x kx (wo_rqi _ _ _ W1) Hkx) as (R2 & S2 & O2 & D2).
      set (s2 := sched_wake_task (wsched w1) c x) in *. pose proof (wait_ok_sched w1 WL l s2 W1 R2 D2) as W2. set (w2 := set_wsched w1 s2) in *.
      destruct (IH fuel w2 W2 ltac:(lia)) as (l1 & l2 & -> & W3 & A & B & I3 & T3 & S3).
      assert (I2 : forall y, dinfo w2 y = dinfo w y) by (intros y; apply I1).
      exists (x :: l1), l2. split_and!; try done.
      * intros t Ht. apply elem_of_cons in Ht as [->|Ht]; [done|]. rewrite <- (dl_dinfo w w2) by done. auto.
      * intros t Ht. rewrite <- (dl_dinfo w w2) by done. auto.
      * intros y. by rewrite I3.
      * rewrite T3. simpl. apply H1.
      * intros t. assert (Ew : wsched w1 = wsched w) by apply H1. assert (Ek : state (task_at (wsched w) x) = state kx) by (rewrite <- Ew; unfold task_at; by rewrite Hkx).
        rewrite S3. simpl wsched. destruct (decide (t = x)) as [->|Hne].
        -- rewrite S2, Ek. destruct (decide (state kx = TASK_BLOCKED)) as [Eb|Eb].
           ++ rewrite decide_False by (by intros [_ ?]). rewrite decide_True; [done|]. split; [by left|done].
           ++ rewrite !decide_False by tauto. done.
        -- rewrite O2, Ew by done. assert (Hin : t ∈ x :: l1 <-> t ∈ l1) by (rewrite elem_of_cons; tauto).
           destruct (decide (t ∈ l1 /\ state (task_at (wsched w) t) = TASK_BLOCKED)); [rewrite decide_True by tauto; done|rewrite decide_False by tauto; done].
    + exists [], (x :: l). split_and!; try done; [intros t Ht; by apply not_elem_of_nil in Ht|].
      intros t Ht. pose proof (do_sorted _ _ D) as Hs. inversion Hs as [|? ? _ Hfa]; subst. rewrite list.Forall_forall in Hfa.
      apply elem_of_cons in Ht as [->|Ht]; [done|]. specialize (Hfa t Ht). lia.
Qed.

(** C28. The timer expires exactly the waits whose time has come: once the tick it waits for is
    reached, the tasks with a deadline up to now are off the list, and those of them that were
    blocked are ready; the others stay on it in order with their deadlines, all in the future,
    and no other task changes its state.  The next look at the clock is set from the first
    deadline left, to never when there is none. *)
Theorem event_tick_expires w WL DL c fpt now ticks :
  wait_ok w WL DL -> event_check_tick w <= ticks ->
  let w' := sched_event_tick w c fpt now ticks in
  exists l1 l2, DL = l1 ++ l2 /\ wait_ok w' WL l2 /\
    (forall t, t ∈ l1 -> dl w t <= now) /\ (forall t, t ∈ l2 -> now < dl w t /\ dl w' t = dl w t) /\
    (forall t, state (task_at (wsched w') t) = if decide (t ∈ l1 /\ state (task_at (wsched w) t) = TASK_BLOCKED) then TASK_READY else state (task_at (wsched w) t)) /\
    (l2 = [] -> event_check_tick w' = UINT64_MAX) /\
    (forall t, head l2 = Some t -> event_check_tick w' = ticks +w event_ticks_for fpt (dl w t -w now)).
Proof.
  intros W Ht. unfold sched_event_tick. rewrite (proj2 (Z.ltb_ge _ _)) by done.
  destruct (expire_loop_spec WL c now DL (S (size (wtasks w))) w W) as (l1 & l2 & -> & W1 & A & B & I1 & _ & S1).
  { pose proof (deadline_length w DL (wo_deadline _ _ _ W)). lia. }
  set (w1 := expire_loop (S (size (wtasks w))) w c now) in *. exists l1, l2. pose proof (do_dll _ _ (wo_deadline _ _ _ W1)) as Hd.
  pose proof (is_dll_head _ _ _ _ _ Hd) as Hh. pose proof (is_dll_nonnull _ _ _ _ _ Hd) as Hnn.
  split_and!; [done| |exact A|intros t Hin; split; [auto|exact (dl_dinfo w w1 t (I1 t))]|exact S1| |].
  - destruct W1 as [[Q1 Q2 Q3] [[D1 D2 D3 D4] D5] W3 W4 W5 W6]. split; [by split|by split|done|done|done|done].
  - intros ->. simpl in Hh. rewrite Hh. done.
  - intros t E. rewrite E in Hh. simpl in Hh. rewrite Hh. assert (Ht0 : t <> 0) by (intros ->; destruct l2; simpl in E; [done|]; injection E as ->; apply Hnn; by left).
    rewrite (proj2 (Z.eqb_neq t 0)) by done. simpl. fold (dl w1 t). by rewrite (dl_dinfo w w1 t (I1 t)).
Qed.

(** ** The end of a wait *)

Lemma addr_inj base i j : entry_addr base i = entry_addr base j -> i = j.
Proof. unfold entry_addr, sizeof_wait_entry. lia. Qed.

(** Unlinking the entries of a task. *)
Lemma cleanup_entries w WL DL t k : wait_ok w WL DL -> wtasks w !! t = Some k -> 0 <= wait_entry_count k ->
  let w' := for_range (Z.to_nat (wait_entry_count k)) 0 (fun i w => wait_entry_remove w (entry_addr (wait_entries k) i)) w in
  exists WL', wait_ok w' WL' DL /\ wtasks w' = wtasks w /\ wsched w' = wsched w /\ deadline_head w' = deadline_head w /\
    (forall q e, e ∈ WL' q <-> e ∈ WL q /\ ~ exists j, 0 <= j < wait_entry_count k /\ e = entry_addr (wait_entries k) j) /\
    (forall e t' q, t' <> t -> einfo w e = Some (t', q) -> einfo w' e = Some (t', q)).
Proof.
  intros W Hk Hc. cbv zeta. set (base := wait_entries k). set (n := wait_entry_count k) in *.
  pose proof (for_range_inv (fun i w' => exists WL', wait_ok w' WL' DL /\ wtasks w' = wtasks w /\ wsched w' = wsched w /\ deadline_head w' = deadline_head w /\
    (forall q e, e ∈ WL' q <-> e ∈ WL q /\ ~ exists j, 0 <= j < i /\ e = entry_addr base j) /\
    (forall e t' q, t' <> t -> einfo w e = Some (t', q) -> einfo w' e = Some (t', q)))
    (fun i w => wait_entry_remove w (entry_addr base i)) (Z.to_nat n) 0 w) as Hinv.
  rewrite Z2Nat.id, Z.add_0_l in Hinv by done. apply Hinv; clear Hinv.
  - exists WL. split_and!; try done. intros q e. split; [|by intros [? _]]. intros He. split; [done|]. intros (j & ? & _). lia.
  - intros i w1 Hi (WL1 & W1 & E1 & E2 & E3 & M1 & O1). destruct (wo_array _ _ _ W1 t k i ltac:(by rewrite E1) Hi) as (q & Hq & Hl). fold base in Hq, Hl.
    assert (Hq' : we_queue (entry_at w1 (entry_addr base i)) = q).
    { unfold einfo in Hq. unfold entry_at. destruct (entries w1 !! entry_addr base i); simpl in *; congruence. }
    destruct (decide (q = 0)) as [->|Hq0].
    + assert (Er : wait_entry_remove w1 (entry_addr base i) = w1) by (unfold wait_entry_remove; by rewrite Hq', Z.eqb_refl). rewrite Er.
      exists WL1. split_and!; try done. intros d e. rewrite M1. split; intros [He Hn]; (split; [done|]); intros (j & Hj & Ej); apply Hn.
      * destruct (decide (j = i)) as [->|]; [|exists j; split; [lia|done]]. exfalso.
        assert (He1 : e ∈ WL1 d) by (apply M1; done). destruct (qo_in _ _ (wo_queues _ _ _ W1) d e He1) as (Hd0 & _ & t' & E'). rewrite Ej in E'. congruence.
      * exists j. split; [lia|done].
    + destruct Hl as [?|Hl]; [done|]. apply list_elem_of_split in Hl as (l1 & l2 & HL).
      destruct (entry_unlink_ok w1 WL1 DL q (entry_addr base i) l1 l2 W1 HL) as (W2 & Es & Ew & _ & Ho).
      destruct (entry_remove_ok w1 WL1 q (entry_addr base i) l1 l2 (wo_queues _ _ _ W1) HL) as (_ & (_ & Ed & _ & _) & _ & _ & _ & Hn).
      set (w2 := wait_entry_remove w1 (entry_addr base i)) in *. exists (updq WL1 q (l1 ++ l2)). split_and!; try congruence.
      * intros d e. assert (Hm : e ∈ updq WL1 q (l1 ++ l2) d <-> e ∈ WL1 d /\ e <> entry_addr base i).
        { unfold updq. destruct (decide (d = q)) as [->|Hdq].
          - rewrite HL, !elem_of_app, elem_of_cons. rewrite elem_of_app in Hn. split; [|tauto]. intros He. split; [tauto|]. intros ->. tauto.
          - split; [|tauto]. intros He. split; [done|]. intros ->. apply Hdq. symmetry. eapply qo_disjoint; [apply (wo_queues _ _ _ W1)| |exact He]. rewrite HL. apply elem_mid. }
        rewrite Hm, M1. split.
        -- intros [[He Hx] Hne]. split; [done|]. intros (j & Hj & Ej). destruct (decide (j = i)) as [->|]; [done|]. apply Hx. exists j. split; [lia|done].
        -- intros [He Hx]. split; [split; [done|]|].
           ++ intros (j & Hj & Ej). apply Hx. exists j. split; [lia|done].
           ++ intros ->. apply Hx. exists i. split; [lia|done].
      * intros e t' d Ht' He. apply Ho; [|by apply O1]. intros ->. specialize (O1 _ _ _ Ht' He). congruence.
Qed.

Lemma dinfo_at w w' y : wtasks w' !! y = wtasks w !! y -> dinfo w' y = dinfo w y.
Proof. unfold dinfo. by intros ->. Qed.

(** Filtering out what is not there. *)
Lemma filter_absent (t : Z) (l : list Z) : t ∉ l -> filter (fun x => x <> t) l = l.
Proof.
  induction l as [|a l IH]; [done|]. rewrite not_elem_of_cons. intros [H1 H2]. rewrite filter_cons_True by congruence. by rewrite IH.
Qed.

(** A task that is done waiting is on no list: after the cleanup no queue holds an entry of
    it and the deadline list does not hold it, while everybody else is where they were and
    the lists are well formed. *)
Lemma wait_cleanup_unlinks w WL DL t k :
  wait_ok w WL DL -> wtasks w !! t = Some k -> 0 <= wait_entry_count k ->
  let w' := sched_wait_cleanup w t in
  exists WL', wait_ok w' WL' (filter (fun x => x <> t) DL) /\
    (forall q e t', einfo w e = Some (t', q) -> (e ∈ WL' q <-> e ∈ WL q /\ t' <> t)) /\ (forall q e, e ∈ WL' q -> e ∈ WL q) /\
    wsched w' = wsched w.
Proof.
  intros W Hk Hc. cbv zeta. unfold sched_wait_cleanup, wait_cleanup_locked.
  assert (Eat : wtask_at w t = k) by (unfold wtask_at; by rewrite Hk). rewrite Eat.
  destruct (cleanup_entries w WL DL t k W Hk Hc) as (WL1 & W1 & E1 & E2 & E3 & M1 & O1). set (w1 := for_range _ _ _ w) in *. clearbody w1.
  assert (Eat1 : wtask_at w1 t = k) by (unfold wtask_at; by rewrite E1, Hk). rewrite Eat1. set (k2 := {| wait_entries := 0 |}). set (w2 := set_wtask w1 t k2).
  assert (Hown : forall q e t', e ∈ WL1 q -> einfo w1 e = Some (t', q) -> t' <> t).
  { intros q e t' He Hi ->. destruct (wo_linked _ _ _ W1 q e He) as (u & ku & i & A & B & C & D). rewrite Hi in A. injection A as <-.
    rewrite E1, Hk in B. injection B as <-. apply (proj2 (proj1 (M1 q e) He)). by exists i. }
  destruct W1 as [[Q1 Q2 Q3] [[D1 D2 D3 D4] D5] W3 W4 W5 W6].
  assert (Ht0 : t <> 0) by (intros ->; congruence).
  assert (Hw2 : forall y, y <> t -> wtask_at w2 y = wtask_at w1 y) by (intros y Hy; unfold w2; by rewrite wtask_at_set, decide_False).
  assert (Hd2 : forall y, dpv w2 y = dpv w1 y /\ dnx w2 y = dnx w1 y /\ (on_deadline w2 y <-> on_deadline w1 y)).
  { intros y. unfold dpv, dnx, on_deadline. destruct (decide (y = t)) as [->|Hy]; [|by rewrite Hw2]. unfold w2. rewrite wtask_at_set, decide_True, Eat1 by done. done. }
  assert (S2 : deadline_shape w2 DL).
  { split; [unfold w2; by rewrite wtasks_set, decide_False| |done|].
    - change (deadline_head w2) with (deadline_head w1). eapply is_dll_frame; [|exact D2]. intros y _. by destruct (Hd2 y) as (-> & -> & _).
    - intros y. destruct (Hd2 y) as (_ & _ & ->). apply D4. }
  assert (Hfin : exists w3 l, deadline_remove w2 t = w3 /\ deadline_shape w3 l /\ same_queue_half w2 w3 /\ (forall y, dinfo w3 y = dinfo w2 y) /\
    l = filter (fun x => x <> t) DL /\ StronglySorted (fun a b => dl w1 a <= dl w1 b) l).
  { destruct (decide (t ∈ DL)) as [Hin|Hin].
    - apply list_elem_of_split in Hin as (l1 & l2 & HDL). destruct (deadline_remove_shape w2 DL t l1 l2 S2 HDL) as (S3 & H3 & I3).
      exists (deadline_remove w2 t), (l1 ++ l2). split_and!; try done; try apply H3; [|rewrite HDL in D5; by eapply sorted_app_inv].
      rewrite HDL in D3 |- *. apply list.NoDup_app in D3 as (_ & N2 & N3). apply list.NoDup_cons in N3 as [N3 _].
      rewrite list.filter_app, filter_cons_False by tauto. rewrite !filter_absent; [done|done|]. intros Ht. apply (N2 t Ht). by left.
    - exists w2, DL. split_and!; try done; [by eapply deadline_remove_idle|]. by rewrite filter_absent. }
  destruct Hfin as (w3 & l & -> & S3 & (F1 & F2 & F3 & F4) & I3 & -> & Hs3).
  assert (Hei : forall e, einfo w3 e = einfo w1 e) by (intros e; unfold einfo; by rewrite F1).
  assert (Hi3 : forall y, y <> t -> dinfo w3 y = dinfo w1 y).
  { intros y Hy. rewrite I3. apply dinfo_at. unfold w2. by rewrite wtasks_set, decide_False. }
  assert (Hi3t : dinfo w3 t = Some (0, 0, 0)) by (rewrite I3; unfold dinfo, w2; by rewrite wtasks_set, decide_True).
  exists WL1. split_and!.
  - split.
    + split; [by rewrite F1| |].
      * intros q h. rewrite F2. intros Hh. destruct (Q2 q h Hh) as [Hd ?]. split; [|done]. eapply is_dll_frame; [|exact Hd]. intros x _. unfold epv, enx, entry_at. by rewrite F1.
      * intros q e He. rewrite Hei, F2. by apply Q3.
    + split; [done|]. eapply sorted_ext; [|exact Hs3]. intros a b Ha Hb. apply list_elem_of_filter in Ha as [Ha _]. apply list_elem_of_filter in Hb as [Hb _].
      by rewrite !(dl_dinfo w1 w3) by auto.
    + by rewrite F4.
    + intros y [ky Hy]. rewrite F4. apply W4. destruct (decide (y = t)) as [->|Hyt]; [rewrite E1, Hk; by eexists|].
      specialize (Hi3 y Hyt). unfold dinfo in Hi3. rewrite Hy in Hi3. destruct (wtasks w1 !! y); [by eexists|done].
    + intros q e He. destruct (W5 q e He) as (u & ku & i & A & B & C & D). pose proof (Hown q e u He A) as Hut.
      specialize (Hi3 u Hut). unfold dinfo in Hi3. rewrite B in Hi3. destruct (wtasks w3 !! u) as [ku'|] eqn:Eu; [|done]. simpl in Hi3. injection Hi3 as G1 G2 _.
      exists u, ku', i. rewrite Hei, G1, G2. done.
    + intros u ku i Hu Hi. destruct (decide (u = t)) as [->|Hut].
      * unfold dinfo in Hi3t. rewrite Hu in Hi3t. simpl in Hi3t. injection Hi3t as _ G2 _. lia.
      * specialize (Hi3 u Hut). unfold dinfo in Hi3. rewrite Hu in Hi3. destruct (wtasks w1 !! u) as [ku'|] eqn:Eu; [|done]. simpl in Hi3. injection Hi3 as G1 G2 _.
        rewrite G2 in Hi. rewrite G1, Hei. by apply (W6 u ku').
  - intros q e t' He. rewrite M1. split.
    + intros [Hin Hn]. split; [done|]. intros ->. destruct (wo_linked _ _ _ W q e Hin) as (u & ku & i & A & B & C & D). rewrite He in A. injection A as <-.
      rewrite Hk in B. injection B as <-. apply Hn. by exists i.
    + intros [Hin Ht']. split; [done|]. intros (j & Hj & ->). destruct (wo_array _ _ _ W t k j Hk Hj) as (d & Hd & _). congruence.
  - intros q e He. by apply M1 in He as [? _].
  - rewrite F4. done.
Qed.

(** ** The start of a wait *)

(** The entries at [base] are filled in and not linked. *)
Definition fresh_entries (w : wait_state) (WL : Z -> list Z) (base count : Z) : Prop :=
  forall i, 0 <= i < count -> exists t q, einfo w (entry_addr base i) = Some (t, q) /\ q <> 0 /\ is_Some (wheads w !! q) /\
    entry_addr base i ∉ WL q.

Lemma add_entries w WL base count t : queues_ok w WL -> fresh_entries w WL base count -> 0 <= count ->
  let w' := for_range (Z.to_nat count) 0 (fun i w => wait_entry_add w (entry_addr base i) t) w in
  exists WL', queues_ok w' WL' /\ same_rest w w' /\
    (forall q e, e ∈ WL' q <-> e ∈ WL q \/ exists i u, 0 <= i < count /\ e = entry_addr base i /\ einfo w e = Some (u, q)) /\
    (forall i u q, 0 <= i < count -> einfo w (entry_addr base i) = Some (u, q) -> einfo w' (entry_addr base i) = Some (t, q)) /\
    (forall e, (forall i, 0 <= i < count -> e <> entry_addr base i) -> einfo w' e = einfo w e).
Proof.
  intros Q F Hc. cbv zeta.
  pose proof (for_range_inv (fun n w' => exists WL', queues_ok w' WL' /\ same_rest w w' /\ dom (wheads w') = dom (wheads w) /\
    (forall q e, e ∈ WL' q <-> e ∈ WL q \/ exists i u, 0 <= i < n /\ e = entry_addr base i /\ einfo w e = Some (u, q)) /\
    (forall i u q, 0 <= i < n -> einfo w (entry_addr base i) = Some (u, q) -> einfo w' (entry_addr base i) = Some (t, q)) /\
    (forall e, (forall i, 0 <= i < n -> e <> entry_addr base i) -> einfo w' e = einfo w e))
    (fun i w => wait_entry_add w (entry_addr base i) t) (Z.to_nat count) 0 w) as Hinv.
  rewrite Z2Nat.id, Z.add_0_l in Hinv by done.
  assert (Hend : exists WL', queues_ok (for_range (Z.to_nat count) 0 (fun i w => wait_entry_add w (entry_addr base i) t) w) WL' /\
    same_rest w (for_range (Z.to_nat count) 0 (fun i w => wait_entry_add w (entry_addr base i) t) w) /\
    dom (wheads (for_range (Z.to_nat count) 0 (fun i w => wait_entry_add w (entry_addr base i) t) w)) = dom (wheads w) /\
    (forall q e, e ∈ WL' q <-> e ∈ WL q \/ exists i u, 0 <= i < count /\ e = entry_addr base i /\ einfo w e = Some (u, q)) /\
    (forall i u q, 0 <= i < count -> einfo w (entry_addr base i) = Some (u, q) ->
      einfo (for_range (Z.to_nat count) 0 (fun i w => wait_entry_add w (entry_addr base i) t) w) (entry_addr base i) = Some (t, q)) /\
    (forall e, (forall i, 0 <= i < count -> e <> entry_addr base i) ->
      einfo (for_range (Z.to_nat count) 0 (fun i w => wait_entry_add w (entry_addr base i) t) w) e = einfo w e)).
  { apply Hinv; clear Hinv.
    - exists WL. split_and!; try done; [|lia]. intros q e. split; [by left|]. intros [?|(i & u & ? & _)]; [done|lia].
    - intros i w1 Hi (WL1 & Q1 & R1 & E1 & M1 & A1 & O1). destruct (F i Hi) as (u & q & Hiq & Hq0 & Hwq & Hnl).
      assert (Hi1 : einfo w1 (entry_addr base i) = Some (u, q)).
      { rewrite O1; [done|]. intros j Hj E. apply addr_inj in E. lia. }
      unfold einfo in Hi1. destruct (entries w1 !! entry_addr base i) as [v|] eqn:Hv; [|done]. simpl in Hi1. injection Hi1 as Hvt Hvq.
      assert (Hn1 : entry_addr base i ∉ WL1 q).
      { rewrite M1. intros [?|(j & u' & Hj & E & _)]; [done|]. apply addr_inj in E. lia. }
      assert (Hwq1 : is_Some (wheads w1 !! q)) by (apply elem_of_dom; rewrite E1; by apply elem_of_dom).
      destruct (entry_add_ok w1 WL1 (entry_addr base i) t v q Q1 Hv Hvq Hq0 Hwq1 Hn1) as (Q2 & R2 & E2 & I2 & O2).
      set (w2 := wait_entry_add w1 (entry_addr base i) t) in *. pose proof (same_rest_trans _ _ _ R1 R2) as R3. clear R1 R2.
      exists (updq WL1 q (entry_addr base i :: WL1 q)). split; [done|]. split; [done|]. split_and!.
      + congruence.
      + intros d e. assert (Hm : e ∈ updq WL1 q (entry_addr base i :: WL1 q) d <-> e ∈ WL1 d \/ (e = entry_addr base i /\ d = q)).
        { unfold updq. destruct (decide (d = q)) as [->|Hdq]; [rewrite elem_of_cons; tauto|tauto]. }
        rewrite Hm, M1. split.
        * intros [[?|(j & u' & ? & ? & ?)]|[-> ->]]; [by left|right; exists j, u'; split_and!; try done; lia|right; exists i, u; split_and!; try done; lia].
        * intros [?|(j & u' & ? & Ej & ?)]; [by left; left|]. destruct (decide (j = i)) as [->|]; [|left; right; exists j, u'; split_and!; try done; lia].
          right. split; [done|]. rewrite Ej in H0. congruence.
      + intros j u' d Hj Hd. destruct (decide (j = i)) as [->|Hji]; [congruence|]. rewrite O2 by (intros E; by apply addr_inj in E). apply (A1 j u'); [lia|done].
      + intros e He. rewrite O2, O1; [done| |]; [intros j Hj; apply He; lia|]. apply He. lia. }
  destruct Hend as (WL' & ? & ? & _ & ? & ? & ?). by exists WL'.
Qed.

Lemma set_blocked_facts s t k : rqi s -> tasks s !! t = Some k ->
  rqi (sched_set_blocked s t) /\ state (task_at (sched_set_blocked s t) t) = TASK_BLOCKED /\
  (forall x, is_Some (tasks (sched_set_blocked s t) !! x) <-> is_Some (tasks s !! x)).
Proof.
  intros Hr Hk. destruct (dequeue_spec s t Hr) as (R1 & C1 & _). unfold sched_set_blocked. destruct (core_lookup _ _ t k C1 Hk) as (k1 & Hk1 & _). split_and!.
  - eapply rqi_frame; [|exact R1]. by apply upd_same_queues.
  - unfold task_at. by rewrite tasks_upd, decide_True, Hk1.
  - intros x. rewrite tasks_upd. assert (E : is_Some (tasks (rq_dequeue s t) !! x) <-> is_Some (tasks s !! x)).
    { by rewrite <- (fmap_is_Some core (tasks (rq_dequeue s t) !! x)), (sc_task _ _ C1 x), fmap_is_Some. }
    rewrite <- E. destruct (decide (x = t)); [|done]. by rewrite fmap_is_Some.
Qed.

(** A task that is not waiting starts to. *)
Lemma prepare_ok w WL DL c base count deadline fpt hpet ticks t k :
  wait_ok w WL DL -> t = current (cpu_at (wsched w) c) -> wtasks w !! t = Some k -> wait_entry_count k = 0 -> t ∉ DL ->
  fresh_entries w WL base count -> 0 <= count ->
  let w' := sched_prepare_wait w c base count deadline fpt hpet ticks in
  exists WL' DL', wait_ok w' WL' DL' /\ state (task_at (wsched w') t) = TASK_BLOCKED /\
    (forall q e, e ∈ WL' q <-> e ∈ WL q \/ exists i u, 0 <= i < count /\ e = entry_addr base i /\ einfo w e = Some (u, q)) /\
    (forall x, x ∈ DL' <-> x ∈ DL \/ (x = t /\ deadline <> 0 /\ fpt <> 0)) /\
    (deadline <> 0 -> fpt <> 0 -> dl w' t = deadline /\
      event_check_tick w' <= ticks +w event_ticks_for fpt (if hpet <? deadline then deadline - hpet else 0)).
Proof.
  intros W -> Hk Hc0 HtD Hf Hc. cbv zeta. unfold sched_prepare_wait. set (t := current (cpu_at (wsched w) c)) in *.
  assert (Ht0 : t <> 0) by (intros E; rewrite E, (do_null _ _ (wo_deadline _ _ _ W)) in Hk; done). rewrite (proj2 (Z.eqb_neq t 0)) by done.
  destruct (add_entries w WL base count t (wo_queues _ _ _ W) Hf Hc) as (WL1 & Q1 & (R1 & R2 & R3 & R4) & M1 & A1 & O1). set (w1 := for_range _ _ _ w) in *. clearbody w1.
  assert (Eat1 : wtask_at w1 t = k) by (unfold wtask_at; by rewrite R1, Hk). rewrite Eat1. set (k2 := {| wait_entries := base |}). set (w2 := set_wtask w1 t k2).
  assert (Hwt : forall y, y <> t -> wtask_at w2 y = wtask_at w y) by (intros y Hy; unfold w2; rewrite wtask_at_set, decide_False by done; unfold wtask_at; by rewrite R1).
  assert (Hnew : forall i, 0 <= i < count -> exists q, einfo w2 (entry_addr base i) = Some (t, q) /\ entry_addr base i ∈ WL1 q).
  { intros i Hi. destruct (Hf i Hi) as (u & q & E & _). exists q. split; [by apply (A1 i u q)|]. apply M1. right. by exists i, u. }
  assert (Hnt : forall q e, e ∈ WL q -> forall i, 0 <= i < count -> e <> entry_addr base i).
  { intros q e He i Hi ->. destruct (Hf i Hi) as (u & d & E & _ & _ & Hn). destruct (qo_in _ _ (wo_queues _ _ _ W) q _ He) as (_ & _ & u' & E'). congruence. }
  assert (Hno : forall u ku i, wtasks w !! u = Some ku -> 0 <= i < wait_entry_count ku -> forall j, 0 <= j < count -> entry_addr (wait_entries ku) i <> entry_addr base j).
  { intros u ku i Hu Hi j Hj E. destruct (wo_array _ _ _ W u ku i Hu Hi) as (q & Eq & Hl). destruct (Hf j Hj) as (u' & d & E' & Hd0 & _ & Hn).
    rewrite E in Eq, Hl. rewrite E' in Eq. injection Eq as <- <-. destruct Hl; done. }
  assert (W2 : wait_ok w2 WL1 DL).
  { pose proof (wo_deadline _ _ _ W) as [[D1 D2 D3 D4] D5]. destruct W as [Q0 _ W3 W4 W5 W6]. split.
    - destruct Q1 as [X Y Z]. by split.
    - assert (Hq : forall y, dpv w2 y = dpv w y /\ dnx w2 y = dnx w y /\ (on_deadline w2 y <-> on_deadline w y)).
      { intros y. unfold dpv, dnx, on_deadline. destruct (decide (y = t)) as [->|Hy]; [|by rewrite Hwt]. unfold w2. rewrite wtask_at_set, decide_True by done.
        unfold wtask_at. rewrite Hk. done. }
      split; [split|].
      + unfold w2. rewrite wtasks_set, decide_False by done. by rewrite R1.
      + change (deadline_head w2) with (deadline_head w1). rewrite R2. eapply is_dll_frame; [|exact D2]. intros y _. by destruct (Hq y) as (-> & -> & _).
      + done.
      + intros y. destruct (Hq y) as (_ & _ & ->). apply D4.
      + eapply sorted_ext; [|exact D5]. intros a b Ha Hb. unfold dl. rewrite !Hwt; [done| |]; by intros ->.
    - change (wsched w2) with (wsched w1). by rewrite R4.
    - intros y Hy. change (wsched w2) with (wsched w1). rewrite R4. apply W4. unfold w2 in Hy. rewrite wtasks_set, R1 in Hy. destruct (decide (y = t)) as [->|]; [rewrite Hk; by eexists|done].
    - intros q e He. apply M1 in He as [He|(i & u & Hi & -> & E)].
      + destruct (W5 q e He) as (u & ku & i & A & B & C & D). exists u, ku, i. assert (Hut : u <> t) by (intros ->; rewrite Hk in B; injection B as <-; lia).
        split; [|split; [|done]].
        * change (einfo w2 e) with (einfo w1 e). rewrite O1; [done|]. by eapply Hnt.
        * unfold w2. rewrite wtasks_set, decide_False by done. by rewrite R1.
      + exists t, k2, i. split; [by apply (A1 i u q)|]. split; [unfold w2; by rewrite wtasks_set, decide_True|done].
    - intros u ku i Hu Hi. unfold w2 in Hu. rewrite wtasks_set in Hu. destruct (decide (u = t)) as [->|Hut].
      + injection Hu as <-. destruct (Hnew i Hi) as (q & ? & ?). exists q. split; [done|]. by right.
      + rewrite R1 in Hu. destruct (W6 u ku i Hu Hi) as (q & E & Hl). exists q. change (einfo w2 ?x) with (einfo w1 x). rewrite O1 by (intros j Hj; by eapply Hno).
        split; [done|]. destruct Hl; [by left|]. right. apply M1. by left. }
  assert (Hk2 : wtasks w2 !! t = Some k2) by (unfold w2; by rewrite wtasks_set, decide_True).
  set (w3 := if negb (deadline =? 0) && negb (fpt =? 0) then _ else w2).
  assert (H3 : exists DL', wait_ok w3 WL1 DL' /\ wsched w3 = wsched w /\ (forall x, x ∈ DL' <-> x ∈ DL \/ (x = t /\ deadline <> 0 /\ fpt <> 0)) /\
    (deadline <> 0 -> fpt <> 0 -> dl w3 t = deadline /\ event_check_tick w3 <= ticks +w event_ticks_for fpt (if hpet <? deadline then deadline - hpet else 0))).
  { unfold w3. destruct (negb (deadline =? 0) && negb (fpt =? 0)) eqn:E.
    - apply andb_true_iff in E as [E1 E2]. bool_prop. assert (Eat2 : wtask_at w2 t = k2) by (unfold wtask_at; by rewrite Hk2). rewrite Eat2.
      set (k4 := {| wait_entries := wait_entries k2 |}). set (w4 := set_wtask w2 t k4).
      assert (W4 : wait_ok w4 WL1 DL /\ dl w4 t = deadline /\ wtasks w4 !! t = Some k4).
      { destruct W2 as [Q2 [[D1 D2 D3 D4] D5] V3 V4 V5 V6].
        assert (Hq : forall y, dpv w4 y = dpv w2 y /\ dnx w4 y = dnx w2 y /\ (on_deadline w4 y <-> on_deadline w2 y)).
        { intros y. unfold dpv, dnx, on_deadline, w4. rewrite wtask_at_set. destruct (decide (y = t)) as [->|Hy]; [rewrite Eat2|]; done. }
        assert (Hl : forall y, wtasks w4 !! y = if decide (y = t) then Some k4 else wtasks w2 !! y) by (intros; apply wtasks_set).
        split_and!; [|unfold dl, w4; by rewrite wtask_at_set, decide_True|by rewrite Hl, decide_True]. split; [by destruct Q2; split| |done| | |].
        - split; [split|].
          + by rewrite Hl, decide_False.
          + eapply is_dll_frame; [|exact D2]. intros y _. by destruct (Hq y) as (-> & -> & _).
          + done.
          + intros y. destruct (Hq y) as (_ & _ & ->). apply D4.
          + eapply sorted_ext; [|exact D5]. intros a b Ha Hb. unfold dl, w4. rewrite !wtask_at_set, !decide_False; [done| |]; by intros ->.
        - intros y. rewrite Hl. destruct (decide (y = t)) as [->|]; [intros _; apply V4; by rewrite Hk2|apply V4].
        - intros q e He. destruct (V5 q e He) as (u & ku & i & A & B & C & D). destruct (decide (u = t)) as [->|Hut].
          + rewrite Hk2 in B. injection B as <-. exists t, k4, i. rewrite Hl, decide_True by done. done.
          + exists u, ku, i. rewrite Hl, decide_False by done. done.
        - intros u ku i. rewrite Hl. destruct (decide (u = t)) as [->|Hut]; [|apply V6]. intros [= <-]. apply (V6 t k2 i Hk2). }
      destruct W4 as (W4 & Edl & Hk4). destruct (deadline_insert_ok w4 DL t (wo_deadline _ _ _ W4) HtD ltac:(by rewrite Hk4)) as (l1 & l2 & -> & D5 & H5 & I5).
      set (w5 := deadline_insert w4 t) in *. pose proof (wait_ok_dl w4 w5 WL1 (l1 ++ l2) (l1 ++ t :: l2) W4 D5 H5 I5) as W5.
      set (tick := ticks +w _). set (w6 := if tick <? event_check_tick w5 then set_check_tick w5 tick else w5).
      assert (W6 : wait_ok w6 WL1 (l1 ++ t :: l2)).
      { unfold w6. clearbody tick. destruct (tick <? event_check_tick w5); [|exact W5]. destruct W5 as [[X1 X2 X3] [[Y1 Y2 Y3 Y4] Y5] Z3 Z4 Z5 Z6]. split; [by split|by split|done|done|done|done]. }
      exists (l1 ++ t :: l2). split; [exact W6|]. split_and!.
      + transitivity (wsched w5); [unfold w6; by destruct (tick <? event_check_tick w5)|]. destruct H5 as (_ & _ & _ & ->). simpl. exact R4.
      + intros x. rewrite !elem_of_app, elem_of_cons. tauto.
      + intros _ _. split.
        * transitivity (dl w5 t); [unfold w6; by destruct (tick <? event_check_tick w5)|]. rewrite (dl_dinfo w4 w5) by done. done.
        * unfold w6. destruct (tick <? event_check_tick w5) eqn:Et; bool_prop; [simpl; lia|done].
    - exists DL. split; [done|]. split; [exact R4|]. split.
      + intros x. split; [by left|]. intros [?|(_ & E1 & E2)]; [done|]. apply Z.eqb_neq in E1, E2. by rewrite E1, E2 in E.
      + intros E1 E2. apply Z.eqb_neq in E1, E2. by rewrite E1, E2 in E. }
  destruct H3 as (DL' & W3 & E3 & M3 & T3). clearbody w3. rewrite E3.
  destruct (wo_tasks _ _ _ W t ltac:(by rewrite Hk)) as [kt Hkt]. destruct (set_blocked_facts (wsched w) t kt (wo_rqi _ _ _ W) Hkt) as (Rb & Sb & Db).
  exists WL1, DL'. split; [|split; [done|split; [done|split; [done|exact T3]]]]. apply wait_ok_sched; [done|done|]. by rewrite E3.
Qed.

(** Starting a wait: the task is blocked, each of its entries is linked on its queue with
    everybody else's left alone, and with a deadline the task is on the deadline list, which
    stays sorted, and the timer looks in time. *)
Lemma prepare_wait_links w WL DL c base count deadline fpt hpet ticks t k :
  wait_ok w WL DL -> t = current (cpu_at (wsched w) c) -> wtasks w !! t = Some k -> wait_entry_count k = 0 -> t ∉ DL ->
  fresh_entries w WL base count -> 0 <= count ->
  let w' := sched_prepare_wait w c base count deadline fpt hpet ticks in
  exists WL' DL', wait_ok w' WL' DL' /\ state (task_at (wsched w') t) = TASK_BLOCKED /\
    (forall q e, e ∈ WL' q <-> e ∈ WL q \/ exists i u, 0 <= i < count /\ e = entry_addr base i /\ einfo w e = Some (u, q)) /\
    (forall x, x ∈ DL' <-> x ∈ DL \/ (x = t /\ deadline <> 0 /\ fpt <> 0)) /\
    (deadline <> 0 -> fpt <> 0 -> dl w' t = deadline /\
      event_check_tick w' <= ticks +w event_ticks_for fpt (if hpet <? deadline then deadline - hpet else 0)).
Proof. apply prepare_ok. Qed.

(** ** An example: a task that sleeps on two queues, with a deadline *)

Definition demo_wait : wait_state :=
  {| entries := <[20480 := {| we_task := 0; we_queue := 24576; we_prev := 0; we_next := 0 |}]>
       (<[20512 := {| we_task := 0; we_queue := 28672; we_prev := 0; we_next := 0 |}]> ∅);
     wheads := <[24576 := 0]> (<[28672 := 0]> ∅);
     wtasks := <[4096 := wtask0]> ∅;
     deadline_head := 0;
     event_check_tick := UINT64_MAX;
     wsched := ss demo1 |}.

Definition demo_sleep : wait_state := sched_prepare_wait demo_wait 0 20480 2 5000 1000 100 7.

Lemma demo_wait_heads q h : wheads demo_wait !! q = Some h -> h = 0.
Proof.
  cbn. destruct (decide (q = 24576)) as [->|]; [rewrite lookup_insert_eq; congruence|]. rewrite lookup_insert_ne by done.
  destruct (decide (q = 28672)) as [->|]; [rewrite lookup_insert_eq; congruence|]. rewrite lookup_insert_ne by done. by rewrite lookup_empty.
Qed.

Lemma demo_wait_tasks t k : wtasks demo_wait !! t = Some k -> t = 4096 /\ k = wtask0.
Proof.
  cbn. destruct (decide (t = 4096)) as [->|]; [rewrite lookup_insert_eq; by intros [= <-]|]. rewrite lookup_insert_ne by done. by rewrite lookup_empty.
Qed.

Lemma demo_wait_ok : wait_ok demo_wait (fun _ => []) [].
Proof.
  split.
  - split; [done| |set_solver]. intros q h Hq. rewrite (demo_wait_heads q h Hq). split; [done|constructor].
  - split; [|constructor]. split; [done|done|constructor|]. intros t. split; [set_solver|]. unfold on_deadline, wtask_at.
    destruct (wtasks demo_wait !! t) as [k|] eqn:E; [|done]. apply demo_wait_tasks in E as [_ ->]. done.
  - destruct (reachable_ok 4096 8192 [12288] 0 0 demo1 demo_nodup (rtc_once _ _ demo_run1)) as [H _]. exact H.
  - intros t [k Hk]. apply demo_wait_tasks in Hk as [-> _]. vm_compute. by eexists.
  - set_solver.
  - intros t k i Hk Hi. apply demo_wait_tasks in Hk as [_ ->]. simpl in Hi. lia.
Qed.

Lemma demo_fresh : fresh_entries demo_wait (fun _ => []) 20480 2.
Proof.
  intros i Hi. assert (i = 0 \/ i = 1) as [-> | ->] by lia; [exists 0, 24576|exists 0, 28672]; (split; [done|]; split; [done|]; split; [vm_compute; by eexists|set_solver]).
Qed.

Lemma demo_sleep_ok : exists WL DL, wait_ok demo_sleep WL DL /\ 20480 ∈ WL 24576 /\ 20512 ∈ WL 28672 /\ 4096 ∈ DL.
Proof.
  destruct (prepare_ok demo_wait (fun _ => []) [] 0 20480 2 5000 1000 100 7 4096 wtask0 demo_wait_ok eq_refl eq_refl eq_refl ltac:(set_solver) demo_fresh ltac:(lia))
    as (WL & DL & W & _ & M & D & _).
  exists WL, DL. split; [exact W|]. rewrite !M, D. split; [|split].
  - right. by exists 0, 0.
  - right. by exists 1, 0.
  - right. lia.
Qed.

Lemma prepare_wait_links_witness : dl demo_sleep 4096 = 5000 /\ state (task_at (wsched demo_sleep) 4096) = TASK_BLOCKED.
Proof.
  destruct (prepare_wait_links demo_wait (fun _ => []) [] 0 20480 2 5000 1000 100 7 4096 wtask0 demo_wait_ok eq_refl eq_refl eq_refl
    ltac:(set_solver) demo_fresh ltac:(lia)) as (WL & DL & _ & B & _ & _ & E).
  split; [apply E; lia|exact B].
Defined.

Lemma wait_queue_wakes_witness : state (task_at (wsched (sched_wake_queue demo_sleep 0 24576)) 4096) <> TASK_BLOCKED.
Proof.
  destruct demo_sleep_ok as (WL & DL & W & A & _).
  destruct (wait_queue_wakes demo_sleep WL DL 0 24576 W ltac:(done) ltac:(vm_compute; by eexists)) as [[_ H] _].
  apply (H 20480 4096 A). vm_compute. reflexivity.
Defined.

Lemma event_tick_expires_witness : exists l1 l2, 4096 ∈ l1 ++ l2 /\ (4096 ∉ l2) /\
  forall t, t ∉ l1 -> state (task_at (wsched (sched_event_tick demo_sleep 0 1000 6000 8)) t) = state (task_at (wsched demo_sleep) t).
Proof.
  destruct demo_sleep_ok as (WL & DL & W & _ & _ & D).
  destruct (event_tick_expires demo_sleep WL DL 0 1000 6000 8 W ltac:(vm_compute; congruence)) as (l1 & l2 & E & _ & H1 & H2 & H3 & _).
  exists l1, l2. rewrite <- E. split; [exact D|]. split; [|intros t Ht; rewrite H3, decide_False by tauto; reflexivity]. intros H. destruct (H2 _ H) as [Hlt _]. vm_compute in Hlt. discriminate Hlt.
Defined.

Lemma wait_cleanup_unlinks_witness : exists WL', (20480 ∉ WL' 24576) /\ wait_ok (sched_wait_cleanup demo_sleep 4096) WL' [].
Proof.
  destruct (prepare_ok demo_wait (fun _ => []) [] 0 20480 2 5000 1000 100 7 4096 wtask0 demo_wait_ok eq_refl eq_refl eq_refl ltac:(set_solver) demo_fresh ltac:(lia))
    as (WL & DL & W & _ & M & D & _).
  destruct (wait_cleanup_unlinks demo_sleep WL DL 4096 (wtask_at demo_sleep 4096) W ltac:(vm_compute; reflexivity) ltac:(vm_compute; congruence))
    as (WL' & W' & H & _).
  exists WL'. split; [intros Hin; apply (H 24576 20480 4096) in Hin; [by destruct Hin|vm_compute; reflexivity]|].
  replace (filter (fun x => x <> 4096) DL) with (@nil Z) in W'; [exact W'|]. 
  destruct (filter (fun x => x <> 4096) DL) as [|x l] eqn:E; [done|]. assert (Hx : x ∈ filter (fun x => x <> 4096) DL) by (rewrite E; by left).
  apply list_elem_of_filter in Hx as [Hn Hx]. apply D in Hx as [Hx|[-> _]]; [by apply not_elem_of_nil in Hx|done].
Defined.
