(* ===== verification/Signal.v ===== *)
(** * Signals, [kernel/src/sched/signal.c]

    Sending signals to threads and processes, the actions and the mask, delivery at the exit
    from the kernel (default actions, and frames on the user stack for handlers), and the
    return from a handler.  Frames are the words of the C structures, written and read through
    [UserMemory]; [ssched] is the scheduler underneath.  The threads of a process are the list
    [group_next] makes.  [exit()] does not return: [None] stands for it. *)

From S2P Require Import Prelude UserMem Sched.

(** ** Constants *)

Definition NSIG : Z := 32.

Definition SIGBUS : Z := 7.

Definition SIGKILL : Z := 9.

Definition SIGSEGV : Z := 11.

Definition SIGCHLD : Z := 17.

Definition SIGCONT : Z := 18.

Definition SIGSTOP : Z := 19.

Definition SIGTSTP : Z := 20.

Definition SIGTTIN : Z := 21.

Definition SIGTTOU : Z := 22.

Definition SIGWINCH : Z := 28.

Definition SIG_DFL : Z := 0.

Definition SIG_IGN : Z := 1.

Definition SIG_BLOCK : Z := 0.

Definition SIG_UNBLOCK : Z := 1.

Definition SIG_SETMASK : Z := 2.

Definition SA_SIGINFO : Z := 0x4.

Definition SA_ONSTACK : Z := 0x08000000.

Definition SA_NODEFER : Z := 0x40000000.

Definition SA_RESETHAND : Z := 0x80000000.

Definition SS_ONSTACK : Z := 1.

Definition SS_DISABLE : Z := 2.

Definition MINSIGSTKSZ : Z := 2048.

Definition SI_USER : Z := 0.

Definition USER_CS : Z := Z.lor 0x18 0x3.

Definition USER_SS : Z := Z.lor 0x20 0x3.

Definition RFLAGS_USER_MASK : Z := 0xDD5.

Definition RFLAGS_IF : Z := 0x200.

Definition FRAME_LINUX : Z := 1.

Definition SIGNAL_RED_ZONE : Z := 128.

(** ** Data *)

(** [cpu_context_t]. *)
Record cpu_context := {
  r15 : Z; r14 : Z; r13 : Z; r12 : Z; r11 : Z; r10 : Z; r9 : Z; r8 : Z;
  rbp : Z; rdi : Z; rsi : Z; rdx : Z; rcx : Z; rbx : Z; rax : Z;
  vector : Z;
  error : Z;
  rip : Z; cs : Z; rflags : Z; rsp : Z; ss : Z;
}.

(** [sigaction_t]. *)
Record sigaction := { sa_handler : Z; sa_mask : Z; sa_flags : Z; sa_restorer : Z }.

(** [user_stack_t]. *)
Record user_stack := { us_sp : Z; us_flags : Z; us_size : Z }.

(** The fields of [task_t] signals use; [group] is [NULL] as 0. *)
Record sigtask := {
  user_task : bool;
  group : Z;
  sig_pending : Z;
  sig_blocked : Z;
  sig_handlers : list Z;
  sig_masks : list Z;
  sig_flags : list Z;
  sig_restorers : list Z;
  sig_active_frame : Z;
  sig_altstack_sp : Z;
  sig_altstack_size : Z;
  sig_altstack_flags : Z;
  exit_signal : Z;
  exit_code : Z;
}.

(** [groups] gives the threads of each [task_group_t]. *)
Record sig_state (U : Type) := {
  ssched : sched;
  sigs : gmap Z sigtask;
  groups : gmap Z (list Z);
  umem : U;
}.
Arguments ssched {U}.
Arguments sigs {U}.
Arguments groups {U}.
Arguments umem {U}.

Definition sigtask0 : sigtask :=
  {| user_task := true; group := 0; sig_pending := 0; sig_blocked := 0; sig_handlers := replicate 32 0;
     sig_masks := replicate 32 0; sig_flags := replicate 32 0; sig_restorers := replicate 32 0; sig_active_frame := 0;
     sig_altstack_sp := 0; sig_altstack_size := 0; sig_altstack_flags := 0; exit_signal := 0; exit_code := 0 |}.

(** ** Field updates *)

Section Updates.
Context {U : Type}.

Definition sig_at (s : sig_state U) (t : Z) : sigtask := default sigtask0 (sigs s !! t).

Definition upd_sig (s : sig_state U) (t : Z) (f : sigtask -> sigtask) : sig_state U :=
  {| ssched := ssched s; sigs := alter f t (sigs s); groups := groups s; umem := umem s |}.

Definition set_ssched (s : sig_state U) (k : sched) : sig_state U :=
  {| ssched := k; sigs := sigs s; groups := groups s; umem := umem s |}.

Definition set_umem (s : sig_state U) (u : U) : sig_state U :=
  {| ssched := ssched s; sigs := sigs s; groups := groups s; umem := u |}.

End Updates.

Definition with_pending (p : Z) (k : sigtask) : sigtask :=
  {| user_task := user_task k; group := group k; sig_pending := p; sig_blocked := sig_blocked k;
     sig_handlers := sig_handlers k; sig_masks := sig_masks k; sig_flags := sig_flags k;
     sig_restorers := sig_restorers k; sig_active_frame := sig_active_frame k; sig_altstack_sp := sig_altstack_sp k;
     sig_altstack_size := sig_altstack_size k; sig_altstack_flags := sig_altstack_flags k;
     exit_signal := exit_signal k; exit_code := exit_code k |}.

Definition with_blocked (b : Z) (k : sigtask) : sigtask :=
  {| user_task := user_task k; group := group k; sig_pending := sig_pending k; sig_blocked := b;
     sig_handlers := sig_handlers k; sig_masks := sig_masks k; sig_flags := sig_flags k;
     sig_restorers := sig_restorers k; sig_active_frame := sig_active_frame k; sig_altstack_sp := sig_altstack_sp k;
     sig_altstack_size := sig_altstack_size k; sig_altstack_flags := sig_altstack_flags k;
     exit_signal := exit_signal k; exit_code := exit_code k |}.

Definition with_actions (h m f r : list Z) (k : sigtask) : sigtask :=
  {| user_task := user_task k; group := group k; sig_pending := sig_pending k; sig_blocked := sig_blocked k;
     sig_handlers := h; sig_masks := m; sig_flags := f;
     sig_restorers := r; sig_active_frame := sig_active_frame k; sig_altstack_sp := sig_altstack_sp k;
     sig_altstack_size := sig_altstack_size k; sig_altstack_flags := sig_altstack_flags k;
     exit_signal := exit_signal k; exit_code := exit_code k |}.

Definition with_frame (a : Z) (k : sigtask) : sigtask :=
  {| user_task := user_task k; group := group k; sig_pending := sig_pending k; sig_blocked := sig_blocked k;
     sig_handlers := sig_handlers k; sig_masks := sig_masks k; sig_flags := sig_flags k;
     sig_restorers := sig_restorers k; sig_active_frame := a; sig_altstack_sp := sig_altstack_sp k;
     sig_altstack_size := sig_altstack_size k; sig_altstack_flags := sig_altstack_flags k;
     exit_signal := exit_signal k; exit_code := exit_code k |}.

Definition with_altstack (sp size flags : Z) (k : sigtask) : sigtask :=
  {| user_task := user_task k; group := group k; sig_pending := sig_pending k; sig_blocked := sig_blocked k;
     sig_handlers := sig_handlers k; sig_masks := sig_masks k; sig_flags := sig_flags k;
     sig_restorers := sig_restorers k; sig_active_frame := sig_active_frame k; sig_altstack_sp := sp;
     sig_altstack_size := size; sig_altstack_flags := flags; exit_signal := exit_signal k; exit_code := exit_code k |}.

Definition with_exit (sig code : Z) (k : sigtask) : sigtask :=
  {| user_task := user_task k; group := group k; sig_pending := sig_pending k; sig_blocked := sig_blocked k;
     sig_handlers := sig_handlers k; sig_masks := sig_masks k; sig_flags := sig_flags k;
     sig_restorers := sig_restorers k; sig_active_frame := sig_active_frame k; sig_altstack_sp := sig_altstack_sp k;
     sig_altstack_size := sig_altstack_size k; sig_altstack_flags := sig_altstack_flags k;
     exit_signal := sig; exit_code := code |}.

(** ** Registers and frames *)

(** Two 32-bit fields in a word. *)
Definition pack32 (lo hi : Z) : Z := Z.lor (wrap32 lo) (wrap32 hi ≪ 32).

Definition ctx_words (c : cpu_context) : list Z :=
  [r15 c; r14 c; r13 c; r12 c; r11 c; r10 c; r9 c; r8 c; rbp c; rdi c; rsi c; rdx c; rcx c; rbx c; rax c;
   vector c; error c; rip c; cs c; rflags c; rsp c; ss c].

Definition word (ws : list Z) (i : nat) : Z := default 0 (ws !! i).

Definition words_ctx (ws : list Z) : cpu_context :=
  {| r15 := word ws 0; r14 := word ws 1; r13 := word ws 2; r12 := word ws 3; r11 := word ws 4; r10 := word ws 5;
     r9 := word ws 6; r8 := word ws 7; rbp := word ws 8; rdi := word ws 9; rsi := word ws 10; rdx := word ws 11;
     rcx := word ws 12; rbx := word ws 13; rax := word ws 14; vector := word ws 15; error := word ws 16;
     rip := word ws 17; cs := word ws 18; rflags := word ws 19; rsp := word ws 20; ss := word ws 21 |}.

(** [user_siginfo_t], the rest of it zero. *)
Definition info_words (signo code addr : Z) : list Z :=
  [pack32 signo 0; pack32 code 0; addr] ++ replicate 13 0.

(** [sigframe_t]: the context, [old_mask], [prev_frame] and [info]. *)
Definition sigframe_words (c : cpu_context) (old_mask prev_frame sig code addr : Z) : list Z :=
  ctx_words c ++ [old_mask; prev_frame] ++ info_words sig code addr.

Definition sizeof_sigframe : Z := 320.

(** The registers in the order of the [G_] constants; the last two slots are the caller's. *)
Definition ctx_to_gregs (c : cpu_context) (oldmask cr2 : Z) : list Z :=
  [r8 c; r9 c; r10 c; r11 c; r12 c; r13 c; r14 c; r15 c; rdi c; rsi c; rbp c; rbx c; rdx c; rax c; rcx c; rsp c;
   rip c; rflags c; cs c; error c; vector c; oldmask; cr2].

Definition gregs_to_ctx (g : list Z) (c : cpu_context) : cpu_context :=
  {| r15 := word g 7; r14 := word g 6; r13 := word g 5; r12 := word g 4; r11 := word g 3; r10 := word g 2;
     r9 := word g 1; r8 := word g 0; rbp := word g 10; rdi := word g 8; rsi := word g 9; rdx := word g 12;
     rcx := word g 14; rbx := word g 11; rax := word g 13; vector := vector c; error := error c;
     rip := word g 16; cs := cs c; rflags := word g 17; rsp := word g 15; ss := ss c |}.

(** [linux_sigframe_t]: [uc] (its flags, link, stack, registers, [fpregs], reserved words,
    mask and FPU area), [info], [prev_frame]. *)
Definition linux_words (c : cpu_context) (blocked cr2 fpregs : Z) (st : user_stack) (prev_frame sig code addr : Z) : list Z :=
  [0; 0] ++ [us_sp st; pack32 (us_flags st) 0; us_size st] ++ ctx_to_gregs c blocked cr2 ++ [fpregs] ++ replicate 8 0 ++
  (blocked :: replicate 15 0) ++ replicate 64 0 ++ info_words sig code addr ++ [prev_frame].

Definition sizeof_linux_sigframe : Z := 1072.

(** The places of [uc.gregs], [uc.sigmask], [uc.fpregs_mem], [info] and [prev_frame] in it,
    in words. *)
Definition UC_GREGS : Z := 5.

Definition UC_NGREG : nat := 23.

Definition UC_SIGMASK : Z := 37.

Definition UC_FPREGS_MEM : Z := 53.

Definition LF_INFO : Z := 117.

Definition LF_PREV : Z := 133.

Definition with_regs (c : cpu_context) (new_rip new_rdi new_rsi new_rdx new_rax new_rsp : Z) : cpu_context :=
  {| r15 := r15 c; r14 := r14 c; r13 := r13 c; r12 := r12 c; r11 := r11 c; r10 := r10 c; r9 := r9 c; r8 := r8 c;
     rbp := rbp c; rdi := new_rdi; rsi := new_rsi; rdx := new_rdx; rcx := rcx c; rbx := rbx c; rax := new_rax;
     vector := vector c; error := error c; rip := new_rip; cs := cs c; rflags := rflags c; rsp := new_rsp; ss := ss c |}.

(** User segments, and only the flags a task may pick. *)
Definition sanitize (c : cpu_context) : cpu_context :=
  {| r15 := r15 c; r14 := r14 c; r13 := r13 c; r12 := r12 c; r11 := r11 c; r10 := r10 c; r9 := r9 c; r8 := r8 c;
     rbp := rbp c; rdi := rdi c; rsi := rsi c; rdx := rdx c; rcx := rcx c; rbx := rbx c; rax := rax c;
     vector := vector c; error := error c; rip := rip c; cs := USER_CS;
     rflags := Z.lor (Z.land (rflags c) RFLAGS_USER_MASK) RFLAGS_IF; rsp := rsp c; ss := USER_SS |}.

(** ** Signal numbers and sets *)

Definition valid_signal (sig : Z) : bool := (0 <? sig) && (sig <? NSIG).

Definition sig_bit (sig : Z) : Z := 1 ≪ (sig - 1).

Definition valid_sig_mask : Z := (1 ≪ (NSIG - 1)) - 1.

(** [set & ~bit]. *)
Definition set_minus (set bits : Z) : Z := Z.land set (Z.lnot bits).

Definition signal_default_ignored (sig : Z) : bool := (sig =? SIGCHLD) || (sig =? SIGWINCH) || (sig =? SIGCONT).

Definition signal_default_stop (sig : Z) : bool :=
  (sig =? SIGSTOP) || (sig =? SIGTSTP) || (sig =? SIGTTIN) || (sig =? SIGTTOU).

Definition signal_default_terminate (sig : Z) : bool := negb (signal_default_ignored sig) && negb (signal_default_stop sig).

(** Entry [sig] of one of a task's arrays. *)
Definition entry (l : list Z) (sig : Z) : Z := default 0 (l !! Z.to_nat sig).

Definition gone (st : task_state) : bool :=
  match st with TASK_ZOMBIE | TASK_DEAD | TASK_FREE => true | _ => false end.

(** The frames a handler is entered with are in range, and the alternate stack test. *)
Definition on_altstack (k : sigtask) (sp : Z) : bool :=
  negb (sig_altstack_size k =? 0) && (sig_altstack_sp k <? sp) && (sp <=? sig_altstack_sp k +w sig_altstack_size k).

Definition signal_enter_mask (sig handler_mask handler_flags : Z) (k : sigtask) : sigtask :=
  let k := with_blocked (Z.lor (sig_blocked k) handler_mask) k in
  let k := if negb (flag handler_flags (Z.lor SA_NODEFER SA_RESETHAND))
           then with_blocked (Z.lor (sig_blocked k) (sig_bit sig)) k else k in
  if flag handler_flags SA_RESETHAND
  then with_actions (<[Z.to_nat sig := SIG_DFL]> (sig_handlers k)) (sig_masks k)
         (<[Z.to_nat sig := Z.land (entry (sig_flags k) sig) (Z.lnot SA_SIGINFO)]> (sig_flags k)) (sig_restorers k) k
  else k.

(** ** Sending *)

Section Ops.
Context {U : Type} `{UserMemory U}.
Implicit Types (s : sig_state U) (t sig : Z) (c : nat).

Definition signal_send s c t sig : Z * sig_state U :=
  if t =? 0 then (- ESRCH, s)
  else if negb (valid_signal sig) then (- EINVAL, s)
  else if gone (state (task_at (ssched s) t)) then (0, s)
  else
    let s :=
      if sig =? SIGCONT
      then
        let s := upd_sig s t (fun k => with_pending (set_minus (sig_pending k) (sig_bit SIGSTOP)) k) in
        let s := upd_sig s t (fun k => with_pending (set_minus (sig_pending k) (sig_bit SIGTSTP)) k) in
        let s := upd_sig s t (fun k => with_pending (set_minus (sig_pending k) (sig_bit SIGTTIN)) k) in
        let s := upd_sig s t (fun k => with_pending (set_minus (sig_pending k) (sig_bit SIGTTOU)) k) in
        set_ssched s (sched_continue_task (ssched s) c t)
      else s in
    let s :=
      if signal_default_stop sig
      then upd_sig s t (fun k => with_pending (set_minus (sig_pending k) (sig_bit SIGCONT)) k)
      else s in
    let s := upd_sig s t (fun k => with_pending (Z.lor (sig_pending k) (sig_bit sig)) k) in
    (0, set_ssched s
          (if decide (state (task_at (ssched s) t) = TASK_BLOCKED)
           then sched_wake_task (ssched s) c t
           else sched_continue_task (ssched s) c t)).

(** [g->threads], empty when there is no group. *)
Definition threads_of s t : list Z :=
  if group (sig_at s t) =? 0 then [] else default [] (groups s !! group (sig_at s t)).

(** The loop that picks a thread: the first live one that does not block the signal, else
    the first live one. *)
Fixpoint pick_thread s sig (threads : list Z) (pick : Z) : Z :=
  match threads with
  | [] => pick
  | t :: ts =>
    if gone (state (task_at (ssched s) t)) then pick_thread s sig ts pick
    else if negb (flag (sig_blocked (sig_at s t)) (sig_bit sig)) then t
    else pick_thread s sig ts (if pick =? 0 then t else pick)
  end.

Definition signal_send_group s c t sig : Z * sig_state U :=
  if t =? 0 then (- ESRCH, s)
  else if negb (valid_signal sig) then (- EINVAL, s)
  else
    match threads_of s t with
    | [] => signal_send s c t sig
    | threads =>
      if (sig =? SIGKILL) || (sig =? SIGCONT) ||
         (signal_default_stop sig && (entry (sig_handlers (sig_at s t)) sig =? SIG_DFL))
      then (0, foldl (fun s t => (signal_send s c t sig).2) s threads)
      else
        let pick := pick_thread s sig threads 0 in
        if pick =? 0 then (0, s) else signal_send s c pick sig
    end.

(** [task] is what [sched_get_task] finds. *)
Definition signal_send_pid s c (task : Z) sig : Z * sig_state U :=
  if task =? 0 then (- ESRCH, s) else signal_send_group s c task sig.

(** ** Actions, mask and alternate stack *)

Definition signal_copy_action s t sig (act : sigaction) : sig_state U :=
  upd_sig s t (fun k =>
    with_actions (<[Z.to_nat sig := sa_handler act]> (sig_handlers k)) (<[Z.to_nat sig := sa_mask act]> (sig_masks k))
      (<[Z.to_nat sig := sa_flags act]> (sig_flags k)) (<[Z.to_nat sig := sa_restorer act]> (sig_restorers k)) k).

(** The old action, for [old], comes with the result. *)
Definition signal_set_action s t sig (act : option sigaction) : Z * option sigaction * sig_state U :=
  if t =? 0 then (- ESRCH, None, s)
  else if negb (valid_signal sig) then (- EINVAL, None, s)
  else
    let k := sig_at s t in
    let old := Some {| sa_handler := entry (sig_handlers k) sig; sa_mask := entry (sig_masks k) sig;
                       sa_flags := entry (sig_flags k) sig; sa_restorer := entry (sig_restorers k) sig |} in
    match act with
    | None => (0, old, s)
    | Some act =>
      if (sig =? SIGKILL) || (sig =? SIGSTOP) then (- EINVAL, old, s)
      else
        match threads_of s t with
        | [] => (0, old, signal_copy_action s t sig act)
        | threads => (0, old, foldl (fun s t => signal_copy_action s t sig act) s threads)
        end
    end.

Definition signal_set_mask s t (how : Z) (set : option Z) : Z * option Z * sig_state U :=
  if t =? 0 then (- ESRCH, None, s)
  else
    let old := sig_blocked (sig_at s t) in
    match set with
    | None => (0, Some old, s)
    | Some set =>
      let new_mask :=
        if how =? SIG_BLOCK then Some (Z.lor old set)
        else if how =? SIG_UNBLOCK then Some (set_minus old set)
        else if how =? SIG_SETMASK then Some set
        else None in
      match new_mask with
      | None => (- EINVAL, Some old, s)
      | Some m =>
        let m := Z.land m valid_sig_mask in
        let m := set_minus m (sig_bit SIGKILL) in
        let m := set_minus m (sig_bit SIGSTOP) in
        (0, Some old, upd_sig s t (with_blocked m))
      end
    end.

Definition altstack_flags (k : sigtask) : Z := if negb (sig_altstack_size k =? 0) then sig_altstack_flags k else SS_DISABLE.

Definition signal_set_altstack s t (st : option user_stack) (sp : Z) : Z * user_stack * sig_state U :=
  let k := sig_at s t in
  let old := {| us_sp := sig_altstack_sp k; us_flags := if on_altstack k sp then SS_ONSTACK else altstack_flags k;
                us_size := sig_altstack_size k |} in
  match st with
  | None => (0, old, s)
  | Some st =>
    if on_altstack k sp then (- EPERM, old, s)
    else if flag (us_flags st) (Z.lnot (Z.lor SS_DISABLE SS_ONSTACK)) then (- EINVAL, old, s)
    else if flag (us_flags st) SS_DISABLE then (0, old, upd_sig s t (with_altstack 0 0 SS_DISABLE))
    else if us_size st <? MINSIGSTKSZ then (- ENOMEM, old, s)
    else if negb (user_ptr_valid (us_sp st)) || negb (user_ptr_valid ((us_sp st +w us_size st) -w 1))
    then (- EFAULT, old, s)
    else (0, old, upd_sig s t (with_altstack (us_sp st) (us_size st) 0))
  end.

(** ** Entering a handler *)

(** The task's user memory. *)
Definition put_user s t (a : Z) (ws : list Z) : option (sig_state U) :=
  set_umem s <$> copy_to_user (umem s) (page_map (task_at (ssched s) t)) a ws.

Definition get_user s t (a : Z) (n : nat) : option (list Z) :=
  copy_from_user (umem s) (page_map (task_at (ssched s) t)) a n.

(** [oom] says that the [kmalloc] of the frame's copy fails. *)
Definition signal_setup_linux_frame s t (ctx : cpu_context) sig (code addr top : Z) (oom : bool) : Z * cpu_context * sig_state U :=
  let frame_addr := Z.land (top -w sizeof_linux_sigframe) (Z.lnot 15) in
  let ret_addr_sp := frame_addr -w 8 in
  if negb (user_ptr_valid frame_addr) || negb (user_ptr_valid ret_addr_sp) then (- EFAULT, ctx, s)
  else if oom then (- ENOMEM, ctx, s)
  else
    let k := sig_at s t in
    let f := linux_words ctx (sig_blocked k) (if (sig =? SIGSEGV) || (sig =? SIGBUS) then addr else 0)
      (frame_addr +w 8 * UC_FPREGS_MEM)
      {| us_sp := sig_altstack_sp k; us_flags := altstack_flags k; us_size := sig_altstack_size k |}
      (sig_active_frame k) sig code addr in
    match put_user s t frame_addr f with
    | None => (- EFAULT, ctx, s)
    | Some s =>
      match put_user s t ret_addr_sp [entry (sig_restorers k) sig] with
      | None => (- EFAULT, ctx, s)
      | Some s =>
        let handler := entry (sig_handlers k) sig in
        let s := upd_sig s t (with_frame (Z.lor frame_addr FRAME_LINUX)) in
        let s := upd_sig s t (signal_enter_mask sig (entry (sig_masks k) sig) (entry (sig_flags k) sig)) in
        (0, with_regs ctx handler sig (frame_addr +w 8 * LF_INFO) frame_addr 0 ret_addr_sp, s)
      end
    end.

Definition signal_setup_user_handler s t (ctx : cpu_context) sig (code addr : Z) (oom : bool) : Z * cpu_context * sig_state U :=
  let k := sig_at s t in
  let handler := entry (sig_handlers k) sig in
  let restorer := entry (sig_restorers k) sig in
  let handler_mask := entry (sig_masks k) sig in
  let handler_flags := entry (sig_flags k) sig in
  if (handler =? SIG_DFL) || (handler =? SIG_IGN) || (restorer <? 2) then (- EINVAL, ctx, s)
  else
    let alt := flag handler_flags SA_ONSTACK && negb (flag (sig_altstack_flags k) SS_DISABLE) &&
               negb (sig_altstack_size k =? 0) && negb (on_altstack k (rsp ctx)) in
    if negb alt && negb (user_ptr_valid (rsp ctx)) then (- EFAULT, ctx, s)
    else
      let top := if alt then sig_altstack_sp k +w sig_altstack_size k else rsp ctx -w SIGNAL_RED_ZONE in
      if flag handler_flags SA_SIGINFO then signal_setup_linux_frame s t ctx sig code addr top oom
      else
        let frame_addr := Z.land (top -w sizeof_sigframe) (Z.lnot 15) in
        if negb (user_ptr_valid frame_addr) then (- EFAULT, ctx, s)
        else
          match put_user s t frame_addr (sigframe_words ctx (sig_blocked k) (sig_active_frame k) sig code addr) with
          | None => (- EFAULT, ctx, s)
          | Some s =>
            let ret_addr_sp := frame_addr -w 8 in
            if negb (user_ptr_valid ret_addr_sp) then (- EFAULT, ctx, s)
            else
              match put_user s t ret_addr_sp [restorer] with
              | None => (- EFAULT, ctx, s)
              | Some s =>
                let s := upd_sig s t (with_frame frame_addr) in
                let s := upd_sig s t (signal_enter_mask sig handler_mask handler_flags) in
                (0, with_regs ctx handler sig frame_addr (rdx ctx) (rax ctx) ret_addr_sp, s)
              end
          end.

Definition signal_deliver_fault s t (ctx : cpu_context) sig (code addr : Z) (oom : bool) : Z * cpu_context * sig_state U :=
  if (t =? 0) || negb (valid_signal sig) then (- EINVAL, ctx, s)
  else
    let k := sig_at s t in
    let handler := entry (sig_handlers k) sig in
    if (handler =? SIG_DFL) || (handler =? SIG_IGN) then (- EINVAL, ctx, s)
    else if negb (sig_active_frame k =? 0) || flag (sig_blocked k) (sig_bit sig) then (- EINVAL, ctx, s)
    else signal_setup_user_handler s t ctx sig code addr oom.

(** ** Returning from a handler *)

Definition signal_return_linux_frame s t (ctx : cpu_context) (frame_addr : Z) : Z * cpu_context * sig_state U :=
  match get_user s t (frame_addr +w 8 * UC_GREGS) UC_NGREG, get_user s t (frame_addr +w 8 * UC_SIGMASK) 1,
        get_user s t (frame_addr +w 8 * LF_PREV) 1 with
  | Some gregs, Some mask, Some prev =>
    let back := gregs_to_ctx gregs ctx in
    if negb (user_ptr_valid (rip back)) then (- EFAULT, ctx, s)
    else
      let s := upd_sig s t (with_blocked (set_minus (word mask 0) (Z.lor (sig_bit SIGKILL) (sig_bit SIGSTOP)))) in
      let s := upd_sig s t (with_frame (word prev 0)) in
      (0, sanitize back, s)
  | _, _, _ => (- EFAULT, ctx, s)
  end.

Definition signal_handle_sigreturn s t (ctx : cpu_context) : Z * cpu_context * sig_state U :=
  if (t =? 0) || (sig_active_frame (sig_at s t) =? 0) then (- EINVAL, ctx, s)
  else
    let active := sig_active_frame (sig_at s t) in
    if flag active FRAME_LINUX then signal_return_linux_frame s t ctx (Z.land active (Z.lnot FRAME_LINUX))
    else
      match get_user s t active 40 with
      | None => (- EFAULT, ctx, s)
      | Some frame =>
        let saved := words_ctx frame in
        if negb (user_ptr_valid (rip saved)) then (- EFAULT, ctx, s)
        else
          let s := upd_sig s t (with_blocked (word frame 22)) in
          let s := upd_sig s t (with_frame (word frame 23)) in
          (0, sanitize saved, s)
      end.

(** ** Delivery *)

(** 0 ignored, 1 stopped, -1 for a handler, [None] when the task exits. *)
Definition signal_apply_default_action s c t sig (bit : Z) : option Z * sig_state U :=
  let handler := entry (sig_handlers (sig_at s t)) sig in
  if (handler =? SIG_IGN) || ((handler =? SIG_DFL) && signal_default_ignored sig) then (Some 0, s)
  else if (handler =? SIG_DFL) && signal_default_stop sig
  then
    let s := set_ssched s (upd_task (ssched s) t (with_state TASK_STOPPED)) in
    let s := upd_sig s t (fun k => with_pending (set_minus (sig_pending k) bit) k) in
    (Some 1, set_ssched s (sched_yield (ssched s) c t))
  else if (handler =? SIG_DFL) && signal_default_terminate sig
  then
    let s := upd_sig s t (fun k => with_pending (set_minus (sig_pending k) bit) k) in
    (None, upd_sig s t (with_exit sig (128 + sig)))
  else (Some (-1), s).

(** The loop over the [n] signals from [sig] on; [None] when the task exits. *)
Fixpoint deliver_loop (n : nat) s c t (ctx : cpu_context) (ready : Z) sig (oom : bool) : option cpu_context * sig_state U :=
  match n with
  | O => (Some ctx, s)
  | S n =>
    let bit := sig_bit sig in
    if negb (flag ready bit) then deliver_loop n s c t ctx ready (sig + 1) oom
    else
      let s := upd_sig s t (fun k => with_pending (set_minus (sig_pending k) bit) k) in
      match signal_apply_default_action s c t sig bit with
      | (None, s) => (None, s)
      | (Some r, s) =>
        if r =? 0 then deliver_loop n s c t ctx ready (sig + 1) oom
        else if negb (r =? -1) then (Some ctx, s)
        else
          let '(rc, ctx, s) := signal_setup_user_handler s t ctx sig SI_USER 0 oom in
          if rc <? 0 then (None, upd_sig s t (with_exit sig (128 + sig))) else (Some ctx, s)
      end
  end.

Definition signal_deliver_pending s c t (ctx : cpu_context) (oom : bool) : option cpu_context * sig_state U :=
  let k := sig_at s t in
  if (t =? 0) || negb (user_task k) then (Some ctx, s)
  else if negb (sig_active_frame k =? 0) then (Some ctx, s)
  else
    let ready := set_minus (sig_pending k) (sig_blocked k) in
    if ready =? 0 then (Some ctx, s) else deliver_loop (Z.to_nat (NSIG - 1)) s c t ctx ready 1 oom.

Fixpoint interrupt_loop (n : nat) s c t (ready : Z) sig : option Z * sig_state U :=
  match n with
  | O => (Some 0, s)
  | S n =>
    let bit := sig_bit sig in
    let handler := entry (sig_handlers (sig_at s t)) sig in
    if negb (flag ready bit) then interrupt_loop n s c t ready (sig + 1)
    else if handler =? SIG_IGN then interrupt_loop n s c t ready (sig + 1)
    else if (handler =? SIG_DFL) && signal_default_ignored sig then interrupt_loop n s c t ready (sig + 1)
    else if negb (handler =? SIG_DFL) && negb (sig_active_frame (sig_at s t) =? 0) then interrupt_loop n s c t ready (sig + 1)
    else
      match signal_apply_default_action s c t sig bit with
      | (None, s) => (None, s)
      | (Some r, s) => (Some (if negb (r =? -1) then r else 1), s)
      end
  end.

Definition signal_should_interrupt s c t : option Z * sig_state U :=
  if t =? 0 then (Some 0, s)
  else
    let ready := set_minus (sig_pending (sig_at s t)) (sig_blocked (sig_at s t)) in
    if ready =? 0 then (Some 0, s) else interrupt_loop (Z.to_nat (NSIG - 1)) s c t ready 1.

End Ops.
