(* ===== verification/SignalProofs.v ===== *)
(** * A handler runs once and gives back what it took

    Proofs about [Signal] (that is [kernel/src/sched/signal.c]): returning from a handler
    cannot leave user mode whatever is in the frame, an untouched frame restores the context,
    a signal reaches the threads it is meant for, and delivery takes the first signal that
    does something. *)

From S2P Require Import Prelude UserMem Sched SchedProofs Smp SchedWaitProofs Signal.

(** ** Words *)

Definition ctx_ok (c : cpu_context) : Prop := Forall is_word (ctx_words c).

(** The fields of a task that are written to its stack are words. *)
Definition sigtask_ok (k : sigtask) : Prop :=
  is_word (sig_blocked k) /\ is_word (sig_active_frame k) /\ is_word (sig_altstack_sp k) /\ is_word (sig_altstack_size k) /\
  Forall is_word (sig_restorers k).

Lemma is_word_pack lo : is_word (pack32 lo 0).
Proof.
  unfold pack32. change (wrap32 0 ≪ 32) with 0. rewrite Z.lor_0_r. pose proof (wrap32_range lo). unfold is_word. lia.
Qed.

Lemma is_word_0 : is_word 0.
Proof. unfold is_word. lia. Qed.

(** A list of words written out. *)
Ltac words := repeat first [apply Forall_nil_2 | apply Forall_cons_2; [first [done | apply is_word_pack | apply is_word_0] |]].

Lemma words_of_ctx c ws : words_ctx (ctx_words c ++ ws) = c.
Proof. by destruct c. Qed.

Lemma entry_word l sig : Forall is_word l -> is_word (entry l sig).
Proof. intros H. unfold entry. destruct (l !! Z.to_nat sig) as [w|] eqn:E; [|apply is_word_0]. by eapply Forall_lookup_1 in H. Qed.

Lemma info_is_words sig code addr : is_word addr -> Forall is_word (info_words sig code addr).
Proof.
  intros Ha. unfold info_words. apply Forall_app. split; [|apply Forall_replicate, is_word_0]. words.
Qed.

Lemma sigframe_is_words c m p sig code addr :
  ctx_ok c -> is_word m -> is_word p -> is_word addr -> Forall is_word (sigframe_words c m p sig code addr).
Proof.
  intros Hc Hm Hp Ha. unfold sigframe_words. apply Forall_app. split; [done|]. apply Forall_app. split; [words|by apply info_is_words].
Qed.

Lemma gregs_is_words c m cr2 : ctx_ok c -> is_word m -> is_word cr2 -> Forall is_word (ctx_to_gregs c m cr2).
Proof.
  unfold ctx_ok, ctx_words. intros Hc Hm Hr. repeat (apply Forall_cons_1 in Hc as [? Hc]). unfold ctx_to_gregs. words.
Qed.

Lemma linux_is_words c b cr2 fp st p sig code addr : ctx_ok c -> is_word b -> is_word cr2 -> is_word fp -> is_word (us_sp st) ->
  is_word (us_size st) -> is_word p -> is_word addr -> Forall is_word (linux_words c b cr2 fp st p sig code addr).
Proof.
  intros. pose proof is_word_0. unfold linux_words. 
  repeat (apply Forall_app; split); try (by apply Forall_replicate); try (by words); by apply gregs_is_words.
Qed.

(** Where a frame goes: 16-byte aligned and below [top]. *)
Lemma frame_aligned x : 0 <= x -> let a := Z.land x (Z.lnot 15) in 0 <= a <= x /\ a mod 16 = 0.
Proof.
  intros Hx a. assert (E : a = x - x mod 16).
  { unfold a. change 15 with (Z.ones 4). rewrite <- Z.ldiff_land, Z.ldiff_ones_r, Z.shiftl_mul_pow2, Z.shiftr_div_pow2 by lia. zlia. }
  rewrite E. zlia.
Qed.

Lemma user_ptr_range p : user_ptr_valid p = true -> 4096 <= p <= 0x00007fffffffffff.
Proof. unfold user_ptr_valid, USER_MIN, USER_MAX. intros E. bool_prop. lia. Qed.

(** ** Lookups *)

Section SigLemmas.
Context {U : Type} `{UserMemory U}.
Implicit Types (s : sig_state U) (t sig : Z).

Lemma sigs_upd s t f x : sigs (upd_sig s t f) !! x = if decide (x = t) then f <$> sigs s !! x else sigs s !! x.
Proof. simpl. destruct (decide (x = t)) as [->|]; [by rewrite lookup_alter_eq|by rewrite lookup_alter_ne]. Qed.

Lemma sig_at_upd s t f k : sigs s !! t = Some k -> sig_at (upd_sig s t f) t = f k.
Proof. intros E. unfold sig_at. by rewrite sigs_upd, decide_True, E. Qed.

Lemma sig_at_some s t k : sigs s !! t = Some k -> sig_at s t = k.
Proof. unfold sig_at. by intros ->. Qed.

(** ** Returning cannot leave user mode *)

(** What a context may be when the kernel goes back to user code with it. *)
Definition user_context (c : cpu_context) : Prop :=
  cs c = USER_CS /\ ss c = USER_SS /\ user_ptr_valid (rip c) = true /\ flag (rflags c) RFLAGS_IF = true /\
  Z.land (rflags c) (Z.lnot (Z.lor RFLAGS_USER_MASK RFLAGS_IF)) = 0.

Lemma sanitize_user c : user_ptr_valid (rip c) = true -> user_context (sanitize c).
Proof.
  intros Hr. split_and!; try done; simpl.
  - unfold RFLAGS_IF. change 512 with (1 ≪ 9) at 2. rewrite flag_testbit, Z.lor_spec, orb_true_iff by lia. right. done.
  - apply Z.bits_inj'. intros n Hn. rewrite !Z.land_spec, Z.lnot_spec, !Z.lor_spec, Z.land_spec, Z.bits_0 by lia.
    destruct (Z.testbit (rflags c) n), (Z.testbit RFLAGS_USER_MASK n), (Z.testbit RFLAGS_IF n); done.
Qed.

(** ** Frames *)

(** The tag of a frame comes off again. *)
Lemma frame_tag a : a mod 16 = 0 -> flag a FRAME_LINUX = false /\ flag (Z.lor a FRAME_LINUX) FRAME_LINUX = true /\
  Z.land (Z.lor a FRAME_LINUX) (Z.lnot FRAME_LINUX) = a /\ Z.land a (Z.lnot FRAME_LINUX) = a.
Proof.
  intros Ha. assert (H0 : Z.testbit a 0 = false) by (rewrite Z.bit0_odd, Zodd_mod; apply Z.eqb_neq; zlia).
  unfold FRAME_LINUX. change 1 with (1 ≪ 0) at 1 3. rewrite !flag_testbit, H0, Z.lor_spec by lia. split; [done|]. split; [apply orb_true_r|].
  split; apply Z.bits_inj'; intros n Hn; rewrite Z.land_spec, Z.lnot_spec, ?Z.lor_spec by done; 
    (destruct (decide (n = 0)) as [->|Hn0]; [by rewrite H0|]);
    (replace (Z.testbit 1 n) with false by (symmetry; change 1 with (2 ^ 0); apply Z.pow2_bits_false; lia)); by rewrite ?orb_false_r, andb_true_r.
Qed.

(** A frame stays what it was when the return address is put under it. *)
Lemma frame_kept u u1 u2 pm a ws r i n : copy_to_user u pm a ws = Some u1 -> copy_to_user u1 pm (a - 8) [r] = Some u2 -> Forall is_word ws ->
  (0 < n)%nat -> (i + n <= length ws)%nat -> copy_from_user u2 pm (a + 8 * Z.of_nat i) n = Some (take n (drop i ws)).
Proof.
  intros H1 H2 Hw Hn Hi. rewrite (um_to_other _ _ _ _ _ _ _ H2) by (simpl; lia). by eapply um_to_from.
Qed.

(** Nothing of the [n] words at [a] has changed between [s] and [s2]. *)
Definition frame_intact s s2 t (a : Z) (words : nat) : Prop :=
  forall i n, (0 < n)%nat -> (i + n <= words)%nat -> get_user s2 t (a + 8 * Z.of_nat i) n = get_user s t (a + 8 * Z.of_nat i) n.

Lemma put_user_some s t a ws s' : put_user s t a ws = Some s' ->
  exists u, copy_to_user (umem s) (page_map (task_at (ssched s) t)) a ws = Some u /\ s' = set_umem s u.
Proof. unfold put_user. destruct (copy_to_user _ _ _ _) as [u|]; [|done]. intros [= <-]. by exists u. Qed.

(** What handlers of both kinds have done when they are entered. *)
Definition entered s t (ctx : cpu_context) (ws : list Z) (a active : Z) s' : Prop :=
  (forall i n, (0 < n)%nat -> (i + n <= length ws)%nat -> get_user s' t (a + 8 * Z.of_nat i) n = Some (take n (drop i ws))) /\
  sig_active_frame (sig_at s' t) = active /\ user_ptr_valid a = true /\ a mod 16 = 0.

Lemma enter_mask_frame sig m f k : sig_active_frame (signal_enter_mask sig m f k) = sig_active_frame k.
Proof. unfold signal_enter_mask. by repeat case_if. Qed.

Lemma enter_frame s t k ctx ws a r active sig m f s1 s2 :
  sigs s !! t = Some k -> Forall is_word ws -> user_ptr_valid a = true -> a mod 16 = 0 ->
  put_user s t a ws = Some s1 -> put_user s1 t (a -w 8) [r] = Some s2 ->
  entered s t ctx ws a active (upd_sig (upd_sig s2 t (with_frame active)) t (signal_enter_mask sig m f)).
Proof.
  intros Hk Hw Ha Hal (u1 & E1 & ->)%put_user_some (u2 & E2 & ->)%put_user_some. pose proof (user_ptr_range a Ha) as Hr.
  rewrite wrap64_small in E2 by lia. split_and!; [|..|done|done].
  - intros i n Hn Hi. unfold get_user. simpl. by eapply frame_kept.
  - rewrite (sig_at_upd _ _ _ (with_frame active k)), enter_mask_frame; [done|]. rewrite sigs_upd, decide_True by done. simpl. by rewrite Hk.
Qed.

Lemma frame_addr_aligned x : Z.land (wrap64 x) (Z.lnot 15) mod 16 = 0.
Proof. apply frame_aligned. apply wrap64_range. Qed.

(** The words of the two kinds of frame. *)
Lemma sigframe_length c m p sig code addr : length (sigframe_words c m p sig code addr) = 40%nat.
Proof. done. Qed.

Lemma linux_length c b cr2 fp st p sig code addr : length (linux_words c b cr2 fp st p sig code addr) = 134%nat.
Proof. done. Qed.

Lemma linux_reads c b cr2 fp st p sig code addr : let ws := linux_words c b cr2 fp st p sig code addr in
  take UC_NGREG (drop 5 ws) = ctx_to_gregs c b cr2 /\ take 1 (drop 37 ws) = [b] /\ take 1 (drop 133 ws) = [p].
Proof. done. Qed.

(** The trap number and error code of [d]. *)
Definition with_trap (d c : cpu_context) : cpu_context :=
  {| r15 := r15 c; r14 := r14 c; r13 := r13 c; r12 := r12 c; r11 := r11 c; r10 := r10 c; r9 := r9 c; r8 := r8 c;
     rbp := rbp c; rdi := rdi c; rsi := rsi c; rdx := rdx c; rcx := rcx c; rbx := rbx c; rax := rax c;
     vector := vector d; error := error d; rip := rip c; cs := cs c; rflags := rflags c; rsp := rsp c; ss := ss c |}.

(** The return from a plain frame that is as it was written. *)
Lemma sigreturn_plain s t k ctx a c m p sig code addr : t <> 0 -> sigs s !! t = Some k -> sig_active_frame k = a ->
  user_ptr_valid a = true -> a mod 16 = 0 -> get_user s t a 40 = Some (sigframe_words c m p sig code addr) ->
  user_ptr_valid (rip c) = true ->
  signal_handle_sigreturn s t ctx = (0, sanitize c, upd_sig (upd_sig s t (with_blocked m)) t (with_frame p)).
Proof.
  intros Ht Hk Ea Ha Hal Hg Hr. unfold signal_handle_sigreturn. rewrite (sig_at_some s t k Hk), Ea, (proj2 (Z.eqb_neq t 0)) by done.
  pose proof (user_ptr_range a Ha). rewrite (proj2 (Z.eqb_neq a 0)) by lia. destruct (frame_tag a Hal) as (-> & _). rewrite Hg. cbv zeta.
  unfold sigframe_words. rewrite words_of_ctx, Hr. done.
Qed.

Lemma sigreturn_linux s t k ctx a c b cr2 fp st p sig code addr : t <> 0 -> sigs s !! t = Some k -> sig_active_frame k = Z.lor a FRAME_LINUX ->
  user_ptr_valid a = true -> a mod 16 = 0 -> (forall i n, (0 < n)%nat -> (i + n <= 134)%nat ->
    get_user s t (a + 8 * Z.of_nat i) n = Some (take n (drop i (linux_words c b cr2 fp st p sig code addr)))) ->
  user_ptr_valid (rip c) = true ->
  signal_handle_sigreturn s t ctx = (0, with_trap ctx (sanitize c),
    upd_sig (upd_sig s t (with_blocked (set_minus b (Z.lor (sig_bit SIGKILL) (sig_bit SIGSTOP))))) t (with_frame p)).
Proof.
  intros Ht Hk Ea Ha Hal Hg Hr. unfold signal_handle_sigreturn. rewrite (sig_at_some s t k Hk), Ea, (proj2 (Z.eqb_neq t 0)) by done.
  pose proof (user_ptr_range a Ha). destruct (frame_tag a Hal) as (_ & -> & -> & _).
  assert (Hn0 : Z.lor a FRAME_LINUX <> 0) by (intros E; apply Z.lor_eq_0_iff in E as [_ E]; done). rewrite (proj2 (Z.eqb_neq _ 0) Hn0). cbv zeta.
  unfold signal_return_linux_frame, UC_GREGS, UC_SIGMASK, LF_PREV. rewrite !wrap64_small by lia.
  destruct (linux_reads c b cr2 fp st p sig code addr) as (L1 & L2 & L3).
  pose proof (Hg 5%nat UC_NGREG ltac:(unfold UC_NGREG; lia) ltac:(unfold UC_NGREG; lia)) as G1. pose proof (Hg 37%nat 1%nat ltac:(lia) ltac:(lia)) as G2.
  pose proof (Hg 133%nat 1%nat ltac:(lia) ltac:(lia)) as G3. rewrite L1 in G1. rewrite L2 in G2. rewrite L3 in G3. change (Z.of_nat 5) with 5 in G1. change (Z.of_nat 37) with 37 in G2. change (Z.of_nat 133) with 133 in G3.
  rewrite G1, G2, G3.
  change (rip (gregs_to_ctx (ctx_to_gregs c b cr2) ctx)) with (rip c). rewrite Hr. done.
Qed.

End SigLemmas.

(** C12. Whatever a task has written over the frame, returning from a handler either fails and
    changes nothing, or goes on in user mode: user segments, an instruction pointer in the
    user half, interrupts on, and no flag but those a task may choose. *)
Theorem sigreturn_confined {U : Type} `{UserMemory U} (s : sig_state U) t ctx :
  let '(rc, ctx', s') := signal_handle_sigreturn s t ctx in
  (rc = 0 /\ user_context ctx') \/ (rc < 0 /\ ctx' = ctx /\ s' = s).
Proof.
  unfold signal_handle_sigreturn. case_if; [right; done|]. case_if.
  - unfold signal_return_linux_frame. destruct (get_user _ _ _ UC_NGREG); [|right; done]. destruct (get_user _ _ (_ +w 8 * UC_SIGMASK) 1); [|right; done].
    destruct (get_user s t (_ +w 8 * LF_PREV) 1); [|right; done]. cbv zeta. case_if; [right; done|]. left. split; [done|]. by apply sanitize_user.
  - destruct (get_user s t _ 40); [|right; done]. cbv zeta. case_if; [right; done|]. left. split; [done|]. by apply sanitize_user.
Qed.

(** C11. Entering a handler and returning from it with the frame untouched restores the task:
    the interrupted context (its segments and flags made safe; after an [SA_SIGINFO] handler
    the trap number and error code are the current ones), the frame that was active before,
    and the mask, which an [SA_SIGINFO] return also takes [SIGKILL] and [SIGSTOP] out of. *)
Theorem signal_frame_roundtrip {U : Type} `{UserMemory U} (s : sig_state U) t k ctx sig code addr oom ctx' s' :
  t <> 0 -> sigs s !! t = Some k -> sigtask_ok k -> ctx_ok ctx -> is_word addr -> user_ptr_valid (rip ctx) = true ->
  signal_setup_user_handler s t ctx sig code addr oom = (0, ctx', s') ->
  let siginfo := flag (entry (sig_flags k) sig) SA_SIGINFO in
  rip ctx' = entry (sig_handlers k) sig /\ rdi ctx' = sig /\
  forall s2 k2 ctx2, sigs s2 !! t = Some k2 -> sig_active_frame k2 = sig_active_frame (sig_at s' t) ->
    frame_intact s' s2 t (Z.land (sig_active_frame k2) (Z.lnot FRAME_LINUX)) (if siginfo then 134 else 40) ->
    exists s3, signal_handle_sigreturn s2 t ctx2 = (0, (if siginfo then with_trap ctx2 (sanitize ctx) else sanitize ctx), s3) /\
      sig_active_frame (sig_at s3 t) = sig_active_frame k /\
      sig_blocked (sig_at s3 t) = (if siginfo then set_minus (sig_blocked k) (Z.lor (sig_bit SIGKILL) (sig_bit SIGSTOP)) else sig_blocked k).
Proof.
  intros Ht Hk (Hb & Hp & Hs1 & Hs2 & Hres) Hc Had Hr. unfold signal_setup_user_handler. rewrite (sig_at_some s t k Hk). case_if; [done|]. case_if; [done|].
  set (top := if _ : bool then sig_altstack_sp k +w _ else _). destruct (flag (entry (sig_flags k) sig) SA_SIGINFO).
  - unfold signal_setup_linux_frame. rewrite (sig_at_some s t k Hk). cbv zeta. set (a := Z.land _ _). case_if; [done|]. destruct oom; [done|].
    assert (Ha : user_ptr_valid a = true) by (bool_prop; done). pose proof (frame_addr_aligned (top - sizeof_linux_sigframe)) as Hal. fold a in Hal.
    destruct (put_user s t a _) as [s1|] eqn:E1; [|done]. destruct (put_user s1 t _ _) as [s2|] eqn:E2; [|done]. intros [= <- <-].
    split; [done|]. split; [done|]. intros s3 k2 ctx2 Hk2 Ea Hin.
    match type of E1 with put_user _ _ _ ?w = _ => assert (Hw : Forall is_word w) end.
    { apply linux_is_words; try done; [case_if; [done|apply is_word_0]|apply wrap64_range]. }
    destruct (enter_frame s t k ctx _ a _ (Z.lor a FRAME_LINUX) sig (entry (sig_masks k) sig) (entry (sig_flags k) sig) s1 s2 Hk Hw Ha Hal E1 E2) as (Hg & Eact & _ & _).
    rewrite Eact in Ea. destruct (frame_tag a Hal) as (_ & _ & Et & _). rewrite Ea, Et in Hin. eexists. split.
    + eapply (sigreturn_linux s3 t k2 ctx2 a); try done. intros i n Hn Hi. rewrite Hin by done. by apply Hg.
    + erewrite sig_at_upd; [|rewrite sigs_upd, decide_True, Hk2 by done; reflexivity]. done.
  - cbv zeta. set (a := Z.land _ _). case_if; [done|].
    pose proof (frame_addr_aligned (top - sizeof_sigframe)) as Hal. fold a in Hal. destruct (put_user s t a _) as [s1|] eqn:E1; [|done].
    case_if; [done|]. destruct (put_user s1 t _ _) as [s2|] eqn:E2; [|done]. intros [= <- <-].
    split; [done|]. split; [done|]. intros s3 k2 ctx2 Hk2 Ea Hin.
    destruct (enter_frame s t k ctx _ a _ a sig (entry (sig_masks k) sig) (entry (sig_flags k) sig) s1 s2 Hk
      (sigframe_is_words _ _ _ _ _ _ Hc Hb Hp Had) ltac:(done) Hal E1 E2) as (Hg & Eact & _ & _).
    rewrite Eact in Ea. destruct (frame_tag a Hal) as (_ & _ & _ & Et). rewrite Ea, Et in Hin. eexists. split.
    + eapply (sigreturn_plain s3 t k2 ctx2 a); try done. specialize (Hin 0%nat 40%nat). rewrite Z.mul_0_r, Z.add_0_r in Hin. rewrite Hin by lia.
      specialize (Hg 0%nat 40%nat). rewrite Z.mul_0_r, Z.add_0_r in Hg. apply Hg; [lia|done].
    + erewrite sig_at_upd; [|rewrite sigs_upd, decide_True, Hk2 by done; reflexivity]. done.
Qed.

(** ** Sending *)

Lemma set_minus_bits p b n : 0 <= n -> Z.testbit (set_minus p b) n = Z.testbit p n && negb (Z.testbit b n).
Proof. intros Hn. unfold set_minus. by rewrite Z.land_spec, Z.lnot_spec. Qed.

Lemma sig_bit_bits sig n : 1 <= sig -> 0 <= n -> Z.testbit (sig_bit sig) n = (n =? sig - 1).
Proof.
  intros Hs Hn. unfold sig_bit. rewrite Z.shiftl_1_l, Z.pow2_bits_eqb by lia. apply Z.eqb_sym.
Qed.

Lemma flag_sig_bit p sig : 1 <= sig -> flag p (sig_bit sig) = Z.testbit p (sig - 1).
Proof. intros Hs. unfold sig_bit. apply flag_testbit. lia. Qed.

Definition stop_bits : Z := Z.lor (Z.lor (sig_bit SIGSTOP) (sig_bit SIGTSTP)) (Z.lor (sig_bit SIGTTIN) (sig_bit SIGTTOU)).

(** What a signal cancels of what is pending. *)
Definition cancels (sig : Z) : Z :=
  if sig =? SIGCONT then stop_bits else if signal_default_stop sig then sig_bit SIGCONT else 0.

(** A stop and a continue are never pending together. *)
Definition stop_xor_cont (p : Z) : Prop := Z.testbit p (SIGCONT - 1) = true -> Z.land p stop_bits = 0.

Lemma stop_bits_sigs sig : 1 <= sig -> Z.testbit stop_bits (sig - 1) = signal_default_stop sig.
Proof.
  intros Hs. unfold stop_bits, signal_default_stop. rewrite !Z.lor_spec, !sig_bit_bits by (unfold SIGSTOP, SIGTSTP, SIGTTIN, SIGTTOU; lia).
  rewrite !orb_assoc. f_equal; [f_equal; [f_equal|]|]; apply eq_true_iff_eq; rewrite !Z.eqb_eq; lia.
Qed.

Lemma send_excludes p sig : 1 <= sig -> stop_xor_cont p -> stop_xor_cont (Z.lor (set_minus p (cancels sig)) (sig_bit sig)).
Proof.
  intros Hs Hp. unfold stop_xor_cont. rewrite Z.lor_spec, set_minus_bits, sig_bit_bits by (unfold SIGCONT; lia). intros Hc.
  apply Z.bits_inj'. intros n Hn. rewrite Z.land_spec, Z.lor_spec, set_minus_bits, sig_bit_bits, Z.bits_0 by lia.
  destruct (Z.testbit stop_bits n) eqn:En; [|apply andb_false_r]. rewrite andb_true_r. unfold cancels in *. destruct (Z.eqb_spec sig SIGCONT) as [->|Hsc].
  - rewrite En. change (negb true) with false. rewrite andb_false_r. simpl. apply Z.eqb_neq. intros ->. by vm_compute in En.
  - destruct (signal_default_stop sig) eqn:Ed.
    + rewrite sig_bit_bits in Hc by (unfold SIGCONT; lia). rewrite Z.eqb_refl in Hc. change (negb true) with false in Hc. rewrite andb_false_r in Hc. rewrite orb_false_l in Hc. apply Z.eqb_eq in Hc. lia.
    + assert (Hsn : n <> sig - 1) by (intros ->; rewrite stop_bits_sigs in En by lia; congruence). rewrite (proj2 (Z.eqb_neq n _)), orb_false_r by done.
      rewrite Z.bits_0, andb_true_r in *. assert (Hpc : Z.testbit p (SIGCONT - 1) = true).
      { rewrite orb_true_iff in Hc. destruct Hc as [?|E]; [done|]. bool_prop. lia. }
      specialize (Hp Hpc). apply (f_equal (fun z => Z.testbit z n)) in Hp. rewrite Z.land_spec, En, andb_true_r, Z.bits_0 in Hp. done.
Qed.

Lemma continue_facts s c t k : rqi s -> tasks s !! t = Some k ->
  let s' := sched_continue_task s c t in
  rqi s' /\ state (task_at s' t) = (if decide (state k = TASK_STOPPED) then TASK_READY else state k) /\
  (forall x, x <> t -> state (task_at s' x) = state (task_at s x)) /\ (forall x, is_Some (tasks s' !! x) <-> is_Some (tasks s !! x)).
Proof.
  intros Hr Hk. assert (Ht0 : t <> 0) by (intros ->; destruct Hr as [L R]; by rewrite (rq_null _ _ R) in Hk).
  assert (Eat : task_at s t = k) by (unfold task_at; by rewrite Hk). cbv zeta. unfold sched_continue_task. rewrite (proj2 (Z.eqb_neq t 0)), Eat by done.
  destruct (decide (state k = TASK_STOPPED)) as [Es|Es]; [|split_and!; try done; congruence].
  set (s1 := upd_task s t _). assert (R1 : rqi s1) by (eapply rqi_frame; [|exact Hr]; by apply upd_same_queues).
  assert (K1 : tasks s1 !! t = Some (with_state TASK_READY k)) by (unfold s1; by rewrite tasks_upd, decide_True, Hk).
  assert (O1 : forall x, x <> t -> tasks s1 !! x = tasks s !! x) by (intros x Hx; unfold s1; by rewrite tasks_upd, decide_False).
  assert (Hfin : forall s', rqi s' -> same_core s1 s' -> rqi s' /\ state (task_at s' t) = TASK_READY /\
    (forall x, x <> t -> state (task_at s' x) = state (task_at s x)) /\ (forall x, is_Some (tasks s' !! x) <-> is_Some (tasks s !! x))).
  { intros s4 Hr4 Hc4. split_and!; [done| | |].
    - rewrite (state_at_core _ _ t Hc4). unfold task_at. by rewrite K1.
    - intros x Hx. rewrite (state_at_core _ _ x Hc4). unfold task_at. by rewrite O1.
    - intros x. rewrite <- (fmap_is_Some core (tasks s4 !! x)), (sc_task _ _ Hc4 x), fmap_is_Some.
      destruct (decide (x = t)) as [->|Hx]; [rewrite K1, Hk; split; by eexists|by rewrite O1]. }
  destruct (on_cpu (task_at s1 t)); [by apply Hfin|]. destruct (enqueue_kick s1 c t _ R1 K1) as (R2 & C2 & _). by apply Hfin.
Qed.

(** A live task: known to the scheduler and to the signal code, and not gone. *)
Definition alive {U} (s : sig_state U) (t : Z) : Prop :=
  exists kt, tasks (ssched s) !! t = Some kt /\ gone (state kt) = false.

Lemma alive_state {U} (s : sig_state U) t : alive s t -> gone (state (task_at (ssched s) t)) = false.
Proof. intros (kt & E & G). unfold task_at. by rewrite E. Qed.

Section Send.
Context {U : Type} `{UserMemory U}.
Implicit Types (s : sig_state U) (t sig : Z).

(** What sending a signal to a task does. *)
Record sent s t sig s' : Prop := {
  sent_rqi : rqi (ssched s');
  sent_awake : state (task_at (ssched s') t) <> TASK_BLOCKED /\ state (task_at (ssched s') t) <> TASK_STOPPED;
  sent_pending : sigs s' !! t = (fun k => with_pending (Z.lor (set_minus (sig_pending k) (cancels sig)) (sig_bit sig)) k) <$> sigs s !! t;
  sent_others : forall x, x <> t -> sigs s' !! x = sigs s !! x /\ state (task_at (ssched s') x) = state (task_at (ssched s) x);
  sent_dom : forall x, is_Some (tasks (ssched s') !! x) <-> is_Some (tasks (ssched s) !! x);
  sent_groups : groups s' = groups s;
}.

Lemma upd_sig_sched s t f : ssched (upd_sig s t f) = ssched s.
Proof. done. Qed.

(** The four clears of [SIGCONT] as one. *)
Lemma clear_stops p :
  set_minus (set_minus (set_minus (set_minus p (sig_bit SIGSTOP)) (sig_bit SIGTSTP)) (sig_bit SIGTTIN)) (sig_bit SIGTTOU) = set_minus p stop_bits.
Proof.
  apply Z.bits_inj'. intros n Hn. unfold stop_bits. rewrite !set_minus_bits, !Z.lor_spec by done.
  destruct (Z.testbit p n), (Z.testbit (sig_bit SIGSTOP) n), (Z.testbit (sig_bit SIGTSTP) n), (Z.testbit (sig_bit SIGTTIN) n); done.
Qed.

Lemma set_minus_0 p : set_minus p 0 = p.
Proof. unfold set_minus. apply Z.land_m1_r. Qed.

(** What [SIGCONT] does before it is made pending. *)
Definition send_cont s (c : nat) t : sig_state U :=
  let s := upd_sig s t (fun k => with_pending (set_minus (sig_pending k) (sig_bit SIGSTOP)) k) in
  let s := upd_sig s t (fun k => with_pending (set_minus (sig_pending k) (sig_bit SIGTSTP)) k) in
  let s := upd_sig s t (fun k => with_pending (set_minus (sig_pending k) (sig_bit SIGTTIN)) k) in
  let s := upd_sig s t (fun k => with_pending (set_minus (sig_pending k) (sig_bit SIGTTOU)) k) in
  set_ssched s (sched_continue_task (ssched s) c t).

Lemma send_cont_sigs s c t x : sigs (send_cont s c t) !! x =
  if decide (x = t) then (fun k => with_pending (set_minus (sig_pending k) stop_bits) k) <$> sigs s !! x else sigs s !! x.
Proof.
  unfold send_cont. change (sigs (set_ssched ?a ?b)) with (sigs a). rewrite !sigs_upd. destruct (decide (x = t)); [|done].
  destruct (sigs s !! x) as [k|]; [|done]. simpl. by rewrite <- clear_stops.
Qed.

Lemma send_spec s c t sig : rqi (ssched s) -> alive s t -> valid_signal sig = true ->
  exists s', signal_send s c t sig = (0, s') /\ sent s t sig s'.
Proof.
  intros Hr Hal Hv. pose proof (alive_state s t Hal) as Hg. destruct Hal as (kt & Hkt & _).
  assert (Ht0 : t <> 0) by (intros ->; destruct Hr as [L R]; by rewrite (rq_null _ _ R) in Hkt).
  unfold signal_send. rewrite (proj2 (Z.eqb_neq t 0)), Hv, Hg by done. simpl negb. cbv iota. fold (send_cont s c t).
  set (s1 := if sig =? SIGCONT then send_cont s c t else s). set (s2 := if signal_default_stop sig then _ else s1).
  set (s3 := upd_sig s2 t _).
  assert (H1 : rqi (ssched s1) /\ (exists k1, tasks (ssched s1) !! t = Some k1) /\ groups s1 = groups s /\
    (forall x, is_Some (tasks (ssched s1) !! x) <-> is_Some (tasks (ssched s) !! x)) /\
    (forall x, x <> t -> state (task_at (ssched s1) x) = state (task_at (ssched s) x))).
  { unfold s1. destruct (sig =? SIGCONT); [|split_and!; try done; by eexists].
    destruct (continue_facts (ssched s) c t kt Hr Hkt) as (R1 & _ & O1 & D1). split_and!; try done. apply D1. by eexists. }
  destruct H1 as (R1 & (k1 & K1) & G1 & D1 & O1).
  assert (E3 : ssched s3 = ssched s1) by (unfold s3, s2; by destruct (signal_default_stop sig)).
  assert (P3 : forall x, sigs s3 !! x = if decide (x = t) then (fun k => with_pending (Z.lor (set_minus (sig_pending k) (cancels sig)) (sig_bit sig)) k) <$> sigs s !! x else sigs s !! x).
  { intros x. unfold s3, s2, s1, cancels. destruct (Z.eqb_spec sig SIGCONT) as [->|Hsc].
    - change (signal_default_stop SIGCONT) with false. cbv iota. rewrite sigs_upd, send_cont_sigs. destruct (decide (x = t)); [|done]. by destruct (sigs s !! x).
    - destruct (signal_default_stop sig); rewrite !sigs_upd; destruct (decide (x = t)); try done; destruct (sigs s !! x); simpl; by rewrite ?set_minus_0. }
  assert (G3 : groups s3 = groups s) by (unfold s3, s2; by destruct (signal_default_stop sig)).
  rewrite E3. set (s4 := if decide _ then _ else _).
  assert (H4 : rqi s4 /\ (state (task_at s4 t) <> TASK_BLOCKED /\ state (task_at s4 t) <> TASK_STOPPED) /\
    (forall x, x <> t -> state (task_at s4 x) = state (task_at (ssched s1) x)) /\ (forall x, is_Some (tasks s4 !! x) <-> is_Some (tasks (ssched s1) !! x))).
  { assert (Eat : task_at (ssched s1) t = k1) by (unfold task_at; by rewrite K1). unfold s4. rewrite Eat. destruct (decide (state k1 = TASK_BLOCKED)) as [Eb|Eb].
    - destruct (wake_state (ssched s1) c t k1 R1 K1) as (A & B & C & D). rewrite decide_True in B by done. split_and!; try done; by rewrite B.
    - destruct (continue_facts (ssched s1) c t k1 R1 K1) as (A & B & C & D). split_and!; try done; rewrite B; by destruct (decide (state k1 = TASK_STOPPED)). }
  destruct H4 as (R4 & A4 & O4 & D4). exists (set_ssched s3 s4). split; [done|]. split.
  - done.
  - done.
  - change (sigs (set_ssched s3 s4)) with (sigs s3). by rewrite P3, decide_True.
  - intros x Hx. change (sigs (set_ssched s3 s4)) with (sigs s3). rewrite P3, decide_False by done. split; [done|]. simpl. by rewrite O4, O1.
  - intros x. simpl. by rewrite D4.
  - done.
Qed.

(** ** Processes *)

Definition has_pending s sig t : Prop := Z.testbit (sig_pending (sig_at s t)) (sig - 1) = true.

Lemma sent_has s t sig s' : valid_signal sig = true -> is_Some (sigs s !! t) -> sent s t sig s' -> has_pending s' sig t.
Proof.
  intros Hv [k Hk] Hs. unfold has_pending, sig_at. rewrite (sent_pending _ _ _ _ Hs), Hk. simpl. unfold valid_signal in Hv. bool_prop.
  rewrite Z.lor_spec, sig_bit_bits, Z.eqb_refl by lia. apply orb_true_r.
Qed.

Lemma sent_alive s t sig s' x : sent s t sig s' -> x <> t -> alive s x <-> alive s' x.
Proof.
  intros Hs Hx. destruct (sent_others _ _ _ _ Hs x Hx) as [_ Es]. pose proof (sent_dom _ _ _ _ Hs x) as Hd. unfold alive, task_at in *.
  destruct (tasks (ssched s) !! x) as [k1|] eqn:E1, (tasks (ssched s') !! x) as [k2|] eqn:E2; simpl in *.
  - split; intros (? & [= <-] & ?); eexists; (split; [done|congruence]).
  - destruct Hd as [_ Hd]. by destruct (Hd ltac:(by eexists)).
  - destruct Hd as [Hd _]. by destruct (Hd ltac:(by eexists)).
  - by split; intros (? & ? & _).
Qed.

(** A task that is gone is not sent anything. *)
Lemma send_gone s c t sig : t <> 0 -> valid_signal sig = true -> gone (state (task_at (ssched s) t)) = true -> signal_send s c t sig = (0, s).
Proof. intros Ht Hv Hg. unfold signal_send. by rewrite (proj2 (Z.eqb_neq t 0)), Hv, Hg. Qed.

(** Sending to every thread of a list. *)
Lemma send_all c sig ts : valid_signal sig = true -> forall s, rqi (ssched s) -> (forall x, x ∈ ts -> is_Some (sigs s !! x) /\ is_Some (tasks (ssched s) !! x)) -> NoDup ts ->
  let s' := foldl (fun s t => (signal_send s c t sig).2) s ts in
  rqi (ssched s') /\ (forall x, x ∈ ts -> alive s x -> has_pending s' sig x /\ state (task_at (ssched s') x) <> TASK_BLOCKED /\ state (task_at (ssched s') x) <> TASK_STOPPED) /\
  (forall x, x ∉ ts -> sigs s' !! x = sigs s !! x /\ state (task_at (ssched s') x) = state (task_at (ssched s) x)).
Proof.
  intros Hv. induction ts as [|t ts IH]; intros s Hr Hin Hnd; [simpl; split_and!; try done; intros x Hx; by apply not_elem_of_nil in Hx|].
  apply list.NoDup_cons in Hnd as [Hnt Hnd]. cbn [foldl]. destruct (Hin t ltac:(by left)) as [Hst [kt Hkt]].
  assert (Ht0 : t <> 0) by (intros ->; destruct Hr as [L R]; by rewrite (rq_null _ _ R) in Hkt).
  destruct (gone (state kt)) eqn:Hg.
  - assert (Eat : task_at (ssched s) t = kt) by (unfold task_at; by rewrite Hkt). rewrite (send_gone s c t sig Ht0 Hv) by (by rewrite Eat). cbn [snd].
    destruct (IH s Hr) as (A & B & C); [intros x Hx; apply Hin; by right|done|]. split_and!; [done| |].
    + intros x [->|Hx]%elem_of_cons Ha; [|by apply B]. apply alive_state in Ha. rewrite Eat in Ha. congruence.
    + intros x Hx. apply C. intros Hxt. apply Hx. by right.
  - destruct (send_spec s c t sig Hr ltac:(by exists kt) Hv) as (s1 & -> & Hs1). cbn [snd].
    destruct (IH s1 (sent_rqi _ _ _ _ Hs1)) as (A & B & C); [|done|].
    { intros x Hx. assert (Hxt : x <> t) by (by intros ->). destruct (Hin x ltac:(by right)) as [I1 I2].
      destruct (sent_others _ _ _ _ Hs1 x Hxt) as [-> _]. split; [done|]. by apply (sent_dom _ _ _ _ Hs1). }
    split_and!; [done| |].
    + intros x [->|Hx]%elem_of_cons Ha.
      * destruct (C t Hnt) as [C1 C2]. rewrite C2. split; [|by apply (sent_awake _ _ _ _ Hs1)]. unfold has_pending, sig_at. rewrite C1. by apply (sent_has s t sig).
      * apply B; [done|]. apply (sent_alive s t sig s1 x Hs1); [by intros ->|done].
    + intros x Hx. assert (Hxt : x <> t) by (intros ->; apply Hx; by left). destruct (C x) as [-> ->]; [intros H'; apply Hx; by right|]. by apply (sent_others _ _ _ _ Hs1).
Qed.

(** The thread picked is live, and does not block the signal when a live one does not. *)
Lemma pick_thread_spec s sig ts p : (forall x, x ∈ ts -> x <> 0) ->
  let blocks x := flag (sig_blocked (sig_at s x)) (sig_bit sig) = true in
  let live x := gone (state (task_at (ssched s) x)) = false in
  let q := pick_thread s sig ts p in
  (q ∈ ts /\ live q /\ ~ blocks q) \/
  ((forall x, x ∈ ts -> live x -> blocks x) /\
   ((p <> 0 /\ q = p) \/ (p = 0 /\ q <> 0 /\ q ∈ ts /\ live q) \/ (p = 0 /\ q = 0 /\ forall x, x ∈ ts -> ~ live x))).
Proof.
  cbv zeta. revert p. induction ts as [|t ts IH]; intros p Hnz; cbn [pick_thread].
  - right. split; [intros x Hx; by apply not_elem_of_nil in Hx|]. destruct (decide (p = 0)) as [->|]; [right; right|by left].
    split_and!; try done. intros x Hx. by apply not_elem_of_nil in Hx.
  - assert (Ht0 : t <> 0) by (apply Hnz; by left). assert (Hnz' : forall x, x ∈ ts -> x <> 0) by (intros x Hx; apply Hnz; by right).
    destruct (gone (state (task_at (ssched s) t))) eqn:Hg.
    + destruct (IH p Hnz') as [(A & B & C)|(A & B)]; [left; split_and!; try done; by right|right]. split.
      * intros x [->|Hx]%elem_of_cons Hl; [congruence|by apply A].
      * destruct B as [B|[(B1 & B2 & B3 & B4)|(B1 & B2 & B3)]]; [by left|right; left; split_and!; try done; by right|right; right].
        split_and!; try done. intros x [->|Hx]%elem_of_cons Hl; [congruence|by apply (B3 x)].
    + destruct (flag (sig_blocked (sig_at s t)) (sig_bit sig)) eqn:Hb; cbn [negb].
      * destruct (IH (if p =? 0 then t else p) Hnz') as [(A & B & C)|(A & B)]; [left; split_and!; try done; by right|right]. split.
        -- intros x [->|Hx]%elem_of_cons Hl; [done|by apply A].
        -- destruct (Z.eqb_spec p 0) as [->|Hp].
           ++ right. left. destruct B as [(_ & ->)|[(B & _)|(B & _)]]; [|done|done]. split_and!; try done. by left.
           ++ left. destruct B as [(_ & ->)|[(B & _)|(B & _)]]; done.
      * left. split_and!; [by left|done|congruence].
Qed.

End Send.

(** Sending a signal to a live task makes exactly that signal pending, after cancelling
    the stops a continue undoes and the continue a stop undoes, so that the two are never
    pending together; the task is neither blocked nor stopped afterwards, the run queues stay
    well formed, and no other task changes. *)
Lemma signal_send_effect {U : Type} `{UserMemory U} (s : sig_state U) c t k sig :
  rqi (ssched s) -> alive s t -> sigs s !! t = Some k -> valid_signal sig = true ->
  exists s', signal_send s c t sig = (0, s') /\ sent s t sig s' /\ has_pending s' sig t /\
    (stop_xor_cont (sig_pending k) -> stop_xor_cont (sig_pending (sig_at s' t))).
Proof.
  intros Hr Ha Hk Hv. destruct (send_spec s c t sig Hr Ha Hv) as (s' & E & Hs). exists s'. split; [done|]. split; [done|].
  split; [by eapply (sent_has s); [| |exact Hs]|]. intros Hx. unfold sig_at. rewrite (sent_pending _ _ _ _ Hs), Hk. simpl.
  apply send_excludes; [|done]. unfold valid_signal in Hv. bool_prop. lia.
Qed.

(** Signals that are for the whole process. *)
Definition process_wide {U} (s : sig_state U) (t sig : Z) : bool :=
  (sig =? SIGKILL) || (sig =? SIGCONT) || (signal_default_stop sig && (entry (sig_handlers (sig_at s t)) sig =? SIG_DFL)).

(** A signal for a process: a kill, a continue, or a stop that is not handled reaches
    every live thread; any other goes to one live thread, which blocks it only when every
    live thread does, and is dropped only when no thread is alive. *)
Lemma signal_group_reaches {U : Type} `{UserMemory U} (s : sig_state U) c t sig :
  let ts := threads_of s t in
  rqi (ssched s) -> t <> 0 -> valid_signal sig = true -> ts <> [] -> NoDup ts ->
  (forall x, x ∈ ts -> is_Some (sigs s !! x) /\ is_Some (tasks (ssched s) !! x)) ->
  let '(rc, s') := signal_send_group s c t sig in
  rc = 0 /\ rqi (ssched s') /\
  if process_wide s t sig
  then forall x, x ∈ ts -> alive s x ->
    has_pending s' sig x /\ state (task_at (ssched s') x) <> TASK_BLOCKED /\ state (task_at (ssched s') x) <> TASK_STOPPED
  else (s' = s /\ forall x, x ∈ ts -> ~ alive s x) \/
    exists x, x ∈ ts /\ alive s x /\ sent s x sig s' /\ has_pending s' sig x /\
      (flag (sig_blocked (sig_at s x)) (sig_bit sig) = false \/
       forall y, y ∈ ts -> alive s y -> flag (sig_blocked (sig_at s y)) (sig_bit sig) = true).
Proof.
  intros ts Hr Ht Hv Hne Hnd Hin. unfold signal_send_group. rewrite (proj2 (Z.eqb_neq t 0)), Hv by done. cbn [negb]. fold ts.
  assert (Hlive : forall x, x ∈ ts -> gone (state (task_at (ssched s) x)) = false -> alive s x).
  { intros x Hx Hg. destruct (Hin x Hx) as [_ [kx Ex]]. exists kx. unfold task_at in Hg. by rewrite Ex in Hg. }
  destruct ts as [|t1 ts1] eqn:Ets; [done|]. rewrite <- Ets in *. fold (process_wide s t sig). destruct (process_wide s t sig).
  - destruct (send_all c sig ts Hv s Hr Hin Hnd) as (A & B & _). by split_and!.
  - destruct (pick_thread_spec s sig ts 0) as [(A & B & C)|(A & B)].
    { intros x Hx ->. destruct (Hin 0 Hx) as [_ [kx Ex]]. destruct Hr as [L R]. by rewrite (rq_null _ _ R) in Ex. }
    + assert (Ha : alive s (pick_thread s sig ts 0)) by auto. assert (Hq0 : pick_thread s sig ts 0 <> 0).
      { intros E. rewrite E in Ha. destruct Ha as (k0 & Ek & _). destruct Hr as [L R]. by rewrite (rq_null _ _ R) in Ek. }
      rewrite (proj2 (Z.eqb_neq _ 0) Hq0). destruct (send_spec s c _ sig Hr Ha Hv) as (s' & -> & Hs). split; [done|]. split; [apply (sent_rqi _ _ _ _ Hs)|].
      right. exists (pick_thread s sig ts 0). split_and!; [done|done|done|eapply sent_has; [done| |exact Hs]; by apply Hin|]. left. by apply not_true_is_false.
    + destruct B as [(B & _)|[(_ & Hq0 & B1 & B2)|(_ & Hq0 & B)]]; [done| |].
      * rewrite (proj2 (Z.eqb_neq _ 0) Hq0). assert (Ha : alive s (pick_thread s sig ts 0)) by auto.
        destruct (send_spec s c _ sig Hr Ha Hv) as (s' & -> & Hs). split; [done|]. split; [apply (sent_rqi _ _ _ _ Hs)|].
        right. exists (pick_thread s sig ts 0). split_and!; [done|done|done|eapply sent_has; [done| |exact Hs]; by apply Hin|]. right.
        intros y Hy Hya. apply A; [done|]. by apply alive_state.
      * rewrite Hq0. cbn. split; [done|]. split; [done|]. left. split; [done|]. intros x Hx Hxa. apply (B x Hx). by apply alive_state.
Qed.

(** ** Delivery *)

Section Deliver.
Context {U : Type} `{UserMemory U}.
Implicit Types (s : sig_state U) (t sig : Z).

(** The state with the signals [m] no longer pending. *)
Definition drop_pending s t (m : Z) : sig_state U := upd_sig s t (fun k => with_pending (set_minus (sig_pending k) m) k).

Lemma sig_state_eq s s' : ssched s = ssched s' -> sigs s = sigs s' -> groups s = groups s' -> umem s = umem s' -> s = s'.
Proof. destruct s, s'. simpl. by intros -> -> -> ->. Qed.

Lemma drop_drop s t m n : drop_pending (drop_pending s t m) t n = drop_pending s t (Z.lor m n).
Proof.
  apply sig_state_eq; try done. apply map_eq. intros x. unfold drop_pending. rewrite !sigs_upd. destruct (decide (x = t)); [|done].
  destruct (sigs s !! x) as [k|]; [|done]. simpl. f_equal. unfold with_pending. simpl. f_equal. apply Z.bits_inj'. intros i Hi.
  rewrite !set_minus_bits, Z.lor_spec by done. by destruct (Z.testbit (sig_pending k) i), (Z.testbit m i).
Qed.

Lemma drop_none s t : drop_pending s t 0 = s.
Proof.
  apply sig_state_eq; try done. apply map_eq. intros x. unfold drop_pending. rewrite !sigs_upd. destruct (decide (x = t)); [|done].
  destruct (sigs s !! x) as [k|]; [|done]. simpl. f_equal. rewrite set_minus_0. by destruct k.
Qed.

Lemma drop_handlers s t m : sig_handlers (sig_at (drop_pending s t m) t) = sig_handlers (sig_at s t).
Proof. unfold sig_at, drop_pending. rewrite sigs_upd, decide_True by done. by destruct (sigs s !! t). Qed.

(** What delivery passes over. *)
Definition ignored s t sig : bool :=
  let h := entry (sig_handlers (sig_at s t)) sig in (h =? SIG_IGN) || ((h =? SIG_DFL) && signal_default_ignored sig).

Lemma drop_ignored s t m sig : ignored (drop_pending s t m) t sig = ignored s t sig.
Proof. unfold ignored. by rewrite drop_handlers. Qed.

Lemma deliver_step n s c t ctx ready sig oom :
  deliver_loop (S n) s c t ctx ready sig oom =
  if flag ready (sig_bit sig)
  then
    let s1 := drop_pending s t (sig_bit sig) in
    if ignored s t sig then deliver_loop n s1 c t ctx ready (sig + 1) oom
    else
      match signal_apply_default_action s1 c t sig (sig_bit sig) with
      | (None, s2) => (None, s2)
      | (Some r, s2) =>
        if negb (r =? -1) then (Some ctx, s2)
        else
          let '(rc, ctx', s3) := signal_setup_user_handler s2 t ctx sig SI_USER 0 oom in
          if rc <? 0 then (None, upd_sig s3 t (with_exit sig (128 + sig))) else (Some ctx', s3)
      end
  else deliver_loop n s c t ctx ready (sig + 1) oom.
Proof.
  cbn [deliver_loop]. destruct (flag ready (sig_bit sig)); [|done]. cbn [negb]. fold (drop_pending s t (sig_bit sig)). cbv zeta.
  set (s1 := drop_pending s t (sig_bit sig)). rewrite <- (drop_ignored s t (sig_bit sig) sig). fold s1. unfold signal_apply_default_action.
  unfold ignored. set (h := entry _ sig). destruct ((h =? SIG_IGN) || ((h =? SIG_DFL) && signal_default_ignored sig)) eqn:Ei; [done|].
  destruct ((h =? SIG_DFL) && signal_default_stop sig); [done|]. by destruct ((h =? SIG_DFL) && signal_default_terminate sig).
Qed.

(** The ready signals from [sig] on, [k] of them, are ignored: the loop passes over them. *)
Lemma deliver_skip c t ctx ready oom k : forall n s sig, 1 <= sig ->
  (forall j, sig <= j < sig + Z.of_nat k -> flag ready (sig_bit j) = true -> ignored s t j = true) ->
  exists m, (forall i, 0 <= i -> Z.testbit m i = Z.testbit ready i && bool_decide (sig - 1 <= i < sig - 1 + Z.of_nat k)) /\
    deliver_loop (k + n) s c t ctx ready sig oom = deliver_loop n (drop_pending s t m) c t ctx ready (sig + Z.of_nat k) oom.
Proof.
  induction k as [|k IH]; intros n s sig Hs Hi.
  - exists 0. split; [|by rewrite Z.add_0_r, drop_none]. intros i Hi0. rewrite Z.bits_0, bool_decide_false by lia. by rewrite andb_false_r.
  - change (S k + n)%nat with (S (k + n)). rewrite deliver_step. destruct (flag ready (sig_bit sig)) eqn:Hf.
    + rewrite (Hi sig) by (done || lia). cbv zeta. destruct (IH n (drop_pending s t (sig_bit sig)) (sig + 1)) as (m & Hm & ->); [lia| |].
      { intros j Hj Hr. rewrite drop_ignored. apply Hi; [lia|done]. }
      exists (Z.lor (sig_bit sig) m). split; [|rewrite drop_drop; f_equal; lia]. intros i Hi0. rewrite Z.lor_spec, sig_bit_bits, Hm by lia.
      rewrite flag_sig_bit in Hf by lia. destruct (Z.eqb_spec i (sig - 1)) as [->|Hne]; [cbn [orb]; rewrite Hf, bool_decide_true by lia; done|]. simpl. f_equal. apply bool_decide_ext. lia.
    + destruct (IH n s (sig + 1)) as (m & Hm & ->); [lia|intros j Hj; apply Hi; lia|]. exists m. split; [|f_equal; lia]. intros i Hi0. rewrite Hm by done.
      rewrite flag_sig_bit in Hf by lia. destruct (decide (i = sig - 1)) as [->|Hne]; [by rewrite Hf|]. f_equal. apply bool_decide_ext. lia.
Qed.

(** The ready signals below [sig], and with [sig]. *)
Lemma low_bits ready m k : 0 <= k -> (forall i, 0 <= i -> Z.testbit m i = Z.testbit ready i && bool_decide (1 - 1 <= i < 1 - 1 + k)) -> m = Z.land ready (Z.ones k).
Proof.
  intros Hk Hm. apply Z.bits_inj'. intros i Hi. rewrite Hm, Z.land_spec by done. f_equal. destruct (decide (i < k)).
  - rewrite bool_decide_true, Z.ones_spec_low by lia. done.
  - rewrite bool_decide_false, Z.ones_spec_high by lia. done.
Qed.

Lemma low_bits_next ready sig : 1 <= sig -> Z.testbit ready (sig - 1) = true ->
  Z.lor (Z.land ready (Z.ones (sig - 1))) (sig_bit sig) = Z.land ready (Z.ones sig).
Proof.
  intros Hs Hr. apply Z.bits_inj'. intros i Hi. rewrite Z.lor_spec, !Z.land_spec, sig_bit_bits by lia. destruct (Z.eqb_spec i (sig - 1)) as [->|Hne].
  - rewrite Hr, (Z.ones_spec_low sig) by lia. by rewrite orb_true_r.
  - rewrite orb_false_r. f_equal. destruct (decide (i < sig - 1)); [rewrite !Z.ones_spec_low by lia; done|rewrite !Z.ones_spec_high by lia; done].
Qed.

Lemma low_bits_absorb ready sig : 1 <= sig -> Z.testbit ready (sig - 1) = true ->
  Z.lor (Z.land ready (Z.ones sig)) (sig_bit sig) = Z.land ready (Z.ones sig).
Proof.
  intros Hs Hr. rewrite <- (low_bits_next ready sig Hs Hr), <- Z.lor_assoc. f_equal. apply Z.lor_diag.
Qed.

Lemma yield_stopped k c t : state (task_at k t) <> TASK_RUNNING -> sched_yield k c t = k.
Proof. intros Hn. unfold sched_yield. rewrite bool_decide_false by done. rewrite andb_false_r. by destruct (_ =? 0). Qed.

(** The default actions, on a state the signal is no longer pending in. *)
Lemma default_action s c t sig m : 1 <= sig -> ignored s t sig = false -> Z.lor m (sig_bit sig) = m ->
  let s1 := drop_pending s t m in
  signal_apply_default_action s1 c t sig (sig_bit sig) =
  if entry (sig_handlers (sig_at s t)) sig =? SIG_DFL
  then if signal_default_stop sig then (Some 1, set_ssched s1 (upd_task (ssched s) t (with_state TASK_STOPPED)))
       else (None, upd_sig s1 t (with_exit sig (128 + sig)))
  else (Some (-1), s1).
Proof.
  intros Hs Hi Hm. cbv zeta. unfold signal_apply_default_action. rewrite drop_handlers. unfold ignored in Hi. set (h := entry _ sig) in *. rewrite Hi.
  destruct (h =? SIG_DFL) eqn:Eh; [|done]. rewrite andb_true_l in *. rewrite orb_false_iff in Hi. destruct Hi as [_ Hd].
  unfold signal_default_terminate. rewrite Hd. rewrite !andb_true_l. destruct (signal_default_stop sig).
  - fold (drop_pending (set_ssched (drop_pending s t m) (upd_task (ssched (drop_pending s t m)) t (with_state TASK_STOPPED))) t (sig_bit sig)).
    f_equal. set (k := upd_task _ t _). apply sig_state_eq; try done.
    + simpl. apply yield_stopped. unfold k, task_at. rewrite tasks_upd, decide_True by done. simpl. by destruct (tasks (ssched s) !! t).
    + change (sigs (drop_pending (drop_pending s t m) t (sig_bit sig)) = sigs (drop_pending s t m)). by rewrite drop_drop, Hm.
  - cbn [negb andb]. fold (drop_pending (drop_pending s t m) t (sig_bit sig)). by rewrite drop_drop, Hm.
Qed.

End Deliver.

(** C31. What a task meets on its way back to user mode, when no handler of its is active: the
    lowest-numbered signal that is pending, not blocked and not ignored, and only that one;
    every ready signal below it is dropped.  An unhandled stop stops the task, any other
    unhandled signal ends it with code 128 plus the number, and a handler is entered, or the
    task ends when its frame cannot be built. *)
Theorem deliver_pending_first {U : Type} `{UserMemory U} (s : sig_state U) c t k ctx oom :
  t <> 0 -> sigs s !! t = Some k -> user_task k = true -> sig_active_frame k = 0 ->
  let ready := set_minus (sig_pending k) (sig_blocked k) in
  ((forall j, 1 <= j < NSIG -> flag ready (sig_bit j) = true -> ignored s t j = true) ->
    signal_deliver_pending s c t ctx oom = (Some ctx, drop_pending s t (Z.land ready (Z.ones (NSIG - 1))))) /\
  (forall sig, 1 <= sig < NSIG -> flag ready (sig_bit sig) = true -> ignored s t sig = false ->
    (forall j, 1 <= j < sig -> flag ready (sig_bit j) = true -> ignored s t j = true) ->
    let s1 := drop_pending s t (Z.land ready (Z.ones sig)) in
    signal_deliver_pending s c t ctx oom =
    if entry (sig_handlers k) sig =? SIG_DFL
    then if signal_default_stop sig then (Some ctx, set_ssched s1 (upd_task (ssched s) t (with_state TASK_STOPPED)))
         else (None, upd_sig s1 t (with_exit sig (128 + sig)))
    else
      let '(rc, ctx', s2) := signal_setup_user_handler s1 t ctx sig SI_USER 0 oom in
      if rc <? 0 then (None, upd_sig s2 t (with_exit sig (128 + sig))) else (Some ctx', s2)).
Proof.
  intros Ht Hk Hu Ha ready. unfold signal_deliver_pending. rewrite (proj2 (Z.eqb_neq t 0) Ht), (sig_at_some s t k Hk), Hu, Ha. cbn [orb negb Z.eqb].
  fold ready. split.
  - intros Hall. destruct (Z.eqb_spec ready 0) as [E|_]; [by rewrite E, Z.land_0_l, drop_none|].
    destruct (deliver_skip c t ctx ready oom 31 0 s 1) as (m & Hm & E); [lia|intros j Hj; apply Hall; unfold NSIG; lia|].
    change (Z.to_nat (NSIG - 1)) with (31 + 0)%nat. rewrite E. by rewrite (low_bits ready m 31).
  - intros sig Hs Hf Hi Hlow. cbv zeta. pose proof Hf as Hb. rewrite flag_sig_bit in Hb by lia. destruct (Z.eqb_spec ready 0) as [E|_]; [by rewrite E, Z.bits_0 in Hb|].
    destruct (deliver_skip c t ctx ready oom (Z.to_nat (sig - 1)) (S (Z.to_nat (31 - sig))) s 1) as (m & Hm & E); [lia|intros j Hj; apply Hlow; lia|].
    replace (Z.to_nat (NSIG - 1)) with (Z.to_nat (sig - 1) + S (Z.to_nat (31 - sig)))%nat by (unfold NSIG in *; lia). rewrite E, deliver_step.
    rewrite Z2Nat.id in * by lia. replace (1 + (sig - 1)) with sig in * by lia. rewrite Hf, drop_ignored, Hi, drop_drop. cbv zeta.
    rewrite (low_bits ready m (sig - 1)), low_bits_next by (done || lia).
    rewrite default_action by (done || lia || by apply low_bits_absorb; [lia|]). rewrite (sig_at_some s t k Hk).
    destruct (entry (sig_handlers k) sig =? SIG_DFL); [|done]. by destruct (signal_default_stop sig).
Qed.

(** ** An example process *)

Definition demo_handlers : list Z := <[10%nat := 4198400]> (replicate 32 0).

Definition demo_restorers : list Z := <[10%nat := 4202496]> (replicate 32 0).

(** A thread that handles signal 10, which is pending with an ignored one. *)
Definition demo_thread : sigtask :=
  {| user_task := true; group := 32768; sig_pending := Z.lor (sig_bit 10) (sig_bit SIGCHLD); sig_blocked := 0;
     sig_handlers := demo_handlers; sig_masks := replicate 32 0; sig_flags := replicate 32 0; sig_restorers := demo_restorers;
     sig_active_frame := 0; sig_altstack_sp := 0; sig_altstack_size := 0; sig_altstack_flags := 0; exit_signal := 0; exit_code := 0 |}.

Definition demo_sig : sig_state flat_memory :=
  {| ssched := Smp.ss demo1;
     sigs := <[4096 := demo_thread]> (<[16384 := demo_thread]> ∅);
     groups := <[32768 := [4096; 16384]]> ∅;
     umem := {| fm_words := ∅; fm_mapped := {[15]} |} |}.

Definition demo_ctx : cpu_context :=
  {| r15 := 0; r14 := 0; r13 := 0; r12 := 12; r11 := 0; r10 := 0; r9 := 0; r8 := 8; rbp := 65000; rdi := 1; rsi := 2; rdx := 3;
     rcx := 4; rbx := 5; rax := 6; vector := 32; error := 0; rip := 4194304; cs := USER_CS; rflags := 0x202; rsp := 65024; ss := USER_SS |}.

(** The handler of signal 10 is running. *)
Definition demo_in_handler : Z * cpu_context * sig_state flat_memory := signal_setup_user_handler demo_sig 4096 demo_ctx 10 SI_USER 0 false.

Lemma demo_thread_ok : sigtask_ok demo_thread.
Proof.
  unfold sigtask_ok, is_word. simpl. split_and!; try lia. unfold demo_restorers. apply Forall_insert; [|lia]. apply Forall_replicate. lia.
Qed.

Lemma demo_ctx_ok : ctx_ok demo_ctx.
Proof. unfold ctx_ok, ctx_words, is_word. simpl. repeat (apply Forall_cons_2; [split; vm_compute; done|]). apply Forall_nil_2. Qed.

Lemma demo_sig_rqi : rqi (ssched demo_sig).
Proof. apply (reachable_ok 4096 8192 [12288] 0 0 demo1 demo_nodup (rtc_once _ _ demo_run1)). Qed.

Lemma signal_frame_roundtrip_witness : exists s3, signal_handle_sigreturn demo_in_handler.2 4096 demo_in_handler.1.2 = (0, sanitize demo_ctx, s3) /\
  sig_blocked (sig_at s3 4096) = 0.
Proof.
  destruct (signal_frame_roundtrip demo_sig 4096 demo_thread demo_ctx 10 SI_USER 0 false demo_in_handler.1.2 demo_in_handler.2
    ltac:(done) ltac:(done) demo_thread_ok demo_ctx_ok is_word_0 ltac:(done) ltac:(vm_compute; reflexivity)) as (_ & _ & H).
  destruct (H demo_in_handler.2 (sig_at demo_in_handler.2 4096) demo_in_handler.1.2 ltac:(vm_compute; reflexivity) ltac:(done) ltac:(done)) as (s3 & E & _ & B).
  exists s3. split; [exact E|exact B].
Defined.

Lemma signal_send_effect_witness : exists s', signal_send demo_sig 0 4096 SIGCONT = (0, s') /\ has_pending s' SIGCONT 4096.
Proof.
  destruct (signal_send_effect demo_sig 0 4096 demo_thread SIGCONT demo_sig_rqi
    ltac:(exists (task_at (Smp.ss demo1) 4096); vm_compute; done) ltac:(done) ltac:(done)) as (s' & E & _ & Hp & _).
  exists s'. split; [exact E|exact Hp].
Defined.

Lemma signal_group_reaches_witness : has_pending (signal_send_group demo_sig 0 4096 SIGKILL).2 SIGKILL 16384.
Proof.
  pose proof (signal_group_reaches demo_sig 0 4096 SIGKILL demo_sig_rqi ltac:(done) ltac:(done) ltac:(vm_compute; done)
    ltac:(apply (bool_decide_unpack _); vm_compute; done)
    ltac:(intros x Hx; apply elem_of_cons in Hx as [->|Hx]; [|apply elem_of_cons in Hx as [->|Hx]; [|by apply not_elem_of_nil in Hx]]; split; vm_compute; by eexists)) as H.
  destruct (signal_send_group demo_sig 0 4096 SIGKILL) as [rc s']. destruct H as (_ & _ & H). apply H.
  - vm_compute. right. left.
  - exists (task_at (Smp.ss demo1) 16384). vm_compute. done.
Defined.

Lemma deliver_pending_first_witness : exists ctx s', signal_deliver_pending demo_sig 0 4096 demo_ctx false = (Some ctx, s') /\ rip ctx = 4198400.
Proof.
  destruct (deliver_pending_first demo_sig 0 4096 demo_thread demo_ctx false ltac:(done) ltac:(done) ltac:(done) ltac:(done)) as [_ H].
  assert (Hlow : forall j, 1 <= j < 10 -> flag (set_minus (sig_pending demo_thread) (sig_blocked demo_thread)) (sig_bit j) = true -> ignored demo_sig 4096 j = true).
  { intros j Hj. rewrite flag_sig_bit, set_minus_bits by lia. simpl sig_pending. rewrite Z.lor_spec, !sig_bit_bits by (unfold SIGCHLD; lia). unfold SIGCHLD.
    rewrite (proj2 (Z.eqb_neq _ (10 - 1))), (proj2 (Z.eqb_neq _ (17 - 1))) by lia. done. }
  specialize (H 10 ltac:(done) ltac:(done) ltac:(done) Hlow). rewrite H. eexists _, _. split; [vm_compute; reflexivity|reflexivity].
Defined.

(** ** What is not promised *)

(** The user changes one word of the frame, and has [SIGKILL] and [SIGSTOP] blocked after the
    return: the mask of a plain frame is not checked. *)
Definition forged : sig_state flat_memory :=
  set_umem demo_in_handler.2 (default (umem demo_in_handler.2)
    (copy_to_user (umem demo_in_handler.2) 0 (sig_active_frame (sig_at demo_in_handler.2 4096) + 8 * 22) [UINT64_MAX])).

Lemma sigreturn_can_block_kill :
  let '(rc, ctx, s) := signal_handle_sigreturn forged 4096 demo_ctx in
  rc = 0 /\ flag (sig_blocked (sig_at s 4096)) (sig_bit SIGKILL) = true /\
  exists s', signal_deliver_pending (signal_send s 0 4096 SIGKILL).2 0 4096 ctx false = (Some ctx, s').
Proof. vm_compute. split; [reflexivity|]. split; [reflexivity|]. eexists. reflexivity. Qed.

(** While a handler is active nothing is delivered, a kill included. *)
Lemma kill_waits_for_handler {U : Type} `{UserMemory U} (s : sig_state U) c t ctx oom :
  sig_active_frame (sig_at s t) <> 0 -> signal_deliver_pending s c t ctx oom = (Some ctx, s).
Proof.
  intros Ha. unfold signal_deliver_pending. case_if; [done|]. by rewrite (proj2 (Z.eqb_neq _ 0) Ha).
Qed.
