(* ===== verification/Procs.v ===== *)
(** * The process table, [kernel/src/sched/sched_task.c] and [sched_reaper.c]

    Process numbers, the hash table that finds a task by its number, the circular list of all
    tasks, the tree of parents and children, and the queue of the dead the reaper works
    through.  Tasks and groups are named by address; [fld s f t] is field [f] of the task (or
    group) at [t], so the links are the C pointers, with [NULL] as 0.  [sched_lock] makes each
    operation one step.  [pwait] is the scheduler with its wait queues.

    Left out: the memory, file and FPU state of a task the reaper gives back. *)

From S2P Require Import Prelude Dll Sched SchedProofs SchedWait.

Definition MAX_PIDS : Z := 32768.

Definition PID_HASH_SIZE : Z := 256.

Definition REAPER_PID : Z := 1.

(** The fields of [task_t] and, from [G_threads] on, of [task_group_t]. *)
Inductive field :=
  | F_id | F_tgid | F_ppid | F_next | F_prev | F_pid_next | F_parent | F_children | F_sibling_prev | F_sibling_next
  | F_group | F_group_next | F_dead_next | G_threads | G_leader | G_live.

#[export] Instance field_eq_dec : EqDecision field.
Proof. solve_decision. Defined.

(** The globals of the two files; [pid_bitmap] has a word per 64 process numbers. *)
Record procs := {
  fld : field -> Z -> Z;
  pid_bitmap : list Z;
  pid_cursor : Z;
  pid_hash : list Z;
  task_list_head : Z;
  task_count : Z;
  dead_task_head : Z;
  dead_task_tail : Z;
  reaper_task : Z;
  pwait : wait_state;
}.

(** ** Field updates *)

Definition set_fld (s : procs) (f : field) (t v : Z) : procs :=
  {| fld := fun g x => if decide (g = f /\ x = t) then v else fld s g x; pid_bitmap := pid_bitmap s; pid_cursor := pid_cursor s;
     pid_hash := pid_hash s; task_list_head := task_list_head s; task_count := task_count s; dead_task_head := dead_task_head s;
     dead_task_tail := dead_task_tail s; reaper_task := reaper_task s; pwait := pwait s |}.

Definition set_pids (s : procs) (b : list Z) (cur : Z) : procs :=
  {| fld := fld s; pid_bitmap := b; pid_cursor := cur; pid_hash := pid_hash s; task_list_head := task_list_head s;
     task_count := task_count s; dead_task_head := dead_task_head s; dead_task_tail := dead_task_tail s;
     reaper_task := reaper_task s; pwait := pwait s |}.

Definition set_hash (s : procs) (b v : Z) : procs :=
  {| fld := fld s; pid_bitmap := pid_bitmap s; pid_cursor := pid_cursor s; pid_hash := <[Z.to_nat b := v]> (pid_hash s);
     task_list_head := task_list_head s; task_count := task_count s; dead_task_head := dead_task_head s;
     dead_task_tail := dead_task_tail s; reaper_task := reaper_task s; pwait := pwait s |}.

Definition set_list_head (s : procs) (t : Z) : procs :=
  {| fld := fld s; pid_bitmap := pid_bitmap s; pid_cursor := pid_cursor s; pid_hash := pid_hash s; task_list_head := t;
     task_count := task_count s; dead_task_head := dead_task_head s; dead_task_tail := dead_task_tail s;
     reaper_task := reaper_task s; pwait := pwait s |}.

Definition set_count (s : procs) (n : Z) : procs :=
  {| fld := fld s; pid_bitmap := pid_bitmap s; pid_cursor := pid_cursor s; pid_hash := pid_hash s;
     task_list_head := task_list_head s; task_count := n; dead_task_head := dead_task_head s;
     dead_task_tail := dead_task_tail s; reaper_task := reaper_task s; pwait := pwait s |}.

Definition set_dead (s : procs) (h t : Z) : procs :=
  {| fld := fld s; pid_bitmap := pid_bitmap s; pid_cursor := pid_cursor s; pid_hash := pid_hash s;
     task_list_head := task_list_head s; task_count := task_count s; dead_task_head := h; dead_task_tail := t;
     reaper_task := reaper_task s; pwait := pwait s |}.

Definition set_pwait (s : procs) (w : wait_state) : procs :=
  {| fld := fld s; pid_bitmap := pid_bitmap s; pid_cursor := pid_cursor s; pid_hash := pid_hash s;
     task_list_head := task_list_head s; task_count := task_count s; dead_task_head := dead_task_head s;
     dead_task_tail := dead_task_tail s; reaper_task := reaper_task s; pwait := w |}.

Definition psched (s : procs) : sched := wsched (pwait s).

Definition set_psched (s : procs) (k : sched) : procs := set_pwait s (set_wsched (pwait s) k).

(** ** Process numbers *)

Definition bitmap_word (b : list Z) (i : Z) : Z := default 0 (b !! Z.to_nat i).

(** The loop of [pid_find_free], a word per turn. *)
Fixpoint pid_find_loop (fuel : nat) (b : list Z) (i : Z) : Z :=
  match fuel with
  | O => -1
  | S fuel =>
    if i <? MAX_PIDS
    then
      let free := Z.land (wrap64 (Z.lnot (bitmap_word b (i / 64)))) (wrap64 (UINT64_MAX ≪ (i mod 64))) in
      if negb (free =? 0) then Z.land i (Z.lnot 63) + ctz64 free
      else pid_find_loop fuel b (Z.land i (Z.lnot 63) + 64)
    else -1
  end.

(** One turn per word is enough, and one to stop. *)
Definition pid_find_free (b : list Z) (from : Z) : Z := pid_find_loop (S (Z.to_nat (MAX_PIDS / 64))) b from.

Definition alloc_pid (s : procs) : Z * procs :=
  let pid := pid_find_free (pid_bitmap s) (pid_cursor s) in
  let pid := if pid <? 0 then pid_find_free (pid_bitmap s) 1 else pid in
  if 0 <? pid
  then
    (pid, set_pids s (<[Z.to_nat (pid / 64) := Z.lor (bitmap_word (pid_bitmap s) (pid / 64)) (1 ≪ (pid mod 64))]> (pid_bitmap s))
            (if pid + 1 <? MAX_PIDS then pid + 1 else 1))
  else (pid, s).

Definition free_pid_locked (s : procs) (pid : Z) : procs :=
  if (pid =? 0) || (MAX_PIDS <=? pid) then s
  else set_pids s (<[Z.to_nat (pid / 64) := Z.land (bitmap_word (pid_bitmap s) (pid / 64)) (Z.lnot (1 ≪ (pid mod 64)))]> (pid_bitmap s))
         (pid_cursor s).

Definition free_pid (s : procs) (pid : Z) : procs := free_pid_locked s (wrap64 pid).

(** ** Finding a task *)

Definition bucket (s : procs) (b : Z) : Z := default 0 (pid_hash s !! Z.to_nat b).

Fixpoint lookup_loop (fuel : nat) (s : procs) (t pid : Z) : Z :=
  match fuel with
  | O => 0
  | S fuel => if t =? 0 then 0 else if fld s F_id t =? pid then t else lookup_loop fuel s (fld s F_pid_next t) pid
  end.

(** A chain is no longer than the table. *)
Definition chain_fuel (s : procs) : nat := S (Z.to_nat (task_count s)).

Definition sched_lookup_locked (s : procs) (pid : Z) : Z := lookup_loop (chain_fuel s) s (bucket s (pid mod PID_HASH_SIZE)) pid.

Definition sched_get_task (s : procs) (pid : Z) : Z := sched_lookup_locked s pid.

(** ** Parents and children *)

Definition child_link (s : procs) (parent child : Z) : procs :=
  let s := set_fld s F_parent child parent in
  let s := set_fld s F_sibling_prev child 0 in
  let s := set_fld s F_sibling_next child (if negb (parent =? 0) then fld s F_children parent else 0) in
  if parent =? 0 then s
  else
    let s := if negb (fld s F_children parent =? 0) then set_fld s F_sibling_prev (fld s F_children parent) child else s in
    set_fld s F_children parent child.

Definition child_unlink (s : procs) (child : Z) : procs :=
  let parent := fld s F_parent child in
  if parent =? 0 then s
  else
    let s :=
      if negb (fld s F_sibling_prev child =? 0)
      then set_fld s F_sibling_next (fld s F_sibling_prev child) (fld s F_sibling_next child)
      else set_fld s F_children parent (fld s F_sibling_next child) in
    let s :=
      if negb (fld s F_sibling_next child =? 0)
      then set_fld s F_sibling_prev (fld s F_sibling_next child) (fld s F_sibling_prev child) else s in
    let s := set_fld s F_parent child 0 in
    let s := set_fld s F_sibling_prev child 0 in
    set_fld s F_sibling_next child 0.

(** ** Entering and leaving the table *)

(** The circular list. *)
Definition list_append (s : procs) (t : Z) : procs :=
  if task_list_head s =? 0
  then set_fld (set_fld (set_list_head s t) F_next t t) F_prev t t
  else
    let tail := fld s F_prev (task_list_head s) in
    let s := set_fld s F_next tail t in
    let s := set_fld s F_prev t tail in
    let s := set_fld s F_next t (task_list_head s) in
    set_fld s F_prev (task_list_head s) t.

Definition list_remove (s : procs) (t : Z) : procs :=
  let s :=
    if fld s F_next t =? t then set_list_head s 0
    else
      let s := set_fld s F_next (fld s F_prev t) (fld s F_next t) in
      let s := set_fld s F_prev (fld s F_next t) (fld s F_prev t) in
      if task_list_head s =? t then set_list_head s (fld s F_next t) else s in
  set_fld (set_fld s F_prev t 0) F_next t 0.

(** The rest of a chain after [prev], when [t] is not its first. *)
Fixpoint chain_walk (fuel : nat) (s : procs) (f : field) (prev t : Z) : procs :=
  match fuel with
  | O => s
  | S fuel =>
    let cur := fld s f prev in
    if cur =? 0 then s else if cur =? t then set_fld s f prev (fld s f t) else chain_walk fuel s f cur t
  end.

(** Takes [t] out of the chain over [f] that starts with [h]; [set_h] writes its first cell. *)
Definition chain_unlink (s : procs) (f : field) (h : Z) (set_h : procs -> Z -> procs) (t : Z) : procs :=
  if h =? 0 then s else if h =? t then set_h s (fld s f t) else chain_walk (chain_fuel s) s f h t.

Definition sched_queue_task_locked (s : procs) (c : nat) (t : Z) : procs :=
  let s := list_append s t in
  let b := fld s F_id t mod PID_HASH_SIZE in
  let s := set_fld s F_pid_next t (bucket s b) in
  let s := set_hash s b t in
  let s :=
    if negb (fld s F_id t =? fld s F_ppid t) && (fld s F_id t =? fld s F_tgid t)
    then child_link s (sched_lookup_locked s (fld s F_ppid t)) t else s in
  let s := set_count s (task_count s +w 1) in
  if decide (state (task_at (psched s) t) = TASK_READY) then set_psched s (ready_enqueue (psched s) c t) else s.

(** Hands the children of [t] to the reaper. *)
Fixpoint orphan_loop (fuel : nat) (s : procs) (t reaper : Z) : procs :=
  match fuel with
  | O => s
  | S fuel =>
    let child := fld s F_children t in
    if child =? 0 then s
    else
      let s := child_unlink s child in
      let s := set_fld s F_ppid child REAPER_PID in
      orphan_loop fuel (child_link s (if negb (reaper =? t) then reaper else 0) child) t reaper
  end.

(** The thread list of the group. *)
Definition group_unlink (s : procs) (t : Z) : procs :=
  let g := fld s F_group t in
  if g =? 0 then s
  else
    let s := chain_unlink s F_group_next (fld s G_threads g) (fun s v => set_fld s G_threads g v) t in
    let s := if fld s G_leader g =? t then set_fld s G_leader g 0 else s in
    set_fld s F_group_next t 0.

Definition sched_unlink_task_locked (s : procs) (t : Z) : procs :=
  let s := list_remove s t in
  let b := fld s F_id t mod PID_HASH_SIZE in
  let s := chain_unlink s F_pid_next (bucket s b) (fun s v => set_hash s b v) t in
  let s := child_unlink s t in
  let s := group_unlink s t in
  let s := orphan_loop (chain_fuel s) s t (sched_lookup_locked s REAPER_PID) in
  let s := set_psched s (ready_dequeue (psched s) t) in
  let s := set_count s (task_count s -w 1) in
  if 1 <? fld s F_id t then free_pid_locked s (fld s F_id t) else s.

Definition task_group_alive (s : procs) (t : Z) : bool :=
  if t =? 0 then false
  else if negb (fld s F_group t =? 0) then 0 <? fld s G_live (fld s F_group t)
  else match state (task_at (psched s) t) with TASK_ZOMBIE | TASK_DEAD | TASK_FREE => false | _ => true end.

Fixpoint reparent_loop (fuel : nat) (s : procs) (p reaper : Z) : Z * procs :=
  match fuel with
  | O => (0, s)
  | S fuel =>
    let t := fld s F_children p in
    if t =? 0 then (0, s)
    else
      let s := child_unlink s t in
      let s := set_fld s F_ppid t REAPER_PID in
      let s := child_link s reaper t in
      if bool_decide (state (task_at (psched s) t) = TASK_ZOMBIE) && negb (task_group_alive s t)
      then (t, s) else reparent_loop fuel s p reaper
  end.

Definition sched_reparent_children (s : procs) (p : Z) : Z * procs :=
  if p =? 0 then (0, s)
  else
    let reaper := sched_lookup_locked s REAPER_PID in
    reparent_loop (chain_fuel s) s p (if reaper =? p then 0 else reaper).

(** ** The dead *)

(** [t] at the end of the queue. *)
Definition dead_push (s : procs) (t : Z) : procs :=
  if dead_task_head s =? 0 then set_dead s t t
  else set_dead (set_fld s F_dead_next (dead_task_tail s) t) (dead_task_head s) t.

Definition sched_mark_task_dead (s : procs) (c : nat) (t : Z) : procs :=
  if t =? 0 then s
  else if decide (state (task_at (psched s) t) = TASK_DEAD) then s
  else
    let s := set_psched s (upd_task (psched s) t (with_state TASK_DEAD)) in
    let s := set_fld s F_dead_next t 0 in
    let s := set_psched s (ready_dequeue (psched s) t) in
    let s := dead_push s t in
    set_psched s (sched_wake_task (psched s) c (reaper_task s)).

(** One turn of the inner loop of [scheduler_reap]: the task buried, 0 when the loop stops. *)
Definition reap_step (s : procs) : Z * procs :=
  if dead_task_head s =? 0 then (0, s)
  else
    let t := dead_task_head s in
    let h := fld s F_dead_next t in
    let s := set_dead s h (if h =? 0 then 0 else dead_task_tail s) in
    if on_cpu (task_at (psched s) t)
    then
      let s := set_fld s F_dead_next t 0 in
      (0, if negb (dead_task_tail s =? 0)
          then set_dead (set_fld s F_dead_next (dead_task_tail s) t) (dead_task_head s) t
          else set_dead s t t)
    else
      let s := set_pwait s (sched_wait_cleanup (pwait s) t) in
      (t, sched_unlink_task_locked s t).

(** [scheduler_reap] between two sleeps: up to [n] burials. *)
Fixpoint reap_loop (n : nat) (s : procs) : list Z * procs :=
  match n with
  | O => ([], s)
  | S n =>
    let '(t, s) := reap_step s in
    if t =? 0 then ([], s) else let '(ts, s) := reap_loop n s in (t :: ts, s)
  end.

Definition REAP_BATCH : nat := 15.
