(* ===== verification/ProcsProofs.v ===== *)
(** * The process table finds everybody and loses nobody

    Proofs about [Procs] (that is [kernel/src/sched/sched_task.c] and [sched_reaper.c]): no
    process number is given out twice, a lookup finds exactly the task with the number, and
    entering and leaving the table keep the list of tasks, the hash chains and the tree of
    parents and children consistent. *)

From S2P Require Import Prelude Dll Sched SchedProofs Smp SchedWait SchedWaitProofs Procs.

(** ** Process numbers *)

(** [pid] is taken. *)
Definition used (b : list Z) (pid : Z) : bool := Z.testbit (bitmap_word b (pid / 64)) (pid mod 64).

Definition pids_ok (b : list Z) : Prop := length b = 512%nat /\ Forall (fun w => 0 <= w < 2 ^ 64) b.

Lemma wrap64_testbit z n : 0 <= n -> Z.testbit (wrap64 z) n = Z.testbit z n && (n <? 64).
Proof.
  intros Hn. unfold wrap64. rewrite <- Z.land_ones, Z.land_spec by lia. f_equal. destruct (decide (n < 64)).
  - rewrite Z.ones_spec_low by lia. symmetry. apply Z.ltb_lt. lia.
  - rewrite Z.ones_spec_high by lia. symmetry. apply Z.ltb_ge. lia.
Qed.

Lemma ones_shift n k : 0 <= n < 64 -> 0 <= k -> Z.testbit (wrap64 (UINT64_MAX ≪ k)) n = (k <=? n).
Proof.
  intros Hn Hk. rewrite wrap64_testbit, Z.shiftl_spec by lia. change UINT64_MAX with (Z.ones 64). rewrite (proj2 (Z.ltb_lt n 64)), andb_true_r by lia.
  destruct (decide (k <= n)); [rewrite Z.ones_spec_low, (proj2 (Z.leb_le k n)) by lia; done|].
  rewrite Z.testbit_neg_r, (proj2 (Z.leb_gt k n)) by lia. done.
Qed.

(** The bits of the word the search looks at: the free numbers from [i] on. *)
Lemma free_bits b i n : 0 <= i -> 0 <= n ->
  Z.testbit (Z.land (wrap64 (Z.lnot (bitmap_word b (i / 64)))) (wrap64 (UINT64_MAX ≪ (i mod 64)))) n =
  (n <? 64) && negb (Z.testbit (bitmap_word b (i / 64)) n) && (i mod 64 <=? n).
Proof.
  intros Hi Hn. rewrite Z.land_spec, wrap64_testbit, Z.lnot_spec by done. destruct (decide (n < 64)).
  - rewrite ones_shift by zlia. rewrite (proj2 (Z.ltb_lt n 64)), andb_true_r by done. done.
  - rewrite (proj2 (Z.ltb_ge n 64)), andb_false_r by lia. done.
Qed.

Lemma used_in_word b i n : 0 <= i -> 0 <= n < 64 -> used b (i - i mod 64 + n) = Z.testbit (bitmap_word b (i / 64)) n.
Proof. intros Hi Hn. unfold used. f_equal; [f_equal|]; zlia. Qed.

Lemma align64 i : 0 <= i -> Z.land i (Z.lnot 63) = i - i mod 64.
Proof.
  intros Hi. change 63 with (Z.ones 6). rewrite <- Z.ldiff_land, Z.ldiff_ones_r, Z.shiftl_mul_pow2, Z.shiftr_div_pow2 by lia. zlia.
Qed.

(** The first free number at or after [i], [-1] when there is none. *)
Definition first_free (b : list Z) (i r : Z) : Prop :=
  (r = -1 /\ forall j, i <= j < MAX_PIDS -> used b j = true) \/
  (i <= r < MAX_PIDS /\ used b r = false /\ forall j, i <= j < r -> used b j = true).

Lemma pid_find_loop_spec b fuel : forall i, 0 <= i -> MAX_PIDS < i - i mod 64 + 64 * Z.of_nat fuel -> first_free b i (pid_find_loop fuel b i).
Proof.
  unfold first_free, MAX_PIDS. induction fuel as [|fuel IH]; intros i Hi Hf; simpl; [left; split; [done|]; intros j Hj; zlia|].
  unfold MAX_PIDS. destruct (i <? 32768) eqn:Ei; bool_prop; [|left; split; [done|]; lia].
  set (free := Z.land _ _). rewrite align64 by done. destruct (Z.eqb_spec free 0) as [E|E]; cbn [negb].
  - assert (Hall : forall j, i <= j < i - i mod 64 + 64 -> used b j = true).
    { intros j Hj. pose proof (free_bits b i (j mod 64) Hi ltac:(zlia)) as Hb. fold free in Hb. rewrite E, Z.bits_0 in Hb.
      rewrite (proj2 (Z.ltb_lt _ 64)), (proj2 (Z.leb_le (i mod 64) _)), andb_true_r, andb_true_l in Hb by zlia. symmetry in Hb. apply negb_false_iff in Hb.
      rewrite <- (used_in_word b i (j mod 64) Hi) in Hb by zlia. replace (i - i mod 64 + j mod 64) with j in Hb by zlia. done. }
    destruct (IH (i - i mod 64 + 64)) as [[-> H]|(H1 & H2 & H3)]; [zlia|zlia| |].
    + left. split; [done|]. intros j Hj. destruct (decide (j < i - i mod 64 + 64)); [apply Hall; lia|apply H; lia].
    + right. split; [zlia|]. split; [done|]. intros j Hj. destruct (decide (j < i - i mod 64 + 64)); [apply Hall; lia|apply H3; lia].
  - destruct (ctz_from_spec 63 0 free) as (H1 & H2 & H3); [done| |].
    { exists (Z.log2 free). assert (H0 : 0 <= free) by (apply Z.land_nonneg; left; apply wrap64_range). pose proof (Z.log2_nonneg free).
      assert (Hb : Z.testbit free (Z.log2 free) = true) by (apply Z.bit_log2; lia). split; [|done]. unfold free in Hb at 1. rewrite free_bits in Hb by done. bool_prop. lia. }
    fold (ctz64 free) in *. set (r := ctz64 free) in *. assert (Hr : 0 <= r < 64) by lia. unfold free in H2. rewrite free_bits in H2 by lia. bool_prop.
    right. split_and!; [zlia|zlia|by rewrite used_in_word|]. intros j Hj. specialize (H3 (j mod 64) ltac:(zlia)).
    unfold free in H3. rewrite free_bits in H3 by zlia. rewrite (proj2 (Z.ltb_lt _ 64)), (proj2 (Z.leb_le (i mod 64) _)), andb_true_r, andb_true_l in H3 by zlia.
    apply negb_false_iff in H3. rewrite <- (used_in_word b i) in H3 by zlia. by replace (i - i mod 64 + j mod 64) with j in H3 by zlia.
Qed.

Lemma pid_find_free_spec b i : 0 <= i -> first_free b i (pid_find_free b i).
Proof.
  intros Hi. apply pid_find_loop_spec; [done|]. replace (Z.of_nat (S (Z.to_nat (MAX_PIDS / 64)))) with 513 by reflexivity. unfold MAX_PIDS. zlia.
Qed.

(** Setting and clearing one bit. *)
Lemma bitmap_word_insert b i w j : pids_ok b -> 0 <= i < 512 -> 0 <= j -> bitmap_word (<[Z.to_nat i := w]> b) j = if decide (j = i) then w else bitmap_word b j.
Proof.
  intros [Hl _] Hi Hj. unfold bitmap_word. destruct (decide (j = i)) as [->|Hne]; [by rewrite list_lookup_insert_eq by lia|]. by rewrite list_lookup_insert_ne by lia.
Qed.

Lemma word_in_range b i : pids_ok b -> 0 <= bitmap_word b i < 2 ^ 64.
Proof.
  intros [_ Hw]. unfold bitmap_word. destruct (b !! Z.to_nat i) as [w|] eqn:E; [|simpl; lia]. by eapply Forall_lookup_1 in Hw.
Qed.

Lemma pids_ok_insert b i w : pids_ok b -> 0 <= w < 2 ^ 64 -> pids_ok (<[i := w]> b).
Proof. intros [Hl Hw] Hr. split; [by rewrite length_insert|]. by apply Forall_insert. Qed.

Lemma used_set b pid j v (w := bitmap_word b (pid / 64)) (w' := if v : bool then Z.lor w (1 ≪ (pid mod 64)) else Z.land w (Z.lnot (1 ≪ (pid mod 64)))) :
  pids_ok b -> 0 <= pid < MAX_PIDS -> 0 <= j ->
  pids_ok (<[Z.to_nat (pid / 64) := w']> b) /\ used (<[Z.to_nat (pid / 64) := w']> b) j = if decide (j = pid) then v else used b j.
Proof.
  intros Hb Hp Hj. unfold MAX_PIDS in Hp. pose proof (word_in_range b (pid / 64) Hb) as Hw. fold w in Hw.
  assert (Hbit : forall n, 0 <= n < 64 -> Z.testbit w' n = if decide (n = pid mod 64) then v else Z.testbit w n).
  { intros n Hn. unfold w'. rewrite Z.shiftl_1_l. assert (0 <= pid mod 64) by zlia. destruct v; [rewrite Z.lor_spec|rewrite Z.land_spec, Z.lnot_spec by lia];
      rewrite Z.pow2_bits_eqb by done; destruct (Z.eqb_spec (pid mod 64) n) as [E|E]; [rewrite decide_True by done; apply orb_true_r|rewrite decide_False by done; apply orb_false_r|
        rewrite decide_True by done; apply andb_false_r|rewrite decide_False by done; apply andb_true_r]. }
  assert (Hr : 0 <= w' < 2 ^ 64).
  { replace w' with (w' mod 2 ^ 64); [apply Z.mod_pos_bound; lia|]. apply Z.bits_inj'. intros n Hn. rewrite <- Z.land_ones, Z.land_spec by lia.
    destruct (decide (n < 64)); [by rewrite Z.ones_spec_low, andb_true_r by lia|]. rewrite Z.ones_spec_high, andb_false_r by lia. symmetry.
    assert (Hh : Z.testbit w n = false).
    { rewrite <- (Z.mod_small w (2 ^ 64)) by lia. rewrite <- Z.land_ones, Z.land_spec, Z.ones_spec_high, andb_false_r by lia. done. }
    unfold w'. destruct v; [rewrite Z.lor_spec, Hh|rewrite Z.land_spec, Hh; done]. rewrite Z.shiftl_1_l, Z.pow2_bits_false; [done|]. zlia. }
  split; [by apply pids_ok_insert|]. unfold used at 1. rewrite bitmap_word_insert by (done || zlia). destruct (decide (j / 64 = pid / 64)) as [E|E].
  - rewrite Hbit by zlia. destruct (decide (j mod 64 = pid mod 64)) as [E2|E2]; [rewrite decide_True by zlia; done|].
    rewrite decide_False by (intros ->; done). unfold used, w. by rewrite E.
  - rewrite decide_False by (intros ->; done). done.
Qed.

(** C29. Process numbers: the number handed out is between 1 and [MAX_PIDS], was free and is
    taken now, and nothing else changes; none is handed out only when all are taken.  Giving
    a number back frees exactly that one. *)
Theorem alloc_pid_unique s : pids_ok (pid_bitmap s) -> 1 <= pid_cursor s < MAX_PIDS ->
  (let '(pid, s') := alloc_pid s in
   (pid = -1 /\ s' = s /\ forall j, 1 <= j < MAX_PIDS -> used (pid_bitmap s) j = true) \/
   (1 <= pid < MAX_PIDS /\ used (pid_bitmap s) pid = false /\ pids_ok (pid_bitmap s') /\ 1 <= pid_cursor s' < MAX_PIDS /\
    forall j, 0 <= j -> used (pid_bitmap s') j = if decide (j = pid) then true else used (pid_bitmap s) j)) /\
  (forall pid, 1 <= pid < MAX_PIDS -> let s' := free_pid_locked s pid in
    pids_ok (pid_bitmap s') /\ forall j, 0 <= j -> used (pid_bitmap s') j = if decide (j = pid) then false else used (pid_bitmap s) j).
Proof.
  intros Hb Hc. split.
  - unfold alloc_pid. pose proof (pid_find_free_spec (pid_bitmap s) (pid_cursor s) ltac:(lia)) as H1. pose proof (pid_find_free_spec (pid_bitmap s) 1 ltac:(lia)) as H2.
    set (p1 := pid_find_free _ _) in H1 |- *. set (p2 := pid_find_free _ 1) in H2 |- *. set (pid := if p1 <? 0 then p2 else p1).
    assert (Hpid : (pid = -1 /\ forall j, 1 <= j < MAX_PIDS -> used (pid_bitmap s) j = true) \/ (1 <= pid < MAX_PIDS /\ used (pid_bitmap s) pid = false)).
    { unfold pid. destruct (p1 <? 0) eqn:E; bool_prop.
      - destruct H2 as [[-> H]|(? & ? & _)]; [by left|right; by split].
      - destruct H1 as [[-> H]|(? & ? & _)]; [lia|right; split; [lia|done]]. }
    destruct Hpid as [[-> Hall]|[Hr Hu]]; [left; done|]. rewrite (proj2 (Z.ltb_lt 0 pid)) by lia. right. split; [done|]. split; [done|].
    destruct (used_set (pid_bitmap s) pid 0 true Hb ltac:(lia) ltac:(lia)) as [Hok _]. split; [exact Hok|]. split; [simpl; case_if; unfold MAX_PIDS in *; lia|].
    intros j Hj. exact (proj2 (used_set (pid_bitmap s) pid j true Hb ltac:(lia) Hj)).
  - intros pid Hp. unfold free_pid_locked. rewrite (proj2 (Z.eqb_neq pid 0)), (proj2 (Z.leb_gt MAX_PIDS pid)) by lia. cbn [orb].
    destruct (used_set (pid_bitmap s) pid 0 false Hb ltac:(lia) ltac:(lia)) as [Hok _]. split; [exact Hok|]. intros j Hj. exact (proj2 (used_set (pid_bitmap s) pid j false Hb ltac:(lia) Hj)).
Qed.

(** ** Rings and chains *)

(** A list without one of its members. *)
Lemma elem_removed (l1 : list Z) t l2 x : NoDup (l1 ++ t :: l2) -> x ∈ l1 ++ l2 <-> x ∈ l1 ++ t :: l2 /\ x <> t.
Proof.
  intros Hnd. rewrite !elem_of_app, elem_of_cons. apply list.NoDup_app in Hnd as (_ & Hd & Hnd2). apply list.NoDup_cons in Hnd2 as [Ht2 _].
  split; [|tauto]. intros [Hx|Hx]; (split; [tauto|]); intros ->; [apply (Hd t Hx); by left|done].
Qed.

Lemma nodup_removed (l1 : list Z) t l2 : NoDup (l1 ++ t :: l2) -> NoDup (l1 ++ l2).
Proof. rewrite !list.NoDup_app, list.NoDup_cons. intros (? & Hd & ? & ?). split_and!; try done. intros x Hx Hx2. apply (Hd x Hx). by right. Qed.

(** Neighbours of [l] point at each other. *)
Fixpoint seg (nx pv : Z -> Z) (l : list Z) : Prop :=
  match l with
  | a :: ((b :: _) as rest) => nx a = b /\ pv b = a /\ seg nx pv rest
  | _ => True
  end.

Section Seg.
Context (nx pv : Z -> Z).

Lemma seg_cons2 a b l : seg nx pv (a :: b :: l) <-> nx a = b /\ pv b = a /\ seg nx pv (b :: l).
Proof. done. Qed.

Lemma seg_app l1 a l2 : seg nx pv (l1 ++ a :: l2) <-> seg nx pv (l1 ++ [a]) /\ seg nx pv (a :: l2).
Proof.
  induction l1 as [|x l1 IH]; [simpl; tauto|]. destruct l1 as [|y l1]; [simpl; destruct l2; simpl; tauto|].
  cbn [app] in IH |- *. rewrite !seg_cons2, IH. tauto.
Qed.

Lemma seg_frame nx' pv' l : (forall l1 a b l2, l = l1 ++ a :: b :: l2 -> nx' a = nx a /\ pv' b = pv b) -> seg nx pv l -> seg nx' pv' l.
Proof.
  induction l as [|a l IH]; intros Hf; [done|]. destruct l as [|b l]; [done|]. intros (E1 & E2 & Hs).
  destruct (Hf [] a b l eq_refl) as [F1 F2]. split; [congruence|]. split; [congruence|]. apply IH; [|done]. intros l1 x y l2 E. apply (Hf (a :: l1) x y l2). simpl. by rewrite E.
Qed.

(** The members of a segment without repetition, split at a pair. *)
Lemma pair_nodup l l1 (a b : Z) l2 : NoDup l -> l = l1 ++ a :: b :: l2 -> a <> b /\ Some b <> head l /\ list.last l <> Some a /\ (a ∈ l) /\ b ∈ l.
Proof.
  intros Hnd ->. apply list.NoDup_app in Hnd as (_ & Hd & Hnd2). apply list.NoDup_cons in Hnd2 as [Ha Hnd3]. split_and!.
  - intros ->. apply Ha. by left.
  - destruct l1 as [|x l1]; simpl; [intros [= ->]; apply Ha; by left|]. intros [= ->]. apply (Hd x); [by left|right; by left].
  - rewrite last_app, last_cons_cons. destruct (list.last (b :: l2)) as [z|] eqn:E; [|by apply last_None in E]. intros [= ->]. apply last_Some_elem_of in E. done.
  - apply elem_mid.
  - apply elem_of_app. right. right. by left.
Qed.

End Seg.

(** The circular list [R] with head pointer [h]. *)
Definition ring (nx pv : Z -> Z) (R : list Z) (h : Z) : Prop :=
  h = default 0 (head R) /\ match head R with None => True | Some x => seg nx pv (R ++ [x]) end.

Lemma ring_append nx pv nx' pv' R h t : ring nx pv R h -> R <> [] -> NoDup (R ++ [t]) ->
  (forall x, nx' x = if decide (x = t) then h else if decide (x = pv h) then t else nx x) ->
  (forall x, pv' x = if decide (x = h) then t else if decide (x = t) then pv h else pv x) ->
  ring nx' pv' (R ++ [t]) h.
Proof.
  intros [Eh Hs] Hne Hnd Hnx Hpv. destruct R as [|x l]; [done|]. simpl in Eh. subst x. cbn [head] in Hs.
  destruct (exists_last Hne) as (l' & z & El). rewrite El in Hs, Hnd |- *. rewrite <- app_assoc in Hs. apply seg_app in Hs as [Hs1 (E1 & E2 & _)].
  split; [destruct l'; simpl in El |- *; congruence|].
  assert (Eh : head ((l' ++ [z]) ++ [t]) = Some h) by (destruct l'; simpl in El |- *; congruence). rewrite Eh.
  apply list.NoDup_app in Hnd as (Hnd & Ht & _). assert (Htz : z <> t) by (intros ->; apply (Ht t); [apply elem_of_app; right; by left|by left]).
  assert (Hth : h <> t) by (intros ->; apply (Ht t); [rewrite <- El; by left|by left]).
  rewrite <- !app_assoc. simpl. apply seg_app. split.
  - eapply seg_frame; [|exact Hs1]. intros l1 a b l2 E. destruct (pair_nodup _ _ _ _ _ Hnd E) as (Hab & Hbh & Haz & Hain & Hbin).
    rewrite Hnx, Hpv, E2. rewrite last_snoc in Haz. assert (Ehl : head (l' ++ [z]) = Some h) by (destruct l'; simpl in El |- *; congruence). rewrite Ehl in Hbh.
    assert (Hat : a <> t) by (intros ->; apply (Ht _ Hain); by left). assert (Hbt : b <> t) by (intros ->; apply (Ht _ Hbin); by left).
    rewrite !decide_False; try done; congruence.
  - cbn [seg]. split_and!; try done; rewrite ?Hnx, ?Hpv, ?E2; repeat case_decide; congruence.
Qed.

Lemma ring_remove nx pv nx' pv' l1 t l2 h h' : ring nx pv (l1 ++ t :: l2) h -> NoDup (l1 ++ t :: l2) -> l1 ++ l2 <> [] ->
  (forall x, nx' x = if decide (x = t) then 0 else if decide (x = pv t) then nx t else nx x) ->
  (forall x, pv' x = if decide (x = t) then 0 else if decide (x = nx t) then pv t else pv x) ->
  h' = (if decide (h = t) then nx t else h) ->
  ring nx' pv' (l1 ++ l2) h' /\ nx t <> t.
Proof.
  intros [Eh Hs] Hnd Hne Hnx Hpv Eh'. pose proof Hnd as Hnd0. apply list.NoDup_app in Hnd as (Hnd1 & Hd & Hnd2). apply list.NoDup_cons in Hnd2 as [Ht2 Hnd2].
  assert (Ht1 : t ∉ l1) by (intros Ht1; apply (Hd t Ht1); by left).
  destruct l1 as [|x l1].
  - (* the head goes *)
    cbn [app head] in *. simpl in Eh. subst h. rewrite decide_True in Eh' by done. destruct l2 as [|n l2']; [done|]. set (l2 := n :: l2') in *.
    destruct (exists_last (l := l2) ltac:(done)) as (l'' & z & El). unfold l2 in Hs. cbn [app head] in Hs. rewrite seg_cons2 in Hs. destruct Hs as (E1 & E2 & Hs).
    change (n :: l2' ++ [t]) with (l2 ++ [t]) in Hs. rewrite El, <- app_assoc in Hs. apply seg_app in Hs as [Hs1 (E3 & E4 & _)].
    rewrite E1, E4 in *. split; [|intros ->; apply Ht2; by left]. split; [done|]. change (head l2) with (Some n). cbv iota. rewrite El, <- app_assoc. apply seg_app. split.
    + eapply seg_frame; [|exact Hs1]. intros k1 a b k2 E. rewrite <- El in E. destruct (pair_nodup _ _ _ _ _ Hnd2 E) as (Hab & Hbh & Haz & Hain & Hbin).
      rewrite El, last_snoc in Haz. change (head l2) with (Some n) in Hbh. rewrite Hnx, Hpv.
      assert (a <> t) by (by intros ->). assert (b <> t) by (by intros ->). rewrite !decide_False; try done; congruence.
    + assert (z <> t) by (intros ->; apply Ht2; rewrite El; apply elem_of_app; right; by left). assert (n <> t) by (intros ->; apply Ht2; by left).
      cbn [seg]. split_and!; try done; rewrite ?Hnx, ?Hpv; repeat case_decide; congruence.
  - cbn [app head] in *. simpl in Eh. subst x. assert (Hht : h <> t) by (intros ->; apply Ht1; by left). rewrite decide_False in Eh' by done. subst h'.
    destruct (exists_last (l := h :: l1) ltac:(done)) as (l'' & p & El). change (h :: l1 ++ t :: l2) with ((h :: l1) ++ t :: l2) in *. change (h :: l1 ++ l2) with ((h :: l1) ++ l2).
    change (h :: (l1 ++ t :: l2) ++ [h]) with (((h :: l1) ++ t :: l2) ++ [h]) in Hs. set (L := h :: l1) in *. assert (HL : head L = Some h) by done. clearbody L.
    rewrite El in Hs. rewrite <- !app_assoc in Hs. cbn [app] in Hs. apply seg_app in Hs as [Hs1 Hs]. rewrite seg_cons2 in Hs. destruct Hs as (E1 & E2 & Hs).
    assert (Hn : exists n, head (l2 ++ [h]) = Some n /\ nx t = n /\ pv n = t /\ seg nx pv (l2 ++ [h])).
    { destruct l2 as [|n l2]; simpl in Hs |- *; [exists h; tauto|exists n; destruct Hs as (? & ? & ?); done]. }
    destruct Hn as (n & Hn & E3 & E4 & Hs2). rewrite E2, E3 in *.
    assert (HpL : p ∈ L) by (rewrite El; apply elem_of_app; right; by left).
    assert (Hpt : p <> t) by (by intros ->).
    assert (Hn2 : n = h \/ (n ∈ l2 /\ head l2 = Some n)) by (destruct l2; simpl in Hn; [left; congruence|right; injection Hn as ->; split; [by left|done]]).
    assert (HhL : h ∈ L) by (destruct L; simpl in HL; [done|injection HL as ->; by left]).
    assert (Hnt : n <> t) by (destruct Hn2 as [->|[? _]]; [done|by intros ->]).
    assert (HLl : head (L ++ l2) = Some h) by (destruct L; simpl in HL |- *; [done|congruence]).
    split; [|done]. unfold ring. rewrite HLl. split; [done|]. rewrite El, <- !app_assoc. cbn [app]. apply seg_app. split.
    + eapply seg_frame; [|exact Hs1]. intros k1 a b k2 E. rewrite <- El in E. destruct (pair_nodup _ _ _ _ _ Hnd1 E) as (Hab & Hbh & Haz & Hain & Hbin).
      rewrite El, last_snoc in Haz. rewrite HL in Hbh. rewrite Hnx, Hpv. assert (a <> t) by (by intros ->). assert (b <> t) by (by intros ->).
      assert (b <> n) by (destruct Hn2 as [->|[? _]]; [congruence|intros ->; apply (Hd n Hbin); by right]). rewrite !decide_False; try done; congruence.
    + assert (Hseg : seg nx' pv' (l2 ++ [h])).
      { eapply seg_frame; [|exact Hs2]. intros k1 a b k2 E.
        assert (Ha : a ∈ l2 /\ (b = h \/ (b ∈ l2 /\ head l2 <> Some b))).
        { destruct k2 as [|y k2 _] using rev_ind.
          - change (k1 ++ [a; b]) with (k1 ++ [a] ++ [b]) in E. rewrite app_assoc in E. apply app_inj_tail in E as [-> <-]. split; [apply elem_mid|by left].
          - change (k1 ++ a :: b :: k2 ++ [y]) with (k1 ++ (a :: b :: k2) ++ [y]) in E. rewrite app_assoc in E. apply app_inj_tail in E as [-> <-].
            destruct (pair_nodup _ _ _ _ _ Hnd2 eq_refl) as (_ & Hbh & _ & ? & ?). split; [done|right]. split; [done|congruence]. }
        destruct Ha as [Ha Hb]. assert (a <> t) by (by intros ->). assert (a <> p) by (intros ->; apply (Hd p HpL); by right). rewrite Hnx, Hpv.
        assert (b <> t /\ b <> n).
        { destruct Hb as [->|[Hb Hbh]].
          - split; [done|]. destruct Hn2 as [->|[Hn2 _]]; [|intros <-; apply (Hd h HhL); by right].
            intros _. destruct l2 as [|y l2]; [by apply not_elem_of_nil in Ha|]. simpl in Hn. injection Hn as ->. apply (Hd h HhL). right. by left.
          - split; [by intros ->|]. destruct Hn2 as [->|[_ Hn2]]; [intros ->; apply (Hd h HhL); by right|congruence]. }
        destruct H1. rewrite !decide_False; done. }
      destruct (l2 ++ [h]) as [|y k] eqn:E; [by destruct l2|]. simpl in Hn. injection Hn as ->. rewrite seg_cons2. split_and!; [| |done]; rewrite ?Hnx, ?Hpv; repeat case_decide; congruence.
Qed.

(** A singly linked list. *)
Fixpoint schain (nx : Z -> Z) (l : list Z) (h : Z) : Prop :=
  match l with
  | [] => h = 0
  | x :: l => h = x /\ x <> 0 /\ schain nx l (nx x)
  end.

Lemma schain_frame nx nx' l h : (forall x, x ∈ l -> nx' x = nx x) -> schain nx l h -> schain nx' l h.
Proof.
  revert h. induction l as [|x l IH]; intros h Hf; [done|]. intros (-> & Hx & Hl). split; [done|]. split; [done|]. rewrite Hf by (by left).
  apply IH; [|done]. intros y Hy. apply Hf. by right.
Qed.

Lemma schain_app nx l1 t l2 h : schain nx (l1 ++ t :: l2) h -> schain nx l2 (nx t).
Proof. revert h. induction l1 as [|x l1 IH]; intros h; simpl; [tauto|]. intros (_ & _ & Hl). by eapply IH. Qed.

(** The cell before [t] is pointed past it. *)
Lemma schain_remove nx nx' l1 q t l2 h : schain nx (l1 ++ q :: t :: l2) h -> NoDup (l1 ++ q :: t :: l2) ->
  (forall x, nx' x = if decide (x = q) then nx t else nx x) -> schain nx' (l1 ++ q :: l2) h.
Proof.
  intros Hc Hnd Hnx. revert h Hc. induction l1 as [|x l1 IH]; intros h; cbn [app schain].
  - intros (-> & Hq & E1 & Ht & Hl). split; [done|]. split; [done|]. rewrite Hnx, decide_True by done. eapply schain_frame; [|exact Hl].
    intros y Hy. rewrite Hnx, decide_False; [done|]. intros ->. apply list.NoDup_cons in Hnd as [Hnd _]. apply Hnd. by right.
  - intros (-> & Hx & Hl). apply list.NoDup_cons in Hnd as [Hxn Hnd]. split; [done|]. split; [done|]. rewrite Hnx, decide_False; [by apply IH|].
    intros ->. apply Hxn. apply elem_mid.
Qed.

Lemma schain_nonnull nx l h : schain nx l h -> 0 ∉ l.
Proof. revert h. induction l as [|x l IH]; intros h; simpl; [intros _; apply not_elem_of_nil|]. intros (_ & Hx & Hl). apply IH in Hl. set_solver. Qed.

(** ** Fields *)

Lemma fld_same s f t v x : fld (set_fld s f t v) f x = if decide (x = t) then v else fld s f x.
Proof. simpl. destruct (decide (x = t)) as [->|Hne]; [by rewrite decide_True|]. rewrite decide_False; [done|]. by intros [_ ?]. Qed.

Lemma fld_other s f g t v x : g <> f -> fld (set_fld s f t v) g x = fld s g x.
Proof. intros Hne. simpl. rewrite decide_False; [done|]. by intros [? _]. Qed.

(** Reads past the writes of other fields. *)
Ltac fsimp := repeat first [rewrite fld_same | rewrite fld_other by discriminate].

Lemma chain_walk_spec f t fuel : forall s l1 prev l2, schain (fld s f) (prev :: l1 ++ t :: l2) prev -> NoDup (prev :: l1 ++ t :: l2) -> (length l1 < fuel)%nat ->
  chain_walk fuel s f prev t = set_fld s f (default prev (list.last l1)) (fld s f t).
Proof.
  induction fuel as [|fuel IH]; intros s l1 prev l2 Hc Hnd Hf; [lia|]. cbn [chain_walk]. destruct Hc as (_ & Hp & Hc). destruct l1 as [|y l1].
  - cbn [app schain] in Hc. destruct Hc as (-> & Ht & _). rewrite (proj2 (Z.eqb_neq t 0)), Z.eqb_refl by done. done.
  - cbn [app] in Hc. destruct Hc as (E & Hy & Hc). rewrite E. apply list.NoDup_cons in Hnd as [_ Hnd].
    rewrite (proj2 (Z.eqb_neq y 0)) by done. rewrite (proj2 (Z.eqb_neq y t)).
    + rewrite (IH s l1 y l2); [|by split_and!|done|simpl in Hf; lia]. f_equal. destruct l1; [done|]. rewrite last_cons_cons. by destruct (list.last (z :: l1)) eqn:E2; [|apply last_None in E2].
    + intros ->. apply list.NoDup_cons in Hnd as [Hnd _]. apply Hnd, elem_mid.
Qed.

Lemma chain_unlink_spec s f h set_h t l1 l2 : schain (fld s f) (l1 ++ t :: l2) h -> NoDup (l1 ++ t :: l2) -> (length (l1 ++ t :: l2) <= chain_fuel s)%nat ->
  chain_unlink s f h set_h t = match list.last l1 with None => set_h s (fld s f t) | Some q => set_fld s f q (fld s f t) end.
Proof.
  intros Hc Hnd Hf. unfold chain_unlink. destruct l1 as [|x l1]; cbn [app] in *.
  - destruct Hc as (-> & Ht & _). by rewrite (proj2 (Z.eqb_neq t 0)), Z.eqb_refl.
  - pose proof Hc as (-> & Hx & _). rewrite (proj2 (Z.eqb_neq x 0)) by done. rewrite (proj2 (Z.eqb_neq x t)).
    + rewrite (chain_walk_spec f t (chain_fuel s) s l1 x l2 Hc Hnd) by (simpl in Hf; rewrite length_app in Hf; simpl in Hf; lia).
      destruct (list.last (x :: l1)) as [q|] eqn:E; [|by apply last_None in E]. f_equal. destruct l1; [by injection E|]. rewrite last_cons_cons in E. by rewrite E.
    + intros ->. apply list.NoDup_cons in Hnd as [Hnd _]. apply Hnd, elem_mid.
Qed.

(** ** The table *)

Record table_ok (s : procs) (R : list Z) : Prop := {
  tb_null : 0 ∉ R;
  tb_nodup : NoDup R;
  tb_ring : ring (fld s F_next) (fld s F_prev) R (task_list_head s);
  tb_count : task_count s = Z.of_nat (length R);
  tb_hlen : length (pid_hash s) = 256%nat;
  tb_hash : forall b, 0 <= b < 256 -> exists l, schain (fld s F_pid_next) l (bucket s b) /\ NoDup l /\
    forall t, t ∈ l <-> t ∈ R /\ fld s F_id t mod 256 = b;
  tb_ids : forall t u, t ∈ R -> u ∈ R -> fld s F_id t = fld s F_id u -> t = u;
}.

(** Nothing the table is made of has changed. *)
Record table_same (s s' : procs) : Prop := {
  ts_fld : forall f x, f = F_next \/ f = F_prev \/ f = F_pid_next \/ f = F_id -> fld s' f x = fld s f x;
  ts_hash : pid_hash s' = pid_hash s;
  ts_head : task_list_head s' = task_list_head s;
  ts_count : task_count s' = task_count s;
}.

Lemma seg_ext nx pv nx' pv' l : (forall x, nx' x = nx x) -> (forall x, pv' x = pv x) -> seg nx pv l -> seg nx' pv' l.
Proof. intros H1 H2. apply seg_frame. auto. Qed.

Lemma ring_ext nx pv nx' pv' R h : (forall x, nx' x = nx x) -> (forall x, pv' x = pv x) -> ring nx pv R h -> ring nx' pv' R h.
Proof. intros H1 H2 [E Hs]. split; [done|]. destruct (head R); [|done]. by eapply seg_ext. Qed.

Lemma table_frame s s' R : table_same s s' -> table_ok s R -> table_ok s' R.
Proof.
  intros [F1 F2 F3 F4] [T1 T2 T3 T4 T5 T6 T7]. split; try done.
  - rewrite F3. eapply ring_ext; [| |exact T3]; intros x; apply F1; tauto.
  - congruence.
  - congruence.
  - intros b Hb. destruct (T6 b Hb) as (l & Hc & Hnd & Hm). exists l. unfold bucket. rewrite F2. split; [|split; [done|]].
    + eapply schain_frame; [|exact Hc]. intros x _. apply F1. tauto.
    + intros t. rewrite (F1 F_id) by tauto. apply Hm.
  - intros t u Ht Hu. rewrite !(F1 F_id) by tauto. by apply T7.
Qed.

Lemma bucket_set s b v d : length (pid_hash s) = 256%nat -> 0 <= b < 256 -> 0 <= d -> bucket (set_hash s b v) d = if decide (d = b) then v else bucket s d.
Proof.
  intros Hl Hb Hd. unfold bucket. simpl. destruct (decide (d = b)) as [->|Hne]; [by rewrite list_lookup_insert_eq by lia|]. by rewrite list_lookup_insert_ne by lia.
Qed.

Lemma chain_length s R l : table_ok s R -> NoDup l -> (forall t, t ∈ l -> t ∈ R) -> (length l <= length R)%nat.
Proof. intros T Hnd Hs. by apply NoDup_submseteq, submseteq_length in Hs. Qed.

Lemma lookup_loop_spec s pid l : forall fuel h, schain (fld s F_pid_next) l h -> (length l <= fuel)%nat ->
  let r := lookup_loop fuel s h pid in (r ∈ l /\ fld s F_id r = pid) \/ (r = 0 /\ forall t, t ∈ l -> fld s F_id t <> pid).
Proof.
  induction l as [|x l IH]; intros fuel h Hc Hf; cbn [schain] in Hc.
  - subst h. right. split; [by destruct fuel|]. intros t Ht. by apply not_elem_of_nil in Ht.
  - destruct Hc as (-> & Hx & Hc). destruct fuel as [|fuel]; [simpl in Hf; lia|]. cbn [lookup_loop]. rewrite (proj2 (Z.eqb_neq x 0)) by done.
    destruct (Z.eqb_spec (fld s F_id x) pid) as [E|E]; [left; split; [by left|done]|].
    destruct (IH fuel _ Hc ltac:(simpl in Hf; lia)) as [[H1 H2]|[H1 H2]]; [left; split; [by right|done]|right]. split; [done|].
    intros t [->|Ht]%elem_of_cons; [done|by apply H2].
Qed.

Lemma lookup_spec s R pid : table_ok s R -> let r := sched_lookup_locked s pid in
  (r ∈ R /\ fld s F_id r = pid) \/ (r = 0 /\ forall t, t ∈ R -> fld s F_id t <> pid).
Proof.
  intros T. cbv zeta. unfold sched_lookup_locked, PID_HASH_SIZE. destruct (tb_hash _ _ T (pid mod 256) ltac:(zlia)) as (l & Hc & Hnd & Hm).
  assert (Hlen : (length l <= chain_fuel s)%nat).
  { unfold chain_fuel. rewrite (tb_count _ _ T), Nat2Z.id. assert (length l <= length R)%nat; [|lia]. eapply chain_length; [done|done|]. intros t Ht. by apply Hm. }
  destruct (lookup_loop_spec s pid l (chain_fuel s) _ Hc Hlen) as [[H1 H2]|[H1 H2]]; [left; split; [by apply Hm|done]|right].
  split; [done|]. intros t Ht E. apply (H2 t); [|done]. apply Hm. split; [done|]. by rewrite E.
Qed.

(** ** The tree *)

(** [CH p] are the children of [p], over the tasks [T]. *)
Record tree_ok (s : procs) (T : list Z) (CH : Z -> list Z) : Prop := {
  tr_null : 0 ∉ T;
  tr_dll : forall p, p ∈ T -> is_dll (fld s F_sibling_prev) (fld s F_sibling_next) 0 (CH p) (fld s F_children p) /\ NoDup (CH p);
  tr_mem : forall p x, p ∈ T -> (x ∈ CH p <-> x ∈ T /\ fld s F_parent x = p);
  tr_parent : forall x, x ∈ T -> fld s F_parent x = 0 \/ fld s F_parent x ∈ T;
  tr_irrefl : forall x, x ∈ T -> fld s F_parent x <> x;
}.

(** Only the tree has changed. *)
Record tree_only (s s' : procs) : Prop := {
  to_fld : forall f x, f <> F_parent -> f <> F_children -> f <> F_sibling_prev -> f <> F_sibling_next -> f <> F_ppid -> fld s' f x = fld s f x;
  to_pids : pid_bitmap s' = pid_bitmap s /\ pid_cursor s' = pid_cursor s;
  to_hash : pid_hash s' = pid_hash s;
  to_head : task_list_head s' = task_list_head s;
  to_count : task_count s' = task_count s;
  to_dead : dead_task_head s' = dead_task_head s /\ dead_task_tail s' = dead_task_tail s /\ reaper_task s' = reaper_task s;
  to_wait : pwait s' = pwait s;
}.

Lemma tree_only_refl s : tree_only s s.
Proof. by split. Qed.

Lemma tree_only_trans s1 s2 s3 : tree_only s1 s2 -> tree_only s2 s3 -> tree_only s1 s3.
Proof.
  intros [A1 [A2 A2'] A3 A4 A5 (A6 & A7 & A8) A9] [B1 [B2 B2'] B3 B4 B5 (B6 & B7 & B8) B9]. split; try (split_and!; congruence); try congruence. intros. by rewrite B1, A1.
Qed.

Lemma tree_only_set s f t v : f = F_parent \/ f = F_children \/ f = F_sibling_prev \/ f = F_sibling_next \/ f = F_ppid -> tree_only s (set_fld s f t v).
Proof. intros Hf. split; try done. intros g x H1 H2 H3 H4 H5. rewrite fld_other; [done|]. intros ->. tauto. Qed.

Lemma tree_only_table s s' : tree_only s s' -> table_same s s'.
Proof. intros [A1 _ A3 A4 A5 _ _]. split; try done. intros f x Hf. apply A1; intros ->; destruct Hf as [?|[?|[?|?]]]; discriminate. Qed.

#[local] Hint Resolve tree_only_refl : core.

(** Compares field by field. *)
Ltac fcase := fsimp; repeat case_decide; try done; try tauto; try congruence; naive_solver.

Ltac tree_only_step := eapply tree_only_trans; [|apply tree_only_set; tauto].

Definition upd_ch (CH : Z -> list Z) (p : Z) (l : list Z) (q : Z) : list Z := if decide (q = p) then l else CH q.

(** The fields of the tree after a link, all at once. *)
Lemma child_link_fields s p x : x <> 0 -> p <> x ->
  let s' := child_link s p x in
  tree_only s s' /\ (forall y, fld s' F_ppid y = fld s F_ppid y) /\
  (forall y, fld s' F_parent y = if decide (y = x) then p else fld s F_parent y) /\
  (forall y, fld s' F_children y = if decide (p <> 0 /\ y = p) then x else fld s F_children y) /\
  (forall y, fld s' F_sibling_next y = if decide (y = x) then (if decide (p = 0) then 0 else fld s F_children p) else fld s F_sibling_next y) /\
  (fld s F_children p <> x -> forall y, fld s' F_sibling_prev y =
    if decide (y = x) then 0 else if decide (p <> 0 /\ fld s F_children p <> 0 /\ y = fld s F_children p) then x else fld s F_sibling_prev y).
Proof.
  intros Hx Hpx. cbv zeta. unfold child_link. fsimp. destruct (Z.eqb_spec p 0) as [->|Hp]; cbn [negb].
  - split; [do 3 tree_only_step; done|]. split_and!; intros; fcase.
  - set (k := fld s F_children p). destruct (Z.eqb_spec k 0) as [Ek|Ek]; cbn [negb].
    + split; [do 4 tree_only_step; done|]. split_and!; intros; fcase.
    + split; [do 5 tree_only_step; done|]. split_and!; intros; fcase.
Qed.

Lemma child_link_ok s T CH p x : tree_ok s T CH -> x ∈ T -> fld s F_parent x = 0 -> p = 0 \/ p ∈ T -> p <> x ->
  let s' := child_link s p x in
  tree_ok s' T (if decide (p = 0) then CH else upd_ch CH p (x :: CH p)) /\ tree_only s s' /\ (forall y, fld s' F_ppid y = fld s F_ppid y) /\
  (forall y, fld s' F_parent y = if decide (y = x) then p else fld s F_parent y).
Proof.
  intros [T1 T2 T3 T4 T5] Hx Hp0 Hp Hpx. cbv zeta. assert (Hx0 : x <> 0) by (by intros ->).
  assert (Hnx : forall q, q ∈ T -> x ∉ CH q) by (intros q Hq Hin; apply (T3 q x Hq) in Hin as [_ E]; rewrite Hp0 in E; by subst).
  destruct (child_link_fields s p x Hx0 Hpx) as (O & PP & PA & CHD & NX & PV). set (s' := child_link s p x) in *.
  split; [|done]. assert (Hk : p <> 0 -> fld s F_children p <> x /\ (fld s F_children p = 0 \/ fld s F_children p ∈ CH p)).
  { intros Hp0'. destruct Hp as [?|Hp]; [done|]. destruct (T2 p Hp) as [Hd _]. rewrite (is_dll_head _ _ _ _ _ Hd). pose proof (is_dll_nonnull _ _ _ _ _ Hd).
    specialize (Hnx p Hp). destruct (CH p) as [|k l]; simpl; [split; [done|by left]|]. split; [intros ->; apply Hnx; by left|right; by left]. }
  destruct (decide (p = 0)) as [->|Hp0'].
  - assert (PV' : forall y, y <> x -> fld s' F_sibling_prev y = fld s F_sibling_prev y).
    { intros y Hy. unfold s', child_link. rewrite Z.eqb_refl. cbn [negb]. fsimp. by rewrite decide_False. }
    split; [done| | | |].
    + intros q Hq. destruct (T2 q Hq) as [Hd Hnd]. split; [|done]. rewrite CHD, decide_False by tauto. eapply is_dll_frame; [|exact Hd].
      intros y Hy. assert (y <> x) by (intros ->; by apply (Hnx q)). rewrite NX, decide_False by done. split; [by apply PV'|done].
    + intros q y Hq. rewrite PA, T3 by done. destruct (decide (y = x)) as [->|]; [|done]. rewrite Hp0. tauto.
    + intros y Hy. rewrite PA. destruct (decide (y = x)); [by left|auto].
    + intros y Hy. rewrite PA. destruct (decide (y = x)) as [->|]; [congruence|auto].
  - destruct (Hk Hp0') as [Hkx Hkin]. specialize (PV Hkx). destruct Hp as [?|Hp]; [done|]. split; [done| | | |].
    + intros q Hq. unfold upd_ch. destruct (T2 q Hq) as [Hd Hnd]. rewrite CHD. destruct (decide (q = p)) as [->|Hqp].
      * rewrite (decide_True (P := p <> 0 /\ p = p)) by done. assert (Hnd' : NoDup (x :: CH p)) by (apply list.NoDup_cons; split; [by apply Hnx|done]). split; [|done].
        eapply is_dll_push; [exact Hd|done|done|by rewrite PV, decide_True|rewrite NX; repeat case_decide; congruence| | |].
        -- intros Hh. rewrite PV, decide_False, decide_True by done. done.
        -- intros y Hy Hyh. rewrite PV, !decide_False; [done|tauto|]. intros ->. by apply (Hnx p).
        -- intros y Hy. rewrite NX, decide_False; [done|]. intros ->. by apply (Hnx p).
      * rewrite (decide_False (P := p <> 0 /\ q = p)) by tauto. split; [|done]. eapply is_dll_frame; [|exact Hd]. intros y Hy.
        assert (Hyx : y <> x) by (intros ->; by apply (Hnx q)). rewrite PV, NX, !(decide_False (P := y = x)) by done. split; [|done]. rewrite decide_False; [done|].
        intros (_ & Hk0 & ->). destruct Hkin as [?|Hkin]; [done|]. apply (T3 p) in Hkin as [_ E1]; [|done]. apply (T3 q) in Hy as [_ E2]; [|done]. congruence.
    + intros q y Hq. unfold upd_ch. rewrite PA. destruct (decide (q = p)) as [->|Hqp].
      * rewrite elem_of_cons, T3 by done. destruct (decide (y = x)) as [->|]; tauto.
      * rewrite T3 by done. destruct (decide (y = x)) as [->|]; [|done]. split; [intros [_ E]; rewrite Hp0 in E; by subst|intros [_ ->]; done].
    + intros y Hy. rewrite PA. destruct (decide (y = x)); [by right|auto].
    + intros y Hy. rewrite PA. destruct (decide (y = x)) as [->|]; [congruence|auto].
Qed.

Lemma child_unlink_fields s x (p := fld s F_parent x) (q := fld s F_sibling_prev x) (n := fld s F_sibling_next x) : p <> 0 -> q <> x -> n <> x ->
  let s' := child_unlink s x in
  tree_only s s' /\ (forall y, fld s' F_ppid y = fld s F_ppid y) /\
  (forall y, fld s' F_parent y = if decide (y = x) then 0 else fld s F_parent y) /\
  (forall y, fld s' F_children y = if decide (q = 0 /\ y = p) then n else fld s F_children y) /\
  (forall y, fld s' F_sibling_next y = if decide (y = x) then 0 else if decide (q <> 0 /\ y = q) then n else fld s F_sibling_next y) /\
  (forall y, fld s' F_sibling_prev y = if decide (y = x) then 0 else if decide (n <> 0 /\ y = n) then q else fld s F_sibling_prev y).
Proof.
  intros Hp Hq Hn. cbv zeta. unfold child_unlink. fold p q n. rewrite (proj2 (Z.eqb_neq p 0) Hp).
  assert (Hn1 : forall s1, s1 = set_fld s F_sibling_next q n \/ s1 = set_fld s F_children p n -> fld s1 F_sibling_next x = n /\ fld s1 F_sibling_prev x = q).
  { intros s1 [->| ->]; fsimp; split; try done. rewrite decide_False by congruence. done. }
  destruct (Z.eqb_spec q 0) as [Eq|Eq]; cbn [negb].
  - destruct (Hn1 (set_fld s F_children p n)) as [-> ->]; [by right|]. destruct (Z.eqb_spec n 0) as [En|En]; cbn [negb].
    + split; [do 4 tree_only_step; done|]. split_and!; intros; fcase.
    + split; [do 5 tree_only_step; done|]. split_and!; intros; fcase.
  - destruct (Hn1 (set_fld s F_sibling_next q n)) as [-> ->]; [by left|]. destruct (Z.eqb_spec n 0) as [En|En]; cbn [negb].
    + split; [do 4 tree_only_step; done|]. split_and!; intros; fcase.
    + split; [do 5 tree_only_step; done|]. split_and!; intros; fcase.
Qed.

Lemma child_unlink_ok s T CH x : tree_ok s T CH -> x ∈ T -> fld s F_parent x <> 0 ->
  let p := fld s F_parent x in let s' := child_unlink s x in
  exists l1 l2, CH p = l1 ++ x :: l2 /\ tree_ok s' T (upd_ch CH p (l1 ++ l2)) /\ tree_only s s' /\ (forall y, fld s' F_ppid y = fld s F_ppid y) /\
  (forall y, fld s' F_parent y = if decide (y = x) then 0 else fld s F_parent y).
Proof.
  intros [T1 T2 T3 T4 T5] Hx Hp. cbv zeta. set (p := fld s F_parent x) in *. assert (HpT : p ∈ T) by (destruct (T4 x Hx); done).
  assert (Hin : x ∈ CH p) by (by apply T3). apply list_elem_of_split in Hin as (l1 & l2 & El). destruct (T2 p HpT) as [Hd Hnd]. rewrite El in Hd, Hnd.
  destruct (is_dll_neighbours _ _ _ _ _ _ Hd Hnd) as (Nq & Nn & Hq & Hn & Hx0 & Hoth).
  destruct (child_unlink_fields s x Hp Hq Hn) as (O & PP & PA & CHD & NX & PV). fold p in CHD. set (s' := child_unlink s x) in *.
  exists l1, l2. split; [done|]. split; [|done].
  destruct (is_dll_unlink (fld s F_sibling_prev) (fld s F_sibling_next) (fld s' F_sibling_prev) (fld s' F_sibling_next) l1 x l2 _ (fld s' F_children p) Hd Hnd) as [Hd' Hnd'].
  { intros y Hy. rewrite PV, decide_False by (by apply Hoth). done. }
  { intros y Hy. rewrite NX, decide_False by (by apply Hoth). done. }
  { rewrite CHD. repeat case_decide; try done; tauto. }
  split; [done| | | |].
  - intros r Hr. unfold upd_ch. destruct (decide (r = p)) as [->|Hrp]; [done|]. destruct (T2 r Hr) as [Hdr Hndr]. split; [|done]. rewrite CHD, decide_False by tauto.
    eapply is_dll_frame; [|exact Hdr]. intros y Hy. assert (Hyr : fld s F_parent y = r) by (by apply (T3 r)).
    assert (Hyp : y ∉ CH p) by (intros Hyp; apply (T3 p) in Hyp as [_ E]; [congruence|done]). rewrite El, elem_of_app, elem_of_cons in Hyp.
    rewrite PV, NX, !(decide_False (P := y = x)) by tauto. rewrite !decide_False; [done| |]; intros [? ->]; [destruct Nq as [?|[? _]]|destruct Nn as [?|[? _]]]; tauto.
  - intros r y Hr. unfold upd_ch. rewrite PA. destruct (decide (r = p)) as [->|Hrp].
    + assert (Hm : y ∈ l1 ++ x :: l2 <-> y ∈ T /\ fld s F_parent y = p) by (rewrite <- El; by apply T3). rewrite elem_of_app, elem_of_cons in Hm. rewrite elem_of_app.
      destruct (decide (y = x)) as [->|Hyx]; [|tauto]. split; [|intros [_ E]; congruence]. intros Hy. exfalso.
      destruct (Hoth x) as [_ ?]; [by apply elem_of_app|done].
    + rewrite T3 by done. destruct (decide (y = x)) as [->|]; [|done]. split; [intros [_ E]; unfold p in Hrp; congruence|intros [_ <-]; done].
  - intros y Hy. rewrite PA. destruct (decide (y = x)); [by left|auto].
  - intros y Hy. rewrite PA. destruct (decide (y = x)) as [->|]; [congruence|auto].
Qed.

(** Nothing the tree is made of has changed. *)
Lemma tree_frame s s' T CH : (forall f x, f = F_parent \/ f = F_children \/ f = F_sibling_prev \/ f = F_sibling_next -> fld s' f x = fld s f x) ->
  tree_ok s T CH -> tree_ok s' T CH.
Proof.
  intros F [T1 T2 T3 T4 T5]. split; [done| | | |].
  - intros p Hp. rewrite (F F_children) by tauto. destruct (T2 p Hp) as [Hd Hnd]. split; [|done]. eapply is_dll_frame; [|exact Hd]. intros x _. split; apply F; tauto.
  - intros p x Hp. rewrite (F F_parent) by tauto. by apply T3.
  - intros x Hx. rewrite (F F_parent) by tauto. auto.
  - intros x Hx. rewrite (F F_parent) by tauto. auto.
Qed.

(** The first child moves to [r]. *)
Lemma move_child s T CH t r k l : tree_ok s T CH -> t ∈ T -> CH t = k :: l -> r = 0 \/ r ∈ T -> r <> t -> r <> k ->
  let s' := child_link (set_fld (child_unlink s k) F_ppid k REAPER_PID) r k in
  exists CH', tree_ok s' T CH' /\ tree_only s s' /\ CH' t = l /\
    (forall y, fld s' F_parent y = if decide (y = k) then r else fld s F_parent y) /\
    (forall y, fld s' F_ppid y = if decide (y = k) then REAPER_PID else fld s F_ppid y).
Proof.
  intros Tr Ht El Hr Hrt Hrk. cbv zeta. assert (Ht0 : t <> 0) by (intros ->; by apply (tr_null _ _ _ Tr)).
  assert (Hk : k ∈ T /\ fld s F_parent k = t) by (apply (tr_mem _ _ _ Tr); [done|rewrite El; by left]). destruct Hk as [HkT Hkp].
  destruct (child_unlink_ok s T CH k Tr HkT ltac:(by rewrite Hkp)) as (l1 & l2 & E & Tr1 & O1 & PP1 & PA1). rewrite Hkp in *.
  assert (l1 = [] /\ l2 = l) as [-> ->].
  { destruct (tr_dll _ _ _ Tr t Ht) as [_ Hnd]. rewrite El in E, Hnd. destruct l1 as [|z l1]; [injection E as <-; done|]. injection E as <- ->.
    apply list.NoDup_cons in Hnd as [Hnd _]. exfalso. apply Hnd. apply elem_mid. }
  set (s1 := child_unlink s k) in *. set (s2 := set_fld s1 F_ppid k REAPER_PID).
  assert (Tr2 : tree_ok s2 T (upd_ch CH t ([] ++ l))).
  { eapply tree_frame; [|exact Tr1]. intros f x Hf. unfold s2. apply fld_other. intros ->. destruct Hf as [?|[?|[?|?]]]; discriminate. }
  destruct (child_link_ok s2 T _ r k Tr2 HkT) as (Tr3 & O3 & PP3 & PA3); [unfold s2; fsimp; by rewrite PA1, decide_True|done|done|].
  eexists. split; [exact Tr3|]. split.
  { eapply tree_only_trans; [exact O1|]. eapply tree_only_trans; [|exact O3]. apply tree_only_set. tauto. }
  split; [|split].
  - destruct (decide (r = 0)); [|unfold upd_ch at 1; rewrite decide_False by congruence]; unfold upd_ch; by rewrite decide_True.
  - intros y. rewrite PA3. destruct (decide (y = k)) as [->|Hy]; [done|]. unfold s2. fsimp. by rewrite PA1, decide_False.
  - intros y. rewrite PP3. unfold s2. rewrite fld_same. destruct (decide (y = k)); [done|]. by rewrite PP1.
Qed.

Lemma orphan_loop_ok T t r l : forall fuel s CH, tree_ok s T CH -> t ∈ T -> CH t = l -> r = 0 \/ r ∈ T -> r <> t -> r ∉ l -> (length l < fuel)%nat ->
  let s' := orphan_loop fuel s t r in
  exists CH', tree_ok s' T CH' /\ tree_only s s' /\ CH' t = [] /\
    (forall y, fld s' F_parent y = if decide (y ∈ l) then r else fld s F_parent y) /\
    (forall y, fld s' F_ppid y = if decide (y ∈ l) then REAPER_PID else fld s F_ppid y).
Proof.
  induction l as [|k l IH]; intros fuel s CH Tr Ht El Hr Hrt Hrl Hf; (destruct fuel as [|fuel]; [simpl in Hf; lia|]); cbv zeta; cbn [orphan_loop];
    destruct (tr_dll _ _ _ Tr t Ht) as [Hd Hnd]; rewrite El in Hd, Hnd; rewrite (is_dll_head _ _ _ _ _ Hd); simpl.
  - exists CH. split_and!; try done; intros y; rewrite decide_False by apply not_elem_of_nil; done.
  - assert (Hk0 : k <> 0) by (apply is_dll_nonnull in Hd; intros ->; apply Hd; by left). rewrite (proj2 (Z.eqb_neq k 0)), (proj2 (Z.eqb_neq r t)) by done. cbn [negb].
    destruct (move_child s T CH t r k l Tr Ht El Hr Hrt) as (CH1 & Tr1 & O1 & El1 & PA1 & PP1); [intros ->; apply Hrl; by left|]. set (s1 := child_link _ r k) in *.
    destruct (IH fuel s1 CH1 Tr1 Ht El1 Hr Hrt) as (CH2 & Tr2 & O2 & El2 & PA2 & PP2); [intros ?; apply Hrl; by right|simpl in Hf; lia|].
    exists CH2. split; [done|]. split; [by eapply tree_only_trans|]. split; [done|]. split; intros y.
    + rewrite PA2, PA1. destruct (decide (y ∈ l)); [rewrite decide_True by (by right); done|]. destruct (decide (y = k)) as [->|]; [rewrite decide_True by (by left); done|].
      rewrite decide_False; [done|]. rewrite elem_of_cons. tauto.
    + rewrite PP2, PP1. destruct (decide (y ∈ l)); [rewrite decide_True by (by right); done|]. destruct (decide (y = k)) as [->|]; [rewrite decide_True by (by left); done|].
      rewrite decide_False; [done|]. rewrite elem_of_cons. tauto.
Qed.

(** A task with no parent and no children joins or leaves the tree. *)
Lemma tree_add s T CH t : tree_ok s T CH -> t <> 0 -> t ∉ T -> fld s F_parent t = 0 -> fld s F_children t = 0 -> tree_ok s (T ++ [t]) (upd_ch CH t []).
Proof.
  intros [T1 T2 T3 T4 T5] Ht0 Ht Hp Hc. split.
  - rewrite not_elem_of_app, list_elem_of_singleton. naive_solver.
  - intros p [Hp'| ->%list_elem_of_singleton]%elem_of_app; unfold upd_ch; [rewrite decide_False by (by intros ->); auto|]. rewrite decide_True by done. split; [done|constructor].
  - intros p x [Hp'| ->%list_elem_of_singleton]%elem_of_app; unfold upd_ch.
    + rewrite decide_False by (by intros ->). rewrite T3, elem_of_app, list_elem_of_singleton by done. split; [tauto|]. intros [[?| ->] E]; [done|]. rewrite Hp in E. by subst.
    + rewrite decide_True by done. split; [intros ?%elem_of_nil; done|]. rewrite elem_of_app, list_elem_of_singleton. intros [[Hx| ->] E]; [|congruence].
      exfalso. destruct (T4 x Hx); congruence.
  - intros x [Hx| ->%list_elem_of_singleton]%elem_of_app; [|by left]. rewrite elem_of_app. destruct (T4 x Hx); tauto.
  - intros x [Hx| ->%list_elem_of_singleton]%elem_of_app; [auto|congruence].
Qed.

Lemma tree_drop s l1 t l2 CH : tree_ok s (l1 ++ t :: l2) CH -> NoDup (l1 ++ t :: l2) -> fld s F_parent t = 0 -> CH t = [] -> tree_ok s (l1 ++ l2) CH.
Proof.
  intros [T1 T2 T3 T4 T5] Hnd Hp Hc. assert (Hm : forall x, x ∈ l1 ++ l2 <-> x ∈ l1 ++ t :: l2 /\ x <> t).
  { intros x. by apply elem_removed. }
  split.
  - rewrite Hm. tauto.
  - intros p Hp'. apply T2. by apply Hm.
  - intros p x Hp'. apply Hm in Hp' as [Hp' Hpt]. rewrite T3, Hm by done. split; [|tauto]. intros [Hx E]. split; [|done]. split; [done|]. intros ->. rewrite Hp in E. by subst.
  - intros x [Hx Hxt]%Hm. rewrite Hm. destruct (T4 x Hx) as [?|E]; [by left|right]. split; [done|]. intros E'.
    assert (Hin : x ∈ CH t) by (apply T3; [congruence|split; [done|congruence]]). rewrite Hc in Hin. by apply not_elem_of_nil in Hin.
  - intros x [Hx _]%Hm. auto.
Qed.

(** ** Entering the table *)

(** The hash chains alone, for a lookup in the middle of an update. *)
Definition hash_ok (s : procs) (R : list Z) : Prop :=
  length (pid_hash s) = 256%nat /\ forall b, 0 <= b < 256 -> exists l, schain (fld s F_pid_next) l (bucket s b) /\ NoDup l /\
    forall t, t ∈ l <-> t ∈ R /\ fld s F_id t mod 256 = b.

Lemma hash_lookup s R pid : hash_ok s R -> (length R <= chain_fuel s)%nat -> let r := sched_lookup_locked s pid in
  (r ∈ R /\ fld s F_id r = pid) \/ (r = 0 /\ forall t, t ∈ R -> fld s F_id t <> pid).
Proof.
  intros [_ Hh] Hf. cbv zeta. unfold sched_lookup_locked, PID_HASH_SIZE. destruct (Hh (pid mod 256) ltac:(zlia)) as (l & Hc & Hnd & Hm).
  assert (Hlen : (length l <= length R)%nat) by (apply submseteq_length, NoDup_submseteq; [done|]; intros t Ht; by apply Hm).
  destruct (lookup_loop_spec s pid l (chain_fuel s) _ Hc ltac:(lia)) as [[H1 H2]|[H1 H2]]; [left; split; [by apply Hm|done]|right].
  split; [done|]. intros t Ht E. apply (H2 t); [|done]. apply Hm. split; [done|]. by rewrite E.
Qed.

Lemma hash_push s R t : hash_ok s R -> t ∉ R -> t <> 0 ->
  let b := fld s F_id t mod PID_HASH_SIZE in hash_ok (set_hash (set_fld s F_pid_next t (bucket s b)) b t) (R ++ [t]).
Proof.
  intros [Hl Hh] Ht Ht0. cbv zeta. unfold PID_HASH_SIZE. set (b := fld s F_id t mod 256). assert (Hb : 0 <= b < 256) by (unfold b; zlia).
  set (s1 := set_fld s F_pid_next t (bucket s b)). split; [simpl; by rewrite length_insert|]. intros d Hd. destruct (Hh d Hd) as (l & Hc & Hnd & Hm).
  rewrite bucket_set by (done || lia). assert (Htl : t ∉ l) by (intros Hin; apply Hm in Hin as [? _]; done).
  assert (Hc' : schain (fld (set_hash s1 b t) F_pid_next) l (bucket s d)).
  { eapply schain_frame; [|exact Hc]. intros x Hx. change (fld (set_hash s1 b t)) with (fld s1). unfold s1. rewrite fld_same, decide_False; [done|]. by intros ->. }
  assert (Hid : forall x, fld (set_hash s1 b t) F_id x = fld s F_id x) by (intros x; change (fld (set_hash s1 b t)) with (fld s1); unfold s1; by fsimp).
  destruct (decide (d = b)) as [->|Hdb].
  - exists (t :: l). split; [|split; [by apply list.NoDup_cons|]].
    + split; [done|]. split; [done|]. change (fld (set_hash s1 b t) F_pid_next t) with (fld s1 F_pid_next t). unfold s1 at 2. by rewrite fld_same, decide_True.
    + intros x. rewrite elem_of_cons, Hm, Hid, elem_of_app, list_elem_of_singleton. split; [|tauto]. intros [->|?]; [by split; [right|]|tauto].
  - exists l. split; [done|]. split; [done|]. intros x. rewrite Hm, Hid, elem_of_app, list_elem_of_singleton. split; [tauto|]. intros [[?| ->] E]; [done|]. by rewrite <- E in Hdb.
Qed.

Lemma hash_remove s R l1 t l2 : hash_ok s R -> NoDup R -> R = l1 ++ t :: l2 -> (length R <= chain_fuel s)%nat ->
  let b := fld s F_id t mod PID_HASH_SIZE in let s' := chain_unlink s F_pid_next (bucket s b) (fun s v => set_hash s b v) t in
  hash_ok s' (l1 ++ l2) /\ (forall f x, f <> F_pid_next -> fld s' f x = fld s f x) /\ task_list_head s' = task_list_head s /\ task_count s' = task_count s /\
  pid_bitmap s' = pid_bitmap s /\ pid_cursor s' = pid_cursor s.
Proof.
  intros [Hl Hh] Hnd ER Hf. cbv zeta. unfold PID_HASH_SIZE. set (b := fld s F_id t mod 256). assert (Hb : 0 <= b < 256) by (unfold b; zlia).
  assert (HtR : t ∈ R) by (rewrite ER; apply elem_mid). destruct (Hh b Hb) as (l & Hc & Hndl & Hm).
  assert (Htl : t ∈ l) by (by apply Hm). apply list_elem_of_split in Htl as (k1 & k2 & El). rewrite El in Hc, Hndl.
  assert (Hlen : (length (k1 ++ t :: k2) <= chain_fuel s)%nat).
  { assert (length l <= length R)%nat; [|rewrite <- El; lia]. apply submseteq_length, NoDup_submseteq; [by rewrite El|]. intros x Hx. by apply Hm. }
  rewrite (chain_unlink_spec s F_pid_next (bucket s b) _ t k1 k2 Hc Hndl Hlen). set (s' := match list.last k1 with None => _ | Some q => _ end).
  assert (Hrm : forall x, x ∈ l1 ++ l2 <-> x ∈ R /\ x <> t).
  { intros x. rewrite ER in Hnd |- *. by apply elem_removed. }
  assert (Hrk : forall x, x ∈ k1 ++ k2 <-> x ∈ l /\ x <> t).
  { intros x. rewrite El. by apply elem_removed. }
  assert (Hndk : NoDup (k1 ++ k2)) by (by eapply nodup_removed).
  assert (Hfl : forall f x, f <> F_pid_next -> fld s' f x = fld s f x) by (intros f x Hfx; unfold s'; destruct (list.last k1); [by apply fld_other|done]).
  split; [|split; [done|unfold s'; by destruct (list.last k1)]].
  split; [unfold s'; destruct (list.last k1); simpl; [done|by rewrite length_insert]|]. intros d Hd. destruct (decide (d = b)) as [->|Hdb].
  - exists (k1 ++ k2). split; [|split; [done|]].
    + unfold s'. destruct k1 as [|q k1 _] using rev_ind; simpl.
      * change (schain (fld s F_pid_next) k2 (bucket (set_hash s b (fld s F_pid_next t)) b)). rewrite bucket_set, decide_True by (done || lia). by eapply (schain_app _ []).
      * rewrite last_snoc, <- !app_assoc in *. cbn [app] in *. change (bucket (set_fld s F_pid_next q (fld s F_pid_next t)) b) with (bucket s b).
        eapply schain_remove; [exact Hc|done|]. intros x. apply fld_same.
    + intros x. rewrite Hrk, Hm, Hrm, Hfl by done. tauto.
  - destruct (Hh d Hd) as (j & Hcj & Hndj & Hmj). exists j. split; [|split; [done|]].
    + assert (Eb : bucket s' d = bucket s d).
      { unfold s'. destruct (list.last k1); [done|]. by rewrite bucket_set, decide_False by (done || lia). }
      rewrite Eb. eapply schain_frame; [|exact Hcj]. intros x Hx. unfold s'. destruct (list.last k1) as [q|] eqn:Eq; [|done]. rewrite fld_same, decide_False; [done|].
      intros ->. apply last_Some_elem_of in Eq. assert (Hql : q ∈ l) by (rewrite El; apply elem_of_app; by left). apply Hm in Hql as [_ E1]. apply Hmj in Hx as [_ E2]. congruence.
    + intros x. rewrite Hmj, Hrm, Hfl by done. split; [|tauto]. intros [Hx E]. split; [|done]. split; [done|]. intros ->. by rewrite <- E in Hdb.
Qed.

Lemma table_hash s R : table_ok s R -> hash_ok s R.
Proof. intros T. split; [apply (tb_hlen _ _ T)|apply (tb_hash _ _ T)]. Qed.

(** The ring after an append. *)
Lemma list_append_ok s R t : table_ok s R -> t <> 0 -> t ∉ R ->
  let s' := list_append s t in
  ring (fld s' F_next) (fld s' F_prev) (R ++ [t]) (task_list_head s') /\
  (forall f x, f <> F_next -> f <> F_prev -> fld s' f x = fld s f x) /\ pid_hash s' = pid_hash s /\ task_count s' = task_count s.
Proof.
  intros T Ht0 Ht. cbv zeta. unfold list_append. destruct (tb_ring _ _ T) as [Eh Hs]. destruct (Z.eqb_spec (task_list_head s) 0) as [E|E].
  - assert (R = []) as -> by (destruct R as [|x R]; [done|]; exfalso; apply (tb_null _ _ T); simpl in Eh; rewrite <- E, Eh; by left).
    split_and!; try done; [|intros f x H1 H2; by fsimp; rewrite !fld_other by done]. split; [done|]. simpl. rewrite !(decide_True (P := _ /\ _)), ?decide_False by naive_solver. done.
  - assert (HR : R <> []) by (by intros ->). set (h := task_list_head s) in *. set (z := fld s F_prev h).
    split_and!; try done; [|intros f x H1 H2; by rewrite !fld_other by done].
    change (task_list_head (set_fld (set_fld (set_fld (set_fld s F_next z t) F_prev t z) F_next t _) F_prev _ t)) with h.
    change (task_list_head (set_fld (set_fld s F_next z t) F_prev t z)) with h. change (task_list_head (set_fld (set_fld (set_fld s F_next z t) F_prev t z) F_next t h)) with h.
    eapply ring_append; [split; [exact Eh|exact Hs]|done|apply list.NoDup_app; split_and!; [apply (tb_nodup _ _ T)|intros x Hx ->%list_elem_of_singleton; done|apply NoDup_singleton]| |].
    + intros x. fsimp. done.
    + intros x. fsimp. done.
Qed.

(** A new task is on the list, in its chain and in the tree. *)
Lemma queue_task_ok s R CH c t :
  table_ok s R -> tree_ok s R CH -> t <> 0 -> t ∉ R -> (forall u, u ∈ R -> fld s F_id u <> fld s F_id t) ->
  fld s F_parent t = 0 -> fld s F_children t = 0 -> Z.of_nat (length R) + 1 < 2 ^ 64 ->
  let s' := sched_queue_task_locked s c t in
  exists CH', table_ok s' (R ++ [t]) /\ tree_ok s' (R ++ [t]) CH' /\
    sched_lookup_locked s' (fld s F_id t) = t /\
    (forall u, u ∈ R -> sched_lookup_locked s' (fld s F_id u) = u /\ fld s' F_parent u = fld s F_parent u) /\
    if negb (fld s F_id t =? fld s F_ppid t) && (fld s F_id t =? fld s F_tgid t)
    then (fld s' F_parent t ∈ R /\ fld s F_id (fld s' F_parent t) = fld s F_ppid t) \/
         (fld s' F_parent t = 0 /\ forall u, u ∈ R -> fld s F_id u <> fld s F_ppid t)
    else fld s' F_parent t = 0.
Proof.
  intros T Tr Ht0 Ht Hid Hp Hc Hlen. cbv zeta. unfold sched_queue_task_locked.
  destruct (list_append_ok s R t T Ht0 Ht) as (Rg & Fl & Hh & Hcnt). set (s1 := list_append s t) in *.
  assert (Hh1 : hash_ok s1 R).
  { destruct (table_hash s R T) as [A B]. split; [by rewrite Hh|]. intros b Hb. destruct (B b Hb) as (l & X & Y & Z). exists l. unfold bucket. rewrite Hh. split; [|split; [done|]].
    - eapply schain_frame; [|exact X]. intros x _. by apply Fl.
    - intros x. rewrite Fl by done. apply Z. }
  pose proof (hash_push s1 R t Hh1 Ht Ht0) as Hh2. cbv zeta in Hh2. set (b := fld s1 F_id t mod PID_HASH_SIZE) in *. set (s2 := set_fld s1 F_pid_next t (bucket s1 b)) in *.
  set (s3 := set_hash s2 b t) in *. assert (F3 : forall f x, f <> F_next -> f <> F_prev -> f <> F_pid_next -> fld s3 f x = fld s f x).
  { intros f x A B C. change (fld s3) with (fld s2). unfold s2. rewrite fld_other by done. by apply Fl. }
  assert (Hcnt3 : task_count s3 = Z.of_nat (length R)) by (change (task_count s3) with (task_count s1); rewrite Hcnt; apply (tb_count _ _ T)).
  assert (Hfuel : (length (R ++ [t]) <= chain_fuel s3)%nat) by (unfold chain_fuel; rewrite Hcnt3, length_app, Nat2Z.id; simpl; lia).
  assert (Tr3 : tree_ok s3 (R ++ [t]) (upd_ch CH t [])).
  { apply tree_add; try done; [|by rewrite F3|by rewrite F3]. eapply tree_frame; [|exact Tr]. intros f x Hf. apply F3; intros ->; destruct Hf as [?|[?|[?|?]]]; discriminate. }
  rewrite !F3 by done. set (child := negb (fld s F_id t =? fld s F_ppid t) && (fld s F_id t =? fld s F_tgid t)).
  set (p := if child then sched_lookup_locked s3 (fld s F_ppid t) else 0).
  assert (Hpl : (p = 0 \/ p ∈ R) /\ if child then (p ∈ R /\ fld s F_id p = fld s F_ppid t) \/ (p = 0 /\ forall u, u ∈ R -> fld s F_id u <> fld s F_ppid t) else p = 0).
  { unfold p. destruct child eqn:Ec; [|split; [by left|done]]. unfold child in Ec. bool_prop. destruct (hash_lookup s3 (R ++ [t]) (fld s F_ppid t) Hh2 Hfuel) as [[A B]|[A B]].
    - rewrite F3 in B by done. apply elem_of_app in A as [A|A]; [split; [by right|left; by split]|]. apply list_elem_of_singleton in A. rewrite A in B. congruence.
    - split; [by left|right]. split; [done|]. intros u Hu. rewrite <- (F3 F_id) by done. apply B. apply elem_of_app. by left. }
  destruct Hpl as [Hp01 Hpc]. assert (Hpt : p <> t) by (destruct Hp01 as [->|?]; [congruence|by intros ->]).
  set (s4 := if child then child_link s3 _ t else s3).
  assert (H4 : exists CH', tree_ok s4 (R ++ [t]) CH' /\ tree_only s3 s4 /\ forall y, fld s4 F_parent y = if decide (y = t) then p else fld s3 F_parent y).
  { unfold s4, p in *. destruct child.
    - destruct (child_link_ok s3 (R ++ [t]) _ (sched_lookup_locked s3 (fld s F_ppid t)) t Tr3) as (A & B & _ & D); [apply elem_of_app; right; by left|by rewrite F3| |done|by eexists].
      destruct Hp01; [by left|right]. apply elem_of_app. by left.
    - eexists. split; [exact Tr3|]. split; [done|]. intros y. destruct (decide (y = t)) as [->|]; [by rewrite F3|done]. }
  destruct H4 as (CH' & Tr4 & O4 & PA4). set (s5 := set_count s4 (task_count s4 +w 1)). set (s6 := if decide _ then _ else s5).
  assert (F6 : fld s6 = fld s4) by (unfold s6; by destruct (decide _)). assert (G6 : pid_hash s6 = pid_hash s4 /\ task_list_head s6 = task_list_head s4 /\ task_count s6 = task_count s4 +w 1) by (unfold s6; by destruct (decide _)).
  assert (T6 : table_ok s6 (R ++ [t])).
  { destruct G6 as (G1 & G2 & G3). assert (F34 : forall f x, f = F_next \/ f = F_prev \/ f = F_pid_next \/ f = F_id -> fld s4 f x = fld s3 f x)
      by (intros f x Hf; apply (ts_fld _ _ (tree_only_table _ _ O4)); done).
    split.
    - rewrite not_elem_of_app, list_elem_of_singleton. pose proof (tb_null _ _ T). naive_solver.
    - apply list.NoDup_app. split_and!; [apply (tb_nodup _ _ T)|intros x Hx ->%list_elem_of_singleton; done|apply NoDup_singleton].
    - rewrite F6, G2, (to_head _ _ O4). eapply ring_ext; [| |exact Rg]; intros x; rewrite F34 by tauto; change (fld s3) with (fld s2); unfold s2; by fsimp.
    - rewrite G3, (to_count _ _ O4), Hcnt3, length_app, wrap64_small by lia. simpl. lia.
    - rewrite G1, (to_hash _ _ O4). apply Hh2.
    - intros d Hd. destruct (proj2 Hh2 d Hd) as (l & A & B & C). exists l. unfold bucket. rewrite F6, G1, (to_hash _ _ O4). split; [|split; [done|]].
      + eapply schain_frame; [|exact A]. intros x _. apply F34. tauto.
      + intros x. rewrite F34 by tauto. apply C.
    - intros u v Hu Hv. rewrite F6, !F34, !F3 by (tauto || done). rewrite elem_of_app, list_elem_of_singleton in Hu, Hv. destruct Hu as [Hu| ->], Hv as [Hv| ->]; [by apply (tb_ids _ _ T)| | |done].
      + intros E. by apply Hid in E.
      + intros E. symmetry in E. by apply Hid in E. }
  assert (Hfind : forall u, u ∈ R ++ [t] -> sched_lookup_locked s6 (fld s F_id u) = u).
  { intros u Hu. assert (Eid : forall x, fld s6 F_id x = fld s F_id x) by (intros x; rewrite F6, (ts_fld _ _ (tree_only_table _ _ O4)), F3; tauto || done).
    destruct (lookup_spec s6 (R ++ [t]) (fld s F_id u) T6) as [[A B]|[A B]]; [apply (tb_ids _ _ T6); [done|done|by rewrite B, Eid]|]. exfalso. apply (B u Hu). apply Eid. }
  exists CH'. split; [done|]. split; [eapply tree_frame; [|exact Tr4]; intros; by rewrite F6|]. split; [apply Hfind; apply elem_of_app; right; by left|]. split.
  - intros u Hu. split; [apply Hfind; apply elem_of_app; by left|]. rewrite F6, PA4, decide_False by (by intros ->). by apply F3.
  - rewrite F6, PA4, decide_True by done. destruct child; [|done]. exact Hpc.
Qed.

(** A task that enters the table is on the list of all tasks and found by its number, and
    so is everybody who was; a process becomes a child of the task its parent number names,
    a thread of nobody, and no other parent changes. *)
Lemma queue_task_enters s R CH c t :
  table_ok s R -> tree_ok s R CH -> t <> 0 -> t ∉ R -> (forall u, u ∈ R -> fld s F_id u <> fld s F_id t) ->
  fld s F_parent t = 0 -> fld s F_children t = 0 -> Z.of_nat (length R) + 1 < 2 ^ 64 ->
  let s' := sched_queue_task_locked s c t in
  exists CH', table_ok s' (R ++ [t]) /\ tree_ok s' (R ++ [t]) CH' /\
    sched_lookup_locked s' (fld s F_id t) = t /\
    (forall u, u ∈ R -> sched_lookup_locked s' (fld s F_id u) = u /\ fld s' F_parent u = fld s F_parent u) /\
    if negb (fld s F_id t =? fld s F_ppid t) && (fld s F_id t =? fld s F_tgid t)
    then (fld s' F_parent t ∈ R /\ fld s F_id (fld s' F_parent t) = fld s F_ppid t) \/
         (fld s' F_parent t = 0 /\ forall u, u ∈ R -> fld s F_id u <> fld s F_ppid t)
    else fld s' F_parent t = 0.
Proof. apply queue_task_ok. Qed.

(** ** Leaving the table *)

Lemma list_remove_ok s R l1 t l2 : table_ok s R -> R = l1 ++ t :: l2 ->
  let s' := list_remove s t in
  ring (fld s' F_next) (fld s' F_prev) (l1 ++ l2) (task_list_head s') /\
  (forall f x, f <> F_next -> f <> F_prev -> fld s' f x = fld s f x) /\ pid_hash s' = pid_hash s /\ task_count s' = task_count s /\
  pid_bitmap s' = pid_bitmap s /\ pwait s' = pwait s.
Proof.
  intros T ER. pose proof (tb_nodup _ _ T) as Hnd. pose proof (tb_ring _ _ T) as Rg. rewrite ER in Hnd, Rg. cbv zeta. unfold list_remove.
  destruct (decide (l1 ++ l2 = [])) as [E0|E0].
  - apply app_eq_nil in E0 as [-> ->]. destruct Rg as [_ (E & _)]. rewrite E, Z.eqb_refl.
    split_and!; try done. intros f x H1 H2. by rewrite !fld_other by done.
  - set (h' := if decide (task_list_head s = t) then fld s F_next t else task_list_head s).
    destruct (ring_remove _ _ (fun x => if decide (x = t) then 0 else if decide (x = fld s F_prev t) then fld s F_next t else fld s F_next x)
      (fun x => if decide (x = t) then 0 else if decide (x = fld s F_next t) then fld s F_prev t else fld s F_prev x) l1 t l2 _ h' Rg Hnd E0) as [Rg' Hn]; try done.
    rewrite (proj2 (Z.eqb_neq _ t) Hn). set (s1 := set_fld s F_next _ _). set (s2 := set_fld s1 F_prev _ _).
    assert (Hpt : fld s F_prev t <> t).
    { intros E. apply Hn. destruct Rg as [_ Hs]. assert (Hs' : exists h, head (l1 ++ t :: l2) = Some h) by (destruct l1; by eexists). destruct Hs' as [h Eh]. rewrite Eh in Hs.
      destruct l1 as [|x l1 _] using rev_ind.
      - simpl in Eh. injection Eh as <-. destruct l2 as [|n l2]; [done|]. destruct (exists_last (l := n :: l2) ltac:(done)) as (k & z & Ek). rewrite Ek in Hs, Hnd. cbn [app] in Hs.
        change (t :: (k ++ [z]) ++ [t]) with ((t :: k ++ [z]) ++ [t]) in Hs. change (t :: k ++ [z]) with ((t :: k) ++ [z]) in Hs. rewrite <- app_assoc in Hs. apply seg_app in Hs as [_ (_ & Hz & _)].
        rewrite E in Hz. exfalso. apply list.NoDup_cons in Hnd as [Hnd _]. apply Hnd. rewrite <- Hz. apply elem_of_app. right. by left.
      - rewrite <- !app_assoc in Hs. cbn [app] in Hs. apply seg_app in Hs as [_ (_ & Hz & _)]. rewrite E in Hz. subst x. exfalso. rewrite <- app_assoc in Hnd.
        apply list.NoDup_app in Hnd as (_ & _ & Hnd). cbn [app] in Hnd. apply list.NoDup_cons in Hnd as [Hnd _]. apply Hnd. by left. }
    assert (E1 : fld s1 F_next t = fld s F_next t) by (unfold s1; rewrite fld_same, decide_False; congruence).
    assert (E1p : fld s1 F_prev t = fld s F_prev t) by (unfold s1; by fsimp).
    assert (E2 : fld s2 F_next t = fld s F_next t) by (unfold s2; fsimp; done).
    change (task_list_head s2) with (task_list_head s). set (s3 := if task_list_head s =? t then _ else s2).
    assert (F3 : fld s3 = fld s2) by (unfold s3; by destruct (_ =? _)).
    split_and!; try (unfold s3; by destruct (_ =? _)).
    + change (task_list_head (set_fld (set_fld s3 F_prev t 0) F_next t 0)) with (task_list_head s3).
      replace (task_list_head s3) with h' by (unfold h', s3; destruct (Z.eqb_spec (task_list_head s) t) as [->|]; [rewrite decide_True by done; by rewrite E2|by rewrite decide_False]).
      eapply ring_ext; [| |exact Rg']; intros x; fsimp; rewrite F3; unfold s2; fsimp; destruct (decide (x = t)); try done; rewrite ?E1, ?E1p; unfold s1; fsimp; done.
    + intros f x H1 H2. rewrite !fld_other by done. rewrite F3. unfold s2, s1. by rewrite !fld_other by done.
Qed.

(** The walk along a chain writes nothing but the chain. *)
Lemma chain_walk_frame f t fuel : forall s prev, let s' := chain_walk fuel s f prev t in exists q v, s' = set_fld s f q v \/ s' = s.
Proof.
  induction fuel as [|fuel IH]; intros s prev; cbn [chain_walk]; [exists 0, 0; by right|]. destruct (_ =? 0); [exists 0, 0; by right|].
  destruct (_ =? t); [eexists _, _; by left|apply IH].
Qed.

(** Leaving the group writes nothing but the group. *)
Lemma group_unlink_frame s t (s' := group_unlink s t) :
  (forall f x, f <> F_group_next -> f <> G_threads -> f <> G_leader -> fld s' f x = fld s f x) /\
  pid_hash s' = pid_hash s /\ task_list_head s' = task_list_head s /\ task_count s' = task_count s /\ pid_bitmap s' = pid_bitmap s /\ pid_cursor s' = pid_cursor s.
Proof.
  unfold s', group_unlink. destruct (_ =? 0); [done|]. set (g := fld s F_group t). set (s1 := chain_unlink s F_group_next _ _ t).
  assert (H1 : exists q v, s1 = set_fld s F_group_next q v \/ s1 = set_fld s G_threads g v \/ s1 = s).
  { unfold s1, chain_unlink. destruct (_ =? 0); [exists 0, 0; tauto|]. destruct (_ =? t); [eexists 0, _; right; by left|].
    destruct (chain_walk_frame F_group_next t (chain_fuel s) s (fld s G_threads g)) as (q & v & [->| ->]); exists q, v; tauto. }
  destruct H1 as (q & v & H1). set (s2 := if _ =? t then _ else s1).
  assert (H2 : (forall f x, f <> F_group_next -> f <> G_threads -> f <> G_leader -> fld s2 f x = fld s f x) /\
    pid_hash s2 = pid_hash s /\ task_list_head s2 = task_list_head s /\ task_count s2 = task_count s /\ pid_bitmap s2 = pid_bitmap s /\ pid_cursor s2 = pid_cursor s).
  { unfold s2. destruct (_ =? t); destruct H1 as [->|[->| ->]]; (split; [intros f x A B C; by rewrite ?fld_other by done|done]). }
  destruct H2 as (A & B). split; [|done]. intros f x C D E. rewrite fld_other by done. by apply A.
Qed.

Lemma child_unlink_any s T CH t : tree_ok s T CH -> t ∈ T ->
  let s' := child_unlink s t in
  exists CH', tree_ok s' T CH' /\ tree_only s s' /\ CH' t = CH t /\ (forall y, fld s' F_parent y = if decide (y = t) then 0 else fld s F_parent y) /\
    (forall y, fld s' F_ppid y = fld s F_ppid y).
Proof.
  intros Tr Ht. cbv zeta. destruct (decide (fld s F_parent t = 0)) as [E|E].
  - unfold child_unlink. rewrite E. cbn. exists CH. split; [done|]. split; [done|]. split; [done|]. split; [|done]. intros y. by destruct (decide (y = t)) as [->|].
  - destruct (child_unlink_ok s T CH t Tr Ht E) as (l1 & l2 & El & Tr1 & O1 & PP1 & PA1). eexists. split; [exact Tr1|]. split; [done|]. split; [|done].
    unfold upd_ch. rewrite decide_False; [done|]. intros Ett. by apply (tr_irrefl _ _ _ Tr t Ht).
Qed.

Lemma hash_frame s s' R : hash_ok s R -> pid_hash s' = pid_hash s -> (forall x, fld s' F_pid_next x = fld s F_pid_next x) -> (forall x, fld s' F_id x = fld s F_id x) -> hash_ok s' R.
Proof.
  intros [Hl Hh] E1 E2 E3. split; [by rewrite E1|]. intros b Hb. destruct (Hh b Hb) as (l & A & B & C). exists l. unfold bucket. rewrite E1. split; [|split; [done|]].
  - eapply schain_frame; [|exact A]. intros x _. apply E2.
  - intros x. rewrite E3. apply C.
Qed.

(** What leaving the table has done before the process number is given back. *)
Lemma unlink_steps s R CH l1 t l2 : table_ok s R -> tree_ok s R CH -> R = l1 ++ t :: l2 -> (forall k, k ∈ CH t -> fld s F_id k <> REAPER_PID) ->
  let s1 := list_remove s t in let b := fld s1 F_id t mod PID_HASH_SIZE in
  let s2 := chain_unlink s1 F_pid_next (bucket s1 b) (fun k v => set_hash k b v) t in
  let s4 := group_unlink (child_unlink s2 t) t in
  let r := sched_lookup_locked s4 REAPER_PID in
  let s5 := orphan_loop (chain_fuel s4) s4 t r in
  exists CH', tree_ok s5 (l1 ++ l2) CH' /\ hash_ok s5 (l1 ++ l2) /\ ring (fld s5 F_next) (fld s5 F_prev) (l1 ++ l2) (task_list_head s5) /\
    (forall x, fld s5 F_id x = fld s F_id x) /\ task_count s5 = task_count s /\ pid_bitmap s5 = pid_bitmap s /\
    ((r ∈ l1 ++ l2 /\ fld s F_id r = REAPER_PID) \/ (r = 0 /\ forall u, u ∈ l1 ++ l2 -> fld s F_id u <> REAPER_PID)) /\
    (forall u, u ∈ l1 ++ l2 -> fld s5 F_parent u = (if decide (fld s F_parent u = t) then r else fld s F_parent u) /\
      fld s5 F_ppid u = (if decide (fld s F_parent u = t) then REAPER_PID else fld s F_ppid u)).
Proof.
  intros T Tr ER Hch. cbv zeta. pose proof (tb_nodup _ _ T) as Hnd. assert (HtR : t ∈ R) by (rewrite ER; apply elem_mid).
  assert (Hrm : forall x, x ∈ l1 ++ l2 <-> x ∈ R /\ x <> t) by (intros x; rewrite ER in Hnd |- *; by apply elem_removed).
  destruct (list_remove_ok s R l1 t l2 T ER) as (Rg & F1 & H1 & C1 & B1 & _). set (s1 := list_remove s t) in *.
  assert (Hh1 : hash_ok s1 R) by (eapply hash_frame; [exact (table_hash s R T)|done|intros x; by apply F1|intros x; by apply F1]).
  assert (Hfu : chain_fuel s1 = S (length R)) by (unfold chain_fuel; by rewrite C1, (tb_count _ _ T), Nat2Z.id).
  destruct (hash_remove s1 R l1 t l2 Hh1 Hnd ER ltac:(rewrite Hfu; lia)) as (Hh2 & F2 & L2 & C2 & B2 & _). set (s2 := chain_unlink s1 F_pid_next _ _ t) in *.
  assert (Tr2 : tree_ok s2 R CH).
  { eapply tree_frame; [|exact Tr]. intros f x Hf. rewrite F2 by (intros ->; destruct Hf as [?|[?|[?|?]]]; discriminate). apply F1; intros ->; destruct Hf as [?|[?|[?|?]]]; discriminate. }
  destruct (child_unlink_any s2 R CH t Tr2 HtR) as (CH3 & Tr3 & O3 & E3 & PA3 & PP3). set (s3 := child_unlink s2 t) in *.
  destruct (group_unlink_frame s3 t) as (F4 & H4 & L4 & C4 & B4 & _). set (s4 := group_unlink s3 t) in *.
  assert (Tr4 : tree_ok s4 R CH3) by (eapply tree_frame; [|exact Tr3]; intros f x Hf; apply F4; intros ->; destruct Hf as [?|[?|[?|?]]]; discriminate).
  assert (F34 : forall f x, f = F_next \/ f = F_prev \/ f = F_pid_next \/ f = F_id -> fld s4 f x = fld s2 f x).
  { intros f x Hf. rewrite F4 by (intros ->; destruct Hf as [?|[?|[?|?]]]; discriminate). apply (ts_fld _ _ (tree_only_table _ _ O3)). done. }
  assert (Hid4 : forall x, fld s4 F_id x = fld s F_id x) by (intros x; rewrite F34, F2, F1; tauto || done).
  assert (Hh4 : hash_ok s4 (l1 ++ l2)) by (eapply hash_frame; [exact Hh2|by rewrite H4, (to_hash _ _ O3)|intros x; apply F34; tauto|intros x; apply F34; tauto]).
  assert (C4' : task_count s4 = task_count s) by (by rewrite C4, (to_count _ _ O3), C2).
  assert (Hfu4 : chain_fuel s4 = S (length R)) by (unfold chain_fuel; by rewrite C4', (tb_count _ _ T), Nat2Z.id).
  set (r := sched_lookup_locked s4 REAPER_PID).
  assert (Hr : (r ∈ l1 ++ l2 /\ fld s F_id r = REAPER_PID) \/ (r = 0 /\ forall u, u ∈ l1 ++ l2 -> fld s F_id u <> REAPER_PID)).
  { destruct (hash_lookup s4 (l1 ++ l2) REAPER_PID Hh4) as [[A B]|[A B]]; [rewrite Hfu4, ER, !length_app; simpl; lia|left; by rewrite <- Hid4|right].
    split; [done|]. intros u Hu. rewrite <- Hid4. by apply B. }
  assert (HcT : forall y, y ∈ CH t -> y ∈ R /\ fld s F_parent y = t) by (intros y Hy; by apply (tr_mem _ _ _ Tr t)).
  assert (Ht0 : t <> 0) by (intros ->; by apply (tb_null _ _ T)).
  destruct (orphan_loop_ok R t r (CH t) (chain_fuel s4) s4 CH3 Tr4 HtR E3) as (CH5 & Tr5 & O5 & E5 & PA5 & PP5).
  { destruct Hr as [[Hr _]|[-> _]]; [right; by apply Hrm|by left]. }
  { destruct Hr as [[Hr _]|[-> _]]; [by apply Hrm|congruence]. }
  { destruct Hr as [[Hr Hri]|[-> _]]; intros Hin; [by apply Hch in Hin|]. apply HcT in Hin as [Hin _]. by apply (tb_null _ _ T). }
  { rewrite Hfu4. destruct (tr_dll _ _ _ Tr t HtR) as [_ Hndc]. assert (length (CH t) <= length R)%nat; [|lia]. eapply chain_length; [done|done|]. intros y Hy. by apply HcT. }
  set (s5 := orphan_loop (chain_fuel s4) s4 t r) in *.
  assert (PAs : forall y, fld s4 F_parent y = if decide (y = t) then 0 else fld s F_parent y) by (intros y; rewrite F4, PA3, F2, F1 by done; done).
  assert (Htc : t ∉ CH t) by (intros Hin; apply HcT in Hin as [_ E]; by apply (tr_irrefl _ _ _ Tr t HtR)).
  exists CH5. split; [|split; [|split; [|split; [|split; [|split; [|split; [exact Hr|]]]]]]].
  - apply (tree_drop _ _ t); [rewrite <- ER; exact Tr5|by rewrite <- ER| |done]. rewrite PA5, decide_False, PAs, decide_True by done. done.
  - eapply hash_frame; [exact Hh4|apply (to_hash _ _ O5)|intros x; by apply (to_fld _ _ O5)|intros x; by apply (to_fld _ _ O5)].
  - rewrite (to_head _ _ O5), L4, (to_head _ _ O3), L2. eapply ring_ext; [| |exact Rg]; intros x; rewrite (to_fld _ _ O5), F34, F2; tauto || done.
  - intros x. rewrite (to_fld _ _ O5) by done. apply Hid4.
  - by rewrite (to_count _ _ O5).
  - rewrite (proj1 (to_pids _ _ O5)), B4, (proj1 (to_pids _ _ O3)). congruence.
  - intros u Hu. apply Hrm in Hu as [HuR Hut]. rewrite PA5, PP5, PAs, (decide_False (P := u = t)) by done.
    assert (Hux : u ∈ CH t <-> fld s F_parent u = t) by (rewrite (tr_mem _ _ _ Tr t u HtR); tauto).
    assert (EPP : fld s4 F_ppid u = fld s F_ppid u) by (rewrite F4, PP3, F2, F1 by done; done). rewrite EPP.
    destruct (decide (u ∈ CH t)) as [Hin|Hin]; [rewrite !decide_True by tauto; done|rewrite !decide_False by tauto; done].
Qed.


(** ** Orphans *)

Lemma reparent_loop_ok T p r l : forall fuel s CH, tree_ok s T CH -> p ∈ T -> CH p = l -> r = 0 \/ r ∈ T -> r <> p -> r ∉ l -> (length l < fuel)%nat ->
  let '(z, s') := reparent_loop fuel s p r in
  exists CH' k1 k2, l = k1 ++ k2 /\ tree_ok s' T CH' /\ tree_only s s' /\ CH' p = k2 /\
    (forall y, fld s' F_parent y = if decide (y ∈ k1) then r else fld s F_parent y) /\
    (forall y, fld s' F_ppid y = if decide (y ∈ k1) then REAPER_PID else fld s F_ppid y) /\
    ((z = 0 /\ k2 = []) \/ (z <> 0 /\ list.last k1 = Some z /\ state (task_at (psched s) z) = TASK_ZOMBIE /\ task_group_alive s z = false)).
Proof.
  induction l as [|k l IH]; intros fuel s CH Tr Ht El Hr Hrt Hrl Hf; (destruct fuel as [|fuel]; [simpl in Hf; lia|]); cbn [reparent_loop];
    destruct (tr_dll _ _ _ Tr p Ht) as [Hd Hnd]; rewrite El in Hd, Hnd; rewrite (is_dll_head _ _ _ _ _ Hd); simpl default.
  - cbn. exists CH, [], []. split; [done|]. split; [done|]. split; [done|]. split; [done|]. split; [|split; [|by left]]; intros y; by rewrite decide_False by apply not_elem_of_nil.
  - assert (Hk0 : k <> 0) by (apply is_dll_nonnull in Hd; intros ->; apply Hd; by left). rewrite (proj2 (Z.eqb_neq k 0)) by done.
    destruct (move_child s T CH p r k l Tr Ht El Hr Hrt) as (CH1 & Tr1 & O1 & El1 & PA1 & PP1); [intros ->; apply Hrl; by left|]. set (s1 := child_link _ r k) in *.
    assert (Eps : psched s1 = psched s) by (unfold psched; by rewrite (to_wait _ _ O1)).
    assert (Eal : forall z, task_group_alive s1 z = task_group_alive s z) by (intros z; unfold task_group_alive; by rewrite Eps, !(to_fld _ _ O1) by done).
    destruct (bool_decide (state (task_at (psched s1) k) = TASK_ZOMBIE) && negb (task_group_alive s1 k)) eqn:Ez.
    + apply andb_true_iff in Ez as [Ez1%bool_decide_eq_true Ez2%negb_true_iff]. rewrite Eps in Ez1. rewrite Eal in Ez2.
      exists CH1, [k], l. split; [done|]. split; [done|]. split; [done|]. split; [done|]. split; [|split; [|right; done]]; intros y; rewrite ?PA1, ?PP1;
        (destruct (decide (y = k)) as [->|Hy]; [by rewrite decide_True by (by left)|rewrite decide_False; [done|by rewrite list_elem_of_singleton]]).
    + pose proof (IH fuel s1 CH1 Tr1 Ht El1 Hr Hrt) as HI. destruct (reparent_loop fuel s1 p r) as [z s2].
      destruct HI as (CH2 & k1 & k2 & -> & Tr2 & O2 & El2 & PA2 & PP2 & Hz); [intros ?; apply Hrl; by right|simpl in Hf; lia|].
      exists CH2, (k :: k1), k2. split; [done|]. split; [done|]. split; [by eapply tree_only_trans|]. split; [done|]. split; [|split].
      * intros y. rewrite PA2, PA1. destruct (decide (y ∈ k1)); [rewrite decide_True by (by right); done|]. destruct (decide (y = k)) as [->|]; [rewrite decide_True by (by left); done|].
        rewrite decide_False; [done|]. rewrite elem_of_cons. tauto.
      * intros y. rewrite PP2, PP1. destruct (decide (y ∈ k1)); [rewrite decide_True by (by right); done|]. destruct (decide (y = k)) as [->|]; [rewrite decide_True by (by left); done|].
        rewrite decide_False; [done|]. rewrite elem_of_cons. tauto.
      * destruct Hz as [?|(Hz0 & Hl & Hzs & Hza)]; [by left|right]. split; [done|]. rewrite Eps in Hzs. rewrite Eal in Hza. split; [|done]. destruct k1; [done|]. by rewrite last_cons_cons.
Qed.

(** Handing over the children of a dying task: each one taken becomes a child of the
    reaper, in order, until one turns out to have exited already, which is the result, or
    none is left.  The table keeps its shape. *)
Lemma reparent_hands_over s R CH p :
  table_ok s R -> tree_ok s R CH -> p ∈ R -> (forall k, k ∈ CH p -> fld s F_id k <> REAPER_PID) ->
  let r := if sched_lookup_locked s REAPER_PID =? p then 0 else sched_lookup_locked s REAPER_PID in
  let '(z, s') := sched_reparent_children s p in
  exists CH' k1 k2, CH p = k1 ++ k2 /\ table_ok s' R /\ tree_ok s' R CH' /\ CH' p = k2 /\
    (forall y, y ∈ k1 -> fld s' F_parent y = r /\ fld s' F_ppid y = REAPER_PID) /\
    (forall y, y ∉ k1 -> fld s' F_parent y = fld s F_parent y /\ fld s' F_ppid y = fld s F_ppid y) /\
    ((z = 0 /\ k2 = []) \/ (z <> 0 /\ list.last k1 = Some z /\ state (task_at (psched s) z) = TASK_ZOMBIE /\ task_group_alive s z = false)).
Proof.
  intros T Tr Hp Hch. cbv zeta. unfold sched_reparent_children. assert (Hp0 : p <> 0) by (intros ->; by apply (tb_null _ _ T)). rewrite (proj2 (Z.eqb_neq p 0)) by done.
  set (r := if _ =? p then 0 else _). assert (Hr : (r = 0 \/ (r ∈ R /\ fld s F_id r = REAPER_PID)) /\ r <> p).
  { unfold r. destruct (Z.eqb_spec (sched_lookup_locked s REAPER_PID) p) as [|Hne]; [split; [by left|congruence]|].
    destruct (lookup_spec s R REAPER_PID T) as [[? ?]|[? _]]; split; try done; [by right|by left]. }
  destruct Hr as [Hr Hrp]. assert (HcR : forall y, y ∈ CH p -> y ∈ R) by (intros y Hy; by apply (tr_mem _ _ _ Tr p) in Hy as [? _]).
  pose proof (reparent_loop_ok R p r (CH p) (chain_fuel s) s CH Tr Hp eq_refl) as H. destruct (reparent_loop (chain_fuel s) s p r) as [z s'].
  destruct H as (CH' & k1 & k2 & E & Tr' & O & E' & PA & PP & Hz); [tauto|done| | |].
  { destruct Hr as [->|[_ Hr]]; intros Hin; [apply HcR in Hin; by apply (tb_null _ _ T)|by apply Hch in Hin]. }
  { unfold chain_fuel. rewrite (tb_count _ _ T), Nat2Z.id. destruct (tr_dll _ _ _ Tr p Hp) as [_ Hnd]. assert (length (CH p) <= length R)%nat by (by eapply chain_length). lia. }
  exists CH', k1, k2. split; [done|]. split; [eapply table_frame; [apply tree_only_table; exact O|done]|]. split; [done|]. split; [done|].
  split; [|split; [|done]]; intros y Hy; rewrite PA, PP; [by rewrite !decide_True|by rewrite !decide_False].
Qed.

(** ** The dead *)

(** The queue of the dead, [D] from its front. *)
Record dead_ok (s : procs) (D : list Z) : Prop := {
  dd_chain : schain (fld s F_dead_next) D (dead_task_head s);
  dd_nodup : NoDup D;
  dd_tail : dead_task_tail s = default 0 (list.last D);
  dd_state : forall x, x ∈ D -> state (task_at (psched s) x) = TASK_DEAD;
}.

Lemma schain_head nx l h : schain nx l h -> h = default 0 (head l).
Proof. destruct l; simpl; [done|]. by intros (-> & _). Qed.

Lemma schain_snoc nx nx' l h t : schain nx l h -> NoDup (l ++ [t]) -> t <> 0 -> nx' t = 0 ->
  (forall x, x ∈ l -> nx' x = if decide (list.last l = Some x) then t else nx x) ->
  schain nx' (l ++ [t]) (match l with [] => t | _ => h end).
Proof.
  revert h. induction l as [|x l IH]; intros h Hc Hnd Ht E Hf; [done|]. cbn [app schain] in *. destruct Hc as (-> & Hx & Hc). split; [done|]. split; [done|].
  apply list.NoDup_cons in Hnd as [Hxn Hnd]. rewrite Hf by (by left). destruct l as [|y l].
  - rewrite decide_True by done. done.
  - rewrite decide_False.
    + eapply (IH _ Hc Hnd Ht E). intros z Hz. rewrite Hf by (by right). by rewrite last_cons_cons.
    + rewrite last_cons_cons. intros Hl. apply last_Some_elem_of in Hl. apply Hxn. apply elem_of_app. by left.
Qed.

(** [t] at the end of the queue. *)
Lemma dead_push_ok s D t : dead_ok s D -> t <> 0 -> t ∉ D -> fld s F_dead_next t = 0 -> state (task_at (psched s) t) = TASK_DEAD ->
  dead_ok (dead_push s t) (D ++ [t]) /\ psched (dead_push s t) = psched s /\ reaper_task (dead_push s t) = reaper_task s.
Proof.
  intros [C N Tl St] Ht0 Ht Hn Hs. assert (Hnd : NoDup (D ++ [t])) by (apply list.NoDup_app; split_and!; [done|intros x Hx ->%list_elem_of_singleton; done|apply NoDup_singleton]).
  unfold dead_push. pose proof (schain_head _ _ _ C) as Eh. destruct (Z.eqb_spec (dead_task_head s) 0) as [E|E].
  - assert (D = []) as -> by (destruct D as [|x D]; [done|]; destruct C as (? & ? & _); congruence). split; [|done].
    split; [by split_and!|done|done|intros x ->%list_elem_of_singleton; done].
  - assert (HD : exists z, list.last D = Some z) by (destruct (list.last D) eqn:El; [by eexists|]; apply last_None in El; subst; done). destruct HD as [z Hz]. rewrite Hz in Tl. simpl in Tl.
    split; [|done]. split; [|done|by rewrite last_snoc|].
    + cbn [dead_task_head set_dead]. pose proof (schain_snoc (fld s F_dead_next) (fld (set_fld s F_dead_next (dead_task_tail s) t) F_dead_next) D (dead_task_head s) t C Hnd Ht0) as H.
      destruct D as [|x D]; [done|]. apply H.
      * rewrite fld_same, decide_False; [done|]. rewrite Tl. intros ->. apply Ht. by apply last_Some_elem_of.
      * intros y Hy. rewrite fld_same, Tl, Hz. repeat case_decide; congruence.
    + intros x [Hx| ->%list_elem_of_singleton]%elem_of_app; [by apply St|done].
Qed.

Lemma dead_sched s D k : dead_ok s D -> (forall x, x ∈ D -> state (task_at k x) = TASK_DEAD) -> dead_ok (set_psched s k) D.
Proof. intros [C N Tl St] H. by split. Qed.

(** Waking somebody does not bring back the dead. *)
Lemma wake_dead k c r x : rqi k -> (r = 0 \/ is_Some (tasks k !! r)) -> state (task_at k x) = TASK_DEAD ->
  rqi (sched_wake_task k c r) /\ state (task_at (sched_wake_task k c r) x) = TASK_DEAD.
Proof.
  intros Hr Hrr Hx. destruct Hrr as [->|[kr Hk]]; [done|]. destruct (wake_state k c r kr Hr Hk) as (R1 & S1 & O1 & _). split; [done|].
  destruct (decide (x = r)) as [->|Hne]; [|by rewrite O1]. rewrite S1. assert (E : task_at k r = kr) by (unfold task_at; by rewrite Hk). rewrite E in Hx. rewrite decide_False; congruence.
Qed.

Lemma dequeue_state k t x : rqi k -> rqi (ready_dequeue k t) /\ state (task_at (ready_dequeue k t) x) = state (task_at k x).
Proof.
  intros Hr. unfold ready_dequeue. destruct (t =? 0); [done|]. destruct (dequeue_spec k t Hr) as (R1 & C1 & _). split; [done|]. by apply state_at_core.
Qed.

(** The parts the dead queue is made of. *)
Record dead_same (s s' : procs) : Prop := {
  ds_next : forall x, fld s' F_dead_next x = fld s F_dead_next x;
  ds_head : dead_task_head s' = dead_task_head s;
  ds_tail : dead_task_tail s' = dead_task_tail s;
  ds_wait : pwait s' = pwait s;
}.

Lemma dead_same_trans s1 s2 s3 : dead_same s1 s2 -> dead_same s2 s3 -> dead_same s1 s3.
Proof. intros [A B C D] [A' B' C' D']. split; congruence. Qed.

Lemma dead_same_set s f t v : f <> F_dead_next -> dead_same s (set_fld s f t v).
Proof. intros Hf. split; try done. intros x. by apply fld_other. Qed.

Lemma dead_same_globals s s' : fld s' = fld s -> dead_task_head s' = dead_task_head s -> dead_task_tail s' = dead_task_tail s -> pwait s' = pwait s -> dead_same s s'.
Proof. intros E1 E2 E3 E4. split; try done. intros x. by rewrite E1. Qed.

(** Field writes, one after the other, leave the dead queue alone. *)
Ltac dead_steps := repeat first [apply dead_same_globals; reflexivity | eapply dead_same_trans; [|apply dead_same_set; discriminate]].

Lemma child_link_dead s p x : dead_same s (child_link s p x).
Proof. unfold child_link. destruct (p =? 0); cbn [negb]; [dead_steps|]. fsimp. destruct (_ =? 0); cbn [negb]; dead_steps. Qed.

Lemma child_unlink_dead s x : dead_same s (child_unlink s x).
Proof.
  unfold child_unlink. destruct (_ =? 0); [by apply dead_same_globals|]. destruct (_ =? 0); cbn [negb]; destruct (_ =? 0); cbn [negb]; dead_steps.
Qed.

Lemma chain_unlink_dead s f h set_h t : f <> F_dead_next -> (forall v, dead_same s (set_h s v)) -> dead_same s (chain_unlink s f h set_h t).
Proof.
  intros Hf Hs. unfold chain_unlink. destruct (_ =? 0); [by apply dead_same_globals|]. destruct (_ =? t); [apply Hs|].
  destruct (chain_walk_frame f t (chain_fuel s) s h) as (q & v & [->| ->]); [by apply dead_same_set|by apply dead_same_globals].
Qed.

Lemma orphan_loop_dead t r fuel : forall s, dead_same s (orphan_loop fuel s t r).
Proof.
  induction fuel as [|fuel IH]; intros s; cbn [orphan_loop]; [by apply dead_same_globals|]. destruct (_ =? 0); [by apply dead_same_globals|].
  eapply dead_same_trans; [|apply IH]. eapply dead_same_trans; [|apply child_link_dead]. eapply dead_same_trans; [apply child_unlink_dead|]. by apply dead_same_set.
Qed.

Lemma list_remove_dead s t : dead_same s (list_remove s t).
Proof.
  assert (Hh : forall k v, dead_same s k -> dead_same s (set_list_head k v)) by (intros k v [A B C D]; by split).
  unfold list_remove. do 2 (eapply dead_same_trans; [|apply dead_same_set; discriminate]). destruct (_ =? t); [by apply Hh, dead_same_globals|].
  set (k := set_fld (set_fld s F_next _ _) F_prev _ _). assert (Hk : dead_same s k) by (unfold k; dead_steps). destruct (task_list_head k =? t); [by apply Hh|done].
Qed.

Lemma unlink_dead s t : let s' := sched_unlink_task_locked s t in
  (forall x, fld s' F_dead_next x = fld s F_dead_next x) /\ dead_task_head s' = dead_task_head s /\ dead_task_tail s' = dead_task_tail s /\
  psched s' = ready_dequeue (psched s) t.
Proof.
  cbv zeta. unfold sched_unlink_task_locked. set (s1 := list_remove s t). set (b := fld s1 F_id t mod PID_HASH_SIZE). set (s2 := chain_unlink s1 _ _ _ t). set (s3 := child_unlink s2 t).
  set (s4 := group_unlink s3 t). set (s5 := orphan_loop _ s4 t _).
  assert (D5 : dead_same s s5).
  { eapply dead_same_trans; [|apply orphan_loop_dead]. eapply (dead_same_trans _ s3).
    - eapply dead_same_trans; [|apply child_unlink_dead]. eapply (dead_same_trans _ s1).
      + apply list_remove_dead.
      + apply chain_unlink_dead; [done|]. intros v. by apply dead_same_globals.
    - unfold s4, group_unlink. destruct (_ =? 0); [by apply dead_same_globals|]. eapply dead_same_trans; [|apply dead_same_set; discriminate].
      eapply (dead_same_trans _ (chain_unlink s3 F_group_next (fld s3 G_threads (fld s3 F_group t)) (fun s v => set_fld s G_threads (fld s3 F_group t) v) t)).
      + apply chain_unlink_dead; [done|]. intros v. by apply dead_same_set.
      + destruct (_ =? t); [by apply dead_same_set|by apply dead_same_globals]. }
  destruct D5 as [A B C D]. clearbody s5. unfold free_pid_locked. set (s7 := set_count _ _).
  assert (E7 : fld s7 = fld s5 /\ dead_task_head s7 = dead_task_head s5 /\ dead_task_tail s7 = dead_task_tail s5 /\ psched s7 = ready_dequeue (psched s5) t) by done.
  destruct E7 as (E1 & E2 & E3 & E4). assert (Ep : psched s5 = psched s) by (unfold psched; by rewrite D). clearbody s7.
  destruct (1 <? fld s7 F_id t); [destruct ((fld s7 F_id t =? 0) || (MAX_PIDS <=? fld s7 F_id t))|];
    (split; [intros x; change (fld (set_pids ?a ?b ?c)) with (fld a); by rewrite E1, A|]; split; [exact (eq_trans E2 B)|]; split; [exact (eq_trans E3 C)|]; rewrite <- Ep; exact E4).
Qed.

Lemma cleanup_sched w t : wsched (sched_wait_cleanup w t) = wsched w.
Proof.
  unfold sched_wait_cleanup, wait_cleanup_locked, deadline_remove. set (w1 := for_range _ _ _ w).
  assert (E1 : wsched w1 = wsched w).
  { apply (for_range_inv (fun _ x => wsched x = wsched w)); [done|]. intros k x _ <-. unfold wait_entry_remove. destruct (_ =? 0); [done|].
    destruct (negb (_ =? 0)); destruct (negb (_ =? 0)); done. }
  rewrite <- E1. clearbody w1. destruct (negb _); [done|]. destruct (negb (_ =? 0)); destruct (negb (_ =? 0)); done.
Qed.

Lemma dead_chain_frame s s' D : dead_ok s D -> (forall x, x ∈ D -> fld s' F_dead_next x = fld s F_dead_next x) -> dead_task_head s' = dead_task_head s ->
  dead_task_tail s' = dead_task_tail s -> (forall x, x ∈ D -> state (task_at (psched s') x) = TASK_DEAD) -> dead_ok s' D.
Proof. intros [C N Tl St] Hf E1 E2 Hs. split; [rewrite E1; by eapply schain_frame|done|congruence|done]. Qed.

Lemma mark_dead_ok s D c t : dead_ok s D -> rqi (psched s) -> t <> 0 -> is_Some (tasks (psched s) !! t) -> reaper_task s = 0 \/ is_Some (tasks (psched s) !! reaper_task s) ->
  let s' := sched_mark_task_dead s c t in
  rqi (psched s') /\ dead_ok s' (if decide (state (task_at (psched s) t) = TASK_DEAD) then D else D ++ [t]).
Proof.
  intros HD Hr Ht0 [kt Hkt] Hrp. cbv zeta. unfold sched_mark_task_dead. rewrite (proj2 (Z.eqb_neq t 0)) by done.
  destruct (decide (state (task_at (psched s) t) = TASK_DEAD)) as [Ed|Ed]; [done|].
  assert (HtD : t ∉ D) by (intros Hin; by apply (dd_state _ _ HD) in Hin).
  set (k1 := upd_task (psched s) t (with_state TASK_DEAD)). assert (R1 : rqi k1) by (eapply rqi_frame; [|exact Hr]; by apply upd_same_queues).
  assert (S1 : forall x, state (task_at k1 x) = if decide (x = t) then TASK_DEAD else state (task_at (psched s) x)).
  { intros x. unfold k1, task_at. rewrite tasks_upd. destruct (decide (x = t)) as [->|]; [by rewrite Hkt|done]. }
  assert (Dm1 : forall x, is_Some (tasks (psched s) !! x) -> is_Some (tasks k1 !! x)) by (intros x Hx; unfold k1; rewrite tasks_upd; destruct (decide (x = t)); [by apply fmap_is_Some|done]).
  set (k2 := ready_dequeue k1 t). assert (R2 : rqi k2) by (apply (dequeue_state k1 t 0 R1)).
  assert (S2 : forall x, state (task_at k2 x) = state (task_at k1 x)) by (intros x; apply (dequeue_state k1 t x R1)).
  assert (Dm2 : forall x, is_Some (tasks k1 !! x) -> is_Some (tasks k2 !! x)).
  { intros x. unfold k2, ready_dequeue. destruct (t =? 0); [done|]. destruct (dequeue_spec k1 t R1) as (_ & C1 & _). pose proof (sc_task _ _ C1 x) as E. intros Hx.
    rewrite <- (fmap_is_Some core), E. by apply fmap_is_Some. }
  change (psched (set_fld (set_psched s k1) F_dead_next t 0)) with k1. fold k2. set (s3 := set_psched (set_fld (set_psched s k1) F_dead_next t 0) k2).
  assert (H3 : dead_ok s3 D).
  { eapply dead_chain_frame; [exact HD| |done|done|].
    - intros x Hx. change (fld s3) with (fld (set_fld (set_psched s k1) F_dead_next t 0)). rewrite fld_same, decide_False; [done|]. by intros ->.
    - intros x Hx. change (psched s3) with k2. rewrite S2, S1. destruct (decide (x = t)); [done|]. by apply (dd_state _ _ HD). }
  destruct (dead_push_ok s3 D t H3 Ht0 HtD) as (H4 & E4 & Er).
  { change (fld s3) with (fld (set_fld (set_psched s k1) F_dead_next t 0)). by rewrite fld_same, decide_True. }
  { change (psched s3) with k2. by rewrite S2, S1, decide_True. }
  rewrite E4, Er. change (psched s3) with k2 in *. change (reaper_task s3) with (reaper_task s).
  assert (Hrp2 : reaper_task s = 0 \/ is_Some (tasks k2 !! reaper_task s)) by (destruct Hrp; [by left|right; auto]).
  split.
  - change (rqi (sched_wake_task k2 c (reaper_task s))). apply (wake_dead k2 c _ t R2 Hrp2). by rewrite S2, S1, decide_True.
  - apply dead_sched; [done|]. intros x Hx. apply wake_dead; [done|done|]. rewrite <- E4. by apply (dd_state _ _ H4).
Qed.

(** The dead are buried in the order they died: marking a task dead puts it at the end of
    the queue, once; a turn of the reaper takes the first, buries it when no CPU runs on its
    stack any more, and otherwise puts it back at the end. *)
Lemma dead_buried_in_order s D c t :
  dead_ok s D -> rqi (psched s) -> reaper_task s = 0 \/ is_Some (tasks (psched s) !! reaper_task s) -> t <> 0 -> is_Some (tasks (psched s) !! t) ->
  dead_ok (sched_mark_task_dead s c t) (if decide (state (task_at (psched s) t) = TASK_DEAD) then D else D ++ [t]) /\
  match D with
  | [] => reap_step s = (0, s)
  | x :: l => let '(b, s') := reap_step s in if on_cpu (task_at (psched s) x) then b = 0 /\ dead_ok s' (l ++ [x]) else b = x /\ dead_ok s' l
  end.
Proof.
  intros HD Hr Hrp Ht0 Hkt. split; [by apply mark_dead_ok|]. pose proof HD as [C N Tl St]. unfold reap_step. rewrite (schain_head _ _ _ C). destruct D as [|x l]; [done|].
  simpl default. destruct C as (E0 & Hx0 & C). rewrite (proj2 (Z.eqb_neq x 0)) by done. rewrite (schain_head _ _ _ C). set (h := default 0 (head l)).
  apply list.NoDup_cons in N as [Hxl N]. set (s1 := set_dead s h _).
  assert (H1 : dead_ok s1 l).
  { split; [change (schain (fld s F_dead_next) l h); by rewrite (schain_head _ _ _ C) in C|done| |intros y Hy; apply St; by right]. cbn [s1 set_dead dead_task_tail].
    unfold h. destruct l as [|y l]; simpl; [done|]. destruct (Z.eqb_spec y 0) as [->|]; [by destruct C as (_ & ? & _)|]. rewrite Tl. by rewrite last_cons_cons. }
  change (psched s1) with (psched s). destruct (on_cpu (task_at (psched s) x)).
  - split; [done|]. set (s2 := set_fld s1 F_dead_next x 0). change (dead_task_tail s2) with (dead_task_tail s1). change (dead_task_head s2) with (dead_task_head s1).
    assert (H2 : dead_ok s2 l).
    { eapply dead_chain_frame; [exact H1| |done|done|apply (dd_state _ _ H1)]. intros y Hy. unfold s2. rewrite fld_same, decide_False; [done|]. by intros ->. }
    destruct (dead_push_ok s2 l x H2 Hx0 Hxl) as (H3 & _); [unfold s2; by rewrite fld_same, decide_True|apply St; by left|].
    assert (Ez : (dead_task_tail s1 =? 0) = (dead_task_head s2 =? 0)).
    { rewrite (dd_tail _ _ H1), (schain_head _ _ _ (dd_chain _ _ H2)). destruct l as [|y l']; [done|]. destruct (list.last (y :: l')) as [z|] eqn:Ez; [|by apply last_None in Ez].
      pose proof (schain_nonnull _ _ _ (dd_chain _ _ H2)) as H0. apply last_Some_elem_of in Ez. simpl. rewrite !(proj2 (Z.eqb_neq _ 0)); [done| |]; intros ->; apply H0; [by left|done]. }
    unfold dead_push in H3. rewrite Ez. change (dead_task_tail s2) with (dead_task_tail s1) in H3. by destruct (dead_task_head s2 =? 0).
  - split; [done|]. set (s2 := set_pwait s1 _). destruct (unlink_dead s2 x) as (A & B & E & F). assert (Ep : psched s2 = psched s) by (unfold psched; simpl; apply cleanup_sched).
    rewrite Ep in F. eapply dead_chain_frame; [exact H1|intros y _; by rewrite A|by rewrite B|by rewrite E|]. intros y Hy. rewrite F.
    rewrite (proj2 (dequeue_state (psched s) x y Hr)). apply St. by right.
Qed.

(** ** An example: the reaper and a child of its *)

Definition demo_procs : procs :=
  {| fld := fun f t => match f with F_id | F_tgid => if t =? 4096 then 1 else if t =? 16384 then 2 else 0 | F_ppid => if t =? 16384 then 1 else 0 | _ => 0 end;
     pid_bitmap := replicate 512 0; pid_cursor := 1; pid_hash := replicate 256 0; task_list_head := 0; task_count := 0; dead_task_head := 0;
     dead_task_tail := 0; reaper_task := 4096; pwait := demo_wait |}.

Definition demo_procs1 : procs := sched_queue_task_locked demo_procs 0 4096.

Definition demo_procs2 : procs := sched_queue_task_locked demo_procs1 0 16384.

Lemma demo_pids_ok : pids_ok (pid_bitmap demo_procs).
Proof. split; [done|]. apply Forall_replicate. lia. Qed.

Lemma demo_table : table_ok demo_procs [].
Proof.
  split; [apply not_elem_of_nil|apply NoDup_nil_2|done|done|done| |].
  - intros b Hb. exists []. split; [|split; [apply NoDup_nil_2|]].
    + unfold bucket, demo_procs. cbn [pid_hash]. rewrite lookup_replicate_2 by lia. done.
    + intros t. split; [intros ?%not_elem_of_nil|intros [?%not_elem_of_nil _]]; done.
  - intros t u ?%not_elem_of_nil. done.
Qed.

Lemma demo_tree : tree_ok demo_procs [] (fun _ => []).
Proof. split; [apply not_elem_of_nil|..]; intros ?; intros; exfalso; by eapply not_elem_of_nil. Qed.

Lemma demo1_ok : exists CH, table_ok demo_procs1 [4096] /\ tree_ok demo_procs1 [4096] CH.
Proof.
  destruct (queue_task_ok demo_procs [] (fun _ => []) 0 4096 demo_table demo_tree) as (CH & A & B & _); try done; [apply not_elem_of_nil|intros u ?%not_elem_of_nil; done|].
  by exists CH.
Qed.

(** The fields the examples read, computed once. *)
Lemma demo1_fields :
  fld demo_procs1 F_id 16384 = 2 /\ fld demo_procs1 F_id 4096 = 1 /\ fld demo_procs1 F_parent 16384 = 0 /\ fld demo_procs1 F_children 16384 = 0.
Proof. repeat split; vm_compute; reflexivity. Qed.

Lemma demo2_fields :
  pid_bitmap demo_procs2 = replicate 512 0 /\ fld demo_procs2 F_id 16384 = 2 /\ fld demo_procs2 F_parent 16384 = 4096 /\ fld demo_procs2 F_parent 4096 = 0.
Proof. repeat split; vm_compute; reflexivity. Qed.

Lemma demo_procs2_eq : demo_procs2 = sched_queue_task_locked demo_procs1 0 16384.
Proof. unfold demo_procs2. reflexivity. Qed.

Lemma demo2_ok : exists CH, table_ok demo_procs2 [4096; 16384] /\ tree_ok demo_procs2 [4096; 16384] CH /\ pids_ok (pid_bitmap demo_procs2) /\
  (0 <= fld demo_procs2 F_id 16384 < MAX_PIDS) /\ (forall k, k ∈ CH 16384 -> fld demo_procs2 F_id k <> REAPER_PID).
Proof.
  destruct demo1_ok as (CH & A & B). destruct demo1_fields as (E1 & E2 & E3 & E4).
  destruct (queue_task_ok demo_procs1 [4096] CH 0 16384 A B) as (CH2 & A2 & B2 & _);
    [lia|by intros ?%list_elem_of_singleton|intros u ->%list_elem_of_singleton; rewrite E1, E2; lia|exact E3|exact E4|simpl; lia|].
  destruct demo2_fields as (F1 & F2 & F3 & F4).
  cbv zeta in A2, B2. rewrite <- demo_procs2_eq in A2, B2. exists CH2. split; [exact A2|]. split; [exact B2|]. rewrite F1, F2.
  split; [exact demo_pids_ok|]. split; [unfold MAX_PIDS; lia|].
  intros k Hk. apply (tr_mem _ _ _ B2 16384 k) in Hk as [Hk E]; [|right; left].
  apply elem_of_cons in Hk as [->|Hk]; [rewrite F4 in E; discriminate E|]. apply list_elem_of_singleton in Hk as ->. rewrite F3 in E. discriminate E.
Qed.

Lemma alloc_pid_unique_witness : (alloc_pid demo_procs).1 = 1 /\ pids_ok (pid_bitmap (free_pid_locked demo_procs 7)).
Proof.
  destruct (alloc_pid_unique demo_procs demo_pids_ok ltac:(done)) as [_ H]. split; [vm_compute; reflexivity|]. apply (H 7). done.
Defined.

Lemma queue_task_enters_witness : sched_lookup_locked demo_procs1 1 = 4096.
Proof.
  destruct (queue_task_enters demo_procs [] (fun _ => []) 0 4096 demo_table demo_tree ltac:(done) ltac:(apply not_elem_of_nil)
    ltac:(intros u ?%not_elem_of_nil; done) ltac:(done) ltac:(done) ltac:(done)) as (_ & _ & _ & H & _). exact H.
Defined.


Lemma reparent_hands_over_witness : table_ok (sched_reparent_children demo_procs2 16384).2 [4096; 16384].
Proof.
  destruct demo2_ok as (CH & A & B & _ & _ & K).
  pose proof (reparent_hands_over demo_procs2 [4096; 16384] CH 16384 A B ltac:(right; left)) as H. cbv zeta in H.
  destruct (sched_reparent_children demo_procs2 16384) as [z s']. destruct H as (CH' & k1 & k2 & _ & T & _); [exact K|exact T].
Defined.

Lemma dead_buried_in_order_witness : dead_ok (sched_mark_task_dead demo_procs 0 16384) [16384].
Proof.
  assert (HD : dead_ok demo_procs []) by (split; [done|apply NoDup_nil_2|done|intros x ?%not_elem_of_nil; done]).
  destruct (dead_buried_in_order demo_procs [] 0 16384 HD (wo_rqi _ _ _ demo_wait_ok) ltac:(right; vm_compute; by eexists) ltac:(done) ltac:(vm_compute; by eexists)) as [H _].
  rewrite decide_False in H by (vm_compute; done). exact H.
Defined.
