(* ===== verification/Net.v ===== *)
(** * The network stack up to IP

    [kernel/src/net/]: [net.c] (buffers, interfaces, the Internet checksum), [ether.c],
    [arp.c], [ipv4.c] and [ipv4_frag.c].  A buffer has the address of its heap block, where
    its data starts in the block, and its data.  What reaches ICMP, UDP and TCP is recorded in
    [delivered]; the driver of an interface, which is loaded at run time, is the argument
    [send].  Interfaces are indices, -1 is the loopback interface. *)

From S2P Require Import Prelude Pmm Machine Bytes Heap.

(** ** Constants *)

Definition ENOBUFS : Z := 105.

Definition EMSGSIZE : Z := 90.

Definition ENETUNREACH : Z := 101.

Definition ETH_ALEN : Z := 6.

Definition ETH_HLEN : Z := 14.

Definition ETH_MTU : Z := 1500.

Definition ETH_TYPE_IPV4 : Z := 0x0800.

Definition ETH_TYPE_ARP : Z := 0x0806.

Definition NETIF_MAX : Z := 4.

Definition NETBUF_SIZE : Z := 2048.

Definition NETBUF_HEADROOM : Z := 64.

Definition IP_PROTO_ICMP : Z := 1.

Definition IP_PROTO_TCP : Z := 6.

Definition IP_PROTO_UDP : Z := 17.

Definition IP_HLEN : Z := 20.

Definition IP_TTL : Z := 64.

Definition IP_FLAG_MF : Z := 0x2000.

Definition IP_FRAG_MASK : Z := 0x1FFF.

Definition IP_BROADCAST : Z := 0xFFFFFFFF.

Definition IP_MAX_PAYLOAD : Z := 0xFFFF - IP_HLEN.

Definition IP_FRAG_CHUNK : Z := ETH_MTU - IP_HLEN.

Definition IP_FRAG_SLOTS : nat := 4.

Definition IP_FRAG_TIMEOUT_MS : Z := 5000.

Definition IP_LO_QUEUE : Z := 256.

Definition IP_LO_BATCH : nat := 64.

Definition FRAG_BLOCKS : Z := (IP_MAX_PAYLOAD + 7) / 8.

Definition ARP_HW_ETHER : Z := 1.

Definition ARP_OP_REQUEST : Z := 1.

Definition ARP_OP_REPLY : Z := 2.

Definition ARP_CACHE_SIZE : nat := 32.

Definition ARP_RETRY_MS : Z := 1000.

Definition ARP_TRIES : Z := 3.

Definition ARP_TTL_MS : Z := 10 * 60 * 1000.

(** [sizeof(netbuf_t)]. *)
Definition sizeof_netbuf : Z := 16 + NETBUF_SIZE.

(** ** Bytes of packed structures *)

(** [n] bytes of a number, the machine's order. *)
Definition le_bytes (n : nat) (z : Z) : list Z := (fun i => Z.land (z ≫ (8 * Z.of_nat i)) 255) <$> seq 0 n.

(** The number in [n] bytes at [off]. *)
Definition rd_le (bs : list Z) (off n : nat) : Z := bytes_word (take n (drop off bs)).

Definition htons (x : Z) : Z := Z.lor (Z.land x 255 ≪ 8) (Z.land (x ≫ 8) 255).

Definition ntohs (x : Z) : Z := htons x.

Definition not32 (x : Z) : Z := Z.lxor x 0xFFFFFFFF.

(** ** Buffers, [net.c] *)

Record netbuf := { nb_ptr : Z; nb_off : Z; nb_data : list Z }.

Definition nb_len (nb : netbuf) : Z := Z.of_nat (length (nb_data nb)).

(** The pushed bytes are the ones the caller then writes. *)
Definition netbuf_push (nb : netbuf) (bs : list Z) : option netbuf :=
  if nb_off nb <? Z.of_nat (length bs) then None
  else Some {| nb_ptr := nb_ptr nb; nb_off := nb_off nb - Z.of_nat (length bs); nb_data := bs ++ nb_data nb |}.

Definition netbuf_put (nb : netbuf) (bs : list Z) : option netbuf :=
  if NETBUF_SIZE <? nb_off nb + nb_len nb + Z.of_nat (length bs) then None
  else Some {| nb_ptr := nb_ptr nb; nb_off := nb_off nb; nb_data := nb_data nb ++ bs |}.

(** ** The Internet checksum *)

Fixpoint net_checksum_partial (data : list Z) (sum : Z) : Z :=
  match data with
  | a :: b :: rest => net_checksum_partial rest (wrap32 (sum + Z.lor (a ≪ 8) b))
  | [a] => wrap32 (sum + a ≪ 8)
  | [] => sum
  end.

(** [while (sum >> 16)]; a sum of 32 bits is folded three times at most. *)
Fixpoint fold_sum (fuel : nat) (sum : Z) : Z :=
  match fuel with
  | O => sum
  | S fuel => if sum ≫ 16 =? 0 then sum else fold_sum fuel (Z.land sum 0xFFFF + sum ≫ 16)
  end.

Definition net_checksum (data : list Z) (start : Z) : Z :=
  htons (Z.land (Z.lnot (fold_sum 4 (net_checksum_partial data start))) 0xFFFF).

(** ** State *)

Record netif := {
  nif_mac : list Z;
  nif_ip : Z;
  nif_netmask : Z;
  nif_gateway : Z;
  nif_configured : bool;
  rx_frames : Z;
  rx_bytes : Z;
  tx_frames : Z;
  tx_bytes : Z;
}.

Record ipv4_hdr := {
  ver_ihl : Z;
  tos : Z;
  total_len : Z;
  ip_id : Z;
  ip_off : Z;
  ttl : Z;
  ip_proto : Z;
  ip_checksum : Z;
  ip_src : Z;
  ip_dst : Z;
}.

(** [ip_frag_t]; a byte of the buffer nothing was copied to is [None]. *)
Record ip_frag := {
  f_used : bool;
  f_src : Z;
  f_dst : Z;
  f_id : Z;
  f_proto : Z;
  f_started : Z;
  f_total : Z;
  f_blocks : Z;
  f_ptr : Z;
  f_data : list (option Z);
  f_have : list Z;
}.

Inductive arp_state := ARP_FREE | ARP_PENDING | ARP_RESOLVED.

#[export] Instance arp_state_eq_dec : EqDecision arp_state.
Proof. solve_decision. Defined.

Record arp_entry := {
  a_ip : Z;
  a_mac : list Z;
  a_state : arp_state;
  a_tries : Z;
  a_stamp : Z;
  a_nif : Z;
  a_pending : option netbuf;
}.

(** What [ipv4_deliver] hands to the protocol above. *)
Record delivery := { d_nif : Z; d_src : Z; d_dst : Z; d_proto : Z; d_payload : list (option Z) }.

(** [H] is the heap, [D] the state of the drivers. *)
Record net (H D : Type) := {
  n_heap : H;
  n_dev : D;
  now_ms : Z;
  netifs : list netif;
  ip_next_id : Z;
  lo_queue : list (option (netbuf * Z));
  lo_head : Z;
  lo_count : Z;
  frags : list ip_frag;
  frags_dropped : Z;
  arp_cache : list arp_entry;
  delivered : list delivery;
}.
Arguments n_heap {H D}.
Arguments n_dev {H D}.
Arguments now_ms {H D}.
Arguments netifs {H D}.
Arguments ip_next_id {H D}.
Arguments lo_queue {H D}.
Arguments lo_head {H D}.
Arguments lo_count {H D}.
Arguments frags {H D}.
Arguments frags_dropped {H D}.
Arguments arp_cache {H D}.
Arguments delivered {H D}.

Section Net.

Context {H D : Type} `{Heap H} (send : Z -> list Z -> D -> Z * D).

Implicit Types s : net H D.

Definition n_set_heap s (h : H) : net H D :=
  {| n_heap := h; n_dev := n_dev s; now_ms := now_ms s; netifs := netifs s; ip_next_id := ip_next_id s; lo_queue := lo_queue s;
     lo_head := lo_head s; lo_count := lo_count s; frags := frags s; frags_dropped := frags_dropped s; arp_cache := arp_cache s; delivered := delivered s |}.

Definition n_set_dev s (d : D) : net H D :=
  {| n_heap := n_heap s; n_dev := d; now_ms := now_ms s; netifs := netifs s; ip_next_id := ip_next_id s; lo_queue := lo_queue s;
     lo_head := lo_head s; lo_count := lo_count s; frags := frags s; frags_dropped := frags_dropped s; arp_cache := arp_cache s; delivered := delivered s |}.

Definition n_set_netifs s (l : list netif) : net H D :=
  {| n_heap := n_heap s; n_dev := n_dev s; now_ms := now_ms s; netifs := l; ip_next_id := ip_next_id s; lo_queue := lo_queue s;
     lo_head := lo_head s; lo_count := lo_count s; frags := frags s; frags_dropped := frags_dropped s; arp_cache := arp_cache s; delivered := delivered s |}.

Definition n_set_id s (i : Z) : net H D :=
  {| n_heap := n_heap s; n_dev := n_dev s; now_ms := now_ms s; netifs := netifs s; ip_next_id := i; lo_queue := lo_queue s;
     lo_head := lo_head s; lo_count := lo_count s; frags := frags s; frags_dropped := frags_dropped s; arp_cache := arp_cache s; delivered := delivered s |}.

Definition n_set_lo s (q : list (option (netbuf * Z))) (h c : Z) : net H D :=
  {| n_heap := n_heap s; n_dev := n_dev s; now_ms := now_ms s; netifs := netifs s; ip_next_id := ip_next_id s; lo_queue := q;
     lo_head := h; lo_count := c; frags := frags s; frags_dropped := frags_dropped s; arp_cache := arp_cache s; delivered := delivered s |}.

Definition n_set_frags s (l : list ip_frag) (dropped : Z) : net H D :=
  {| n_heap := n_heap s; n_dev := n_dev s; now_ms := now_ms s; netifs := netifs s; ip_next_id := ip_next_id s; lo_queue := lo_queue s;
     lo_head := lo_head s; lo_count := lo_count s; frags := l; frags_dropped := dropped; arp_cache := arp_cache s; delivered := delivered s |}.

Definition n_set_arp s (l : list arp_entry) : net H D :=
  {| n_heap := n_heap s; n_dev := n_dev s; now_ms := now_ms s; netifs := netifs s; ip_next_id := ip_next_id s; lo_queue := lo_queue s;
     lo_head := lo_head s; lo_count := lo_count s; frags := frags s; frags_dropped := frags_dropped s; arp_cache := l; delivered := delivered s |}.

Definition n_deliver s (d : delivery) : net H D :=
  {| n_heap := n_heap s; n_dev := n_dev s; now_ms := now_ms s; netifs := netifs s; ip_next_id := ip_next_id s; lo_queue := lo_queue s;
     lo_head := lo_head s; lo_count := lo_count s; frags := frags s; frags_dropped := frags_dropped s; arp_cache := arp_cache s; delivered := delivered s ++ [d] |}.

(** ** [net.c] *)

Definition n_kmalloc s (n : Z) : Z * net H D := let '(p, h) := kmalloc n (n_heap s) in (p, n_set_heap s h).

(** [kfree] does nothing for [NULL]. *)
Definition n_kfree s (p : Z) : net H D := n_set_heap s (kfree_nonnull p (n_heap s)).

Definition netbuf_alloc s : option netbuf * net H D :=
  let '(p, s) := n_kmalloc s sizeof_netbuf in
  if p =? 0 then (None, s) else (Some {| nb_ptr := p; nb_off := NETBUF_HEADROOM; nb_data := [] |}, s).

Definition netbuf_free s (nb : option netbuf) : net H D := match nb with Some nb => n_kfree s (nb_ptr nb) | None => s end.

(** [netif_lo]. *)
Definition netif_lo : netif :=
  {| nif_mac := replicate 6 0; nif_ip := 0; nif_netmask := 0; nif_gateway := 0; nif_configured := false;
     rx_frames := 0; rx_bytes := 0; tx_frames := 0; tx_bytes := 0 |}.

Definition nif_at s (i : Z) : netif := if i =? -1 then netif_lo else default netif_lo (netifs s !! Z.to_nat i).

(** The new interface's index, -1 stands for [NULL]. *)
Definition netif_register s (mac : list Z) : Z * net H D :=
  let n := Z.of_nat (length (netifs s)) in
  if NETIF_MAX <=? n then (-1, s)
  else (n, n_set_netifs s (netifs s ++ [{| nif_mac := mac; nif_ip := 0; nif_netmask := 0; nif_gateway := 0; nif_configured := false;
                                           rx_frames := 0; rx_bytes := 0; tx_frames := 0; tx_bytes := 0 |}])).

Fixpoint first_configured (l : list netif) (i : Z) : option Z :=
  match l with
  | [] => None
  | n :: l => if nif_configured n then Some i else first_configured l (i + 1)
  end.

Definition netif_default s : option Z :=
  match first_configured (netifs s) 0 with
  | Some i => Some i
  | None => match netifs s with [] => None | _ => Some 0 end
  end.

(** ** [ether.c] *)

Definition eth_broadcast : list Z := replicate 6 255.

Definition nif_update s (i : Z) (f : netif -> netif) : net H D :=
  if i =? -1 then s else n_set_netifs s (alter f (Z.to_nat i) (netifs s)).

Definition count_tx (n : Z) (nif : netif) : netif :=
  {| nif_mac := nif_mac nif; nif_ip := nif_ip nif; nif_netmask := nif_netmask nif; nif_gateway := nif_gateway nif;
     nif_configured := nif_configured nif; rx_frames := rx_frames nif; rx_bytes := rx_bytes nif;
     tx_frames := tx_frames nif +w 1; tx_bytes := tx_bytes nif +w n |}.

Definition count_rx (n : Z) (nif : netif) : netif :=
  {| nif_mac := nif_mac nif; nif_ip := nif_ip nif; nif_netmask := nif_netmask nif; nif_gateway := nif_gateway nif;
     nif_configured := nif_configured nif; rx_frames := rx_frames nif +w 1; rx_bytes := rx_bytes nif +w n;
     tx_frames := tx_frames nif; tx_bytes := tx_bytes nif |}.

Definition ether_output s (nif : Z) (nb : netbuf) (dst : list Z) (type : Z) : Z * net H D :=
  match netbuf_push nb (dst ++ nif_mac (nif_at s nif) ++ le_bytes 2 (htons type)) with
  | None => (- ENOBUFS, netbuf_free s (Some nb))
  | Some nb =>
    let '(err, d) := send nif (nb_data nb) (n_dev s) in
    let s := n_set_dev s d in
    let s := if err =? 0 then nif_update s nif (count_tx (nb_len nb)) else s in
    (err, netbuf_free s (Some nb))
  end.

(** ** [arp.c] *)

Fixpoint arp_find (ip : Z) (l : list arp_entry) (i : nat) : option nat :=
  match l with
  | [] => None
  | a :: l => if negb (bool_decide (a_state a = ARP_FREE)) && (a_ip a =? ip) then Some i else arp_find ip l (S i)
  end.

(** The first free entry, or the oldest resolved one; [oldest] is its index and stamp. *)
Fixpoint arp_slot (l : list arp_entry) (i : nat) (oldest : option (nat * Z)) : option nat :=
  match l with
  | [] => fst <$> oldest
  | a :: l =>
    match a_state a with
    | ARP_FREE => Some i
    | ARP_PENDING => arp_slot l (S i) oldest
    | ARP_RESOLVED =>
      arp_slot l (S i) (match oldest with
                        | None => Some (i, a_stamp a)
                        | Some (j, st) => if a_stamp a <? st then Some (i, a_stamp a) else oldest
                        end)
    end
  end.

(** [arp_pkt_t]. *)
Definition arp_bytes (op : Z) (smac : list Z) (sip : Z) (tmac : list Z) (tip : Z) : list Z :=
  le_bytes 2 (htons ARP_HW_ETHER) ++ le_bytes 2 (htons ETH_TYPE_IPV4) ++ [ETH_ALEN; 4] ++ le_bytes 2 (htons op) ++
  smac ++ le_bytes 4 sip ++ tmac ++ le_bytes 4 tip.

(** [tmac] is [None] for [NULL]; the bytes fit a fresh buffer. *)
Definition arp_send s (nif op : Z) (tmac : option (list Z)) (tip : Z) : Z * net H D :=
  let '(nb, s) := netbuf_alloc s in
  match nb with
  | None => (- ENOMEM, s)
  | Some nb =>
    let i := nif_at s nif in
    match netbuf_put nb (arp_bytes op (nif_mac i) (nif_ip i) (default (replicate 6 0) tmac) tip) with
    | None => (- EFAULT, s)
    | Some nb => ether_output s nif nb (if op =? ARP_OP_REPLY then default [] tmac else eth_broadcast) ETH_TYPE_ARP
    end
  end.

Definition arp_at s (j : nat) : arp_entry :=
  default {| a_ip := 0; a_mac := replicate 6 0; a_state := ARP_FREE; a_tries := 0; a_stamp := 0; a_nif := -1; a_pending := None |} (arp_cache s !! j).

Definition arp_input s (nif : Z) (data : list Z) : net H D :=
  if Z.of_nat (length data) <? 28 then s
  else if negb (ntohs (rd_le data 0 2) =? ARP_HW_ETHER) || negb (ntohs (rd_le data 2 2) =? ETH_TYPE_IPV4) ||
          negb (rd_le data 4 1 =? ETH_ALEN) || negb (rd_le data 5 1 =? 4)
  then s
  else
    let op := ntohs (rd_le data 6 2) in
    let mac := take 6 (drop 8 data) in
    let sender := rd_le data 14 4 in
    let for_us := negb (nif_ip (nif_at s nif) =? 0) && (rd_le data 24 4 =? nif_ip (nif_at s nif)) in
    let a := if negb (sender =? 0) then arp_find sender (arp_cache s) 0 else None in
    let a := match a with
             | Some j => Some j
             | None => if negb (sender =? 0) && for_us then arp_slot (arp_cache s) 0 None else None
             end in
    let '(flush, s) :=
      match a with
      | None => (None, s)
      | Some j =>
        (a_pending (arp_at s j),
         n_set_arp s (<[j := {| a_ip := sender; a_mac := mac; a_state := ARP_RESOLVED; a_tries := a_tries (arp_at s j);
                                a_stamp := now_ms s; a_nif := nif; a_pending := None |}]> (arp_cache s)))
      end in
    let s := match flush with Some nb => (ether_output s nif nb mac ETH_TYPE_IPV4).2 | None => s end in
    if for_us && (op =? ARP_OP_REQUEST) then (arp_send s nif ARP_OP_REPLY (Some mac) sender).2 else s.

Definition subnet_broadcast (n : netif) : Z := Z.lor (Z.land (nif_ip n) (nif_netmask n)) (not32 (nif_netmask n)).

Definition arp_output s (nif : Z) (nb : netbuf) (next_hop : Z) : Z * net H D :=
  let i := nif_at s nif in
  if (next_hop =? IP_BROADCAST) || (negb (nif_netmask i =? 0) && (next_hop =? subnet_broadcast i))
  then ether_output s nif nb eth_broadcast ETH_TYPE_IPV4
  else
    match arp_find next_hop (arp_cache s) 0 with
    | Some j =>
      let a := arp_at s j in
      if bool_decide (a_state a = ARP_RESOLVED) then ether_output s nif nb (a_mac a) ETH_TYPE_IPV4
      else
        let old := a_pending a in
        let s := n_set_arp s (<[j := {| a_ip := a_ip a; a_mac := a_mac a; a_state := a_state a; a_tries := a_tries a;
                                        a_stamp := a_stamp a; a_nif := a_nif a; a_pending := Some nb |}]> (arp_cache s)) in
        (0, netbuf_free s old)
    | None =>
      match arp_slot (arp_cache s) 0 None with
      | None => (- ENOBUFS, netbuf_free s (Some nb))
      | Some j =>
        let a := arp_at s j in
        let evicted := a_pending a in
        let s := n_set_arp s (<[j := {| a_ip := next_hop; a_mac := a_mac a; a_state := ARP_PENDING; a_tries := 1;
                                        a_stamp := now_ms s; a_nif := nif; a_pending := Some nb |}]> (arp_cache s)) in
        let s := netbuf_free s evicted in
        (0, (arp_send s nif ARP_OP_REQUEST None next_hop).2)
      end
    end.

(** The turn of [arp_tick] for entry [j]; [now] is read once. *)
Definition arp_tick_entry (now : Z) (j : Z) s : net H D :=
  let k := Z.to_nat j in
  let a := arp_at s k in
  match a_state a with
  | ARP_PENDING =>
    if ARP_RETRY_MS <=? now -w a_stamp a
    then
      if ARP_TRIES <=? a_tries a
      then
        let s := n_set_arp s (<[k := {| a_ip := a_ip a; a_mac := a_mac a; a_state := ARP_FREE; a_tries := a_tries a;
                                        a_stamp := a_stamp a; a_nif := a_nif a; a_pending := None |}]> (arp_cache s)) in
        netbuf_free s (a_pending a)
      else
        let s := n_set_arp s (<[k := {| a_ip := a_ip a; a_mac := a_mac a; a_state := ARP_PENDING; a_tries := a_tries a + 1;
                                        a_stamp := now; a_nif := a_nif a; a_pending := a_pending a |}]> (arp_cache s)) in
        (arp_send s (a_nif a) ARP_OP_REQUEST None (a_ip a)).2
    else s
  | ARP_RESOLVED =>
    if ARP_TTL_MS <=? now -w a_stamp a
    then n_set_arp s (<[k := {| a_ip := a_ip a; a_mac := a_mac a; a_state := ARP_FREE; a_tries := a_tries a;
                                a_stamp := a_stamp a; a_nif := a_nif a; a_pending := a_pending a |}]> (arp_cache s))
    else s
  | ARP_FREE => s
  end.

Definition arp_tick s : net H D := for_range ARP_CACHE_SIZE 0 (arp_tick_entry (now_ms s)) s.

(** ** Fragments, [ipv4_frag.c] *)

Definition frag_at s (j : nat) : ip_frag :=
  default {| f_used := false; f_src := 0; f_dst := 0; f_id := 0; f_proto := 0; f_started := 0; f_total := 0; f_blocks := 0;
             f_ptr := 0; f_data := []; f_have := [] |} (frags s !! j).

Definition frag_off (f : ip_frag) : ip_frag :=
  {| f_used := false; f_src := f_src f; f_dst := f_dst f; f_id := f_id f; f_proto := f_proto f; f_started := f_started f;
     f_total := f_total f; f_blocks := f_blocks f; f_ptr := 0; f_data := []; f_have := f_have f |}.

Definition frag_free s (j : nat) : net H D :=
  let s := n_kfree s (f_ptr (frag_at s j)) in
  n_set_frags s (alter frag_off j (frags s)) (frags_dropped s).

Definition frag_key (f : ip_frag) (ip : ipv4_hdr) : bool :=
  (f_src f =? ip_src ip) && (f_dst f =? ip_dst ip) && (f_id f =? ip_id ip) && (f_proto f =? ip_proto ip).

(** The loop of [frag_slot]: the slot of the packet, or the oldest and the first free one. *)
Fixpoint frag_scan (ip : ipv4_hdr) (l : list ip_frag) (j : nat) (oldest : option (nat * Z)) (free : option nat) : nat + (option nat * option nat) :=
  match l with
  | [] => inr (fst <$> oldest, free)
  | f :: l =>
    if negb (f_used f) then frag_scan ip l (S j) oldest (match free with None => Some j | _ => free end)
    else if frag_key f ip then inl j
    else frag_scan ip l (S j) (match oldest with
                               | None => Some (j, f_started f)
                               | Some (_, st) => if f_started f <? st then Some (j, f_started f) else oldest
                               end) free
  end.

Definition frag_new s (ip : ipv4_hdr) (ptr : Z) : ip_frag :=
  {| f_used := true; f_src := ip_src ip; f_dst := ip_dst ip; f_id := ip_id ip; f_proto := ip_proto ip; f_started := now_ms s;
     f_total := 0; f_blocks := 0; f_ptr := ptr; f_data := replicate (Z.to_nat IP_MAX_PAYLOAD) None;
     f_have := replicate (Z.to_nat (FRAG_BLOCKS / 8 + 1)) 0 |}.

(** The slot of the packet, or none when the heap is out. *)
Definition frag_slot s (ip : ipv4_hdr) : option nat * net H D :=
  match frag_scan ip (frags s) 0 None None with
  | inl j => (Some j, s)
  | inr (oldest, free) =>
    let '(j, s) :=
      match free with
      | Some j => (j, s)
      | None => let j := default O oldest in (j, frag_free (n_set_frags s (frags s) (frags_dropped s +w 1)) j)
      end in
    let '(p, s) := n_kmalloc s IP_MAX_PAYLOAD in
    if p =? 0 then (None, n_set_frags s (alter frag_off j (frags s)) (frags_dropped s))
    else (Some j, n_set_frags s (<[j := frag_new s ip p]> (frags s)) (frags_dropped s))
  end.

(** [have] and [blocks] after block [b] has come. *)
Definition frag_mark (b : Z) (hb : list Z * Z) : list Z * Z :=
  let '(have, blocks) := hb in
  if negb (BIT_TST have b) then (BIT_SET have b, blocks + 1) else (have, blocks).

Definition copy_in (data : list (option Z)) (off : nat) (bs : list Z) : list (option Z) :=
  take off data ++ (Some <$> bs) ++ drop (off + length bs) data.

Definition frag_take (f : ip_frag) (offset : Z) (payload : list Z) (more : bool) : ip_frag :=
  let len := Z.of_nat (length payload) in
  let first := offset / 8 in
  let '(have, blocks) := for_range (Z.to_nat ((offset + len + 7) / 8 - first)) first frag_mark (f_have f, f_blocks f) in
  {| f_used := true; f_src := f_src f; f_dst := f_dst f; f_id := f_id f; f_proto := f_proto f; f_started := f_started f;
     f_total := if negb more then offset + len else f_total f; f_blocks := blocks; f_ptr := f_ptr f;
     f_data := copy_in (f_data f) (Z.to_nat offset) payload; f_have := have |}.

Definition frag_complete (f : ip_frag) : bool := negb (f_total f =? 0) && (f_blocks f =? (f_total f + 7) / 8).

(** The buffer and its contents up to the length, when the packet is whole. *)
Definition ipv4_reassemble s (ip : ipv4_hdr) (payload : list Z) : option (Z * list (option Z)) * net H D :=
  let frag := ntohs (ip_off ip) in
  let offset := Z.land frag IP_FRAG_MASK * 8 in
  let more := flag frag IP_FLAG_MF in
  let len := Z.of_nat (length payload) in
  if (IP_MAX_PAYLOAD <? offset + len) || (more && (negb (len `mod` 8 =? 0) || (len =? 0))) then (None, s)
  else
    let '(slot, s) := frag_slot s ip in
    match slot with
    | None => (None, s)
    | Some j =>
      let f := frag_take (frag_at s j) offset payload more in
      if frag_complete f
      then (Some (f_ptr f, take (Z.to_nat (f_total f)) (f_data f)), n_set_frags s (<[j := frag_off f]> (frags s)) (frags_dropped s))
      else (None, n_set_frags s (<[j := f]> (frags s)) (frags_dropped s))
    end.

Definition frag_tick_slot (now : Z) (j : Z) s : net H D :=
  let f := frag_at s (Z.to_nat j) in
  if f_used f && (IP_FRAG_TIMEOUT_MS <=? now -w f_started f)
  then let s := frag_free s (Z.to_nat j) in n_set_frags s (frags s) (frags_dropped s +w 1)
  else s.

Definition ipv4_frag_tick s : net H D := for_range IP_FRAG_SLOTS 0 (frag_tick_slot (now_ms s)) s.

(** ** [ipv4.c] *)

Definition IP_LOOPBACK (ip : Z) : bool := Z.land ip 0xFF =? 127.

Definition ip_hdr_bytes (h : ipv4_hdr) : list Z :=
  [ver_ihl h; tos h] ++ le_bytes 2 (total_len h) ++ le_bytes 2 (ip_id h) ++ le_bytes 2 (ip_off h) ++ [ttl h; ip_proto h] ++
  le_bytes 2 (ip_checksum h) ++ le_bytes 4 (ip_src h) ++ le_bytes 4 (ip_dst h).

Definition ip_hdr_read (bs : list Z) : ipv4_hdr :=
  {| ver_ihl := rd_le bs 0 1; tos := rd_le bs 1 1; total_len := rd_le bs 2 2; ip_id := rd_le bs 4 2; ip_off := rd_le bs 6 2;
     ttl := rd_le bs 8 1; ip_proto := rd_le bs 9 1; ip_checksum := rd_le bs 10 2; ip_src := rd_le bs 12 4; ip_dst := rd_le bs 16 4 |}.

Definition with_checksum (c : Z) (h : ipv4_hdr) : ipv4_hdr :=
  {| ver_ihl := ver_ihl h; tos := tos h; total_len := total_len h; ip_id := ip_id h; ip_off := ip_off h; ttl := ttl h;
     ip_proto := ip_proto h; ip_checksum := c; ip_src := ip_src h; ip_dst := ip_dst h |}.

Definition ipv4_is_ours (n : netif) (dst : Z) : bool :=
  if (dst =? IP_BROADCAST) || IP_LOOPBACK dst then true
  else if negb (nif_configured n) then true
  else if dst =? nif_ip n then true
  else negb (nif_netmask n =? 0) && (dst =? subnet_broadcast n).

(** [ipv4_pseudo_t] summed up. *)
Definition ipv4_pseudo_sum (src dst proto len : Z) : Z :=
  net_checksum_partial (le_bytes 4 src ++ le_bytes 4 dst ++ [0; proto] ++ le_bytes 2 (htons (Z.land len 0xFFFF))) 0.

Definition ipv4_deliver s (nif src dst proto : Z) (payload : list (option Z)) : net H D :=
  if (proto =? IP_PROTO_ICMP) || (proto =? IP_PROTO_UDP) || (proto =? IP_PROTO_TCP)
  then n_deliver s {| d_nif := nif; d_src := src; d_dst := dst; d_proto := proto; d_payload := payload |}
  else s.

Definition ipv4_input s (nif : Z) (data : list Z) : net H D :=
  let len := Z.of_nat (length data) in
  if len <? IP_HLEN then s
  else
    let ip := ip_hdr_read data in
    let hlen := Z.land (ver_ihl ip) 0x0F * 4 in
    let tlen := ntohs (total_len ip) in
    if negb (ver_ihl ip ≫ 4 =? 4) || (hlen <? IP_HLEN) || (len <? hlen) || (tlen <? hlen) || (len <? tlen) then s
    else if negb (net_checksum (take (Z.to_nat hlen) data) 0 =? 0) then s
    else if negb (ipv4_is_ours (nif_at s nif) (ip_dst ip)) then s
    else
      let payload := take (Z.to_nat (tlen - hlen)) (drop (Z.to_nat hlen) data) in
      if negb (flag (ntohs (ip_off ip)) (Z.lor IP_FLAG_MF IP_FRAG_MASK))
      then ipv4_deliver s nif (ip_src ip) (ip_dst ip) (ip_proto ip) (Some <$> payload)
      else
        let '(whole, s) := ipv4_reassemble s ip payload in
        match whole with
        | Some (p, bs) => n_kfree (ipv4_deliver s nif (ip_src ip) (ip_dst ip) (ip_proto ip) bs) p
        | None => s
        end.

(** [ipv4_route]: [None] is [NULL]. *)
Definition ipv4_route s (dst : Z) : option Z := if IP_LOOPBACK dst then Some (-1) else netif_default s.

(** 127.0.0.1. *)
Definition IP_LOCALHOST : Z := 127 + 1 ≪ 24.

Definition ipv4_source (n : netif) (dst : Z) : Z := if IP_LOOPBACK dst then IP_LOCALHOST else nif_ip n.

Definition ipv4_stays_here (n : netif) (dst : Z) : bool := IP_LOOPBACK dst || (negb (nif_ip n =? 0) && (dst =? nif_ip n)).

Definition ipv4_loopback_queue s (nif : Z) (nb : netbuf) : Z * net H D :=
  if lo_count s <? IP_LO_QUEUE
  then (0, n_set_lo s (<[Z.to_nat ((lo_head s + lo_count s) `mod` IP_LO_QUEUE) := Some (nb, nif)]> (lo_queue s)) (lo_head s) (lo_count s + 1))
  else (- ENOBUFS, netbuf_free s (Some nb)).

(** The turns of [ipv4_loopback_service]. *)
Fixpoint loopback_turns (n : nat) s : bool * net H D :=
  match n with
  | O => (negb (lo_count s =? 0), s)
  | S n =>
    let '(p, s) :=
      if negb (lo_count s =? 0)
      then (default None (lo_queue s !! Z.to_nat (lo_head s)), n_set_lo s (lo_queue s) ((lo_head s + 1) `mod` IP_LO_QUEUE) (lo_count s - 1))
      else (None, s) in
    match p with
    | None => (false, s)
    | Some (nb, nif) => loopback_turns n (netbuf_free (ipv4_input s nif (nb_data nb)) (Some nb))
    end
  end.

Definition ipv4_loopback_service s : bool * net H D := loopback_turns IP_LO_BATCH s.

Definition ipv4_next_hop (n : netif) (dst : Z) : Z :=
  if ipv4_stays_here n dst || (dst =? IP_BROADCAST) ||
     (negb (nif_netmask n =? 0) && (Z.land dst (nif_netmask n) =? Z.land (nif_ip n) (nif_netmask n)))
  then dst else nif_gateway n.

(** The header [ipv4_send] writes before a payload of [len] bytes. *)
Definition ipv4_header (n : netif) (len src dst proto id frag : Z) : ipv4_hdr :=
  let h := {| ver_ihl := 0x45; tos := 0; total_len := htons (Z.land (IP_HLEN + len) 0xFFFF); ip_id := htons id; ip_off := htons frag; ttl := IP_TTL;
              ip_proto := proto; ip_checksum := 0; ip_src := if negb (src =? 0) then src else ipv4_source n dst; ip_dst := dst |} in
  with_checksum (net_checksum (ip_hdr_bytes h) 0) h.

Definition ipv4_send s (nif : Z) (nb : netbuf) (src dst proto id frag next_hop : Z) : Z * net H D :=
  let n := nif_at s nif in
  match netbuf_push nb (ip_hdr_bytes (ipv4_header n (nb_len nb) src dst proto id frag)) with
  | None => (- ENOBUFS, netbuf_free s (Some nb))
  | Some nb =>
    if ipv4_stays_here n dst then ipv4_loopback_queue s nif nb
    else
      let s := if (dst =? IP_BROADCAST) && nif_configured n then ipv4_input s nif (nb_data nb) else s in
      arp_output s nif nb next_hop
  end.

(** The interface, the one for the address when none is given. *)
Definition out_nif s (nif : option Z) (dst : Z) : option Z := match nif with Some i => Some i | None => ipv4_route s dst end.

Definition next_id s : Z * net H D := (ip_next_id s, n_set_id s ((ip_next_id s + 1) `mod` 2 ^ 16)).

Definition ipv4_output s (nif : option Z) (nb : netbuf) (src dst proto : Z) : Z * net H D :=
  match out_nif s nif dst with
  | None => (- ENETUNREACH, netbuf_free s (Some nb))
  | Some i =>
    let next_hop := ipv4_next_hop (nif_at s i) dst in
    if next_hop =? 0 then (- ENETUNREACH, netbuf_free s (Some nb))
    else let '(id, s) := next_id s in ipv4_send s i nb src dst proto id 0 next_hop
  end.

(** The loop of [ipv4_output_flat] from offset [off] on; [None] when the fuel runs out or a
    buffer is too small for its chunk. *)
Fixpoint output_frags (fuel : nat) s (nif : Z) (payload : list Z) (off src dst proto id next_hop : Z) : option (Z * net H D) :=
  match fuel with
  | O => None
  | S fuel =>
    let len := Z.of_nat (length payload) in
    if (off <? len) || (off =? 0)
    then
      let chunk := if len - off <? IP_FRAG_CHUNK then len - off else IP_FRAG_CHUNK in
      let more := off + chunk <? len in
      let '(nb, s) := netbuf_alloc s in
      match nb with
      | None => Some (- ENOBUFS, s)
      | Some nb =>
        match netbuf_put nb (take (Z.to_nat chunk) (drop (Z.to_nat off) payload)) with
        | None => None
        | Some nb =>
          let frag := Z.lor (off / 8) (if more then IP_FLAG_MF else 0) in
          let '(err, s) := ipv4_send s nif nb src dst proto id frag next_hop in
          if negb (err =? 0) then Some (err, s)
          else if negb more then Some (0, s)
          else output_frags fuel s nif payload (off + IP_FRAG_CHUNK) src dst proto id next_hop
        end
      end
    else Some (0, s)
  end.

(** A payload has at most 45 fragments. *)
Definition FRAG_FUEL : nat := 46.

Definition ipv4_output_flat s (nif : option Z) (payload : list Z) (src dst proto : Z) : option (Z * net H D) :=
  if IP_MAX_PAYLOAD <? Z.of_nat (length payload) then Some (- EMSGSIZE, s)
  else
    match out_nif s nif dst with
    | None => Some (- ENETUNREACH, s)
    | Some i =>
      let next_hop := ipv4_next_hop (nif_at s i) dst in
      if next_hop =? 0 then Some (- ENETUNREACH, s)
      else let '(id, s) := next_id s in output_frags FRAG_FUEL s i payload 0 src dst proto id next_hop
    end.

(** ** [ether_input] *)

Definition ether_input s (nif : Z) (frame : list Z) : net H D :=
  let len := Z.of_nat (length frame) in
  if len <? ETH_HLEN then s
  else
    let s := nif_update s nif (count_rx len) in
    let dst := take 6 frame in
    if negb (bool_decide (dst = nif_mac (nif_at s nif))) && negb (bool_decide (dst = eth_broadcast)) then s
    else
      let payload := drop (Z.to_nat ETH_HLEN) frame in
      let type := ntohs (rd_le frame 12 2) in
      if type =? ETH_TYPE_ARP then arp_input s nif payload
      else if type =? ETH_TYPE_IPV4 then ipv4_input s nif payload
      else s.

End Net.
