(* ===== verification/FragProofs.v ===== *)
(** * Putting fragments together

    [ipv4_reassemble] of [Net] on the fragments of one packet: whatever order they come in,
    however often, the packet comes out as it was sent, when its last missing byte arrives and
    not before, and its slot is free for another. *)

From S2P Require Import Prelude Pmm Machine Bytes Heap Net NetProofs.

(** ** Counting blocks *)

Fixpoint cnt (p : Z -> bool) (l : list Z) : Z := match l with [] => 0 | x :: l => (if p x then 1 else 0) + cnt p l end.

Lemma cnt_bound p l : 0 <= cnt p l <= Z.of_nat (length l).
Proof. induction l as [|x l IH]; cbn [cnt length]; [lia|]. destruct (p x); lia. Qed.

Lemma cnt_ext p q l : (forall x, x ∈ l -> p x = q x) -> cnt p l = cnt q l.
Proof. induction l as [|x l IH]; intros Hx; cbn [cnt]; [done|]. rewrite Hx by left. rewrite IH; [done|]. intros y Hy. apply Hx. by right. Qed.

Lemma cnt_app p l1 l2 : cnt p (l1 ++ l2) = cnt p l1 + cnt p l2.
Proof. induction l1 as [|x l IH]; cbn [cnt app]; lia. Qed.

Lemma cnt_none p l : (forall x, x ∈ l -> p x = false) -> cnt p l = 0.
Proof. induction l as [|x l IH]; intros Hx; cbn [cnt]; [done|]. rewrite Hx by left. rewrite IH; [done|]. intros y Hy. apply Hx. by right. Qed.

Lemma cnt_full p l : cnt p l = Z.of_nat (length l) <-> forall x, x ∈ l -> p x = true.
Proof.
  induction l as [|x l IH]; cbn [cnt length]; [split; [intros _ x Hx; by apply not_elem_of_nil in Hx|done]|]. pose proof (cnt_bound p l) as Hb. split.
  - intros E y Hy. destruct (p x) eqn:Ep; [|lia]. apply elem_of_cons in Hy as [->|Hy]; [done|]. apply IH; [lia|done].
  - intros Hx. rewrite Hx by left. rewrite (proj2 IH); [lia|]. intros y Hy. apply Hx. by right.
Qed.

Lemma cnt_add p q b l : NoDup l -> b ∈ l -> p b = false -> q b = true -> (forall x, x <> b -> q x = p x) -> cnt q l = cnt p l + 1.
Proof.
  intros Hnd Hb Hp Hq Hx. apply list_elem_of_split in Hb as (l1 & l2 & ->). rewrite !cnt_app. cbn [cnt]. rewrite Hp, Hq.
  apply list.NoDup_app in Hnd as (_ & N1 & N2). apply list.NoDup_cons in N2 as [N2 _].
  rewrite (cnt_ext q p l1), (cnt_ext q p l2); [lia| |]; intros y Hy; apply Hx; intros ->; [done|]. apply (N1 b Hy). left.
Qed.

(** The blocks of a packet. *)
Definition all_blocks : list Z := seqZ 0 FRAG_BLOCKS.

Lemma block_elem b : b ∈ all_blocks <-> 0 <= b < FRAG_BLOCKS.
Proof. unfold all_blocks. rewrite elem_of_seqZ. lia. Qed.

(** When the set blocks are below [k], there are [k] of them only if all are set. *)
Lemma cnt_blocks p k : 0 <= k <= FRAG_BLOCKS -> (forall b, 0 <= b -> p b = true -> b < k) -> cnt p all_blocks = k <-> forall b, 0 <= b < k -> p b = true.
Proof.
  intros Hk Hp. unfold all_blocks. replace FRAG_BLOCKS with (k + (FRAG_BLOCKS - k)) by lia. rewrite seqZ_app by lia. rewrite cnt_app, Z.add_0_l.
  rewrite (cnt_none p (seqZ k _)); [|intros x [Hx _]%elem_of_seqZ; destruct (p x) eqn:E; [specialize (Hp x ltac:(lia) E); lia|done]].
  rewrite Z.add_0_r. pose proof (cnt_full p (seqZ 0 k)) as HF. rewrite length_seqZ, Z2Nat.id in HF by lia. rewrite HF. split; intros Hb x Hx; apply Hb; [apply elem_of_seqZ; lia|apply elem_of_seqZ in Hx; lia].
Qed.

(** ** A slot *)

(** Block [b] is part of [len] bytes at [off]. *)
Definition in_blocks (off len b : Z) : bool := (off / 8 <=? b) && (b <? (off + len + 7) / 8).

Definition plen (P : list Z) : Z := Z.of_nat (length P).

Definition pblocks (P : list Z) : Z := (plen P + 7) / 8.

(** The slot holds part of [P]: the blocks it has are those of [P] and hold its bytes. *)
Record frag_inv (P : list Z) (f : ip_frag) : Prop := {
  fi_used : f_used f = true;
  fi_data : length (f_data f) = Z.to_nat IP_MAX_PAYLOAD;
  fi_have : length (f_have f) = 1024%nat;
  fi_bytes : forall b, 0 <= b -> BIT_TST (f_have f) b = true -> b < pblocks P /\ forall i, (8 * Z.to_nat b <= i < 8 * Z.to_nat b + 8)%nat -> (i < length P)%nat -> f_data f !! i = Some (P !! i);
  fi_count : f_blocks f = cnt (BIT_TST (f_have f)) all_blocks;
  fi_total : f_total f = 0 \/ f_total f = plen P;
}.

(** The bytes of [P] at [off]. *)
Record piece (P : list Z) (off : Z) (bs : list Z) (more : bool) : Prop := {
  pc_off : 0 <= off /\ off `mod` 8 = 0;
  pc_end : off + plen bs <= plen P;
  pc_bytes : bs = take (length bs) (drop (Z.to_nat off) P);
  pc_more : more = (off + plen bs <? plen P);
  pc_whole : more = true -> plen bs `mod` 8 = 0 /\ 0 < plen bs;
}.

Lemma mark_loop n first have blocks : 0 <= first -> first + Z.of_nat n <= FRAG_BLOCKS -> length have = 1024%nat -> blocks = cnt (BIT_TST have) all_blocks ->
  let '(have', blocks') := for_range n first frag_mark (have, blocks) in
  length have' = 1024%nat /\ blocks' = cnt (BIT_TST have') all_blocks /\ forall b, 0 <= b -> BIT_TST have' b = BIT_TST have b || ((first <=? b) && (b <? first + Z.of_nat n)).
Proof.
  intros Hf Hn Hl Hc.
  pose proof (for_range_inv (fun k st => length st.1 = 1024%nat /\ st.2 = cnt (BIT_TST st.1) all_blocks /\ forall b, 0 <= b -> BIT_TST st.1 b = BIT_TST have b || ((first <=? b) && (b <? k)))
    frag_mark n first (have, blocks)) as HI. cbn [fst snd] in HI. destruct (for_range n first frag_mark (have, blocks)) as [have' blocks']. cbn [fst snd] in HI. apply HI.
  - split; [done|]. split; [done|]. intros b Hb. replace ((first <=? b) && (b <? first)) with false by (symmetry; apply andb_false_iff; destruct (Z.leb_spec first b); [right; apply Z.ltb_ge; lia|by left]). by rewrite orb_false_r.
  - clear HI. intros k [hv bl] Hk (I1 & I2 & I3). cbn [fst snd] in *. unfold frag_mark.
    assert (Hcov : covers hv FRAG_BLOCKS) by (unfold covers; rewrite I1; by vm_compute).
    assert (Hnext : forall b, 0 <= b -> (first <=? b) && (b <? k + 1) = (k =? b) || ((first <=? b) && (b <? k))).
    { intros b Hb. destruct (Z.eqb_spec k b) as [->|]; [rewrite (proj2 (Z.leb_le first b)), (proj2 (Z.ltb_lt b (b + 1))) by lia; done|]. cbn [orb].
      destruct (Z.leb_spec first b); [|done]. cbn [andb]. destruct (Z.ltb_spec b (k + 1)), (Z.ltb_spec b k); try done; lia. }
    destruct (BIT_TST hv k) eqn:Ek; cbn [negb fst snd].
    + split; [done|]. split; [done|]. intros b Hb. rewrite I3 by done. rewrite Hnext by done. destruct (Z.eqb_spec k b) as [->|]; [|done]. rewrite I3 in Ek by done. rewrite Ek. cbn [orb]. by rewrite orb_true_r.
    + assert (Hset : forall b, 0 <= b -> BIT_TST (BIT_SET hv k) b = (k =? b) || BIT_TST hv b) by (intros b Hb; apply (BIT_TST_SET hv k b); unfold covers in *; lia || done).
      split; [by rewrite length_BIT_SET|]. split.
      * rewrite I2. symmetry. rewrite (cnt_ext (BIT_TST (BIT_SET hv k)) (fun b => (k =? b) || BIT_TST hv b)) by (intros b [? _]%block_elem; by apply Hset).
        apply (cnt_add _ _ k); [apply NoDup_seqZ|apply block_elem; lia|done|by rewrite Z.eqb_refl|]. intros x Hx. by rewrite (proj2 (Z.eqb_neq k x)) by congruence.
      * intros b Hb. rewrite Hset, I3, Hnext by done. by rewrite !orb_assoc, (orb_comm (k =? b)).
Qed.

Lemma copy_in_length data off bs : (off + length bs <= length data)%nat -> length (copy_in data off bs) = length data.
Proof. intros Hl. unfold copy_in. rewrite !length_app, length_fmap, length_take, length_drop. lia. Qed.

Lemma copy_in_lookup data off bs i : (off + length bs <= length data)%nat ->
  copy_in data off bs !! i = if decide (off <= i < off + length bs)%nat then Some (bs !! (i - off)%nat) else data !! i.
Proof.
  intros Hl. unfold copy_in. destruct (decide (off <= i < off + length bs)%nat) as [Hi|Hi].
  - rewrite lookup_app_r by (rewrite length_take; lia). rewrite length_take, Nat.min_l by lia. rewrite lookup_app_l by (rewrite length_fmap; lia). rewrite list_lookup_fmap.
    destruct (lookup_lt_is_Some_2 bs (i - off)%nat ltac:(lia)) as [x ->]. done.
  - destruct (decide (i < off)%nat).
    + rewrite lookup_app_l by (rewrite length_take; lia). by rewrite lookup_take_lt by lia.
    + rewrite lookup_app_r by (rewrite length_take; lia). rewrite length_take, Nat.min_l by lia. rewrite lookup_app_r by (rewrite length_fmap; lia). rewrite length_fmap, lookup_drop.
      f_equal. lia.
Qed.

(** A piece is taken in. *)
Lemma frag_take_inv P f off bs more : plen P <= IP_MAX_PAYLOAD -> frag_inv P f -> piece P off bs more ->
  let f' := frag_take f off bs more in
  frag_inv P f' /\ (forall b, 0 <= b -> BIT_TST (f_have f') b = BIT_TST (f_have f) b || in_blocks off (plen bs) b) /\
  f_total f' = (if more then f_total f else plen P) /\ f_ptr f' = f_ptr f /\
  f_src f' = f_src f /\ f_dst f' = f_dst f /\ f_id f' = f_id f /\ f_proto f' = f_proto f.
Proof.
  intros HP [U DL HL HB HC HT] [[O1 O2] PE PB PM PW]. unfold frag_take. fold (plen bs).
  assert (Hend : (off + plen bs + 7) / 8 <= FRAG_BLOCKS) by (unfold FRAG_BLOCKS; apply Z.div_le_mono; lia).
  assert (Hpos : 0 <= plen bs) by (unfold plen; lia). assert (Hle : off / 8 <= (off + plen bs + 7) / 8) by (apply Z.div_le_mono; lia).
  pose proof (mark_loop (Z.to_nat ((off + plen bs + 7) / 8 - off / 8)) (off / 8) (f_have f) (f_blocks f) ltac:(apply Z.div_pos; lia) ltac:(lia) HL HC) as ML.
  destruct (for_range _ _ _ _) as [have' blocks']. destruct ML as (M1 & M2 & M3). cbn zeta.
  assert (M3' : forall b, 0 <= b -> BIT_TST have' b = BIT_TST (f_have f) b || in_blocks off (plen bs) b).
  { intros b Hb. rewrite M3 by done. unfold in_blocks. do 3 f_equal. lia. }
  assert (Hfit : (Z.to_nat off + length bs <= length (f_data f))%nat) by (rewrite DL; unfold plen in *; lia).
  assert (Et : (if negb more then off + plen bs else f_total f) = if more then f_total f else plen P).
  { destruct more; [done|]. symmetry in PM. apply Z.ltb_ge in PM. cbn [negb]. lia. }
  split; [split|split; [done|split; [exact Et|done]]]; cbn [f_used f_data f_have f_blocks f_total]; [done|by rewrite copy_in_length|done| |done|rewrite Et; destruct more; [done|by right]].
  intros b Hb Hbit. rewrite M3' in Hbit by done. split.
  - apply orb_true_iff in Hbit as [Hbit|Hbit]; [by apply (HB b)|]. unfold in_blocks in Hbit. apply andb_true_iff in Hbit as [_ Hbit]. apply Z.ltb_lt in Hbit. unfold pblocks.
    assert ((off + plen bs + 7) / 8 <= (plen P + 7) / 8) by (apply Z.div_le_mono; lia). lia.
  - intros i Hi Hip. rewrite copy_in_lookup by done. destruct (decide (Z.to_nat off <= i < Z.to_nat off + length bs)%nat) as [Hin|Hout].
    + f_equal. rewrite PB at 1. rewrite lookup_take_lt, lookup_drop by lia. f_equal. lia.
    + apply orb_true_iff in Hbit as [Hbit|Hbit]; [destruct (HB b Hb Hbit) as [_ HD]; by apply HD|]. exfalso. unfold in_blocks in Hbit. apply andb_true_iff in Hbit as [B1 B2]. apply Z.leb_le in B1. apply Z.ltb_lt in B2.
      unfold plen in *. destruct more.
      * destruct (PW eq_refl) as [W1 W2]. zlia.
      * symmetry in PM. apply Z.ltb_ge in PM. zlia.
Qed.

(** Complete is: all blocks have come and the length is known. *)
Lemma complete_spec P f : 0 < plen P <= IP_MAX_PAYLOAD -> frag_inv P f ->
  frag_complete f = true <-> (f_total f = plen P /\ forall b, 0 <= b < pblocks P -> BIT_TST (f_have f) b = true).
Proof.
  intros HP [U DL HL HB HC HT]. assert (Hk : 0 <= pblocks P <= FRAG_BLOCKS) by (unfold pblocks, FRAG_BLOCKS; split; [apply Z.div_pos; lia|apply Z.div_le_mono; lia]).
  pose proof (cnt_blocks (BIT_TST (f_have f)) (pblocks P) Hk ltac:(intros b Hb E; by apply (HB b))) as HN. unfold frag_complete. rewrite HC. split.
  - intros [E1 E2]%andb_true_iff. apply negb_true_iff, Z.eqb_neq in E1. apply Z.eqb_eq in E2. destruct HT as [?|HT]; [done|]. split; [done|]. apply HN. by rewrite E2, HT.
  - intros [E1 E2]. rewrite E1. apply andb_true_iff. split; [apply negb_true_iff, Z.eqb_neq; lia|]. apply Z.eqb_eq. by apply HN.
Qed.

Lemma complete_data P f : 0 < plen P <= IP_MAX_PAYLOAD -> frag_inv P f -> (forall b, 0 <= b < pblocks P -> BIT_TST (f_have f) b = true) ->
  take (Z.to_nat (plen P)) (f_data f) = Some <$> P.
Proof.
  intros HP [U DL HL HB HC HT] Hall. unfold plen in *. rewrite Nat2Z.id. apply list_eq. intros i. rewrite list_lookup_fmap. destruct (decide (i < length P)%nat) as [Hi|Hi].
  - rewrite lookup_take_lt by done. destruct (HB (Z.of_nat i / 8) ltac:(apply Z.div_pos; lia)) as [_ HD]; [apply Hall; unfold pblocks, plen; zlia|].
    rewrite HD by (zlia || done). destruct (lookup_lt_is_Some_2 P i Hi) as [x ->]. done.
  - rewrite lookup_take_ge by lia. rewrite (lookup_ge_None_2 P i) by lia. done.
Qed.

(** ** The table of slots *)

Definition same_packet (ip ip' : ipv4_hdr) : Prop := ip_src ip = ip_src ip' /\ ip_dst ip = ip_dst ip' /\ ip_id ip = ip_id ip' /\ ip_proto ip = ip_proto ip'.

Definition slot_is (ip : ipv4_hdr) (f : ip_frag) : bool := f_used f && frag_key f ip.

Lemma slot_same ip ip' f : same_packet ip ip' -> slot_is ip f = slot_is ip' f.
Proof. intros (E1 & E2 & E3 & E4). unfold slot_is, frag_key. by rewrite E1, E2, E3, E4. Qed.

Lemma scan_found ip l f : forall j k o fr, l !! j = Some f -> slot_is ip f = true -> (forall i g, (i < j)%nat -> l !! i = Some g -> slot_is ip g = false) -> frag_scan ip l k o fr = inl (k + j)%nat.
Proof.
  unfold slot_is. induction l as [|g l IH]; intros [|j] k o fr Hj Hf Hno; simpl in Hj; try done; cbn [frag_scan].
  - injection Hj as ->. apply andb_true_iff in Hf as [-> ->]. by rewrite Nat.add_0_r.
  - pose proof (Hno O g ltac:(lia) eq_refl) as Hg. rewrite <- Nat.add_succ_comm. destruct (f_used g); cbn [negb andb] in *; [rewrite Hg|]; (apply IH; [done..|]; intros i g' Hi Hg'; apply (Hno (S i) g'); [lia|done]).
Qed.

(** No slot of the packet: what the scan returns can be used. *)
Lemma scan_new ip l : forall k o fr, (forall g, g ∈ l -> slot_is ip g = false) -> exists o' fr', frag_scan ip l k o fr = inr (o', fr') /\
  (fr = None -> forall j, fr' = Some j -> (k <= j < k + length l)%nat) /\ (fr <> None -> fr' = fr) /\
  (forall j, o' = Some j -> (k <= j < k + length l)%nat \/ fst <$> o = Some j) /\ (fr' = None -> forall g, g ∈ l -> f_used g = true).
Proof.
  unfold slot_is. induction l as [|g l IH]; intros k o fr Hno; cbn [frag_scan].
  - exists (fst <$> o), fr. split; [done|]. split; [intros -> j Hj; done|]. split; [done|]. split; [intros j Hj; by right|]. intros _ g Hg. by apply not_elem_of_nil in Hg.
  - pose proof (Hno g ltac:(left)) as Hg. assert (Hl : forall g', g' ∈ l -> f_used g' && frag_key g' ip = false) by (intros g' Hg'; apply Hno; by right). cbn [length].
    destruct (f_used g) eqn:Eu; cbn [negb andb] in *.
    + rewrite Hg. set (o1 := match o with None => _ | Some _ => _ end). destruct (IH (S k) o1 fr Hl) as (o' & fr' & E & A & B & C & F). exists o', fr'. split; [done|]. split; [intros Hf j Hj; specialize (A Hf j Hj); lia|]. split; [done|]. split.
      * intros j Hj. destruct (C j Hj) as [?|Ho]; [left; lia|]. unfold o1 in Ho. destruct o as [[j0 st]|]; [destruct (f_started g <? st)|]; simpl in Ho; [left; injection Ho as <-; lia|by right|left; injection Ho as <-; lia].
      * intros Hf g' Hg'. apply elem_of_cons in Hg' as [->|Hg']; [done|by apply F].
    + set (fr1 := match fr with None => Some k | Some _ => fr end). destruct (IH (S k) o fr1 Hl) as (o' & fr' & E & A & B & C & F). exists o', fr'. split; [done|]. assert (Hfr : fr' = fr1) by (apply B; unfold fr1; by destruct fr).
      split; [intros -> j Hj; unfold fr1 in Hfr; rewrite Hfr in Hj; injection Hj as <-; lia|]. split; [intros Hn; rewrite Hfr; unfold fr1; by destruct fr|]. split.
      * intros j Hj. destruct (C j Hj) as [?|?]; [left; lia|by right].
      * intros Hf. rewrite Hfr in Hf. unfold fr1 in Hf. by destruct fr.
Qed.

Section Reassembly.

Context {H0 D : Type} `{Heap H0}.

Implicit Types s : net H0 D.

(** ** Fragments of a packet *)

Definition frag_pos (ip : ipv4_hdr) : Z := Z.land (ntohs (ip_off ip)) IP_FRAG_MASK * 8.

Definition frag_more (ip : ipv4_hdr) : bool := flag (ntohs (ip_off ip)) IP_FLAG_MF.

(** A header and bytes that carry a piece of the packet [P] of [ip0]. *)
Definition fragment_of (ip0 : ipv4_hdr) (P : list Z) (x : ipv4_hdr * list Z) : Prop := same_packet x.1 ip0 /\ piece P (frag_pos x.1) x.2 (frag_more x.1).

(** Every byte of the packet is in one of the fragments. *)
Definition covered (P : list Z) (l : list (ipv4_hdr * list Z)) : Prop :=
  forall i, 0 <= i < plen P -> exists x, x ∈ l /\ frag_pos x.1 <= i < frag_pos x.1 + plen x.2.

(** One fragment after the other. *)
Fixpoint reassemble_all s (l : list (ipv4_hdr * list Z)) : list (option (Z * list (option Z))) * net H0 D :=
  match l with
  | [] => ([], s)
  | x :: l => let '(o, s) := ipv4_reassemble s x.1 x.2 in let '(os, s) := reassemble_all s l in (o :: os, s)
  end.

(** Slot [j] collects the packet and has the fragments [seen]. *)
Record collecting (ip0 : ipv4_hdr) (P : list Z) (seen : list (ipv4_hdr * list Z)) s (j : nat) (p : Z) : Prop := {
  co_slot : exists f, frags s !! j = Some f /\ slot_is ip0 f = true /\ frag_inv P f /\ f_ptr f = p /\
    (forall b, 0 <= b -> BIT_TST (f_have f) b = true <-> exists x, x ∈ seen /\ in_blocks (frag_pos x.1) (plen x.2) b = true) /\
    (f_total f = plen P <-> exists x, x ∈ seen /\ frag_more x.1 = false);
  co_first : forall i g, (i < j)%nat -> frags s !! i = Some g -> slot_is ip0 g = false;
  co_seen : Forall (fragment_of ip0 P) seen;
}.

(** All blocks and the length have come when all bytes have. *)
Lemma covered_blocks ip0 P seen : 0 < plen P -> Forall (fragment_of ip0 P) seen ->
  covered P seen <-> (exists x, x ∈ seen /\ frag_more x.1 = false) /\ forall b, 0 <= b < pblocks P -> exists x, x ∈ seen /\ in_blocks (frag_pos x.1) (plen x.2) b = true.
Proof.
  intros HP HF. rewrite list.Forall_forall in HF. split.
  - intros Hc. split.
    + destruct (Hc (plen P - 1) ltac:(lia)) as (x & Hx & Hi). exists x. split; [done|]. destruct (HF x Hx) as [_ [_ PE _ PM _]]. rewrite PM. apply Z.ltb_ge. lia.
    + intros b Hb. destruct (Hc (8 * b) ltac:(unfold pblocks in Hb; zlia)) as (x & Hx & Hi). exists x. split; [done|]. destruct (HF x Hx) as [_ [[O1 O2] _ _ _ _]]. unfold in_blocks. apply andb_true_iff.
      split; [apply Z.leb_le; zlia|apply Z.ltb_lt; zlia].
  - intros [_ Hb] i Hi. destruct (Hb (i / 8) ltac:(unfold pblocks; zlia)) as (x & Hx & E). exists x. split; [done|]. destruct (HF x Hx) as [_ [[O1 O2] PE _ PM PW]].
    unfold in_blocks in E. apply andb_true_iff in E as [B1 B2]. apply Z.leb_le in B1. apply Z.ltb_lt in B2. destruct (frag_more x.1) eqn:Em.
    + destruct (PW eq_refl) as [W1 W2]. zlia.
    + symmetry in PM. apply Z.ltb_ge in PM. zlia.
Qed.

Lemma piece_accepted P ip bs : plen P <= IP_MAX_PAYLOAD -> piece P (frag_pos ip) bs (frag_more ip) ->
  (IP_MAX_PAYLOAD <? frag_pos ip + plen bs) || (frag_more ip && (negb (plen bs `mod` 8 =? 0) || (plen bs =? 0))) = false.
Proof.
  intros HP [_ PE _ _ PW]. rewrite (proj2 (Z.ltb_ge _ _)) by lia. cbn [orb]. destruct (frag_more ip); [|done]. destruct (PW eq_refl) as [W1 W2].
  rewrite (proj2 (Z.eqb_eq _ _) W1), (proj2 (Z.eqb_neq _ _)) by lia. done.
Qed.

(** One more fragment: the packet is handed out exactly when it is complete. *)
Lemma collect_step ip0 P seen s j p x : 0 < plen P <= IP_MAX_PAYLOAD -> collecting ip0 P seen s j p -> fragment_of ip0 P x ->
  let '(o, s') := ipv4_reassemble s x.1 x.2 in
  (covered P (seen ++ [x]) /\ o = Some (p, Some <$> P) /\ exists f, frags s' = <[j := frag_off f]> (frags s) /\ n_heap s' = n_heap s) \/
  (~ covered P (seen ++ [x]) /\ o = None /\ collecting ip0 P (seen ++ [x]) s' j p /\ n_heap s' = n_heap s).
Proof.
  intros HP [(f & Hj & Hs & HI & Hp & Hb & Ht) Hfirst Hseen] HX. pose proof HX as [HK HQ]. destruct x as [ip bs]. cbn [fst snd] in *.
  assert (Hall : Forall (fragment_of ip0 P) (seen ++ [(ip, bs)])) by (apply Forall_app; split; [done|by constructor]).
  unfold ipv4_reassemble. fold (frag_pos ip) (frag_more ip) (plen bs). rewrite (piece_accepted P ip bs ltac:(lia) HQ).
  assert (Hscan : frag_scan ip (frags s) 0 None None = inl j).
  { rewrite (scan_found ip (frags s) f j 0 None None Hj); [done|by rewrite (slot_same ip ip0)|]. intros i g Hi Hg. rewrite (slot_same ip ip0) by done. by apply (Hfirst i). }
  unfold frag_slot. rewrite Hscan. assert (Ef : frag_at s j = f) by (unfold frag_at; by rewrite Hj). rewrite Ef.
  destruct (frag_take_inv P f (frag_pos ip) bs (frag_more ip) ltac:(lia) HI HQ) as (TI & TB & TT & TP & K1 & K2 & K3 & K4). set (f' := frag_take f (frag_pos ip) bs (frag_more ip)) in *.
  assert (Hb' : forall b, 0 <= b -> BIT_TST (f_have f') b = true <-> exists x, x ∈ seen ++ [(ip, bs)] /\ in_blocks (frag_pos x.1) (plen x.2) b = true).
  { intros b Hb0. rewrite TB, orb_true_iff, Hb by done. split.
    - intros [(y & Hy & E)|E]; [exists y; split; [apply elem_of_app; by left|done]|exists (ip, bs); split; [apply elem_of_app; right; by left|done]].
    - intros (y & Hy & E). apply elem_of_app in Hy as [Hy|Hy]; [left; by exists y|]. apply list_elem_of_singleton in Hy as ->. by right. }
  assert (Ht' : f_total f' = plen P <-> exists x, x ∈ seen ++ [(ip, bs)] /\ frag_more x.1 = false).
  { rewrite TT. destruct (frag_more ip) eqn:Em.
    - rewrite Ht. split; intros (y & Hy & E); [exists y; split; [apply elem_of_app; by left|done]|]. apply elem_of_app in Hy as [Hy|Hy]; [by exists y|]. apply list_elem_of_singleton in Hy as ->. cbn [fst] in E. congruence.
    - split; [|done]. intros _. exists (ip, bs). split; [apply elem_of_app; right; by left|done]. }
  assert (Hc : frag_complete f' = true <-> covered P (seen ++ [(ip, bs)])).
  { rewrite (complete_spec P f' HP TI), (covered_blocks ip0 P) by (done || lia). rewrite Ht'. split; (intros [A B]; split; [done|]; intros b Hb0; apply Hb'; [lia|by apply B]). }
  destruct (frag_complete f') eqn:Ec.
  - left. split; [by apply Hc|]. apply (complete_spec P f' HP TI) in Ec as [E1 E2]. rewrite E1, (complete_data P f' HP TI E2), TP, Hp. split; [done|]. by exists f'.
  - right. split; [intros Hcov; apply Hc in Hcov; congruence|]. split; [done|]. split; [|done]. split; [|intros i g Hi; simpl; rewrite list_lookup_insert_ne by lia; by apply Hfirst|done].
    exists f'. simpl. rewrite list_lookup_insert_eq by (by apply lookup_lt_Some in Hj). split; [done|]. split; [|split; [done|split; [congruence|split; [done|done]]]].
    unfold slot_is, frag_key in *. rewrite K1, K2, K3, K4, (fi_used _ _ TI). apply andb_true_iff in Hs as [_ Hs]. done.
Qed.

(** The other slots are left alone. *)
Lemma collect_others ip0 P seen s j p x i : 0 < plen P <= IP_MAX_PAYLOAD -> collecting ip0 P seen s j p -> fragment_of ip0 P x -> i <> j ->
  frags (ipv4_reassemble s x.1 x.2).2 !! i = frags s !! i.
Proof.
  intros HP [(f & Hj & Hs & _) Hfirst _] [HK HQ] Hi. destruct x as [ip bs]. cbn [fst snd] in *.
  unfold ipv4_reassemble. fold (frag_pos ip) (frag_more ip) (plen bs). rewrite (piece_accepted P ip bs ltac:(lia) HQ). unfold frag_slot.
  assert (Hscan : frag_scan ip (frags s) 0 None None = inl j).
  { rewrite (scan_found ip (frags s) f j 0 None None Hj); [done|by rewrite (slot_same ip ip0)|]. intros k g Hk Hg. rewrite (slot_same ip ip0) by done. by apply (Hfirst k). }
  rewrite Hscan.
  destruct (frag_complete _); cbn [snd n_set_frags frags]; by rewrite list_lookup_insert_ne by congruence.
Qed.

Lemma covered_mono P l l' : (forall x, x ∈ l -> x ∈ l') -> covered P l -> covered P l'.
Proof. intros Hin Hc i Hi. destruct (Hc i Hi) as (x & Hx & E). exists x. split; [by apply Hin|done]. Qed.

(** Fragments that do not complete the packet. *)
Lemma collect_run ip0 P l : forall seen s j p, 0 < plen P <= IP_MAX_PAYLOAD -> collecting ip0 P seen s j p -> Forall (fragment_of ip0 P) l -> ~ covered P (seen ++ l) ->
  let '(os, s') := reassemble_all s l in os = replicate (length l) None /\ collecting ip0 P (seen ++ l) s' j p /\ n_heap s' = n_heap s /\
    forall i, i <> j -> frags s' !! i = frags s !! i.
Proof.
  induction l as [|x l IH]; intros seen s j p HP HC HF Hn; cbn [reassemble_all]; [by rewrite app_nil_r|]. apply Forall_cons_1 in HF as [Hx HF].
  pose proof (collect_step ip0 P seen s j p x HP HC Hx) as HS. pose proof (fun i => collect_others ip0 P seen s j p x i HP HC Hx) as HO.
  destruct (ipv4_reassemble s x.1 x.2) as [o s1]. cbn [snd] in HO. rewrite cons_middle, app_assoc in Hn |- *.
  destruct HS as [[Hc _]|(_ & -> & HC1 & E1)]; [destruct Hn; eapply covered_mono; [|exact Hc]; intros y Hy; apply elem_of_app; by left|].
  specialize (IH (seen ++ [x]) s1 j p HP HC1 HF Hn). destruct (reassemble_all s1 l) as [os s2]. destruct IH as (-> & HC2 & E2 & O2). cbn [length replicate]. split; [done|]. split; [done|]. split; [congruence|].
  intros i Hi. by rewrite O2, HO.
Qed.

Lemma zero_bits n b : BIT_TST (replicate n 0) b = false.
Proof. rewrite BIT_TST_spec. unfold Pmm.byte_at. destruct (replicate n 0 !! Z.to_nat (b / 8)) as [z|] eqn:E; [apply lookup_replicate in E as [-> _]|]; apply Z.bits_0. Qed.

Lemma frag_new_inv P s ip p : frag_inv P (frag_new s ip p).
Proof.
  split; cbn [frag_new f_used f_data f_have f_blocks f_total]; [done|by rewrite length_replicate|by rewrite length_replicate| | |by left].
  - intros b Hb E. by rewrite zero_bits in E.
  - symmetry. apply cnt_none. intros x _. apply zero_bits.
Qed.

(** A packet of which nothing has come yet gets a slot. *)
Lemma slot_open ip0 P s ip r s1 : 0 < plen P -> frags s <> [] -> (forall g, g ∈ frags s -> slot_is ip0 g = false) -> same_packet ip ip0 -> frag_slot s ip = (r, s1) ->
  (r = None /\ ((exists g, g ∈ frags s /\ f_used g = false) -> (kmalloc IP_MAX_PAYLOAD (n_heap s)).1 = 0)) \/ exists j p, r = Some j /\ collecting ip0 P [] s1 j p /\ p <> 0 /\ frag_slot s1 ip = (Some j, s1) /\
    ((exists g, g ∈ frags s /\ f_used g = false) -> kmalloc IP_MAX_PAYLOAD (n_heap s) = (p, n_heap s1) /\ forall g, g ∈ frags s1 -> g ∈ frags s \/ frags s1 !! j = Some g).
Proof.
  intros HP Hne Hno HK. unfold frag_slot at 1. assert (Hno' : forall g, g ∈ frags s -> slot_is ip g = false) by (intros g Hg; rewrite (slot_same ip ip0) by done; by apply Hno).
  destruct (scan_new ip (frags s) 0 None None Hno') as (o & fr & -> & A & _ & C & F).
  set (opened := match fr with Some j => (j, s) | None => _ end). destruct opened as [j s2] eqn:Eo.
  assert (Hlen : (j < length (frags s))%nat).
  { unfold opened in Eo. destruct fr as [j0|]; [injection Eo as <- <-; specialize (A eq_refl j0 eq_refl); lia|]. injection Eo as <- _. destruct o as [j0|]; cbn [default from_option id].
    - destruct (C j0 eq_refl) as [?|E]; [lia|done].
    - destruct (frags s); [done|simpl; lia]. }
  assert (Hrest : length (frags s2) = length (frags s) /\ (forall i, i <> j -> frags s2 !! i = frags s !! i)).
  { unfold opened in Eo. destruct fr as [j0|]; injection Eo as <- <-; [done|]. unfold frag_free. simpl. split; [by rewrite length_alter|]. intros i Hi. by rewrite list_lookup_alter_ne by congruence. }
  destruct Hrest as [L2 R2]. unfold n_kmalloc. destruct (kmalloc IP_MAX_PAYLOAD (n_heap s2)) as [p h] eqn:Ek. destruct (Z.eqb_spec p 0) as [->|Hp]; intros [= <- <-]; [left; split; [done|]; intros (g & Hg & Hu); destruct fr as [j0|]; [injection Eo as <- <-; by rewrite Ek|by rewrite (F eq_refl g Hg) in Hu]|right].
  set (s3 := n_set_heap s2 h). assert (Hj : frags (n_set_frags s3 (<[j := frag_new s3 ip p]> (frags s3)) (frags_dropped s3)) !! j = Some (frag_new s3 ip p)) by (simpl; rewrite list_lookup_insert_eq by lia; done).
  assert (Hkey : slot_is ip (frag_new s3 ip p) = true) by (unfold slot_is, frag_key; simpl; by rewrite !Z.eqb_refl).
  assert (Hbefore : forall i g, (i < j)%nat -> frags (n_set_frags s3 (<[j := frag_new s3 ip p]> (frags s3)) (frags_dropped s3)) !! i = Some g -> slot_is ip g = false).
  { intros i g Hi Hg. simpl in Hg. rewrite list_lookup_insert_ne, R2 in Hg by lia. apply Hno'. by eapply list_elem_of_lookup_2. }
  exists j, p. split; [done|]. split; [|split; [done|split]].
  - split; [|intros i g Hi Hg; rewrite <- (slot_same ip ip0) by done; by apply (Hbefore i)|constructor]. exists (frag_new s3 ip p). split; [done|]. split; [by rewrite <- (slot_same ip ip0)|].
    split; [apply frag_new_inv|]. split; [done|]. split; [intros b Hb; cbn [frag_new f_have]; rewrite zero_bits; split; [done|intros (y & Hy & _); by apply not_elem_of_nil in Hy]|].
    split; [intros E; cbn [frag_new f_total] in E; lia|intros (y & Hy & _); by apply not_elem_of_nil in Hy].
  - pose proof (scan_found ip _ (frag_new s3 ip p) j 0 None None Hj Hkey Hbefore) as Hsc. unfold frag_slot. cbn [frags n_set_frags] in Hsc |- *. change (frags s3) with (frags s2) in Hsc. rewrite Hsc. done.
  - intros (g & Hg & Hu). destruct fr as [j0|].
    + unfold opened in Eo. injection Eo as <- <-. split; [done|]. intros g' Hg'. simpl in Hg'. apply list_elem_of_lookup in Hg' as [i Hi]. destruct (decide (i = j0)) as [->|Hne'].
      * right. simpl. done.
      * left. rewrite list_lookup_insert_ne in Hi by congruence. by eapply list_elem_of_lookup_2.
    + rewrite (F eq_refl g Hg) in Hu. done.
Qed.

(** The first fragment opens the slot and is then like any other. *)
Lemma reassemble_open s ip bs j s1 : frag_slot s ip = (Some j, s1) -> frag_slot s1 ip = (Some j, s1) ->
  (IP_MAX_PAYLOAD <? frag_pos ip + plen bs) || (frag_more ip && (negb (plen bs `mod` 8 =? 0) || (plen bs =? 0))) = false -> ipv4_reassemble s ip bs = ipv4_reassemble s1 ip bs.
Proof. intros E1 E2 E3. unfold ipv4_reassemble. fold (frag_pos ip) (frag_more ip) (plen bs). by rewrite E3, E1, E2. Qed.

Lemma slot_same_packet s ip ip' : same_packet ip ip' -> frag_slot s ip = frag_slot s ip'.
Proof.
  intros HK. unfold frag_slot. assert (E : forall l k o fr, frag_scan ip l k o fr = frag_scan ip' l k o fr).
  { assert (Ek : forall f, frag_key f ip = frag_key f ip') by (intros f; destruct HK as (E1 & E2 & E3 & E4); unfold frag_key; by rewrite E1, E2, E3, E4).
    induction l as [|f l IH]; intros k o fr; cbn [frag_scan]; [done|]. by rewrite Ek, !IH. }
  rewrite E. destruct (frag_scan ip' (frags s) 0 None None) as [j|[o fr]]; [done|]. destruct (match fr with Some j => _ | None => _ end) as [j s1]. destruct (n_kmalloc s1 IP_MAX_PAYLOAD) as [p s2].
  destruct (p =? 0); [done|]. destruct HK as (E1 & E2 & E3 & E4). unfold frag_new. by rewrite E1, E2, E3, E4.
Qed.

(** From no slot at all: fragments without the whole packet, and the one that completes it. *)
Lemma reassemble_packet ip0 P s l x :
  0 < plen P <= IP_MAX_PAYLOAD -> frags s <> [] -> (forall g, g ∈ frags s -> slot_is ip0 g = false) -> (frag_slot s ip0).1 <> None ->
  Forall (fragment_of ip0 P) (l ++ [x]) -> ~ covered P l -> covered P (l ++ [x]) ->
  let s1 := (frag_slot s ip0).2 in
  let '(os, s') := reassemble_all s (l ++ [x]) in
  exists j p f, (frag_slot s ip0).1 = Some j /\ p <> 0 /\ os = replicate (length l) None ++ [Some (p, Some <$> P)] /\
    frags s' !! j = Some f /\ f_used f = false /\ f_ptr f = 0 /\ (forall i, i <> j -> frags s' !! i = frags s1 !! i) /\ n_heap s' = n_heap s1.
Proof.
  intros HP Hne Hno Hslot HF Hn Hc. cbv zeta. apply Forall_app in HF as [HF HX]. apply Forall_cons_1 in HX as [HX _].
  destruct (frag_slot s ip0) as [r s1] eqn:Es. cbn [fst snd] in Hslot |- *. destruct (slot_open ip0 P s ip0 r s1 ltac:(lia) Hne Hno ltac:(done) Es) as [[-> _]|(j & p & -> & HC & Hp & Es1 & _)]; [done|].
  assert (Hstart : reassemble_all s (l ++ [x]) = reassemble_all s1 (l ++ [x])).
  { assert (HO : forall y, fragment_of ip0 P y -> ipv4_reassemble s y.1 y.2 = ipv4_reassemble s1 y.1 y.2).
    { intros y [HK HQ]. apply (reassemble_open s _ _ j s1); [by rewrite (slot_same_packet s y.1 ip0)|by rewrite (slot_same_packet s1 y.1 ip0)|apply (piece_accepted P); [lia|done]]. }
    destruct l as [|y l]; cbn [app reassemble_all]; [by rewrite HO|]. apply Forall_cons_1 in HF as [HY _]. by rewrite HO. }
  rewrite Hstart. pose proof (collect_run ip0 P l [] s1 j p HP HC HF Hn) as HR.
  assert (Happ : forall l1 l2 st, reassemble_all st (l1 ++ l2) =
    ((reassemble_all st l1).1 ++ (reassemble_all (reassemble_all st l1).2 l2).1, (reassemble_all (reassemble_all st l1).2 l2).2)).
  { clear. induction l1 as [|y l1 IH]; intros l2 st; cbn [app reassemble_all]; [cbn [fst snd app]; apply surjective_pairing|]. destruct (ipv4_reassemble st y.1 y.2) as [o st1]. rewrite (IH l2 st1).
    by destruct (reassemble_all st1 l1) as [os' st3]. }
  rewrite Happ. destruct (reassemble_all s1 l) as [os s2]. destruct HR as (-> & HC2 & Eh & HO). cbn [fst snd app reassemble_all] in *.
  pose proof (collect_step ip0 P l s2 j p x HP HC2 HX) as HS. pose proof (fun i => collect_others ip0 P l s2 j p x i HP HC2 HX) as HO2.
  assert (Hj : (j < length (frags s2))%nat) by (destruct (co_slot _ _ _ _ _ _ HC2) as (f & Hf & _); by eapply lookup_lt_Some).
  destruct (ipv4_reassemble s2 x.1 x.2) as [o s3]. destruct HS as [(_ & -> & f & Ef & Eh3)|[Hnc _]]; [|by destruct Hnc]. cbn [fst snd] in *.
  exists j, p, (frag_off f). rewrite Ef. rewrite list_lookup_insert_eq by done. split_and!; try done; [|by rewrite Eh3, Eh]. intros i Hi. rewrite <- Ef. by rewrite HO2, HO.
Qed.

End Reassembly.


(** ** Concrete packets *)

Definition empty_slot : ip_frag :=
  {| f_used := false; f_src := 0; f_dst := 0; f_id := 0; f_proto := 0; f_started := 0; f_total := 0; f_blocks := 0; f_ptr := 0; f_data := []; f_have := replicate 1024 0 |}.

Definition idle_net : net counting_heap unit :=
  {| n_heap := {| ch_live := ∅; ch_next := 0x1000; ch_budget := 100 |}; n_dev := tt; now_ms := 7; netifs := []; ip_next_id := 1;
     lo_queue := replicate 256 None; lo_head := 0; lo_count := 0; frags := replicate 4 empty_slot; frags_dropped := 0;
     arp_cache := []; delivered := [] |}.

(** The header of a fragment at [off]. *)
Definition demo_hdr (off : Z) (more : bool) : ipv4_hdr :=
  {| ver_ihl := 0x45; tos := 0; total_len := 0; ip_id := 5; ip_off := htons (Z.lor (off / 8) (if more then IP_FLAG_MF else 0)); ttl := 64;
     ip_proto := 17; ip_checksum := 0; ip_src := 0x0100007f; ip_dst := 0x0100007f |}.

Definition demo_packet : list Z := [10; 11; 12; 13; 14; 15; 16; 17; 18; 19; 20; 21].

(** The second half comes first, and twice. *)
Definition late : ipv4_hdr * list Z := (demo_hdr 8 false, [18; 19; 20; 21]).

Definition early : ipv4_hdr * list Z := (demo_hdr 0 true, [10; 11; 12; 13; 14; 15; 16; 17]).

Lemma demo_fragments : fragment_of (demo_hdr 0 true) demo_packet late /\ fragment_of (demo_hdr 0 true) demo_packet early.
Proof. split; (split; [done|]; split; [vm_compute; split; done|done|done|done|done]). Qed.


(** Fragments that do not belong together: a block past the end stands in for one that never came, and the packet goes up with
    bytes of the fresh heap block nobody wrote. *)
Example reassembly_hole :
  (fun o : option (Z * list (option Z)) => snd <$> o) <$> (reassemble_all idle_net [(demo_hdr 80 true, [1; 2; 3; 4; 5; 6; 7; 8]); (demo_hdr 8 false, [9; 9; 9; 9; 9; 9; 9; 9])]).1 =
  [None; Some (replicate 8 None ++ replicate 8 (Some 9))].
Proof. vm_compute. reflexivity. Qed.
