(* ===== verification/IpProofs.v ===== *)
(** * Sending a packet to this machine

    [ipv4_output_flat] cuts a packet into fragments and queues them for the loopback service;
    [ipv4_loopback_service] reads them back.  Together they deliver the packet as it was sent,
    once, and give back every buffer. *)

From S2P Require Import Prelude Pmm Machine Bytes Heap Net NetProofs FragProofs.

(** ** Fragment fields *)

Definition frag_field (off : Z) (more : bool) : Z := Z.lor (off / 8) (if more then IP_FLAG_MF else 0).

Lemma frag_field_arith off more : 0 <= off < 65536 -> frag_field off more = off / 8 + if more then 8192 else 0.
Proof.
  intros Ho. unfold frag_field, IP_FLAG_MF. destruct more; [|by rewrite Z.lor_0_r, Z.add_0_r]. rewrite <- Z.add_lor_land.
  assert (E : Z.land (off / 8) 8192 = 0); [|lia]. apply Z.bits_inj'. intros k Hk. rewrite Z.land_spec, Z.bits_0. change 8192 with (2 ^ 13). rewrite Z.pow2_bits_eqb by lia.
  destruct (Z.eqb_spec 13 k) as [<-|]; [|apply andb_false_r]. rewrite andb_true_r. rewrite Z.testbit_eqb by lia. change (2 ^ 13) with 8192. apply Z.eqb_neq. zlia.
Qed.

Lemma frag_field_range off more : 0 <= off < 65536 -> 0 <= frag_field off more < 65536.
Proof. intros Ho. rewrite frag_field_arith by done. destruct more; zlia. Qed.

Lemma frag_field_pos off more : 0 <= off < 65536 -> Z.land (frag_field off more) IP_FRAG_MASK = off / 8.
Proof. intros Ho. rewrite frag_field_arith by done. unfold IP_FRAG_MASK. change 0x1FFF with (Z.ones 13). rewrite Z.land_ones by lia. change (2 ^ 13) with 8192. destruct more; zlia. Qed.

Lemma frag_field_more off more : 0 <= off < 65536 -> flag (frag_field off more) IP_FLAG_MF = more.
Proof.
  intros Ho. change IP_FLAG_MF with (1 ≪ 13). rewrite flag_testbit by lia. rewrite frag_field_arith by done. rewrite Z.testbit_eqb by lia. change (2 ^ 13) with 8192.
  destruct more; [apply Z.eqb_eq; zlia|apply Z.eqb_neq; zlia].
Qed.

(** Neither flag nor offset: not a fragment. *)
Lemma frag_field_any off more : 0 <= off < 65536 -> off `mod` 8 = 0 -> flag (frag_field off more) (Z.lor IP_FLAG_MF IP_FRAG_MASK) = more || negb (off =? 0).
Proof.
  intros Ho Hm. unfold flag. rewrite (Z.land_lor_distr_r (frag_field off more) IP_FLAG_MF IP_FRAG_MASK). rewrite frag_field_pos by done.
  pose proof (frag_field_more off more Ho) as HM. unfold flag in HM. destruct (Z.eqb_spec (Z.land (frag_field off more) IP_FLAG_MF) 0) as [E|E].
  - rewrite E, Z.lor_0_l. cbn [negb] in HM. subst more. cbn [orb]. f_equal. destruct (Z.eqb_spec (off / 8) 0), (Z.eqb_spec off 0); zlia || done.
  - cbn [negb] in HM. subst more. cbn [orb]. apply negb_true_iff, Z.eqb_neq. intros [? _]%Z.lor_eq_0_iff. done.
Qed.

Section Loopback.

Context {H0 D : Type} `{Heap H0}.

Implicit Types s : net H0 D.

(** ** A packet on the way in *)

Record send_ok (n : netif) (src dst proto id : Z) : Prop := {
  so_addr : 0 <= src < 2 ^ 32 /\ 0 <= dst < 2 ^ 32 /\ 0 <= nif_ip n < 2 ^ 32;
  so_proto : proto = IP_PROTO_ICMP \/ proto = IP_PROTO_UDP \/ proto = IP_PROTO_TCP;
  so_id : 0 <= id < 65536;
}.

Lemma header_ok n len src dst proto id frag : send_ok n src dst proto id -> 0 <= frag < 65536 ->
  hdr_ok (ipv4_header n len src dst proto id frag) /\ forall rest, net_checksum (take 20 (ip_hdr_bytes (ipv4_header n len src dst proto id frag) ++ rest)) 0 = 0.
Proof.
  intros [(A1 & A2 & A3) B C] Hf. unfold ipv4_header. set (h := {| ver_ihl := 0x45 |}).
  assert (Hh : hdr_ok h).
  { assert (Hsrc : 0 <= (if negb (src =? 0) then src else ipv4_source n dst) < 2 ^ 32) by (destruct (negb (src =? 0)); [done|]; unfold ipv4_source; destruct (IP_LOOPBACK dst); [by vm_compute|done]).
    split; cbn; unfold is_byte; [|pose proof (htons_range (Z.land (IP_HLEN + len) 65535)); pose proof (htons_range id); pose proof (htons_range frag); lia|done].
    destruct B as [->|[->| ->]]; vm_compute; split_and!; done. }
  split; [by apply (checksum_verifies h [])|]. intros rest. by apply (checksum_verifies h rest).
Qed.

(** What [ipv4_input] does with a packet of [ipv4_send]. *)
Lemma input_packet s i bs src dst proto id off more : send_ok (nif_at s i) src dst proto id -> ipv4_is_ours (nif_at s i) dst = true ->
  plen bs <= IP_FRAG_CHUNK -> 0 <= off < 65536 -> off `mod` 8 = 0 ->
  let h := ipv4_header (nif_at s i) (plen bs) src dst proto id (frag_field off more) in
  frag_pos h = off /\ frag_more h = more /\
  ipv4_input s i (ip_hdr_bytes h ++ bs) =
    if negb (more || negb (off =? 0)) then ipv4_deliver s i (ip_src h) dst proto (Some <$> bs)
    else let '(whole, s) := ipv4_reassemble s h bs in
         match whole with Some (p, b) => n_kfree (ipv4_deliver s i (ip_src h) dst proto b) p | None => s end.
Proof.
  intros Hs Ho Hl Hoff Hm h. pose proof (frag_field_range off more Hoff) as Hf. destruct (header_ok (nif_at s i) (plen bs) src dst proto id _ Hs Hf) as [Hok Hck]. fold h in Hok, Hck.
  assert (Eoff : ntohs (ip_off h) = frag_field off more) by (unfold ntohs; apply htons_twice; lia).
  assert (Hp : 0 <= plen bs) by (unfold plen; lia). unfold IP_FRAG_CHUNK, ETH_MTU, IP_HLEN in Hl.
  assert (Elen : ntohs (total_len h) = 20 + plen bs).
  { unfold ntohs. assert (E : total_len h = htons (Z.land (20 + plen bs) 0xFFFF)) by done. rewrite E. change 0xFFFF with (Z.ones 16). rewrite Z.land_ones, Z.mod_small by lia. apply htons_twice. lia. }
  assert (Epos : frag_pos h = off) by (unfold frag_pos; rewrite Eoff, frag_field_pos by done; zlia).
  assert (Emore : frag_more h = more) by (unfold frag_more; rewrite Eoff; by apply frag_field_more).
  split; [done|]. split; [done|]. unfold ipv4_input. rewrite length_app, hdr_bytes_length. rewrite (hdr_roundtrip h bs Hok). rewrite Elen.
  change (Z.land (ver_ihl h) 0x0F * 4) with 20. change (ver_ihl h ≫ 4 =? 4) with true. unfold IP_HLEN. fold (plen bs).
  assert (El : Z.of_nat (20 + length bs) = 20 + plen bs) by (unfold plen; lia). rewrite El.
  rewrite (proj2 (Z.ltb_ge (20 + plen bs) 20)) by lia. change (20 <? 20) with false. rewrite (proj2 (Z.ltb_ge (20 + plen bs) (20 + plen bs))) by lia. cbn [negb orb].
  change (Z.to_nat 20) with 20%nat. rewrite Hck. cbn [Z.eqb negb]. change (ip_dst h) with dst. rewrite Ho. cbn [negb].
  rewrite drop_app_length' by done. replace (Z.to_nat (20 + plen bs - 20)) with (length bs) by (unfold plen; lia). rewrite firstn_all. rewrite Eoff, frag_field_any by done.
  change (ip_proto h) with proto. done.
Qed.

(** ** The queue *)

(** The packets in the ring, the next one first. *)
Record queued s (q : list (netbuf * Z)) : Prop := {
  qu_ring : length (lo_queue s) = 256%nat /\ 0 <= lo_head s < 256;
  qu_count : lo_count s = Z.of_nat (length q) /\ (length q <= 256)%nat;
  qu_at : forall k x, q !! k = Some x -> lo_queue s !! Z.to_nat ((lo_head s + Z.of_nat k) `mod` 256) = Some (Some x);
}.

Lemma queued_same s s' q : queued s q -> lo_queue s' = lo_queue s -> lo_head s' = lo_head s -> lo_count s' = lo_count s -> queued s' q.
Proof. intros [A B C] E1 E2 E3. split; rewrite ?E1, ?E2, ?E3; done. Qed.

Lemma queue_add s q nb i : queued s q -> (length q < 256)%nat ->
  exists s', ipv4_loopback_queue s i nb = (0, s') /\ queued s' (q ++ [(nb, i)]) /\ n_heap s' = n_heap s /\ frags s' = frags s /\ netifs s' = netifs s /\ delivered s' = delivered s.
Proof.
  intros [[A1 A2] [B1 B2] C] Hl. unfold ipv4_loopback_queue, IP_LO_QUEUE. rewrite (proj2 (Z.ltb_lt _ _)) by lia. eexists. split; [done|]. split; [|done].
  split; cbn [n_set_lo lo_queue lo_head lo_count]; [by rewrite length_insert|rewrite length_app; simpl; lia|].
  intros k x Hk. destruct (decide (k < length q)%nat) as [Hlt|Hge].
  - rewrite lookup_app_l in Hk by done. rewrite list_lookup_insert_ne; [by apply C|]. intros E. apply Z2Nat.inj in E; [|apply Z.mod_pos_bound; lia..]. rewrite B1 in E. zlia.
  - rewrite lookup_app_r in Hk by lia. destruct (k - length q)%nat as [|m] eqn:Em; [|done]. injection Hk as <-. replace k with (length q) by lia. rewrite B1.
    rewrite list_lookup_insert_eq; [done|]. rewrite A1. pose proof (Z.mod_pos_bound (lo_head s + Z.of_nat (length q)) 256 ltac:(lia)). lia.
Qed.

(** The state of a turn of the service once the packet is off the ring. *)
Definition popped s : net H0 D := n_set_lo s (lo_queue s) ((lo_head s + 1) `mod` IP_LO_QUEUE) (lo_count s - 1).

Lemma queue_pop n s nb i q : queued s ((nb, i) :: q) ->
  loopback_turns (S n) s = loopback_turns n (netbuf_free (ipv4_input (popped s) i (nb_data nb)) (Some nb)) /\ queued (popped s) q.
Proof.
  intros [[A1 A2] [B1 B2] C]. cbn [length] in *. cbn [loopback_turns]. rewrite (proj2 (Z.eqb_neq (lo_count s) 0)) by lia. cbn [negb].
  pose proof (C O (nb, i) eq_refl) as C0. rewrite Z.add_0_r, Z.mod_small in C0 by lia. rewrite C0. cbn [default from_option id]. split; [done|].
  split; cbn [popped n_set_lo lo_queue lo_head lo_count]; unfold IP_LO_QUEUE; [split; [done|apply Z.mod_pos_bound; lia]|lia|].
  intros k x Hk. rewrite <- (C (S k) x Hk). f_equal. f_equal. rewrite Z.add_mod_idemp_l by lia. f_equal. lia.
Qed.

Lemma queue_empty n s : queued s [] -> loopback_turns n s = (false, s).
Proof. intros [_ [B _] _]. cbn [length] in B. destruct n; cbn [loopback_turns]; rewrite B; done. Qed.

(** ** Cutting up *)

(** The pieces [ipv4_output_flat] sends from [off] on. *)
Fixpoint chunks (fuel : nat) (P : list Z) (off : Z) : list (Z * list Z) :=
  match fuel with
  | O => []
  | S fuel =>
    let bs := take (Z.to_nat (Z.min (plen P - off) IP_FRAG_CHUNK)) (drop (Z.to_nat off) P) in
    (off, bs) :: if off + IP_FRAG_CHUNK <? plen P then chunks fuel P (off + IP_FRAG_CHUNK) else []
  end.

Lemma chunks_S fuel P off : chunks (S fuel) P off =
  (off, take (Z.to_nat (Z.min (plen P - off) IP_FRAG_CHUNK)) (drop (Z.to_nat off) P)) :: if off + IP_FRAG_CHUNK <? plen P then chunks fuel P (off + IP_FRAG_CHUNK) else [].
Proof. reflexivity. Qed.

Definition chunk_more (P : list Z) (c : Z * list Z) : bool := c.1 + plen c.2 <? plen P.

(** The buffer that carries a piece. *)
Definition carries (n : netif) (src dst proto id : Z) (P : list Z) (i : Z) (x : netbuf * Z) (c : Z * list Z) : Prop :=
  x.2 = i /\ nb_data x.1 = ip_hdr_bytes (ipv4_header n (plen c.2) src dst proto id (frag_field c.1 (chunk_more P c))) ++ c.2.

Lemma chunk_length P off : 0 <= off <= plen P -> plen (take (Z.to_nat (Z.min (plen P - off) IP_FRAG_CHUNK)) (drop (Z.to_nat off) P)) = Z.min (plen P - off) IP_FRAG_CHUNK.
Proof. intros Ho. unfold plen in *. rewrite length_take, length_drop. unfold IP_FRAG_CHUNK, ETH_MTU, IP_HLEN. lia. Qed.

Lemma alloc_spec s nb s' : heap_ok (n_heap s) -> netbuf_alloc s = (nb, s') ->
  heap_ok (n_heap s') /\ s' = n_set_heap s (n_heap s') /\
  ((nb = None /\ live (n_heap s') = live (n_heap s)) \/
   exists p, nb = Some {| nb_ptr := p; nb_off := NETBUF_HEADROOM; nb_data := [] |} /\ (p ∉ live (n_heap s)) /\ live (n_heap s') = ({[p]} ∪ live (n_heap s)) /\ p <> 0).
Proof.
  intros Hok. unfold netbuf_alloc, n_kmalloc. destruct (kmalloc sizeof_netbuf (n_heap s)) as [p h] eqn:Ek. destruct (kmalloc_spec sizeof_netbuf (n_heap s) p h Hok ltac:(by vm_compute) Ek) as [Hok' HK].
  destruct (Z.eqb_spec p 0) as [->|Hp]; intros [= <- <-]; (split; [done|]; split; [done|]).
  - left. split; [done|]. destruct HK as [[_ E]|(? & _)]; [done|lia].
  - right. destruct HK as [[? _]|(_ & Hf & E)]; [done|]. by exists p.
Qed.

(** Frames of the state that sending a packet to this machine leaves alone. *)
Record sent_same s s' : Prop := {
  ss_frags : frags s' = frags s; ss_nifs : netifs s' = netifs s; ss_deliv : delivered s' = delivered s;
}.

(** One piece: its buffer is queued. *)
Lemma send_chunk send s q i bs p src dst proto id frag hop : queued s q -> (length q < 256)%nat -> ipv4_stays_here (nif_at s i) dst = true -> plen bs <= IP_FRAG_CHUNK ->
  exists nb nb1 s2, netbuf_put {| nb_ptr := p; nb_off := NETBUF_HEADROOM; nb_data := [] |} bs = Some nb /\ ipv4_send send s i nb src dst proto id frag hop = (0, s2) /\
    queued s2 (q ++ [(nb1, i)]) /\ nb_ptr nb1 = p /\ nb_data nb1 = ip_hdr_bytes (ipv4_header (nif_at s i) (plen bs) src dst proto id frag) ++ bs /\
    n_heap s2 = n_heap s /\ sent_same s s2.
Proof.
  intros Hq Hl Hst Hb. unfold IP_FRAG_CHUNK, ETH_MTU, IP_HLEN in Hb. set (nb := {| nb_ptr := p; nb_off := NETBUF_HEADROOM; nb_data := bs |}).
  assert (Eput : netbuf_put {| nb_ptr := p; nb_off := NETBUF_HEADROOM; nb_data := [] |} bs = Some nb).
  { unfold netbuf_put. cbn [nb_off nb_data nb_ptr]. fold (plen bs). unfold nb_len. cbn [nb_data length]. rewrite (proj2 (Z.ltb_ge _ _)) by (unfold NETBUF_SIZE, NETBUF_HEADROOM; lia). done. }
  set (h := ipv4_header (nif_at s i) (plen bs) src dst proto id frag). set (nb1 := {| nb_ptr := p; nb_off := NETBUF_HEADROOM - 20; nb_data := ip_hdr_bytes h ++ bs |}).
  destruct (queue_add s q nb1 i Hq Hl) as (s2 & Eq & Hq2 & E1 & E2 & E3 & E4). exists nb, nb1, s2. split; [exact Eput|]. split; [|split; [exact Hq2|]; split; [reflexivity|]; split; [reflexivity|]; split; [exact E1|by split]].
  unfold ipv4_send. assert (Epush : netbuf_push nb (ip_hdr_bytes h) = Some nb1) by (unfold netbuf_push; rewrite hdr_bytes_length; reflexivity). fold (plen bs) in *.
  change (nb_len nb) with (plen bs). fold h. rewrite Epush, Hst. exact Eq.
Qed.

Lemma output_frags_ok send i P src dst proto id hop fuel : forall s q off,
  heap_ok (n_heap s) -> queued s q -> ipv4_stays_here (nif_at s i) dst = true -> 0 <= off -> (off = 0 \/ off < plen P) -> plen P <= IP_MAX_PAYLOAD ->
  plen P <= off + IP_FRAG_CHUNK * Z.of_nat fuel -> Z.of_nat (length q) + Z.of_nat fuel <= 256 -> (0 < fuel)%nat ->
  exists r s', output_frags send fuel s i P off src dst proto id hop = Some (r, s') /\ heap_ok (n_heap s') /\ sent_same s s' /\ (r = 0 \/ r = - ENOBUFS) /\
    (r = 0 -> exists q', queued s' (q ++ q') /\ Forall2 (carries (nif_at s i) src dst proto id P i) q' (chunks fuel P off) /\
       NoDup ((fun x : netbuf * Z => nb_ptr x.1) <$> q') /\ (forall x, x ∈ q' -> (nb_ptr x.1 ∉ live (n_heap s)) /\ nb_ptr x.1 <> 0) /\
       live (n_heap s') = (list_to_set ((fun x : netbuf * Z => nb_ptr x.1) <$> q') ∪ live (n_heap s))).
Proof.
  induction fuel as [|fuel IH]; intros s q off Hok Hq Hst H1 H2 H3 H4 H5 H6; [lia|]. cbn [output_frags chunks].
  change (Z.of_nat (length P)) with (plen P).
  assert (Hc : (off <? plen P) || (off =? 0) = true) by (destruct H2 as [->|?]; [apply orb_true_r|rewrite (proj2 (Z.ltb_lt _ _)) by done; done]). rewrite Hc.
  assert (Hle : off <= plen P) by (unfold plen; unfold plen in H2; lia).
  assert (Ech : (if plen P - off <? IP_FRAG_CHUNK then plen P - off else IP_FRAG_CHUNK) = Z.min (plen P - off) IP_FRAG_CHUNK) by (destruct (Z.ltb_spec (plen P - off) IP_FRAG_CHUNK); lia).
  rewrite Ech. pose proof (chunk_length P off ltac:(lia)) as Hbl. revert Hbl. generalize (take (Z.to_nat (Z.min (plen P - off) IP_FRAG_CHUNK)) (drop (Z.to_nat off) P)) as bs. intros bs Hbl.
  destruct (netbuf_alloc s) as [nb s1] eqn:Ea. destruct (alloc_spec s nb s1 Hok Ea) as (Hok1 & Es1 & [[-> _]|(p & -> & Hp1 & Hp2 & Hp3)]).
  { exists (- ENOBUFS), s1. split; [reflexivity|]. split; [exact Hok1|]. split; [rewrite Es1; split; reflexivity|]. split; [by right|]. intros E. discriminate E. }
  assert (Emore : (off + Z.min (plen P - off) IP_FRAG_CHUNK <? plen P) = chunk_more P (off, bs)) by (unfold chunk_more; cbn [fst snd]; by rewrite Hbl). rewrite Emore.
  assert (Enif : nif_at s1 i = nif_at s i) by (rewrite Es1; reflexivity). assert (Hq1 : queued s1 q) by (rewrite Es1; by apply (queued_same s)).
  destruct (send_chunk send s1 q i bs p src dst proto id (frag_field off (chunk_more P (off, bs))) hop Hq1 ltac:(lia) ltac:(by rewrite Enif) ltac:(lia)) as (nb0 & nb1 & s2 & Eput & Esend & Hq2 & Ep & Ed & Eh & HS).
  rewrite Eput. unfold frag_field in Esend at 1. rewrite Esend. cbn [Z.eqb negb]. rewrite Enif in Ed.
  assert (Hcar : carries (nif_at s i) src dst proto id P i (nb1, i) (off, bs)) by (split; [reflexivity|exact Ed]).
  assert (HS2 : sent_same s s2) by (destruct HS as [T1 T2 T3]; rewrite Es1 in T1, T2, T3; split; assumption).
  assert (En2 : nif_at s2 i = nif_at s i) by (unfold nif_at; by rewrite (ss_nifs _ _ HS2)).
  assert (Hmore : chunk_more P (off, bs) = (off + IP_FRAG_CHUNK <? plen P)).
  { rewrite <- Emore. destruct (Z.ltb_spec (off + IP_FRAG_CHUNK) (plen P)); [apply Z.ltb_lt|apply Z.ltb_ge]; lia. }
  rewrite Hmore. destruct (Z.ltb_spec (off + IP_FRAG_CHUNK) (plen P)) as [Hlt|Hge]; cbn [negb].
  - assert (Hf : (0 < fuel)%nat) by (destruct fuel; [unfold IP_FRAG_CHUNK, ETH_MTU, IP_HLEN in *; lia|lia]).
    destruct (IH s2 (q ++ [(nb1, i)]) (off + IP_FRAG_CHUNK)) as (r & s3 & E & Hok3 & [S1 S2 S3] & Hr & HQ).
    { by rewrite Eh. } { done. } { by rewrite En2. } { unfold IP_FRAG_CHUNK, ETH_MTU, IP_HLEN. lia. } { by right. } { done. } { lia. } { rewrite length_app. simpl. lia. } { done. }
    exists r, s3. split; [exact E|]. split; [exact Hok3|]. split; [destruct HS2; split; congruence|]. split; [exact Hr|]. intros Hr0. destruct (HQ Hr0) as (q' & Q1 & Q2 & Q3 & Q4 & Q5).
    rewrite En2 in Q2. exists ((nb1, i) :: q'). rewrite Eh in Q4, Q5.
    split; [by rewrite cons_middle, app_assoc|]. split; [by constructor|]. split; [|split].
    + cbn [fmap list_fmap fst]. constructor; [|done]. intros Hin. apply list_elem_of_fmap in Hin as (y & Ey & Hy). destruct (Q4 y Hy) as [Hy1 _]. apply Hy1. rewrite <- Ey, Ep, Hp2. apply elem_of_union_l. by apply elem_of_singleton.
    + intros x Hx. apply elem_of_cons in Hx as [->|Hx]; [cbn [fst]; by rewrite Ep|]. destruct (Q4 x Hx) as [Hx1 Hx2]. split; [|done]. rewrite Hp2 in Hx1. intros Hin. apply Hx1. by apply elem_of_union_r.
    + rewrite Q5, Hp2. cbn [fmap list_fmap fst]. rewrite Ep, list_to_set_cons, assoc_L by apply _. f_equal. apply (comm_L _).
  - exists 0, s2. split; [reflexivity|]. rewrite Eh. split; [exact Hok1|]. split; [exact HS2|]. split; [by left|]. intros _. exists [(nb1, i)]. split; [exact Hq2|]. split; [by constructor; [|constructor]|].
    cbn [fmap list_fmap fst]. rewrite Ep. split; [constructor; [apply not_elem_of_nil|constructor]|]. split; [intros x Hx; apply list_elem_of_singleton in Hx as ->; cbn [fst]; by rewrite Ep|]. by rewrite Hp2, list_to_set_cons, list_to_set_nil, (right_id_L ∅ (∪) {[p]}).
Qed.

(** ** The pieces are fragments *)

Lemma chunks_piece fuel : forall P off c, 0 <= off -> off `mod` 8 = 0 -> off <= plen P -> plen P <= IP_MAX_PAYLOAD -> c ∈ chunks fuel P off ->
  off <= c.1 /\ 0 <= c.1 < 65536 /\ c.1 `mod` 8 = 0 /\ plen c.2 <= IP_FRAG_CHUNK /\ piece P c.1 c.2 (chunk_more P c).
Proof.
  induction fuel as [|fuel IH]; intros P off c H1 H2 H3 H4 Hc; cbn [chunks] in Hc; [by apply not_elem_of_nil in Hc|]. apply elem_of_cons in Hc as [->|Hc].
  - unfold IP_MAX_PAYLOAD in H4. cbn [fst snd]. pose proof (chunk_length P off ltac:(lia)) as Hl. set (bs := take _ _) in *. assert (Hm : chunk_more P (off, bs) = true -> plen bs = IP_FRAG_CHUNK).
    { unfold chunk_more. cbn [fst snd]. intros E%Z.ltb_lt. lia. }
    split; [lia|]. split; [unfold IP_HLEN in *; lia|]. split; [done|]. split; [lia|]. split; [done|lia| |done|].
    + unfold bs, plen in *. rewrite length_take, length_drop. f_equal. unfold IP_FRAG_CHUNK, ETH_MTU, IP_HLEN in *. lia.
    + intros E. rewrite (Hm E). done.
  - destruct (Z.ltb_spec (off + IP_FRAG_CHUNK) (plen P)); [|by apply not_elem_of_nil in Hc]. unfold IP_FRAG_CHUNK, ETH_MTU, IP_HLEN in *. destruct (IH P (off + 1480) c ltac:(lia) ltac:(zlia) ltac:(lia) H4 Hc) as (A & B). split; [lia|done].
Qed.

(** ** The state a fragment leaves alone *)

Record rest_same s s' : Prop := {
  rs_lo : lo_queue s' = lo_queue s /\ lo_head s' = lo_head s /\ lo_count s' = lo_count s;
  rs_nifs : netifs s' = netifs s;
  rs_deliv : delivered s' = delivered s;
}.

Lemma rest_trans s1 s2 s3 : rest_same s1 s2 -> rest_same s2 s3 -> rest_same s1 s3.
Proof. intros [(A1 & A2 & A3) B C] [(A1' & A2' & A3') B' C']. split; [|congruence|congruence]. split_and!; congruence. Qed.

Lemma slot_rest s ip : rest_same s (frag_slot s ip).2.
Proof.
  unfold frag_slot. destruct (frag_scan ip (frags s) 0 None None) as [j|[o fr]]; [done|]. unfold n_kmalloc.
  destruct fr as [j|]; cbn [frag_free n_kfree n_set_heap n_set_frags n_heap]; (destruct (kmalloc _ _) as [p h]; by destruct (p =? 0)).
Qed.

Lemma reassemble_rest s ip bs : rest_same s (ipv4_reassemble s ip bs).2.
Proof.
  unfold ipv4_reassemble. destruct (_ || _); [done|]. pose proof (slot_rest s ip) as HR. destruct (frag_slot s ip) as [[j|] s1]; [|done]. cbn [snd] in HR.
  destruct (frag_complete _); (apply (rest_trans _ s1); [done|]; by split).
Qed.

Lemma queued_rest s s' q : queued s q -> rest_same s s' -> queued s' q.
Proof. intros HQ [(A & B & C) _ _]. by apply (queued_same s). Qed.

Lemma nif_rest s s' i : rest_same s s' -> nif_at s' i = nif_at s i.
Proof. intros [_ E _]. unfold nif_at. by rewrite E. Qed.

(** ** The way back in *)

Section Packet.

Variables (n : netif) (src dst proto id i : Z) (P : list Z).

Hypothesis Hsend : send_ok n src dst proto id.

Hypothesis Hours : ipv4_is_ours n dst = true.

Hypothesis HP : 0 < plen P <= IP_MAX_PAYLOAD.

Definition chunk_hdr (c : Z * list Z) : ipv4_hdr := ipv4_header n (plen c.2) src dst proto id (frag_field c.1 (chunk_more P c)).

(** The source the packet carries. *)
Definition source : Z := if negb (src =? 0) then src else ipv4_source n dst.

Definition the_delivery : delivery := {| d_nif := i; d_src := source; d_dst := dst; d_proto := proto; d_payload := Some <$> P |}.

(** A piece that can be sent: [chunks_piece]. *)
Definition chunk_ok (c : Z * list Z) : Prop := 0 <= c.1 < 65536 /\ c.1 `mod` 8 = 0 /\ plen c.2 <= IP_FRAG_CHUNK /\ piece P c.1 c.2 (chunk_more P c).

Lemma chunk_input s c : nif_at s i = n -> chunk_ok c -> fragment_of (chunk_hdr (0, [])) P (chunk_hdr c, c.2) /\ frag_pos (chunk_hdr c) = c.1 /\
  ipv4_input s i (ip_hdr_bytes (chunk_hdr c) ++ c.2) =
    if negb (chunk_more P c || negb (c.1 =? 0)) then ipv4_deliver s i source dst proto (Some <$> c.2)
    else let '(whole, s) := ipv4_reassemble s (chunk_hdr c) c.2 in
         match whole with Some (p, b) => n_kfree (ipv4_deliver s i source dst proto b) p | None => s end.
Proof.
  intros Hn (C1 & C2 & C3 & C4). rewrite <- Hn in Hsend, Hours. pose proof (input_packet s i c.2 src dst proto id c.1 (chunk_more P c) Hsend Hours C3 C1 C2) as HI. cbv zeta in HI. rewrite Hn in HI.
  destruct HI as (I1 & I2 & I3). fold (chunk_hdr c) in I1, I2, I3. split; [split; [done|]; cbn [fst snd]; by rewrite I1, I2|]. split; [done|exact I3].
Qed.

Lemma deliver_proto s b : ipv4_deliver s i source dst proto b = n_deliver s {| d_nif := i; d_src := source; d_dst := dst; d_proto := proto; d_payload := b |}.
Proof. unfold ipv4_deliver. destruct (so_proto _ _ _ _ _ Hsend) as [->|[->| ->]]; reflexivity. Qed.

(** The fragments seen so far are the bytes below [off]. *)
Definition seen_below (seen : list (ipv4_hdr * list Z)) (off : Z) : Prop :=
  (forall x, x ∈ seen -> frag_pos x.1 + plen x.2 <= off) /\ (forall k, 0 <= k < off -> exists x, x ∈ seen /\ frag_pos x.1 <= k < frag_pos x.1 + plen x.2).

Lemma seen_next seen c : chunk_ok c -> frag_pos (chunk_hdr c) = c.1 -> seen_below seen c.1 -> seen_below (seen ++ [(chunk_hdr c, c.2)]) (c.1 + plen c.2).
Proof.
  intros HC Hp [S1 S2]. assert (0 <= plen c.2) by (unfold plen; lia). split.
  - intros x Hx. apply elem_of_app in Hx as [Hx|Hx]; [specialize (S1 x Hx); lia|]. apply list_elem_of_singleton in Hx as ->. cbn [fst snd]. lia.
  - intros k Hk. destruct (decide (k < c.1)); [destruct (S2 k ltac:(lia)) as (x & Hx & E); exists x; split; [apply elem_of_app; by left|done]|].
    exists (chunk_hdr c, c.2). split; [apply elem_of_app; right; by left|]. cbn [fst snd]. lia.
Qed.

Lemma seen_covered seen off : seen_below seen off -> covered P seen <-> plen P <= off.
Proof.
  intros [S1 S2]. split.
  - intros Hc. destruct (Hc (plen P - 1) ltac:(lia)) as (x & Hx & E). specialize (S1 x Hx). lia.
  - intros Hle k Hk. apply S2. lia.
Qed.

(** A turn of the service on one piece. *)
Lemma turn s seen j p c : nif_at s i = n -> chunk_ok c -> collecting (chunk_hdr (0, [])) P seen s j p -> seen_below seen c.1 -> (chunk_more P c = true \/ c.1 <> 0) ->
  let t := ipv4_input s i (ip_hdr_bytes (chunk_hdr c) ++ c.2) in
  (chunk_more P c = true -> rest_same s t /\ n_heap t = n_heap s /\ collecting (chunk_hdr (0, [])) P (seen ++ [(chunk_hdr c, c.2)]) t j p) /\
  (chunk_more P c = false -> (lo_queue t = lo_queue s /\ lo_head t = lo_head s /\ lo_count t = lo_count s) /\ netifs t = netifs s /\
     delivered t = delivered s ++ [the_delivery] /\ n_heap t = kfree_nonnull p (n_heap s) /\ exists f, frags t = <[j := frag_off f]> (frags s)).
Proof.
  intros Hn HC HK HS Hf. destruct (chunk_input s c Hn HC) as (HF & Hpos & ->). assert (Hb : negb (chunk_more P c || negb (c.1 =? 0)) = false).
  { apply negb_false_iff, orb_true_iff. destruct Hf as [Hf|Hf]; [by left|]. right. apply negb_true_iff. by apply Z.eqb_neq. }
  rewrite Hb. pose proof (collect_step _ P seen s j p (chunk_hdr c, c.2) HP HK HF) as ST. cbn [fst snd] in ST. pose proof (reassemble_rest s (chunk_hdr c) c.2) as RS.
  pose proof (seen_covered _ _ (seen_next seen c HC Hpos HS)) as Hcov. unfold chunk_more. destruct (ipv4_reassemble s (chunk_hdr c) c.2) as [o t]. cbn [snd] in RS. cbv zeta.
  destruct ST as [(Hc & -> & f & Ef & Eh)|(Hc & -> & HK' & Eh)].
  - apply Hcov in Hc. split; [intros E%Z.ltb_lt; lia|]. intros _. rewrite deliver_proto. destruct RS as [R1 R2 R3]. cbn [n_kfree n_set_heap n_deliver lo_queue lo_head lo_count netifs delivered n_heap frags].
    split; [done|]. split; [done|]. split; [by rewrite R3|]. split; [by rewrite Eh|]. by exists f.
  - rewrite Hcov in Hc. split; [done|]. intros E%Z.ltb_ge. lia.
Qed.

Definition ptrs (q : list (netbuf * Z)) : list Z := (fun x => nb_ptr x.1) <$> q.

Lemma free_ptr s L p : heap_ok (n_heap s) -> live (n_heap s) = ({[p]} ∪ L) -> p ∉ L -> p <> 0 ->
  heap_ok (kfree_nonnull p (n_heap s)) /\ live (kfree_nonnull p (n_heap s)) = L.
Proof.
  intros Hok HL Hp H0'. destruct (kfree_block p (n_heap s) Hok) as [F1 F2]; [unfold block; rewrite (proj2 (Z.eqb_neq p 0)) by done; rewrite HL; apply union_subseteq_l|].
  split; [done|]. rewrite F2, HL. unfold block. rewrite (proj2 (Z.eqb_neq p 0)) by done. rewrite difference_union_distr_l_L, difference_diag_L, (left_id_L ∅ (∪)). apply difference_disjoint_L. apply disjoint_singleton_r. done.
Qed.

(** From a slot that has all before [off] to the delivery. *)
Lemma service_run fuel : forall q s seen j p off k L, nif_at s i = n -> heap_ok (n_heap s) -> 0 <= off < plen P -> off `mod` 8 = 0 -> off <> 0 -> plen P <= off + IP_FRAG_CHUNK * Z.of_nat fuel ->
  collecting (chunk_hdr (0, [])) P seen s j p -> seen_below seen off -> queued s q -> Forall2 (carries n src dst proto id P i) q (chunks fuel P off) -> (length q <= k)%nat ->
  live (n_heap s) = (list_to_set (ptrs q) ∪ ({[p]} ∪ L)) -> NoDup (ptrs q) -> (forall x, x ∈ ptrs q -> (x ∉ ({[p]} ∪ L : gset Z)) /\ x <> 0) -> p ∉ L -> p <> 0 ->
  exists s', loopback_turns k s = (false, s') /\ queued s' [] /\ delivered s' = delivered s ++ [the_delivery] /\ netifs s' = netifs s /\ heap_ok (n_heap s') /\ live (n_heap s') = L.
Proof.
  induction fuel as [|fuel IH]; intros q s seen j p off k L Hn Hok Ho Hm Hnz Hfuel HK HS HQ HF Hk HL Hnd Hfr HpL Hp0; [lia|]. pose proof (chunks_piece (S fuel) P off) as HCP. cbn [chunks] in HF, HCP.
  set (c := (off, take (Z.to_nat (Z.min (plen P - off) IP_FRAG_CHUNK)) (drop (Z.to_nat off) P))) in *. destruct (HCP c ltac:(lia) Hm ltac:(lia) ltac:(lia) ltac:(left)) as (_ & C1 & C2 & C3 & C4). clear HCP.
  assert (HC : chunk_ok c) by done. inversion HF as [|[nb i'] c' q' cs' [Hi Hd] HF' E1 E2]. subst q c' cs'. cbn [fst snd] in Hi, Hd. subst i'. destruct k as [|k]; [cbn [length] in Hk; lia|]. cbn [length] in Hk.
  destruct (queue_pop k s nb i q' HQ) as [-> HQ1]. rewrite Hd. change (ipv4_header n (plen c.2) src dst proto id (frag_field c.1 (chunk_more P c))) with (chunk_hdr c).
  assert (Hn1 : nif_at (popped s) i = n) by done. assert (HK1 : collecting (chunk_hdr (0, [])) P seen (popped s) j p) by (destruct HK; by split).
  destruct (turn (popped s) seen j p c Hn1 HC HK1 HS ltac:(by right)) as [T1 T2]. set (t := ipv4_input (popped s) i (ip_hdr_bytes (chunk_hdr c) ++ c.2)) in *. clearbody t.
  cbn [ptrs fmap list_fmap fst] in Hnd, Hfr, HL. fold (ptrs q') in Hnd, Hfr, HL. apply list.NoDup_cons in Hnd as [Hnb Hnd]. set (b := nb_ptr nb) in *.
  assert (Hb : b ∉ list_to_set (ptrs q') ∪ ({[p]} ∪ L)) by (intros [Hin|Hin]%elem_of_union; [by apply elem_of_list_to_set in Hin|destruct (Hfr b ltac:(left)) as [? _]; done]).
  assert (Hb0 : b <> 0) by (by destruct (Hfr b ltac:(left))).
  rewrite list_to_set_cons, <- (assoc_L (∪)) in HL.
  assert (Hend : chunk_more P c = (off + IP_FRAG_CHUNK <? plen P)).
  { unfold chunk_more, c. cbn [fst snd]. rewrite chunk_length by lia. destruct (Z.ltb_spec (off + IP_FRAG_CHUNK) (plen P)); [apply Z.ltb_lt|apply Z.ltb_ge]; lia. }
  destruct (chunk_more P c) eqn:Em.
  - destruct (T1 eq_refl) as (R & Eh & HK2). clear T1 T2. symmetry in Hend. rewrite Hend in HF'. apply Z.ltb_lt in Hend.
    assert (Hcl : plen c.2 = IP_FRAG_CHUNK) by (unfold c; cbn [snd]; rewrite chunk_length by lia; lia).
    pose proof (seen_next seen c HC ltac:(by apply (chunk_input (popped s) c Hn1 HC)) HS) as HS2. rewrite Hcl in HS2. change c.1 with off in HS2.
    destruct (free_ptr t _ b ltac:(by rewrite Eh) ltac:(rewrite Eh; exact HL) Hb Hb0) as [F1 F2].
    set (t' := netbuf_free t (Some nb)). assert (Et : n_heap t' = kfree_nonnull b (n_heap t)) by done.
    destruct (IH q' t' (seen ++ [(chunk_hdr c, c.2)]) j p (off + IP_FRAG_CHUNK) k L) as (s' & -> & A1 & A2 & A3 & A4 & A5); try done.
    { change (nif_at t' i) with (nif_at t i). by rewrite (nif_rest _ _ _ R). } { unfold IP_FRAG_CHUNK, ETH_MTU, IP_HLEN in *. lia. } { unfold IP_FRAG_CHUNK, ETH_MTU, IP_HLEN in *. zlia. } { unfold IP_FRAG_CHUNK, ETH_MTU, IP_HLEN in *. lia. } { lia. }
    { destruct HK2; by split. } { apply (queued_rest (popped s)); [done|]. destruct R; by split. } { lia. } { intros x Hx. apply Hfr. by right. }
    exists s'. split; [done|]. split; [done|]. destruct R as [_ R2 R3]. change (delivered t') with (delivered t) in A2. change (netifs t') with (netifs t) in A3. rewrite A2, A3, R2, R3. done.
  - destruct (T2 eq_refl) as (R1 & R2 & R3 & Eh & f & Ef). clear T1 T2. rewrite <- Hend in HF'. inversion HF'; subst q'.
    cbn [ptrs fmap list_fmap list_to_set] in HL, Hb. rewrite (left_id_L ∅ (∪)) in HL, Hb.
    destruct (free_ptr s ({[b]} ∪ L) p Hok) as [F1 F2]; [rewrite HL, !(assoc_L (∪)), (comm_L (∪) {[b]}); done|intros [Hin%elem_of_singleton|?]%elem_of_union; [apply Hb; rewrite <- Hin; apply elem_of_union_l; by apply elem_of_singleton|done]|done|].
    change (n_heap (popped s)) with (n_heap s) in Eh. rewrite <- Eh in F1, F2.
    destruct (free_ptr t L b F1 F2 ltac:(intros Hin; apply Hb; by apply elem_of_union_r) Hb0) as [G1 G2].
    set (t' := netbuf_free t (Some nb)). assert (Et : n_heap t' = kfree_nonnull b (n_heap t)) by done.
    assert (HQ2 : queued t' []) by (apply (queued_same (popped s)); [done|apply R1..]).
    exists t'. split; [by apply queue_empty|]. split; [done|]. split; [exact R3|]. split; [exact R2|]. rewrite Et. done.
Qed.

End Packet.

Lemma chunks_length fuel P off : (length (chunks fuel P off) <= fuel)%nat.
Proof. revert off. induction fuel as [|fuel IH]; intros off; cbn [chunks length]; [lia|]. destruct (_ <? _); [specialize (IH (off + IP_FRAG_CHUNK)); lia|simpl; lia]. Qed.

Lemma stays_ours nf dst : ipv4_stays_here nf dst = true -> ipv4_is_ours nf dst = true /\ dst <> 0.
Proof.
  unfold ipv4_stays_here, ipv4_is_ours. intros [E|[E1 E2]%andb_true_iff]%orb_true_iff.
  - rewrite E, orb_true_r. split; [done|]. intros ->. discriminate E.
  - apply Z.eqb_eq in E2 as ->. apply negb_true_iff, Z.eqb_neq in E1. split; [|done]. destruct (_ || _); [done|]. destruct (negb _); [done|]. by rewrite Z.eqb_refl.
Qed.

(** Everything up to [IP_FRAG_CHUNK] bytes goes as one packet. *)
Lemma service_single s i P src dst proto id q : send_ok (nif_at s i) src dst proto id -> ipv4_is_ours (nif_at s i) dst = true -> plen P <= IP_FRAG_CHUNK ->
  heap_ok (n_heap s) -> queued s q -> Forall2 (carries (nif_at s i) src dst proto id P i) q (chunks FRAG_FUEL P 0) -> forall L, live (n_heap s) = (list_to_set (ptrs q) ∪ L) ->
  (forall x, x ∈ ptrs q -> (x ∉ L) /\ x <> 0) ->
  exists s', ipv4_loopback_service s = (false, s') /\ queued s' [] /\ delivered s' = delivered s ++ [the_delivery (nif_at s i) src dst proto i P] /\ heap_ok (n_heap s') /\ live (n_heap s') = L.
Proof.
  intros Hsend Hours Hl Hok HQ HF L HL Hfr. assert (Hp : 0 <= plen P) by (unfold plen; lia). pose proof (chunks_piece FRAG_FUEL P 0) as HCP. change FRAG_FUEL with (S 45) in HF, HCP. rewrite chunks_S in HF, HCP.
  rewrite (proj2 (Z.ltb_ge (0 + IP_FRAG_CHUNK) (plen P))) in HF, HCP by lia.
  assert (Ebs : take (Z.to_nat (Z.min (plen P - 0) IP_FRAG_CHUNK)) (drop (Z.to_nat 0) P) = P) by (rewrite Z.min_l by lia; unfold plen; apply take_ge; simpl; lia). rewrite Ebs in HF, HCP.
  destruct (HCP (0, P) ltac:(lia) eq_refl Hp ltac:(unfold IP_FRAG_CHUNK, IP_MAX_PAYLOAD, ETH_MTU, IP_HLEN in *; lia) ltac:(left)) as (_ & C1 & C2 & C3 & C4).
  inversion HF as [|[nb i'] c q' cs [Hi Hd] HF' E1 E2]. subst q c cs. inversion HF'; subst q'. cbn [fst snd] in Hi, Hd. subst i'. unfold ipv4_loopback_service. change IP_LO_BATCH with (S 63).
  destruct (queue_pop 63 s nb i [] HQ) as [-> HQ1]. rewrite Hd. assert (Em : chunk_more P (0, P) = false) by (unfold chunk_more; cbn [fst snd]; apply Z.ltb_ge; lia).
  pose proof (chunk_input (nif_at s i) src dst proto id i P Hsend Hours (popped s) (0, P) eq_refl ltac:(done)) as (_ & _ & EI). unfold chunk_hdr in EI. cbn [fst snd] in EI. rewrite EI, Em. cbn [Z.eqb negb orb].
  rewrite (deliver_proto (nif_at s i) src dst proto id i Hsend). set (t := n_deliver _ _). cbn [ptrs fmap list_fmap fst] in HL. rewrite list_to_set_cons, list_to_set_nil, (right_id_L ∅ (∪)) in HL.
  destruct (Hfr (nb_ptr nb) ltac:(left)) as [Hb Hb0]. destruct (free_ptr t L (nb_ptr nb) Hok HL Hb Hb0) as [F1 F2].
  set (t' := netbuf_free t (Some nb)). assert (HQ2 : queued t' []) by (by apply (queued_same (popped s))). exists t'. split; [by apply queue_empty|]. split; [done|]. split; [done|]. split; [exact F1|exact F2].
Qed.

(** A longer one goes in fragments, and the first one opens a slot. *)
Lemma service_frags s i P src dst proto id q : send_ok (nif_at s i) src dst proto id -> ipv4_is_ours (nif_at s i) dst = true -> IP_FRAG_CHUNK < plen P <= IP_MAX_PAYLOAD ->
  heap_ok (n_heap s) -> queued s q -> Forall2 (carries (nif_at s i) src dst proto id P i) q (chunks FRAG_FUEL P 0) -> forall L, live (n_heap s) = (list_to_set (ptrs q) ∪ L) ->
  NoDup (ptrs q) -> (forall x, x ∈ ptrs q -> (x ∉ L) /\ x <> 0) -> (forall g, g ∈ frags s -> slot_is (chunk_hdr (nif_at s i) src dst proto id P (0, [])) g = false) -> (exists g, g ∈ frags s /\ f_used g = false) ->
  (kmalloc IP_MAX_PAYLOAD (n_heap s)).1 <> 0 ->
  exists s', ipv4_loopback_service s = (false, s') /\ queued s' [] /\ delivered s' = delivered s ++ [the_delivery (nif_at s i) src dst proto i P] /\ heap_ok (n_heap s') /\ live (n_heap s') = L.
Proof.
  intros Hsend Hours Hl Hok HQ HF L HL Hnd Hfr Hno Hun Hmem. assert (Hchunk : IP_FRAG_CHUNK = 1480) by reflexivity. set (n := nif_at s i) in *. assert (Hn1 : nif_at (popped s) i = n) by done.
  pose proof (chunks_piece FRAG_FUEL P 0) as HCP. change FRAG_FUEL with (S 45) in HF, HCP. rewrite chunks_S in HF, HCP.
  rewrite (proj2 (Z.ltb_lt (0 + IP_FRAG_CHUNK) (plen P))) in HF, HCP by lia. set (c := (0, take (Z.to_nat (Z.min (plen P - 0) IP_FRAG_CHUNK)) (drop (Z.to_nat 0) P))) in *.
  destruct (HCP c ltac:(lia) eq_refl ltac:(lia) ltac:(lia) ltac:(left)) as (_ & C1 & C2 & C3 & C4). clear HCP. assert (HC : chunk_ok P c) by done.
  assert (Hcl : plen c.2 = IP_FRAG_CHUNK) by (unfold c; cbn [snd]; rewrite chunk_length by lia; lia).
  assert (Em : chunk_more P c = true) by (unfold chunk_more; rewrite Hcl; apply Z.ltb_lt; unfold c; cbn [fst]; lia).
  assert (Hc1 : c.1 = 0) by reflexivity. clearbody c.
  assert (HP : 0 < plen P <= IP_MAX_PAYLOAD) by (unfold IP_FRAG_CHUNK, ETH_MTU, IP_HLEN in *; lia).
  inversion HF as [|[nb i'] c' q' cs [Hi Hd] HF' E1 E2]. subst q c' cs. cbn [fst snd] in Hi, Hd. subst i'.
  assert (Hlen : (length q' <= 45)%nat) by (pose proof (chunks_length 45 P (0 + IP_FRAG_CHUNK)); pose proof (list.Forall2_length _ _ _ HF') as EL; rewrite EL; done).
  unfold ipv4_loopback_service. change IP_LO_BATCH with (S 63). destruct (queue_pop 63 s nb i q' HQ) as [-> HQ1]. rewrite Hd. fold (chunk_hdr n src dst proto id P c).
  destruct (chunk_input n src dst proto id i P Hsend Hours (popped s) c Hn1 HC) as (HF1 & Hpos & EI).
  destruct (frag_slot (popped s) (chunk_hdr n src dst proto id P c)) as [r s1] eqn:Es.
  destruct (slot_open (chunk_hdr n src dst proto id P (0, [])) P (popped s) (chunk_hdr n src dst proto id P c) r s1 ltac:(lia)) as [[-> Hnone]|(j & p & -> & HK & Hp0 & Es1 & Hheap)]; [|exact Hno|done|exact Es| |].
  { destruct Hun as (g & Hg & _). change (frags (popped s)) with (frags s). intros E. rewrite E in Hg. by apply not_elem_of_nil in Hg. }
  { destruct Hmem. by apply Hnone. }
  destruct (Hheap Hun) as [Hmal _]. clear Hheap. change (n_heap (popped s)) with (n_heap s) in Hmal.
  pose proof (slot_rest (popped s) (chunk_hdr n src dst proto id P c)) as RS. rewrite Es in RS. cbn [snd] in RS.
  assert (Hn2 : nif_at s1 i = n) by (by rewrite (nif_rest _ _ _ RS)).
  destruct (chunk_input n src dst proto id i P Hsend Hours s1 c Hn2 HC) as (_ & _ & EI1).
  assert (Eopen : ipv4_input (popped s) i (ip_hdr_bytes (chunk_hdr n src dst proto id P c) ++ c.2) = ipv4_input s1 i (ip_hdr_bytes (chunk_hdr n src dst proto id P c) ++ c.2)).
  { rewrite EI, EI1, Em. cbn [orb negb]. rewrite (reassemble_open (popped s) _ _ j s1 Es Es1); [done|]. apply (piece_accepted P); [lia|]. apply HF1. }
  assert (HSB : seen_below [] c.1) by (split; [intros x Hx; destruct (not_elem_of_nil _ Hx)|intros k Hk; rewrite Hc1 in Hk; lia]).
  rewrite Eopen. destruct (turn n src dst proto id i P Hsend Hours HP s1 [] j p c Hn2 HC HK HSB (or_introl Em)) as [T1 _].
  destruct (T1 Em) as (R & Eh & HK2). clear T1. set (t := ipv4_input s1 i _) in *. clearbody t. clear EI EI1 Eopen.
  destruct (kmalloc_spec IP_MAX_PAYLOAD (n_heap s) p (n_heap s1) Hok ltac:(by vm_compute) Hmal) as [Hok1 [[? _]|(Hppos & Hpf & Hpl)]]; [done|].
  cbn [ptrs fmap list_fmap fst] in Hnd, Hfr, HL. fold (ptrs q') in Hnd, Hfr, HL. apply list.NoDup_cons in Hnd as [Hnb Hnd]. set (b := nb_ptr nb) in *. destruct (Hfr b ltac:(left)) as [Hb Hb0].
  rewrite HL in Hpf, Hpl. rewrite list_to_set_cons in Hpf, Hpl.
  assert (Hpb : p <> b) by (intros ->; apply Hpf; apply elem_of_union_l, elem_of_union_l; by apply elem_of_singleton).
  assert (HpL : p ∉ L) by (intros Hin; apply Hpf; by apply elem_of_union_r).
  assert (Hpq : p ∉ ptrs q') by (intros Hin; apply Hpf; apply elem_of_union_l, elem_of_union_r; by apply elem_of_list_to_set).
  destruct (free_ptr t (list_to_set (ptrs q') ∪ ({[p]} ∪ L)) b) as [F1 F2].
  { by rewrite Eh. } { rewrite Eh, Hpl, <- !(assoc_L (∪)), (assoc_L (∪) {[p]}), (comm_L (∪) {[p]} {[b]}), <- (assoc_L (∪)). f_equal. rewrite !(assoc_L (∪)). f_equal. apply (comm_L (∪)). }
  { intros [Hin|[Hin%elem_of_singleton|Hin]%elem_of_union]%elem_of_union; [by apply elem_of_list_to_set in Hin|congruence|done]. } { done. }
  set (t' := netbuf_free t (Some nb)). pose proof (seen_next n src dst proto id P [] c HC Hpos) as HS. rewrite Hcl in HS. rewrite Hc1 in HS. cbn [app] in HS, HK2.
  destruct (service_run n src dst proto id i P Hsend Hours HP 45 q' t' [(chunk_hdr n src dst proto id P c, c.2)] j p (0 + IP_FRAG_CHUNK) 63 L) as (s' & -> & A1 & A2 & A3 & A4 & A5); try done.
  { change (nif_at t' i) with (nif_at t i). by rewrite (nif_rest _ _ _ R). } { split; [by vm_compute|lia]. } { unfold IP_MAX_PAYLOAD, IP_FRAG_CHUNK, ETH_MTU, IP_HLEN in *. lia. } { destruct HK2; by split. }
  { apply HS. split; [intros x Hx; by apply not_elem_of_nil in Hx|intros k Hk; lia]. } { apply (queued_rest (popped s)); [done|]. apply (rest_trans _ s1); [done|]. destruct R; by split. } { lia. }
  { intros x Hx. destruct (Hfr x ltac:(by right)) as [Hx1 Hx2]. split; [|done]. intros [Hin%elem_of_singleton|?]%elem_of_union; [congruence|done]. }
  exists s'. split; [done|]. split; [done|]. split; [|done]. rewrite A2. change (delivered t') with (delivered t). destruct R as [_ _ R3], RS as [_ _ RS3]. by rewrite R3, RS3.
Qed.

(** Sending puts the pieces into the empty queue. *)
Lemma output_flat_ok send s nif i P src dst proto : heap_ok (n_heap s) -> queued s [] -> out_nif s nif dst = Some i -> ipv4_stays_here (nif_at s i) dst = true -> plen P <= IP_MAX_PAYLOAD ->
  exists r s1, ipv4_output_flat send s nif P src dst proto = Some (r, s1) /\ heap_ok (n_heap s1) /\ sent_same s s1 /\ (r = 0 \/ r = - ENOBUFS) /\
    (r = 0 -> exists q, queued s1 q /\ Forall2 (carries (nif_at s i) src dst proto (ip_next_id s) P i) q (chunks FRAG_FUEL P 0) /\
       NoDup (ptrs q) /\ (forall x, x ∈ ptrs q -> (x ∉ live (n_heap s)) /\ x <> 0) /\ live (n_heap s1) = (list_to_set (ptrs q) ∪ live (n_heap s))).
Proof.
  intros Hok HQ Hout Hst Hl. unfold ipv4_output_flat. change (Z.of_nat (length P)) with (plen P). rewrite (proj2 (Z.ltb_ge _ _)) by done. rewrite Hout. destruct (stays_ours _ _ Hst) as [_ Hd].
  assert (Ehop : ipv4_next_hop (nif_at s i) dst = dst) by (unfold ipv4_next_hop; by rewrite Hst). rewrite Ehop, (proj2 (Z.eqb_neq dst 0)) by done. cbn [next_id].
  set (s0 := n_set_id s _). assert (HQ0 : queued s0 []) by (by apply (queued_same s)). assert (Hc : IP_FRAG_CHUNK = 1480 /\ IP_MAX_PAYLOAD = 65515) by done. destruct Hc as [Hc1 Hc2].
  destruct (output_frags_ok send i P src dst proto (ip_next_id s) dst FRAG_FUEL s0 [] 0 Hok HQ0 Hst) as (r & s1 & E & Hok1 & HS & Hr & HF); [lia|by left|done|rewrite Hc1; unfold FRAG_FUEL; lia|unfold FRAG_FUEL; simpl; lia|unfold FRAG_FUEL; lia|].
  exists r, s1. split; [exact E|]. split; [done|]. split; [destruct HS; by split|]. split; [done|]. intros Hr0. destruct (HF Hr0) as (q & Q1 & Q2 & Q3 & Q4 & Q5). exists q. split; [done|]. split; [done|]. split; [done|]. split; [|done].
  intros x Hx. apply list_elem_of_fmap in Hx as (y & -> & Hy). by apply Q4.
Qed.

End Loopback.

(** C22. A packet sent to an address of this machine comes back in: the send always returns, with 0 or [-ENOBUFS]; after success one round of
    the loopback service delivers exactly that payload, once, with its source, destination and protocol, whatever its length up to the
    maximum and however many fragments it took, leaves the queue empty, and every buffer that was allocated on the way is free again. *)
Theorem ip_loopback_roundtrip {H0 D : Type} `{Heap H0} send (s : net H0 D) nif i P src dst proto :
  heap_ok (n_heap s) -> queued s [] -> out_nif s nif dst = Some i -> ipv4_stays_here (nif_at s i) dst = true -> plen P <= IP_MAX_PAYLOAD ->
  send_ok (nif_at s i) src dst proto (ip_next_id s) ->
  (forall g, g ∈ frags s -> slot_is (chunk_hdr (nif_at s i) src dst proto (ip_next_id s) P (0, [])) g = false) -> (exists g, g ∈ frags s /\ f_used g = false) ->
  exists r s1, ipv4_output_flat send s nif P src dst proto = Some (r, s1) /\ (r = 0 \/ r = - ENOBUFS) /\
    (r = 0 -> (kmalloc IP_MAX_PAYLOAD (n_heap s1)).1 <> 0 ->
     exists s2, ipv4_loopback_service s1 = (false, s2) /\ lo_count s2 = 0 /\ live (n_heap s2) = live (n_heap s) /\
       delivered s2 = delivered s ++ [{| d_nif := i; d_src := if negb (src =? 0) then src else ipv4_source (nif_at s i) dst; d_dst := dst; d_proto := proto; d_payload := Some <$> P |}]).
Proof.
  intros Hok HQ Hout Hst Hl Hsend Hno Hun. destruct (output_flat_ok send s nif i P src dst proto Hok HQ Hout Hst Hl) as (r & s1 & E & Hok1 & [S1 S2 S3] & Hr & HF).
  exists r, s1. split; [exact E|]. split; [exact Hr|]. intros Hr0 Hmem. destruct (HF Hr0) as (q & Q1 & Q2 & Q3 & Q4 & Q5). destruct (stays_ours _ _ Hst) as [Hours _].
  assert (En : nif_at s1 i = nif_at s i) by (unfold nif_at; by rewrite S2). rewrite <- S1, <- En in Hno. rewrite <- S1 in Hun. rewrite <- En in Hsend, Hours, Q2.
  assert (HR : exists s2, ipv4_loopback_service s1 = (false, s2) /\ queued s2 [] /\ delivered s2 = delivered s1 ++ [the_delivery (nif_at s1 i) src dst proto i P] /\ heap_ok (n_heap s2) /\ live (n_heap s2) = live (n_heap s)).
  { destruct (decide (plen P <= IP_FRAG_CHUNK)) as [Hs|Hs].
    - apply (service_single s1 i P src dst proto (ip_next_id s) q Hsend Hours Hs Hok1 Q1 Q2 _ Q5 Q4).
    - apply (service_frags s1 i P src dst proto (ip_next_id s) q Hsend Hours ltac:(lia) Hok1 Q1 Q2 _ Q5 Q3 Q4 Hno Hun Hmem). }
  destruct HR as (s2 & A1 & [_ [A2 _] _] & A3 & _ & A5). exists s2. split; [exact A1|]. split; [exact A2|]. split; [exact A5|]. rewrite A3, S3, En. reflexivity.
Qed.

(** ** Concrete sends *)

Definition no_driver (_ : Z) (_ : list Z) (d : unit) : Z * unit := (- EIO, d).

Definition LOCALHOST : Z := 0x0100007f.

(** Three thousand bytes: three fragments. *)
Definition long_payload : list Z := (fun k => Z.of_nat k `mod` 251) <$> seq 0 3000.

Lemma idle_queued : queued idle_net [].
Proof. split; [split; [reflexivity|vm_compute; split; [discriminate|reflexivity]]|split; [reflexivity|simpl; lia]|]. intros k x Hk. discriminate Hk. Qed.

Lemma idle_heap : heap_ok (n_heap idle_net).
Proof. split; [vm_compute; reflexivity|]. intros p Hp. destruct (not_elem_of_empty p Hp). Qed.

Lemma long_sent : (fun o : Z * net counting_heap unit => (o.1, (kmalloc IP_MAX_PAYLOAD (n_heap o.2)).1 =? 0)) <$> ipv4_output_flat no_driver idle_net None long_payload 0 LOCALHOST IP_PROTO_UDP = Some (0, false).
Proof. vm_compute. reflexivity. Qed.

Lemma ip_loopback_roundtrip_witness : exists s1 s2, ipv4_output_flat no_driver idle_net None long_payload 0 LOCALHOST IP_PROTO_UDP = Some (0, s1) /\ ipv4_loopback_service s1 = (false, s2) /\
  delivered s2 = [{| d_nif := -1; d_src := LOCALHOST; d_dst := LOCALHOST; d_proto := IP_PROTO_UDP; d_payload := Some <$> long_payload |}].
Proof.
  destruct (ip_loopback_roundtrip no_driver idle_net None (-1) long_payload 0 LOCALHOST IP_PROTO_UDP idle_heap idle_queued) as (r & s1 & E & Hr & HS).
  - vm_compute. reflexivity.
  - vm_compute. reflexivity.
  - vm_compute. discriminate.
  - split; [vm_compute; split_and!; discriminate || reflexivity|right; left; reflexivity|vm_compute; split; [discriminate|reflexivity]].
  - intros g Hg. change (frags idle_net) with (replicate 4 empty_slot) in Hg. apply elem_of_replicate in Hg as [-> _]. reflexivity.
  - exists empty_slot. split; [left|reflexivity].
  - pose proof long_sent as HL. rewrite E in HL. cbn [fmap option_fmap option_map fst snd] in HL. injection HL as Hr0 Hm. assert (Hmem : (kmalloc IP_MAX_PAYLOAD (n_heap s1)).1 <> 0) by (apply Z.eqb_neq; exact Hm).
    destruct (HS Hr0 Hmem) as (s2 & E2 & _ & _ & Hd). exists s1, s2. rewrite Hr0 in E. split; [exact E|]. split; [exact E2|]. exact Hd.
Defined.
