(* ===== verification/ArpProofs.v ===== *)
(** * The ARP cache

    The cache of [Net] ([arp.c]) knows an address at most once, and a packet that waits for an
    answer is in exactly one entry: whatever is sent, received or expires, no buffer leaks and none
    is freed twice, and a packet that waits is sent when its answer comes, unless a newer one
    replaced it or the last try went unanswered. *)

From S2P Require Import Prelude Pmm Machine Bytes Heap Net NetProofs FragProofs IpProofs.

(** ** The buffers an entry holds *)

Definition entry_ptrs (a : arp_entry) : list Z := match a_pending a with Some nb => [nb_ptr nb] | None => [] end.

Definition held (l : list arp_entry) : list Z := concat (entry_ptrs <$> l).

Lemma held_split l j a : l !! j = Some a -> exists rest, held l ≡ₚ entry_ptrs a ++ rest /\ forall a', held (<[j := a']> l) ≡ₚ entry_ptrs a' ++ rest.
Proof.
  intros Hj. exists (held (take j l) ++ held (drop (S j) l)).
  assert (E : forall x, held (take j l ++ x :: drop (S j) l) ≡ₚ entry_ptrs x ++ held (take j l) ++ held (drop (S j) l)).
  { intros x. unfold held. rewrite fmap_app, concat_app. cbn [fmap list_fmap concat]. rewrite !app_assoc. apply Permutation_app_tail. apply Permutation_app_comm. }
  split; [rewrite <- (take_drop_middle l j a Hj) at 1; apply E|]. intros a'. rewrite insert_take_drop by (by apply lookup_lt_Some in Hj). apply E.
Qed.

Section Arp.

Context {H0 D : Type} `{Heap H0} (send : Z -> list Z -> D -> Z * D).

Implicit Types s : net H0 D.

(** The blocks that are live: those the cache holds and [L]. *)
Record arp_inv (L : gset Z) s : Prop := {
  ai_heap : heap_ok (n_heap s);
  ai_unique : forall j k a b, arp_cache s !! j = Some a -> arp_cache s !! k = Some b -> a_state a <> ARP_FREE -> a_state b <> ARP_FREE -> a_ip a = a_ip b -> j = k;
  ai_pending : forall j a, arp_cache s !! j = Some a -> a_pending a <> None -> a_state a = ARP_PENDING;
  ai_live : live (n_heap s) = list_to_set (held (arp_cache s)) ∪ L;
  ai_nodup : NoDup (held (arp_cache s));
  ai_apart : forall x, x ∈ held (arp_cache s) -> (x ∉ L) /\ x <> 0;
  ai_macs : forall m, m ∈ netifs s -> length (nif_mac m) = 6%nat;
  ai_room : forall j a nb, arp_cache s !! j = Some a -> a_pending a = Some nb -> 14 <= nb_off nb;
}.

(** Only the heap, the drivers and the counters of an interface differ. *)
Record only_io s s' : Prop := {
  oi_arp : arp_cache s' = arp_cache s;
  oi_frags : frags s' = frags s;
  oi_deliv : delivered s' = delivered s;
  oi_nifs : forall i, nif_mac (nif_at s' i) = nif_mac (nif_at s i) /\ nif_ip (nif_at s' i) = nif_ip (nif_at s i) /\ nif_netmask (nif_at s' i) = nif_netmask (nif_at s i);
  oi_macs : (forall m, m ∈ netifs s -> length (nif_mac m) = 6%nat) -> forall m, m ∈ netifs s' -> length (nif_mac m) = 6%nat;
}.

Lemma only_refl s : only_io s s.
Proof. by split. Qed.

Lemma only_trans s1 s2 s3 : only_io s1 s2 -> only_io s2 s3 -> only_io s1 s3.
Proof.
  intros [A B C E F] [A' B' C' E' F']. split; [congruence|congruence|congruence| |auto]. intros i. destruct (E i) as (-> & -> & ->) || idtac. destruct (E' i) as (-> & -> & ->). apply E.
Qed.

Lemma nif_at_update s i f k : (forall m, nif_mac (f m) = nif_mac m /\ nif_ip (f m) = nif_ip m /\ nif_netmask (f m) = nif_netmask m) ->
  nif_mac (nif_at (nif_update s i f) k) = nif_mac (nif_at s k) /\ nif_ip (nif_at (nif_update s i f) k) = nif_ip (nif_at s k) /\ nif_netmask (nif_at (nif_update s i f) k) = nif_netmask (nif_at s k).
Proof.
  intros Hf. unfold nif_update. destruct (i =? -1); [done|]. unfold nif_at. cbn [n_set_netifs netifs]. destruct (k =? -1); [done|].
  destruct (decide (Z.to_nat k = Z.to_nat i)) as [E|E]; [|by rewrite list_lookup_alter_ne by congruence]. rewrite E, list_lookup_alter_eq. destruct (netifs s !! Z.to_nat i) as [m|]; [apply Hf|done].
Qed.

Lemma macs_update s i f : (forall m, nif_mac (f m) = nif_mac m) -> (forall m, m ∈ netifs s -> length (nif_mac m) = 6%nat) -> forall m, m ∈ netifs (nif_update s i f) -> length (nif_mac m) = 6%nat.
Proof.
  intros Hf Hm m Hin. unfold nif_update in Hin. destruct (i =? -1); [by apply Hm|]. cbn [n_set_netifs netifs] in Hin. apply list_elem_of_lookup in Hin as [k Hk].
  destruct (decide (k = Z.to_nat i)) as [->|E]; [|rewrite list_lookup_alter_ne in Hk by congruence; apply Hm; by eapply list_elem_of_lookup_2].
  rewrite list_lookup_alter_eq in Hk. destruct (netifs s !! Z.to_nat i) as [m0|] eqn:E0; [|done]. injection Hk as <-. rewrite Hf. apply Hm. by eapply list_elem_of_lookup_2.
Qed.

Lemma free_only s nb : only_io s (netbuf_free s nb).
Proof. by destruct nb. Qed.

(** [ether_output] takes the buffer. *)
Lemma ether_takes s nif nb dst type : let '(r, s') := ether_output send s nif nb dst type in only_io s s' /\ n_heap s' = kfree_nonnull (nb_ptr nb) (n_heap s).
Proof.
  unfold ether_output. unfold netbuf_push. destruct (nb_off nb <? _); [done|]. destruct (send nif _ (n_dev s)) as [err d]. destruct (err =? 0).
  - split; [|unfold nif_update; by destruct (nif =? -1)]. unfold netbuf_free, n_kfree. cbn [nb_ptr]. set (f := count_tx _).
    split; [unfold nif_update; by destruct (nif =? -1)|unfold nif_update; by destruct (nif =? -1)|unfold nif_update; by destruct (nif =? -1)| |].
    + intros i. pose proof (nif_at_update (n_set_dev s d) nif f i ltac:(done)) as E. exact E.
    + intros Hm. exact (macs_update (n_set_dev s d) nif f ltac:(done) Hm).
  - done.
Qed.

Lemma nif_mac_length s i : (forall m, m ∈ netifs s -> length (nif_mac m) = 6%nat) -> length (nif_mac (nif_at s i)) = 6%nat.
Proof.
  intros Hm. unfold nif_at. destruct (i =? -1); [done|]. destruct (netifs s !! Z.to_nat i) as [m|] eqn:E; [|done]. apply Hm. by eapply list_elem_of_lookup_2.
Qed.

(** [arp_send] frees what it allocates. *)
Lemma arp_send_neutral s nif op tmac tip : heap_ok (n_heap s) -> (forall m, m ∈ netifs s -> length (nif_mac m) = 6%nat) -> length (default (replicate 6 0) tmac) = 6%nat ->
  let '(r, s') := arp_send send s nif op tmac tip in only_io s s' /\ heap_ok (n_heap s') /\ live (n_heap s') = live (n_heap s).
Proof.
  intros Hok Hm Ht. unfold arp_send. destruct (netbuf_alloc s) as [nb s1] eqn:Ea. destruct (alloc_spec s nb s1 Hok Ea) as (Hok1 & Es1 & [[-> E]|(p & -> & Hp1 & Hp2 & Hp3)]).
  - split; [rewrite Es1; by split|done].
  - assert (O1 : only_io s s1) by (rewrite Es1; by split). assert (Hl : length (nif_mac (nif_at s1 nif)) = 6%nat) by (apply nif_mac_length; rewrite Es1; exact Hm).
    unfold netbuf_put. cbn [nb_off nb_data nb_ptr]. set (bs := arp_bytes _ _ _ _ _). assert (Hbs : length bs = 28%nat) by (unfold bs, arp_bytes; rewrite !length_app, !le_bytes_length, Hl, Ht; reflexivity).
    rewrite Hbs. change (NETBUF_SIZE <? _) with false. cbn iota. set (nb := {| nb_ptr := p; nb_off := NETBUF_HEADROOM; nb_data := [] ++ bs |}). set (dst := if op =? ARP_OP_REPLY then _ else _).
    pose proof (ether_takes s1 nif nb dst ETH_TYPE_ARP) as ET. destruct (ether_output send s1 nif nb dst ETH_TYPE_ARP) as [r s2]. destruct ET as [O2 E2]. split; [by apply (only_trans _ s1)|]. rewrite E2.
    apply (free_ptr s1 (live (n_heap s)) p); done.
Qed.

(** ** Steps that keep the invariant *)

Lemma held_none l : (forall j a, l !! j = Some a -> a_pending a = None) -> held l = [].
Proof.
  induction l as [|a l IH]; intros Hl; [done|]. unfold held. cbn [fmap list_fmap concat]. unfold entry_ptrs at 1. rewrite (Hl 0%nat a eq_refl). apply IH. intros j b Hj. exact (Hl (S j) b Hj).
Qed.

Lemma entry_ptrs_nodup a : NoDup (entry_ptrs a).
Proof. unfold entry_ptrs. destruct (a_pending a); [apply NoDup_singleton|apply NoDup_nil_2]. Qed.

(** An entry is overwritten: the blocks that were the entry's or [L]'s are the new entry's or [L']'s. *)
Lemma entry_set L L' s j a a' : arp_inv L s -> arp_cache s !! j = Some a -> (a_pending a' <> None -> a_state a' = ARP_PENDING) ->
  (a_state a' <> ARP_FREE -> forall k b, arp_cache s !! k = Some b -> a_state b <> ARP_FREE -> a_ip b = a_ip a' -> k = j) ->
  (forall x, x ∈ entry_ptrs a' \/ x ∈ L' <-> x ∈ entry_ptrs a \/ x ∈ L) -> (forall x, x ∈ entry_ptrs a' -> x ∉ L') -> (forall nb, a_pending a' = Some nb -> 14 <= nb_off nb) ->
  arp_inv L' (n_set_arp s (<[j := a']> (arp_cache s))).
Proof.
  intros [A B C E F G M R] Hj Hp Hu HL Hd Hroom. destruct (held_split _ _ _ Hj) as (rest & H1 & H2). specialize (H2 a'). pose proof (lookup_lt_Some _ _ _ Hj) as Hlt.
  rewrite H1 in F. apply list.NoDup_app in F as (F1 & F2 & F3).
  assert (Hx : forall x, x ∈ held (arp_cache s) <-> x ∈ entry_ptrs a \/ x ∈ rest) by (intros x; rewrite H1; apply elem_of_app).
  assert (Hx' : forall x, x ∈ held (<[j := a']> (arp_cache s)) <-> x ∈ entry_ptrs a' \/ x ∈ rest) by (intros x; rewrite H2; apply elem_of_app).
  assert (Hr : forall x, x ∈ rest -> (x ∉ entry_ptrs a') /\ (x ∉ L')).
  { intros x Hin. assert ((x ∉ entry_ptrs a) /\ (x ∉ L)) as [N1 N2] by (split; [intros Ha; exact (F2 x Ha Hin)|apply G, Hx; by right]). specialize (HL x). split; intros Hy; tauto. }
  split; cbn [n_heap arp_cache netifs n_set_arp].
  - done.
  - intros k1 k2 b1 b2 E1 E2 S1 S2 Eip. apply list_lookup_insert_Some in E1 as [(-> & -> & _)|[N1 E1]], E2 as [(-> & -> & _)|[N2 E2]].
    + done.
    + symmetry. by apply (Hu S1 k2 b2).
    + by apply (Hu S2 k1 b1).
    + by apply (B k1 k2 b1 b2).
  - intros k b Hk Hb. apply list_lookup_insert_Some in Hk as [(_ & -> & _)|[_ Hk]]; [by apply Hp|by apply (C k b)].
  - rewrite E. apply set_eq. intros x. rewrite !elem_of_union, !elem_of_list_to_set, Hx, Hx'. specialize (HL x). tauto.
  - rewrite H2. apply list.NoDup_app. split; [apply entry_ptrs_nodup|]. split; [|done]. intros x Hin Hin'. destruct (Hr x Hin') as [N _]. exact (N Hin).
  - intros x Hin. apply Hx' in Hin as [Hin|Hin]; [|split; [by apply Hr|apply G, Hx; by right]]. split; [by apply Hd|].
    intros ->. apply (live_nonnull _ A). rewrite E, elem_of_union, elem_of_list_to_set, Hx. specialize (HL 0). tauto.
  - done.
  - intros k b nb Hk. apply list_lookup_insert_Some in Hk as [(_ & <- & _)|[_ Hk]]; [apply Hroom|by apply (R k b)].
Qed.

Lemma inv_io L s s' : arp_inv L s -> only_io s s' -> heap_ok (n_heap s') -> live (n_heap s') = live (n_heap s) -> arp_inv L s'.
Proof. intros [A B C E F G M R] [A' _ _ _ M'] H1 H2. split; rewrite ?A'; [done|done|done|by rewrite H2|done|done|auto|done]. Qed.

(** A block that only [L] had is freed. *)
Lemma inv_free L p s s' : arp_inv ({[p]} ∪ L) s -> p ∉ L -> only_io s s' -> n_heap s' = kfree_nonnull p (n_heap s) -> arp_inv L s'.
Proof.
  intros [A B C E F G M R] Hp [A' _ _ _ M'] Eh.
  assert (Hl : live (n_heap s) = {[p]} ∪ (list_to_set (held (arp_cache s)) ∪ L)) by (rewrite E, !(assoc_L (∪)); f_equal; apply (comm_L (∪))).
  assert (Hn : p <> 0) by (intros ->; apply (live_nonnull _ A); rewrite Hl; apply elem_of_union_l, elem_of_singleton; done).
  assert (Hq : p ∉ list_to_set (held (arp_cache s)) ∪ L).
  { rewrite elem_of_union, elem_of_list_to_set. intros [Hx|Hx]; [|done]. apply (proj1 (G p Hx)), elem_of_union_l, elem_of_singleton; done. }
  destruct (free_ptr s _ p A Hl Hq Hn) as [K1 K2]. split; rewrite ?A', ?Eh; [done|done|done|done|done| |auto|done].
  intros x Hx. destruct (G x Hx) as [G1 G2]. split; [|done]. intros Hy. apply G1, elem_of_union_r, Hy.
Qed.

Lemma inv_free_opt L a s : arp_inv (list_to_set (entry_ptrs a) ∪ L) s -> (forall x, x ∈ entry_ptrs a -> x ∉ L) -> arp_inv L (netbuf_free s (a_pending a)).
Proof.
  unfold entry_ptrs. destruct (a_pending a) as [nb|]; intros HI Hd; cbn [list_to_set] in HI.
  - change (list_to_set [nb_ptr nb]) with ({[nb_ptr nb]} ∪ ∅ : gset Z) in HI. rewrite (right_id_L ∅ (∪)) in HI.
    apply (inv_free L (nb_ptr nb) s); [done|by apply Hd, list_elem_of_singleton|apply free_only|done].
  - by rewrite (left_id_L ∅ (∪)) in HI.
Qed.

Lemma inv_ether L s nif nb dst type : arp_inv ({[nb_ptr nb]} ∪ L) s -> nb_ptr nb ∉ L -> arp_inv L (ether_output send s nif nb dst type).2.
Proof.
  intros HI Hp. pose proof (ether_takes s nif nb dst type) as ET. destruct (ether_output _ _ _ _ _ _) as [r s']. destruct ET as [O E]. by apply (inv_free L (nb_ptr nb) s).
Qed.

Lemma inv_send L s nif op tmac tip : arp_inv L s -> length (default (replicate 6 0) tmac) = 6%nat -> arp_inv L (arp_send send s nif op tmac tip).2.
Proof.
  intros HI Ht. pose proof (arp_send_neutral s nif op tmac tip (ai_heap _ _ HI) (ai_macs _ _ HI) Ht) as AS. destruct (arp_send _ _ _ _ _ _) as [r s']. destruct AS as (O & K1 & K2). by apply (inv_io L s).
Qed.

Lemma arp_find_spec ip l : forall i, match arp_find ip l i with
  | Some j => exists k a, j = (i + k)%nat /\ l !! k = Some a /\ a_state a <> ARP_FREE /\ a_ip a = ip
  | None => forall k a, l !! k = Some a -> a_state a <> ARP_FREE -> a_ip a <> ip
  end.
Proof.
  induction l as [|a l IH]; intros i; cbn [arp_find]; [done|]. destruct (negb _ && _) eqn:Eb.
  - apply andb_true_iff in Eb as [E1 E2%Z.eqb_eq]. apply negb_true_iff, bool_decide_eq_false in E1. exists 0%nat, a. split; [lia|done].
  - specialize (IH (S i)). destruct (arp_find ip l (S i)) as [j|].
    + destruct IH as (k & b & -> & Hb). exists (S k), b. split; [lia|exact Hb].
    + intros [|k] b Hk Hs; [|by apply (IH k)]. injection Hk as <-. rewrite bool_decide_eq_false_2 in Eb by done. by apply Z.eqb_neq in Eb.
Qed.

Lemma arp_slot_spec l : forall i oldest, (forall j, arp_slot l i oldest = Some j -> (exists k a, j = (i + k)%nat /\ l !! k = Some a /\ a_state a <> ARP_PENDING) \/ fst <$> oldest = Some j).
Proof.
  induction l as [|a l IH]; intros i oldest j; cbn [arp_slot]; [by right|]. destruct (a_state a) eqn:Ea.
  - intros [= <-]. left. exists 0%nat, a. split; [lia|]. by rewrite Ea.
  - intros Hj. destruct (IH _ _ _ Hj) as [(k & b & -> & Hb)|Ho]; [|by right]. left. exists (S k), b. split; [lia|exact Hb].
  - intros Hj. assert (HA : (exists k b, j = (i + k)%nat /\ (a :: l) !! k = Some b /\ a_state b <> ARP_PENDING) \/ j <> i) by (destruct (decide (j = i)) as [->|]; [left; exists 0%nat, a; split; [lia|]; by rewrite Ea|by right]).
    destruct HA as [?|Hn]; [by left|]. destruct (IH _ _ _ Hj) as [(k & b & -> & Hb)|Ho]; [left; exists (S k), b; split; [lia|exact Hb]|].
    right. destruct oldest as [[j0 st]|]; [destruct (a_stamp a <? st); [|done]|]; injection Ho as Ho; congruence.
Qed.

Lemma found_entry L s ip j : arp_inv L s -> arp_find ip (arp_cache s) 0 = Some j ->
  exists a, arp_cache s !! j = Some a /\ arp_at s j = a /\ a_state a <> ARP_FREE /\ a_ip a = ip /\
  forall k b, arp_cache s !! k = Some b -> a_state b <> ARP_FREE -> a_ip b = ip -> k = j.
Proof.
  intros HI E. pose proof (arp_find_spec ip (arp_cache s) 0) as FS. rewrite E in FS. destruct FS as (k & a & -> & Ha & Hs & Hip). cbn in Ha |- *. exists a. unfold arp_at. rewrite Ha.
  split_and!; try done. intros k' b Hb Hsb Eb. apply (ai_unique _ _ HI k' k b a); try done. congruence.
Qed.

Lemma slot_entry L s j : arp_inv L s -> arp_slot (arp_cache s) 0 None = Some j ->
  exists a, arp_cache s !! j = Some a /\ arp_at s j = a /\ a_pending a = None.
Proof.
  intros HI E. destruct (arp_slot_spec _ _ _ _ E) as [(k & a & -> & Ha & Hs)|[=]]. cbn in Ha |- *. exists a. unfold arp_at. rewrite Ha. split_and!; try done.
  destruct (a_pending a) eqn:Ep; [|done]. exfalso. apply Hs, (ai_pending _ _ HI k a Ha). by rewrite Ep.
Qed.

Lemma inv_apart L s j a : arp_inv L s -> arp_cache s !! j = Some a -> forall x, x ∈ entry_ptrs a -> x ∉ L.
Proof.
  intros HI Hj x Hx. apply (ai_apart _ _ HI). destruct (held_split _ _ _ Hj) as (rest & E & _). rewrite E. apply elem_of_app. by left.
Qed.

(** ** The operations *)

Lemma ptrs_none a : a_pending a = None -> entry_ptrs a = [].
Proof. unfold entry_ptrs. by intros ->. Qed.

Lemma elem_of_entry a L x : x ∈ (list_to_set (entry_ptrs a) ∪ L : gset Z) <-> x ∈ entry_ptrs a \/ x ∈ L.
Proof. by rewrite elem_of_union, elem_of_list_to_set. Qed.

(** An entry that learns its address lets go of the packet that waited. *)
Lemma entry_resolves L s j a a' : arp_inv L s -> arp_cache s !! j = Some a -> a_pending a' = None ->
  (a_state a' <> ARP_FREE -> forall k b, arp_cache s !! k = Some b -> a_state b <> ARP_FREE -> a_ip b = a_ip a' -> k = j) ->
  arp_inv (list_to_set (entry_ptrs a) ∪ L) (n_set_arp s (<[j := a']> (arp_cache s))).
Proof.
  intros HI Hj Hp Hu. apply (entry_set L _ s j a a' HI Hj); [by rewrite Hp|done| | |]; rewrite ?(ptrs_none a' Hp).
  - intros x. rewrite elem_of_entry. split; [intros [Hx|?]; [destruct (not_elem_of_nil _ Hx)|done]|by right].
  - intros x Hx. destruct (not_elem_of_nil _ Hx).
  - intros nb. by rewrite Hp.
Qed.

(** An entry that takes a packet lets go of the one that waited. *)
Lemma entry_takes L s j a a' nb : arp_inv ({[nb_ptr nb]} ∪ L) s -> nb_ptr nb ∉ L -> 14 <= nb_off nb -> arp_cache s !! j = Some a -> a_pending a' = Some nb -> a_state a' = ARP_PENDING ->
  (forall k b, arp_cache s !! k = Some b -> a_state b <> ARP_FREE -> a_ip b = a_ip a' -> k = j) ->
  arp_inv (list_to_set (entry_ptrs a) ∪ L) (n_set_arp s (<[j := a']> (arp_cache s))).
Proof.
  intros HI Hnb Hroom Hj Hp Hs Hu. assert (Ep : entry_ptrs a' = [nb_ptr nb]) by (unfold entry_ptrs; by rewrite Hp).
  apply (entry_set ({[nb_ptr nb]} ∪ L) _ s j a a' HI Hj); [done|done| | |]; rewrite ?Ep.
  - intros x. rewrite elem_of_entry, elem_of_union, elem_of_singleton, list_elem_of_singleton. tauto.
  - intros x ->%list_elem_of_singleton. rewrite elem_of_entry. intros [Hx|Hx]; [|done]. apply (inv_apart _ _ _ _ HI Hj _ Hx), elem_of_union_l. by apply elem_of_singleton.
  - intros nb'. rewrite Hp. by intros [= <-].
Qed.

Lemma inv_flush L s nif a dst type : arp_inv (list_to_set (entry_ptrs a) ∪ L) s -> (forall x, x ∈ entry_ptrs a -> x ∉ L) ->
  arp_inv L (match a_pending a with Some nb => (ether_output send s nif nb dst type).2 | None => s end).
Proof.
  unfold entry_ptrs. destruct (a_pending a) as [nb|]; intros HI Hd.
  - change (list_to_set [nb_ptr nb]) with ({[nb_ptr nb]} ∪ ∅ : gset Z) in HI. rewrite (right_id_L ∅ (∪)) in HI. apply inv_ether; [done|by apply Hd, list_elem_of_singleton].
  - change (list_to_set []) with (∅ : gset Z) in HI. by rewrite (left_id_L ∅ (∪)) in HI.
Qed.

Lemma arp_input_keeps L s nif data : arp_inv L s -> arp_inv L (arp_input send s nif data).
Proof.
  intros HI. unfold arp_input. destruct (Z.ltb_spec (Z.of_nat (length data)) 28) as [|Hlen]; [done|]. destruct (_ || _); [done|]. cbn zeta.
  set (mac := take 6 (drop 8 data)). assert (Hmac : length mac = 6%nat) by (unfold mac; rewrite length_take, length_drop; lia). clearbody mac.
  set (sender := rd_le data 14 4). clearbody sender. set (for_us := negb (nif_ip (nif_at s nif) =? 0) && (rd_le data 24 4 =? nif_ip (nif_at s nif))). clearbody for_us.
  set (who := match (if negb (sender =? 0) then arp_find sender (arp_cache s) 0 else None) with Some j => Some j | None => if negb (sender =? 0) && for_us then arp_slot (arp_cache s) 0 None else None end).
  assert (Hwho : match who with Some j => exists a, arp_cache s !! j = Some a /\ arp_at s j = a /\ forall k b, arp_cache s !! k = Some b -> a_state b <> ARP_FREE -> a_ip b = sender -> k = j | None => True end).
  { unfold who. destruct (negb (sender =? 0)) eqn:E0; [|done]. destruct (arp_find sender (arp_cache s) 0) as [j|] eqn:Ef.
    - destruct (found_entry _ _ _ _ HI Ef) as (a & Ha & Ea & _ & _ & Hu). by exists a.
    - destruct (true && for_us); [|done]. destruct (arp_slot _ _ _) as [j|] eqn:Es; [|done]. destruct (slot_entry _ _ _ HI Es) as (a & Ha & Ea & _). exists a. split_and!; try done.
      intros k b Hb Hs Eip. pose proof (arp_find_spec sender (arp_cache s) 0) as FS. rewrite Ef in FS. by destruct (FS k b Hb Hs). }
  clearbody who. destruct who as [j|].
  - destruct Hwho as (a & Ha & Ea & Hu). rewrite Ea. set (a' := {| a_ip := sender; a_mac := mac; a_state := ARP_RESOLVED; a_tries := a_tries a; a_stamp := now_ms s; a_nif := nif; a_pending := None |}).
    pose proof (entry_resolves L s j a a' HI Ha eq_refl (fun _ => Hu)) as HR. set (s1 := n_set_arp s _) in *. clearbody s1.
    pose proof (inv_flush L s1 nif a mac ETH_TYPE_IPV4 HR (inv_apart _ _ _ _ HI Ha)) as HF. set (s2 := match a_pending a with Some nb => _ | None => _ end) in *. clearbody s2. destruct (_ && _); [by apply inv_send|done].
  - destruct (_ && _); [by apply inv_send|done].
Qed.

Lemma arp_output_keeps L s nif nb hop : nb_ptr nb ∉ L -> 14 <= nb_off nb -> arp_inv ({[nb_ptr nb]} ∪ L) s -> arp_inv L (arp_output send s nif nb hop).2.
Proof.
  intros Hnb Hroom HI. unfold arp_output. cbn zeta. destruct (_ || _); [by apply inv_ether|]. destruct (arp_find hop (arp_cache s) 0) as [j|] eqn:Ef.
  - destruct (found_entry _ _ _ _ HI Ef) as (a & Ha & Ea & Hs & Hip & Hu). rewrite Ea. destruct (bool_decide_reflect (a_state a = ARP_RESOLVED)) as [Er|Er]; [by apply inv_ether|].
    cbn [snd]. apply inv_free_opt; [|intros x Hx Hy; apply (inv_apart _ _ _ _ HI Ha _ Hx), elem_of_union_r, Hy].
    apply (entry_takes L s j a _ nb HI Hnb Hroom Ha); [done|cbn [a_state]; by destruct (a_state a)|]. cbn [a_ip]. by rewrite Hip.
  - destruct (arp_slot _ _ _) as [j|] eqn:Es.
    + destruct (slot_entry _ _ _ HI Es) as (a & Ha & Ea & Hp). rewrite Ea. cbn [snd]. apply inv_send; [|done].
      apply inv_free_opt; [|rewrite (ptrs_none a Hp); intros x Hx; destruct (not_elem_of_nil _ Hx)]. apply (entry_takes L s j a _ nb HI Hnb Hroom Ha); [done|done|]. cbn [a_ip].
      intros k b Hb Hs Eip. pose proof (arp_find_spec hop (arp_cache s) 0) as FS. rewrite Ef in FS. by destruct (FS k b Hb Hs).
    + cbn [snd]. apply (inv_free L (nb_ptr nb) s); [done|done|apply free_only|done].
Qed.

Lemma tick_entry_keeps L now j s : arp_inv L s -> arp_inv L (arp_tick_entry send now j s).
Proof.
  intros HI. unfold arp_tick_entry. cbn zeta. destruct (arp_cache s !! Z.to_nat j) as [a|] eqn:Ha; [|unfold arp_at; by rewrite Ha].
  assert (Ea : arp_at s (Z.to_nat j) = a) by (unfold arp_at; by rewrite Ha). rewrite Ea. destruct (a_state a) eqn:Es; [done| |].
  - destruct (_ <=? _); [|done]. destruct (_ <=? _).
    + apply inv_free_opt; [|by apply (inv_apart _ _ _ _ HI Ha)]. by apply (entry_resolves L s (Z.to_nat j) a).
    + apply inv_send; [|done]. apply (entry_set L L s (Z.to_nat j) a); [done|done|done| |done|by apply (inv_apart _ _ _ _ HI Ha)|intros nb; by apply (ai_room _ _ HI _ _ nb Ha)].
      intros _ k b Hb Hsb Eip. apply (ai_unique _ _ HI k (Z.to_nat j) b a); try done. by rewrite Es.
  - destruct (_ <=? _); [|done]. apply (entry_set L L s (Z.to_nat j) a); [done|done| |done|done|by apply (inv_apart _ _ _ _ HI Ha)|intros nb; by apply (ai_room _ _ HI _ _ nb Ha)].
    cbn [a_pending]. intros Hp. pose proof (ai_pending _ _ HI _ _ Ha Hp) as E. by rewrite E in Es.
Qed.

Lemma arp_tick_keeps L s : arp_inv L s -> arp_inv L (arp_tick send s).
Proof. intros HI. apply (for_range_inv (fun _ s => arp_inv L s)); [done|]. intros j s' _. apply tick_entry_keeps. Qed.

(** ** Runs of the cache *)

(** A frame arrives, a packet is sent, or time passes. *)
Inductive arp_event :=
| ArpIn (nif : Z) (data : list Z)
| ArpOut (nif hop : Z) (packet : list Z)
| ArpTick (now : Z).

Definition at_time s (t : Z) : net H0 D :=
  {| n_heap := n_heap s; n_dev := n_dev s; now_ms := t; netifs := netifs s; ip_next_id := ip_next_id s; lo_queue := lo_queue s;
     lo_head := lo_head s; lo_count := lo_count s; frags := frags s; frags_dropped := frags_dropped s; arp_cache := arp_cache s; delivered := delivered s |}.

Definition arp_step s (e : arp_event) : net H0 D :=
  match e with
  | ArpIn nif data => arp_input send s nif data
  | ArpOut nif hop packet =>
    let '(nb, s) := netbuf_alloc s in
    match nb with
    | None => s
    | Some nb => match netbuf_put nb packet with None => netbuf_free s (Some nb) | Some nb => (arp_output send s nif nb hop).2 end
    end
  | ArpTick now => arp_tick send (at_time s now)
  end.

Lemma arp_step_keeps L s e : arp_inv L s -> arp_inv L (arp_step s e).
Proof.
  intros HI. destruct e as [nif data|nif hop packet|now]; cbn [arp_step].
  - by apply arp_input_keeps.
  - destruct (netbuf_alloc s) as [nb s1] eqn:Ea. destruct (alloc_spec s nb s1 (ai_heap _ _ HI) Ea) as (Hok & Es & Hnb). assert (O : only_io s s1) by (rewrite Es; by split).
    destruct Hnb as [[-> El]|(p & -> & Hp & El & Hz)]; [by apply (inv_io L s)|].
    assert (HI1 : arp_inv ({[p]} ∪ L) s1 /\ p ∉ L).
    { destruct HI as [A B C E F G M R]. rewrite E in Hp, El. split; [|intros Hx; apply Hp, elem_of_union_r, Hx]. rewrite Es. split; cbn [n_heap arp_cache netifs n_set_heap]; [done|done|done| |done| |done|done].
      - rewrite El, !(assoc_L (∪)). f_equal. apply (comm_L (∪)).
      - intros x Hx. destruct (G x Hx) as [G1 G2]. split; [|done]. rewrite elem_of_union, elem_of_singleton. intros [->|Hy]; [|done]. apply Hp, elem_of_union_l, elem_of_list_to_set, Hx. }
    destruct HI1 as [HI1 HpL]. unfold netbuf_put. destruct (_ <? _).
    + apply (inv_free L p s1); [done|done|apply free_only|done].
    + by apply arp_output_keeps.
  - apply arp_tick_keeps. by destruct HI.
Qed.

(** ** What becomes of a packet that waits *)

(** The entry [j] waits for [ip] with the packet [nb]. *)
Definition waiting s (j : nat) (ip : Z) (nb : netbuf) : Prop := exists a, arp_cache s !! j = Some a /\ a_ip a = ip /\ a_pending a = Some nb.

(** An ARP packet for Ethernet and IPv4. *)
Definition arp_valid (data : list Z) : bool :=
  (28 <=? Z.of_nat (length data)) && (ntohs (rd_le data 0 2) =? ARP_HW_ETHER) && (ntohs (rd_le data 2 2) =? ETH_TYPE_IPV4) &&
  (rd_le data 4 1 =? ETH_ALEN) && (rd_le data 5 1 =? 4).

(** The frame of an IPv4 packet to [mac]. *)
Definition ip_frame s (nif : Z) (mac : list Z) (nb : netbuf) : list Z := mac ++ nif_mac (nif_at s nif) ++ le_bytes 2 (htons ETH_TYPE_IPV4) ++ nb_data nb.

(** An answer from the address sends the packet to the sender's hardware address (an answer to the sender may follow); a newer packet to
    the address takes its place; it is given up after the last try; otherwise it waits on. *)
Definition packet_fate s (e : arp_event) s' (j : nat) (ip : Z) (nb : netbuf) : Prop :=
  match e with
  | ArpIn nif data =>
    if arp_valid data && (rd_le data 14 4 =? ip) && negb (ip =? 0)
    then (exists a, arp_cache s' !! j = Some a /\ a_ip a = ip /\ a_state a = ARP_RESOLVED /\ a_mac a = take 6 (drop 8 data) /\ a_pending a = None) /\
      let d := (send nif (ip_frame s nif (take 6 (drop 8 data)) nb) (n_dev s)).2 in
      n_dev s' = d \/ (ntohs (rd_le data 6 2) = ARP_OP_REQUEST /\ exists reply, n_dev s' = (send nif reply d).2)
    else waiting s' j ip nb
  | ArpOut nif hop packet => waiting s' j ip nb \/ (hop = ip /\ exists nb', waiting s' j ip nb' /\ nb_data nb' = packet)
  | ArpTick now =>
    if (ARP_RETRY_MS <=? now -w a_stamp (arp_at s j)) && (ARP_TRIES <=? a_tries (arp_at s j))
    then exists a, arp_cache s' !! j = Some a /\ a_state a = ARP_FREE /\ a_pending a = None
    else waiting s' j ip nb
  end.

Lemma ether_sends s nif nb dst : length dst = 6%nat -> length (nif_mac (nif_at s nif)) = 6%nat -> 14 <= nb_off nb ->
  n_dev (ether_output send s nif nb dst ETH_TYPE_IPV4).2 = (send nif (ip_frame s nif dst nb) (n_dev s)).2.
Proof.
  intros H1 H2 H3. unfold ether_output, netbuf_push, ip_frame. rewrite !length_app, H1, H2, le_bytes_length. rewrite (proj2 (Z.ltb_ge _ _)) by lia. cbn [nb_data].
  rewrite <- !app_assoc. destruct (send nif _ (n_dev s)) as [err d]. destruct (err =? 0); [|done]. cbn [snd]. unfold nif_update. by destruct (nif =? -1).
Qed.

Lemma arp_send_dev s nif op tmac tip : n_dev (arp_send send s nif op tmac tip).2 = n_dev s \/ exists f, n_dev (arp_send send s nif op tmac tip).2 = (send nif f (n_dev s)).2.
Proof.
  unfold arp_send, netbuf_alloc, n_kmalloc. destruct (kmalloc sizeof_netbuf (n_heap s)) as [p h]. destruct (p =? 0); [by left|]. destruct (netbuf_put _ _) as [nb|]; [|by left].
  unfold ether_output. destruct (netbuf_push nb _) as [nb'|]; [|by left]. cbn [n_dev n_set_heap]. destruct (send nif (nb_data nb') (n_dev s)) as [err d] eqn:E. right. exists (nb_data nb'). rewrite E. cbn [snd].
  destruct (err =? 0); [|done]. unfold nif_update. by destruct (nif =? -1).
Qed.

Lemma arp_send_cache s nif op tmac tip : arp_cache (arp_send send s nif op tmac tip).2 = arp_cache s.
Proof.
  unfold arp_send, netbuf_alloc, n_kmalloc. destruct (kmalloc sizeof_netbuf (n_heap s)) as [p h]. destruct (p =? 0); [done|]. destruct (netbuf_put _ _) as [nb|]; [|done].
  pose proof (ether_takes (n_set_heap s h) nif nb (if op =? ARP_OP_REPLY then default [] tmac else eth_broadcast) ETH_TYPE_ARP) as ET.
  destruct (ether_output _ _ _ _ _ _) as [r s2]. destruct ET as [O _]. cbn [snd]. by rewrite (oi_arp _ _ O).
Qed.

Lemma waiting_find L s j ip nb : arp_inv L s -> waiting s j ip nb -> arp_find ip (arp_cache s) 0 = Some j /\ arp_at s j = default (arp_at s j) (arp_cache s !! j) /\
  exists a, arp_cache s !! j = Some a /\ arp_at s j = a /\ a_ip a = ip /\ a_pending a = Some nb /\ a_state a = ARP_PENDING.
Proof.
  intros HI (a & Ha & Hip & Hp). assert (Hs : a_state a = ARP_PENDING) by (apply (ai_pending _ _ HI j a Ha); by rewrite Hp).
  assert (Ea : arp_at s j = a) by (unfold arp_at; by rewrite Ha). split; [|split; [by rewrite Ha|by exists a]].
  pose proof (arp_find_spec ip (arp_cache s) 0) as FS. destruct (arp_find ip (arp_cache s) 0) as [k|]; [|destruct (FS j a Ha); [by rewrite Hs|done]].
  destruct FS as (k' & b & -> & Hb & Hsb & Eb). f_equal. apply (ai_unique _ _ HI k' j b a); try done; [by rewrite Hs|congruence].
Qed.

Lemma input_fate L s nif data j ip nb : arp_inv L s -> waiting s j ip nb -> packet_fate s (ArpIn nif data) (arp_input send s nif data) j ip nb.
Proof.
  intros HI HW. destruct (waiting_find L s j ip nb HI HW) as (Hf & _ & a & Ha & Ea & Hip & Hp & Hs). cbn [packet_fate]. unfold arp_input, arp_valid.
  rewrite (Z.leb_antisym _ 28). destruct (Z.ltb_spec (Z.of_nat (length data)) 28) as [Hl|Hl]; [exact HW|]. cbn [negb andb].
  destruct (ntohs (rd_le data 0 2) =? ARP_HW_ETHER); [|exact HW]. destruct (ntohs (rd_le data 2 2) =? ETH_TYPE_IPV4); [|exact HW].
  destruct (rd_le data 4 1 =? ETH_ALEN); [|exact HW]. destruct (rd_le data 5 1 =? 4); [|exact HW]. cbn [negb orb andb]. cbn zeta.
  set (mac := take 6 (drop 8 data)). assert (Hmac : length mac = 6%nat) by (unfold mac; rewrite length_take, length_drop; lia). clearbody mac.
  set (sender := rd_le data 14 4). clearbody sender. set (for_us := negb (nif_ip (nif_at s nif) =? 0) && (rd_le data 24 4 =? nif_ip (nif_at s nif))). clearbody for_us.
  assert (Hreply : forall s1, let s2 := if for_us && (ntohs (rd_le data 6 2) =? ARP_OP_REQUEST) then (arp_send send s1 nif ARP_OP_REPLY (Some mac) sender).2 else s1 in
    arp_cache s2 = arp_cache s1 /\ (n_dev s2 = n_dev s1 \/ (ntohs (rd_le data 6 2) = ARP_OP_REQUEST /\ exists f, n_dev s2 = (send nif f (n_dev s1)).2))).
  { intros s1. cbv zeta. destruct for_us; [|by split; [|left]]. destruct (Z.eqb_spec (ntohs (rd_le data 6 2)) ARP_OP_REQUEST) as [E|E]; [|by split; [|left]]. cbn [andb].
    split; [apply arp_send_cache|]. destruct (arp_send_dev s1 nif ARP_OP_REPLY (Some mac) sender) as [?|?]; [by left|by right]. }
  destruct (Z.eqb_spec sender ip) as [->|Hne].
  - destruct (Z.eqb_spec ip 0) as [->|Hz]; cbn [negb andb].
    + destruct (Hreply s) as [E _]. exists a. by rewrite E.
    + rewrite Hf, Ea, Hp. set (a' := {| a_ip := ip; a_mac := mac; a_state := ARP_RESOLVED; a_tries := a_tries a; a_stamp := now_ms s; a_nif := nif; a_pending := None |}).
      set (s1 := n_set_arp s _). pose proof (ether_takes s1 nif nb mac ETH_TYPE_IPV4) as ET. pose proof (ether_sends s1 nif nb mac Hmac) as ES.
      destruct (ether_output send s1 nif nb mac ETH_TYPE_IPV4) as [r s2]. destruct ET as [O _]. cbn [snd] in ES |- *. destruct (Hreply s2) as [E HD].
      rewrite ES in HD; [|apply nif_mac_length; apply (ai_macs _ _ HI)|by apply (ai_room _ _ HI j a)]. split; [|exact HD].
      exists a'. rewrite E, (oi_arp _ _ O). cbn [s1 arp_cache n_set_arp]. rewrite list_lookup_insert_eq by (by eapply lookup_lt_Some). done.
  - cbn [negb andb]. set (who := match _ with Some j => Some j | None => _ end).
    assert (Hwho : forall k, who = Some k -> k <> j).
    { unfold who. destruct (negb (sender =? 0)); [|done]. destruct (arp_find sender (arp_cache s) 0) as [k0|] eqn:Ef.
      - intros k [= <-] ->. destruct (found_entry _ _ _ _ HI Ef) as (b & Hb & _ & _ & Eb & _). congruence.
      - intros k Hk ->. destruct (true && for_us); [|done]. destruct (slot_entry _ _ _ HI Hk) as (b & Hb & _ & Eb). congruence. }
    destruct who as [k|]; [|destruct (Hreply s) as [E _]; exists a; by rewrite E].
    set (s1 := n_set_arp s _). set (s2 := match a_pending (arp_at s k) with Some nb => _ | None => s1 end).
    assert (E2 : arp_cache s2 = arp_cache s1).
    { unfold s2. destruct (a_pending (arp_at s k)) as [nb0|]; [|done]. pose proof (ether_takes s1 nif nb0 mac ETH_TYPE_IPV4) as ET. destruct (ether_output _ _ _ _ _ _) as [r0 s0]. destruct ET as [O _]. cbn [snd]. apply (oi_arp _ _ O). }
    destruct (Hreply s2) as [E _]. exists a. rewrite E, E2. cbn [s1 arp_cache n_set_arp]. rewrite list_lookup_insert_ne by (by apply Hwho). done.
Qed.
Lemma output_fate L s nif hop packet j ip nb : arp_inv L s -> waiting s j ip nb -> packet_fate s (ArpOut nif hop packet) (arp_step s (ArpOut nif hop packet)) j ip nb.
Proof.
  intros HI HW. destruct (waiting_find L s j ip nb HI HW) as (Hf & _ & a & Ha & Ea & Hip & Hp & Hs). cbn [packet_fate arp_step].
  assert (Hkeep : forall s1, arp_cache s1 = arp_cache s -> waiting s1 j ip nb) by (intros s1 E; exists a; by rewrite E).
  unfold netbuf_alloc, n_kmalloc. destruct (kmalloc sizeof_netbuf (n_heap s)) as [p h]. destruct (p =? 0); [left; by apply Hkeep|]. set (s1 := n_set_heap s h).
  destruct (netbuf_put _ packet) as [nb1|] eqn:Eput; [|left; by apply Hkeep].
  assert (Hdata : nb_data nb1 = packet) by (unfold netbuf_put in Eput; destruct (_ <? _) in Eput; [done|]; by injection Eput as <-).
  assert (Heth : forall dst, waiting (ether_output send s1 nif nb1 dst ETH_TYPE_IPV4).2 j ip nb).
  { intros dst. apply Hkeep. pose proof (ether_takes s1 nif nb1 dst ETH_TYPE_IPV4) as ET. destruct (ether_output _ _ _ _ _ _) as [r s2]. destruct ET as [O _]. apply (oi_arp _ _ O). }
  unfold arp_output. cbn zeta. destruct (_ || _); [left; apply Heth|]. change (arp_cache s1) with (arp_cache s). destruct (arp_find hop (arp_cache s) 0) as [k|] eqn:Ek.
  - destruct (found_entry _ _ _ _ HI Ek) as (b & Hb & Eb & Hsb & Hib & _). change (arp_at s1 k) with (arp_at s k). rewrite Eb.
    destruct (bool_decide_reflect (a_state b = ARP_RESOLVED)); [left; apply Heth|]. cbn [snd]. set (b' := {| a_ip := a_ip b; a_mac := _; a_state := _; a_tries := _; a_stamp := _; a_nif := _; a_pending := _ |}).
    assert (Ec : arp_cache (netbuf_free (n_set_arp s1 (<[k := b']> (arp_cache s))) (a_pending b)) = <[k := b']> (arp_cache s)) by (by destruct (a_pending b)).
    destruct (decide (k = j)) as [->|Hne].
    + right. rewrite Ha in Hb. injection Hb as <-. split; [congruence|]. exists nb1. split; [|done]. exists b'. rewrite Ec, list_lookup_insert_eq by (by eapply lookup_lt_Some). done.
    + left. exists a. by rewrite Ec, list_lookup_insert_ne.
  - destruct (arp_slot (arp_cache s) 0 None) as [k|] eqn:Es; [|left; by apply Hkeep]. destruct (slot_entry _ _ _ HI Es) as (b & Hb & Eb & Hpb). change (arp_at s1 k) with (arp_at s k). rewrite Eb, Hpb.
    cbn [snd netbuf_free]. left. exists a. rewrite arp_send_cache. cbn [arp_cache n_set_arp]. rewrite list_lookup_insert_ne; [done|]. intros ->. congruence.
Qed.

Lemma tick_other now k s i : (Z.to_nat k <> i)%nat -> arp_cache (arp_tick_entry send now k s) !! i = arp_cache s !! i.
Proof.
  intros Hne. unfold arp_tick_entry. cbn zeta. destruct (a_state _); [done| |].
  - destruct (_ <=? _); [|done]. destruct (_ <=? _); [|rewrite arp_send_cache; cbn [arp_cache n_set_arp]; by rewrite list_lookup_insert_ne].
    set (s1 := n_set_arp s _). assert (E : arp_cache (netbuf_free s1 (a_pending (arp_at s (Z.to_nat k)))) = arp_cache s1) by (by destruct (a_pending _)). rewrite E. cbn [s1 arp_cache n_set_arp]. by rewrite list_lookup_insert_ne.
  - destruct (_ <=? _); [|done]. cbn [arp_cache n_set_arp]. by rewrite list_lookup_insert_ne.
Qed.

Lemma tick_own now s j a nb : arp_cache s !! j = Some a -> a_state a = ARP_PENDING -> a_pending a = Some nb ->
  let s' := arp_tick_entry send now (Z.of_nat j) s in
  if (ARP_RETRY_MS <=? now -w a_stamp a) && (ARP_TRIES <=? a_tries a)
  then exists b, arp_cache s' !! j = Some b /\ a_state b = ARP_FREE /\ a_pending b = None else waiting s' j (a_ip a) nb.
Proof.
  intros Ha Hs Hp. cbv zeta. unfold arp_tick_entry. rewrite Nat2Z.id. assert (Ea : arp_at s j = a) by (unfold arp_at; by rewrite Ha). cbn zeta. rewrite Ea, Hs, Hp.
  pose proof (lookup_lt_Some _ _ _ Ha) as Hlt. destruct (_ <=? _); cbn [andb]; [|by exists a]. destruct (_ <=? _).
  - eexists. cbn [netbuf_free n_kfree arp_cache n_set_arp n_set_heap]. rewrite list_lookup_insert_eq by done. done.
  - eexists. rewrite arp_send_cache. cbn [arp_cache n_set_arp]. rewrite list_lookup_insert_eq by done. done.
Qed.

Lemma tick_fate L s now j ip nb : arp_inv L s -> (j < ARP_CACHE_SIZE)%nat -> waiting s j ip nb -> packet_fate s (ArpTick now) (arp_step s (ArpTick now)) j ip nb.
Proof.
  intros HI Hj HW. destruct (waiting_find L s j ip nb HI HW) as (_ & _ & a & Ha & Ea & Hip & Hp & Hs). cbn [packet_fate arp_step]. rewrite Ea. unfold arp_tick. cbn [now_ms at_time].
  set (fate s' := if (ARP_RETRY_MS <=? now -w a_stamp a) && (ARP_TRIES <=? a_tries a) then exists b, arp_cache s' !! j = Some b /\ a_state b = ARP_FREE /\ a_pending b = None else waiting s' j ip nb).
  assert (Hfr : forall s1 s2, arp_cache s2 !! j = arp_cache s1 !! j -> fate s1 -> fate s2).
  { intros s1 s2 E. unfold fate, waiting. by rewrite E. }
  pose proof (for_range_inv (fun i s' => if i <=? Z.of_nat j then arp_cache s' !! j = Some a else fate s') (arp_tick_entry send now) ARP_CACHE_SIZE 0 (at_time s now)) as Hinv.
  rewrite Z.add_0_l in Hinv. rewrite (proj2 (Z.leb_gt (Z.of_nat ARP_CACHE_SIZE) (Z.of_nat j))) in Hinv by lia. apply Hinv; clear Hinv.
  - rewrite (proj2 (Z.leb_le 0 (Z.of_nat j))) by lia. exact Ha.
  - intros i s' Hi. destruct (Z.leb_spec i (Z.of_nat j)) as [Hle|Hgt], (Z.leb_spec (i + 1) (Z.of_nat j)) as [Hle'|Hgt']; try lia; intros HF.
    + by rewrite tick_other by lia.
    + replace i with (Z.of_nat j) by lia. unfold fate. rewrite <- Hip. by apply tick_own.
    + eapply Hfr; [|exact HF]. apply tick_other. lia.
Qed.


End Arp.

(** ** A lookup *)

Definition free_entry : arp_entry := {| a_ip := 0; a_mac := replicate 6 0; a_state := ARP_FREE; a_tries := 0; a_stamp := 0; a_nif := -1; a_pending := None |}.

(** A driver that keeps the frames it sends, the last first. *)
Definition recorder (_ : Z) (frame : list Z) (d : list (list Z)) : Z * list (list Z) := (0, frame :: d).

(** One interface, 10.0.2.15 of 10.0.2.0/24. *)
Definition lan : net counting_heap (list (list Z)) :=
  {| n_heap := {| ch_live := ∅; ch_next := 0x1000; ch_budget := 100 |}; n_dev := []; now_ms := 7;
     netifs := [{| nif_mac := [2; 0; 0; 0; 0; 1]; nif_ip := 0x0F02000A; nif_netmask := 0x00FFFFFF; nif_gateway := 0x0202000A; nif_configured := true;
                   rx_frames := 0; rx_bytes := 0; tx_frames := 0; tx_bytes := 0 |}];
     ip_next_id := 1; lo_queue := replicate 256 None; lo_head := 0; lo_count := 0; frags := replicate 4 empty_slot; frags_dropped := 0;
     arp_cache := replicate 32 free_entry; delivered := [] |}.

Definition GATEWAY : Z := 0x0202000A.

Definition gateway_mac : list Z := [2; 0; 0; 0; 0; 9].

(** A packet for the gateway waits, the request is sent again, the answer comes. *)
Definition lookup_run : list arp_event :=
  [ArpOut 0 GATEWAY [0x45; 1; 2; 3]; ArpTick 2000; ArpIn 0 (arp_bytes ARP_OP_REPLY gateway_mac GATEWAY [2; 0; 0; 0; 0; 1] 0x0F02000A)].

Lemma lan_entry j a : arp_cache lan !! j = Some a -> a = free_entry.
Proof. intros Hj. apply list_elem_of_lookup_2 in Hj. change (arp_cache lan) with (replicate 32 free_entry) in Hj. by apply elem_of_replicate in Hj as [-> _]. Qed.

Lemma lan_ok : arp_inv ∅ lan.
Proof.
  assert (E : held (arp_cache lan) = []) by reflexivity. split; rewrite ?E.
  - split; [vm_compute; reflexivity|]. intros p Hp. destruct (not_elem_of_empty p Hp).
  - intros j k a b Ha _ Hs. by rewrite (lan_entry _ _ Ha) in Hs.
  - intros j a Ha Hp. by rewrite (lan_entry _ _ Ha) in Hp.
  - vm_compute. reflexivity.
  - apply NoDup_nil_2.
  - intros x Hx. destruct (not_elem_of_nil _ Hx).
  - intros m Hm. apply list_elem_of_singleton in Hm as ->. reflexivity.
  - intros j a nb Ha. by rewrite (lan_entry _ _ Ha).
Qed.

(** The packet that waits for the gateway. *)
Definition parked : netbuf := {| nb_ptr := 0x1000; nb_off := 64; nb_data := [0x45; 1; 2; 3] |}.

