(* ===== verification/Klibc.v ===== *)
(** * The kernel's C library

    [klibc/string.c] and [klibc/format.c] on memory as the program sees it: bytes at the addresses
    that are mapped.  A function that reads or writes elsewhere has no result ([None], a page
    fault), so that a theorem which gives a result says too that nothing else is touched.  The saving of
    the SSE registers around the wide loops ([simd_begin], [simd_end]) changes no memory the program
    sees and is left out.  The loops over strings take one turn for each mapped byte at most, which is
    their fuel. *)

From S2P Require Import Prelude Bytes Heap.

(** ** Memory *)

Abbreviation mem := (gmap Z Z).

(** [n] bytes from address [a] on. *)
Definition load_n (m : mem) (a : Z) (n : nat) : option (list Z) := mapM (fun i => m !! (a + Z.of_nat i)) (seq 0 n).

Definition store (m : mem) (a b : Z) : option mem := _ ← m !! a; Some (<[a := b]> m).

Fixpoint store_n (m : mem) (a : Z) (bs : list Z) : option mem :=
  match bs with
  | [] => Some m
  | b :: bs => m ← store m a b; store_n m (a + 1) bs
  end.

(** A loop: the body goes on with a state or leaves with a result. *)
Fixpoint loop {S R : Type} (fuel : nat) (body : S -> option (S + R)) (s : S) : option R :=
  match fuel with
  | O => None
  | Datatypes.S fuel =>
    next ← body s;
    match next with
    | inl s => loop fuel body s
    | inr r => Some r
    end
  end.

(** ** Blocks of memory *)

Definition SIMD_CHUNK : Z := 64 * 1024.

Definition SIMD_MIN : Z := 1024.

Definition vec_offsets : list Z := [0; 16; 32; 48; 64; 80; 96; 112].

(** The eight stores of 16 bytes of one turn. *)
Fixpoint store_vecs (m : mem) (dest : Z) (vs : list (list Z)) : option mem :=
  match vs with
  | [] => Some m
  | v :: vs => m ← store_n m dest v; store_vecs m (dest + 16) vs
  end.

(** One turn of the widest loop: all loads come before the stores. *)
Definition copy_128 (m : mem) (dest src : Z) : option mem :=
  vs ← mapM (fun k => load_n m (src + k) 16) vec_offsets;
  store_vecs m dest vs.

Definition copy_k (k : nat) (m : mem) (dest src : Z) : option mem :=
  v ← load_n m src k;
  store_n m dest v.

(** [while (n >= k)] over blocks of [k] bytes from the front; the rest of the work is the result. *)
Definition fwd_loop (k : Z) (move : mem -> Z -> Z -> option mem) (m : mem) (dest src n : Z) : option (mem * Z * Z * Z) :=
  loop (S (Z.to_nat n)) (fun '(m, dest, src, n) =>
    if n >=? k then
      m ← move m dest src;
      Some (inl (m, dest + k, src + k, n - k))
    else Some (inr (m, dest, src, n))) (m, dest, src, n).

Definition copy_fwd_vec (m : mem) (dest src n : Z) : option mem :=
  '(m, dest, src, n) ← fwd_loop 128 copy_128 m dest src n;
  '(m, dest, src, n) ← fwd_loop 16 (copy_k 16) m dest src n;
  '(m, _, _, _) ← fwd_loop 1 (copy_k 1) m dest src n;
  Some m.

(** [while (n >= k)] over blocks of [k] bytes from the end. *)
Definition back_loop (k : nat) (m : mem) (dest src n : Z) : option (mem * Z) :=
  loop (S (Z.to_nat n)) (fun '(m, n) =>
    if n >=? Z.of_nat k then
      let n := n - Z.of_nat k in
      m ← copy_k k m (dest + n) (src + n);
      Some (inl (m, n))
    else Some (inr (m, n))) (m, n).

Definition copy_back_vec (m : mem) (dest src n : Z) : option mem :=
  '(m, n) ← back_loop 16 m dest src n;
  '(m, _) ← back_loop 1 m dest src n;
  Some m.

(** [while (n >= k)] over stores of [k] bytes [c]. *)
Definition fill_loop (k : Z) (put : mem -> Z -> option mem) (m : mem) (dest n : Z) : option (mem * Z * Z) :=
  loop (S (Z.to_nat n)) (fun '(m, dest, n) =>
    if n >=? k then
      m ← put m dest;
      Some (inl (m, dest + k, n - k))
    else Some (inr (m, dest, n))) (m, dest, n).

Definition fill_vec (m : mem) (dest c n : Z) : option mem :=
  let v := replicate 16 c in
  '(m, dest, n) ← fill_loop 128 (fun m dest => store_vecs m dest (replicate 8 v)) m dest n;
  '(m, dest, n) ← fill_loop 16 (fun m dest => store_n m dest v) m dest n;
  '(m, _, _) ← fill_loop 1 (fun m dest => store m dest c) m dest n;
  Some m.

Definition copy_simd (m : mem) (dest src n : Z) : option mem :=
  loop (S (Z.to_nat n)) (fun '(m, dest, src, n) =>
    if n >? 0 then
      let chunk := if n <? SIMD_CHUNK then n else SIMD_CHUNK in
      m ← copy_fwd_vec m dest src chunk;
      Some (inl (m, dest + chunk, src + chunk, n - chunk))
    else Some (inr m)) (m, dest, src, n).

Definition move_back_simd (m : mem) (dest src n : Z) : option mem :=
  loop (S (Z.to_nat n)) (fun '(m, n) =>
    if n >? 0 then
      let chunk := if n <? SIMD_CHUNK then n else SIMD_CHUNK in
      let n := n - chunk in
      m ← copy_back_vec m (dest + n) (src + n) chunk;
      Some (inl (m, n))
    else Some (inr m)) (m, n).

Definition fill_simd (m : mem) (dest c n : Z) : option mem :=
  loop (S (Z.to_nat n)) (fun '(m, dest, n) =>
    if n >? 0 then
      let chunk := if n <? SIMD_CHUNK then n else SIMD_CHUNK in
      m ← fill_vec m dest c chunk;
      Some (inl (m, dest + chunk, n - chunk))
    else Some (inr m)) (m, dest, n).

(** [rep movsq] ([w] is 8) and [rep movsb] ([w] is 1): the count register, and the pointers after it. *)
Fixpoint rep_movs (w count : nat) (m : mem) (pdest psrc : Z) : option (mem * Z * Z) :=
  match count with
  | O => Some (m, pdest, psrc)
  | S count =>
    m ← copy_k w m pdest psrc;
    rep_movs w count m (pdest + Z.of_nat w) (psrc + Z.of_nat w)
  end.

(** [rep stosq] and [rep stosb] of the low [w] bytes of [fill]. *)
Fixpoint rep_stos (w count : nat) (m : mem) (pdest fill : Z) : option (mem * Z) :=
  match count with
  | O => Some (m, pdest)
  | S count =>
    m ← store_n m pdest (take w (word_bytes fill));
    rep_stos w count m (pdest + Z.of_nat w) fill
  end.

Definition memcpy (m : mem) (dest src n : Z) : option (Z * mem) :=
  if n >=? SIMD_MIN then
    m ← copy_simd m dest src n;
    Some (dest, m)
  else
    let q := n ≫ 3 in
    let b := Z.land n 7 in
    '(m, pdest, psrc) ← rep_movs 8 (Z.to_nat q) m dest src;
    '(m, _, _) ← rep_movs 1 (Z.to_nat b) m pdest psrc;
    Some (dest, m).

Definition memmove (m : mem) (dest src n : Z) : option (Z * mem) :=
  if (dest <=? src) || (dest >=? src + n) then memcpy m dest src n
  else
    m ← move_back_simd m dest src n;
    Some (dest, m).

Definition memset (m : mem) (s c n : Z) : option (Z * mem) :=
  let c := c `mod` 256 in
  if n >=? SIMD_MIN then
    m ← fill_simd m s c n;
    Some (s, m)
  else
    let q := n ≫ 3 in
    let b := Z.land n 7 in
    let fill := c *w 0x0101010101010101 in
    '(m, pdest) ← rep_stos 8 (Z.to_nat q) m s fill;
    '(m, _) ← rep_stos 1 (Z.to_nat b) m pdest fill;
    Some (s, m).

Definition memcmp (m : mem) (s1 s2 n : Z) : option Z :=
  loop (S (Z.to_nat n)) (fun i =>
    if i <? n then
      b1 ← m !! (s1 + i);
      b2 ← m !! (s2 + i);
      if negb (b1 =? b2) then Some (inr (if b1 <? b2 then -1 else 1)) else Some (inl (i + 1))
    else Some (inr 0)) 0.

(** ** Strings *)

(** A [char], which is signed on this machine, of a byte. *)
Definition char_of (b : Z) : Z := if b <? 128 then b else b - 256.

Definition strlen (m : mem) (string : Z) : option Z :=
  if string =? 0 then Some 0
  else loop (S (size m)) (fun '(string, length) =>
    b ← m !! string;
    if negb (b =? 0) then Some (inl (string + 1, length + 1)) else Some (inr length)) (string, 0).

Definition strnlen (m : mem) (s n : Z) : option Z :=
  if s =? 0 then Some 0
  else loop (S (Z.to_nat n)) (fun len =>
    if len <? n then
      b ← m !! (s + len);
      if negb (b =? 0) then Some (inl (len + 1)) else Some (inr len)
    else Some (inr len)) 0.

(** Copies up to the terminator of [src], and a terminator behind it. *)
Definition copy_string (m : mem) (d src : Z) : option mem :=
  loop (S (size m)) (fun '(m, d, src) =>
    b ← m !! src;
    if negb (b =? 0) then
      m ← store m d b;
      Some (inl (m, d + 1, src + 1))
    else
      m ← store m d 0;
      Some (inr m)) (m, d, src).

Definition strcpy (m : mem) (dest src : Z) : option (Z * mem) :=
  m ← copy_string m dest src;
  Some (dest, m).

Definition strcat (m : mem) (dest src : Z) : option (Z * mem) :=
  d ← loop (S (size m)) (fun d =>
    b ← m !! d;
    if negb (b =? 0) then Some (inl (d + 1)) else Some (inr d)) dest;
  m ← copy_string m d src;
  Some (dest, m).

(** The rest of the [n] bytes, from [i] on. *)
Definition pad_zeros (m : mem) (d i n : Z) : option mem :=
  loop (S (Z.to_nat (n - i))) (fun '(m, i) =>
    if i <? n then
      m ← store m (d + i) 0;
      Some (inl (m, i + 1))
    else Some (inr m)) (m, i).

Definition strncpy (m : mem) (dest src n : Z) : option (Z * mem) :=
  loop (S (Z.to_nat n)) (fun '(m, i) =>
    if i <? n then
      b ← m !! (src + i);
      if negb (b =? 0) then
        m ← store m (dest + i) b;
        Some (inl (m, i + 1))
      else
        m ← pad_zeros m dest i n;
        Some (inr (dest, m))
    else Some (inr (dest, m))) (m, 0).

Definition strcmp (m : mem) (s1 s2 : Z) : option Z :=
  '(b1, b2) ← loop (S (size m)) (fun '(s1, s2) =>
    b1 ← m !! s1;
    b2 ← m !! s2;
    if negb (b1 =? 0) && negb (b2 =? 0) && (b1 =? b2) then Some (inl (s1 + 1, s2 + 1))
    else Some (inr (b1, b2))) (s1, s2);
  if b1 =? b2 then Some 0 else Some (if char_of b1 <? char_of b2 then -1 else 1).

Definition strncmp (m : mem) (s1 s2 n : Z) : option Z :=
  loop (S (Z.to_nat n)) (fun i =>
    if i <? n then
      b1 ← m !! (s1 + i);
      b2 ← m !! (s2 + i);
      if negb (b1 =? b2) then Some (inr (if char_of b1 <? char_of b2 then -1 else 1))
      else if b1 =? 0 then Some (inr 0)
      else Some (inl (i + 1))
    else Some (inr 0)) 0.

Definition strchr (m : mem) (s c : Z) : option Z :=
  loop (S (size m)) (fun s =>
    b ← m !! s;
    if b =? 0 then Some (inr 0)
    else if b =? c `mod` 256 then Some (inr s)
    else Some (inl (s + 1))) s.

(** The inner loop over the delimiters: whether they have the byte [b]. *)
Definition in_delims (m : mem) (b delim : Z) : option bool :=
  loop (S (size m)) (fun d =>
    x ← m !! d;
    if negb (x =? 0) then (if b =? x then Some (inr true) else Some (inl (d + 1))) else Some (inr false)) delim.

(** The loop over the leading delimiters: the first byte that is none. *)
Definition skip_delims (m : mem) (s delim : Z) : option Z :=
  loop (S (size m)) (fun s =>
    b ← m !! s;
    if negb (b =? 0) then
      found ← in_delims m b delim;
      if negb found then Some (inr s) else Some (inl (s + 1))
    else Some (inr s)) s.

(** The loop to the delimiter behind the token, and [*save] after it. *)
Definition end_token (m : mem) (s delim : Z) : option (Z * mem) :=
  loop (S (size m)) (fun s =>
    b ← m !! s;
    if negb (b =? 0) then
      found ← in_delims m b delim;
      if (found : bool) then
        m ← store m s 0;
        Some (inr (s + 1, m))
      else Some (inl (s + 1))
    else Some (inr (0, m))) s.

(** The token, [*save] and the memory afterwards. *)
Definition strtok_r (m : mem) (s delim save : Z) : option (Z * Z * mem) :=
  let s := if s =? 0 then save else s in
  if s =? 0 then Some (0, save, m)
  else
    s ← skip_delims m s delim;
    b ← m !! s;
    if b =? 0 then Some (0, 0, m)
    else
      let token_start := s in
      '(save, m) ← end_token m s delim;
      Some (token_start, save, m).

(** [strtok], with its static pointer as a state. *)
Definition strtok (m : mem) (static_ptr s delim : Z) : option (Z * Z * mem) := strtok_r m s delim static_ptr.

(** [for (t = strtok_r(s, delim, &save); t; t = strtok_r(NULL, delim, &save))]: the tokens a caller gets. *)
Fixpoint all_tokens (fuel : nat) (m : mem) (s delim save : Z) : option (list Z * mem) :=
  match fuel with
  | O => None
  | S fuel =>
    '(t, save, m) ← strtok_r m s delim save;
    if t =? 0 then Some ([], m)
    else
      '(ts, m) ← all_tokens fuel m 0 delim save;
      Some (t :: ts, m)
  end.

Section Allocating.

Context {H : Type} `{Heap H}.

Definition strdup (m : mem) (h : H) (s : Z) : option (Z * mem * H) :=
  if s =? 0 then Some (0, m, h)
  else
    len ← strlen m s;
    let '(copy, h) := kmalloc (len +w 1) h in
    if copy =? 0 then Some (0, m, h)
    else
      '(_, m) ← memcpy m copy s len;
      m ← store m (copy + len) 0;
      Some (copy, m, h).

(** ** Numbers *)

(** [digits[d]]. *)
Definition digit_char (uppercase : bool) (d : Z) : option Z :=
  ((if uppercase then [48; 49; 50; 51; 52; 53; 54; 55; 56; 57; 65; 66; 67; 68; 69; 70]
    else [48; 49; 50; 51; 52; 53; 54; 55; 56; 57; 97; 98; 99; 100; 101; 102]) : list Z) !! Z.to_nat d.

(** [buffer[i++] = b] on [char buffer[65]]. *)
Definition push_digit (buffer : list Z) (b : Z) : option (list Z) :=
  if (length buffer <? 65)%nat then Some (buffer ++ [b]) else None.

(** The digits of [value] in [buffer], the last one first; dividing by zero has no result. *)
Definition digits_of (value base : Z) (uppercase : bool) : option (list Z) :=
  if value =? 0 then push_digit [] 48
  else loop 65 (fun '(value, buffer) =>
    if value >? 0 then
      if base =? 0 then None
      else
        c ← digit_char uppercase (value `mod` wrap64 base);
        buffer ← push_digit buffer c;
        Some (inl (value / wrap64 base, buffer))
    else Some (inr buffer)) (value, []).

Definition utoa_base (m : mem) (h : H) (value base : Z) (uppercase : bool) : option (Z * mem * H) :=
  buffer ← digits_of value base uppercase;
  _ ← push_digit buffer 0;
  let i := Z.of_nat (length buffer) in
  let '(out, h) := kmalloc (i + 1) h in
  if out =? 0 then Some (0, m, h)
  else
    m ← store_n m out (reverse buffer);
    m ← store m (out + i) 0;
    Some (out, m, h).

Definition itoa_signed (m : mem) (h : H) (value : Z) : option (Z * mem * H) :=
  if value >=? 0 then utoa_base m h (wrap64 value) 10 false
  else
    '(tmp, m, h) ← utoa_base m h (wrap64 (- value)) 10 false;
    if tmp =? 0 then Some (0, m, h)
    else
      len ← loop (S (size m)) (fun len =>
        b ← m !! (tmp + len - 1);
        if negb (b =? 0) then Some (inl (len + 1)) else Some (inr len)) 1;
      let '(out, h) := kmalloc (len + 1) h in
      if out =? 0 then Some (0, m, kfree tmp h)
      else
        m ← store m out 45;
        m ← loop (S (Z.to_nat len)) (fun '(m, i) =>
          if i <? len then
            b ← m !! (tmp + i);
            m ← store m (out + i + 1) b;
            Some (inl (m, i + 1))
          else Some (inr m)) (m, 0);
        Some (out, m, kfree tmp h).

End Allocating.
