(* ===== verification/KlibcProofs.v ===== *)
(** * The C library: blocks of memory and strings

    [memcpy], [memmove] and [memset] against their effect byte by byte, the string functions
    against lists of bytes, and the tokens of [strtok_r] against a split of the string. *)

From S2P Require Import Prelude Bytes Heap Klibc.

(** ** Loops and memory *)

(** A loop that goes on only with a smaller measure ends, with what leaving it gives. *)
Lemma loop_total {S R : Type} (I : S -> Prop) (size_of : S -> nat) (Q : R -> Prop) body fuel s :
  I s -> (size_of s < fuel)%nat ->
  (forall s, I s -> (exists s', body s = Some (inl s') /\ I s' /\ (size_of s' < size_of s)%nat) \/
                    (exists r, body s = Some (inr r) /\ Q r)) ->
  exists r, loop fuel body s = Some r /\ Q r.
Proof.
  intros Hs Hf Hb. revert s Hs Hf. induction fuel as [|fuel IH]; intros s Hs Hf; [lia|].
  simpl. destruct (Hb s Hs) as [(s' & -> & Hs' & Hlt)|(r & -> & Hr)]; simpl; [apply IH; [done|lia]|by exists r].
Qed.

Definition mapped (m : mem) (a n : Z) : Prop := forall x, a <= x < a + n -> is_Some (m !! x).

(** [m'] is [m] with the bytes [f x] at the addresses from [a] on. *)
Definition patched (m m' : mem) (a n : Z) (f : Z -> option Z) : Prop :=
  forall x, m' !! x = if (a <=? x) && (x <? a + n) then f x else m !! x.

(** [m'] is [m] with [n] bytes from [src] at [dest]. *)
Definition copied (m m' : mem) (dest src n : Z) : Prop := patched m m' dest n (fun x => m !! (src + (x - dest))).

(** Both sides of a copy are mapped. *)
Definition both_mapped (m : mem) (dest src n : Z) : Prop := mapped m dest n /\ mapped m src n.

Lemma patched_in m m' a n f x : patched m m' a n f -> a <= x < a + n -> m' !! x = f x.
Proof. intros Hp Hx. rewrite (Hp x). destruct (Z.leb_spec a x), (Z.ltb_spec x (a + n)); simpl; done || lia. Qed.

Lemma patched_out m m' a n f x : patched m m' a n f -> ~ a <= x < a + n -> m' !! x = m !! x.
Proof. intros Hp Hx. rewrite (Hp x). destruct (Z.leb_spec a x), (Z.ltb_spec x (a + n)); simpl; done || lia. Qed.

Lemma patched_intro m m' a n f :
  (forall x, a <= x < a + n -> m' !! x = f x) -> (forall x, ~ a <= x < a + n -> m' !! x = m !! x) -> patched m m' a n f.
Proof.
  intros H1 H2 x. destruct (Z.leb_spec a x), (Z.ltb_spec x (a + n)); simpl; [apply H1; lia|apply H2; lia..].
Qed.

Lemma mapped_sub m a n a' n' : mapped m a n -> a <= a' -> a' + n' <= a + n -> mapped m a' n'.
Proof. intros Hm ?? x Hx. apply Hm. lia. Qed.

Lemma copied_mapped m m' dest src n a k : copied m m' dest src n -> mapped m src n -> mapped m a k -> mapped m' a k.
Proof.
  intros Hc Hs Ha x Hx. destruct (decide (dest <= x < dest + n)) as [Hin|Hout].
  - rewrite (patched_in _ _ _ _ _ _ Hc Hin). apply Hs. lia.
  - rewrite (patched_out _ _ _ _ _ _ Hc Hout). by apply Ha.
Qed.

Lemma copied_both m m' dest src n d s k :
  copied m m' dest src n -> mapped m src n -> both_mapped m d s k -> both_mapped m' d s k.
Proof. intros Hc Hs [??]. split; by eapply copied_mapped. Qed.

(** Any part of the two sides is still mapped after some of them was copied. *)
Lemma copied_rest m m' dest src n i j k d :
  copied m m' (dest + d) (src + d) j -> both_mapped m dest src n -> 0 <= d -> d + j <= n -> 0 <= i -> i + k <= n ->
  both_mapped m' (dest + i) (src + i) k.
Proof.
  intros Hc [Hd Hs] ????. eapply copied_both; [exact Hc|eapply mapped_sub; [exact Hs|lia..]|].
  split; [eapply mapped_sub; [exact Hd|lia..]|eapply mapped_sub; [exact Hs|lia..]].
Qed.

Lemma copied_rest0 m m' dest src n i j k :
  copied m m' dest src j -> both_mapped m dest src n -> j <= n -> 0 <= i -> i + k <= n -> both_mapped m' (dest + i) (src + i) k.
Proof. intros Hc Hm ???. eapply (copied_rest _ _ _ _ n _ j _ 0); rewrite ?Z.add_0_r; done || lia. Qed.

Lemma copied_0 m dest src : copied m m dest src 0.
Proof. apply patched_intro; intros x Hx; [lia|done]. Qed.

(** Copying upwards in two parts is safe where the first part does not overwrite the source of the second. *)
Lemma copied_up m m1 m2 dest src k j :
  0 <= k -> 0 <= j -> dest <= src \/ src + (k + j) <= dest ->
  copied m m1 dest src k -> copied m1 m2 (dest + k) (src + k) j -> copied m m2 dest src (k + j).
Proof.
  intros Hk Hj Hsafe H1 H2. apply patched_intro; intros x Hx.
  - destruct (decide (dest + k <= x)) as [Hhi|Hlo].
    + rewrite (patched_in _ _ _ _ _ x H2) by lia. rewrite (patched_out _ _ _ _ _ _ H1) by lia. f_equal. lia.
    + rewrite (patched_out _ _ _ _ _ x H2), (patched_in _ _ _ _ _ x H1) by lia. done.
  - rewrite (patched_out _ _ _ _ _ x H2), (patched_out _ _ _ _ _ x H1) by lia. done.
Qed.

(** Downwards, where the last part does not overwrite the source of the first. *)
Lemma copied_down m m1 m2 dest src j k :
  0 <= k -> 0 <= j -> src <= dest ->
  copied m m1 (dest + j) (src + j) k -> copied m1 m2 dest src j -> copied m m2 dest src (j + k).
Proof.
  intros Hk Hj Hsafe H1 H2. apply patched_intro; intros x Hx.
  - destruct (decide (dest + j <= x)) as [Hhi|Hlo].
    + rewrite (patched_out _ _ _ _ _ x H2), (patched_in _ _ _ _ _ x H1) by lia. f_equal. lia.
    + rewrite (patched_in _ _ _ _ _ x H2) by lia. rewrite (patched_out _ _ _ _ _ _ H1) by lia. done.
  - rewrite (patched_out _ _ _ _ _ x H2), (patched_out _ _ _ _ _ x H1) by lia. done.
Qed.

(** ** Loads and stores *)

Lemma store_n_spec bs : forall m a, mapped m a (Z.of_nat (length bs)) ->
  exists m', store_n m a bs = Some m' /\ patched m m' a (Z.of_nat (length bs)) (fun x => bs !! Z.to_nat (x - a)).
Proof.
  induction bs as [|b bs IH]; intros m a Hm.
  - exists m. split; [done|]. apply patched_intro; intros x Hx; [simpl in Hx; lia|done].
  - simpl length in *. simpl store_n. unfold store. destruct (Hm a ltac:(lia)) as [b0 ->]. simpl.
    destruct (IH (<[a := b]> m) (a + 1)) as (m' & -> & Hp).
    { intros x Hx. rewrite lookup_insert_ne by lia. apply Hm. lia. }
    exists m'. split; [done|]. apply patched_intro; intros x Hx.
    + destruct (decide (x = a)) as [->|Hne].
      * rewrite (patched_out _ _ _ _ _ a Hp) by lia. by rewrite lookup_insert_eq, Z.sub_diag.
      * rewrite (patched_in _ _ _ _ _ x Hp) by lia. replace (Z.to_nat (x - a)) with (S (Z.to_nat (x - (a + 1)))) by lia. done.
    + rewrite (patched_out _ _ _ _ _ x Hp) by lia. by rewrite lookup_insert_ne by lia.
Qed.

Lemma load_n_spec m a n : mapped m a (Z.of_nat n) ->
  exists bs, load_n m a n = Some bs /\ length bs = n /\ forall i, (i < n)%nat -> bs !! i = m !! (a + Z.of_nat i).
Proof.
  intros Hm. unfold load_n. assert (Hall : forall i, i ∈ seq 0 n -> is_Some (m !! (a + Z.of_nat i))).
  { intros i Hi%elem_of_seq. apply Hm. lia. }
  destruct (mapM (fun i => m !! (a + Z.of_nat i)) (seq 0 n)) as [bs|] eqn:E.
  - exists bs. apply mapM_Some in E. pose proof E as Hl. apply Forall2_length in Hl. rewrite length_seq in Hl. split_and!; [done|done|].
    intros i Hi. destruct (lookup_lt_is_Some_2 bs i ltac:(lia)) as [b Hb]. rewrite Hb.
    destruct (Forall2_lookup_r _ _ _ _ _ E Hb) as (j & [-> _]%lookup_seq & Hj). by rewrite Nat.add_0_l in Hj.
  - exfalso. apply mapM_None in E. apply Exists_exists in E as (i & Hi & Hn). destruct (Hall i (proj2 (list_elem_of_In _ _) Hi)) as [b Hb]. simpl in Hn. congruence.
Qed.

(** Bytes read before any is written go to [dest] unchanged. *)
Lemma block_copied m m' dest src n bs :
  length bs = Z.to_nat n -> 0 <= n -> (forall i, (i < length bs)%nat -> bs !! i = m !! (src + Z.of_nat i)) ->
  patched m m' dest (Z.of_nat (length bs)) (fun x => bs !! Z.to_nat (x - dest)) -> copied m m' dest src n.
Proof.
  intros Hl Hn Hb Hp. apply patched_intro; intros x Hx.
  - rewrite (patched_in _ _ _ _ _ x Hp) by lia. rewrite Hb by lia. f_equal. lia.
  - by rewrite (patched_out _ _ _ _ _ x Hp) by lia.
Qed.

(** What one turn of a copying loop does with a block of [k] bytes. *)
Definition moves (k : Z) (move : mem -> Z -> Z -> option mem) : Prop :=
  forall m dest src, both_mapped m dest src k -> exists m', move m dest src = Some m' /\ copied m m' dest src k.

Lemma copy_k_moves k : moves (Z.of_nat k) (copy_k k).
Proof.
  intros m dest src [Hd Hs]. unfold copy_k. destruct (load_n_spec m src k Hs) as (bs & -> & Hl & Hb). simpl.
  destruct (store_n_spec bs m dest) as (m' & -> & Hp); [by rewrite Hl|]. exists m'. split; [done|].
  eapply block_copied; [..|exact Hp]; [lia|lia|]. intros i Hi. apply Hb. lia.
Qed.

Lemma store_n_app bs1 bs2 : forall m a,
  store_n m a (bs1 ++ bs2) = m ← store_n m a bs1; store_n m (a + Z.of_nat (length bs1)) bs2.
Proof.
  induction bs1 as [|b bs1 IH]; intros m a; [simpl; by rewrite Z.add_0_r|].
  cbn [app store_n length]. destruct (store m a b); cbn [mbind option_bind]; [|done]. rewrite IH.
  by replace (a + Z.of_nat (S (length bs1))) with (a + 1 + Z.of_nat (length bs1)) by lia.
Qed.

Lemma store_vecs_concat vs : Forall (fun v => length v = 16%nat) vs -> forall m a, store_vecs m a vs = store_n m a (concat vs).
Proof.
  induction 1 as [|v vs Hv _ IH]; intros m a; [done|]. simpl. rewrite store_n_app, Hv. destruct (store_n m a v); simpl; [apply IH|done].
Qed.

Lemma load_vecs m src n : forall j, mapped m (src + 16 * Z.of_nat j) (16 * Z.of_nat n) ->
  exists vs, mapM (fun k => load_n m (src + k) 16) ((fun i => 16 * Z.of_nat i) <$> seq j n) = Some vs /\
    Forall (fun v => length v = 16%nat) vs /\ length (concat vs) = (16 * n)%nat /\
    forall i, (i < 16 * n)%nat -> concat vs !! i = m !! (src + 16 * Z.of_nat j + Z.of_nat i).
Proof.
  induction n as [|n IH]; intros j Hm.
  - exists []. split_and!; [done|constructor|done|lia].
  - destruct (load_n_spec m (src + 16 * Z.of_nat j) 16) as (v & Ev & Hl & Hv); [eapply mapped_sub; [exact Hm|lia..]|].
    destruct (IH (S j)) as (vs & Evs & Hall & Hlen & Hvs); [eapply mapped_sub; [exact Hm|lia..]|].
    exists (v :: vs). cbn [seq fmap list_fmap mapM]. rewrite Ev. cbn [mbind option_bind]. 
    change (list_fmap _ _ (fun i => 16 * Z.of_nat i) (seq (S j) n)) with ((fun i => 16 * Z.of_nat i) <$> seq (S j) n). rewrite Evs.
    split_and!; [done|by constructor|simpl; rewrite length_app; lia|].
    intros i Hi. simpl. destruct (decide (i < 16)%nat) as [Hlt|Hge].
    + rewrite lookup_app_l by lia. by apply Hv.
    + rewrite lookup_app_r, Hl, Hvs by lia. f_equal. lia.
Qed.

Lemma copy_128_moves : moves 128 copy_128.
Proof.
  intros m dest src [Hd Hs]. unfold copy_128. destruct (load_vecs m src 8 0) as (vs & E & Hall & Hlen & Hb); [by rewrite Z.add_0_r|].
  change vec_offsets with ((fun i => 16 * Z.of_nat i) <$> seq 0 8). rewrite E. simpl. rewrite store_vecs_concat by done.
  destruct (store_n_spec (concat vs) m dest) as (m' & -> & Hp); [by rewrite Hlen|]. exists m'. split; [done|].
  eapply block_copied; [..|exact Hp]; [lia|lia|]. rewrite Hlen. intros i Hi. rewrite Hb by lia. f_equal. lia.
Qed.

(** ** Copies *)

(** A loop over blocks from the front leaves less than one block, and has copied the rest. *)
Lemma fwd_loop_spec k move m dest src n :
  0 < k -> moves k move -> 0 <= n -> both_mapped m dest src n -> dest <= src \/ src + n <= dest ->
  exists m' j, fwd_loop k move m dest src n = Some (m', dest + j, src + j, n - j) /\ 0 <= j <= n /\ n - j < k /\ copied m m' dest src j.
Proof.
  intros Hk Hmove Hn Hm Hsafe. unfold fwd_loop.
  destruct (loop_total (fun '(m', d, s, r) => exists j, d = dest + j /\ s = src + j /\ r = n - j /\ 0 <= j <= n /\ copied m m' dest src j)
    (fun '(_, _, _, r) => Z.to_nat r)
    (fun '(m', d, s, r) => exists j, d = dest + j /\ s = src + j /\ r = n - j /\ 0 <= j <= n /\ r < k /\ copied m m' dest src j)
    (fun '(m, dest, src, n) => if n >=? k then m ← move m dest src; Some (inl (m, dest + k, src + k, n - k)) else Some (inr (m, dest, src, n)))
    (S (Z.to_nat n)) (m, dest, src, n)) as ([[[m' d] s] r] & E & j & -> & -> & -> & Hj & Hr & Hc).
  - exists 0. split_and!; try lia. apply copied_0.
  - lia.
  - intros [[[m1 d] s] r] (j & -> & -> & -> & Hj & Hc). rewrite Z.geb_leb. destruct (Z.leb_spec k (n - j)).
    + left. destruct (Hmove m1 (dest + j) (src + j)) as (m2 & -> & Hc2).
      { eapply copied_rest0; [exact Hc|exact Hm|lia..]. }
      simpl. eexists. split; [done|]. split; [|lia]. exists (j + k). split_and!; try lia. eapply copied_up; [..|exact Hc|exact Hc2]; lia.
    + right. eexists. split; [done|]. exists j. split_and!; done || lia.
  - exists m', j. split_and!; done || lia.
Qed.

Lemma copy_fwd_vec_spec m dest src n :
  0 <= n -> both_mapped m dest src n -> dest <= src \/ src + n <= dest ->
  exists m', copy_fwd_vec m dest src n = Some m' /\ copied m m' dest src n.
Proof.
  intros Hn Hm Hsafe. unfold copy_fwd_vec.
  assert (Hrest : forall m1 j, copied m m1 dest src j -> 0 <= j <= n -> both_mapped m1 (dest + j) (src + j) (n - j)).
  { intros m1 j Hc Hj. eapply copied_rest0; [exact Hc|exact Hm|lia..]. }
  destruct (fwd_loop_spec 128 copy_128 m dest src n ltac:(lia) copy_128_moves Hn Hm Hsafe) as (m1 & j1 & -> & Hj1 & _ & H1). simpl.
  destruct (fwd_loop_spec 16 (copy_k 16) m1 (dest + j1) (src + j1) (n - j1) ltac:(lia) (copy_k_moves 16) ltac:(lia) (Hrest _ _ H1 Hj1) ltac:(lia))
    as (m2 & j2 & -> & Hj2 & _ & H2). simpl. pose proof (copied_up m m1 m2 dest src j1 j2 ltac:(lia) ltac:(lia) ltac:(lia) H1 H2) as H12.
  rewrite <- !Z.add_assoc, <- Z.sub_add_distr.
  destruct (fwd_loop_spec 1 (copy_k 1) m2 (dest + (j1 + j2)) (src + (j1 + j2)) (n - (j1 + j2)) ltac:(lia) (copy_k_moves 1) ltac:(lia)
    (Hrest _ _ H12 ltac:(lia)) ltac:(lia)) as (m3 & j3 & -> & Hj3 & Hk3 & H3). simpl.
  exists m3. split; [done|]. replace n with (j1 + j2 + j3) by lia. eapply copied_up; [..|exact H12|exact H3]; lia.
Qed.

Lemma copy_simd_spec m dest src n :
  0 <= n -> both_mapped m dest src n -> dest <= src \/ src + n <= dest ->
  exists m', copy_simd m dest src n = Some m' /\ copied m m' dest src n.
Proof.
  intros Hn Hm Hsafe. unfold copy_simd.
  apply (loop_total (fun '(m', d, s, r) => exists j, d = dest + j /\ s = src + j /\ r = n - j /\ 0 <= j <= n /\ copied m m' dest src j)
    (fun '(_, _, _, r) => Z.to_nat r) (fun m' => copied m m' dest src n)).
  - exists 0. split_and!; try lia. apply copied_0.
  - lia.
  - intros [[[m1 d] s] r] (j & -> & -> & -> & Hj & Hc). rewrite Z.gtb_ltb. destruct (Z.ltb_spec 0 (n - j)).
    + left. set (chunk := if n - j <? SIMD_CHUNK then n - j else SIMD_CHUNK).
      assert (Hch : 0 < chunk <= n - j) by (unfold chunk, SIMD_CHUNK; case_if; lia).
      destruct (copy_fwd_vec_spec m1 (dest + j) (src + j) chunk) as (m2 & -> & Hc2); [lia| |lia|].
      { eapply copied_rest0; [exact Hc|exact Hm|lia..]. }
      simpl. eexists. split; [done|]. split; [|lia]. exists (j + chunk). split_and!; try lia. eapply copied_up; [..|exact Hc|exact Hc2]; lia.
    + right. exists m1. split; [done|]. by replace n with j by lia.
Qed.

(** A loop over blocks from the end: what is left is at the front. *)
Lemma back_loop_spec k m dest src n :
  (0 < k)%nat -> 0 <= n -> both_mapped m dest src n -> src <= dest ->
  exists m' r, back_loop k m dest src n = Some (m', r) /\ 0 <= r <= n /\ r < Z.of_nat k /\ copied m m' (dest + r) (src + r) (n - r).
Proof.
  intros Hk Hn Hm Hsafe. unfold back_loop.
  destruct (loop_total (fun '(m', r) => 0 <= r <= n /\ copied m m' (dest + r) (src + r) (n - r)) (fun '(_, r) => Z.to_nat r)
    (fun '(m', r) => 0 <= r <= n /\ r < Z.of_nat k /\ copied m m' (dest + r) (src + r) (n - r))
    (fun '(m, n) => if n >=? Z.of_nat k then let n := n - Z.of_nat k in m ← copy_k k m (dest + n) (src + n); Some (inl (m, n)) else Some (inr (m, n)))
    (S (Z.to_nat n)) (m, n)) as ([m' r] & E & Hr & Hk' & Hc).
  - split; [lia|]. rewrite Z.sub_diag. apply copied_0.
  - lia.
  - intros [m1 r] [Hr Hc]. rewrite Z.geb_leb. destruct (Z.leb_spec (Z.of_nat k) r); cbv zeta.
    + left. destruct (copy_k_moves k m1 (dest + (r - Z.of_nat k)) (src + (r - Z.of_nat k))) as (m2 & -> & Hc2).
      { eapply copied_rest; [exact Hc|exact Hm|lia..]. }
      simpl. eexists. split; [done|]. split; [|lia]. split; [lia|].
      replace (n - (r - Z.of_nat k)) with (Z.of_nat k + (n - r)) by lia. eapply copied_down; [..|exact Hc2]; [lia..|].
      by replace (dest + (r - Z.of_nat k) + Z.of_nat k) with (dest + r) by lia; replace (src + (r - Z.of_nat k) + Z.of_nat k) with (src + r) by lia.
    + right. by eexists.
  - exists m', r. split_and!; done || lia.
Qed.

Lemma copy_back_vec_spec m dest src n :
  0 <= n -> both_mapped m dest src n -> src <= dest ->
  exists m', copy_back_vec m dest src n = Some m' /\ copied m m' dest src n.
Proof.
  intros Hn Hm Hsafe. unfold copy_back_vec.
  destruct (back_loop_spec 16 m dest src n ltac:(lia) Hn Hm Hsafe) as (m1 & r & -> & Hr & _ & H1). simpl.
  destruct (back_loop_spec 1 m1 dest src r) as (m2 & r2 & -> & Hr2 & Hk2 & H2); [lia|lia| |done|].
  { rewrite <- (Z.add_0_r dest), <- (Z.add_0_r src). eapply copied_rest; [exact H1|exact Hm|lia..]. }
  simpl. exists m2. split; [done|]. assert (r2 = 0) as -> by lia. rewrite !Z.add_0_r, Z.sub_0_r in H2.
  replace n with (r + (n - r)) by lia. eapply copied_down; [..|exact H1|exact H2]; lia.
Qed.

Lemma move_back_simd_spec m dest src n :
  0 <= n -> both_mapped m dest src n -> src <= dest ->
  exists m', move_back_simd m dest src n = Some m' /\ copied m m' dest src n.
Proof.
  intros Hn Hm Hsafe. unfold move_back_simd.
  apply (loop_total (fun '(m', r) => 0 <= r <= n /\ copied m m' (dest + r) (src + r) (n - r)) (fun '(_, r) => Z.to_nat r)
    (fun m' => copied m m' dest src n)).
  - split; [lia|]. rewrite Z.sub_diag. apply copied_0.
  - lia.
  - intros [m1 r] [Hr Hc]. rewrite Z.gtb_ltb. destruct (Z.ltb_spec 0 r).
    + left. set (chunk := if r <? SIMD_CHUNK then r else SIMD_CHUNK). cbv zeta.
      assert (Hch : 0 < chunk <= r) by (unfold chunk, SIMD_CHUNK; case_if; lia).
      destruct (copy_back_vec_spec m1 (dest + (r - chunk)) (src + (r - chunk)) chunk) as (m2 & -> & Hc2); [lia| |lia|].
      { eapply copied_rest; [exact Hc|exact Hm|lia..]. }
      simpl. eexists. split; [done|]. split; [|lia]. split; [lia|].
      replace (n - (r - chunk)) with (chunk + (n - r)) by lia. eapply copied_down; [..|exact Hc2]; [lia..|].
      by replace (dest + (r - chunk) + chunk) with (dest + r) by lia; replace (src + (r - chunk) + chunk) with (src + r) by lia.
    + right. exists m1. split; [done|]. assert (r = 0) as -> by lia. by rewrite !Z.add_0_r, Z.sub_0_r in Hc.
Qed.

Lemma rep_movs_spec w count : forall m dest src, let n := Z.of_nat w * Z.of_nat count in
  both_mapped m dest src n -> dest <= src \/ src + n <= dest ->
  exists m', rep_movs w count m dest src = Some (m', dest + n, src + n) /\ copied m m' dest src n.
Proof.
  induction count as [|count IH]; intros m dest src n Hm Hsafe.
  - exists m. unfold n. rewrite Z.mul_0_r, !Z.add_0_r. split; [done|apply copied_0].
  - assert (Hn : n = Z.of_nat w + Z.of_nat w * Z.of_nat count) by (unfold n; lia). cbn [rep_movs].
    destruct (copy_k_moves w m dest src) as (m1 & -> & H1).
    { rewrite <- (Z.add_0_r dest), <- (Z.add_0_r src). eapply copied_rest0; [apply copied_0|exact Hm|lia..]. }
    cbn [mbind option_bind]. destruct (IH m1 (dest + Z.of_nat w) (src + Z.of_nat w)) as (m2 & -> & H2).
    { eapply copied_rest0; [exact H1|exact Hm|lia..]. }
    { lia. }
    exists m2. rewrite Hn, !Z.add_assoc. split; [done|]. eapply copied_up; [..|exact H1|exact H2]; lia.
Qed.

(** [n >> 3] words and [n & 7] bytes are [n] bytes. *)
Lemma words_and_bytes n : 0 <= n -> 0 <= n ≫ 3 /\ 0 <= Z.land n 7 /\ n = 8 * (n ≫ 3) + Z.land n 7.
Proof.
  intros Hn. change 7 with (Z.ones 3). rewrite Z.land_ones, Z.shiftr_div_pow2 by lia. change (2 ^ 3) with 8. zlia.
Qed.

(** [memcpy] copies apart blocks, and blocks that overlap with [dest] below [src]. *)
Lemma memcpy_copies m dest src n :
  0 <= n -> both_mapped m dest src n -> dest <= src \/ src + n <= dest ->
  exists m', memcpy m dest src n = Some (dest, m') /\ copied m m' dest src n.
Proof.
  intros Hn Hm Hsafe. unfold memcpy. destruct (n >=? SIMD_MIN).
  - destruct (copy_simd_spec m dest src n Hn Hm Hsafe) as (m' & -> & Hc). by exists m'.
  - cbv zeta. destruct (words_and_bytes n Hn) as (Hq & Hb & Hsum). set (q := n ≫ 3) in *. set (b := Z.land n 7) in *.
    destruct (rep_movs_spec 8 (Z.to_nat q) m dest src) as (m1 & -> & H1).
    { rewrite <- (Z.add_0_r dest), <- (Z.add_0_r src). eapply copied_rest0; [apply copied_0|exact Hm|lia..]. }
    { lia. }
    simpl mbind. destruct (rep_movs_spec 1 (Z.to_nat b) m1 (dest + 8 * q) (src + 8 * q)) as (m2 & E2 & H2).
    { eapply copied_rest0; [exact H1|exact Hm|lia..]. }
    { lia. }
    replace (Z.of_nat 8 * Z.of_nat (Z.to_nat q)) with (8 * q) in * by lia. rewrite E2. exists m2. split; [done|].
    replace (Z.of_nat 1 * Z.of_nat (Z.to_nat b)) with b in * by lia. rewrite Hsum. eapply copied_up; [..|exact H1|exact H2]; lia.
Qed.

Lemma memmove_copies m dest src n :
  0 <= n -> both_mapped m dest src n -> exists m', memmove m dest src n = Some (dest, m') /\ copied m m' dest src n.
Proof.
  intros Hn Hm. unfold memmove. destruct ((dest <=? src) || (dest >=? src + n)) eqn:E.
  - apply memcpy_copies; [done..|]. bool_prop. destruct E; bool_prop; lia.
  - bool_prop. destruct (move_back_simd_spec m dest src n Hn Hm) as (m' & -> & Hc); [lia|]. by exists m'.
Qed.

(** ** Fills *)

Definition filled (m m' : mem) (a n c : Z) : Prop := patched m m' a n (fun _ => Some c).

Definition fills (k c : Z) (put : mem -> Z -> option mem) : Prop :=
  forall m a, mapped m a k -> exists m', put m a = Some m' /\ filled m m' a k c.

Lemma filled_mapped m m' a n c x k : filled m m' a n c -> mapped m x k -> mapped m' x k.
Proof.
  intros Hc Hm y Hy. destruct (decide (a <= y < a + n)) as [Hin|Hout].
  - by rewrite (patched_in _ _ _ _ _ _ Hc Hin).
  - rewrite (patched_out _ _ _ _ _ _ Hc Hout). by apply Hm.
Qed.

Lemma filled_0 m a c : filled m m a 0 c.
Proof. apply patched_intro; intros x Hx; [lia|done]. Qed.

Lemma filled_up m m1 m2 a k j c :
  0 <= k -> 0 <= j -> filled m m1 a k c -> filled m1 m2 (a + k) j c -> filled m m2 a (k + j) c.
Proof.
  intros Hk Hj H1 H2. apply patched_intro; intros x Hx.
  - destruct (decide (a + k <= x)); [by rewrite (patched_in _ _ _ _ _ x H2) by lia|].
    by rewrite (patched_out _ _ _ _ _ x H2), (patched_in _ _ _ _ _ x H1) by lia.
  - by rewrite (patched_out _ _ _ _ _ x H2), (patched_out _ _ _ _ _ x H1) by lia.
Qed.

Lemma store_replicate k c : fills (Z.of_nat k) c (fun m a => store_n m a (replicate k c)).
Proof.
  intros m a Hm. destruct (store_n_spec (replicate k c) m a) as (m' & -> & Hp); [by rewrite length_replicate|].
  exists m'. split; [done|]. rewrite length_replicate in Hp. apply patched_intro; intros x Hx.
  - rewrite (patched_in _ _ _ _ _ x Hp) by lia. by rewrite lookup_replicate_2 by lia.
  - by rewrite (patched_out _ _ _ _ _ x Hp) by lia.
Qed.

Lemma fill_loop_spec k c put m a n :
  0 < k -> fills k c put -> 0 <= n -> mapped m a n ->
  exists m' j, fill_loop k put m a n = Some (m', a + j, n - j) /\ 0 <= j <= n /\ n - j < k /\ filled m m' a j c.
Proof.
  intros Hk Hput Hn Hm. unfold fill_loop.
  destruct (loop_total (fun '(m', d, r) => exists j, d = a + j /\ r = n - j /\ 0 <= j <= n /\ filled m m' a j c)
    (fun '(_, _, r) => Z.to_nat r) (fun '(m', d, r) => exists j, d = a + j /\ r = n - j /\ 0 <= j <= n /\ r < k /\ filled m m' a j c)
    (fun '(m, dest, n) => if n >=? k then m ← put m dest; Some (inl (m, dest + k, n - k)) else Some (inr (m, dest, n)))
    (S (Z.to_nat n)) (m, a, n)) as ([[m' d] r] & E & j & -> & -> & Hj & Hr & Hc).
  - exists 0. split_and!; try lia. apply filled_0.
  - lia.
  - intros [[m1 d] r] (j & -> & -> & Hj & Hc). rewrite Z.geb_leb. destruct (Z.leb_spec k (n - j)).
    + left. destruct (Hput m1 (a + j)) as (m2 & -> & Hc2).
      { eapply filled_mapped; [exact Hc|]. eapply mapped_sub; [exact Hm|lia..]. }
      simpl. eexists. split; [done|]. split; [|lia]. exists (j + k). split_and!; try lia. eapply filled_up; [..|exact Hc|exact Hc2]; lia.
    + right. eexists. split; [done|]. exists j. split_and!; done || lia.
  - exists m', j. split_and!; done || lia.
Qed.

Lemma fill_vec_spec m a c n : 0 <= n -> mapped m a n -> exists m', fill_vec m a c n = Some m' /\ filled m m' a n c.
Proof.
  intros Hn Hm. unfold fill_vec. cbv zeta.
  assert (Hrest : forall m1 j, filled m m1 a j c -> 0 <= j <= n -> mapped m1 (a + j) (n - j)).
  { intros m1 j Hc Hj. eapply filled_mapped; [exact Hc|]. eapply mapped_sub; [exact Hm|lia..]. }
  assert (H128 : fills 128 c (fun m a => store_vecs m a (replicate 8 (replicate 16 c)))).
  { intros m1 a1 Hm1. rewrite store_vecs_concat by (apply Forall_replicate; done). by apply (store_replicate 128). }
  assert (H1 : fills 1 c (fun m a => store m a c)).
  { intros m1 a1 Hm1. destruct (store_replicate 1 c m1 a1 Hm1) as (m' & E & Hf). exists m'. split; [|done].
    rewrite <- E. simpl. by destruct (store m1 a1 c). }
  destruct (fill_loop_spec 128 c _ m a n ltac:(lia) H128 Hn Hm) as (m1 & j1 & -> & Hj1 & _ & F1). simpl.
  destruct (fill_loop_spec 16 c _ m1 (a + j1) (n - j1) ltac:(lia) (store_replicate 16 c) ltac:(lia) (Hrest _ _ F1 Hj1)) as (m2 & j2 & E2 & Hj2 & _ & F2).
  simpl in E2. rewrite E2. simpl. pose proof (filled_up m m1 m2 a j1 j2 c ltac:(lia) ltac:(lia) F1 F2) as F12.
  rewrite <- !Z.add_assoc, <- Z.sub_add_distr.
  destruct (fill_loop_spec 1 c _ m2 (a + (j1 + j2)) (n - (j1 + j2)) ltac:(lia) H1 ltac:(lia) (Hrest _ _ F12 ltac:(lia))) as (m3 & j3 & -> & Hj3 & Hk3 & F3).
  simpl. exists m3. split; [done|]. replace n with (j1 + j2 + j3) by lia. eapply filled_up; [..|exact F12|exact F3]; lia.
Qed.

Lemma fill_simd_spec m a c n : 0 <= n -> mapped m a n -> exists m', fill_simd m a c n = Some m' /\ filled m m' a n c.
Proof.
  intros Hn Hm. unfold fill_simd.
  apply (loop_total (fun '(m', d, r) => exists j, d = a + j /\ r = n - j /\ 0 <= j <= n /\ filled m m' a j c)
    (fun '(_, _, r) => Z.to_nat r) (fun m' => filled m m' a n c)).
  - exists 0. split_and!; try lia. apply filled_0.
  - lia.
  - intros [[m1 d] r] (j & -> & -> & Hj & Hc). rewrite Z.gtb_ltb. destruct (Z.ltb_spec 0 (n - j)).
    + left. set (chunk := if n - j <? SIMD_CHUNK then n - j else SIMD_CHUNK).
      assert (Hch : 0 < chunk <= n - j) by (unfold chunk, SIMD_CHUNK; case_if; lia).
      destruct (fill_vec_spec m1 (a + j) c chunk) as (m2 & -> & Hc2); [lia| |].
      { eapply filled_mapped; [exact Hc|]. eapply mapped_sub; [exact Hm|lia..]. }
      simpl. eexists. split; [done|]. split; [|lia]. exists (j + chunk). split_and!; try lia. eapply filled_up; [..|exact Hc|exact Hc2]; lia.
    + right. exists m1. split; [done|]. by replace n with j by lia.
Qed.

Lemma fill_word c : 0 <= c < 256 -> word_bytes (c *w 0x0101010101010101) = replicate 8 c.
Proof.
  intros Hc. rewrite wrap64_small by lia. replace (c * 0x0101010101010101) with (bytes_word (replicate 8 c)) by (cbn [replicate bytes_word foldr]; lia).
  apply word_bytes_word; [done|]. apply Forall_replicate. exact Hc.
Qed.

Lemma rep_stos_spec w count fill c : take w (word_bytes fill) = replicate w c -> forall m a,
  mapped m a (Z.of_nat w * Z.of_nat count) ->
  exists m', rep_stos w count m a fill = Some (m', a + Z.of_nat w * Z.of_nat count) /\ filled m m' a (Z.of_nat w * Z.of_nat count) c.
Proof.
  intros Hfill. induction count as [|count IH]; intros m a Hm.
  - exists m. rewrite Z.mul_0_r, Z.add_0_r. split; [done|apply filled_0].
  - replace (Z.of_nat w * Z.of_nat (S count)) with (Z.of_nat w + Z.of_nat w * Z.of_nat count) in * by lia. cbn [rep_stos].
    rewrite Hfill. destruct (store_replicate w c m a) as (m1 & E & H1); [eapply mapped_sub; [exact Hm|lia..]|].
    simpl in E. rewrite E. cbn [mbind option_bind]. destruct (IH m1 (a + Z.of_nat w)) as (m2 & -> & H2).
    { eapply filled_mapped; [exact H1|]. eapply mapped_sub; [exact Hm|lia..]. }
    exists m2. rewrite Z.add_assoc. split; [done|]. eapply filled_up; [..|exact H1|exact H2]; lia.
Qed.

Lemma memset_fills m s c n : 0 <= n -> mapped m s n -> exists m', memset m s c n = Some (s, m') /\ filled m m' s n (c `mod` 256).
Proof.
  intros Hn Hm. unfold memset. cbv zeta. set (b := c `mod` 256). assert (Hb : 0 <= b < 256) by (apply Z.mod_pos_bound; lia). destruct (n >=? SIMD_MIN).
  - destruct (fill_simd_spec m s b n Hn Hm) as (m' & -> & Hc). by exists m'.
  - destruct (words_and_bytes n Hn) as (Hq & Hr & Hsum). set (q := n ≫ 3) in *. set (r := Z.land n 7) in *.
    destruct (rep_stos_spec 8 (Z.to_nat q) (b *w 0x0101010101010101) b) with (m := m) (a := s) as (m1 & -> & H1).
    { by rewrite fill_word. }
    { eapply mapped_sub; [exact Hm|lia..]. }
    simpl mbind. replace (Z.of_nat 8 * Z.of_nat (Z.to_nat q)) with (8 * q) in * by lia.
    destruct (rep_stos_spec 1 (Z.to_nat r) (b *w 0x0101010101010101) b) with (m := m1) (a := s + 8 * q) as (m2 & E2 & H2).
    { by rewrite fill_word. }
    { eapply filled_mapped; [exact H1|]. eapply mapped_sub; [exact Hm|lia..]. }
    rewrite E2. exists m2. split; [done|].
    replace (Z.of_nat 1 * Z.of_nat (Z.to_nat r)) with r in * by lia. rewrite Hsum. eapply filled_up; [..|exact H1|exact H2]; lia.
Qed.

(** C32. [memmove] puts the bytes that were at [src] to [dest], however the two overlap, and changes no
    other byte; it reads and writes nothing else.  Its wide loops, its chunks and its two directions are
    equivalent to a copy of all bytes at once. *)
Theorem memmove_moves m dest src n :
  0 <= n -> mapped m dest n -> mapped m src n ->
  exists m', memmove m dest src n = Some (dest, m') /\
    forall x, m' !! x = if (dest <=? x) && (x <? dest + n) then m !! (src + (x - dest)) else m !! x.
Proof. intros Hn Hd Hs. by apply memmove_copies. Qed.

(** ** Examples *)

Lemma mapped_check m a n : forallb (fun x => bool_decide (is_Some (m !! x))) (seqZ a n) = true -> mapped m a n.
Proof.
  intros Hall x Hx. rewrite forallb_forall in Hall. specialize (Hall x). rewrite <- list_elem_of_In, elem_of_seqZ in Hall.
  specialize (Hall ltac:(lia)). by apply bool_decide_eq_true in Hall.
Qed.

(** 1300 bytes from address 100 on. *)
Definition move_mem : mem := list_to_map (map (fun i => (100 + i, i `mod` 251)) (seqZ 0 1300)).

(** 1100 bytes that overlap with their destination, moved in both directions. *)
Example moved_up : (fun r => load_n r.2 110 8) <$> memmove move_mem 110 100 1100 = Some (Some [0; 1; 2; 3; 4; 5; 6; 7]).
Proof. by vm_compute. Qed.

Example moved_down : (fun r => load_n r.2 100 8) <$> memmove move_mem 100 110 1100 = Some (Some [10; 11; 12; 13; 14; 15; 16; 17]).
Proof. by vm_compute. Qed.

Lemma memmove_moves_witness :
  exists m', memmove move_mem 110 100 1100 = Some (110, m') /\
    forall x, m' !! x = if (110 <=? x) && (x <? 110 + 1100) then move_mem !! (100 + (x - 110)) else move_mem !! x.
Proof. apply (memmove_moves move_mem 110 100 1100); [lia|apply mapped_check; vm_compute; reflexivity..]. Defined.
