(* ===== verification/Strings.v ===== *)
(** * The C library: strings, tokens and numbers

    The string functions against lists of bytes, the tokens of [strtok_r] against a split of the
    string, and the digits of [utoa_base] against the number they stand for. *)

From S2P Require Import Prelude Bytes Heap Klibc KlibcProofs.

(** ** Strings *)

(** The terminated string [l] at [s]. *)
Fixpoint cstr (m : mem) (s : Z) (l : list Z) : Prop :=
  match l with
  | [] => m !! s = Some 0
  | b :: l => m !! s = Some b /\ b <> 0 /\ cstr m (s + 1) l
  end.

Lemma cstr_frame m m' l : forall s, (forall x, s <= x <= s + Z.of_nat (length l) -> m' !! x = m !! x) -> cstr m s l -> cstr m' s l.
Proof.
  induction l as [|b l IH]; intros s Hx; simpl in *; [rewrite Hx by lia; done|]. intros (Hb & Hnz & Hl).
  split_and!; [rewrite Hx by lia; done|done|]. apply IH; [|done]. intros x Hr. apply Hx. lia.
Qed.

Lemma cstr_mapped m l : forall s, cstr m s l -> mapped m s (Z.of_nat (length l) + 1).
Proof.
  induction l as [|b l IH]; intros s Hs x Hx; simpl in *.
  - assert (x = s) as -> by lia. by rewrite Hs.
  - destruct Hs as (Hb & _ & Hl). destruct (decide (x = s)) as [->|Hne]; [by rewrite Hb|]. apply (IH (s + 1) Hl). lia.
Qed.

Lemma cstr_app m l1 l2 : forall s, cstr m s (l1 ++ l2) -> cstr m (s + Z.of_nat (length l1)) l2.
Proof.
  induction l1 as [|b l1 IH]; intros s Hs; [by rewrite Z.add_0_r|]. destruct Hs as (_ & _ & Hl). cbn [length].
  replace (s + Z.of_nat (S (length l1))) with (s + 1 + Z.of_nat (length l1)) by lia. by apply IH.
Qed.

Lemma cstr_lookup m l i b : forall s, cstr m s l -> l !! i = Some b -> m !! (s + Z.of_nat i) = Some b /\ b <> 0.
Proof.
  revert i. induction l as [|c l IH]; intros i s Hs Hi; [done|]. destruct Hs as (Hc & Hnz & Hl). destruct i as [|i]; simpl in Hi.
  - simplify_eq. by rewrite Z.add_0_r.
  - destruct (IH i (s + 1) Hl Hi) as [Hm Hb]. split; [|done]. rewrite <- Hm. f_equal. lia.
Qed.

Lemma cstr_end m l s : cstr m s l -> m !! (s + Z.of_nat (length l)) = Some 0.
Proof. intros Hs. rewrite <- (app_nil_r l) in Hs. by apply cstr_app in Hs. Qed.

Lemma cstr_intro m l : forall s, (forall i b, l !! i = Some b -> m !! (s + Z.of_nat i) = Some b /\ b <> 0) ->
  m !! (s + Z.of_nat (length l)) = Some 0 -> cstr m s l.
Proof.
  induction l as [|b l IH]; intros s Hl He; [by rewrite Z.add_0_r in He|]. destruct (Hl 0%nat b eq_refl) as [Hb Hnz]. rewrite Z.add_0_r in Hb.
  split_and!; [done|done|]. apply IH.
  - intros i c Hi. destruct (Hl (S i) c Hi) as [Hm Hc]. split; [|done]. rewrite <- Hm. f_equal. lia.
  - rewrite <- He. f_equal. simpl. lia.
Qed.

(** A string is shorter than memory: the fuel of the loops over strings. *)
Lemma mapped_size m a n : mapped m a n -> n <= Z.of_nat (size m).
Proof.
  intros Hm. destruct (decide (0 <= n)) as [Hn|]; [|lia].
  assert (Hsub : list_to_set (seqZ a n) ⊆ dom m).
  { intros x Hx%elem_of_list_to_set%elem_of_seqZ. apply elem_of_dom, Hm. lia. }
  apply subseteq_size in Hsub. rewrite size_dom, size_list_to_set, length_seqZ in Hsub by apply NoDup_seqZ. lia.
Qed.

Lemma cstr_fuel m s l : cstr m s l -> (length l < S (size m))%nat.
Proof. intros Hs%cstr_mapped%mapped_size. lia. Qed.

(** The rule of the loops that walk a string [l], and leave behind a prefix that is stepped over. *)
Lemma walk_string {S R : Type} (at_ : nat -> S) (l : list Z) (j : nat) body fuel s0 (r : R) :
  s0 = at_ 0%nat -> (j <= length l)%nat -> (length l < fuel)%nat ->
  (forall i b, (i < j)%nat -> l !! i = Some b -> body (at_ i) = Some (inl (at_ (Datatypes.S i)))) ->
  body (at_ j) = Some (inr r) -> loop fuel body s0 = Some r.
Proof.
  intros -> Hj Hf Hgo Hend. cut (forall i, (i <= j)%nat -> forall f, (j - i < f)%nat -> loop f body (at_ i) = Some r); [intros H; apply H; lia|].
  intros i Hi f Hlt. remember (j - i)%nat as k eqn:Ek. revert i f Hi Hlt Ek. induction k as [|k IH]; intros i f Hi Hlt Ek; (destruct f as [|f]; [lia|]); simpl.
  - assert (i = j) as -> by lia. by rewrite Hend.
  - destruct (lookup_lt_is_Some_2 l i ltac:(lia)) as [b Hb]. rewrite (Hgo i b ltac:(lia) Hb). simpl. apply IH; lia.
Qed.

Lemma strlen_spec m s l : s <> 0 -> cstr m s l -> strlen m s = Some (Z.of_nat (length l)).
Proof.
  intros Hnz Hs. unfold strlen. rewrite (proj2 (Z.eqb_neq s 0) Hnz).
  apply (walk_string (fun i => (s + Z.of_nat i, Z.of_nat i)) l (length l)); [f_equal; lia|lia|by eapply cstr_fuel|..].
  - intros i b _ Hi. destruct (cstr_lookup _ _ _ _ _ Hs Hi) as [-> Hb]. simpl. rewrite (proj2 (Z.eqb_neq b 0) Hb). simpl. do 3 f_equal; lia.
  - rewrite (cstr_end _ _ _ Hs). done.
Qed.

Lemma eqb_false x y : x <> y -> (x =? y) = false.
Proof. apply Z.eqb_neq. Qed.

(** ** Comparing *)

(** The order of [strcmp]: that of the first characters that differ, as signed numbers, where a
    string ends with the character 0. *)
Fixpoint str_order (l1 l2 : list Z) : Z :=
  let order b1 b2 := if b1 =? b2 then 0 else if char_of b1 <? char_of b2 then -1 else 1 in
  match l1, l2 with
  | b1 :: l1, b2 :: l2 => if b1 =? b2 then str_order l1 l2 else order b1 b2
  | [], b2 :: _ => order 0 b2
  | b1 :: _, [] => order b1 0
  | [], [] => 0
  end.

Lemma char_of_inj b1 b2 : 0 <= b1 < 256 -> 0 <= b2 < 256 -> char_of b1 = char_of b2 -> b1 = b2.
Proof. intros ??. unfold char_of. repeat case_if; lia. Qed.

Lemma strcmp_spec m l1 : forall l2 s1 s2, cstr m s1 l1 -> cstr m s2 l2 -> strcmp m s1 s2 = Some (str_order l1 l2).
Proof.
  intros l2 s1 s2 H1 H2. unfold strcmp. set (body := fun '(s1, s2) => _ : option (Z * Z + Z * Z)). pose proof (cstr_fuel _ _ _ H1) as Hf. revert Hf.
  generalize (S (size m)) as fuel. revert l2 s1 s2 H1 H2. induction l1 as [|b1 l1 IH]; intros l2 s1 s2 H1 H2 [|fuel] Hf; try (simpl in Hf; lia); simpl loop.
  - unfold body at 1. simpl in H1. rewrite H1. cbn [mbind option_bind]. rewrite Z.eqb_refl. destruct l2 as [|b2 l2]; [simpl in H2; rewrite H2; done|].
    destruct H2 as (H2 & Hb & _). rewrite H2. cbn [mbind option_bind negb andb str_order]. by rewrite (eqb_false 0 b2) by done.
  - destruct H1 as (Hb1 & Hnz1 & H1). unfold body at 1. rewrite Hb1. simpl. rewrite (eqb_false b1 0) by done. destruct l2 as [|b2 l2].
    + simpl in H2. rewrite H2. simpl. by rewrite (eqb_false b1 0) by done.
    + destruct H2 as (Hb2 & Hnz2 & H2). rewrite Hb2. simpl. rewrite (eqb_false b2 0) by done. simpl. destruct (b1 =? b2) eqn:E; simpl.
      * apply IH; [done|done|simpl in Hf; lia].
      * by rewrite E.
Qed.

(** It is 0 exactly for equal strings. *)
Lemma str_order_eq l1 : forall l2, Forall (fun b => b <> 0) l1 -> Forall (fun b => b <> 0) l2 -> str_order l1 l2 = 0 <-> l1 = l2.
Proof.
  induction l1 as [|b1 l1 IH]; intros [|b2 l2] H1 H2; cbn [str_order]; try done.
  - inversion H2 as [|?? Hb _]; subst. rewrite eqb_false by done. destruct (char_of 0 <? char_of b2); done.
  - inversion H1 as [|?? Hb _]; subst. rewrite eqb_false by done. destruct (char_of b1 <? char_of 0); done.
  - inversion H1; inversion H2; subst. destruct (Z.eqb_spec b1 b2) as [->|Hne].
    + rewrite IH by done. split; [by intros ->|by intros [= ->]].
    + destruct (char_of b1 <? char_of b2); (split; [done|by intros [= ? ?]]).
Qed.

(** [memcmp]: the order of the first bytes that differ, as unsigned numbers. *)
Lemma memcmp_spec m s1 s2 n l1 l2 :
  length l1 = n -> length l2 = n -> (forall i b, l1 !! i = Some b -> m !! (s1 + Z.of_nat i) = Some b) ->
  (forall i b, l2 !! i = Some b -> m !! (s2 + Z.of_nat i) = Some b) ->
  memcmp m s1 s2 (Z.of_nat n) =
  Some (match list_find (fun p => p.1 <> p.2) (zip l1 l2) with Some (_, (b1, b2)) => if b1 <? b2 then -1 else 1 | None => 0 end).
Proof.
  intros Hn1 Hn2 H1 H2. unfold memcmp. rewrite Nat2Z.id.
  assert (Hzip : length (zip l1 l2) = n) by (rewrite length_zip; lia).
  assert (Hstep : forall i b1 b2, zip l1 l2 !! i = Some (b1, b2) -> Z.of_nat i < Z.of_nat n /\ m !! (s1 + Z.of_nat i) = Some b1 /\ m !! (s2 + Z.of_nat i) = Some b2).
  { intros i b1 b2 Hi. pose proof (lookup_lt_Some _ _ _ Hi). apply lookup_zip_with_Some in Hi as (x & y & [= -> ->] & Hx & Hy). split_and!; [lia|by apply H1|by apply H2]. }
  destruct (list_find _ _) as [[j [b1 b2]]|] eqn:E.
  - apply list_find_Some in E as (Hj & Hne & Hfirst). pose proof (lookup_lt_Some _ _ _ Hj).
    apply (walk_string (fun i => Z.of_nat i) l1 j); [done|lia|lia|..].
    + intros i x Hi Hx. destruct (lookup_lt_is_Some_2 (zip l1 l2) i ltac:(lia)) as [[c1 c2] Hc]. destruct (Hstep _ _ _ Hc) as (Hlt & -> & ->).
      rewrite (proj2 (Z.ltb_lt _ _) Hlt). cbn [mbind option_bind]. destruct (decide (c1 = c2)) as [->|Hne']; [|by destruct (Hfirst i _ Hc Hi)].
      rewrite Z.eqb_refl. simpl. do 2 f_equal. lia.
    + destruct (Hstep _ _ _ Hj) as (Hlt & -> & ->). rewrite (proj2 (Z.ltb_lt _ _) Hlt). cbn [mbind option_bind]. by rewrite eqb_false by done.
  - apply list_find_None in E. apply (walk_string (fun i => Z.of_nat i) l1 n); [done|lia|lia|..].
    + intros i x Hi Hx. destruct (lookup_lt_is_Some_2 (zip l1 l2) i ltac:(lia)) as [[c1 c2] Hc]. destruct (Hstep _ _ _ Hc) as (Hlt & -> & ->).
      rewrite (proj2 (Z.ltb_lt _ _) Hlt). cbn [mbind option_bind]. pose proof (Forall_lookup_1 _ _ _ _ E Hc) as Heq. simpl in Heq.
      destruct (Z.eqb_spec c1 c2); [|done]. simpl. do 2 f_equal. lia.
    + by rewrite Z.ltb_irrefl.
Qed.

Lemma strnlen_spec m s l n : s <> 0 -> 0 <= n -> cstr m s l -> strnlen m s n = Some (Z.min n (Z.of_nat (length l))).
Proof.
  intros Hnz Hn Hs. unfold strnlen. rewrite eqb_false by done. set (j := (Z.to_nat n `min` length l)%nat).
  replace (Z.min n (Z.of_nat (length l))) with (Z.of_nat j) by lia. apply (walk_string (fun i => Z.of_nat i) (take j l) j); [done|rewrite length_take; lia..| |].
  - intros i b Hi Hb. rewrite lookup_take_lt in Hb by done. rewrite (proj2 (Z.ltb_lt _ _)) by lia. destruct (cstr_lookup _ _ _ _ _ Hs Hb) as [-> Hbz].
    simpl. rewrite eqb_false by done. simpl. do 2 f_equal. lia.
  - destruct (Z.ltb_spec (Z.of_nat j) n); [|done]. replace j with (length l) by lia. by rewrite (cstr_end _ _ _ Hs).
Qed.

(** ** Copying *)

Lemma store_some m a b : is_Some (m !! a) -> store m a b = Some (<[a := b]> m).
Proof. intros [c Hc]. unfold store. by rewrite Hc. Qed.

(** The string at [src] is at [d] too, when the two do not overlap. *)
Lemma copy_string_spec l : forall m d src fuel,
  cstr m src l -> mapped m d (Z.of_nat (length l) + 1) -> d + Z.of_nat (length l) < src \/ src + Z.of_nat (length l) < d -> (length l < fuel)%nat ->
  exists m', loop fuel (fun '(m, d, src) =>
    b ← m !! src;
    if negb (b =? 0) then m ← store m d b; Some (inl (m, d + 1, src + 1)) else m ← store m d 0; Some (inr m)) (m, d, src) = Some m' /\
    cstr m' d l /\ forall x, ~ d <= x <= d + Z.of_nat (length l) -> m' !! x = m !! x.
Proof.
  induction l as [|b l IH]; intros m d src fuel Hs Hd Hsep Hf; (destruct fuel as [|fuel]; [lia|]); simpl loop; simpl length in *.
  - simpl in Hs. rewrite Hs. simpl. rewrite store_some by (apply Hd; lia). simpl. eexists. split; [done|]. split; [apply lookup_insert_eq|].
    intros x Hx. apply lookup_insert_ne. lia.
  - destruct Hs as (Hb & Hnz & Hl). rewrite Hb. simpl. rewrite eqb_false by done. simpl. rewrite store_some by (apply Hd; lia). simpl.
    destruct (IH (<[d := b]> m) (d + 1) (src + 1) fuel) as (m' & -> & Hc & Hrest).
    + eapply cstr_frame; [|exact Hl]. intros x Hx. apply lookup_insert_ne. lia.
    + intros x Hx. destruct (decide (x = d)) as [->|]; [by rewrite lookup_insert_eq|]. rewrite lookup_insert_ne by done. apply Hd. lia.
    + lia.
    + lia.
    + exists m'. split; [done|]. split.
      * simpl. split_and!; [|done|done]. rewrite Hrest by lia. apply lookup_insert_eq.
      * intros x Hx. rewrite Hrest by lia. apply lookup_insert_ne. lia.
Qed.

Lemma strcpy_copies m dest src l :
  cstr m src l -> mapped m dest (Z.of_nat (length l) + 1) -> dest + Z.of_nat (length l) < src \/ src + Z.of_nat (length l) < dest ->
  exists m', strcpy m dest src = Some (dest, m') /\ cstr m' dest l /\ forall x, ~ dest <= x <= dest + Z.of_nat (length l) -> m' !! x = m !! x.
Proof.
  intros Hs Hd Hsep. unfold strcpy, copy_string. destruct (copy_string_spec l m dest src (S (size m)) Hs Hd Hsep (cstr_fuel _ _ _ Hs)) as (m' & -> & Hc). by exists m'.
Qed.

Lemma strcat_appends m dest src l1 l2 :
  let n := Z.of_nat (length l1) + Z.of_nat (length l2) in
  cstr m dest l1 -> cstr m src l2 -> mapped m dest (n + 1) -> dest + n < src \/ src + Z.of_nat (length l2) < dest ->
  exists m', strcat m dest src = Some (dest, m') /\ cstr m' dest (l1 ++ l2) /\ forall x, ~ dest <= x <= dest + n -> m' !! x = m !! x.
Proof.
  intros n H1 H2 Hd Hsep. unfold strcat.
  rewrite (walk_string (fun i => dest + Z.of_nat i) l1 (length l1) _ _ _ (dest + Z.of_nat (length l1))); [|lia|lia|by eapply cstr_fuel|..].
  - simpl mbind. unfold copy_string.
    destruct (copy_string_spec l2 m (dest + Z.of_nat (length l1)) src (S (size m)) H2) as (m' & -> & Hc & Hrest); [|lia|by eapply cstr_fuel|].
    { eapply mapped_sub; [exact Hd|lia..]. }
    exists m'. split; [done|]. split; [|intros x Hx; apply Hrest; lia]. apply cstr_intro.
    + intros i b Hi. destruct (decide (i < length l1)%nat) as [Hlt|Hge].
      * rewrite lookup_app_l in Hi by done. rewrite Hrest by lia. by eapply cstr_lookup.
      * rewrite lookup_app_r in Hi by lia. destruct (cstr_lookup _ _ _ _ _ Hc Hi) as [Hb Hnz]. split; [|done]. rewrite <- Hb. f_equal. lia.
    + rewrite length_app. rewrite <- (cstr_end _ _ _ Hc). f_equal. lia.
  - intros i b Hi Hl. destruct (cstr_lookup _ _ _ _ _ H1 Hl) as [-> Hb]. simpl. rewrite eqb_false by done. simpl. do 2 f_equal. lia.
  - rewrite (cstr_end _ _ _ H1). done.
Qed.

(** [strchr]: the first place of the character, which is not looked for in the terminator. *)
Lemma strchr_finds m s l c : s <> 0 -> cstr m s l -> let b := c `mod` 256 in
  strchr m s c = Some (match list_find (fun x => x = b) l with Some (i, _) => s + Z.of_nat i | None => 0 end).
Proof.
  intros Hnz Hs b. unfold strchr. fold b. destruct (list_find (fun x => x = b) l) as [[i y]|] eqn:E.
  - apply list_find_Some in E as (Hi & -> & Hfirst). apply (walk_string (fun i => s + Z.of_nat i) l i); [lia|apply lookup_lt_Some in Hi; lia|by eapply cstr_fuel|..].
    + intros j x Hj Hx. destruct (cstr_lookup _ _ _ _ _ Hs Hx) as [-> Hxz]. simpl. rewrite eqb_false by done.
      rewrite (eqb_false x b) by (intros ->; by apply (Hfirst j b Hx Hj)). do 2 f_equal. lia.
    + destruct (cstr_lookup _ _ _ _ _ Hs Hi) as [-> Hb]. simpl. by rewrite eqb_false, Z.eqb_refl by done.
  - apply list_find_None in E. apply (walk_string (fun i => s + Z.of_nat i) l (length l)); [lia|lia|by eapply cstr_fuel|..].
    + intros j x Hj Hx. destruct (cstr_lookup _ _ _ _ _ Hs Hx) as [-> Hxz]. simpl. rewrite eqb_false by done.
      rewrite (eqb_false x b); [do 2 f_equal; lia|]. eapply (Forall_lookup_1 _ _ _ _ E Hx).
    + rewrite (cstr_end _ _ _ Hs). done.
Qed.

(** [strdup]: no memory, or a copy of the string in a new block. *)
Lemma strdup_copies `{HH : Heap H} m (h : H) s l copy h' :
  s <> 0 -> cstr m s l -> Z.of_nat (length l) + 1 < 2 ^ 64 -> kmalloc (Z.of_nat (length l) + 1) h = (copy, h') ->
  (copy <> 0 -> mapped m copy (Z.of_nat (length l) + 1) /\ (copy + Z.of_nat (length l) < s \/ s + Z.of_nat (length l) < copy)) ->
  exists m', strdup m h s = Some (copy, m', h') /\ (copy = 0 -> m' = m) /\ (copy <> 0 -> cstr m' copy l /\ cstr m' s l).
Proof.
  intros Hs Hl Hlen E Hroom. unfold strdup. rewrite eqb_false, (strlen_spec m s l) by done. cbn [mbind option_bind]. rewrite wrap64_small by lia. rewrite E.
  destruct (Z.eqb_spec copy 0) as [->|Hne]; [by exists m|]. destruct (Hroom Hne) as [Hm Hap].
  destruct (memcpy_copies m copy s (Z.of_nat (length l))) as (m1 & -> & Hc); [lia| |lia|].
  { split; [eapply mapped_sub; [exact Hm|lia..]|]. eapply mapped_sub; [by apply cstr_mapped|lia..]. }
  cbn [mbind option_bind]. rewrite store_some by (rewrite (patched_out _ _ _ _ _ _ Hc) by lia; apply Hm; lia). cbn [mbind option_bind].
  eexists. split; [done|]. split; [done|]. intros _. split.
  - apply cstr_intro; [|apply lookup_insert_eq]. intros i b Hi. pose proof (lookup_lt_Some _ _ _ Hi). rewrite lookup_insert_ne by lia.
    rewrite (patched_in _ _ _ _ _ _ Hc) by lia. destruct (cstr_lookup _ _ _ _ _ Hl Hi) as [Hb Hnz]. split; [|done]. rewrite <- Hb. f_equal. lia.
  - eapply cstr_frame; [|exact Hl]. intros x Hx. rewrite lookup_insert_ne by lia. apply (patched_out _ _ _ _ _ _ Hc). lia.
Qed.

(** ** Tokens *)

(** A string split at the delimiters, without the empty pieces; [cur] is the piece so far. *)
Fixpoint split (ds cur l : list Z) : list (list Z) :=
  match l with
  | [] => match cur with [] => [] | _ => [cur] end
  | b :: l =>
    if bool_decide (b ∈ ds) then match cur with [] => split ds [] l | _ => cur :: split ds [] l end
    else split ds (cur ++ [b]) l
  end.

Lemma split_skip (ds pre l : list Z) : Forall (fun b => b ∈ ds) pre -> split ds [] (pre ++ l) = split ds [] l.
Proof. induction 1 as [|b pre Hb _ IH]; [done|]. simpl. by rewrite bool_decide_true. Qed.

Lemma split_token (ds t l : list Z) : Forall (fun b => b ∉ ds) t -> forall cur, split ds cur (t ++ l) = split ds (cur ++ t) l.
Proof.
  induction 1 as [|b t Hb _ IH]; intros cur; [by rewrite app_nil_r|]. simpl. rewrite bool_decide_false by done. rewrite IH. by rewrite <- app_assoc.
Qed.

Lemma split_next ds t d l : t <> [] -> Forall (fun b => b ∉ ds) t -> d ∈ ds -> split ds [] (t ++ d :: l) = t :: split ds [] l.
Proof. intros Ht Hall Hd. rewrite split_token by done. simpl. rewrite bool_decide_true by done. by destruct t. Qed.

Lemma split_last ds t : t <> [] -> Forall (fun b => b ∉ ds) t -> split ds [] t = [t].
Proof. intros Ht Hall. rewrite <- (app_nil_r t) at 1. rewrite split_token by done. simpl. by destruct t. Qed.

(** Every string is delimiters, then a token that ends with the string or before a delimiter. *)
Lemma token_cases (ds l : list Z) :
  exists pre rest, l = pre ++ rest /\ Forall (fun b => b ∈ ds) pre /\
    (rest = [] \/ exists t tail, rest = t ++ tail /\ t <> [] /\ Forall (fun b => b ∉ ds) t /\ (tail = [] \/ exists d l', tail = d :: l' /\ d ∈ ds)).
Proof.
  induction l as [|b l (pre & rest & -> & Hpre & Hrest)].
  - exists [], []. split_and!; [done|constructor|by left].
  - destruct (decide (b ∈ ds)) as [Hb|Hb].
    + exists (b :: pre), rest. split_and!; [done|by constructor|done].
    + exists [], (b :: pre ++ rest). split_and!; [done|constructor|]. right. destruct pre as [|d pre].
      * destruct Hrest as [->|(t & tail & -> & Ht & Hall & Htail)].
        -- exists [b], []. split_and!; [done|done|by repeat constructor|by left].
        -- exists (b :: t), tail. split_and!; [done|done|by constructor|done].
      * inversion Hpre; subst. exists [b], (d :: pre ++ rest). split_and!; [done|done|by repeat constructor|]. right. by exists d, (pre ++ rest).
Qed.

Lemma in_delims_spec m b delim ds : cstr m delim ds -> in_delims m b delim = Some (bool_decide (b ∈ ds)).
Proof.
  intros Hd. unfold in_delims. destruct (decide (b ∈ ds)) as [Hin|Hout].
  - rewrite bool_decide_true by done. destruct (list_find (fun x => x = b) ds) as [[i y]|] eqn:E.
    + apply list_find_Some in E as (Hi & -> & Hfirst).
      apply (walk_string (fun i => delim + Z.of_nat i) ds i); [lia|apply lookup_lt_Some in Hi; lia|by eapply cstr_fuel|..].
      * intros j x Hj Hx. destruct (cstr_lookup _ _ _ _ _ Hd Hx) as [-> Hxz]. simpl. rewrite eqb_false by done. simpl.
        rewrite (eqb_false b x) by (intros <-; by apply (Hfirst j b Hx Hj)). do 2 f_equal. lia.
      * destruct (cstr_lookup _ _ _ _ _ Hd Hi) as [-> Hb]. simpl. rewrite eqb_false by done. simpl. by rewrite Z.eqb_refl.
    + apply list_find_None in E. exfalso. apply list_elem_of_lookup in Hin as [i Hi]. by apply (Forall_lookup_1 _ _ _ _ E Hi).
  - rewrite bool_decide_false by done. apply (walk_string (fun i => delim + Z.of_nat i) ds (length ds)); [lia|lia|by eapply cstr_fuel|..].
    + intros j x Hj Hx. destruct (cstr_lookup _ _ _ _ _ Hd Hx) as [-> Hxz]. simpl. rewrite eqb_false by done. simpl.
      rewrite (eqb_false b x); [do 2 f_equal; lia|]. intros ->. apply Hout. by eapply list_elem_of_lookup_2.
    + rewrite (cstr_end _ _ _ Hd). done.
Qed.

Lemma skip_delims_spec m s delim ds pre rest :
  cstr m delim ds -> cstr m s (pre ++ rest) -> Forall (fun b => b ∈ ds) pre -> (forall b r, rest = b :: r -> b ∉ ds) ->
  skip_delims m s delim = Some (s + Z.of_nat (length pre)).
Proof.
  intros Hd Hs Hpre Hrest. unfold skip_delims.
  apply (walk_string (fun i => s + Z.of_nat i) (pre ++ rest) (length pre)); [lia|rewrite length_app; lia|by eapply cstr_fuel|..].
  - intros i b Hi Hb. destruct (cstr_lookup _ _ _ _ _ Hs Hb) as [-> Hnz]. simpl. rewrite eqb_false by done. simpl.
    rewrite (in_delims_spec _ _ _ ds Hd). simpl. rewrite lookup_app_l in Hb by done. rewrite bool_decide_true by (eapply (Forall_lookup_1 _ _ _ _ Hpre Hb)).
    simpl. do 2 f_equal. lia.
  - apply cstr_app in Hs. destruct rest as [|b r]; [simpl in Hs; rewrite Hs; done|]. destruct Hs as (-> & Hnz & _). simpl. rewrite eqb_false by done. simpl.
    rewrite (in_delims_spec _ _ _ ds Hd). simpl. by rewrite bool_decide_false by (by eapply Hrest).
Qed.

Lemma end_token_spec m s delim ds t tail :
  cstr m delim ds -> cstr m s (t ++ tail) -> Forall (fun b => b ∉ ds) t -> (forall b r, tail = b :: r -> b ∈ ds) ->
  let e := s + Z.of_nat (length t) in end_token m s delim = Some (match tail with [] => (0, m) | _ => (e + 1, <[e := 0]> m) end).
Proof.
  intros Hd Hs Ht Htail e. unfold end_token.
  apply (walk_string (fun i => s + Z.of_nat i) (t ++ tail) (length t)); [lia|rewrite length_app; lia|by eapply cstr_fuel|..].
  - intros i b Hi Hb. destruct (cstr_lookup _ _ _ _ _ Hs Hb) as [-> Hnz]. simpl. rewrite eqb_false by done. simpl.
    rewrite (in_delims_spec _ _ _ ds Hd). simpl. rewrite lookup_app_l in Hb by done. rewrite bool_decide_false by (eapply (Forall_lookup_1 _ _ _ _ Ht Hb)).
    do 2 f_equal. lia.
  - apply cstr_app in Hs. fold e in Hs |- *. destruct tail as [|b r]; [simpl in Hs; rewrite Hs; done|]. destruct Hs as (Hb & Hnz & _). rewrite Hb. simpl.
    rewrite eqb_false by done. simpl. rewrite (in_delims_spec _ _ _ ds Hd). simpl. rewrite bool_decide_true by (by eapply Htail). rewrite store_some by (by exists b). done.
Qed.

(** The bytes from [p] to [p + n] and the delimiters do not overlap. *)
Definition apart (p n delim : Z) (ds : list Z) : Prop := p + n < delim \/ delim + Z.of_nat (length ds) < p.

Lemma strtok_r_stop m s save delim : (if s =? 0 then save else s) = 0 -> strtok_r m s delim save = Some (0, save, m).
Proof. intros Hp. unfold strtok_r. rewrite Hp. done. Qed.

Lemma strtok_r_none m s save delim ds p l :
  (if s =? 0 then save else s) = p -> 0 < p -> cstr m delim ds -> cstr m p l -> Forall (fun b => b ∈ ds) l -> strtok_r m s delim save = Some (0, 0, m).
Proof.
  intros Hp Hpos Hd Hs Hl. unfold strtok_r. rewrite Hp, eqb_false by lia.
  rewrite (skip_delims_spec m p delim ds l []); [|done|by rewrite app_nil_r|done|done]. simpl. by rewrite (cstr_end _ _ _ Hs).
Qed.

Lemma strtok_r_token m s save delim ds p pre t tail :
  (if s =? 0 then save else s) = p -> 0 < p -> cstr m delim ds -> cstr m p (pre ++ t ++ tail) -> Forall (fun b => b ∈ ds) pre -> t <> [] ->
  Forall (fun b => b ∉ ds) t -> (forall b r, tail = b :: r -> b ∈ ds) ->
  let q := p + Z.of_nat (length pre) in let e := q + Z.of_nat (length t) in
  strtok_r m s delim save = Some (match tail with [] => (q, 0, m) | _ => (q, e + 1, <[e := 0]> m) end).
Proof.
  intros Hp Hpos Hd Hs Hpre Hne Ht Htail q e. unfold strtok_r. rewrite Hp, eqb_false by lia.
  rewrite (skip_delims_spec m p delim ds pre (t ++ tail)); [|done|done|done|].
  2: { intros b r E. destruct t as [|c t]; [done|]. simplify_eq/=. by inversion Ht. }
  cbn [mbind option_bind]. fold q. apply cstr_app in Hs. fold q in Hs. pose proof (end_token_spec m q delim ds t tail Hd Hs Ht Htail) as He.
  destruct t as [|c t]; [done|]. destruct Hs as (Hc & Hnz & _). rewrite Hc. cbn [mbind option_bind]. rewrite eqb_false by done. rewrite He. by destruct tail.
Qed.

(** From the pointer [p] on, the tokens are those of the string at [p]. *)
Lemma tokens_from ds delim n : forall m l p s save fuel,
  (length l <= n)%nat -> (length l < fuel)%nat -> (if s =? 0 then save else s) = p -> 0 < p ->
  cstr m p l -> cstr m delim ds -> apart p (Z.of_nat (length l)) delim ds ->
  exists ts m', all_tokens fuel m s delim save = Some (ts, m') /\ Forall2 (cstr m') ts (split ds [] l) /\
    forall x, ~ p <= x <= p + Z.of_nat (length l) -> m' !! x = m !! x.
Proof.
  induction n as [|n IH]; intros m l p s save fuel Hn Hf Hp Hpos Hl Hd Hap; (destruct fuel as [|fuel]; [lia|]); cbn [all_tokens].
  { destruct l; [|simpl in Hn; lia]. rewrite (strtok_r_none m s save delim ds p []) by done. simpl. exists [], m. by split_and!. }
  destruct (token_cases ds l) as (pre & rest & -> & Hpre & [->|(t & tail & -> & Hne & Ht & Htail)]).
  { rewrite app_nil_r in *. rewrite (strtok_r_none m s save delim ds p pre) by done. exists [], m. rewrite <- (app_nil_r pre), split_skip by done. by split_and!. }
  rewrite (strtok_r_token m s save delim ds p pre t tail); [|done|lia|done..|]; [|by intros b r ->; destruct Htail as [|(?&?&?&?)]; simplify_eq].
  set (q := p + Z.of_nat (length pre)). set (e := q + Z.of_nat (length t)).
  rewrite split_skip by done. pose proof (cstr_app _ _ _ _ Hl) as Hq. fold q in Hq. rewrite !length_app in *.
  assert (Hlen : (0 < length t)%nat) by (destruct t; [done|simpl; lia]).
  destruct Htail as [->|(d & l' & -> & Hdel)]; cbn [mbind option_bind]; rewrite eqb_false by lia.
  - destruct fuel as [|fuel]; [simpl in Hf; lia|]. cbn [all_tokens]. rewrite strtok_r_stop by done. simpl. exists [q], m.
    rewrite app_nil_r in *. rewrite split_last by done. split_and!; [done|by repeat constructor|done].
  - simpl length in *. pose proof (cstr_app _ _ _ _ Hq) as He. fold e in He. destruct He as (_ & _ & Hl').
    destruct (IH (<[e := 0]> m) l' (e + 1) 0 (e + 1) fuel) as (ts & m' & -> & Hts & Hrest); [lia|lia|done|lia| | |unfold apart in *; lia|].
    { eapply cstr_frame; [|exact Hl']. intros x Hx. apply lookup_insert_ne. lia. }
    { eapply cstr_frame; [|exact Hd]. intros x Hx. apply lookup_insert_ne. unfold apart in Hap. lia. }
    exists (q :: ts), m'. simpl. split; [done|]. rewrite split_next by done. split.
    + constructor; [|done]. apply cstr_intro.
      * intros i b Hi. pose proof (lookup_lt_Some _ _ _ Hi). rewrite Hrest, lookup_insert_ne by lia.
        eapply cstr_lookup; [exact Hq|]. by rewrite lookup_app_l by done.
      * fold e. rewrite Hrest by lia. apply lookup_insert_eq.
    + intros x Hx. rewrite Hrest, lookup_insert_ne by lia. done.
Qed.

(** ** Numbers *)

Definition digit_value (c : Z) : Z := if c <? 58 then c - 48 else if c <? 97 then c - 55 else c - 87.

(** The number that digits stand for, the most significant one first. *)
Definition number (base : Z) (l : list Z) : Z := foldl (fun acc c => acc * base + digit_value c) 0 l.

Definition low_first (base : Z) (l : list Z) : Z := foldr (fun c acc => digit_value c + base * acc) 0 l.

(** A number with its sign. *)
Definition signed_number (l : list Z) : Z :=
  match l with
  | c :: l' => if c =? 45 then - number 10 l' else number 10 l
  | [] => 0
  end.

Lemma number_reverse base l : number base (reverse l) = low_first base l.
Proof.
  induction l as [|c l IH]; [done|]. unfold number in *. rewrite reverse_cons, foldl_app. simpl. rewrite IH. lia.
Qed.

Lemma digit_char_spec up d : 0 <= d < 16 -> exists c, digit_char up d = Some c /\ digit_value c = d /\ 48 <= c.
Proof.
  intros Hd. assert (Hall : forallb (fun d => match digit_char up d with Some c => (digit_value c =? d) && (48 <=? c) | None => false end) (seqZ 0 16) = true)
    by (destruct up; vm_compute; done).
  rewrite forallb_forall in Hall. specialize (Hall d). rewrite <- list_elem_of_In in Hall. rewrite elem_of_seqZ in Hall. specialize (Hall ltac:(lia)).
  destruct (digit_char up d) as [c|]; [|done]. bool_prop. by exists c.
Qed.

Lemma push_digit_spec buffer b : (length buffer <= 64)%nat -> push_digit buffer b = Some (buffer ++ [b]).
Proof. intros Hl. unfold push_digit. by rewrite (proj2 (Nat.ltb_lt _ _)) by lia. Qed.

Lemma loop_S {S R : Type} fuel (body : S -> option (S + R)) s :
  loop (Datatypes.S fuel) body s = next ← body s; match next with inl s => loop fuel body s | inr r => Some r end.
Proof. done. Qed.

(** A number below [2 ^ k] has at most [k] digits: the buffer is long enough. *)
Lemma digits_loop base up k : 2 <= base <= 16 -> forall value buffer,
  0 <= value < 2 ^ Z.of_nat k -> (length buffer + k <= 64)%nat ->
  exists bs, loop (S k) (fun '(value, buffer) =>
    if value >? 0 then
      if base =? 0 then None
      else
        c ← digit_char up (value `mod` wrap64 base);
        buffer ← push_digit buffer c;
        Some (inl (value / wrap64 base, buffer))
    else Some (inr buffer)) (value, buffer) = Some (buffer ++ bs) /\
    low_first base bs = value /\ Forall (fun c => 48 <= c) bs /\ (length bs <= k)%nat.
Proof.
  intros Hbase. assert (Hw : wrap64 base = base) by (apply wrap64_small; lia). rewrite Hw, (eqb_false base 0) by lia.
  set (body := fun '(value, buffer) => _ : option (Z * list Z + list Z)).
  induction k as [|k IH]; intros value buffer Hv Hl; rewrite loop_S; change (body (value, buffer)) with (if value >? 0 then c ← digit_char up (value `mod` base); buffer ← push_digit buffer c; Some (inl (value / base, buffer)) else @Some (Z * list Z + list Z) (inr buffer)); rewrite Z.gtb_ltb; destruct (Z.ltb_spec 0 value) as [Hpos|Hle]; [lia|..].
  - exists []. rewrite app_nil_r. split_and!; [done|simpl; lia|constructor|done].
  - destruct (digit_char_spec up (value `mod` base)) as (c & -> & Hc & Hge); [pose proof (Z.mod_pos_bound value base); lia|].
    cbn [mbind option_bind]. rewrite push_digit_spec by lia. cbn [mbind option_bind].
    destruct (IH (value / base) (buffer ++ [c])) as (bs & -> & Hlow & Hall & Hlen); [|rewrite length_app; simpl; lia|].
    { rewrite Nat2Z.inj_succ, Z.pow_succ_r in Hv by lia. pose proof (Z.pow_pos_nonneg 2 (Z.of_nat k)).
      pose proof (Z.mul_le_mono_nonneg_r 2 base (2 ^ Z.of_nat k)). split; [apply Z.div_pos; lia|]. apply Z.div_lt_upper_bound; lia. }
    exists (c :: bs). rewrite <- app_assoc. split_and!; [done| |by constructor|simpl; lia].
    simpl. rewrite Hlow, Hc. pose proof (Z.div_mod value base). lia.
  - exists []. rewrite app_nil_r. split_and!; [done|simpl; lia|constructor|simpl; lia].
Qed.

Lemma digits_of_spec value base up : 0 <= value < 2 ^ 64 -> 2 <= base <= 16 ->
  exists bs, digits_of value base up = Some bs /\ low_first base bs = value /\ Forall (fun c => 48 <= c) bs /\ (length bs <= 64)%nat.
Proof.
  intros Hv Hb. unfold digits_of. destruct (Z.eqb_spec value 0) as [->|Hne].
  - exists [48]. rewrite push_digit_spec by (simpl; lia). split_and!; [done|unfold low_first, digit_value; simpl; lia|by repeat constructor|simpl; lia].
  - destruct (digits_loop base up 64 Hb value []) as (bs & E & Hbs); [exact Hv|simpl; lia|]. exists bs. by rewrite E.
Qed.

Section Printing.

Context {H : Type} `{HH : Heap H}.

(** What the heap does for a caller of one or two allocations of a number's length: blocks are mapped, and
    the second is apart from the first. *)
Definition roomy (m : mem) (h : H) : Prop :=
  forall n p h', kmalloc n h = (p, h') -> 0 < n <= 66 -> p <> 0 -> mapped m p n /\
    forall n2 p2 h2, kmalloc n2 h' = (p2, h2) -> 0 < n2 <= 66 -> p2 <> 0 -> mapped m p2 n2 /\ (p + n <= p2 \/ p2 + n2 <= p).

Lemma kmalloc_new n (h : H) p h' :
  heap_ok h -> kmalloc n h = (p, h') -> 0 < n -> heap_ok h' /\ live h' = block p ∪ live h /\ block p ## live h /\ (p = 0 \/ 0 < p).
Proof. intros Hok E Hn. by apply (kmalloc_block n). Qed.

Lemma store_string m a l :
  Forall (fun c => c <> 0) l -> mapped m a (Z.of_nat (length l) + 1) ->
  exists m', (m ← store_n m a l; store m (a + Z.of_nat (length l)) 0) = Some m' /\ cstr m' a l /\
    forall x, ~ a <= x <= a + Z.of_nat (length l) -> m' !! x = m !! x.
Proof.
  intros Hl Hm. destruct (store_n_spec l m a) as (m1 & -> & Hp); [eapply mapped_sub; [exact Hm|lia..]|]. cbn [mbind option_bind].
  rewrite store_some by (rewrite (patched_out _ _ _ _ _ _ Hp) by lia; apply Hm; lia). eexists. split; [done|]. split.
  - apply cstr_intro; [|apply lookup_insert_eq]. intros i b Hi. pose proof (lookup_lt_Some _ _ _ Hi). rewrite lookup_insert_ne by lia.
    rewrite (patched_in _ _ _ _ _ _ Hp) by lia. split; [|by eapply (Forall_lookup_1 _ _ _ _ Hl Hi)]. rewrite <- Hi. f_equal. lia.
  - intros x Hx. rewrite lookup_insert_ne by lia. by rewrite (patched_out _ _ _ _ _ _ Hp) by lia.
Qed.

(** Printing in a base: no memory for it, or the digits of the number in a new block. *)
Lemma utoa_base_spec m h value base up :
  heap_ok h -> roomy m h -> 0 <= value < 2 ^ 64 -> 2 <= base <= 16 ->
  exists out m' h' n, kmalloc (n + 1) h = (out, h') /\ 0 <= n <= 64 /\ utoa_base m h value base up = Some (out, m', h') /\ (out = 0 \/ 0 < out) /\
    (out = 0 -> m' = m) /\ (out <> 0 -> exists l, cstr m' out l /\ Forall (fun c => 48 <= c) l /\ Z.of_nat (length l) = n /\ number base l = value /\
      forall x, ~ out <= x <= out + n -> m' !! x = m !! x).
Proof.
  intros Hok Hroom Hv Hb. unfold utoa_base. destruct (digits_of_spec value base up Hv Hb) as (bs & -> & Hlow & Hall & Hlen). cbn [mbind option_bind].
  rewrite push_digit_spec by lia. cbn [mbind option_bind]. destruct (kmalloc (Z.of_nat (length bs) + 1) h) as [out h'] eqn:E.
  destruct (kmalloc_new _ _ _ _ Hok E ltac:(lia)) as (_ & _ & _ & Hsign). destruct (Z.eqb_spec out 0) as [->|Hne].
  - exists 0, m, h', (Z.of_nat (length bs)). split_and!; [done|lia|lia|done|by left|done|by intros []].
  - destruct (Hroom _ _ _ E ltac:(lia) Hne) as [Hm _]. destruct (store_string m out (reverse bs)) as (m' & E' & Hc & Hrest).
    { apply Forall_reverse. apply (list.Forall_impl _ _ _ Hall). simpl. lia. }
    { by rewrite length_reverse. }
    rewrite length_reverse in *. destruct (store_n m out (reverse bs)); [|done]. cbn [mbind option_bind] in *. rewrite E'.
    exists out, m', h', (Z.of_nat (length bs)). split_and!; [done|lia|lia|done|done|lia|]. intros _. exists (reverse bs).
    split_and!; [done|by apply Forall_reverse|by rewrite length_reverse|by rewrite number_reverse|done].
Qed.

(** The copy of the digits with their terminator behind the sign. *)
Lemma shift_string m tmp out len l :
  cstr m tmp l -> len = Z.of_nat (length l) + 1 -> mapped m out (len + 1) -> tmp + len <= out \/ out + (len + 1) <= tmp -> m !! out = Some 45 ->
  exists m', loop (S (Z.to_nat len)) (fun '(m, i) =>
    if i <? len then b ← m !! (tmp + i); m ← store m (out + i + 1) b; Some (inl (m, i + 1)) else Some (inr m)) (m, 0) = Some m' /\
    cstr m' out (45 :: l).
Proof.
  intros Hl Hlen Hm Hap H45.
  assert (Hbyte : forall i, 0 <= i < len -> exists b, m !! (tmp + i) = Some b) by (intros i Hi; apply (cstr_mapped _ _ _ Hl); lia).
  destruct (loop_total (fun '(m', i) => 0 <= i <= len /\ copied m m' (out + 1) tmp i) (fun '(_, i) => Z.to_nat (len - i)) (fun m' => copied m m' (out + 1) tmp len)
    (fun '(m, i) => if i <? len then b ← m !! (tmp + i); m ← store m (out + i + 1) b; Some (inl (m, i + 1)) else Some (inr m))
    (S (Z.to_nat len)) (m, 0)) as (m' & -> & Hc).
  - split; [lia|apply copied_0].
  - lia.
  - intros [m1 i] [Hi Hc]. destruct (Z.ltb_spec i len).
    + left. rewrite (patched_out _ _ _ _ _ _ Hc) by lia. destruct (Hbyte i ltac:(lia)) as [b Hb]. rewrite Hb. cbn [mbind option_bind].
      rewrite store_some by (rewrite (patched_out _ _ _ _ _ _ Hc) by lia; apply Hm; lia). eexists. split; [done|]. split; [|lia]. split; [lia|].
      apply patched_intro; intros x Hx.
      * destruct (decide (x = out + i + 1)) as [->|]; [rewrite lookup_insert_eq, <- Hb; f_equal; lia|].
        rewrite lookup_insert_ne by done. apply (patched_in _ _ _ _ _ _ Hc). lia.
      * rewrite lookup_insert_ne by lia. apply (patched_out _ _ _ _ _ _ Hc). lia.
    + right. exists m1. split; [done|]. by replace len with i by lia.
  - exists m'. split; [done|]. split_and!; [rewrite (patched_out _ _ _ _ _ _ Hc) by lia; done|done|]. apply cstr_intro.
    + intros i b Hi. pose proof (lookup_lt_Some _ _ _ Hi). destruct (cstr_lookup _ _ _ _ _ Hl Hi) as [Hb Hnz]. split; [|done].
      rewrite (patched_in _ _ _ _ _ _ Hc) by lia. rewrite <- Hb. f_equal. lia.
    + rewrite (patched_in _ _ _ _ _ _ Hc) by lia. rewrite <- (cstr_end _ _ _ Hl). f_equal. lia.
Qed.

(** A result of [itoa_signed]: nothing allocated, or one new block with the number. *)
Definition printed (h : H) (value : Z) (r : Z * mem * H) : Prop :=
  let '(out, m', h') := r in
  heap_ok h' /\ live h' = block out ∪ live h /\ (out = 0 \/ exists l, cstr m' out l /\ signed_number l = value).

Lemma signed_digits l : Forall (fun c => 48 <= c) l -> signed_number l = number 10 l.
Proof. intros Hl. destruct l as [|c l]; [done|]. inversion Hl; subst. simpl signed_number. by rewrite eqb_false by lia. Qed.

Lemma itoa_negative m h value :
  heap_ok h -> roomy m h -> - 2 ^ 63 < value < 0 -> exists r, itoa_signed m h value = Some r /\ printed h value r.
Proof.
  intros Hok Hroom Hv. unfold itoa_signed. rewrite Z.geb_leb, (proj2 (Z.leb_gt 0 value)) by lia. rewrite wrap64_small by lia.
  destruct (utoa_base_spec m h (- value) 10 false Hok Hroom ltac:(lia) ltac:(lia)) as (tmp & m1 & h1 & n & E1 & Hn & -> & Hsign & _ & Hl). cbn [mbind option_bind].
  destruct (kmalloc_new _ _ _ _ Hok E1 ltac:(lia)) as (Hok1 & Hlive1 & Hfresh1 & _).
  destruct (Z.eqb_spec tmp 0) as [->|Hne]; [eexists; split; [done|]; split_and!; [done|done|by left]|].
  destruct (Hl Hne) as (l & Hc & Hdig & Hlen & Hnum & Hrest). destruct (Hroom _ _ _ E1 ltac:(lia) Hne) as [_ Hsecond].
  rewrite (walk_string (fun i => Z.of_nat i + 1) l (length l) _ _ _ (Z.of_nat (length l) + 1)); [|done|lia|by eapply cstr_fuel|..].
  2: { intros i b _ Hi. destruct (cstr_lookup _ _ _ _ _ Hc Hi) as [Hb Hnz]. replace (tmp + (Z.of_nat i + 1) - 1) with (tmp + Z.of_nat i) by lia.
       rewrite Hb. simpl. rewrite eqb_false by done. simpl. do 2 f_equal. lia. }
  2: { replace (tmp + (Z.of_nat (length l) + 1) - 1) with (tmp + Z.of_nat (length l)) by lia. by rewrite (cstr_end _ _ _ Hc). }
  cbn [mbind option_bind]. destruct (kmalloc (Z.of_nat (length l) + 1 + 1) h1) as [out h2] eqn:E2.
  destruct (kmalloc_new _ _ _ _ Hok1 E2 ltac:(lia)) as (Hok2 & Hlive2 & Hfresh2 & _).
  destruct (kfree_block tmp h2 Hok2) as [Hok3 Hlive3]; [rewrite Hlive2, Hlive1; set_solver|]. rewrite <- kfree_is_nonnull in Hok3, Hlive3 by done.
  assert (Hlive : live (kfree tmp h2) = block out ∪ live h) by (rewrite Hlive3, Hlive2, Hlive1 in *; set_solver).
  destruct (Z.eqb_spec out 0) as [->|Hne2]; [eexists; split; [done|]; split_and!; [done|done|by left]|].
  destruct (Hsecond _ _ _ E2 ltac:(lia) Hne2) as [Hm2 Hap].
  assert (Hm2' : mapped m1 out (n + 2)). { intros x Hx. rewrite Hrest by lia. apply Hm2. lia. }
  rewrite store_some by (apply Hm2'; lia). cbn [mbind option_bind].
  destruct (shift_string (<[out := 45]> m1) tmp out (Z.of_nat (length l) + 1) l) as (m2 & -> & Hc2); [| done| | |apply lookup_insert_eq|].
  { eapply cstr_frame; [|exact Hc]. intros x Hx. apply lookup_insert_ne. lia. }
  { intros x Hx. destruct (decide (x = out)) as [->|]; [by rewrite lookup_insert_eq|]. rewrite lookup_insert_ne by done. apply Hm2'. lia. }
  { lia. }
  eexists. split; [done|]. split_and!; [done|done|]. right. exists (45 :: l). split; [done|]. simpl. lia.
Qed.

Lemma itoa_nonneg m h value :
  heap_ok h -> roomy m h -> 0 <= value < 2 ^ 63 -> exists r, itoa_signed m h value = Some r /\ printed h value r.
Proof.
  intros Hok Hroom Hv. unfold itoa_signed. rewrite Z.geb_leb, (proj2 (Z.leb_le 0 value)) by lia. rewrite wrap64_small by lia.
  destruct (utoa_base_spec m h value 10 false Hok Hroom ltac:(lia) ltac:(lia)) as (out & m' & h' & n & E & Hn & -> & Hsign & _ & Hl).
  destruct (kmalloc_new _ _ _ _ Hok E ltac:(lia)) as (Hok1 & Hlive1 & _ & _). eexists. split; [done|]. split_and!; [done|done|].
  destruct (decide (out = 0)) as [|Hne]; [by left|]. destruct (Hl Hne) as (l & Hc & Hdig & _ & Hnum & _). right. exists l. split; [done|]. by rewrite signed_digits.
Qed.

(** C36. [itoa_signed] gives a result for every number but the smallest: [NULL] with everything it
    allocated freed, or one new block with a terminated string that reads as the number; the buffer of
    [utoa_base] never overflows. *)
Theorem itoa_roundtrip m h value :
  heap_ok h -> roomy m h -> - 2 ^ 63 < value < 2 ^ 63 -> exists r, itoa_signed m h value = Some r /\ printed h value r.
Proof. intros Hok Hroom Hv. destruct (decide (0 <= value)); [apply itoa_nonneg|apply itoa_negative]; done || lia. Qed.

End Printing.

(** C33. The tokens that repeated calls of [strtok_r] give are the pieces between delimiters, in
    order, without the empty ones: each call returns, the last one [NULL]; each token is terminated in place
    and still there after the last call, and no byte outside of the string changes. *)
Theorem strtok_splits m s l delim ds save :
  0 < s -> cstr m s l -> cstr m delim ds -> apart s (Z.of_nat (length l)) delim ds ->
  exists ts m', all_tokens (S (length l)) m s delim save = Some (ts, m') /\ Forall2 (cstr m') ts (split ds [] l) /\
    forall x, ~ s <= x <= s + Z.of_nat (length l) -> m' !! x = m !! x.
Proof.
  intros Hs Hl Hd Hap. apply (tokens_from ds delim (length l) m l s); try done; [lia|]. by rewrite eqb_false by lia.
Qed.

(** ** Examples *)

(** [bs] at the addresses from [a] on. *)
Definition text (a : Z) (bs : list Z) : mem := list_to_map (imap (fun i b => (a + Z.of_nat i, b)) bs).

(** The path of a program, [/bin//sh], and the delimiter [/]. *)
Definition path_mem : mem := text 100 [47; 98; 105; 110; 47; 47; 115; 104; 0] ∪ text 200 [47; 0].

Example path_tokens :
  (fst <$> all_tokens 9 path_mem 100 200 0) = Some [101; 106] /\ split [47] [] [47; 98; 105; 110; 47; 47; 115; 104] = [[98; 105; 110]; [115; 104]].
Proof. by vm_compute. Qed.

Lemma strtok_splits_witness :
  exists ts m', all_tokens 9 path_mem 100 200 0 = Some (ts, m') /\ Forall2 (cstr m') ts (split [47] [] [47; 98; 105; 110; 47; 47; 115; 104]) /\
    forall x, ~ 100 <= x <= 100 + 8 -> m' !! x = path_mem !! x.
Proof.
  apply (strtok_splits path_mem 100 [47; 98; 105; 110; 47; 47; 115; 104] 200 [47] 0); [lia| | |unfold apart; simpl; lia];
    repeat (split; [reflexivity|split; [lia|]]); reflexivity.
Defined.

(** A heap whose next block is at 1000, in memory that is mapped there. *)
Definition number_heap : counting_heap := {| ch_live := ∅; ch_next := 1000; ch_budget := 2 |}.

Definition number_mem : mem := text 1000 (replicate 200 0).

Lemma number_roomy : roomy number_mem number_heap.
Proof.
  assert (Hm : mapped number_mem 1000 200) by (apply mapped_check; vm_compute; reflexivity).
  intros n p h' E Hn _. simpl in E. unfold counting_kmalloc, number_heap in E. simpl in E. injection E as <- <-. split; [eapply mapped_sub; [exact Hm|lia..]|].
  intros n2 p2 h2 E2 Hn2 _. simpl in E2. unfold counting_kmalloc in E2. cbn [ch_budget ch_next] in E2. injection E2 as <- <-.
  split; [eapply mapped_sub; [exact Hm|lia..]|lia].
Qed.

Example prints_minus_42 : match itoa_signed number_mem number_heap (-42) with Some (out, m, h) => load_n m out 4 = Some [45; 52; 50; 0] /\ ch_live h = {[out]} | None => False end.
Proof. vm_compute. split; reflexivity. Qed.

Lemma itoa_roundtrip_witness : exists r, itoa_signed number_mem number_heap (-42) = Some r /\ printed number_heap (-42) r.
Proof.
  apply (itoa_roundtrip number_mem number_heap (-42)); [|exact number_roomy|lia]. split; [done|]. intros p Hp. exfalso. set_solver.
Defined.
