(* ===== verification/Random.v ===== *)
(** * Random numbers

    [kernel/src/random/random.c]: a pool of events, a ChaCha20 key that every block replaces, and the
    bytes given out.  The clocks and the random instructions of the processor are parameters, functions of how often
    the hardware was read ([reads]); an instruction the processor does not have faults ([None]).  The
    array [scratch] of [jitter_seed] only takes time and is left out. *)

From S2P Require Import Prelude Bytes.

Definition RANDOM_RESEED_MS : Z := 1000.

Definition RANDOM_JITTER_LOOPS : Z := 4096.

Definition rotl32 (v n : Z) : Z := Z.lor (wrap32 (v ≪ n)) (v ≫ (32 - n)).

(** ** The block function *)

Definition word (x : list Z) (i : nat) : Z := default 0 (x !! i).

(** [a += b]. *)
Definition qr_add (a b : nat) (x : list Z) : list Z := <[a := wrap32 (word x a + word x b)]> x.

(** [d ^= a; d = rotl32(d, n)]. *)
Definition qr_mix (d a : nat) (n : Z) (x : list Z) : list Z := <[d := rotl32 (Z.lxor (word x d) (word x a)) n]> x.

(** The macro [QR] on four words, its last step first. *)
Definition QR (a b c d : nat) (x : list Z) : list Z :=
  qr_mix b c 7 (qr_add c d (qr_mix d a 8 (qr_add a b (qr_mix b c 12 (qr_add c d (qr_mix d a 16 (qr_add a b x))))))).

(** One turn of the loop. *)
Definition double_round (x : list Z) : list Z :=
  QR 3 4 9 14 (QR 2 7 8 13 (QR 1 6 11 12 (QR 0 5 10 15 (QR 3 7 11 15 (QR 2 6 10 14 (QR 1 5 9 13 (QR 0 4 8 12 x))))))).

Definition chacha20_in (key : list Z) (counter nonce : Z) : list Z :=
  [0x61707865; 0x3320646e; 0x79622d32; 0x6b206574] ++ key ++
  [wrap32 counter; wrap32 (counter ≫ 32); wrap32 nonce; wrap32 (nonce ≫ 32)].

Definition chacha20_block (key : list Z) (counter nonce : Z) : list Z :=
  let input := chacha20_in key counter nonce in
  zip_with (fun x i => wrap32 (x + i)) (Nat.iter 10 double_round input) input.

(** ** The generator *)

Record crng := {
  crng_key : list Z;
  crng_counter : Z;
  pool : list Z;
  pool_at : nat;
  pool_events : Z;
  last_reseed : Z;
  keyed_secret : list Z;
  seeded : bool;
  have_hw : bool;
  reads : nat;
}.

Definition crng0 : crng :=
  {| crng_key := replicate 8 0; crng_counter := 0; pool := replicate 16 0; pool_at := 0; pool_events := 0; last_reseed := 0;
     keyed_secret := replicate 8 0; seeded := false; have_hw := false; reads := 0 |}.

Definition set_pool (s : crng) (p : list Z) (at_ : nat) (events : Z) : crng :=
  {| crng_key := crng_key s; crng_counter := crng_counter s; pool := p; pool_at := at_; pool_events := events; last_reseed := last_reseed s;
     keyed_secret := keyed_secret s; seeded := seeded s; have_hw := have_hw s; reads := reads s |}.

Definition set_key (s : crng) (k : list Z) (c : Z) : crng :=
  {| crng_key := k; crng_counter := c; pool := pool s; pool_at := pool_at s; pool_events := pool_events s; last_reseed := last_reseed s;
     keyed_secret := keyed_secret s; seeded := seeded s; have_hw := have_hw s; reads := reads s |}.

Definition set_reseeded (s : crng) (t : Z) : crng :=
  {| crng_key := crng_key s; crng_counter := crng_counter s; pool := pool s; pool_at := pool_at s; pool_events := pool_events s; last_reseed := t;
     keyed_secret := keyed_secret s; seeded := seeded s; have_hw := have_hw s; reads := reads s |}.

Definition set_secret (s : crng) (k : list Z) : crng :=
  {| crng_key := crng_key s; crng_counter := crng_counter s; pool := pool s; pool_at := pool_at s; pool_events := pool_events s; last_reseed := last_reseed s;
     keyed_secret := k; seeded := seeded s; have_hw := have_hw s; reads := reads s |}.

Definition set_mode (s : crng) (sd hw : bool) : crng :=
  {| crng_key := crng_key s; crng_counter := crng_counter s; pool := pool s; pool_at := pool_at s; pool_events := pool_events s; last_reseed := last_reseed s;
     keyed_secret := keyed_secret s; seeded := sd; have_hw := hw; reads := reads s |}.

Definition did_read (s : crng) : crng :=
  {| crng_key := crng_key s; crng_counter := crng_counter s; pool := pool s; pool_at := pool_at s; pool_events := pool_events s; last_reseed := last_reseed s;
     keyed_secret := keyed_secret s; seeded := seeded s; have_hw := have_hw s; reads := S (reads s) |}.

(** One byte into the pool: the [i]th of its data. *)
Definition mix_byte (i : nat) (b : Z) (s : crng) : crng :=
  let w := Z.lxor (word (pool s) (pool_at s)) (b ≪ (Z.of_nat (i mod 4) * 8)) in
  let p := <[pool_at s := wrap32 (rotl32 w 7 + word (pool s) ((pool_at s + 7) mod 16))]> (pool s) in
  set_pool s p (if (i mod 4 =? 3)%nat then ((pool_at s + 1) mod 16)%nat else pool_at s) (pool_events s).

Definition pool_mix_locked (data : list Z) (s : crng) : crng :=
  let s := foldl (fun s '(i, b) => mix_byte i b s) s (imap pair data) in
  set_pool s (pool s) (pool_at s) (wrap32 (pool_events s + 1)).

Definition random_add (data : list Z) (s : crng) : crng := pool_mix_locked data s.

(** The bytes of 32-bit words. *)
Definition words_bytes (ws : list Z) : list Z := concat ((fun w => take 4 (word_bytes w)) <$> ws).

Section Random.

Context (rdtsc_at hpet_at : nat -> Z) (rdseed_at rdrand_at : nat -> option Z) (has_rdseed has_rdrand : bool).

Definition rdtsc (s : crng) : Z * crng := (rdtsc_at (reads s), did_read s).

Definition hpet_read_counter (s : crng) : Z * crng := (hpet_at (reads s), did_read s).

(** [tries] executions of an instruction that says whether it gave a value. *)
Fixpoint try_hw (tries : nat) (insn : nat -> option Z) (s : crng) : option Z * crng :=
  match tries with
  | O => (None, s)
  | S tries =>
    match insn (reads s) with
    | Some v => (Some v, did_read s)
    | None => try_hw tries insn (did_read s)
    end
  end.

Definition rdseed64 (s : crng) : option (option Z * crng) := if has_rdseed then Some (try_hw 32 rdseed_at s) else None.

Definition rdrand64 (s : crng) : option (option Z * crng) := if has_rdrand then Some (try_hw 10 rdrand_at s) else None.

(** [rdseed64(&hw) || rdrand64(&hw)]. *)
Definition hw_word (s : crng) : option (option Z * crng) :=
  '(v, s) ← rdseed64 s;
  match v with
  | Some v => Some (Some v, s)
  | None => rdrand64 s
  end.

Definition reseed_locked (s : crng) : option crng :=
  let mixed := (fun i => Z.lxor (Z.lxor (word (crng_key s) i) (word (pool s) i)) (rotl32 (word (pool s) (i + 8)) 13)) <$> seq 0 8 in
  let '(t, s) := rdtsc s in
  let extra := Z.lxor t (Z.lor (word (pool s) 3 ≪ 32) (word (pool s) 11)) in
  '(extra, s) ←
    (if have_hw s then
       '(hw, s) ← hw_word s;
       Some (match hw with Some v => Z.lxor extra v | None => extra end, s)
     else Some (extra, s));
  let c := crng_counter s +w 1 in
  let out := chacha20_block mixed c extra in
  Some (set_pool (set_key s (take 8 out) c) (replicate 16 0) (pool_at s) 0).

(** One turn of [jitter_seed]; [last] is the clock of the turn before. *)
Definition jitter_turn (ls : Z * crng) : Z * crng :=
  let '(last, s) := ls in
  let '(now, s) := rdtsc s in
  let delta := wrap32 (now - last) in
  (now, pool_mix_locked (take 4 (word_bytes delta)) s).

Definition jitter_seed (s : crng) : crng :=
  let '(last, s) := rdtsc s in
  snd (Nat.iter (Z.to_nat RANDOM_JITTER_LOOPS) jitter_turn (last, s)).

(** The clocks of an early start. *)
Definition mix_clocks (s : crng) : crng :=
  let '(t, s) := rdtsc s in
  let '(p, s) := hpet_read_counter s in
  pool_mix_locked (word_bytes t ++ word_bytes p) s.

(** One of the 16 turns of [random_init] over the hardware words. *)
Definition init_word (hs : Z * crng) : option (Z * crng) :=
  let '(hw_words, s) := hs in
  '(v, s) ← (if has_rdseed then rdseed64 s else Some (None, s));
  '(v, s) ← match v with
            | Some v => Some (Some v, s)
            | None => if has_rdrand then rdrand64 s else Some (None, s)
            end;
  match v with
  | Some v => Some (hw_words + 1, pool_mix_locked (word_bytes v) s)
  | None => Some (hw_words, s)
  end.

Fixpoint init_words (n : nat) (hs : Z * crng) : option (Z * crng) :=
  match n with
  | O => Some hs
  | S n => hs ← init_word hs; init_words n hs
  end.

Definition random_init (s : crng) : option crng :=
  '(hw_words, s) ← init_words 16 (0, s);
  let s := set_mode s (seeded s) (hw_words >? 0) in
  let s := jitter_seed (mix_clocks s) in
  s ← reseed_locked s;
  let s := set_mode s true (have_hw s) in
  let '(t, s) := rdtsc s in
  let s := set_reseeded s t in
  let c := crng_counter s +w 1 in
  let out := chacha20_block (crng_key s) c 0x5345435245540000 in
  Some (set_secret (set_key s (crng_key s) c) (take 8 out)).

Definition random_has_hw (s : crng) : bool := have_hw s.

Definition random_add_timing (tag : Z) (s : crng) : crng :=
  let '(t, s) := rdtsc s in
  random_add (words_bytes [Z.lxor (wrap32 t) tag; wrap32 (t ≫ 32)]) s.

Definition reseed_cycles : Z := RANDOM_RESEED_MS *w 1000000.

(** The loop over blocks: 32 bytes out of each, the other 32 are the next key. *)
Fixpoint get_blocks (fuel : nat) (len : Z) (p : list Z) (s : crng) : option (list Z * crng) :=
  match fuel with
  | O => None
  | S fuel =>
    if len =? 0 then Some (p, s)
    else
      let c := crng_counter s +w 1 in
      let out := chacha20_block (crng_key s) c 0 in
      let s := set_key s (take 8 out) c in
      let n := if len <? 32 then len else 32 in
      get_blocks fuel (len - n) (p ++ take (Z.to_nat n) (drop 32 (words_bytes out))) s
  end.

Definition random_get_bytes (len : Z) (s : crng) : option (list Z * crng) :=
  s ←
    (if negb (seeded s) then reseed_locked (mix_clocks s)
     else if pool_events s =? 0 then Some s
     else
       let '(t, s) := rdtsc s in
       if t -w last_reseed s >? reseed_cycles then
         s ← reseed_locked s;
         let '(t, s) := rdtsc s in
         Some (set_reseeded s t)
       else Some s);
  get_blocks (S (Z.to_nat len)) len [] s.

Definition random_u32 (s : crng) : option (Z * crng) := '(bs, s) ← random_get_bytes 4 s; Some (bytes_word bs, s).

Definition random_u64 (s : crng) : option (Z * crng) := '(bs, s) ← random_get_bytes 8 s; Some (bytes_word bs, s).

Definition random_keyed32 (words : list Z) (s : crng) : Z :=
  let out := chacha20_block (keyed_secret s) (Z.lor (word words 0) (word words 1 ≪ 32)) (Z.lor (word words 2) (word words 3 ≪ 32)) in
  Z.lxor (word out 0) (word out 7).

(** What the rest of the kernel asks of the generator. *)
Inductive random_op :=
| RInit
| RAdd (data : list Z)
| RAddTiming (tag : Z)
| RGet (len : Z).

Definition random_exec (o : random_op) (s : crng) : option (list Z * crng) :=
  match o with
  | RInit => s ← random_init s; Some ([], s)
  | RAdd data => Some ([], random_add data s)
  | RAddTiming tag => Some ([], random_add_timing tag s)
  | RGet len => random_get_bytes len s
  end.

(** All bytes given out by a sequence of calls. *)
Fixpoint random_run (ops : list random_op) (s : crng) : option (list (list Z) * crng) :=
  match ops with
  | [] => Some ([], s)
  | o :: ops =>
    '(bs, s) ← random_exec o s;
    '(out, s) ← random_run ops s;
    Some (bs :: out, s)
  end.

End Random.

(** The block of the all-zero key, of the published test vectors of the cipher. *)
Example chacha20_vector :
  take 8 (chacha20_block (replicate 8 0) 0 0) =
  [0xade0b876; 0x903df1a0; 0xe56a5d40; 0x28bd8653; 0xb819d2bd; 0x1aed8da0; 0xccef36a8; 0xc70d778b].
Proof. vm_compute. reflexivity. Qed.
