(* ===== verification/RandomProofs.v ===== *)
(** * Random numbers: every call returns what was asked for

    The generator's words stay words of 32 bits, in arrays of their length, through any calls; the
    only calls that do not return are those of a processor with one of the random instructions but not the other, once that one gave a number. *)

From S2P Require Import Prelude Bytes Random.

Definition u32 (z : Z) : Prop := 0 <= z < 2 ^ 32.

Definition u64 (z : Z) : Prop := 0 <= z < 2 ^ 64.

(** [n] words of 32 bits. *)
Definition words (n : nat) (l : list Z) : Prop := length l = n /\ Forall u32 l.

Record crng_ok (s : crng) : Prop := {
  ok_key : words 8 (crng_key s);
  ok_counter : u64 (crng_counter s);
  ok_pool : words 16 (pool s);
  ok_at : (pool_at s < 16)%nat;
  ok_events : u32 (pool_events s);
  ok_reseed : u64 (last_reseed s);
  ok_secret : words 8 (keyed_secret s);
}.

Lemma bits_bound k z : 0 <= k -> 0 <= z -> z < 2 ^ k <-> forall l, k <= l -> Z.testbit z l = false.
Proof. apply Z.bounded_iff_bits_nonneg. Qed.

Lemma lor_range k a b : 0 <= k -> 0 <= a < 2 ^ k -> 0 <= b < 2 ^ k -> 0 <= Z.lor a b < 2 ^ k.
Proof.
  intros Hk [Ha Ha'] [Hb Hb']. assert (0 <= Z.lor a b) by (by apply Z.lor_nonneg). split; [done|].
  rewrite bits_bound in * by done. intros l Hl. by rewrite Z.lor_spec, Ha', Hb'.
Qed.

Lemma lxor_range k a b : 0 <= k -> 0 <= a < 2 ^ k -> 0 <= b < 2 ^ k -> 0 <= Z.lxor a b < 2 ^ k.
Proof.
  intros Hk [Ha Ha'] [Hb Hb']. assert (0 <= Z.lxor a b) by (by apply Z.lxor_nonneg). split; [done|].
  rewrite bits_bound in * by done. intros l Hl. by rewrite Z.lxor_spec, Ha', Hb'.
Qed.

Lemma rotl32_range v n : u32 v -> 0 <= n <= 32 -> u32 (rotl32 v n).
Proof.
  intros [Hv Hv'] Hn. apply lor_range; [lia|apply wrap32_range|]. rewrite Z.shiftr_div_pow2 by lia.
  pose proof (Z.pow_pos_nonneg 2 (32 - n)). split; [apply Z.div_pos; lia|]. apply Z.div_lt_upper_bound; [lia|nia].
Qed.

Lemma word_range n l i : words n l -> u32 (word l i).
Proof.
  intros [_ Hl]. unfold word. destruct (l !! i) as [w|] eqn:E; [exact (Forall_lookup_1 _ _ _ _ Hl E)|]. unfold u32. simpl. lia.
Qed.

Lemma words_set n l i w : words n l -> u32 w -> words n (<[i := w]> l).
Proof. intros [Hn Hl] Hw. split; [by rewrite length_insert|by apply Forall_insert]. Qed.

Lemma words_take n k l : words n l -> (k <= n)%nat -> words k (take k l).
Proof. intros [Hn Hl] Hk. split; [rewrite length_take; lia|by apply Forall_take]. Qed.

Lemma words_zero n : words n (replicate n 0).
Proof. split; [apply length_replicate|]. apply Forall_replicate. unfold u32. lia. Qed.

(** ** The cipher *)

Lemma qr_add_words n a b x : words n x -> words n (qr_add a b x).
Proof. intros Hx. apply words_set; [done|apply wrap32_range]. Qed.

Lemma qr_mix_words n d a k x : 0 <= k <= 32 -> words n x -> words n (qr_mix d a k x).
Proof. intros Hk Hx. apply words_set; [done|]. apply rotl32_range; [|done]. apply lxor_range; [lia|by apply (word_range n)..]. Qed.

Lemma QR_words n a b c d x : words n x -> words n (QR a b c d x).
Proof. intros Hx. unfold QR. do 4 (apply qr_mix_words; [lia|]; apply qr_add_words). exact Hx. Qed.

Lemma iter_words n k x : words n x -> words n (Nat.iter k double_round x).
Proof. intros Hx. induction k as [|k IH]; [exact Hx|]. rewrite Nat.iter_succ. unfold double_round at 1. do 8 apply QR_words. exact IH. Qed.

Lemma chacha20_words key counter nonce : words 8 key -> words 16 (chacha20_block key counter nonce).
Proof.
  intros [Hk Hkey]. set (input := chacha20_in key counter nonce). assert (Hin : words 16 input).
  { split; [unfold input, chacha20_in; rewrite !length_app, Hk; done|]. unfold input, chacha20_in.
    apply Forall_app. split; [repeat constructor; unfold u32; lia|]. apply Forall_app. split; [done|]. repeat constructor; apply wrap32_range. }
  destruct (iter_words 16 10 input Hin) as [Hl _]. unfold chacha20_block. fold input. split; [rewrite length_zip_with, Hl; destruct Hin; lia|].
  apply Forall_lookup. intros i w Hi. apply lookup_zip_with_Some in Hi as (x & y & -> & _). apply wrap32_range.
Qed.

#[local] Opaque chacha20_block.

(** ** The pool and the key *)

(** A change that leaves the key, the counter and the mode alone, and the pool 16 words. *)
Definition pool_only (s s' : crng) : Prop := have_hw s' = have_hw s /\ seeded s' = seeded s /\ (crng_ok s -> crng_ok s').

Lemma pool_only_trans s1 s2 s3 : pool_only s1 s2 -> pool_only s2 s3 -> pool_only s1 s3.
Proof. intros (E1 & F1 & H1) (E2 & F2 & H2). split_and!; [congruence|congruence|auto]. Qed.

Lemma did_read_only s : pool_only s (did_read s).
Proof. split_and!; [done|done|]. intros []. by constructor. Qed.

Lemma mix_byte_only i b s : pool_only s (mix_byte i b s).
Proof.
  split_and!; [done|done|]. intros []. constructor; try done.
  - apply words_set; [done|apply wrap32_range].
  - cbn [mix_byte set_pool pool_at]. destruct (_ =? _)%nat; [apply Nat.mod_upper_bound; lia|done].
Qed.

Lemma pool_mix_only data s : pool_only s (pool_mix_locked data s).
Proof.
  unfold pool_mix_locked. eapply pool_only_trans with (s2 := foldl (fun s '(i, b) => mix_byte i b s) s (imap pair data)).
  - generalize (imap pair data). intros l. revert s. induction l as [|[i b] l IH]; intros s; [by split_and!|]. simpl. eapply pool_only_trans; [apply mix_byte_only|apply IH].
  - split_and!; [done|done|]. intros []. constructor; simpl; done || apply wrap32_range.
Qed.

Section Calls.

Context (rdtsc_at hpet_at : nat -> Z) (rdseed_at rdrand_at : nat -> option Z) (has_rdseed has_rdrand : bool).

Hypothesis clock_range : forall k, u64 (rdtsc_at k).

#[local] Abbreviation do_reseed := (reseed_locked rdtsc_at rdseed_at rdrand_at has_rdseed has_rdrand).
#[local] Abbreviation do_init := (random_init rdtsc_at hpet_at rdseed_at rdrand_at has_rdseed has_rdrand).
#[local] Abbreviation do_get := (random_get_bytes rdtsc_at hpet_at rdseed_at rdrand_at has_rdseed has_rdrand).

Lemma try_hw_only tries insn s : pool_only s (try_hw tries insn s).2.
Proof.
  revert s. induction tries as [|tries IH]; intros s; [by split_and!|]. simpl. destruct (insn (reads s)); [apply did_read_only|].
  eapply pool_only_trans; [apply did_read_only|apply IH].
Qed.

Lemma mix_clocks_only s : pool_only s (mix_clocks rdtsc_at hpet_at s).
Proof. unfold mix_clocks. simpl. eapply pool_only_trans; [apply did_read_only|]. eapply pool_only_trans; [apply did_read_only|apply pool_mix_only]. Qed.

Lemma jitter_only s : pool_only s (jitter_seed rdtsc_at s).
Proof.
  unfold jitter_seed. cbn [rdtsc]. generalize (Z.to_nat RANDOM_JITTER_LOOPS). intros n. generalize (rdtsc_at (reads s)). intros last.
  eapply pool_only_trans; [apply did_read_only|]. induction n as [|n IH]; [by split_and!|]. rewrite Nat.iter_succ.
  eapply pool_only_trans; [apply IH|]. destruct (Nat.iter n _ _) as [l s1]. simpl. eapply pool_only_trans; [apply did_read_only|apply pool_mix_only].
Qed.

#[local] Opaque jitter_seed.

(** The word of a reseed is read where the processor has both instructions. *)
Lemma hw_word_returns s : has_rdseed = true -> has_rdrand = true ->
  exists v s', hw_word rdseed_at rdrand_at has_rdseed has_rdrand s = Some (v, s') /\ pool_only s s'.
Proof.
  intros -> ->. unfold hw_word, rdseed64, rdrand64. pose proof (try_hw_only 32 rdseed_at s) as H1. destruct (try_hw 32 rdseed_at s) as [[v|] s1]; cbn [mbind option_bind snd] in *.
  - by exists (Some v), s1.
  - pose proof (try_hw_only 10 rdrand_at s1) as H2. destruct (try_hw 10 rdrand_at s1) as [v s2]. exists v, s2. split; [done|]. eapply pool_only_trans; [exact H1|exact H2].
Qed.

(** The hardware is used only where it was found. *)
Definition hw_found (s : crng) : Prop := have_hw s = true -> has_rdseed = true /\ has_rdrand = true.

Lemma reseed_ok s : crng_ok s -> hw_found s -> exists s', do_reseed s = Some s' /\ crng_ok s' /\ have_hw s' = have_hw s /\ seeded s' = seeded s.
Proof.
  intros Hs Hhw. unfold reseed_locked. cbn [rdtsc]. set (mixed := _ <$> seq 0 8). set (s0 := did_read s).
  assert (Hmixed : words 8 mixed).
  { split; [unfold mixed; by rewrite length_fmap, length_seq|]. apply Forall_fmap, Forall_seq. intros i _. simpl.
    apply lxor_range; [lia| |apply rotl32_range; [|lia]; apply (word_range 16), Hs].
    apply lxor_range; [lia|apply (word_range 8), Hs|apply (word_range 16), Hs]. }
  set (extra := Z.lxor _ _). clearbody extra. destruct (did_read_only s) as (E0 & F0 & H0). fold s0 in E0, F0, H0.
  assert (Hread : exists e s', (if have_hw s0 then '(hw, s) ← hw_word rdseed_at rdrand_at has_rdseed has_rdrand s0;
      Some (match hw with Some v => Z.lxor extra v | None => extra end, s) else Some (extra, s0)) = Some (e, s') /\ pool_only s0 s').
  { destruct (have_hw s0) eqn:E; [|exists extra, s0; by split_and!]. destruct Hhw as [H1 H2]; [congruence|].
    destruct (hw_word_returns s0 H1 H2) as (v & s' & -> & Hp). simpl. by eexists _, s'. }
  destruct Hread as (e & s1 & -> & E1 & F1 & H1). cbn [mbind option_bind]. eexists. split; [done|]. split; [|simpl; split; congruence].
  destruct (H1 (H0 Hs)). constructor; simpl; try done.
  - eapply words_take; [by apply chacha20_words|lia].
  - apply wrap64_range.
  - apply words_zero.
Qed.

(** ** The calls *)

Lemma init_word_ok hs : has_rdseed = has_rdrand -> 0 <= hs.1 -> (0 < hs.1 -> has_rdseed = true) ->
  exists hs', init_word rdseed_at rdrand_at has_rdseed has_rdrand hs = Some hs' /\ pool_only hs.2 hs'.2 /\ 0 <= hs'.1 /\ (0 < hs'.1 -> has_rdseed = true).
Proof.
  destruct hs as [k s]. simpl. intros Hsame Hk Hpos. unfold init_word, rdseed64, rdrand64. rewrite <- Hsame. clear Hsame. destruct has_rdseed; cbn [mbind option_bind].
  - pose proof (try_hw_only 32 rdseed_at s) as H1. destruct (try_hw 32 rdseed_at s) as [[v|] s1]; cbn [mbind option_bind snd] in *.
    + eexists. split; [done|]. split_and!; [eapply pool_only_trans; [exact H1|apply pool_mix_only]|simpl; lia|done].
    + pose proof (try_hw_only 10 rdrand_at s1) as H2. destruct (try_hw 10 rdrand_at s1) as [[v|] s2]; cbn [mbind option_bind snd] in *; (eexists; split; [done|]; split_and!; [|simpl; lia|done]).
      * eapply pool_only_trans; [exact H1|]. eapply pool_only_trans; [exact H2|apply pool_mix_only].
      * by eapply pool_only_trans.
  - eexists. split; [done|]. by split_and!.
Qed.

Lemma init_words_ok n : has_rdseed = has_rdrand -> forall hs, 0 <= hs.1 -> (0 < hs.1 -> has_rdseed = true) ->
  exists hs', init_words rdseed_at rdrand_at has_rdseed has_rdrand n hs = Some hs' /\ pool_only hs.2 hs'.2 /\ 0 <= hs'.1 /\ (0 < hs'.1 -> has_rdseed = true).
Proof.
  intros Hsame. induction n as [|n IH]; intros hs Hk Hpos; [exists hs; by split_and!|]. simpl.
  destruct (init_word_ok hs Hsame Hk Hpos) as (h1 & -> & Ho1 & Hk1 & Hpos1). simpl.
  destruct (IH h1 Hk1 Hpos1) as (h2 & -> & Ho2 & Hk2 & Hpos2). exists h2. split_and!; [done|by eapply pool_only_trans|done|done].
Qed.

Lemma bind_some {A B : Type} (f : A -> option B) (x : A) : (Some x ≫= f) = f x.
Proof. done. Qed.

(** What [random_init] does once the pool is filled. *)
Lemma init_tail_ok s : crng_ok s -> hw_found s -> exists s',
  (s ← do_reseed s;
   let s := set_mode s true (have_hw s) in
   let '(t, s) := rdtsc rdtsc_at s in
   let s := set_reseeded s t in
   let c := crng_counter s +w 1 in
   let out := chacha20_block (crng_key s) c 0x5345435245540000 in
   Some (set_secret (set_key s (crng_key s) c) (take 8 out))) = Some s' /\ crng_ok s' /\ hw_found s'.
Proof.
  intros Hs Hf. destruct (reseed_ok s Hs Hf) as (s4 & -> & Hs4 & E4 & _). cbn [mbind option_bind rdtsc]. eexists. split; [reflexivity|].
  split; [|intros Hhw; simpl in Hhw; apply Hf; congruence].
  destruct Hs4. constructor; try done; [apply wrap64_range|apply clock_range|]. eapply words_take; [by apply chacha20_words|lia].
Qed.

Lemma random_init_ok s : has_rdseed = has_rdrand -> crng_ok s -> exists s', do_init s = Some s' /\ crng_ok s' /\ hw_found s'.
Proof.
  intros Hsame Hs. unfold random_init. destruct (init_words_ok 16 Hsame (0, s)) as ([k s1] & -> & Ho & Hk & Hpos); [simpl; lia..|]. rewrite bind_some. cbv beta iota zeta.
  set (s2 := set_mode s1 (seeded s1) (k >? 0)). assert (Hs2 : crng_ok s2) by (destruct Ho as (_ & _ & H1); destruct (H1 Hs); by constructor).
  assert (Hf2 : hw_found s2). { intros Hhw. simpl in Hhw. rewrite Z.gtb_ltb in Hhw. bool_prop. rewrite <- Hsame. auto. }
  assert (Ho3 : pool_only s2 (jitter_seed rdtsc_at (mix_clocks rdtsc_at hpet_at s2))) by (eapply pool_only_trans; [apply mix_clocks_only|apply jitter_only]).
  destruct Ho3 as (E3 & _ & H3). apply init_tail_ok; [auto|]. unfold hw_found. by rewrite E3.
Qed.

Lemma word_bytes_4 w : length (take 4 (word_bytes w)) = 4%nat /\ Forall is_byte (take 4 (word_bytes w)).
Proof. destruct (word_bytes_ok w) as [Hl Hb]. split; [by rewrite length_take, Hl|by apply Forall_take]. Qed.

Lemma words_bytes_ok ws : length (words_bytes ws) = (4 * length ws)%nat /\ Forall is_byte (words_bytes ws).
Proof.
  unfold words_bytes. induction ws as [|w ws [Hl Hb]]; [split; [done|constructor]|]. destruct (word_bytes_4 w) as [H4 Hb4]. cbn [fmap list_fmap concat]. split.
  - rewrite length_app, H4. change (list_fmap _ _ _ ws) with ((fun w => take 4 (word_bytes w)) <$> ws). rewrite Hl. simpl. lia.
  - by apply Forall_app.
Qed.

(** The loop gives exactly the bytes that were asked for. *)
Lemma get_blocks_ok fuel : forall len p s, 0 <= len -> len < Z.of_nat fuel -> crng_ok s -> Forall is_byte p ->
  exists bs s', get_blocks fuel len p s = Some (bs, s') /\ Z.of_nat (length bs) = Z.of_nat (length p) + len /\ Forall is_byte bs /\ crng_ok s' /\ have_hw s' = have_hw s.
Proof.
  induction fuel as [|fuel IH]; intros len p s Hlen Hf Hs Hp; [lia|]. cbn [get_blocks]. destruct (Z.eqb_spec len 0) as [->|Hne].
  - exists p, s. split_and!; done || lia.
  - set (n := if len <? 32 then len else 32). assert (Hn : 0 < n <= len /\ n <= 32) by (unfold n; case_if; lia). clearbody n.
    set (out := chacha20_block _ _ _). assert (Hout : words 16 out) by (apply chacha20_words; apply Hs).
    destruct (words_bytes_ok out) as [Hl Hb]. rewrite (proj1 Hout) in Hl.
    destruct (IH (len - n) (p ++ take (Z.to_nat n) (drop 32 (words_bytes out))) (set_key s (take 8 out) (crng_counter s +w 1))) as (bs & s' & -> & Hlb & Hbs & Hs' & Hhw).
    + lia.
    + lia.
    + destruct Hs. constructor; simpl; try done; [eapply words_take; [exact Hout|lia]|apply wrap64_range].
    + apply Forall_app. split; [done|]. by apply Forall_take, Forall_drop.
    + exists bs, s'. split_and!; try done. rewrite Hlb, length_app, length_take, length_drop, Hl. lia.
Qed.

Lemma random_get_ok len s : 0 <= len -> crng_ok s -> hw_found s ->
  exists bs s', do_get len s = Some (bs, s') /\ Z.of_nat (length bs) = len /\ Forall is_byte bs /\ crng_ok s' /\ hw_found s'.
Proof.
  intros Hlen Hs Hf. unfold random_get_bytes.
  match goal with |- context [mbind _ ?e] => assert (Hready : exists s1, e = Some s1 /\ crng_ok s1 /\ have_hw s1 = have_hw s) end.
  { destruct (seeded s); simpl negb; cbv iota.
    - destruct (pool_events s =? 0); [by exists s|]. cbn [rdtsc]. destruct (did_read_only s) as (E0 & _ & H0). destruct (_ >? _).
      + destruct (reseed_ok (did_read s)) as (s1 & -> & Hs1 & E1 & _); [auto|unfold hw_found; by rewrite E0|]. cbn [mbind option_bind]. eexists. split; [done|].
        split; [|simpl; congruence]. destruct Hs1. constructor; simpl; done || apply clock_range.
      + exists (did_read s). split_and!; [done|auto|done].
    - destruct (mix_clocks_only s) as (E0 & _ & H0). destruct (reseed_ok (mix_clocks rdtsc_at hpet_at s)) as (s1 & -> & Hs1 & E1 & _); [auto|unfold hw_found; by rewrite E0|].
      exists s1. split_and!; [done|done|congruence]. }
  destruct Hready as (s1 & -> & Hs1 & E1). cbn [mbind option_bind].
  destruct (get_blocks_ok (S (Z.to_nat len)) len [] s1) as (bs & s' & -> & Hl & Hb & Hs' & E'); [done|lia|done|constructor|].
  exists bs, s'. split_and!; [done|simpl in Hl; lia|done|done|]. unfold hw_found. by rewrite E', E1.
Qed.

(** What a call asks for, and what it may pass. *)
Definition asked (o : random_op) : Z := match o with RGet len => len | _ => 0 end.

Definition answers (o : random_op) (bs : list Z) : Prop := Z.of_nat (length bs) = asked o /\ Forall is_byte bs.

Lemma random_exec_ok o s : has_rdseed = has_rdrand -> 0 <= asked o -> crng_ok s -> hw_found s ->
  exists bs s', random_exec rdtsc_at hpet_at rdseed_at rdrand_at has_rdseed has_rdrand o s = Some (bs, s') /\ answers o bs /\ crng_ok s' /\ hw_found s'.
Proof.
  intros Hsame Ho Hs Hf. destruct o as [|data|tag|len]; cbn [random_exec].
  - destruct (random_init_ok s Hsame Hs) as (s' & -> & Hs' & Hf'). simpl. exists [], s'. split_and!; [done|by split|done|done].
  - destruct (pool_mix_only data s) as (E & _ & H1). exists [], (random_add data s). split_and!; [done|by split|by apply H1|]. unfold hw_found, random_add. by rewrite E.
  - unfold random_add_timing. cbn [rdtsc]. set (ws := words_bytes _). destruct (pool_mix_only ws (did_read s)) as (E & _ & H1).
    destruct (did_read_only s) as (E0 & _ & H0). exists [], (random_add ws (did_read s)). split_and!; [done|by split|by apply H1, H0|].
    unfold hw_found, random_add. by rewrite E.
  - destruct (random_get_ok len s Ho Hs Hf) as (bs & s' & E & Hl & Hb & Hs' & Hf'). exists bs, s'. by split_and!.
Qed.

(** C34. On a processor with both random instructions or with neither, every sequence of calls returns: each gives exactly
    the number of bytes it was asked for, and the state keeps its types, arrays of 8 and 16 words of 32 bits,
    counters of their width and an index into the pool. *)
Theorem random_run_typed ops s :
  has_rdseed = has_rdrand -> crng_ok s -> hw_found s -> Forall (fun o => 0 <= asked o) ops ->
  exists out s', random_run rdtsc_at hpet_at rdseed_at rdrand_at has_rdseed has_rdrand ops s = Some (out, s') /\ Forall2 answers ops out /\ crng_ok s'.
Proof.
  intros Hsame. revert s. induction ops as [|o ops IH]; intros s Hs Hf Hops; [exists [], s; by split_and!|]. inversion Hops as [|?? Ho Hrest]; subst. cbn [random_run].
  destruct (random_exec_ok o s Hsame Ho Hs Hf) as (bs & s1 & -> & Ha & Hs1 & Hf1). cbn [mbind option_bind].
  destruct (IH s1 Hs1 Hf1 Hrest) as (out & s2 & -> & Hall & Hs2). simpl. exists (bs :: out), s2. split_and!; [done|by constructor|done].
Qed.

(** ** One instruction without the other *)

Lemma init_words_count n : forall hs, exists hs', init_words rdseed_at rdrand_at false true n hs = Some hs' /\ hs.1 <= hs'.1.
Proof.
  induction n as [|n IH]; intros [k s]; [exists (k, s); simpl; split; [done|lia]|]. cbn [init_words init_word mbind option_bind rdrand64].
  destruct (try_hw 10 rdrand_at s) as [[v|] s1]; cbn [mbind option_bind].
  - destruct (IH (k + 1, pool_mix_locked (word_bytes v) s1)) as (hs' & -> & Hle). exists hs'. split; [done|]. simpl in *. lia.
  - destruct (IH (k, s1)) as (hs' & -> & Hle). by exists hs'.
Qed.

Lemma try_hw_cases n insn : forall s, (exists v s', try_hw n insn s = (Some v, s') /\ exists i, (i < n)%nat /\ is_Some (insn (reads s + i)%nat)) \/
  (exists s', try_hw n insn s = (None, s') /\ reads s' = (reads s + n)%nat /\ forall i, (i < n)%nat -> insn (reads s + i)%nat = None).
Proof.
  induction n as [|n IH]; intros s; cbn [try_hw]; [right; exists s; split_and!; [done|lia|lia]|]. destruct (insn (reads s)) as [v|] eqn:E.
  - left. exists v, (did_read s). split; [done|]. exists 0%nat. split; [lia|]. by rewrite Nat.add_0_r, E.
  - destruct (IH (did_read s)) as [(v & s' & -> & i & Hi & Hv)|(s' & -> & Hr & Hn)]; simpl in *.
    + left. exists v, s'. split; [done|]. exists (S i). split; [lia|]. by replace (reads s + S i)%nat with (S (reads s + i)) by lia.
    + right. exists s'. split_and!; [done|lia|]. intros [|i] Hi; [by rewrite Nat.add_0_r|]. replace (reads s + S i)%nat with (S (reads s + i)) by lia. apply Hn. lia.
Qed.

(** Words are read when one of the executions of [rdrand] gives one. *)
Lemma init_words_found n : forall s, exists k s', init_words rdseed_at rdrand_at false true n (0, s) = Some (k, s') /\
  0 <= k /\ (0 < k <-> exists i, (i < 10 * n)%nat /\ is_Some (rdrand_at (reads s + i)%nat)).
Proof.
  induction n as [|n IH]; intros s; [exists 0, s; split_and!; [done|lia|split; [lia|intros (i & ? & _); lia]]|].
  cbn [init_words init_word mbind option_bind rdrand64]. destruct (try_hw_cases 10 rdrand_at s) as [(v & s1 & -> & i & Hi & Hv)|(s1 & -> & Hr & Hn)]; cbn [mbind option_bind].
  - destruct (init_words_count n (0 + 1, pool_mix_locked (word_bytes v) s1)) as ([k s2] & -> & Hk). simpl in Hk. exists k, s2. split_and!; [done|lia|]. split; [|lia]. intros _. exists i. split; [lia|done].
  - destruct (IH s1) as (k & s2 & -> & Hk & Hiff). exists k, s2. split_and!; [done|done|]. rewrite Hiff, Hr. split.
    + intros (i & Hi & Hv). exists (10 + i)%nat. split; [lia|]. by replace (reads s + (10 + i))%nat with (reads s + 10 + i)%nat by lia.
    + intros (i & Hi & Hv). destruct (decide (i < 10)%nat) as [Hlt|Hge]; [rewrite (Hn i Hlt) in Hv; by destruct Hv|]. exists (i - 10)%nat. split; [lia|]. by replace (reads s + 10 + (i - 10))%nat with (reads s + i)%nat by lia.
Qed.

(** C35. On a processor that has [rdrand] but not [rdseed] (the check of [random_init] tells them apart), starting the generator
    does not return exactly when one of its up to 160 executions of [rdrand] (16 words, 10 tries each) gives a number: [reseed_locked]
    then executes [rdseed] all the same, which such a processor refuses. *)
Theorem rdrand_only_faults s :
  random_init rdtsc_at hpet_at rdseed_at rdrand_at false true s = None <-> exists i, (i < 160)%nat /\ is_Some (rdrand_at (reads s + i)%nat).
Proof.
  unfold random_init. destruct (init_words_found 16 s) as (k & s1 & -> & Hk & Hiff). rewrite bind_some. cbv beta iota zeta. change (10 * 16)%nat with 160%nat in Hiff. rewrite <- Hiff.
  set (s2 := set_mode s1 (seeded s1) (k >? 0)). set (s3 := jitter_seed _ _).
  assert (Ho : pool_only s2 s3) by (eapply pool_only_trans; [apply mix_clocks_only|apply jitter_only]). clearbody s3. destruct Ho as (E & _ & _).
  assert (Hhw : have_hw (did_read s3) = (k >? 0)) by (simpl; rewrite E; done). unfold reseed_locked, rdtsc. cbv beta iota zeta. rewrite Hhw, Z.gtb_ltb. destruct (Z.ltb_spec 0 k) as [H1|H1].
  - split; [done|]. intros _. done.
  - split; [|lia]. rewrite bind_some. cbv beta iota zeta. rewrite bind_some. done.
Qed.

End Calls.

(** ** Examples *)

(** Clocks that count, and instructions that give a number at every other read. *)
Definition demo_clock (k : nat) : Z := Z.of_nat k `mod` 2 ^ 64.

Definition demo_insn (k : nat) : option Z := if Nat.even k then Some 77 else None.

Lemma demo_clock_range k : u64 (demo_clock k).
Proof. apply Z.mod_pos_bound. lia. Qed.

Lemma crng0_ok : crng_ok crng0.
Proof. constructor; try apply words_zero; simpl; try lia; unfold u64, u32; lia. Qed.

Lemma random_run_typed_witness :
  exists out s', random_run demo_clock demo_clock demo_insn demo_insn true true [RInit; RAdd [1; 2; 3]; RAddTiming 5; RGet 40] crng0 = Some (out, s') /\
    Forall2 answers [RInit; RAdd [1; 2; 3]; RAddTiming 5; RGet 40] out /\ crng_ok s'.
Proof.
  apply (random_run_typed demo_clock demo_clock demo_insn demo_insn true true demo_clock_range); [reflexivity|exact crng0_ok|intros _; split; reflexivity|].
  repeat constructor; simpl; lia.
Defined.

Lemma rdrand_only_faults_witness : random_init demo_clock demo_clock demo_insn demo_insn false true crng0 = None.
Proof. apply (rdrand_only_faults demo_clock demo_clock demo_insn demo_insn crng0). exists 0%nat. split; [lia|]. exists 77. reflexivity. Defined.
