(* ===== verification/Tempfs.v ===== *)
(** * The memory file system

    [kernel/src/fs/tempfs.c], the file system of the root: an inode ([INode_t]) and what this file system
    keeps of it ([tempfs_INode_t]) are blocks of the heap, the contents are a chain of pages ([tempfs_data_t]), which hold
    the bytes of a file or the entries of a directory.  Pages come zeroed from the page source of the heap, and a chunk's cells
    are 0 where nothing was stored: 4088 bytes in a file, 511 pointers in a directory.  [Link] is a pointer to
    the pointer to a chunk ([prev_next]).  Borrowed contents are the bytes themselves.  The fields of an inode for
    mounts and the name cache are left out.  A name is its bytes up to the terminator; [tf_now] is the clock. *)

From S2P Require Import Prelude Heap KallocProofs.

Definition TEMPFS_MAX_NAME_LEN : Z := 128.

Definition TEMPFS_DATA_CHUNK_SIZE : Z := 4096.

Definition MAX_FILE_DATA_PER_CHUNK : Z := TEMPFS_DATA_CHUNK_SIZE - 8.

Definition MAX_ENTRIES_PER_DATA_CHUNK : Z := (TEMPFS_DATA_CHUNK_SIZE - 8) / 8.

Definition ENOSPC : Z := 28.

Definition ENAMETOOLONG : Z := 36.

Definition ENOTEMPTY : Z := 39.

Inductive inode_type := INODE_DIRECTORY | INODE_FILE | INODE_DEVICE | INODE_SYMLINK.

#[export] Instance inode_type_eq_dec : EqDecision inode_type.
Proof. solve_decision. Defined.

(** The tables of operations of this file system. *)
Inductive tempfs_ops := dir_ops | file_ops | link_ops.

#[export] Instance tempfs_ops_eq_dec : EqDecision tempfs_ops.
Proof. solve_decision. Defined.

(** [INode_t]. *)
Record INode := { n_shared : Z; n_type : inode_type; n_ops : tempfs_ops; internal_data : Z; n_name : list Z; n_attached : bool; n_parent : Z }.

(** [tempfs_INode_t]. *)
Record tempfs_INode := { t_name : list Z; capacity : Z; t_data : Z; borrowed : option (list Z); mtime : Z; ctime : Z }.

(** [tempfs_data_t] and what is behind it. *)
Record tempfs_data := { next_chunk : Z; cells : gmap Z Z }.

Record tfs (H P : Type) := {
  tf_heap : H;
  tf_pages : P;
  tf_inodes : gmap Z INode;
  tf_nodes : gmap Z tempfs_INode;
  tf_chunks : gmap Z tempfs_data;
  tf_root : Z;
  tf_now : Z;
}.
Arguments tf_heap {H P}.
Arguments tf_pages {H P}.
Arguments tf_inodes {H P}.
Arguments tf_nodes {H P}.
Arguments tf_chunks {H P}.
Arguments tf_root {H P}.
Arguments tf_now {H P}.

Definition no_inode : INode := {| n_shared := 0; n_type := INODE_FILE; n_ops := file_ops; internal_data := 0; n_name := []; n_attached := false; n_parent := 0 |}.

Definition no_node : tempfs_INode := {| t_name := []; capacity := 0; t_data := 0; borrowed := None; mtime := 0; ctime := 0 |}.

Definition no_chunk : tempfs_data := {| next_chunk := 0; cells := ∅ |}.

Definition set_n_shared (n : Z) (i : INode) : INode :=
  {| n_shared := n; n_type := n_type i; n_ops := n_ops i; internal_data := internal_data i; n_name := n_name i; n_attached := n_attached i; n_parent := n_parent i |}.

Definition set_internal (p : Z) (i : INode) : INode :=
  {| n_shared := n_shared i; n_type := n_type i; n_ops := n_ops i; internal_data := p; n_name := n_name i; n_attached := n_attached i; n_parent := n_parent i |}.

Definition set_vfs_name (l : list Z) (i : INode) : INode :=
  {| n_shared := n_shared i; n_type := n_type i; n_ops := n_ops i; internal_data := internal_data i; n_name := l; n_attached := n_attached i; n_parent := n_parent i |}.

Definition set_t_name (l : list Z) (t : tempfs_INode) : tempfs_INode :=
  {| t_name := l; capacity := capacity t; t_data := t_data t; borrowed := borrowed t; mtime := mtime t; ctime := ctime t |}.

Definition set_capacity (n : Z) (t : tempfs_INode) : tempfs_INode :=
  {| t_name := t_name t; capacity := n; t_data := t_data t; borrowed := borrowed t; mtime := mtime t; ctime := ctime t |}.

Definition set_data (d : Z) (t : tempfs_INode) : tempfs_INode :=
  {| t_name := t_name t; capacity := capacity t; t_data := d; borrowed := borrowed t; mtime := mtime t; ctime := ctime t |}.

Definition set_borrowed (b : option (list Z)) (t : tempfs_INode) : tempfs_INode :=
  {| t_name := t_name t; capacity := capacity t; t_data := t_data t; borrowed := b; mtime := mtime t; ctime := ctime t |}.

Definition set_times (m : Z) (t : tempfs_INode) : tempfs_INode :=
  {| t_name := t_name t; capacity := capacity t; t_data := t_data t; borrowed := borrowed t; mtime := m; ctime := m |}.

Definition set_next_chunk (n : Z) (c : tempfs_data) : tempfs_data := {| next_chunk := n; cells := cells c |}.

(** The cell [i] of a chunk, and storing [vs] from cell [i] on. *)
Definition cell (c : tempfs_data) (i : Z) : Z := default 0 (cells c !! i).

Fixpoint put_cells (i : Z) (vs : list Z) (m : gmap Z Z) : gmap Z Z :=
  match vs with
  | [] => m
  | v :: vs => put_cells (i + 1) vs (<[i := v]> m)
  end.

Definition set_cells (i : Z) (vs : list Z) (c : tempfs_data) : tempfs_data := {| next_chunk := next_chunk c; cells := put_cells i vs (cells c) |}.

(** [n] cells from cell [i] on. *)
Definition get_cells (c : tempfs_data) (i n : Z) : list Z := (fun k => cell c (i + Z.of_nat k)) <$> seq 0 (Z.to_nat n).

(** [&inode->data] or [&chunk->next_chunk]. *)
Inductive Link := LData (t : Z) | LNext (c : Z).

Definition tempfs_chunk_ptr_sane (p : Z) : bool :=
  negb (p =? 0) && (Z.land p 7 =? 0) && ((p ≫ 48 =? 0) || (p ≫ 48 =? 0xFFFF)).

Section Tempfs.

Context {H P : Type} `{Heap H} `{PageSource P} (sizeof_inode sizeof_node : Z).

Implicit Types s : tfs H P.

Definition tf_set_heap s (h : H) : tfs H P :=
  {| tf_heap := h; tf_pages := tf_pages s; tf_inodes := tf_inodes s; tf_nodes := tf_nodes s; tf_chunks := tf_chunks s; tf_root := tf_root s; tf_now := tf_now s |}.

Definition tf_set_pages s (p : P) (c : gmap Z tempfs_data) : tfs H P :=
  {| tf_heap := tf_heap s; tf_pages := p; tf_inodes := tf_inodes s; tf_nodes := tf_nodes s; tf_chunks := c; tf_root := tf_root s; tf_now := tf_now s |}.

Definition tf_set_inodes s (m : gmap Z INode) : tfs H P :=
  {| tf_heap := tf_heap s; tf_pages := tf_pages s; tf_inodes := m; tf_nodes := tf_nodes s; tf_chunks := tf_chunks s; tf_root := tf_root s; tf_now := tf_now s |}.

Definition tf_set_nodes s (m : gmap Z tempfs_INode) : tfs H P :=
  {| tf_heap := tf_heap s; tf_pages := tf_pages s; tf_inodes := tf_inodes s; tf_nodes := m; tf_chunks := tf_chunks s; tf_root := tf_root s; tf_now := tf_now s |}.

Definition inode_at s (i : Z) : INode := default no_inode (tf_inodes s !! i).

Definition node_at s (t : Z) : tempfs_INode := default no_node (tf_nodes s !! t).

Definition chunk_at s (c : Z) : tempfs_data := default no_chunk (tf_chunks s !! c).

Definition upd_inode s (i : Z) (f : INode -> INode) : tfs H P := tf_set_inodes s (<[i := f (inode_at s i)]> (tf_inodes s)).

Definition upd_node s (t : Z) (f : tempfs_INode -> tempfs_INode) : tfs H P := tf_set_nodes s (<[t := f (node_at s t)]> (tf_nodes s)).

Definition upd_chunk s (c : Z) (f : tempfs_data -> tempfs_data) : tfs H P := tf_set_pages s (tf_pages s) (<[c := f (chunk_at s c)]> (tf_chunks s)).

Definition read_link s (l : Link) : Z := match l with LData t => t_data (node_at s t) | LNext c => next_chunk (chunk_at s c) end.

Definition write_link s (l : Link) (v : Z) : tfs H P :=
  match l with
  | LData t => upd_node s t (set_data v)
  | LNext c => upd_chunk s c (set_next_chunk v)
  end.

(** ** Chunks *)

Definition tempfs_new_data_chunk s : Z * tfs H P :=
  let '(p, ps) := src_alloc (TEMPFS_DATA_CHUNK_SIZE / PAGE_SIZE) (tf_pages s) in
  if p =? 0 then (0, tf_set_pages s ps (tf_chunks s)) else (p, tf_set_pages s ps (<[p := no_chunk]> (tf_chunks s))).

Definition tempfs_free_data_chunk s (c : Z) : tfs H P :=
  tf_set_pages s (src_free c (TEMPFS_DATA_CHUNK_SIZE / PAGE_SIZE) (tf_pages s)) (delete c (tf_chunks s)).

(** [while (data) { next = data->next_chunk; free(data); data = next; }]. *)
Fixpoint free_chain (fuel : nat) s (data : Z) : tfs H P :=
  match fuel with
  | O => s
  | S fuel => if data =? 0 then s else free_chain fuel (tempfs_free_data_chunk s data) (next_chunk (chunk_at s data))
  end.

Definition free_chunks s (data : Z) : tfs H P := free_chain (S (size (tf_chunks s))) s data.

(** The chunk [data] that [link] points at, a new one where there is none. *)
Definition need_chunk s (link : Link) (data : Z) : Z * tfs H P :=
  if data =? 0 then
    let '(p, s) := tempfs_new_data_chunk s in
    (p, write_link s link p)
  else (data, s).

(** ** Inodes *)

(** The memory of the [tempfs_INode_t] is not cleared; its name is set before it is read. *)
Definition tempfs_create_inode s (type : inode_type) (ops : tempfs_ops) : Z * tfs H P :=
  let '(i, h) := kmalloc sizeof_inode (tf_heap s) in
  let s := tf_set_heap s h in
  if i =? 0 then (0, s)
  else
    let '(t, h) := kmalloc sizeof_node (tf_heap s) in
    let s := tf_set_heap s h in
    if t =? 0 then (i, tf_set_heap s (kfree i (tf_heap s)))
    else
      let s := tf_set_nodes s (<[t := {| t_name := []; capacity := 0; t_data := 0; borrowed := None; mtime := tf_now s; ctime := tf_now s |}]> (tf_nodes s)) in
      (i, tf_set_inodes s (<[i := {| n_shared := 1; n_type := type; n_ops := ops; internal_data := t; n_name := []; n_attached := false; n_parent := 0 |}]> (tf_inodes s))).

Definition tempfs_drop s (i : Z) : tfs H P :=
  let t := internal_data (inode_at s i) in
  let s := free_chunks s (t_data (node_at s t)) in
  let s := tf_set_nodes (tf_set_heap s (kfree t (tf_heap s))) (delete t (tf_nodes s)) in
  upd_inode s i (set_internal 0).

(** [vfs_drop] ([fs/vfs.c]); every inode here has the [drop] of this file system, and the name cache is not part of the state. *)
Fixpoint tf_drop_loop (fuel : nat) s (i : Z) : tfs H P :=
  match fuel with
  | O => s
  | S fuel =>
    if (i =? 0) || (i =? tf_root s) then s
    else
      let n := inode_at s i in
      if n_shared n <=? 0 then s
      else
        let s := upd_inode s i (set_n_shared (n_shared n - 1)) in
        if n_shared n - 1 >? 0 then s
        else
          let parent := if n_attached n then n_parent n else 0 in
          let s := tempfs_drop s i in
          let s := tf_set_inodes (tf_set_heap s (kfree i (tf_heap s))) (delete i (tf_inodes s)) in
          tf_drop_loop fuel s parent
  end.

Definition tf_vfs_drop s (i : Z) : tfs H P := tf_drop_loop (S (size (tf_inodes s))) s i.

Definition tempfs_adopt s (i : Z) (contents : option (list Z)) : Z * tfs H P :=
  let n := inode_at s i in
  match contents with
  | None => (- EINVAL, s)
  | Some bs =>
    if (i =? 0) || (internal_data n =? 0) || negb (bool_decide (n_ops n = file_ops)) then (- EINVAL, s)
    else
      let t := internal_data n in
      if negb (t_data (node_at s t) =? 0) || negb (capacity (node_at s t) =? 0) then (- EINVAL, s)
      else (0, upd_node s t (fun d => set_capacity (Z.of_nat (length bs)) (set_borrowed (Some bs) d)))
  end.

Definition tempfs_set_mtime s (i m : Z) : tfs H P :=
  let n := inode_at s i in
  if (i =? 0) || (internal_data n =? 0) || (negb (bool_decide (n_ops n = file_ops)) && negb (bool_decide (n_ops n = dir_ops))) then s
  else upd_node s (internal_data n) (set_times m).

Definition tempfs_touch s (i : Z) : tfs H P := upd_node s (internal_data (inode_at s i)) (set_times (tf_now s)).

(** The access, modification and change times. *)
Definition tempfs_times s (i : Z) : Z * Z * Z :=
  let d := node_at s (internal_data (inode_at s i)) in (mtime d, mtime d, ctime d).

Definition tempfs_size s (i : Z) : Z :=
  if (i =? 0) || (internal_data (inode_at s i) =? 0) then 0 else capacity (node_at s (internal_data (inode_at s i))).

(** ** Reading and writing *)

(** The loop over the chunks before [offset]: the chunk there and the offset in it; [None] where the chain is not to be trusted. *)
Fixpoint read_skip (fuel : nat) s (data offset hops max_hops : Z) : option (Z * Z) :=
  match fuel with
  | O => None
  | S fuel =>
    if (offset >=? MAX_FILE_DATA_PER_CHUNK) && negb (data =? 0) then
      if negb (tempfs_chunk_ptr_sane data) then None
      else if hops + 1 >? max_hops then None
      else read_skip fuel s (next_chunk (chunk_at s data)) (offset - MAX_FILE_DATA_PER_CHUNK) (hops + 1) max_hops
    else Some (data, offset)
  end.

(** The bytes of the chunks from [data] on. *)
Fixpoint read_chunks (fuel : nat) s (data count chunk_offset : Z) (out : list Z) : list Z :=
  match fuel with
  | O => out
  | S fuel =>
    if (count >? 0) && negb (data =? 0) then
      if negb (tempfs_chunk_ptr_sane data) then out
      else
        let chunk_avail := MAX_FILE_DATA_PER_CHUNK - chunk_offset in
        let to_read := if count <? chunk_avail then count else chunk_avail in
        read_chunks fuel s (next_chunk (chunk_at s data)) (count - to_read) 0 (out ++ get_cells (chunk_at s data) chunk_offset to_read)
    else out
  end.

(** The bytes read (their number is the result), or the error. *)
Definition tempfs_read s (i count offset : Z) : Z + list Z :=
  let n := inode_at s i in
  if (i =? 0) || (internal_data n =? 0) then inl (- ENOENT)
  else if count =? 0 then inr []
  else
    let d := node_at s (internal_data n) in
    if offset >=? capacity d then inr []
    else
      let count := if count >? capacity d - offset then capacity d - offset else count in
      match borrowed d with
      | Some bs => inr (take (Z.to_nat count) (drop (Z.to_nat offset) bs))
      | None =>
        if (count >? 0) && (t_data d =? 0) then inr []
        else
          let max_hops := (capacity d + MAX_FILE_DATA_PER_CHUNK - 1) / MAX_FILE_DATA_PER_CHUNK in
          match read_skip (S (Z.to_nat offset)) s (t_data d) offset 0 max_hops with
          | None => inr []
          | Some (data, chunk_offset) => inr (read_chunks (S (Z.to_nat count)) s data count chunk_offset [])
          end
      end.

(** The loop over the chunks before [offset], which makes those that are missing. *)
Fixpoint write_skip (fuel : nat) s (link : Link) (data offset : Z) : (Z + Link * Z * Z) * tfs H P :=
  match fuel with
  | O => (inl (- EIO), s)
  | S fuel =>
    if offset >=? MAX_FILE_DATA_PER_CHUNK then
      if negb (data =? 0) && negb (tempfs_chunk_ptr_sane data) then (inl (- ENOENT), s)
      else
        let '(data, s) := need_chunk s link data in
        if data =? 0 then (inl (- ENOMEM), s)
        else write_skip fuel s (LNext data) (next_chunk (chunk_at s data)) (offset - MAX_FILE_DATA_PER_CHUNK)
    else (inr (link, data, offset), s)
  end.

(** The loop that stores the bytes; 0, or the error. *)
Fixpoint write_chunks (fuel : nat) s (link : Link) (data offset : Z) (bs : list Z) : Z * tfs H P :=
  match fuel with
  | O => (- EIO, s)
  | S fuel =>
    match bs with
    | [] => (0, s)
    | _ =>
      if negb (data =? 0) && negb (tempfs_chunk_ptr_sane data) then (- ENOENT, s)
      else
        let '(data, s) := need_chunk s link data in
        if data =? 0 then (- ENOMEM, s)
        else
          let chunk_space := MAX_FILE_DATA_PER_CHUNK - offset in
          let left := Z.of_nat (length bs) in
          let write_now := Z.to_nat (if left <? chunk_space then left else chunk_space) in
          let s := upd_chunk s data (set_cells offset (take write_now bs)) in
          write_chunks fuel s (LNext data) (next_chunk (chunk_at s data)) 0 (drop write_now bs)
    end
  end.

(** [tempfs_write] on a file whose contents are its own: the part behind [tempfs_own]. *)
Definition write_owned s (i : Z) (bs : list Z) (offset : Z) : Z * tfs H P :=
  let s := tempfs_touch s i in
  let t := internal_data (inode_at s i) in
  let '(r, s) := write_skip (S (Z.to_nat offset)) s (LData t) (t_data (node_at s t)) offset in
  match r with
  | inl e => (e, s)
  | inr (link, data, off) =>
    let '(e, s) := write_chunks (S (length bs)) s link data off bs in
    if e <? 0 then (e, s)
    else
      let last := offset +w Z.of_nat (length bs) in
      (Z.of_nat (length bs), if capacity (node_at s t) <? last then upd_node s t (set_capacity last) else s)
  end.

(** A file that reads somebody else's memory gets its own copy. *)
Definition tempfs_own s (i : Z) : Z * tfs H P :=
  let t := internal_data (inode_at s i) in
  match borrowed (node_at s t) with
  | None => (0, s)
  | Some contents =>
    let size := capacity (node_at s t) in
    let s := upd_node s t (fun d => set_capacity 0 (set_borrowed None d)) in
    if size =? 0 then (0, s)
    else
      let '(r, s) := write_owned s i (take (Z.to_nat size) contents) 0 in
      if r =? size then (0, s)
      else
        let s := free_chunks s (t_data (node_at s t)) in
        (- ENOMEM, upd_node s t (fun d => set_capacity size (set_borrowed (Some contents) (set_data 0 d))))
  end.

Definition tempfs_write s (i : Z) (in_buffer : list Z) (offset : Z) : Z * tfs H P :=
  if (i =? 0) || (internal_data (inode_at s i) =? 0) then (- ENOENT, s)
  else
    match in_buffer with
    | [] => (0, s)
    | _ =>
      let '(r, s) := tempfs_own s i in
      if r <? 0 then (- ENOMEM, s) else write_owned s i in_buffer offset
    end.

(** The loop of [tempfs_truncate] over the chunks that stay. *)
Fixpoint keep_chunks (needed : nat) s (link : Link) (chunk : Z) : Link * Z :=
  match needed with
  | O => (link, chunk)
  | S needed => if chunk =? 0 then (link, chunk) else keep_chunks needed s (LNext chunk) (next_chunk (chunk_at s chunk))
  end.

(** The smaller size: the chunks behind it are freed. *)
Definition shrink s (t new_size : Z) : tfs H P :=
  let chunks_needed := (new_size + MAX_FILE_DATA_PER_CHUNK - 1) / MAX_FILE_DATA_PER_CHUNK in
  let tail_used := new_size `mod` MAX_FILE_DATA_PER_CHUNK in
  let '(prev_next, chunk) := keep_chunks (Z.to_nat chunks_needed) s (LData t) (t_data (node_at s t)) in
  let s :=
    if (chunks_needed >? 0) && (tail_used >? 0) && negb (read_link s prev_next =? chunk) then
      match prev_next with
      | LNext last => upd_chunk s last (set_cells tail_used (replicate (Z.to_nat (MAX_FILE_DATA_PER_CHUNK - tail_used)) 0))
      | LData _ => s
      end
    else s in
  let s := write_link s prev_next 0 in
  let s := free_chunks s chunk in
  upd_node s t (set_capacity new_size).

Definition tempfs_truncate s (i new_size : Z) : Z * tfs H P :=
  let t := internal_data (inode_at s i) in
  if (i =? 0) || (t =? 0) then (- ENOENT, s)
  else if new_size =? capacity (node_at s t) then (0, s)
  else
    let s := tempfs_touch s i in
    let '(owned, s) := tempfs_own s i in
    if owned <? 0 then (owned, s)
    else if new_size >? capacity (node_at s t) then
      let old_size := capacity (node_at s t) in
      let s := upd_node s t (set_capacity (new_size - 1)) in
      let '(r, s) := tempfs_write s i [0] (new_size - 1) in
      if r <? 0 then (r, upd_node s t (set_capacity old_size)) else (0, s)
    else (0, shrink s t new_size).

(** ** Directories *)

(** A pointer to an entry: its chunk and its index there. *)
Definition slot_get s (e : Z * Z) : Z := cell (chunk_at s e.1) e.2.

Definition slot_set s (e : Z * Z) (v : Z) : tfs H P := upd_chunk s e.1 (set_cells e.2 [v]).

Fixpoint entry_walk (fuel : nat) s (chunk idx : Z) : Z * Z :=
  match fuel with
  | O => (0, idx)
  | S fuel =>
    if negb (chunk =? 0) && (idx >=? MAX_ENTRIES_PER_DATA_CHUNK) then entry_walk fuel s (next_chunk (chunk_at s chunk)) (idx - MAX_ENTRIES_PER_DATA_CHUNK)
    else (chunk, idx)
  end.

Definition tempfs_entry_ptr s (t index : Z) : option (Z * Z) :=
  let '(chunk, idx) := entry_walk (S (Z.to_nat index)) s (t_data (node_at s t)) index in
  if chunk =? 0 then None else Some (chunk, idx).

(** [strlen(d->name) == namelen && memcmp(d->name, name, namelen) == 0]. *)
Definition name_is s (child : Z) (name : list Z) : bool := bool_decide (t_name (node_at s (internal_data (inode_at s child))) = name).

(** The entries of one chunk, from [i] on. *)
Fixpoint find_in_chunk (n : nat) s (data i : Z) (name : list Z) : option Z :=
  match n with
  | O => None
  | S n =>
    let child := slot_get s (data, i) in
    if negb (child =? 0) && name_is s child name then Some child else find_in_chunk n s data (i + 1) name
  end.

Fixpoint find_in_chunks (fuel : nat) s (data remaining : Z) (name : list Z) : option Z :=
  match fuel with
  | O => None
  | S fuel =>
    if negb (data =? 0) && (remaining >? 0) then
      let in_chunk := if remaining <? MAX_ENTRIES_PER_DATA_CHUNK then remaining else MAX_ENTRIES_PER_DATA_CHUNK in
      match find_in_chunk (Z.to_nat in_chunk) s data 0 name with
      | Some child => Some child
      | None => find_in_chunks fuel s (next_chunk (chunk_at s data)) (remaining - in_chunk) name
      end
    else None
  end.

(** The error, and the inode found. *)
Definition tempfs_lookup s (dir : Z) (name : list Z) : Z * Z * tfs H P :=
  let d := node_at s (internal_data (inode_at s dir)) in
  match find_in_chunks (S (Z.to_nat (capacity d))) s (t_data d) (capacity d) name with
  | Some child => (0, child, upd_inode s child (fun n => set_n_shared (n_shared n + 1) n))
  | None => (- ENOENT, 0, s)
  end.

(** The loop of [tempfs_create] over full chunks. *)
Fixpoint create_skip (fuel : nat) s (link : Link) (chunk idx : Z) : option (Link * Z * Z) * tfs H P :=
  match fuel with
  | O => (None, s)
  | S fuel =>
    if idx >=? MAX_ENTRIES_PER_DATA_CHUNK then
      let '(chunk, s) := need_chunk s link chunk in
      if chunk =? 0 then (None, s)
      else create_skip fuel s (LNext chunk) (next_chunk (chunk_at s chunk)) (idx - MAX_ENTRIES_PER_DATA_CHUNK)
    else (Some (link, chunk, idx), s)
  end.

Definition ops_of (type : inode_type) : inode_type * tempfs_ops :=
  match type with
  | INODE_DIRECTORY => (INODE_DIRECTORY, dir_ops)
  | INODE_SYMLINK => (INODE_SYMLINK, link_ops)
  | _ => (INODE_FILE, file_ops)
  end.

(** No result where a freed inode is used. *)
Definition tempfs_create s (parent : Z) (name : list Z) (type : inode_type) : option (Z * Z * tfs H P) :=
  let t := internal_data (inode_at s parent) in
  if (parent =? 0) || (t =? 0) then Some (- ENOENT, 0, s)
  else
    let '(r, s) := create_skip (S (Z.to_nat (capacity (node_at s t)))) s (LData t) (t_data (node_at s t)) (capacity (node_at s t)) in
    match r with
    | None => Some (- ENOMEM, 0, s)
    | Some (link, chunk, idx) =>
      let '(chunk, s) := need_chunk s link chunk in
      if chunk =? 0 then Some (- ENOMEM, 0, s)
      else
        let '(file, s) := tempfs_create_inode s (ops_of type).1 (ops_of type).2 in
        if file =? 0 then Some (- ENOMEM, 0, s)
        else
          match tf_inodes s !! file with
          | None => None
          | Some n =>
            if Z.of_nat (length name) >=? TEMPFS_MAX_NAME_LEN then
              let s := tempfs_drop s file in
              Some (- ENAMETOOLONG, 0, tf_set_inodes (tf_set_heap s (kfree file (tf_heap s))) (delete file (tf_inodes s)))
            else
              let s := upd_node s (internal_data n) (set_t_name name) in
              let s := slot_set s (chunk, idx) file in
              let s := upd_node s t (fun d => set_capacity (capacity d + 1) d) in
              Some (0, file, upd_inode s file (fun n => set_n_shared (n_shared n + 1) n))
          end
    end.

Definition tempfs_readdir s (dir index : Z) : Z * Z * tfs H P :=
  let t := internal_data (inode_at s dir) in
  if index >=? capacity (node_at s t) then (- ENOENT, 0, s)
  else
    match tempfs_entry_ptr s t index with
    | None => (- ENOENT, 0, s)
    | Some e =>
      let r := slot_get s e in
      if r =? 0 then (- ENOENT, 0, s) else (0, r, upd_inode s r (fun n => set_n_shared (n_shared n + 1) n))
    end.

(** The loop over all entries for one with a name: its index, its slot and its inode. *)
Fixpoint find_slot (n : nat) s (t i : Z) (name : list Z) : option (Z * (Z * Z) * Z) :=
  match n with
  | O => None
  | S n =>
    match tempfs_entry_ptr s t i with
    | None => find_slot n s t (i + 1) name
    | Some slot =>
      let child := slot_get s slot in
      if (child =? 0) || (internal_data (inode_at s child) =? 0) then find_slot n s t (i + 1) name
      else if name_is s child name then Some (i, slot, child)
      else find_slot n s t (i + 1) name
    end
  end.

Definition tempfs_unlink s (dir : Z) (name : list Z) : Z * tfs H P :=
  let t := internal_data (inode_at s dir) in
  if (dir =? 0) || (t =? 0) || (length name =? 0)%nat then (- ENOENT, s)
  else
    match find_slot (Z.to_nat (capacity (node_at s t))) s t 0 name with
    | None => (- ENOENT, s)
    | Some (i, slot, child) =>
      if bool_decide (n_type (inode_at s child) = INODE_DIRECTORY) && (capacity (node_at s (internal_data (inode_at s child))) >? 0) then (- ENOTEMPTY, s)
      else
        let last_index := capacity (node_at s t) - 1 in
        let s :=
          if negb (i =? last_index) then
            match tempfs_entry_ptr s t last_index with
            | Some last_slot => slot_set s slot (slot_get s last_slot)
            | None => s
            end
          else s in
        let s := match tempfs_entry_ptr s t last_index with Some last_slot => slot_set s last_slot 0 | None => s end in
        let s := upd_node s t (fun d => set_capacity (capacity d - 1) d) in
        (0, tf_vfs_drop s child)
    end.

Definition tempfs_rename s (dir : Z) (oldname newname : list Z) : Z * tfs H P :=
  let t := internal_data (inode_at s dir) in
  if (dir =? 0) || (t =? 0) || (length oldname =? 0)%nat || (length newname =? 0)%nat then (- ENOENT, s)
  else if Z.of_nat (length newname) >=? TEMPFS_MAX_NAME_LEN then (- ENAMETOOLONG, s)
  else
    let size := Z.to_nat (capacity (node_at s t)) in
    match find_slot size s t 0 newname with
    | Some _ => (- EEXIST, s)
    | None =>
      match find_slot size s t 0 oldname with
      | None => (- ENOENT, s)
      | Some (_, _, child) =>
        let s := upd_node s (internal_data (inode_at s child)) (set_t_name newname) in
        (0, upd_inode s child (set_vfs_name newname))
      end
    end.

Definition tempfs_symlink s (dir : Z) (name target : list Z) : option (Z * Z * tfs H P) :=
  let t := internal_data (inode_at s dir) in
  match find_slot (Z.to_nat (capacity (node_at s t))) s t 0 name with
  | Some _ => Some (- EEXIST, 0, s)
  | None =>
    '(r, link, s) ← tempfs_create s dir name INODE_SYMLINK;
    if r <? 0 then Some (r, 0, s)
    else
      let '(w, s) := tempfs_write s link target 0 in
      if negb (w =? Z.of_nat (length target)) then
        let s := tf_vfs_drop s link in
        let '(_, s) := tempfs_unlink s dir name in
        Some (- ENOSPC, 0, s)
      else Some (0, link, s)
  end.

Definition tempfs_readlink s (i size : Z) : Z + list Z := tempfs_read s i size 0.

Definition tempfs_mount_root s : Z * Z * tfs H P :=
  let '(root, s) := tempfs_create_inode s INODE_DIRECTORY dir_ops in
  (if root =? 0 then - ENOMEM else 0, root, s).

End Tempfs.
