(* ===== verification/TempfsFile.v ===== *)
(** * Files of the memory file system

    A file is the bytes of its chain of chunks: what reads and writes do to it, against an array of
    bytes with zeros in its holes. *)

From S2P Require Import Prelude Heap KallocProofs Tempfs.

#[local] Abbreviation CH := MAX_FILE_DATA_PER_CHUNK.

Lemma CH_eq : CH = 4088.
Proof. done. Qed.

(** The chunk [j] of a chain, [NULL] behind its end. *)
Definition nth_ptr (l : list Z) (j : nat) : Z := default 0 (l !! j).

(** The pointer to the pointer to chunk [j]. *)
Definition link_at (t : Z) (l : list Z) (j : nat) : Link := match j with O => LData t | S j => LNext (nth_ptr l j) end.

Lemma nth_ptr_lookup l j c : l !! j = Some c -> nth_ptr l j = c.
Proof. unfold nth_ptr. by intros ->. Qed.

Lemma nth_ptr_end l : nth_ptr l (length l) = 0.
Proof. unfold nth_ptr. by rewrite lookup_ge_None_2. Qed.

Lemma nth_ptr_app l new j : (j < length l)%nat -> nth_ptr (l ++ new) j = nth_ptr l j.
Proof. intros Hj. unfold nth_ptr. by rewrite lookup_app_l. Qed.

Lemma nth_ptr_snoc l p : nth_ptr (l ++ [p]) (length l) = p.
Proof. unfold nth_ptr. by rewrite lookup_app_r, Nat.sub_diag by lia. Qed.

Lemma link_at_app t l new j : (j <= length l)%nat -> link_at t (l ++ new) j = link_at t l j.
Proof. destruct j as [|j]; [done|]. intros Hj. simpl. by rewrite nth_ptr_app. Qed.

Lemma put_cells_lookup vs : forall i m k, put_cells i vs m !! k = if (i <=? k) && (k <? i + Z.of_nat (length vs)) then vs !! Z.to_nat (k - i) else m !! k.
Proof.
  induction vs as [|v vs IH]; intros i m k; cbn [put_cells length].
  - destruct (Z.leb_spec i k), (Z.ltb_spec k (i + Z.of_nat 0)); try lia; done.
  - rewrite IH. destruct (decide (k = i)) as [->|Hne].
    + rewrite lookup_insert_eq, Z.sub_diag. destruct (Z.leb_spec (i + 1) i), (Z.leb_spec i i), (Z.ltb_spec i (i + Z.of_nat (S (length vs)))); simpl; done || lia.
    + rewrite lookup_insert_ne by done.
      destruct (Z.leb_spec (i + 1) k), (Z.ltb_spec k (i + 1 + Z.of_nat (length vs))), (Z.leb_spec i k), (Z.ltb_spec k (i + Z.of_nat (S (length vs)))); simpl; try lia; try done.
      by replace (Z.to_nat (k - i)) with (S (Z.to_nat (k - (i + 1)))) by lia.
Qed.

Lemma sane_nonnull p : tempfs_chunk_ptr_sane p = true -> p <> 0.
Proof. intros Hp ->. done. Qed.

Section Files.

Context {H P : Type} `{HH : Heap H} `{PP : PageSource P}.

(** Addresses of the kernel are canonical. *)
Hypothesis pages_sane : forall p m p', src_ok p -> src_alloc 1 p = (m, p') -> m <> 0 -> tempfs_chunk_ptr_sane m = true.

Implicit Types s : tfs H P.

(** Every chunk is a page of the source. *)
Definition chunk_space s : Prop := src_ok (tf_pages s) /\ forall c, is_Some (tf_chunks s !! c) -> owned (tf_pages s) !! c = Some 1.

(** [t] has the chain [l] and contents of its own. *)
Record wf s (t : Z) (l : list Z) : Prop := {
  wf_space : chunk_space s;
  wf_node : is_Some (tf_nodes s !! t);
  wf_own : borrowed (node_at s t) = None;
  wf_head : t_data (node_at s t) = nth_ptr l 0;
  wf_next : forall j c, l !! j = Some c -> tempfs_chunk_ptr_sane c = true /\ is_Some (tf_chunks s !! c) /\ next_chunk (chunk_at s c) = nth_ptr l (S j);
  wf_nodup : NoDup l;
}.

(** The byte [k] of a chain. *)
Definition fbyte s (l : list Z) (k : Z) : Z :=
  match l !! Z.to_nat (k / CH) with
  | Some c => cell (chunk_at s c) (k `mod` CH)
  | None => 0
  end.

(** A change of [t] that makes its chain longer: nothing else that was there is touched. *)
Record extends s s' (t : Z) (l l' : list Z) : Prop := {
  ex_wf : wf s' t l';
  ex_more : exists new, l' = l ++ new;
  ex_fresh : forall c, c ∈ l' -> c ∉ l -> tf_chunks s !! c = None;
  ex_chunks : forall c ch, tf_chunks s !! c = Some ch -> c ∉ l -> tf_chunks s' !! c = Some ch;
  ex_nodes : forall t', t' <> t -> tf_nodes s' !! t' = tf_nodes s !! t';
  ex_node : set_data 0 (node_at s' t) = set_data 0 (node_at s t);
  ex_inodes : tf_inodes s' = tf_inodes s;
  ex_heap : tf_heap s' = tf_heap s;
  ex_root : tf_root s' = tf_root s;
  ex_now : tf_now s' = tf_now s;
}.

Lemma longer_refl s t l : wf s t l -> extends s s t l l.
Proof. intros Hw. constructor; try done. by exists []; rewrite app_nil_r. Qed.

Lemma longer_trans s1 s2 s3 t l1 l2 l3 : extends s1 s2 t l1 l2 -> extends s2 s3 t l2 l3 -> extends s1 s3 t l1 l3.
Proof.
  intros H1 H2. destruct (ex_more _ _ _ _ _ H1) as [n1 E1], (ex_more _ _ _ _ _ H2) as [n2 E2].
  assert (Hold : forall c ch, tf_chunks s1 !! c = Some ch -> c ∉ l1 -> c ∉ l2).
  { intros c ch Hc Hout Hin. pose proof (ex_fresh _ _ _ _ _ H1 c Hin Hout). congruence. }
  constructor.
  - apply H2.
  - exists (n1 ++ n2). rewrite E2, E1. by rewrite app_assoc.
  - intros c Hin Hout. destruct (decide (c ∈ l2)) as [Hin2|Hout2]; [by eapply (ex_fresh _ _ _ _ _ H1)|].
    destruct (tf_chunks s1 !! c) as [ch|] eqn:E; [|done]. pose proof (ex_chunks _ _ _ _ _ H1 c ch E Hout) as E'.
    pose proof (ex_fresh _ _ _ _ _ H2 c Hin Hout2). congruence.
  - intros c ch Hc Hout. eapply (ex_chunks _ _ _ _ _ H2); [by eapply (ex_chunks _ _ _ _ _ H1)|by eapply Hold].
  - intros t' Ht. by rewrite (ex_nodes _ _ _ _ _ H2), (ex_nodes _ _ _ _ _ H1) by done.
  - by rewrite (ex_node _ _ _ _ _ H2), (ex_node _ _ _ _ _ H1).
  - by rewrite (ex_inodes _ _ _ _ _ H2), (ex_inodes _ _ _ _ _ H1).
  - by rewrite (ex_heap _ _ _ _ _ H2), (ex_heap _ _ _ _ _ H1).
  - by rewrite (ex_root _ _ _ _ _ H2), (ex_root _ _ _ _ _ H1).
  - by rewrite (ex_now _ _ _ _ _ H2), (ex_now _ _ _ _ _ H1).
Qed.

Lemma wf_nonnull s t l j : wf s t l -> (j < length l)%nat -> nth_ptr l j <> 0.
Proof. intros Hw Hj. destruct (lookup_lt_is_Some_2 l j Hj) as [c Hc]. rewrite (nth_ptr_lookup _ _ _ Hc). apply sane_nonnull. by eapply wf_next. Qed.

Lemma wf_sane s t l j : wf s t l -> (j < length l)%nat -> tempfs_chunk_ptr_sane (nth_ptr l j) = true.
Proof. intros Hw Hj. destruct (lookup_lt_is_Some_2 l j Hj) as [c Hc]. rewrite (nth_ptr_lookup _ _ _ Hc). by eapply wf_next. Qed.

Lemma wf_follow s t l j : wf s t l -> (j < length l)%nat -> next_chunk (chunk_at s (nth_ptr l j)) = nth_ptr l (S j).
Proof. intros Hw Hj. destruct (lookup_lt_is_Some_2 l j Hj) as [c Hc]. rewrite (nth_ptr_lookup _ _ _ Hc). by eapply wf_next. Qed.

Lemma wf_link s t l j : wf s t l -> (j <= length l)%nat -> read_link s (link_at t l j) = nth_ptr l j.
Proof. intros Hw Hj. destruct j as [|j]; [apply Hw|]. simpl. apply (wf_follow s t); [done|lia]. Qed.

Lemma chunk_at_insert s ps c ch c' : chunk_at (tf_set_pages s ps (<[c := ch]> (tf_chunks s))) c' = if decide (c' = c) then ch else chunk_at s c'.
Proof. unfold chunk_at. simpl. case_decide as E; [subst; by rewrite lookup_insert_eq|by rewrite lookup_insert_ne by congruence]. Qed.

Lemma node_at_insert s t f t' : node_at (upd_node s t f) t' = if decide (t' = t) then f (node_at s t) else node_at s t'.
Proof. unfold node_at, upd_node. simpl. case_decide as E; [subst; by rewrite lookup_insert_eq|by rewrite lookup_insert_ne by congruence]. Qed.

(** Storing bytes into a chunk of the chain. *)
Lemma store_chunk s t l j off vs :
  wf s t l -> (j < length l)%nat -> 0 <= off -> off + Z.of_nat (length vs) <= CH ->
  let s' := upd_chunk s (nth_ptr l j) (set_cells off vs) in let base := CH * Z.of_nat j + off in
  extends s s' t l l /\
  forall k, 0 <= k -> fbyte s' l k = if (base <=? k) && (k <? base + Z.of_nat (length vs)) then default 0 (vs !! Z.to_nat (k - base)) else fbyte s l k.
Proof.
  intros Hw Hj Hoff Hlen s' base. destruct (lookup_lt_is_Some_2 l j Hj) as [c Hc]. pose proof (nth_ptr_lookup _ _ _ Hc) as Ec.
  assert (Hin : c ∈ l) by (by eapply list_elem_of_lookup_2).
  assert (Hat : forall c', chunk_at s' c' = if decide (c' = c) then set_cells off vs (chunk_at s c) else chunk_at s c').
  { intros c'. unfold s', upd_chunk. rewrite Ec, chunk_at_insert. by case_decide; subst. }
  assert (Hsome : forall c', is_Some (tf_chunks s' !! c') <-> is_Some (tf_chunks s !! c')).
  { intros c'. unfold s'. simpl. rewrite Ec. destruct (decide (c' = c)) as [->|Hne]; [|by rewrite lookup_insert_ne by congruence].
    rewrite lookup_insert_eq. split; [intros _|done]. by eapply (wf_next _ _ _ Hw). }
  split.
  - constructor; try done.
    + destruct Hw as [[Hsrc Hown] ?? Hhead Hnext Hnd]. constructor; try done.
      * split; [done|]. intros c' Hc'. apply Hown. by apply Hsome.
      * intros j' c' Hj'. destruct (Hnext j' c' Hj') as (Hsane & Hs & Hn). split_and!; [done|by apply Hsome|]. rewrite Hat. by case_decide; subst.
    + exists []. by rewrite app_nil_r.
    + intros c' ch Hch Hout. unfold s'. simpl. rewrite Ec, lookup_insert_ne; [done|]. by intros ->.
  - intros k Hk. unfold fbyte. assert (Eb : base = 4088 * Z.of_nat j + off) by (unfold base; by rewrite CH_eq). clearbody base. subst base. rewrite CH_eq in *.
    destruct (l !! Z.to_nat (k / 4088)) as [c'|] eqn:El.
    + rewrite Hat. case_decide as Ecc.
      * subst c'. assert (Z.to_nat (k / 4088) = j) as Ej by (eapply NoDup_lookup; [apply Hw|done|done]).
        unfold set_cells, cell. simpl. rewrite put_cells_lookup.
        assert (Hkj : k = 4088 * Z.of_nat j + k `mod` 4088) by (pose proof (Z.div_mod k 4088); pose proof (Z.div_pos k 4088); lia).
        destruct (Z.leb_spec off (k `mod` 4088)), (Z.ltb_spec (k `mod` 4088) (off + Z.of_nat (length vs))),
          (Z.leb_spec (4088 * Z.of_nat j + off) k), (Z.ltb_spec k (4088 * Z.of_nat j + off + Z.of_nat (length vs))); simpl; try lia; try done.
        by replace (k - (4088 * Z.of_nat j + off)) with (k `mod` 4088 - off) by lia.
      * destruct (Z.leb_spec (4088 * Z.of_nat j + off) k), (Z.ltb_spec k (4088 * Z.of_nat j + off + Z.of_nat (length vs))); simpl; try done. exfalso. apply Ecc.
        assert (Z.to_nat (k / 4088) = j) as Ej by zlia. congruence.
    + destruct (Z.leb_spec (4088 * Z.of_nat j + off) k), (Z.ltb_spec k (4088 * Z.of_nat j + off + Z.of_nat (length vs))); simpl; try done. exfalso.
      assert (Z.to_nat (k / 4088) = j) as Ej by zlia. rewrite Ej in El. congruence.
Qed.

(** ** Making chunks *)

Lemma new_chunk s : chunk_space s ->
  exists p s', tempfs_new_data_chunk s = (p, s') /\ chunk_space s' /\ tf_nodes s' = tf_nodes s /\ tf_inodes s' = tf_inodes s /\ tf_heap s' = tf_heap s /\
    tf_root s' = tf_root s /\ tf_now s' = tf_now s /\
    ((p = 0 /\ tf_chunks s' = tf_chunks s) \/ (tempfs_chunk_ptr_sane p = true /\ tf_chunks s !! p = None /\ tf_chunks s' = <[p := no_chunk]> (tf_chunks s))).
Proof.
  intros [Hsrc Hown]. unfold tempfs_new_data_chunk. change (TEMPFS_DATA_CHUNK_SIZE / PAGE_SIZE) with 1.
  destruct (src_alloc 1 (tf_pages s)) as [p ps] eqn:E. destruct (src_alloc_spec 1 _ _ _ Hsrc ltac:(lia) E) as [Hsrc' [[-> Ho]|(Hp & Hnew & Ho)]].
  - exists 0. eexists. split; [done|]. split_and!; try done; [|by left]. split; [done|]. intros c Hc. simpl. rewrite Ho. by apply Hown.
  - rewrite (proj2 (Z.eqb_neq p 0)) by lia. exists p. eexists. split; [done|]. split_and!; try done.
    + split; [done|]. simpl. intros c Hc. rewrite Ho. destruct (decide (c = p)) as [->|Hne]; [apply lookup_insert_eq|].
      rewrite lookup_insert_ne by done. rewrite lookup_insert_ne in Hc by done. by apply Hown.
    + right. split_and!; [by eapply pages_sane; [exact Hsrc|exact E|lia]| |done].
      destruct (tf_chunks s !! p) eqn:Ec; [|done]. rewrite (Hown p) in Hnew by (by rewrite Ec). done.
Qed.

(** A new chunk at the end of the chain; its bytes are 0. *)
Lemma link_new s s1 t l p :
  wf s t l -> chunk_space s1 -> tf_nodes s1 = tf_nodes s -> tf_inodes s1 = tf_inodes s -> tf_heap s1 = tf_heap s -> tf_root s1 = tf_root s -> tf_now s1 = tf_now s ->
  tempfs_chunk_ptr_sane p = true -> tf_chunks s !! p = None -> tf_chunks s1 = <[p := no_chunk]> (tf_chunks s) ->
  let s' := write_link s1 (link_at t l (length l)) p in
  extends s s' t l (l ++ [p]) /\ forall k, fbyte s' (l ++ [p]) k = fbyte s l k.
Proof.
  intros Hw Hsp En Ei Eh Er Eo Hsane Hp Ec s'.
  assert (Hpl : p ∉ l). { intros Hin. apply list_elem_of_lookup in Hin as [j Hj]. destruct (wf_next _ _ _ Hw j p Hj) as (_ & [ch Hch] & _). congruence. }
  assert (Hs1 : forall c, chunk_at s1 c = if decide (c = p) then no_chunk else chunk_at s c).
  { intros c. unfold chunk_at. rewrite Ec. case_decide as E; [subst; by rewrite lookup_insert_eq|by rewrite lookup_insert_ne by congruence]. }
  assert (Hat : forall c, chunk_at s' c = if decide (c = p) then no_chunk else
                  if decide (l <> [] /\ c = nth_ptr l (pred (length l))) then set_next_chunk p (chunk_at s c) else chunk_at s c).
  { intros c. unfold s'. destruct l as [|c0 l0]; [etrans; [exact (Hs1 c)|]; repeat case_decide; tauto|]. cbn [length link_at pred write_link].
    unfold upd_chunk. rewrite chunk_at_insert, !Hs1. set (q := nth_ptr (c0 :: l0) (length l0)) in *.
    assert (q <> p). { intros E. apply Hpl. apply (list_elem_of_lookup_2 _ (length l0)). destruct (lookup_lt_is_Some_2 (c0 :: l0) (length l0)) as [x Hx]; [simpl; lia|].
      unfold q in E. rewrite (nth_ptr_lookup _ _ _ Hx) in E. by subst. }
    repeat case_decide; subst; try done; naive_solver. }
  assert (Hdom : forall c, is_Some (tf_chunks s' !! c) -> c = p \/ is_Some (tf_chunks s !! c)).
  { intros c Hc. unfold s' in Hc. destruct l as [|c0 l0]; cbn [length link_at write_link] in Hc.
    - simpl in Hc. rewrite Ec in Hc. destruct (decide (c = p)); [by left|]. right. by rewrite lookup_insert_ne in Hc by done.
    - simpl in Hc. destruct (decide (c = nth_ptr (c0 :: l0) (length l0))) as [->|Hne].
      + right. destruct (lookup_lt_is_Some_2 (c0 :: l0) (length l0)) as [x Hx]; [simpl; lia|]. rewrite (nth_ptr_lookup _ _ _ Hx). by eapply (wf_next _ _ _ Hw).
      + rewrite lookup_insert_ne in Hc by done. rewrite Ec in Hc. destruct (decide (c = p)); [by left|]. right. by rewrite lookup_insert_ne in Hc by done. }
  assert (Hpres : forall c, c <> p -> is_Some (tf_chunks s !! c) -> is_Some (tf_chunks s' !! c)).
  { intros c Hne Hc. unfold s'. destruct l as [|c0 l0]; cbn [length link_at write_link]; simpl; rewrite Ec; [by rewrite lookup_insert_ne by done|].
    destruct (decide (c = nth_ptr (c0 :: l0) (length l0))) as [->|]; [by rewrite lookup_insert_eq|]. by rewrite !lookup_insert_ne by done. }
  assert (Hlen : forall j c, l !! j = Some c -> (c = nth_ptr l (pred (length l)) <-> S j = length l)).
  { intros j c Hj. pose proof (lookup_lt_Some _ _ _ Hj). destruct (lookup_lt_is_Some_2 l (pred (length l))) as [x Hx]; [lia|]. rewrite (nth_ptr_lookup _ _ _ Hx). split.
    - intros ->. assert (j = pred (length l)) by (by eapply NoDup_lookup; [apply Hw|..]). lia.
    - intros E. replace (pred (length l)) with j in Hx by lia. congruence. }
  split.
  - constructor; try (unfold s'; destruct l; done).
    + constructor.
      * split; [unfold s'; destruct l; apply Hsp|]. intros c Hc. unfold s'. replace (tf_pages (write_link s1 _ p)) with (tf_pages s1) by (by destruct l).
        apply (proj2 Hsp). rewrite Ec. destruct (Hdom c Hc) as [->|Hs]; [by rewrite lookup_insert_eq|]. destruct (decide (c = p)) as [->|]; [by rewrite lookup_insert_eq|by rewrite lookup_insert_ne].
      * unfold s'. destruct l; simpl; [by rewrite lookup_insert_eq|]. rewrite En. apply Hw.
      * unfold s'. destruct l; cbn [length link_at write_link]; [rewrite node_at_insert; case_decide; [|done]; simpl|]; unfold node_at; simpl; rewrite En; apply Hw.
      * unfold s'. destruct l as [|c0 l0]; cbn [length link_at write_link]; [rewrite node_at_insert; by case_decide|]. unfold node_at. simpl. rewrite En. apply Hw.
      * intros j c Hj. rewrite Hat. apply lookup_app_Some in Hj as [Hj|[Hge Hj]].
        -- destruct (wf_next _ _ _ Hw j c Hj) as (Hc & Hs & Hn). assert (c <> p) by (intros ->; apply Hpl; by eapply list_elem_of_lookup_2).
           pose proof (lookup_lt_Some _ _ _ Hj). split_and!; [done|by apply Hpres|]. rewrite decide_False by done. case_decide as Elast.
           ++ destruct Elast as [_ Elast]. apply (Hlen j c Hj) in Elast. rewrite Elast, nth_ptr_snoc. done.
           ++ rewrite Hn. rewrite nth_ptr_app; [done|]. destruct (decide (S j = length l)) as [E|]; [|lia]. exfalso. apply Elast. split; [by destruct l|]. by apply (Hlen j c Hj).
        -- apply list_lookup_singleton_Some in Hj as [Hj <-]. split_and!; [done| |].
           ++ unfold s'. destruct l; cbn [length link_at write_link]; simpl; rewrite Ec; [by rewrite lookup_insert_eq|]. destruct (decide (p = nth_ptr (z :: l) (length l))) as [->|]; [by rewrite lookup_insert_eq|].
              by rewrite lookup_insert_ne, lookup_insert_eq by done.
           ++ rewrite decide_True by done. unfold nth_ptr. rewrite lookup_ge_None_2; [done|]. rewrite length_app. simpl. lia.
      * apply list.NoDup_app. split_and!; [apply Hw| |apply list.NoDup_singleton]. intros x Hx ->%list_elem_of_singleton. done.
    + by exists [p].
    + intros c Hin Hout. apply elem_of_app in Hin as [Hin|Hin]; [done|]. apply list_elem_of_singleton in Hin as ->. done.
    + intros c ch Hc Hout. assert (c <> p) by congruence. unfold s'. destruct l as [|c0 l0]; cbn [length link_at write_link]; simpl; rewrite Ec; [by rewrite lookup_insert_ne by done|].
      rewrite !lookup_insert_ne; [done|done|]. intros E. apply Hout. subst c. destruct (lookup_lt_is_Some_2 (c0 :: l0) (length l0)) as [x Hx]; [simpl; lia|].
      rewrite (nth_ptr_lookup _ _ _ Hx). by eapply list_elem_of_lookup_2.
    + intros t' Ht. unfold s'. destruct l; simpl; [rewrite lookup_insert_ne by done|]; by rewrite En.
    + unfold s'. destruct l; cbn [length link_at write_link]; [rewrite node_at_insert; case_decide; [|done]|]; unfold node_at; simpl; by rewrite En.
  - intros k. unfold fbyte. destruct (decide (Z.to_nat (k / CH) < length l)%nat) as [Hlt|Hge].
    + rewrite lookup_app_l by done. destruct (lookup_lt_is_Some_2 l _ Hlt) as [c Hc]. rewrite Hc. rewrite Hat, decide_False by (intros ->; apply Hpl; by eapply list_elem_of_lookup_2). by case_decide.
    + rewrite (lookup_ge_None_2 l) by lia. rewrite lookup_app_r by lia. destruct (_ - _)%nat; simpl; [|done]. by rewrite Hat, decide_True.
Qed.

(** Only the page source changed. *)
Lemma extends_pages s s' t l :
  wf s t l -> chunk_space s' -> tf_nodes s' = tf_nodes s -> tf_chunks s' = tf_chunks s -> tf_inodes s' = tf_inodes s -> tf_heap s' = tf_heap s ->
  tf_root s' = tf_root s -> tf_now s' = tf_now s -> extends s s' t l l /\ forall k, fbyte s' l k = fbyte s l k.
Proof.
  intros Hw Hsp En Ec Ei Eh Er Eo. assert (Hat : forall c, chunk_at s' c = chunk_at s c) by (intros c; unfold chunk_at; by rewrite Ec).
  split; [|intros k; unfold fbyte; destruct (l !! _); [by rewrite Hat|done]]. constructor; try done; try congruence.
  - destruct Hw. constructor; try done; try (unfold node_at; rewrite En; done). intros j c Hj. rewrite Hat, Ec. auto.
  - exists []. by rewrite app_nil_r.
  - unfold node_at. by rewrite En.
Qed.

Lemma write_null s1 t l :
  is_Some (tf_nodes s1 !! t) -> read_link s1 (link_at t l (length l)) = 0 -> (l <> [] -> is_Some (tf_chunks s1 !! nth_ptr l (pred (length l)))) ->
  let s' := write_link s1 (link_at t l (length l)) 0 in
  tf_nodes s' = tf_nodes s1 /\ tf_chunks s' = tf_chunks s1 /\ tf_inodes s' = tf_inodes s1 /\ tf_heap s' = tf_heap s1 /\ tf_root s' = tf_root s1 /\ tf_now s' = tf_now s1 /\ tf_pages s' = tf_pages s1.
Proof.
  intros [d Hd] Hnull Hlast s'. unfold s'. destruct l as [|c l]; cbn [length link_at write_link] in *.
  - split_and!; try done. simpl. apply insert_id. rewrite Hd. unfold read_link, node_at in *. rewrite Hd in *. simpl in *. destruct d. simpl in *. by subst.
  - split_and!; try done. simpl. apply insert_id. destruct (Hlast ltac:(done)) as [ch Hch]. cbn [length pred] in Hch. unfold read_link, chunk_at in *. rewrite Hch in *. simpl in *.
    destruct ch. simpl in *. by subst.
Qed.

(** The chunk [j], made if the chain ends before it. *)
Lemma need_chunk_spec s t l j : wf s t l -> (j <= length l)%nat ->
  exists p s' l', need_chunk s (link_at t l j) (nth_ptr l j) = (p, s') /\ extends s s' t l l' /\ (forall k, fbyte s' l' k = fbyte s l k) /\
    ((p = 0 /\ j = length l) \/ (p = nth_ptr l' j /\ (j < length l')%nat)).
Proof.
  intros Hw Hj. unfold need_chunk. destruct (decide (j = length l)) as [->|Hne].
  - rewrite nth_ptr_end. simpl. destruct (new_chunk s (wf_space _ _ _ Hw)) as (p & s1 & -> & Hsp & En & Ei & Eh & Er & Eo & [[-> Ec]|(Hsane & Hp & Ec)]).
    + assert (Hnull : read_link s1 (link_at t l (length l)) = 0).
      { rewrite <- (nth_ptr_end l), <- (wf_link s t l (length l) Hw) by done. destruct l; simpl; unfold node_at, chunk_at; by rewrite ?En, ?Ec. }
      destruct (write_null s1 t l) as (N & C & I & Hp & R & O & G); [rewrite En; apply Hw|done| |].
      { intros Hne. rewrite Ec. destruct (lookup_lt_is_Some_2 l (pred (length l))) as [x Hx]; [destruct l; simpl in *; [done|lia]|].
        rewrite (nth_ptr_lookup _ _ _ Hx). by eapply (wf_next _ _ _ Hw). }
      destruct (extends_pages s (write_link s1 (link_at t l (length l)) 0) t l) as [Hex Hb]; try done; try congruence.
      { unfold chunk_space. rewrite G, C. exact Hsp. }
      exists 0. eexists. exists l. split; [done|]. split_and!; [exact Hex|exact Hb|by left].
    + destruct (link_new s s1 t l p) as [Hex Hb]; [done..|]. exists p. eexists. exists (l ++ [p]). split; [done|]. split_and!; [done|done|]. right.
      rewrite nth_ptr_snoc, length_app. simpl. split; [done|lia].
  - rewrite (proj2 (Z.eqb_neq _ 0)) by (eapply wf_nonnull; [done|lia]). exists (nth_ptr l j), s, l. split; [done|]. split_and!; [by apply longer_refl|done|]. right. split; [done|lia].
Qed.

(** ** Writing *)

Lemma write_skip_spec fuel : forall s t l j offset, wf s t l -> (j <= length l)%nat -> 0 <= offset -> offset / CH < Z.of_nat fuel ->
  exists r s' l', write_skip fuel s (link_at t l j) (nth_ptr l j) offset = (r, s') /\ extends s s' t l l' /\ (forall k, fbyte s' l' k = fbyte s l k) /\
    ((r = inl (- ENOMEM) /\ Z.of_nat (length l) < Z.of_nat j + offset / CH) \/ let q := (j + Z.to_nat (offset / CH))%nat in r = inr (link_at t l' q, nth_ptr l' q, offset `mod` CH) /\ (q <= length l')%nat).
Proof.
  rewrite CH_eq. induction fuel as [|fuel IH]; intros s t l j offset Hw Hj Hoff Hf; [zlia|]. cbn [write_skip]. rewrite CH_eq, Z.geb_leb.
  destruct (Z.leb_spec 4088 offset) as [Hge|Hlt].
  - assert (Hgo : negb (nth_ptr l j =? 0) && negb (tempfs_chunk_ptr_sane (nth_ptr l j)) = false).
    { destruct (decide (j = length l)) as [->|]; [by rewrite nth_ptr_end|]. rewrite (wf_sane s t l j) by (done || lia). apply andb_false_r. }
    rewrite Hgo. destruct (need_chunk_spec s t l j Hw Hj) as (p & s1 & l1 & -> & Hex1 & Hb1 & Hp). destruct Hp as [[-> ->]|[-> Hj1]]; [exists (inl (- ENOMEM)), s1, l1; split_and!; [done|done|done|left; split; [done|zlia]]|].
    pose proof (ex_wf _ _ _ _ _ Hex1) as Hw1. rewrite (proj2 (Z.eqb_neq _ 0)) by (by eapply wf_nonnull). rewrite (wf_follow s1 t l1 j) by done.
    destruct (IH s1 t l1 (S j) (offset - 4088) Hw1) as (r & s2 & l2 & E & Hex2 & Hb2 & Hr); [lia|lia|zlia|]. cbn [link_at] in E. rewrite E.
    exists r, s2, l2. split; [done|]. split; [by eapply longer_trans|]. split; [intros k; by rewrite Hb2|].
    destruct (ex_more _ _ _ _ _ Hex1) as [new1 El1]. pose proof (f_equal length El1) as Hl1. rewrite length_app in Hl1.
    destruct Hr as [[-> Hq]|[-> Hq]]; [left; split; [done|zlia]|]. right.
    assert (Eq : (S j + Z.to_nat ((offset - 4088) / 4088))%nat = (j + Z.to_nat (offset / 4088))%nat) by zlia. rewrite Eq in Hq |- *.
    replace ((offset - 4088) `mod` 4088) with (offset `mod` 4088) by zlia. done.
  - exists (inr (link_at t l j, nth_ptr l j, offset)), s, l. split; [done|]. split; [by apply longer_refl|]. split; [done|]. right.
    rewrite Z.div_small, Z.mod_small by lia. rewrite Nat.add_0_r. done.
Qed.

(** [bs] at the bytes from [base] on. *)
Definition over (bs : list Z) (base : Z) (f : Z -> Z) (k : Z) : Z :=
  if (base <=? k) && (k <? base + Z.of_nat (length bs)) then default 0 (bs !! Z.to_nat (k - base)) else f k.

Lemma over_split bs n base f g k :
  (n <= length bs)%nat -> (forall k, 0 <= k -> g k = over (take n bs) base f k) -> 0 <= k -> over (drop n bs) (base + Z.of_nat n) g k = over bs base f k.
Proof.
  intros Hn Hg Hk. unfold over in *. rewrite Hg by done. rewrite length_drop, length_take, Nat.min_l by done.
  destruct (Z.leb_spec base k), (Z.ltb_spec k (base + Z.of_nat n)), (Z.leb_spec (base + Z.of_nat n) k), (Z.ltb_spec k (base + Z.of_nat n + Z.of_nat (length bs - n))),
    (Z.ltb_spec k (base + Z.of_nat (length bs))); simpl; try lia; try done.
  - rewrite lookup_take_lt by lia. done.
  - rewrite lookup_drop. do 2 f_equal. lia.
Qed.

Lemma write_chunks_spec fuel : forall s t l j off bs, wf s t l -> (j <= length l)%nat -> 0 <= off < CH -> (length bs < fuel)%nat ->
  let base := CH * Z.of_nat j + off in
  exists r s' l', write_chunks fuel s (link_at t l j) (nth_ptr l j) off bs = (r, s') /\ extends s s' t l l' /\
    ((r = - ENOMEM /\ CH * Z.of_nat (length l) < base + Z.of_nat (length bs)) \/ (r = 0 /\ (forall k, 0 <= k -> fbyte s' l' k = over bs base (fbyte s l) k) /\ (bs <> [] -> base + Z.of_nat (length bs) <= CH * Z.of_nat (length l')))).
Proof.
  induction fuel as [|fuel IH]; intros s t l j off bs Hw Hj Hoff Hf base; [lia|]. cbn [write_chunks]. destruct bs as [|b bs].
  { exists 0, s, l. split; [done|]. split; [by apply longer_refl|]. right. split_and!; [done| |done]. intros k Hk. unfold over.
    destruct (Z.leb_spec base k), (Z.ltb_spec k (base + Z.of_nat (length (@nil Z)))); simpl in *; done || lia. }
  assert (Hgo : negb (nth_ptr l j =? 0) && negb (tempfs_chunk_ptr_sane (nth_ptr l j)) = false).
  { destruct (decide (j = length l)) as [->|]; [by rewrite nth_ptr_end|]. rewrite (wf_sane s t l j) by (done || lia). apply andb_false_r. }
  rewrite Hgo. destruct (need_chunk_spec s t l j Hw Hj) as (p & s1 & l1 & -> & Hex1 & Hb1 & Hp).
  destruct (ex_more _ _ _ _ _ Hex1) as [new1 El1]. pose proof (f_equal length El1) as Hl1. rewrite length_app in Hl1.
  destruct Hp as [[-> ->]|[-> Hj1]]; [exists (- ENOMEM), s1, l1; split_and!; [done|done|left; split; [done|unfold base; simpl length; lia]]|].
  pose proof (ex_wf _ _ _ _ _ Hex1) as Hw1. rewrite (proj2 (Z.eqb_neq _ 0)) by (by eapply wf_nonnull).
  set (all := b :: bs) in *. set (n := Z.to_nat (if Z.of_nat (length all) <? CH - off then Z.of_nat (length all) else CH - off)). cbv zeta.
  assert (Hn : (0 < n)%nat /\ (n <= length all)%nat /\ off + Z.of_nat n <= CH /\ (n = length all \/ off + Z.of_nat n = CH)).
  { unfold n, all in *. simpl length in *. case_if; lia. }
  destruct (store_chunk s1 t l1 j off (take n all) Hw1 Hj1) as [Hex2 Hb2]; [lia|rewrite length_take; lia|]. set (s2 := upd_chunk _ _ _) in *.
  pose proof (ex_wf _ _ _ _ _ Hex2) as Hw2. rewrite (wf_follow s2 t l1 j) by done.
  assert (Hbytes : forall k, 0 <= k -> fbyte s2 l1 k = over (take n all) base (fbyte s l) k).
  { intros k Hk. rewrite Hb2 by done. unfold over. rewrite !length_take, Hb1. done. }
  pose proof (longer_trans _ _ _ _ _ _ _ Hex1 Hex2) as Hex12. destruct Hn as (Hn0 & Hnl & Hoffn & [Hlast|Hfull]).
  - replace (drop n all) with (@nil Z) by (symmetry; apply drop_ge; lia). destruct fuel as [|fuel]; [simpl in Hf; lia|]. cbn [write_chunks].
    exists 0, s2, l1. split; [done|]. split; [done|]. right. split; [done|]. split; [|intros _; unfold base; rewrite CH_eq in *; lia]. intros k Hk. rewrite Hbytes by done. by rewrite take_ge by lia.
  - destruct (IH s2 t l1 (S j) 0 (drop n all) Hw2) as (r & s3 & l3 & E & Hex3 & Hr); [lia|rewrite CH_eq; lia|rewrite length_drop; lia|]. cbn [link_at] in E. rewrite E.
    exists r, s3, l3. split; [done|]. split; [by eapply longer_trans|]. destruct Hr as [[-> Hr]|(-> & Hb3 & Hcap)].
    { left. split; [done|]. rewrite length_drop in Hr. unfold base. rewrite CH_eq in *. lia. }
    right. split; [done|].
    replace (CH * Z.of_nat (S j) + 0) with (base + Z.of_nat n) in * by (unfold base; rewrite CH_eq in *; lia). split.
    + intros k Hk. rewrite Hb3 by done. by apply over_split.
    + intros _. destruct (ex_more _ _ _ _ _ Hex3) as [new E3]. destruct (decide (drop n all = [])) as [Hnil|Hne].
      * apply drop_nil_inv in Hnil. rewrite E3, length_app. unfold base in *. rewrite CH_eq in *. lia.
      * specialize (Hcap Hne). rewrite length_drop in Hcap. lia.
Qed.

(** ** Files *)

Definition size_of s (t : Z) : Z := capacity (node_at s t).

(** The inode [i] is at [t], with the chain [l]. *)
Record is_node s (i t : Z) (l : list Z) : Prop := {
  node_inode : i <> 0;
  node_internal : internal_data (inode_at s i) = t;
  node_nonnull : t <> 0;
  node_wf : wf s t l;
}.

(** A file: its chain is as long as its size. *)
Definition is_file s (i t : Z) (l : list Z) : Prop := is_node s i t l /\ 0 <= size_of s t <= CH * Z.of_nat (length l).

(** Only the file at [t] and its chunks change. *)
Record touched s s' (t : Z) (l l' : list Z) : Prop := {
  to_fresh : forall c, c ∈ l' -> c ∉ l -> tf_chunks s !! c = None;
  to_chunks : forall c ch, tf_chunks s !! c = Some ch -> c ∉ l -> tf_chunks s' !! c = Some ch;
  to_nodes : forall t', t' <> t -> tf_nodes s' !! t' = tf_nodes s !! t';
  to_name : t_name (node_at s' t) = t_name (node_at s t);
  to_inodes : tf_inodes s' = tf_inodes s;
  to_heap : tf_heap s' = tf_heap s;
  to_root : tf_root s' = tf_root s;
  to_now : tf_now s' = tf_now s;
}.

Lemma touched_trans s1 s2 s3 t l1 l2 l3 : touched s1 s2 t l1 l2 -> touched s2 s3 t l2 l3 -> touched s1 s3 t l1 l3.
Proof.
  intros H1 H2. assert (Hold : forall c ch, tf_chunks s1 !! c = Some ch -> c ∉ l1 -> c ∉ l2).
  { intros c ch Hc Hout Hin. pose proof (to_fresh _ _ _ _ _ H1 c Hin Hout). congruence. }
  constructor.
  - intros c Hin Hout. destruct (tf_chunks s1 !! c) as [ch|] eqn:E; [|done]. pose proof (Hold c ch E Hout) as Hout2.
    pose proof (to_chunks _ _ _ _ _ H1 c ch E Hout). pose proof (to_fresh _ _ _ _ _ H2 c Hin Hout2). congruence.
  - intros c ch Hc Hout. eapply (to_chunks _ _ _ _ _ H2); [by eapply (to_chunks _ _ _ _ _ H1)|by eapply Hold].
  - intros t' Ht. by rewrite (to_nodes _ _ _ _ _ H2), (to_nodes _ _ _ _ _ H1).
  - by rewrite (to_name _ _ _ _ _ H2), (to_name _ _ _ _ _ H1).
  - by rewrite (to_inodes _ _ _ _ _ H2), (to_inodes _ _ _ _ _ H1).
  - by rewrite (to_heap _ _ _ _ _ H2), (to_heap _ _ _ _ _ H1).
  - by rewrite (to_root _ _ _ _ _ H2), (to_root _ _ _ _ _ H1).
  - by rewrite (to_now _ _ _ _ _ H2), (to_now _ _ _ _ _ H1).
Qed.

Lemma extends_node s s' t l l' : extends s s' t l l' -> capacity (node_at s' t) = capacity (node_at s t) /\ t_name (node_at s' t) = t_name (node_at s t).
Proof. intros Hex. pose proof (ex_node _ _ _ _ _ Hex) as E. unfold set_data in E. by injection E. Qed.

Lemma extends_touched s s' t l l' : extends s s' t l l' -> touched s s' t l l'.
Proof. intros Hex. pose proof (proj2 (extends_node _ _ _ _ _ Hex)). destruct Hex. by constructor. Qed.

(** A change of the node that keeps its name, its chunks and that they are its own. *)
Lemma node_step s i t l f :
  is_node s i t l -> (forall d, t_data (f d) = t_data d) -> (forall d, borrowed (f d) = borrowed d) -> (forall d, t_name (f d) = t_name d) ->
  is_node (upd_node s t f) i t l /\ touched s (upd_node s t f) t l l /\ size_of (upd_node s t f) t = capacity (f (node_at s t)) /\
  forall k, fbyte (upd_node s t f) l k = fbyte s l k.
Proof.
  intros [Hi Hint Ht Hw] Hd Hb Hn.
  assert (Hat : node_at (upd_node s t f) t = f (node_at s t)) by (rewrite node_at_insert; by case_decide).
  split_and!.
  - constructor; try done. destruct Hw as [Hsp Hnode Hown Hhead Hnext Hnd]. constructor; try done.
    + simpl. by rewrite lookup_insert_eq.
    + by rewrite Hat, Hb.
    + by rewrite Hat, Hd.
  - constructor; try done.
    + intros t' Hne. simpl. by rewrite lookup_insert_ne by done.
    + by rewrite Hat, Hn.
  - unfold size_of. by rewrite Hat.
  - done.
Qed.

Lemma extends_is_node s s' i t l l' : is_node s i t l -> extends s s' t l l' -> is_node s' i t l' /\ size_of s' t = size_of s t /\ (length l <= length l')%nat.
Proof.
  intros [Hi Hint Ht Hw] Hex. destruct (extends_node _ _ _ _ _ Hex) as [Ec _]. destruct (ex_more _ _ _ _ _ Hex) as [new El].
  split_and!; [|done|rewrite El, length_app; lia]. constructor; try done; [|apply Hex]. unfold inode_at. by rewrite (ex_inodes _ _ _ _ _ Hex).
Qed.

Lemma write_owned_spec s i t l bs offset :
  is_node s i t l -> bs <> [] -> 0 <= offset -> offset + Z.of_nat (length bs) < 2 ^ 64 ->
  exists r s' l', write_owned s i bs offset = (r, s') /\ is_node s' i t l' /\ touched s s' t l l' /\ (length l <= length l')%nat /\
    ((r = - ENOMEM /\ size_of s' t = size_of s t /\ CH * Z.of_nat (length l) < offset + Z.of_nat (length bs)) \/
     (r = Z.of_nat (length bs) /\ size_of s' t = Z.max (size_of s t) (offset + Z.of_nat (length bs)) /\ offset + Z.of_nat (length bs) <= CH * Z.of_nat (length l') /\
      forall k, 0 <= k -> fbyte s' l' k = over bs offset (fbyte s l) k)).
Proof.
  intros Hf Hne Hoff Hlen. unfold write_owned, tempfs_touch. rewrite (node_internal _ _ _ _ Hf).
  destruct (node_step s i t l (set_times (tf_now s)) Hf) as (Hf1 & Ht1 & Es1 & Hb1); [done..|]. set (s1 := upd_node s t (set_times (tf_now s))) in *.
  rewrite (node_internal _ _ _ _ Hf1). pose proof (node_wf _ _ _ _ Hf1) as Hw1. rewrite (wf_head _ _ _ Hw1).
  destruct (write_skip_spec (S (Z.to_nat offset)) s1 t l 0 offset Hw1) as (r & s2 & l2 & E & Hex2 & Hb2 & Hr); [lia|done|rewrite CH_eq; zlia|].
  cbn [link_at] in E. rewrite E. destruct (extends_is_node _ _ _ _ _ _ Hf1 Hex2) as (Hf2 & Es2 & Hl2). pose proof (touched_trans _ _ _ _ _ _ _ Ht1 (extends_touched _ _ _ _ _ Hex2)) as Ht2.
  destruct Hr as [[-> Hq]|[-> Hq]]; [exists (- ENOMEM), s2, l2; split_and!; try done; left; split_and!; [done|by rewrite Es2, Es1|rewrite CH_eq in *; zlia]|].
  cbv zeta in Hq. rewrite Nat.add_0_l in *. cbv iota beta. set (q := Z.to_nat (offset / CH)) in *.
  destruct (write_chunks_spec (S (length bs)) s2 t l2 q (offset `mod` CH) bs (node_wf _ _ _ _ Hf2)) as (r3 & s3 & l3 & E3 & Hex3 & Hr3); [done|rewrite CH_eq; zlia|lia|].
  rewrite E3. destruct (extends_is_node _ _ _ _ _ _ Hf2 Hex3) as (Hf3 & Es3 & Hl3). pose proof (touched_trans _ _ _ _ _ _ _ Ht2 (extends_touched _ _ _ _ _ Hex3)) as Ht3.
  assert (Ebase : CH * Z.of_nat q + offset `mod` CH = offset) by (unfold q; rewrite CH_eq; zlia).
  destruct Hr3 as [[-> Hno]|(-> & Hb3 & Hcap)]; [exists (- ENOMEM), s3, l3; split_and!; try done; [lia|]; left; split_and!; [done|by rewrite Es3, Es2, Es1|rewrite CH_eq in *; lia]|]. rewrite Ebase in Hb3, Hcap. specialize (Hcap Hne).
  simpl (0 <? 0). cbv iota. rewrite wrap64_small by lia. set (last := offset + Z.of_nat (length bs)) in *. fold (size_of s3 t).
  assert (Hbytes : forall k, 0 <= k -> fbyte s3 l3 k = over bs offset (fbyte s l) k).
  { intros k Hk. rewrite Hb3 by done. unfold over. case_if; [done|]. rewrite Hb2, Hb1. done. }
  assert (Esz : size_of s3 t = size_of s t) by (by rewrite Es3, Es2, Es1). destruct (Z.ltb_spec (size_of s3 t) last).
  - destruct (node_step s3 i t l3 (set_capacity last) Hf3) as (Hf4 & Ht4 & Es4 & Hb4); [done..|].
    exists (Z.of_nat (length bs)), (upd_node s3 t (set_capacity last)), l3. split_and!; [done|done|by eapply touched_trans|lia|]. right. split; [done|]. split_and!.
    + rewrite Es4. simpl. lia.
    + done.
    + intros k Hk. by rewrite Hb4, Hbytes.
  - exists (Z.of_nat (length bs)), s3, l3. split_and!; [done|done|done|lia|]. right. split_and!; [done|lia|done|done].
Qed.

(** ** Reading *)

Lemma read_skip_spec fuel : forall s t l j offset hops max_hops, wf s t l -> 0 <= offset -> offset / CH < Z.of_nat fuel -> (j + Z.to_nat (offset / CH) < length l)%nat ->
  hops + offset / CH <= max_hops ->
  read_skip fuel s (nth_ptr l j) offset hops max_hops = Some (nth_ptr l (j + Z.to_nat (offset / CH)), offset `mod` CH).
Proof.
  rewrite CH_eq. induction fuel as [|fuel IH]; intros s t l j offset hops max_hops Hw Hoff Hf Hj Hh; [zlia|]. cbn [read_skip]. rewrite CH_eq, Z.geb_leb.
  destruct (Z.leb_spec 4088 offset) as [Hge|Hlt].
  - rewrite (proj2 (Z.eqb_neq _ 0)) by (eapply wf_nonnull; [done|zlia]). rewrite (wf_sane s t l j) by (done || zlia). simpl. rewrite Z.gtb_ltb, (proj2 (Z.ltb_ge _ _)) by zlia.
    rewrite (wf_follow s t l j) by (done || zlia). rewrite (IH s t l (S j) (offset - 4088) (hops + 1) max_hops Hw); [|zlia..].
    replace (S j + Z.to_nat ((offset - 4088) / 4088))%nat with (j + Z.to_nat (offset / 4088))%nat by zlia. by replace ((offset - 4088) `mod` 4088) with (offset `mod` 4088) by zlia.
  - simpl. rewrite Z.div_small, Z.mod_small by lia. by rewrite Nat.add_0_r.
Qed.

Lemma get_cells_bytes s l j off n : (j < length l)%nat -> 0 <= off -> off + n <= CH ->
  get_cells (chunk_at s (nth_ptr l j)) off n = fbyte s l <$> seqZ (CH * Z.of_nat j + off) n.
Proof.
  rewrite CH_eq. intros Hj Hoff Hn. unfold get_cells, seqZ. rewrite <- list_fmap_compose. apply list_fmap_ext. intros x k Hk. apply lookup_seq in Hk as [-> Hk].
  unfold compose, fbyte. rewrite CH_eq. replace (Z.to_nat ((Z.of_nat (0 + x) + (4088 * Z.of_nat j + off)) / 4088)) with j by zlia.
  destruct (lookup_lt_is_Some_2 l j Hj) as [c Hc]. rewrite Hc, (nth_ptr_lookup _ _ _ Hc). f_equal. zlia.
Qed.

Lemma read_chunks_spec fuel : forall s t l j count off out, wf s t l -> 0 <= count -> count < Z.of_nat fuel -> 0 <= off < CH -> CH * Z.of_nat j + off + count <= CH * Z.of_nat (length l) ->
  read_chunks fuel s (nth_ptr l j) count off out = out ++ (fbyte s l <$> seqZ (CH * Z.of_nat j + off) count).
Proof.
  induction fuel as [|fuel IH]; intros s t l j count off out Hw Hc Hf Hoff Hend; [lia|]. cbn [read_chunks]. rewrite Z.gtb_ltb. destruct (Z.ltb_spec 0 count) as [Hpos|Hle]; simpl andb.
  - assert (Hj : (j < length l)%nat) by (rewrite CH_eq in *; lia). rewrite (proj2 (Z.eqb_neq _ 0)) by (by eapply wf_nonnull). simpl negb. cbv iota.
    rewrite (wf_sane s t l j) by done. simpl negb. cbv iota. set (n := if count <? CH - off then count else CH - off).
    assert (Hn : 0 < n <= count /\ off + n <= CH /\ (n = count \/ off + n = CH)) by (unfold n; case_if; lia). clearbody n.
    rewrite get_cells_bytes by (done || lia). rewrite (wf_follow s t l j) by done. destruct Hn as (Hn1 & Hn2 & [->|Hfull]).
    + rewrite Z.sub_diag. destruct fuel as [|fuel]; [lia|]. done.
    + rewrite (IH s t l (S j) (count - n) 0); [|done|lia|lia|rewrite CH_eq; lia|rewrite CH_eq in *; lia]. rewrite <- app_assoc, <- fmap_app. do 2 f_equal.
      replace (CH * Z.of_nat (S j) + 0) with (CH * Z.of_nat j + off + n) by (rewrite CH_eq in *; lia).
      replace count with (n + (count - n)) at 2 by lia. by rewrite seqZ_app by lia.
  - assert (count = 0) as -> by lia. by rewrite app_nil_r.
Qed.

(** The bytes of a file. *)
Definition contents s (t : Z) (l : list Z) : list Z := fbyte s l <$> seqZ 0 (size_of s t).

Lemma contents_len s t l : 0 <= size_of s t -> Z.of_nat (length (contents s t l)) = size_of s t.
Proof. intros Hs. unfold contents. rewrite length_fmap, length_seqZ. lia. Qed.

Lemma tempfs_read_spec s i t l count offset : is_file s i t l -> 0 <= count -> 0 <= offset ->
  tempfs_read s i count offset = inr (take (Z.to_nat count) (drop (Z.to_nat offset) (contents s t l))).
Proof.
  intros [Hf Hs] Hc Hoff. pose proof (node_wf _ _ _ _ Hf) as Hw. unfold tempfs_read.
  rewrite (node_internal _ _ _ _ Hf), (proj2 (Z.eqb_neq i 0)), (proj2 (Z.eqb_neq t 0)) by apply Hf. simpl orb. cbv iota.
  destruct (Z.eqb_spec count 0) as [->|Hnz]; [by rewrite take_0|]. fold (size_of s t). rewrite Z.geb_leb. destruct (Z.leb_spec (size_of s t) offset) as [Hge|Hlt].
  { rewrite drop_ge; [by rewrite take_nil|]. pose proof (contents_len s t l). lia. }
  rewrite (wf_own _ _ _ Hw), (wf_head _ _ _ Hw). set (n := if count >? size_of s t - offset then size_of s t - offset else count).
  assert (Hn : n = Z.min count (size_of s t - offset)) by (unfold n; rewrite Z.gtb_ltb; case_if; lia). clearbody n.
  assert (Hl : (0 < length l)%nat) by (rewrite CH_eq in *; lia). rewrite (proj2 (Z.eqb_neq (nth_ptr l 0) 0)) by (by eapply wf_nonnull). rewrite andb_false_r.
  rewrite (read_skip_spec _ s t l 0); [|done|done|rewrite CH_eq; zlia|rewrite CH_eq in *; zlia|rewrite CH_eq in *; zlia]. rewrite Nat.add_0_l. cbv iota beta.
  rewrite (read_chunks_spec _ s t); [|done|lia|lia|rewrite CH_eq; zlia|rewrite CH_eq in *; zlia]. rewrite app_nil_l.
  replace (CH * Z.of_nat (Z.to_nat (offset / CH)) + offset `mod` CH) with offset by (rewrite CH_eq in *; zlia). f_equal. unfold contents.
  apply list_eq. intros k. rewrite list_lookup_fmap. destruct (decide (Z.of_nat k < n)) as [Hk|Hk].
  - rewrite lookup_seqZ_lt by lia. rewrite lookup_take_lt, lookup_drop, list_lookup_fmap, lookup_seqZ_lt by lia. simpl. do 2 f_equal. lia.
  - rewrite lookup_seqZ_ge by lia. simpl. symmetry. apply lookup_ge_None_2. rewrite length_take, length_drop, length_fmap, length_seqZ. lia.
Qed.

(** ** Cutting a chain *)

Lemma keep_chunks_spec needed : forall s t l j, wf s t l -> (j <= length l)%nat ->
  let q := ((j + needed) `min` length l)%nat in keep_chunks needed s (link_at t l j) (nth_ptr l j) = (link_at t l q, nth_ptr l q).
Proof.
  induction needed as [|needed IH]; intros s t l j Hw Hj q; cbn [keep_chunks]; [unfold q; by replace ((j + 0) `min` length l)%nat with j by lia|].
  destruct (decide (j = length l)) as [->|Hne].
  - rewrite nth_ptr_end. simpl. unfold q. replace ((length l + S needed) `min` length l)%nat with (length l) by lia. by rewrite nth_ptr_end.
  - rewrite (proj2 (Z.eqb_neq _ 0)) by (eapply wf_nonnull; [done|lia]). rewrite (wf_follow s t l j) by (done || lia).
    specialize (IH s t l (S j) Hw ltac:(lia)). cbn [link_at] in IH. cbv zeta in IH. rewrite IH. unfold q. by replace (S j + needed)%nat with (j + S needed)%nat by lia.
Qed.

(** The chunks [r] hang together, from the first to [NULL]. *)
Definition linked s (r : list Z) : Prop :=
  (forall j c, r !! j = Some c -> tempfs_chunk_ptr_sane c = true /\ is_Some (tf_chunks s !! c) /\ next_chunk (chunk_at s c) = nth_ptr r (S j)) /\ NoDup r.

Lemma free_chain_spec fuel : forall s r, chunk_space s -> linked s r -> (length r < fuel)%nat ->
  exists s', free_chain fuel s (nth_ptr r 0) = s' /\ chunk_space s' /\ (forall c, tf_chunks s' !! c = if decide (c ∈ r) then None else tf_chunks s !! c) /\
    tf_nodes s' = tf_nodes s /\ tf_inodes s' = tf_inodes s /\ tf_heap s' = tf_heap s /\ tf_root s' = tf_root s /\ tf_now s' = tf_now s.
Proof.
  induction fuel as [|fuel IH]; intros s r Hsp [Hl Hnd] Hf; [lia|]. cbn [free_chain]. destruct r as [|c r].
  - exists s. split; [done|]. split_and!; done.
  - change (nth_ptr (c :: r) 0) with c. destruct (Hl 0%nat c eq_refl) as (Hsane & [ch Hch] & Hnext). rewrite (proj2 (Z.eqb_neq c 0)) by (by apply sane_nonnull).
    rewrite Hnext. change (nth_ptr (c :: r) 1) with (nth_ptr r 0). apply list.NoDup_cons in Hnd as [Hc Hnd].
    set (s1 := tempfs_free_data_chunk s c). destruct Hsp as [Hsrc Hown].
    destruct (src_free_spec c 1 (tf_pages s) Hsrc) as [Hsrc1 Ho1]; [apply Hown; by exists ch|].
    assert (Hsp1 : chunk_space s1).
    { split; [exact Hsrc1|]. intros x Hx. simpl in Hx. change (owned (src_free c 1 (tf_pages s)) !! x = Some 1). rewrite Ho1.
      destruct (decide (x = c)) as [->|Hne]; [rewrite lookup_delete_eq in Hx; by destruct Hx|]. rewrite lookup_delete_ne by done. rewrite lookup_delete_ne in Hx by done. by apply Hown. }
    assert (Hat : forall x, x <> c -> chunk_at s1 x = chunk_at s x) by (intros x Hx; unfold chunk_at; simpl; by rewrite lookup_delete_ne by done).
    destruct (IH s1 r Hsp1) as (s' & E & Hsp' & Hch' & Hn & Hi & Hh & Hr & Ho); [|simpl in Hf; lia|].
    { split; [|done]. intros j x Hx. assert (x <> c) by (intros ->; apply Hc; by eapply list_elem_of_lookup_2). destruct (Hl (S j) x Hx) as (H1 & H2 & H3).
      split_and!; [done|simpl; by rewrite lookup_delete_ne by done|]. rewrite Hat by done. done. }
    exists s'. split; [done|]. split_and!; try done. intros x. rewrite Hch'. simpl. destruct (decide (x ∈ r)) as [Hin|Hout]; [rewrite decide_True; [done|by right]|].
    destruct (decide (x = c)) as [->|Hne]; [rewrite lookup_delete_eq, decide_True; [done|by left]|]. rewrite lookup_delete_ne by done.
    rewrite decide_False; [done|]. intros Hx. apply elem_of_cons in Hx. tauto.
Qed.

Lemma linked_length s r : linked s r -> (length r <= size (tf_chunks s))%nat.
Proof.
  intros [Hl Hnd]. assert (Hsub : list_to_set r ⊆ dom (tf_chunks s)).
  { intros c Hc%elem_of_list_to_set. apply list_elem_of_lookup in Hc as [j Hj]. apply elem_of_dom. by apply (Hl j c Hj). }
  apply subseteq_size in Hsub. by rewrite size_dom, size_list_to_set in Hsub by done.
Qed.

Lemma nth_ptr_take l q j : (j < q)%nat -> nth_ptr (take q l) j = nth_ptr l j.
Proof. intros Hj. unfold nth_ptr. by rewrite lookup_take_lt. Qed.

Lemma nth_ptr_take_end l q j : (q <= j)%nat -> nth_ptr (take q l) j = 0.
Proof. intros Hj. unfold nth_ptr. rewrite lookup_ge_None_2; [done|]. rewrite length_take. lia. Qed.

(** [*prev_next = NULL] behind the first [q] chunks. *)
Lemma cut_spec s t l q : wf s t l -> (q <= length l)%nat ->
  let s' := write_link s (link_at t l q) 0 in
  wf s' t (take q l) /\ linked s' (drop q l) /\ touched s s' t l (take q l) /\ size_of s' t = size_of s t /\ (forall c, cells (chunk_at s' c) = cells (chunk_at s c)) /\
  (forall c, is_Some (tf_chunks s' !! c) <-> is_Some (tf_chunks s !! c)).
Proof.
  intros Hw Hq s'.
  assert (Hlast : forall q', q = S q' -> exists c, l !! q' = Some c /\ nth_ptr l q' = c).
  { intros q' ->. destruct (lookup_lt_is_Some_2 l q') as [c Hc]; [lia|]. exists c. split; [done|by apply nth_ptr_lookup]. }
  assert (Hnode : node_at s' t = if decide (q = 0)%nat then set_data 0 (node_at s t) else node_at s t).
  { unfold s'. destruct q as [|q']; [|done]. simpl. rewrite node_at_insert. by case_decide. }
  assert (Hat : forall c, chunk_at s' c = if decide (q <> 0%nat /\ c = nth_ptr l (pred q)) then set_next_chunk 0 (chunk_at s c) else chunk_at s c).
  { intros c. unfold s'. destruct q as [|q']; [rewrite decide_False by tauto; done|]. cbn [link_at write_link pred]. unfold upd_chunk. rewrite chunk_at_insert.
    repeat case_decide; subst; try done; naive_solver. }
  assert (Hsome : forall c, is_Some (tf_chunks s' !! c) <-> is_Some (tf_chunks s !! c)).
  { intros c. unfold s'. destruct q as [|q']; [done|]. cbn [link_at write_link]. simpl. destruct (Hlast q' eq_refl) as (x & Hx & ->).
    destruct (decide (c = x)) as [->|]; [|by rewrite lookup_insert_ne by done]. rewrite lookup_insert_eq. split; [intros _|done]. by eapply (wf_next _ _ _ Hw). }
  assert (Hpages : tf_pages s' = tf_pages s) by (unfold s'; by destruct q).
  split_and!; [| | | | |done].
  - constructor.
    + split; [rewrite Hpages; apply Hw|]. intros c Hc. rewrite Hpages. apply (wf_space _ _ _ Hw). by apply Hsome.
    + unfold s'. destruct q; simpl; [by rewrite lookup_insert_eq|apply Hw].
    + rewrite Hnode. case_decide; apply Hw.
    + rewrite Hnode. case_decide as E; [by subst|]. rewrite nth_ptr_take by lia. apply Hw.
    + intros j c Hj. pose proof Hj as Hj'. apply lookup_take_Some in Hj' as [Hj' Hlt]. destruct (wf_next _ _ _ Hw j c Hj') as (Hc & Hs & Hn). split_and!; [done|by apply Hsome|].
      rewrite Hat. destruct (decide (q <> 0%nat /\ c = nth_ptr l (pred q))) as [[Hnz E]|E].
      * destruct (Hlast (pred q) ltac:(lia)) as (x & Hx & Ex). rewrite Ex in E. subst x.
        assert (j = pred q) by (by eapply NoDup_lookup; [apply Hw|..]). rewrite nth_ptr_take_end by lia. done.
      * rewrite Hn. destruct (decide (S j = q)) as [Eq|]; [|by rewrite nth_ptr_take by lia]. exfalso. apply E. split; [lia|]. rewrite <- Eq. simpl. symmetry. by apply nth_ptr_lookup.
    + eapply sublist_NoDup; [apply Hw|apply sublist_take].
  - split; [|eapply sublist_NoDup; [apply Hw|apply sublist_drop]]. intros j c Hj. rewrite lookup_drop in Hj. destruct (wf_next _ _ _ Hw _ c Hj) as (Hc & Hs & Hn).
    split_and!; [done|by apply Hsome|]. rewrite Hat. destruct (decide (q <> 0%nat /\ c = nth_ptr l (pred q))) as [[Hnz E]|E].
    + destruct (Hlast (pred q) ltac:(lia)) as (x & Hx & Ex). rewrite Ex in E. subst x. assert (pred q = (q + j)%nat) by (by eapply NoDup_lookup; [apply Hw|..]). lia.
    + rewrite Hn. unfold nth_ptr. rewrite lookup_drop. do 2 f_equal. lia.
  - constructor; try (unfold s'; destruct q; done).
    + intros c Hin Hout. exfalso. apply Hout. eapply elem_of_take in Hin as (j & Hj & _). by eapply list_elem_of_lookup_2.
    + intros c ch Hch Hout. unfold s'. destruct q as [|q']; [done|]. cbn [link_at write_link]. simpl. destruct (Hlast q' eq_refl) as (x & Hx & ->).
      rewrite lookup_insert_ne; [done|]. intros ->. apply Hout. by eapply list_elem_of_lookup_2.
    + intros t' Hne. unfold s'. destruct q; simpl; [rewrite lookup_insert_ne by done|]; done.
    + rewrite Hnode. by destruct (decide (q = 0%nat)).
  - unfold size_of. rewrite Hnode. by destruct (decide (q = 0%nat)).
  - intros c. rewrite Hat. by destruct (decide (q <> 0%nat /\ c = nth_ptr l (pred q))).
Qed.

(** The state after a cut: the chunks behind the first [q] are gone, the bytes of the others as they were. *)
Lemma free_rest s t l q : wf s t l -> (q <= length l)%nat ->
  let s' := free_chunks (write_link s (link_at t l q) 0) (nth_ptr l q) in
  wf s' t (take q l) /\ touched s s' t l (take q l) /\ size_of s' t = size_of s t /\ forall k, 0 <= k -> fbyte s' (take q l) k = if k <? CH * Z.of_nat q then fbyte s l k else 0.
Proof.
  intros Hw Hq s'. destruct (cut_spec s t l q Hw Hq) as (Hw1 & Hl1 & Ht1 & Es1 & Hcells & Hsome). set (s1 := write_link s (link_at t l q) 0) in *.
  assert (Eq : nth_ptr (drop q l) 0 = nth_ptr l q) by (unfold nth_ptr; rewrite lookup_drop; by rewrite Nat.add_0_r).
  pose proof (linked_length _ _ Hl1) as Hlen. destruct (free_chain_spec (S (size (tf_chunks s1))) s1 (drop q l) (wf_space _ _ _ Hw1) Hl1 ltac:(lia)) as (s2 & E & Hsp & Hch & Hn & Hi & Hh & Hr & Ho).
  rewrite Eq in E. assert (Es' : s' = s2) by (unfold s', free_chunks; exact E). clearbody s'. subst s'.
  assert (Hdis : forall c, c ∈ take q l -> c ∉ drop q l).
  { intros c Hc Hc'. pose proof (wf_nodup _ _ _ Hw) as Hnd. rewrite <- (take_drop q l) in Hnd. apply list.NoDup_app in Hnd as (_ & Hnd & _). by apply (Hnd c). }
  assert (Hat : forall c, c ∈ take q l -> tf_chunks s2 !! c = tf_chunks s1 !! c) by (intros c Hc; rewrite Hch; by rewrite decide_False by (by apply Hdis)).
  assert (Hnodes : forall x, node_at s2 x = node_at s1 x) by (intros x; unfold node_at; by rewrite Hn). split_and!.
  - destruct Hw1. constructor; try done; rewrite ?Hnodes, ?Hn; try done. intros j c Hj. destruct (wf_next0 j c Hj) as (Hc & Hs & Hnx).
    assert (Hin : c ∈ take q l) by (by eapply list_elem_of_lookup_2). split_and!; [done|by rewrite Hat|]. unfold chunk_at. by rewrite Hat.
  - destruct Ht1. constructor; try congruence; rewrite ?Hnodes; try done.
    + intros c ch Hc Hout. rewrite Hch, decide_False; [by apply to_chunks0|]. intros Hin. apply Hout. eapply elem_of_sublist; [exact Hin|apply sublist_drop].
    + intros t' Hne. rewrite Hn. by apply to_nodes0.
  - unfold size_of. by rewrite Hnodes.
  - intros k Hk. unfold fbyte. rewrite CH_eq. destruct (Z.ltb_spec k (4088 * Z.of_nat q)).
    + rewrite lookup_take_lt by zlia. destruct (l !! Z.to_nat (k / 4088)) as [c|] eqn:El; [|done].
      assert (Hin : c ∈ take q l) by (eapply (list_elem_of_lookup_2 _ (Z.to_nat (k / 4088))); rewrite lookup_take_lt; [done|zlia]).
      unfold cell, chunk_at. rewrite Hat by done. fold (chunk_at s1 c). fold (chunk_at s c). by rewrite Hcells.
    + rewrite lookup_ge_None_2; [done|]. rewrite length_take. zlia.
Qed.

(** ** The operations *)

Lemma own_nothing s i t l : is_node s i t l -> tempfs_own s i = (0, s).
Proof. intros Hf. unfold tempfs_own. by rewrite (node_internal _ _ _ _ Hf), (wf_own _ _ _ (node_wf _ _ _ _ Hf)). Qed.

Lemma tempfs_write_spec s i t l bs offset :
  is_node s i t l -> bs <> [] -> 0 <= offset -> offset + Z.of_nat (length bs) < 2 ^ 64 -> tempfs_write s i bs offset = write_owned s i bs offset.
Proof.
  intros Hf Hne Hoff Hlen. unfold tempfs_write. rewrite (node_internal _ _ _ _ Hf), (proj2 (Z.eqb_neq i 0)), (proj2 (Z.eqb_neq t 0)) by apply Hf. simpl orb. cbv iota.
  rewrite (own_nothing s i t l Hf). by destruct bs.
Qed.

(** A smaller size: the bytes that stay in the last chunk keep their values. *)
Lemma shrink_spec s i t l n : is_file s i t l -> 0 <= n <= size_of s t ->
  exists l', is_file (shrink s t n) i t l' /\ touched s (shrink s t n) t l l' /\ size_of (shrink s t n) t = n /\ (n + CH - 1) / CH = Z.of_nat (length l') /\
    forall k, 0 <= k -> fbyte (shrink s t n) l' k = if k <? CH * Z.of_nat (length l') then fbyte s l k else 0.
Proof.
  intros [Hf Hs] Hn. pose proof (node_wf _ _ _ _ Hf) as Hw. unfold shrink. rewrite (wf_head _ _ _ Hw).
  set (q := Z.to_nat ((n + CH - 1) / CH)). assert (Hq : (q <= length l)%nat) by (unfold q; rewrite CH_eq in *; zlia).
  pose proof (keep_chunks_spec q s t l 0 Hw ltac:(lia)) as E. cbn [link_at] in E. cbv zeta in E. rewrite Nat.add_0_l, (Nat.min_l q) in E by done. rewrite E.
  rewrite (wf_link s t l q) by done. rewrite Z.eqb_refl, andb_false_r.
  destruct (free_rest s t l q Hw Hq) as (Hw1 & Ht1 & Es1 & Hb1). set (s1 := free_chunks _ _) in *.
  assert (Hf1 : is_node s1 i t (take q l)). { destruct Hf. constructor; try done. unfold inode_at. by rewrite (to_inodes _ _ _ _ _ Ht1). }
  destruct (node_step s1 i t (take q l) (set_capacity n) Hf1) as (Hf2 & Ht2 & Es2 & Hb2); [done..|]. exists (take q l).
  assert (Hlen : length (take q l) = q) by (rewrite length_take; lia). rewrite Hlen. split_and!; try done.
  - split; [done|]. rewrite Es2, Hlen. simpl. unfold q. rewrite CH_eq. zlia.
  - by eapply touched_trans.
  - unfold q. rewrite CH_eq in *. zlia.
Qed.

(** A larger size: one byte is written at its end. *)
Lemma grow_spec s i t l n : is_node s i t l -> 0 <= size_of s t < n -> size_of s t <= CH * Z.of_nat (length l) -> n < 2 ^ 64 ->
  exists r s' l', tempfs_truncate s i n = (r, s') /\ is_file s' i t l' /\ touched s s' t l l' /\
    ((r = - ENOMEM /\ CH * Z.of_nat (length l) < n) \/
     (r = 0 /\ size_of s' t = n /\ forall k, 0 <= k -> fbyte s' l' k = if k =? n - 1 then 0 else fbyte s l k)).
Proof.
  intros Hf Hs Hcap Hn. unfold tempfs_truncate. rewrite (node_internal _ _ _ _ Hf), (proj2 (Z.eqb_neq i 0)), (proj2 (Z.eqb_neq t 0)) by apply Hf. simpl orb. cbv iota.
  fold (size_of s t). rewrite (proj2 (Z.eqb_neq n _)) by lia. unfold tempfs_touch. rewrite (node_internal _ _ _ _ Hf).
  destruct (node_step s i t l (set_times (tf_now s)) Hf) as (Hf1 & Ht1 & Es1 & Hb1); [done..|]. set (s1 := upd_node s t (set_times (tf_now s))) in *.
  assert (Esz : size_of s1 t = size_of s t) by done. rewrite (own_nothing s1 i t l Hf1). simpl (0 <? 0). cbv iota. fold (size_of s1 t). rewrite Esz, Z.gtb_ltb, (proj2 (Z.ltb_lt (size_of s t) n)) by lia.
  destruct (node_step s1 i t l (set_capacity (n - 1)) Hf1) as (Hf2 & Ht2 & Es2 & Hb2); [done..|]. set (s2 := upd_node s1 t (set_capacity (n - 1))) in *. simpl in Es2.
  rewrite (tempfs_write_spec s2 i t l [0]); [|done|done|lia|simpl; lia].
  destruct (write_owned_spec s2 i t l [0] (n - 1) Hf2) as (r & s3 & l3 & -> & Hf3 & Ht3 & Hl3 & Hr); [done|lia|simpl; lia|].
  pose proof (touched_trans _ _ _ _ _ _ _ (touched_trans _ _ _ _ _ _ _ Ht1 Ht2) Ht3) as Ht. simpl length in Hr. destruct Hr as [(-> & Es3 & Hno)|(-> & Es3 & Hcap3 & Hb3)].
  - destruct (node_step s3 i t l3 (set_capacity (size_of s t)) Hf3) as (Hf4 & Ht4 & Es4 & Hb4); [done..|].
    exists (- ENOMEM), (upd_node s3 t (set_capacity (size_of s t))), l3. split; [done|]. split_and!; [|by eapply touched_trans|left; split; [done|lia]].
    split; [done|]. rewrite Es4. simpl. rewrite CH_eq in *. lia.
  - exists 0, s3, l3. split; [done|]. split_and!; [|done|right].
    + split; [done|]. rewrite Es3, Es2. lia.
    + split; [done|]. split; [rewrite Es3, Es2; lia|]. intros k Hk. rewrite Hb3 by done. unfold over. simpl length.
      destruct (Z.eqb_spec k (n - 1)) as [->|Hne].
      * rewrite Z.leb_refl, (proj2 (Z.ltb_lt (n - 1) (n - 1 + Z.of_nat 1))), Z.sub_diag by lia. done.
      * destruct (Z.leb_spec (n - 1) k), (Z.ltb_spec k (n - 1 + Z.of_nat 1)); simpl; done || lia.
Qed.

Lemma shrink_truncate s i t l n : is_file s i t l -> 0 <= n < size_of s t ->
  let s1 := upd_node s t (set_times (tf_now s)) in
  tempfs_truncate s i n = (0, shrink s1 t n) /\ is_file s1 i t l /\ touched s s1 t l l /\ size_of s1 t = size_of s t /\ forall k, fbyte s1 l k = fbyte s l k.
Proof.
  intros [Hf Hs] Hn s1. destruct (node_step s i t l (set_times (tf_now s)) Hf) as (Hf1 & Ht1 & Es1 & Hb1); [done..|]. fold s1 in Hf1, Ht1, Es1, Hb1.
  assert (Esz : size_of s1 t = size_of s t) by done. split_and!; [|split; [done|by rewrite Esz]|done|done|done].
  unfold tempfs_truncate. rewrite (node_internal _ _ _ _ Hf), (proj2 (Z.eqb_neq i 0)), (proj2 (Z.eqb_neq t 0)) by apply Hf. simpl orb. cbv iota.
  fold (size_of s t). rewrite (proj2 (Z.eqb_neq n _)) by lia. unfold tempfs_touch. rewrite (node_internal _ _ _ _ Hf). fold s1.
  rewrite (own_nothing s1 i t l Hf1). simpl (0 <? 0). cbv iota. fold (size_of s1 t). rewrite Esz, Z.gtb_ltb, (proj2 (Z.ltb_ge (size_of s t) n)) by lia. done.
Qed.

(** ** A file is an array of bytes *)

(** An array of bytes whose holes are zeros. *)
Definition pad_to (n : nat) (a : list Z) : list Z := a ++ replicate (n - length a) 0.

Definition a_write (a bs : list Z) (off : nat) : list Z :=
  match bs with
  | [] => a
  | _ => take off (pad_to off a) ++ bs ++ drop (off + length bs) a
  end.

Definition a_truncate (a : list Z) (n : nat) : list Z := take n (pad_to n a).

Definition a_read (a : list Z) (count off : nat) : list Z := take count (drop off a).

(** A file with the bytes [a]; behind its end its chunks are zero. *)
Definition holds s (i t : Z) (l a : list Z) : Prop :=
  is_file s i t l /\ size_of s t = Z.of_nat (length a) /\ forall k, 0 <= k -> fbyte s l k = default 0 (a !! Z.to_nat k).

Lemma holds_contents s i t l a : holds s i t l a -> contents s t l = a.
Proof.
  intros (Hf & Hs & Hb). apply list_eq. intros k. unfold contents. rewrite list_lookup_fmap, Hs. destruct (decide (k < length a)%nat) as [Hk|Hk].
  - rewrite lookup_seqZ_lt by lia. simpl. rewrite Hb by lia. destruct (lookup_lt_is_Some_2 a k Hk) as [b Eb]. rewrite Eb.
    replace (Z.to_nat (0 + Z.of_nat k)) with k by lia. by rewrite Eb.
  - rewrite lookup_seqZ_ge by lia. simpl. by rewrite lookup_ge_None_2 by lia.
Qed.

Lemma pad_to_lookup n a k : default 0 (pad_to n a !! k) = default 0 (a !! k).
Proof.
  unfold pad_to. destruct (decide (k < length a)%nat) as [Hk|Hk]; [by rewrite lookup_app_l|]. rewrite lookup_app_r, (lookup_ge_None_2 a k) by lia.
  destruct (replicate _ 0 !! _) as [x|] eqn:E; [|done]. apply lookup_replicate in E as [-> _]. done.
Qed.

Lemma pad_to_length n a : length (pad_to n a) = (n `max` length a)%nat.
Proof. unfold pad_to. rewrite length_app, length_replicate. lia. Qed.

Lemma a_write_length a bs off : bs <> [] -> length (a_write a bs off) = (length a `max` (off + length bs))%nat.
Proof. intros Hne. unfold a_write. destruct bs; [done|]. rewrite !length_app, length_take, length_drop, pad_to_length. lia. Qed.

Lemma a_write_lookup a bs off k : bs <> [] -> 0 <= k ->
  default 0 (a_write a bs off !! Z.to_nat k) = over bs (Z.of_nat off) (fun k => default 0 (a !! Z.to_nat k)) k.
Proof.
  intros Hne Hk. unfold a_write. destruct bs as [|b bs]; [done|]. set (all := b :: bs) in *. clearbody all. clear b bs Hne. unfold over.
  assert (Hl : length (take off (pad_to off a)) = off) by (rewrite length_take, pad_to_length; lia).
  destruct (Z.leb_spec (Z.of_nat off) k), (Z.ltb_spec k (Z.of_nat off + Z.of_nat (length all))); simpl.
  - rewrite lookup_app_r, Hl, lookup_app_l by lia. do 2 f_equal. lia.
  - rewrite lookup_app_r, Hl, lookup_app_r, lookup_drop by lia. do 2 f_equal. lia.
  - rewrite lookup_app_l, lookup_take_lt by lia. apply pad_to_lookup.
  - rewrite lookup_app_l, lookup_take_lt by lia. apply pad_to_lookup.
Qed.

Lemma a_truncate_length a n : length (a_truncate a n) = n.
Proof. unfold a_truncate. rewrite length_take, pad_to_length. lia. Qed.

Lemma a_truncate_lookup a n k : default 0 (a_truncate a n !! k) = if decide (k < n)%nat then default 0 (a !! k) else 0.
Proof.
  unfold a_truncate. case_decide; [rewrite lookup_take_lt by done; apply pad_to_lookup|]. by rewrite lookup_take_ge by lia.
Qed.

Inductive file_op :=
| FRead (count offset : Z)
| FWrite (bs : list Z) (offset : Z)
| FTruncate (size : Z).

(** What an operation gives: the bytes or the error of a read, the result of the others. *)
Definition file_exec s (i : Z) (o : file_op) : (Z + list Z) * tfs H P :=
  match o with
  | FRead count offset => (tempfs_read s i count offset, s)
  | FWrite bs offset => let '(r, s) := tempfs_write s i bs offset in (inl r, s)
  | FTruncate n => let '(r, s) := tempfs_truncate s i n in (inl r, s)
  end.

Definition array_exec (a : list Z) (o : file_op) : (Z + list Z) * list Z :=
  match o with
  | FRead count offset => (inr (a_read a (Z.to_nat count) (Z.to_nat offset)), a)
  | FWrite bs offset => (inl (Z.of_nat (length bs)), a_write a bs (Z.to_nat offset))
  | FTruncate n => (inl 0, a_truncate a (Z.to_nat n))
  end.

(** Offsets that fit in memory; a size that does not cut inside of a chunk. *)
Definition file_legal (a : list Z) (o : file_op) : Prop :=
  match o with
  | FRead count offset => 0 <= count /\ 0 <= offset
  | FWrite bs offset => 0 <= offset /\ offset + Z.of_nat (length bs) < 2 ^ 64
  | FTruncate n => 0 <= n < 2 ^ 64 /\ (Z.of_nat (length a) <= n \/ n `mod` CH = 0)
  end.


(** One operation: it runs out of memory, or does to the file what it does to the array. *)
Lemma file_exec_refines s i t l a o : holds s i t l a -> file_legal a o ->
  exists r s', file_exec s i o = (r, s') /\
    (r = inl (- ENOMEM) \/ (r = (array_exec a o).1 /\ exists l', holds s' i t l' (array_exec a o).2 /\ touched s s' t l l')).
Proof.
  intros Hh Ho. pose proof (holds_contents _ _ _ _ _ Hh) as Hc. destruct Hh as ([Hf Hcap] & Hs & Hb).
  assert (Hsame : touched s s t l l) by (by constructor). destruct o as [count offset|bs offset|n]; cbn [file_exec array_exec fst snd file_legal] in *.
  - exists (tempfs_read s i count offset), s. split; [done|]. right. split; [|exists l; by split_and!]. rewrite (tempfs_read_spec s i t l); [by rewrite Hc|by split|lia|lia].
  - destruct Ho as [Hoff Hlen]. destruct (decide (bs = [])) as [->|Hne].
    { exists (inl 0), s. unfold tempfs_write. rewrite (node_internal _ _ _ _ Hf), (proj2 (Z.eqb_neq i 0)), (proj2 (Z.eqb_neq t 0)) by apply Hf. simpl.
      split; [done|]. right. split; [done|]. exists l. by split_and!. }
    rewrite (tempfs_write_spec s i t l) by done. destruct (write_owned_spec s i t l bs offset Hf Hne Hoff Hlen) as (r & s' & l' & -> & Hf' & Ht' & Hl' & Hr).
    exists (inl r), s'. split; [done|]. destruct Hr as [(-> & _)|(-> & Es' & Hcap' & Hb')]; [by left|]. right. split; [done|]. exists l'. split; [|done].
    split_and!.
    + split; [done|]. rewrite Es'. rewrite CH_eq in *. lia.
    + rewrite a_write_length by done. lia.
    + intros k Hk. rewrite Hb', a_write_lookup by done. rewrite Z2Nat.id by done. unfold over. case_if; [done|]. by apply Hb.
  - destruct Ho as [Hn Hcut]. destruct (Z.lt_trichotomy n (size_of s t)) as [Hlt|[Heq|Hgt]].
    + assert (Hmod : n `mod` CH = 0) by (destruct Hcut; [lia|done]). destruct (shrink_truncate s i t l n) as (-> & Hf1 & Ht1 & Es1 & Hb1); [by split|lia|].
      set (s1 := upd_node s t (set_times (tf_now s))) in *. destruct (shrink_spec s1 i t l n Hf1) as (l' & Hf2 & Ht2 & Es2 & El & Hb2); [lia|].
      exists (inl 0), (shrink s1 t n). split; [done|]. right. split; [done|]. exists l'. split; [|by eapply touched_trans]. split_and!; [done|rewrite a_truncate_length; lia|].
      intros k Hk. rewrite Hb2, a_truncate_lookup by done. assert (Eq : CH * Z.of_nat (length l') = n) by (rewrite CH_eq in *; zlia). rewrite Eq.
      destruct (Z.ltb_spec k n); [rewrite decide_True by lia; rewrite Hb1; by apply Hb|by rewrite decide_False by lia].
    + exists (inl 0), s. unfold tempfs_truncate. rewrite (node_internal _ _ _ _ Hf), (proj2 (Z.eqb_neq i 0)), (proj2 (Z.eqb_neq t 0)) by apply Hf. simpl orb. cbv iota.
      fold (size_of s t). rewrite Heq, Z.eqb_refl. split; [done|]. right. split; [done|]. exists l. split; [|done]. split_and!; [by split|rewrite a_truncate_length; lia|].
      intros k Hk. rewrite Hb, a_truncate_lookup by done. case_decide; [done|]. by rewrite lookup_ge_None_2 by lia.
    + destruct (grow_spec s i t l n Hf) as (r & s' & l' & -> & Hf' & Ht' & Hr); [lia|lia|lia|]. exists (inl r), s'. split; [done|].
      destruct Hr as [[-> _]|(-> & Es' & Hb')]; [by left|]. right. split; [done|]. exists l'. split; [|done]. split_and!; [done|rewrite a_truncate_length; lia|].
      intros k Hk. rewrite Hb', a_truncate_lookup by done. rewrite Hb by done. destruct (Z.eqb_spec k (n - 1)) as [->|Hne].
      * rewrite decide_True by lia. by rewrite lookup_ge_None_2 by lia.
      * case_decide; [done|]. by rewrite lookup_ge_None_2 by lia.
Qed.

Fixpoint file_run s (i : Z) (ops : list file_op) : list (Z + list Z) * tfs H P :=
  match ops with
  | [] => ([], s)
  | o :: ops =>
    let '(r, s) := file_exec s i o in
    let '(rs, s) := file_run s i ops in
    (r :: rs, s)
  end.

Fixpoint array_run (a : list Z) (ops : list file_op) : list (Z + list Z) * list Z :=
  match ops with
  | [] => ([], a)
  | o :: ops =>
    let '(r, a) := array_exec a o in
    let '(rs, a) := array_run a ops in
    (r :: rs, a)
  end.

Fixpoint all_legal (a : list Z) (ops : list file_op) : Prop :=
  match ops with
  | [] => True
  | o :: ops => file_legal a o /\ all_legal (array_exec a o).2 ops
  end.

Lemma file_run_refines ops : forall s i t l a, holds s i t l a -> all_legal a ops ->
  let '(rs, s') := file_run s i ops in
  inl (- ENOMEM) ∈ rs \/ (rs = (array_run a ops).1 /\ exists l', holds s' i t l' (array_run a ops).2 /\ touched s s' t l l').
Proof.
  induction ops as [|o ops IH]; intros s i t l a Hh Hl; cbn [file_run array_run].
  - right. split; [done|]. exists l. split; [done|]. by constructor.
  - destruct Hl as [Ho Hl]. destruct (file_exec_refines s i t l a o Hh Ho) as (r & s1 & -> & Hr). destruct (array_exec a o) as [ra a1]. cbn [fst snd] in *.
    destruct Hr as [->|(-> & l1 & Hh1 & Ht1)]; [destruct (file_run s1 i ops); left; by left|].
    specialize (IH s1 i t l1 a1 Hh1 Hl). destruct (file_run s1 i ops) as [rs s2], (array_run a1 ops) as [ras a2]. cbn [fst snd] in *.
    destruct IH as [Hno|(-> & l2 & Hh2 & Ht2)]; [left; by right|]. right. split; [done|]. exists l2. split; [done|by eapply touched_trans].
Qed.

(** Reads, writes and changes of size of a file do what they do to an array of bytes whose holes read as zeros, in any order and past its end, unless an
    operation runs out of memory; no other file is touched.  Sizes must not cut inside of a chunk ([truncate_keeps_tail] shows what happens then). *)
Lemma tempfs_file_refines ops s i t l a :
  holds s i t l a -> all_legal a ops ->
  let '(rs, s') := file_run s i ops in
  inl (- ENOMEM) ∈ rs \/ (rs = (array_run a ops).1 /\ exists l', holds s' i t l' (array_run a ops).2 /\ touched s s' t l l').
Proof. apply file_run_refines. Qed.

(** A file made shorter and then as long as it was shows its old bytes again, up to the end of the chunk, where a hole of zeros is due: the
    test before the tail of the last chunk is cleared compares a pointer with itself. *)
Lemma truncate_keeps_tail s i t l a n :
  holds s i t l a -> 0 < n -> n < Z.of_nat (length a) -> Z.of_nat (length a) < 2 ^ 64 -> Z.of_nat (length a) <= CH * ((n + CH - 1) / CH) ->
  exists s1 s2, tempfs_truncate s i n = (0, s1) /\ tempfs_truncate s1 i (Z.of_nat (length a)) = (0, s2) /\
    forall count offset, 0 <= count -> 0 <= offset ->
      tempfs_read s2 i count offset = inr (take (Z.to_nat count) (drop (Z.to_nat offset) (take (length a - 1) a ++ [0]))).
Proof.
  intros ([Hf Hcap] & Hs & Hb) Hn0 Hn Hlen Hsame. destruct (shrink_truncate s i t l n) as (E1 & Hf1 & Ht1 & Es1 & Hb1); [by split|lia|].
  set (s0 := upd_node s t (set_times (tf_now s))) in *. destruct (shrink_spec s0 i t l n Hf1) as (l' & [Hf2 Hcap2] & Ht2 & Es2 & El & Hb2); [lia|].
  rewrite El in Hsame.
  destruct (grow_spec (shrink s0 t n) i t l' (Z.of_nat (length a)) Hf2) as (r & s2 & l2 & E2 & Hf3 & Ht3 & Hr); [lia|lia|lia|].
  destruct Hr as [[-> Hno]|(-> & Es3 & Hb3)]; [lia|]. exists (shrink s0 t n), s2. split; [done|]. split; [done|]. intros count offset Hc Ho.
  rewrite (tempfs_read_spec s2 i t l2) by done. do 3 f_equal. apply list_eq. intros k. unfold contents. rewrite list_lookup_fmap, Es3.
  destruct (decide (k < length a)%nat) as [Hk|Hk].
  - rewrite lookup_seqZ_lt by lia. simpl. rewrite Hb3 by lia. destruct (Z.eqb_spec (0 + Z.of_nat k) (Z.of_nat (length a) - 1)).
    + rewrite lookup_app_r, length_take by (rewrite length_take; lia). replace (k - _)%nat with 0%nat by lia. done.
    + rewrite lookup_app_l, lookup_take_lt by (rewrite ?length_take; lia). rewrite Hb2, (proj2 (Z.ltb_lt _ _)), Hb1, Hb by lia.
      destruct (lookup_lt_is_Some_2 a k Hk) as [b Eb]. replace (Z.to_nat (0 + Z.of_nat k)) with k by lia. by rewrite Eb.
  - rewrite lookup_seqZ_ge by lia. simpl. symmetry. apply lookup_ge_None_2. rewrite length_app, length_take. simpl. lia.
Qed.

End Files.

(** ** Examples *)

(** Pages below 2 ^ 47, as canonical addresses are. *)
Record low_pages := { low_bump : bump }.

Definition low_alloc (n : Z) (s : low_pages) : Z * low_pages := let '(m, b) := bump_alloc n (low_bump s) in (m, {| low_bump := b |}).

Lemma bump_alloc_end n b : bp_end (bump_alloc n b).2 = bp_end b.
Proof. unfold bump_alloc. by case_if. Qed.

#[export] Program Instance low_source : PageSource low_pages := {
  src_ok s := bump_ok (low_bump s) /\ bp_end (low_bump s) <= 2 ^ 47;
  owned s := bp_owned (low_bump s);
  src_alloc := low_alloc;
  src_free m n s := {| low_bump := bump_free m n (low_bump s) |};
}.
Next Obligation.
  intros n s m s' [Hok Hend] Hn. unfold low_alloc. destruct (bump_alloc n (low_bump s)) as [x b] eqn:E. intros [= <- <-].
  destruct (src_alloc_spec (PageSource := bump_source) n (low_bump s) x b Hok Hn E) as [Hok' Hr]. split; [|exact Hr].
  split; [exact Hok'|]. simpl. pose proof (bump_alloc_end n (low_bump s)) as He. rewrite E in He. simpl in He. lia.
Qed.
Next Obligation. by intros [b]. Qed.
Next Obligation. intros m n s [Hok Hend] Ho. destruct (src_free_spec (PageSource := bump_source) m n (low_bump s) Hok Ho) as [Hok' Ho']. done. Qed.
Next Obligation. intros s m n [Hok _] Ho. exact (src_range (PageSource := bump_source) _ _ _ Hok Ho). Qed.
Next Obligation. intros s m n m' n' [Hok _] Ho Ho'. exact (src_disjoint (PageSource := bump_source) _ _ _ _ _ Hok Ho Ho'). Qed.

Lemma page_sane m : 0 < m < 2 ^ 47 -> m `mod` PAGE_SIZE = 0 -> tempfs_chunk_ptr_sane m = true.
Proof.
  intros Hm Hp. unfold tempfs_chunk_ptr_sane. rewrite (proj2 (Z.eqb_neq m 0)) by lia. change 7 with (Z.ones 3). rewrite Z.land_ones by lia.
  replace (m `mod` 2 ^ 3) with 0 by (unfold PAGE_SIZE in Hp; change (2 ^ 3) with 8; zlia). rewrite Z.shiftr_div_pow2 by lia. rewrite Z.div_small by lia. done.
Qed.

Lemma low_sane (p : low_pages) m p' : src_ok p -> src_alloc 1 p = (m, p') -> m <> 0 -> tempfs_chunk_ptr_sane m = true.
Proof.
  intros [Hok Hend] E Hm. simpl in E. unfold low_alloc, bump_alloc in E. destruct ((0 <? 1) && _) eqn:Ec; [|by injection E as <- _]. bool_prop. injection E as <- _.
  destruct Hok as (H1 & H2 & H3 & _). apply page_sane; [unfold PAGE_SIZE in *; lia|done].
Qed.

(** An empty file: the inode at 10, its node at 20. *)
Definition empty_file : tfs counting_heap low_pages :=
  {| tf_heap := {| ch_live := ∅; ch_next := 1000; ch_budget := 5 |}; tf_pages := {| low_bump := bump0 |};
     tf_inodes := {[10 := {| n_shared := 1; n_type := INODE_FILE; n_ops := file_ops; internal_data := 20; n_name := []; n_attached := false; n_parent := 0 |}]};
     tf_nodes := {[20 := {| t_name := [97]; capacity := 0; t_data := 0; borrowed := None; mtime := 0; ctime := 0 |}]};
     tf_chunks := ∅; tf_root := 1; tf_now := 7 |}.

Lemma empty_file_holds : holds empty_file 10 20 [] [].
Proof.
  split_and!; [split|done|done].
  - constructor; try done. constructor.
    + split; [split; [exact bump0_ok|done]|]. intros c [x Hx]. exfalso. exact (lookup_empty_Some _ _ Hx).
    + eexists. reflexivity.
    + done.
    + done.
    + intros j c Hj. by rewrite lookup_nil in Hj.
    + constructor.
  - done.
Qed.

(** Writing past the end leaves a hole of zeros. *)
Example file_with_hole : (file_run empty_file 10 [FWrite [1; 2; 3] 5; FRead 8 0; FTruncate 4088; FTruncate 0; FRead 4 0]).1 = [inl 3; inr [0; 0; 0; 0; 0; 1; 2; 3]; inl 0; inl 0; inr []].
Proof. vm_compute. reflexivity. Qed.

Lemma tempfs_file_refines_witness :
  let '(rs, s') := file_run empty_file 10 [FWrite [1; 2; 3] 5; FRead 8 0; FTruncate 4088; FTruncate 0; FRead 4 0] in
  inl (- ENOMEM) ∈ rs \/ (rs = (array_run [] [FWrite [1; 2; 3] 5; FRead 8 0; FTruncate 4088; FTruncate 0; FRead 4 0]).1 /\
    exists l', holds s' 10 20 l' (array_run [] [FWrite [1; 2; 3] 5; FRead 8 0; FTruncate 4088; FTruncate 0; FRead 4 0]).2 /\ touched empty_file s' 20 [] l').
Proof.
  apply (tempfs_file_refines low_sane [FWrite [1; 2; 3] 5; FRead 8 0; FTruncate 4088; FTruncate 0; FRead 4 0] empty_file 10 20 [] [] empty_file_holds).
  split; [split; [lia|vm_compute; reflexivity]|]. split; [split; lia|]. split; [split; [lia|left; vm_compute; discriminate]|].
  split; [split; [lia|right; vm_compute; reflexivity]|]. split; [split; lia|exact I].
Defined.

(** A file of five bytes. *)
Definition five_bytes : tfs counting_heap low_pages := (tempfs_write empty_file 10 [1; 2; 3; 4; 5] 0).2.

Lemma five_bytes_holds : exists l, holds five_bytes 10 20 l [1; 2; 3; 4; 5].
Proof.
  destruct (file_exec_refines low_sane empty_file 10 20 [] [] (FWrite [1; 2; 3; 4; 5] 0) empty_file_holds) as (r & s' & E & Hr); [simpl; lia|].
  cbn [file_exec] in E. assert (Es : s' = five_bytes) by (unfold five_bytes; destruct (tempfs_write empty_file 10 [1; 2; 3; 4; 5] 0); by injection E).
  assert (Er : r = inl 5).
  { assert (E5 : (tempfs_write empty_file 10 [1; 2; 3; 4; 5] 0).1 = 5) by (vm_compute; reflexivity).
    destruct (tempfs_write empty_file 10 [1; 2; 3; 4; 5] 0) as [x y]. simpl in E5. subst x. by injection E. }
  destruct Hr as [->|(_ & l & Hl & _)]; [done|]. exists l. by rewrite <- Es.
Qed.

(** Two bytes are cut off at 2, and are back after the file grew again. *)
Example old_bytes_back :
  tempfs_read (tempfs_truncate (tempfs_truncate five_bytes 10 2).2 10 5).2 10 5 0 = inr [1; 2; 3; 4; 0].
Proof. vm_compute. reflexivity. Qed.

Lemma truncate_keeps_tail_witness :
  exists s1 s2, tempfs_truncate five_bytes 10 2 = (0, s1) /\ tempfs_truncate s1 10 5 = (0, s2) /\
    forall count offset, 0 <= count -> 0 <= offset -> tempfs_read s2 10 count offset = inr (take (Z.to_nat count) (drop (Z.to_nat offset) [1; 2; 3; 4; 0])).
Proof.
  destruct five_bytes_holds as [l Hl]. apply (truncate_keeps_tail low_sane five_bytes 10 20 l [1; 2; 3; 4; 5] 2 Hl); [lia|vm_compute; reflexivity|vm_compute; reflexivity|].
  vm_compute. discriminate.
Defined.
