(* ===== verification/TempfsDir.v ===== *)
(** * Directories of the memory file system

    A directory is the list of its entries: what looking up, listing, creating, renaming and
    unlinking do to it, with the inodes, nodes, chunks and references of its children. *)

From S2P Require Import Prelude Heap KallocProofs Tempfs TempfsFile.

#[local] Abbreviation CH := MAX_FILE_DATA_PER_CHUNK.
#[local] Abbreviation EN := MAX_ENTRIES_PER_DATA_CHUNK.

Lemma EN_eq : EN = 511.
Proof. done. Qed.

Lemma elem_concat {A : Type} (x : A) ls : x ∈ concat ls <-> exists l, x ∈ l /\ l ∈ ls.
Proof.
  induction ls as [|l ls IH]; simpl; [split; [by intros ?%elem_of_nil|intros (l & _ & ?%elem_of_nil); done]|]. rewrite elem_of_app, IH. split.
  - intros [Hx|(k & Hx & Hk)]; [exists l; split; [done|by left]|exists k; split; [done|by right]].
  - intros (k & Hx & [->|Hk]%elem_of_cons); [by left|right; by exists k].
Qed.

(** The entry [k] goes, the last one takes its place. *)
Definition swap_remove {A : Type} (k : nat) (l : list A) : list A :=
  let n := pred (length l) in take n (match l !! n with Some x => <[k := x]> l | None => l end).

Lemma swap_remove_snoc {A : Type} k (l : list A) x : swap_remove k (l ++ [x]) = take (length l) (<[k := x]> (l ++ [x])).
Proof. unfold swap_remove. rewrite length_app. simpl. rewrite Nat.add_1_r. simpl. by rewrite lookup_app_r, Nat.sub_diag by lia. Qed.

Lemma swap_remove_perm {A : Type} k (l : list A) y : l !! k = Some y -> l ≡ₚ y :: swap_remove k l.
Proof.
  destruct l as [|x l] using rev_ind; [by rewrite lookup_nil|]. intros Hk. rewrite swap_remove_snoc. pose proof (lookup_lt_Some _ _ _ Hk) as Hlt. rewrite length_app in Hlt. simpl in Hlt.
  destruct (decide (k = length l)) as [->|Hne].
  - rewrite lookup_app_r, Nat.sub_diag in Hk by lia. injection Hk as ->. rewrite list_insert_id by (by rewrite lookup_app_r, Nat.sub_diag by lia). rewrite take_app_length. apply Permutation_app_comm.
  - rewrite lookup_app_l in Hk by lia. rewrite insert_app_l by lia. replace (length l) with (length (<[k := x]> l)) by (by rewrite length_insert). rewrite take_app_length.
    rewrite (insert_take_drop _ _ _ ltac:(by apply lookup_lt_is_Some; exists y)). rewrite <- (take_drop_middle l k y Hk) at 1. solve_Permutation.
Qed.

Lemma swap_remove_length {A : Type} k (l : list A) : length (swap_remove k l) = pred (length l).
Proof. unfold swap_remove. rewrite length_take. destruct (_ !! _); rewrite ?length_insert; lia. Qed.

Lemma swap_remove_lookup {A : Type} k (l : list A) j : (j < pred (length l))%nat -> swap_remove k l !! j = if decide (j = k) then l !! pred (length l) else l !! j.
Proof.
  intros Hj. unfold swap_remove. rewrite lookup_take_lt by done. destruct (lookup_lt_is_Some_2 l (pred (length l)) ltac:(lia)) as [x Hx]. rewrite Hx.
  case_decide as E; [subst; apply list_lookup_insert_eq; lia|by apply list_lookup_insert_ne].
Qed.

Lemma swap_remove_Forall2 {A B : Type} (R : A -> B -> Prop) k l l' : Forall2 R l l' -> Forall2 R (swap_remove k l) (swap_remove k l').
Proof.
  intros HR. pose proof (Forall2_length HR) as Hlen. unfold swap_remove. rewrite <- Hlen. apply Forall2_take. destruct (l !! pred (length l)) as [x|] eqn:E.
  - destruct (Forall2_lookup_l _ _ _ _ _ HR E) as (y & -> & Hy). by apply Forall2_insert.
  - rewrite lookup_ge_None in E. by rewrite lookup_ge_None_2 by lia.
Qed.

Section Dirs.

Context {H P : Type} `{HH : Heap H} `{PP : PageSource P} (sizeof_inode sizeof_node : Z).

Hypothesis pages_sane : forall p m p', src_ok p -> src_alloc 1 p = (m, p') -> m <> 0 -> tempfs_chunk_ptr_sane m = true.

Hypothesis sizes_pos : 0 < sizeof_inode /\ 0 < sizeof_node.

Implicit Types s : tfs H P.

(** The name of an inode in this file system. *)
Definition name_of s (c : Z) : list Z := t_name (node_at s (internal_data (inode_at s c))).

(** The entry [k] of a chain. *)
Definition entry s (l : list Z) (k : Z) : Z := fbyte s l (CH * (k / EN) + k `mod` EN).

Definition internal s (c : Z) : Z := internal_data (inode_at s c).

(** An entry's inode: its node, its chunks [lc], at least the reference of the tree. *)
Record child s (dir c : Z) (lc : list Z) : Prop := {
  ch_nonnull : c <> 0;
  ch_inode : is_Some (tf_inodes s !! c);
  ch_internal : internal s c <> 0;
  ch_node : is_Some (tf_nodes s !! internal s c);
  ch_data : t_data (node_at s (internal s c)) = nth_ptr lc 0;
  ch_linked : linked s lc;
  ch_shared : 1 <= n_shared (inode_at s c);
  ch_parent : n_attached (inode_at s c) = true -> n_parent (inode_at s c) = dir;
}.

Definition attached s (es : list Z) : Z := Z.of_nat (length (filter (fun c => n_attached (inode_at s c) = true) es)).

(** The blocks of the heap that a directory and its children are. *)
Definition blocks s (dir t : Z) (es : list Z) : list Z := dir :: t :: es ++ (internal s <$> es).

(** The directory [dir] at [t] has the chunks [l] and the entries [es], whose chunks are [chains]. *)
Record is_dir s (dir t : Z) (l es : list Z) (chains : list (list Z)) : Prop := {
  d_node : is_node s dir t l;
  d_size : size_of s t = Z.of_nat (length es);
  d_room : Z.of_nat (length es) <= EN * Z.of_nat (length l);
  d_entries : forall k c, es !! k = Some c -> entry s l (Z.of_nat k) = c;
  d_children : Forall2 (child s dir) es chains;
  d_blocks : NoDup (blocks s dir t es);
  d_chunks : NoDup (l ++ concat chains);
  d_heap : heap_ok (tf_heap s);
  d_live : forall b, b ∈ blocks s dir t es -> b ∈ live (tf_heap s);
  d_dom : forall x, is_Some (tf_inodes s !! x) \/ is_Some (tf_nodes s !! x) -> x ∈ live (tf_heap s);
  d_apart : forall x, is_Some (tf_inodes s !! x) -> tf_nodes s !! x = None;
  d_root : (tf_root s ∉ es ++ (internal s <$> es)) /\ tf_root s ∈ live (tf_heap s);
  d_held : dir = tf_root s \/ attached s es < n_shared (inode_at s dir);
}.

(** ** Finding entries *)

Lemma entry_split k : 0 <= k -> 0 <= k `mod` EN < EN /\ 0 <= k / EN /\ k = EN * (k / EN) + k `mod` EN.
Proof. rewrite EN_eq. intros Hk. zlia. Qed.

Lemma slot_get_entry s l k : 0 <= k -> (Z.to_nat (k / EN) < length l)%nat -> slot_get s (nth_ptr l (Z.to_nat (k / EN)), k `mod` EN) = entry s l k.
Proof.
  intros Hk Hl. unfold slot_get, entry, fbyte. simpl fst. simpl snd. rewrite EN_eq, CH_eq in *.
  replace ((4088 * (k / 511) + k `mod` 511) / 4088) with (k / 511) by zlia. replace ((4088 * (k / 511) + k `mod` 511) `mod` 4088) with (k `mod` 511) by zlia.
  destruct (lookup_lt_is_Some_2 l _ Hl) as [c Hc]. by rewrite Hc, (nth_ptr_lookup _ _ _ Hc).
Qed.

Lemma entry_walk_spec fuel : forall s t l j idx, wf s t l -> 0 <= idx -> idx / EN < Z.of_nat fuel -> (j + Z.to_nat (idx / EN) < length l)%nat ->
  entry_walk fuel s (nth_ptr l j) idx = (nth_ptr l (j + Z.to_nat (idx / EN)), idx `mod` EN).
Proof.
  rewrite EN_eq. induction fuel as [|fuel IH]; intros s t l j idx Hw Hi Hf Hj; [zlia|]. cbn [entry_walk]. rewrite EN_eq, Z.geb_leb.
  rewrite (proj2 (Z.eqb_neq _ 0)) by (eapply wf_nonnull; [done|zlia]). simpl negb. simpl andb. destruct (Z.leb_spec 511 idx).
  - rewrite (wf_follow s t l j) by (done || zlia). rewrite (IH s t l (S j) (idx - 511) Hw); [|zlia..].
    replace (S j + Z.to_nat ((idx - 511) / 511))%nat with (j + Z.to_nat (idx / 511))%nat by zlia. by replace ((idx - 511) `mod` 511) with (idx `mod` 511) by zlia.
  - rewrite Z.div_small, Z.mod_small by lia. by rewrite Nat.add_0_r.
Qed.

(** The pointer to an entry. *)
Definition entry_at (l : list Z) (k : Z) : Z * Z := (nth_ptr l (Z.to_nat (k / EN)), k `mod` EN).

Lemma entry_ptr_spec s t l k : wf s t l -> 0 <= k < EN * Z.of_nat (length l) -> tempfs_entry_ptr s t k = Some (entry_at l k) /\ slot_get s (entry_at l k) = entry s l k.
Proof.
  intros Hw Hk. assert (Hl : (Z.to_nat (k / EN) < length l)%nat) by (rewrite EN_eq in *; zlia). split; [|apply slot_get_entry; [lia|done]].
  unfold tempfs_entry_ptr. rewrite (wf_head _ _ _ Hw), (entry_walk_spec _ s t l 0); [|done|lia|rewrite EN_eq; zlia|done]. rewrite Nat.add_0_l.
  by rewrite (proj2 (Z.eqb_neq _ 0)) by (by eapply wf_nonnull).
Qed.

Lemma dir_entry s dir t l es chains k c : is_dir s dir t l es chains -> es !! k = Some c ->
  tempfs_entry_ptr s t (Z.of_nat k) = Some (entry_at l (Z.of_nat k)) /\ slot_get s (entry_at l (Z.of_nat k)) = c /\ exists lc, chains !! k = Some lc /\ child s dir c lc.
Proof.
  intros Hd Hk. pose proof (lookup_lt_Some _ _ _ Hk). pose proof (d_room _ _ _ _ _ _ Hd). destruct (entry_ptr_spec s t l (Z.of_nat k) (node_wf _ _ _ _ (d_node _ _ _ _ _ _ Hd))) as [-> ->]; [lia|].
  split_and!; [done|by apply (d_entries _ _ _ _ _ _ Hd)|]. destruct (Forall2_lookup_l _ _ _ _ _ (d_children _ _ _ _ _ _ Hd) Hk) as (lc & Hlc & Hc). by exists lc.
Qed.

Lemma find_slot_spec s dir t l es chains name : is_dir s dir t l es chains -> forall n i, (i + n)%nat = length es ->
  find_slot n s t (Z.of_nat i) name =
  match list_find (fun c => name_of s c = name) (drop i es) with
  | Some (k, c) => Some (Z.of_nat (i + k), entry_at l (Z.of_nat (i + k)), c)
  | None => None
  end.
Proof.
  intros Hd. induction n as [|n IH]; intros i Hi; cbn [find_slot]; [by rewrite drop_ge by lia|].
  destruct (lookup_lt_is_Some_2 es i ltac:(lia)) as [c Hc]. rewrite (drop_S es c i Hc). destruct (dir_entry _ _ _ _ _ _ _ _ Hd Hc) as (-> & -> & lc & _ & Hch).
  rewrite (proj2 (Z.eqb_neq c 0)) by apply Hch. rewrite (proj2 (Z.eqb_neq (internal_data (inode_at s c)) 0)) by apply Hch. simpl orb. cbv iota.
  replace (Z.of_nat i + 1) with (Z.of_nat (S i)) by lia. rewrite (IH (S i)) by lia. cbn [list_find]. unfold name_is. fold (name_of s c).
  destruct (decide (name_of s c = name)) as [E|E].
  - rewrite bool_decide_true by done. simpl. by rewrite Nat.add_0_r.
  - rewrite bool_decide_false by done. destruct (list_find _ (drop (S i) es)) as [[k c']|]; [|done]. simpl. by replace (i + S k)%nat with (S (i + k)) by lia.
Qed.

Lemma find_slot_dir s dir t l es chains name : is_dir s dir t l es chains ->
  find_slot (length es) s t 0 name =
  match list_find (fun c => name_of s c = name) es with
  | Some (k, c) => Some (Z.of_nat k, entry_at l (Z.of_nat k), c)
  | None => None
  end.
Proof. intros Hd. pose proof (find_slot_spec s dir t l es chains name Hd (length es) 0 eq_refl) as E. by rewrite drop_0 in E. Qed.

Lemma find_in_chunk_spec s dir t l es chains name : is_dir s dir t l es chains -> forall n j i, 0 <= i -> i + Z.of_nat n <= EN -> EN * Z.of_nat j + i + Z.of_nat n <= Z.of_nat (length es) ->
  find_in_chunk n s (nth_ptr l j) i name = snd <$> list_find (fun c => name_of s c = name) (take n (drop (Z.to_nat (EN * Z.of_nat j + i)) es)).
Proof.
  rewrite EN_eq. intros Hd. induction n as [|n IH]; intros j i Hi He Hn; cbn [find_in_chunk]; [done|]. set (k := Z.to_nat (511 * Z.of_nat j + i)).
  destruct (lookup_lt_is_Some_2 es k ltac:(lia)) as [c Hc]. destruct (dir_entry _ _ _ _ _ _ _ _ Hd Hc) as (_ & Hs & lc & _ & Hch).
  assert (Eat : entry_at l (Z.of_nat k) = (nth_ptr l j, i)) by (unfold entry_at; rewrite EN_eq; unfold k; f_equal; [f_equal; zlia|zlia]). rewrite Eat in Hs. rewrite Hs.
  rewrite (proj2 (Z.eqb_neq c 0)) by apply Hch. simpl negb. simpl andb. rewrite (drop_S es c k Hc). cbn [take list_find]. unfold name_is. fold (name_of s c).
  rewrite (IH j (i + 1)) by lia. replace (Z.to_nat (511 * Z.of_nat j + (i + 1))) with (S k) by lia.
  destruct (decide (name_of s c = name)); [by rewrite bool_decide_true|]. rewrite bool_decide_false by done. by destruct (list_find _ _) as [[? ?]|].
Qed.

Lemma find_in_chunks_spec s dir t l es chains name : is_dir s dir t l es chains -> forall fuel j remaining,
  0 <= remaining -> EN * Z.of_nat j + remaining = Z.of_nat (length es) -> remaining < Z.of_nat fuel ->
  find_in_chunks fuel s (nth_ptr l j) remaining name = snd <$> list_find (fun c => name_of s c = name) (drop (Z.to_nat (EN * Z.of_nat j)) es).
Proof.
  rewrite EN_eq. intros Hd. pose proof (node_wf _ _ _ _ (d_node _ _ _ _ _ _ Hd)) as Hw. pose proof (d_room _ _ _ _ _ _ Hd) as Hroom. rewrite EN_eq in Hroom.
  induction fuel as [|fuel IH]; intros j remaining Hr Hj Hf; [lia|]. cbn [find_in_chunks]. rewrite Z.gtb_ltb. destruct (Z.ltb_spec 0 remaining) as [Hpos|Hle].
  - rewrite (proj2 (Z.eqb_neq _ 0)) by (eapply wf_nonnull; [done|lia]). simpl negb. simpl andb. cbv iota. rewrite EN_eq. set (n := if remaining <? 511 then remaining else 511).
    assert (Hn : 0 < n <= remaining /\ n <= 511 /\ (n = remaining \/ n = 511)) by (unfold n; case_if; lia). clearbody n.
    rewrite (find_in_chunk_spec s dir t l es chains name Hd _ j 0); [|lia|rewrite EN_eq; lia|rewrite EN_eq; lia]. rewrite EN_eq, Z.add_0_r. set (k := Z.to_nat (511 * Z.of_nat j)).
    rewrite <- (take_drop (Z.to_nat n) (drop k es)) at 2. destruct (list_find _ (take (Z.to_nat n) (drop k es))) as [[x y]|] eqn:E.
    + simpl. by rewrite (list_find_app_l _ _ _ _ _ E).
    + cbn [fmap option_fmap option_map]. rewrite (list_find_app_r _ _ _ E), drop_drop. rewrite (wf_follow s t l j) by (done || lia). destruct Hn as (Hn1 & Hn2 & [-> | ->]).
      * rewrite Z.sub_diag. destruct fuel; [lia|]. cbn [find_in_chunks]. rewrite andb_false_r. rewrite (drop_ge es (k + Z.to_nat remaining)) by (unfold k; lia). done.
      * rewrite (IH (S j)) by lia. replace (Z.to_nat (511 * Z.of_nat (S j))) with (k + Z.to_nat 511)%nat by lia.
        by destruct (list_find (fun c => name_of s c = name) (drop (k + Z.to_nat 511) es)) as [[? ?]|].
  - rewrite andb_false_r. rewrite drop_ge by lia. done.
Qed.

(** ** What keeps a directory *)

(** The inode [x] keeps its node, its parent and a reference. *)
Definition alike s s' (x : Z) : Prop :=
  (is_Some (tf_inodes s !! x) -> is_Some (tf_inodes s' !! x)) /\ internal s' x = internal s x /\ n_attached (inode_at s' x) = n_attached (inode_at s x) /\
  n_parent (inode_at s' x) = n_parent (inode_at s x) /\ (1 <= n_shared (inode_at s x) -> 1 <= n_shared (inode_at s' x)).

Lemma linked_frame s s' r : (forall c, c ∈ r -> tf_chunks s' !! c = tf_chunks s !! c) -> linked s r -> linked s' r.
Proof.
  intros Hsame [Hl Hnd]. split; [|done]. intros j c Hj. assert (Hc : c ∈ r) by (by eapply list_elem_of_lookup_2). destruct (Hl j c Hj) as (H1 & H2 & H3).
  unfold chunk_at in *. rewrite Hsame by done. done.
Qed.

Lemma child_frame s s' dir c lc :
  child s dir c lc -> alike s s' c -> (forall d, tf_nodes s !! internal s c = Some d -> exists d', tf_nodes s' !! internal s c = Some d' /\ t_data d' = t_data d) ->
  (forall x, x ∈ lc -> tf_chunks s' !! x = tf_chunks s !! x) -> child s' dir c lc.
Proof.
  intros [Hn Hi Hint [d Hd] Hdata Hl Hs Hp] (A1 & A2 & A3 & A4 & A5) Hnode Hch. destruct (Hnode d Hd) as (d' & Hd' & Et).
  constructor; [done|auto|by rewrite A2|rewrite A2; by exists d'| |by eapply linked_frame|auto|by rewrite A3, A4].
  rewrite A2. unfold node_at in *. rewrite Hd in Hdata. rewrite Hd'. simpl in *. congruence.
Qed.

Lemma alike_blocks s s' dir t es : (forall x, x ∈ es -> alike s s' x) -> blocks s' dir t es = blocks s dir t es.
Proof.
  intros Ha. unfold blocks. do 3 f_equal. apply list_fmap_ext. intros j x Hj. apply (Ha x). by eapply list_elem_of_lookup_2.
Qed.

Lemma alike_attached s s' es : (forall x, x ∈ es -> alike s s' x) -> attached s' es = attached s es.
Proof.
  intros Ha. unfold attached. do 2 f_equal. induction es as [|c es IH]; [done|]. rewrite !filter_cons.
  destruct (Ha c) as (_ & _ & -> & _); [by left|]. rewrite IH by (intros x Hx; apply Ha; by right). done.
Qed.

Lemma dir_frame_part s s' dir t l l' es chains :
  is_dir s dir t l es chains -> is_node s' dir t l' -> size_of s' t = size_of s t -> (length l <= length l')%nat ->
  (forall k, 0 <= k < Z.of_nat (length es) -> entry s' l' k = entry s l k) -> (forall x, x ∈ es -> alike s s' x) ->
  (forall x d, x ∈ es -> tf_nodes s !! internal s x = Some d -> exists d', tf_nodes s' !! internal s x = Some d' /\ t_data d' = t_data d) ->
  (forall c, c ∈ concat chains -> tf_chunks s' !! c = tf_chunks s !! c) -> NoDup (l' ++ concat chains) ->
  heap_ok (tf_heap s') -> (forall b, b ∈ tf_root s :: blocks s dir t es -> b ∈ live (tf_heap s) -> b ∈ live (tf_heap s')) ->
  (forall x, is_Some (tf_inodes s' !! x) \/ is_Some (tf_nodes s' !! x) -> x ∈ live (tf_heap s')) -> (forall x, is_Some (tf_inodes s' !! x) -> tf_nodes s' !! x = None) -> tf_root s' = tf_root s ->
  (dir = tf_root s \/ attached s es < n_shared (inode_at s' dir)) -> is_dir s' dir t l' es chains.
Proof.
  intros Hd Hn Hs Hl He Ha Hnodes Hch Hnd Hok Hlive Hdom Hap Hroot Hsh. destruct Hd. constructor; try done.
  - by rewrite Hs.
  - rewrite EN_eq in *. lia.
  - intros k c Hk. rewrite He; [by apply d_entries0|]. apply lookup_lt_Some in Hk. lia.
  - apply Forall2_same_length_lookup. apply Forall2_same_length_lookup in d_children0 as [Hlen Hall]. split; [done|]. intros j c lc Hc Hlc.
    assert (c ∈ es) by (by eapply list_elem_of_lookup_2). eapply child_frame; [by eapply Hall|auto|intros d; by apply Hnodes|]. intros x Hx. apply Hch.
    apply elem_concat. exists lc. split; [done|]. by eapply list_elem_of_lookup_2.
  - by rewrite (alike_blocks s).
  - intros b. rewrite (alike_blocks s) by done. intros Hb. apply Hlive; [by right|]. by apply d_live0.
  - rewrite Hroot. destruct d_root0 as [Hr1 Hr2]. split; [|apply Hlive; [by left|done]]. replace (internal s' <$> es) with (internal s <$> es); [done|].
    apply list_fmap_ext. intros j x Hj. symmetry. apply (Ha x). by eapply list_elem_of_lookup_2.
  - by rewrite Hroot, (alike_attached s).
Qed.

Lemma dir_frame s s' dir t l l' es chains :
  is_dir s dir t l es chains -> is_node s' dir t l' -> size_of s' t = size_of s t -> (length l <= length l')%nat ->
  (forall k, 0 <= k < Z.of_nat (length es) -> entry s' l' k = entry s l k) -> (forall x, x ∈ es -> alike s s' x) ->
  (forall x d, x ∈ es -> tf_nodes s !! internal s x = Some d -> exists d', tf_nodes s' !! internal s x = Some d' /\ t_data d' = t_data d) ->
  (forall c, c ∈ concat chains -> tf_chunks s' !! c = tf_chunks s !! c) -> NoDup (l' ++ concat chains) ->
  heap_ok (tf_heap s') -> (forall b, b ∈ live (tf_heap s) -> b ∈ live (tf_heap s')) ->
  (forall x, is_Some (tf_inodes s' !! x) \/ is_Some (tf_nodes s' !! x) -> x ∈ live (tf_heap s')) -> (forall x, is_Some (tf_inodes s' !! x) -> tf_nodes s' !! x = None) -> tf_root s' = tf_root s ->
  n_shared (inode_at s dir) <= n_shared (inode_at s' dir) -> is_dir s' dir t l' es chains.
Proof.
  intros Hd Hn Hs Hl He Ha Hnodes Hch Hnd Hok Hlive Hdom Hap Hroot Hsh. eapply dir_frame_part; try done; [auto|].
  destruct (d_held _ _ _ _ _ _ Hd); [by left|right; lia].
Qed.

Lemma dir_chunks_alone s dir t l es chains c : is_dir s dir t l es chains -> c ∈ concat chains -> c ∉ l.
Proof. intros Hd Hc Hl. pose proof (d_chunks _ _ _ _ _ _ Hd) as Hnd. apply list.NoDup_app in Hnd as (_ & Hdis & _). by apply (Hdis c). Qed.

Lemma dir_present s dir t l es chains c : is_dir s dir t l es chains -> c ∈ concat chains -> is_Some (tf_chunks s !! c).
Proof.
  intros Hd Hc. apply elem_concat in Hc as (lc & Hc & Hlc). apply list_elem_of_lookup in Hlc as [j Hj].
  destruct (Forall2_lookup_r _ _ _ _ _ (d_children _ _ _ _ _ _ Hd) Hj) as (x & _ & Hx). apply list_elem_of_lookup in Hc as [k Hk]. by apply (proj1 (ch_linked _ _ _ _ Hx) k c Hk).
Qed.

Lemma inode_at_upd s i f x : inode_at (upd_inode s i f) x = if decide (x = i) then f (inode_at s i) else inode_at s x.
Proof. unfold inode_at, upd_inode. simpl. case_decide as E; [subst; by rewrite lookup_insert_eq|by rewrite lookup_insert_ne by congruence]. Qed.

(** The inode [i] is changed in a way its directory does not see. *)
Lemma upd_inode_dir s dir t l es chains i f :
  is_dir s dir t l es chains -> is_Some (tf_inodes s !! i) -> (forall n, internal_data (f n) = internal_data n) -> (forall n, n_attached (f n) = n_attached n) ->
  (forall n, n_parent (f n) = n_parent n) -> n_shared (inode_at s i) <= n_shared (f (inode_at s i)) -> is_dir (upd_inode s i f) dir t l es chains.
Proof.
  intros Hd Hi H1 H2 H3 H4. set (s' := upd_inode s i f).
  assert (Hat : forall x, inode_at s' x = if decide (x = i) then f (inode_at s i) else inode_at s x) by (intros x; apply inode_at_upd).
  assert (Hint : forall x, internal s' x = internal s x) by (intros x; unfold internal; rewrite Hat; case_decide; [subst; by rewrite H1|done]).
  eapply dir_frame; [exact Hd|..]; try done.
  - destruct (d_node _ _ _ _ _ _ Hd) as [N1 N2 N3 N4]. constructor; try done; [rewrite <- N2; apply Hint|]. destruct N4. by constructor.
  - intros x Hx. unfold alike. rewrite Hint, Hat. case_decide as E; [subst x|]; rewrite ?H2, ?H3; split_and!; try done; try lia.
    + intros _. simpl. by rewrite lookup_insert_eq.
    + intros Hs. simpl. by rewrite lookup_insert_ne by congruence.
  - intros x d Hx Hn. by exists d.
  - apply Hd.
  - apply Hd.
  - intros x Hx. apply (d_dom _ _ _ _ _ _ Hd). destruct Hx as [Hx|Hx]; [|by right]. simpl in Hx. destruct (decide (x = i)) as [->|]; [by left|]. rewrite lookup_insert_ne in Hx by done. by left.
  - intros x Hx. apply (d_apart _ _ _ _ _ _ Hd). simpl in Hx. destruct (decide (x = i)) as [->|]; [done|]. by rewrite lookup_insert_ne in Hx.
  - rewrite Hat. case_decide; [by subst|lia].
Qed.

(** ** Looking up and listing *)

Definition dir_find s (es : list Z) (name : list Z) : option Z := snd <$> list_find (fun c => name_of s c = name) es.

Lemma tempfs_lookup_spec s dir t l es chains name : is_dir s dir t l es chains ->
  let share c := upd_inode s c (fun n => set_n_shared (n_shared n + 1) n) in
  tempfs_lookup s dir name = match dir_find s es name with Some c => (0, c, share c) | None => (- ENOENT, 0, s) end /\
  forall c, dir_find s es name = Some c -> is_dir (share c) dir t l es chains.
Proof.
  intros Hd share. pose proof (d_node _ _ _ _ _ _ Hd) as Hn. split.
  - unfold tempfs_lookup. rewrite (node_internal _ _ _ _ Hn). fold (size_of s t). rewrite (d_size _ _ _ _ _ _ Hd), (wf_head _ _ _ (node_wf _ _ _ _ Hn)).
    rewrite (find_in_chunks_spec s dir t l es chains name Hd); [|lia|rewrite EN_eq; lia|lia]. rewrite EN_eq, drop_0. unfold dir_find. by destruct (list_find _ es) as [[k c]|].
  - intros c Hc. unfold dir_find in Hc. destruct (list_find _ es) as [[k x]|] eqn:E; [|done]. simpl in Hc. injection Hc as ->. apply list_find_Some in E as (Hk & _ & _).
    destruct (dir_entry _ _ _ _ _ _ _ _ Hd Hk) as (_ & _ & lc & _ & Hch). apply upd_inode_dir; try done; [apply Hch|simpl; lia].
Qed.

Lemma readdir_spec s dir t l es chains k c : is_dir s dir t l es chains -> es !! k = Some c ->
  let s' := upd_inode s c (fun n => set_n_shared (n_shared n + 1) n) in
  tempfs_readdir s dir (Z.of_nat k) = (0, c, s') /\ is_dir s' dir t l es chains.
Proof.
  intros Hd Hk s'. pose proof (d_node _ _ _ _ _ _ Hd) as Hn. destruct (dir_entry _ _ _ _ _ _ _ _ Hd Hk) as (E1 & E2 & lc & _ & Hch). split.
  - unfold tempfs_readdir. rewrite (node_internal _ _ _ _ Hn). fold (size_of s t). rewrite (d_size _ _ _ _ _ _ Hd), Z.geb_leb. apply lookup_lt_Some in Hk.
    rewrite (proj2 (Z.leb_gt _ _)) by lia. rewrite E1, E2. by rewrite (proj2 (Z.eqb_neq c 0)) by apply Hch.
  - apply upd_inode_dir; try done; [apply Hch|simpl; lia].
Qed.

(** ** Renaming *)

Lemma upd_node_name s dir t l es chains c name lc :
  is_dir s dir t l es chains -> c ∈ es -> child s dir c lc -> is_dir (upd_node s (internal s c) (set_t_name name)) dir t l es chains.
Proof.
  intros Hd Hc Hch. set (tc := internal s c). set (s' := upd_node s tc (set_t_name name)).
  assert (Hne : tc <> t). { pose proof (d_blocks _ _ _ _ _ _ Hd) as Hnd. unfold blocks in Hnd. apply list.NoDup_cons in Hnd as [_ Hnd]. apply list.NoDup_cons in Hnd as [Ht _].
    intros E. apply Ht. apply elem_of_app. right. rewrite <- E. by apply list_elem_of_fmap_2. }
  assert (Hat : forall x, node_at s' x = if decide (x = tc) then set_t_name name (node_at s tc) else node_at s x) by (intros x; apply node_at_insert).
  assert (Ht : node_at s' t = node_at s t) by (rewrite Hat; by rewrite decide_False by congruence).
  eapply dir_frame; [exact Hd|..]; try done.
  - destruct (d_node _ _ _ _ _ _ Hd) as [N1 N2 N3 N4]. constructor; try done. destruct N4. constructor; try done; try (by rewrite Ht).
    simpl. rewrite lookup_insert_ne by done. done.
  - unfold size_of. by rewrite Ht.
  - intros x d Hx Hn. simpl. destruct (decide (internal s x = tc)) as [E|E].
    + rewrite E, lookup_insert_eq. eexists. split; [done|]. simpl. unfold node_at. rewrite E in Hn. by rewrite Hn.
    + rewrite lookup_insert_ne by done. by exists d.
  - apply Hd.
  - apply Hd.
  - intros x Hx. apply (d_dom _ _ _ _ _ _ Hd). destruct Hx as [Hx|Hx]; [by left|]. simpl in Hx. destruct (decide (x = tc)) as [->|]; [right; apply Hch|].
    rewrite lookup_insert_ne in Hx by done. by right.
  - intros x Hx. simpl. rewrite lookup_insert_ne; [by apply (d_apart _ _ _ _ _ _ Hd)|]. intros <-. destruct (ch_node _ _ _ _ Hch) as [d E]. fold tc in E. by rewrite (d_apart _ _ _ _ _ _ Hd) in E.
Qed.

Lemma internal_inj s dir t l es chains x y : is_dir s dir t l es chains -> x ∈ es -> y ∈ es -> internal s x = internal s y -> x = y.
Proof.
  intros Hd Hx Hy E. pose proof (d_blocks _ _ _ _ _ _ Hd) as Hnd. unfold blocks in Hnd. apply list.NoDup_cons in Hnd as [_ Hnd]. apply list.NoDup_cons in Hnd as [_ Hnd].
  apply list.NoDup_app in Hnd as (_ & _ & Hnd). apply list_elem_of_lookup in Hx as [i Hi]. apply list_elem_of_lookup in Hy as [j Hj].
  assert (i = j) as ->; [|congruence]. eapply NoDup_lookup; [exact Hnd| |]; rewrite list_lookup_fmap; [by rewrite Hi|]. rewrite Hj. simpl. by rewrite E.
Qed.

Lemma rename_spec s dir t l es chains old new : is_dir s dir t l es chains -> old <> [] -> new <> [] -> Z.of_nat (length new) < TEMPFS_MAX_NAME_LEN ->
  match dir_find s es new, dir_find s es old with
  | Some _, _ => tempfs_rename s dir old new = (- EEXIST, s)
  | None, None => tempfs_rename s dir old new = (- ENOENT, s)
  | None, Some c => exists s', tempfs_rename s dir old new = (0, s') /\ is_dir s' dir t l es chains /\
      forall x, x ∈ es -> name_of s' x = (if decide (x = c) then new else name_of s x) /\ inode_at s' x = (if decide (x = c) then set_vfs_name new (inode_at s x) else inode_at s x)
  end.
Proof.
  intros Hd Hold Hnew Hlen. pose proof (d_node _ _ _ _ _ _ Hd) as Hn. unfold tempfs_rename.
  rewrite (node_internal _ _ _ _ Hn), (proj2 (Z.eqb_neq dir 0)), (proj2 (Z.eqb_neq t 0)) by apply Hn.
  rewrite (proj2 (Nat.eqb_neq (length old) 0)) by (by destruct old). rewrite (proj2 (Nat.eqb_neq (length new) 0)) by (by destruct new). simpl orb. cbv iota.
  rewrite Z.geb_leb, (proj2 (Z.leb_gt TEMPFS_MAX_NAME_LEN _)) by done. fold (size_of s t). rewrite (d_size _ _ _ _ _ _ Hd), Nat2Z.id.
  rewrite !(find_slot_dir s dir t l es chains _ Hd). unfold dir_find.
  destruct (list_find (fun c => name_of s c = new) es) as [[k c]|]; simpl; [done|].
  destruct (list_find (fun c => name_of s c = old) es) as [[k c]|] eqn:E; simpl; [|done]. apply list_find_Some in E as (Hk & _ & _).
  assert (Hc : c ∈ es) by (by eapply list_elem_of_lookup_2). destruct (dir_entry _ _ _ _ _ _ _ _ Hd Hk) as (_ & _ & lc & _ & Hch). eexists. split; [done|]. split.
  - apply upd_inode_dir; try done; [by eapply upd_node_name|apply Hch].
  - intros x Hx. split; [|rewrite inode_at_upd; by case_decide; subst]. unfold name_of. set (s1 := upd_node s _ _). assert (Hint : internal_data (inode_at (upd_inode s1 c (set_vfs_name new)) x) = internal s x).
    { rewrite inode_at_upd. by case_decide; subst. }
    rewrite Hint. change (node_at (upd_inode s1 c (set_vfs_name new)) (internal s x)) with (node_at s1 (internal s x)). unfold s1. rewrite node_at_insert.
    destruct (decide (x = c)) as [->|Hne]; [by rewrite decide_True by done|]. rewrite decide_False; [done|]. intros E. apply Hne. by eapply internal_inj.
Qed.

(** ** Creating *)

(** A directory has the chunks its entries fill, so none has to be made on the way to the end. *)
Lemma create_skip_spec fuel : forall s t l j idx, wf s t l -> 0 <= idx -> idx / EN < Z.of_nat fuel -> (j + Z.to_nat (idx / EN) <= length l)%nat ->
  let q := (j + Z.to_nat (idx / EN))%nat in create_skip fuel s (link_at t l j) (nth_ptr l j) idx = (Some (link_at t l q, nth_ptr l q, idx `mod` EN), s).
Proof.
  rewrite EN_eq. induction fuel as [|fuel IH]; intros s t l j idx Hw Hi Hf Hj; [zlia|]. cbn [create_skip]. rewrite EN_eq, Z.geb_leb. destruct (Z.leb_spec 511 idx).
  - assert (Hlt : (j < length l)%nat) by zlia. unfold need_chunk. rewrite !(proj2 (Z.eqb_neq (nth_ptr l j) 0)) by (by eapply wf_nonnull).
    rewrite (wf_follow s t l j) by done. specialize (IH s t l (S j) (idx - 511) Hw). cbn [link_at] in IH. rewrite IH by zlia.
    replace (S j + Z.to_nat ((idx - 511) / 511))%nat with (j + Z.to_nat (idx / 511))%nat by zlia. by replace ((idx - 511) `mod` 511) with (idx `mod` 511) by zlia.
  - rewrite Z.div_small, Z.mod_small by lia. by rewrite Nat.add_0_r.
Qed.

(** No chunk: there was none, and no page for it. *)
Lemma need_chunk_none s link data s' : need_chunk s link data = (0, s') -> data = 0 /\ (src_alloc 1 (tf_pages s)).1 = 0.
Proof.
  unfold need_chunk, tempfs_new_data_chunk. change (TEMPFS_DATA_CHUNK_SIZE / PAGE_SIZE) with 1. destruct (Z.eqb_spec data 0) as [->|Hd]; [|congruence].
  destruct (src_alloc 1 (tf_pages s)) as [p ps]. destruct (Z.eqb_spec p 0) as [->|Hp]; [done|congruence].
Qed.

(** A longer chain of the directory changes nothing of it. *)
Lemma extends_dir s s' dir t l l' es chains :
  is_dir s dir t l es chains -> extends s s' t l l' -> (forall k, fbyte s' l' k = fbyte s l k) -> is_dir s' dir t l' es chains /\ forall x, x ∈ es -> name_of s' x = name_of s x.
Proof.
  intros Hd Hex Hb. destruct (extends_is_node _ _ _ _ _ _ (d_node _ _ _ _ _ _ Hd) Hex) as (Hn & Hs & Hl).
  assert (Hint : forall x, inode_at s' x = inode_at s x) by (intros x; unfold inode_at; by rewrite (ex_inodes _ _ _ _ _ Hex)).
  assert (Hnt : forall x, x ∈ es -> internal s x <> t).
  { intros x Hx E. pose proof (d_blocks _ _ _ _ _ _ Hd) as Hnd. unfold blocks in Hnd. apply list.NoDup_cons in Hnd as [_ Hnd]. apply list.NoDup_cons in Hnd as [Ht _].
    apply Ht. apply elem_of_app. right. rewrite <- E. by apply list_elem_of_fmap_2. }
  split.
  - eapply dir_frame; [exact Hd|done|done|lia|..]; rewrite ?(ex_heap _ _ _ _ _ Hex), ?(ex_root _ _ _ _ _ Hex); try done.
    + intros k Hk. apply Hb.
    + intros x Hx. unfold alike, internal. rewrite Hint, (ex_inodes _ _ _ _ _ Hex). done.
    + intros x d Hx Hnx. exists d. rewrite (ex_nodes _ _ _ _ _ Hex) by (by apply Hnt). done.
    + intros c Hc. destruct (dir_present _ _ _ _ _ _ _ Hd Hc) as [ch Hch]. rewrite Hch. eapply (ex_chunks _ _ _ _ _ Hex); [done|by eapply dir_chunks_alone].
    + pose proof (d_chunks _ _ _ _ _ _ Hd) as Hnd. apply list.NoDup_app in Hnd as (_ & _ & Hnd). apply list.NoDup_app. split_and!; [apply (wf_nodup _ _ _ (ex_wf _ _ _ _ _ Hex))| |done].
      intros c Hc Hcc. destruct (dir_present _ _ _ _ _ _ _ Hd Hcc) as [ch Hch]. pose proof (ex_fresh _ _ _ _ _ Hex c Hc (dir_chunks_alone _ _ _ _ _ _ _ Hd Hcc)). congruence.
    + apply Hd.
    + intros x Hx. apply (d_dom _ _ _ _ _ _ Hd). rewrite (ex_inodes _ _ _ _ _ Hex) in Hx. destruct Hx as [Hx|Hx]; [by left|]. right.
      destruct (decide (x = t)) as [->|Hne]; [apply (node_wf _ _ _ _ (d_node _ _ _ _ _ _ Hd))|]. by rewrite (ex_nodes _ _ _ _ _ Hex) in Hx.
    + intros x Hx. rewrite (ex_inodes _ _ _ _ _ Hex) in Hx. pose proof (d_apart _ _ _ _ _ _ Hd x Hx) as E. rewrite (ex_nodes _ _ _ _ _ Hex); [done|].
      intros ->. destruct (wf_node _ _ _ (node_wf _ _ _ _ (d_node _ _ _ _ _ _ Hd))) as [d Ed]. congruence.
    + by rewrite Hint.
  - intros x Hx. unfold name_of. rewrite Hint. unfold node_at. rewrite (ex_nodes _ _ _ _ _ Hex); [done|]. by apply Hnt.
Qed.

(** The heap has room for an inode, but not for its node. *)
Definition node_missing (h : H) : Prop := let '(i, h1) := kmalloc sizeof_inode h in i <> 0 /\ (kmalloc sizeof_node h1).1 = 0.

(** The directory has no room in its chunks and there is no page for another, or the heap has no room for an inode. *)
Definition no_memory s (l es : list Z) : Prop :=
  (Z.of_nat (length es) = EN * Z.of_nat (length l) /\ (src_alloc 1 (tf_pages s)).1 = 0) \/ (kmalloc sizeof_inode (tf_heap s)).1 = 0.

Lemma create_inode_none s type ops s' : tempfs_create_inode sizeof_inode sizeof_node s type ops = (0, s') -> (kmalloc sizeof_inode (tf_heap s)).1 = 0.
Proof.
  unfold tempfs_create_inode. destruct (kmalloc sizeof_inode (tf_heap s)) as [i h]. destruct (Z.eqb_spec i 0) as [->|Hi]; [done|]. cbn [tf_heap tf_set_heap].
  destruct (kmalloc sizeof_node h) as [t h']. destruct (t =? 0); intros E; injection E; congruence.
Qed.

(** A new inode and its node are blocks that nobody had. *)
Lemma create_inode_spec s type ops : heap_ok (tf_heap s) ->
  exists i s', tempfs_create_inode sizeof_inode sizeof_node s type ops = (i, s') /\ tf_pages s' = tf_pages s /\ tf_chunks s' = tf_chunks s /\ tf_root s' = tf_root s /\ tf_now s' = tf_now s /\
    heap_ok (tf_heap s') /\
    ((live (tf_heap s') = live (tf_heap s) /\ (i = 0 \/ ((i ∉ live (tf_heap s)) /\ node_missing (tf_heap s))) /\ tf_inodes s' = tf_inodes s /\ tf_nodes s' = tf_nodes s) \/
     exists tn, i <> 0 /\ tn <> 0 /\ i <> tn /\ (i ∉ live (tf_heap s)) /\ (tn ∉ live (tf_heap s)) /\ live (tf_heap s') = {[i]} ∪ ({[tn]} ∪ live (tf_heap s)) /\
       tf_inodes s' = <[i := {| n_shared := 1; n_type := type; n_ops := ops; internal_data := tn; n_name := []; n_attached := false; n_parent := 0 |}]> (tf_inodes s) /\
       exists d, tf_nodes s' = <[tn := d]> (tf_nodes s) /\ t_data d = 0 /\ capacity d = 0).
Proof.
  intros Hok. unfold tempfs_create_inode. destruct (kmalloc sizeof_inode (tf_heap s)) as [i h1] eqn:E1. destruct (kmalloc_block _ _ _ _ Hok (proj1 sizes_pos) E1) as (Hok1 & Hl1 & Hf1 & Hs1).
  unfold block in Hl1, Hf1. destruct (Z.eqb_spec i 0) as [->|Hi].
  { exists 0. eexists. split; [done|]. split_and!; try done. left. split_and!; try done; [simpl; rewrite Hl1; set_solver|by left]. }
  cbn [tf_heap tf_set_heap]. destruct (kmalloc sizeof_node h1) as [tn h2] eqn:E2. destruct (kmalloc_block _ _ _ _ Hok1 (proj2 sizes_pos) E2) as (Hok2 & Hl2 & Hf2 & Hs2). unfold block in Hl2, Hf2.
  destruct (Z.eqb_spec tn 0) as [->|Ht].
  - destruct (kfree_spec i h2 Hok2) as [Hok3 Hl3]; [rewrite Hl2, Hl1; set_solver|]. exists i. eexists. split; [done|]. split_and!; try done.
    left. split_and!; try done; [simpl; rewrite Hl3, Hl2, Hl1; set_solver|right]. split; [set_solver|]. unfold node_missing. by rewrite E1, E2.
  - exists i. eexists. split; [done|]. split_and!; try done. right. exists tn. split_and!; try done; [rewrite Hl1 in Hf2; set_solver|set_solver|rewrite Hl1 in Hf2; set_solver|simpl; rewrite Hl2, Hl1; set_solver|].
    eexists. split; [done|]. done.
Qed.

(** The state [s'] has the blocks of [s], and perhaps others. *)
Record keeps s s' : Prop := {
  ke_pages : tf_pages s' = tf_pages s;
  ke_chunks : tf_chunks s' = tf_chunks s;
  ke_root : tf_root s' = tf_root s;
  ke_inodes : forall x, x ∈ live (tf_heap s) -> tf_inodes s' !! x = tf_inodes s !! x;
  ke_nodes : forall x, x ∈ live (tf_heap s) -> tf_nodes s' !! x = tf_nodes s !! x;
  ke_heap : heap_ok (tf_heap s');
  ke_live : forall b, b ∈ live (tf_heap s) -> b ∈ live (tf_heap s');
  ke_dom : forall x, is_Some (tf_inodes s' !! x) \/ is_Some (tf_nodes s' !! x) -> x ∈ live (tf_heap s');
  ke_apart : forall x, is_Some (tf_inodes s' !! x) -> tf_nodes s' !! x = None;
}.

Lemma keeps_dir s s' dir t l es chains : is_dir s dir t l es chains -> keeps s s' -> is_dir s' dir t l es chains /\ forall x, x ∈ es -> name_of s' x = name_of s x.
Proof.
  intros Hd Hk. pose proof (d_live _ _ _ _ _ _ Hd) as Hlive. unfold blocks in Hlive.
  assert (Hbi : forall x, x ∈ live (tf_heap s) -> inode_at s' x = inode_at s x) by (intros x Hx; unfold inode_at; by rewrite (ke_inodes _ _ Hk)).
  assert (Hbn : forall x, x ∈ live (tf_heap s) -> node_at s' x = node_at s x) by (intros x Hx; unfold node_at; by rewrite (ke_nodes _ _ Hk)).
  assert (Hbc : forall x, chunk_at s' x = chunk_at s x) by (intros x; unfold chunk_at; by rewrite (ke_chunks _ _ Hk)).
  assert (Hdir : dir ∈ live (tf_heap s)) by (apply Hlive; left). assert (Ht : t ∈ live (tf_heap s)) by (apply Hlive; right; left).
  assert (Hes : forall x, x ∈ es -> x ∈ live (tf_heap s)) by (intros x Hx; apply Hlive; right; right; apply elem_of_app; by left).
  assert (Hin : forall x, x ∈ es -> internal s x ∈ live (tf_heap s)) by (intros x Hx; apply Hlive; right; right; apply elem_of_app; right; by apply list_elem_of_fmap_2).
  split; [|intros x Hx; unfold name_of; rewrite Hbi by auto; rewrite Hbn; [done|by apply Hin]].
  eapply dir_frame; [exact Hd|..]; try apply Hk; try done.
  - destruct (d_node _ _ _ _ _ _ Hd) as [N1 N2 N3 N4]. constructor; try done; [by rewrite Hbi|]. destruct N4 as [[W1 W2] W3 W4 W5 W6 W7]. constructor; try done.
    + split; [by rewrite (ke_pages _ _ Hk)|]. by rewrite (ke_pages _ _ Hk), (ke_chunks _ _ Hk).
    + by rewrite (ke_nodes _ _ Hk).
    + by rewrite Hbn.
    + by rewrite Hbn.
    + by rewrite (ke_chunks _ _ Hk); setoid_rewrite Hbc.
  - unfold size_of. by rewrite Hbn.
  - intros k _. unfold entry, fbyte. destruct (l !! _); [by rewrite Hbc|done].
  - intros x Hx. unfold alike, internal. rewrite Hbi, (ke_inodes _ _ Hk) by auto. done.
  - intros x d Hx Hn. exists d. rewrite (ke_nodes _ _ Hk) by auto. done.
  - intros c Hc. by rewrite (ke_chunks _ _ Hk).
  - apply Hd.
  - by rewrite Hbi.
Qed.

Lemma keeps_inode s s' dir t l es chains x : is_dir s dir t l es chains -> keeps s s' -> x ∈ es -> inode_at s' x = inode_at s x.
Proof.
  intros Hd Hk Hx. unfold inode_at. rewrite (ke_inodes _ _ Hk); [done|]. apply (d_live _ _ _ _ _ _ Hd). unfold blocks. right. right. apply elem_of_app. by left.
Qed.

(** Storing an entry. *)
Lemma slot_set_spec s t l k v : wf s t l -> 0 <= k < EN * Z.of_nat (length l) ->
  let s' := slot_set s (entry_at l k) v in
  extends s s' t l l /\ forall k', 0 <= k' -> entry s' l k' = if decide (k' = k) then v else entry s l k'.
Proof.
  rewrite EN_eq. intros Hw Hk s'. unfold s', slot_set, entry_at. cbn [fst snd]. rewrite EN_eq.
  destruct (store_chunk s t l (Z.to_nat (k / 511)) (k `mod` 511) [v] Hw) as [Hex Hb]; [zlia|zlia|rewrite CH_eq; simpl length; zlia|].
  split; [exact Hex|]. intros k' Hk'. unfold entry at 1. rewrite EN_eq, CH_eq in *. rewrite Hb by zlia. simpl length.
  destruct (decide (k' = k)) as [->|Hne].
  - rewrite Z2Nat.id by zlia. destruct (Z.leb_spec (4088 * (k / 511) + k `mod` 511) (4088 * (k / 511) + k `mod` 511)); [|lia].
    destruct (Z.ltb_spec (4088 * (k / 511) + k `mod` 511) (4088 * (k / 511) + k `mod` 511 + Z.of_nat 1)); [|lia]. simpl andb. cbv iota. by rewrite Z.sub_diag.
  - rewrite Z2Nat.id by zlia. destruct (Z.leb_spec (4088 * (k / 511) + k `mod` 511) (4088 * (k' / 511) + k' `mod` 511)),
      (Z.ltb_spec (4088 * (k' / 511) + k' `mod` 511) (4088 * (k / 511) + k `mod` 511 + Z.of_nat 1)); simpl andb; cbv iota; try reflexivity. exfalso. zlia.
Qed.

(** What storing entries and counting them touches. *)
Record stored s s' (t : Z) (l : list Z) (n : Z) (es : list Z) : Prop := {
  st_chunks : forall c ch, tf_chunks s !! c = Some ch -> c ∉ l -> tf_chunks s' !! c = Some ch;
  st_nodes : forall t', t' <> t -> tf_nodes s' !! t' = tf_nodes s !! t';
  st_wf : wf s' t l;
  st_size : size_of s' t = n;
  st_inodes : tf_inodes s' = tf_inodes s;
  st_heap : tf_heap s' = tf_heap s;
  st_root : tf_root s' = tf_root s;
  st_entries : forall k c, es !! k = Some c -> entry s' l (Z.of_nat k) = c;
}.

Lemma stored_dir s s' dir t l es chains es' chains' :
  is_dir s dir t l es chains -> stored s s' t l (Z.of_nat (length es')) es' -> Z.of_nat (length es') <= EN * Z.of_nat (length l) ->
  Forall2 (child s dir) es' chains' -> NoDup (blocks s dir t es') -> NoDup (l ++ concat chains') -> (forall b, b ∈ blocks s dir t es' -> b ∈ live (tf_heap s)) ->
  (tf_root s ∉ es' ++ (internal s <$> es')) -> (dir = tf_root s \/ attached s es' < n_shared (inode_at s dir)) ->
  is_dir s' dir t l es' chains' /\ forall x, x ∈ es' -> name_of s' x = name_of s x.
Proof.
  intros Hd Hst Hroom Hch Hnd Hcn Hlive Hroot Hheld. destruct (d_node _ _ _ _ _ _ Hd) as [N1 N2 N3 N4].
  assert (Hint : forall x, inode_at s' x = inode_at s x) by (intros x; unfold inode_at; by rewrite (st_inodes _ _ _ _ _ _ Hst)).
  assert (Hi : forall x, internal s' x = internal s x) by (intros x; unfold internal; by rewrite Hint).
  assert (Hb : blocks s' dir t es' = blocks s dir t es') by (unfold blocks; do 3 f_equal; apply list_fmap_ext; intros; apply Hi).
  assert (Hnt : forall x, x ∈ es' -> internal s x <> t).
  { intros x Hx E. unfold blocks in Hnd. apply list.NoDup_cons in Hnd as [_ Hnd]. apply list.NoDup_cons in Hnd as [Ht _].
    apply Ht. apply elem_of_app. right. rewrite <- E. by apply list_elem_of_fmap_2. }
  split; [constructor|].
  - constructor; try done; [by rewrite Hint|apply Hst].
  - apply Hst.
  - done.
  - apply Hst.
  - apply Forall2_same_length_lookup. pose proof Hch as Hch'. apply Forall2_same_length_lookup in Hch' as [Hlen Hall]. split; [done|]. intros j c lc Hc Hlc.
    pose proof (Hall j c lc Hc Hlc) as Hcc. eapply child_frame; [exact Hcc| | |].
    + unfold alike. rewrite Hi, Hint, (st_inodes _ _ _ _ _ _ Hst). done.
    + intros d Hn. exists d. rewrite (st_nodes _ _ _ _ _ _ Hst); [done|]. apply Hnt. by eapply list_elem_of_lookup_2.
    + intros x Hx. apply list_elem_of_lookup in Hx as [i Hx']. destruct (proj1 (ch_linked _ _ _ _ Hcc) i x Hx') as (_ & [ch Hchx] & _). rewrite Hchx.
      eapply (st_chunks _ _ _ _ _ _ Hst); [done|]. apply list.NoDup_app in Hcn as (_ & Hdis & _). intros Hin. apply (Hdis x Hin). apply elem_concat.
      exists lc. split; by eapply list_elem_of_lookup_2.
  - by rewrite Hb.
  - done.
  - rewrite (st_heap _ _ _ _ _ _ Hst). apply Hd.
  - by rewrite Hb, (st_heap _ _ _ _ _ _ Hst).
  - rewrite (st_heap _ _ _ _ _ _ Hst), (st_inodes _ _ _ _ _ _ Hst). intros x Hx. apply (d_dom _ _ _ _ _ _ Hd). destruct Hx as [Hx|Hx]; [by left|right].
    destruct (decide (x = t)) as [->|Hne]; [apply N4|]. by rewrite (st_nodes _ _ _ _ _ _ Hst) in Hx.
  - intros x Hx. rewrite (st_inodes _ _ _ _ _ _ Hst) in Hx. pose proof (d_apart _ _ _ _ _ _ Hd x Hx) as E. rewrite (st_nodes _ _ _ _ _ _ Hst); [done|].
    intros ->. destruct (wf_node _ _ _ N4) as [d Ed]. congruence.
  - rewrite (st_root _ _ _ _ _ _ Hst), (st_heap _ _ _ _ _ _ Hst). split; [|apply (d_root _ _ _ _ _ _ Hd)]. replace (internal s' <$> es') with (internal s <$> es') by (apply list_fmap_ext; intros; by rewrite Hi). done.
  - rewrite (st_root _ _ _ _ _ _ Hst), Hint. rewrite (alike_attached s); [done|]. intros x _. unfold alike. by rewrite Hi, Hint, (st_inodes _ _ _ _ _ _ Hst).
  - intros x Hx. unfold name_of. rewrite Hint. unfold node_at. rewrite (st_nodes _ _ _ _ _ _ Hst); [done|]. by apply Hnt.
Qed.

(** Entries are stored, then counted. *)
Lemma stored_intro s s1 dir t l n f es :
  is_node s dir t l -> extends s s1 t l l -> (forall k c, es !! k = Some c -> entry s1 l (Z.of_nat k) = c) ->
  (forall d, t_data (f d) = t_data d) -> (forall d, borrowed (f d) = borrowed d) -> (forall d, t_name (f d) = t_name d) ->
  capacity (f (node_at s1 t)) = n -> stored s (upd_node s1 t f) t l n es.
Proof.
  intros Hn Hex He F1 F2 F3 Hc. destruct (extends_is_node _ _ _ _ _ _ Hn Hex) as (Hn1 & _ & _). destruct (node_step s1 dir t l f Hn1 F1 F2 F3) as (Hn2 & Hto & Hs & Hb).
  constructor.
  - intros c ch Hch Hout. by apply (ex_chunks _ _ _ _ _ Hex).
  - intros t' Hne. rewrite (to_nodes _ _ _ _ _ Hto) by done. by apply (ex_nodes _ _ _ _ _ Hex).
  - apply Hn2.
  - by rewrite Hs.
  - apply (ex_inodes _ _ _ _ _ Hex).
  - apply (ex_heap _ _ _ _ _ Hex).
  - apply (ex_root _ _ _ _ _ Hex).
  - intros k c Hk. unfold entry. rewrite Hb. by apply He.
Qed.

(** A new entry behind the others. *)
Lemma append_entry s dir t l es chains file :
  is_dir s dir t l es chains -> Z.of_nat (length es) < EN * Z.of_nat (length l) -> child s dir file [] -> n_attached (inode_at s file) = false ->
  file ∉ blocks s dir t es -> internal s file ∉ blocks s dir t es -> internal s file <> file -> file ∈ live (tf_heap s) -> internal s file ∈ live (tf_heap s) ->
  file <> tf_root s -> internal s file <> tf_root s ->
  let s' := upd_node (slot_set s (entry_at l (Z.of_nat (length es))) file) t (fun d => set_capacity (capacity d + 1) d) in
  is_dir s' dir t l (es ++ [file]) (chains ++ [[]]) /\ forall x, x ∈ es ++ [file] -> name_of s' x = name_of s x.
Proof.
  intros Hd Hroom Hch Hatt Hf1 Hf2 Hf3 Hl1 Hl2 Hr1 Hr2 s'. pose proof (d_node _ _ _ _ _ _ Hd) as Hn.
  destruct (slot_set_spec s t l (Z.of_nat (length es)) file (node_wf _ _ _ _ Hn)) as [Hex He]; [lia|]. set (s1 := slot_set _ _ _) in *.
  assert (Hperm : blocks s dir t (es ++ [file]) ≡ₚ file :: internal s file :: blocks s dir t es).
  { unfold blocks. rewrite fmap_app. simpl. rewrite <- !app_assoc. simpl. solve_Permutation. }
  eapply stored_dir; [exact Hd|..].
  - apply (stored_intro s s1 dir); try done.
    + intros k c Hk. rewrite He by lia. destruct (decide (Z.of_nat k = Z.of_nat (length es))) as [E|Hne].
      * apply Nat2Z.inj in E. subst k. rewrite lookup_app_r in Hk by lia. rewrite Nat.sub_diag in Hk. by injection Hk.
      * apply (d_entries _ _ _ _ _ _ Hd). pose proof (lookup_lt_Some _ _ _ Hk) as Hlt. rewrite length_app in Hlt. simpl in Hlt. rewrite lookup_app_l in Hk by lia. done.
    + rewrite length_app. simpl. destruct (extends_node _ _ _ _ _ Hex) as [-> _]. fold (size_of s t). rewrite (d_size _ _ _ _ _ _ Hd). lia.
  - rewrite length_app. simpl. lia.
  - apply Forall2_app; [apply Hd|by constructor].
  - rewrite Hperm. apply list.NoDup_cons. split; [by intros [E|?]%elem_of_cons|]. apply list.NoDup_cons. split; [done|]. apply Hd.
  - rewrite concat_app. simpl. rewrite app_nil_r. apply Hd.
  - intros b Hb. rewrite Hperm in Hb. apply elem_of_cons in Hb as [->|Hb]; [done|]. apply elem_of_cons in Hb as [->|Hb]; [done|]. by apply (d_live _ _ _ _ _ _ Hd).
  - rewrite fmap_app. simpl. destruct (d_root _ _ _ _ _ _ Hd) as [Hr _]. set_solver.
  - destruct (d_held _ _ _ _ _ _ Hd) as [?|Hh]; [by left|right]. unfold attached in *. rewrite list.filter_app, filter_cons_False by (by rewrite Hatt). simpl. rewrite app_nil_r. done.
Qed.

Lemma new_inode_keeps s s' dir t l es chains i tn n d :
  is_dir s dir t l es chains -> i <> tn -> (i ∉ live (tf_heap s)) -> (tn ∉ live (tf_heap s)) -> tf_pages s' = tf_pages s -> tf_chunks s' = tf_chunks s -> tf_root s' = tf_root s ->
  heap_ok (tf_heap s') -> live (tf_heap s') = {[i]} ∪ ({[tn]} ∪ live (tf_heap s)) -> tf_inodes s' = <[i := n]> (tf_inodes s) -> tf_nodes s' = <[tn := d]> (tf_nodes s) -> keeps s s'.
Proof.
  intros Hd Hne Hi Ht Ep Ec Er Hok Hl Ei En. constructor; try done.
  - intros x Hx. rewrite Ei, lookup_insert_ne; [done|set_solver].
  - intros x Hx. rewrite En, lookup_insert_ne; [done|set_solver].
  - set_solver.
  - intros x Hx. rewrite Hl. destruct (decide (x = i)) as [->|Hxi]; [set_solver|]. destruct (decide (x = tn)) as [->|Hxt]; [set_solver|].
    rewrite Ei, En, !lookup_insert_ne in Hx by congruence. apply (d_dom _ _ _ _ _ _ Hd) in Hx. set_solver.
  - intros x Hx. rewrite En. rewrite Ei in Hx. destruct (decide (x = i)) as [->|Hxi].
    + rewrite lookup_insert_ne by done. destruct (tf_nodes s !! i) eqn:E; [|done]. exfalso. apply Hi. apply (d_dom _ _ _ _ _ _ Hd). right. by rewrite E.
    + rewrite lookup_insert_ne in Hx by done. rewrite lookup_insert_ne; [by apply (d_apart _ _ _ _ _ _ Hd)|]. intros ->. apply Ht. apply (d_dom _ _ _ _ _ _ Hd). by left.
Qed.

(** The new inode is given back. *)
Lemma drop_new_keeps s s' dir t l es chains i tn n d :
  is_dir s dir t l es chains -> i <> tn -> (i ∉ live (tf_heap s)) -> (tn ∉ live (tf_heap s)) -> tf_pages s' = tf_pages s -> tf_chunks s' = tf_chunks s -> tf_root s' = tf_root s ->
  heap_ok (tf_heap s') -> live (tf_heap s') = {[i]} ∪ ({[tn]} ∪ live (tf_heap s)) -> tf_inodes s' = <[i := n]> (tf_inodes s) -> tf_nodes s' = <[tn := d]> (tf_nodes s) ->
  internal_data n = tn -> t_data d = 0 ->
  let s1 := tempfs_drop s' i in keeps s (tf_set_inodes (tf_set_heap s1 (kfree i (tf_heap s1))) (delete i (tf_inodes s1))) /\ live (kfree i (tf_heap s1)) = live (tf_heap s).
Proof.
  intros Hd Hne Hi Ht Ep Ec Er Hok Hl Ei En Hn Hdata s1.
  assert (Hint : internal_data (inode_at s' i) = tn) by (unfold inode_at; by rewrite Ei, lookup_insert_eq).
  assert (Hdt : t_data (node_at s' tn) = 0) by (unfold node_at; by rewrite En, lookup_insert_eq).
  assert (E1 : s1 = upd_inode (tf_set_nodes (tf_set_heap s' (kfree tn (tf_heap s'))) (delete tn (tf_nodes s'))) i (set_internal 0)).
  { unfold s1, tempfs_drop. rewrite Hint, Hdt. done. }
  destruct (kfree_spec tn (tf_heap s') Hok) as [Hok1 Hl1]; [rewrite Hl; set_solver|].
  destruct (kfree_spec i (kfree tn (tf_heap s')) Hok1) as [Hok2 Hl2]; [rewrite Hl1, Hl; set_solver|].
  assert (Hlive : live (kfree i (kfree tn (tf_heap s'))) = live (tf_heap s)) by (rewrite Hl2, Hl1, Hl; set_solver).
  assert (Ein : delete i (tf_inodes s1) = delete i (tf_inodes s)) by (rewrite E1; simpl; by rewrite delete_insert_eq, Ei, delete_insert_eq).
  assert (Enn : tf_nodes s1 = delete tn (tf_nodes s)) by (rewrite E1; simpl; by rewrite En, delete_insert_eq).
  split; [|by rewrite E1]. constructor; cbn [tf_pages tf_chunks tf_root tf_inodes tf_nodes tf_heap tf_set_inodes tf_set_heap]; rewrite ?Ein, ?Enn; try (rewrite E1; done).
  - intros x Hx. rewrite lookup_delete_ne; [done|set_solver].
  - intros x Hx. rewrite lookup_delete_ne; [done|set_solver].
  - rewrite E1. simpl. rewrite Hlive. done.
  - intros x Hx. rewrite E1. simpl. rewrite Hlive. apply (d_dom _ _ _ _ _ _ Hd). destruct Hx as [Hx|Hx]; [left|right]; by destruct (proj1 (lookup_delete_is_Some _ _ _) Hx).
  - intros x Hx. apply lookup_delete_None. right. apply (d_apart _ _ _ _ _ _ Hd). by destruct (proj1 (lookup_delete_is_Some _ _ _) Hx).
Qed.

(** What follows once the directory has room for another entry. *)
Definition created (M : Prop) s (dir t : Z) (es : list Z) (chains : list (list Z)) (name : list Z) (type : inode_type) (r file : Z) s' : Prop :=
  (forall x, x ∈ es -> name_of s' x = name_of s x /\ inode_at s' x = inode_at s x) /\
  exists l',
  (r = 0 /\ Z.of_nat (length name) < TEMPFS_MAX_NAME_LEN /\ (file ∉ es) /\ is_dir s' dir t l' (es ++ [file]) (chains ++ [[]]) /\ name_of s' file = name /\
   n_shared (inode_at s' file) = 2 /\ n_type (inode_at s' file) = (ops_of type).1 /\ size_of s' (internal s' file) = 0 /\ live (tf_heap s') = {[file; internal s' file]} ∪ live (tf_heap s)) \/
  (file = 0 /\ ((r = - ENOMEM /\ M) \/ (r = - ENAMETOOLONG /\ TEMPFS_MAX_NAME_LEN <= Z.of_nat (length name))) /\ is_dir s' dir t l' es chains /\ live (tf_heap s') = live (tf_heap s)).

Lemma name_in_dir s dir t l es chains file tn n d name :
  is_dir s dir t l es chains -> tf_inodes s !! file = Some n -> internal_data n = tn -> tf_nodes s !! tn = Some d -> t_data d = 0 -> 0 < n_shared n -> n_attached n = false ->
  t_name d = name -> file <> 0 -> tn <> 0 -> child s dir file [] /\ n_attached (inode_at s file) = false /\ internal s file = tn /\ name_of s file = name.
Proof.
  intros Hd Hi Ht Hn Hdata Hs Ha Hname H1 H2. assert (Ei : inode_at s file = n) by (unfold inode_at; by rewrite Hi).
  assert (Et : internal s file = tn) by (unfold internal; by rewrite Ei). assert (En : node_at s tn = d) by (unfold node_at; by rewrite Hn).
  split_and!; [|by rewrite Ei|done|unfold name_of; fold (internal s file); by rewrite Et, En].
  constructor; [done|by exists n|by rewrite Et|rewrite Et; by exists d|by rewrite Et, En| |rewrite Ei; lia|rewrite Ei, Ha; done].
  split; [intros j c Hj; by rewrite lookup_nil in Hj|constructor].
Qed.

Lemma link_entry M s s3 dir t l es chains file tn d name type :
  is_dir s dir t l es chains -> Z.of_nat (length es) < EN * Z.of_nat (length l) -> keeps s s3 -> file <> 0 -> tn <> 0 -> file <> tn ->
  (file ∉ live (tf_heap s)) -> (tn ∉ live (tf_heap s)) -> live (tf_heap s3) = {[file]} ∪ ({[tn]} ∪ live (tf_heap s)) ->
  tf_inodes s3 !! file = Some {| n_shared := 1; n_type := (ops_of type).1; n_ops := (ops_of type).2; internal_data := tn; n_name := []; n_attached := false; n_parent := 0 |} ->
  tf_nodes s3 !! tn = Some d -> t_data d = 0 -> capacity d = 0 -> Z.of_nat (length name) < TEMPFS_MAX_NAME_LEN ->
  let s4 := upd_node s3 tn (set_t_name name) in
  let s6 := upd_node (slot_set s4 (entry_at l (Z.of_nat (length es))) file) t (fun d => set_capacity (capacity d + 1) d) in
  created M s dir t es chains name type 0 file (upd_inode s6 file (fun n => set_n_shared (n_shared n + 1) n)).
Proof.
  intros Hd Hroom Hk3 Hf Ht Hne Hfl Htl Hl3 Hi Hn Hdata Hcap Hname s4 s6.
  assert (Hk4 : keeps s s4).
  { destruct Hk3. constructor; try done.
    - intros x Hx. simpl. rewrite lookup_insert_ne by (intros ->; done). auto.
    - intros x Hx. apply ke_dom0. simpl in Hx. destruct Hx as [Hx|Hx]; [by left|right]. destruct (decide (x = tn)) as [->|]; [by exists d|]. by rewrite lookup_insert_ne in Hx.
    - intros x Hx. simpl. rewrite lookup_insert_ne; [by apply ke_apart0|]. intros <-. pose proof (ke_apart0 _ Hx). congruence. }
  destruct (keeps_dir _ _ _ _ _ _ _ Hd Hk4) as [Hd4 Hn4]. assert (Hb : forall b, b ∈ blocks s4 dir t es -> b ∈ live (tf_heap s)).
  { intros b Hb. rewrite (alike_blocks s) in Hb; [by apply (d_live _ _ _ _ _ _ Hd)|]. intros x Hx. pose proof (d_live _ _ _ _ _ _ Hd x) as Hx'.
    assert (Hxl : x ∈ live (tf_heap s)) by (apply Hx'; unfold blocks; right; right; apply elem_of_app; by left). unfold alike, internal, inode_at. rewrite (ke_inodes _ _ Hk4) by done. done. }
  destruct (name_in_dir s4 dir t l es chains file tn _ (set_t_name name d) name Hd4 Hi eq_refl) as (Hch & Hatt & Hint & Hnm); try done.
  { unfold s4. simpl. rewrite lookup_insert_eq. unfold node_at. by rewrite Hn. }
  assert (Hrl : tf_root s4 ∈ live (tf_heap s)) by (rewrite (ke_root _ _ Hk4); apply (d_root _ _ _ _ _ _ Hd)).
  destruct (append_entry s4 dir t l es chains file Hd4 Hroom Hch Hatt) as [Hd6 Hn6]; try (rewrite Hint; done); try (rewrite ?Hint; intros Hx%Hb; done); try (rewrite ?Hint; congruence);
    try (rewrite ?Hint; unfold s4; simpl; rewrite Hl3; set_solver); try (rewrite ?Hint; intros E; rewrite <- E in Hrl; done).
  fold s6 in Hd6, Hn6. assert (Hi6 : forall x, inode_at s6 x = inode_at s3 x) by done.
  assert (Hat6 : inode_at s6 file = {| n_shared := 1; n_type := (ops_of type).1; n_ops := (ops_of type).2; internal_data := tn; n_name := []; n_attached := false; n_parent := 0 |}).
  { rewrite Hi6. unfold inode_at. by rewrite Hi. }
  set (s7 := upd_inode s6 file _). assert (Hat7 : forall x, internal s7 x = internal s6 x) by (intros x; unfold internal, s7; rewrite inode_at_upd; by destruct (decide (x = file)) as [->|]).
  assert (Hn7 : forall x, name_of s7 x = name_of s6 x) by (intros x; unfold name_of; fold (internal s7 x); by rewrite Hat7).
  assert (Hsh : inode_at s7 file = set_n_shared 2 (inode_at s6 file)) by (unfold s7; rewrite inode_at_upd, decide_True by done; by rewrite Hat6).
  split.
  { intros x Hx. rewrite Hn7, Hn6, Hn4 by (done || (apply elem_of_app; by left)). split; [done|]. unfold s7. rewrite inode_at_upd, decide_False; [rewrite Hi6; by eapply keeps_inode|].
    intros ->. apply Hfl. apply (d_live _ _ _ _ _ _ Hd). unfold blocks. right. right. apply elem_of_app. by left. }
  exists l. left. split_and!; try done.
  - intros Hin. apply Hfl. apply (d_live _ _ _ _ _ _ Hd). unfold blocks. right. right. apply elem_of_app. by left.
  - apply upd_inode_dir; try done. simpl. lia.
  - rewrite Hn7, Hn6; [done|]. apply elem_of_app. right. by apply list_elem_of_singleton.
  - by rewrite Hsh.
  - rewrite Hsh. simpl. by rewrite Hat6.
  - rewrite Hat7. unfold internal. rewrite Hat6. simpl. unfold size_of. change (node_at s7 tn) with (node_at s6 tn). unfold s6. rewrite node_at_insert, decide_False.
    + unfold slot_set. change (capacity (node_at s4 tn) = 0). unfold s4. rewrite node_at_insert, decide_True by done. simpl. unfold node_at. by rewrite Hn.
    + intros ->. apply Htl. apply (d_live _ _ _ _ _ _ Hd). unfold blocks. right. by left.
  - rewrite Hat7. unfold internal. rewrite Hat6. cbn [internal_data]. change (tf_heap s7) with (tf_heap s3). rewrite Hl3. set_solver.
Qed.

Lemma created_before M s s1 dir t es chains name type r file s' :
  (forall x, x ∈ es -> name_of s1 x = name_of s x /\ inode_at s1 x = inode_at s x) -> tf_heap s1 = tf_heap s -> created M s1 dir t es chains name type r file s' -> created M s dir t es chains name type r file s'.
Proof.
  unfold created. intros Hn -> [Ho Hr]. split; [|exact Hr]. intros x Hx. destruct (Hn x Hx) as [<- <-]. by apply Ho.
Qed.

Lemma create_spec s dir t l es chains name type : is_dir s dir t l es chains ->
  match tempfs_create sizeof_inode sizeof_node s dir name type with
  | None => node_missing (tf_heap s)
  | Some (r, file, s') => created (no_memory s l es) s dir t es chains name type r file s'
  end.
Proof.
  intros Hd. pose proof (d_node _ _ _ _ _ _ Hd) as Hn. unfold tempfs_create. rewrite (node_internal _ _ _ _ Hn), (proj2 (Z.eqb_neq dir 0)), (proj2 (Z.eqb_neq t 0)) by apply Hn.
  simpl orb. cbv iota. fold (size_of s t). rewrite (d_size _ _ _ _ _ _ Hd), (wf_head _ _ _ (node_wf _ _ _ _ Hn)). pose proof (d_room _ _ _ _ _ _ Hd) as Hfit.
  set (q := Z.to_nat (Z.of_nat (length es) / EN)). assert (Hq : (q <= length l)%nat) by (unfold q; rewrite EN_eq in *; zlia).
  change (LData t) with (link_at t l 0). rewrite (create_skip_spec _ s t l 0 (Z.of_nat (length es)) (node_wf _ _ _ _ Hn)) by (rewrite ?EN_eq in *; zlia). rewrite Nat.add_0_l. fold q.
  destruct (need_chunk_spec pages_sane s t l q (node_wf _ _ _ _ Hn) Hq) as (p & s2 & l2 & E2 & Hex2 & Hb2 & Hp). rewrite E2. destruct (extends_dir _ _ _ _ _ _ _ _ Hd Hex2 Hb2) as [Hd2 Hn2].
  assert (Hn12 : forall x, x ∈ es -> name_of s2 x = name_of s x /\ inode_at s2 x = inode_at s x) by (intros x Hx; split; [by apply Hn2|unfold inode_at; by rewrite (ex_inodes _ _ _ _ _ Hex2)]).
  pose proof (ex_heap _ _ _ _ _ Hex2) as Eh2. destruct Hp as [[-> Hql]|[-> Hq2]].
  { split; [done|]. exists l2. right. split; [done|]. split; [|by rewrite Eh2]. left. split; [done|]. left. destruct (need_chunk_none _ _ _ _ E2) as [_ Hsrc]. split; [unfold q in Hql; rewrite EN_eq in *; zlia|done]. }
  rewrite (proj2 (Z.eqb_neq _ 0)) by (eapply wf_nonnull; [apply (ex_wf _ _ _ _ _ Hex2)|done]). rewrite <- Eh2.
  assert (Hroom : Z.of_nat (length es) < EN * Z.of_nat (length l2)) by (unfold q in Hq2; rewrite EN_eq in *; zlia).
  destruct (create_inode_spec s2 (ops_of type).1 (ops_of type).2 (d_heap _ _ _ _ _ _ Hd2)) as (file & s3 & E3 & Ep & Ec & Er & _ & Hok & Hcase). rewrite E3.
  destruct Hcase as [(Hl & Hi & Ei & En)|(tn & Hf & Ht & Hne & Hfl & Htl & Hl & Ei & d & En & Hdata & Hcap)].
  - destruct (Z.eqb_spec file 0) as [->|Hf].
    + assert (Hk : keeps s2 s3) by (constructor; rewrite ?Ei, ?En, ?Hl; try done; apply Hd2). destruct (keeps_dir _ _ _ _ _ _ _ Hd2 Hk) as [Hd3 Hn3].
      apply (created_before _ s s2); [done..|]. split; [intros x Hx; split; [by apply Hn3|unfold inode_at; by rewrite Ei]|]. exists l2. right. split; [done|]. split; [|done].
      left. split; [done|]. right. rewrite <- Eh2. by eapply create_inode_none.
    + destruct Hi as [?|[Hfl Hmiss]]; [done|]. destruct (tf_inodes s3 !! file) eqn:E; [|done]. exfalso. apply Hfl. apply (d_dom _ _ _ _ _ _ Hd2). left. rewrite <- Ei, E. done.
  - pose proof (new_inode_keeps _ _ _ _ _ _ _ _ _ _ _ Hd2 Hne Hfl Htl Ep Ec Er Hok Hl Ei En) as Hk. rewrite (proj2 (Z.eqb_neq file 0)) by done. rewrite Ei, lookup_insert_eq, Z.geb_leb.
    destruct (Z.leb_spec TEMPFS_MAX_NAME_LEN (Z.of_nat (length name))) as [Hlong|Hshort].
    + destruct (drop_new_keeps _ _ _ _ _ _ _ _ _ _ _ Hd2 Hne Hfl Htl Ep Ec Er Hok Hl Ei En eq_refl Hdata) as [Hk' Hlv]. destruct (keeps_dir _ _ _ _ _ _ _ Hd2 Hk') as [Hd3 Hn3].
      apply (created_before _ s s2); [done..|]. split; [|exists l2; right; split_and!; auto]. intros x Hx. split; [by apply Hn3|]. apply (keeps_inode _ _ _ _ _ _ _ _ Hd2 Hk' Hx).
    + apply (created_before _ s s2); [done..|]. apply (link_entry _ s2 s3 dir t l2 es chains file tn d name type Hd2 Hroom Hk Hf Ht Hne Hfl Htl Hl); [by rewrite Ei, lookup_insert_eq|by rewrite En, lookup_insert_eq|done..].
Qed.

(** ** Unlinking *)

(** The slots are changed the way [tempfs_unlink] does it. *)
Definition unlink_slots s (t i : Z) (slot : Z * Z) : tfs H P :=
  let last_index := capacity (node_at s t) - 1 in
  let s :=
    if negb (i =? last_index) then
      match tempfs_entry_ptr s t last_index with
      | Some last_slot => slot_set s slot (slot_get s last_slot)
      | None => s
      end
    else s in
  let s := match tempfs_entry_ptr s t last_index with Some last_slot => slot_set s last_slot 0 | None => s end in
  upd_node s t (fun d => set_capacity (capacity d - 1) d).

Lemma unlink_slots_stored s dir t l es chains k c : is_dir s dir t l es chains -> es !! k = Some c ->
  stored s (unlink_slots s t (Z.of_nat k) (entry_at l (Z.of_nat k))) t l (Z.of_nat (length (swap_remove k es))) (swap_remove k es).
Proof.
  intros Hd Hk. pose proof (d_node _ _ _ _ _ _ Hd) as Hn. pose proof (d_room _ _ _ _ _ _ Hd) as Hroom. pose proof (lookup_lt_Some _ _ _ Hk) as Hlt. set (n := pred (length es)).
  destruct (lookup_lt_is_Some_2 es n ltac:(lia)) as [x Hx]. destruct (dir_entry _ _ _ _ _ _ _ _ Hd Hx) as (E1 & E2 & _).
  unfold unlink_slots. fold (size_of s t). rewrite (d_size _ _ _ _ _ _ Hd). replace (Z.of_nat (length es) - 1) with (Z.of_nat n) by lia. rewrite E1, E2.
  set (s1 := if negb (Z.of_nat k =? Z.of_nat n) then slot_set s (entry_at l (Z.of_nat k)) x else s).
  assert (Hs1 : extends s s1 t l l /\ forall j, 0 <= j -> entry s1 l j = if decide (j = Z.of_nat k) then x else entry s l j).
  { unfold s1. destruct (Z.eqb_spec (Z.of_nat k) (Z.of_nat n)) as [E|E]; simpl; [|apply slot_set_spec; [apply Hn|lia]]. split; [by apply longer_refl, Hn|].
    intros j Hj. case_decide; [subst j|done]. apply (d_entries _ _ _ _ _ _ Hd). by replace k with n by lia. }
  clearbody s1. destruct Hs1 as [Hex1 He1]. destruct (entry_ptr_spec s1 t l (Z.of_nat n) (ex_wf _ _ _ _ _ Hex1)) as [-> _]; [lia|].
  destruct (slot_set_spec s1 t l (Z.of_nat n) 0 (ex_wf _ _ _ _ _ Hex1)) as [Hex2 He2]; [lia|]. pose proof (longer_trans _ _ _ _ _ _ _ Hex1 Hex2) as Hex.
  apply (stored_intro s _ dir); try done.
  - intros j y Hj. pose proof (lookup_lt_Some _ _ _ Hj) as Hjn. rewrite swap_remove_length in Hjn. rewrite swap_remove_lookup in Hj by done. fold n in Hj, Hjn.
    rewrite He2, decide_False, He1 by lia. destruct (decide (j = k)) as [->|Hne]; [rewrite decide_True by done; congruence|]. rewrite decide_False by lia. by apply (d_entries _ _ _ _ _ _ Hd).
  - simpl. destruct (extends_node _ _ _ _ _ Hex) as [-> _]. fold (size_of s t). rewrite (d_size _ _ _ _ _ _ Hd), swap_remove_length. lia.
Qed.

Lemma concat_perm {A : Type} (ls ls' : list (list A)) : ls ≡ₚ ls' -> concat ls ≡ₚ concat ls'.
Proof. induction 1; simpl; [done|by f_equiv|rewrite !app_assoc; f_equiv; apply Permutation_app_comm|by etrans]. Qed.

(** An inode that is no entry of the directory any more, with the reference it still has. *)
Record loose s (dir t : Z) (l es : list Z) (chains : list (list Z)) (c : Z) (lc : list Z) : Prop := {
  lo_child : child s dir c lc;
  lo_blocks : NoDup (c :: internal s c :: blocks s dir t es);
  lo_chunks : NoDup (lc ++ l ++ concat chains);
  lo_live : c ∈ live (tf_heap s) /\ internal s c ∈ live (tf_heap s);
  lo_root : c <> tf_root s /\ internal s c <> tf_root s;
  lo_held : n_attached (inode_at s c) = true -> dir = tf_root s \/ attached s es + 1 < n_shared (inode_at s dir);
}.

Lemma remove_entry s dir t l es chains k c lc : is_dir s dir t l es chains -> es !! k = Some c -> chains !! k = Some lc ->
  let s' := unlink_slots s t (Z.of_nat k) (entry_at l (Z.of_nat k)) in
  is_dir s' dir t l (swap_remove k es) (swap_remove k chains) /\ loose s' dir t l (swap_remove k es) (swap_remove k chains) c lc /\ (forall x, inode_at s' x = inode_at s x) /\
  (forall x, x ∈ es -> node_at s' (internal s x) = node_at s (internal s x)).
Proof.
  intros Hd Hk Hlc s'. pose proof (unlink_slots_stored _ _ _ _ _ _ _ _ Hd Hk) as Hst. fold s' in Hst. set (es' := swap_remove k es) in *. set (chains' := swap_remove k chains).
  assert (Pe : es ≡ₚ c :: es') by (by apply swap_remove_perm). assert (Pc : chains ≡ₚ lc :: chains') by (by apply swap_remove_perm).
  assert (Pb : blocks s dir t es ≡ₚ c :: internal s c :: blocks s dir t es') by (unfold blocks; rewrite Pe; simpl; solve_Permutation).
  assert (Pk : l ++ concat chains ≡ₚ lc ++ l ++ concat chains') by (rewrite (concat_perm _ _ Pc); simpl; solve_Permutation).
  assert (Hnd : NoDup (c :: internal s c :: blocks s dir t es')) by (rewrite <- Pb; apply Hd). assert (Hndk : NoDup (lc ++ l ++ concat chains')) by (rewrite <- Pk; apply Hd).
  assert (Hch : child s dir c lc) by (destruct (dir_entry _ _ _ _ _ _ _ _ Hd Hk) as (_ & _ & lc' & Hlc' & Hch); rewrite Hlc in Hlc'; by injection Hlc' as <-).
  assert (Hle : (length es' < length es)%nat) by (rewrite Pe; simpl; lia). assert (Hatt : attached s es = attached s (c :: es')) by (unfold attached; by rewrite Pe).
  assert (Hlive : forall b, b ∈ c :: internal s c :: blocks s dir t es' -> b ∈ live (tf_heap s)) by (intros b; rewrite <- Pb; apply Hd).
  assert (Hroot : tf_root s ∉ (c :: es') ++ (internal s <$> c :: es')) by (destruct (d_root _ _ _ _ _ _ Hd) as [Hr _]; by rewrite Pe in Hr).
  assert (Hint : forall x, inode_at s' x = inode_at s x) by (intros x; unfold inode_at; by rewrite (st_inodes _ _ _ _ _ _ Hst)).
  assert (Hi : forall x, internal s' x = internal s x) by (intros x; unfold internal; by rewrite Hint).
  assert (Hbl : blocks s' dir t es' = blocks s dir t es') by (unfold blocks; do 3 f_equal; apply list_fmap_ext; intros; apply Hi).
  assert (Hnt : forall x, x ∈ es -> internal s x <> t).
  { intros x Hx E. pose proof (d_blocks _ _ _ _ _ _ Hd) as Hb. unfold blocks in Hb. apply list.NoDup_cons in Hb as [_ Hb]. apply list.NoDup_cons in Hb as [Ht _].
    apply Ht. apply elem_of_app. right. rewrite <- E. by apply list_elem_of_fmap_2. }
  assert (Hal : forall x, alike s s' x) by (intros x; unfold alike; by rewrite Hi, Hint, (st_inodes _ _ _ _ _ _ Hst)).
  assert (Hcin : c ∈ es) by (by eapply list_elem_of_lookup_2). split; [|split_and!; [constructor|done|]].
  - eapply stored_dir; [exact Hd|exact Hst|..].
    + pose proof (d_room _ _ _ _ _ _ Hd). lia.
    + apply swap_remove_Forall2. apply Hd.
    + apply list.NoDup_cons in Hnd as [_ Hnd]. by apply list.NoDup_cons in Hnd as [_ Hnd].
    + by apply list.NoDup_app in Hndk as (_ & _ & Hndk).
    + intros b Hb. apply Hlive. by do 2 right.
    + simpl in Hroot. set_solver.
    + destruct (d_held _ _ _ _ _ _ Hd) as [?|Hh]; [by left|right]. rewrite Hatt in Hh. unfold attached in *. rewrite filter_cons in Hh. destruct (decide _); simpl in Hh; lia.
  - eapply child_frame; [exact Hch|apply Hal| |].
    + intros d Hn. exists d. by rewrite (st_nodes _ _ _ _ _ _ Hst) by auto.
    + intros x Hx. apply list_elem_of_lookup in Hx as [i Hx']. destruct (proj1 (ch_linked _ _ _ _ Hch) i x Hx') as (_ & [ch Hchx] & _). rewrite Hchx.
      eapply (st_chunks _ _ _ _ _ _ Hst); [done|]. apply list.NoDup_app in Hndk as (_ & Hdis & _). intros Hin. apply (Hdis x); [by eapply list_elem_of_lookup_2|]. apply elem_of_app. by left.
  - by rewrite Hbl, Hi.
  - done.
  - rewrite (st_heap _ _ _ _ _ _ Hst), Hi. split; apply Hlive; [by left|right; by left].
  - rewrite (st_root _ _ _ _ _ _ Hst), Hi. simpl in Hroot. set_solver.
  - rewrite Hint, (st_root _ _ _ _ _ _ Hst), Hint, (alike_attached s) by auto. intros Ha. destruct (d_held _ _ _ _ _ _ Hd) as [?|Hh]; [by left|right].
    rewrite Hatt in Hh. unfold attached in *. rewrite filter_cons_True in Hh by done. simpl in Hh. lia.
  - intros x Hx. unfold node_at. by rewrite (st_nodes _ _ _ _ _ _ Hst) by auto.
Qed.

(** The inode [c], its node and its chunks are given back. *)
Record buried s s' (c : Z) (lc : list Z) : Prop := {
  bu_space : chunk_space s';
  bu_chunks : forall x, tf_chunks s' !! x = if decide (x ∈ lc) then None else tf_chunks s !! x;
  bu_nodes : tf_nodes s' = delete (internal s c) (tf_nodes s);
  bu_inodes : tf_inodes s' = delete c (tf_inodes s);
  bu_heap : heap_ok (tf_heap s');
  bu_live : live (tf_heap s') = live (tf_heap s) ∖ {[c; internal s c]};
  bu_root : tf_root s' = tf_root s;
}.

(** What [vfs_drop] does with the last reference. *)
Definition bury s (c : Z) : tfs H P :=
  let s := upd_inode s c (set_n_shared (n_shared (inode_at s c) - 1)) in
  let s := tempfs_drop s c in
  tf_set_inodes (tf_set_heap s (kfree c (tf_heap s))) (delete c (tf_inodes s)).

Lemma bury_spec s dir t l es chains c lc : is_dir s dir t l es chains -> loose s dir t l es chains c lc -> buried s (bury s c) c lc.
Proof.
  intros Hd Hlo. pose proof (lo_child _ _ _ _ _ _ _ _ Hlo) as Hch. destruct (lo_live _ _ _ _ _ _ _ _ Hlo) as [Hl1 Hl2]. set (tc := internal s c) in *.
  assert (Hne : c <> tc) by (pose proof (lo_blocks _ _ _ _ _ _ _ _ Hlo) as Hb; apply list.NoDup_cons in Hb as [Hb _]; intros E; apply Hb; rewrite E at 1; left).
  unfold bury. set (s1 := upd_inode s c _). assert (Hint : internal_data (inode_at s1 c) = tc) by (unfold s1; rewrite inode_at_upd, decide_True by done; done).
  assert (Hsp1 : chunk_space s1) by apply (wf_space _ _ _ (node_wf _ _ _ _ (d_node _ _ _ _ _ _ Hd))). assert (Hlk1 : linked s1 lc) by apply (ch_linked _ _ _ _ Hch).
  unfold tempfs_drop. rewrite Hint. change (node_at s1 tc) with (node_at s tc). pose proof (ch_data _ _ _ _ Hch) as Hdt. fold tc in Hdt. rewrite Hdt. unfold free_chunks.
  destruct (free_chain_spec (S (size (tf_chunks s1))) s1 lc Hsp1 Hlk1) as (s2 & -> & Hsp2 & Hc2 & Hn2 & Hi2 & Hh2 & Hr2 & _); [pose proof (linked_length _ _ Hlk1); lia|].
  cbn [tf_pages tf_chunks tf_root tf_inodes tf_nodes tf_heap tf_set_inodes tf_set_heap tf_set_nodes upd_inode]. rewrite Hh2. change (tf_heap s1) with (tf_heap s).
  destruct (kfree_spec tc (tf_heap s) (d_heap _ _ _ _ _ _ Hd) Hl2) as [Hok1 Hv1]. destruct (kfree_spec c (kfree tc (tf_heap s)) Hok1) as [Hok2 Hv2]; [rewrite Hv1; set_solver|].
  constructor; cbn [tf_pages tf_chunks tf_root tf_inodes tf_nodes tf_heap tf_set_inodes tf_set_heap tf_set_nodes upd_inode]; try done.
  - by rewrite Hn2.
  - rewrite Hi2, delete_insert_eq. unfold s1. simpl. by rewrite delete_insert_eq.
  - rewrite Hv2, Hv1. unfold tc. set_solver.
Qed.

(** A directory does not see that a loose inode is buried; the references its children have on it may be one less. *)
Lemma buried_dir s s' dir t l es chains c lc n :
  is_dir s dir t l es chains -> loose s dir t l es chains c lc -> buried s s' c lc -> (dir = tf_root s \/ attached s es < n) ->
  let s2 := upd_inode s' dir (set_n_shared n) in
  is_dir s2 dir t l es chains /\ forall x, x ∈ es -> name_of s2 x = name_of s x /\ inode_at s2 x = inode_at s x.
Proof.
  intros Hd Hlo Hbu Hheld s2. pose proof (lo_blocks _ _ _ _ _ _ _ _ Hlo) as Hnd. apply list.NoDup_cons in Hnd as [Hc Hnd]. apply list.NoDup_cons in Hnd as [Htc _].
  set (tc := internal s c) in *. assert (Hcb : c ∉ blocks s dir t es) by (intros ?; apply Hc; by right). unfold blocks in Hcb, Htc. pose proof (d_blocks _ _ _ _ _ _ Hd) as Hndb. unfold blocks in Hndb.
  assert (Hcd : c <> dir) by set_solver. assert (Htt : tc <> t) by set_solver. apply list.NoDup_cons in Hndb as [Hdb _].
  assert (Hes : forall x, x ∈ es -> x <> c /\ x <> dir /\ internal s x <> tc).
  { intros x Hx. split_and!; [set_solver|set_solver|]. intros E. apply Htc. rewrite <- E. do 2 right. apply elem_of_app. right. by apply list_elem_of_fmap_2. }
  assert (Hi2 : forall x, x <> c -> inode_at s2 x = if decide (x = dir) then set_n_shared n (inode_at s dir) else inode_at s x).
  { intros x Hx. unfold s2. rewrite inode_at_upd. unfold inode_at. rewrite (bu_inodes _ _ _ _ Hbu). case_decide; by rewrite lookup_delete_ne. }
  assert (Hn2 : forall x, x <> tc -> tf_nodes s2 !! x = tf_nodes s !! x) by (intros x Hx; unfold s2; simpl; rewrite (bu_nodes _ _ _ _ Hbu); by rewrite lookup_delete_ne).
  assert (Hk2 : forall x, x ∉ lc -> tf_chunks s2 !! x = tf_chunks s !! x) by (intros x Hx; change (tf_chunks s2) with (tf_chunks s'); by rewrite (bu_chunks _ _ _ _ Hbu), decide_False).
  assert (Hout : forall x, x ∈ l ++ concat chains -> x ∉ lc) by (intros x Hx Hx'; pose proof (lo_chunks _ _ _ _ _ _ _ _ Hlo) as Hk; apply list.NoDup_app in Hk as (_ & Hk & _); by apply (Hk x)).
  assert (Hal : forall x, x ∈ es -> inode_at s2 x = inode_at s x) by (intros x Hx; destruct (Hes x Hx) as (? & ? & _); by rewrite Hi2, decide_False).
  assert (Hdir : is_Some (tf_inodes s !! dir)).
  { pose proof (node_internal _ _ _ _ (d_node _ _ _ _ _ _ Hd)) as E. unfold inode_at in E. destruct (tf_inodes s !! dir); [done|]. by destruct (node_nonnull _ _ _ _ (d_node _ _ _ _ _ _ Hd)). }
  assert (Hcn : tf_nodes s !! c = None) by apply (d_apart _ _ _ _ _ _ Hd), (ch_inode _ _ _ _ (lo_child _ _ _ _ _ _ _ _ Hlo)).
  assert (Htn : tf_inodes s !! tc = None).
  { destruct (tf_inodes s !! tc) eqn:E; [|done]. destruct (ch_node _ _ _ _ (lo_child _ _ _ _ _ _ _ _ Hlo)) as [d Hdn]. fold tc in Hdn. rewrite (d_apart _ _ _ _ _ _ Hd) in Hdn; [done|]. by rewrite E. }
  assert (Hin2 : forall x, is_Some (tf_inodes s2 !! x) -> x <> c /\ is_Some (tf_inodes s !! x)).
  { intros x Hx. unfold s2 in Hx. simpl in Hx. destruct (decide (x = dir)) as [->|]; [done|]. rewrite lookup_insert_ne, (bu_inodes _ _ _ _ Hbu) in Hx by done. apply lookup_delete_is_Some in Hx as [? ?]. done. }
  split.
  - eapply dir_frame_part; [exact Hd|..]; try done.
    + destruct (d_node _ _ _ _ _ _ Hd) as [N1 N2 N3 N4]. constructor; try done; [rewrite Hi2, decide_True by done; done|]. destruct N4 as [W1 W2 W3 W4 W5 W6].
      constructor; [exact (bu_space _ _ _ _ Hbu)|by rewrite Hn2|unfold node_at; by rewrite Hn2|unfold node_at; by rewrite Hn2| |done].
      intros j x Hx. assert (x ∉ lc) by (apply Hout, elem_of_app; left; by eapply list_elem_of_lookup_2). unfold chunk_at. rewrite Hk2 by done. by apply W5.
    + unfold size_of, node_at. by rewrite Hn2.
    + intros k _. unfold entry, fbyte. destruct (l !! _) as [x|] eqn:E; [|done]. unfold chunk_at. rewrite Hk2; [done|]. apply Hout, elem_of_app. left. by eapply list_elem_of_lookup_2.
    + intros x Hx. destruct (Hes x Hx) as (? & ? & _). unfold alike, internal. rewrite Hal by done. split_and!; try done. intros Hs. unfold s2. simpl.
      rewrite lookup_insert_ne by congruence. rewrite (bu_inodes _ _ _ _ Hbu). by rewrite lookup_delete_ne.
    + intros x d Hx Hn. exists d. rewrite Hn2; [done|]. by apply Hes.
    + intros x Hx. apply Hk2, Hout, elem_of_app. by right.
    + apply Hd.
    + apply (bu_heap _ _ _ _ Hbu).
    + intros b Hb Hbl. unfold s2. simpl. rewrite (bu_live _ _ _ _ Hbu). pose proof (lo_root _ _ _ _ _ _ _ _ Hlo) as [R1 R2]. fold tc in R2 |- *. unfold blocks in Hb. set_solver.
    + intros x Hx. change (tf_heap s2) with (tf_heap s'). rewrite (bu_live _ _ _ _ Hbu). fold tc. change (tf_nodes s2) with (tf_nodes s') in Hx. rewrite (bu_nodes _ _ _ _ Hbu) in Hx. fold tc in Hx.
      assert (Hx' : x <> c /\ x <> tc /\ (is_Some (tf_inodes s !! x) \/ is_Some (tf_nodes s !! x))).
      { destruct Hx as [Hx%Hin2|Hx%lookup_delete_is_Some]; [destruct Hx as [? [y Hx]]; split_and!; [done|intros ->; congruence|eauto]|]. destruct Hx as [? [d Hx]]. split_and!; [intros ->; congruence|done|eauto]. }
      destruct Hx' as (? & ? & Hx'%(d_dom _ _ _ _ _ _ Hd)). set_solver.
    + intros x Hx%Hin2. change (tf_nodes s2) with (tf_nodes s'). rewrite (bu_nodes _ _ _ _ Hbu). apply lookup_delete_None. right. apply (d_apart _ _ _ _ _ _ Hd). by destruct Hx.
    + apply (bu_root _ _ _ _ Hbu).
    + rewrite Hi2, decide_True by done. simpl. done.
  - intros x Hx. destruct (Hes x Hx) as (? & ? & ?). unfold name_of. rewrite Hal by done. unfold node_at. by rewrite Hn2.
Qed.

(** The inode is still used elsewhere. *)
Lemma unshare_dir s dir t l es chains c lc n : is_dir s dir t l es chains -> loose s dir t l es chains c lc ->
  let s' := upd_inode s c (set_n_shared n) in is_dir s' dir t l es chains /\ forall x, x ∈ es -> name_of s' x = name_of s x /\ inode_at s' x = inode_at s x.
Proof.
  intros Hd Hlo s'. pose proof (lo_blocks _ _ _ _ _ _ _ _ Hlo) as Hnd. apply list.NoDup_cons in Hnd as [Hc _]. unfold blocks in Hc.
  assert (Hcd : c <> dir) by set_solver. assert (Hat : forall x, x <> c -> inode_at s' x = inode_at s x) by (intros x Hx; unfold s'; by rewrite inode_at_upd, decide_False).
  assert (Hint : forall x, internal s' x = internal s x) by (intros x; unfold internal, s'; rewrite inode_at_upd; by destruct (decide (x = c)) as [->|]).
  assert (Hes : forall x, x ∈ es -> x <> c) by set_solver.
  assert (Hin : forall x, is_Some (tf_inodes s' !! x) -> is_Some (tf_inodes s !! x)).
  { intros x Hx. unfold s' in Hx. simpl in Hx. destruct (decide (x = c)) as [->|]; [apply (ch_inode _ _ _ _ (lo_child _ _ _ _ _ _ _ _ Hlo))|]. by rewrite lookup_insert_ne in Hx. }
  split; [|intros x Hx; split; [unfold name_of; fold (internal s' x); by rewrite Hint|by apply Hat, Hes]]. eapply dir_frame; [exact Hd|..]; try done.
  - destruct (d_node _ _ _ _ _ _ Hd) as [N1 N2 N3 N4]. constructor; try done; [by rewrite Hat by congruence|]. destruct N4. by constructor.
  - intros x Hx. unfold alike. rewrite Hint, Hat by auto. split_and!; try done. intros Hs. unfold s'. simpl. rewrite lookup_insert_ne; [done|]. intros ->. by apply (Hes x).
  - intros x d Hx Hn. by exists d.
  - apply Hd.
  - apply Hd.
  - intros x Hx. apply (d_dom _ _ _ _ _ _ Hd). destruct Hx as [Hx|Hx]; [left; by apply Hin|by right].
  - intros x Hx. apply (d_apart _ _ _ _ _ _ Hd). by apply Hin.
  - by rewrite Hat by congruence.
Qed.

(** Dropping the reference of the tree. *)
Lemma drop_spec s dir t l es chains c lc : is_dir s dir t l es chains -> loose s dir t l es chains c lc ->
  let s' := tf_vfs_drop s c in
  is_dir s' dir t l es chains /\ (forall x, x ∈ es -> name_of s' x = name_of s x /\ inode_at s' x = inode_at s x) /\
  (if decide (n_shared (inode_at s c) = 1)
   then tf_inodes s' !! c = None /\ tf_nodes s' !! internal s c = None /\ (forall x, x ∈ lc -> tf_chunks s' !! x = None) /\ live (tf_heap s') = live (tf_heap s) ∖ {[c; internal s c]}
   else inode_at s' c = set_n_shared (n_shared (inode_at s c) - 1) (inode_at s c) /\ node_at s' (internal s c) = node_at s (internal s c) /\ tf_chunks s' = tf_chunks s /\ live (tf_heap s') = live (tf_heap s)).
Proof.
  intros Hd Hlo. pose proof (lo_child _ _ _ _ _ _ _ _ Hlo) as Hch. destruct (lo_root _ _ _ _ _ _ _ _ Hlo) as [R1 R2]. pose proof (ch_shared _ _ _ _ Hch) as Hsh.
  pose proof (lo_blocks _ _ _ _ _ _ _ _ Hlo) as Hnd. apply list.NoDup_cons in Hnd as [Hcb _]. unfold blocks in Hcb. assert (Hcd : dir <> c) by set_solver.
  assert (Hsize : exists m, size (tf_inodes s) = S m).
  { destruct (ch_inode _ _ _ _ Hch) as [n Hn]. destruct (size (tf_inodes s)) eqn:E; [|by eexists]. apply map_size_empty_inv in E. by rewrite E, lookup_empty in Hn. }
  destruct Hsize as [m Hsize]. unfold tf_vfs_drop. rewrite Hsize. cbn [tf_drop_loop]. rewrite (proj2 (Z.eqb_neq c 0)), (proj2 (Z.eqb_neq c (tf_root s))) by (done || apply Hch). cbn [orb].
  rewrite (proj2 (Z.leb_gt _ 0)) by lia. rewrite Z.gtb_ltb. cbv zeta. destruct (decide (n_shared (inode_at s c) = 1)) as [E1|E1].
  - rewrite (proj2 (Z.ltb_ge 0 _)) by lia. fold (bury s c). pose proof (bury_spec _ _ _ _ _ _ _ _ Hd Hlo) as Hbu. set (s5 := bury s c) in *.
    assert (Hi5 : inode_at s5 dir = inode_at s dir) by (unfold inode_at; rewrite (bu_inodes _ _ _ _ Hbu); by rewrite lookup_delete_ne).
    set (par := if n_attached (inode_at s c) then n_parent (inode_at s c) else 0).
    assert (Hgone : forall s', tf_inodes s' !! c = None -> tf_nodes s' = tf_nodes s5 -> tf_chunks s' = tf_chunks s5 -> tf_heap s' = tf_heap s5 ->
      tf_inodes s' !! c = None /\ tf_nodes s' !! internal s c = None /\ (forall x, x ∈ lc -> tf_chunks s' !! x = None) /\ live (tf_heap s') = live (tf_heap s) ∖ {[c; internal s c]}).
    { intros s' A B C D. rewrite B, C, D, (bu_nodes _ _ _ _ Hbu), lookup_delete_eq. split_and!; try done; [|apply (bu_live _ _ _ _ Hbu)]. intros x Hx. by rewrite (bu_chunks _ _ _ _ Hbu), decide_True. }
    assert (Hg5 : tf_inodes s5 !! c = None) by (rewrite (bu_inodes _ _ _ _ Hbu); apply lookup_delete_eq).
    assert (Hid : forall s', s' = s5 -> is_dir s' dir t l es chains /\ forall x, x ∈ es -> name_of s' x = name_of s x /\ inode_at s' x = inode_at s x).
    { intros s' ->. destruct (buried_dir s s5 dir t l es chains c lc (n_shared (inode_at s dir)) Hd Hlo Hbu) as [G1 G2]; [apply Hd|].
      assert (Es : upd_inode s5 dir (set_n_shared (n_shared (inode_at s dir))) = s5); [|by rewrite Es in G1, G2].
      assert (Hdi : is_Some (tf_inodes s5 !! dir)).
      { rewrite (bu_inodes _ _ _ _ Hbu), lookup_delete_ne by done. pose proof (node_internal _ _ _ _ (d_node _ _ _ _ _ _ Hd)) as E. unfold inode_at in E. destruct (tf_inodes s !! dir); [done|].
        by destruct (node_nonnull _ _ _ _ (d_node _ _ _ _ _ _ Hd)). }
      destruct Hdi as [n Hn]. unfold upd_inode, tf_set_inodes. rewrite insert_id; [by destruct s5|]. rewrite <- Hi5. unfold inode_at. rewrite Hn. simpl. by destruct n. }
    destruct (Z.eqb_spec par 0) as [Hp0|Hp0]; [cbn [orb]; destruct (Hid s5 eq_refl); split; [done|]; split; [done|]; by apply Hgone|]. cbn [orb].
    assert (Hatt : n_attached (inode_at s c) = true) by (unfold par in Hp0; by destruct (n_attached (inode_at s c))). assert (Hpar : par = dir) by (unfold par; rewrite Hatt; by apply (ch_parent _ _ _ _ Hch)).
    rewrite (bu_root _ _ _ _ Hbu), Hpar. destruct (Z.eqb_spec dir (tf_root s)) as [Er|Er]; [destruct (Hid s5 eq_refl); split; [done|]; split; [done|]; by apply Hgone|].
    destruct (lo_held _ _ _ _ _ _ _ _ Hlo Hatt) as [?|Hheld]; [done|]. assert (Hat0 : 0 <= attached s es) by (unfold attached; lia). rewrite Hi5.
    rewrite (proj2 (Z.leb_gt _ 0)), Z.gtb_ltb, (proj2 (Z.ltb_lt 0 _)) by lia.
    destruct (buried_dir s s5 dir t l es chains c lc (n_shared (inode_at s dir) - 1) Hd Hlo Hbu) as [G1 G2]; [right; lia|]. split; [exact G1|]. split; [exact G2|]. apply Hgone; try done. simpl. by rewrite lookup_insert_ne.
  - rewrite (proj2 (Z.ltb_lt 0 _)) by lia. destruct (unshare_dir s dir t l es chains c lc (n_shared (inode_at s c) - 1) Hd Hlo) as [G1 G2]. split; [exact G1|]. split; [exact G2|]. split_and!; try done. by rewrite inode_at_upd, decide_True.
Qed.

(** A directory that still has entries. *)
Definition full s (c : Z) : bool := bool_decide (n_type (inode_at s c) = INODE_DIRECTORY) && (size_of s (internal s c) >? 0).

(** The reference of the tree to [c] is given up: the last one takes the inode, its node and its chunks along. *)
Definition unreferenced s s' (c : Z) (lc : list Z) : Prop :=
  if decide (n_shared (inode_at s c) = 1)
  then tf_inodes s' !! c = None /\ tf_nodes s' !! internal s c = None /\ (forall x, x ∈ lc -> tf_chunks s' !! x = None) /\ live (tf_heap s') = live (tf_heap s) ∖ {[c; internal s c]}
  else inode_at s' c = set_n_shared (n_shared (inode_at s c) - 1) (inode_at s c) /\ node_at s' (internal s c) = node_at s (internal s c) /\ live (tf_heap s') = live (tf_heap s).

Lemma tempfs_unlink_spec s dir t l es chains name : is_dir s dir t l es chains -> name <> [] ->
  match list_find (fun c => name_of s c = name) es with
  | None => tempfs_unlink s dir name = (- ENOENT, s)
  | Some (k, c) =>
    if full s c then tempfs_unlink s dir name = (- ENOTEMPTY, s)
    else exists s' lc, tempfs_unlink s dir name = (0, s') /\ is_dir s' dir t l (swap_remove k es) (swap_remove k chains) /\
      (forall x, x ∈ swap_remove k es -> name_of s' x = name_of s x /\ inode_at s' x = inode_at s x) /\ chains !! k = Some lc /\ unreferenced s s' c lc
  end.
Proof.
  intros Hd Hname. pose proof (d_node _ _ _ _ _ _ Hd) as Hn. unfold tempfs_unlink. rewrite (node_internal _ _ _ _ Hn), (proj2 (Z.eqb_neq dir 0)), (proj2 (Z.eqb_neq t 0)) by apply Hn.
  rewrite (proj2 (Nat.eqb_neq (length name) 0)) by (by destruct name). simpl orb. cbv iota. fold (size_of s t). rewrite (d_size _ _ _ _ _ _ Hd), Nat2Z.id, (find_slot_dir s dir t l es chains _ Hd).
  destruct (list_find (fun c => name_of s c = name) es) as [[k c]|] eqn:E; [|done]. apply list_find_Some in E as (Hk & _ & _).
  destruct (dir_entry _ _ _ _ _ _ _ _ Hd Hk) as (_ & _ & lc & Hlc & Hch). fold (internal s c) (size_of s (internal s c)) (full s c). destruct (full s c); [done|].
  destruct (remove_entry s dir t l es chains k c lc Hd Hk Hlc) as (Hd1 & Hlo & Hi1 & Hn1). rewrite <- (d_size _ _ _ _ _ _ Hd). unfold size_of.
  fold (unlink_slots s t (Z.of_nat k) (entry_at l (Z.of_nat k))). set (s1 := unlink_slots _ _ _ _) in *. destruct (drop_spec s1 dir t l _ _ c lc Hd1 Hlo) as (Hd2 & Hnm & Hfate).
  assert (Hst : tf_heap s1 = tf_heap s) by apply (st_heap _ _ _ _ _ _ (unlink_slots_stored _ _ _ _ _ _ _ _ Hd Hk)).
  assert (Hint : internal s1 c = internal s c) by (unfold internal; by rewrite Hi1). assert (Hce : c ∈ es) by (by eapply list_elem_of_lookup_2).
  exists (tf_vfs_drop s1 c), lc. split_and!; try done.
  - intros x Hx. destruct (Hnm x Hx) as [-> ->]. split; [|by rewrite Hi1]. unfold name_of. rewrite Hi1. fold (internal s x). rewrite Hn1; [done|]. rewrite (swap_remove_perm k es c Hk). by right.
  - unfold unreferenced. rewrite Hint, Hi1, Hst, (Hn1 c Hce) in Hfate. destruct (decide (n_shared (inode_at s c) = 1)); [exact Hfate|]. by destruct Hfate as (A & B & _ & D).
Qed.

(** ** A directory is the list of its entries *)

Inductive dir_op :=
| DLookup (name : list Z)
| DReaddir (index : nat)
| DCreate (name : list Z) (type : inode_type)
| DUnlink (name : list Z)
| DRename (oldname newname : list Z).

(** The result, the inode and the state. *)
Definition dir_exec s (dir : Z) (o : dir_op) : option (Z * Z * tfs H P) :=
  match o with
  | DLookup name => Some (tempfs_lookup s dir name)
  | DReaddir i => Some (tempfs_readdir s dir (Z.of_nat i))
  | DCreate name type => tempfs_create sizeof_inode sizeof_node s dir name type
  | DUnlink name => let '(r, s) := tempfs_unlink s dir name in Some (r, 0, s)
  | DRename old new => let '(r, s) := tempfs_rename s dir old new in Some (r, 0, s)
  end.

(** The names and inodes of a directory. *)
Definition listing s (es : list Z) : list (list Z * Z) := (fun c => (name_of s c, c)) <$> es.

Definition entry_named (A : list (list Z * Z)) (name : list Z) : option (nat * (list Z * Z)) := list_find (fun e => e.1 = name) A.

(** What an operation should do to a directory. *)
Definition dir_step (busy : Z -> bool) (A : list (list Z * Z)) (o : dir_op) (r v : Z) (A' : list (list Z * Z)) : Prop :=
  match o with
  | DLookup name => A' = A /\ (r, v) = match entry_named A name with Some (_, e) => (0, e.2) | None => (- ENOENT, 0) end
  | DReaddir i => A' = A /\ (r, v) = match A !! i with Some e => (0, e.2) | None => (- ENOENT, 0) end
  | DCreate name _ =>
    (r = 0 /\ Z.of_nat (length name) < TEMPFS_MAX_NAME_LEN /\ (v ∉ A.*2) /\ A' = A ++ [(name, v)]) \/
    (v = 0 /\ A' = A /\ (r = - ENOMEM \/ (r = - ENAMETOOLONG /\ TEMPFS_MAX_NAME_LEN <= Z.of_nat (length name))))
  | DUnlink name =>
    match (if decide (name = []) then None else entry_named A name) with
    | None => r = - ENOENT /\ A' = A
    | Some (k, e) => if busy e.2 then r = - ENOTEMPTY /\ A' = A else r = 0 /\ A' = swap_remove k A
    end
  | DRename old new =>
    if decide (old = [] \/ new = []) then r = - ENOENT /\ A' = A
    else if decide (TEMPFS_MAX_NAME_LEN <= Z.of_nat (length new)) then r = - ENAMETOOLONG /\ A' = A
    else
      match entry_named A new, entry_named A old with
      | Some _, _ => r = - EEXIST /\ A' = A
      | None, None => r = - ENOENT /\ A' = A
      | None, Some (k, e) => r = 0 /\ A' = <[k := (new, e.2)]> A
      end
  end.

(** What it should do to the inodes of the entries and the blocks of the heap: a result is referenced once more (a new file by the tree and by the
    caller), an unlinked inode once less, and a renamed one has the new name in its inode too; the others stay as they were. *)
Definition dir_refs s s' (l es : list Z) (chains : list (list Z)) (o : dir_op) (r v : Z) : Prop :=
  match o with
  | DLookup _ | DReaddir _ => forall x, x ∈ es -> inode_at s' x = if decide (r = 0 /\ x = v) then set_n_shared (n_shared (inode_at s x) + 1) (inode_at s x) else inode_at s x
  | DCreate _ type =>
    (forall x, x ∈ es -> inode_at s' x = inode_at s x) /\ (r = - ENOMEM -> no_memory s l es) /\
    (if decide (r = 0)
     then n_shared (inode_at s' v) = 2 /\ n_type (inode_at s' v) = (ops_of type).1 /\ size_of s' (internal s' v) = 0 /\ live (tf_heap s') = {[v; internal s' v]} ∪ live (tf_heap s)
     else live (tf_heap s') = live (tf_heap s))
  | DUnlink name =>
    if decide (r = 0)
    then exists k c lc, list_find (fun c => name_of s c = name) es = Some (k, c) /\ chains !! k = Some lc /\ unreferenced s s' c lc /\ forall x, x ∈ es -> x <> c -> inode_at s' x = inode_at s x
    else s' = s
  | DRename old new => forall x, x ∈ es -> inode_at s' x = if decide (r = 0 /\ dir_find s es old = Some x) then set_vfs_name new (inode_at s x) else inode_at s x
  end.

Lemma entry_named_listing s es name : entry_named (listing s es) name = (fun kc => (kc.1, (name_of s kc.2, kc.2))) <$> list_find (fun c => name_of s c = name) es.
Proof. unfold entry_named, listing. rewrite list_find_fmap. unfold compose. simpl. by destruct (list_find _ es) as [[k c]|]. Qed.

Lemma listing_same s s' es : (forall x, x ∈ es -> name_of s' x = name_of s x) -> listing s' es = listing s es.
Proof. intros Hs. apply list_fmap_ext. intros k x Hk. f_equal. apply Hs. by eapply list_elem_of_lookup_2. Qed.

Lemma swap_remove_fmap {A B : Type} (f : A -> B) k l : f <$> swap_remove k l = swap_remove k (f <$> l).
Proof.
  unfold swap_remove. rewrite length_fmap, fmap_take, list_lookup_fmap. f_equal. destruct (l !! pred (length l)) as [x|]; [|done]. simpl. by rewrite list_fmap_insert.
Qed.

Lemma dir_nodup s dir t l es chains : is_dir s dir t l es chains -> NoDup es.
Proof.
  intros Hd. pose proof (d_blocks _ _ _ _ _ _ Hd) as Hnd. unfold blocks in Hnd. apply list.NoDup_cons in Hnd as [_ Hnd]. apply list.NoDup_cons in Hnd as [_ Hnd]. by apply list.NoDup_app in Hnd as (Hnd & _).
Qed.

Lemma share_listing s es c n : listing (upd_inode s c (set_n_shared n)) es = listing s es.
Proof. apply listing_same. intros x _. unfold name_of. rewrite inode_at_upd. by destruct (decide (x = c)) as [->|]. Qed.

(** Sharing [c] once more. *)
Lemma share_refs s (es : list Z) c : c ∈ es -> forall x, x ∈ es ->
  inode_at (upd_inode s c (fun n => set_n_shared (n_shared n + 1) n)) x = if decide (0 = 0 /\ x = c) then set_n_shared (n_shared (inode_at s x) + 1) (inode_at s x) else inode_at s x.
Proof. intros Hc x Hx. rewrite inode_at_upd. destruct (decide (x = c)) as [->|Hne]; [by rewrite decide_True|by rewrite decide_False by tauto]. Qed.

Lemma lookup_step s dir t l es chains name : is_dir s dir t l es chains -> let '(r, v, s') := tempfs_lookup s dir name in
  is_dir s' dir t l es chains /\ dir_step (full s) (listing s es) (DLookup name) r v (listing s' es) /\ dir_refs s s' l es chains (DLookup name) r v.
Proof.
  intros Hd. destruct (tempfs_lookup_spec s dir t l es chains name Hd) as [E Hs]. rewrite E. unfold dir_find in *. cbn [dir_step dir_refs]. rewrite entry_named_listing.
  destruct (list_find _ es) as [[k c]|] eqn:Ef; cbn [fmap option_fmap option_map fst snd] in *.
  - apply list_find_Some in Ef as (Hk & _ & _). split; [by apply Hs|]. split; [split; [|done]|by apply share_refs, (list_elem_of_lookup_2 _ k)].
    apply listing_same. intros x _. unfold name_of. rewrite inode_at_upd. by destruct (decide (x = c)) as [->|].
  - split; [done|]. split; [done|]. intros x _. by rewrite decide_False by (intros [? _]; discriminate).
Qed.

Lemma readdir_step s dir t l es chains i : is_dir s dir t l es chains -> let '(r, v, s') := tempfs_readdir s dir (Z.of_nat i) in
  is_dir s' dir t l es chains /\ dir_step (full s) (listing s es) (DReaddir i) r v (listing s' es) /\ dir_refs s s' l es chains (DReaddir i) r v.
Proof.
  intros Hd. pose proof (d_node _ _ _ _ _ _ Hd) as Hn. cbn [dir_step dir_refs].
  assert (El : listing s es !! i = (fun c => (name_of s c, c)) <$> es !! i) by apply list_lookup_fmap. rewrite El. destruct (es !! i) as [c|] eqn:Ei.
  - destruct (readdir_spec s dir t l es chains i c Hd Ei) as [-> Hd']. split; [done|]. cbn [fmap option_fmap option_map snd]. split; [split; [|done]|by apply share_refs, (list_elem_of_lookup_2 _ i)].
    apply listing_same. intros x _. unfold name_of. rewrite inode_at_upd. by destruct (decide (x = c)) as [->|].
  - unfold tempfs_readdir. rewrite (node_internal _ _ _ _ Hn). fold (size_of s t). rewrite (d_size _ _ _ _ _ _ Hd), Z.geb_leb. apply lookup_ge_None in Ei. rewrite (proj2 (Z.leb_le _ _)) by lia.
    split; [done|]. split; [done|]. intros x _. by rewrite decide_False by (intros [? _]; discriminate).
Qed.

Lemma unlink_step s dir t l es chains name : is_dir s dir t l es chains -> let '(r, s') := tempfs_unlink s dir name in
  exists es' chains', is_dir s' dir t l es' chains' /\ dir_step (full s) (listing s es) (DUnlink name) r 0 (listing s' es') /\ dir_refs s s' l es chains (DUnlink name) r 0.
Proof.
  intros Hd. cbn [dir_step dir_refs]. destruct (decide (name = [])) as [->|Hne].
  - unfold tempfs_unlink. cbn [length Nat.eqb]. rewrite !orb_true_r. exists es, chains. split_and!; try done.
  - pose proof (tempfs_unlink_spec s dir t l es chains name Hd Hne) as HU. rewrite entry_named_listing. destruct (list_find (fun c => name_of s c = name) es) as [[k c]|] eqn:Ef; cbn [fmap option_fmap option_map fst snd].
    + destruct (full s c); [rewrite HU; exists es, chains; split_and!; try done|]. destruct HU as (s' & lc & -> & Hd' & Hnm & Hlc & Hun). exists (swap_remove k es), (swap_remove k chains).
      apply list_find_Some in Ef as (Hk & _ & _). pose proof (swap_remove_perm k es c Hk) as Hp.
      split; [done|]. split; [split; [done|]; rewrite (listing_same s s') by (intros; by apply Hnm); apply swap_remove_fmap|].
      rewrite decide_True by done. exists k, c, lc. split_and!; try done. intros x Hx Hxc. apply Hnm. rewrite Hp in Hx. by apply elem_of_cons in Hx as [?|?].
    + rewrite HU. exists es, chains. split_and!; try done.
Qed.

Lemma rename_step s dir t l es chains old new : is_dir s dir t l es chains -> let '(r, s') := tempfs_rename s dir old new in
  is_dir s' dir t l es chains /\ dir_step (full s) (listing s es) (DRename old new) r 0 (listing s' es) /\ dir_refs s s' l es chains (DRename old new) r 0.
Proof.
  intros Hd. pose proof (d_node _ _ _ _ _ _ Hd) as Hn. cbn [dir_step dir_refs].
  assert (Hno : forall e, e <> 0 -> forall x, x ∈ es -> inode_at s x = if decide (- e = 0 /\ dir_find s es old = Some x) then set_vfs_name new (inode_at s x) else inode_at s x).
  { intros e He x _. by rewrite decide_False by (intros [? _]; lia). }
  destruct (decide (old = [] \/ new = [])) as [He|He].
  - unfold tempfs_rename. assert (E : (length old =? 0)%nat || (length new =? 0)%nat = true) by (destruct He as [-> | ->]; [done|apply orb_true_r]).
    rewrite <- (orb_assoc _ (length old =? 0)%nat), E, orb_true_r. split; [done|]. split; [done|]. by apply Hno.
  - assert (Hold : old <> []) by tauto. assert (Hnew : new <> []) by tauto. destruct (decide (TEMPFS_MAX_NAME_LEN <= Z.of_nat (length new))) as [Hlen|Hlen].
    + unfold tempfs_rename. rewrite (node_internal _ _ _ _ Hn), (proj2 (Z.eqb_neq dir 0)), (proj2 (Z.eqb_neq t 0)) by apply Hn.
      rewrite (proj2 (Nat.eqb_neq (length old) 0)) by (by destruct old). rewrite (proj2 (Nat.eqb_neq (length new) 0)) by (by destruct new). cbn [orb].
      rewrite Z.geb_leb, (proj2 (Z.leb_le _ _)) by done. split; [done|]. split; [done|]. by apply Hno.
    + pose proof (rename_spec s dir t l es chains old new Hd Hold Hnew ltac:(lia)) as HR. rewrite !entry_named_listing. unfold dir_find in *.
      destruct (list_find (fun c => name_of s c = new) es) as [[k c]|]; cbn [fmap option_fmap option_map fst snd] in *; [rewrite HR; split; [done|]; split; [done|]; by apply Hno|].
      destruct (list_find (fun c => name_of s c = old) es) as [[k c]|] eqn:E; cbn [fmap option_fmap option_map fst snd] in *; [|rewrite HR; split; [done|]; split; [done|]; by apply Hno].
      destruct HR as (s' & -> & Hd' & Hnm). split; [done|]. split.
      * split; [done|]. apply list_find_Some in E as (Hk & _ & _). unfold listing. apply list_eq. intros j. rewrite list_lookup_fmap. destruct (decide (j = k)) as [->|Hne].
        -- rewrite Hk, list_lookup_insert_eq by (rewrite length_fmap; by eapply lookup_lt_Some). simpl. destruct (Hnm c) as [-> _]; [by eapply list_elem_of_lookup_2|]. by rewrite decide_True.
        -- rewrite list_lookup_insert_ne, list_lookup_fmap by done. destruct (es !! j) as [x|] eqn:Ex; [|done]. simpl. destruct (Hnm x) as [-> _]; [by eapply list_elem_of_lookup_2|]. rewrite decide_False; [done|].
           intros ->. apply Hne. eapply NoDup_lookup; [by eapply dir_nodup|done|done].
      * intros x Hx. destruct (Hnm x Hx) as [_ ->]. destruct (decide (x = c)) as [->|Hxc]; [by rewrite decide_True|]. rewrite decide_False; [done|]. intros [_ ?]. congruence.
Qed.

Lemma create_step s dir t l es chains name type : is_dir s dir t l es chains ->
  match tempfs_create sizeof_inode sizeof_node s dir name type with
  | None => node_missing (tf_heap s)
  | Some (r, v, s') => exists l' es' chains', is_dir s' dir t l' es' chains' /\ dir_step (full s) (listing s es) (DCreate name type) r v (listing s' es') /\ dir_refs s s' l es chains (DCreate name type) r v
  end.
Proof.
  intros Hd. pose proof (create_spec s dir t l es chains name type Hd) as HC. destruct (tempfs_create _ _ _ _ _ _) as [[[r v] s']|]; [|done].
  destruct HC as (Hold & l' & [(-> & Hlen & Hv & Hd' & Hnm & Hsh & Hty & Hsz & Hlv)|(-> & Hr & Hd' & Hlv)]); assert (Hnames : forall x, x ∈ es -> name_of s' x = name_of s x) by (intros; by apply Hold).
  - exists l', (es ++ [v]), (chains ++ [[]]). split; [done|]. cbn [dir_step dir_refs]. split; [|split; [intros; by apply Hold|split; [done|by rewrite decide_True]]]. left. split_and!; try done.
    + unfold listing. rewrite <- list_fmap_compose. unfold compose. simpl. by rewrite list_fmap_id.
    + rewrite <- (listing_same s s' es Hnames). unfold listing. rewrite fmap_app. simpl. by rewrite Hnm.
  - exists l', es, chains. split; [done|]. cbn [dir_step dir_refs]. split; [right; split_and!; [done|by apply listing_same|destruct Hr as [[? _]|?]; tauto]|].
    split; [intros; by apply Hold|]. split; [intros ->; destruct Hr as [[_ ?]|[? _]]; [done|discriminate]|]. rewrite decide_False; [done|]. intros ->. destruct Hr as [[Hr _]|[Hr _]]; discriminate Hr.
Qed.

(** C38. A directory of the memory file system refines the list of its names and inodes, in the order of their slots: whatever its
    chunks are, looking up finds the first entry with the name, listing gives the entry at the index, creating puts a new empty inode
    behind the others, or fails with the directory and the live blocks as they were, for an overlong name or when the page source or
    the heap has nothing left, unlinking puts the last entry into the place of the removed one, unless that is a directory with
    entries, and renaming changes one name and never to a name that is taken.  What is looked up or listed is referenced once
    more, what is created twice, by the tree and the caller, and the tree's reference of an unlinked inode goes: the last one frees
    exactly its inode, its node and its chunks.  No other entry's inode changes.  A call has no result only when a file is created
    and the heap has room for an inode but not for its node. *)
Theorem tempfs_dir_refines s dir t l es chains o : is_dir s dir t l es chains ->
  match dir_exec s dir o with
  | None => (exists name type, o = DCreate name type) /\ node_missing (tf_heap s)
  | Some (r, v, s') => exists l' es' chains', is_dir s' dir t l' es' chains' /\ dir_step (full s) (listing s es) o r v (listing s' es') /\ dir_refs s s' l es chains o r v
  end.
Proof.
  intros Hd. destruct o as [name|i|name type|name|old new]; cbn [dir_exec].
  - pose proof (lookup_step s dir t l es chains name Hd) as HL. destruct (tempfs_lookup s dir name) as [[r v] s']. by exists l, es, chains.
  - pose proof (readdir_step s dir t l es chains i Hd) as HL. destruct (tempfs_readdir s dir (Z.of_nat i)) as [[r v] s']. by exists l, es, chains.
  - pose proof (create_step s dir t l es chains name type Hd) as HL. destruct (tempfs_create _ _ _ _ _ _) as [[[r v] s']|]; [exact HL|]. split; [by exists name, type|done].
  - pose proof (unlink_step s dir t l es chains name Hd) as HL. destruct (tempfs_unlink s dir name) as [r s']. destruct HL as (es' & chains' & HL). by exists l, es', chains'.
  - pose proof (rename_step s dir t l es chains old new Hd) as HL. destruct (tempfs_rename s dir old new) as [r s']. by exists l, es, chains.
Qed.

End Dirs.

(** ** A concrete directory *)

(** An empty root: the inode at 10, its node at 20. *)
Definition empty_dir : tfs counting_heap low_pages :=
  {| tf_heap := {| ch_live := {[10; 20]}; ch_next := 1000; ch_budget := 9 |}; tf_pages := {| low_bump := bump0 |};
     tf_inodes := {[10 := {| n_shared := 1; n_type := INODE_DIRECTORY; n_ops := dir_ops; internal_data := 20; n_name := []; n_attached := false; n_parent := 0 |}]};
     tf_nodes := {[20 := {| t_name := []; capacity := 0; t_data := 0; borrowed := None; mtime := 0; ctime := 0 |}]};
     tf_chunks := ∅; tf_root := 10; tf_now := 7 |}.

Lemma empty_dir_ok : is_dir empty_dir 10 20 [] [] [].
Proof.
  assert (Hlive : forall x, x ∈ live (tf_heap empty_dir) <-> x = 10 \/ x = 20) by (intros x; cbn; set_solver).
  constructor.
  - constructor; try done. constructor; [|eexists; reflexivity|done|done|intros j c Hj; by rewrite lookup_nil in Hj|constructor].
    split; [split; [exact bump0_ok|done]|]. intros c [x Hx]. exfalso. exact (lookup_empty_Some _ _ Hx).
  - done.
  - done.
  - intros k c Hk. by rewrite lookup_nil in Hk.
  - constructor.
  - apply list.NoDup_cons. split; [intros [E|E%not_elem_of_nil]%elem_of_cons; [discriminate E|done]|apply NoDup_singleton].
  - constructor.
  - split; [done|]. intros p Hp. apply Hlive in Hp as [-> | ->]; cbn; lia.
  - intros b Hb. apply Hlive. unfold blocks in Hb. apply elem_of_cons in Hb as [->|Hb]; [by left|]. apply elem_of_cons in Hb as [->|Hb]; [by right|]. by apply not_elem_of_nil in Hb.
  - intros x [[n Hx]|[n Hx]]; apply Hlive; cbn in Hx; apply lookup_singleton_Some in Hx as [<- _]; [by left|by right].
  - intros x [n Hx]. cbn in Hx. apply lookup_singleton_Some in Hx as [<- _]. done.
  - split; [apply not_elem_of_nil|]. apply Hlive. by left.
  - by left.
Qed.

Fixpoint dir_run (s : tfs counting_heap low_pages) (ops : list dir_op) : option (list (Z * Z)) :=
  match ops with
  | [] => Some []
  | o :: ops => '(r, v, s) ← dir_exec 320 168 s 10 o; rs ← dir_run s ops; Some ((r, v) :: rs)
  end.

(** Two files are made, the first is unlinked and its name given to the second. *)
Example dir_demo :
  dir_run empty_dir [DCreate [97] INODE_FILE; DCreate [98] INODE_FILE; DUnlink [97]; DRename [98] [97]; DLookup [97]; DReaddir 1; DUnlink [98]] =
  Some [(0, 1000); (0, 1488); (0, 0); (0, 0); (0, 1488); (- ENOENT, 0); (- ENOENT, 0)].
Proof. vm_compute. reflexivity. Qed.

Lemma tempfs_dir_refines_witness :
  exists s' l' es' chains', dir_exec 320 168 empty_dir 10 (DCreate [97] INODE_FILE) = Some (0, 1000, s') /\ is_dir s' 10 20 l' es' chains' /\ listing s' es' = [([97], 1000)].
Proof.
  pose proof (tempfs_dir_refines 320 168 low_sane ltac:(lia) empty_dir 10 20 [] [] [] (DCreate [97] INODE_FILE) empty_dir_ok) as HT.
  assert (E : exists s', dir_exec 320 168 empty_dir 10 (DCreate [97] INODE_FILE) = Some (0, 1000, s')) by (eexists; vm_compute; reflexivity).
  destruct E as [s' E]. rewrite E in HT. destruct HT as (l' & es' & chains' & Hd & [(_ & _ & _ & HA)|(H0 & _)] & _); [|discriminate H0].
  exists s', l', es', chains'. split; [exact E|]. split; [exact Hd|exact HA].
Defined.
