(* ===== verification/FdTable.v ===== *)
(** * Open files and descriptor tables

    [kernel/src/fs/vfs.c], from [vfs_fd_table_alloc] to [vfs_fd_table_drop] and from [vfs_pipe] to
    [vfs_seek]: a table maps descriptors to open files, threads share a table, a fork copies it, and
    the last reference to a file releases what is behind it.  Tables and files are at the addresses
    of their blocks; [released] logs the release of what is behind a file (its pipe end, socket, epoll
    set or inode); the counts of inodes ([vfs_hold], [vfs_drop]) are in [Memfd].  The table a call works on is the one [vfs_get_active_fd_table] finds. *)

From S2P Require Import Prelude Machine Heap Pipe.

Definition MAX_FDS : nat := 256.

Definition FD_CLOEXEC : Z := 1.

Definition O_APPEND : Z := 0x400.

Definition O_TRUNC : Z := 0x200.

Definition ENXIO : Z := 6.

Definition SEEK_SET : Z := 0.

Definition SEEK_CUR : Z := 1.

Definition SEEK_END : Z := 2.

Inductive fd_type := FD_TYPE_FS | FD_TYPE_DEV | FD_TYPE_PIPE | FD_TYPE_SOCKET | FD_TYPE_UNIX | FD_TYPE_EPOLL.

#[export] Instance fd_type_eq_dec : EqDecision fd_type.
Proof. solve_decision. Defined.

(** [file_t]. *)
Record open_file := { of_type : fd_type; of_inode : Z; of_offset : Z; of_flags : Z; of_shared : Z }.

(** [fd_table_t]; 0 is an empty slot. *)
Record fd_table := { fds : list Z; fd_flags : list Z; refs : Z }.

Record vfs (H : Type) := {
  v_heap : H;
  v_files : gmap Z open_file;
  v_tables : gmap Z fd_table;
  boot_fd_table : Z;
  released : list (Z * open_file);
}.
Arguments v_heap {H}.
Arguments v_files {H}.
Arguments v_tables {H}.
Arguments boot_fd_table {H}.
Arguments released {H}.

Definition set_shared (n : Z) (f : open_file) : open_file :=
  {| of_type := of_type f; of_inode := of_inode f; of_offset := of_offset f; of_flags := of_flags f; of_shared := n |}.

Definition set_offset (n : Z) (f : open_file) : open_file :=
  {| of_type := of_type f; of_inode := of_inode f; of_offset := n; of_flags := of_flags f; of_shared := of_shared f |}.

Definition no_table : fd_table := {| fds := []; fd_flags := []; refs := 0 |}.

Definition no_file : open_file := {| of_type := FD_TYPE_FS; of_inode := 0; of_offset := 0; of_flags := 0; of_shared := 0 |}.

Definition empty_table : fd_table := {| fds := replicate MAX_FDS 0; fd_flags := replicate MAX_FDS 0; refs := 1 |}.

Section FdTable.

Context {H : Type} `{Heap H} (sizeof_table sizeof_file : Z).

Implicit Types w : vfs H.

Definition v_set_heap w (h : H) : vfs H := {| v_heap := h; v_files := v_files w; v_tables := v_tables w; boot_fd_table := boot_fd_table w; released := released w |}.

Definition v_set_files w (m : gmap Z open_file) : vfs H := {| v_heap := v_heap w; v_files := m; v_tables := v_tables w; boot_fd_table := boot_fd_table w; released := released w |}.

Definition v_set_tables w (m : gmap Z fd_table) : vfs H := {| v_heap := v_heap w; v_files := v_files w; v_tables := m; boot_fd_table := boot_fd_table w; released := released w |}.

Definition v_set_boot w (t : Z) : vfs H := {| v_heap := v_heap w; v_files := v_files w; v_tables := v_tables w; boot_fd_table := t; released := released w |}.

Definition v_release w (p : Z) (f : open_file) : vfs H :=
  {| v_heap := v_heap w; v_files := v_files w; v_tables := v_tables w; boot_fd_table := boot_fd_table w; released := released w ++ [(p, f)] |}.

Definition v_kmalloc w (n : Z) : Z * vfs H := let '(p, h) := kmalloc n (v_heap w) in (p, v_set_heap w h).

Definition v_kfree w (p : Z) : vfs H := v_set_heap w (kfree p (v_heap w)).

Definition table_at w (t : Z) : fd_table := default no_table (v_tables w !! t).

Definition file_at w (p : Z) : open_file := default no_file (v_files w !! p).

(** [table->fds[fd]]. *)
Definition slot w (t : Z) (fd : nat) : Z := default 0 (fds (table_at w t) !! fd).

Definition slot_flags w (t : Z) (fd : nat) : Z := default 0 (fd_flags (table_at w t) !! fd).

(** [table->fds[fd] = p]. *)
Definition fd_put (t : Z) (fd : nat) (p : Z) w : vfs H :=
  let tb := table_at w t in v_set_tables w (<[t := {| fds := <[fd := p]> (fds tb); fd_flags := fd_flags tb; refs := refs tb |}]> (v_tables w)).

(** [table->fd_flags[fd] = v]. *)
Definition set_slot_flags (t : Z) (fd : nat) (v : Z) w : vfs H :=
  let tb := table_at w t in v_set_tables w (<[t := {| fds := fds tb; fd_flags := <[fd := v]> (fd_flags tb); refs := refs tb |}]> (v_tables w)).

Definition set_refs (t : Z) (n : Z) w : vfs H :=
  let tb := table_at w t in v_set_tables w (<[t := {| fds := fds tb; fd_flags := fd_flags tb; refs := n |}]> (v_tables w)).

(** [f->shared++]. *)
Definition file_ref (p : Z) w : vfs H := v_set_files w (<[p := set_shared (of_shared (file_at w p) + 1) (file_at w p)]> (v_files w)).

(** ** Tables *)

(** 0 is [NULL]. *)
Definition vfs_fd_table_alloc w : Z * vfs H :=
  let '(t, w) := v_kmalloc w sizeof_table in
  if t =? 0 then (0, w) else (t, v_set_tables w (<[t := empty_table]> (v_tables w))).

Definition vfs_get_active_fd_table (task_table : Z) w : Z := if negb (task_table =? 0) then task_table else boot_fd_table w.

Definition vfs_get_kernel_table w : Z * vfs H :=
  if boot_fd_table w =? 0 then let '(t, w) := vfs_fd_table_alloc w in (t, v_set_boot w t) else (boot_fd_table w, w).

Definition clone_slot (src dst : Z) w (fd : nat) : vfs H :=
  let f := slot w src fd in
  let w := set_slot_flags dst fd (slot_flags w src fd) (fd_put dst fd f w) in
  if negb (f =? 0) then file_ref f w else w.

Definition vfs_fd_table_clone (src : Z) w : Z * vfs H :=
  if src =? 0 then vfs_fd_table_alloc w
  else
    let '(dst, w) := vfs_fd_table_alloc w in
    if dst =? 0 then (0, w) else (dst, foldl (clone_slot src dst) w (seq 0 MAX_FDS)).

Definition vfs_file_put (p : Z) w : vfs H :=
  let f := set_shared (of_shared (file_at w p) - 1) (file_at w p) in
  let w := v_set_files w (<[p := f]> (v_files w)) in
  if 0 <? of_shared f then w
  else v_kfree (v_set_files (v_release w p f) (delete p (v_files w))) p.

(** The lowest free slot from [from] on. *)
Definition free_slot (t : Z) (from : nat) w : option nat := list_find (fun fd => slot w t fd = 0) (seq from (MAX_FDS - from)) ≫= fun x => Some x.2.

Definition vfs_fd_install (t p : Z) w : Z * vfs H :=
  match free_slot t 0 w with
  | Some fd => (Z.of_nat fd, fd_put t fd p w)
  | None => (-1, w)
  end.

Definition vfs_fd_table_share (t : Z) w : Z * vfs H := if t =? 0 then (0, w) else (t, set_refs t (refs (table_at w t) + 1) w).

(** [table->fds[fd] = NULL; table->fd_flags[fd] = 0; vfs_file_put(f)]. *)
Definition close_slot (t : Z) (fd : nat) w : vfs H := vfs_file_put (slot w t fd) (set_slot_flags t fd 0 (fd_put t fd 0 w)).

Definition drop_fd (t : Z) w (fd : nat) : vfs H := if slot w t fd =? 0 then w else close_slot t fd w.

Definition vfs_fd_table_drop (t : Z) w : vfs H :=
  if t =? 0 then w
  else
    let w := set_refs t (refs (table_at w t) - 1) w in
    if 0 <? refs (table_at w t) then w
    else
      let w := foldl (drop_fd t) w (seq 0 MAX_FDS) in
      let w := if t =? boot_fd_table w then v_set_boot w 0 else w in
      v_kfree (v_set_tables w (delete t (v_tables w))) t.

Definition cloexec_slot (t : Z) w (fd : nat) : vfs H :=
  if (slot w t fd =? 0) || (Z.land (slot_flags w t fd) FD_CLOEXEC =? 0) then w else close_slot t fd w.

Definition vfs_close_on_exec (t : Z) w : vfs H := if t =? 0 then w else foldl (cloexec_slot t) w (seq 0 MAX_FDS).

(** ** Descriptors *)

(** [!fd_table || fd < 0 || fd >= MAX_FDS]. *)
Definition bad_fd (t fd : Z) : bool := (t =? 0) || (fd <? 0) || (Z.of_nat MAX_FDS <=? fd).

Definition no_file_at (t fd : Z) w : bool := bad_fd t fd || (slot w t (Z.to_nat fd) =? 0).

(** 0 is [NULL]. *)
Definition vfs_file_get (t fd : Z) w : Z * vfs H :=
  if no_file_at t fd w then (0, w) else let f := slot w t (Z.to_nat fd) in (f, file_ref f w).

Definition vfs_install (t p : Z) w : Z * vfs H :=
  if t =? 0 then (- EMFILE, w)
  else
    match free_slot t 3 w with
    | Some fd => (Z.of_nat fd, fd_put t fd p w)
    | None => (- EMFILE, w)
    end.

Definition vfs_close (t fd : Z) w : Z * vfs H :=
  if no_file_at t fd w then (- EBADF, w) else (0, close_slot t (Z.to_nat fd) w).

Definition vfs_dup2 (t oldfd newfd : Z) w : Z * vfs H :=
  if bad_fd t oldfd || bad_fd t newfd then (- EBADF, w)
  else
    let src := slot w t (Z.to_nat oldfd) in
    if src =? 0 then (- EBADF, w)
    else if oldfd =? newfd then (newfd, w)
    else
      let '(rc, w) := if negb (slot w t (Z.to_nat newfd) =? 0) then vfs_close t newfd w else (0, w) in
      if rc <? 0 then (rc, w)
      else (newfd, set_slot_flags t (Z.to_nat newfd) 0 (fd_put t (Z.to_nat newfd) src (file_ref src w))).

Definition vfs_dup_from (t oldfd lowest : Z) w : Z * vfs H :=
  if no_file_at t oldfd w then (- EBADF, w)
  else if (lowest <? 0) || (Z.of_nat MAX_FDS <=? lowest) then (- EINVAL, w)
  else
    match free_slot t (Z.to_nat lowest) w with
    | Some fd => vfs_dup2 t oldfd (Z.of_nat fd) w
    | None => (- EMFILE, w)
    end.

Definition vfs_dup (t oldfd : Z) w : Z * vfs H :=
  if no_file_at t oldfd w then (- EBADF, w)
  else
    match free_slot t 0 w with
    | Some fd => vfs_dup2 t oldfd (Z.of_nat fd) w
    | None => (- EMFILE, w)
    end.

Definition vfs_get_fd_flags (t fd : Z) w : Z := if no_file_at t fd w then - EBADF else slot_flags w t (Z.to_nat fd).

Definition vfs_set_fd_flags (t fd flags : Z) w : Z * vfs H :=
  if no_file_at t fd w then (- EBADF, w) else (0, set_slot_flags t (Z.to_nat fd) (Z.land flags FD_CLOEXEC) w).

(** [filesize] is [vfs_filesize] of the file's inode; 64 bits, [long] is signed. *)
Definition to_long (z : Z) : Z := if 2 ^ 63 <=? wrap64 z then wrap64 z - 2 ^ 64 else wrap64 z.

Definition vfs_seek (t fd offset whence filesize : Z) w : Z * vfs H :=
  if bad_fd t fd then (- EBADF, w)
  else
    let p := slot w t (Z.to_nat fd) in
    if (p =? 0) || (of_inode (file_at w p) =? 0) then (- EBADF, w)
    else
      let go new_offset :=
        if new_offset <? 0 then (- EINVAL, w)
        else (new_offset, v_set_files w (<[p := set_offset new_offset (file_at w p)]> (v_files w))) in
      if whence =? SEEK_SET then go offset
      else if whence =? SEEK_CUR then go (to_long (of_offset (file_at w p) + offset))
      else if whence =? SEEK_END then go (to_long (filesize + offset))
      else (- EINVAL, w).

(** ** Opening *)

(** The number the characters spell, in decimal. *)
Fixpoint fd_number (num : list Z) (n : Z) : option Z :=
  match num with
  | [] => Some n
  | c :: num => if (c <? 48) || (57 <? c) || (Z.of_nat MAX_FDS <? n) then None else fd_number num (n * 10 + (c - 48))
  end.

(** A new open file on what the descriptor [num] has open.  The reference [vfs_hold] takes on the inode
    goes with the file; it is dropped again when there is no slot. *)
Definition vfs_reopen_fd (t : Z) (num : list Z) (flags : Z) w : Z * vfs H :=
  let n := default (Z.of_nat MAX_FDS) (match num with [] => None | _ => fd_number num 0 end) in
  let src := if n <? Z.of_nat MAX_FDS then slot w t (Z.to_nat n) else 0 in
  if src =? 0 then (- ENOENT, w)
  else
    let sf := file_at w src in
    if (negb (bool_decide (of_type sf = FD_TYPE_FS)) && negb (bool_decide (of_type sf = FD_TYPE_DEV))) || (of_inode sf =? 0) then (- ENXIO, w)
    else
      let want := Z.land flags O_MODE in
      let have := Z.land (of_flags sf) O_MODE in
      if (negb (want =? O_RDONLY) && (have =? O_RDONLY)) || (negb (want =? O_WRONLY) && (have =? O_WRONLY)) then (- EACCES, w)
      else
        let '(p, w) := v_kmalloc w sizeof_file in
        if p =? 0 then (- ENOMEM, w)
        else
          let w := v_set_files w (<[p := {| of_type := of_type sf; of_inode := of_inode sf; of_offset := 0; of_flags := Z.land flags (Z.lor O_MODE O_APPEND); of_shared := 1 |}]> (v_files w)) in
          let '(fd, w) := vfs_fd_install t p w in
          if 0 <=? fd then (fd, w) else (- EMFILE, v_kfree (v_set_files w (delete p (v_files w))) p).

(** [vfs_open_at] once the path is resolved to [inode]; [size] is [vfs_filesize] and [trunc] the result of
    [inode_truncate] to 0, when it is called. *)
Definition vfs_open_inode (t inode : Z) (is_device is_file : bool) (size trunc flags : Z) w : Z * vfs H :=
  let '(p, w) := v_kmalloc w sizeof_file in
  if p =? 0 then (- ENOMEM, w)
  else if flag flags O_TRUNC && is_file && (trunc <? 0) then (trunc, v_kfree w p)
  else
    let f := {| of_type := if is_device then FD_TYPE_DEV else FD_TYPE_FS; of_inode := inode; of_offset := if negb is_device && flag flags O_APPEND then size else 0;
                of_flags := Z.land flags (Z.lor (Z.lor O_MODE O_APPEND) O_TRUNC); of_shared := 1 |} in
    let w := v_set_files w (<[p := f]> (v_files w)) in
    let '(fd, w) := vfs_fd_install t p w in
    if 0 <=? fd then (fd, w) else (- EMFILE, v_kfree (v_set_files w (delete p (v_files w))) p).

(** The two descriptors when the result is 0; [create] is [pipe_create_file_pair]. *)
Definition vfs_pipe (t : Z) (create : vfs H -> option (Z * Z) * vfs H) w : Z * (Z * Z) * vfs H :=
  if t =? 0 then (- EMFILE, (0, 0), w)
  else
    match free_slot t 3 w with
    | None => (- EMFILE, (0, 0), w)
    | Some rd =>
      match free_slot t (S rd) w with
      | None => (- EMFILE, (0, 0), w)
      | Some wr =>
        let '(made, w) := create w in
        match made with
        | None => (- ENOMEM, (0, 0), w)
        | Some (rf, wf) => (0, (Z.of_nat rd, Z.of_nat wr), fd_put t wr wf (fd_put t rd rf w))
        end
      end
    end.

End FdTable.
