(* ===== verification/FdProofs.v ===== *)
(** * Open files and descriptor tables: nothing dangles

    The count of a file is the number of slots that refer to it and of the references calls hold,
    through any sequence of calls: no slot refers to a freed file, and what is behind a file is
    released once, with its last reference. *)

From S2P Require Import Prelude Machine Heap Pipe FdTable.

#[local] Opaque MAX_FDS.

(** ** Counting slots *)

Fixpoint cnt (p : Z) (l : list Z) : Z :=
  match l with [] => 0 | x :: l => (if x =? p then 1 else 0) + cnt p l end.

Definition hit (p q : Z) : Z := if q =? p then 1 else 0.

Lemma cnt_nonneg p l : 0 <= cnt p l.
Proof. induction l as [|x l IH]; cbn [cnt]; [lia|]. destruct (x =? p); lia. Qed.

Lemma cnt_insert p l : forall i q r, l !! i = Some q -> cnt p (<[i := r]> l) = cnt p l - hit p q + hit p r.
Proof.
  induction l as [|x l IH]; intros [|i] q r Hi; try done; cbn in Hi.
  - injection Hi as ->. cbn [cnt]. change (<[0%nat := r]> (q :: l)) with (r :: l). cbn [cnt]. unfold hit. lia.
  - change (<[S i := r]> (x :: l)) with (x :: <[i := r]> l). cbn [cnt]. rewrite (IH i q r Hi). lia.
Qed.

Lemma cnt_lookup p l i : l !! i = Some p -> 0 < cnt p l.
Proof. revert i. induction l as [|x l IH]; intros [|i] Hi; try done; cbn in *; [injection Hi as ->; rewrite Z.eqb_refl; pose proof (cnt_nonneg p l); lia|]. specialize (IH i Hi). destruct (x =? p); lia. Qed.

Lemma cnt_zero p l : (forall i, l !! i <> Some p) -> cnt p l = 0.
Proof.
  induction l as [|x l IH]; intros Hn; [done|]. cbn [cnt]. destruct (Z.eqb_spec x p) as [->|]; [by destruct (Hn 0%nat)|]. rewrite IH; [lia|]. intros i. apply (Hn (S i)).
Qed.

Lemma cnt_replicate p n : p <> 0 -> cnt p (replicate n 0) = 0.
Proof. intros Hp. apply cnt_zero. intros i [E _]%lookup_replicate. lia. Qed.

(** In how many slots of all tables [p] is. *)
Definition slots (m : gmap Z fd_table) (p : Z) : Z := map_fold (fun _ tb n => cnt p (fds tb) + n) 0 m.

Lemma slots_fresh m t tb p : m !! t = None -> slots (<[t := tb]> m) p = cnt p (fds tb) + slots m p.
Proof. intros Ht. unfold slots. rewrite map_fold_insert_L; [done| |done]. intros. lia. Qed.

Lemma slots_delete m t tb p : m !! t = Some tb -> slots (delete t m) p = slots m p - cnt p (fds tb).
Proof. intros Ht. rewrite <- (insert_delete_id m t tb Ht) at 2. rewrite slots_fresh by apply lookup_delete_eq. lia. Qed.

Lemma slots_update m t tb tb' p : m !! t = Some tb -> slots (<[t := tb']> m) p = slots m p - cnt p (fds tb) + cnt p (fds tb').
Proof. intros Ht. rewrite <- insert_delete_eq, slots_fresh by apply lookup_delete_eq. rewrite (slots_delete _ _ tb) by done. lia. Qed.

Lemma slots_nonneg m p : 0 <= slots m p.
Proof. induction m as [|t tb m Ht IH] using map_ind; [done|]. rewrite slots_fresh by done. pose proof (cnt_nonneg p (fds tb)). lia. Qed.

Lemma slots_pos m t tb i p : m !! t = Some tb -> fds tb !! i = Some p -> 0 < slots m p.
Proof. intros Ht Hi. pose proof (slots_delete m t tb p Ht). pose proof (slots_nonneg (delete t m) p). pose proof (cnt_lookup p _ i Hi). lia. Qed.

(** ** The invariant

    [held p] is how many references to the file at [p] calls hold. *)

Section Inv.

Context {H : Type} `{Heap H} (sizeof_table sizeof_file : Z) (Hst : 0 < sizeof_table) (Hsf : 0 < sizeof_file).

Implicit Types w : vfs H.

Record table_ok (tb : fd_table) : Prop := {
  to_slots : length (fds tb) = MAX_FDS;
  to_flags : length (fd_flags tb) = MAX_FDS;
  to_clear : forall i, fds tb !! i = Some 0 -> fd_flags tb !! i = Some 0;
}.

Record fd_inv (held : Z -> Z) w : Prop := {
  fi_heap : heap_ok (v_heap w);
  fi_tables : forall t tb, v_tables w !! t = Some tb -> t ∈ live (v_heap w) /\ table_ok tb;
  fi_files : forall p f, v_files w !! p = Some f -> p ∈ live (v_heap w) /\ of_shared f = slots (v_tables w) p + held p /\ 0 < of_shared f;
  fi_none : forall p, p <> 0 -> v_files w !! p = None -> slots (v_tables w) p = 0 /\ held p = 0;
  fi_held : forall p, 0 <= held p;
  fi_apart : forall p, is_Some (v_files w !! p) -> v_tables w !! p = None;
}.

(** Every table is somebody's. *)
Definition tables_held w : Prop := forall t tb, v_tables w !! t = Some tb -> 0 < refs tb.

Definition bump (held : Z -> Z) (p n : Z) : Z -> Z := fun q => held q + (if q =? p then n else 0).

Lemma fd_inv_ext held held' w : (forall p, held' p = held p) -> fd_inv held w -> fd_inv held' w.
Proof. intros E [A B C F G K]. split; try done; [intros p f Hp; rewrite E; by apply C|intros p Hp Hn; rewrite E; by apply F|intros p; rewrite E; apply G]. Qed.

Lemma file_live held w p : fd_inv held w -> is_Some (v_files w !! p) -> p <> 0.
Proof. intros HI [f Hf] ->. destruct (fi_files _ _ HI _ _ Hf) as (Hl & _). by apply (live_nonnull _ (fi_heap _ _ HI)). Qed.

Lemma slot_file held w t tb i p : fd_inv held w -> v_tables w !! t = Some tb -> fds tb !! i = Some p -> p <> 0 -> is_Some (v_files w !! p).
Proof. intros HI Ht Hi Hp. destruct (v_files w !! p) eqn:E; [done|]. destruct (fi_none _ _ HI p Hp E) as [E1 _]. pose proof (slots_pos _ _ _ _ _ Ht Hi). lia. Qed.

Lemma held_file held w p : fd_inv held w -> p <> 0 -> 0 < held p -> is_Some (v_files w !! p).
Proof. intros HI Hp Hh. destruct (v_files w !! p) eqn:E; [done|]. destruct (fi_none _ _ HI p Hp E). lia. Qed.

Lemma table_at_eq w t tb : v_tables w !! t = Some tb -> table_at w t = tb.
Proof. intros E. unfold table_at. by rewrite E. Qed.

Lemma file_at_eq w p f : v_files w !! p = Some f -> file_at w p = f.
Proof. intros E. unfold file_at. by rewrite E. Qed.

Lemma slot_eq w t tb i p : v_tables w !! t = Some tb -> fds tb !! i = Some p -> slot w t i = p.
Proof. intros E Hi. unfold slot. by rewrite (table_at_eq _ _ _ E), Hi. Qed.

Lemma slot_lookup held w t tb i : fd_inv held w -> v_tables w !! t = Some tb -> (i < MAX_FDS)%nat -> fds tb !! i = Some (slot w t i).
Proof.
  intros HI Ht Hi. destruct (fi_tables _ _ HI _ _ Ht) as [_ [L _ _]]. destruct (lookup_lt_is_Some_2 (fds tb) i) as [p Hp]; [lia|]. by rewrite (slot_eq _ _ _ _ _ Ht Hp).
Qed.

(** ** Moves of a reference *)

Lemma ref_inv held w p : fd_inv held w -> is_Some (v_files w !! p) -> fd_inv (bump held p 1) (file_ref p w).
Proof.
  intros HI [f Hf]. destruct HI as [A B C F G K]. unfold file_ref. rewrite (file_at_eq _ _ _ Hf). split; cbn [v_heap v_tables v_files v_set_files]; try done.
  - intros q g. destruct (decide (q = p)) as [->|Hq].
    + rewrite lookup_insert_eq. intros [= <-]. destruct (C _ _ Hf) as (C1 & C2 & C3). cbn [of_shared set_shared]. unfold bump. rewrite Z.eqb_refl. split; [done|]. lia.
    + rewrite lookup_insert_ne by done. unfold bump. rewrite (proj2 (Z.eqb_neq q p) Hq), Z.add_0_r. apply C.
  - intros q Hq Hn. destruct (decide (q = p)) as [->|Hqp]; [by rewrite lookup_insert_eq in Hn|]. rewrite lookup_insert_ne in Hn by done. unfold bump. rewrite (proj2 (Z.eqb_neq q p) Hqp), Z.add_0_r. by apply F.
  - intros q. unfold bump. specialize (G q). destruct (q =? p); lia.
  - intros q Hq. apply K. destruct (decide (q = p)) as [->|Hqp]; [by exists f|]. by rewrite lookup_insert_ne in Hq.
Qed.

(** The last reference releases the file and frees its block, once. *)
Lemma put_inv held w p : fd_inv held w -> p <> 0 -> 0 < held p -> fd_inv (bump held p (-1)) (vfs_file_put p w) /\ v_tables (vfs_file_put p w) = v_tables w /\ boot_fd_table (vfs_file_put p w) = boot_fd_table w.
Proof.
  intros HI Hp Hh. destruct (held_file _ _ _ HI Hp Hh) as [f Hf]. destruct HI as [A B C F G K]. destruct (C _ _ Hf) as (C1 & C2 & C3). pose proof (slots_nonneg (v_tables w) p) as Hs. unfold vfs_file_put. rewrite (file_at_eq _ _ _ Hf). cbn [of_shared set_shared].
  destruct (Z.ltb_spec 0 (of_shared f - 1)) as [Hm|Hm]; (split; [|split; reflexivity]); split; cbn [v_heap v_tables v_files v_set_files v_kfree v_release v_set_heap]; try done.
  - intros q g. destruct (decide (q = p)) as [->|Hq].
    + rewrite lookup_insert_eq. intros [= <-]. cbn [of_shared set_shared]. unfold bump. rewrite Z.eqb_refl. split; [done|]. lia.
    + rewrite lookup_insert_ne by done. unfold bump. rewrite (proj2 (Z.eqb_neq q p) Hq), Z.add_0_r. apply C.
  - intros q Hq Hn. destruct (decide (q = p)) as [->|Hqp]; [by rewrite lookup_insert_eq in Hn|]. rewrite lookup_insert_ne in Hn by done. unfold bump. rewrite (proj2 (Z.eqb_neq q p) Hqp), Z.add_0_r. by apply F.
  - intros q. unfold bump. specialize (G q). destruct (Z.eqb_spec q p) as [->|]; lia.
  - intros q Hq. apply K. destruct (decide (q = p)) as [->|Hqp]; [by exists f|]. by rewrite lookup_insert_ne in Hq.
  - by apply kfree_spec.
  - intros t tb Ht. destruct (B _ _ Ht) as [B1 B2]. split; [|done]. destruct (kfree_spec p _ A C1) as [_ ->]. apply elem_of_difference. split; [done|]. intros ->%elem_of_singleton. rewrite (K p) in Ht by (by exists f). done.
  - intros q g Hg. destruct (decide (q = p)) as [->|Hq]; [by rewrite lookup_delete_eq in Hg|]. rewrite lookup_delete_ne, lookup_insert_ne in Hg by done. destruct (C _ _ Hg) as (D1 & D2 & D3). unfold bump. rewrite (proj2 (Z.eqb_neq q p) Hq), Z.add_0_r. split; [|done].
    destruct (kfree_spec p _ A C1) as [_ ->]. apply elem_of_difference. split; [done|]. by intros ?%elem_of_singleton.
  - intros q Hq Hn. unfold bump. destruct (Z.eqb_spec q p) as [->|Hqp]; [lia|]. rewrite lookup_delete_ne, lookup_insert_ne in Hn by done. rewrite Z.add_0_r. by apply F.
  - intros q. unfold bump. specialize (G q). destruct (Z.eqb_spec q p) as [->|]; lia.
  - intros q Hq. apply K. destruct (decide (q = p)) as [->|Hqp]; [by exists f|]. by rewrite lookup_delete_ne, lookup_insert_ne in Hq.
Qed.

(** ** Slots *)

(** A table that changes, and with it what calls hold. *)
Lemma table_inv held held' w t tb tb' : fd_inv held w -> v_tables w !! t = Some tb -> table_ok tb' -> (forall q, q <> 0 -> cnt q (fds tb') + held' q = cnt q (fds tb) + held q) ->
  (forall q, 0 <= held' q) -> (forall q, q <> 0 -> v_files w !! q = None -> held' q = held q) -> fd_inv held' (v_set_tables w (<[t := tb']> (v_tables w))).
Proof.
  intros HI Ht Hok Hq Hh Hn. pose proof HI as [A B C F G K]. split; cbn [v_heap v_tables v_files v_set_tables]; try done.
  - intros u ub. destruct (decide (u = t)) as [->|Hu]; [rewrite lookup_insert_eq; intros [= <-]; split; [by apply (B t tb)|done]|rewrite lookup_insert_ne by done; apply B].
  - intros q f Hf. pose proof (file_live _ _ _ HI (ex_intro _ f Hf)) as Hq0. destruct (C _ _ Hf) as (C1 & C2 & C3). split; [done|]. rewrite (slots_update _ _ tb) by done. specialize (Hq q Hq0). lia.
  - intros q Hq0 Hf. destruct (F q Hq0 Hf) as [F1 F2]. rewrite (slots_update _ _ tb) by done. specialize (Hq q Hq0). specialize (Hn q Hq0 Hf). lia.
  - intros q Hf. destruct (decide (q = t)) as [->|Hu]; [by rewrite (K t Hf) in Ht|]. rewrite lookup_insert_ne by done. by apply K.
Qed.

Lemma table_ok_set tb i p v n : table_ok tb -> (p = 0 -> v = 0) -> table_ok {| fds := <[i := p]> (fds tb); fd_flags := <[i := v]> (fd_flags tb); refs := n |}.
Proof.
  intros [L1 L2 L3] Hv. split; cbn [fds fd_flags]; [by rewrite length_insert|by rewrite length_insert|]. intros j Hj. destruct (decide (j = i)) as [->|Hji].
  - assert (i < length (fds tb))%nat by (apply lookup_lt_Some in Hj; by rewrite length_insert in Hj). rewrite list_lookup_insert_eq in Hj by done. injection Hj as Hp. rewrite list_lookup_insert_eq by lia. by rewrite (Hv Hp).
  - rewrite list_lookup_insert_ne in Hj |- * by done. by apply L3.
Qed.

Lemma fd_put_eq w t tb i p : v_tables w !! t = Some tb -> fd_put t i p w = v_set_tables w (<[t := {| fds := <[i := p]> (fds tb); fd_flags := fd_flags tb; refs := refs tb |}]> (v_tables w)).
Proof. intros E. unfold fd_put. by rewrite (table_at_eq _ _ _ E). Qed.

Lemma set_both_eq w t tb i p v : v_tables w !! t = Some tb ->
  set_slot_flags t i v (fd_put t i p w) = v_set_tables w (<[t := {| fds := <[i := p]> (fds tb); fd_flags := <[i := v]> (fd_flags tb); refs := refs tb |}]> (v_tables w)).
Proof.
  intros E. rewrite (fd_put_eq _ _ _ _ _ E). unfold set_slot_flags. erewrite table_at_eq by apply lookup_insert_eq. unfold v_set_tables. cbn [v_tables v_heap v_files boot_fd_table released fds fd_flags refs]. by rewrite insert_insert_eq.
Qed.

(** A held reference goes into a slot that is free. *)
Lemma fill_inv held w t tb i p v : fd_inv held w -> v_tables w !! t = Some tb -> fds tb !! i = Some 0 -> p <> 0 -> 0 < held p -> fd_inv (bump held p (-1)) (set_slot_flags t i v (fd_put t i p w)).
Proof.
  intros HI Ht Hi Hp Hh. rewrite (set_both_eq _ _ _ _ _ _ Ht). apply (table_inv held _ w t tb); try done.
  - apply table_ok_set; [apply (fi_tables _ _ HI _ _ Ht)|done].
  - intros q Hq. cbn [fds]. rewrite (cnt_insert q (fds tb) i 0 p Hi). unfold hit, bump. rewrite (proj2 (Z.eqb_neq 0 q)) by done. rewrite (Z.eqb_sym q p). destruct (p =? q); lia.
  - intros q. unfold bump. pose proof (fi_held _ _ HI q). destruct (Z.eqb_spec q p) as [->|]; lia.
  - intros q Hq Hn. unfold bump. destruct (Z.eqb_spec q p) as [->|]; [|lia]. destruct (held_file _ _ _ HI Hp Hh) as [f Hf]. by rewrite Hf in Hn.
Qed.

Lemma fill_keep held w t tb i p : fd_inv held w -> v_tables w !! t = Some tb -> fds tb !! i = Some 0 -> p <> 0 -> 0 < held p -> fd_inv (bump held p (-1)) (fd_put t i p w).
Proof.
  intros HI Ht Hi Hp Hh. pose proof (fill_inv held w t tb i p 0 HI Ht Hi Hp Hh) as HF. rewrite (set_both_eq _ _ _ _ _ _ Ht) in HF. rewrite (fd_put_eq _ _ _ _ _ Ht).
  rewrite (list_insert_id (fd_flags tb)) in HF; [done|]. by apply (to_clear _ (proj2 (fi_tables _ _ HI _ _ Ht))).
Qed.

(** A slot is cleared, its reference is held. *)
Lemma clear_inv held w t tb i p : fd_inv held w -> v_tables w !! t = Some tb -> fds tb !! i = Some p -> p <> 0 -> fd_inv (bump held p 1) (set_slot_flags t i 0 (fd_put t i 0 w)).
Proof.
  intros HI Ht Hi Hp. rewrite (set_both_eq _ _ _ _ _ _ Ht). apply (table_inv held _ w t tb); try done.
  - apply table_ok_set; [apply (fi_tables _ _ HI _ _ Ht)|done].
  - intros q Hq. cbn [fds]. rewrite (cnt_insert q (fds tb) i p 0 Hi). unfold hit, bump. rewrite (proj2 (Z.eqb_neq 0 q)) by done. rewrite (Z.eqb_sym q p). destruct (p =? q); lia.
  - intros q. unfold bump. pose proof (fi_held _ _ HI q). destruct (Z.eqb_spec q p) as [->|]; lia.
  - intros q Hq Hn. unfold bump. destruct (Z.eqb_spec q p) as [->|]; [|lia]. destruct (slot_file _ _ _ _ _ _ HI Ht Hi Hp) as [f Hf]. by rewrite Hf in Hn.
Qed.

Lemma bump_back held p n q : bump (bump held p n) p (- n) q = held q.
Proof. unfold bump. destruct (q =? p); lia. Qed.

Lemma close_slot_inv held w t tb i : fd_inv held w -> v_tables w !! t = Some tb -> (i < MAX_FDS)%nat -> slot w t i <> 0 ->
  fd_inv held (close_slot t i w) /\ boot_fd_table (close_slot t i w) = boot_fd_table w /\
  v_tables (close_slot t i w) = <[t := {| fds := <[i := 0]> (fds tb); fd_flags := <[i := 0]> (fd_flags tb); refs := refs tb |}]> (v_tables w).
Proof.
  intros HI Ht Hi Hs. pose proof (slot_lookup _ _ _ _ _ HI Ht Hi) as Hl. unfold close_slot. pose proof (clear_inv _ _ _ _ _ _ HI Ht Hl Hs) as HC. set (p := slot w t i) in *.
  destruct (put_inv _ _ p HC Hs) as (HP & E1 & E2); [unfold bump; rewrite Z.eqb_refl; pose proof (fi_held _ _ HI p); lia|]. split; [|rewrite E1, E2; rewrite (set_both_eq _ _ _ _ _ _ Ht); done].
  revert HP. apply fd_inv_ext. intros q. symmetry. apply (bump_back held p 1).
Qed.

(** ** Loops over a table *)

(** [g] leaves a slot alone or closes it. *)
Definition closes (g : vfs H -> nat -> vfs H) (t : Z) : Prop := forall w i, g w i = w \/ (slot w t i <> 0 /\ g w i = close_slot t i w).

(** From [w] to [w'], slots of the table [t] were emptied, nothing else. *)
Record emptied (held : Z -> Z) (t : Z) w w' (tb tb' : fd_table) : Prop := {
  em_inv : fd_inv held w';
  em_boot : boot_fd_table w' = boot_fd_table w;
  em_other : forall u, u <> t -> v_tables w' !! u = v_tables w !! u;
  em_table : v_tables w' !! t = Some tb' /\ refs tb' = refs tb;
  em_slots : forall i, fds tb' !! i = fds tb !! i \/ fds tb' !! i = Some 0;
}.

Lemma emptied_refl held t w tb : fd_inv held w -> v_tables w !! t = Some tb -> emptied held t w w tb tb.
Proof. intros HI Ht. split; try done. intros i. by left. Qed.

Lemma emptied_trans held t w1 w2 w3 b1 b2 b3 : emptied held t w1 w2 b1 b2 -> emptied held t w2 w3 b2 b3 -> emptied held t w1 w3 b1 b3.
Proof.
  intros [A B C (E1 & E2) F] [A' B' C' (E1' & E2') F']. split; [done|congruence| |split; congruence|].
  - intros u Hu. rewrite C' by done. by apply C.
  - intros i. destruct (F' i) as [->|]; [apply F|by right].
Qed.

Lemma closes_step g held t w tb i : closes g t -> fd_inv held w -> v_tables w !! t = Some tb -> (i < MAX_FDS)%nat -> exists tb', emptied held t w (g w i) tb tb'.
Proof.
  intros Hg HI Ht Hi. destruct (Hg w i) as [->|[Hs ->]]; [exists tb; by apply emptied_refl|]. destruct (close_slot_inv _ _ _ _ _ HI Ht Hi Hs) as (HC & E1 & E2). eexists. split; [done|done| | |]; rewrite ?E2.
  - intros u Hu. by rewrite lookup_insert_ne.
  - split; [apply lookup_insert_eq|done].
  - intros j. cbn [fds]. destruct (decide (j = i)) as [->|Hj]; [right|left; by rewrite list_lookup_insert_ne]. apply list_lookup_insert_eq. rewrite (to_slots _ (proj2 (fi_tables _ _ HI _ _ Ht))). lia.
Qed.

Lemma closes_loop g held t l : closes g t -> (forall i, i ∈ l -> (i < MAX_FDS)%nat) -> forall w tb, fd_inv held w -> v_tables w !! t = Some tb -> exists tb', emptied held t w (foldl g w l) tb tb'.
Proof.
  intros Hg. induction l as [|i l IH]; intros Hl w tb HI Ht; cbn [foldl]; [exists tb; by apply emptied_refl|].
  destruct (closes_step g held t w tb i Hg HI Ht) as [b1 E1]; [apply Hl; left|]. destruct (IH ltac:(intros j Hj; apply Hl; by right) (g w i) b1 (em_inv _ _ _ _ _ _ E1) (proj1 (em_table _ _ _ _ _ _ E1))) as [b2 E2]. exists b2. by apply (emptied_trans _ _ _ (g w i) _ _ b1).
Qed.

Lemma drop_closes t : closes (drop_fd t) t.
Proof. intros w i. unfold drop_fd. destruct (Z.eqb_spec (slot w t i) 0); [by left|by right]. Qed.

Lemma cloexec_closes t : closes (cloexec_slot t) t.
Proof. intros w i. unfold cloexec_slot. destruct (Z.eqb_spec (slot w t i) 0); cbn [orb]; [by left|]. destruct (_ =? 0); [by left|by right]. Qed.

Lemma seq_bound n i : i ∈ seq 0 n -> (i < n)%nat.
Proof. intros Hi%elem_of_seq. lia. Qed.

(** After [vfs_fd_table_drop]'s loop nothing is left. *)
Lemma drop_all held t l : (forall i, i ∈ l -> (i < MAX_FDS)%nat) -> forall w tb, fd_inv held w -> v_tables w !! t = Some tb ->
  exists tb', emptied held t w (foldl (drop_fd t) w l) tb tb' /\ forall i, i ∈ l -> fds tb' !! i = Some 0.
Proof.
  induction l as [|i l IH]; intros Hl w tb HI Ht; cbn [foldl]; [exists tb; split; [by apply emptied_refl|]; intros i Hi%not_elem_of_nil; done|].
  assert (Hi : (i < MAX_FDS)%nat) by (apply Hl; left). destruct (closes_step _ held t w tb i (drop_closes t) HI Ht Hi) as [b1 E1].
  destruct (IH ltac:(intros j Hj; apply Hl; by right) (drop_fd t w i) b1 (em_inv _ _ _ _ _ _ E1) (proj1 (em_table _ _ _ _ _ _ E1))) as (b2 & E2 & Hz). exists b2. split; [by apply (emptied_trans _ _ _ (drop_fd t w i) _ _ b1)|].
  intros j [->|Hj]%elem_of_cons; [|by apply Hz]. destruct (em_slots _ _ _ _ _ _ E2 i) as [->|?]; [|done].
  pose proof (em_table _ _ _ _ _ _ E1) as [Eb _]. unfold drop_fd in Eb. pose proof (slot_lookup _ _ _ _ _ HI Ht Hi) as Hs. destruct (Z.eqb_spec (slot w t i) 0) as [E0|E0].
  - rewrite Ht in Eb. injection Eb as <-. by rewrite Hs, E0.
  - destruct (close_slot_inv _ _ _ _ _ HI Ht Hi E0) as (_ & _ & Eq). rewrite Eq, lookup_insert_eq in Eb. injection Eb as <-. cbn [fds]. apply list_lookup_insert_eq. rewrite (to_slots _ (proj2 (fi_tables _ _ HI _ _ Ht))). lia.
Qed.

(** ** Tables come and go *)

Lemma alloc_table_inv held w t w' : fd_inv held w -> vfs_fd_table_alloc sizeof_table w = (t, w') ->
  fd_inv held w' /\ boot_fd_table w' = boot_fd_table w /\ ((t = 0 /\ v_tables w' = v_tables w) \/ (t <> 0 /\ v_tables w !! t = None /\ v_tables w' = <[t := empty_table]> (v_tables w))).
Proof.
  intros HI. pose proof HI as [A B C F G K]. unfold vfs_fd_table_alloc, v_kmalloc. destruct (kmalloc sizeof_table (v_heap w)) as [p h] eqn:E. destruct (kmalloc_spec _ _ _ _ A Hst E) as [Hh [[-> Hl]|(Hp & Hn & Hl)]].
  - rewrite Z.eqb_refl. intros [= <- <-]. split; [|split; [done|by left]]. split; cbn [v_heap v_tables v_files v_set_heap]; rewrite ?Hl; done.
  - rewrite (proj2 (Z.eqb_neq p 0)) by lia. intros [= <- <-]. assert (Ht : v_tables w !! p = None) by (destruct (v_tables w !! p) eqn:Et; [by destruct (B _ _ Et)|done]).
    assert (Hf : v_files w !! p = None) by (destruct (v_files w !! p) eqn:Ef; [by destruct (C _ _ Ef) as (? & _)|done]).
    split; [|split; [done|right; split; [lia|done]]]. split; cbn [v_heap v_tables v_files v_set_heap v_set_tables]; try done.
    + intros u ub. destruct (decide (u = p)) as [->|Hu]; [rewrite lookup_insert_eq; intros [= <-]|rewrite lookup_insert_ne by done; intros Hub; destruct (B _ _ Hub); split; [rewrite Hl; set_solver|done]].
      split; [rewrite Hl; set_solver|]. split; [apply length_replicate|apply length_replicate|]. intros i Hi. exact Hi.
    + intros q f Hq. destruct (C _ _ Hq) as (C1 & C2 & C3). split; [rewrite Hl; set_solver|]. rewrite slots_fresh by done. cbn [fds empty_table]. rewrite cnt_replicate by (by apply (file_live _ _ _ HI); exists f). lia.
    + intros q Hq Hqn. rewrite slots_fresh by done. cbn [fds empty_table]. rewrite cnt_replicate by done. destruct (F q Hq Hqn). lia.
    + intros q Hq. rewrite lookup_insert_ne; [by apply K|]. intros ->. by rewrite Hf in Hq; destruct Hq.
Qed.

Lemma set_refs_inv held w t tb n : fd_inv held w -> v_tables w !! t = Some tb -> fd_inv held (set_refs t n w) /\ v_tables (set_refs t n w) = <[t := {| fds := fds tb; fd_flags := fd_flags tb; refs := n |}]> (v_tables w).
Proof.
  intros HI Ht. unfold set_refs. rewrite (table_at_eq _ _ _ Ht). split; [|done]. apply (table_inv held held w t tb); try done; [|apply (fi_held _ _ HI)]. destruct (proj2 (fi_tables _ _ HI _ _ Ht)) as [L1 L2 L3]. by split.
Qed.

(** The block of a table whose slots are empty is freed. *)
Lemma free_table_inv held w t tb : fd_inv held w -> v_tables w !! t = Some tb -> (forall i, (i < MAX_FDS)%nat -> fds tb !! i = Some 0) -> fd_inv held (v_kfree (v_set_tables w (delete t (v_tables w))) t).
Proof.
  intros HI Ht Hz. pose proof HI as [A B C F G K]. destruct (B _ _ Ht) as [Hl Hok]. destruct (kfree_spec t _ A Hl) as [A' El]. cbn [v_kfree v_set_heap v_set_tables v_heap] in *.
  assert (Hc : forall q, q <> 0 -> cnt q (fds tb) = 0).
  { intros q Hq. apply cnt_zero. intros i Hi. assert (i < MAX_FDS)%nat by (rewrite <- (to_slots _ Hok); by apply (lookup_lt_Some _ _ q)). rewrite Hz in Hi by done. injection Hi as Hi0. by symmetry in Hi0. }
  split; cbn [v_kfree v_set_heap v_set_tables v_heap v_tables v_files]; try done.
  - intros u ub Hu. destruct (decide (u = t)) as [->|Hut]; [by rewrite lookup_delete_eq in Hu|]. rewrite lookup_delete_ne in Hu by done. destruct (B _ _ Hu). split; [rewrite El; set_solver|done].
  - intros q f Hf. destruct (C _ _ Hf) as (C1 & C2 & C3). assert (Hq : q <> t) by (intros ->; by rewrite (K t) in Ht by (by exists f)). split; [rewrite El; set_solver|]. rewrite (slots_delete _ _ tb) by done. rewrite Hc by (by apply (file_live _ _ _ HI); exists f). lia.
  - intros q Hq Hf. rewrite (slots_delete _ _ tb) by done. rewrite Hc by done. destruct (F q Hq Hf). lia.
  - intros q Hf. destruct (decide (q = t)) as [->|Hq]; [apply lookup_delete_eq|]. rewrite lookup_delete_ne by done. by apply K.
Qed.

(** ** Copying a table *)

Lemma clone_slot_inv held src dst w sb db i : fd_inv held w -> src <> dst -> v_tables w !! src = Some sb -> v_tables w !! dst = Some db -> (i < MAX_FDS)%nat -> fds db !! i = Some 0 ->
  fd_inv held (clone_slot src dst w i) /\ boot_fd_table (clone_slot src dst w i) = boot_fd_table w /\
  v_tables (clone_slot src dst w i) = <[dst := {| fds := <[i := slot w src i]> (fds db); fd_flags := <[i := slot_flags w src i]> (fd_flags db); refs := refs db |}]> (v_tables w).
Proof.
  intros HI Hne Hs Hd Hi Hz. pose proof (slot_lookup _ _ _ _ _ HI Hs Hi) as Hl. unfold clone_slot. set (f := slot w src i) in *.
  destruct (Z.eqb_spec f 0) as [E0|E0]; cbn [negb].
  - assert (Efl : slot_flags w src i = 0). { unfold slot_flags. rewrite (table_at_eq _ _ _ Hs). rewrite E0 in Hl. by rewrite (to_clear _ (proj2 (fi_tables _ _ HI _ _ Hs)) _ Hl). }
    rewrite E0, Efl, (set_both_eq _ _ _ _ _ _ Hd). split; [|done]. apply (table_inv held held w dst db); try done; [apply table_ok_set; [apply (fi_tables _ _ HI _ _ Hd)|done]| |apply (fi_held _ _ HI)].
    intros q Hq. cbn [fds]. rewrite (cnt_insert q (fds db) i 0 0 Hz). lia.
  - destruct (slot_file _ _ _ _ _ _ HI Hs Hl E0) as [g Hg]. pose proof (ref_inv _ _ f HI (ex_intro _ g Hg)) as HR. assert (Hh : 0 < bump held f 1 f) by (unfold bump; rewrite Z.eqb_refl; pose proof (fi_held _ _ HI f); lia).
    pose proof (fill_inv _ (file_ref f w) dst db i f (slot_flags w src i) HR Hd Hz E0 Hh) as HF. split; [|split; [done|]].
    + apply (fd_inv_ext _ held) in HF; [|intros q; symmetry; apply (bump_back held f 1)]. exact HF.
    + change (v_tables (file_ref f (set_slot_flags dst i (slot_flags w src i) (fd_put dst i f w)))) with (v_tables (set_slot_flags dst i (slot_flags w src i) (fd_put dst i f w))). by rewrite (set_both_eq _ _ _ _ _ _ Hd).
Qed.

Lemma clone_loop held src dst l : src <> dst -> (forall i, i ∈ l -> (i < MAX_FDS)%nat) -> NoDup l -> forall w sb db, fd_inv held w -> v_tables w !! src = Some sb -> v_tables w !! dst = Some db -> (forall i, i ∈ l -> fds db !! i = Some 0) ->
  let w' := foldl (clone_slot src dst) w l in fd_inv held w' /\ boot_fd_table w' = boot_fd_table w /\
  exists db', v_tables w' = <[dst := db']> (v_tables w) /\ refs db' = refs db /\ (forall i, i ∈ l -> fds db' !! i = fds sb !! i) /\ (forall i, i ∉ l -> fds db' !! i = fds db !! i).
Proof.
  intros Hne. induction l as [|i l IH]; intros Hl Hnd w sb db HI Hs Hd Hz; cbn [foldl].
  - cbn zeta. split; [done|]. split; [done|]. exists db. split; [by rewrite insert_id|]. split; [done|]. split; [by intros i Hi%not_elem_of_nil|done].
  - apply list.NoDup_cons in Hnd as [Hni Hnd]. assert (Hi : (i < MAX_FDS)%nat) by (apply Hl; left). destruct (clone_slot_inv held src dst w sb db i HI Hne Hs Hd Hi (Hz i ltac:(left))) as (H1 & E1 & E2).
    pose proof (slot_lookup _ _ _ _ _ HI Hs Hi) as Hsl. set (w1 := clone_slot src dst w i) in *. set (d1 := {| fds := _; fd_flags := _; refs := _ |}) in E2. pose proof (to_slots _ (proj2 (fi_tables _ _ HI _ _ Hd))) as Hlen.
    destruct (IH ltac:(intros j Hj; apply Hl; by right) Hnd w1 sb d1 H1) as (H2 & E3 & db' & D1 & D2 & D3 & D4).
    + by rewrite E2, lookup_insert_ne.
    + by rewrite E2, lookup_insert_eq.
    + intros j Hj. cbn [fds d1]. rewrite list_lookup_insert_ne by (by intros ->). apply Hz. by right.
    + split; [done|]. split; [congruence|]. exists db'. split; [by rewrite D1, E2, insert_insert_eq|]. split; [done|]. split.
      * intros j [->|Hj]%elem_of_cons; [|by apply D3]. rewrite D4 by done. cbn [fds d1]. rewrite list_lookup_insert_eq by lia. done.
      * intros j [Hj1 Hj2]%not_elem_of_cons. rewrite D4 by done. cbn [fds d1]. by rewrite list_lookup_insert_ne by done.
Qed.

(** ** Calls *)

Definition good (held : Z -> Z) w : Prop := fd_inv held w /\ tables_held w.

(** Tables as often shared as before. *)
Definition same_refs w w' : Prop := forall t tb', v_tables w' !! t = Some tb' -> exists tb, v_tables w !! t = Some tb /\ refs tb' = refs tb.

Lemma same_refs_held w w' : same_refs w w' -> tables_held w -> tables_held w'.
Proof. intros HS HT t tb' Ht. destruct (HS _ _ Ht) as (tb & E & ->). by apply (HT t). Qed.

Lemma same_refs_update w w' t tb tb' : v_tables w !! t = Some tb -> v_tables w' = <[t := tb']> (v_tables w) -> refs tb' = refs tb -> same_refs w w'.
Proof. intros Ht E Er u ub. rewrite E. destruct (decide (u = t)) as [->|Hu]; [rewrite lookup_insert_eq; intros [= <-]; by exists tb|rewrite lookup_insert_ne by done; intros Hub; by exists ub]. Qed.

Lemma same_refs_eq w w' : v_tables w' = v_tables w -> same_refs w w'.
Proof. intros E t tb Ht. exists tb. by rewrite <- E. Qed.

Lemma clone_good held w src r w' : good held w -> (src = 0 \/ is_Some (v_tables w !! src)) -> vfs_fd_table_clone sizeof_table src w = (r, w') ->
  good held w' /\ (r <> 0 -> src <> 0 -> fds (table_at w' r) = fds (table_at w src) /\ refs (table_at w' r) = 1).
Proof.
  intros [HI HT] Hsrc. unfold vfs_fd_table_clone. destruct (vfs_fd_table_alloc sizeof_table w) as [d w1] eqn:Ea. destruct (alloc_table_inv held w d w1 HI Ea) as (H1 & E1 & HD).
  assert (HT1 : tables_held w1).
  { destruct HD as [[_ E]|(_ & _ & E)]; intros t tb; rewrite E; [apply HT|]. destruct (decide (t = d)) as [->|Ht]; [rewrite lookup_insert_eq; intros [= <-]; done|rewrite lookup_insert_ne by done; apply HT]. }
  destruct (Z.eqb_spec src 0) as [Es|Es]; [intros [= <- <-]; split; [done|]; intros _ Hc; done|]. destruct HD as [[-> E]|(Hd0 & Hdn & E)]; [rewrite Z.eqb_refl; intros [= <- <-]; done|].
  rewrite (proj2 (Z.eqb_neq d 0) Hd0). intros [= <- <-]. destruct Hsrc as [?|[sb Hsb]]; [done|]. assert (Hne : src <> d) by (intros ->; by rewrite Hdn in Hsb).
  destruct (clone_loop held src d (seq 0 MAX_FDS) Hne (fun i => seq_bound MAX_FDS i) (NoDup_seq 0 MAX_FDS) w1 sb empty_table H1) as (H2 & E2 & db & D1 & D2 & D3 & D4).
  - by rewrite E, lookup_insert_ne.
  - by rewrite E, lookup_insert_eq.
  - intros i Hi%seq_bound. by apply lookup_replicate_2.
  - set (w2 := foldl _ w1 _) in *. assert (Hd : v_tables w2 !! d = Some db) by (by rewrite D1, lookup_insert_eq). split; [split; [done|]|].
    + intros t tb. rewrite D1. destruct (decide (t = d)) as [->|Ht]; [rewrite lookup_insert_eq; intros [= <-]; by rewrite D2|rewrite lookup_insert_ne by done; apply HT1].
    + intros _ _. rewrite (table_at_eq _ _ _ Hd), (table_at_eq _ _ _ Hsb). split; [|done]. pose proof (to_slots _ (proj2 (fi_tables _ _ HI _ _ Hsb))) as L1. pose proof (to_slots _ (proj2 (fi_tables _ _ H2 _ _ Hd))) as L2.
      apply list_eq. intros i. destruct (decide (i < MAX_FDS)%nat) as [Hi|Hi]; [apply D3, elem_of_seq; lia|]. by rewrite !lookup_ge_None_2 by lia.
Qed.

Lemma share_good held w t : good held w -> (t = 0 \/ is_Some (v_tables w !! t)) -> good held (vfs_fd_table_share t w).2.
Proof.
  intros [HI HT] Ht. unfold vfs_fd_table_share. destruct (Z.eqb_spec t 0); [done|]. destruct Ht as [?|[tb Htb]]; [done|]. cbn [snd]. rewrite (table_at_eq _ _ _ Htb). destruct (set_refs_inv held w t tb (refs tb + 1) HI Htb) as [H1 E1]. split; [done|].
  intros u ub. rewrite E1. destruct (decide (u = t)) as [->|Hu]; [rewrite lookup_insert_eq; intros [= <-]; cbn [refs]; pose proof (HT _ _ Htb); lia|rewrite lookup_insert_ne by done; apply HT].
Qed.

(** The last one out closes everything and the table is gone. *)
Lemma drop_good held w t : good held w -> (t = 0 \/ is_Some (v_tables w !! t)) ->
  good held (vfs_fd_table_drop t w) /\ (t <> 0 -> refs (table_at w t) = 1 -> v_tables (vfs_fd_table_drop t w) = delete t (v_tables w)).
Proof.
  intros [HI HT] Ht. unfold vfs_fd_table_drop. destruct (Z.eqb_spec t 0); [done|]. destruct Ht as [?|[tb Htb]]; [done|]. rewrite (table_at_eq _ _ _ Htb). destruct (set_refs_inv held w t tb (refs tb - 1) HI Htb) as [H1 E1].
  set (w1 := set_refs t (refs tb - 1) w) in *. set (b1 := {| fds := fds tb; fd_flags := fd_flags tb; refs := refs tb - 1 |}) in *. assert (Hb1 : v_tables w1 !! t = Some b1) by (by rewrite E1, lookup_insert_eq). rewrite (table_at_eq _ _ _ Hb1). cbn [refs b1].
  destruct (Z.ltb_spec 0 (refs tb - 1)) as [Hr|Hr].
  - split; [|lia]. split; [done|]. intros u ub. rewrite E1. destruct (decide (u = t)) as [->|Hu]; [rewrite lookup_insert_eq; intros [= <-]; done|rewrite lookup_insert_ne by done; apply HT].
  - destruct (drop_all held t (seq 0 MAX_FDS) (fun i => seq_bound MAX_FDS i) w1 b1 H1 Hb1) as (b2 & [A B C (E & Er) F] & Hz). set (w2 := foldl (drop_fd t) w1 _) in *.
    set (w3 := if t =? boot_fd_table w2 then v_set_boot w2 0 else w2). assert (H3 : fd_inv held w3 /\ v_tables w3 = v_tables w2) by (unfold w3; destruct (_ =? _); [split; [by destruct A|done]|done]). clearbody w3. destruct H3 as [H3 E3].
    assert (Hdel : delete t (v_tables w2) = delete t (v_tables w)).
    { apply map_eq. intros u. destruct (decide (u = t)) as [->|Hu]; [by rewrite !lookup_delete_eq|]. rewrite !lookup_delete_ne by done. rewrite C by done. by rewrite E1, lookup_insert_ne. }
    split; [split|].
    + apply (free_table_inv held w3 t b2 H3); [by rewrite E3|]. intros i Hi. apply Hz, elem_of_seq. lia.
    + cbn [v_kfree v_set_heap v_set_tables v_tables]. intros u ub. cbn [v_kfree v_set_heap v_set_tables v_tables]. rewrite E3, Hdel. intros [_ Hu]%lookup_delete_Some. by apply (HT u).
    + intros _ _. cbn [v_kfree v_set_heap v_set_tables v_tables]. by rewrite E3.
Qed.

Lemma emptied_refs held t w w' tb tb' : v_tables w !! t = Some tb -> emptied held t w w' tb tb' -> same_refs w w'.
Proof. intros Ht [A B C (E & Er) F] u ub Hu. destruct (decide (u = t)) as [->|Hut]; [rewrite E in Hu; injection Hu as <-; by exists tb|]. rewrite C in Hu by done. by exists ub. Qed.

Lemma cloexec_good held w t : good held w -> (t = 0 \/ is_Some (v_tables w !! t)) -> good held (vfs_close_on_exec t w).
Proof.
  intros [HI HT] Ht. unfold vfs_close_on_exec. destruct (Z.eqb_spec t 0); [done|]. destruct Ht as [?|[tb Htb]]; [done|]. destruct (closes_loop (cloexec_slot t) held t (seq 0 MAX_FDS) (cloexec_closes t) (fun i => seq_bound MAX_FDS i) w tb HI Htb) as [b1 E].
  split; [apply E|]. apply (same_refs_held w); [by apply (emptied_refs held t _ _ tb b1)|done].
Qed.

(** A descriptor that is open. *)
Lemma open_fd held w t fd : fd_inv held w -> (t = 0 \/ is_Some (v_tables w !! t)) -> no_file_at t fd w = false ->
  t <> 0 /\ 0 <= fd < Z.of_nat MAX_FDS /\ exists tb, v_tables w !! t = Some tb /\ fds tb !! Z.to_nat fd = Some (slot w t (Z.to_nat fd)) /\ slot w t (Z.to_nat fd) <> 0 /\ is_Some (v_files w !! slot w t (Z.to_nat fd)).
Proof.
  intros HI Ht. unfold no_file_at, bad_fd. rewrite !orb_false_iff, Z.eqb_neq, Z.ltb_ge, Z.leb_gt, Z.eqb_neq. intros [[[E1 E2] E3] E4]. destruct Ht as [?|[tb Htb]]; [done|]. split; [done|]. split; [lia|]. exists tb. split; [done|].
  pose proof (slot_lookup _ _ _ _ (Z.to_nat fd) HI Htb ltac:(lia)) as Hl. split; [done|]. split; [done|]. by apply (slot_file held w t tb (Z.to_nat fd)).
Qed.

Lemma get_good held w t fd r w' : good held w -> (t = 0 \/ is_Some (v_tables w !! t)) -> vfs_file_get t fd w = (r, w') -> good (if r =? 0 then held else bump held r 1) w' /\ (r <> 0 -> r = slot w t (Z.to_nat fd)).
Proof.
  intros [HI HT] Ht. unfold vfs_file_get. destruct (no_file_at t fd w) eqn:En; [intros [= <- <-]; done|]. destruct (open_fd held w t fd HI Ht En) as (_ & _ & tb & _ & _ & Hs & Hf). intros [= <- <-]. rewrite (proj2 (Z.eqb_neq _ 0) Hs). split; [|done].
  split; [by apply ref_inv|]. by apply (same_refs_held w); [apply same_refs_eq|].
Qed.

Lemma put_good held w p : good held w -> p <> 0 -> 0 < held p -> good (bump held p (-1)) (vfs_file_put p w).
Proof. intros [HI HT] Hp Hh. destruct (put_inv held w p HI Hp Hh) as (H1 & E1 & _). split; [done|]. by apply (same_refs_held w); [apply same_refs_eq|]. Qed.

Lemma free_slot_spec t from w fd : free_slot t from w = Some fd -> (from <= fd < MAX_FDS)%nat /\ slot w t fd = 0.
Proof.
  unfold free_slot. destruct (list_find _ _) as [[j x]|] eqn:E; cbn [mbind option_bind]; [|done]. intros [= <-]. apply list_find_Some in E as (E1 & E2 & _). cbn [snd]. split; [|done]. apply lookup_seq in E1. lia.
Qed.

Lemma fill_good held w t fd p v : good held w -> is_Some (v_tables w !! t) -> (fd < MAX_FDS)%nat -> slot w t fd = 0 -> p <> 0 -> 0 < held p ->
  good (bump held p (-1)) (set_slot_flags t fd v (fd_put t fd p w)) /\ good (bump held p (-1)) (fd_put t fd p w).
Proof.
  intros [HI HT] [tb Ht] Hfd Hs Hp Hh. pose proof (slot_lookup _ _ _ _ _ HI Ht Hfd) as Hl. rewrite Hs in Hl. split; (split; [by apply (fill_inv _ _ _ tb) || by apply (fill_keep _ _ _ tb)|]); (apply (same_refs_held w); [|done]).
  - rewrite (set_both_eq _ _ _ _ _ _ Ht). by eapply (same_refs_update _ _ t tb); [exact Ht|reflexivity|].
  - rewrite (fd_put_eq _ _ _ _ _ Ht). by eapply (same_refs_update _ _ t tb); [exact Ht|reflexivity|].
Qed.

Lemma install_good held w t p r w' : good held w -> (t = 0 \/ is_Some (v_tables w !! t)) -> p <> 0 -> 0 < held p -> vfs_install t p w = (r, w') -> good (if r <? 0 then held else bump held p (-1)) w'.
Proof.
  intros HG Ht Hp Hh. unfold vfs_install. destruct (Z.eqb_spec t 0); [intros [= <- <-]; done|]. destruct Ht as [?|Ht]; [done|]. destruct (free_slot t 3 w) as [fd|] eqn:Ef; intros [= <- <-]; [|done]. apply free_slot_spec in Ef as [Hfd Hs].
  rewrite (proj2 (Z.ltb_ge _ _)) by lia. exact (proj2 (fill_good held w t fd p 0 HG Ht ltac:(lia) Hs Hp Hh)).
Qed.

Lemma close_good held w t fd r w' : good held w -> (t = 0 \/ is_Some (v_tables w !! t)) -> vfs_close t fd w = (r, w') -> good held w' /\ (t <> 0 -> is_Some (v_tables w' !! t)) /\ (r = 0 -> slot w' t (Z.to_nat fd) = 0) /\
  (forall i, i <> Z.to_nat fd -> slot w' t i = slot w t i).
Proof.
  intros [HI HT] Ht. unfold vfs_close. destruct (no_file_at t fd w) eqn:En; [intros [= <- <-]; split; [done|]; split; [by destruct Ht|done]|]. destruct (open_fd held w t fd HI Ht En) as (_ & Hb & tb & Htb & Hl & Hs & _). intros [= <- <-].
  destruct (close_slot_inv held w t tb (Z.to_nat fd) HI Htb ltac:(lia) Hs) as (H1 & _ & E). split; [split; [done|apply (same_refs_held w); [by apply (same_refs_update _ _ t tb _ Htb E)|done]]|]. split; [intros _; rewrite E; eexists; apply lookup_insert_eq|].
  assert (Htb' : v_tables (close_slot t (Z.to_nat fd) w) !! t = Some {| fds := <[Z.to_nat fd := 0]> (fds tb); fd_flags := <[Z.to_nat fd := 0]> (fd_flags tb); refs := refs tb |}) by (rewrite E; apply lookup_insert_eq).
  unfold slot. rewrite (table_at_eq _ _ _ Htb'), (table_at_eq _ _ _ Htb). cbn [fds]. split.
  - intros _. rewrite list_lookup_insert_eq; [done|]. by apply (lookup_lt_Some _ _ (slot w t (Z.to_nat fd))).
  - intros i Hi. by rewrite list_lookup_insert_ne by done.
Qed.

Lemma flags_good held w t tb fd v : good held w -> v_tables w !! t = Some tb -> slot w t fd <> 0 -> good held (set_slot_flags t fd v w).
Proof.
  intros [HI HT] Ht Hs. unfold set_slot_flags. rewrite (table_at_eq _ _ _ Ht). split.
  - apply (table_inv held held w t tb); try done; [|apply (fi_held _ _ HI)]. destruct (proj2 (fi_tables _ _ HI _ _ Ht)) as [L1 L2 L3]. split; cbn [fds fd_flags]; [done|by rewrite length_insert|].
    intros i Hi. rewrite list_lookup_insert_ne; [by apply L3|]. intros ->. apply Hs. by apply (slot_eq w t tb).
  - apply (same_refs_held w); [|done]. by eapply (same_refs_update _ _ t tb); [exact Ht|reflexivity|].
Qed.

(** ** Duplicates *)

Lemma slot_filled w t tb fd p v i : v_tables w !! t = Some tb -> (fd < length (fds tb))%nat -> slot (set_slot_flags t fd v (fd_put t fd p w)) t i = if decide (i = fd) then p else slot w t i.
Proof.
  intros Ht Hl. rewrite (set_both_eq _ _ _ _ _ _ Ht). set (tb' := {| fds := _; fd_flags := _; refs := _ |}). unfold slot. rewrite (table_at_eq _ _ _ Ht), (table_at_eq _ _ tb') by apply lookup_insert_eq.
  cbn [fds tb']. destruct (decide (i = fd)) as [->|Hi]; [by rewrite list_lookup_insert_eq|by rewrite list_lookup_insert_ne].
Qed.

(** [newfd] refers to what [oldfd] refers to, what it referred to before is let go, and no other slot changes. *)
Lemma dup2_good held w t a b r w' : good held w -> (t = 0 \/ is_Some (v_tables w !! t)) -> vfs_dup2 t a b w = (r, w') ->
  good held w' /\ (r = - EBADF /\ w' = w \/ (r = b /\ slot w t (Z.to_nat a) <> 0 /\ forall i, slot w' t i = if decide (i = Z.to_nat b) then slot w t (Z.to_nat a) else slot w t i)).
Proof.
  intros HG Ht. unfold vfs_dup2. destruct (bad_fd t a || bad_fd t b) eqn:Eb; [intros [= <- <-]; split; [done|by left]|]. apply orb_false_iff in Eb as [Ea Eb].
  destruct (Z.eqb_spec (slot w t (Z.to_nat a)) 0) as [E0|E0]; [intros [= <- <-]; split; [done|by left]|]. assert (Hna : no_file_at t a w = false) by (unfold no_file_at; rewrite Ea; by apply Z.eqb_neq). destruct (open_fd held w t a (proj1 HG) Ht Hna) as (Ht0 & Hba & tb & Htb & Hla & _ & _).
  set (src := slot w t (Z.to_nat a)) in *. destruct (Z.eqb_spec a b) as [->|Hab].
  { intros [= <- <-]. split; [done|right]. split; [done|]. split; [done|]. intros i. by destruct (decide (i = Z.to_nat b)) as [->|]. }
  unfold bad_fd in Eb. rewrite !orb_false_iff, Z.ltb_ge, Z.leb_gt in Eb. destruct Eb as [[_ Eb1] Eb2].
  set (q := if negb (slot w t (Z.to_nat b) =? 0) then vfs_close t b w else (0, w)).
  assert (HQ : q.1 = 0 /\ good held q.2 /\ is_Some (v_tables q.2 !! t) /\ slot q.2 t (Z.to_nat b) = 0 /\ forall i, i <> Z.to_nat b -> slot q.2 t i = slot w t i).
  { unfold q. destruct (Z.eqb_spec (slot w t (Z.to_nat b)) 0) as [Es|Es]; cbn [negb]; [split; [done|]; split; [done|]; split; [by exists tb|]; done|]. destruct (vfs_close t b w) as [rc w1] eqn:Ec.
    assert (Erc : rc = 0) by (unfold vfs_close, no_file_at, bad_fd in Ec; rewrite (proj2 (Z.eqb_neq t 0) Ht0), (proj2 (Z.ltb_ge b 0) Eb1), (proj2 (Z.leb_gt _ b) Eb2), (proj2 (Z.eqb_neq _ 0) Es) in Ec; cbn [orb] in Ec; by injection Ec as <- _).
    destruct (close_good held w t b rc w1 HG Ht Ec) as (C1 & C2 & C3 & C4). cbn [fst snd]. split; [done|]. split; [done|]. split; [by apply C2|]. split; [by apply C3|done]. }
  clearbody q. destruct q as [rc w1]. cbn [fst snd] in HQ. destruct HQ as (-> & HG1 & [tb1 Ht1] & Hs1 & Hs2). cbn [Z.ltb]. intros [= <- <-].
  assert (Hsrc : slot w1 t (Z.to_nat a) = src) by (apply Hs2; lia). pose proof (slot_lookup _ _ _ _ (Z.to_nat a) (proj1 HG1) Ht1 ltac:(lia)) as Hl1. rewrite Hsrc in Hl1. pose proof (slot_file _ _ _ _ _ _ (proj1 HG1) Ht1 Hl1 E0) as Hf1.
  assert (HG2 : good (bump held src 1) (file_ref src w1)) by (split; [apply ref_inv; [apply HG1|done]|apply (same_refs_held w1); [by apply same_refs_eq|apply HG1]]).
  assert (Hh : 0 < bump held src 1 src) by (unfold bump; rewrite Z.eqb_refl; pose proof (fi_held _ _ (proj1 HG) src); lia).
  destruct (fill_good _ (file_ref src w1) t (Z.to_nat b) src 0 HG2 (ex_intro _ tb1 Ht1) ltac:(lia) Hs1 E0 Hh) as [[HF1 HF2] _]. split; [split; [|done]|].
  - revert HF1. apply fd_inv_ext. intros x. symmetry. apply (bump_back held src 1).
  - right. split; [done|]. split; [done|]. intros i. rewrite (slot_filled (file_ref src w1) t tb1); [|done|rewrite (to_slots _ (proj2 (fi_tables _ _ (proj1 HG1) _ _ Ht1))); lia]. destruct (decide (i = Z.to_nat b)); [done|]. by apply Hs2.
Qed.

Lemma dup_from_good held w t a lo r w' : good held w -> (t = 0 \/ is_Some (v_tables w !! t)) -> vfs_dup_from t a lo w = (r, w') -> good held w'.
Proof.
  intros HG Ht. unfold vfs_dup_from. destruct (no_file_at t a w); [intros [= <- <-]; done|]. destruct (_ || _); [intros [= <- <-]; done|]. destruct (free_slot _ _ _); [|intros [= <- <-]; done]. intros E. exact (proj1 (dup2_good _ _ _ _ _ _ _ HG Ht E)).
Qed.

Lemma dup_good held w t a r w' : good held w -> (t = 0 \/ is_Some (v_tables w !! t)) -> vfs_dup t a w = (r, w') -> good held w'.
Proof. intros HG Ht. unfold vfs_dup. destruct (no_file_at t a w); [intros [= <- <-]; done|]. destruct (free_slot _ _ _); [|intros [= <- <-]; done]. intros E. exact (proj1 (dup2_good _ _ _ _ _ _ _ HG Ht E)). Qed.

Lemma set_flags_good held w t fd v r w' : good held w -> (t = 0 \/ is_Some (v_tables w !! t)) -> vfs_set_fd_flags t fd v w = (r, w') -> good held w'.
Proof.
  intros HG Ht. unfold vfs_set_fd_flags. destruct (no_file_at t fd w) eqn:En; [intros [= <- <-]; done|]. destruct (open_fd held w t fd (proj1 HG) Ht En) as (_ & _ & tb & Htb & _ & Hs & _). intros [= <- <-]. by apply (flags_good held w t tb).
Qed.

(** A file that changes but for its count. *)
Lemma file_good held w p f : good held w -> is_Some (v_files w !! p) -> of_shared f = of_shared (file_at w p) -> good held (v_set_files w (<[p := f]> (v_files w))).
Proof.
  intros [HI HT] [g Hg] Ef. rewrite (file_at_eq _ _ _ Hg) in Ef. split; [|by apply (same_refs_held w); [apply same_refs_eq|]]. destruct HI as [A B C F G K]. split; cbn [v_set_files v_files v_heap v_tables]; try done.
  - intros q h. destruct (decide (q = p)) as [->|Hq]; [rewrite lookup_insert_eq; intros [= <-]; rewrite Ef; by apply C|rewrite lookup_insert_ne by done; apply C].
  - intros q Hq Hn. apply F; [done|]. destruct (decide (q = p)) as [->|Hqp]; [by rewrite lookup_insert_eq in Hn|]. by rewrite lookup_insert_ne in Hn.
  - intros q Hq. apply K. destruct (decide (q = p)) as [->|Hqp]; [by exists g|]. by rewrite lookup_insert_ne in Hq.
Qed.

Lemma seek_good held w t fd off wh size r w' : good held w -> (t = 0 \/ is_Some (v_tables w !! t)) -> vfs_seek t fd off wh size w = (r, w') -> good held w'.
Proof.
  intros HG Ht. unfold vfs_seek. destruct (bad_fd t fd) eqn:Eb; [intros [= <- <-]; done|]. destruct (Z.eqb_spec (slot w t (Z.to_nat fd)) 0) as [E0|E0]; cbn [orb]; [intros [= <- <-]; done|]. destruct (_ =? 0); [intros [= <- <-]; done|].
  assert (Hn : no_file_at t fd w = false) by (unfold no_file_at; rewrite Eb; by apply Z.eqb_neq). destruct (open_fd held w t fd (proj1 HG) Ht Hn) as (_ & _ & tb & _ & _ & _ & Hf). set (p := slot w t (Z.to_nat fd)) in *.
  assert (Hgo : forall n, (if n <? 0 then (- EINVAL, w) else (n, v_set_files w (<[p := set_offset n (file_at w p)]> (v_files w)))) = (r, w') -> good held w') by (intros n; destruct (n <? 0); intros [= <- <-]; [done|by apply file_good]).
  destruct (wh =? SEEK_SET); [apply Hgo|]. destruct (wh =? SEEK_CUR); [apply Hgo|]. destruct (wh =? SEEK_END); [apply Hgo|]. intros [= <- <-]. done.
Qed.

(** ** Opening *)

Lemma malloc_good held w n p w1 : 0 < n -> good held w -> v_kmalloc w n = (p, w1) ->
  good held w1 /\ v_tables w1 = v_tables w /\ v_files w1 = v_files w /\ (p = 0 \/ (p <> 0 /\ p ∈ live (v_heap w1) /\ v_tables w !! p = None /\ v_files w !! p = None)).
Proof.
  intros Hn [HI HT]. pose proof HI as [A B C F G K]. unfold v_kmalloc. destruct (kmalloc n (v_heap w)) as [q h] eqn:E. intros [= <- <-]. destruct (kmalloc_spec _ _ _ _ A Hn E) as [Hh HD].
  assert (Hsub : live (v_heap w) ⊆ live h) by (destruct HD as [[_ ->]|(_ & _ & ->)]; set_solver). split; [|split; [done|split; [done|]]].
  - split; [|by apply (same_refs_held w); [apply same_refs_eq|]]. split; cbn [v_set_heap v_heap v_tables v_files]; try done; [intros t tb Ht; destruct (B _ _ Ht); split; [set_solver|done]|intros x f Hf; destruct (C _ _ Hf) as (? & ? & ?); split; [set_solver|done]].
  - destruct HD as [[-> _]|(Hq & Hf & El)]; [by left|right]. split; [lia|]. split; [cbn [v_set_heap v_heap]; rewrite El; set_solver|]. split.
    + destruct (v_tables w !! q) eqn:Et; [by destruct (B _ _ Et)|done].
    + destruct (v_files w !! q) eqn:Et; [by destruct (C _ _ Et) as (? & _)|done].
Qed.

(** A new file, its one reference held. *)
Lemma new_file_good held w p f : good held w -> p <> 0 -> p ∈ live (v_heap w) -> v_tables w !! p = None -> v_files w !! p = None -> of_shared f = 1 -> good (bump held p 1) (v_set_files w (<[p := f]> (v_files w))).
Proof.
  intros [HI HT] Hp Hl Ht Hf Es. split; [|by apply (same_refs_held w); [apply same_refs_eq|]]. pose proof HI as [A B C F G K]. destruct (F p Hp Hf) as [F1 F2]. split; cbn [v_set_files v_files v_heap v_tables]; try done.
  - intros q g. unfold bump. destruct (decide (q = p)) as [->|Hq]; [rewrite lookup_insert_eq, Z.eqb_refl; intros [= <-]; split; [done|lia]|rewrite lookup_insert_ne by done; rewrite (proj2 (Z.eqb_neq q p) Hq), Z.add_0_r; apply C].
  - intros q Hq Hn. unfold bump. destruct (decide (q = p)) as [->|Hqp]; [by rewrite lookup_insert_eq in Hn|]. rewrite lookup_insert_ne in Hn by done. rewrite (proj2 (Z.eqb_neq q p) Hqp), Z.add_0_r. by apply F.
  - intros q. unfold bump. pose proof (G q). destruct (q =? p); lia.
  - intros q. destruct (decide (q = p)) as [->|Hqp]; [done|]. rewrite lookup_insert_ne by done. apply K.
Qed.

(** ... and let go before anything else refers to it. *)
Lemma unfile_good held w p f : good held w -> v_files w !! p = Some f -> of_shared f = 1 -> 0 < held p -> good (bump held p (-1)) (v_kfree (v_set_files w (delete p (v_files w))) p).
Proof.
  intros HG Hf Es Hh. assert (Hp : p <> 0) by (apply (file_live held w); [apply HG|by exists f]). pose proof (put_good held w p HG Hp Hh) as [HP HT]. unfold vfs_file_put in HP, HT. rewrite (file_at_eq _ _ _ Hf) in HP, HT. cbn [of_shared set_shared] in HP, HT. rewrite Es in HP, HT. cbn [Z.ltb Z.sub Z.compare Z.add Z.opp] in HP, HT.
  split; [|exact HT]. destruct HP as [A B C F G K]. cbn [v_kfree v_set_heap v_set_files v_release v_heap v_files v_tables] in *. rewrite delete_insert_eq in C, F, K. split; done.
Qed.

Lemma fd_install_good held w t p r w' : good held w -> is_Some (v_tables w !! t) -> p <> 0 -> 0 < held p -> vfs_fd_install t p w = (r, w') ->
  (0 <= r /\ good (bump held p (-1)) w') \/ (r < 0 /\ w' = w).
Proof.
  intros HG Ht Hp Hh. unfold vfs_fd_install. destruct (free_slot t 0 w) as [fd|] eqn:Ef; intros [= <- <-]; [left|by right]. apply free_slot_spec in Ef as [Hfd Hs]. split; [lia|]. exact (proj2 (fill_good held w t fd p 0 HG Ht ltac:(lia) Hs Hp Hh)).
Qed.

(** A new file goes into the lowest slot, or away again. *)
Lemma open_file_good held w1 p f t r w' : good held w1 -> is_Some (v_tables w1 !! t) -> p <> 0 -> p ∈ live (v_heap w1) -> v_tables w1 !! p = None -> v_files w1 !! p = None -> of_shared f = 1 ->
  (let '(fd, w) := vfs_fd_install t p (v_set_files w1 (<[p := f]> (v_files w1))) in if 0 <=? fd then (fd, w) else (- EMFILE, v_kfree (v_set_files w (delete p (v_files w))) p)) = (r, w') -> good held w'.
Proof.
  intros HG Ht Hp Hl Htn Hfn Es. pose proof (new_file_good held w1 p f HG Hp Hl Htn Hfn Es) as HN. set (w2 := v_set_files w1 _) in *. assert (Hh : 0 < bump held p 1 p) by (unfold bump; rewrite Z.eqb_refl; pose proof (fi_held _ _ (proj1 HG) p); lia).
  destruct (vfs_fd_install t p w2) as [fd w3] eqn:Ei. destruct (fd_install_good _ w2 t p fd w3 HN Ht Hp Hh Ei) as [[Hr [HI HT]]|[Hr ->]].
  - rewrite (proj2 (Z.leb_le 0 fd) Hr). intros [= <- <-]. split; [|done]. revert HI. apply fd_inv_ext. intros q. symmetry. apply (bump_back held p 1).
  - rewrite (proj2 (Z.leb_gt 0 fd) Hr). intros [= <- <-]. assert (Hf2 : v_files w2 !! p = Some f) by (unfold w2; cbn [v_set_files v_files]; apply lookup_insert_eq). destruct (unfile_good _ w2 p f HN Hf2 Es Hh) as [HI HT]. split; [|done]. revert HI. apply fd_inv_ext. intros q. symmetry. apply (bump_back held p 1).
Qed.

Lemma open_good held w t ino dev isf size tr flags r w' : good held w -> is_Some (v_tables w !! t) -> vfs_open_inode sizeof_file t ino dev isf size tr flags w = (r, w') -> good held w'.
Proof.
  intros HG Ht. unfold vfs_open_inode. destruct (v_kmalloc w sizeof_file) as [p w1] eqn:Em. destruct (malloc_good held w sizeof_file p w1 Hsf HG Em) as (HG1 & E1 & E2 & HD). destruct (Z.eqb_spec p 0); [intros [= <- <-]; done|]. destruct HD as [?|(Hp & Hl & Htn & Hfn)]; [done|].
  destruct (_ && _).
  - intros [= <- <-]. destruct HG1 as [HI HT]. split; [|done]. destruct HI as [A B C F G K]. destruct (kfree_spec p _ A Hl) as [A' El]. split; cbn [v_kfree v_set_heap v_heap v_tables v_files]; try done.
    + intros u ub Hu. destruct (B _ _ Hu). split; [|done]. rewrite El. apply elem_of_difference. split; [done|]. intros ->%elem_of_singleton. by rewrite E1, Htn in Hu.
    + intros q g Hg. destruct (C _ _ Hg) as (? & ? & ?). split; [|done]. rewrite El. apply elem_of_difference. split; [done|]. intros ->%elem_of_singleton. by rewrite E2, Hfn in Hg.
  - intros E. apply (open_file_good held w1 p _ t r w' HG1) in E; rewrite ?E1, ?E2; done.
Qed.

Lemma reopen_good held w t num flags r w' : good held w -> is_Some (v_tables w !! t) -> vfs_reopen_fd sizeof_file t num flags w = (r, w') -> good held w'.
Proof.
  intros HG Ht. unfold vfs_reopen_fd. set (n := default _ _). clearbody n. set (src := if n <? _ then _ else _). clearbody src. destruct (src =? 0); [intros [= <- <-]; done|]. destruct (_ || (of_inode _ =? 0)); [intros [= <- <-]; done|]. destruct (_ || _); [intros [= <- <-]; done|].
  destruct (v_kmalloc w sizeof_file) as [p w1] eqn:Em. destruct (malloc_good held w sizeof_file p w1 Hsf HG Em) as (HG1 & E1 & E2 & HD). destruct (Z.eqb_spec p 0); [intros [= <- <-]; done|]. destruct HD as [?|(Hp & Hl & Htn & Hfn)]; [done|].
  intros E. apply (open_file_good held w1 p _ t r w' HG1) in E; rewrite ?E1, ?E2; done.
Qed.

(** ** Any sequence of calls *)

Inductive fd_call :=
| FcClone (t : Z) | FcShare (t : Z) | FcDrop (t : Z) | FcExec (t : Z)
| FcOpen (t inode : Z) (is_device is_file : bool) (size trunc flags : Z) | FcReopen (t : Z) (num : list Z) (flags : Z)
| FcGet (t fd : Z) | FcPut (p : Z) | FcInstall (t p : Z) | FcClose (t fd : Z)
| FcDup2 (t oldfd newfd : Z) | FcDupFrom (t oldfd lowest : Z) | FcDup (t oldfd : Z)
| FcSetFlags (t fd flags : Z) | FcSeek (t fd offset whence filesize : Z).

(** What the calls hold, and the state. *)
Definition fd_exec (c : fd_call) (x : (Z -> Z) * vfs H) : (Z -> Z) * vfs H :=
  let '(held, w) := x in
  match c with
  | FcClone t => (held, (vfs_fd_table_clone sizeof_table t w).2)
  | FcShare t => (held, (vfs_fd_table_share t w).2)
  | FcDrop t => (held, vfs_fd_table_drop t w)
  | FcExec t => (held, vfs_close_on_exec t w)
  | FcOpen t inode dev isf size trunc flags => (held, (vfs_open_inode sizeof_file t inode dev isf size trunc flags w).2)
  | FcReopen t num flags => (held, (vfs_reopen_fd sizeof_file t num flags w).2)
  | FcGet t fd => let '(p, w) := vfs_file_get t fd w in (if p =? 0 then held else bump held p 1, w)
  | FcPut p => (bump held p (-1), vfs_file_put p w)
  | FcInstall t p => let '(r, w) := vfs_install t p w in (if r <? 0 then held else bump held p (-1), w)
  | FcClose t fd => (held, (vfs_close t fd w).2)
  | FcDup2 t a b => (held, (vfs_dup2 t a b w).2)
  | FcDupFrom t a lo => (held, (vfs_dup_from t a lo w).2)
  | FcDup t a => (held, (vfs_dup t a w).2)
  | FcSetFlags t fd v => (held, (vfs_set_fd_flags t fd v w).2)
  | FcSeek t fd off wh size => (held, (vfs_seek t fd off wh size w).2)
  end.

(** A table is used by somebody who shares it; a reference is let go by somebody who holds it. *)
Definition fd_legal (c : fd_call) (x : (Z -> Z) * vfs H) : Prop :=
  let '(held, w) := x in
  match c with
  | FcClone t | FcShare t | FcDrop t | FcExec t | FcGet t _ | FcClose t _ | FcDup2 t _ _ | FcDupFrom t _ _ | FcDup t _ | FcSetFlags t _ _ | FcSeek t _ _ _ _ => t = 0 \/ is_Some (v_tables w !! t)
  | FcOpen t _ _ _ _ _ _ | FcReopen t _ _ => is_Some (v_tables w !! t)
  | FcPut p => p <> 0 /\ 0 < held p
  | FcInstall t p => (t = 0 \/ is_Some (v_tables w !! t)) /\ p <> 0 /\ 0 < held p
  end.

Inductive fd_runs : (Z -> Z) * vfs H -> (Z -> Z) * vfs H -> Prop :=
| fd_done x : fd_runs x x
| fd_next x y c : fd_runs x y -> fd_legal c y -> fd_runs x (fd_exec c y).

Lemma fd_exec_good c held w : good held w -> fd_legal c (held, w) -> good (fd_exec c (held, w)).1 (fd_exec c (held, w)).2.
Proof.
  intros HG. destruct c; cbn [fd_legal fd_exec]; intros HL.
  - destruct (vfs_fd_table_clone _ t w) eqn:E. by apply (clone_good held w t) in E as [? _].
  - by apply share_good.
  - by apply drop_good.
  - by apply cloexec_good.
  - destruct (vfs_open_inode _ _ _ _ _ _ _ _ w) eqn:E. by apply (open_good held) in E.
  - destruct (vfs_reopen_fd _ _ _ _ w) eqn:E. by apply (reopen_good held) in E.
  - destruct (vfs_file_get t fd w) eqn:E. by apply (get_good held) in E as [? _].
  - destruct HL. by apply put_good.
  - destruct HL as (? & ? & ?). destruct (vfs_install t p w) eqn:E. by apply (install_good held) in E.
  - destruct (vfs_close t fd w) eqn:E. by apply (close_good held) in E as [? _].
  - destruct (vfs_dup2 t oldfd newfd w) eqn:E. by apply (dup2_good held) in E as [? _].
  - destruct (vfs_dup_from t oldfd lowest w) eqn:E. by apply (dup_from_good held) in E.
  - destruct (vfs_dup t oldfd w) eqn:E. by apply (dup_good held) in E.
  - destruct (vfs_set_fd_flags t fd flags w) eqn:E. by apply (set_flags_good held) in E.
  - destruct (vfs_seek t fd offset whence filesize w) eqn:E. by apply (seek_good held) in E.
Qed.

End Inv.

(** C17. Tables are cloned, shared and dropped, files opened, duplicated, handed around and closed, in
    any order.  No slot of a table ever refers to a file that was freed; a file's count is the number of
    slots that refer to it and of the references calls hold, and never 0 while the file is there; an
    empty slot has no flags that the next file in it would inherit. *)
Theorem fd_run_safe {H : Type} `{Heap H} (sizeof_table sizeof_file : Z) (held held' : Z -> Z) (w w' : vfs H) :
  0 < sizeof_table -> 0 < sizeof_file -> good held w -> fd_runs sizeof_table sizeof_file (held, w) (held', w') ->
  (forall t tb i p, v_tables w' !! t = Some tb -> fds tb !! i = Some p -> p <> 0 -> is_Some (v_files w' !! p)) /\
  (forall p f, v_files w' !! p = Some f -> p ∈ live (v_heap w') /\ of_shared f = slots (v_tables w') p + held' p /\ 0 < of_shared f) /\
  (forall t tb, v_tables w' !! t = Some tb -> t ∈ live (v_heap w') /\ 0 < refs tb /\ length (fds tb) = MAX_FDS /\ forall i, fds tb !! i = Some 0 -> fd_flags tb !! i = Some 0).
Proof.
  intros Hst Hsf HG HR. assert (HG' : good held' w').
  { change (good (held', w').1 (held', w').2). change (good (held, w).1 (held, w).2) in HG. induction HR as [x|x y c _ IH HL]; [done|]. destruct y as [h1 w1]. apply fd_exec_good; [done|done|by apply IH|done]. }
  destruct HG' as [HI HT]. split; [intros t tb i p Ht Hi Hp; by apply (slot_file held' w' t tb i)|]. split; [intros p f Hf; by apply (fi_files _ _ HI)|].
  intros t tb Ht. destruct (fi_tables _ _ HI _ _ Ht) as [Hl [L1 L2 L3]]. split; [done|]. split; [by apply (HT t)|]. by split.
Qed.

(** ** A run *)

Definition fd_start : vfs counting_heap :=
  {| v_heap := {| ch_live := ∅; ch_next := 0x1000; ch_budget := 20 |}; v_files := ∅; v_tables := ∅; boot_fd_table := 0; released := [] |}.

Definition nothing_held : Z -> Z := fun _ => 0.

Lemma fd_start_good : good nothing_held fd_start.
Proof.
  split; [|intros t tb; cbn [fd_start v_tables]; by rewrite lookup_empty]. split; cbn [fd_start v_heap v_files v_tables]; try done.
Qed.

(** A table, a file in it that is duplicated, a copy of the table, and the first one gone. *)
Definition fd_calls : list fd_call :=
  [FcClone 0; FcOpen 4096 77 false true 0 0 O_APPEND; FcDup 4096 0; FcSetFlags 4096 1 FD_CLOEXEC; FcClone 4096; FcGet 4096 1; FcClose 4096 0; FcExec 4096; FcDrop 4096].

Definition fd_do (l : list fd_call) : (Z -> Z) * vfs counting_heap := foldl (fun x c => fd_exec 2312 32 c x) (nothing_held, fd_start) l.

(** [fd_legal], decided. *)
Definition fd_legal_b (c : fd_call) (x : (Z -> Z) * vfs counting_heap) : bool :=
  let table t := bool_decide (is_Some (v_tables x.2 !! t)) in
  match c with
  | FcClone t | FcShare t | FcDrop t | FcExec t | FcGet t _ | FcClose t _ | FcDup2 t _ _ | FcDupFrom t _ _ | FcDup t _ | FcSetFlags t _ _ | FcSeek t _ _ _ _ => (t =? 0) || table t
  | FcOpen t _ _ _ _ _ _ | FcReopen t _ _ => table t
  | FcPut p => negb (p =? 0) && (0 <? x.1 p)
  | FcInstall t p => ((t =? 0) || table t) && (negb (p =? 0) && (0 <? x.1 p))
  end.

Lemma fd_legal_b_ok c x : fd_legal_b c x = true -> fd_legal c x.
Proof.
  destruct x as [held w]. destruct c; cbn [fd_legal_b fd_legal fst snd]; rewrite ?andb_true_iff, ?orb_true_iff, ?bool_decide_eq_true, ?Z.eqb_eq, ?negb_true_iff, ?Z.eqb_neq, ?Z.ltb_lt; tauto.
Qed.

Fixpoint fd_check (l : list fd_call) (x : (Z -> Z) * vfs counting_heap) : bool :=
  match l with [] => true | c :: l => fd_legal_b c x && fd_check l (fd_exec 2312 32 c x) end.

Lemma fd_check_runs l : forall x y, fd_runs 2312 32 x y -> fd_check l y = true -> fd_runs 2312 32 x (foldl (fun x c => fd_exec 2312 32 c x) y l).
Proof.
  induction l as [|c l IH]; intros x y HR; cbn [fd_check foldl]; [done|]. rewrite andb_true_iff. intros [HL HC]. apply IH; [|done]. apply fd_next; [done|by apply fd_legal_b_ok].
Qed.

Lemma fd_calls_checked : fd_check fd_calls (nothing_held, fd_start) = true.
Proof. vm_compute. reflexivity. Qed.

(** The copy has the file in both slots, and a call holds it: three references. *)
Lemma fd_run_safe_witness : (of_shared <$> v_files (fd_do fd_calls).2 !! 6408) = Some 3 /\ (forall p f, v_files (fd_do fd_calls).2 !! p = Some f -> of_shared f = slots (v_tables (fd_do fd_calls).2) p + (fd_do fd_calls).1 p).
Proof.
  split; [vm_compute; reflexivity|]. intros p f Hf.
  pose proof (fd_check_runs fd_calls _ _ (fd_done 2312 32 (nothing_held, fd_start)) fd_calls_checked) as HR. fold (fd_do fd_calls) in HR. destruct (fd_do fd_calls) as [held' w'].
  destruct (fd_run_safe 2312 32 nothing_held held' fd_start w' eq_refl eq_refl fd_start_good HR) as (_ & HF & _). exact (proj1 (proj2 (HF p f Hf))).
Defined.

(** A read that waits for a device holds no reference: a thread that shares the table closes the
    descriptor, and the file the read goes on with is freed. *)
Example close_under_reader : let '(_, w) := fd_do (take 2 fd_calls) in let f := slot w 4096 0 in (f, v_files (vfs_close 4096 0 w).2 !! f) = (6408, None).
Proof. vm_compute. reflexivity. Qed.
