(* ===== verification/TcpState.v ===== *)
(** * The state of a TCP connection

    [struct tcb] of [kernel/src/net/tcp_priv.h], in four groups, with an assignment for every
    field; the constants of TCP, sequence numbers and the header of a segment. *)

From S2P Require Import Prelude Pmm Machine Bytes Heap Net.

(** ** Constants *)

Definition TCP_HLEN : Z := 20.

Definition TCP_OUT_MAX : Z := 24.

Definition TCP_FIN : Z := 0x01.

Definition TCP_SYN : Z := 0x02.

Definition TCP_RST : Z := 0x04.

Definition TCP_PSH : Z := 0x08.

Definition TCP_ACK : Z := 0x10.

Definition TCP_OPT_END : Z := 0.

Definition TCP_OPT_NOP : Z := 1.

Definition TCP_OPT_MSS : Z := 2.

Definition TCP_OPT_WSCALE : Z := 3.

Definition TCP_OPT_SACK_OK : Z := 4.

Definition TCP_OPT_SACK : Z := 5.

Definition TCP_RX_BUF : Z := 262144.

Definition TCP_TX_BUF : Z := 131072.

Definition TCP_WSCALE : Z := 3.

Definition TCP_MSS : Z := 1460.

Definition TCP_MSS_DEFAULT : Z := 536.

Definition TCP_OOO_MAX : nat := 8.

Definition TCP_INIT_CWND : Z := 10.

Definition TCP_RTO_MS : Z := 1000.

Definition TCP_RTO_MIN_MS : Z := 300.

Definition TCP_RTO_MAX_MS : Z := 30000.

Definition TCP_SYN_RETRIES : Z := 5.

Definition TCP_RETRIES : Z := 8.

Definition TCP_TIMEWAIT_MS : Z := 2000.

Definition TCP_LINGER_MS : Z := 30000.

Definition TCP_BACKLOG_MAX : Z := 128.

Definition TCP_KEEP_IDLE_S : Z := 7200.

Definition TCP_KEEP_INTVL_S : Z := 75.

Definition TCP_KEEP_CNT : Z := 9.

Definition TCP_NODELAY : Z := 1.

Definition TCP_MAXSEG : Z := 2.

Definition TCP_KEEPIDLE : Z := 4.

Definition TCP_KEEPINTVL : Z := 5.

Definition TCP_KEEPCNT : Z := 6.

Definition ENOPROTOOPT : Z := 92.

Definition ECONNRESET : Z := 104.

Definition EISCONN : Z := 106.

Definition ENOTCONN : Z := 107.

Definition ECONNREFUSED : Z := 111.

Definition EHOSTUNREACH : Z := 113.

Definition EALREADY : Z := 114.

Definition EINPROGRESS : Z := 115.

(** ** Sequence numbers *)

Declare Scope seq_scope.
Delimit Scope seq_scope with seq.
Notation "a +u b" := (wrap32 (a + b)) (at level 50, left associativity) : seq_scope.
Notation "a -u b" := (wrap32 (a - b)) (at level 50, left associativity) : seq_scope.
Notation "a *u b" := (wrap32 (a * b)) (at level 40, left associativity) : seq_scope.
#[global] Open Scope seq_scope.

(** [(int32_t)(a - b) < 0]. *)
Definition SEQ_LT (a b : Z) : bool := 2 ^ 31 <=? a -u b.

Definition SEQ_LEQ (a b : Z) : bool := SEQ_LT a b || (a -u b =? 0).

Definition htonl (x : Z) : Z := Z.lor (htons (Z.land x 0xFFFF) ≪ 16) (htons (x ≫ 16)).

Definition ntohl (x : Z) : Z := htonl x.

(** ** The header *)

Record tcp_hdr := {
  th_src_port : Z;
  th_dst_port : Z;
  th_seq : Z;
  th_ack : Z;
  th_off : Z;
  th_flags : Z;
  th_window : Z;
  th_checksum : Z;
  th_urgent : Z;
}.

Definition tcp_hdr_bytes (h : tcp_hdr) : list Z :=
  le_bytes 2 (th_src_port h) ++ le_bytes 2 (th_dst_port h) ++ le_bytes 4 (th_seq h) ++ le_bytes 4 (th_ack h) ++ [th_off h; th_flags h] ++
  le_bytes 2 (th_window h) ++ le_bytes 2 (th_checksum h) ++ le_bytes 2 (th_urgent h).

Definition tcp_hdr_read (bs : list Z) : tcp_hdr :=
  {| th_src_port := rd_le bs 0 2; th_dst_port := rd_le bs 2 2; th_seq := rd_le bs 4 4; th_ack := rd_le bs 8 4; th_off := rd_le bs 12 1;
     th_flags := rd_le bs 13 1; th_window := rd_le bs 14 2; th_checksum := rd_le bs 16 2; th_urgent := rd_le bs 18 2 |}.

(** ** The connection *)

Inductive tcp_state :=
| TCP_CLOSED
| TCP_LISTEN
| TCP_SYN_SENT
| TCP_SYN_RCVD
| TCP_ESTABLISHED
| TCP_FIN_WAIT_1
| TCP_FIN_WAIT_2
| TCP_CLOSING
| TCP_TIME_WAIT
| TCP_CLOSE_WAIT
| TCP_LAST_ACK.

#[export] Instance tcp_state_eq_dec : EqDecision tcp_state.
Proof. solve_decision. Defined.

Inductive tcp_recovery := TCP_RECOVERY_NONE | TCP_RECOVERY_FAST | TCP_RECOVERY_RTO.

#[export] Instance tcp_recovery_eq_dec : EqDecision tcp_recovery.
Proof. solve_decision. Defined.

(** The send side; [tx_ring] is what the block at [tx] holds. *)
Record snd_vars := {
  s_iss : Z;
  s_snd_una : Z;
  s_snd_nxt : Z;
  s_snd_wnd : Z;
  s_snd_wl1 : Z;
  s_mss : Z;
  s_snd_shift : Z;
  s_tx : Z;
  s_tx_ring : gmap Z Z;
  s_tx_start : Z;
  s_tx_len : Z;
  s_fin_wanted : bool;
  s_fin_sent : bool;
}.

(** The receive side; [ooo] is the first [ooo_count] ranges, start and end. *)
Record rcv_vars := {
  r_rcv_shift : Z;
  r_shift_next : Z;
  r_sack_ok : bool;
  r_rcv_nxt : Z;
  r_rcv_adv : Z;
  r_ooo : list (Z * Z);
  r_fin_seq : Z;
  r_fin_seen : bool;
  r_rx : Z;
  r_rx_ring : gmap Z Z;
  r_rx_start : Z;
  r_rx_len : Z;
  r_peer_fin : bool;
  r_rd_shut : bool;
}.

(** Congestion control and timers. *)
Record cc_vars := {
  c_cwnd : Z;
  c_ssthresh : Z;
  c_dupacks : Z;
  c_recovery : tcp_recovery;
  c_recover : Z;
  c_rtx_nxt : Z;
  c_rtx_one : bool;
  c_rtt_at : Z;
  c_rtt_seq : Z;
  c_srtt : Z;
  c_rttvar : Z;
  c_rto_base : Z;
  c_rto_at : Z;
  c_rto_ms : Z;
  c_retries : Z;
  c_done_at : Z;
}.

(** The connection and its socket; [accept_queue] is the list from [accept_head] to [accept_tail]. *)
Record sock_vars := {
  k_t_state : tcp_state;
  k_local_ip : Z;
  k_remote_ip : Z;
  k_local_port : Z;
  k_remote_port : Z;
  k_linked : bool;
  k_was_connected : bool;
  k_t_error : Z;
  k_t_wait : Z;
  k_detached : bool;
  k_keepalive : bool;
  k_nodelay : bool;
  k_keep_idle : Z;
  k_keep_intvl : Z;
  k_keep_cnt : Z;
  k_keep_sent : Z;
  k_last_rx : Z;
  k_t_parent : Z;
  k_accept_queue : list Z;
  k_backlog : Z;
  k_t_pending : Z;
}.

(** [struct tcb]. *)
Record tcb := { tcb_snd : snd_vars; tcb_rcv : rcv_vars; tcb_cc : cc_vars; tcb_sock : sock_vars }.

(** Its fields, and assignments to them. *)
Definition iss (t : tcb) : Z := s_iss (tcb_snd t).
Definition snd_una (t : tcb) : Z := s_snd_una (tcb_snd t).
Definition snd_nxt (t : tcb) : Z := s_snd_nxt (tcb_snd t).
Definition snd_wnd (t : tcb) : Z := s_snd_wnd (tcb_snd t).
Definition snd_wl1 (t : tcb) : Z := s_snd_wl1 (tcb_snd t).
Definition mss (t : tcb) : Z := s_mss (tcb_snd t).
Definition snd_shift (t : tcb) : Z := s_snd_shift (tcb_snd t).
Definition tx (t : tcb) : Z := s_tx (tcb_snd t).
Definition tx_ring (t : tcb) : gmap Z Z := s_tx_ring (tcb_snd t).
Definition tx_start (t : tcb) : Z := s_tx_start (tcb_snd t).
Definition tx_len (t : tcb) : Z := s_tx_len (tcb_snd t).
Definition fin_wanted (t : tcb) : bool := s_fin_wanted (tcb_snd t).
Definition fin_sent (t : tcb) : bool := s_fin_sent (tcb_snd t).

Definition rcv_shift (t : tcb) : Z := r_rcv_shift (tcb_rcv t).
Definition shift_next (t : tcb) : Z := r_shift_next (tcb_rcv t).
Definition sack_ok (t : tcb) : bool := r_sack_ok (tcb_rcv t).
Definition rcv_nxt (t : tcb) : Z := r_rcv_nxt (tcb_rcv t).
Definition rcv_adv (t : tcb) : Z := r_rcv_adv (tcb_rcv t).
Definition ooo (t : tcb) : list (Z * Z) := r_ooo (tcb_rcv t).
Definition fin_seq (t : tcb) : Z := r_fin_seq (tcb_rcv t).
Definition fin_seen (t : tcb) : bool := r_fin_seen (tcb_rcv t).
Definition rx (t : tcb) : Z := r_rx (tcb_rcv t).
Definition rx_ring (t : tcb) : gmap Z Z := r_rx_ring (tcb_rcv t).
Definition rx_start (t : tcb) : Z := r_rx_start (tcb_rcv t).
Definition rx_len (t : tcb) : Z := r_rx_len (tcb_rcv t).
Definition peer_fin (t : tcb) : bool := r_peer_fin (tcb_rcv t).
Definition rd_shut (t : tcb) : bool := r_rd_shut (tcb_rcv t).

Definition cwnd (t : tcb) : Z := c_cwnd (tcb_cc t).
Definition ssthresh (t : tcb) : Z := c_ssthresh (tcb_cc t).
Definition dupacks (t : tcb) : Z := c_dupacks (tcb_cc t).
Definition recovery (t : tcb) : tcp_recovery := c_recovery (tcb_cc t).
Definition recover (t : tcb) : Z := c_recover (tcb_cc t).
Definition rtx_nxt (t : tcb) : Z := c_rtx_nxt (tcb_cc t).
Definition rtx_one (t : tcb) : bool := c_rtx_one (tcb_cc t).
Definition rtt_at (t : tcb) : Z := c_rtt_at (tcb_cc t).
Definition rtt_seq (t : tcb) : Z := c_rtt_seq (tcb_cc t).
Definition srtt (t : tcb) : Z := c_srtt (tcb_cc t).
Definition rttvar (t : tcb) : Z := c_rttvar (tcb_cc t).
Definition rto_base (t : tcb) : Z := c_rto_base (tcb_cc t).
Definition rto_at (t : tcb) : Z := c_rto_at (tcb_cc t).
Definition rto_ms (t : tcb) : Z := c_rto_ms (tcb_cc t).
Definition retries (t : tcb) : Z := c_retries (tcb_cc t).
Definition done_at (t : tcb) : Z := c_done_at (tcb_cc t).

Definition t_state (t : tcb) : tcp_state := k_t_state (tcb_sock t).
Definition local_ip (t : tcb) : Z := k_local_ip (tcb_sock t).
Definition remote_ip (t : tcb) : Z := k_remote_ip (tcb_sock t).
Definition local_port (t : tcb) : Z := k_local_port (tcb_sock t).
Definition remote_port (t : tcb) : Z := k_remote_port (tcb_sock t).
Definition linked (t : tcb) : bool := k_linked (tcb_sock t).
Definition was_connected (t : tcb) : bool := k_was_connected (tcb_sock t).
Definition t_error (t : tcb) : Z := k_t_error (tcb_sock t).
Definition t_wait (t : tcb) : Z := k_t_wait (tcb_sock t).
Definition detached (t : tcb) : bool := k_detached (tcb_sock t).
Definition keepalive (t : tcb) : bool := k_keepalive (tcb_sock t).
Definition nodelay (t : tcb) : bool := k_nodelay (tcb_sock t).
Definition keep_idle (t : tcb) : Z := k_keep_idle (tcb_sock t).
Definition keep_intvl (t : tcb) : Z := k_keep_intvl (tcb_sock t).
Definition keep_cnt (t : tcb) : Z := k_keep_cnt (tcb_sock t).
Definition keep_sent (t : tcb) : Z := k_keep_sent (tcb_sock t).
Definition last_rx (t : tcb) : Z := k_last_rx (tcb_sock t).
Definition t_parent (t : tcb) : Z := k_t_parent (tcb_sock t).
Definition accept_queue (t : tcb) : list Z := k_accept_queue (tcb_sock t).
Definition backlog (t : tcb) : Z := k_backlog (tcb_sock t).
Definition t_pending (t : tcb) : Z := k_t_pending (tcb_sock t).

Definition set_iss (v : Z) (t : tcb) : tcb := {| tcb_snd := {| s_iss := v; s_snd_una := snd_una t; s_snd_nxt := snd_nxt t; s_snd_wnd := snd_wnd t; s_snd_wl1 := snd_wl1 t; s_mss := mss t; s_snd_shift := snd_shift t; s_tx := tx t; s_tx_ring := tx_ring t; s_tx_start := tx_start t; s_tx_len := tx_len t; s_fin_wanted := fin_wanted t; s_fin_sent := fin_sent t |}; tcb_rcv := tcb_rcv t; tcb_cc := tcb_cc t; tcb_sock := tcb_sock t |}.
Definition set_snd_una (v : Z) (t : tcb) : tcb := {| tcb_snd := {| s_iss := iss t; s_snd_una := v; s_snd_nxt := snd_nxt t; s_snd_wnd := snd_wnd t; s_snd_wl1 := snd_wl1 t; s_mss := mss t; s_snd_shift := snd_shift t; s_tx := tx t; s_tx_ring := tx_ring t; s_tx_start := tx_start t; s_tx_len := tx_len t; s_fin_wanted := fin_wanted t; s_fin_sent := fin_sent t |}; tcb_rcv := tcb_rcv t; tcb_cc := tcb_cc t; tcb_sock := tcb_sock t |}.
Definition set_snd_nxt (v : Z) (t : tcb) : tcb := {| tcb_snd := {| s_iss := iss t; s_snd_una := snd_una t; s_snd_nxt := v; s_snd_wnd := snd_wnd t; s_snd_wl1 := snd_wl1 t; s_mss := mss t; s_snd_shift := snd_shift t; s_tx := tx t; s_tx_ring := tx_ring t; s_tx_start := tx_start t; s_tx_len := tx_len t; s_fin_wanted := fin_wanted t; s_fin_sent := fin_sent t |}; tcb_rcv := tcb_rcv t; tcb_cc := tcb_cc t; tcb_sock := tcb_sock t |}.
Definition set_snd_wnd (v : Z) (t : tcb) : tcb := {| tcb_snd := {| s_iss := iss t; s_snd_una := snd_una t; s_snd_nxt := snd_nxt t; s_snd_wnd := v; s_snd_wl1 := snd_wl1 t; s_mss := mss t; s_snd_shift := snd_shift t; s_tx := tx t; s_tx_ring := tx_ring t; s_tx_start := tx_start t; s_tx_len := tx_len t; s_fin_wanted := fin_wanted t; s_fin_sent := fin_sent t |}; tcb_rcv := tcb_rcv t; tcb_cc := tcb_cc t; tcb_sock := tcb_sock t |}.
Definition set_snd_wl1 (v : Z) (t : tcb) : tcb := {| tcb_snd := {| s_iss := iss t; s_snd_una := snd_una t; s_snd_nxt := snd_nxt t; s_snd_wnd := snd_wnd t; s_snd_wl1 := v; s_mss := mss t; s_snd_shift := snd_shift t; s_tx := tx t; s_tx_ring := tx_ring t; s_tx_start := tx_start t; s_tx_len := tx_len t; s_fin_wanted := fin_wanted t; s_fin_sent := fin_sent t |}; tcb_rcv := tcb_rcv t; tcb_cc := tcb_cc t; tcb_sock := tcb_sock t |}.
Definition set_mss (v : Z) (t : tcb) : tcb := {| tcb_snd := {| s_iss := iss t; s_snd_una := snd_una t; s_snd_nxt := snd_nxt t; s_snd_wnd := snd_wnd t; s_snd_wl1 := snd_wl1 t; s_mss := v; s_snd_shift := snd_shift t; s_tx := tx t; s_tx_ring := tx_ring t; s_tx_start := tx_start t; s_tx_len := tx_len t; s_fin_wanted := fin_wanted t; s_fin_sent := fin_sent t |}; tcb_rcv := tcb_rcv t; tcb_cc := tcb_cc t; tcb_sock := tcb_sock t |}.
Definition set_snd_shift (v : Z) (t : tcb) : tcb := {| tcb_snd := {| s_iss := iss t; s_snd_una := snd_una t; s_snd_nxt := snd_nxt t; s_snd_wnd := snd_wnd t; s_snd_wl1 := snd_wl1 t; s_mss := mss t; s_snd_shift := v; s_tx := tx t; s_tx_ring := tx_ring t; s_tx_start := tx_start t; s_tx_len := tx_len t; s_fin_wanted := fin_wanted t; s_fin_sent := fin_sent t |}; tcb_rcv := tcb_rcv t; tcb_cc := tcb_cc t; tcb_sock := tcb_sock t |}.
Definition set_tx (v : Z) (t : tcb) : tcb := {| tcb_snd := {| s_iss := iss t; s_snd_una := snd_una t; s_snd_nxt := snd_nxt t; s_snd_wnd := snd_wnd t; s_snd_wl1 := snd_wl1 t; s_mss := mss t; s_snd_shift := snd_shift t; s_tx := v; s_tx_ring := tx_ring t; s_tx_start := tx_start t; s_tx_len := tx_len t; s_fin_wanted := fin_wanted t; s_fin_sent := fin_sent t |}; tcb_rcv := tcb_rcv t; tcb_cc := tcb_cc t; tcb_sock := tcb_sock t |}.
Definition set_tx_ring (v : gmap Z Z) (t : tcb) : tcb := {| tcb_snd := {| s_iss := iss t; s_snd_una := snd_una t; s_snd_nxt := snd_nxt t; s_snd_wnd := snd_wnd t; s_snd_wl1 := snd_wl1 t; s_mss := mss t; s_snd_shift := snd_shift t; s_tx := tx t; s_tx_ring := v; s_tx_start := tx_start t; s_tx_len := tx_len t; s_fin_wanted := fin_wanted t; s_fin_sent := fin_sent t |}; tcb_rcv := tcb_rcv t; tcb_cc := tcb_cc t; tcb_sock := tcb_sock t |}.
Definition set_tx_start (v : Z) (t : tcb) : tcb := {| tcb_snd := {| s_iss := iss t; s_snd_una := snd_una t; s_snd_nxt := snd_nxt t; s_snd_wnd := snd_wnd t; s_snd_wl1 := snd_wl1 t; s_mss := mss t; s_snd_shift := snd_shift t; s_tx := tx t; s_tx_ring := tx_ring t; s_tx_start := v; s_tx_len := tx_len t; s_fin_wanted := fin_wanted t; s_fin_sent := fin_sent t |}; tcb_rcv := tcb_rcv t; tcb_cc := tcb_cc t; tcb_sock := tcb_sock t |}.
Definition set_tx_len (v : Z) (t : tcb) : tcb := {| tcb_snd := {| s_iss := iss t; s_snd_una := snd_una t; s_snd_nxt := snd_nxt t; s_snd_wnd := snd_wnd t; s_snd_wl1 := snd_wl1 t; s_mss := mss t; s_snd_shift := snd_shift t; s_tx := tx t; s_tx_ring := tx_ring t; s_tx_start := tx_start t; s_tx_len := v; s_fin_wanted := fin_wanted t; s_fin_sent := fin_sent t |}; tcb_rcv := tcb_rcv t; tcb_cc := tcb_cc t; tcb_sock := tcb_sock t |}.
Definition set_fin_wanted (v : bool) (t : tcb) : tcb := {| tcb_snd := {| s_iss := iss t; s_snd_una := snd_una t; s_snd_nxt := snd_nxt t; s_snd_wnd := snd_wnd t; s_snd_wl1 := snd_wl1 t; s_mss := mss t; s_snd_shift := snd_shift t; s_tx := tx t; s_tx_ring := tx_ring t; s_tx_start := tx_start t; s_tx_len := tx_len t; s_fin_wanted := v; s_fin_sent := fin_sent t |}; tcb_rcv := tcb_rcv t; tcb_cc := tcb_cc t; tcb_sock := tcb_sock t |}.
Definition set_fin_sent (v : bool) (t : tcb) : tcb := {| tcb_snd := {| s_iss := iss t; s_snd_una := snd_una t; s_snd_nxt := snd_nxt t; s_snd_wnd := snd_wnd t; s_snd_wl1 := snd_wl1 t; s_mss := mss t; s_snd_shift := snd_shift t; s_tx := tx t; s_tx_ring := tx_ring t; s_tx_start := tx_start t; s_tx_len := tx_len t; s_fin_wanted := fin_wanted t; s_fin_sent := v |}; tcb_rcv := tcb_rcv t; tcb_cc := tcb_cc t; tcb_sock := tcb_sock t |}.

Definition set_rcv_shift (v : Z) (t : tcb) : tcb := {| tcb_snd := tcb_snd t; tcb_rcv := {| r_rcv_shift := v; r_shift_next := shift_next t; r_sack_ok := sack_ok t; r_rcv_nxt := rcv_nxt t; r_rcv_adv := rcv_adv t; r_ooo := ooo t; r_fin_seq := fin_seq t; r_fin_seen := fin_seen t; r_rx := rx t; r_rx_ring := rx_ring t; r_rx_start := rx_start t; r_rx_len := rx_len t; r_peer_fin := peer_fin t; r_rd_shut := rd_shut t |}; tcb_cc := tcb_cc t; tcb_sock := tcb_sock t |}.
Definition set_shift_next (v : Z) (t : tcb) : tcb := {| tcb_snd := tcb_snd t; tcb_rcv := {| r_rcv_shift := rcv_shift t; r_shift_next := v; r_sack_ok := sack_ok t; r_rcv_nxt := rcv_nxt t; r_rcv_adv := rcv_adv t; r_ooo := ooo t; r_fin_seq := fin_seq t; r_fin_seen := fin_seen t; r_rx := rx t; r_rx_ring := rx_ring t; r_rx_start := rx_start t; r_rx_len := rx_len t; r_peer_fin := peer_fin t; r_rd_shut := rd_shut t |}; tcb_cc := tcb_cc t; tcb_sock := tcb_sock t |}.
Definition set_sack_ok (v : bool) (t : tcb) : tcb := {| tcb_snd := tcb_snd t; tcb_rcv := {| r_rcv_shift := rcv_shift t; r_shift_next := shift_next t; r_sack_ok := v; r_rcv_nxt := rcv_nxt t; r_rcv_adv := rcv_adv t; r_ooo := ooo t; r_fin_seq := fin_seq t; r_fin_seen := fin_seen t; r_rx := rx t; r_rx_ring := rx_ring t; r_rx_start := rx_start t; r_rx_len := rx_len t; r_peer_fin := peer_fin t; r_rd_shut := rd_shut t |}; tcb_cc := tcb_cc t; tcb_sock := tcb_sock t |}.
Definition set_rcv_nxt (v : Z) (t : tcb) : tcb := {| tcb_snd := tcb_snd t; tcb_rcv := {| r_rcv_shift := rcv_shift t; r_shift_next := shift_next t; r_sack_ok := sack_ok t; r_rcv_nxt := v; r_rcv_adv := rcv_adv t; r_ooo := ooo t; r_fin_seq := fin_seq t; r_fin_seen := fin_seen t; r_rx := rx t; r_rx_ring := rx_ring t; r_rx_start := rx_start t; r_rx_len := rx_len t; r_peer_fin := peer_fin t; r_rd_shut := rd_shut t |}; tcb_cc := tcb_cc t; tcb_sock := tcb_sock t |}.
Definition set_rcv_adv (v : Z) (t : tcb) : tcb := {| tcb_snd := tcb_snd t; tcb_rcv := {| r_rcv_shift := rcv_shift t; r_shift_next := shift_next t; r_sack_ok := sack_ok t; r_rcv_nxt := rcv_nxt t; r_rcv_adv := v; r_ooo := ooo t; r_fin_seq := fin_seq t; r_fin_seen := fin_seen t; r_rx := rx t; r_rx_ring := rx_ring t; r_rx_start := rx_start t; r_rx_len := rx_len t; r_peer_fin := peer_fin t; r_rd_shut := rd_shut t |}; tcb_cc := tcb_cc t; tcb_sock := tcb_sock t |}.
Definition set_ooo (v : list (Z * Z)) (t : tcb) : tcb := {| tcb_snd := tcb_snd t; tcb_rcv := {| r_rcv_shift := rcv_shift t; r_shift_next := shift_next t; r_sack_ok := sack_ok t; r_rcv_nxt := rcv_nxt t; r_rcv_adv := rcv_adv t; r_ooo := v; r_fin_seq := fin_seq t; r_fin_seen := fin_seen t; r_rx := rx t; r_rx_ring := rx_ring t; r_rx_start := rx_start t; r_rx_len := rx_len t; r_peer_fin := peer_fin t; r_rd_shut := rd_shut t |}; tcb_cc := tcb_cc t; tcb_sock := tcb_sock t |}.
Definition set_fin_seq (v : Z) (t : tcb) : tcb := {| tcb_snd := tcb_snd t; tcb_rcv := {| r_rcv_shift := rcv_shift t; r_shift_next := shift_next t; r_sack_ok := sack_ok t; r_rcv_nxt := rcv_nxt t; r_rcv_adv := rcv_adv t; r_ooo := ooo t; r_fin_seq := v; r_fin_seen := fin_seen t; r_rx := rx t; r_rx_ring := rx_ring t; r_rx_start := rx_start t; r_rx_len := rx_len t; r_peer_fin := peer_fin t; r_rd_shut := rd_shut t |}; tcb_cc := tcb_cc t; tcb_sock := tcb_sock t |}.
Definition set_fin_seen (v : bool) (t : tcb) : tcb := {| tcb_snd := tcb_snd t; tcb_rcv := {| r_rcv_shift := rcv_shift t; r_shift_next := shift_next t; r_sack_ok := sack_ok t; r_rcv_nxt := rcv_nxt t; r_rcv_adv := rcv_adv t; r_ooo := ooo t; r_fin_seq := fin_seq t; r_fin_seen := v; r_rx := rx t; r_rx_ring := rx_ring t; r_rx_start := rx_start t; r_rx_len := rx_len t; r_peer_fin := peer_fin t; r_rd_shut := rd_shut t |}; tcb_cc := tcb_cc t; tcb_sock := tcb_sock t |}.
Definition set_rx (v : Z) (t : tcb) : tcb := {| tcb_snd := tcb_snd t; tcb_rcv := {| r_rcv_shift := rcv_shift t; r_shift_next := shift_next t; r_sack_ok := sack_ok t; r_rcv_nxt := rcv_nxt t; r_rcv_adv := rcv_adv t; r_ooo := ooo t; r_fin_seq := fin_seq t; r_fin_seen := fin_seen t; r_rx := v; r_rx_ring := rx_ring t; r_rx_start := rx_start t; r_rx_len := rx_len t; r_peer_fin := peer_fin t; r_rd_shut := rd_shut t |}; tcb_cc := tcb_cc t; tcb_sock := tcb_sock t |}.
Definition set_rx_ring (v : gmap Z Z) (t : tcb) : tcb := {| tcb_snd := tcb_snd t; tcb_rcv := {| r_rcv_shift := rcv_shift t; r_shift_next := shift_next t; r_sack_ok := sack_ok t; r_rcv_nxt := rcv_nxt t; r_rcv_adv := rcv_adv t; r_ooo := ooo t; r_fin_seq := fin_seq t; r_fin_seen := fin_seen t; r_rx := rx t; r_rx_ring := v; r_rx_start := rx_start t; r_rx_len := rx_len t; r_peer_fin := peer_fin t; r_rd_shut := rd_shut t |}; tcb_cc := tcb_cc t; tcb_sock := tcb_sock t |}.
Definition set_rx_start (v : Z) (t : tcb) : tcb := {| tcb_snd := tcb_snd t; tcb_rcv := {| r_rcv_shift := rcv_shift t; r_shift_next := shift_next t; r_sack_ok := sack_ok t; r_rcv_nxt := rcv_nxt t; r_rcv_adv := rcv_adv t; r_ooo := ooo t; r_fin_seq := fin_seq t; r_fin_seen := fin_seen t; r_rx := rx t; r_rx_ring := rx_ring t; r_rx_start := v; r_rx_len := rx_len t; r_peer_fin := peer_fin t; r_rd_shut := rd_shut t |}; tcb_cc := tcb_cc t; tcb_sock := tcb_sock t |}.
Definition set_rx_len (v : Z) (t : tcb) : tcb := {| tcb_snd := tcb_snd t; tcb_rcv := {| r_rcv_shift := rcv_shift t; r_shift_next := shift_next t; r_sack_ok := sack_ok t; r_rcv_nxt := rcv_nxt t; r_rcv_adv := rcv_adv t; r_ooo := ooo t; r_fin_seq := fin_seq t; r_fin_seen := fin_seen t; r_rx := rx t; r_rx_ring := rx_ring t; r_rx_start := rx_start t; r_rx_len := v; r_peer_fin := peer_fin t; r_rd_shut := rd_shut t |}; tcb_cc := tcb_cc t; tcb_sock := tcb_sock t |}.
Definition set_peer_fin (v : bool) (t : tcb) : tcb := {| tcb_snd := tcb_snd t; tcb_rcv := {| r_rcv_shift := rcv_shift t; r_shift_next := shift_next t; r_sack_ok := sack_ok t; r_rcv_nxt := rcv_nxt t; r_rcv_adv := rcv_adv t; r_ooo := ooo t; r_fin_seq := fin_seq t; r_fin_seen := fin_seen t; r_rx := rx t; r_rx_ring := rx_ring t; r_rx_start := rx_start t; r_rx_len := rx_len t; r_peer_fin := v; r_rd_shut := rd_shut t |}; tcb_cc := tcb_cc t; tcb_sock := tcb_sock t |}.
Definition set_rd_shut (v : bool) (t : tcb) : tcb := {| tcb_snd := tcb_snd t; tcb_rcv := {| r_rcv_shift := rcv_shift t; r_shift_next := shift_next t; r_sack_ok := sack_ok t; r_rcv_nxt := rcv_nxt t; r_rcv_adv := rcv_adv t; r_ooo := ooo t; r_fin_seq := fin_seq t; r_fin_seen := fin_seen t; r_rx := rx t; r_rx_ring := rx_ring t; r_rx_start := rx_start t; r_rx_len := rx_len t; r_peer_fin := peer_fin t; r_rd_shut := v |}; tcb_cc := tcb_cc t; tcb_sock := tcb_sock t |}.

Definition set_cwnd (v : Z) (t : tcb) : tcb := {| tcb_snd := tcb_snd t; tcb_rcv := tcb_rcv t; tcb_cc := {| c_cwnd := v; c_ssthresh := ssthresh t; c_dupacks := dupacks t; c_recovery := recovery t; c_recover := recover t; c_rtx_nxt := rtx_nxt t; c_rtx_one := rtx_one t; c_rtt_at := rtt_at t; c_rtt_seq := rtt_seq t; c_srtt := srtt t; c_rttvar := rttvar t; c_rto_base := rto_base t; c_rto_at := rto_at t; c_rto_ms := rto_ms t; c_retries := retries t; c_done_at := done_at t |}; tcb_sock := tcb_sock t |}.
Definition set_ssthresh (v : Z) (t : tcb) : tcb := {| tcb_snd := tcb_snd t; tcb_rcv := tcb_rcv t; tcb_cc := {| c_cwnd := cwnd t; c_ssthresh := v; c_dupacks := dupacks t; c_recovery := recovery t; c_recover := recover t; c_rtx_nxt := rtx_nxt t; c_rtx_one := rtx_one t; c_rtt_at := rtt_at t; c_rtt_seq := rtt_seq t; c_srtt := srtt t; c_rttvar := rttvar t; c_rto_base := rto_base t; c_rto_at := rto_at t; c_rto_ms := rto_ms t; c_retries := retries t; c_done_at := done_at t |}; tcb_sock := tcb_sock t |}.
Definition set_dupacks (v : Z) (t : tcb) : tcb := {| tcb_snd := tcb_snd t; tcb_rcv := tcb_rcv t; tcb_cc := {| c_cwnd := cwnd t; c_ssthresh := ssthresh t; c_dupacks := v; c_recovery := recovery t; c_recover := recover t; c_rtx_nxt := rtx_nxt t; c_rtx_one := rtx_one t; c_rtt_at := rtt_at t; c_rtt_seq := rtt_seq t; c_srtt := srtt t; c_rttvar := rttvar t; c_rto_base := rto_base t; c_rto_at := rto_at t; c_rto_ms := rto_ms t; c_retries := retries t; c_done_at := done_at t |}; tcb_sock := tcb_sock t |}.
Definition set_recovery (v : tcp_recovery) (t : tcb) : tcb := {| tcb_snd := tcb_snd t; tcb_rcv := tcb_rcv t; tcb_cc := {| c_cwnd := cwnd t; c_ssthresh := ssthresh t; c_dupacks := dupacks t; c_recovery := v; c_recover := recover t; c_rtx_nxt := rtx_nxt t; c_rtx_one := rtx_one t; c_rtt_at := rtt_at t; c_rtt_seq := rtt_seq t; c_srtt := srtt t; c_rttvar := rttvar t; c_rto_base := rto_base t; c_rto_at := rto_at t; c_rto_ms := rto_ms t; c_retries := retries t; c_done_at := done_at t |}; tcb_sock := tcb_sock t |}.
Definition set_recover (v : Z) (t : tcb) : tcb := {| tcb_snd := tcb_snd t; tcb_rcv := tcb_rcv t; tcb_cc := {| c_cwnd := cwnd t; c_ssthresh := ssthresh t; c_dupacks := dupacks t; c_recovery := recovery t; c_recover := v; c_rtx_nxt := rtx_nxt t; c_rtx_one := rtx_one t; c_rtt_at := rtt_at t; c_rtt_seq := rtt_seq t; c_srtt := srtt t; c_rttvar := rttvar t; c_rto_base := rto_base t; c_rto_at := rto_at t; c_rto_ms := rto_ms t; c_retries := retries t; c_done_at := done_at t |}; tcb_sock := tcb_sock t |}.
Definition set_rtx_nxt (v : Z) (t : tcb) : tcb := {| tcb_snd := tcb_snd t; tcb_rcv := tcb_rcv t; tcb_cc := {| c_cwnd := cwnd t; c_ssthresh := ssthresh t; c_dupacks := dupacks t; c_recovery := recovery t; c_recover := recover t; c_rtx_nxt := v; c_rtx_one := rtx_one t; c_rtt_at := rtt_at t; c_rtt_seq := rtt_seq t; c_srtt := srtt t; c_rttvar := rttvar t; c_rto_base := rto_base t; c_rto_at := rto_at t; c_rto_ms := rto_ms t; c_retries := retries t; c_done_at := done_at t |}; tcb_sock := tcb_sock t |}.
Definition set_rtx_one (v : bool) (t : tcb) : tcb := {| tcb_snd := tcb_snd t; tcb_rcv := tcb_rcv t; tcb_cc := {| c_cwnd := cwnd t; c_ssthresh := ssthresh t; c_dupacks := dupacks t; c_recovery := recovery t; c_recover := recover t; c_rtx_nxt := rtx_nxt t; c_rtx_one := v; c_rtt_at := rtt_at t; c_rtt_seq := rtt_seq t; c_srtt := srtt t; c_rttvar := rttvar t; c_rto_base := rto_base t; c_rto_at := rto_at t; c_rto_ms := rto_ms t; c_retries := retries t; c_done_at := done_at t |}; tcb_sock := tcb_sock t |}.
Definition set_rtt_at (v : Z) (t : tcb) : tcb := {| tcb_snd := tcb_snd t; tcb_rcv := tcb_rcv t; tcb_cc := {| c_cwnd := cwnd t; c_ssthresh := ssthresh t; c_dupacks := dupacks t; c_recovery := recovery t; c_recover := recover t; c_rtx_nxt := rtx_nxt t; c_rtx_one := rtx_one t; c_rtt_at := v; c_rtt_seq := rtt_seq t; c_srtt := srtt t; c_rttvar := rttvar t; c_rto_base := rto_base t; c_rto_at := rto_at t; c_rto_ms := rto_ms t; c_retries := retries t; c_done_at := done_at t |}; tcb_sock := tcb_sock t |}.
Definition set_rtt_seq (v : Z) (t : tcb) : tcb := {| tcb_snd := tcb_snd t; tcb_rcv := tcb_rcv t; tcb_cc := {| c_cwnd := cwnd t; c_ssthresh := ssthresh t; c_dupacks := dupacks t; c_recovery := recovery t; c_recover := recover t; c_rtx_nxt := rtx_nxt t; c_rtx_one := rtx_one t; c_rtt_at := rtt_at t; c_rtt_seq := v; c_srtt := srtt t; c_rttvar := rttvar t; c_rto_base := rto_base t; c_rto_at := rto_at t; c_rto_ms := rto_ms t; c_retries := retries t; c_done_at := done_at t |}; tcb_sock := tcb_sock t |}.
Definition set_srtt (v : Z) (t : tcb) : tcb := {| tcb_snd := tcb_snd t; tcb_rcv := tcb_rcv t; tcb_cc := {| c_cwnd := cwnd t; c_ssthresh := ssthresh t; c_dupacks := dupacks t; c_recovery := recovery t; c_recover := recover t; c_rtx_nxt := rtx_nxt t; c_rtx_one := rtx_one t; c_rtt_at := rtt_at t; c_rtt_seq := rtt_seq t; c_srtt := v; c_rttvar := rttvar t; c_rto_base := rto_base t; c_rto_at := rto_at t; c_rto_ms := rto_ms t; c_retries := retries t; c_done_at := done_at t |}; tcb_sock := tcb_sock t |}.
Definition set_rttvar (v : Z) (t : tcb) : tcb := {| tcb_snd := tcb_snd t; tcb_rcv := tcb_rcv t; tcb_cc := {| c_cwnd := cwnd t; c_ssthresh := ssthresh t; c_dupacks := dupacks t; c_recovery := recovery t; c_recover := recover t; c_rtx_nxt := rtx_nxt t; c_rtx_one := rtx_one t; c_rtt_at := rtt_at t; c_rtt_seq := rtt_seq t; c_srtt := srtt t; c_rttvar := v; c_rto_base := rto_base t; c_rto_at := rto_at t; c_rto_ms := rto_ms t; c_retries := retries t; c_done_at := done_at t |}; tcb_sock := tcb_sock t |}.
Definition set_rto_base (v : Z) (t : tcb) : tcb := {| tcb_snd := tcb_snd t; tcb_rcv := tcb_rcv t; tcb_cc := {| c_cwnd := cwnd t; c_ssthresh := ssthresh t; c_dupacks := dupacks t; c_recovery := recovery t; c_recover := recover t; c_rtx_nxt := rtx_nxt t; c_rtx_one := rtx_one t; c_rtt_at := rtt_at t; c_rtt_seq := rtt_seq t; c_srtt := srtt t; c_rttvar := rttvar t; c_rto_base := v; c_rto_at := rto_at t; c_rto_ms := rto_ms t; c_retries := retries t; c_done_at := done_at t |}; tcb_sock := tcb_sock t |}.
Definition set_rto_at (v : Z) (t : tcb) : tcb := {| tcb_snd := tcb_snd t; tcb_rcv := tcb_rcv t; tcb_cc := {| c_cwnd := cwnd t; c_ssthresh := ssthresh t; c_dupacks := dupacks t; c_recovery := recovery t; c_recover := recover t; c_rtx_nxt := rtx_nxt t; c_rtx_one := rtx_one t; c_rtt_at := rtt_at t; c_rtt_seq := rtt_seq t; c_srtt := srtt t; c_rttvar := rttvar t; c_rto_base := rto_base t; c_rto_at := v; c_rto_ms := rto_ms t; c_retries := retries t; c_done_at := done_at t |}; tcb_sock := tcb_sock t |}.
Definition set_rto_ms (v : Z) (t : tcb) : tcb := {| tcb_snd := tcb_snd t; tcb_rcv := tcb_rcv t; tcb_cc := {| c_cwnd := cwnd t; c_ssthresh := ssthresh t; c_dupacks := dupacks t; c_recovery := recovery t; c_recover := recover t; c_rtx_nxt := rtx_nxt t; c_rtx_one := rtx_one t; c_rtt_at := rtt_at t; c_rtt_seq := rtt_seq t; c_srtt := srtt t; c_rttvar := rttvar t; c_rto_base := rto_base t; c_rto_at := rto_at t; c_rto_ms := v; c_retries := retries t; c_done_at := done_at t |}; tcb_sock := tcb_sock t |}.
Definition set_retries (v : Z) (t : tcb) : tcb := {| tcb_snd := tcb_snd t; tcb_rcv := tcb_rcv t; tcb_cc := {| c_cwnd := cwnd t; c_ssthresh := ssthresh t; c_dupacks := dupacks t; c_recovery := recovery t; c_recover := recover t; c_rtx_nxt := rtx_nxt t; c_rtx_one := rtx_one t; c_rtt_at := rtt_at t; c_rtt_seq := rtt_seq t; c_srtt := srtt t; c_rttvar := rttvar t; c_rto_base := rto_base t; c_rto_at := rto_at t; c_rto_ms := rto_ms t; c_retries := v; c_done_at := done_at t |}; tcb_sock := tcb_sock t |}.
Definition set_done_at (v : Z) (t : tcb) : tcb := {| tcb_snd := tcb_snd t; tcb_rcv := tcb_rcv t; tcb_cc := {| c_cwnd := cwnd t; c_ssthresh := ssthresh t; c_dupacks := dupacks t; c_recovery := recovery t; c_recover := recover t; c_rtx_nxt := rtx_nxt t; c_rtx_one := rtx_one t; c_rtt_at := rtt_at t; c_rtt_seq := rtt_seq t; c_srtt := srtt t; c_rttvar := rttvar t; c_rto_base := rto_base t; c_rto_at := rto_at t; c_rto_ms := rto_ms t; c_retries := retries t; c_done_at := v |}; tcb_sock := tcb_sock t |}.

Definition set_t_state (v : tcp_state) (t : tcb) : tcb := {| tcb_snd := tcb_snd t; tcb_rcv := tcb_rcv t; tcb_cc := tcb_cc t; tcb_sock := {| k_t_state := v; k_local_ip := local_ip t; k_remote_ip := remote_ip t; k_local_port := local_port t; k_remote_port := remote_port t; k_linked := linked t; k_was_connected := was_connected t; k_t_error := t_error t; k_t_wait := t_wait t; k_detached := detached t; k_keepalive := keepalive t; k_nodelay := nodelay t; k_keep_idle := keep_idle t; k_keep_intvl := keep_intvl t; k_keep_cnt := keep_cnt t; k_keep_sent := keep_sent t; k_last_rx := last_rx t; k_t_parent := t_parent t; k_accept_queue := accept_queue t; k_backlog := backlog t; k_t_pending := t_pending t |} |}.
Definition set_local_ip (v : Z) (t : tcb) : tcb := {| tcb_snd := tcb_snd t; tcb_rcv := tcb_rcv t; tcb_cc := tcb_cc t; tcb_sock := {| k_t_state := t_state t; k_local_ip := v; k_remote_ip := remote_ip t; k_local_port := local_port t; k_remote_port := remote_port t; k_linked := linked t; k_was_connected := was_connected t; k_t_error := t_error t; k_t_wait := t_wait t; k_detached := detached t; k_keepalive := keepalive t; k_nodelay := nodelay t; k_keep_idle := keep_idle t; k_keep_intvl := keep_intvl t; k_keep_cnt := keep_cnt t; k_keep_sent := keep_sent t; k_last_rx := last_rx t; k_t_parent := t_parent t; k_accept_queue := accept_queue t; k_backlog := backlog t; k_t_pending := t_pending t |} |}.
Definition set_remote_ip (v : Z) (t : tcb) : tcb := {| tcb_snd := tcb_snd t; tcb_rcv := tcb_rcv t; tcb_cc := tcb_cc t; tcb_sock := {| k_t_state := t_state t; k_local_ip := local_ip t; k_remote_ip := v; k_local_port := local_port t; k_remote_port := remote_port t; k_linked := linked t; k_was_connected := was_connected t; k_t_error := t_error t; k_t_wait := t_wait t; k_detached := detached t; k_keepalive := keepalive t; k_nodelay := nodelay t; k_keep_idle := keep_idle t; k_keep_intvl := keep_intvl t; k_keep_cnt := keep_cnt t; k_keep_sent := keep_sent t; k_last_rx := last_rx t; k_t_parent := t_parent t; k_accept_queue := accept_queue t; k_backlog := backlog t; k_t_pending := t_pending t |} |}.
Definition set_local_port (v : Z) (t : tcb) : tcb := {| tcb_snd := tcb_snd t; tcb_rcv := tcb_rcv t; tcb_cc := tcb_cc t; tcb_sock := {| k_t_state := t_state t; k_local_ip := local_ip t; k_remote_ip := remote_ip t; k_local_port := v; k_remote_port := remote_port t; k_linked := linked t; k_was_connected := was_connected t; k_t_error := t_error t; k_t_wait := t_wait t; k_detached := detached t; k_keepalive := keepalive t; k_nodelay := nodelay t; k_keep_idle := keep_idle t; k_keep_intvl := keep_intvl t; k_keep_cnt := keep_cnt t; k_keep_sent := keep_sent t; k_last_rx := last_rx t; k_t_parent := t_parent t; k_accept_queue := accept_queue t; k_backlog := backlog t; k_t_pending := t_pending t |} |}.
Definition set_remote_port (v : Z) (t : tcb) : tcb := {| tcb_snd := tcb_snd t; tcb_rcv := tcb_rcv t; tcb_cc := tcb_cc t; tcb_sock := {| k_t_state := t_state t; k_local_ip := local_ip t; k_remote_ip := remote_ip t; k_local_port := local_port t; k_remote_port := v; k_linked := linked t; k_was_connected := was_connected t; k_t_error := t_error t; k_t_wait := t_wait t; k_detached := detached t; k_keepalive := keepalive t; k_nodelay := nodelay t; k_keep_idle := keep_idle t; k_keep_intvl := keep_intvl t; k_keep_cnt := keep_cnt t; k_keep_sent := keep_sent t; k_last_rx := last_rx t; k_t_parent := t_parent t; k_accept_queue := accept_queue t; k_backlog := backlog t; k_t_pending := t_pending t |} |}.
Definition set_linked (v : bool) (t : tcb) : tcb := {| tcb_snd := tcb_snd t; tcb_rcv := tcb_rcv t; tcb_cc := tcb_cc t; tcb_sock := {| k_t_state := t_state t; k_local_ip := local_ip t; k_remote_ip := remote_ip t; k_local_port := local_port t; k_remote_port := remote_port t; k_linked := v; k_was_connected := was_connected t; k_t_error := t_error t; k_t_wait := t_wait t; k_detached := detached t; k_keepalive := keepalive t; k_nodelay := nodelay t; k_keep_idle := keep_idle t; k_keep_intvl := keep_intvl t; k_keep_cnt := keep_cnt t; k_keep_sent := keep_sent t; k_last_rx := last_rx t; k_t_parent := t_parent t; k_accept_queue := accept_queue t; k_backlog := backlog t; k_t_pending := t_pending t |} |}.
Definition set_was_connected (v : bool) (t : tcb) : tcb := {| tcb_snd := tcb_snd t; tcb_rcv := tcb_rcv t; tcb_cc := tcb_cc t; tcb_sock := {| k_t_state := t_state t; k_local_ip := local_ip t; k_remote_ip := remote_ip t; k_local_port := local_port t; k_remote_port := remote_port t; k_linked := linked t; k_was_connected := v; k_t_error := t_error t; k_t_wait := t_wait t; k_detached := detached t; k_keepalive := keepalive t; k_nodelay := nodelay t; k_keep_idle := keep_idle t; k_keep_intvl := keep_intvl t; k_keep_cnt := keep_cnt t; k_keep_sent := keep_sent t; k_last_rx := last_rx t; k_t_parent := t_parent t; k_accept_queue := accept_queue t; k_backlog := backlog t; k_t_pending := t_pending t |} |}.
Definition set_t_error (v : Z) (t : tcb) : tcb := {| tcb_snd := tcb_snd t; tcb_rcv := tcb_rcv t; tcb_cc := tcb_cc t; tcb_sock := {| k_t_state := t_state t; k_local_ip := local_ip t; k_remote_ip := remote_ip t; k_local_port := local_port t; k_remote_port := remote_port t; k_linked := linked t; k_was_connected := was_connected t; k_t_error := v; k_t_wait := t_wait t; k_detached := detached t; k_keepalive := keepalive t; k_nodelay := nodelay t; k_keep_idle := keep_idle t; k_keep_intvl := keep_intvl t; k_keep_cnt := keep_cnt t; k_keep_sent := keep_sent t; k_last_rx := last_rx t; k_t_parent := t_parent t; k_accept_queue := accept_queue t; k_backlog := backlog t; k_t_pending := t_pending t |} |}.
Definition set_t_wait (v : Z) (t : tcb) : tcb := {| tcb_snd := tcb_snd t; tcb_rcv := tcb_rcv t; tcb_cc := tcb_cc t; tcb_sock := {| k_t_state := t_state t; k_local_ip := local_ip t; k_remote_ip := remote_ip t; k_local_port := local_port t; k_remote_port := remote_port t; k_linked := linked t; k_was_connected := was_connected t; k_t_error := t_error t; k_t_wait := v; k_detached := detached t; k_keepalive := keepalive t; k_nodelay := nodelay t; k_keep_idle := keep_idle t; k_keep_intvl := keep_intvl t; k_keep_cnt := keep_cnt t; k_keep_sent := keep_sent t; k_last_rx := last_rx t; k_t_parent := t_parent t; k_accept_queue := accept_queue t; k_backlog := backlog t; k_t_pending := t_pending t |} |}.
Definition set_detached (v : bool) (t : tcb) : tcb := {| tcb_snd := tcb_snd t; tcb_rcv := tcb_rcv t; tcb_cc := tcb_cc t; tcb_sock := {| k_t_state := t_state t; k_local_ip := local_ip t; k_remote_ip := remote_ip t; k_local_port := local_port t; k_remote_port := remote_port t; k_linked := linked t; k_was_connected := was_connected t; k_t_error := t_error t; k_t_wait := t_wait t; k_detached := v; k_keepalive := keepalive t; k_nodelay := nodelay t; k_keep_idle := keep_idle t; k_keep_intvl := keep_intvl t; k_keep_cnt := keep_cnt t; k_keep_sent := keep_sent t; k_last_rx := last_rx t; k_t_parent := t_parent t; k_accept_queue := accept_queue t; k_backlog := backlog t; k_t_pending := t_pending t |} |}.
Definition set_keepalive (v : bool) (t : tcb) : tcb := {| tcb_snd := tcb_snd t; tcb_rcv := tcb_rcv t; tcb_cc := tcb_cc t; tcb_sock := {| k_t_state := t_state t; k_local_ip := local_ip t; k_remote_ip := remote_ip t; k_local_port := local_port t; k_remote_port := remote_port t; k_linked := linked t; k_was_connected := was_connected t; k_t_error := t_error t; k_t_wait := t_wait t; k_detached := detached t; k_keepalive := v; k_nodelay := nodelay t; k_keep_idle := keep_idle t; k_keep_intvl := keep_intvl t; k_keep_cnt := keep_cnt t; k_keep_sent := keep_sent t; k_last_rx := last_rx t; k_t_parent := t_parent t; k_accept_queue := accept_queue t; k_backlog := backlog t; k_t_pending := t_pending t |} |}.
Definition set_nodelay (v : bool) (t : tcb) : tcb := {| tcb_snd := tcb_snd t; tcb_rcv := tcb_rcv t; tcb_cc := tcb_cc t; tcb_sock := {| k_t_state := t_state t; k_local_ip := local_ip t; k_remote_ip := remote_ip t; k_local_port := local_port t; k_remote_port := remote_port t; k_linked := linked t; k_was_connected := was_connected t; k_t_error := t_error t; k_t_wait := t_wait t; k_detached := detached t; k_keepalive := keepalive t; k_nodelay := v; k_keep_idle := keep_idle t; k_keep_intvl := keep_intvl t; k_keep_cnt := keep_cnt t; k_keep_sent := keep_sent t; k_last_rx := last_rx t; k_t_parent := t_parent t; k_accept_queue := accept_queue t; k_backlog := backlog t; k_t_pending := t_pending t |} |}.
Definition set_keep_idle (v : Z) (t : tcb) : tcb := {| tcb_snd := tcb_snd t; tcb_rcv := tcb_rcv t; tcb_cc := tcb_cc t; tcb_sock := {| k_t_state := t_state t; k_local_ip := local_ip t; k_remote_ip := remote_ip t; k_local_port := local_port t; k_remote_port := remote_port t; k_linked := linked t; k_was_connected := was_connected t; k_t_error := t_error t; k_t_wait := t_wait t; k_detached := detached t; k_keepalive := keepalive t; k_nodelay := nodelay t; k_keep_idle := v; k_keep_intvl := keep_intvl t; k_keep_cnt := keep_cnt t; k_keep_sent := keep_sent t; k_last_rx := last_rx t; k_t_parent := t_parent t; k_accept_queue := accept_queue t; k_backlog := backlog t; k_t_pending := t_pending t |} |}.
Definition set_keep_intvl (v : Z) (t : tcb) : tcb := {| tcb_snd := tcb_snd t; tcb_rcv := tcb_rcv t; tcb_cc := tcb_cc t; tcb_sock := {| k_t_state := t_state t; k_local_ip := local_ip t; k_remote_ip := remote_ip t; k_local_port := local_port t; k_remote_port := remote_port t; k_linked := linked t; k_was_connected := was_connected t; k_t_error := t_error t; k_t_wait := t_wait t; k_detached := detached t; k_keepalive := keepalive t; k_nodelay := nodelay t; k_keep_idle := keep_idle t; k_keep_intvl := v; k_keep_cnt := keep_cnt t; k_keep_sent := keep_sent t; k_last_rx := last_rx t; k_t_parent := t_parent t; k_accept_queue := accept_queue t; k_backlog := backlog t; k_t_pending := t_pending t |} |}.
Definition set_keep_cnt (v : Z) (t : tcb) : tcb := {| tcb_snd := tcb_snd t; tcb_rcv := tcb_rcv t; tcb_cc := tcb_cc t; tcb_sock := {| k_t_state := t_state t; k_local_ip := local_ip t; k_remote_ip := remote_ip t; k_local_port := local_port t; k_remote_port := remote_port t; k_linked := linked t; k_was_connected := was_connected t; k_t_error := t_error t; k_t_wait := t_wait t; k_detached := detached t; k_keepalive := keepalive t; k_nodelay := nodelay t; k_keep_idle := keep_idle t; k_keep_intvl := keep_intvl t; k_keep_cnt := v; k_keep_sent := keep_sent t; k_last_rx := last_rx t; k_t_parent := t_parent t; k_accept_queue := accept_queue t; k_backlog := backlog t; k_t_pending := t_pending t |} |}.
Definition set_keep_sent (v : Z) (t : tcb) : tcb := {| tcb_snd := tcb_snd t; tcb_rcv := tcb_rcv t; tcb_cc := tcb_cc t; tcb_sock := {| k_t_state := t_state t; k_local_ip := local_ip t; k_remote_ip := remote_ip t; k_local_port := local_port t; k_remote_port := remote_port t; k_linked := linked t; k_was_connected := was_connected t; k_t_error := t_error t; k_t_wait := t_wait t; k_detached := detached t; k_keepalive := keepalive t; k_nodelay := nodelay t; k_keep_idle := keep_idle t; k_keep_intvl := keep_intvl t; k_keep_cnt := keep_cnt t; k_keep_sent := v; k_last_rx := last_rx t; k_t_parent := t_parent t; k_accept_queue := accept_queue t; k_backlog := backlog t; k_t_pending := t_pending t |} |}.
Definition set_last_rx (v : Z) (t : tcb) : tcb := {| tcb_snd := tcb_snd t; tcb_rcv := tcb_rcv t; tcb_cc := tcb_cc t; tcb_sock := {| k_t_state := t_state t; k_local_ip := local_ip t; k_remote_ip := remote_ip t; k_local_port := local_port t; k_remote_port := remote_port t; k_linked := linked t; k_was_connected := was_connected t; k_t_error := t_error t; k_t_wait := t_wait t; k_detached := detached t; k_keepalive := keepalive t; k_nodelay := nodelay t; k_keep_idle := keep_idle t; k_keep_intvl := keep_intvl t; k_keep_cnt := keep_cnt t; k_keep_sent := keep_sent t; k_last_rx := v; k_t_parent := t_parent t; k_accept_queue := accept_queue t; k_backlog := backlog t; k_t_pending := t_pending t |} |}.
Definition set_t_parent (v : Z) (t : tcb) : tcb := {| tcb_snd := tcb_snd t; tcb_rcv := tcb_rcv t; tcb_cc := tcb_cc t; tcb_sock := {| k_t_state := t_state t; k_local_ip := local_ip t; k_remote_ip := remote_ip t; k_local_port := local_port t; k_remote_port := remote_port t; k_linked := linked t; k_was_connected := was_connected t; k_t_error := t_error t; k_t_wait := t_wait t; k_detached := detached t; k_keepalive := keepalive t; k_nodelay := nodelay t; k_keep_idle := keep_idle t; k_keep_intvl := keep_intvl t; k_keep_cnt := keep_cnt t; k_keep_sent := keep_sent t; k_last_rx := last_rx t; k_t_parent := v; k_accept_queue := accept_queue t; k_backlog := backlog t; k_t_pending := t_pending t |} |}.
Definition set_accept_queue (v : list Z) (t : tcb) : tcb := {| tcb_snd := tcb_snd t; tcb_rcv := tcb_rcv t; tcb_cc := tcb_cc t; tcb_sock := {| k_t_state := t_state t; k_local_ip := local_ip t; k_remote_ip := remote_ip t; k_local_port := local_port t; k_remote_port := remote_port t; k_linked := linked t; k_was_connected := was_connected t; k_t_error := t_error t; k_t_wait := t_wait t; k_detached := detached t; k_keepalive := keepalive t; k_nodelay := nodelay t; k_keep_idle := keep_idle t; k_keep_intvl := keep_intvl t; k_keep_cnt := keep_cnt t; k_keep_sent := keep_sent t; k_last_rx := last_rx t; k_t_parent := t_parent t; k_accept_queue := v; k_backlog := backlog t; k_t_pending := t_pending t |} |}.
Definition set_backlog (v : Z) (t : tcb) : tcb := {| tcb_snd := tcb_snd t; tcb_rcv := tcb_rcv t; tcb_cc := tcb_cc t; tcb_sock := {| k_t_state := t_state t; k_local_ip := local_ip t; k_remote_ip := remote_ip t; k_local_port := local_port t; k_remote_port := remote_port t; k_linked := linked t; k_was_connected := was_connected t; k_t_error := t_error t; k_t_wait := t_wait t; k_detached := detached t; k_keepalive := keepalive t; k_nodelay := nodelay t; k_keep_idle := keep_idle t; k_keep_intvl := keep_intvl t; k_keep_cnt := keep_cnt t; k_keep_sent := keep_sent t; k_last_rx := last_rx t; k_t_parent := t_parent t; k_accept_queue := accept_queue t; k_backlog := v; k_t_pending := t_pending t |} |}.
Definition set_t_pending (v : Z) (t : tcb) : tcb := {| tcb_snd := tcb_snd t; tcb_rcv := tcb_rcv t; tcb_cc := tcb_cc t; tcb_sock := {| k_t_state := t_state t; k_local_ip := local_ip t; k_remote_ip := remote_ip t; k_local_port := local_port t; k_remote_port := remote_port t; k_linked := linked t; k_was_connected := was_connected t; k_t_error := t_error t; k_t_wait := t_wait t; k_detached := detached t; k_keepalive := keepalive t; k_nodelay := nodelay t; k_keep_idle := keep_idle t; k_keep_intvl := keep_intvl t; k_keep_cnt := keep_cnt t; k_keep_sent := keep_sent t; k_last_rx := last_rx t; k_t_parent := t_parent t; k_accept_queue := accept_queue t; k_backlog := backlog t; k_t_pending := v |} |}.

(** [t ▷ set_a x ▷ set_b y] is [t->a = x; t->b = y]. *)
Notation "t ▷ f" := (f t) (at level 62, left associativity, only parsing).

(** A field after an assignment. *)
Ltac tcb_simpl := cbn [
  iss snd_una snd_nxt snd_wnd snd_wl1 mss snd_shift tx tx_ring tx_start tx_len fin_wanted fin_sent rcv_shift shift_next sack_ok rcv_nxt rcv_adv ooo
  fin_seq fin_seen rx rx_ring rx_start rx_len peer_fin rd_shut cwnd ssthresh dupacks recovery recover rtx_nxt rtx_one rtt_at rtt_seq srtt rttvar
  rto_base rto_at rto_ms retries done_at t_state local_ip remote_ip local_port remote_port linked was_connected t_error t_wait detached keepalive
  nodelay keep_idle keep_intvl keep_cnt keep_sent last_rx t_parent accept_queue backlog t_pending set_iss set_snd_una set_snd_nxt set_snd_wnd
  set_snd_wl1 set_mss set_snd_shift set_tx set_tx_ring set_tx_start set_tx_len set_fin_wanted set_fin_sent set_rcv_shift set_shift_next set_sack_ok
  set_rcv_nxt set_rcv_adv set_ooo set_fin_seq set_fin_seen set_rx set_rx_ring set_rx_start set_rx_len set_peer_fin set_rd_shut set_cwnd set_ssthresh
  set_dupacks set_recovery set_recover set_rtx_nxt set_rtx_one set_rtt_at set_rtt_seq set_srtt set_rttvar set_rto_base set_rto_at set_rto_ms
  set_retries set_done_at set_t_state set_local_ip set_remote_ip set_local_port set_remote_port set_linked set_was_connected set_t_error set_t_wait
  set_detached set_keepalive set_nodelay set_keep_idle set_keep_intvl set_keep_cnt set_keep_sent set_last_rx set_t_parent set_accept_queue set_backlog
  set_t_pending s_iss s_snd_una s_snd_nxt s_snd_wnd s_snd_wl1 s_mss s_snd_shift s_tx s_tx_ring s_tx_start s_tx_len s_fin_wanted s_fin_sent r_rcv_shift
  r_shift_next r_sack_ok r_rcv_nxt r_rcv_adv r_ooo r_fin_seq r_fin_seen r_rx r_rx_ring r_rx_start r_rx_len r_peer_fin r_rd_shut c_cwnd c_ssthresh
  c_dupacks c_recovery c_recover c_rtx_nxt c_rtx_one c_rtt_at c_rtt_seq c_srtt c_rttvar c_rto_base c_rto_at c_rto_ms c_retries c_done_at k_t_state
  k_local_ip k_remote_ip k_local_port k_remote_port k_linked k_was_connected k_t_error k_t_wait k_detached k_keepalive k_nodelay k_keep_idle
  k_keep_intvl k_keep_cnt k_keep_sent k_last_rx k_t_parent k_accept_queue k_backlog k_t_pending tcb_snd tcb_rcv tcb_cc tcb_sock
  ].

(** [tcp_state == s]. *)
Definition in_state (t : tcb) (s : tcp_state) : bool := bool_decide (t_state t = s).

Definition in_recovery (t : tcb) (r : tcp_recovery) : bool := bool_decide (recovery t = r).

(** ** Rings

    The contents of a block of the heap, by offset.  A byte that was never written has a value
    the code does not choose, 0 here. *)

Definition mem_bytes (r : gmap Z Z) (at_ len : Z) : list Z := (fun i => default 0 (r !! (at_ + Z.of_nat i))) <$> seq 0 (Z.to_nat len).

Fixpoint mem_write (r : gmap Z Z) (at_ : Z) (bs : list Z) : gmap Z Z :=
  match bs with
  | [] => r
  | b :: bs => mem_write (<[at_ := b]> r) (at_ + 1) bs
  end.

(** [memcpy] out of and into a ring of [size] bytes, in two pieces when it wraps. *)
Definition ring_read (size : Z) (r : gmap Z Z) (at_ len : Z) : list Z :=
  let first := if size - at_ <? len then size - at_ else len in
  mem_bytes r at_ first ++ mem_bytes r 0 (len - first).

Definition ring_write (size : Z) (r : gmap Z Z) (at_ : Z) (bs : list Z) : gmap Z Z :=
  let len := Z.of_nat (length bs) in
  let first := if size - at_ <? len then size - at_ else len in
  mem_write (mem_write r at_ (take (Z.to_nat first) bs)) 0 (drop (Z.to_nat first) bs).
