(* ===== verification/Tcp.v ===== *)
(** * TCP: what a connection does

    The functions of [kernel/src/net/tcp_output.c], [tcp_input.c] and [tcp.c] that work on one
    connection.  Segments are built in buffers of [Net] and queued; they are sent when the lock
    is released.  [None] is the divide error the processor raises when [cwnd] is 0 in
    [tcp_cc_acked].  A count that drops in the listener of a connection ([tcp_drop_child]) is
    noted in [c_drops]; [TcpWorld] takes it off. *)

From S2P Require Import Prelude Pmm Machine Bytes Heap Net TcpState.

(** All zeros, and the fields [tcp_alloc] sets. *)
Definition tcb_new : tcb :=
  {| tcb_snd := {| s_iss := 0; s_snd_una := 0; s_snd_nxt := 0; s_snd_wnd := 0; s_snd_wl1 := 0; s_mss := TCP_MSS_DEFAULT; s_snd_shift := 0;
                   s_tx := 0; s_tx_ring := ∅; s_tx_start := 0; s_tx_len := 0; s_fin_wanted := false; s_fin_sent := false |};
     tcb_rcv := {| r_rcv_shift := 0; r_shift_next := 0; r_sack_ok := false; r_rcv_nxt := 0; r_rcv_adv := 0; r_ooo := []; r_fin_seq := 0;
                   r_fin_seen := false; r_rx := 0; r_rx_ring := ∅; r_rx_start := 0; r_rx_len := 0; r_peer_fin := false; r_rd_shut := false |};
     tcb_cc := {| c_cwnd := 0; c_ssthresh := 0; c_dupacks := 0; c_recovery := TCP_RECOVERY_NONE; c_recover := 0; c_rtx_nxt := 0;
                  c_rtx_one := false; c_rtt_at := 0; c_rtt_seq := 0; c_srtt := 0; c_rttvar := 0; c_rto_base := TCP_RTO_MS; c_rto_at := 0;
                  c_rto_ms := TCP_RTO_MS; c_retries := 0; c_done_at := 0 |};
     tcb_sock := {| k_t_state := TCP_CLOSED; k_local_ip := 0; k_remote_ip := 0; k_local_port := 0; k_remote_port := 0; k_linked := false;
                    k_was_connected := false; k_t_error := 0; k_t_wait := 0; k_detached := false; k_keepalive := false; k_nodelay := false;
                    k_keep_idle := TCP_KEEP_IDLE_S; k_keep_intvl := TCP_KEEP_INTVL_S; k_keep_cnt := TCP_KEEP_CNT; k_keep_sent := 0;
                    k_last_rx := 0; k_t_parent := 0; k_accept_queue := []; k_backlog := 0; k_t_pending := 0 |} |}.

(** ** The network, the queued segments, the queues woken and the counts dropped *)

Record tctx (H D : Type) := {
  c_net : net H D;
  c_out : list (netbuf * Z * Z);
  c_wakes : list Z;
  c_drops : list Z;
}.
Arguments c_net {H D}.
Arguments c_out {H D}.
Arguments c_wakes {H D}.
Arguments c_drops {H D}.

(** ** [tcp_segment] *)

Section Segments.

Definition tcp_header (sport dport seq ack flags window optlen : Z) (checksum : Z) : tcp_hdr :=
  {| th_src_port := htons sport; th_dst_port := htons dport; th_seq := htonl seq; th_ack := htonl ack;
     th_off := Z.land (((TCP_HLEN + optlen) / 4) ≪ 4) 255; th_flags := flags; th_window := htons window; th_checksum := checksum; th_urgent := 0 |}.

(** The bytes of a segment, the checksum over them and the pseudo header included. *)
Definition tcp_segment_bytes (src dst sport dport seq ack flags window : Z) (opts payload : list Z) : list Z :=
  let optlen := Z.of_nat (length opts) in
  let with_sum c := tcp_hdr_bytes (tcp_header sport dport seq ack flags window optlen c) ++ opts ++ payload in
  let bs := with_sum 0 in
  with_sum (net_checksum bs (ipv4_pseudo_sum src dst IP_PROTO_TCP (Z.of_nat (length bs)))).

End Segments.

(** ** Options of a SYN, [tcp_parse_syn] *)

Record tcp_syn_opts := { so_mss : Z; so_wscale : Z; so_has_wscale : bool; so_sack_ok : bool }.

Definition syn_opts_none : tcp_syn_opts := {| so_mss := TCP_MSS_DEFAULT; so_wscale := 0; so_has_wscale := false; so_sack_ok := false |}.

(** One option, its kind, its length and its bytes. *)
Definition syn_opt (o : tcp_syn_opts) (kind len : Z) (p : list Z) : tcp_syn_opts :=
  if (kind =? TCP_OPT_MSS) && (len =? 4)
  then {| so_mss := Z.lor (nth 2 p 0 ≪ 8) (nth 3 p 0); so_wscale := so_wscale o; so_has_wscale := so_has_wscale o; so_sack_ok := so_sack_ok o |}
  else if (kind =? TCP_OPT_WSCALE) && (len =? 3)
  then {| so_mss := so_mss o; so_wscale := if 14 <? nth 2 p 0 then 14 else nth 2 p 0; so_has_wscale := true; so_sack_ok := so_sack_ok o |}
  else if (kind =? TCP_OPT_SACK_OK) && (len =? 2)
  then {| so_mss := so_mss o; so_wscale := so_wscale o; so_has_wscale := so_has_wscale o; so_sack_ok := true |}
  else o.

(** [p] is what is left of the options; every turn takes at least a byte, so their number is
    enough fuel. *)
Fixpoint parse_opts (fuel : nat) (p : list Z) (o : tcp_syn_opts) : tcp_syn_opts :=
  match fuel with
  | O => o
  | S fuel =>
    match p with
    | [] => o
    | kind :: rest =>
      if kind =? TCP_OPT_END then o
      else if kind =? TCP_OPT_NOP then parse_opts fuel rest o
      else
        match rest with
        | [] => o
        | len :: _ =>
          if (len <? 2) || (Z.of_nat (length p) <? len) then o
          else parse_opts fuel (drop (Z.to_nat len) p) (syn_opt o kind len p)
        end
    end
  end.

Definition tcp_parse_syn (opts : list Z) : tcp_syn_opts := parse_opts (length opts) opts syn_opts_none.

(** ** Ranges past a hole *)

Fixpoint ooo_before (start : Z) (l : list (Z * Z)) : list (Z * Z) * list (Z * Z) :=
  match l with
  | (s, e) :: l' => if SEQ_LT e start then let '(pre, rest) := ooo_before start l' in ((s, e) :: pre, rest) else ([], l)
  | [] => ([], [])
  end.

(** The ranges after one that now ends at [e], as far as they touch it. *)
Fixpoint ooo_merge (e : Z) (l : list (Z * Z)) : Z * list (Z * Z) :=
  match l with
  | (s2, e2) :: l' => if SEQ_LEQ s2 e then ooo_merge (if SEQ_LT e e2 then e2 else e) l' else (e, l)
  | [] => (e, [])
  end.

Definition tcp_ooo_add (l : list (Z * Z)) (start end_ : Z) : list (Z * Z) :=
  let '(pre, rest) := ooo_before start l in
  let new := if bool_decide (length l = TCP_OOO_MAX) then l else pre ++ (start, end_) :: rest in
  match rest with
  | (s, e) :: rest' =>
    if SEQ_LEQ s end_
    then
      let s := if SEQ_LT start s then start else s in
      let e := if SEQ_LT e end_ then end_ else e in
      let '(e, rest'') := ooo_merge e rest' in
      pre ++ (s, e) :: rest''
    else new
  | [] => new
  end.

(** [rcv_nxt], [rx_len] and the ranges that are left. *)
Fixpoint ooo_settle (l : list (Z * Z)) (nxt len : Z) : Z * Z * list (Z * Z) :=
  match l with
  | (s, e) :: l' =>
    if SEQ_LEQ s nxt
    then if SEQ_LT nxt e then ooo_settle l' e (len +u (e -u nxt)) else ooo_settle l' nxt len
    else (nxt, len, l)
  | [] => (nxt, len, [])
  end.

Definition tcp_ooo_settle (t : tcb) : tcb :=
  let '(nxt, len, l) := ooo_settle (ooo t) (rcv_nxt t) (rx_len t) in
  t ▷ set_rcv_nxt nxt ▷ set_rx_len len ▷ set_ooo l.

(** ** Congestion control *)

(** The window after an acknowledgement outside of recovery; [None] divides by 0. *)
Definition cc_grow (t : tcb) (acked : Z) : option tcb :=
  let t := t ▷ set_dupacks 0 in
  let cap t := if 0x40000000 <? cwnd t then t ▷ set_cwnd 0x40000000 else t in
  if cwnd t <? ssthresh t
  then Some (cap (t ▷ set_cwnd (cwnd t +u (if acked <? mss t then acked else mss t))))
  else if cwnd t =? 0 then None
  else let inc := mss t *u mss t / cwnd t in
       Some (cap (t ▷ set_cwnd (cwnd t +u (if negb (inc =? 0) then inc else 1)))).

Definition tcp_cc_acked (t : tcb) (acked ack : Z) : option tcb :=
  if in_recovery t TCP_RECOVERY_NONE then cc_grow t acked
  else if SEQ_LT ack (recover t)
  then if in_recovery t TCP_RECOVERY_FAST
       then Some (t ▷ set_cwnd (if acked <? cwnd t then cwnd t -u acked +u mss t else mss t) ▷ set_rtx_one true)
       else cc_grow t acked
  else let t := if in_recovery t TCP_RECOVERY_FAST then t ▷ set_cwnd (ssthresh t) else t in
       Some (t ▷ set_recovery TCP_RECOVERY_NONE ▷ set_dupacks 0).

Definition tcp_cc_dupack (t : tcb) : tcb :=
  if in_recovery t TCP_RECOVERY_FAST then t ▷ set_cwnd (cwnd t +u mss t)
  else if negb (in_recovery t TCP_RECOVERY_NONE) then t
  else
    let t := t ▷ set_dupacks (dupacks t + 1) in
    if dupacks t <? 3 then t
    else
      let half := (snd_nxt t -u snd_una t) / 2 in
      let t := t ▷ set_ssthresh (if 2 * mss t <? half then half else 2 * mss t) in
      t ▷ set_cwnd (ssthresh t +u 3 * mss t) ▷ set_recovery TCP_RECOVERY_FAST ▷ set_recover (snd_nxt t) ▷ set_rtx_one true.

Definition tcp_enter_rto (t : tcb) : tcb :=
  let half := (snd_nxt t -u snd_una t) / 2 in
  t ▷ set_ssthresh (if 2 * mss t <? half then half else 2 * mss t) ▷ set_cwnd (mss t) ▷ set_dupacks 0 ▷ set_rtx_one false
    ▷ set_recovery TCP_RECOVERY_RTO ▷ set_recover (snd_nxt t) ▷ set_rtx_nxt (snd_una t) ▷ set_rtt_at 0.

Definition tcp_rtt_sample (now : Z) (t : tcb) : tcb :=
  let rtt := now -u rtt_at t in
  let t := t ▷ set_rtt_at 0 in
  let t :=
    if srtt t =? 0 then t ▷ set_srtt (if negb (rtt =? 0) then rtt else 1) ▷ set_rttvar (rtt / 2)
    else
      let delta := if srtt t <? rtt then rtt -u srtt t else srtt t -u rtt in
      let t := t ▷ set_rttvar (wrap32 (3 * rttvar t + delta) / 4) in
      t ▷ set_srtt (wrap32 (7 * srtt t + rtt) / 8) in
  let rto := srtt t +u 4 * rttvar t in
  let rto := if rto <? TCP_RTO_MIN_MS then TCP_RTO_MIN_MS else rto in
  let rto := if TCP_RTO_MAX_MS <? rto then TCP_RTO_MAX_MS else rto in
  t ▷ set_rto_base rto.

Definition tcp_arm_rto (now : Z) (t : tcb) : tcb := if rto_at t =? 0 then t ▷ set_rto_at (now +w rto_ms t) else t.

Definition tcp_rcv_window (t : tcb) : Z :=
  let room := (TCP_RX_BUF -u rx_len t) ≫ rcv_shift t in
  if 0xFFFF <? room then 0xFFFF else room.

Definition tcp_use_syn_opts (now : Z) (o : tcp_syn_opts) (t : tcb) : tcb :=
  let t := t ▷ set_mss (if so_mss o <? TCP_MSS then so_mss o else TCP_MSS) in
  t ▷ set_snd_shift (if so_has_wscale o then so_wscale o else 0) ▷ set_rcv_shift (if so_has_wscale o then TCP_WSCALE else 0)
    ▷ set_sack_ok (so_sack_ok o) ▷ set_cwnd (TCP_INIT_CWND * mss t) ▷ set_ssthresh 0xFFFFFFFF ▷ set_last_rx now.

Definition tcp_can_take_data (t : tcb) : bool := in_state t TCP_ESTABLISHED || in_state t TCP_FIN_WAIT_1 || in_state t TCP_FIN_WAIT_2.

Section Connection.

Context {H D : Type} `{Heap H}.

Implicit Types c : tctx H D.

Definition c_set_net c (s : net H D) : tctx H D := {| c_net := s; c_out := c_out c; c_wakes := c_wakes c; c_drops := c_drops c |}.

Definition c_queue c (seg : netbuf * Z * Z) : tctx H D := {| c_net := c_net c; c_out := c_out c ++ [seg]; c_wakes := c_wakes c; c_drops := c_drops c |}.

Definition c_drop c (p : Z) : tctx H D := {| c_net := c_net c; c_out := c_out c; c_wakes := c_wakes c; c_drops := c_drops c ++ [p] |}.

Definition c_now c : Z := now_ms (c_net c).

(** [if (t->wait) sched_wake_queue(t->wait)]. *)
Definition wake_wait (t : tcb) c : tctx H D :=
  if t_wait t =? 0 then c else {| c_net := c_net c; c_out := c_out c; c_wakes := c_wakes c ++ [t_wait t]; c_drops := c_drops c |}.

(** ** Building segments *)

(** The bytes fit a fresh buffer: there is data or there are options, and an [mss] of data at most. *)
Definition tcp_segment (src dst sport dport seq ack flags window : Z) (opts payload : list Z) c : tctx H D :=
  if TCP_OUT_MAX <=? Z.of_nat (length (c_out c)) then c
  else
    let '(nb, s) := netbuf_alloc (c_net c) in
    let c := c_set_net c s in
    match nb with
    | None => c
    | Some nb =>
      match netbuf_put nb (tcp_segment_bytes src dst sport dport seq ack flags window opts payload) with
      | None => c
      | Some nb => c_queue c (nb, src, dst)
      end
    end.

Definition tcp_emit (t : tcb) (flags seq off len : Z) (opts : list Z) c : tcb * tctx H D :=
  let window := tcp_rcv_window t in
  let t := t ▷ set_rcv_adv (rcv_nxt t +u window ≪ rcv_shift t) in
  let payload := if negb (len =? 0) then ring_read TCP_TX_BUF (tx_ring t) ((tx_start t +u off) `mod` TCP_TX_BUF) len else [] in
  (t, tcp_segment (local_ip t) (remote_ip t) (local_port t) (remote_port t) seq (rcv_nxt t) flags window opts payload c).

Definition tcp_send_ctl (t : tcb) (flags seq : Z) c : tcb * tctx H D := tcp_emit t flags seq 0 0 [] c.

Definition sack_opts (blocks : list (Z * Z)) : list Z :=
  match blocks with
  | [] => []
  | _ => [TCP_OPT_NOP; TCP_OPT_NOP; TCP_OPT_SACK; 2 + Z.of_nat (length blocks) * 8] ++
         concat ((fun b : Z * Z => le_bytes 4 (htonl b.1) ++ le_bytes 4 (htonl b.2)) <$> blocks)
  end.

Definition tcp_send_ack (t : tcb) c : tcb * tctx H D :=
  tcp_emit t TCP_ACK (snd_nxt t) 0 0 (if sack_ok t then sack_opts (take 3 (ooo t)) else []) c.

Definition SYN_OPTS : list Z :=
  [TCP_OPT_MSS; 4; TCP_MSS ≫ 8; Z.land TCP_MSS 0xFF; TCP_OPT_NOP; TCP_OPT_WSCALE; 3; TCP_WSCALE; TCP_OPT_NOP; TCP_OPT_NOP; TCP_OPT_SACK_OK; 2].

Definition tcp_send_syn (t : tcb) c : tcb * tctx H D :=
  tcp_emit t (if in_state t TCP_SYN_RCVD then Z.lor TCP_SYN TCP_ACK else TCP_SYN) (iss t) 0 0 SYN_OPTS c.

Definition tcp_reset_reply (src dst : Z) (h : tcp_hdr) (dlen : Z) c : tctx H D :=
  let '(seq, ack, flags) :=
    if flag (th_flags h) TCP_ACK then (ntohl (th_ack h), 0, TCP_RST)
    else (0, wrap32 (ntohl (th_seq h) + dlen + (if flag (th_flags h) TCP_SYN then 1 else 0) + (if flag (th_flags h) TCP_FIN then 1 else 0)), Z.lor TCP_RST TCP_ACK) in
  tcp_segment src dst (ntohs (th_dst_port h)) (ntohs (th_src_port h)) seq ack flags 0 [] [] c.

(** ** Sending *)

(** How much of the sequence space was sent again. *)
Definition tcp_resend (t : tcb) (seq : Z) c : Z * tcb * tctx H D :=
  let off := seq -u snd_una t in
  let data_end := wrap32 (snd_nxt t - snd_una t - if fin_sent t then 1 else 0) in
  let t := t ▷ set_rtt_at 0 in
  if off <? data_end
  then
    let n := if data_end - off <? mss t then data_end - off else mss t in
    let '(t, c) := tcp_emit t (Z.lor TCP_ACK TCP_PSH) seq off n [] c in (n, t, c)
  else if fin_sent t && (seq =? snd_nxt t -u 1)
  then let '(t, c) := tcp_send_ctl t (Z.lor TCP_FIN TCP_ACK) seq c in (1, t, c)
  else (0, t, c).

(** The loop of [tcp_push_recovery]; a turn that goes on queues a segment or advances
    [rtx_nxt], [fuel] is at least [recover - rtx_nxt]. *)
Fixpoint recovery_loop (fuel : nat) (t : tcb) c : tcb * tctx H D :=
  match fuel with
  | O => (t, c)
  | S fuel =>
    if SEQ_LT (rtx_nxt t) (recover t) && (rtx_nxt t -u snd_una t <? cwnd t) && (Z.of_nat (length (c_out c)) <? TCP_OUT_MAX)
    then
      let '(n, t, c) := tcp_resend t (rtx_nxt t) c in
      if n =? 0 then (t, c) else recovery_loop fuel (t ▷ set_rtx_nxt (rtx_nxt t +u n)) c
    else (t, c)
  end.

Definition tcp_push_recovery (t : tcb) c : tcb * tctx H D :=
  match recovery t with
  | TCP_RECOVERY_FAST =>
    if rtx_one t
    then let '(n, t, c) := tcp_resend (t ▷ set_rtx_one false) (snd_una t) c in (t, c)
    else (t, c)
  | TCP_RECOVERY_NONE => (t, c)
  | TCP_RECOVERY_RTO =>
    let t := if SEQ_LT (rtx_nxt t) (snd_una t) then t ▷ set_rtx_nxt (snd_una t) else t in
    recovery_loop (if SEQ_LT (rtx_nxt t) (recover t) then Z.to_nat (recover t -u rtx_nxt t) else O) t c
  end.

(** The loop of [tcp_push]: [sent] and the window are the variables of the code.  When [mss] is not 0
    a turn sends at least a byte, and [tx_len] turns are enough; when it is, the turns that queue an
    empty segment are bounded by the queue. *)
Fixpoint push_loop (fuel : nat) (wnd sent : Z) (t : tcb) c : Z * tcb * tctx H D :=
  match fuel with
  | O => (sent, t, c)
  | S fuel =>
    if (sent <? tx_len t) && (Z.of_nat (length (c_out c)) <? TCP_OUT_MAX)
    then
      let room := if sent <? wnd then wnd - sent else 0 in
      if room =? 0 then (sent, t, c)
      else
        let n := tx_len t - sent in
        let n := if mss t <? n then mss t else n in
        if (room <? n) && negb (sent =? 0) then (sent, t, c)
        else
          let n := if room <? n then room else n in
          let t := if (rtt_at t =? 0) && in_recovery t TCP_RECOVERY_NONE then t ▷ set_rtt_at (c_now c) ▷ set_rtt_seq (snd_nxt t) else t in
          let '(t, c) := tcp_emit t (Z.lor TCP_ACK TCP_PSH) (snd_nxt t) sent n [] c in
          let t := t ▷ set_snd_nxt (snd_nxt t +u n) ▷ tcp_arm_rto (c_now c) in
          push_loop fuel wnd (sent +u n) t c
    else (sent, t, c)
  end.

Definition tcp_push (t : tcb) c : tcb * tctx H D :=
  let '(t, c) := tcp_push_recovery t c in
  if negb (in_state t TCP_ESTABLISHED) && negb (in_state t TCP_CLOSE_WAIT) then (t, c)
  else
    let sent := snd_nxt t -u snd_una t in
    let wnd := if snd_wnd t <? cwnd t then snd_wnd t else cwnd t in
    let '(sent, t, c) := push_loop (Z.to_nat (tx_len t + TCP_OUT_MAX)) wnd sent t c in
    let '(t, c) :=
      if fin_wanted t && negb (fin_sent t) && (sent =? tx_len t)
      then
        let '(t, c) := tcp_send_ctl t (Z.lor TCP_FIN TCP_ACK) (snd_nxt t) c in
        (t ▷ set_snd_nxt (snd_nxt t +u 1) ▷ set_fin_sent true
           ▷ set_t_state (if in_state t TCP_CLOSE_WAIT then TCP_LAST_ACK else TCP_FIN_WAIT_1) ▷ tcp_arm_rto (c_now c), c)
      else (t, c) in
    (if negb (tx_len t =? 0) && (sent =? 0) && (snd_wnd t =? 0) then tcp_arm_rto (c_now c) t else t, c).

Definition tcp_set_closed (t : tcb) (err : Z) c : tcb * tctx H D :=
  let t := if negb (err =? 0) && (t_error t =? 0) then t ▷ set_t_error err else t in
  let t := t ▷ set_t_state TCP_CLOSED ▷ set_rto_at 0 ▷ set_recovery TCP_RECOVERY_NONE in
  (t, wake_wait t c).

Definition tcp_drop_child (t : tcb) c : tcb * tctx H D :=
  (t ▷ set_t_parent 0 ▷ set_detached true ▷ set_t_state TCP_CLOSED ▷ set_rto_at 0, if t_parent t =? 0 then c else c_drop c (t_parent t)).

Definition tcp_timeout (t : tcb) (now : Z) c : tcb * tctx H D :=
  let flight := snd_nxt t -u snd_una t in
  let probe := (flight =? 0) && negb (tx_len t =? 0) && (snd_wnd t =? 0) in
  let syn := in_state t TCP_SYN_SENT || in_state t TCP_SYN_RCVD in
  if negb syn && (flight =? 0) && negb probe then (t ▷ set_rto_at 0, c)
  else
    let t := t ▷ set_retries (retries t + 1) in
    if (if syn then TCP_SYN_RETRIES else TCP_RETRIES) <? retries t
    then
      if in_state t TCP_SYN_RCVD then tcp_drop_child t c
      else
        let '(t, c) := if negb (in_state t TCP_SYN_SENT) then tcp_send_ctl t TCP_RST (snd_nxt t) c else (t, c) in
        tcp_set_closed t (- ETIMEDOUT) c
    else
      let '(t, c) :=
        if syn then tcp_send_syn t c
        else if probe then let '(t, c) := tcp_emit t TCP_ACK (snd_nxt t) 0 1 [] c in (t ▷ set_snd_nxt (snd_nxt t +u 1), c)
        else (tcp_enter_rto t, c) in
      let t := t ▷ set_rto_ms (if TCP_RTO_MAX_MS <? rto_ms t *u 2 then TCP_RTO_MAX_MS else rto_ms t *u 2) in
      (t ▷ set_rto_at (now +w rto_ms t), c).

Definition tcp_keepalive (t : tcb) (now : Z) c : tcb * tctx H D :=
  if negb (keepalive t) || (negb (in_state t TCP_ESTABLISHED) && negb (in_state t TCP_CLOSE_WAIT)) then (t, c)
  else if negb (snd_una t =? snd_nxt t) then (t, c)
  else if now <? last_rx t +w (keep_idle t +w keep_sent t *w keep_intvl t) *w 1000 then (t, c)
  else if keep_cnt t <=? keep_sent t
  then let '(t, c) := tcp_send_ctl t TCP_RST (snd_nxt t) c in tcp_set_closed t (- ETIMEDOUT) c
  else let t := t ▷ set_keep_sent (keep_sent t +u 1) in tcp_send_ctl t TCP_ACK (snd_nxt t -u 1) c.

(** What [tcp_tick] does for one connection before it looks whether to free it. *)
Definition tcp_tick_conn (now : Z) (t : tcb) c : tcb * tctx H D :=
  let '(t, c) := if negb (rto_at t =? 0) && (rto_at t <=? now) then tcp_timeout t now c else (t, c) in
  let '(t, c) := tcp_push t c in
  let '(t, c) := tcp_keepalive t now c in
  let '(t, c) := if in_state t TCP_TIME_WAIT && (done_at t <=? now) then tcp_set_closed t 0 c else (t, c) in
  if detached t && negb (in_state t TCP_CLOSED) && negb (done_at t =? 0) && (done_at t <=? now)
  then let '(t, c) := tcp_send_ctl t (Z.lor TCP_RST TCP_ACK) (snd_nxt t) c in tcp_set_closed t 0 c
  else (t, c).

(** ** Receiving *)

Definition tcp_got_ack (t : tcb) (seq ack raw_window : Z) (bare : bool) c : option (tcb * tctx H D) :=
  let window := wrap32 (raw_window ≪ snd_shift t) in
  let moved := negb (window =? snd_wnd t) in
  '(t, c) ←
    (if SEQ_LT (snd_una t) ack && SEQ_LEQ ack (snd_nxt t)
     then
       let acked := ack -u snd_una t in
       let data := if acked <? tx_len t then acked else tx_len t in
       let t := t ▷ set_tx_start ((tx_start t +u data) `mod` TCP_TX_BUF) ▷ set_tx_len (tx_len t -u data) ▷ set_snd_una ack ▷ set_retries 0
                  ▷ set_rto_ms (rto_base t) ▷ set_rto_at 0 in
       let t := if negb (rtt_at t =? 0) && SEQ_LT (rtt_seq t) ack then tcp_rtt_sample (c_now c) t else t in
       let t := t ▷ set_rto_ms (rto_base t) in
       let t := if negb (snd_una t =? snd_nxt t) then tcp_arm_rto (c_now c) t else t in
       t ← tcp_cc_acked t acked ack;
       let '(t, c) :=
         if fin_sent t && (ack =? snd_nxt t)
         then
           match t_state t with
           | TCP_FIN_WAIT_1 => (t ▷ set_t_state TCP_FIN_WAIT_2, c)
           | TCP_CLOSING => (t ▷ set_t_state TCP_TIME_WAIT ▷ set_done_at (c_now c +w TCP_TIMEWAIT_MS), c)
           | TCP_LAST_ACK => tcp_set_closed t 0 c
           | _ => (t, c)
           end
         else (t, c) in
       Some (t, wake_wait t c)
     else if (ack =? snd_una t) && bare && negb moved && negb (snd_una t =? snd_nxt t) then Some (tcp_cc_dupack t, c)
     else Some (t, c));
  let t :=
    if (snd_wnd t =? 0) && negb (window =? 0) && (ack =? snd_una t) && (snd_nxt t -u ack =? 1) && negb (fin_sent t)
    then t ▷ set_snd_nxt ack ▷ set_rto_at 0 ▷ set_rto_ms (rto_base t)
    else t in
  let t := if (window =? 0) && (ack =? snd_una t) then t ▷ set_retries 0 else t in
  let t :=
    if SEQ_LEQ (snd_una t) ack && SEQ_LEQ ack (snd_nxt t) && SEQ_LEQ (snd_wl1 t) seq
    then t ▷ set_snd_wnd window ▷ set_snd_wl1 seq
    else t in
  Some (t, c).

(** What [tcp_got_data] does after the duplicate bytes in front are cut off; [before] is the
    length then. *)
Definition got_new_data (t : tcb) (seq : Z) (data : list Z) (fin : bool) c : tcb * tctx H D :=
  let len := Z.of_nat (length data) in
  let off := seq -u rcv_nxt t in
  let room := TCP_RX_BUF -u rx_len t in
  if negb (off =? 0) && (room <=? off) then (t, c)
  else
    let taken := if len <? room -u off then len else room -u off in
    let at_ := (wrap32 (rx_start t + rx_len t + off)) `mod` TCP_RX_BUF in
    let t := t ▷ set_rx_ring (ring_write TCP_RX_BUF (rx_ring t) at_ (take (Z.to_nat taken) data)) in
    let before := rx_len t in
    let t := if fin && (taken =? len) then t ▷ set_fin_seen true ▷ set_fin_seq (seq +u taken) else t in
    let t :=
      if negb (off =? 0)
      then if negb (taken =? 0) then t ▷ set_ooo (tcp_ooo_add (ooo t) seq (seq +u taken)) else t
      else t ▷ set_rx_len (rx_len t +u taken) ▷ set_rcv_nxt (rcv_nxt t +u taken) ▷ tcp_ooo_settle in
    let t :=
      if fin_seen t && (fin_seq t =? rcv_nxt t)
      then
        let t := t ▷ set_rcv_nxt (rcv_nxt t +u 1) ▷ set_peer_fin true in
        match t_state t with
        | TCP_ESTABLISHED => t ▷ set_t_state TCP_CLOSE_WAIT
        | TCP_FIN_WAIT_1 => t ▷ set_t_state TCP_CLOSING
        | TCP_FIN_WAIT_2 => t ▷ set_t_state TCP_TIME_WAIT ▷ set_done_at (c_now c +w TCP_TIMEWAIT_MS)
        | _ => t
        end
      else t in
    (t, if negb (rx_len t =? before) || peer_fin t then wake_wait t c else c).

Definition tcp_got_data (t : tcb) (seq : Z) (data : list Z) (fin : bool) c : tcb * tctx H D :=
  if SEQ_LT seq (rcv_nxt t)
  then
    let skip := rcv_nxt t -u seq in
    if Z.of_nat (length data) <? skip then (t, c)
    else if peer_fin t then (t, c) else got_new_data t (rcv_nxt t) (drop (Z.to_nat skip) data) fin c
  else if peer_fin t then (t, c) else got_new_data t seq data fin c.

Definition tcp_syn_sent (t : tcb) (h : tcp_hdr) (opts : list Z) (seq ack : Z) c : tcb * tctx H D :=
  let has f := flag (th_flags h) f in
  if has TCP_ACK && negb (ack =? snd_nxt t)
  then if negb (has TCP_RST) then tcp_send_ctl t TCP_RST ack c else (t, c)
  else if has TCP_RST
  then if has TCP_ACK then tcp_set_closed t (- ECONNREFUSED) c else (t, c)
  else if negb (has TCP_SYN) || negb (has TCP_ACK) then (t, c)
  else
    let t := t ▷ tcp_use_syn_opts (c_now c) (tcp_parse_syn opts) ▷ set_rcv_nxt (seq +u 1) ▷ set_snd_una ack ▷ set_snd_wnd (ntohs (th_window h))
               ▷ set_snd_wl1 seq ▷ set_t_state TCP_ESTABLISHED ▷ set_was_connected true ▷ set_rto_at 0 ▷ set_rto_ms (rto_base t) ▷ set_retries 0 in
    let '(t, c) := tcp_send_ctl t TCP_ACK (snd_nxt t) c in
    (t, wake_wait t c).

(** The rest of [tcp_input] for a connection that has its handshake behind it. *)
Definition tcp_conn_input (t : tcb) (h : tcp_hdr) (seq ack : Z) (body : list Z) c : option (tcb * tctx H D) :=
  let blen := Z.of_nat (length body) in
  let has f := flag (th_flags h) f in
  let t := t ▷ set_last_rx (c_now c) ▷ set_keep_sent 0 in
  let fin := has TCP_FIN in
  let carry := negb (blen =? 0) || fin in
  let answer := carry || has TCP_SYN in
  if has TCP_ACK && SEQ_LT (snd_nxt t) ack then Some (tcp_send_ctl t TCP_ACK (snd_nxt t) c)
  else if detached t && negb (blen =? 0) && SEQ_LT (rcv_nxt t) (seq +u blen) && tcp_can_take_data t
  then let '(t, c) := tcp_send_ctl t (Z.lor TCP_RST TCP_ACK) ack c in Some (tcp_set_closed t 0 c)
  else
    '(t, c) ← (if has TCP_ACK then tcp_got_ack t seq ack (ntohs (th_window h)) (negb carry) c else Some (t, c));
    let '(t, c) := if carry && tcp_can_take_data t then tcp_got_data t seq body fin c else (t, c) in
    if negb (in_state t TCP_CLOSED)
    then
      let '(t, c) := tcp_push t c in
      Some (if answer then tcp_send_ack t c else (t, c))
    else Some (t, c).

(** A reset for such a connection. *)
Definition tcp_reset_input (t : tcb) (seq : Z) c : tcb * tctx H D :=
  let win := TCP_RX_BUF -u rx_len t in
  if (seq =? rcv_nxt t) || (SEQ_LEQ (rcv_nxt t) seq && SEQ_LT seq (rcv_nxt t +u (if negb (win =? 0) then win else 1)))
  then tcp_set_closed t (if peer_fin t then 0 else - ECONNRESET) c
  else (t, c).

(** ** Calls of the socket *)

Definition tcp_send (t : tcb) (buf : list Z) c : Z * tcb * tctx H D :=
  if negb (t_error t =? 0) then (t_error t, t, c)
  else if in_state t TCP_SYN_SENT then (- EAGAIN, t, c)
  else if (negb (in_state t TCP_ESTABLISHED) && negb (in_state t TCP_CLOSE_WAIT)) || fin_wanted t
  then (if was_connected t then - EPIPE else - ENOTCONN, t, c)
  else
    let len := Z.of_nat (length buf) in
    let room := TCP_TX_BUF -u tx_len t in
    let n := if len <? room then len else room in
    let at_ := (tx_start t +u tx_len t) `mod` TCP_TX_BUF in
    let t := t ▷ set_tx_ring (ring_write TCP_TX_BUF (tx_ring t) at_ (take (Z.to_nat n) buf)) ▷ set_tx_len (tx_len t +u n) in
    let '(t, c) := tcp_push t c in
    (if negb (n =? 0) then n else - EAGAIN, t, c).

(** The result and the bytes it stands for. *)
Definition tcp_recv (t : tcb) (len : Z) (peek : bool) c : Z * list Z * tcb * tctx H D :=
  if negb (rx_len t =? 0)
  then
    let n := if len <? rx_len t then len else rx_len t in
    let bs := ring_read TCP_RX_BUF (rx_ring t) (rx_start t) n in
    if peek then (n, bs, t, c)
    else
      let t := t ▷ set_rx_start ((rx_start t +u n) `mod` TCP_RX_BUF) ▷ set_rx_len (rx_len t -u n) in
      let edge := rcv_nxt t +u (TCP_RX_BUF -u rx_len t) in
      let told := rcv_adv t -u rcv_nxt t in
      if (told <? TCP_RX_BUF / 4) && (2 * TCP_MSS <=? edge -u rcv_adv t) && (edge -u rcv_adv t <? 2 ^ 31) && negb (in_state t TCP_CLOSED)
      then let '(t, c) := tcp_send_ctl t TCP_ACK (snd_nxt t) c in (n, bs, t, c)
      else (n, bs, t, c)
  else if peer_fin t || rd_shut t then (0, [], t, c)
  else if negb (t_error t =? 0) then (t_error t, [], t ▷ set_t_error 0, c)
  else if in_state t TCP_CLOSED || in_state t TCP_LISTEN then (if was_connected t then 0 else - ENOTCONN, [], t, c)
  else (- EAGAIN, [], t, c).

Definition tcp_shutdown (t : tcb) (rd wr : bool) c : Z * tcb * tctx H D :=
  if negb (was_connected t) || in_state t TCP_CLOSED then (- ENOTCONN, t, c)
  else
    let t := if rd then t ▷ set_rd_shut true else t in
    let '(t, c) := if wr && negb (fin_wanted t) then tcp_push (t ▷ set_fin_wanted true) c else (t, c) in
    (0, t, wake_wait t c).

Definition tcp_connect_result (t : tcb) : Z :=
  if in_state t TCP_SYN_SENT then - EINPROGRESS
  else if was_connected t then 0
  else if negb (t_error t =? 0) then t_error t else - ECONNREFUSED.

Definition tcp_take_error (t : tcb) : Z * tcb := (t_error t, t ▷ set_t_error 0).

Definition tcp_pending (t : tcb) : Z := rx_len t.

Definition tcp_poll (t : tcb) : Z :=
  let ready :=
    if in_state t TCP_LISTEN then match accept_queue t with [] => 0 | _ => POLLIN end
    else if in_state t TCP_CLOSED then Z.lor (Z.lor POLLHUP POLLOUT) (if was_connected t then POLLIN else 0)
    else
      Z.lor (if negb (rx_len t =? 0) || peer_fin t || rd_shut t then POLLIN else 0)
            (if (in_state t TCP_ESTABLISHED || in_state t TCP_CLOSE_WAIT) && negb (fin_wanted t) && (tx_len t <? TCP_TX_BUF) then POLLOUT else 0) in
  if negb (t_error t =? 0) then Z.lor ready (Z.lor (Z.lor POLLERR POLLIN) POLLOUT) else ready.

Definition tcp_setopt (t : tcb) (name val : Z) : Z * tcb :=
  if name =? TCP_NODELAY then (0, t ▷ set_nodelay (negb (val =? 0)))
  else if name =? TCP_KEEPIDLE then if val <? 1 then (- EINVAL, t) else (0, t ▷ set_keep_idle val)
  else if name =? TCP_KEEPINTVL then if val <? 1 then (- EINVAL, t) else (0, t ▷ set_keep_intvl val)
  else if name =? TCP_KEEPCNT then if val <? 1 then (- EINVAL, t) else (0, t ▷ set_keep_cnt val)
  else if name =? TCP_MAXSEG then (0, t)
  else (- ENOPROTOOPT, t).

Definition tcp_getopt (t : tcb) (name : Z) : option Z :=
  if name =? TCP_NODELAY then Some (if nodelay t then 1 else 0)
  else if name =? TCP_KEEPIDLE then Some (keep_idle t)
  else if name =? TCP_KEEPINTVL then Some (keep_intvl t)
  else if name =? TCP_KEEPCNT then Some (keep_cnt t)
  else if name =? TCP_MAXSEG then Some (mss t)
  else None.

Definition tcp_set_keepalive (t : tcb) (on : bool) c : tcb := t ▷ set_keepalive on ▷ set_keep_sent 0 ▷ set_last_rx (c_now c).

Definition tcp_get_keepalive (t : tcb) : bool := keepalive t.

Definition tcp_is_listening (t : tcb) : bool := in_state t TCP_LISTEN.

End Connection.
