(* ===== verification/TcpWorld.v ===== *)
(** * TCP: all connections

    The table of connections of [kernel/src/net/tcp.c], [tcp_input.c] and [tcp_output.c]: opening,
    listening, accepting and closing, the lookup and dispatch of a segment, and the timer.  A
    connection is at the address of its block; [tcp_list] is the list through the [next] fields.
    [tcp_lock] makes each function one step; what it queued is sent after.  [random_keyed32] is
    the keyed hash of [random.c]. *)

From S2P Require Import Prelude Pmm Machine Bytes Heap Net TcpState Tcp.

(** [sizeof(tcb_t)]. *)
Definition sizeof_tcb : Z := 344.

Record tcp (H D : Type) := {
  t_net : net H D;
  t_clock : Z;
  tcbs : gmap Z tcb;
  tcp_list : list Z;
  t_wakes : list Z;
}.
Arguments t_net {H D}.
Arguments t_clock {H D}.
Arguments tcbs {H D}.
Arguments tcp_list {H D}.
Arguments t_wakes {H D}.

Section World.

Context {H D : Type} `{Heap H} (send : Z -> list Z -> D -> Z * D) (random_keyed32 : list Z -> Z).

Implicit Types w : tcp H D.

Definition out_queue : Type := list (netbuf * Z * Z).

Definition w_set_net w (s : net H D) : tcp H D :=
  {| t_net := s; t_clock := t_clock w; tcbs := tcbs w; tcp_list := tcp_list w; t_wakes := t_wakes w |}.

Definition w_set_tcbs w (m : gmap Z tcb) : tcp H D :=
  {| t_net := t_net w; t_clock := t_clock w; tcbs := m; tcp_list := tcp_list w; t_wakes := t_wakes w |}.

Definition w_set_list w (l : list Z) : tcp H D :=
  {| t_net := t_net w; t_clock := t_clock w; tcbs := tcbs w; tcp_list := l; t_wakes := t_wakes w |}.

Definition w_set_wakes w (l : list Z) : tcp H D :=
  {| t_net := t_net w; t_clock := t_clock w; tcbs := tcbs w; tcp_list := tcp_list w; t_wakes := l |}.

Definition tcb_at w (p : Z) : tcb := default tcb_new (tcbs w !! p).

Definition set_tcb (p : Z) (t : tcb) w : tcp H D := w_set_tcbs w (<[p := t]> (tcbs w)).

Definition upd_tcb (p : Z) (f : tcb -> tcb) w : tcp H D := set_tcb p (f (tcb_at w p)) w.

(** [t->parent->pending--] for each of [ps]. *)
Definition take_drops (ps : list Z) w : tcp H D := foldl (fun w p => upd_tcb p (fun l => l ▷ set_t_pending (t_pending l - 1)) w) w ps.

Definition ctx_of w (out : out_queue) : tctx H D := {| c_net := t_net w; c_out := out; c_wakes := t_wakes w; c_drops := [] |}.

Definition with_ctx w (c : tctx H D) : tcp H D := take_drops (c_drops c) (w_set_wakes (w_set_net w (c_net c)) (c_wakes c)).

(** A function of one connection, on the connection at [p]. *)
Definition on_tcb (p : Z) (f : tcb -> tctx H D -> tcb * tctx H D) w (out : out_queue) : tcp H D * out_queue :=
  let '(t, c) := f (tcb_at w p) (ctx_of w out) in (with_ctx (set_tcb p t w) c, c_out c).

Fixpoint tcp_out_flush (out : out_queue) w : tcp H D :=
  match out with
  | [] => w
  | (nb, src, dst) :: out => tcp_out_flush out (w_set_net w (ipv4_output send (t_net w) None nb src dst IP_PROTO_TCP).2)
  end.

Definition w_now w : Z := now_ms (t_net w).

(** ** Life of a connection *)

Definition w_kmalloc w (n : Z) : Z * tcp H D := let '(p, s) := n_kmalloc (t_net w) n in (p, w_set_net w s).

Definition w_kfree w (p : Z) : tcp H D := w_set_net w (n_kfree (t_net w) p).

(** 0 is [NULL]. *)
Definition tcp_alloc w : Z * tcp H D :=
  let '(p, w) := w_kmalloc w sizeof_tcb in
  if p =? 0 then (0, w) else (p, set_tcb p tcb_new w).

Definition tcp_alloc_rings (p : Z) w : Z * tcp H D :=
  let '(rx, w) := w_kmalloc w TCP_RX_BUF in
  let '(tx, w) := w_kmalloc w TCP_TX_BUF in
  if negb (rx =? 0) && negb (tx =? 0)
  then (0, upd_tcb p (fun t => t ▷ set_rx rx ▷ set_rx_ring ∅ ▷ set_tx tx ▷ set_tx_ring ∅) w)
  else
    let w := w_kfree (w_kfree w rx) tx in
    (- ENOMEM, upd_tcb p (fun t => t ▷ set_rx 0 ▷ set_tx 0) w).

Definition tcp_create w (wait : Z) : Z * tcp H D :=
  let '(p, w) := tcp_alloc w in
  if p =? 0 then (0, w)
  else
    let '(err, w) := tcp_alloc_rings p w in
    if negb (err =? 0) then (0, w_set_tcbs (w_kfree w p) (delete p (tcbs w)))
    else (p, upd_tcb p (set_t_wait wait) w).

Fixpoint list_unlink (p : Z) (l : list Z) : list Z :=
  match l with
  | [] => []
  | q :: l => if q =? p then l else q :: list_unlink p l
  end.

Definition tcp_unlink (p : Z) w : tcp H D := upd_tcb p (set_linked false) (w_set_list w (list_unlink p (tcp_list w))).

Definition tcp_free (p : Z) w : tcp H D :=
  let w := if linked (tcb_at w p) then tcp_unlink p w else w in
  let t := tcb_at w p in
  let w := w_kfree (w_kfree (w_kfree w (rx t)) (tx t)) p in
  w_set_tcbs w (delete p (tcbs w)).

Definition tcp_new_iss w (local_ip local_port remote_ip remote_port : Z) : Z :=
  wrap32 (t_clock w / 4000) +u random_keyed32 [local_ip; remote_ip; Z.lor (local_port ≪ 16) remote_port; 0x7C9A0001].

(** [t->next = tcp_list; tcp_list = t; t->linked = true]. *)
Definition tcp_link (p : Z) w : tcp H D := upd_tcb p (set_linked true) (w_set_list w (p :: tcp_list w)).

Definition tcp_link_once (p : Z) w : tcp H D := if linked (tcb_at w p) then w else tcp_link p w.

Definition tcp_connect (p local_ip' local_port' remote_ip' remote_port' : Z) w : Z * tcp H D :=
  match ipv4_route (t_net w) remote_ip' with
  | None => (- ENETUNREACH, w)
  | Some nif =>
    let src := if negb (local_ip' =? 0) then local_ip' else ipv4_source (nif_at (t_net w) nif) remote_ip' in
    if src =? 0 then (- ENETUNREACH, w)
    else
      let t := tcb_at w p in
      if in_state t TCP_SYN_SENT then (- EALREADY, w)
      else if negb (in_state t TCP_CLOSED) || was_connected t then (- EISCONN, w)
      else
        let seq := tcp_new_iss w src local_port' remote_ip' remote_port' in
        let t := t ▷ set_local_ip src ▷ set_local_port local_port' ▷ set_remote_ip remote_ip' ▷ set_remote_port remote_port' ▷ set_iss seq
                   ▷ set_snd_una seq ▷ set_snd_nxt (seq +u 1) ▷ set_t_state TCP_SYN_SENT ▷ set_t_error 0 ▷ set_retries 0
                   ▷ set_rto_ms (rto_base t) ▷ set_rto_at 0 in
        let '(w, out) := on_tcb p tcp_send_syn (set_tcb p t w) [] in
        let w := upd_tcb p (tcp_arm_rto (w_now w)) w in
        (0, tcp_out_flush out (tcp_link_once p w))
  end.

Definition tcp_listen (p local_ip' local_port' backlog' : Z) w : Z * tcp H D :=
  let backlog' := if backlog' <? 1 then 1 else backlog' in
  let backlog' := if TCP_BACKLOG_MAX <? backlog' then TCP_BACKLOG_MAX else backlog' in
  let t := tcb_at w p in
  if in_state t TCP_LISTEN then (0, set_tcb p (t ▷ set_backlog backlog') w)
  else if negb (in_state t TCP_CLOSED) || was_connected t then (- EISCONN, w)
  else
    let w := set_tcb p (t ▷ set_local_ip local_ip' ▷ set_local_port local_port' ▷ set_backlog backlog' ▷ set_t_state TCP_LISTEN) w in
    let w := tcp_link_once p w in
    let w := w_kfree (w_kfree w (rx t)) (tx t) in
    (0, upd_tcb p (fun t => t ▷ set_rx 0 ▷ set_tx 0) w).

(** The result and the connection accepted. *)
Definition tcp_accept (p wait : Z) w : Z * Z * tcp H D :=
  let t := tcb_at w p in
  if negb (in_state t TCP_LISTEN) then (- EINVAL, 0, w)
  else
    match accept_queue t with
    | [] => (- EAGAIN, 0, w)
    | c :: rest =>
      let w := set_tcb p (t ▷ set_accept_queue rest ▷ set_t_pending (t_pending t - 1)) w in
      (0, c, upd_tcb c (fun t => t ▷ set_t_parent 0 ▷ set_t_wait wait) w)
    end.

Definition tcp_endpoints (p : Z) w : Z * Z * Z * Z :=
  let t := tcb_at w p in (local_ip t, local_port t, remote_ip t, remote_port t).

(** ** Segments that arrive *)

(** The connection of the segment, else the last listener found; 0 is [NULL]. *)
Fixpoint find_tcb (m : gmap Z tcb) (l : list Z) (src src_port dst dst_port listener : Z) : Z :=
  match l with
  | [] => listener
  | p :: l =>
    let t := default tcb_new (m !! p) in
    if negb (local_port t =? dst_port) || in_state t TCP_CLOSED then find_tcb m l src src_port dst dst_port listener
    else if negb (local_ip t =? 0) && negb (local_ip t =? dst) then find_tcb m l src src_port dst dst_port listener
    else if in_state t TCP_LISTEN then find_tcb m l src src_port dst dst_port p
    else if (remote_port t =? src_port) && (remote_ip t =? src) then p
    else find_tcb m l src src_port dst dst_port listener
  end.

Definition tcp_find (src src_port dst dst_port : Z) w : Z := find_tcb (tcbs w) (tcp_list w) src src_port dst dst_port 0.

Definition tcp_listen_input (l src dst : Z) (h : tcp_hdr) (opts : list Z) (blen seq : Z) w (out : out_queue) : tcp H D * out_queue :=
  let has f := flag (th_flags h) f in
  let tl := tcb_at w l in
  if has TCP_RST then (w, out)
  else if has TCP_ACK
  then let c := tcp_reset_reply dst src h blen (ctx_of w out) in (with_ctx w c, c_out c)
  else if negb (has TCP_SYN) || (backlog tl <=? t_pending tl) then (w, out)
  else
    let '(p, w) := tcp_alloc w in
    if p =? 0 then (w, out)
    else
      let o := tcp_parse_syn opts in
      let lport := ntohs (th_dst_port h) in
      let rport := ntohs (th_src_port h) in
      let isn := tcp_new_iss w dst lport src rport in
      let t := tcb_at w p in
      let t := t ▷ tcp_use_syn_opts (w_now w) o ▷ set_rcv_shift 0 ▷ set_local_ip dst ▷ set_local_port lport ▷ set_remote_ip src
                 ▷ set_remote_port rport ▷ set_iss isn ▷ set_snd_una isn ▷ set_snd_nxt (isn +u 1) ▷ set_snd_wnd (ntohs (th_window h))
                 ▷ set_snd_wl1 seq ▷ set_rcv_nxt (seq +u 1) ▷ set_t_state TCP_SYN_RCVD ▷ set_t_parent l ▷ set_keepalive (keepalive tl)
                 ▷ set_nodelay (nodelay tl) ▷ set_keep_idle (keep_idle tl) ▷ set_keep_intvl (keep_intvl tl) ▷ set_keep_cnt (keep_cnt tl)
                 ▷ set_shift_next (if so_has_wscale o then TCP_WSCALE else 0) in
      let w := upd_tcb l (fun tl => tl ▷ set_t_pending (t_pending tl + 1)) (set_tcb p t w) in
      let w := tcp_link p w in
      let '(w, out) := on_tcb p tcp_send_syn w out in
      (upd_tcb p (tcp_arm_rto (w_now w)) w, out).

(** [false] when the connection did not survive. *)
Definition tcp_syn_rcvd (p : Z) (h : tcp_hdr) (seq ack : Z) w (out : out_queue) : bool * tcp H D * out_queue :=
  let has f := flag (th_flags h) f in
  let t := tcb_at w p in
  let lose x : bool * tcp H D * out_queue := let '(w, out) := x in (false, w, out) in
  if has TCP_RST then if seq =? rcv_nxt t then lose (on_tcb p tcp_drop_child w out) else (false, w, out)
  else if has TCP_SYN && (seq +u 1 =? rcv_nxt t) then lose (on_tcb p tcp_send_syn w out)
  else if negb (has TCP_ACK) then (false, w, out)
  else if negb (ack =? snd_nxt t) then lose (on_tcb p (fun t => tcp_send_ctl t TCP_RST ack) w out)
  else
    let '(err, w) := tcp_alloc_rings p w in
    if negb (err =? 0)
    then let '(w, out) := on_tcb p (fun t => tcp_send_ctl t TCP_RST ack) w out in lose (on_tcb p tcp_drop_child w out)
    else
      let t := tcb_at w p in
      let l := t_parent t in
      let t := t ▷ set_rcv_shift (shift_next t) ▷ set_snd_una ack ▷ set_t_state TCP_ESTABLISHED ▷ set_was_connected true ▷ set_rto_at 0
                 ▷ set_rto_ms (rto_base t) ▷ set_retries 0 in
      let w := upd_tcb l (fun tl => tl ▷ set_accept_queue (accept_queue tl ++ [p])) (set_tcb p t w) in
      let c := wake_wait (tcb_at w l) (ctx_of w out) in
      (true, with_ctx w c, c_out c).

Definition tcp_established_input (p : Z) (h : tcp_hdr) (seq ack : Z) (body : list Z) w (out : out_queue) : option (tcp H D * out_queue) :=
  '(t, c) ← tcp_conn_input (tcb_at w p) h seq ack body (ctx_of w out);
  Some (with_ctx (set_tcb p t w) c, c_out c).

Definition tcp_input (src dst : Z) (data : list Z) w : option (tcp H D) :=
  let len := Z.of_nat (length data) in
  if len <? TCP_HLEN then Some w
  else
    let h := tcp_hdr_read data in
    let hlen := (th_off h ≫ 4) * 4 in
    if (hlen <? TCP_HLEN) || (len <? hlen) then Some w
    else if negb (net_checksum data (ipv4_pseudo_sum src dst IP_PROTO_TCP len) =? 0) then Some w
    else
      let has f := flag (th_flags h) f in
      let seq := ntohl (th_seq h) in
      let ack := ntohl (th_ack h) in
      let body := drop (Z.to_nat hlen) data in
      let opts := drop (Z.to_nat TCP_HLEN) (take (Z.to_nat hlen) data) in
      let blen := len - hlen in
      let find w := tcp_find src (ntohs (th_src_port h)) dst (ntohs (th_dst_port h)) w in
      let p := find w in
      let '(p, w, out) :=
        if negb (p =? 0) && in_state (tcb_at w p) TCP_TIME_WAIT && has TCP_SYN && negb (has TCP_ACK) && SEQ_LT (rcv_nxt (tcb_at w p)) seq
        then let '(w, out) := on_tcb p (fun t => tcp_set_closed t 0) w [] in (find w, w, out)
        else (p, w, []) in
      let t := tcb_at w p in
      '(w, out) ←
        (if p =? 0
         then if negb (has TCP_RST) then let c := tcp_reset_reply dst src h blen (ctx_of w out) in Some (with_ctx w c, c_out c) else Some (w, out)
         else if in_state t TCP_LISTEN then Some (tcp_listen_input p src dst h opts blen seq w out)
         else if in_state t TCP_SYN_SENT then Some (on_tcb p (fun t => tcp_syn_sent t h opts seq ack) w out)
         else if has TCP_RST
         then if in_state t TCP_SYN_RCVD then let '(_, w, out) := tcp_syn_rcvd p h seq ack w out in Some (w, out)
              else Some (on_tcb p (fun t => tcp_reset_input t seq) w out)
         else
           let '(alive, w, out) := if in_state t TCP_SYN_RCVD then tcp_syn_rcvd p h seq ack w out else (true, w, out) in
           if alive then tcp_established_input p h seq ack body w out else Some (w, out));
      Some (tcp_out_flush out w).

(** An ICMP message about a segment sent from [src] to [dst]. *)
Definition tcp_unreachable (code src src_port dst dst_port seq : Z) w : tcp H D :=
  let p := tcp_find dst dst_port src src_port w in
  if negb (p =? 0) && in_state (tcb_at w p) TCP_SYN_SENT && (seq =? iss (tcb_at w p))
  then
    let err := if code =? 0 then - ENETUNREACH else if (code =? 2) || (code =? 3) then - ECONNREFUSED else - EHOSTUNREACH in
    (on_tcb p (fun t => tcp_set_closed t err) w []).1
  else w.

(** ** The timer *)

(** A turn for the connection at [p]; the one after it was read before. *)
Definition tcp_tick_one (now p : Z) (wo : tcp H D * out_queue) : tcp H D * out_queue :=
  let '(w, out) := wo in
  let '(w, out) := on_tcb p (tcp_tick_conn now) w out in
  let t := tcb_at w p in
  if detached t && in_state t TCP_CLOSED then (tcp_free p w, out)
  else if in_state t TCP_CLOSED && linked t then (tcp_unlink p w, out)
  else (w, out).

Definition tcp_tick w : tcp H D :=
  let '(w, out) := foldl (fun wo p => tcp_tick_one (w_now w) p wo) (w, []) (tcp_list w) in
  tcp_out_flush out w.

(** ** Letting go *)

Definition gone_queued (wo : tcp H D * out_queue) (c : Z) : tcp H D * out_queue :=
  let '(w, out) := wo in
  let '(w, out) := if negb (in_state (tcb_at w c) TCP_CLOSED) then on_tcb c (fun t => tcp_send_ctl t (Z.lor TCP_RST TCP_ACK) (snd_nxt t)) w out else (w, out) in
  (tcp_free c w, out).

Definition gone_half_open (l : Z) (wo : tcp H D * out_queue) (p : Z) : tcp H D * out_queue :=
  let '(w, out) := wo in
  if t_parent (tcb_at w p) =? l
  then let '(w, out) := on_tcb p (fun t => tcp_send_ctl t (Z.lor TCP_RST TCP_ACK) (snd_nxt t)) w out in on_tcb p tcp_drop_child w out
  else (w, out).

Definition tcp_listener_gone (l : Z) w (out : out_queue) : tcp H D * out_queue :=
  let '(w, out) := foldl gone_queued (w, out) (accept_queue (tcb_at w l)) in
  foldl (gone_half_open l) (w, out) (tcp_list w).

Definition tcp_detach (p : Z) (abort : bool) w : tcp H D :=
  let w := upd_tcb p (fun t => t ▷ set_t_wait 0 ▷ set_detached true) w in
  let t := tcb_at w p in
  let '(w, out) :=
    if in_state t TCP_LISTEN then let '(w, out) := tcp_listener_gone p w [] in (tcp_free p w, out)
    else if in_state t TCP_CLOSED || in_state t TCP_SYN_SENT then (tcp_free p w, [])
    else if abort || (negb (rx_len t =? 0) && negb (fin_sent t))
    then let '(w, out) := on_tcb p (fun t => tcp_send_ctl t (Z.lor TCP_RST TCP_ACK) (snd_nxt t)) w [] in (tcp_free p w, out)
    else if negb (in_state t TCP_TIME_WAIT)
    then on_tcb p tcp_push (set_tcb p (t ▷ set_fin_wanted true ▷ set_done_at (w_now w +w TCP_LINGER_MS)) w) []
    else (w, []) in
  tcp_out_flush out w.

End World.
