(* ===== verification/TcpLemmas.v ===== *)
(** * TCP: sequence numbers, rings and the wire

    What the connection proofs share.  A sequence number stands for a position in the stream, 32
    bits of it; positions less than 2^31 apart compare as their numbers do.  A ring holds the
    stream's bytes at their position modulo its size.  A segment that [tcp_segment] built is
    read back by [tcp_input] as it was meant. *)

From S2P Require Import Prelude Pmm Machine Bytes Heap Net NetProofs TcpState Tcp.

(** ** Sequence numbers *)

(** The sequence number of position [k] of a stream that starts at [base]. *)
Definition sq (base k : Z) : Z := base +u k.

Lemma sq_add base k n : sq base k +u n = sq base (k + n).
Proof. unfold sq, wrap32. rewrite Z.add_mod_idemp_l by lia. f_equal. lia. Qed.

Lemma sq_diff base a b : sq base a -u sq base b = wrap32 (a - b).
Proof. unfold sq, wrap32. rewrite <- Zminus_mod. f_equal. lia. Qed.

Lemma sq_sub base a b : 0 <= a - b < 2 ^ 32 -> sq base a -u sq base b = a - b.
Proof. intros Hr. rewrite sq_diff. by apply wrap32_small. Qed.

Lemma sq_dist a b : - 2 ^ 31 <= a - b < 2 ^ 31 -> wrap32 (a - b) = if a <? b then a - b + 2 ^ 32 else a - b.
Proof.
  intros Hr. destruct (Z.ltb_spec a b); [|by apply wrap32_small; lia]. unfold wrap32. rewrite <- (Z_mod_plus_full (a - b) 1). rewrite Z.mod_small by lia. lia.
Qed.

Lemma SEQ_LT_sq base a b : - 2 ^ 31 <= a - b < 2 ^ 31 -> SEQ_LT (sq base a) (sq base b) = (a <? b).
Proof.
  intros Hr. unfold SEQ_LT. rewrite sq_diff, sq_dist by done. destruct (Z.ltb_spec a b); [apply Z.leb_le; lia|apply Z.leb_gt; lia].
Qed.

Lemma SEQ_LEQ_sq base a b : - 2 ^ 31 <= a - b < 2 ^ 31 -> SEQ_LEQ (sq base a) (sq base b) = (a <=? b).
Proof.
  intros Hr. unfold SEQ_LEQ. rewrite SEQ_LT_sq by done. rewrite sq_diff, sq_dist by done. destruct (Z.ltb_spec a b).
  - symmetry. apply Z.leb_le. lia.
  - cbn [orb]. destruct (Z.eqb_spec (a - b) 0), (Z.leb_spec a b); lia || done.
Qed.

Lemma sq_eqb base a b : - 2 ^ 31 <= a - b < 2 ^ 31 -> (sq base a =? sq base b) = (a =? b).
Proof.
  intros Hr. destruct (Z.eqb_spec a b) as [->|Hn]; [by apply Z.eqb_eq|]. apply Z.eqb_neq. intros E.
  pose proof (sq_dist a b Hr) as Ed. rewrite <- (sq_diff base), E, Z.sub_diag in Ed. change (wrap32 0) with 0 in Ed. destruct (a <? b) eqn:?; lia.
Qed.

Lemma sq_range base k : 0 <= sq base k < 2 ^ 32.
Proof. unfold sq, wrap32. apply Z.mod_pos_bound. lia. Qed.

(** ** Rings *)

Lemma mem_write_lookup bs : forall r at_ i, mem_write r at_ bs !! i = if (at_ <=? i) && (i <? at_ + Z.of_nat (length bs)) then bs !! Z.to_nat (i - at_) else r !! i.
Proof.
  induction bs as [|b bs IH]; intros r at_ i; cbn [mem_write length].
  - destruct (Z.leb_spec at_ i), (Z.ltb_spec i (at_ + Z.of_nat 0)); try done; lia.
  - rewrite IH. destruct (decide (i = at_)) as [->|Hn].
    + rewrite (proj2 (Z.leb_gt (at_ + 1) at_)) by lia. cbn [andb]. rewrite lookup_insert_eq, Z.leb_refl, (proj2 (Z.ltb_lt _ _)) by lia. rewrite Z.sub_diag. done.
    + rewrite lookup_insert_ne by done. destruct (Z.leb_spec (at_ + 1) i), (Z.leb_spec at_ i); try lia; cbn [andb]; [|done].
      replace (at_ + Z.of_nat (S (length bs))) with (at_ + 1 + Z.of_nat (length bs)) by lia. destruct (i <? _); [|done].
      replace (Z.to_nat (i - at_)) with (S (Z.to_nat (i - (at_ + 1)))) by lia. done.
Qed.

Section Ring.

Context (size : Z) (Hsize : 0 < size).

Lemma ring_wrap at_ j : 0 <= at_ < size -> 0 <= j < size -> (at_ + j) `mod` size = if at_ + j <? size then at_ + j else at_ + j - size.
Proof.
  intros Ha Hj. destruct (Z.ltb_spec (at_ + j) size); [by apply Z.mod_small; lia|]. rewrite <- (Z_mod_plus_full _ (-1)). rewrite Z.mod_small by lia. lia.
Qed.

Lemma ring_write_in r at_ bs j b : 0 <= at_ < size -> Z.of_nat (length bs) <= size -> bs !! j = Some b -> ring_write size r at_ bs !! ((at_ + Z.of_nat j) `mod` size) = Some b.
Proof.
  intros Ha Hl Hj. pose proof (lookup_lt_Some _ _ _ Hj) as Hlt. rewrite ring_wrap by lia. unfold ring_write. set (first := if size - at_ <? Z.of_nat (length bs) then size - at_ else Z.of_nat (length bs)).
  assert (Hf : first = Z.min (size - at_) (Z.of_nat (length bs))) by (unfold first; destruct (Z.ltb_spec (size - at_) (Z.of_nat (length bs))); lia). clearbody first.
  rewrite mem_write_lookup, length_drop. destruct (Z.ltb_spec (at_ + Z.of_nat j) size) as [Hc|Hc].
  - assert (E : (0 <=? at_ + Z.of_nat j) && (at_ + Z.of_nat j <? 0 + Z.of_nat (length bs - Z.to_nat first)) = false).
    { destruct (decide (first = size - at_)); [|apply andb_false_iff; right; apply Z.ltb_ge; lia]. apply andb_false_iff. right. apply Z.ltb_ge. lia. }
    rewrite E. rewrite mem_write_lookup, length_take, (proj2 (Z.leb_le _ _)), (proj2 (Z.ltb_lt _ _)) by lia. cbn [andb]. replace (Z.to_nat (at_ + Z.of_nat j - at_)) with j by lia.
    rewrite lookup_take_lt by lia. done.
  - rewrite (proj2 (Z.leb_le _ _)), (proj2 (Z.ltb_lt _ _)) by lia. cbn [andb]. rewrite lookup_drop. replace (Z.to_nat first + Z.to_nat (at_ + Z.of_nat j - size - 0))%nat with j by lia. done.
Qed.

Lemma ring_write_out r at_ bs i : 0 <= at_ < size -> 0 <= i < size -> Z.of_nat (length bs) <= size ->
  (forall j, 0 <= j < Z.of_nat (length bs) -> (at_ + j) `mod` size <> i) -> ring_write size r at_ bs !! i = r !! i.
Proof.
  intros Ha Hi Hl Hn. unfold ring_write. set (first := if size - at_ <? Z.of_nat (length bs) then size - at_ else Z.of_nat (length bs)).
  assert (Hf : first = Z.min (size - at_) (Z.of_nat (length bs))) by (unfold first; destruct (Z.ltb_spec (size - at_) (Z.of_nat (length bs))); lia). clearbody first.
  rewrite mem_write_lookup, length_drop. destruct (_ && _) eqn:E1.
  - apply andb_true_iff in E1 as [E1%Z.leb_le E2%Z.ltb_lt]. exfalso. apply (Hn (i + size - at_)); [lia|]. rewrite ring_wrap by lia. destruct (Z.ltb_spec (at_ + (i + size - at_)) size); lia.
  - clear E1. rewrite mem_write_lookup, length_take. destruct (_ && _) eqn:E2; [|done]. apply andb_true_iff in E2 as [E2%Z.leb_le E3%Z.ltb_lt]. exfalso. apply (Hn (i - at_)); [lia|].
    rewrite ring_wrap by lia. destruct (Z.ltb_spec (at_ + (i - at_)) size); lia.
Qed.

Lemma ring_read_spec r at_ len : 0 <= at_ < size -> 0 <= len <= size ->
  ring_read size r at_ len = (fun j => default 0 (r !! ((at_ + Z.of_nat j) `mod` size))) <$> seq 0 (Z.to_nat len).
Proof.
  intros Ha Hl. unfold ring_read. set (first := if _ <? _ then _ else _).
  assert (Hf : first = Z.min (size - at_) len) by (unfold first; destruct (Z.ltb_spec (size - at_) len); lia). clearbody first. unfold mem_bytes.
  replace (Z.to_nat len) with (Z.to_nat first + Z.to_nat (len - first))%nat by lia. rewrite seq_app, fmap_app. f_equal.
  - apply list_fmap_ext. intros i j Hj. apply lookup_seq in Hj as [-> Hj]. rewrite ring_wrap by lia. rewrite (proj2 (Z.ltb_lt _ _)) by lia. done.
  - apply list_eq. intros i. rewrite !list_lookup_fmap. destruct (decide (i < Z.to_nat (len - first))%nat) as [Hi|Hi].
    + rewrite !lookup_seq_lt by lia. cbn [fmap option_fmap option_map]. rewrite ring_wrap by lia. rewrite (proj2 (Z.ltb_ge _ _)) by lia. do 3 f_equal. lia.
    + rewrite !lookup_seq_ge by lia. done.
Qed.

(** *** A ring that holds a stream *)

(** The ring has the byte of position [k]. *)
Definition holds (W : list Z) (r : gmap Z Z) (k : Z) : Prop := exists b, r !! (k `mod` size) = Some b /\ W !! Z.to_nat k = Some b.

Lemma holds_lt W r k : 0 <= k -> holds W r k -> k < Z.of_nat (length W).
Proof. intros Hk (b & _ & Hb). apply lookup_lt_Some in Hb. lia. Qed.

Lemma holds_more W W' r k : holds W r k -> holds (W ++ W') r k.
Proof. intros (b & H1 & H2). exists b. split; [done|]. by apply lookup_app_l_Some. Qed.

(** Writing the bytes of the stream at their place gives them, and takes no other that is less
    than a ring away. *)
Lemma holds_write W r x bs k : 0 <= x -> Z.of_nat (length bs) <= size -> (forall j b, bs !! j = Some b -> W !! (Z.to_nat x + j)%nat = Some b) ->
  0 <= k -> (x <= k < x + Z.of_nat (length bs) \/ (x + Z.of_nat (length bs) <= k + size /\ k < x + size /\ holds W r k)) -> holds W (ring_write size r (x `mod` size) bs) k.
Proof.
  intros Hx Hl Hb Hk Hcase. pose proof (Z.mod_pos_bound x size Hsize) as Hmod. destruct (decide (x <= k < x + Z.of_nat (length bs))) as [Hin|Hout].
  - destruct (lookup_lt_is_Some_2 bs (Z.to_nat (k - x))) as [b E]; [lia|]. exists b. split.
    + replace (k `mod` size) with ((x `mod` size + Z.of_nat (Z.to_nat (k - x))) `mod` size); [by apply ring_write_in; [lia|lia|]|]. rewrite Z.add_mod_idemp_l by lia. f_equal. lia.
    + specialize (Hb _ _ E). replace (Z.to_nat k) with (Z.to_nat x + Z.to_nat (k - x))%nat by lia. done.
  - destruct Hcase as [?|(H1 & H2 & b & H3 & H4)]; [done|]. exists b. split; [|done]. rewrite ring_write_out; [done|lia|apply Z.mod_pos_bound; lia|done|].
    intros j Hj E. rewrite Z.add_mod_idemp_l in E by lia. apply Z.cong_iff_0 in E. assert (Hd : exists q, x + j - k = size * q) by (apply Z.mod_divide in E as [q ->]; [exists q; lia|lia]).
    destruct Hd as [q Hq]. assert (q = 0 \/ q <= -1 \/ 1 <= q) as [->|[Hq'|Hq']] by lia; nia.
Qed.

Lemma holds_read W r x len : 0 <= x -> 0 <= len <= size -> (forall k, x <= k < x + len -> holds W r k) ->
  ring_read size r (x `mod` size) len = take (Z.to_nat len) (drop (Z.to_nat x) W).
Proof.
  intros Hx Hl Hh. rewrite ring_read_spec; [|apply Z.mod_pos_bound; lia|done]. apply list_eq. intros i. rewrite list_lookup_fmap. destruct (decide (i < Z.to_nat len)%nat) as [Hi|Hi].
  - rewrite lookup_seq_lt by done. cbn [fmap option_fmap option_map]. rewrite Z.add_mod_idemp_l by lia. destruct (Hh (x + Z.of_nat i)) as (b & H1 & H2); [lia|].
    cbn [Nat.add]. rewrite H1. cbn [default]. rewrite lookup_take_lt by done. rewrite lookup_drop. replace (Z.to_nat x + i)%nat with (Z.to_nat (x + Z.of_nat i)) by lia. done.
  - rewrite lookup_seq_ge by lia. rewrite lookup_take_ge by lia. done.
Qed.

End Ring.

(** ** The wire *)

(** A sum and the complement of what it folds to fold to all ones. *)
Lemma fold_complement t : 0 < t -> t + 65536 < 2 ^ 32 -> fold_sum 4 (t + (65535 - fold_sum 4 t)) = 65535.
Proof.
  intros Ht Hlt. destruct (fold_sum_spec t ltac:(lia)) as (F1 & F2 & F3). set (f := fold_sum 4 t) in *. destruct (fold_sum_spec (t + (65535 - f)) ltac:(lia)) as (G1 & G2 & G3). set (g := fold_sum 4 (t + (65535 - f))) in *.
  assert (Hz : (t + (65535 - f)) `mod` 65535 = 0) by (clearbody f g; zlia). rewrite Hz in G2. destruct (Z.eq_dec g 0) as [E|]; [specialize (G3 E); lia|]. clearbody f g. zlia.
Qed.

(** The fields of a segment fit theirs. *)
Record seg_fits (src dst sport dport seq ack flags window : Z) (opts payload : list Z) : Prop := {
  sf_ips : 0 <= src < 2 ^ 32 /\ 0 <= dst < 2 ^ 32;
  sf_ports : 0 <= sport < 65536 /\ 0 <= dport < 65536;
  sf_seqs : 0 <= seq < 2 ^ 32 /\ 0 <= ack < 2 ^ 32;
  sf_rest : 0 <= flags < 256 /\ 0 <= window < 65536;
  sf_bytes : Forall is_byte opts /\ Forall is_byte payload;
  sf_opts : Z.of_nat (length opts) `mod` 4 = 0 /\ Z.of_nat (length opts) <= 40;
  sf_len : Z.of_nat (length payload) <= 60000;
}.

Lemma lor_halves hi lo : 0 <= lo < 65536 -> Z.lor (hi * 65536) lo = hi * 65536 + lo.
Proof.
  intros Hlo. assert (E : Z.land (hi * 65536) lo = 0); [|rewrite <- Z.add_lor_land, E; lia].
  apply Z.bits_inj'. intros k Hk. rewrite Z.land_spec, Z.bits_0. change 65536 with (2 ^ 16). destruct (decide (k < 16)); [by rewrite Z.mul_pow2_bits_low by lia|].
  replace lo with (lo `mod` 2 ^ 16) by (apply Z.mod_small; lia). rewrite Z.mod_pow2_bits_high by lia. apply andb_false_r.
Qed.

Lemma htonl_arith x : 0 <= x < 2 ^ 32 -> htonl x = (x `mod` 256) * 16777216 + (x / 256) `mod` 256 * 65536 + (x / 65536) `mod` 256 * 256 + x / 16777216.
Proof.
  intros Hx. unfold htonl. rewrite !htons_arith. change 0xFFFF with (Z.ones 16). rewrite Z.land_ones, Z.shiftr_div_pow2 by lia. change (2 ^ 16) with 65536.
  rewrite Z.shiftl_mul_pow2 by lia. change (2 ^ 16) with 65536. change (2 ^ 32) with 4294967296 in Hx.
  set (hi := (x `mod` 65536) `mod` 256 * 256 + (x `mod` 65536 / 256) `mod` 256). set (lo := (x / 65536) `mod` 256 * 256 + (x / 65536 / 256) `mod` 256).
  rewrite lor_halves by (unfold lo; zlia). unfold hi, lo. zlia.
Qed.

Lemma htonl_range x : 0 <= htonl x < 2 ^ 32.
Proof. unfold htonl. pose proof (htons_range (Z.land x 0xFFFF)). pose proof (htons_range (x ≫ 16)). rewrite Z.shiftl_mul_pow2 by lia. change (2 ^ 16) with 65536. rewrite lor_halves by done. lia. Qed.

Lemma htonl_digits a b c d : 0 <= a < 256 -> 0 <= b < 256 -> 0 <= c < 256 -> 0 <= d < 256 ->
  htonl (d * 16777216 + c * 65536 + b * 256 + a) = a * 16777216 + b * 65536 + c * 256 + d.
Proof.
  intros Ha Hb Hc Hd. set (x := d * 16777216 + c * 65536 + b * 256 + a). rewrite htonl_arith by (unfold x; lia).
  assert (x `mod` 256 = a) as -> by (symmetry; apply (Z.mod_unique_pos x 256 (d * 65536 + c * 256 + b)); unfold x; lia).
  assert (x / 256 = d * 65536 + c * 256 + b) as -> by (symmetry; apply (Z.div_unique_pos x 256 _ a); unfold x; lia).
  assert (x / 65536 = d * 256 + c) as -> by (symmetry; apply (Z.div_unique_pos x 65536 _ (b * 256 + a)); unfold x; lia).
  assert (x / 16777216 = d) as -> by (symmetry; apply (Z.div_unique_pos x 16777216 _ (c * 65536 + b * 256 + a)); unfold x; lia).
  assert ((d * 65536 + c * 256 + b) `mod` 256 = b) as -> by (symmetry; apply (Z.mod_unique_pos _ 256 (d * 256 + c)); lia).
  assert ((d * 256 + c) `mod` 256 = c) as -> by (symmetry; apply (Z.mod_unique_pos _ 256 d); lia). lia.
Qed.

Lemma htonl_twice x : 0 <= x < 2 ^ 32 -> htonl (htonl x) = x.
Proof.
  intros Hx. change (2 ^ 32) with 4294967296 in Hx.
  assert (E : exists a b c d, x = d * 16777216 + c * 65536 + b * 256 + a /\ 0 <= a < 256 /\ 0 <= b < 256 /\ 0 <= c < 256 /\ 0 <= d < 256).
  { exists (x `mod` 256), ((x / 256) `mod` 256), ((x / 65536) `mod` 256), (x / 16777216). split; [|split_and!; zlia]. zlia. }
  destruct E as (a & b & c & d & -> & Ha & Hb & Hc & Hd). rewrite htonl_digits by done. by rewrite htonl_digits by done.
Qed.

Record tcp_hdr_ok (h : tcp_hdr) : Prop := {
  to_halves : 0 <= th_src_port h < 65536 /\ 0 <= th_dst_port h < 65536 /\ 0 <= th_window h < 65536 /\ 0 <= th_checksum h < 65536 /\ 0 <= th_urgent h < 65536;
  to_words : 0 <= th_seq h < 2 ^ 32 /\ 0 <= th_ack h < 2 ^ 32;
  to_bytes : is_byte (th_off h) /\ is_byte (th_flags h);
}.

Lemma tcp_hdr_roundtrip h rest : tcp_hdr_ok h -> tcp_hdr_read (tcp_hdr_bytes h ++ rest) = h.
Proof.
  intros [(A & B & C & E & F) (G1 & G2) (K1 & K2)]. unfold is_byte in *. destruct h as [sp dp sq ak off fl wi ck ur]. cbn [th_src_port th_dst_port th_seq th_ack th_off th_flags th_window th_checksum th_urgent] in *.
  unfold tcp_hdr_read, rd_le, tcp_hdr_bytes. cbn -[Z.land Z.mul Z.add Z.shiftr]. rewrite !Z.shiftr_0_r, !land_255. change (8 * Z.of_nat 1) with 8. rewrite !Z.shiftr_div_pow2 by lia.
  change (2 ^ (8 * Z.of_nat 2)) with 65536. change (2 ^ (8 * Z.of_nat 3)) with 16777216. change (2 ^ 8) with 256. rewrite take_0. cbn [foldr]. change (2 ^ 32) with 4294967296 in *.
  f_equal; try lia; zlia.
Qed.

Lemma tcp_hdr_length h : length (tcp_hdr_bytes h) = 20%nat.
Proof. reflexivity. Qed.

Lemma tcp_hdr_range h : tcp_hdr_ok h -> Forall is_byte (tcp_hdr_bytes h).
Proof. intros [_ _ (A & B)]. unfold tcp_hdr_bytes. repeat (apply Forall_app; split); try apply le_bytes_range; repeat constructor; apply A || apply B. Qed.

Lemma tcp_hdr_sum sport dport seq ack flags window optlen c rest : 0 <= c < 65536 ->
  half_sum (tcp_hdr_bytes (tcp_header sport dport seq ack flags window optlen c) ++ rest) = half_sum (tcp_hdr_bytes (tcp_header sport dport seq ack flags window optlen 0) ++ rest) + htons c.
Proof.
  intros Hc. rewrite htons_arith. unfold tcp_hdr_bytes, tcp_header. cbn [th_src_port th_dst_port th_seq th_ack th_off th_flags th_window th_checksum th_urgent].
  rewrite (le_bytes_S 1 c), (le_bytes_S 0 (c ≫ 8)), shiftr_8. cbn -[Z.land Z.mul Z.add Z.shiftr Z.modulo Z.div htonl htons half_sum]. cbn [half_sum]. rewrite ?Z.shiftr_0_l, ?Z.land_0_l, !land_255. lia.
Qed.

Lemma pseudo_sum src dst len : 0 <= src < 2 ^ 32 -> 0 <= dst < 2 ^ 32 -> 0 < ipv4_pseudo_sum src dst IP_PROTO_TCP len <= 786420.
Proof.
  intros Hs Hd. unfold ipv4_pseudo_sum. set (bs := le_bytes 4 src ++ _).
  assert (Hb : Forall is_byte bs) by (unfold bs; repeat (apply Forall_app; split); try apply le_bytes_range; repeat constructor; unfold is_byte; unfold IP_PROTO_TCP; lia).
  rewrite (partial_sum 12) by (done || (unfold bs; simpl length; lia)). pose proof (half_sum_bound 12 bs ltac:(simpl; lia) Hb) as HB. change (length bs) with 12%nat in HB.
  assert (Hpos : 6 <= half_sum bs); [|lia]. pose proof (half_sum_bound 2 (le_bytes 2 (htons (Z.land len 0xFFFF))) ltac:(rewrite le_bytes_length; lia) (le_bytes_range _ _)) as HL.
  assert (forall n z, Forall is_byte (le_bytes n z)) as HR by (intros; apply le_bytes_range).
  pose proof (half_sum_bound 8 (le_bytes 4 src ++ le_bytes 4 dst) ltac:(rewrite length_app, !le_bytes_length; lia) (proj2 (Forall_app _ _ _) (conj (HR _ _) (HR _ _)))) as HA.
  assert (E : half_sum bs = half_sum (le_bytes 4 src ++ le_bytes 4 dst) + (0 * 256 + IP_PROTO_TCP) + half_sum (le_bytes 2 (htons (Z.land len 0xFFFF)))).
  { unfold bs, le_bytes. cbn -[Z.land Z.mul Z.add Z.shiftr Z.modulo Z.div htons half_sum IP_PROTO_TCP]. cbn [half_sum]. lia. }
  unfold IP_PROTO_TCP in E. lia.
Qed.

Lemma segment_read src dst sport dport seq ack flags window opts payload : seg_fits src dst sport dport seq ack flags window opts payload ->
  let bs := tcp_segment_bytes src dst sport dport seq ack flags window opts payload in
  let hlen := 20 + Z.of_nat (length opts) in
  Z.of_nat (length bs) = hlen + Z.of_nat (length payload) /\ net_checksum bs (ipv4_pseudo_sum src dst IP_PROTO_TCP (Z.of_nat (length bs))) = 0 /\
  (exists c, tcp_hdr_read bs = tcp_header sport dport seq ack flags window (Z.of_nat (length opts)) c) /\
  (th_off (tcp_hdr_read bs) ≫ 4) * 4 = hlen /\ drop (Z.to_nat hlen) bs = payload /\ Forall is_byte bs.
Proof.
  intros [(Hs1 & Hs2) (Hp1 & Hp2) (Hq1 & Hq2) (Hf & Hw) (Hb1 & Hb2) (Ho1 & Ho2) Hl]. set (ol := Z.of_nat (length opts)) in *.
  assert (Hoff : Z.land (((TCP_HLEN + ol) / 4) ≪ 4) 255 = (20 + ol) / 4 * 16).
  { rewrite land_255, Z.shiftl_mul_pow2 by lia. change (2 ^ 4) with 16. unfold TCP_HLEN. apply Z.mod_small. zlia. }
  assert (Hok : forall c, 0 <= c < 65536 -> tcp_hdr_ok (tcp_header sport dport seq ack flags window ol c)).
  { intros c Hc. split; cbn [tcp_header th_src_port th_dst_port th_seq th_ack th_off th_flags th_window th_checksum th_urgent].
    - split_and!; try apply htons_range; lia.
    - split; apply htonl_range.
    - unfold is_byte. rewrite Hoff. split; [zlia|done]. }
  set (with_sum c := tcp_hdr_bytes (tcp_header sport dport seq ack flags window ol c) ++ opts ++ payload).
  assert (Hbyte : forall c, 0 <= c < 65536 -> Forall is_byte (with_sum c)) by (intros c Hc; apply Forall_app; split; [by apply tcp_hdr_range, Hok|by apply Forall_app]).
  assert (Hlen : forall c, length (with_sum c) = (20 + (length opts + length payload))%nat) by (intros c; unfold with_sum; rewrite length_app, length_app; reflexivity).
  intros bs hlen. change bs with (with_sum (net_checksum (with_sum 0) (ipv4_pseudo_sum src dst IP_PROTO_TCP (Z.of_nat (length (with_sum 0)))))) in *.
  set (P := ipv4_pseudo_sum src dst IP_PROTO_TCP (Z.of_nat (length (with_sum 0)))). set (c := net_checksum (with_sum 0) P). assert (Hc : 0 <= c < 65536) by apply htons_range.
  pose proof (pseudo_sum src dst (Z.of_nat (length (with_sum 0))) Hs1 Hs2) as HP. fold P in HP.
  pose proof (half_sum_bound (length (with_sum 0)) (with_sum 0) (le_n _) (Hbyte 0 ltac:(lia))) as HB.
  assert (Epart : forall x, 0 <= x < 65536 -> net_checksum_partial (with_sum x) P = P + half_sum (with_sum x)).
  { intros x Hx. apply (partial_sum (length (with_sum x))); [done|by apply Hbyte|lia|]. rewrite Hlen. lia. }
  split; [rewrite Hlen; unfold hlen, ol; lia|]. split; [|split; [|split; [|split]]].
  - assert (EP : ipv4_pseudo_sum src dst IP_PROTO_TCP (Z.of_nat (length (with_sum c))) = P) by (unfold P; by rewrite !Hlen). rewrite EP. unfold net_checksum. rewrite Epart by done.
    assert (Ec : htons c = 65535 - fold_sum 4 (P + half_sum (with_sum 0))).
    { unfold c, net_checksum. rewrite Epart by lia. destruct (fold_sum_spec (P + half_sum (with_sum 0))) as (F1 & _ & _); [rewrite Hlen in HB; lia|]. rewrite not_half by done. apply htons_twice. lia. }
    unfold with_sum at 1. rewrite tcp_hdr_sum by done. fold (with_sum 0). rewrite Ec, Z.add_assoc, fold_complement; [reflexivity|lia|rewrite Hlen in HB; lia].
  - exists c. unfold with_sum. apply tcp_hdr_roundtrip. by apply Hok.
  - unfold with_sum. rewrite tcp_hdr_roundtrip by (by apply Hok). cbn [tcp_header th_off]. rewrite Hoff, Z.shiftr_div_pow2 by lia. change (2 ^ 4) with 16. rewrite Z.div_mul by lia. unfold hlen. zlia.
  - unfold with_sum. rewrite app_assoc. apply drop_app_length'. rewrite length_app, tcp_hdr_length. unfold hlen, ol. lia.
  - by apply Hbyte.
Qed.
