(* ===== verification/TcpRecv.v ===== *)
(** * TCP: what a connection receives

    Segments of a stream come in any order, overlapping and repeated; what [tcp_recv] hands out
    is the stream from its start on, and the end of file comes after its last byte.  The ranges
    past a hole ([tcp_ooo_add], [tcp_ooo_settle]) are sorted, apart, and in the ring. *)

From S2P Require Import Prelude Pmm Machine Bytes Heap Net NetProofs TcpState Tcp TcpLemmas.

Definition zlen {A} (l : list A) : Z := Z.of_nat (length l).

(** ** Ranges of positions *)

(** Sorted ranges above [lo], apart from each other, up to [hi]. *)
Fixpoint ranges (lo hi : Z) (l : list (Z * Z)) : Prop :=
  match l with
  | [] => lo <= hi
  | (a, b) :: l => lo < a /\ a < b /\ ranges b hi l
  end.

Definition covers (l : list (Z * Z)) (k : Z) : Prop := exists a b, (a, b) ∈ l /\ a <= k < b.

Definition in_seq (irs : Z) (l : list (Z * Z)) : list (Z * Z) := (fun r : Z * Z => (sq irs r.1, sq irs r.2)) <$> l.

Lemma ranges_le lo hi l : ranges lo hi l -> lo <= hi.
Proof. revert lo. induction l as [|[a b] l IH]; intros lo; cbn [ranges]; [done|]. intros (H1 & H2 & H3%IH). lia. Qed.

Lemma ranges_weaken lo lo' hi l : lo' <= lo -> ranges lo hi l -> ranges lo' hi l.
Proof. destruct l as [|[a b] l]; cbn [ranges]; intros; [lia|]. destruct H0 as (? & ? & ?). split_and!; lia || done. Qed.

Lemma ranges_hi lo hi hi' l : hi <= hi' -> ranges lo hi l -> ranges lo hi' l.
Proof. intros Hh. revert lo. induction l as [|[a b] l IH]; intros lo; cbn [ranges]; [lia|]. intros (? & ? & ?). split_and!; auto. Qed.

Lemma covers_bound lo hi l k : ranges lo hi l -> covers l k -> lo < k < hi.
Proof.
  revert lo. induction l as [|[a b] l IH]; intros lo HR (x & y & Hin & Hk); [by apply not_elem_of_nil in Hin|]. cbn [ranges] in HR. destruct HR as (H1 & H2 & H3).
  apply list_elem_of_In in Hin. destruct Hin as [[= <- <-]|Hin]; [pose proof (ranges_le _ _ _ H3); lia|]. apply list_elem_of_In in Hin. assert (b < k < hi); [|lia]. apply (IH b H3). by exists x, y.
Qed.

Lemma covers_cons a b l k : covers ((a, b) :: l) k <-> a <= k < b \/ covers l k.
Proof.
  split.
  - intros (x & y & Hin & Hk). apply list_elem_of_In in Hin. destruct Hin as [[= <- <-]|Hin]; [by left|]. right. exists x, y. split; [by apply list_elem_of_In|done].
  - intros [Hk|(x & y & Hin & Hk)]; [exists a, b; split; [left|done]|exists x, y; split; [by right|done]].
Qed.

(** *** [tcp_ooo_settle] *)

Lemma settle_spec irs l : forall lo hi nxt len, ranges lo hi l -> lo <= nxt <= hi -> hi - lo < 2 ^ 31 -> 0 <= len -> len + (hi - nxt) < 2 ^ 32 ->
  exists nxt' l', ooo_settle (in_seq irs l) (sq irs nxt) len = (sq irs nxt', len + (nxt' - nxt), in_seq irs l') /\ nxt <= nxt' <= hi /\ ranges nxt' hi l' /\
  (forall k, nxt <= k < nxt' -> covers l k) /\ (forall k, covers l' k -> covers l k) /\ (length l' <= length l)%nat.
Proof.
  induction l as [|[a b] l IH]; intros lo hi nxt len HR Hn Hd Hl Hlt; cbn [in_seq fmap list_fmap ooo_settle fst snd].
  - exists nxt, []. split; [by rewrite Z.sub_diag, Z.add_0_r|]. split; [lia|]. split; [simpl; lia|]. split; [intros; lia|done].
  - cbn [ranges] in HR. destruct HR as (H1 & H2 & H3). pose proof (ranges_le _ _ _ H3) as Hb. rewrite SEQ_LEQ_sq, SEQ_LT_sq by lia.
    assert (HC : forall k, covers l k -> covers ((a, b) :: l) k) by (intros k Hk; apply covers_cons; by right).
    destruct (Z.leb_spec a nxt) as [Ha|Ha].
    + destruct (Z.ltb_spec nxt b) as [Hb'|Hb'].
      * rewrite sq_sub by lia. rewrite wrap32_small by lia. destruct (IH b hi b (len + (b - nxt)) H3 ltac:(lia) ltac:(lia) ltac:(lia) ltac:(lia)) as (n' & l' & E & B1 & B2 & B3 & B4 & B5).
        exists n', l'. fold (in_seq irs l). rewrite E. split; [do 2 f_equal; lia|]. split; [lia|]. split; [done|]. split; [|split; [auto|simpl; lia]].
        intros k Hk. destruct (decide (k < b)); [apply covers_cons; left; lia|apply HC, B3; lia].
      * destruct (IH b hi nxt len H3 ltac:(lia) ltac:(lia) ltac:(lia) ltac:(lia)) as (n' & l' & E & B1 & B2 & B3 & B4 & B5). exists n', l'. fold (in_seq irs l). rewrite E. split; [done|]. split; [lia|]. split; [done|]. split; [intros k Hk; apply HC, B3; lia|]. split; [auto|simpl; lia].
    + exists nxt, ((a, b) :: l). split; [rewrite Z.sub_diag, Z.add_0_r; done|]. split; [lia|]. split; [cbn [ranges]; split_and!; done|]. split; [intros; lia|done].
Qed.

(** *** [tcp_ooo_add] *)

Lemma before_spec irs l s : forall lo hi, ranges lo hi l -> lo < s <= hi -> hi - lo < 2 ^ 31 ->
  exists pre rest lo', ooo_before (sq irs s) (in_seq irs l) = (in_seq irs pre, in_seq irs rest) /\ l = pre ++ rest /\ lo <= lo' < s /\
  (forall l', ranges lo' hi l' -> ranges lo hi (pre ++ l')) /\ ranges lo' hi rest /\ match rest with (a, b) :: _ => s <= b | [] => True end.
Proof.
  induction l as [|[a b] l IH]; intros lo hi HR Hs Hd; cbn [in_seq fmap list_fmap ooo_before fst snd].
  - exists [], [], lo. by split_and!; try done; try lia.
  - cbn [ranges] in HR. destruct HR as (H1 & H2 & H3). pose proof (ranges_le _ _ _ H3) as Hb. rewrite SEQ_LT_sq by lia. destruct (Z.ltb_spec b s) as [Hbs|Hbs].
    + destruct (IH b hi H3 ltac:(lia) ltac:(lia)) as (pre & rest & lo' & E & -> & B1 & B2 & B3 & B4). exists ((a, b) :: pre), rest, lo'. fold (in_seq irs (pre ++ rest)). rewrite E.
      split; [done|]. split; [done|]. split; [lia|]. split; [intros l' Hl'; cbn [app ranges]; split_and!; auto|done].
    + exists [], ((a, b) :: l), lo. split; [done|]. split; [done|]. split; [lia|]. split; [done|]. split; [cbn [ranges]; done|done].
Qed.

Lemma merge_spec irs l : forall e hi lo, ranges lo hi l -> lo <= e <= hi -> hi - lo < 2 ^ 31 ->
  exists e' l', ooo_merge (sq irs e) (in_seq irs l) = (sq irs e', in_seq irs l') /\ e <= e' <= hi /\ ranges e' hi l' /\ (forall k, e <= k < e' -> covers l k) /\ (forall k, covers l' k -> covers l k) /\
  (length l' <= length l)%nat /\ (forall k, covers l k -> k < e' \/ covers l' k).
Proof.
  induction l as [|[a b] l IH]; intros e hi lo HR He Hd; cbn [in_seq fmap list_fmap ooo_merge fst snd].
  - exists e, []. split; [done|]. split; [lia|]. split; [simpl; lia|]. split; [intros; lia|]. split; [done|]. split; [done|]. by right.
  - cbn [ranges] in HR. destruct HR as (H1 & H2 & H3). pose proof (ranges_le _ _ _ H3) as Hb. rewrite SEQ_LEQ_sq, SEQ_LT_sq by lia.
    assert (HC : forall k, covers l k -> covers ((a, b) :: l) k) by (intros k Hk; apply covers_cons; by right).
    destruct (Z.leb_spec a e) as [Ha|Ha].
    + set (m := if e <? b then b else e). assert (Hm : (if e <? b then sq irs b else sq irs e) = sq irs m) by (unfold m; by destruct (e <? b)). rewrite Hm.
      assert (Hm' : m = Z.max e b) by (unfold m; destruct (Z.ltb_spec e b); lia). clearbody m. destruct (IH m hi b H3 ltac:(lia) ltac:(lia)) as (e' & l' & E & B1 & B2 & B3 & B4 & B5 & B6).
      exists e', l'. fold (in_seq irs l). rewrite E. split; [done|]. split; [lia|]. split; [done|]. split; [|split; [auto|split; [simpl; lia|]]].
      * intros k Hk. destruct (decide (k < b)); [apply covers_cons; left; lia|apply HC, B3; lia].
      * intros k. rewrite covers_cons. intros [?|?]; [left; lia|by apply B6].
    + exists e, ((a, b) :: l). split; [done|]. split; [lia|]. split; [cbn [ranges]; split_and!; done|]. split; [intros; lia|]. split; [done|]. split; [done|]. by right.
Qed.

Lemma covers_app l1 l2 k : covers (l1 ++ l2) k <-> covers l1 k \/ covers l2 k.
Proof. induction l1 as [|[a b] l1 IH]; cbn [app]; [split; [by right|intros [(?&?&Hin&_)|?]; [by apply not_elem_of_nil in Hin|done]]|]. rewrite !covers_cons, IH. tauto. Qed.

Lemma in_seq_app irs l1 l2 : in_seq irs (l1 ++ l2) = in_seq irs l1 ++ in_seq irs l2.
Proof. apply fmap_app. Qed.

Lemma ooo_add_spec irs l s e lo hi : ranges lo hi l -> lo < s < e -> e <= hi -> hi - lo < 2 ^ 31 -> (length l <= 8)%nat ->
  exists l', tcp_ooo_add (in_seq irs l) (sq irs s) (sq irs e) = in_seq irs l' /\ ranges lo hi l' /\ (forall k, covers l' k -> s <= k < e \/ covers l k) /\ (length l' <= 8)%nat /\
  ((length l < 8)%nat -> forall k, s <= k < e \/ covers l k -> covers l' k).
Proof.
  intros HR Hs He Hd Hl. destruct (before_spec irs l s lo hi HR ltac:(lia) Hd) as (pre & rest & lo' & E & -> & B1 & B2 & B3 & B4). unfold tcp_ooo_add. rewrite E.
  assert (Hnew : match rest with (a, _) :: _ => e < a | [] => True end -> exists l', (if bool_decide (length (in_seq irs (pre ++ rest)) = TCP_OOO_MAX) then in_seq irs (pre ++ rest) else in_seq irs pre ++ (sq irs s, sq irs e) :: in_seq irs rest) = in_seq irs l' /\
    ranges lo hi l' /\ (forall k, covers l' k -> s <= k < e \/ covers (pre ++ rest) k) /\ (length l' <= 8)%nat /\ ((length (pre ++ rest) < 8)%nat -> forall k, s <= k < e \/ covers (pre ++ rest) k -> covers l' k)).
  { intros Hc. assert (El : length (in_seq irs (pre ++ rest)) = length (pre ++ rest)) by apply length_fmap. rewrite El. destruct (bool_decide_reflect (length (pre ++ rest) = TCP_OOO_MAX)) as [Ef|Ef]; unfold TCP_OOO_MAX in Ef.
    - exists (pre ++ rest). split_and!; try done; try (by right); try lia.
    - exists (pre ++ (s, e) :: rest). split; [by rewrite in_seq_app|]. split; [apply B2; cbn [ranges]; split_and!; try lia; destruct rest as [|[a b] rest]; cbn [ranges] in *; [lia|destruct B3 as (? & ? & ?); split_and!; lia || done]|].
      split; [intros k; rewrite !covers_app, covers_cons; tauto|]. split; [rewrite length_app in *; simpl in *; lia|]. intros _ k. rewrite !covers_app, covers_cons. tauto. }
  destruct rest as [|[a b] rest]; cbn [in_seq fmap list_fmap fst snd] in *; [by apply Hnew|]. cbn [ranges] in B3. destruct B3 as (C1 & C2 & C3). pose proof (ranges_le _ _ _ C3) as Hb.
  rewrite SEQ_LEQ_sq by lia. destruct (Z.leb_spec a e) as [Hae|Hae]; [|by apply Hnew]. clear Hnew.
  rewrite !SEQ_LT_sq by lia. set (s' := if s <? a then s else a). assert (Es : (if s <? a then sq irs s else sq irs a) = sq irs s') by (unfold s'; by destruct (s <? a)). rewrite Es.
  set (e1 := if b <? e then e else b). assert (Ee : (if b <? e then sq irs e else sq irs b) = sq irs e1) by (unfold e1; by destruct (b <? e)). rewrite Ee.
  assert (Hs' : s' = Z.min s a) by (unfold s'; destruct (Z.ltb_spec s a); lia). assert (He1 : e1 = Z.max b e) by (unfold e1; destruct (Z.ltb_spec b e); lia). clearbody s' e1.
  destruct (merge_spec irs rest e1 hi b C3 ltac:(lia) ltac:(lia)) as (e' & l' & Em & D1 & D2 & D3 & D4 & D5 & D6). unfold in_seq in Em at 1. rewrite Em.
  exists (pre ++ (s', e') :: l'). split; [by rewrite in_seq_app|]. split; [apply B2; cbn [ranges]; split_and!; lia || done|]. split; [|split; [rewrite length_app in *; simpl in *; lia|]].
  - intros k. rewrite !covers_app, !covers_cons. intros [?|[Hk|Hk]]; [by right; left| |by right; right; right; apply D4].
    destruct (decide (k < e1)); [|right; right; right; apply D3; lia]. destruct (decide (a <= k < b)); [by right; right; left|left; lia].
  - intros _ k. rewrite !covers_app, !covers_cons. intros Hk. destruct (decide (s' <= k < e')); [by right; left|].
    destruct Hk as [Hk|[Hk|[Hk|Hk]]]; [lia|by left|lia|]. destruct (D6 k Hk) as [?|?]; [|by right; right]. pose proof (covers_bound _ _ _ _ C3 Hk). lia.
Qed.

(** ** The invariant

    The stream is [W]; [irs] is the sequence number of its first byte, [fin] says that the peer
    has closed it.  [N] bytes came in order, [R] of them were read. *)

Record rx_inv (irs : Z) (W : list Z) (fin : bool) (N R : Z) (t : tcb) : Prop := {
  ri_bounds : 0 <= R <= N /\ N <= zlen W /\ N - R <= TCP_RX_BUF;
  ri_len : rx_len t = N - R;
  ri_start : rx_start t = R `mod` TCP_RX_BUF;
  ri_nxt : rcv_nxt t = sq irs (N + if peer_fin t then 1 else 0);
  ri_ring : forall k, R <= k < N -> holds TCP_RX_BUF W (rx_ring t) k;
  ri_ooo : exists l, ooo t = in_seq irs l /\ ranges N (R + TCP_RX_BUF) l /\ (length l <= 8)%nat /\ (forall k, covers l k -> holds TCP_RX_BUF W (rx_ring t) k);
  ri_fin : fin_seen t = true -> fin = true /\ fin_seq t = sq irs (zlen W);
  ri_eof : peer_fin t = true -> fin = true /\ N = zlen W;
}.

(** A segment of the stream: its bytes are at [k], and a FIN is at the end. *)
Record stream_seg (irs : Z) (W : list Z) (fin : bool) (seq : Z) (data : list Z) (has_fin : bool) (k : Z) : Prop := {
  ss_seq : seq = sq irs k;
  ss_pos : 0 <= k /\ k + zlen data <= zlen W;
  ss_data : data = take (length data) (drop (Z.to_nat k) W);
  ss_fin : has_fin = true -> fin = true /\ k + zlen data = zlen W;
}.

(** The receive side but for the window that was announced. *)
Definition rcv_same (t t' : tcb) : Prop := tcb_rcv (t' ▷ set_rcv_adv 0) = tcb_rcv (t ▷ set_rcv_adv 0).

Lemma rcv_same_refl t : rcv_same t t.
Proof. done. Qed.

Lemma rcv_same_eq t t' : tcb_rcv t' = tcb_rcv t -> rcv_same t t'.
Proof.
  intros E. unfold rcv_same. cbn [tcb_rcv set_rcv_adv]. unfold rcv_shift, shift_next, sack_ok, rcv_nxt, ooo, fin_seq, fin_seen, rx, rx_ring, rx_start, rx_len, peer_fin, rd_shut. by rewrite E.
Qed.

Lemma rcv_same_trans t1 t2 t3 : rcv_same t1 t2 -> rcv_same t2 t3 -> rcv_same t1 t3.
Proof. unfold rcv_same. intros E1 E2. by rewrite E2. Qed.

Lemma rx_inv_same irs W fin N R t t' : rcv_same t t' -> rx_inv irs W fin N R t -> rx_inv irs W fin N R t'.
Proof.
  intros E [A B C D F G K L].
  assert (E1 : rx_len t' = rx_len t) by exact (f_equal r_rx_len E). assert (E2 : rx_start t' = rx_start t) by exact (f_equal r_rx_start E).
  assert (E3 : rcv_nxt t' = rcv_nxt t) by exact (f_equal r_rcv_nxt E). assert (E4 : peer_fin t' = peer_fin t) by exact (f_equal r_peer_fin E).
  assert (E5 : rx_ring t' = rx_ring t) by exact (f_equal r_rx_ring E). assert (E6 : ooo t' = ooo t) by exact (f_equal r_ooo E).
  assert (E7 : fin_seen t' = fin_seen t) by exact (f_equal r_fin_seen E). assert (E8 : fin_seq t' = fin_seq t) by exact (f_equal r_fin_seq E).
  split; rewrite ?E1, ?E2, ?E3, ?E4, ?E5, ?E6, ?E7, ?E8; done.
Qed.

Lemma rx_inv_more irs W W' fin N R t : rx_inv irs W false N R t -> rx_inv irs (W ++ W') fin N R t.
Proof.
  intros [A B C D F (l & G1 & G2 & G3 & G4) K L]. split; try done.
  - unfold zlen in *. rewrite length_app. lia.
  - intros k Hk. by apply holds_more, F.
  - exists l. split_and!; try done. intros k Hk. by apply holds_more, G4.
  - intros E. by destruct (K E).
  - intros E. by destruct (L E).
Qed.

Lemma rx_inv_close irs W fin N R t : rx_inv irs W fin N R t -> rx_inv irs W true N R t.
Proof. intros [A B C D F G K L]. split; try done; [intros E; by destruct (K E)|intros E; by destruct (L E)]. Qed.

Section Receive.

Context {H D : Type} `{Heap H} (irs : Z) (W : list Z) (fin : bool) (Hshort : zlen W < 2 ^ 31 - 1).

Implicit Types c : tctx H D.

(** The stream's bytes, from a piece of a segment. *)
Lemma seg_bytes data k n x j b : data = take (length data) (drop (Z.to_nat k) W) -> 0 <= k -> 0 <= x -> take n (drop (Z.to_nat x) data) !! j = Some b -> W !! (Z.to_nat (k + x) + j)%nat = Some b.
Proof.
  intros E Hk Hx Hj. apply lookup_take_Some in Hj as [Hj Hlt]. rewrite lookup_drop in Hj. rewrite E in Hj. apply lookup_take_Some in Hj as [Hj Hlt']. rewrite lookup_drop in Hj.
  replace (Z.to_nat (k + x) + j)%nat with (Z.to_nat k + (Z.to_nat x + j))%nat by lia. done.
Qed.

(** What [got_new_data] does with the bytes: [N'] are in order afterwards. *)
Lemma got_new_spec N R t k data has_fin c : rx_inv irs W fin N R t -> peer_fin t = false -> stream_seg irs W fin (sq irs k) data has_fin k -> N <= k ->
  let '(t', c') := got_new_data t (sq irs k) data has_fin c in
  exists N', rx_inv irs W fin N' R t' /\ N <= N' /\ (k = N -> Z.min (N + zlen data) (R + TCP_RX_BUF) <= N') /\ tcb_snd t' = tcb_snd t.
Proof.
  intros HI Hp HS Hk. destruct HI as [(A1 & A2 & A3) B C E F (l & G1 & G2 & G3 & G4) K L]. rewrite Hp, Z.add_0_r in E. destruct HS as [_ (S1 & S2) S3 S4].
  assert (Hd0 : 0 <= zlen data) by (unfold zlen; lia). assert (Hr0 : 0 < TCP_RX_BUF < 2 ^ 20) by done. unfold got_new_data. rewrite E. assert (Eoff : sq irs k -u sq irs N = k - N) by (apply sq_sub; unfold TCP_RX_BUF in *; lia). rewrite Eoff, B.
  assert (Eroom : TCP_RX_BUF -u (N - R) = R + TCP_RX_BUF - N) by (rewrite wrap32_small; unfold TCP_RX_BUF in *; lia). rewrite Eroom.
  destruct (negb (k - N =? 0) && (R + TCP_RX_BUF - N <=? k - N)) eqn:Eout.
  { exists N. apply andb_true_iff in Eout as [E1 E2]. apply negb_true_iff, Z.eqb_neq in E1. apply Z.leb_le in E2. split; [|split; [lia|split; [lia|done]]]. split; try done; [by rewrite Hp, Z.add_0_r|by exists l]. }
  assert (Hwin : k = N \/ k < R + TCP_RX_BUF).
  { destruct (Z.eqb_spec (k - N) 0); [left; lia|]. cbn [negb andb] in Eout. apply Z.leb_gt in Eout. right. lia. }
  rewrite (wrap32_small (R + TCP_RX_BUF - N - (k - N))) by (unfold TCP_RX_BUF in *; lia). fold (zlen data).
  set (taken := if zlen data <? R + TCP_RX_BUF - N - (k - N) then zlen data else R + TCP_RX_BUF - N - (k - N)).
  assert (Ht : taken = Z.min (zlen data) (R + TCP_RX_BUF - k)) by (unfold taken; destruct (Z.ltb_spec (zlen data) (R + TCP_RX_BUF - N - (k - N))); lia). clearbody taken.
  assert (Ht0 : 0 <= taken <= zlen data /\ k + taken <= R + TCP_RX_BUF) by (unfold zlen in *; lia).
  assert (Eat : wrap32 (rx_start t + (N - R) + (k - N)) `mod` TCP_RX_BUF = k `mod` TCP_RX_BUF).
  { rewrite C. pose proof (Z.mod_pos_bound R TCP_RX_BUF ltac:(done)). rewrite wrap32_small by (unfold TCP_RX_BUF in *; lia). rewrite <- Z.add_assoc, Z.add_mod_idemp_l by done. f_equal. lia. }
  rewrite Eat. set (bs := take (Z.to_nat taken) data). assert (Hbs : zlen bs = taken) by (unfold zlen, bs in *; rewrite length_take; lia).
  set (ring := ring_write TCP_RX_BUF (rx_ring t) (k `mod` TCP_RX_BUF) bs).
  assert (Hring : forall x, 0 <= x -> (k <= x < k + taken \/ (R <= x < R + TCP_RX_BUF /\ holds TCP_RX_BUF W (rx_ring t) x)) -> holds TCP_RX_BUF W ring x).
  { intros x Hx0 Hx. apply holds_write; [done|lia|fold (zlen bs); unfold TCP_RX_BUF in *; lia| |done|].
    - intros j b Hj. unfold bs in Hj. rewrite <- (drop_0 data) in Hj. pose proof (seg_bytes data k (Z.to_nat taken) 0 j b S3 S1 ltac:(lia) Hj) as HW. by rewrite Z.add_0_r in HW.
    - fold (zlen bs). rewrite Hbs. destruct Hx as [Hx|[Hx Hh]]; [by left|]. destruct (decide (k <= x < k + taken)); [by left|]. right. split_and!; [lia|lia|done]. }
  assert (Hcov : forall x, covers l x -> holds TCP_RX_BUF W ring x).
  { intros x Hx. pose proof (covers_bound _ _ _ _ G2 Hx). apply Hring; [lia|]. right. split; [lia|by apply G4]. }
  assert (Hold : forall x, R <= x < N -> holds TCP_RX_BUF W ring x).
  { intros x Hx. apply Hring; [lia|]. right. split; [lia|by apply F]. }
  set (t1 := t ▷ set_rx_ring ring). assert (Et1 : rx_len t1 = N - R /\ rcv_nxt t1 = sq irs N /\ ooo t1 = in_seq irs l /\ tcb_snd t1 = tcb_snd t) by (unfold t1; tcb_simpl; rewrite B, E, G1; done).
  set (t2 := if has_fin && (taken =? zlen data) then t1 ▷ set_fin_seen true ▷ set_fin_seq (sq irs k +u taken) else t1).
  assert (Et2 : tcb_snd t2 = tcb_snd t /\ rx_len t2 = N - R /\ rcv_nxt t2 = sq irs N /\ ooo t2 = in_seq irs l /\ rx_ring t2 = ring /\ rx_start t2 = R `mod` TCP_RX_BUF /\ peer_fin t2 = false /\
                (fin_seen t2 = true -> fin = true /\ fin_seq t2 = sq irs (zlen W))).
  { unfold t2. destruct (has_fin && (taken =? zlen data)) eqn:Ef; tcb_simpl; rewrite ?B, ?E, ?G1, ?C, ?Hp; split_and!; try done. intros _. apply andb_true_iff in Ef as [-> Ef%Z.eqb_eq].
    destruct (S4 eq_refl) as [Hf Hw]. split; [done|]. rewrite sq_add. f_equal. lia. }
  clearbody t2. destruct Et2 as (M0 & M1 & M2 & M3 & M4 & M5 & M6 & M7). clear Et1.
  set (t3 := if negb (k - N =? 0) then if negb (taken =? 0) then t2 ▷ set_ooo (tcp_ooo_add (ooo t2) (sq irs k) (sq irs k +u taken)) else t2
             else tcp_ooo_settle (set_rcv_nxt (rcv_nxt t2 +u taken) (set_rx_len (rx_len t2 +u taken) t2))).
  assert (H3 : exists N' l', N <= N' /\ N' <= zlen W /\ N' - R <= TCP_RX_BUF /\ (k = N -> N + taken <= N') /\ tcb_snd t3 = tcb_snd t /\ rx_len t3 = N' - R /\ rcv_nxt t3 = sq irs N' /\ ooo t3 = in_seq irs l' /\ rx_ring t3 = ring /\
                rx_start t3 = R `mod` TCP_RX_BUF /\ peer_fin t3 = false /\ (fin_seen t3 = true -> fin = true /\ fin_seq t3 = sq irs (zlen W)) /\
                ranges N' (R + TCP_RX_BUF) l' /\ (length l' <= 8)%nat /\ (forall x, covers l' x \/ R <= x < N' -> holds TCP_RX_BUF W ring x)).
  { unfold t3. destruct (Z.eqb_spec (k - N) 0) as [Ek|Ek]; cbn [negb].
    - assert (k = N) as -> by lia. destruct (settle_spec irs l N (R + TCP_RX_BUF) (N + taken) (N - R + taken) G2) as (N' & l' & Es & D1 & D2 & D3 & D4 & D5); try (unfold TCP_RX_BUF in *; lia).
      unfold tcp_ooo_settle. tcb_simpl. rewrite M1, M2, M3, sq_add, (wrap32_small (N - R + taken)) by (unfold TCP_RX_BUF in *; lia). rewrite Es. tcb_simpl.
      assert (Hin : forall x, R <= x < N' -> holds TCP_RX_BUF W ring x).
      { intros x Hx. destruct (decide (x < N)); [apply Hold; lia|]. destruct (decide (x < N + taken)); [apply Hring; [lia|left; lia]|]. apply Hcov, D3. lia. }
      exists N', l'. split_and!; try done; try lia.
      + destruct (decide (N' = N + taken)); [unfold zlen in *; lia|]. apply Z.lt_pred_le. pose proof (holds_lt _ _ _ (Z.pred N') ltac:(lia) (Hin (Z.pred N') ltac:(lia))). unfold zlen. lia.
      + intros x [Hx|Hx]; [by apply Hcov, D4|by apply Hin].
    - assert (Hkr : k < R + TCP_RX_BUF) by (destruct Hwin; lia). destruct (Z.eqb_spec taken 0) as [Et0|Et0]; cbn [negb].
      + exists N, l. split_and!; try done; try lia. intros x [Hx|Hx]; [by apply Hcov|by apply Hold].
      + rewrite M3, sq_add. destruct (ooo_add_spec irs l k (k + taken) N (R + TCP_RX_BUF) G2) as (l' & El & D1 & D2 & D3 & _); try (unfold TCP_RX_BUF in *; lia). rewrite El. tcb_simpl.
        exists N, l'. split_and!; try done; try lia. intros x [Hx|Hx]; [|by apply Hold]. pose proof (covers_bound _ _ _ _ D1 Hx). destruct (D2 x Hx); [apply Hring; [lia|by left]|by apply Hcov]. }
  clearbody t3. destruct H3 as (N' & l' & P0 & P1 & P2 & P2' & P3 & P4 & P5 & P6 & P7 & P8 & P9 & P10 & P11 & P12 & P13).
  assert (HI3 : rx_inv irs W fin N' R t3).
  { split; rewrite ?P4, ?P5, ?P7, ?P9; try done; [lia|by rewrite Z.add_0_r|by intros x Hx; apply P13; right|]. exists l'. split_and!; try done. intros x Hx. apply P13. by left. }
  destruct (fin_seen t3 && (fin_seq t3 =? rcv_nxt t3)) eqn:Eend.
  - apply andb_true_iff in Eend as [E1 E2%Z.eqb_eq]. destruct (P10 E1) as [Hf Es]. rewrite Es, P5 in E2. assert (HNW : N' = zlen W).
    { apply Z.eqb_eq. rewrite <- (sq_eqb irs); [by apply Z.eqb_eq|lia]. }
    set (t4 := set_peer_fin true (set_rcv_nxt (rcv_nxt t3 +u 1) t3)). assert (HI4 : rx_inv irs W fin N' R t4).
    { destruct HI3 as [Q1 Q2 Q3 Q4 Q5 Q6 Q7 Q8]. unfold t4. split; tcb_simpl; try done. rewrite P5. apply sq_add. }
    exists N'. split; [|split; [done|split; [intros Ek; specialize (P2' Ek); lia|destruct (t_state t4); exact P3]]]. destruct (t_state t4); (apply (rx_inv_same _ _ _ _ _ t4); [by apply rcv_same_eq|done]).
  - exists N'. split; [done|]. split; [done|]. split; [intros Ek; specialize (P2' Ek); lia|done].
Qed.

Lemma stream_rest k x data has_fin : 0 <= x <= zlen data -> stream_seg irs W fin (sq irs k) data has_fin k -> stream_seg irs W fin (sq irs (k + x)) (drop (Z.to_nat x) data) has_fin (k + x).
Proof.
  intros Hx [_ (S1 & S2) S3 S4]. assert (El : zlen (drop (Z.to_nat x) data) = zlen data - x) by (unfold zlen in *; rewrite length_drop; lia). split; [done|rewrite El; lia| |rewrite El; intros Hf; destruct (S4 Hf); split; [done|lia]].
  rewrite S3 at 1. rewrite S3 at 2. rewrite length_drop, skipn_firstn_comm, drop_drop. rewrite length_take, length_drop. f_equal; [unfold zlen in *; lia|f_equal; lia].
Qed.

(** [tcp_got_data] on a segment of the stream: nothing that came before is lost, and the bytes up
    to the end of a segment that starts in what is known are there, as far as there is room. *)
Lemma got_data_spec N R t k data has_fin c : rx_inv irs W fin N R t -> stream_seg irs W fin (sq irs k) data has_fin k ->
  let '(t', c') := tcp_got_data t (sq irs k) data has_fin c in
  exists N', rx_inv irs W fin N' R t' /\ N <= N' /\ (k <= N -> Z.min (k + zlen data) (R + TCP_RX_BUF) <= N') /\ tcb_snd t' = tcb_snd t.
Proof.
  intros HI HS. pose proof HI as [(A1 & A2 & A3) B C E F G K L]. pose proof HS as [_ (S1 & S2) S3 S4]. assert (Hd0 : 0 <= zlen data) by (unfold zlen; lia). assert (Hr0 : 0 < TCP_RX_BUF < 2 ^ 20) by done.
  set (pf := if peer_fin t then 1 else 0). assert (Hpf : 0 <= pf <= 1) by (unfold pf; destruct (peer_fin t); lia). fold pf in E.
  assert (HN : peer_fin t = true -> N = zlen W) by (intros Hp; by destruct (L Hp)).
  assert (Hsame : exists N', rx_inv irs W fin N' R t /\ N <= N' /\ (peer_fin t = true \/ k + zlen data <= N -> k <= N -> Z.min (k + zlen data) (R + TCP_RX_BUF) <= N') /\ tcb_snd t = tcb_snd t).
  { exists N. split; [done|]. split; [lia|]. split; [|done]. intros [Hp|Hp] _; [specialize (HN Hp)|]; lia. }
  unfold tcp_got_data. rewrite E, SEQ_LT_sq by lia. destruct (Z.ltb_spec k (N + pf)) as [Hk|Hk].
  - rewrite sq_sub by lia. fold (zlen data). destruct (Z.ltb_spec (zlen data) (N + pf - k)) as [Hs|Hs].
    + destruct Hsame as (N' & X1 & X2 & X3 & X4). exists N'. split_and!; try done. apply X3. unfold pf in *. destruct (peer_fin t); [by left|right; lia].
    + destruct (peer_fin t) eqn:Hp; [destruct Hsame as (N' & X1 & X2 & X3 & X4); exists N'; split_and!; try done; apply X3; by left|]. unfold pf in *. rewrite Z.add_0_r in *.
      assert (HS' : stream_seg irs W fin (sq irs N) (drop (Z.to_nat (N - k)) data) has_fin N).
      { replace N with (k + (N - k)) at 1 3 by lia. apply stream_rest; [lia|done]. }
      pose proof (got_new_spec N R t N _ has_fin c HI Hp HS' ltac:(lia)) as HG. destruct (got_new_data t _ _ _ _) as [t' c']. destruct HG as (N' & X1 & X2 & X3 & X4). exists N'. split_and!; try done.
      intros _. specialize (X3 eq_refl). assert (El : zlen (drop (Z.to_nat (N - k)) data) = zlen data - (N - k)) by (unfold zlen in *; rewrite length_drop; lia). rewrite El in X3. lia.
  - destruct (peer_fin t) eqn:Hp; [destruct Hsame as (N' & X1 & X2 & X3 & X4); exists N'; split_and!; try done; apply X3; by left|]. unfold pf in *. rewrite Z.add_0_r in *.
    pose proof (got_new_spec N R t k data has_fin c HI Hp HS ltac:(lia)) as HG. destruct (got_new_data t _ _ _ _) as [t' c']. destruct HG as (N' & X1 & X2 & X3 & X4). exists N'. split_and!; try done.
    intros Hk'. assert (k = N) by lia. specialize (X3 ltac:(done)). lia.
Qed.

End Receive.

(** ** Functions that leave the receive side alone *)

Section Frame.

Context {H D : Type} `{Heap H}.

Implicit Types c : tctx H D.

Lemma emit_rcv t flags seq off len opts c : rcv_same t (tcp_emit t flags seq off len opts c).1.
Proof. done. Qed.

Lemma resend_rcv t seq c : rcv_same t (tcp_resend t seq c).1.2.
Proof. unfold tcp_resend. destruct (_ <? _); [done|]. by destruct (_ && _). Qed.

Lemma recovery_loop_rcv fuel : forall t c, rcv_same t (recovery_loop fuel t c).1.
Proof.
  induction fuel as [|fuel IH]; intros t c; cbn [recovery_loop]; [done|]. destruct (_ && _); [|done]. pose proof (resend_rcv t (rtx_nxt t) c) as HR. destruct (tcp_resend t (rtx_nxt t) c) as [[n t'] c']. cbn [fst snd] in HR.
  destruct (n =? 0); [done|]. apply (rcv_same_trans _ (t' ▷ set_rtx_nxt (rtx_nxt t' +u n))); [|apply IH]. by apply (rcv_same_trans _ t').
Qed.

Lemma push_recovery_rcv t c : rcv_same t (tcp_push_recovery t c).1.
Proof.
  unfold tcp_push_recovery. destruct (recovery t); [done| |].
  - destruct (rtx_one t); [|done]. pose proof (resend_rcv (set_rtx_one false t) (snd_una t) c) as HR. destruct (tcp_resend _ _ _) as [[n t'] c']. exact HR.
  - set (t1 := if SEQ_LT (rtx_nxt t) (snd_una t) then _ else _). apply (rcv_same_trans _ t1); [unfold t1; by destruct (SEQ_LT _ _)|apply recovery_loop_rcv].
Qed.

Lemma arm_rcv now t : rcv_same t (tcp_arm_rto now t).
Proof. unfold tcp_arm_rto. by destruct (_ =? _). Qed.

Lemma push_loop_rcv fuel wnd : forall sent t c, rcv_same t (push_loop fuel wnd sent t c).1.2.
Proof.
  induction fuel as [|fuel IH]; intros sent t c; cbn [push_loop]; [done|]. destruct ((sent <? tx_len t) && _); [|done]. destruct (_ =? 0); [done|]. destruct (_ && negb (sent =? 0)); [done|].
  set (n := if _ <? _ then _ else _). clearbody n. set (t1 := if (rtt_at t =? 0) && _ then _ else _). assert (E1 : rcv_same t t1) by (unfold t1; by destruct (_ && _)). clearbody t1.
  pose proof (emit_rcv t1 (Z.lor TCP_ACK TCP_PSH) (snd_nxt t1) sent n [] c) as E2. destruct (tcp_emit t1 _ _ _ _ _ c) as [t2 c2]. cbn [fst] in E2. set (t3 := tcp_arm_rto _ _).
  apply (rcv_same_trans _ t3); [|apply IH]. apply (rcv_same_trans _ t1 _ E1), (rcv_same_trans _ t2 _ E2). apply (rcv_same_trans _ (set_snd_nxt (snd_nxt t2 +u n) t2)); [done|apply arm_rcv].
Qed.

Lemma push_rcv t c : rcv_same t (tcp_push t c).1.
Proof.
  unfold tcp_push. pose proof (push_recovery_rcv t c) as E1. destruct (tcp_push_recovery t c) as [t1 c1]. cbn [fst] in E1. destruct (_ && _); [done|].
  set (wnd := if _ <? _ then _ else _). clearbody wnd. pose proof (push_loop_rcv (Z.to_nat (tx_len t1 + TCP_OUT_MAX)) wnd (snd_nxt t1 -u snd_una t1) t1 c1) as E2. destruct (push_loop _ _ _ _ _) as [[sent t2] c2]. cbn [fst snd] in E2.
  destruct (fin_wanted t2 && _ && _).
  - unfold tcp_send_ctl. pose proof (emit_rcv t2 (Z.lor TCP_FIN TCP_ACK) (snd_nxt t2) 0 0 [] c2) as E3. destruct (tcp_emit t2 _ _ _ _ _ c2) as [t3 c3]. cbn [fst] in E3.
    set (t4 := tcp_arm_rto (c_now c3) _). assert (E4 : rcv_same t3 t4) by (unfold t4; eapply rcv_same_trans; [|apply arm_rcv]; done).
    clearbody t4. cbn [fst]. apply (rcv_same_trans _ t1 _ E1), (rcv_same_trans _ t2 _ E2), (rcv_same_trans _ t3 _ E3), (rcv_same_trans _ t4 _ E4). destruct (_ && _); [apply arm_rcv|done].
  - apply (rcv_same_trans _ t1 _ E1), (rcv_same_trans _ t2 _ E2). cbn [fst]. destruct (_ && _); [apply arm_rcv|done].
Qed.

Lemma set_closed_rcv t err c : rcv_same t (tcp_set_closed t err c).1.
Proof. unfold tcp_set_closed. cbn [fst]. by destruct (_ && _). Qed.

Lemma timeout_rcv t now c : rcv_same t (tcp_timeout t now c).1.
Proof.
  unfold tcp_timeout. destruct (_ && _); [done|]. set (t1 := set_retries _ t). assert (E1 : rcv_same t t1) by done. clearbody t1. apply (rcv_same_trans _ t1 _ E1). destruct (_ <? _).
  - destruct (in_state t1 TCP_SYN_RCVD); [done|]. destruct (negb _).
    + pose proof (emit_rcv t1 TCP_RST (snd_nxt t1) 0 0 [] c) as E2. unfold tcp_send_ctl. destruct (tcp_emit t1 _ _ _ _ _ c) as [t2 c2]. apply (rcv_same_trans _ t2 _ E2), set_closed_rcv.
    + apply set_closed_rcv.
  - set (p := if _ || _ then _ else _). assert (HP : rcv_same t1 p.1).
    { unfold p. destruct (_ || _); [apply emit_rcv|]. destruct (_ && _); [|done]. pose proof (emit_rcv t1 TCP_ACK (snd_nxt t1) 0 1 [] c) as E2. destruct (tcp_emit t1 _ _ _ _ _ c) as [t2 c2]. by apply (rcv_same_trans _ t2 _ E2). }
    clearbody p. destruct p as [t2 c2]. by apply (rcv_same_trans _ t2 _ HP).
Qed.

Lemma keepalive_rcv t now c : rcv_same t (tcp_keepalive t now c).1.
Proof.
  unfold tcp_keepalive. destruct (_ || _); [done|]. destruct (negb _); [done|]. destruct (now <? _); [done|]. destruct (_ <=? _); [|apply (emit_rcv (set_keep_sent (keep_sent t +u 1) t))].
  pose proof (emit_rcv t TCP_RST (snd_nxt t) 0 0 [] c) as E2. unfold tcp_send_ctl. destruct (tcp_emit t _ _ _ _ _ c) as [t2 c2]. apply (rcv_same_trans _ t2 _ E2), set_closed_rcv.
Qed.

Lemma tick_rcv now t c : rcv_same t (tcp_tick_conn now t c).1.
Proof.
  unfold tcp_tick_conn. set (p := if _ && _ then tcp_timeout t now c else (t, c)). assert (HP : rcv_same t p.1) by (unfold p; destruct (_ && _); [apply timeout_rcv|done]). clearbody p. destruct p as [t1 c1]. cbn [fst] in HP.
  pose proof (push_rcv t1 c1) as H2. destruct (tcp_push t1 c1) as [t2 c2]. pose proof (keepalive_rcv t2 now c2) as H3. destruct (tcp_keepalive t2 now c2) as [t3 c3]. cbn [fst] in *.
  set (q := if _ && _ then tcp_set_closed t3 0 c3 else _). assert (HQ : rcv_same t3 q.1) by (unfold q; destruct (_ && _); [apply set_closed_rcv|done]). clearbody q. destruct q as [t4 c4]. cbn [fst] in HQ.
  assert (H4 : rcv_same t t4) by (by apply (rcv_same_trans _ t1 _ HP), (rcv_same_trans _ t2 _ H2), (rcv_same_trans _ t3 _ H3)). destruct (_ && _); [|done]. apply (rcv_same_trans _ t4 _ H4).
  pose proof (emit_rcv t4 (Z.lor TCP_RST TCP_ACK) (snd_nxt t4) 0 0 [] c4) as E2. unfold tcp_send_ctl. destruct (tcp_emit t4 _ _ _ _ _ c4) as [t5 c5]. apply (rcv_same_trans _ t5 _ E2), set_closed_rcv.
Qed.

Lemma send_rcv t buf c : rcv_same t (tcp_send t buf c).1.2.
Proof.
  unfold tcp_send. destruct (negb _); [done|]. destruct (in_state _ _); [done|]. destruct (_ || _); [done|]. set (t1 := set_tx_len _ _). pose proof (push_rcv t1 c) as H1. destruct (tcp_push t1 c) as [t2 c2]. by apply (rcv_same_trans _ t1).
Qed.

Lemma cc_grow_rcv t acked : match cc_grow t acked with Some t' => tcb_rcv t' = tcb_rcv t | None => True end.
Proof. unfold cc_grow. destruct (_ <? ssthresh _); [by destruct (0x40000000 <? _)|]. destruct (_ =? 0); [done|]. by destruct (0x40000000 <? _). Qed.

Lemma cc_acked_rcv t acked ack : match tcp_cc_acked t acked ack with Some t' => tcb_rcv t' = tcb_rcv t | None => True end.
Proof. unfold tcp_cc_acked. destruct (in_recovery _ _); [apply cc_grow_rcv|]. destruct (SEQ_LT _ _); [destruct (in_recovery _ _); [done|apply cc_grow_rcv]|]. by destruct (in_recovery _ _). Qed.

Lemma got_ack_rcv t seq ack window bare c : match tcp_got_ack t seq ack window bare c with Some (t', _) => rcv_same t t' | None => True end.
Proof.
  unfold tcp_got_ack. set (m := if SEQ_LT (snd_una t) ack && _ then _ else _). assert (HM : match m with Some (t1, _) => rcv_same t t1 | None => True end).
  { unfold m. clear m. destruct (_ && _).
    - set (t0 := set_rto_at 0 _). set (t1 := if negb (rtt_at t0 =? 0) && _ then _ else t0). assert (E1 : tcb_rcv t1 = tcb_rcv t) by (unfold t1; destruct (_ && _); [unfold tcp_rtt_sample; by destruct (srtt _ =? 0)|done]). clearbody t1.
      set (t2 := if negb (snd_una (set_rto_ms (rto_base t1) t1) =? _) then _ else _). assert (E2 : tcb_rcv t2 = tcb_rcv t1) by (unfold t2; destruct (negb _); [unfold tcp_arm_rto; destruct (rto_at _ =? 0)|]; reflexivity). clearbody t2.
      pose proof (cc_acked_rcv t2 (ack -u snd_una t) ack) as E3. destruct (tcp_cc_acked t2 _ _) as [t3|]; [|done]. cbn [mbind option_bind].
      set (p := if fin_sent t3 && _ then _ else _). assert (HP : tcb_rcv p.1 = tcb_rcv t3) by (unfold p; destruct (_ && _); [by destruct (t_state t3)|done]). clearbody p. destruct p as [t4 c4]. cbn [fst] in HP. apply rcv_same_eq. congruence.
    - destruct (_ && _); [|done]. apply rcv_same_eq. unfold tcp_cc_dupack. destruct (in_recovery _ _); [done|]. destruct (negb _); [done|]. by destruct (_ <? 3). }
  clearbody m. destruct m as [[t1 c1]|]; cbn [mbind option_bind]; [|done]. apply (rcv_same_trans _ t1 _ HM). set (t2 := if (snd_wnd t1 =? 0) && _ && _ && _ && _ then _ else t1). assert (E2 : rcv_same t1 t2) by (unfold t2; by destruct (_ && negb _)). clearbody t2.
  set (t3 := if _ && (ack =? snd_una t2) then _ else t2). assert (E3 : rcv_same t2 t3) by (unfold t3; by destruct (_ && _)). clearbody t3. apply (rcv_same_trans _ t2 _ E2), (rcv_same_trans _ t3 _ E3). by destruct (_ && _).
Qed.

(** ** Reading *)

Lemma recv_spec irs W fin N R t len peek c : rx_inv irs W fin N R t -> 0 <= len ->
  let '(r, bs, t', c') := tcp_recv t len peek c in
  let R' := if peek then R else R + zlen bs in
  rx_inv irs W fin N R' t' /\ bs = take (length bs) (drop (Z.to_nat R) W) /\ (rx_len t <> 0 -> r = zlen bs /\ zlen bs = Z.min len (N - R)) /\
  (r = 0 -> 0 < len -> bs = [] /\ (peer_fin t = true \/ rd_shut t = true \/ t_state t = TCP_CLOSED \/ t_state t = TCP_LISTEN) /\ (peer_fin t = true -> R = zlen W)).
Proof.
  intros HI Hl. pose proof HI as [(A1 & A2 & A3) B C E F (l & G1 & G2 & G3 & G4) K L]. assert (Hr0 : 0 < TCP_RX_BUF < 2 ^ 20) by done. unfold tcp_recv. rewrite B. destruct (Z.eqb_spec (N - R) 0) as [Hz|Hz]; cbn [negb].
  - assert (Hquiet : forall r t' (c' : tctx H D), rx_inv irs W fin N R t' -> (r = 0 -> 0 < len -> (peer_fin t = true \/ rd_shut t = true \/ t_state t = TCP_CLOSED \/ t_state t = TCP_LISTEN) /\ (peer_fin t = true -> R = zlen W)) ->
      let R' := if peek then R else R + zlen ([] : list Z) in rx_inv irs W fin N R' t' /\ [] = take (length ([] : list Z)) (drop (Z.to_nat R) W) /\ (N - R <> 0 -> r = zlen ([] : list Z) /\ zlen ([] : list Z) = Z.min len (N - R)) /\
      (r = 0 -> 0 < len -> ([] : list Z) = [] /\ (peer_fin t = true \/ rd_shut t = true \/ t_state t = TCP_CLOSED \/ t_state t = TCP_LISTEN) /\ (peer_fin t = true -> R = zlen W))).
    { intros r t' c' H1 H2. change (zlen ([] : list Z)) with 0. rewrite Z.add_0_r. split; [by destruct peek|]. split; [done|]. split; [lia|]. intros E1 E2. destruct (H2 E1 E2). done. }
    assert (HRW : peer_fin t = true -> R = zlen W) by (intros Hp; destruct (L Hp); lia).
    destruct (peer_fin t || rd_shut t) eqn:Ep.
    + apply (Hquiet 0 t c); [done|]. intros _ _. split; [|done]. apply orb_true_iff in Ep as [->| ->]; tauto.
    + apply orb_false_iff in Ep as [Ep1 Ep2]. destruct (Z.eqb_spec (t_error t) 0) as [He|He]; cbn [negb].
      * unfold in_state. destruct (bool_decide_reflect (t_state t = TCP_CLOSED)) as [Es|Es]; cbn [orb].
        { apply (Hquiet _ t c HI). intros _ _. split; [tauto|done]. }
        destruct (bool_decide_reflect (t_state t = TCP_LISTEN)) as [Es'|Es']; (apply (Hquiet _ t c HI); intros Hr0' _; [(split; [tauto|done]) || discriminate]).
      * apply (Hquiet (t_error t) (set_t_error 0 t) c); [apply (rx_inv_same _ _ _ _ _ t); [by apply rcv_same_eq|done]|]. lia.
  - set (n := if len <? N - R then len else N - R). assert (Hn : n = Z.min len (N - R)) by (unfold n; destruct (Z.ltb_spec len (N - R)); lia). clearbody n.
    assert (Eb : ring_read TCP_RX_BUF (rx_ring t) (rx_start t) n = take (Z.to_nat n) (drop (Z.to_nat R) W)) by (rewrite C; apply holds_read; [lia|lia|lia|]; intros k Hk; apply F; lia). rewrite Eb. set (bs := take _ _).
    assert (Hbs : zlen bs = n) by (unfold bs, zlen in *; rewrite length_take, length_drop; lia).
    assert (Hrest : bs = take (length bs) (drop (Z.to_nat R) W) /\ (N - R <> 0 -> n = zlen bs /\ zlen bs = Z.min len (N - R)) /\ (n = 0 -> 0 < len -> bs = [] /\ (peer_fin t = true \/ rd_shut t = true \/ t_state t = TCP_CLOSED \/ t_state t = TCP_LISTEN) /\ (peer_fin t = true -> R = zlen W))).
    { split; [|split; [lia|lia]]. unfold bs at 1. f_equal. unfold zlen in Hbs. lia. }
    destruct peek; [by split|]. set (t1 := set_rx_len _ _). assert (HI1 : rx_inv irs W fin N (R + zlen bs) t1).
    { rewrite Hbs. unfold t1. split; tcb_simpl; try done; try lia.
      - rewrite wrap32_small by lia. lia.
      - change (s_tx_start (tcb_snd t)) with (tx_start t). rewrite C. pose proof (Z.mod_pos_bound R TCP_RX_BUF ltac:(lia)). rewrite wrap32_small by lia. apply Z.add_mod_idemp_l. lia.
      - intros k Hk. apply F. lia.
      - exists l. split_and!; try done. apply (ranges_hi _ (R + TCP_RX_BUF)); [lia|done]. }
    clearbody t1. destruct (_ && _); [|by split]. pose proof (emit_rcv t1 TCP_ACK (snd_nxt t1) 0 0 [] c) as E2. unfold tcp_send_ctl. destruct (tcp_emit t1 _ _ _ _ _ c) as [t2 c2]. split; [by apply (rx_inv_same _ _ _ _ _ t1)|done].
Qed.

End Frame.
