(* ===== verification/TcpSend.v ===== *)
(** * TCP: what a connection sends

    Whatever the peer answers and however often a timer fires, every segment a connection sends
    carries the bytes the program wrote, at their place in the stream, and a FIN only after the
    last of them. *)

From S2P Require Import Prelude Pmm Machine Bytes Heap Net NetProofs TcpState Tcp TcpLemmas TcpRecv.

Definition in32 (x : Z) : Prop := 0 <= x < 2 ^ 32.

(** ** What is sent *)

(** A segment of the stream [W] from the connection of [t]: it carries nothing, or what is at its
    place. *)
Record seg_good (base : Z) (W : list Z) (fin : bool) (lip rip lport rport : Z) (x : netbuf * Z * Z) : Prop := {
  sg_ips : x.1.2 = lip /\ x.2 = rip;
  sg_bytes : exists seq ack flags window opts payload, nb_data x.1.1 = tcp_segment_bytes lip rip lport rport seq ack flags window opts payload /\
    seg_fits lip rip lport rport seq ack flags window opts payload /\
    ((payload = [] /\ flag flags TCP_FIN = false) \/ exists k, stream_seg base W fin seq payload (flag flags TCP_FIN) k);
}.

Lemma stream_seg_more base W W' fin fin' seq data f k : (fin = true -> fin' = true /\ W' = []) -> stream_seg base W fin seq data f k -> stream_seg base (W ++ W') fin' seq data f k.
Proof.
  intros Hf [A (B1 & B2) C E]. assert (Hl : zlen (W ++ W') = zlen W + zlen W') by (unfold zlen; rewrite length_app; lia). split; [done|unfold zlen in *; lia| |].
  - rewrite C at 1. rewrite drop_app_le by (unfold zlen in *; lia). rewrite take_app_le; [done|]. rewrite length_drop. unfold zlen in *. lia.
  - intros Hff. destruct (E Hff) as [E1 E2]. destruct (Hf E1) as [-> ->]. split; [done|]. by rewrite app_nil_r.
Qed.

Lemma seg_good_more base W W' fin fin' lip rip lp rp x : (fin = true -> fin' = true /\ W' = []) -> seg_good base W fin lip rip lp rp x -> seg_good base (W ++ W') fin' lip rip lp rp x.
Proof.
  intros Hf [A (seq & ack & flags & window & opts & payload & B & C & E)]. split; [done|]. exists seq, ack, flags, window, opts, payload. split_and!; try done.
  destruct E as [E|[k E]]; [by left|right]. exists k. by apply (stream_seg_more _ W W' fin).
Qed.

(** ** The invariant

    [U] bytes (with the FIN) are acknowledged, [X] were sent. *)

Definition handshaken (t : tcb) : Prop := t_state t <> TCP_SYN_SENT /\ t_state t <> TCP_SYN_RCVD.

Record conn_ok (t : tcb) : Prop := {
  co_ips : in32 (local_ip t) /\ in32 (remote_ip t);
  co_ports : 0 <= local_port t < 65536 /\ 0 <= remote_port t < 65536;
  co_nxt : in32 (rcv_nxt t);
  co_ooo : Forall (fun r : Z * Z => in32 r.1 /\ in32 r.2) (ooo t);
  co_state : handshaken t;
  co_err : t_error t <= 0;
}.

Record tx_inv (base : Z) (W : list Z) (U X : Z) (t : tcb) : Prop := {
  xi_range : 0 <= U <= X;
  xi_fin : if fin_sent t then X = zlen W + 1 /\ fin_wanted t = true else X <= zlen W;
  xi_una : snd_una t = sq base U;
  xi_nxt : snd_nxt t = sq base X;
  xi_len : tx_len t = zlen W - Z.min U (zlen W);
  xi_room : tx_len t <= TCP_TX_BUF;
  xi_start : tx_start t = Z.min U (zlen W) `mod` TCP_TX_BUF;
  xi_ring : forall k, Z.min U (zlen W) <= k < zlen W -> holds TCP_TX_BUF W (tx_ring t) k;
  xi_mss : 0 <= mss t <= 1460;
  xi_rec : recovery t <> TCP_RECOVERY_NONE -> exists Rec, recover t = sq base Rec /\ U < Rec /\ (Rec <= X \/ (Rec = X + 1 /\ X = U /\ U < zlen W)) /\
             (recovery t = TCP_RECOVERY_RTO -> exists Rtx, rtx_nxt t = sq base Rtx /\ Rec - (TCP_TX_BUF + 2) <= Rtx <= Rec + 1460);
}.

(** Nothing the invariant is about differs. *)
Record snd_same (t t' : tcb) : Prop := {
  sm_snd : tcb_snd t' = tcb_snd t;
  sm_rec : recovery t' = recovery t /\ recover t' = recover t /\ rtx_nxt t' = rtx_nxt t;
  sm_ids : local_ip t' = local_ip t /\ remote_ip t' = remote_ip t /\ local_port t' = local_port t /\ remote_port t' = remote_port t;
}.

Lemma snd_same_refl t : snd_same t t.
Proof. done. Qed.

Lemma snd_same_trans t1 t2 t3 : snd_same t1 t2 -> snd_same t2 t3 -> snd_same t1 t3.
Proof. intros [A (B1 & B2 & B3) (C1 & C2 & C3 & C4)] [A' (B1' & B2' & B3') (C1' & C2' & C3' & C4')]. split; [congruence|split_and!; congruence|split_and!; congruence]. Qed.

Lemma tx_inv_same base W U X t t' : snd_same t t' -> tx_inv base W U X t -> tx_inv base W U X t'.
Proof.
  intros [E (R1 & R2 & R3) _] [A B C D F G I J K L].
  assert (E1 : fin_sent t' = fin_sent t) by exact (f_equal s_fin_sent E). assert (E2 : fin_wanted t' = fin_wanted t) by exact (f_equal s_fin_wanted E).
  assert (E3 : snd_una t' = snd_una t) by exact (f_equal s_snd_una E). assert (E4 : snd_nxt t' = snd_nxt t) by exact (f_equal s_snd_nxt E).
  assert (E5 : tx_len t' = tx_len t) by exact (f_equal s_tx_len E). assert (E6 : tx_start t' = tx_start t) by exact (f_equal s_tx_start E).
  assert (E7 : tx_ring t' = tx_ring t) by exact (f_equal s_tx_ring E). assert (E8 : mss t' = mss t) by exact (f_equal s_mss E).
  split; rewrite ?E1, ?E2, ?E3, ?E4, ?E5, ?E6, ?E7, ?E8, ?R1, ?R2, ?R3; done.
Qed.

(** ** Numbers stay 32 bits wide *)

Definition ok_range (r : Z * Z) : Prop := in32 r.1 /\ in32 r.2.

Lemma wrap_in32 x : in32 (wrap32 x).
Proof. apply Z.mod_pos_bound. lia. Qed.

Lemma before_ok start l : Forall ok_range l -> Forall ok_range (ooo_before start l).1 /\ Forall ok_range (ooo_before start l).2.
Proof.
  induction l as [|[a b] l IH]; cbn [ooo_before]; [done|]. intros [Ha Hl]%Forall_cons_1. destruct (SEQ_LT b start); [|by split; [constructor|constructor]]. destruct (IH Hl) as [H1 H2]. destruct (ooo_before start l). by split; [constructor|].
Qed.

Lemma merge_ok l : forall e, in32 e -> Forall ok_range l -> in32 (ooo_merge e l).1 /\ Forall ok_range (ooo_merge e l).2.
Proof.
  induction l as [|[a b] l IH]; intros e He Hl; cbn [ooo_merge]; [done|]. pose proof Hl as [[_ Hb] Hl']%Forall_cons_1. destruct (SEQ_LEQ a e); [|done]. apply IH; [by destruct (SEQ_LT e b)|done].
Qed.

Lemma ooo_add_ok l s e : in32 s -> in32 e -> Forall ok_range l -> Forall ok_range (tcp_ooo_add l s e).
Proof.
  intros Hs He Hl. unfold tcp_ooo_add. destruct (before_ok s l Hl) as [H1 H2]. destruct (ooo_before s l) as [pre rest]. cbn [fst snd] in *.
  assert (Hnew : Forall ok_range (if bool_decide (length l = TCP_OOO_MAX) then l else pre ++ (s, e) :: rest)) by (destruct (bool_decide _); [done|apply Forall_app; split; [done|by constructor]]).
  destruct rest as [|[a b] rest]; [done|]. destruct (SEQ_LEQ a e); [|done]. apply Forall_cons_1 in H2 as [[Ha Hb] H2]. destruct (merge_ok rest (if SEQ_LT b e then e else b) ltac:(by destruct (SEQ_LT b e)) H2) as [M1 M2].
  destruct (ooo_merge _ rest) as [e' rest']. apply Forall_app. split; [done|]. constructor; [|done]. split; [by destruct (SEQ_LT s a)|done].
Qed.

Lemma settle_ok l : forall nxt len, in32 nxt -> Forall ok_range l -> in32 (ooo_settle l nxt len).1.1 /\ Forall ok_range (ooo_settle l nxt len).2.
Proof.
  induction l as [|[a b] l IH]; intros nxt len Hn Hl; cbn [ooo_settle]; [done|]. pose proof Hl as [[_ Hb] Hl']%Forall_cons_1. destruct (SEQ_LEQ a nxt); [|done]. destruct (SEQ_LT nxt b); by apply IH.
Qed.

Section Send.

Context {H D : Type} `{Heap H} (base : Z) (W : list Z) (Hbytes : Forall is_byte W).

Implicit Types c : tctx H D.

(** The segments queued since [c] are good ones for the connection of [t]. *)
Definition sends (t : tcb) c c' : Prop :=
  now_ms (c_net c') = now_ms (c_net c) /\
  exists new, c_out c' = c_out c ++ new /\ Forall (seg_good base W (fin_wanted t) (local_ip t) (remote_ip t) (local_port t) (remote_port t)) new.

Lemma sends_quiet t c c' : now_ms (c_net c') = now_ms (c_net c) -> c_out c' = c_out c -> sends t c c'.
Proof. intros E1 E2. split; [done|]. exists []. by rewrite app_nil_r. Qed.

Lemma sends_refl t c : sends t c c.
Proof. by apply sends_quiet. Qed.

Lemma sends_trans t c1 c2 c3 : sends t c1 c2 -> sends t c2 c3 -> sends t c1 c3.
Proof.
  intros [A (n1 & B1 & C1)] [A' (n2 & B2 & C2)]. split; [congruence|]. exists (n1 ++ n2). split; [by rewrite B2, B1, app_assoc|by apply Forall_app].
Qed.

Lemma sends_same t t' c c' : snd_same t t' -> sends t c c' -> sends t' c c'.
Proof.
  intros [E _ (I1 & I2 & I3 & I4)] [A (n & B & C)]. split; [done|]. exists n. split; [done|]. assert (Ef : fin_wanted t' = fin_wanted t) by exact (f_equal s_fin_wanted E). by rewrite Ef, I1, I2, I3, I4.
Qed.

(** ** Emitting *)

Lemma segment_sends lip rip lp rp seq ack flags window opts payload c t : lip = local_ip t -> rip = remote_ip t -> lp = local_port t -> rp = remote_port t ->
  seg_fits lip rip lp rp seq ack flags window opts payload -> (payload = [] /\ flag flags TCP_FIN = false) \/ (exists k, stream_seg base W (fin_wanted t) seq payload (flag flags TCP_FIN) k) ->
  sends t c (tcp_segment lip rip lp rp seq ack flags window opts payload c).
Proof.
  intros -> -> -> -> Hfit Hs. unfold tcp_segment. destruct (_ <=? _); [apply sends_refl|]. unfold netbuf_alloc, n_kmalloc. destruct (kmalloc _ _) as [p h]. destruct (p =? 0); [by apply sends_quiet|].
  unfold netbuf_put. cbn [nb_off nb_data nb_ptr]. destruct (_ <? _); [by apply sends_quiet|]. split; [done|]. eexists [_]. split; [done|]. apply Forall_singleton. split; [done|].
  exists seq, ack, flags, window, opts, payload. split_and!; done.
Qed.

Lemma window_range t : 0 <= tcp_rcv_window t < 65536.
Proof.
  unfold tcp_rcv_window. set (r := wrap32 (TCP_RX_BUF - rx_len t) ≫ rcv_shift t). assert (0 <= r) by (apply Z.shiftr_nonneg; unfold wrap32; apply Z.mod_pos_bound; lia). clearbody r. destruct (Z.ltb_spec 0xFFFF r); lia.
Qed.

Lemma emit_same t flags seq off len opts c : snd_same t (tcp_emit t flags seq off len opts c).1 /\ (conn_ok t -> conn_ok (tcp_emit t flags seq off len opts c).1).
Proof. split; [done|]. by intros [A B C E F G]. Qed.

(** A segment without data. *)
Lemma emit_bare t flags seq opts c : conn_ok t -> in32 seq -> 0 <= flags < 256 -> flag flags TCP_FIN = false -> Forall is_byte opts -> Z.of_nat (length opts) `mod` 4 = 0 -> Z.of_nat (length opts) <= 40 ->
  sends t c (tcp_emit t flags seq 0 0 opts c).2.
Proof.
  intros [A B C _ _ _] Hs Hf Hfin Ho1 Ho2 Ho3. unfold tcp_emit. cbn [snd Z.eqb negb]. apply segment_sends; try done; [|by left]. split; tcb_simpl; try done. split; [done|apply (window_range t)].
Qed.

(** A segment with data of the ring, or a FIN. *)
Lemma emit_data t flags off len U X c : conn_ok t -> tx_inv base W U X t -> 0 <= off -> 0 <= len -> off + len <= tx_len t -> len <= 1460 -> (0 < len -> U <= zlen W) -> 0 <= flags < 256 ->
  (0 < len \/ off = tx_len t) -> (flag flags TCP_FIN = true -> fin_wanted t = true /\ off + len = tx_len t) -> sends t c (tcp_emit t flags (sq base (Z.min U (zlen W) + off)) off len [] c).2.
Proof.
  intros [A B C _ _ _] [I1 I2 I3 I4 I5 I6 I7 I8 I9 _] Ho Hl Hol Hl' HU Hf Hcase Hfin. unfold tcp_emit. cbn [snd]. set (m := Z.min U (zlen W)) in *.
  assert (Hm : 0 <= m <= zlen W) by (unfold zlen in *; lia). assert (Hsz : 0 < TCP_TX_BUF < 2 ^ 20) by done.
  assert (Ep : (if negb (len =? 0) then ring_read TCP_TX_BUF (tx_ring t) ((tx_start t +u off) `mod` TCP_TX_BUF) len else []) = take (Z.to_nat len) (drop (Z.to_nat (m + off)) W)).
  { destruct (Z.eqb_spec len 0) as [->|Hn]; [done|]. cbn [negb]. rewrite I7. pose proof (Z.mod_pos_bound m TCP_TX_BUF ltac:(lia)). rewrite wrap32_small by lia. rewrite Z.add_mod_idemp_l by lia.
    apply holds_read; [lia|lia|lia|]. intros k Hk. apply I8. lia. }
  change (tx_ring (set_rcv_adv _ t)) with (tx_ring t). change (tx_start (set_rcv_adv _ t)) with (tx_start t). rewrite Ep. set (payload := take _ _).
  assert (Elen : zlen payload = len) by (unfold payload, zlen in *; rewrite length_take, length_drop; lia).
  assert (Hpb : Forall is_byte payload) by (by apply Forall_take, Forall_drop). apply segment_sends; try done.
  - split; tcb_simpl; try done; [split; [apply sq_range|done]|split; [done|apply (window_range t)]|unfold zlen in Elen; lia].
  - right. exists (m + off). split; [done|lia| |].
    + unfold payload. rewrite length_take, length_drop. f_equal. unfold payload, zlen in *. rewrite length_take, length_drop in Elen. lia.
    + intros Hff. destruct (Hfin Hff) as [H1 H2]. split; [done|]. lia.
Qed.

(** The FIN is after the last byte. *)
Lemma emit_fin t U X c : conn_ok t -> tx_inv base W U X t -> fin_wanted t = true -> sends t c (tcp_send_ctl t (Z.lor TCP_FIN TCP_ACK) (sq base (zlen W)) c).2.
Proof.
  intros HC HI Hf. change (tcp_send_ctl t (Z.lor TCP_FIN TCP_ACK) (sq base (zlen W)) c) with (tcp_emit t (Z.lor TCP_FIN TCP_ACK) (sq base (zlen W)) (tx_len t) 0 [] c).
  pose proof HI as [I1 I2 I3 I4 I5 I6 I7 I8 I9 _]. assert (E : zlen W = Z.min U (zlen W) + tx_len t) by lia. assert (Hz : 0 <= zlen W) by (unfold zlen; lia). rewrite E at 1. apply (emit_data t _ (tx_len t) 0 U X c HC HI); try done; try lia. intros _. split; [done|lia].
Qed.

(** *** Steps *)

Record same_conn (t t' : tcb) : Prop := {
  sc_fin : fin_wanted t' = fin_wanted t;
  sc_ids : local_ip t' = local_ip t /\ remote_ip t' = remote_ip t /\ local_port t' = local_port t /\ remote_port t' = remote_port t;
}.

Lemma same_conn_of t t' : snd_same t t' -> same_conn t t'.
Proof. intros [E _ I]. split; [exact (f_equal s_fin_wanted E)|done]. Qed.

Lemma same_conn_trans t1 t2 t3 : same_conn t1 t2 -> same_conn t2 t3 -> same_conn t1 t3.
Proof. intros [E (K1 & K2 & K3 & K4)] [E' (K1' & K2' & K3' & K4')]. split; [congruence|split_and!; congruence]. Qed.

Lemma sends_conn t t' c c' : same_conn t t' -> sends t' c c' -> sends t c c'.
Proof. intros [E (I1 & I2 & I3 & I4)] [A (n & B & C)]. split; [done|]. exists n. split; [done|]. by rewrite E, I1, I2, I3, I4 in C. Qed.

(** From [t] to [t']: the invariant holds at the end, and what was queued is good. *)
Record keeps (t : tcb) c (t' : tcb) c' : Prop := {
  ke_inv : exists U X, tx_inv base W U X t';
  ke_ok : conn_ok t';
  ke_sends : sends t c c';
  ke_conn : same_conn t t';
}.

Lemma keeps_trans t1 c1 t2 c2 t3 c3 : keeps t1 c1 t2 c2 -> keeps t2 c2 t3 c3 -> keeps t1 c1 t3 c3.
Proof.
  intros [A B C E] [A' B' C' E']. split; [done|done| |].
  - apply (sends_trans _ _ c2 _ C). by apply (sends_conn _ t2).
  - by apply (same_conn_trans _ t2).
Qed.

Lemma keeps_same U X t c t' c' : tx_inv base W U X t -> snd_same t t' -> conn_ok t' -> sends t c c' -> keeps t c t' c'.
Proof. intros HI HS HC Hs. split; [|done|done|by apply same_conn_of]. exists U, X. by apply (tx_inv_same _ _ _ _ t). Qed.

Lemma keeps_refl U X t c : tx_inv base W U X t -> conn_ok t -> keeps t c t c.
Proof. intros HI HC. apply (keeps_same U X); [done|done|done|apply sends_refl]. Qed.

Lemma sq_sub3 a b f : wrap32 (sq base a - sq base b - f) = wrap32 (a - b - f).
Proof. unfold wrap32. rewrite <- (Zminus_mod_idemp_l (sq base a - sq base b)), <- (Zminus_mod_idemp_l (a - b)). f_equal. f_equal. apply sq_diff. Qed.

Lemma sq_pred k : sq base k -u 1 = sq base (k - 1).
Proof. unfold sq, wrap32. rewrite Zminus_mod_idemp_l. f_equal. lia. Qed.

(** The room there is between what is acknowledged and what was sent. *)
Lemma flight_bound U X t : tx_inv base W U X t -> X - U <= TCP_TX_BUF + 1 /\ X <= zlen W + 1 /\ 0 <= zlen W.
Proof. intros [I1 I2 I3 I4 I5 I6 I7 I8 I9 _]. destruct (fin_sent t); unfold zlen in *; lia. Qed.

Lemma resend_spec U X S t c : tx_inv base W U X t -> conn_ok t -> U <= S <= X + 1 -> (fin_sent t = true -> U < X) ->
  let '(n, t', c') := tcp_resend t (sq base S) c in snd_same t t' /\ conn_ok t' /\ sends t c c' /\ 0 <= n <= 1460 /\ (n = 0 \/ S + n <= X).
Proof.
  intros HI HC HS Hf. pose proof (flight_bound _ _ _ HI) as HF. pose proof HI as [I1 I2 I3 I4 I5 I6 I7 I8 I9 _]. assert (Hsz : TCP_TX_BUF < 2 ^ 20) by done.
  unfold tcp_resend. rewrite I3, I4, sq_sub by lia. rewrite sq_sub3. set (f := if fin_sent t then 1 else 0).
  assert (Hf01 : 0 <= f <= 1 /\ X - f <= zlen W /\ 0 <= X - U - f) by (unfold f; destruct (fin_sent t); [destruct I2; specialize (Hf eq_refl)|]; lia). rewrite (wrap32_small (X - U - f)) by lia.
  change (mss (set_rtt_at 0 t)) with (mss t). change (fin_sent (set_rtt_at 0 t)) with (fin_sent t). change (snd_nxt (set_rtt_at 0 t)) with (snd_nxt t). rewrite ?I4. set (t1 := set_rtt_at 0 t).
  assert (HS1 : snd_same t t1) by done. assert (HC1 : conn_ok t1) by (by destruct HC). assert (HI1 : tx_inv base W U X t1) by (by apply (tx_inv_same _ _ _ _ t)).
  destruct (Z.ltb_spec (S - U) (X - U - f)) as [Hin|Hin].
  - set (n := if X - U - f - (S - U) <? mss t then X - U - f - (S - U) else mss t). assert (Hn : n = Z.min (X - f - S) (mss t)) by (unfold n; destruct (Z.ltb_spec (X - U - f - (S - U)) (mss t)); lia). clearbody n.
    pose proof (emit_same t1 (Z.lor TCP_ACK TCP_PSH) (sq base S) (S - U) n [] c) as [ES EC]. specialize (EC HC1).
    assert (EQ : sends t1 c (tcp_emit t1 (Z.lor TCP_ACK TCP_PSH) (sq base S) (S - U) n [] c).2).
    { destruct (Z.eqb_spec n 0) as [->|Hn0].
      - change (tcp_emit t1 (Z.lor TCP_ACK TCP_PSH) (sq base S) (S - U) 0 [] c) with (tcp_emit t1 (Z.lor TCP_ACK TCP_PSH) (sq base S) 0 0 [] c). by apply emit_bare; try done; apply sq_range.
      - replace S with (Z.min U (zlen W) + (S - U)) at 1 by lia. apply (emit_data t1 _ (S - U) n U X c HC1 HI1); try done; try lia; change (tx_len t1) with (tx_len t); try lia. }
    destruct (tcp_emit t1 _ _ _ _ _ c) as [t2 c2]. cbn [fst snd] in *. split; [by apply (snd_same_trans _ t1)|]. split; [done|]. split; [by apply (sends_same t1 t)|]. split; [lia|right; lia].
  - destruct (fin_sent t && (sq base S =? sq base X -u 1)) eqn:Ef; [|cbn iota; split; [done|]; split; [done|]; split; [apply sends_refl|]; split; [lia|by left]].
    apply andb_true_iff in Ef as [Ef Es%Z.eqb_eq]. rewrite sq_pred in Es. assert (S = X - 1) as -> by (apply Z.eqb_eq; rewrite <- (sq_eqb base) by lia; by apply Z.eqb_eq). rewrite Ef in I2. destruct I2 as [I2 I2'].
    replace (X - 1) with (zlen W) by lia. pose proof (emit_fin t1 U X c HC1 HI1 I2') as EQ. pose proof (emit_same t1 (Z.lor TCP_FIN TCP_ACK) (sq base (zlen W)) 0 0 [] c) as [ES EC]. specialize (EC HC1). fold (tcp_send_ctl t1 (Z.lor TCP_FIN TCP_ACK) (sq base (zlen W)) c) in ES, EC.
    destruct (tcp_send_ctl t1 _ _ c) as [t2 c2]. cbn [fst snd] in *. split; [by apply (snd_same_trans _ t1)|]. split; [done|]. split; [by apply (sends_same t1 t)|]. split; [lia|right; lia].
Qed.

Lemma sq_inj a b : - 2 ^ 31 <= a - b < 2 ^ 31 -> sq base a = sq base b -> a = b.
Proof. intros Hd E. apply Z.eqb_eq. rewrite <- (sq_eqb base) by done. by apply Z.eqb_eq. Qed.

(** In recovery there is something that was sent and not acknowledged, or the FIN is not out. *)
Lemma recovery_flight U X t : tx_inv base W U X t -> recovery t <> TCP_RECOVERY_NONE -> fin_sent t = true -> U < X.
Proof. intros HI Hr Hf. pose proof (flight_bound _ _ _ HI) as HF. destruct HI as [I1 I2 I3 I4 I5 I6 I7 I8 I9 I10]. rewrite Hf in I2. destruct (I10 Hr) as (Rec & _ & R1 & [R2|R2] & _); lia. Qed.

Lemma recovery_loop_keeps U X fuel : forall t c Rtx, tx_inv base W U X t -> conn_ok t -> recovery t = TCP_RECOVERY_RTO -> rtx_nxt t = sq base Rtx -> U <= Rtx <= X + 1461 ->
  let '(t', c') := recovery_loop fuel t c in tx_inv base W U X t' /\ conn_ok t' /\ sends t c c' /\ same_conn t t'.
Proof.
  induction fuel as [|fuel IH]; intros t c Rtx HI HC Hr Hx Hb; cbn [recovery_loop]; [by split_and!; try done; apply sends_refl|].
  destruct (SEQ_LT (rtx_nxt t) (recover t) && _ && _) eqn:Eg; [|by split_and!; try done; apply sends_refl]. apply andb_true_iff in Eg as [[Eg _]%andb_true_iff _].
  pose proof (flight_bound _ _ _ HI) as HF. assert (Hsz : TCP_TX_BUF < 2 ^ 20) by done. assert (Hnn : recovery t <> TCP_RECOVERY_NONE) by (by rewrite Hr).
  pose proof HI as [I1 I2 I3 I4 I5 I6 I7 I8 I9 I10]. destruct (I10 Hnn) as (Rec & R1 & R2 & R3 & R4). destruct (R4 Hr) as (Rtx' & R5 & R6). rewrite Hx in R5. apply sq_inj in R5; [|lia]. subst Rtx'.
  rewrite Hx, R1, SEQ_LT_sq in Eg by lia. apply Z.ltb_lt in Eg. pose proof (resend_spec U X Rtx t c HI HC ltac:(lia) (recovery_flight U X t HI Hnn)) as HR. rewrite Hx. destruct (tcp_resend t (sq base Rtx) c) as [[n t1] c1].
  destruct HR as (S1 & S2 & S3 & S4 & S5). destruct (Z.eqb_spec n 0) as [->|Hn]; [split; [by apply (tx_inv_same _ _ _ _ t)|]; split; [done|]; split; [done|by apply same_conn_of]|].
  destruct S5 as [?|S5]; [done|]. set (t2 := set_rtx_nxt (rtx_nxt t1 +u n) t1). pose proof (tx_inv_same _ _ _ _ _ _ S1 HI) as HI1. destruct S1 as [T1 (T2 & T3 & T4) T5].
  assert (HI2 : tx_inv base W U X t2).
  { destruct HI1 as [J1 J2 J3 J4 J5 J6 J7 J8 J9 J10]. unfold t2. split; tcb_simpl; try done. intros _. exists Rec. rewrite T3. split; [done|]. split; [done|]. split; [done|]. intros _. exists (Rtx + n). rewrite T4, Hx, sq_add. split; [done|lia]. }
  assert (HC2 : conn_ok t2) by (by destruct S2). assert (HS2 : same_conn t t2) by (split; [exact (f_equal s_fin_wanted T1)|done]).
  pose proof (IH t2 c1 (Rtx + n) HI2 HC2) as HL. destruct (recovery_loop fuel t2 c1) as [t3 c3]. destruct HL as (L1 & L2 & L3 & L4).
  { unfold t2. tcb_simpl. by rewrite T2. } { unfold t2. tcb_simpl. by rewrite T4, Hx, sq_add. } { lia. }
  split; [done|]. split; [done|]. split; [apply (sends_trans _ _ c1 _ S3); by apply (sends_conn _ t2)|].
  by apply (same_conn_trans _ t2).
Qed.

Lemma push_recovery_keeps U X t c : tx_inv base W U X t -> conn_ok t ->
  let '(t', c') := tcp_push_recovery t c in tx_inv base W U X t' /\ conn_ok t' /\ sends t c c' /\ same_conn t t'.
Proof.
  intros HI HC. unfold tcp_push_recovery. destruct (recovery t) eqn:Er.
  - by split_and!; try done; apply sends_refl.
  - destruct (rtx_one t); [|by split_and!; try done; apply sends_refl]. assert (Hnn : recovery t <> TCP_RECOVERY_NONE) by (by rewrite Er). pose proof (recovery_flight U X t HI Hnn) as Hf.
    set (t1 := set_rtx_one false t). assert (HI1 : tx_inv base W U X t1) by (by apply (tx_inv_same _ _ _ _ t)). assert (HC1 : conn_ok t1) by (by destruct HC).
    pose proof HI as [I1 _ I3 _ _ _ _ _ _ _]. pose proof (resend_spec U X U t1 c HI1 HC1 ltac:(lia) Hf) as HR. rewrite I3. destruct (tcp_resend t1 (sq base U) c) as [[n t2] c2]. destruct HR as (S1 & S2 & S3 & _).
    split; [by apply (tx_inv_same _ _ _ _ t1)|]. split; [done|]. split; [by apply (sends_conn _ t1)|]. by apply (same_conn_trans _ t1); [|apply same_conn_of].
  - assert (Hnn : recovery t <> TCP_RECOVERY_NONE) by (by rewrite Er). pose proof (flight_bound _ _ _ HI) as HF. assert (Hsz : TCP_TX_BUF < 2 ^ 20) by done.
    pose proof HI as [I1 I2 I3 I4 I5 I6 I7 I8 I9 I10]. destruct (I10 Hnn) as (Rec & R1 & R2 & R3 & R4). destruct (R4 Er) as (Rtx & R5 & R6).
    rewrite R5, I3, SEQ_LT_sq by lia. set (t1 := if Rtx <? U then set_rtx_nxt (sq base U) t else t).
    assert (HT1 : tx_inv base W U X t1 /\ conn_ok t1 /\ recovery t1 = TCP_RECOVERY_RTO /\ rtx_nxt t1 = sq base (Z.max Rtx U) /\ same_conn t t1).
    { unfold t1. destruct (Z.ltb_spec Rtx U).
      - split; [|split; [by destruct HC|split; [done|split; [tcb_simpl; f_equal; lia|done]]]]. split; tcb_simpl; try done. intros _. exists Rec. split_and!; try done. intros _. exists U. split; [done|lia].
      - split_and!; try done. rewrite R5. f_equal. lia. }
    clearbody t1. destruct HT1 as (A1 & A2 & A3 & A4 & A5). pose proof (recovery_loop_keeps U X (if SEQ_LT (rtx_nxt t1) (recover t1) then Z.to_nat (recover t1 -u rtx_nxt t1) else 0%nat) t1 c (Z.max Rtx U) A1 A2 A3 A4 ltac:(lia)) as HL.
    destruct (recovery_loop _ t1 c) as [t2 c2]. destruct HL as (L1 & L2 & L3 & L4). split; [done|]. split; [done|]. split; [by apply (sends_conn _ t1)|].
    by apply (same_conn_trans _ t1).
Qed.

Lemma arm_same now t : snd_same t (tcp_arm_rto now t) /\ (conn_ok t -> conn_ok (tcp_arm_rto now t)).
Proof. unfold tcp_arm_rto. destruct (_ =? _); [|by split]. split; [done|]. by intros [A B C E F G]. Qed.

(** [snd_nxt] advances over data, or over the FIN. *)
Lemma tx_inv_advance U X n t : tx_inv base W U X t -> fin_sent t = false -> 0 <= n -> X + n <= zlen W -> tx_inv base W U (X + n) (set_snd_nxt (snd_nxt t +u n) t).
Proof.
  intros [I1 I2 I3 I4 I5 I6 I7 I8 I9 I10] Hf Hn Hx. split; tcb_simpl; rewrite ?Hf; try done; [lia|by rewrite I4, sq_add|]. intros Hr. destruct (I10 Hr) as (Rec & R1 & R2 & R3 & R4). exists Rec. split_and!; try done. lia.
Qed.

Lemma push_loop_keeps U wnd fuel : forall X t c, tx_inv base W U X t -> conn_ok t ->
  let '(sent', t', c') := push_loop fuel wnd (X - U) t c in
  exists X', tx_inv base W U X' t' /\ sent' = X' - U /\ conn_ok t' /\ sends t c c' /\ same_conn t t' /\ t_state t' = t_state t /\ fin_sent t' = fin_sent t.
Proof.
  induction fuel as [|fuel IH]; intros X t c HI HC; cbn [push_loop]; [exists X; split_and!; try done; apply sends_refl|].
  assert (Hstop : exists X', tx_inv base W U X' t /\ X - U = X' - U /\ conn_ok t /\ sends t c c /\ same_conn t t /\ t_state t = t_state t /\ fin_sent t = fin_sent t) by (exists X; split_and!; try done; apply sends_refl).
  destruct ((X - U <? tx_len t) && _) eqn:Eg; [|done]. apply andb_true_iff in Eg as [Eg%Z.ltb_lt _]. set (room := if X - U <? wnd then wnd - (X - U) else 0). assert (Hroom : 0 <= room) by (unfold room; destruct (Z.ltb_spec (X - U) wnd); lia). clearbody room.
  destruct (Z.eqb_spec room 0) as [|Hroom0]; [done|]. set (n0 := if mss t <? tx_len t - (X - U) then mss t else tx_len t - (X - U)).
  pose proof (flight_bound _ _ _ HI) as HF. assert (Hsz : TCP_TX_BUF < 2 ^ 20) by done. pose proof HI as [I1 I2 I3 I4 I5 I6 I7 I8 I9 I10].
  assert (Hn0 : n0 = Z.min (mss t) (tx_len t - (X - U))) by (unfold n0; destruct (Z.ltb_spec (mss t) (tx_len t - (X - U))); lia). clearbody n0. destruct (_ && _); [done|].
  set (n := if room <? n0 then room else n0). assert (Hn : n = Z.min room n0) by (unfold n; destruct (Z.ltb_spec room n0); lia). clearbody n.
  set (t1 := if (rtt_at t =? 0) && _ then _ else t). assert (HT1 : snd_same t t1 /\ conn_ok t1 /\ t_state t1 = t_state t) by (unfold t1; destruct (_ && _); [split; [done|]; split; [by destruct HC|done]|done]). clearbody t1. destruct HT1 as (HS1 & HC1 & Hst1).
  pose proof (tx_inv_same _ _ _ _ _ _ HS1 HI) as HI1. assert (En1 : snd_nxt t1 = sq base X) by (by destruct HI1). assert (El1 : tx_len t1 = tx_len t) by exact (f_equal s_tx_len (sm_snd _ _ HS1)).
  assert (Ef1 : fin_sent t1 = fin_sent t) by exact (f_equal s_fin_sent (sm_snd _ _ HS1)). assert (HXW : X < zlen W /\ U <= zlen W) by (destruct (fin_sent t); lia). assert (Hfs : fin_sent t = false) by (destruct (fin_sent t); [lia|done]).
  assert (EQ : sends t1 c (tcp_emit t1 (Z.lor TCP_ACK TCP_PSH) (snd_nxt t1) (X - U) n [] c).2).
  { rewrite En1. destruct (Z.eqb_spec n 0) as [->|Hn1].
    - change (tcp_emit t1 (Z.lor TCP_ACK TCP_PSH) (sq base X) (X - U) 0 [] c) with (tcp_emit t1 (Z.lor TCP_ACK TCP_PSH) (sq base X) 0 0 [] c). by apply emit_bare; try done; apply sq_range.
    - replace X with (Z.min U (zlen W) + (X - U)) at 1 by lia. apply (emit_data t1 _ (X - U) n U X c HC1 HI1); try done; try lia. }
  pose proof (emit_same t1 (Z.lor TCP_ACK TCP_PSH) (snd_nxt t1) (X - U) n [] c) as [ES EC]. specialize (EC HC1). assert (Est : t_state (tcp_emit t1 (Z.lor TCP_ACK TCP_PSH) (snd_nxt t1) (X - U) n [] c).1 = t_state t1) by done.
  destruct (tcp_emit t1 _ _ _ _ _ c) as [t2 c2]. cbn [fst snd] in *. pose proof (tx_inv_same _ _ _ _ _ _ ES HI1) as HI2. assert (Ef2 : fin_sent t2 = false) by (rewrite <- Hfs, <- Ef1; exact (f_equal s_fin_sent (sm_snd _ _ ES))).
  pose proof (tx_inv_advance U X n t2 HI2 Ef2 ltac:(lia) ltac:(lia)) as HI3. set (t3 := set_snd_nxt (snd_nxt t2 +u n) t2) in *. destruct (arm_same (c_now c2) t3) as [AS AC]. assert (HC3 : conn_ok t3) by (by destruct EC). specialize (AC HC3).
  assert (Hst : t_state (tcp_arm_rto (c_now c2) t3) = t_state t) by (unfold tcp_arm_rto; rewrite <- Hst1, <- Est; by destruct (_ =? _)).
  assert (HSC : same_conn t (tcp_arm_rto (c_now c2) t3)).
  { apply (same_conn_trans _ t1); [by apply same_conn_of|]. apply (same_conn_trans _ t2); [by apply same_conn_of|]. apply (same_conn_trans _ t3); [done|by apply same_conn_of]. }
  assert (Ef4 : fin_sent (tcp_arm_rto (c_now c2) t3) = false) by (rewrite <- Ef2; exact (f_equal s_fin_sent (sm_snd _ _ AS))).
  set (t4 := tcp_arm_rto (c_now c2) t3) in *. clearbody t4. pose proof (IH (X + n) t4 c2 (tx_inv_same _ _ _ _ _ _ AS HI3) AC) as HL. rewrite wrap32_small by lia. replace (X - U + n) with (X + n - U) by lia.
  destruct (push_loop fuel wnd (X + n - U) t4 c2) as [[sent' t5] c5]. destruct HL as (X' & L1 & L2 & L3 & L4 & L5 & L6 & L7). exists X'. split; [done|]. split; [done|]. split; [done|].
  split; [apply (sends_trans _ _ c2); [by apply (sends_conn _ t1); [apply same_conn_of|]|by apply (sends_conn _ t4)]|]. split; [by apply (same_conn_trans _ t4)|]. split; congruence.
Qed.

(** [tcp_push]. *)
Lemma push_keeps U X t c : tx_inv base W U X t -> conn_ok t -> let '(t', c') := tcp_push t c in keeps t c t' c'.
Proof.
  intros HI HC. unfold tcp_push. pose proof (push_recovery_keeps U X t c HI HC) as HR. destruct (tcp_push_recovery t c) as [t1 c1]. destruct HR as (HI1 & HC1 & HS1 & HE1).
  destruct (_ && _); [split; [by exists U, X|done|done|done]|]. set (wnd := if _ <? _ then _ else _). clearbody wnd.
  pose proof (flight_bound _ _ _ HI1) as HF. assert (Hsz : TCP_TX_BUF < 2 ^ 20) by done. assert (Eu : snd_nxt t1 -u snd_una t1 = X - U) by (destruct HI1 as [I1 _ -> -> _ _ _ _ _ _]; apply sq_sub; lia). rewrite Eu.
  pose proof (push_loop_keeps U wnd (Z.to_nat (tx_len t1 + TCP_OUT_MAX)) X t1 c1 HI1 HC1) as HL. destruct (push_loop _ wnd (X - U) t1 c1) as [[sent t2] c2]. destruct HL as (X2 & HI2 & -> & HC2 & HS2 & HE2 & Hst2 & Hf2).
  assert (HK : keeps t c t2 c2) by (split; [by exists U, X2|done|apply (sends_trans _ _ c1 _ HS1); by apply (sends_conn _ t1)|by apply (same_conn_trans _ t1)]).
  assert (Hend : forall t3 c3, keeps t c t3 c3 -> keeps t c (if negb (tx_len t3 =? 0) && (X2 - U =? 0) && (snd_wnd t3 =? 0) then tcp_arm_rto (c_now c3) t3 else t3) c3).
  { intros t3 c3 HK3. destruct (_ && _); [|done]. destruct (arm_same (c_now c3) t3) as [AS AC]. destruct HK3 as [(U3 & X3 & K1) K2 K3 K4]. split; [exists U3, X3; by apply (tx_inv_same _ _ _ _ t3)|by apply AC|done|by apply (same_conn_trans _ t3); [|apply same_conn_of]]. }
  destruct (fin_wanted t2 && negb (fin_sent t2) && (X2 - U =? tx_len t2)) eqn:Ef; [|by apply Hend].
  apply andb_true_iff in Ef as [[Ef1 Ef2%negb_true_iff]%andb_true_iff Ef3%Z.eqb_eq]. pose proof HI2 as [I1 I2 I3 I4 I5 I6 I7 I8 I9 I10]. rewrite Ef2 in I2. assert (HX : X2 = zlen W) by lia.
  pose proof (emit_fin t2 U X2 c2 HC2 HI2 Ef1) as EQ. rewrite <- HX, <- I4 in EQ. pose proof (emit_same t2 (Z.lor TCP_FIN TCP_ACK) (snd_nxt t2) 0 0 [] c2) as [ES EC]. specialize (EC HC2). fold (tcp_send_ctl t2 (Z.lor TCP_FIN TCP_ACK) (snd_nxt t2) c2) in ES, EC.
  destruct (tcp_send_ctl t2 _ _ c2) as [t3 c3]. cbn [fst snd] in *. pose proof (tx_inv_same _ _ _ _ _ _ ES HI2) as HI3. apply Hend. assert (Ew3 : fin_wanted t3 = true) by (rewrite <- Ef1; exact (f_equal s_fin_wanted (sm_snd _ _ ES))).
  set (t4 := set_t_state _ _). destruct (arm_same (c_now c3) t4) as [AS AC].
  assert (HI4 : tx_inv base W U (X2 + 1) t4).
  { destruct HI3 as [J1 J2 J3 J4 J5 J6 J7 J8 J9 J10]. unfold t4. split; tcb_simpl; try done; [lia|split; [lia|done]|by rewrite J4, sq_add|]. intros Hr. destruct (J10 Hr) as (Rec & R1 & R2 & R3 & R4). exists Rec. split_and!; try done. lia. }
  assert (HC4 : conn_ok t4) by (destruct EC as [Q1 Q2 Q3 Q4 Q5 Q6]; unfold t4; split; tcb_simpl; try done; unfold handshaken; tcb_simpl; by destruct (in_state _ _)).
  apply (keeps_trans _ _ t2 c2); [done|]. split; [exists U, (X2 + 1); by apply (tx_inv_same _ _ _ _ t4)|by apply AC|done|]. apply (same_conn_trans _ t3); [by apply same_conn_of|]. apply (same_conn_trans _ t4); [done|by apply same_conn_of].
Qed.

(** ** Acknowledgements *)

Lemma cc_acked_spec t acked ack :
  match tcp_cc_acked t acked ack with
  | Some t' => tcb_snd t' = tcb_snd t /\ tcb_rcv t' = tcb_rcv t /\ tcb_sock t' = tcb_sock t /\ rtx_nxt t' = rtx_nxt t /\ recover t' = recover t /\
               (recovery t' = TCP_RECOVERY_NONE \/ (recovery t' = recovery t /\ SEQ_LT ack (recover t) = true))
  | None => cwnd t = 0 /\ ssthresh t = 0 \/ cwnd t = 0 /\ ssthresh t < 0
  end.
Proof.
  assert (Hgrow : match cc_grow t acked with Some t' => tcb_snd t' = tcb_snd t /\ tcb_rcv t' = tcb_rcv t /\ tcb_sock t' = tcb_sock t /\ rtx_nxt t' = rtx_nxt t /\ recover t' = recover t /\ recovery t' = recovery t
                                        | None => cwnd t = 0 /\ ssthresh t = 0 \/ cwnd t = 0 /\ ssthresh t < 0 end).
  { unfold cc_grow. change (cwnd (set_dupacks 0 t)) with (cwnd t). change (ssthresh (set_dupacks 0 t)) with (ssthresh t). destruct (Z.ltb_spec (cwnd t) (ssthresh t)).
    - by destruct (0x40000000 <? _).
    - destruct (Z.eqb_spec (cwnd t) 0); [lia|]. by destruct (0x40000000 <? _). }
  unfold tcp_cc_acked, in_recovery. destruct (bool_decide_reflect (recovery t = TCP_RECOVERY_NONE)) as [Er|Er].
  - destruct (cc_grow t acked) as [t'|]; [|done]. destruct Hgrow as (? & ? & ? & ? & ? & E). split_and!; try done. left. congruence.
  - destruct (SEQ_LT ack (recover t)) eqn:El.
    + destruct (bool_decide_reflect (recovery t = TCP_RECOVERY_FAST)); [split_and!; try done; by right|]. destruct (cc_grow t acked) as [t'|]; [|done]. destruct Hgrow as (? & ? & ? & ? & ? & E). split_and!; try done. by right.
    + destruct (bool_decide _); split_and!; try done; by left.
Qed.

Lemma rtt_sample_same now t : snd_same t (tcp_rtt_sample now t) /\ tcb_rcv (tcp_rtt_sample now t) = tcb_rcv t /\ tcb_sock (tcp_rtt_sample now t) = tcb_sock t.
Proof. unfold tcp_rtt_sample. change (srtt (set_rtt_at 0 t)) with (srtt t). by destruct (srtt t =? 0). Qed.

Lemma ack_position U X t ack : tx_inv base W U X t -> in32 ack -> SEQ_LT (snd_nxt t) ack = false -> SEQ_LT (snd_una t) ack = true -> exists A, ack = sq base A /\ U < A <= X.
Proof.
  intros HI Ha H1 H2. pose proof (flight_bound _ _ _ HI) as HF. assert (Hsz : TCP_TX_BUF < 2 ^ 20) by done. destruct HI as [I1 I2 I3 I4 _ _ _ _ _ _]. rewrite I3 in H2. rewrite I4 in H1.
  set (d := ack -u sq base U). assert (Hd : 0 <= d < 2 ^ 32) by (unfold d, wrap32; apply Z.mod_pos_bound; lia). assert (Ea : ack = sq base (U + d)).
  { rewrite <- sq_add. unfold d, wrap32. rewrite Z.add_mod_idemp_r by lia. replace (sq base U + (ack - sq base U)) with ack by lia. symmetry. by apply Z.mod_small. }
  clearbody d. subst ack. unfold SEQ_LT in *. rewrite sq_diff in H1, H2. apply Z.leb_le in H2. apply Z.leb_gt in H1. unfold wrap32 in *.
  assert (0 < d <= 2 ^ 31).
  { split; [destruct (Z.eq_dec d 0) as [->|]; [|lia]; replace (U - (U + 0)) with 0 in H2 by lia; change (0 `mod` 2 ^ 32) with 0 in H2; lia|]. destruct (Z.le_gt_cases d (2 ^ 31)); [done|]. exfalso.
    rewrite <- (Z_mod_plus_full _ 1), Z.mod_small in H2 by lia. lia. }
  exists (U + d). split; [done|]. split; [lia|]. destruct (Z.le_gt_cases (U + d) X); [done|]. exfalso. rewrite <- (Z_mod_plus_full _ 1), Z.mod_small in H1 by lia. lia.
Qed.

(** The acknowledged bytes leave the ring. *)
Lemma tx_inv_acked U X A t t' : tx_inv base W U X t -> U < A <= X ->
  tcb_snd t' = tcb_snd (t ▷ set_tx_start ((tx_start t +u Z.min (A - U) (tx_len t)) `mod` TCP_TX_BUF) ▷ set_tx_len (tx_len t -u Z.min (A - U) (tx_len t)) ▷ set_snd_una (sq base A)) ->
  (recovery t' <> TCP_RECOVERY_NONE -> recovery t' = recovery t /\ SEQ_LT (sq base A) (recover t) = true /\ recover t' = recover t /\ rtx_nxt t' = rtx_nxt t) -> tx_inv base W A X t'.
Proof.
  intros HI HA E HR. pose proof (flight_bound _ _ _ HI) as HF. assert (Hsz : 0 < TCP_TX_BUF < 2 ^ 20) by done. destruct HI as [I1 I2 I3 I4 I5 I6 I7 I8 I9 I10].
  assert (E1 : fin_sent t' = fin_sent t) by exact (f_equal s_fin_sent E). assert (E2 : fin_wanted t' = fin_wanted t) by exact (f_equal s_fin_wanted E).
  assert (E3 : snd_una t' = sq base A) by exact (f_equal s_snd_una E). assert (E4 : snd_nxt t' = snd_nxt t) by exact (f_equal s_snd_nxt E).
  assert (E5 : tx_len t' = tx_len t -u Z.min (A - U) (tx_len t)) by exact (f_equal s_tx_len E). assert (E6 : tx_start t' = (tx_start t +u Z.min (A - U) (tx_len t)) `mod` TCP_TX_BUF) by exact (f_equal s_tx_start E).
  assert (E7 : tx_ring t' = tx_ring t) by exact (f_equal s_tx_ring E). assert (E8 : mss t' = mss t) by exact (f_equal s_mss E). set (d := Z.min (A - U) (tx_len t)) in *.
  assert (Hd : 0 <= d <= tx_len t /\ Z.min U (zlen W) + d = Z.min A (zlen W)) by (unfold d; destruct (fin_sent t); lia). rewrite wrap32_small in E5 by lia.
  split; rewrite ?E1, ?E2, ?E3, ?E4, ?E5, ?E6, ?E7, ?E8; try done; try lia.
  - rewrite I7. pose proof (Z.mod_pos_bound (Z.min U (zlen W)) TCP_TX_BUF ltac:(lia)). rewrite wrap32_small by lia. rewrite Z.add_mod_idemp_l by lia. f_equal. lia.
  - intros k Hk. apply I8. lia.
  - intros Hr. destruct (HR Hr) as (R0 & R1 & R2 & R3). rewrite R0 in Hr. destruct (I10 Hr) as (Rec & Q1 & Q2 & Q3 & Q4). exists Rec. rewrite R2, Q1. rewrite Q1, SEQ_LT_sq in R1 by lia. apply Z.ltb_lt in R1. split_and!; try done; [lia|].
    rewrite R0, R3. done.
Qed.

Lemma wake_sends t t' c : sends t c (wake_wait t' c).
Proof. unfold wake_wait. destruct (_ =? 0); [apply sends_refl|by apply sends_quiet]. Qed.

Lemma wake_now (t : tcb) c : now_ms (c_net (wake_wait t c)) = now_ms (c_net c).
Proof. unfold wake_wait. by destruct (_ =? 0). Qed.

Lemma set_closed_keeps U X t err c : tx_inv base W U X t -> conn_ok t -> err <= 0 -> let '(t', c') := tcp_set_closed t err c in keeps t c t' c'.
Proof.
  intros HI HC He. unfold tcp_set_closed. set (t1 := if _ && _ then _ else t). assert (HS : snd_same t t1) by (unfold t1; by destruct (_ && _)). assert (HC1 : conn_ok t1) by (unfold t1; destruct (_ && _); [destruct HC; by split|done]). clearbody t1.
  pose proof (tx_inv_same _ _ _ _ _ _ HS HI) as [I1 I2 I3 I4 I5 I6 I7 I8 I9 I10]. split; [exists U, X; by split|by destruct HC1|apply wake_sends|]. by apply (same_conn_trans _ t1); [apply same_conn_of|].
Qed.

Lemma dupack_keeps U X t c : tx_inv base W U X t -> conn_ok t -> U < X -> keeps t c (tcp_cc_dupack t) c.
Proof.
  intros HI HC HX. unfold tcp_cc_dupack, in_recovery. destruct (bool_decide_reflect (recovery t = TCP_RECOVERY_FAST)); [apply (keeps_same U X); [done|done|by destruct HC|apply sends_refl]|].
  destruct (bool_decide_reflect (recovery t = TCP_RECOVERY_NONE)) as [Er|Er]; cbn [negb]; [|by apply (keeps_refl U X)].
  destruct (dupacks _ <? 3); [apply (keeps_same U X); [done|done|by destruct HC|apply sends_refl]|]. set (t1 := set_ssthresh _ _). set (t' := set_rtx_one _ _).
  pose proof HI as [I1 I2 I3 I4 I5 I6 I7 I8 I9 I10]. split; [|by destruct HC|apply sends_refl|done]. exists U, X. unfold t', t1. split; tcb_simpl; try done. intros _. exists X. split_and!; try done; lia.
Qed.

(** [None] is the division by a [cwnd] of 0, which takes an [ssthresh] of 0. *)
Lemma got_ack_keeps U X t seq ack window bare c : tx_inv base W U X t -> conn_ok t -> in32 ack -> SEQ_LT (snd_nxt t) ack = false ->
  match tcp_got_ack t seq ack window bare c with Some (t', c') => keeps t c t' c' | None => cwnd t = 0 /\ ssthresh t <= 0 end.
Proof.
  intros HI HC Ha Hn. unfold tcp_got_ack. set (wnd := wrap32 (window ≪ snd_shift t)). clearbody wnd. pose proof (flight_bound _ _ _ HI) as HF. assert (Hsz : 0 < TCP_TX_BUF < 2 ^ 20) by done.
  set (m := if SEQ_LT (snd_una t) ack && _ then _ else _).
  assert (HM : match m with Some (t1, c1) => keeps t c t1 c1 | None => cwnd t = 0 /\ ssthresh t <= 0 end).
  { unfold m. clear m. destruct (SEQ_LT (snd_una t) ack && SEQ_LEQ ack (snd_nxt t)) eqn:Eg.
    - apply andb_true_iff in Eg as [Eg _]. destruct (ack_position U X t ack HI Ha Hn Eg) as (A & -> & HA). pose proof HI as [I1 I2 I3 I4 I5 I6 I7 I8 I9 I10]. rewrite I3, sq_sub by lia.
      set (d := if A - U <? tx_len t then A - U else tx_len t). assert (Hd : d = Z.min (A - U) (tx_len t)) by (unfold d; destruct (Z.ltb_spec (A - U) (tx_len t)); lia). clearbody d. subst d.
      set (t0 := set_rto_at 0 _). set (t1 := if negb (rtt_at t0 =? 0) && _ then _ else t0). set (t2 := if negb (snd_una (set_rto_ms (rto_base t1) t1) =? _) then _ else _).
      assert (H2 : tcb_snd t2 = tcb_snd t0 /\ tcb_rcv t2 = tcb_rcv t /\ tcb_sock t2 = tcb_sock t /\ recovery t2 = recovery t /\ recover t2 = recover t /\ rtx_nxt t2 = rtx_nxt t /\ cwnd t2 = cwnd t /\ ssthresh t2 = ssthresh t).
      { assert (H1 : tcb_snd t1 = tcb_snd t0 /\ tcb_rcv t1 = tcb_rcv t /\ tcb_sock t1 = tcb_sock t /\ recovery t1 = recovery t /\ recover t1 = recover t /\ rtx_nxt t1 = rtx_nxt t /\ cwnd t1 = cwnd t /\ ssthresh t1 = ssthresh t).
        { unfold t1. destruct (_ && _); [|done]. unfold tcp_rtt_sample. destruct (srtt _ =? 0); done. }
        clearbody t1. unfold t2. destruct (negb _); [|done]. unfold tcp_arm_rto. by destruct (_ =? 0). }
      clearbody t2. clear t1. destruct H2 as (K1 & K2 & K3 & K4 & K5 & K6 & K7 & K8). pose proof (cc_acked_spec t2 (A - U) (sq base A)) as HCC.
      destruct (tcp_cc_acked t2 (A - U) (sq base A)) as [t3|]; cbn [mbind option_bind]; [|rewrite <- K7, <- K8; lia]. destruct HCC as (C1 & C2 & C3 & C4 & C5 & C6).
      assert (HI3 : tx_inv base W A X t3).
      { apply (tx_inv_acked U X A t t3 HI HA); [rewrite C1, K1; done|]. intros Hr. destruct C6 as [?|[C6 C7]]; [done|]. rewrite K4 in C6. rewrite K5 in C5, C7. rewrite K6 in C4. done. }
      assert (HC3 : conn_ok t3).
      { assert (Er : tcb_rcv t3 = tcb_rcv t) by congruence. assert (Es : tcb_sock t3 = tcb_sock t) by congruence. destruct HC as [A1 A2 A3 A4 A5 A6]. split; unfold handshaken, local_ip, remote_ip, local_port, remote_port, rcv_nxt, ooo, t_state, t_error in *; rewrite ?Er, ?Es; done. }
      assert (HE3 : same_conn t t3).
      { assert (Es : tcb_sock t3 = tcb_sock t) by congruence. assert (Ef : tcb_snd t3 = tcb_snd t0) by congruence. split; [exact (f_equal s_fin_wanted Ef)|]. unfold local_ip, remote_ip, local_port, remote_port. by rewrite Es. }
      clear C1 C2 C3 C4 C5 C6 K1 K2 K3 K4 K5 K6 K7 K8 t0. assert (HK3 : keeps t c t3 c) by (split; [by exists A, X|done|apply sends_refl|done]). clear HE3.
      set (p := if fin_sent t3 && _ then _ else _). assert (HP : let '(t4, c4) := p in keeps t c t4 c4).
      { unfold p. destruct (_ && _); [|done].
        assert (Hset : forall st, st <> TCP_SYN_SENT -> st <> TCP_SYN_RCVD -> keeps t3 c (set_t_state st t3) c) by (intros st S1 S2; apply (keeps_same A X); [done|done|destruct HC3; by split|apply sends_refl]).
        destruct (t_state t3); try done; try (apply (keeps_trans _ _ t3 c _ _ HK3)); [by apply Hset| |].
        - apply (keeps_same A X); [done|done|destruct HC3; by split|apply sends_refl].
        - by apply (set_closed_keeps A X). }
      clearbody p. destruct p as [t4 c4]. destruct HP as [P1 P2 P3 P4]. split; [done|done|by apply (sends_trans _ _ c4), wake_sends|done].
    - destruct (_ && negb (snd_una t =? snd_nxt t)) eqn:Ed; [|by apply (keeps_refl U X)]. apply andb_true_iff in Ed as [_ Ed%negb_true_iff]. apply (dupack_keeps U X); try done. destruct HI as [I1 I2 I3 I4 I5 I6 I7 I8 I9 I10].
      rewrite I3, I4, sq_eqb in Ed by lia. apply Z.eqb_neq in Ed. lia. }
  clearbody m. destruct m as [[t1 c1]|]; cbn [mbind option_bind]; [|done]. set (t2 := if (snd_wnd t1 =? 0) && _ && _ && _ && _ then _ else t1).
  assert (H2 : keeps t c t2 c1).
  { unfold t2. destruct (_ && negb (fin_sent t1)) eqn:Eo; [|done]. apply andb_true_iff in Eo as [[[_ Eo1%Z.eqb_eq]%andb_true_iff Eo2%Z.eqb_eq]%andb_true_iff Eo3%negb_true_iff].
    apply (keeps_trans _ _ t1 c1 _ _ HM). destruct HM as [(U1 & X1 & HI1) HC1 _ _]. pose proof (flight_bound _ _ _ HI1) as HF1. pose proof HI1 as [I1 I2 I3 I4 I5 I6 I7 I8 I9 I10]. rewrite Eo1, I3, I4, sq_sub in Eo2 by lia. rewrite Eo3 in I2.
    split; [|by destruct HC1|apply sends_refl|done]. exists U1, U1. split; tcb_simpl; rewrite ?Eo3, ?Eo1; try done; try lia. intros Hr. destruct (I10 Hr) as (Rec & R1 & R2 & R3 & R4). exists Rec. split_and!; try done. right. lia. }
  clearbody t2. set (t3 := if (wnd =? 0) && (ack =? snd_una t2) then _ else t2). assert (H3 : keeps t c t3 c1).
  { unfold t3. destruct (_ && _); [|done]. destruct H2 as [(U1 & X1 & HI1) P2 P3 P4]. split; [exists U1, X1; by apply (tx_inv_same _ _ _ _ t2)|by destruct P2|done|by apply (same_conn_trans _ t2)]. }
  clearbody t3. destruct (_ && SEQ_LEQ (snd_wl1 t3) seq); [|done]. destruct H3 as [(U1 & X1 & [J1 J2 J3 J4 J5 J6 J7 J8 J9 J10]) P2 P3 P4]. split; [exists U1, X1; by split|by destruct P2|done|by apply (same_conn_trans _ t3)].
Qed.

(** ** Data that arrives *)

Lemma got_data_snd t seq data fin c : conn_ok t -> in32 seq ->
  let '(t', c') := tcp_got_data t seq data fin c in snd_same t t' /\ conn_ok t' /\ sends t c c'.
Proof.
  intros HC Hs. assert (Hnew : forall seq data, in32 seq -> let '(t', c') := got_new_data t seq data fin c in snd_same t t' /\ conn_ok t' /\ sends t c c').
  { clear seq data Hs. intros seq data Hs. unfold got_new_data. destruct (_ && _); [split; [done|split; [done|apply sends_refl]]|]. set (taken := if _ <? _ then _ else _). clearbody taken. set (t1 := set_rx_ring _ t). set (t2 := if fin && _ then _ else t1).
    assert (H2 : snd_same t t2 /\ conn_ok t2) by (unfold t2; destruct (fin && _); (split; [done|by destruct HC])). clearbody t2. destruct H2 as [S2 C2].
    set (t3 := if negb (seq -u rcv_nxt t =? 0) then _ else _). assert (H3 : snd_same t t3 /\ conn_ok t3).
    { unfold t3. destruct C2 as [A1 A2 A3 A4 A5 A6]. destruct (negb (seq -u rcv_nxt t =? 0)).
      - destruct (negb (taken =? 0)); [|done]. split; [by apply (snd_same_trans _ t2)|]. split; tcb_simpl; try done. apply ooo_add_ok; [done|apply wrap_in32|done].
      - unfold tcp_ooo_settle. tcb_simpl. pose proof (settle_ok (ooo t2) (rcv_nxt t2 +u taken) (rx_len t2 +u taken) (wrap_in32 _) A4) as [S1' S2']. destruct (ooo_settle _ _ _) as [[nxt len] l]. split; [by apply (snd_same_trans _ t2)|]. split; tcb_simpl; done. }
    clearbody t3. destruct H3 as [S3 C3]. set (t4 := if fin_seen t3 && _ then _ else t3). assert (H4 : snd_same t t4 /\ conn_ok t4).
    { unfold t4. destruct (_ && _); [|done]. split; [apply (snd_same_trans _ t3); [done|]; by destruct (t_state _)|]. destruct C3 as [A1 A2 A3 A4 A5 A6]. change (t_state (set_peer_fin true (set_rcv_nxt (rcv_nxt t3 +u 1) t3))) with (t_state t3).
      destruct (t_state t3) eqn:Est; (split; [exact A1|exact A2|apply wrap_in32|exact A4|first [exact A5|split; discriminate]|exact A6]). }
    clearbody t4. destruct H4 as [S4 C4]. split; [done|]. split; [done|]. destruct (_ || _); [apply wake_sends|apply sends_refl]. }
  assert (Hkeep : snd_same t t /\ conn_ok t /\ sends t c c) by (split; [done|split; [done|apply sends_refl]]).
  unfold tcp_got_data. destruct (SEQ_LT seq (rcv_nxt t)); [destruct (_ <? _); [done|]|]; (destruct (peer_fin t); [done|]); apply Hnew; [by destruct HC|done].
Qed.

(** ** Timers *)

Lemma ctl_keeps U X t flags seq c : tx_inv base W U X t -> conn_ok t -> in32 seq -> 0 <= flags < 256 -> flag flags TCP_FIN = false -> let '(t', c') := tcp_send_ctl t flags seq c in keeps t c t' c'.
Proof.
  intros HI HC Hs Hf Hfin. pose proof (emit_same t flags seq 0 0 [] c) as [ES EC]. pose proof (emit_bare t flags seq [] c HC Hs Hf Hfin (Forall_nil_2 _) eq_refl ltac:(simpl; lia)) as EQ. unfold tcp_send_ctl.
  destruct (tcp_emit t flags seq 0 0 [] c) as [t' c']. apply (keeps_same U X); [done|done|by apply EC|done].
Qed.

Lemma una_in32 U X t : tx_inv base W U X t -> in32 (snd_nxt t).
Proof. intros [_ _ _ -> _ _ _ _ _ _]. apply sq_range. Qed.

Lemma timeout_keeps U X t now c : tx_inv base W U X t -> conn_ok t -> let '(t', c') := tcp_timeout t now c in keeps t c t' c'.
Proof.
  intros HI HC. unfold tcp_timeout, in_state. destruct (co_state _ HC) as [N1 N2]. rewrite !(bool_decide_eq_false_2 (t_state t = _)) by done. cbn [orb negb andb].
  pose proof (flight_bound _ _ _ HI) as HF. assert (Hsz : TCP_TX_BUF < 2 ^ 20) by done. pose proof HI as [I1 I2 I3 I4 I5 I6 I7 I8 I9 I10]. rewrite I3, I4, sq_sub by lia.
  set (probe := (X - U =? 0) && negb (tx_len t =? 0) && (snd_wnd t =? 0)). destruct ((X - U =? 0) && negb probe) eqn:E0; [apply (keeps_same U X); [done|done|by destruct HC|apply sends_refl]|].
  set (t1 := set_retries _ t). assert (HK1 : keeps t c t1 c) by (apply (keeps_same U X); [done|done|by destruct HC|apply sends_refl]). assert (HI1 : tx_inv base W U X t1) by (by apply (tx_inv_same _ _ _ _ t)). assert (HC1 : conn_ok t1) by apply HK1.
  change (t_state t1) with (t_state t). rewrite ?(bool_decide_eq_false_2 (t_state t = _)) by done. cbn [negb]. destruct (TCP_RETRIES <? retries t1).
  - pose proof (ctl_keeps U X t1 TCP_RST (snd_nxt t1) c HI1 HC1 (una_in32 _ _ _ HI1) ltac:(done) eq_refl) as HK2. destruct (tcp_send_ctl t1 _ _ c) as [t2 c2]. pose proof HK2 as [(U2 & X2 & HI2) HC2 _ _].
    pose proof (set_closed_keeps U2 X2 t2 (- ETIMEDOUT) c2 HI2 HC2 ltac:(done)) as HK3. destruct (tcp_set_closed _ _ _) as [t3 c3]. by apply (keeps_trans _ _ t1 c _ _ HK1), (keeps_trans _ _ t2 c2).
  - set (p := if probe then _ else _). assert (HP : let '(t2, c2) := p in keeps t1 c t2 c2).
    { unfold p. destruct probe eqn:Ep; unfold probe in Ep.
      - apply andb_true_iff in Ep as [[Ep1%Z.eqb_eq Ep2%negb_true_iff]%andb_true_iff _]. apply Z.eqb_neq in Ep2. assert (Hfs : fin_sent t = false) by (destruct (fin_sent t); lia). rewrite Hfs in I2.
        assert (En1 : snd_nxt t1 = sq base X) by exact I4. pose proof (emit_same t1 TCP_ACK (snd_nxt t1) 0 1 [] c) as [ES EC]. specialize (EC HC1).
        assert (EQ : sends t1 c (tcp_emit t1 TCP_ACK (snd_nxt t1) 0 1 [] c).2).
        { rewrite En1. replace X with (Z.min U (zlen W) + 0) at 1 by lia. apply (emit_data t1 _ 0 1 U X c HC1 HI1); try done; try lia; change (tx_len t1) with (tx_len t); lia. }
        destruct (tcp_emit t1 _ _ _ _ _ c) as [t2 c2]. cbn [fst snd] in *. pose proof (tx_inv_same _ _ _ _ _ _ ES HI1) as HI2. assert (Ef2 : fin_sent t2 = false) by (rewrite <- Hfs; exact (f_equal s_fin_sent (sm_snd _ _ ES))).
        pose proof (tx_inv_advance U X 1 t2 HI2 Ef2 ltac:(lia) ltac:(lia)) as HI3. split; [by exists U, (X + 1)|by destruct EC|done|]. by apply (same_conn_trans _ t2); [apply same_conn_of|].
      - assert (HX : U < X) by (cbn [negb] in E0; rewrite andb_true_r in E0; apply Z.eqb_neq in E0; lia). split; [|by destruct HC1|apply sends_refl|done]. exists U, X. unfold tcp_enter_rto. split; tcb_simpl; try done.
        intros _. exists X. split; [done|]. split; [lia|]. split; [left; lia|]. intros _. exists U. split; [done|lia]. }
    clearbody p. destruct p as [t2 c2]. apply (keeps_trans _ _ t1 c _ _ HK1). apply (keeps_trans _ _ t2 c2 _ _ HP). destruct HP as [(U2 & X2 & HI2) HC2 _ _]. apply (keeps_same U2 X2); [done|done|by destruct HC2|apply sends_refl].
Qed.

Lemma keepalive_keeps U X t now c : tx_inv base W U X t -> conn_ok t -> let '(t', c') := tcp_keepalive t now c in keeps t c t' c'.
Proof.
  intros HI HC. pose proof (keeps_refl U X t c HI HC) as HR. unfold tcp_keepalive. destruct (_ || _); [done|]. destruct (negb _); [done|]. destruct (now <? _); [done|]. destruct (_ <=? _).
  - pose proof (ctl_keeps U X t TCP_RST (snd_nxt t) c HI HC (una_in32 _ _ _ HI) ltac:(done) eq_refl) as HK2. destruct (tcp_send_ctl t _ _ c) as [t2 c2]. pose proof HK2 as [(U2 & X2 & HI2) HC2 _ _].
    pose proof (set_closed_keeps U2 X2 t2 (- ETIMEDOUT) c2 HI2 HC2 ltac:(done)) as HK3. destruct (tcp_set_closed _ _ _) as [t3 c3]. by apply (keeps_trans _ _ t2 c2).
  - set (t1 := set_keep_sent _ t). assert (HK1 : keeps t c t1 c) by (apply (keeps_same U X); [done|done|by destruct HC|apply sends_refl]).
    pose proof (ctl_keeps U X t1 TCP_ACK (snd_nxt t1 -u 1) c ltac:(by apply (tx_inv_same _ _ _ _ t)) ltac:(by destruct HC) (wrap_in32 _) ltac:(done) eq_refl) as HK2. destruct (tcp_send_ctl t1 _ _ c) as [t2 c2]. by apply (keeps_trans _ _ t1 c).
Qed.

End Send.
