(* ===== verification/TcpEnd.v ===== *)
(** * TCP from end to end

    Two connections and a network between them that loses, repeats, delays and reorders what they
    send.  Each side reads a prefix of what the other wrote, and sees the end of the stream only
    behind its last byte. *)

From S2P Require Import Prelude Pmm Machine Bytes Heap Net NetProofs TcpState Tcp TcpLemmas TcpRecv TcpSend.

(** ** What happens to a connection *)

Inductive conn_event :=
| CeSend (buf : list Z)
| CeRecv (len : Z) (peek : bool)
| CeHear (segment : list Z)
| CeTick (now : Z)
| CeShutdown (rd wr : bool).

Section Events.

Context {H D : Type} `{Heap H}.

Implicit Types c : tctx H D.

(** A segment that passed the checks of [tcp_input], for a connection past its handshake; [tcp_find]
    does not find a closed one, and the segment is answered with a reset. *)
Definition hear (bs : list Z) (t : tcb) c : option (tcb * tctx H D) :=
  let h := tcp_hdr_read bs in
  let seq := ntohl (th_seq h) in
  let hlen := (th_off h ≫ 4) * 4 in
  if in_state t TCP_CLOSED
  then Some (t, if flag (th_flags h) TCP_RST then c else tcp_reset_reply (local_ip t) (remote_ip t) h (Z.of_nat (length bs) - hlen) c)
  else if flag (th_flags h) TCP_RST then Some (tcp_reset_input t seq c)
  else tcp_conn_input t h seq (ntohl (th_ack h)) (drop (Z.to_nat hlen) bs) c.

(** The bytes written, the bytes read, and what comes after. *)
Definition conn_step (e : conn_event) (t : tcb) c : option (list Z * list Z * tcb * tctx H D) :=
  match e with
  | CeSend buf => let '(r, t, c) := tcp_send t buf c in Some (take (Z.to_nat r) buf, [], t, c)
  | CeRecv len peek => let '(r, bs, t, c) := tcp_recv t len peek c in Some ([], if peek then [] else bs, t, c)
  | CeHear bs => '(t, c) ← hear bs t c; Some ([], [], t, c)
  | CeTick now => let '(t, c) := tcp_tick_conn now t c in Some ([], [], t, c)
  | CeShutdown rd wr => let '(r, t, c) := tcp_shutdown t rd wr c in Some ([], [], t, c)
  end.

(** ** The send side, event by event *)

Section Sender.

Context (base : Z) (W : list Z) (Hbytes : Forall is_byte W).

Lemma sack_bytes l : (length l <= 3)%nat -> Forall is_byte (sack_opts l) /\ Z.of_nat (length (sack_opts l)) `mod` 4 = 0 /\ Z.of_nat (length (sack_opts l)) <= 40.
Proof.
  intros Hl. assert (HF : forall l', Forall is_byte (concat ((fun b : Z * Z => le_bytes 4 (htonl b.1) ++ le_bytes 4 (htonl b.2)) <$> l'))).
  { intros l'. induction l' as [|b l' IH]; [done|]. cbn [fmap list_fmap concat]. apply Forall_app. split; [|done]. apply Forall_app. split; apply le_bytes_range. }
  destruct l as [|b1 [|b2 [|b3 [|? l]]]]; [done|..|simpl in Hl; lia]; (split; [unfold sack_opts; apply Forall_app; split; [repeat constructor; unfold is_byte, TCP_OPT_NOP, TCP_OPT_SACK; simpl; lia|apply HF]|done]).
Qed.

Lemma send_ack_keeps U X t c : tx_inv base W U X t -> conn_ok t -> let '(t', c') := tcp_send_ack t c in keeps base W t c t' c'.
Proof.
  intros HI HC. unfold tcp_send_ack. set (opts := if sack_ok t then _ else _). assert (Ho : Forall is_byte opts /\ Z.of_nat (length opts) `mod` 4 = 0 /\ Z.of_nat (length opts) <= 40).
  { unfold opts. destruct (sack_ok t); [apply sack_bytes; rewrite length_take; lia|done]. }
  clearbody opts. destruct Ho as (O1 & O2 & O3). pose proof (emit_same t TCP_ACK (snd_nxt t) 0 0 opts c) as [ES EC].
  pose proof (emit_bare base W t TCP_ACK (snd_nxt t) opts c HC (una_in32 _ _ _ _ _ HI) ltac:(done) eq_refl O1 O2 O3) as EQ. destruct (tcp_emit t _ _ _ _ _ c) as [t' c']. apply (keeps_same _ _ U X); [done|done|by apply EC|done].
Qed.

Lemma conn_input_keeps U X t h seq ack body c : tx_inv base W U X t -> conn_ok t -> in32 seq -> in32 ack ->
  match tcp_conn_input t h seq ack body c with Some (t', c') => keeps base W t c t' c' | None => cwnd t = 0 /\ ssthresh t <= 0 end.
Proof.
  intros HI HC Hs Ha. unfold tcp_conn_input. set (t1 := set_keep_sent 0 _). assert (HI1 : tx_inv base W U X t1) by (by apply (tx_inv_same _ _ _ _ t)). assert (HC1 : conn_ok t1) by (by destruct HC).
  assert (HK1 : keeps base W t c t1 c) by (apply (keeps_same _ _ U X); [done|done|done|apply sends_refl]). change (cwnd t) with (cwnd t1). change (ssthresh t) with (ssthresh t1). clearbody t1.
  destruct (flag (th_flags h) TCP_ACK && SEQ_LT (snd_nxt t1) ack) eqn:E0.
  { pose proof (ctl_keeps base W U X t1 TCP_ACK (snd_nxt t1) c HI1 HC1 (una_in32 _ _ _ _ _ HI1) ltac:(done) eq_refl) as HK. destruct (tcp_send_ctl t1 _ _ c) as [t2 c2]. by apply (keeps_trans _ _ _ _ t1 c). }
  destruct (_ && tcp_can_take_data t1).
  { pose proof (ctl_keeps base W U X t1 (Z.lor TCP_RST TCP_ACK) ack c HI1 HC1 Ha ltac:(done) eq_refl) as HK. destruct (tcp_send_ctl t1 _ _ c) as [t2 c2]. pose proof HK as [(U2 & X2 & HI2) HC2 _ _].
    pose proof (set_closed_keeps base W U2 X2 t2 0 c2 HI2 HC2 ltac:(done)) as HK3. destruct (tcp_set_closed _ _ _) as [t3 c3]. by apply (keeps_trans _ _ _ _ t1 c _ _ HK1), (keeps_trans _ _ _ _ t2 c2). }
  set (fin := flag (th_flags h) TCP_FIN). set (carry := negb (Z.of_nat (length body) =? 0) || fin). set (m := if flag (th_flags h) TCP_ACK then tcp_got_ack _ _ _ _ _ _ else _).
  assert (HM : match m with Some (t2, c2) => keeps base W t1 c t2 c2 | None => cwnd t1 = 0 /\ ssthresh t1 <= 0 end).
  { unfold m. destruct (flag (th_flags h) TCP_ACK); [|by apply (keeps_refl _ _ U X)]. apply (got_ack_keeps base W U X); done. }
  clearbody m. destruct m as [[t2 c2]|]; cbn [mbind option_bind]; [|done]. pose proof HM as [(U2 & X2 & HI2) HC2 _ _]. set (p := if carry && tcp_can_take_data t2 then tcp_got_data t2 seq body fin c2 else (t2, c2)).
  assert (HP : let '(t3, c3) := p in keeps base W t2 c2 t3 c3).
  { unfold p. destruct (carry && tcp_can_take_data t2); [|by apply (keeps_refl _ _ U2 X2)]. pose proof (got_data_snd base W t2 seq body fin c2 HC2 Hs) as HG. destruct (tcp_got_data t2 seq body fin c2) as [t3 c3]. destruct HG as (G1 & G2 & G3). by apply (keeps_same _ _ U2 X2). }
  clearbody p. destruct p as [t3 c3]. assert (HK3 : keeps base W t c t3 c3) by (by apply (keeps_trans _ _ _ _ t1 c _ _ HK1), (keeps_trans _ _ _ _ t2 c2 _ _ HM)). destruct (negb (in_state t3 TCP_CLOSED)); [|done].
  pose proof HK3 as [(U3 & X3 & HI3) HC3 _ _]. pose proof (push_keeps base W Hbytes U3 X3 t3 c3 HI3 HC3) as HK4. destruct (tcp_push t3 c3) as [t4 c4]. pose proof HK4 as [(U4 & X4 & HI4) HC4 _ _].
  destruct (carry || _); [|by apply (keeps_trans _ _ _ _ t3 c3)]. pose proof (send_ack_keeps U4 X4 t4 c4 HI4 HC4) as HK5. destruct (tcp_send_ack t4 c4) as [t5 c5]. by apply (keeps_trans _ _ _ _ t3 c3 _ _ HK3), (keeps_trans _ _ _ _ t4 c4).
Qed.

Lemma reset_keeps U X t seq c : tx_inv base W U X t -> conn_ok t -> let '(t', c') := tcp_reset_input t seq c in keeps base W t c t' c'.
Proof. intros HI HC. unfold tcp_reset_input. destruct (_ || _); [apply (set_closed_keeps base W U X); [done|done|by destruct (peer_fin t)]|by apply (keeps_refl _ _ U X)]. Qed.

Lemma tick_keeps U X t now c : tx_inv base W U X t -> conn_ok t -> let '(t', c') := tcp_tick_conn now t c in keeps base W t c t' c'.
Proof.
  intros HI HC. unfold tcp_tick_conn. set (p := if _ && _ then tcp_timeout t now c else (t, c)). assert (HP : let '(t1, c1) := p in keeps base W t c t1 c1).
  { unfold p. destruct (_ && _); [by apply (timeout_keeps base W Hbytes U X)|by apply (keeps_refl _ _ U X)]. }
  clearbody p. destruct p as [t1 c1]. pose proof HP as [(U1 & X1 & HI1) HC1 _ _]. pose proof (push_keeps base W Hbytes U1 X1 t1 c1 HI1 HC1) as HK2. destruct (tcp_push t1 c1) as [t2 c2]. pose proof HK2 as [(U2 & X2 & HI2) HC2 _ _].
  pose proof (keepalive_keeps base W U2 X2 t2 now c2 HI2 HC2) as HK3. destruct (tcp_keepalive t2 now c2) as [t3 c3]. pose proof HK3 as [(U3 & X3 & HI3) HC3 _ _].
  set (q := if in_state t3 TCP_TIME_WAIT && _ then _ else _). assert (HQ : let '(t4, c4) := q in keeps base W t3 c3 t4 c4) by (unfold q; destruct (_ && _); [by apply (set_closed_keeps base W U3 X3)|by apply (keeps_refl _ _ U3 X3)]).
  clearbody q. destruct q as [t4 c4]. assert (HK4 : keeps base W t c t4 c4) by (by apply (keeps_trans _ _ _ _ t1 c1 _ _ HP), (keeps_trans _ _ _ _ t2 c2 _ _ HK2), (keeps_trans _ _ _ _ t3 c3)).
  destruct (_ && (done_at t4 <=? now)); [|done]. pose proof HK4 as [(U4 & X4 & HI4) HC4 _ _].
  pose proof (ctl_keeps base W U4 X4 t4 (Z.lor TCP_RST TCP_ACK) (snd_nxt t4) c4 HI4 HC4 (una_in32 _ _ _ _ _ HI4) ltac:(done) eq_refl) as HK. destruct (tcp_send_ctl t4 _ _ c4) as [t5 c5]. pose proof HK as [(U5 & X5 & HI5) HC5 _ _].
  pose proof (set_closed_keeps base W U5 X5 t5 0 c5 HI5 HC5 ltac:(done)) as HK6. destruct (tcp_set_closed _ _ _) as [t6 c6]. by apply (keeps_trans _ _ _ _ t4 c4 _ _ HK4), (keeps_trans _ _ _ _ t5 c5).
Qed.

Lemma recv_keeps U X t len peek c : tx_inv base W U X t -> conn_ok t -> let '(_, _, t', c') := tcp_recv t len peek c in keeps base W t c t' c'.
Proof.
  intros HI HC. pose proof (keeps_refl base W U X t c HI HC) as HR. unfold tcp_recv. destruct (negb (rx_len t =? 0)).
  - destruct peek; [done|]. set (n := if _ <? _ then _ else _). clearbody n. set (t1 := set_rx_len _ _). assert (HI1 : tx_inv base W U X t1) by (by apply (tx_inv_same _ _ _ _ t)). assert (HC1 : conn_ok t1) by (by destruct HC).
    assert (HK1 : keeps base W t c t1 c) by (apply (keeps_same _ _ U X); [done|done|done|apply sends_refl]). destruct (_ && _); [|done].
    pose proof (ctl_keeps base W U X t1 TCP_ACK (snd_nxt t1) c HI1 HC1 (una_in32 _ _ _ _ _ HI1) ltac:(done) eq_refl) as HK. destruct (tcp_send_ctl t1 _ _ c) as [t2 c2]. by apply (keeps_trans _ _ _ _ t1 c).
  - destruct (_ || _); [done|]. destruct (negb _); [apply (keeps_same _ _ U X); [done|done|by destruct HC|apply sends_refl]|]. by destruct (_ || _).
Qed.

(** Shutting down the write side: from then on [fin_wanted] says that the stream is complete. *)
Lemma shutdown_grows U X t rd wr c : tx_inv base W U X t -> conn_ok t ->
  let '(_, t', c') := tcp_shutdown t rd wr c in (exists U' X', tx_inv base W U' X' t') /\ conn_ok t' /\ sends base W t' c c' /\ same_conn (t ▷ set_fin_wanted (fin_wanted t')) t' /\ (fin_wanted t = true -> fin_wanted t' = true).
Proof.
  intros HI HC. unfold tcp_shutdown. destruct (_ || _); [split; [by exists U, X|]; split; [done|]; split; [apply sends_refl|]; done|].
  set (t1 := if rd then _ else t). assert (H1 : snd_same t t1 /\ conn_ok t1) by (unfold t1; destruct rd; [split; [done|by destruct HC]|done]). clearbody t1. destruct H1 as [S1 C1]. pose proof (tx_inv_same _ _ _ _ _ _ S1 HI) as HI1.
  assert (Ef1 : fin_wanted t1 = fin_wanted t) by exact (f_equal s_fin_wanted (sm_snd _ _ S1)). destruct wr; cbn [andb].
  - destruct (fin_wanted t1) eqn:Ew; cbn [negb].
    + split; [by exists U, X|]. split; [done|]. split; [apply wake_sends|]. split; [split; [tcb_simpl; rewrite Ew; done|apply S1]|done].
    + set (t2 := set_fin_wanted true t1). assert (HI2 : tx_inv base W U X t2).
      { destruct HI1 as [I1 I2 I3 I4 I5 I6 I7 I8 I9 I10]. split; try done. change (fin_sent t2) with (fin_sent t1). destruct (fin_sent t1); [|done]. destruct I2. by split. }
      assert (HC2 : conn_ok t2) by (by destruct C1). pose proof (push_keeps base W Hbytes U X t2 c HI2 HC2) as HK. destruct (tcp_push t2 c) as [t3 c3]. destruct HK as [K1 K2 K3 K4]. split; [done|]. split; [done|].
      destruct K4 as [K4 K5]. change (fin_wanted t2) with true in K4. split; [apply (sends_trans _ _ _ _ c3); [|apply wake_sends]|].
      * destruct K3 as [N (new & O & F)]. split; [done|]. exists new. split; [done|]. destruct K5 as (J1 & J2 & J3 & J4). by rewrite K4, J1, J2, J3, J4.
      * split; [|done]. split; [by tcb_simpl; rewrite K4|]. destruct S1 as [_ _ (J1 & J2 & J3 & J4)], K5 as (L1 & L2 & L3 & L4). exact (conj (eq_trans L1 J1) (conj (eq_trans L2 J2) (conj (eq_trans L3 J3) (eq_trans L4 J4)))).
  - split; [by exists U, X|]. split; [done|]. split; [apply wake_sends|]. split; [split; [tcb_simpl; done|apply S1]|by rewrite Ef1].
Qed.

Lemma sends_more w t c c' : (fin_wanted t = true -> w = []) -> sends base W t c c' -> sends base (W ++ w) t c c'.
Proof. intros Hf [A (new & B & C)]. split; [done|]. exists new. split; [done|]. revert C. apply Forall_impl. intros x. apply seg_good_more. intros E. by split; [|apply Hf]. Qed.

Lemma send_grows U X t buf c : tx_inv base W U X t -> conn_ok t -> Forall is_byte buf ->
  let '(r, t', c') := tcp_send t buf c in let w := take (Z.to_nat r) buf in
  (exists U' X', tx_inv base (W ++ w) U' X' t') /\ conn_ok t' /\ sends base (W ++ w) t c c' /\ same_conn t t' /\ (fin_wanted t = true -> w = []).
Proof.
  intros HI HC Hb. assert (Hno : forall r, r <= 0 -> let w := take (Z.to_nat r) buf in (exists U' X', tx_inv base (W ++ w) U' X' t) /\ conn_ok t /\ sends base (W ++ w) t c c /\ same_conn t t /\ (fin_wanted t = true -> w = [])).
  { intros r Hr. replace (Z.to_nat r) with 0%nat by lia. cbn zeta. rewrite take_0, app_nil_r. split; [by exists U, X|]. split; [done|]. split; [apply sends_refl|]. by split. }
  unfold tcp_send. destruct (negb (t_error t =? 0)); [apply Hno, HC|]. destruct (in_state t TCP_SYN_SENT); [by apply Hno|]. destruct (_ || fin_wanted t) eqn:Ew; [apply Hno; by destruct (was_connected t)|].
  apply orb_false_iff in Ew as [_ Ew]. pose proof (flight_bound _ _ _ _ _ HI) as HF. pose proof HI as [I1 I2 I3 I4 I5 I6 I7 I8 I9 I10]. assert (Hfs : fin_sent t = false) by (destruct (fin_sent t); [destruct I2; congruence|done]). rewrite Hfs in I2.
  assert (Hsz : 0 < TCP_TX_BUF < 2 ^ 20) by done. rewrite (wrap32_small (TCP_TX_BUF - tx_len t)) by lia. fold (zlen buf). set (n := if zlen buf <? TCP_TX_BUF - tx_len t then _ else _).
  assert (Hn : n = Z.min (zlen buf) (TCP_TX_BUF - tx_len t)) by (unfold n; destruct (Z.ltb_spec (zlen buf) (TCP_TX_BUF - tx_len t)); lia). clearbody n. assert (Hb0 : 0 <= zlen buf) by (unfold zlen; lia).
  set (w := take (Z.to_nat n) buf). assert (Hw : zlen w = n) by (unfold w, zlen in *; rewrite length_take; lia). assert (HW : zlen (W ++ w) = zlen W + n) by (unfold zlen in *; rewrite length_app; lia).
  set (t1 := set_tx_len _ _). assert (Eat : (tx_start t +u tx_len t) `mod` TCP_TX_BUF = zlen W `mod` TCP_TX_BUF).
  { rewrite I7. pose proof (Z.mod_pos_bound (Z.min U (zlen W)) TCP_TX_BUF ltac:(lia)). rewrite wrap32_small by lia. rewrite Z.add_mod_idemp_l by lia. f_equal. lia. }
  assert (HI1 : tx_inv base (W ++ w) U X t1).
  { unfold t1. split; tcb_simpl; rewrite ?Hfs, ?HW; try done; try lia.
    - rewrite wrap32_small by lia. lia.
    - rewrite wrap32_small by lia. lia.
    - rewrite I7. f_equal. lia.
    - intros k Hk. change (s_tx_start (tcb_snd t)) with (tx_start t). change (s_tx_len (tcb_snd t)) with (tx_len t). change (s_tx_ring (tcb_snd t)) with (tx_ring t). rewrite Eat. apply holds_write; [lia|unfold zlen; lia|unfold zlen in Hw; lia| |lia|].
      + intros j b Hj. unfold zlen. rewrite Nat2Z.id, lookup_app_r by lia. replace (length W + j - length W)%nat with j by lia. done.
      + fold (zlen w). rewrite Hw. destruct (decide (zlen W <= k)); [left; lia|right]. split; [lia|]. split; [lia|]. apply holds_more, I8. lia.
    - intros Hr. destruct (I10 Hr) as (Rec & R1 & R2 & R3 & R4). exists Rec. split; [done|]. split; [done|]. split; [lia|done]. }
  assert (HC1 : conn_ok t1) by (by destruct HC). assert (HB1 : Forall is_byte (W ++ w)) by (apply Forall_app; split; [done|by apply Forall_take]).
  pose proof (push_keeps base (W ++ w) HB1 U X t1 c HI1 HC1) as HK. destruct (tcp_push t1 c) as [t2 c2]. destruct HK as [K1 K2 K3 K4].
  assert (Er : take (Z.to_nat (if negb (n =? 0) then n else - EAGAIN)) buf = w) by (unfold w; destruct (Z.eqb_spec n 0) as [->|]; done). rewrite Er. cbn zeta. split; [done|]. split; [done|]. split; [by apply (sends_conn _ _ _ t1)|]. split; [by apply (same_conn_trans _ t1)|].
  intros Hf. congruence.
Qed.

End Sender.

(** ** The receive side, event by event *)

Lemma shut_rcv irs W fin N R t : rx_inv irs W fin N R t -> rx_inv irs W fin N R (set_rd_shut true t).
Proof. intros [A B C E F G K L]. by split. Qed.

Lemma shutdown_rcv irs W fin N R t rd wr c : rx_inv irs W fin N R t -> let '(_, t', _) := tcp_shutdown t rd wr c in rx_inv irs W fin N R t'.
Proof.
  intros HI. unfold tcp_shutdown. destruct (_ || _); [done|]. set (t1 := if rd then _ else t). assert (HI1 : rx_inv irs W fin N R t1) by (unfold t1; destruct rd; [by apply shut_rcv|done]). clearbody t1.
  destruct (_ && _); [|done]. pose proof (push_rcv (set_fin_wanted true t1) c) as HP. destruct (tcp_push _ c) as [t2 c2]. apply (rx_inv_same _ _ _ _ _ (set_fin_wanted true t1)); [done|]. by apply (rx_inv_same _ _ _ _ _ t1).
Qed.

Section Receiver.

Context (irs : Z) (W : list Z) (fin : bool) (Hshort : zlen W < 2 ^ 31 - 1).

(** A segment that carries nothing, or what is at its place in the stream. *)
Definition good_part (seq : Z) (body : list Z) (has_fin : bool) : Prop := (body = [] /\ has_fin = false) \/ exists k, stream_seg irs W fin seq body has_fin k.

Lemma conn_input_rcv N R t h seq ack body c : rx_inv irs W fin N R t -> good_part seq body (flag (th_flags h) TCP_FIN) ->
  match tcp_conn_input t h seq ack body c with Some (t', _) => exists N', rx_inv irs W fin N' R t' /\ N <= N' | None => True end.
Proof.
  intros HI Hg. unfold tcp_conn_input. set (t1 := set_keep_sent 0 _). assert (HI1 : rx_inv irs W fin N R t1) by (by apply (rx_inv_same _ _ _ _ _ t)). clearbody t1.
  destruct (flag (th_flags h) TCP_ACK && SEQ_LT (snd_nxt t1) ack); [exists N; split; [by apply (rx_inv_same _ _ _ _ _ t1)|lia]|].
  destruct (_ && tcp_can_take_data t1).
  { pose proof (emit_rcv t1 (Z.lor TCP_RST TCP_ACK) ack 0 0 [] c) as E1. unfold tcp_send_ctl. destruct (tcp_emit t1 _ _ _ _ _ c) as [t2 c2]. pose proof (set_closed_rcv t2 0 c2) as E2. destruct (tcp_set_closed t2 0 c2) as [t3 c3].
    exists N. split; [|lia]. by apply (rx_inv_same _ _ _ _ _ t1); [apply (rcv_same_trans _ t2)|]. }
  set (f := flag (th_flags h) TCP_FIN) in *. set (carry := negb (Z.of_nat (length body) =? 0) || f). set (m := if flag (th_flags h) TCP_ACK then tcp_got_ack _ _ _ _ _ _ else _).
  assert (HM : match m with Some (t2, _) => rcv_same t1 t2 | None => True end) by (unfold m; destruct (flag (th_flags h) TCP_ACK); [apply got_ack_rcv|done]). clearbody m. destruct m as [[t2 c2]|]; cbn [mbind option_bind]; [|done].
  pose proof (rx_inv_same _ _ _ _ _ _ _ HM HI1) as HI2. set (p := if carry && tcp_can_take_data t2 then tcp_got_data t2 seq body f c2 else (t2, c2)).
  assert (HP : exists N', rx_inv irs W fin N' R p.1 /\ N <= N').
  { unfold p. destruct carry eqn:Ec; cbn [andb]; [|by exists N]. destruct (tcp_can_take_data t2); [|by exists N]. destruct Hg as [[-> Hf]|[k Hg]]; [unfold carry in Ec; by rewrite Hf in Ec|].
    pose proof (ss_seq _ _ _ _ _ _ _ Hg) as ->. pose proof (got_data_spec irs W fin Hshort N R t2 k body f c2 HI2 Hg) as HG. clear p; destruct (tcp_got_data t2 (sq irs k) body f c2) as [t3 c3]. destruct HG as (N' & G1 & G2 & _). by exists N'. }
  clearbody p. destruct p as [t3 c3]. cbn [fst] in HP. destruct HP as (N' & HI3 & HN). destruct (negb (in_state t3 TCP_CLOSED)); [|by exists N']. pose proof (push_rcv t3 c3) as E4. destruct (tcp_push t3 c3) as [t4 c4].
  pose proof (rx_inv_same _ _ _ _ _ _ _ E4 HI3) as HI4. destruct (carry || _); [|by exists N']. exists N'. split; [by apply (rx_inv_same _ _ _ _ _ t4)|done].
Qed.

(** What a segment of the peer holds, read back. *)
Lemma hear_reads lip rip lp rp x : seg_good irs W fin lip rip lp rp x -> let bs := nb_data x.1.1 in let h := tcp_hdr_read bs in
  good_part (ntohl (th_seq h)) (drop (Z.to_nat ((th_off h ≫ 4) * 4)) bs) (flag (th_flags h) TCP_FIN).
Proof.
  intros [_ (seq & ack & flags & window & opts & payload & E & Hf & Hg)]. cbn zeta. rewrite E. destruct (segment_read _ _ _ _ _ _ _ _ _ _ Hf) as (_ & _ & (c & Eh) & Eo & Ed & _).
  rewrite Eo, Ed, Eh. cbn [tcp_header th_seq th_flags]. unfold ntohl. rewrite htonl_twice by apply (sf_seqs _ _ _ _ _ _ _ _ _ _ Hf). exact Hg.
Qed.

Lemma hear_rcv lip rip lp rp x N R t c : seg_good irs W fin lip rip lp rp x -> rx_inv irs W fin N R t ->
  match hear (nb_data x.1.1) t c with Some (t', _) => exists N', rx_inv irs W fin N' R t' /\ N <= N' | None => True end.
Proof.
  intros Hg HI. pose proof (hear_reads lip rip lp rp x Hg) as HR. unfold hear. destruct (in_state t TCP_CLOSED); [by exists N|]. destruct (flag _ TCP_RST); [|by apply conn_input_rcv].
  unfold tcp_reset_input. destruct (_ || _); [|by exists N]. pose proof (set_closed_rcv t (if peer_fin t then 0 else - ECONNRESET) c) as E. destruct (tcp_set_closed _ _ _) as [t' c']. exists N. split; [by apply (rx_inv_same _ _ _ _ _ t)|done].
Qed.

End Receiver.

(** ** One side of a link *)

(** A connection, every segment it ever sent, and what its program wrote and read. *)
Record side := { sd_conn : tcb; sd_sent : list (netbuf * Z * Z); sd_wrote : list Z; sd_read : list Z }.

Definition side_start (t : tcb) : side := {| sd_conn := t; sd_sent := []; sd_wrote := []; sd_read := [] |}.

(** The network may be in any state [s], with or without memory for segments. *)
Definition side_step (e : conn_event) (s : net H D) (a : side) : option side :=
  '(w, r, t, c) ← conn_step e (sd_conn a) {| c_net := s; c_out := []; c_wakes := []; c_drops := [] |};
  Some {| sd_conn := t; sd_sent := sd_sent a ++ c_out c; sd_wrote := sd_wrote a ++ w; sd_read := sd_read a ++ r |}.

(** A program writes bytes and reads into a buffer. *)
Definition event_ok (e : conn_event) : Prop :=
  match e with CeSend buf => Forall is_byte buf | CeRecv len _ => 0 <= len | _ => True end.

(** What is heard was sent by the other side, some time, to be heard any number of times. *)
Definition hears_from (b : side) (e : conn_event) : Prop :=
  match e with CeHear bs => bs ∈ ((fun x : netbuf * Z * Z => nb_data x.1.1) <$> sd_sent b) | _ => True end.

(** Either side acts. *)
Inductive link_step : side * side -> side * side -> Prop :=
| link_left e s a b a' : event_ok e -> hears_from b e -> side_step e s a = Some a' -> link_step (a, b) (a', b)
| link_right e s a b b' : event_ok e -> hears_from a e -> side_step e s b = Some b' -> link_step (a, b) (a, b').

(** The handshake is over, nothing was written yet. *)
Record fresh (base irs : Z) (t : tcb) : Prop := {
  fr_snd : snd_una t = sq base 0 /\ snd_nxt t = sq base 0 /\ tx_len t = 0 /\ tx_start t = 0 /\ fin_wanted t = false /\ fin_sent t = false;
  fr_rcv : rcv_nxt t = sq irs 0 /\ rx_len t = 0 /\ rx_start t = 0 /\ ooo t = [] /\ fin_seen t = false /\ peer_fin t = false;
  fr_cc : recovery t = TCP_RECOVERY_NONE /\ 0 <= mss t <= 1460;
  fr_conn : conn_ok t;
}.

Definition carries (base : Z) (W : list Z) (fin : bool) (x : netbuf * Z * Z) : Prop := exists lip rip lp rp, seg_good base W fin lip rip lp rp x.

Record side_ok (base : Z) (a : side) : Prop := {
  so_tx : exists U X, tx_inv base (sd_wrote a) U X (sd_conn a);
  so_conn : conn_ok (sd_conn a);
  so_bytes : Forall is_byte (sd_wrote a);
  so_sent : Forall (carries base (sd_wrote a) (fin_wanted (sd_conn a))) (sd_sent a);
}.

(** What one side has of what the other one wrote. *)
Definition side_has (irs : Z) (a b : side) : Prop :=
  exists N, rx_inv irs (sd_wrote b) (fin_wanted (sd_conn b)) N (zlen (sd_read a)) (sd_conn a) /\ sd_read a `prefix_of` sd_wrote b.

Lemma reset_reply_carries base W fin t h dlen c : conn_ok t -> exists new, c_out (tcp_reset_reply (local_ip t) (remote_ip t) h dlen c) = c_out c ++ new /\ Forall (carries base W fin) new.
Proof.
  intros HC. unfold tcp_reset_reply. set (q := if flag _ TCP_ACK then _ else _). assert (Hq : in32 q.1.1 /\ in32 q.1.2 /\ 0 <= q.2 < 256 /\ flag q.2 TCP_FIN = false).
  { unfold q. destruct (flag _ TCP_ACK); (split; [apply htonl_range || done|]); split; try done; apply wrap_in32. }
  clearbody q. destruct q as [[sn ak] fl]. cbn [fst snd] in Hq. destruct Hq as (Q1 & Q2 & Q3 & Q4).
  set (t0 := t ▷ set_local_port (ntohs (th_dst_port h)) ▷ set_remote_port (ntohs (th_src_port h)) ▷ set_fin_wanted fin).
  assert (Hfit : seg_fits (local_ip t0) (remote_ip t0) (local_port t0) (remote_port t0) sn ak fl 0 [] []).
  { destruct HC as [C1 _ _ _ _ _]. split; [exact C1|split; apply htons_range|done..]. }
  pose proof (segment_sends base W _ _ _ _ sn ak fl 0 [] [] c t0 eq_refl eq_refl eq_refl eq_refl Hfit ltac:(by left)) as [_ (new & E & F)]. exists new. split; [exact E|].
  revert F. apply Forall_impl. intros x Hx. by exists (local_ip t0), (remote_ip t0), (local_port t0), (remote_port t0).
Qed.

(** What an event does to the send side. *)
Record grows (base : Z) (W : list Z) (t : tcb) c (w : list Z) (t' : tcb) c' : Prop := {
  gr_tx : exists U X, tx_inv base (W ++ w) U X t';
  gr_conn : conn_ok t';
  gr_out : exists new, c_out c' = c_out c ++ new /\ Forall (carries base (W ++ w) (fin_wanted t')) new;
  gr_fin : fin_wanted t = true -> w = [] /\ fin_wanted t' = true;
  gr_bytes : Forall is_byte w;
}.

Lemma sends_carries base W t c c' : sends base W t c c' -> exists new, c_out c' = c_out c ++ new /\ Forall (carries base W (fin_wanted t)) new.
Proof. intros [_ (new & E & F)]. exists new. split; [done|]. revert F. apply Forall_impl. intros x Hx. by exists (local_ip t), (remote_ip t), (local_port t), (remote_port t). Qed.

Lemma keeps_grows base W t c t' c' : keeps base W t c t' c' -> grows base W t c [] t' c'.
Proof.
  intros [A B C [E _]]. split; [by rewrite app_nil_r|done| |by rewrite E|done]. rewrite app_nil_r, E. by apply sends_carries.
Qed.

Lemma hear_grows base W U X t bs c t' c' : Forall is_byte W -> tx_inv base W U X t -> conn_ok t -> hear bs t c = Some (t', c') -> grows base W t c [] t' c'.
Proof.
  intros HB HI HC. unfold hear. destruct (in_state t TCP_CLOSED).
  - intros [= <- <-]. split; [exists U, X; by rewrite app_nil_r|done| |done|done]. rewrite app_nil_r. destruct (flag _ TCP_RST); [exists []; by rewrite app_nil_r|by apply reset_reply_carries].
  - destruct (flag _ TCP_RST).
    + intros E%(inj Some). pose proof (reset_keeps base W U X t (ntohl (th_seq (tcp_hdr_read bs))) c HI HC) as HK. rewrite E in HK. by apply keeps_grows.
    + intros E. pose proof (conn_input_keeps base W HB U X t (tcp_hdr_read bs) (ntohl (th_seq (tcp_hdr_read bs))) (ntohl (th_ack (tcp_hdr_read bs)))
        (drop (Z.to_nat ((th_off (tcp_hdr_read bs) ≫ 4) * 4)) bs) c HI HC (htonl_range _) (htonl_range _)) as HK. rewrite E in HK. by apply keeps_grows.
Qed.

Lemma conn_step_grows base W U X t e c w r t' c' : Forall is_byte W -> tx_inv base W U X t -> conn_ok t -> event_ok e -> conn_step e t c = Some (w, r, t', c') -> grows base W t c w t' c'.
Proof.
  intros HB HI HC He. destruct e as [buf|len peek|bs|now|rd wr]; cbn [conn_step event_ok] in *.
  - pose proof (send_grows base W HB U X t buf c HI HC He) as HG. destruct (tcp_send t buf c) as [[n t1] c1]. intros [= <- <- <- <-]. destruct HG as (G1 & G2 & G3 & [G4 _] & G5).
    split; [done|done|rewrite G4; by apply sends_carries|intros E; rewrite G4; auto|by apply Forall_take].
  - pose proof (recv_keeps base W U X t len peek c HI HC) as HK. destruct (tcp_recv t len peek c) as [[[n b] t1] c1]. intros [= <- <- <- <-]. by apply keeps_grows.
  - destruct (hear bs t c) as [[t1 c1]|] eqn:E; cbn [mbind option_bind]; [|done]. intros [= <- <- <- <-]. by apply (hear_grows _ _ U X _ bs).
  - pose proof (tick_keeps base W HB U X t now c HI HC) as HK. destruct (tcp_tick_conn now t c) as [t1 c1]. intros [= <- <- <- <-]. by apply keeps_grows.
  - pose proof (shutdown_grows base W HB U X t rd wr c HI HC) as HG. destruct (tcp_shutdown t rd wr c) as [[n t1] c1]. intros [= <- <- <- <-]. destruct HG as (G1 & G2 & G3 & _ & G5).
    split; [by rewrite app_nil_r|done|rewrite app_nil_r; by apply sends_carries|auto|done].
Qed.

Lemma carries_more base W w fin fin' x : (fin = true -> w = [] /\ fin' = true) -> carries base W fin x -> carries base (W ++ w) fin' x.
Proof. intros Hf (lip & rip & lp & rp & Hx). exists lip, rip, lp, rp. apply (seg_good_more _ _ _ fin); [|done]. intros E. destruct (Hf E). done. Qed.

(** Whatever a side hears, what it sends is the stream its program wrote. *)
Lemma side_step_ok base e s a a' : side_ok base a -> event_ok e -> side_step e s a = Some a' ->
  side_ok base a' /\ exists w, sd_wrote a' = sd_wrote a ++ w /\ (fin_wanted (sd_conn a) = true -> w = [] /\ fin_wanted (sd_conn a') = true).
Proof.
  intros [(U & X & HI) HC HB HS] He. unfold side_step. destruct (conn_step e _ _) as [[[[w r] t] c]|] eqn:E; cbn [mbind option_bind]; [|done]. intros [= <-]. cbn [sd_conn sd_sent sd_wrote sd_read].
  destruct (conn_step_grows _ _ U X _ _ _ _ _ _ _ HB HI HC He E) as [G1 G2 (new & G3 & G4) G5 G6]. split; [|by exists w]. split; cbn [sd_conn sd_sent sd_wrote sd_read]; [done|done|by apply Forall_app|].
  rewrite G3. cbn [c_out app]. apply Forall_app. split; [|done]. revert HS. apply Forall_impl. intros x. by apply carries_more.
Qed.

(** What an event does to the receive side. *)
Lemma conn_step_rcv irs W fin N R t e c w r t' c' : zlen W < 2 ^ 31 - 1 -> rx_inv irs W fin N R t -> event_ok e ->
  match e with CeHear bs => exists x, carries irs W fin x /\ nb_data x.1.1 = bs | _ => True end -> conn_step e t c = Some (w, r, t', c') ->
  exists N', rx_inv irs W fin N' (R + zlen r) t' /\ r = take (length r) (drop (Z.to_nat R) W).
Proof.
  intros Hs HI He Hh. assert (Hq : forall t1, (exists N', rx_inv irs W fin N' R t1) -> exists N', rx_inv irs W fin N' (R + zlen ([] : list Z)) t1 /\ [] = take (length ([] : list Z)) (drop (Z.to_nat R) W)).
  { intros t1 [N' HN]. exists N'. change (zlen ([] : list Z)) with 0. by rewrite Z.add_0_r. }
  destruct e as [buf|len peek|bs|now|rd wr]; cbn [conn_step event_ok] in *.
  - pose proof (send_rcv t buf c) as E. destruct (tcp_send t buf c) as [[n t1] c1]. intros [= <- <- <- <-]. apply Hq. exists N. by apply (rx_inv_same _ _ _ _ _ t).
  - pose proof (recv_spec irs W fin N R t len peek c HI He) as HR. destruct (tcp_recv t len peek c) as [[[n b] t1] c1]. destruct HR as (R1 & R2 & _). intros [= <- <- <- <-]. destruct peek; [apply Hq; by exists N|by exists N].
  - destruct Hh as (x & (lip & rip & lp & rp & Hx) & <-). pose proof (hear_rcv irs W fin Hs lip rip lp rp x N R t c Hx HI) as HH. destruct (hear _ t c) as [[t1 c1]|]; cbn [mbind option_bind]; [|done]. intros [= <- <- <- <-]. apply Hq. destruct HH as (N' & HN & _). by exists N'.
  - pose proof (tick_rcv now t c) as E. destruct (tcp_tick_conn now t c) as [t1 c1]. intros [= <- <- <- <-]. apply Hq. exists N. by apply (rx_inv_same _ _ _ _ _ t).
  - pose proof (shutdown_rcv irs W fin N R t rd wr c HI) as E. destruct (tcp_shutdown t rd wr c) as [[n t1] c1]. intros [= <- <- <- <-]. apply Hq. by exists N.
Qed.

Lemma prefix_read (l W r : list Z) : l `prefix_of` W -> r = take (length r) (drop (length l) W) -> l ++ r `prefix_of` W.
Proof. intros [k ->] E. rewrite drop_app_length in E. exists (drop (length r) k). by rewrite <- app_assoc, E, take_drop at 1. Qed.

Lemma side_step_has base e s a a' b : zlen (sd_wrote b) < 2 ^ 31 - 1 -> side_ok base b -> side_has base a b -> event_ok e -> hears_from b e -> side_step e s a = Some a' -> side_has base a' b.
Proof.
  intros Hs Hb (N & HI & HP) He Hh. unfold side_step. destruct (conn_step e _ _) as [[[[w r] t] c]|] eqn:E; cbn [mbind option_bind]; [|done]. intros [= <-].
  assert (Hx : match e with CeHear bs => exists x, carries base (sd_wrote b) (fin_wanted (sd_conn b)) x /\ nb_data x.1.1 = bs | _ => True end).
  { destruct e; try done. apply list_elem_of_fmap in Hh as (x & -> & Hx). exists x. split; [|done]. pose proof (so_sent _ _ Hb) as HF. rewrite Forall_forall in HF. apply HF, list_elem_of_In, Hx. }
  destruct (conn_step_rcv _ _ _ N _ _ _ _ _ _ _ _ Hs HI He Hx E) as (N' & HN & Hr).
  exists N'. cbn [sd_conn sd_sent sd_wrote sd_read]. replace (zlen (sd_read a ++ r)) with (zlen (sd_read a) + zlen r) by (unfold zlen; rewrite length_app; lia). split; [done|]. apply prefix_read; [done|]. unfold zlen in Hr. by rewrite Nat2Z.id in Hr.
Qed.

Lemma side_has_grows irs a b b' w : sd_wrote b' = sd_wrote b ++ w -> (fin_wanted (sd_conn b) = true -> w = [] /\ fin_wanted (sd_conn b') = true) -> side_has irs a b -> side_has irs a b'.
Proof.
  intros Ew Hf (N & HI & HP). exists N. rewrite Ew. split; [|by apply prefix_app_r]. destruct (fin_wanted (sd_conn b)); [|by apply rx_inv_more]. destruct (Hf eq_refl) as [-> ->]. by rewrite app_nil_r.
Qed.

(** ** The link *)

Definition link_inv (base irs : Z) (l : side * side) : Prop := side_ok base l.1 /\ side_ok irs l.2 /\ side_has irs l.1 l.2 /\ side_has base l.2 l.1.

Definition link_short (l : side * side) : Prop := zlen (sd_wrote l.1) < 2 ^ 31 - 1 /\ zlen (sd_wrote l.2) < 2 ^ 31 - 1.

Lemma side_step_wrote e s a a' : side_step e s a = Some a' -> zlen (sd_wrote a) <= zlen (sd_wrote a').
Proof. unfold side_step. destruct (conn_step e _ _) as [[[[w r] t] c]|]; cbn [mbind option_bind]; [|done]. intros [= <-]. cbn [sd_wrote]. unfold zlen. rewrite length_app. lia. Qed.

Lemma link_step_short l l' : link_step l l' -> link_short l' -> link_short l.
Proof. intros [e s a b a' _ _ HS|e s a b b' _ _ HS] [S1 S2]; pose proof (side_step_wrote _ _ _ _ HS); split; cbn [fst snd] in *; lia. Qed.

Lemma link_step_inv base irs l l' : link_inv base irs l -> link_step l l' -> link_short l -> link_inv base irs l'.
Proof.
  intros HL HS. destruct HS as [e s a b a' He Hh HS|e s a b b' He Hh HS]; intros [S1 S2]; destruct HL as (A & B & C & E); cbn [fst snd] in *.
  - destruct (side_step_ok base e s a a' A He HS) as (A' & w & Ew & Hw). split; [done|]. split; [done|]. split; [by apply (side_step_has _ e s a)|by apply (side_has_grows _ _ a _ w)].
  - destruct (side_step_ok irs e s b b' B He HS) as (B' & w & Ew & Hw). split; [done|]. split; [done|]. split; [by apply (side_has_grows _ _ b _ w)|by apply (side_step_has _ e s b)].
Qed.

Lemma fresh_ok base irs t : fresh base irs t -> side_ok base (side_start t) /\ rx_inv irs [] false 0 0 t.
Proof.
  intros [(S1 & S2 & S3 & S4 & S5 & S6) (R1 & R2 & R3 & R4 & R5 & R6) (C1 & C2) K]. split.
  - split; cbn [side_start sd_conn sd_sent sd_wrote sd_read]; [|done..]. exists 0, 0. split; rewrite ?S1, ?S2, ?S3, ?S4, ?S5, ?S6, ?C1; try done. intros k. change (zlen []) with 0. intros Hk. lia.
  - split; rewrite ?R1, ?R2, ?R3, ?R4, ?R5, ?R6; try done; [intros k Hk; lia|]. exists []. split; [done|]. split; [done|]. split; [cbn; lia|]. by intros k (? & ? & Hin%not_elem_of_nil & _).
Qed.

Lemma link_start base irs ta tb : fresh base irs ta -> fresh irs base tb -> link_inv base irs (side_start ta, side_start tb).
Proof.
  intros Ha Hb. destruct (fresh_ok _ _ _ Ha) as [A1 A2], (fresh_ok _ _ _ Hb) as [B1 B2]. split; [done|]. split; [done|].
  assert (Ea : fin_wanted ta = false) by apply (fr_snd _ _ _ Ha). assert (Eb : fin_wanted tb = false) by apply (fr_snd _ _ _ Hb). split; exists 0; cbn [side_start sd_conn sd_wrote sd_read fst snd]; (split; [|done]); [by rewrite Eb|by rewrite Ea].
Qed.

Lemma link_run_inv base irs ta tb l : fresh base irs ta -> fresh irs base tb -> rtc link_step (side_start ta, side_start tb) l -> link_short l -> link_inv base irs l.
Proof.
  intros Ha Hb. revert l. apply (rtc_ind_r (fun l => link_short l -> link_inv base irs l)); [intros _; by apply link_start|]. intros l l' _ HS IH Hsh.
  pose proof (link_step_short _ _ HS Hsh) as Hs. by apply (link_step_inv base irs l l' (IH Hs) HS).
Qed.

End Events.

(** C16. A network that loses, repeats, delays and reorders segments at will lies between two
    connections; each writes, reads, shuts down and has its timers fire at any time, with or without
    memory for segments.  While less than 2 GB was written each way, what a program read is a prefix
    of what the other one wrote, and the end of the stream is only seen when the other one has shut
    down its side, behind the last byte it wrote. *)
Theorem link_delivers {H D : Type} `{Heap H} (base irs : Z) (ta tb : tcb) (a b : side) :
  fresh base irs ta -> fresh irs base tb -> rtc (link_step (D := D)) (side_start ta, side_start tb) (a, b) ->
  zlen (sd_wrote a) < 2 ^ 31 - 1 -> zlen (sd_wrote b) < 2 ^ 31 - 1 ->
  (sd_read a `prefix_of` sd_wrote b) /\ (sd_read b `prefix_of` sd_wrote a) /\
  (peer_fin (sd_conn a) = true -> fin_wanted (sd_conn b) = true /\ zlen (sd_read a) + rx_len (sd_conn a) = zlen (sd_wrote b)) /\
  (peer_fin (sd_conn b) = true -> fin_wanted (sd_conn a) = true /\ zlen (sd_read b) + rx_len (sd_conn b) = zlen (sd_wrote a)).
Proof.
  intros Ha Hb HR Sa Sb. destruct (link_run_inv base irs ta tb (a, b) Ha Hb HR (conj Sa Sb)) as (_ & _ & (N & HA & PA) & (M & HB & PB)). cbn [fst snd] in *.
  split; [done|]. split; [done|]. split; intros Hp.
  - destruct (ri_eof _ _ _ _ _ _ HA Hp) as [E1 E2]. split; [done|]. rewrite (ri_len _ _ _ _ _ _ HA). lia.
  - destruct (ri_eof _ _ _ _ _ _ HB Hp) as [E1 E2]. split; [done|]. rewrite (ri_len _ _ _ _ _ _ HB). lia.
Qed.
