(* ===== verification/TcpCc.v ===== *)
(** * TCP: the congestion window

    [tcp_cc_acked] divides by the congestion window.  It is never 0 there when the peer asked for
    segments of at least a byte: the window grows, falls to one segment after a timeout, to the
    threshold after a fast recovery, and may be anything only during one. *)

From S2P Require Import Prelude Pmm Machine Bytes Heap Net NetProofs TcpState Tcp TcpLemmas TcpRecv TcpSend TcpEnd.

Record cc_ok (t : tcb) : Prop := {
  cc_mss : 0 < mss t <= 1460;
  cc_thresh : 0 < ssthresh t;
  cc_wnd : t_state t = TCP_CLOSED \/ if in_recovery t TCP_RECOVERY_FAST then ssthresh t <= 2 ^ 31 else 0 < cwnd t <= 2 ^ 31;
}.

(** Nothing of it differs. *)
Record cc_same (t t' : tcb) : Prop := {
  cs_mss : mss t' = mss t;
  cs_cc : cwnd t' = cwnd t /\ ssthresh t' = ssthresh t /\ recovery t' = recovery t;
  cs_state : t_state t' = t_state t;
}.

Lemma cc_same_refl t : cc_same t t.
Proof. done. Qed.

Lemma cc_same_trans t1 t2 t3 : cc_same t1 t2 -> cc_same t2 t3 -> cc_same t1 t3.
Proof. intros [A (B1 & B2 & B3) C] [A' (B1' & B2' & B3') C']. split; [congruence|split_and!; congruence|congruence]. Qed.

Lemma cc_ok_same t t' : cc_same t t' -> cc_ok t -> cc_ok t'.
Proof. intros [A (B1 & B2 & B3) C] [K1 K2 K3]. unfold in_recovery in *. split; rewrite ?A, ?B1, ?B2; try done. unfold in_recovery. by rewrite B3, C. Qed.

Lemma cc_ok_closed t t' : mss t' = mss t -> ssthresh t' = ssthresh t -> t_state t' = TCP_CLOSED -> cc_ok t -> cc_ok t'.
Proof. intros A B C [K1 K2 K3]. split; [by rewrite A|by rewrite B|by left]. Qed.

Section Window.

Context {H D : Type} `{Heap H}.

Implicit Types c : tctx H D.

(** ** Functions that leave it alone *)

Lemma resend_cc t seq c : cc_same t (tcp_resend t seq c).1.2.
Proof. unfold tcp_resend. destruct (_ <? _); [done|]. by destruct (_ && _). Qed.

Lemma recovery_loop_cc fuel : forall t c, cc_same t (recovery_loop fuel t c).1.
Proof.
  induction fuel as [|fuel IH]; intros t c; cbn [recovery_loop]; [done|]. destruct (_ && _); [|done]. pose proof (resend_cc t (rtx_nxt t) c) as HR. destruct (tcp_resend t (rtx_nxt t) c) as [[n t'] c']. cbn [fst snd] in HR.
  destruct (n =? 0); [done|]. apply (cc_same_trans _ (t' ▷ set_rtx_nxt (rtx_nxt t' +u n))); [|apply IH]. by apply (cc_same_trans _ t').
Qed.

Lemma push_recovery_cc t c : cc_same t (tcp_push_recovery t c).1.
Proof.
  unfold tcp_push_recovery. destruct (recovery t) eqn:Er; [done| |].
  - destruct (rtx_one t); [|done]. pose proof (resend_cc (set_rtx_one false t) (snd_una t) c) as HR. destruct (tcp_resend _ _ _) as [[n t'] c']. by apply (cc_same_trans _ (set_rtx_one false t)).
  - set (t1 := if SEQ_LT (rtx_nxt t) (snd_una t) then _ else _). apply (cc_same_trans _ t1); [unfold t1; by destruct (SEQ_LT _ _)|apply recovery_loop_cc].
Qed.

Lemma arm_cc now t : cc_same t (tcp_arm_rto now t).
Proof. unfold tcp_arm_rto. by destruct (_ =? _). Qed.

Lemma push_loop_cc fuel wnd : forall sent t c, cc_same t (push_loop fuel wnd sent t c).1.2.
Proof.
  induction fuel as [|fuel IH]; intros sent t c; cbn [push_loop]; [done|]. destruct ((sent <? tx_len t) && _); [|done]. destruct (_ =? 0); [done|]. destruct (_ && negb (sent =? 0)); [done|].
  set (n := if _ <? _ then _ else _). clearbody n. set (t1 := if (rtt_at t =? 0) && _ then _ else _). assert (E1 : cc_same t t1) by (unfold t1; by destruct (_ && _)). clearbody t1.
  assert (E2 : cc_same t1 (tcp_emit t1 (Z.lor TCP_ACK TCP_PSH) (snd_nxt t1) sent n [] c).1) by done. destruct (tcp_emit t1 _ _ _ _ _ c) as [t2 c2]. cbn [fst] in E2. set (t3 := tcp_arm_rto _ _).
  apply (cc_same_trans _ t3); [|apply IH]. apply (cc_same_trans _ t1 _ E1), (cc_same_trans _ t2 _ E2). apply (cc_same_trans _ (set_snd_nxt (snd_nxt t2 +u n) t2)); [done|apply arm_cc].
Qed.

(** The state may change as long as the connection is not closed before. *)
Lemma cc_ok_state t st : t_state t <> TCP_CLOSED -> cc_ok t -> cc_ok (set_t_state st t).
Proof. intros Hs [K1 K2 K3]. split; [done|done|]. destruct K3; [done|by right]. Qed.

Lemma push_cc t c : cc_ok t -> cc_ok (tcp_push t c).1.
Proof.
  intros HK. unfold tcp_push. pose proof (push_recovery_cc t c) as E1. destruct (tcp_push_recovery t c) as [t1 c1]. cbn [fst] in E1. apply (cc_ok_same _ _ E1) in HK. clear E1.
  destruct (negb (in_state t1 TCP_ESTABLISHED) && negb (in_state t1 TCP_CLOSE_WAIT)) eqn:Es; [done|]. assert (Ho : t_state t1 <> TCP_CLOSED) by (unfold in_state in Es; intros E; rewrite E in Es; discriminate). clear Es.
  set (wnd := if _ <? _ then _ else _). clearbody wnd. pose proof (push_loop_cc (Z.to_nat (tx_len t1 + TCP_OUT_MAX)) wnd (snd_nxt t1 -u snd_una t1) t1 c1) as E2. destruct (push_loop _ _ _ _ _) as [[sent t2] c2]. cbn [fst snd] in E2.
  apply (cc_ok_same _ _ E2) in HK. assert (Ho2 : t_state t2 <> TCP_CLOSED) by (by rewrite (cs_state _ _ E2)). clear E2 Ho. set (p := if fin_wanted t2 && _ && _ then _ else (t2, c2)).
  assert (HP : cc_ok p.1).
  { unfold p. destruct (_ && _); [|done]. assert (E3 : cc_same t2 (tcp_send_ctl t2 (Z.lor TCP_FIN TCP_ACK) (snd_nxt t2) c2).1) by done. destruct (tcp_send_ctl t2 _ _ c2) as [t3 c3]. cbn [fst] in *.
    eapply cc_ok_same; [apply arm_cc|]. apply cc_ok_state; [exact (fun E => Ho2 (eq_trans (eq_sym (cs_state _ _ E3)) E))|]. apply (cc_ok_same t3); [done|]. by apply (cc_ok_same t2). }
  clearbody p. destruct p as [t3 c3]. cbn [fst] in *. destruct (_ && _); [|done]. by apply (cc_ok_same t3); [apply arm_cc|].
Qed.

Lemma set_closed_cc t err c : cc_ok t -> cc_ok (tcp_set_closed t err c).1.
Proof. intros HK. unfold tcp_set_closed. cbn [fst]. apply (cc_ok_closed t); [by destruct (_ && _)..|done]. Qed.

Lemma enter_rto_cc t : cc_ok t -> cc_ok (tcp_enter_rto t).
Proof.
  intros [K1 K2 K3]. unfold tcp_enter_rto. set (half := (snd_nxt t -u snd_una t) / 2). split; [done| |right; change (0 < mss t <= 2 ^ 31); lia].
  change (0 < if 2 * mss t <? half then half else 2 * mss t). destruct (Z.ltb_spec (2 * mss t) half); lia.
Qed.

(** ** The timer *)

Lemma ctl_cc t flags seq c : cc_ok t -> cc_ok (tcp_send_ctl t flags seq c).1.
Proof. intros HK. by apply (cc_ok_same t). Qed.

Lemma ctl_closed_cc t flags seq err c : cc_ok t -> let '(t, c) := tcp_send_ctl t flags seq c in cc_ok (tcp_set_closed t err c).1.
Proof. intros HK. pose proof (ctl_cc t flags seq c HK) as H1. destruct (tcp_send_ctl t flags seq c). by apply set_closed_cc. Qed.

Lemma timeout_cc t now c : cc_ok t -> cc_ok (tcp_timeout t now c).1.
Proof.
  intros HK. unfold tcp_timeout. destruct (_ && _); [by apply (cc_ok_same t)|]. set (t1 := set_retries _ t). assert (HK1 : cc_ok t1) by (by apply (cc_ok_same t)). clearbody t1. destruct (_ <? _).
  - destruct (in_state t1 TCP_SYN_RCVD); [by apply (cc_ok_closed t1)|]. destruct (negb _); [|by apply set_closed_cc]. pose proof (ctl_closed_cc t1 TCP_RST (snd_nxt t1) (- ETIMEDOUT) c HK1) as HC. by destruct (tcp_send_ctl t1 _ _ c).
  - set (p := if _ || _ then _ else _). assert (HP : cc_ok p.1).
    { unfold p. destruct (_ || _); [by apply (cc_ok_same t1)|]. destruct (_ && _); [|by apply enter_rto_cc]. assert (E2 : cc_same t1 (tcp_emit t1 TCP_ACK (snd_nxt t1) 0 1 [] c).1) by done. destruct (tcp_emit t1 _ _ _ _ _ c) as [t2 c2]. apply (cc_ok_same t2); [done|]. by apply (cc_ok_same t1). }
    clearbody p. destruct p as [t2 c2]. by apply (cc_ok_same t2).
Qed.

Lemma keepalive_cc t now c : cc_ok t -> cc_ok (tcp_keepalive t now c).1.
Proof.
  intros HK. unfold tcp_keepalive. destruct (_ || _); [done|]. destruct (negb _); [done|]. destruct (now <? _); [done|]. destruct (_ <=? _); [|by apply ctl_cc, (cc_ok_same t)].
  pose proof (ctl_closed_cc t TCP_RST (snd_nxt t) (- ETIMEDOUT) c HK) as HC. by destruct (tcp_send_ctl t _ _ c).
Qed.

Lemma tick_cc now t c : cc_ok t -> cc_ok (tcp_tick_conn now t c).1.
Proof.
  intros HK. unfold tcp_tick_conn. set (p := if _ && _ then tcp_timeout t now c else (t, c)). assert (HP : cc_ok p.1) by (unfold p; destruct (_ && _); [by apply timeout_cc|done]). clearbody p. destruct p as [t1 c1]. cbn [fst] in HP.
  apply (push_cc t1 c1) in HP. destruct (tcp_push t1 c1) as [t2 c2]. cbn [fst] in HP. apply (keepalive_cc t2 now c2) in HP. destruct (tcp_keepalive t2 now c2) as [t3 c3]. cbn [fst] in HP.
  set (q := if _ && _ then tcp_set_closed t3 0 c3 else _). assert (HQ : cc_ok q.1) by (unfold q; destruct (_ && _); [by apply set_closed_cc|done]). clearbody q. destruct q as [t4 c4]. cbn [fst] in HQ. destruct (_ && _); [|done].
  pose proof (ctl_closed_cc t4 (Z.lor TCP_RST TCP_ACK) (snd_nxt t4) 0 c4 HQ) as HC. by destruct (tcp_send_ctl t4 _ _ c4).
Qed.

(** ** The loops end

    More turns than the fuel allows would change nothing. *)

Lemma push_loop_enough wnd k fuel : forall sent t c, 0 < mss t -> 0 <= sent -> tx_len t < 2 ^ 32 -> tx_len t - sent <= Z.of_nat fuel -> push_loop (fuel + k) wnd sent t c = push_loop fuel wnd sent t c.
Proof.
  induction fuel as [|fuel IH]; intros sent t c Hm Hs Hl Hf.
  - destruct k; [done|]. cbn [Nat.add push_loop]. by rewrite (proj2 (Z.ltb_ge sent (tx_len t))) by lia.
  - cbn [Nat.add push_loop]. destruct (Z.ltb_spec sent (tx_len t)) as [Hlt|]; [|done]. cbn [andb]. destruct (_ <? TCP_OUT_MAX); [|done].
    set (room := if sent <? wnd then _ else _). assert (Hr : 0 <= room) by (unfold room; destruct (Z.ltb_spec sent wnd); lia). clearbody room. destruct (Z.eqb_spec room 0) as [|Hr0]; [done|].
    set (n1 := if mss t <? _ then _ else _). assert (Hn1 : 0 < n1 <= tx_len t - sent) by (unfold n1; destruct (Z.ltb_spec (mss t) (tx_len t - sent)); lia). clearbody n1. destruct (_ && _); [done|].
    set (n := if room <? n1 then _ else _). assert (Hn : 0 < n <= tx_len t - sent) by (unfold n; destruct (Z.ltb_spec room n1); lia). clearbody n. set (t1 := if (rtt_at t =? 0) && _ then _ else _).
    assert (E1 : tcb_snd t1 = tcb_snd t) by (unfold t1; by destruct (_ && _)). clearbody t1. assert (E2 : tcb_snd (tcp_emit t1 (Z.lor TCP_ACK TCP_PSH) (snd_nxt t1) sent n [] c).1 = tcb_snd t1) by done. destruct (tcp_emit t1 _ _ _ _ _ c) as [t2 c2]. cbn [fst] in E2.
    set (t3 := tcp_arm_rto _ _). assert (E3 : mss t3 = mss t /\ tx_len t3 = tx_len t).
    { unfold t3, tcp_arm_rto, mss, tx_len. destruct (_ =? 0); cbn [tcb_snd set_rto_at set_snd_nxt s_mss s_tx_len]; unfold mss, tx_len; by rewrite E2, E1. }
    clearbody t3. destruct E3 as [E3 E4]. rewrite wrap32_small by lia. apply IH; rewrite ?E3, ?E4; lia.
Qed.

Lemma resend_step t seq c : 0 <= mss t <= 1460 -> let '(n, t', _) := tcp_resend t seq c in 0 <= n <= 1460 /\ mss t' = mss t /\ recover t' = recover t /\ rtx_nxt t' = rtx_nxt t.
Proof.
  intros Hm. unfold tcp_resend. set (off := seq -u snd_una t). set (de := wrap32 _). change (mss (set_rtt_at 0 t)) with (mss t). destruct (Z.ltb_spec off de).
  - set (n := if de - off <? mss t then _ else _). assert (Hn : 0 <= n <= 1460) by (unfold n; destruct (Z.ltb_spec (de - off) (mss t)); lia). clearbody n. done.
  - destruct (_ && _); (split; [lia|done]).
Qed.

Lemma recovery_loop_enough k fuel : forall t c, 0 <= mss t <= 1460 -> (SEQ_LT (rtx_nxt t) (recover t) = true -> recover t -u rtx_nxt t <= Z.of_nat fuel) -> recovery_loop (fuel + k) t c = recovery_loop fuel t c.
Proof.
  induction fuel as [|fuel IH]; intros t c Hm Hf.
  - destruct k; [done|]. cbn [Nat.add recovery_loop]. destruct (SEQ_LT (rtx_nxt t) (recover t)) eqn:E; [|done]. specialize (Hf eq_refl). unfold SEQ_LT in E. apply Z.leb_le in E. unfold wrap32 in *. change (2 ^ 32) with 4294967296 in *. change (2 ^ 31) with 2147483648 in *. zlia.
  - cbn [Nat.add recovery_loop]. destruct (SEQ_LT (rtx_nxt t) (recover t)) eqn:E; [|done]. cbn [andb]. destruct (_ && _); [|done]. specialize (Hf eq_refl). pose proof (resend_step t (rtx_nxt t) c Hm) as HR. destruct (tcp_resend t (rtx_nxt t) c) as [[n t'] c']. destruct HR as (Hn & E1 & E2 & E3).
    destruct (Z.eqb_spec n 0); [done|]. set (t2 := set_rtx_nxt _ t'). apply IH; [change (mss t2) with (mss t'); by rewrite E1|]. change (rtx_nxt t2) with (rtx_nxt t' +u n). change (recover t2) with (recover t'). rewrite E2, E3. unfold SEQ_LT in *. rewrite Z.leb_le in *.
    unfold wrap32 in *. change (2 ^ 32) with 4294967296 in *. change (2 ^ 31) with 2147483648 in *. zlia.
Qed.

(** ** Acknowledgements *)

Lemma cwnd_capped t w : cc_ok t -> in_recovery t TCP_RECOVERY_FAST = false -> 0 < w < 2 ^ 32 ->
  let t1 := t ▷ set_dupacks 0 ▷ set_cwnd (wrap32 w) in let t' := if 0x40000000 <? cwnd t1 then t1 ▷ set_cwnd 0x40000000 else t1 in cc_ok t' /\ t_state t' = t_state t.
Proof.
  intros [K1 K2 K3] Hr Hw. cbn zeta. change (cwnd (set_cwnd (wrap32 w) (set_dupacks 0 t))) with (wrap32 w). rewrite wrap32_small by lia.
  destruct (Z.ltb_spec 0x40000000 w); (split; [|done]); (split; [done|done|right]); change (if in_recovery t TCP_RECOVERY_FAST then ssthresh t <= 2 ^ 31 else 0 < 0x40000000 <= 2 ^ 31) || change (if in_recovery t TCP_RECOVERY_FAST then ssthresh t <= 2 ^ 31 else 0 < w <= 2 ^ 31); rewrite Hr; lia.
Qed.

Lemma grow_cc t acked : cc_ok t -> t_state t <> TCP_CLOSED -> in_recovery t TCP_RECOVERY_FAST = false -> 0 < acked -> exists t', cc_grow t acked = Some t' /\ cc_ok t' /\ t_state t' = t_state t.
Proof.
  intros HK Ho Hr Ha. pose proof HK as [K1 K2 K3]. rewrite Hr in K3. destruct K3 as [?|K3]; [done|]. unfold cc_grow. change (cwnd (set_dupacks 0 t)) with (cwnd t). change (ssthresh (set_dupacks 0 t)) with (ssthresh t). change (mss (set_dupacks 0 t)) with (mss t).
  destruct (cwnd t <? ssthresh t).
  - eexists. split; [reflexivity|]. apply cwnd_capped; [done|done|]. destruct (Z.ltb_spec acked (mss t)); lia.
  - rewrite (proj2 (Z.eqb_neq (cwnd t) 0)) by lia. eexists. split; [reflexivity|]. apply cwnd_capped; [done|done|]. rewrite wrap32_small by nia. set (inc := mss t * mss t / cwnd t). assert (Hi : 0 <= inc <= mss t * mss t).
    { unfold inc. split; [apply Z.div_pos; nia|]. apply Z.div_le_upper_bound; nia. }
    clearbody inc. destruct (Z.eqb_spec inc 0); cbn [negb]; [lia|nia].
Qed.

Lemma cc_acked_cc t acked ack : cc_ok t -> t_state t <> TCP_CLOSED -> 0 < acked -> exists t', tcp_cc_acked t acked ack = Some t' /\ cc_ok t' /\ t_state t' = t_state t.
Proof.
  intros HK Ho Ha. unfold tcp_cc_acked. destruct (in_recovery t TCP_RECOVERY_NONE) eqn:En; [apply grow_cc; try done; unfold in_recovery in *; apply bool_decide_eq_true in En; by rewrite En|].
  pose proof HK as [K1 K2 K3]. destruct K3 as [?|K3]; [done|]. destruct (SEQ_LT ack (recover t)); destruct (in_recovery t TCP_RECOVERY_FAST) eqn:Ef; [|by apply grow_cc| |].
  - eexists. split; [reflexivity|]. split; [|done]. split; [done|done|right]. set (t' := set_rtx_one true _). change (in_recovery t' TCP_RECOVERY_FAST) with (in_recovery t TCP_RECOVERY_FAST). by rewrite Ef.
  - eexists. split; [reflexivity|]. split; [|done]. split; [done|done|right]. change (0 < ssthresh t <= 2 ^ 31). lia.
  - eexists. split; [reflexivity|]. split; [|done]. split; [done|done|right]. exact K3.
Qed.

Lemma dupack_cc t : cc_ok t -> cc_ok (tcp_cc_dupack t).
Proof.
  intros HK. pose proof HK as [K1 K2 K3]. unfold tcp_cc_dupack. destruct (in_recovery t TCP_RECOVERY_FAST) eqn:Ef.
  - split; [done|done|]. destruct K3 as [?|K3]; [by left|right]. set (t' := set_cwnd _ t). change (in_recovery t' TCP_RECOVERY_FAST) with (in_recovery t TCP_RECOVERY_FAST). by rewrite Ef.
  - destruct (negb _); [done|]. destruct (_ <? 3); [by apply (cc_ok_same t)|]. set (half := (snd_nxt _ -u snd_una _) / 2). assert (Hh : half <= 2 ^ 31).
    { unfold half. apply Z.div_le_upper_bound; [lia|]. apply Z.lt_le_incl, Z.mod_pos_bound. lia. }
    clearbody half. split; [done| |right].
    + change (0 < if 2 * mss t <? half then half else 2 * mss t). destruct (Z.ltb_spec (2 * mss t) half); lia.
    + change ((if 2 * mss t <? half then half else 2 * mss t) <= 2 ^ 31). destruct (Z.ltb_spec (2 * mss t) half); lia.
Qed.

Lemma got_ack_cc t seq ack window bare c : cc_ok t -> t_state t <> TCP_CLOSED -> exists t' c', tcp_got_ack t seq ack window bare c = Some (t', c') /\ cc_ok t'.
Proof.
  intros HK Ho. unfold tcp_got_ack. set (m := if SEQ_LT (snd_una t) ack && _ then _ else _). assert (HM : exists t1 c1, m = Some (t1, c1) /\ cc_ok t1).
  { unfold m. clear m. destruct (SEQ_LT (snd_una t) ack && _) eqn:Ea.
    - apply andb_true_iff in Ea as [Ea _]. assert (Hpos : 0 < ack -u snd_una t).
      { pose proof (Z.mod_pos_bound (ack - snd_una t) (2 ^ 32) ltac:(lia)) as HB. destruct (decide (wrap32 (ack - snd_una t) = 0)) as [E|]; [|unfold wrap32 in *; lia]. exfalso.
        unfold SEQ_LT in Ea. apply Z.leb_le in Ea. unfold wrap32 in *. replace (snd_una t - ack) with (- (ack - snd_una t)) in Ea by lia. rewrite Z.mod_opp_l_z in Ea by (done || lia). lia. }
      set (t0 := set_rto_at 0 _). assert (E0 : cc_same t t0) by done. clearbody t0.
      set (t1 := if negb (rtt_at t0 =? 0) && _ then _ else t0). assert (E1 : cc_same t0 t1) by (unfold t1; destruct (_ && _); [unfold tcp_rtt_sample; by destruct (srtt _ =? 0)|done]). clearbody t1.
      set (t2 := if negb (snd_una (set_rto_ms (rto_base t1) t1) =? _) then _ else _).
      assert (E2 : cc_same t1 t2) by (unfold t2; destruct (negb _); [apply (cc_same_trans _ (set_rto_ms (rto_base t1) t1)); [done|apply arm_cc]|done]). clearbody t2.
      pose proof (cc_same_trans _ _ _ E0 (cc_same_trans _ _ _ E1 E2)) as E. destruct (cc_acked_cc t2 (ack -u snd_una t) ack (cc_ok_same _ _ E HK)) as (t3 & E3 & K3 & S3); [by rewrite (cs_state _ _ E)|done|]. rewrite E3. cbn [mbind option_bind].
      assert (Ho3 : t_state t3 <> TCP_CLOSED) by (by rewrite S3, (cs_state _ _ E)). set (p := if fin_sent t3 && _ then _ else _). assert (HP : cc_ok p.1).
      { unfold p. destruct (_ && _); [|done]. destruct (t_state t3) eqn:Es; try done; [by apply cc_ok_state; rewrite ?Es| |by apply set_closed_cc]. apply (cc_ok_same (set_t_state TCP_TIME_WAIT t3)); [done|]. by apply cc_ok_state; rewrite ?Es. }
      clearbody p. destruct p as [t4 c4]. by exists t4, (wake_wait t4 c4).
    - clear Ea. destruct (_ && _); [|by exists t, c]. exists (tcp_cc_dupack t), c. split; [done|]. by apply dupack_cc. }
  clearbody m. destruct HM as (t1 & c1 & -> & HK1). cbn [mbind option_bind]. eexists _, _. split; [reflexivity|]. set (t2 := if (snd_wnd t1 =? 0) && _ && _ && _ && _ then _ else t1). assert (E2 : cc_same t1 t2) by (unfold t2; by destruct (_ && negb _)). clearbody t2.
  set (t3 := if _ && (ack =? snd_una t2) then _ else t2). assert (E3 : cc_same t2 t3) by (unfold t3; by destruct (_ && _)). clearbody t3. apply (cc_ok_same t1); [|done]. apply (cc_same_trans _ t2 _ E2), (cc_same_trans _ t3 _ E3). by destruct (_ && _).
Qed.

(** ** A segment *)

Lemma got_new_cc t seq data fin c : cc_ok t -> cc_ok (got_new_data t seq data fin c).1.
Proof.
  intros HK. unfold got_new_data. destruct (negb _ && _); [done|]. set (taken := if _ <? _ then _ else _). clearbody taken. set (t1 := set_rx_ring _ t). assert (E1 : cc_same t t1) by done. clearbody t1.
  set (t2 := if fin && _ then _ else t1). assert (E2 : cc_same t1 t2) by (unfold t2; by destruct (_ && _)). clearbody t2. set (t3 := if negb (_ =? 0) then _ else _).
  assert (E3 : cc_same t2 t3).
  { unfold t3. destruct (negb (_ =? 0)); [by destruct (negb _)|]. unfold tcp_ooo_settle. destruct (ooo_settle _ _ _) as [[nxt len] l]. done. }
  clearbody t3. assert (HK3 : cc_ok t3) by (apply (cc_ok_same t); [by apply (cc_same_trans _ t1 _ E1), (cc_same_trans _ t2 _ E2)|done]). cbn [fst]. destruct (fin_seen t3 && _); [|done].
  set (t4 := set_peer_fin true _). assert (HK4 : cc_ok t4) by (by apply (cc_ok_same t3)). clearbody t4. destruct (t_state t4) eqn:Es; try done; [by apply cc_ok_state; rewrite ?Es..|]. apply (cc_ok_same (set_t_state TCP_TIME_WAIT t4)); [done|]. by apply cc_ok_state; rewrite ?Es.
Qed.

Lemma got_data_cc t seq data fin c : cc_ok t -> cc_ok (tcp_got_data t seq data fin c).1.
Proof. intros HK. unfold tcp_got_data. destruct (SEQ_LT _ _); [destruct (_ <? _); [done|]|]; (destruct (peer_fin t); [done|by apply got_new_cc]). Qed.

Lemma conn_input_cc t h seq ack body c : cc_ok t -> t_state t <> TCP_CLOSED -> exists t' c', tcp_conn_input t h seq ack body c = Some (t', c') /\ cc_ok t'.
Proof.
  intros HK Ho. unfold tcp_conn_input. set (t1 := set_keep_sent 0 _). assert (HK1 : cc_ok t1) by (by apply (cc_ok_same t)). assert (Ho1 : t_state t1 <> TCP_CLOSED) by done. clearbody t1.
  destruct (flag (th_flags h) TCP_ACK && SEQ_LT (snd_nxt t1) ack); [eexists _, _; split; [reflexivity|by apply (cc_ok_same t1)]|].
  destruct (_ && tcp_can_take_data t1).
  { pose proof (ctl_closed_cc t1 (Z.lor TCP_RST TCP_ACK) ack 0 c HK1) as HC. destruct (tcp_send_ctl t1 _ _ c) as [t2 c2]. destruct (tcp_set_closed t2 0 c2) as [t3 c3]. by exists t3, c3. }
  set (f := flag (th_flags h) TCP_FIN). set (carry := negb (Z.of_nat (length body) =? 0) || f). set (m := if flag (th_flags h) TCP_ACK then tcp_got_ack _ _ _ _ _ _ else _).
  assert (HM : exists t2 c2, m = Some (t2, c2) /\ cc_ok t2) by (unfold m; destruct (flag (th_flags h) TCP_ACK); [by apply got_ack_cc|by exists t1, c]). clearbody m. destruct HM as (t2 & c2 & -> & HK2). cbn [mbind option_bind].
  set (p := if carry && tcp_can_take_data t2 then tcp_got_data t2 seq body f c2 else (t2, c2)). assert (HP : cc_ok p.1) by (unfold p; destruct (_ && _); [by apply got_data_cc|done]). clearbody p. destruct p as [t3 c3]. cbn [fst] in HP.
  destruct (negb (in_state t3 TCP_CLOSED)); [|by exists t3, c3]. apply (push_cc t3 c3) in HP. destruct (tcp_push t3 c3) as [t4 c4]. cbn [fst] in HP. destruct (carry || _); [|by exists t4, c4]. eexists _, _. split; [reflexivity|]. by apply (cc_ok_same t4).
Qed.

Lemma hear_cc bs t c : cc_ok t -> exists t' c', hear bs t c = Some (t', c') /\ cc_ok t'.
Proof.
  intros HK. unfold hear. unfold in_state. destruct (bool_decide_reflect (t_state t = TCP_CLOSED)) as [E|Ho]; [by eexists _, _|]. destruct (flag _ TCP_RST); [|by apply conn_input_cc].
  unfold tcp_reset_input. destruct (_ || _); [|by exists t, c]. pose proof (set_closed_cc t (if peer_fin t then 0 else - ECONNRESET) c HK) as HC. destruct (tcp_set_closed _ _ _) as [t' c']. by exists t', c'.
Qed.

(** ** Any event *)

Lemma conn_step_cc e t c : cc_ok t -> exists w r t' c', conn_step e t c = Some (w, r, t', c') /\ cc_ok t'.
Proof.
  intros HK. destruct e as [buf|len peek|bs|now|rd wr]; cbn [conn_step].
  - unfold tcp_send. destruct (negb _); [by eexists _, _, _, _|]. destruct (in_state _ _); [by eexists _, _, _, _|]. destruct (_ || _); [by eexists _, _, _, _|]. set (t1 := set_tx_len _ _). assert (HK1 : cc_ok t1) by (by apply (cc_ok_same t)). clearbody t1.
    apply (push_cc t1 c) in HK1. destruct (tcp_push t1 c) as [t2 c2]. by eexists _, _, _, _.
  - unfold tcp_recv. destruct (negb _); [|destruct (_ || _); [by eexists _, _, _, _|]; destruct (negb _); [eexists _, _, _, _; split; [reflexivity|by apply (cc_ok_same t)]|]; destruct (_ || _); by eexists _, _, _, _].
    destruct peek; [by eexists _, _, _, _|]. set (t1 := set_rx_len _ _). assert (HK1 : cc_ok t1) by (by apply (cc_ok_same t)). clearbody t1. destruct (_ && _); [|by eexists _, _, _, _]. eexists _, _, _, _. split; [reflexivity|by apply (cc_ok_same t1)].
  - destruct (hear_cc bs t c HK) as (t' & c' & -> & HK'). by eexists _, _, _, _.
  - pose proof (tick_cc now t c HK) as HT. destruct (tcp_tick_conn now t c) as [t' c']. by eexists _, _, _, _.
  - unfold tcp_shutdown. destruct (_ || _); [by eexists _, _, _, _|]. set (t1 := if rd then _ else t). assert (HK1 : cc_ok t1) by (unfold t1; destruct rd; [by apply (cc_ok_same t)|done]). clearbody t1. destruct (_ && _); [|by eexists _, _, _, _].
    assert (HK2 : cc_ok (set_fin_wanted true t1)) by (by apply (cc_ok_same t1)). apply (push_cc _ c) in HK2. destruct (tcp_push _ c) as [t2 c2]. by eexists _, _, _, _.
Qed.

(** ** Runs *)

Fixpoint side_run (evs : list (conn_event * net H D)) (a : side) : option side :=
  match evs with
  | [] => Some a
  | (e, s) :: evs => a ← side_step e s a; side_run evs a
  end.

Lemma side_run_ok base evs : forall a, cc_ok (sd_conn a) -> side_ok base a -> Forall (fun x : conn_event * net H D => event_ok x.1) evs -> exists a', side_run evs a = Some a' /\ side_ok base a'.
Proof.
  induction evs as [|[e s] evs IH]; intros a HK HS HE; cbn [side_run]; [by exists a|]. apply Forall_cons_1 in HE as [He HE]. cbn [fst] in He.
  destruct (conn_step_cc e (sd_conn a) {| c_net := s; c_out := []; c_wakes := []; c_drops := [] |} HK) as (w & r & t' & c' & E & HK').
  set (a' := {| sd_conn := t'; sd_sent := sd_sent a ++ c_out c'; sd_wrote := sd_wrote a ++ w; sd_read := sd_read a ++ r |}).
  assert (Es : side_step e s a = Some a') by (unfold side_step; by rewrite E). rewrite Es. cbn [mbind option_bind]. apply IH; [done| |done]. by apply (side_step_ok base e s a a').
Qed.

End Window.

(** C18. A connection that is open and whose peer takes segments of at least a byte goes through any
    sequence of calls, timers and segments (of any bytes, from anyone) without a divide error, and
    every segment it sends carries the bytes its program wrote, at their place in the stream, and a
    FIN only after the last one. *)
Theorem conn_sends_stream {H D : Type} `{Heap H} (base irs : Z) (t : tcb) (evs : list (conn_event * net H D)) :
  fresh base irs t -> cc_ok t -> Forall (fun x : conn_event * net H D => event_ok x.1) evs ->
  exists a, side_run evs (side_start t) = Some a /\ Forall (carries base (sd_wrote a) (fin_wanted (sd_conn a))) (sd_sent a).
Proof.
  intros HF HK HE. destruct (fresh_ok base irs t HF) as [HS _]. destruct (side_run_ok base evs (side_start t) HK HS HE) as (a & E & HA). exists a. split; [done|apply HA].
Qed.
