(* ===== verification/TcpBounds.v ===== *)
(** * TCP: bounds against any peer

    Segments of any bytes, with any sequence numbers, flags and lengths, leave what a connection
    keeps within its buffers: the rings are written inside of their blocks only, and at most eight
    ranges wait past a hole. *)

From S2P Require Import Prelude Pmm Machine Bytes Heap Net NetProofs TcpState Tcp TcpLemmas TcpRecv TcpSend TcpEnd TcpCc.

(** Only bytes of the block were ever written. *)
Definition ring_in (size : Z) (r : gmap Z Z) : Prop := forall i b, r !! i = Some b -> 0 <= i < size.

Lemma ring_write_in_block size r at_ bs : 0 <= at_ < size -> Z.of_nat (length bs) <= size -> ring_in size r -> ring_in size (ring_write size r at_ bs).
Proof.
  intros Ha Hl Hr i b. unfold ring_write. set (first := if size - at_ <? _ then _ else _). assert (Hf : first = Z.min (size - at_) (Z.of_nat (length bs))) by (unfold first; destruct (Z.ltb_spec (size - at_) (Z.of_nat (length bs))); lia). clearbody first.
  rewrite !mem_write_lookup, length_drop, length_take. destruct (Z.leb_spec 0 i), (Z.ltb_spec i (0 + Z.of_nat (length bs - Z.to_nat first))); cbn [andb]; try (intros _; lia);
    (destruct (Z.leb_spec at_ i), (Z.ltb_spec i (at_ + Z.of_nat (Nat.min (Z.to_nat first) (length bs)))); cbn [andb]; try (intros _; lia); apply Hr).
Qed.

(** [N] bytes came in order, [R] of them were read. *)
Record rx_fits (irs N R : Z) (t : tcb) : Prop := {
  rf_range : 0 <= R <= N /\ N - R <= TCP_RX_BUF;
  rf_len : rx_len t = N - R;
  rf_start : 0 <= rx_start t < TCP_RX_BUF;
  rf_nxt : rcv_nxt t = sq irs (N + if peer_fin t then 1 else 0);
  rf_ooo : exists l, ooo t = in_seq irs l /\ ranges N (R + TCP_RX_BUF) l /\ (length l <= 8)%nat;
  rf_ring : ring_in TCP_RX_BUF (rx_ring t);
}.

Lemma rx_fits_same irs N R t t' : rcv_same t t' -> rx_fits irs N R t -> rx_fits irs N R t'.
Proof.
  intros E [A B C D F G]. assert (E1 : rx_len t' = rx_len t) by exact (f_equal r_rx_len E). assert (E2 : rx_start t' = rx_start t) by exact (f_equal r_rx_start E).
  assert (E3 : rcv_nxt t' = rcv_nxt t) by exact (f_equal r_rcv_nxt E). assert (E4 : peer_fin t' = peer_fin t) by exact (f_equal r_peer_fin E).
  assert (E5 : rx_ring t' = rx_ring t) by exact (f_equal r_rx_ring E). assert (E6 : ooo t' = ooo t) by exact (f_equal r_ooo E).
  split; rewrite ?E1, ?E2, ?E3, ?E4, ?E5, ?E6; done.
Qed.

Section Bounds.

Context {H D : Type} `{Heap H} (irs : Z).

Implicit Types c : tctx H D.

Lemma position seq k : in32 seq -> seq = sq irs (k + (seq -u sq irs k)).
Proof.
  intros Hs. unfold sq. assert (E : wrap32 (irs + (k + wrap32 (seq - wrap32 (irs + k)))) = wrap32 seq); [|rewrite E; symmetry; apply wrap32_small; unfold in32 in Hs; lia].
  unfold wrap32. change (2 ^ 32) with 4294967296. zlia.
Qed.

(** The bytes of a segment that is not behind: as many as there is room for. *)
Lemma got_new_fits N R t seq data fin c : rx_fits irs N R t -> peer_fin t = false -> in32 seq -> SEQ_LT seq (rcv_nxt t) = false -> exists N', rx_fits irs N' R (got_new_data t seq data fin c).1.
Proof.
  intros HF Hp Hs Hge. destruct HF as [(A1 & A2) B C E (l & G1 & G2 & G3) K]. rewrite Hp, Z.add_0_r in E. assert (Hr0 : 0 < TCP_RX_BUF < 2 ^ 20) by done. rewrite E in Hge. unfold SEQ_LT in Hge. apply Z.leb_gt in Hge.
  unfold got_new_data. rewrite E, B. pose proof (position seq N Hs) as Ek. set (off := seq -u sq irs N) in *. assert (Hoff : 0 <= off < 2 ^ 32) by (apply Z.mod_pos_bound; lia). rewrite (wrap32_small (TCP_RX_BUF - (N - R))) by lia.
  destruct (negb (off =? 0) && (TCP_RX_BUF - (N - R) <=? off)) eqn:Eout; [exists N; cbn [fst]; split; try done; [by rewrite Hp, Z.add_0_r|by exists l]|].
  assert (Hwin : off <= TCP_RX_BUF - (N - R)) by (destruct (Z.eqb_spec off 0); cbn [negb andb] in Eout; [lia|apply Z.leb_gt in Eout; lia]). fold (zlen data). rewrite (wrap32_small (TCP_RX_BUF - (N - R) - off)) by lia.
  set (taken := if zlen data <? _ then _ else _). assert (Ht : 0 <= taken <= TCP_RX_BUF - (N - R) - off /\ taken <= zlen data) by (unfold taken; destruct (Z.ltb_spec (zlen data) (TCP_RX_BUF - (N - R) - off)); unfold zlen in *; lia). clearbody taken.
  set (ring := ring_write TCP_RX_BUF (rx_ring t) _ _). assert (Hring : ring_in TCP_RX_BUF ring) by (apply ring_write_in_block; [apply Z.mod_pos_bound; lia|rewrite length_take; unfold zlen in Ht; lia|done]). clearbody ring.
  set (t1 := t ▷ set_rx_ring ring). set (t2 := if fin && _ then _ else t1). assert (Et2 : rx_len t2 = N - R /\ rcv_nxt t2 = sq irs N /\ ooo t2 = in_seq irs l /\ rx_ring t2 = ring /\ rx_start t2 = rx_start t /\ peer_fin t2 = false).
  { unfold t2. destruct (fin && _); tcb_simpl; rewrite ?B, ?E, ?G1, ?Hp; split_and!; done. }
  clearbody t2. clearbody t1. destruct Et2 as (M1 & M2 & M3 & M4 & M5 & M6). set (t3 := if negb (off =? 0) then _ else _).
  assert (H3 : exists N', rx_fits irs N' R t3 /\ peer_fin t3 = false).
  { unfold t3. destruct (Z.eqb_spec off 0) as [E0|E0]; cbn [negb].
    - destruct (settle_spec irs l N (R + TCP_RX_BUF) (N + taken) (N - R + taken) G2) as (N' & l' & Es & D1 & D2 & D3 & D4 & D5); try lia. unfold tcp_ooo_settle. tcb_simpl. rewrite M1, M2, M3, sq_add, (wrap32_small (N - R + taken)) by lia. rewrite Es.
      exists N'. split; [|exact M6]. split; tcb_simpl; fold (rx_start t2) (rx_ring t2) (peer_fin t2); try lia; [by rewrite M6, Z.add_0_r|exists l'; split_and!; try done; lia|by rewrite M4].
    - destruct (Z.eqb_spec taken 0) as [Et0|Et0]; cbn [negb]; [exists N; split; [|done]; split; rewrite ?M1, ?M2, ?M3, ?M4, ?M5, ?M6, ?Z.add_0_r; try done; by exists l|].
      rewrite M3. replace (tcp_ooo_add (in_seq irs l) seq (seq +u taken)) with (tcp_ooo_add (in_seq irs l) (sq irs (N + off)) (sq irs (N + off) +u taken)) by (by rewrite <- Ek). rewrite sq_add. destruct (ooo_add_spec irs l (N + off) (N + off + taken) N (R + TCP_RX_BUF) G2) as (l' & El & D1 & D2 & D3 & _); try lia. rewrite El.
      exists N. split; [|exact M6]. split; tcb_simpl; fold (rx_start t2) (rx_ring t2) (peer_fin t2) (rx_len t2) (rcv_nxt t2); try done; try lia; [by rewrite M2, M6, Z.add_0_r|by exists l'|by rewrite M4]. }
  clearbody t3. destruct H3 as (N' & HI3 & P3). exists N'. cbn [fst]. destruct (fin_seen t3 && _); [|done]. set (t4 := set_peer_fin true (set_rcv_nxt (rcv_nxt t3 +u 1) t3)).
  assert (HI4 : rx_fits irs N' R t4) by (destruct HI3 as [Q1 Q2 Q3 Q4 Q5 Q6]; unfold t4; split; tcb_simpl; try done; rewrite Q4, P3; rewrite Z.add_0_r; apply sq_add).
  clearbody t4. destruct (t_state t4); (apply (rx_fits_same _ _ _ t4); [by apply rcv_same_eq|done]).
Qed.

Lemma got_data_fits N R t seq data fin c : rx_fits irs N R t -> in32 seq -> exists N', rx_fits irs N' R (tcp_got_data t seq data fin c).1.
Proof.
  intros HF Hs. unfold tcp_got_data. destruct (SEQ_LT seq (rcv_nxt t)) eqn:E.
  - destruct (_ <? _); [by exists N|]. destruct (peer_fin t) eqn:Ep; [by exists N|]. apply (got_new_fits N); [done|done|rewrite (rf_nxt _ _ _ _ HF); apply sq_range|]. unfold SEQ_LT. by rewrite Z.sub_diag.
  - destruct (peer_fin t) eqn:Ep; [by exists N|]. by apply (got_new_fits N).
Qed.

Lemma conn_input_fits N R t h seq ack body c : rx_fits irs N R t -> in32 seq -> match tcp_conn_input t h seq ack body c with Some (t', _) => exists N', rx_fits irs N' R t' | None => True end.
Proof.
  intros HI Hs. unfold tcp_conn_input. set (t1 := set_keep_sent 0 _). assert (HI1 : rx_fits irs N R t1) by (by apply (rx_fits_same _ _ _ t)). clearbody t1.
  destruct (flag (th_flags h) TCP_ACK && SEQ_LT (snd_nxt t1) ack); [exists N; by apply (rx_fits_same _ _ _ t1)|].
  destruct (_ && tcp_can_take_data t1).
  { pose proof (emit_rcv t1 (Z.lor TCP_RST TCP_ACK) ack 0 0 [] c) as E1. unfold tcp_send_ctl. destruct (tcp_emit t1 _ _ _ _ _ c) as [t2 c2]. pose proof (set_closed_rcv t2 0 c2) as E2. destruct (tcp_set_closed t2 0 c2) as [t3 c3].
    exists N. by apply (rx_fits_same _ _ _ t1); [apply (rcv_same_trans _ t2)|]. }
  set (f := flag (th_flags h) TCP_FIN) in *. set (carry := negb (Z.of_nat (length body) =? 0) || f). set (m := if flag (th_flags h) TCP_ACK then tcp_got_ack _ _ _ _ _ _ else _).
  assert (HM : match m with Some (t2, _) => rcv_same t1 t2 | None => True end) by (unfold m; destruct (flag (th_flags h) TCP_ACK); [apply got_ack_rcv|done]). clearbody m. destruct m as [[t2 c2]|]; cbn [mbind option_bind]; [|done].
  pose proof (rx_fits_same _ _ _ _ _ HM HI1) as HI2. set (p := if carry && tcp_can_take_data t2 then tcp_got_data t2 seq body f c2 else (t2, c2)).
  assert (HP : exists N', rx_fits irs N' R p.1) by (unfold p; destruct (_ && _); [by apply (got_data_fits N)|by exists N]). clearbody p. destruct p as [t3 c3]. cbn [fst] in HP. destruct HP as (N' & HI3).
  destruct (negb (in_state t3 TCP_CLOSED)); [|by exists N']. pose proof (push_rcv t3 c3) as E4. destruct (tcp_push t3 c3) as [t4 c4]. pose proof (rx_fits_same _ _ _ _ _ E4 HI3) as HI4. destruct (carry || _); [|by exists N']. exists N'. by apply (rx_fits_same _ _ _ t4).
Qed.

Lemma hear_fits N R t bs c : rx_fits irs N R t -> match hear bs t c with Some (t', _) => exists N', rx_fits irs N' R t' | None => True end.
Proof.
  intros HI. unfold hear. destruct (in_state t TCP_CLOSED); [by exists N|]. destruct (flag _ TCP_RST); [|apply (conn_input_fits N); [done|apply htonl_range]].
  unfold tcp_reset_input. destruct (_ || _); [|by exists N]. pose proof (set_closed_rcv t (if peer_fin t then 0 else - ECONNRESET) c) as E. destruct (tcp_set_closed _ _ _) as [t' c']. exists N. by apply (rx_fits_same _ _ _ t).
Qed.

Lemma recv_fits N R t len peek c : rx_fits irs N R t -> 0 <= len -> let '(_, _, t', _) := tcp_recv t len peek c in exists R', rx_fits irs N R' t'.
Proof.
  intros HI Hl. pose proof HI as [(A1 & A2) B C E (l & G1 & G2 & G3) K]. assert (Hr0 : 0 < TCP_RX_BUF < 2 ^ 20) by done. unfold tcp_recv. rewrite B. destruct (Z.eqb_spec (N - R) 0) as [Hz|Hz]; cbn [negb].
  - destruct (_ || _); [by exists R|]. destruct (negb _); [exists R; by apply (rx_fits_same _ _ _ t)|]. destruct (_ || _); by exists R.
  - set (n := if len <? N - R then len else N - R). assert (Hn : n = Z.min len (N - R)) by (unfold n; destruct (Z.ltb_spec len (N - R)); lia). clearbody n. destruct peek; [by exists R|]. set (t1 := set_rx_len _ _).
    assert (HI1 : rx_fits irs N (R + n) t1).
    { unfold t1. split; tcb_simpl; try done; try lia; [rewrite wrap32_small by lia; lia|apply Z.mod_pos_bound; lia|]. exists l. split_and!; try done. apply (ranges_hi _ (R + TCP_RX_BUF)); [lia|done]. }
    clearbody t1. destruct (_ && _); [|by exists (R + n)]. pose proof (emit_rcv t1 TCP_ACK (snd_nxt t1) 0 0 [] c) as E2. unfold tcp_send_ctl. destruct (tcp_emit t1 _ _ _ _ _ c) as [t2 c2]. exists (R + n). by apply (rx_fits_same _ _ _ t1).
Qed.

Lemma shut_fits N R t : rx_fits irs N R t -> rx_fits irs N R (set_rd_shut true t).
Proof. intros [A B C E F G]. by split. Qed.

Lemma shutdown_fits N R t rd wr c : rx_fits irs N R t -> let '(_, t', _) := tcp_shutdown t rd wr c in rx_fits irs N R t'.
Proof.
  intros HI. unfold tcp_shutdown. destruct (_ || _); [done|]. set (t1 := if rd then _ else t). assert (HI1 : rx_fits irs N R t1) by (unfold t1; destruct rd; [by apply shut_fits|done]). clearbody t1.
  destruct (_ && _); [|done]. pose proof (push_rcv (set_fin_wanted true t1) c) as HP. destruct (tcp_push _ c) as [t2 c2]. apply (rx_fits_same _ _ _ (set_fin_wanted true t1)); [done|]. by apply (rx_fits_same _ _ _ t1).
Qed.

Lemma conn_step_fits N R t e c w r t' c' : rx_fits irs N R t -> event_ok e -> conn_step e t c = Some (w, r, t', c') -> exists N' R', rx_fits irs N' R' t'.
Proof.
  intros HI He. destruct e as [buf|len peek|bs|now|rd wr]; cbn [conn_step event_ok] in *.
  - pose proof (send_rcv t buf c) as E. destruct (tcp_send t buf c) as [[n t1] c1]. intros [= <- <- <- <-]. exists N, R. by apply (rx_fits_same _ _ _ t).
  - pose proof (recv_fits N R t len peek c HI He) as HR. destruct (tcp_recv t len peek c) as [[[n b] t1] c1]. destruct HR as [R' HR]. intros [= <- <- <- <-]. by exists N, R'.
  - pose proof (hear_fits N R t bs c HI) as HH. destruct (hear _ t c) as [[t1 c1]|]; cbn [mbind option_bind]; [|done]. intros [= <- <- <- <-]. destruct HH as (N' & HN). by exists N', R.
  - pose proof (tick_rcv now t c) as E. destruct (tcp_tick_conn now t c) as [t1 c1]. intros [= <- <- <- <-]. exists N, R. by apply (rx_fits_same _ _ _ t).
  - pose proof (shutdown_fits N R t rd wr c HI) as E. destruct (tcp_shutdown t rd wr c) as [[n t1] c1]. intros [= <- <- <- <-]. by exists N, R.
Qed.

Lemma side_run_fits evs : forall (a a' : side) N R, rx_fits irs N R (sd_conn a) -> Forall (fun x : conn_event * net H D => event_ok x.1) evs -> side_run evs a = Some a' -> exists N' R', rx_fits irs N' R' (sd_conn a').
Proof.
  induction evs as [|[e s] evs IH]; intros a a' N R HF HE; cbn [side_run]; [intros [= <-]; by exists N, R|]. apply Forall_cons_1 in HE as [He HE]. cbn [fst] in He. destruct (side_step e s a) as [a1|] eqn:E1; cbn [mbind option_bind]; [|done].
  unfold side_step in E1. destruct (conn_step e _ _) as [[[[w r] t] c]|] eqn:E; cbn [mbind option_bind] in E1; [|done]. injection E1 as <-. destruct (conn_step_fits N R _ _ _ _ _ _ _ HF He E) as (N' & R' & HF'). by apply (IH _ _ N' R').
Qed.

End Bounds.

(** C19. Whatever segments arrive (of any bytes, from anyone) and whatever its program does, an open
    connection keeps within its buffers: what waits to be read fits the receive buffer, every byte that
    came was written inside of its block, at most eight ranges wait past a hole, and what waits to
    be sent or acknowledged fits the send buffer. *)
Theorem conn_bounded {H D : Type} `{Heap H} (base irs : Z) (t : tcb) (evs : list (conn_event * net H D)) :
  fresh base irs t -> cc_ok t -> ring_in TCP_RX_BUF (rx_ring t) -> Forall (fun x : conn_event * net H D => event_ok x.1) evs ->
  exists a, side_run evs (side_start t) = Some a /\ let t' := sd_conn a in
  0 <= rx_len t' <= TCP_RX_BUF /\ 0 <= rx_start t' < TCP_RX_BUF /\ ring_in TCP_RX_BUF (rx_ring t') /\ (length (ooo t') <= TCP_OOO_MAX)%nat /\ 0 <= tx_len t' <= TCP_TX_BUF /\ 0 <= tx_start t' < TCP_TX_BUF.
Proof.
  intros HF HK HR HE. destruct (fresh_ok base irs t HF) as [HS HI]. destruct (side_run_ok base evs (side_start t) HK HS HE) as (a & E & HA). exists a. split; [done|].
  assert (HF0 : rx_fits irs 0 0 t) by (destruct HI as [I1 I2 I3 I4 I5 (l & L1 & L2 & L3 & _) _ _]; split; try done; [by rewrite I3|by exists l]).
  destruct (side_run_fits irs evs (side_start t) a 0 0 HF0 HE E) as (N & R & [(A1 & A2) B C _ (l & G1 & G2 & G3) K]). destruct (so_tx _ _ HA) as (U & X & [T1 _ _ _ T5 T6 T7 _ _ _]).
  cbn zeta. rewrite B, G1. unfold in_seq. rewrite length_fmap. split; [lia|]. split; [done|]. split; [done|]. split; [done|]. split; [lia|]. rewrite T7. by apply Z.mod_pos_bound.
Qed.
