(* ===== verification/TcpLink.v ===== *)
(** * TCP: the link

    A segment on its way from the wire to its connection, and the stack at work over the loopback: a
    handshake, data, the end of a stream, and the divide error a peer can cause. *)

From S2P Require Import Prelude Pmm Machine Bytes Heap Net NetProofs FragProofs IpProofs TcpState Tcp TcpWorld TcpLemmas TcpRecv TcpSend TcpEnd TcpCc TcpBounds.

(** ** From the wire to the connection *)

Lemma find_open {H D : Type} (w : tcp H D) src sport dst dport l : forall listener,
  let p := find_tcb (tcbs w) l src sport dst dport listener in p = listener \/ (p ∈ l /\ t_state (tcb_at w p) <> TCP_CLOSED).
Proof.
  induction l as [|q l IH]; intros listener; cbn [find_tcb]; [by left|]. fold (tcb_at w q).
  assert (HR : forall li, li = listener \/ (li = q /\ t_state (tcb_at w q) <> TCP_CLOSED) -> let p := find_tcb (tcbs w) l src sport dst dport li in p = listener \/ (p ∈ q :: l /\ t_state (tcb_at w p) <> TCP_CLOSED)).
  { intros li Hli. destruct (IH li) as [->|[Hin Hst]]; [destruct Hli as [->|[-> ?]]; [by left|right; split; [left|done]]|right; split; [by right|done]]. }
  destruct (negb _ || _) eqn:Ec; [by apply HR; left|]. apply orb_false_iff in Ec as [_ Ec]. unfold in_state in Ec. apply bool_decide_eq_false in Ec. destruct (_ && _); [by apply HR; left|].
  destruct (in_state _ TCP_LISTEN); [by apply HR; right|]. destruct (_ && _); [right; split; [left|done]|by apply HR; left].
Qed.

(** The connection at [p] after what it heard, its answer sent. *)
Definition take_answer {H D : Type} `{Heap H} (send : Z -> list Z -> D -> Z * D) (p : Z) (w : tcp H D) (o : option (tcb * tctx H D)) : option (tcp H D) :=
  '(t, c) ← o; Some (tcp_out_flush send (c_out c) (with_ctx (set_tcb p t w) c)).

(** C20. A segment without SYN, built by [tcp_segment] from fields of their widths, passes the checks of
    [tcp_input] of the machine it is for: when [tcp_find] knows a connection for its addresses and
    ports that is neither listening nor in its handshake, that connection hears it, with the
    sequence numbers, flags, window and payload it was built from, and what it answers is sent. *)
Theorem tcp_input_hears {H D : Type} `{Heap H} (send : Z -> list Z -> D -> Z * D) (keyed : list Z -> Z) (w : tcp H D) (src dst sport dport seq ack flags window : Z) (opts payload : list Z) (p : Z) :
  seg_fits src dst sport dport seq ack flags window opts payload -> tcp_find src sport dst dport w = p -> p <> 0 -> t_state (tcb_at w p) <> TCP_LISTEN -> handshaken (tcb_at w p) -> flag flags TCP_SYN = false ->
  let bs := tcp_segment_bytes src dst sport dport seq ack flags window opts payload in
  (exists h, tcp_hdr_read bs = h /\ ntohl (th_seq h) = seq /\ ntohl (th_ack h) = ack /\ th_flags h = flags /\ ntohs (th_window h) = window /\ drop (Z.to_nat ((th_off h ≫ 4) * 4)) bs = payload) /\
  tcp_input send keyed src dst bs w = take_answer send p w (hear bs (tcb_at w p) (ctx_of w [])).
Proof.
  intros Hf Hp Hp0 Hl [Hh1 Hh2] Hsyn bs. destruct (segment_read _ _ _ _ _ _ _ _ _ _ Hf) as (Elen & Esum & (c0 & Eh) & Eo & Ed & _). fold bs in Elen, Esum, Eh, Eo, Ed.
  assert (Hopen : t_state (tcb_at w p) <> TCP_CLOSED) by (destruct (find_open w src sport dst dport (tcp_list w) 0) as [E|[_ E]]; unfold tcp_find in Hp; congruence).
  pose proof (sf_seqs _ _ _ _ _ _ _ _ _ _ Hf) as (Hs & Ha). pose proof (sf_ports _ _ _ _ _ _ _ _ _ _ Hf) as (Hsp & Hdp). pose proof (sf_rest _ _ _ _ _ _ _ _ _ _ Hf) as (Hfl & Hw).
  split. { exists (tcp_hdr_read bs). split; [done|]. rewrite Eo, Ed, Eh. cbn [tcp_header th_seq th_ack th_flags th_window]. unfold ntohl. rewrite !htonl_twice by done. split_and!; try done. apply htons_twice. lia. }
  unfold tcp_input. rewrite Elen, (proj2 (Z.ltb_ge _ _)) by (unfold TCP_HLEN; lia). rewrite Eo, (proj2 (Z.ltb_ge _ _)) by (unfold TCP_HLEN; lia). rewrite (proj2 (Z.ltb_ge _ _)) by lia. cbn [orb]. rewrite <- Elen, Esum. cbn [negb Z.eqb].
  unfold hear. rewrite Eo. rewrite Eh. cbn [tcp_header th_seq th_ack th_flags th_src_port th_dst_port]. unfold ntohs. rewrite !htons_twice by lia. rewrite Hp. unfold in_state at 1. rewrite Hsyn, andb_false_r. cbn [andb].
  rewrite (proj2 (Z.eqb_neq p 0) Hp0). unfold in_state. rewrite !bool_decide_false by done. destruct (flag flags TCP_RST).
  - unfold on_tcb. destruct (tcp_reset_input _ _ _) as [t c]. done.
  - unfold tcp_established_input. destruct (tcp_conn_input _ _ _ _ _ _) as [[t c]|]; done.
Qed.

(** ** The stack over the loopback *)

(** Some keyed hash. *)
Definition demo_keyed (l : list Z) : Z := foldr (fun x a => wrap32 (x + 31 * a)) 7 l.

(** The packets the loopback delivers, each to [tcp_input]. *)
Definition stack_turn (w : tcp counting_heap unit) : option (tcp counting_heap unit) :=
  let '(_, s) := ipv4_loopback_service (t_net w) in
  foldl (fun o d => w ← o; bs ← mapM id (d_payload d); tcp_input no_driver demo_keyed (d_src d) (d_dst d) bs w)
        (Some (w_set_net w s)) (drop (length (delivered (t_net w))) (delivered s)).

Fixpoint stack_turns (n : nat) (w : tcp counting_heap unit) : option (tcp counting_heap unit) :=
  match n with O => Some w | S n => w ← stack_turn w; stack_turns n w end.

Definition idle_tcp : tcp counting_heap unit := {| t_net := idle_net; t_clock := 8000; tcbs := ∅; tcp_list := []; t_wakes := [] |}.

(** A listener at port 80 and a client that connects to it. *)
Definition opened : Z * Z * tcp counting_heap unit :=
  let '(l, w) := tcp_create idle_tcp 5 in
  let '(_, w) := tcp_listen l LOCALHOST 80 4 w in
  let '(p, w) := tcp_create w 6 in
  let '(_, w) := tcp_connect no_driver demo_keyed p 0 5000 LOCALHOST 80 w in
  (l, p, w).

(** The handshake done: the client's end of the connection and the server's. *)
Definition shaken : tcp counting_heap unit := let '(_, _, w) := opened in default w (stack_turns 4 w).

Definition client : tcb := tcb_at shaken 397656.

Definition server : tcb := tcb_at shaken 793280.

Definition conn_ok_bool (t : tcb) : bool :=
  (0 <=? local_ip t) && (local_ip t <? 2 ^ 32) && (0 <=? remote_ip t) && (remote_ip t <? 2 ^ 32) && (0 <=? local_port t) && (local_port t <? 65536) &&
  (0 <=? remote_port t) && (remote_port t <? 65536) && (0 <=? rcv_nxt t) && (rcv_nxt t <? 2 ^ 32) && bool_decide (ooo t = []) && in_state t TCP_ESTABLISHED && (t_error t <=? 0).

Lemma conn_ok_b t : conn_ok_bool t = true -> conn_ok t.
Proof.
  unfold conn_ok_bool, in_state. rewrite !andb_true_iff, !Z.leb_le, !Z.ltb_lt, !bool_decide_eq_true. intros ((((((((((((? & ?) & ?) & ?) & ?) & ?) & ?) & ?) & ?) & ?) & Ho) & Hs) & ?).
  split; [done|done|done|by rewrite Ho|by split; rewrite Hs|done].
Qed.

Lemma client_fresh : fresh (snd_nxt client) (snd_nxt server) client.
Proof.
  split; [vm_compute; split_and!; reflexivity|vm_compute; split_and!; reflexivity| |].
  - split; [vm_compute; reflexivity|]. replace (mss client) with 1460 by (vm_compute; reflexivity). lia.
  - apply conn_ok_b. vm_compute. reflexivity.
Qed.

Lemma server_fresh : fresh (snd_nxt server) (snd_nxt client) server.
Proof.
  split; [vm_compute; split_and!; reflexivity|vm_compute; split_and!; reflexivity| |].
  - split; [vm_compute; reflexivity|]. replace (mss server) with 1460 by (vm_compute; reflexivity). lia.
  - apply conn_ok_b. vm_compute. reflexivity.
Qed.

(** The client writes five bytes and shuts down, the end comes before the data, and the server reads them. *)
Definition after (a : side) (e : conn_event) : side := default a (side_step e (t_net shaken) a).

Definition sent_by (a : side) (i : nat) : conn_event := CeHear (nb_data (nth i (sd_sent a) ({| nb_ptr := 0; nb_off := 0; nb_data := [] |}, 0, 0)).1.1).

Definition client_1 : side := after (side_start client) (CeSend [104; 101; 108; 108; 111]).
Definition client_2 : side := after client_1 (CeShutdown false true).
Definition server_1 : side := after (side_start server) (sent_by client_2 1).
Definition server_2 : side := after server_1 (sent_by client_2 0).
Definition server_3 : side := after server_2 (CeRecv 100 false).

Lemma heard_0 : hears_from client_2 (sent_by client_2 0).
Proof. apply (bool_decide_eq_true_1 (nb_data (nth 0 (sd_sent client_2) ({| nb_ptr := 0; nb_off := 0; nb_data := [] |}, 0, 0)).1.1 ∈ _)). vm_compute. reflexivity. Qed.

Lemma heard_1 : hears_from client_2 (sent_by client_2 1).
Proof. apply (bool_decide_eq_true_1 (nb_data (nth 1 (sd_sent client_2) ({| nb_ptr := 0; nb_off := 0; nb_data := [] |}, 0, 0)).1.1 ∈ _)). vm_compute. reflexivity. Qed.

Lemma demo_run : rtc (link_step (H := counting_heap) (D := unit)) (side_start client, side_start server) (client_2, server_3).
Proof.
  apply (rtc_l _ _ (client_1, side_start server)); [apply (link_left (CeSend [104; 101; 108; 108; 111]) (t_net shaken)); [repeat constructor; lia|done|vm_compute; reflexivity]|].
  apply (rtc_l _ _ (client_2, side_start server)); [apply (link_left (CeShutdown false true) (t_net shaken)); [done|done|vm_compute; reflexivity]|].
  apply (rtc_l _ _ (client_2, server_1)); [apply (link_right (sent_by client_2 1) (t_net shaken)); [exact I|apply heard_1|vm_compute; reflexivity]|].
  apply (rtc_l _ _ (client_2, server_2)); [apply (link_right (sent_by client_2 0) (t_net shaken)); [exact I|apply heard_0|vm_compute; reflexivity]|].
  apply (rtc_l _ _ (client_2, server_3)); [apply (link_right (CeRecv 100 false) (t_net shaken)); [cbn; lia|done|vm_compute; reflexivity]|]. apply rtc_refl.
Qed.

Lemma client_wrote : zlen (sd_wrote client_2) < 2 ^ 31 - 1.
Proof. vm_compute. reflexivity. Qed.

Lemma server_wrote : zlen (sd_wrote server_3) < 2 ^ 31 - 1.
Proof. vm_compute. reflexivity. Qed.

Lemma link_delivers_witness : sd_read server_3 = [104; 101; 108; 108; 111] /\ peer_fin (sd_conn server_3) = true /\ (sd_read server_3 `prefix_of` sd_wrote client_2).
Proof.
  split; [vm_compute; reflexivity|]. split; [vm_compute; reflexivity|].
  exact (proj1 (proj2 (link_delivers (snd_nxt client) (snd_nxt server) client server client_2 server_3 client_fresh server_fresh demo_run client_wrote server_wrote))).
Defined.

Lemma client_cc : cc_ok client.
Proof.
  split; [replace (mss client) with 1460 by (vm_compute; reflexivity); lia|vm_compute; reflexivity|]. right. replace (in_recovery client TCP_RECOVERY_FAST) with false by (vm_compute; reflexivity).
  replace (cwnd client) with 14600 by (vm_compute; reflexivity). lia.
Qed.

(** The client writes, its timer fires twice, and it hears nonsense. *)
Definition noisy_run : list (conn_event * net counting_heap unit) :=
  (fun e => (e, t_net shaken)) <$> [CeSend [1; 2; 3]; CeTick 5000; CeTick 9000; CeHear (replicate 30 255); CeShutdown false true].

Lemma conn_sends_stream_witness : exists a, side_run noisy_run (side_start client) = Some a /\ Forall (carries (snd_nxt client) (sd_wrote a) (fin_wanted (sd_conn a))) (sd_sent a).
Proof.
  apply (conn_sends_stream (snd_nxt client) (snd_nxt server) client noisy_run client_fresh client_cc). unfold noisy_run. repeat constructor; cbn; lia.
Defined.

Lemma client_ring : ring_in TCP_RX_BUF (rx_ring client).
Proof. assert (E : rx_ring client = ∅) by (vm_compute; reflexivity). rewrite E. intros i b Hb. by rewrite lookup_empty in Hb. Qed.

Lemma conn_bounded_witness : exists a, side_run noisy_run (side_start client) = Some a /\ 0 <= rx_len (sd_conn a) <= TCP_RX_BUF.
Proof.
  destruct (conn_bounded (snd_nxt client) (snd_nxt server) client noisy_run client_fresh client_cc client_ring) as (a & E & B & _); [unfold noisy_run; repeat constructor; cbn; lia|]. exists a. split; [exact E|exact B].
Defined.

Lemma tcp_input_hears_witness : let bs := tcp_segment_bytes LOCALHOST LOCALHOST 5000 80 (snd_nxt client) (snd_nxt server) TCP_ACK 100 [] [7; 8; 9] in
  tcp_input no_driver demo_keyed LOCALHOST LOCALHOST bs shaken = take_answer no_driver 793280 shaken (hear bs (tcb_at shaken 793280) (ctx_of shaken [])).
Proof.
  apply (tcp_input_hears no_driver demo_keyed shaken LOCALHOST LOCALHOST 5000 80 (snd_nxt client) (snd_nxt server) TCP_ACK 100 [] [7; 8; 9] 793280).
  - split; try (vm_compute; split; discriminate || reflexivity); [split; (split; [vm_compute; discriminate|vm_compute; reflexivity])..|split; [constructor|repeat constructor; discriminate]|vm_compute; discriminate].
  - vm_compute. reflexivity.
  - discriminate.
  - vm_compute. discriminate.
  - split; vm_compute; discriminate.
  - reflexivity.
Defined.

(** ** A divide error *)

Definition at_time (now : Z) (w : tcp counting_heap unit) : tcp counting_heap unit :=
  let s := t_net w in
  w_set_net w {| n_heap := n_heap s; n_dev := n_dev s; now_ms := now; netifs := netifs s; ip_next_id := ip_next_id s; lo_queue := lo_queue s; lo_head := lo_head s;
                 lo_count := lo_count s; frags := frags s; frags_dropped := frags_dropped s; arp_cache := arp_cache s; delivered := delivered s |}.

(** A peer at port 9000 that takes segments of no byte and has no window. *)
Definition from_peer (sn ack flags : Z) (opts : list Z) (w : tcp counting_heap unit) : option (tcp counting_heap unit) :=
  tcp_input no_driver demo_keyed LOCALHOST LOCALHOST (tcp_segment_bytes LOCALHOST LOCALHOST 9000 80 sn ack flags 0 opts []) w.

Definition peer_acks (w : tcp counting_heap unit) : option (tcp counting_heap unit) :=
  from_peer 501 (snd_nxt (tcb_at w (tcp_find LOCALHOST 9000 LOCALHOST 80 w))) TCP_ACK [] w.

(** The connection is made, the server writes two bytes, the peer acknowledges what it is sent. *)
Definition tiny_peer : option (tcp counting_heap unit) :=
  let '(l, w) := tcp_create idle_tcp 5 in
  let '(_, w) := tcp_listen l LOCALHOST 80 4 w in
  w ← from_peer 500 0 TCP_SYN [TCP_OPT_MSS; 4; 0; 0] w;
  w ← peer_acks w;
  let p := tcp_find LOCALHOST 9000 LOCALHOST 80 w in
  let '(w, _) := on_tcb p (fun t c => let '(_, t, c) := tcp_send t [1; 2] c in (t, c)) w [] in
  let w := tcp_tick no_driver (at_time 5000 w) in
  let w := tcp_tick no_driver (at_time 50000 w) in
  w ← peer_acks w;
  let w := tcp_tick no_driver (at_time 100000 w) in
  Some w.

(** A peer whose SYN asks for segments of 0 bytes takes the machine down: after a probe of its closed
    window that timed out, the congestion window and its threshold are 0, and the acknowledgement of
    the next probe divides by the window. *)
Example tiny_peer_divides : exists w, tiny_peer = Some w /\ peer_acks w = None.
Proof. exists (default idle_tcp tiny_peer). split; vm_compute; reflexivity. Qed.
